(* ===== verification/_CoqProject ===== *)
-Q . S2P
Prelude.v
Probe.v
PCIndex.v
PCData.v
HWCPCData.v
TLS.v
Headers.v
Services.v
Papi.v
PCSamp.v
HWC.v
HWCSamp.v
Unwind.v
StackBuffer.v
UserTime.v
HWCTime.v
TraceBuffer.v
Tracer.v
Profile.v
Omptp.v
Omptp50.v
PThreads.v
MPIWrappers.v
MPI.v
MPIFortran.v
IO.v
IOT.v
Mem.v
Overview.v
OverviewCSV.v
XDR.v
RawData.v
Timer.v
DLInfo.v
CollectorService.v
ServiceProtocol.v
ServiceWorld.v
Monitor.v
Params.v
Bst.v
PerfData.v
Pipeline.v
ThreadName.v
NodeRole.v
ThreadEvents.v
AddressAggregator.v
LinkedObjects.v
FilterNode.v
FilterTree.v
MemMetrics.v
MemAggregator.v
FlatTopology.v
Hostlist.v
Topology.v
TopologyTree.v
TopologyFile.v
SortedMap.v
AddressBitmap.v
SymbolTable.v
SymbolPartition.v
SymbolMessage.v
ResolveSymbols.v
FunctionMetrics.v
FunctionSamples.v
LeafResolution.v
ExtentGroup.v
KdTree.v
OmptService.v
OmptBlame.v
ToolMessages.v
Playback.v
PlaybackRoundtrip.v
MRNetSend.v
NetworkReady.v
BFDSymbols.v
BFDFunctions.v
