(* ===== verification/Prelude.v ===== *)
(** * The data collection runtime of CBTF-Krell

    CBTF-Krell is linked into or preloaded by a program that is to be measured.
    libmonitor calls back when processes and threads start and end, around
    dlopen, dlclose, fork and MPI_Init; the callbacks (services/src/monitor) drive
    the collector service (services/collector), which starts, pauses, resumes and
    stops one collector (core/collectors) per thread and carries its blobs, the
    messages about threads and the linked objects to files or to the MRNet
    network. Collectors sample on a timer (services/src/timer) or on the overflow of
    a hardware counter (services/src/papi), or wrap library functions; they store samples in fixed-size buffers (services/src/data), walk
    call stacks (services/src/unwind) and keep their state in thread-local storage
    (services/src/common/TLS.c). The development models the C code of these parts
    as functions on explicit states and proves what the parts owe each other.

    ** Files

    - Prelude: outcomes of C code ([Ok], a failed Assert, an out-of-bounds access,
      an endless loop) as a monad, machine integers as [Z] with explicit
      reduction, C arrays indexed by [Z] with the bound checked at each access, and
      the tactics and list lemmas the other files share.
    - Probe: linear probing with wrap-around over a circular table, as used by
      both the PC buffers and the TLS map: termination, and that a search ends at
      the one bucket a key can be in.
    - PCIndex, PCData, HWCPCData: UpdatePCData.c and UpdateHWCPCData.c. An
      abstract buffer is the list of PCs sampled since the last reset.
    - TLS: TLS.c, refined to a finite map of keys to values per thread.
    - Headers: InitializeDataHeader.c, InitializeEventHeader.c and the interval
      updates of the collectors.
    - Services: the interface between a collector and everything below it, a
      class of operations with the laws collectors rely on and a reference
      implementation that satisfies them.
    - PCSamp: core/collectors/pcsamp/collector.c, proved against the interface.
    - Papi: PapiAPI.c over a class of the PAPI library's calls, with the classes of
      what is known of them (what they leave alone, that they work, that counters
      count) and an implementation that satisfies them.
    - HWC, HWCSamp, HWCTime: the collectors of core/collectors/hwc, hwcsamp and
      hwctime, on the PC buffers and on the stack buffer.
    - Unwind: GetStackTraceFromContext.c over the frames libunwind steps through.
    - StackBuffer, UserTime: core/collectors/usertime/collector.c: the flat buffer
      of stacks with its linear search, then the collector, with either unwinder.
    - TraceBuffer, Mem: core/collectors/mem/collector.c and wrappers.c: the tracing
      buffer of zero-terminated stack traces and events (the one of the io, mpi
      and pthreads collectors, too), then the collector and the six wrappers.
    - Tracer: what the collector.c files of io, mpi and pthreads share, with their
      differences as a record, over programs whose wrapped functions may call
      wrapped functions.
      Where the records go, a trace or a profile, is an interface with laws.
    - Profile: the buffer of the profile builds of mpi and io, with call counts and
      total times per stack, as an implementation of that interface.
    - Omptp: core/collectors/omptp, the collector and its OMPT callbacks, with the
      table of parallel regions the threads share, on the profile buffer.
    - Omptp50: the same collector under OMPT 5.0 (callbacks-50.c).
    - PThreads: core/collectors/pthreads, with its twelve wrappers.
    - MPIWrappers, MPI: core/collectors/mpi/wrappers.c and collector.c, 117 wrappers,
      in the trace, extended trace and profile builds.
    - MPIFortran: core/collectors/mpi/wrappers-fortran.c, 114 bindings as functions
      on the program's memory, against a reference binding that is computed from
      the C and Fortran prototypes.
    - IO, IOT: core/collectors/io with its eighteen wrappers, in the trace and profile
      builds; IOT is the extended trace, with the buffer of path names.
    - Overview, OverviewCSV: core/collectors/overview, the collector, its storage, the
      wrappers of file and memory functions and the OMPT 5.0 callbacks; then the
      CSV file that is printed when a thread stops, with its fixed-size arrays.
    - XDR, RawData: the XDR encoding of the blobs (as codecs with their round trip),
      services/src/xdr/Send.c and services/src/fileio: how blobs get into the raw data
      files, and a reader for these files.
    - Timer: TimerHandler.c over the kernel's timers, signal actions and masks,
      refined to a map of running threads to intervals and handlers.
    - DLInfo: GetDLInfo.c, the scan of /proc/<pid>/maps.
    - CollectorService: services/collector/collector.c and monitor.c in their three
      builds; requests to the transport and to the collector are a log of actions.
    - ServiceProtocol: the threads of a process making service calls in any
      interleaving, as a transition system.
    - ServiceWorld: the collector service (file build) and the timer service
      together as an implementation of the Services interface, and pcsamp on it.
    - Monitor: services/src/monitor/Monitor.c on top of the collector service.
    - Params: EncodeParameters.c and DecodeParameters.c.
    - Bst: the region tree of core/collectors/omptp/bst.c.
    - PerfData: core/src/Blob.cpp, AddressBuffer.cpp and the aggregation of the blobs of
      all collectors in PerfData.cpp. Pipeline: pcsamp, the encoding and the
      aggregation together.
    - ThreadName, NodeRole: names of threads with their order, and what a node knows of
      its place in the tree.
    - ThreadEvents, AddressAggregator, LinkedObjects: the three components that make up
      a node of the filter network (core/components), each a state and a function per
      handler that returns the outputs emitted.
    - FilterNode: a node, that is, the three components connected as in
      core/collectors/template.xml.in. FilterTree: a tree of nodes with first-in-first-out
      channels, as a transition system.
    - MemMetrics: memMetrics() of PerfData.cpp. MemAggregator: the component that
      takes the place of the address aggregator for the mem collector.
    - FlatTopology, Hostlist, Topology: core/src/CBTFTopology.cpp; the flattened
      topology for aprun, lists of hosts, and how the environment of the job determines the
      shape of the tree and the topology file. TopologyTree, TopologyFile: the tree
      the file describes.
    - SortedMap: std::map as a sorted list, with a class of orders that are total up to
      their equivalence, and the reduction of a list of entries into a map.
    - AddressBitmap, SymbolTable: core/src/AddressBitmap.cpp and SymbolTable.cpp, and
      how SymtabAPISymbols.cpp fills a table from what SymtabAPI knows of a file.
      SymbolPartition, SymbolMessage: how addresses are partitioned into bitmaps; what a
      table and its message hold.
    - ResolveSymbols: core/components/SymbolComponent.cpp, a state and a function per handler.
      FunctionSamples, LeafResolution: the leaves of the tree; FunctionMetrics: trees.
    - BFDSymbols: core/src/BFDSymbols.cpp, functions and statements from the binutils library where
      SymtabAPI is missing. BFDFunctions: which functions it finds.
    - ExtentGroup: core/src/ExtentGroup.cpp with Extent.hpp, the lazily built tree that finds the
      extents (in time and address space) that intersect a given one. KdTree: its invariant.
    - ToolMessages: the messages to the tool. Playback, PlaybackRoundtrip: services/src/mrnet/playback.c, the
      recording and replaying of what a process sends. MRNetSend: services/src/mrnet/MRNet_Send.c, with
      the connections file. NetworkReady: its mutex and condition variable, as a transition system.
    - OmptService: services/src/ompt, the OMPT callbacks for both interfaces, over an
      interface of what they call. OmptBlame: the service with pcsamp behind it.

    ** What the theorems show

    Sample buffers: an update is in bounds, terminates and adds exactly one
    sample (C1, [CBTF_UpdateHWCPCData_refines]), with the best compression 8-bit
    counts allow ([pcdata_compression]). Sampling collectors: over whole runs
    from start to stop nothing is lost, counted twice or stored out of bounds
    (pcsamp C2, usertime C3, hwc [hwc_accounts_for_every_overflow], hwctime
    [hwctime_accounts_for_every_stack], hwcsamp [hwcsamp_accounts_for_counts]).
    usertime and hwctime need stacks that end in a common root frame
    ([usertime_full_buffer_overread] shows what happens otherwise); hwcsamp one
    thread at a time ([hwcsamp_counts_race]). In OpenMP programs the samples of
    idle and waiting threads are charged to their state, with either OMPT
    interface (C21), that is, to the state of the last callbacks, which is the
    innermost one unless a state lies in itself ([barrier_in_barrier]). Tracing
    collectors: every call traced is delivered once, in order, with its record
    and call path, and the program gets what the real functions return (mem C4,
    mpi C10, io C11, pthreads C12), for call paths that moreover differ in their
    callers ([trace_search_ignores_callee]) and, in mem and pthreads, calls that
    are not nested ([mem_nested_call_stops_tracing]); what memalign returns is
    cut to an int ([memalign_truncates_pointer]). The profiles of mpi and io
    have the calls and the time of every call path (C13,
    [iop_accounts_for_calls]); the times, as those of io's trace, are the
    readings of the clock right before and right after the real function. omptp
    accounts for the times of every thread's events (C14), and its table of
    regions implements a map (C15), of up to eight regions
    ([omptp_ninth_region_faults]); the OMPT 5.0 callbacks do the same
    ([omptp50_accounts_for_events]). The totals of the overview collector are,
    when it stops counting, those of the calls made while it is active (C16),
    and serial and task time make up the time of a thread
    ([overview_time_partition]), but printing them writes past the end of an
    array ([overview_stop_overruns]). Raw data files: blobs are read back as
    they were sent (C17); the blobs of the pcsamp, hwc, usertime, hwctime, mem,
    io, extended mpi and profiling collectors (C35) fit the encoding buffer, but
    not those of pthreads ([pthreads_full_buffer_aborts]) and of the extended io
    trace ([iot_full_buffer_aborts]), for which sending aborts the program. The
    mpi wrappers call the function of their name with the program's arguments
    (C37), all but five are traced by default ([mpi_default_leaves_out]), and
    those with two records lose one ([mpit_sendrecv_loses_send]); the Fortran
    bindings without arrays of handles convert their arguments (C36) except for
    those of [fortran_misbound]. The path name buffer of the extended io trace
    is sound while there is room ([iot_path_index]);
    [iot_full_path_buffer_stops_tracing] is about what happens when it is sent.
    Services: timers implement their per-thread specification (C5) except for
    unpaired calls ([timer_stop_without_start], [timer_restart_keeps_old_timer])
    and timers whose handle is NULL ([null_timer_stays]); TLS implements a map
    (C9, [CBTF_GetTLS_refines]); unwinding returns the kept frames
    ([GetStackTraceFromContext_frames];
    [GetStackTraceFromContext_no_signal_frame] for the case it does not handle);
    C8 puts collector, timers and service together. Linked objects: the maps
    file is read back as the kernel prints it (C38), but for paths with white
    space ([maps_line_last_word]), and all objects are sent
    ([record_dsos_sends_all]). Protocol: data is preceded by its attach message
    in every interleaving (C6); a process collects whenever it is outside
    MPI_Init and MPI_Pcontrol is disabled (C7); [pcontrol_never_resumes] and
    [deferred_start_still_collects] are the cases where a resume or a deferral
    is lost. No message is sent before the network is ready, and none is
    forgotten (C24), if waits end with a broadcast only ([spurious_wakeup]) and
    receiving from the front end does not fail ([failed_receive]); a process
    finds its parent in the connections file ([connects_to_listed_parent]), and
    performance data is received as it was sent ([perfdata_message]). What was
    recorded is what is replayed (C23). Parameter strings are decoded to what
    was encoded ([parameters_roundtrip]); the region tree finds what was
    inserted ([bst_insert_find]). Filter network: a blob is decoded to what was
    encoded ([blob_roundtrip]), its aggregation adds what its collector put into
    it (C33; the time of a call counts twice for a function that recurses,
    [charged_under_recursion]), so that the samples of pcsamp reach the tool
    (C29); a tree of nodes of any shape comes to an end whatever the order of
    the messages and delivers all threads, counts, linked objects and (without
    NDEBUG) blobs once (C18), but a leaf whose threads end before others attach
    reports too early (C40), and a thread without sampled objects holds those of
    all others back ([missing_group_holds_all]); the map for load balance is
    about single blobs ([load_balance_by_blob]). Memory metrics follow the heap
    for malloc and free (C34), not for realloc ([realloc_metrics_wrong]); call
    paths are summarised ([path_summaries]), and the reduced blobs hold every
    event ([reduced_blobs_complete]) as long as the stacks fit
    ([reduced_stack_overflow]). Topology: the file written for MRNet describes
    the full tree asked for when the nodes have room for its processes (C30,
    C31), with enough of them for the backends ([attach_capacity]); the
    flattened topology is a tree of the least depth (C39); Slurm's lists of
    hosts are expanded to the nodes they stand for (C32) if their ranges have no
    leading zeros ([padded_range_names] has the names that those with leading
    zeros become), and ranges of node numbers are the sorted numbers
    ([aprun_node_list]). Symbols: functions in a table never overlap (C26);
    their addresses are partitioned into bitmaps at the wide gaps (C25), which
    are decoded from the message of the table to just these addresses (C27,
    [bitmap_roundtrip], [contiguous_ranges]), whereas statements never get into
    a message ([statements_lost]). A leaf resolves every sampled address in an
    object and counts the samples of each function in each thread (C19), and the
    nodes above find the largest and smallest counts and the sums of all leaves
    (C20). With the binutils library exactly the functions with a sampled
    address are found (C28), under the last of their names
    ([last_of_one_address]), in a file of the search path but for its last
    directory ([last_directory_not_tried]). Extents: a search in a group finds
    just the extents that intersect (C22), unless extents were replaced since
    the tree was made ([stale_tree]).

    ** Bounds and fuel

    Buffers have the sizes of Data.h and of the collectors, for both values of
    CBTF_BlobSizeFactor. Search loops carry fuel: the number of buckets for linear
    probing; for the search of a stack trace the used length of the tracing buffer
    and that of the trace together plus one, and for skipping a stored trace the
    length of the array plus one. [Diverged] is the result when it runs out, and the theorems that a routine
    returns [Ok] show that it does not. Times, process identity, the host name
    look-up, environment variables, the memory map and the frames libunwind
    delivers are parameters, as are the results of malloc() and the Pthread calls.
    In the filter network the order of the connections of a node, which decides whether
    the aggregator or the linked object component hears of an event first, and the
    value of fields no constructor sets are parameters. The loop that looks for the size of
    an encoding buffer has 23 rounds, after which the size is 0 for good. Counters of
    messages are not reduced to the width of an int. The rounded results of pow() are parameters of the
    topology; what the theorems rely on is exactness on the sizes of the levels, and for roots of
    numbers up to a million that they are not too small. The environment and files of node
    names are functions.

    ** Not modelled, and the plan

    Debug output, strings that are only printed and releases of memory are left
    out. Builds for other architectures than x86_64, explicit TLS mode and the
    dl_iterate_phdr scan are not modelled;
    SymtabAPI, the binutils library, PAPI, MPI, MRNet and the other libraries are parameters. The OMPT callbacks of the overview
    collector for earlier interfaces are a copy of those of omptp that calls functions nobody
    defines there. What is left calls one library function after another (the
    converters and tools, the binutils and instruction decoders) or is not part of the default
    build (the metric component and the call graph). *)
From stdpp Require Export prelude gmap strings.
From Stdlib Require Export ZArith Lia.

#[global] Open Scope Z_scope.

(** ** Outcomes of C code

    A C function that may abort (a failed [Assert]), access memory out of the
    bounds of the object it indexes, or loop forever returns an [outcome]. *)
Inductive outcome (A : Type) : Type :=
| Ok (a : A)        (* normal return *)
| Aborted           (* the process ends: a failed Assert, exit() *)
| Fault             (* out-of-bounds access: undefined behaviour *)
| Diverged.         (* the loop does not terminate *)
Arguments Ok {A} a.
Arguments Aborted {A}.
Arguments Fault {A}.
Arguments Diverged {A}.

#[export] Instance outcome_ret : MRet outcome := fun A a => Ok a.
#[export] Instance outcome_bind : MBind outcome := fun A B f m =>
  match m with
  | Ok a => f a
  | Aborted => Aborted
  | Fault => Fault
  | Diverged => Diverged
  end.

(** [Assert(assertion)] of Assert.h: not disabled by NDEBUG, aborts. *)
Definition Assert (assertion : bool) : outcome unit :=
  if assertion then Ok tt else Aborted.

(** ** Machine integers: a w-bit unsigned value is a Z reduced modulo 2^w. *)
Definition u8 (z : Z) : Z := z mod 2 ^ 8.
Definition u16 (z : Z) : Z := z mod 2 ^ 16.
Definition u32 (z : Z) : Z := z mod 2 ^ 32.
Definition u64 (z : Z) : Z := z mod 2 ^ 64.
Definition UINT8_MAX : Z := 255.
Definition UINT64_MAX : Z := 2 ^ 64 - 1.

(** Two's complement reading of the low 32 bits: conversion to [int]. *)
Definition i32 (z : Z) : Z := (z + 2 ^ 31) mod 2 ^ 32 - 2 ^ 31.

(** ** Arrays: a C array of known length, indexed by an integer. *)
Definition arr_get {A} (l : list A) (i : Z) : outcome A :=
  if decide (0 <= i) then
    match l !! Z.to_nat i with Some x => Ok x | None => Fault end
  else Fault.

Definition arr_set {A} (l : list A) (i : Z) (x : A) : outcome (list A) :=
  if decide (0 <= i < Z.of_nat (length l)) then Ok (<[Z.to_nat i := x]> l) else Fault.

(** for (i = i0; i < i0 + n; ++i) body, threading a state. *)
Fixpoint for_loop {S} (n : nat) (i : Z) (body : Z -> S -> outcome S) (s : S) : outcome S :=
  match n with
  | O => Ok s
  | Datatypes.S n' => s' ← body i s; for_loop n' (i + 1) body s'
  end.

Section outcome_lemmas.
Context {A B : Type}.

Lemma bind_Ok (m : outcome A) (f : A -> outcome B) b :
  m ≫= f = Ok b <-> exists a, m = Ok a /\ f a = Ok b.
Proof. destruct m; unfold mbind; simpl; naive_solver. Qed.

Lemma bind_of_Ok (a : A) (f : A -> outcome B) : Ok a ≫= f = f a.
Proof. reflexivity. Qed.

Lemma arr_get_Ok (l : list A) i x :
  arr_get l i = Ok x <-> 0 <= i /\ l !! Z.to_nat i = Some x.
Proof. unfold arr_get. case_decide; destruct (l !! _) eqn:?; naive_solver. Qed.

Lemma arr_get_in (l : list A) i :
  0 <= i < Z.of_nat (length l) -> exists x, arr_get l i = Ok x /\ l !! Z.to_nat i = Some x.
Proof.
  intros Hi. destruct (lookup_lt_is_Some_2 l (Z.to_nat i)) as [x Hx]; [lia|].
  exists x. rewrite arr_get_Ok. naive_solver lia.
Qed.

Lemma arr_get_lookup (l : list A) i x :
  0 <= i -> l !! Z.to_nat i = Some x -> arr_get l i = Ok x.
Proof. rewrite arr_get_Ok. auto. Qed.

Lemma arr_set_in (l : list A) i x :
  0 <= i < Z.of_nat (length l) -> arr_set l i x = Ok (<[Z.to_nat i := x]> l).
Proof. intros. unfold arr_set. by rewrite decide_True. Qed.

Lemma arr_set_Ok (l : list A) i x l' :
  arr_set l i x = Ok l' <-> 0 <= i < Z.of_nat (length l) /\ l' = <[Z.to_nat i := x]> l.
Proof. unfold arr_set. case_decide; naive_solver. Qed.
End outcome_lemmas.

(** ** Automation *)
Create HintDb cbtf.
#[export] Hint Resolve arr_get_lookup : cbtf.

(** Break a hypothesis [m ≫= f = Ok _] into its successful steps. *)
Ltac inv_ok :=
  repeat match goal with
  | H : _ ≫= _ = Ok _ |- _ => apply bind_Ok in H as (? & ? & ?)
  | H : Assert ?b = Ok _ |- _ => unfold Assert in H; destruct b eqn:?
  | H : Ok _ = Ok _ |- _ => injection H; clear H; intros
  | H : Aborted = Ok _ |- _ => discriminate H
  | H : Fault = Ok _ |- _ => discriminate H
  | H : Diverged = Ok _ |- _ => discriminate H
  end; simplify_eq.

(** Turn boolean integer tests into propositions. *)
Ltac bools :=
  repeat match goal with
  | H : (_ =? _) = true |- _ => apply Z.eqb_eq in H
  | H : (_ =? _) = false |- _ => apply Z.eqb_neq in H
  | H : (_ <? _) = true |- _ => apply Z.ltb_lt in H
  | H : (_ <? _) = false |- _ => apply Z.ltb_ge in H
  | H : (_ <=? _) = true |- _ => apply Z.leb_le in H
  | H : (_ <=? _) = false |- _ => apply Z.leb_gt in H
  | H : (_ >? _) = true |- _ => rewrite Z.gtb_ltb in H; apply Z.ltb_lt in H
  | H : (_ >? _) = false |- _ => rewrite Z.gtb_ltb in H; apply Z.ltb_ge in H
  | H : (_ && _) = true |- _ => apply andb_true_iff in H as [? ?]
  | H : negb _ = true |- _ => apply negb_true_iff in H
  | H : negb _ = false |- _ => apply negb_false_iff in H
  end.

(** ** Arithmetic shared by the components *)
Lemma u8_small z : 0 <= z < 2 ^ 8 -> u8 z = z.
Proof. apply Z.mod_small. Qed.
Lemma u16_small z : 0 <= z < 2 ^ 16 -> u16 z = z.
Proof. apply Z.mod_small. Qed.
Lemma u32_small z : 0 <= z < 2 ^ 32 -> u32 z = z.
Proof. apply Z.mod_small. Qed.
Lemma u64_small z : 0 <= z < 2 ^ 64 -> u64 z = z.
Proof. apply Z.mod_small. Qed.

(** ** Counting and sums over lists *)

(** Number of list elements satisfying a boolean test. *)
Definition countb {A} (f : A -> bool) (l : list A) : Z :=
  Z.of_nat (length (List.filter f l)).

Section countb_lemmas.
Context {A : Type} (f : A -> bool).

Lemma countb_nil : countb f [] = 0.
Proof. reflexivity. Qed.

Lemma countb_cons x l : countb f (x :: l) = (if f x then 1 else 0) + countb f l.
Proof. unfold countb. simpl. destruct (f x); simpl; lia. Qed.

Lemma countb_nonneg l : 0 <= countb f l.
Proof. unfold countb. lia. Qed.

Lemma countb_app l k : countb f (l ++ k) = countb f l + countb f k.
Proof. induction l as [|x l IH]; [reflexivity|]. simpl. rewrite !countb_cons, IH. lia. Qed.

Lemma countb_rev l : countb f (rev l) = countb f l.
Proof.
  induction l as [|x l IH]; [done|]. simpl. rewrite countb_app, IH, !countb_cons, countb_nil. lia.
Qed.

Lemma countb_insert l (i : nat) x y :
  l !! i = Some x ->
  countb f (<[i := y]> l) = countb f l - (if f x then 1 else 0) + (if f y then 1 else 0).
Proof.
  revert i. induction l as [|z l IH]; intros [|i] Hi; simplify_eq/=; rewrite !countb_cons.
  - lia.
  - rewrite (IH i) by done. lia.
Qed.

Lemma countb_lt_length l : countb f l < Z.of_nat (length l) -> exists i x, l !! i = Some x /\ f x = false.
Proof.
  induction l as [|x l IH]; [unfold countb; simpl; lia|].
  rewrite countb_cons. intros Hlt. destruct (f x) eqn:Hx.
  - destruct IH as (i & y & Hi & Hy); [simpl in Hlt; lia|]. by exists (S i), y.
  - by exists 0%nat, x.
Qed.
End countb_lemmas.

Lemma countb_ext {A} (f g : A -> bool) l :
  (forall x, x ∈ l -> f x = g x) -> countb f l = countb g l.
Proof.
  induction l as [|x l IH]; intros Hfg; [done|].
  rewrite !countb_cons, Hfg, IH by set_solver. reflexivity.
Qed.

(** ** Sums of a function over a list *)
Definition sum_by {A} (f : A -> Z) (l : list A) : Z := foldr (fun x acc => f x + acc) 0 l.
#[global] Arguments sum_by {A} f l : simpl never.

Lemma sum_by_cons {A} (f : A -> Z) x l : sum_by f (x :: l) = f x + sum_by f l. Proof. done. Qed.
Lemma sum_by_app {A} (f : A -> Z) l k : sum_by f (l ++ k) = sum_by f l + sum_by f k.
Proof. unfold sum_by. induction l as [|x l IH]; cbn; [done|]. rewrite IH. lia. Qed.
Lemma sum_by_ext {A} (f g : A -> Z) l : (forall x, x ∈ l -> f x = g x) -> sum_by f l = sum_by g l.
Proof.
  unfold sum_by. induction l as [|x l IH]; intros H; cbn; [done|]. rewrite (H x) by left. f_equal. apply IH. intros y Hy. apply H. by right.
Qed.
Lemma sum_by_concat {A B} (f : B -> Z) (g : A -> list B) l : sum_by f (concat (g <$> l)) = sum_by (fun x => sum_by f (g x)) l.
Proof. induction l as [|x l IH]; cbn [fmap list_fmap concat]; [done|]. by rewrite sum_by_app, IH. Qed.
Lemma sum_by_zero {A} (f : A -> Z) l : (forall x, x ∈ l -> f x = 0) -> sum_by f l = 0.
Proof. intros H. rewrite (sum_by_ext f (fun _ => 0) l H). unfold sum_by. induction l as [|x l IH]; cbn; [done|]. apply IH. intros y Hy. apply H. by right. Qed.
Lemma sum_by_perm {A} (f : A -> Z) l k : l ≡ₚ k -> sum_by f l = sum_by f k.
Proof. induction 1; rewrite ?sum_by_cons; lia. Qed.
Lemma sum_by_insert {A} (f : A -> Z) l (i : nat) x y : l !! i = Some x -> sum_by f (<[i := y]> l) = sum_by f l - f x + f y.
Proof.
  revert i. induction l as [|z l IH]; intros [|i] Hi; simplify_eq/=; rewrite !sum_by_cons; [lia|]. rewrite (IH i) by done. lia.
Qed.
Lemma sum_by_ge {A} (f : A -> Z) l x : (forall y, y ∈ l -> 0 <= f y) -> x ∈ l -> f x <= sum_by f l.
Proof.
  induction l as [|y l IH]; intros Hf Hx; [by apply not_elem_of_nil in Hx|]. rewrite sum_by_cons.
  assert (H0 : 0 <= sum_by f l).
  { clear IH Hx. assert (Hl : forall y, y ∈ l -> 0 <= f y) by (intros z Hz; apply Hf; by right). clear Hf.
    induction l as [|z l IH]; [done|]. rewrite sum_by_cons. pose proof (Hl z ltac:(left)). assert (0 <= sum_by f l) by (apply IH; intros w Hw; apply Hl; by right). lia. }
  pose proof (Hf y ltac:(left)). apply elem_of_cons in Hx as [->|Hx]; [lia|].
  assert (f x <= sum_by f l) by (apply IH; [intros z Hz; apply Hf; by right|done]). lia.
Qed.
