(* ===== verification/Probe.v ===== *)
(** Open addressing with linear probing, the search loop shared by the
    explicit thread-local-storage map (TLS.c) and the two PC sample buffers
    (UpdatePCData.c, UpdateHWCPCData.c):
<<
      bucket = hash(key) % N;
      while (slot[bucket] is in use && slot[bucket] does not hold key)
          bucket = (bucket + 1) % N;
>>
    [probe_loop] is the loop; the rest of the file is its theory. *)
From S2P Require Import Prelude.

(** [stop b] evaluates the negated loop condition at bucket [b]. The fuel
    bounds the iterations; running out of it stands for an endless loop. *)
Fixpoint probe_loop (N : Z) (stop : Z -> outcome bool) (fuel : nat) (bucket : Z) : outcome Z :=
  match fuel with
  | O => Diverged
  | S fuel' =>
      s ← stop bucket;
      if (s : bool) then Ok bucket else probe_loop N stop fuel' ((bucket + 1) mod N)
  end.

Section probe.
Context (N : Z) (Npos : 0 < N) (home : Z -> Z).
(** [occ b] is the key held by bucket [b], if any. *)
Implicit Types (occ : Z -> option Z) (k b d : Z).

Definition step_to k d : Z := (home k + d) mod N.

(** The loop condition read off the occupancy of the table. *)
Definition stops occ k b : bool :=
  match occ b with None => true | Some k' => bool_decide (k' = k) end.

(** Bucket [b] is the first place where probing for [k] can stop. *)
Definition reach occ k b : Prop :=
  exists d, 0 <= d /\ b = step_to k d /\
    forall d', 0 <= d' < d -> stops occ k (step_to k d') = false.

(** Every key is stored where probing for it stops. *)
Definition table_ok occ : Prop :=
  forall b k, 0 <= b < N -> occ b = Some k -> reach occ k b.

Lemma step_to_range k d : 0 <= step_to k d < N.
Proof. apply Z.mod_pos_bound, Npos. Qed.

Lemma step_to_S k d : step_to k (d + 1) = (step_to k d + 1) mod N.
Proof. unfold step_to. rewrite Zplus_mod_idemp_l. f_equal. lia. Qed.

Lemma step_to_surj k b : 0 <= b < N -> exists d, 0 <= d < N /\ step_to k d = b.
Proof.
  intros Hb. exists ((b - home k) mod N). split; [apply Z.mod_pos_bound, Npos|].
  unfold step_to. rewrite Zplus_mod_idemp_r. replace (home k + (b - home k)) with b by lia.
  by apply Z.mod_small.
Qed.

(** Two buckets where probing for the same key can stop are the same. *)
Lemma reach_unique occ k b1 b2 :
  reach occ k b1 -> reach occ k b2 ->
  stops occ k b1 = true -> stops occ k b2 = true -> b1 = b2.
Proof.
  intros (d1 & Hd1 & -> & H1) (d2 & Hd2 & -> & H2) Hs1 Hs2.
  destruct (Z.lt_trichotomy d1 d2) as [Hlt|[->|Hlt]]; [|done|].
  - rewrite H2 in Hs1 by lia. done.
  - rewrite H1 in Hs2 by lia. done.
Qed.

Lemma key_unique occ b1 b2 k :
  table_ok occ -> 0 <= b1 < N -> 0 <= b2 < N -> occ b1 = Some k -> occ b2 = Some k -> b1 = b2.
Proof.
  intros Hok Hb1 Hb2 H1 H2. apply (reach_unique occ k); auto;
    unfold stops; rewrite ?H1, ?H2; by apply bool_decide_true.
Qed.

(** Storing [k] where probing for [k] stops keeps the table well formed:
    no probe path of another key runs through an empty bucket. *)
Lemma table_ok_insert occ occ' k b :
  table_ok occ -> 0 <= b < N -> reach occ k b -> stops occ k b = true ->
  occ' b = Some k -> (forall b', 0 <= b' < N -> b' <> b -> occ' b' = occ b') -> table_ok occ'.
Proof.
  intros Hok Hb (d & Hd & Hbd & Hpath) Hstop Hb' Hne b2 k2 Hb2 H2.
  assert (Hmono : forall k' c, 0 <= c < N -> stops occ k' c = false -> c <> b \/ k' <> k ->
                   stops occ' k' c = false).
  { unfold stops in *. intros k' c Hcr Hc Hor. destruct (decide (c = b)) as [->|Hcb].
    - rewrite Hb'. apply bool_decide_false. naive_solver.
    - by rewrite Hne. }
  destruct (decide (b2 = b)) as [->|Hb2b].
  - assert (k2 = k) as -> by congruence. exists d. split_and!; [done..|].
    intros d' Hd'. apply Hmono; [apply step_to_range|auto|]. left. intros Heq.
    rewrite <- Heq, Hpath in Hstop by done. done.
  - rewrite Hne in H2 by done. destruct (Hok _ _ Hb2 H2) as (d2 & Hd2 & -> & Hp2).
    exists d2. split_and!; [done..|]. intros d' Hd'. apply Hmono; [apply step_to_range|auto|].
    destruct (decide (step_to k2 d' = b)) as [Heq|]; [|by left]. right. intros ->.
    specialize (Hp2 d' Hd'). congruence.
Qed.

Section loop.
Context (occ : Z -> option Z) (k : Z) (stop : Z -> outcome bool).
Context (stop_spec : forall b, 0 <= b < N -> stop b = Ok (stops occ k b)).

(** The loop started [d] steps from home reaches the first stop within its fuel. *)
Lemma probe_loop_run (n : nat) : forall d fuel,
  0 <= d -> (n < fuel)%nat ->
  (forall d', d <= d' < d + Z.of_nat n -> stops occ k (step_to k d') = false) ->
  stops occ k (step_to k (d + Z.of_nat n)) = true ->
  probe_loop N stop fuel (step_to k d) = Ok (step_to k (d + Z.of_nat n)).
Proof.
  induction n as [|n IH]; intros d [|fuel] Hd Hfuel Hno Hyes; try lia; simpl;
    rewrite stop_spec by apply step_to_range; rewrite bind_of_Ok.
  - rewrite Z.add_0_r in *. by rewrite Hyes.
  - rewrite Hno by lia. rewrite <- step_to_S, IH; try lia.
    + f_equal. f_equal. lia.
    + intros d' ?. apply Hno. lia.
    + rewrite <- Hyes. f_equal. f_equal. lia.
Qed.

Lemma first_stop (n : nat) : forall d0, stops occ k (step_to k (d0 + Z.of_nat n)) = true ->
  exists m : nat, (m <= n)%nat /\ stops occ k (step_to k (d0 + Z.of_nat m)) = true /\
    forall d', d0 <= d' < d0 + Z.of_nat m -> stops occ k (step_to k d') = false.
Proof.
  induction n as [|n IH]; intros d0 Hn.
  { exists 0%nat. split_and!; [lia|done|lia]. }
  destruct (stops occ k (step_to k d0)) eqn:H0.
  { exists 0%nat. rewrite Z.add_0_r. split_and!; [lia|done|lia]. }
  destruct (IH (d0 + 1)) as (m & Hm & Hs & Hno).
  { rewrite <- Hn. f_equal. f_equal. lia. }
  exists (S m). split_and!; [lia| |].
  - rewrite <- Hs. f_equal. f_equal. lia.
  - intros d' ?. destruct (decide (d' = d0)) as [->|]; [done|]. apply Hno. lia.
Qed.

(** With one bucket where it can stop, the loop ends within N iterations
    at the bucket [reach] describes. *)
Lemma probe_loop_total b0 :
  0 <= b0 < N -> stops occ k b0 = true ->
  exists b, probe_loop N stop (Z.to_nat N) (home k mod N) = Ok b /\
    0 <= b < N /\ reach occ k b /\ stops occ k b = true.
Proof.
  intros Hb0 Hs. destruct (step_to_surj k b0 Hb0) as (d & Hd & <-).
  destruct (first_stop (Z.to_nat d) 0) as (m & Hm & Hsm & Hno).
  { rewrite <- Hs. f_equal. f_equal. lia. }
  exists (step_to k (Z.of_nat m)).
  replace (home k mod N) with (step_to k 0) by (unfold step_to; f_equal; lia).
  split_and!; try apply step_to_range; try done.
  - rewrite (probe_loop_run m) by (auto; lia). f_equal. 
  - exists (Z.of_nat m). split_and!; [lia|done|]. intros d' ?. apply Hno. lia.
Qed.

(** When it can stop nowhere (a full table without the key) the loop never
    ends, whatever the fuel. *)
Lemma probe_loop_diverges fuel b :
  0 <= b < N -> (forall c, 0 <= c < N -> stops occ k c = false) ->
  probe_loop N stop fuel b = Diverged.
Proof.
  revert b. induction fuel as [|fuel IH]; intros b Hb Hno; [done|]. simpl.
  rewrite stop_spec, bind_of_Ok, Hno by done. apply IH; [|done]. apply Z.mod_pos_bound, Npos.
Qed.
End loop.
End probe.
