(* ===== verification/PCIndex.v ===== *)
(** The hash index over a program-counter (PC) sample buffer, shared by
    CBTF_UpdatePCData and CBTF_UpdateHWCPCData: [hash_table[bucket]] is 0 for an
    empty bucket and otherwise one more than the position of an entry in the
    [pc] array. The file has the bucket search both functions start with, the
    invariant of the index and the tally of the entries. *)
From S2P Require Import Prelude Probe.

(** The target architecture, the only platform switch in Common.h. *)
Inductive arch := arch_powerpc | arch_other.

Definition CBTF_BlobSizeFactor (a : arch) : Z :=
  match a with arch_powerpc => 8 | arch_other => 15 end.

(** The negated condition of the search loop at [bucket]. *)
Definition bucket_stop (pcs hash_table : list Z) (pc bucket : Z) : outcome bool :=
  e ← arr_get hash_table bucket;
  if e >? 0 then
    p ← arr_get pcs (u32 (e - 1));
    Ok (p =? pc)
  else Ok true.

(** bucket = (pc >> 4) % N; while (...) bucket = (bucket + 1) % N; *)
Definition bucket_search (N : Z) (pcs hash_table : list Z) (pc : Z) : outcome Z :=
  probe_loop N (bucket_stop pcs hash_table pc) (Z.to_nat N) (Z.shiftr pc 4 mod N).

(** The test both functions make after the search: the bucket holds an entry of
    [pc] whose count is not already maxed. *)
Definition entry_open (pcs counts : list Z) (pc e : Z) : outcome bool :=
  if e >? 0 then
    p ← arr_get pcs (u32 (e - 1));
    if p =? pc then
      c ← arr_get counts (u32 (e - 1));
      Ok (c <? UINT8_MAX)
    else Ok false
  else Ok false.

(** The key held by a bucket. *)
Definition slot_key (pcs hash_table : list Z) (b : Z) : option Z :=
  match hash_table !! Z.to_nat b with
  | Some e => if e >? 0 then pcs !! Z.to_nat (e - 1) else None
  | None => None
  end.

Definition home (pc : Z) : Z := Z.shiftr pc 4.

Record index_inv (N : Z) (pcs hash_table : list Z) (len : Z) : Prop := {
  ix_size : Z.of_nat (length hash_table) = N;
  ix_len : 0 <= len <= Z.of_nat (length pcs);
  ix_small : N < 2 ^ 32 /\ Z.of_nat (length pcs) < N;
  ix_slots : forall (b : nat) e, hash_table !! b = Some e -> 0 <= e <= len;
  ix_table : table_ok N home (slot_key pcs hash_table);
  ix_used : countb (fun e => e >? 0) hash_table <= len;
  ix_complete : forall (i : nat) p, Z.of_nat i < len -> pcs !! i = Some p ->
    exists b, 0 <= b < N /\ slot_key pcs hash_table b = Some p
}.

Section index.
Context {N : Z} {pcs ht : list Z} {len : Z} (I : index_inv N pcs ht len).

Lemma index_N_pos : 0 < N.
Proof using I. destruct I. lia. Qed.

Lemma bucket_stop_spec pc b :
  0 <= b < N -> bucket_stop pcs ht pc b = Ok (stops (slot_key pcs ht) pc b).
Proof using I.
  intros Hb. destruct I as [Hsz Hlen [HN32 HpN] Hsl _ _ _].
  unfold bucket_stop, stops, slot_key.
  destruct (arr_get_in ht b) as (e & -> & He); [lia|]. rewrite bind_of_Ok, He.
  specialize (Hsl _ _ He). destruct (e >? 0) eqn:Hgt; [|done]. bools.
  rewrite u32_small by lia.
  destruct (arr_get_in pcs (e - 1)) as (p & -> & Hp); [lia|]. rewrite bind_of_Ok, Hp.
  f_equal. case_bool_decide; [by apply Z.eqb_eq|by apply Z.eqb_neq].
Qed.

(** The search ends at the bucket where [pc] is or belongs. *)
Lemma bucket_search_ok pc :
  exists b, bucket_search N pcs ht pc = Ok b /\ 0 <= b < N /\
    reach N home (slot_key pcs ht) pc b /\ stops (slot_key pcs ht) pc b = true.
Proof using I.
  assert (exists b0, 0 <= b0 < N /\ stops (slot_key pcs ht) pc b0 = true) as (b0 & Hb0 & Hs0).
  { destruct I as [Hsz Hlen [_ HpN] _ _ Hu _].
    destruct (countb_lt_length (fun e => e >? 0) ht) as (i & e & Hi & He); [lia|].
    exists (Z.of_nat i). apply lookup_lt_Some in Hi as Hlt. split; [lia|].
    unfold stops, slot_key. by rewrite Nat2Z.id, Hi, He. }
  exact (probe_loop_total N index_N_pos home _ pc _ (bucket_stop_spec pc) b0 Hb0 Hs0).
Qed.

(** A search for a PC that has an entry ends at that PC's bucket. *)
Lemma bucket_search_found (i : nat) p b :
  Z.of_nat i < len -> pcs !! i = Some p -> 0 <= b < N ->
  reach N home (slot_key pcs ht) p b -> stops (slot_key pcs ht) p b = true ->
  slot_key pcs ht b = Some p.
Proof using I.
  intros Hi Hp Hb Hr Hs. destruct (ix_complete _ _ _ _ I i p Hi Hp) as (b' & Hb' & Hk).
  rewrite (reach_unique N home _ _ _ b' Hr (ix_table _ _ _ _ I _ _ Hb' Hk)); auto.
  unfold stops. rewrite Hk. by apply bool_decide_true.
Qed.

Lemma slot_key_entry pc b :
  0 <= b < N -> slot_key pcs ht b = Some pc ->
  exists e, ht !! Z.to_nat b = Some e /\ 0 < e <= len /\ pcs !! Z.to_nat (e - 1) = Some pc.
Proof using I.
  intros Hb. unfold slot_key. destruct (ht !! _) as [e|] eqn:He; [|done].
  destruct (e >? 0) eqn:Hgt; [|done]. bools. intros Hk.
  pose proof (ix_slots _ _ _ _ I _ _ He). exists e. split_and!; auto; lia.
Qed.

(** Appending an entry for [pc] and pointing its bucket at it. *)
Lemma index_inv_add pc b :
  len < Z.of_nat (length pcs) -> 0 <= b < N ->
  reach N home (slot_key pcs ht) pc b -> stops (slot_key pcs ht) pc b = true ->
  index_inv N (<[Z.to_nat len := pc]> pcs) (<[Z.to_nat b := len + 1]> ht) (len + 1).
Proof using I.
  intros Hlt Hb Hr Hs. destruct I as [Hsz Hlen [HN32 HpN] Hsl Htab Hu Hc].
  destruct (lookup_lt_is_Some_2 ht (Z.to_nat b)) as [e0 He0]; [lia|].
  assert (Hnew : slot_key (<[Z.to_nat len := pc]> pcs) (<[Z.to_nat b := len + 1]> ht) b = Some pc).
  { unfold slot_key. rewrite list_lookup_insert_eq by lia.
    destruct (len + 1 >? 0) eqn:?; bools; [|lia].
    replace (len + 1 - 1) with len by lia. apply list_lookup_insert_eq. lia. }
  assert (Hold : forall b', 0 <= b' < N -> b' <> b ->
    slot_key (<[Z.to_nat len := pc]> pcs) (<[Z.to_nat b := len + 1]> ht) b' = slot_key pcs ht b').
  { intros b' Hb' Hne. unfold slot_key. rewrite list_lookup_insert_ne by lia.
    destruct (ht !! Z.to_nat b') as [e|] eqn:He; [|done]. specialize (Hsl _ _ He).
    destruct (e >? 0) eqn:?; [|done]. bools. apply list_lookup_insert_ne. lia. }
  constructor; rewrite ?length_insert; try lia.
  - intros b' e. rewrite list_lookup_insert_Some. intros [(_ & <- & _)|[_ He]]; [lia|].
    specialize (Hsl _ _ He). lia.
  - apply (table_ok_insert N ltac:(lia) home (slot_key pcs ht) _ pc b); auto.
  - rewrite (countb_insert _ _ _ e0) by done.
    destruct (e0 >? 0), (len + 1 >? 0); lia.
  - intros i p Hi. rewrite list_lookup_insert_Some.
    intros [(<- & <- & _)|[Hne Hp]]; [by exists b|].
    destruct (Hc i p) as (b' & Hb' & Hk); [lia|done|]. exists b'. split; [done|].
    destruct (decide (b' = b)) as [->|Hbb]; [|by rewrite Hold].
    rewrite Hnew. unfold stops in Hs. rewrite Hk in Hs. case_bool_decide; congruence.
Qed.
End index.

(** The empty index: what the collectors' initialize_data sets up. *)
Lemma index_inv_empty N pcs ht :
  Z.of_nat (length ht) = N -> Z.of_nat (length pcs) < N -> N < 2 ^ 32 ->
  Forall (fun e => e = 0) ht -> index_inv N pcs ht 0.
Proof.
  intros Hsz HpN HN H0. rewrite Forall_lookup in H0.
  assert (Hk : forall b, slot_key pcs ht b = None).
  { intros b. unfold slot_key. destruct (ht !! _) eqn:He; [|done]. by rewrite (H0 _ _ He). }
  constructor; try lia.
  - intros b e He. rewrite (H0 _ _ He). lia.
  - intros b k _ Hb. by rewrite Hk in Hb.
  - clear -H0. induction ht as [|e ht IH]; [by rewrite countb_nil|].
    rewrite countb_cons, (H0 0%nat e eq_refl). simpl. apply IH. intros i x Hx. exact (H0 (S i) x Hx).
Qed.

(** ** Entries: the used prefix of the parallel [pc] and payload arrays. *)
Section entries.
Context {P : Type}.

Definition entries (pcs : list Z) (ps : list P) (len : Z) : list (Z * P) :=
  take (Z.to_nat len) (zip pcs ps).

Lemma entries_lookup pcs ps len (i : nat) q c :
  entries pcs ps len !! i = Some (q, c) <->
  Z.of_nat i < len /\ pcs !! i = Some q /\ ps !! i = Some c.
Proof.
  unfold entries. rewrite lookup_take_Some, lookup_zip_with_Some. split.
  - intros [(x & y & ? & ? & ?) ?]. simplify_eq. split_and!; auto; lia.
  - intros (? & ? & ?). split; [naive_solver|lia].
Qed.

Lemma entries_length pcs ps len :
  length pcs = length ps -> 0 <= len <= Z.of_nat (length pcs) ->
  length (entries pcs ps len) = Z.to_nat len.
Proof. intros. unfold entries. rewrite length_take, length_zip. lia. Qed.

Lemma entries_snoc pcs ps len q c :
  length pcs = length ps -> 0 <= len < Z.of_nat (length pcs) ->
  entries (<[Z.to_nat len := q]> pcs) (<[Z.to_nat len := c]> ps) (len + 1) =
  entries pcs ps len ++ [(q, c)].
Proof.
  intros Heq Hlen. unfold entries. replace (Z.to_nat (len + 1)) with (S (Z.to_nat len)) by lia.
  rewrite (take_S_r _ _ (q, c)).
  - f_equal. apply list_eq. intros i. destruct (decide (i < Z.to_nat len)%nat) as [Hi|Hi].
    + rewrite !lookup_take_lt, !lookup_zip_with by done.
      rewrite !list_lookup_insert_ne by lia. done.
    + rewrite !lookup_take_ge by lia. done.
  - apply lookup_zip_with_Some. exists q, c. rewrite !list_lookup_insert_eq by lia. done.
Qed.

Lemma entries_insert pcs ps len (i : nat) q c :
  length pcs = length ps -> Z.of_nat i < len -> pcs !! i = Some q ->
  entries pcs (<[i := c]> ps) len = <[i := (q, c)]> (entries pcs ps len).
Proof.
  intros Heq Hi Hq. apply list_eq. intros j. apply lookup_lt_Some in Hq as Hlt.
  destruct (decide (j = i)) as [->|Hne].
  - rewrite list_lookup_insert_eq.
    + apply entries_lookup. split_and!; auto. apply list_lookup_insert_eq. lia.
    + unfold entries. rewrite length_take, length_zip. lia.
  - rewrite list_lookup_insert_ne by done. unfold entries.
    destruct (decide (j < Z.to_nat len)%nat).
    + rewrite !lookup_take_lt, !lookup_zip_with, list_lookup_insert_ne by done. done.
    + by rewrite !lookup_take_ge by lia.
Qed.
End entries.

Lemma entry_open_cases pcs counts len pc e :
  0 <= e <= len -> e < 2 ^ 32 ->
  (0 < e -> exists c, entries pcs counts len !! Z.to_nat (e - 1) = Some (pc, c)) ->
  (exists c, 0 < e /\ c < UINT8_MAX /\ arr_get counts (u32 (e - 1)) = Ok c /\
     entries pcs counts len !! Z.to_nat (e - 1) = Some (pc, c) /\
     entry_open pcs counts pc e = Ok true) \/
  (entry_open pcs counts pc e = Ok false /\
     forall q c, 0 < e -> entries pcs counts len !! Z.to_nat (e - 1) = Some (q, c) -> UINT8_MAX <= c).
Proof.
  intros He H32 Hent. unfold entry_open. destruct (e >? 0) eqn:Hgt; bools; [|right; split; [done|lia]].
  destruct (Hent Hgt) as [c Hc]. apply entries_lookup in Hc as Hc'. destruct Hc' as (_ & Hp & Hcc).
  rewrite u32_small by lia.
  rewrite (arr_get_lookup pcs (e - 1) pc), bind_of_Ok, Z.eqb_refl by (done || lia).
  rewrite (arr_get_lookup counts (e - 1) c), bind_of_Ok by (done || lia).
  destruct (c <? UINT8_MAX) eqn:Hm; bools; [left|right].
  - exists c. done.
  - split; [done|]. intros q c' _ Hc'. rewrite Hc in Hc'. by simplify_eq.
Qed.

(** Sum of a weight over the entries of PC [p]. *)
Fixpoint tally {P} (w : P -> Z) (p : Z) (es : list (Z * P)) : Z :=
  match es with
  | [] => 0
  | (q, c) :: es' => (if q =? p then w c else 0) + tally w p es'
  end.

Section tally.
Context {P : Type} (w : P -> Z).

Lemma tally_app p es es' : tally w p (es ++ es') = tally w p es + tally w p es'.
Proof. induction es as [|[q c] es IH]; simpl; lia. Qed.

Lemma tally_rev p es : tally w p (rev es) = tally w p es.
Proof.
  induction es as [|[q c] es IH]; [done|]. simpl. rewrite tally_app, IH. simpl. lia.
Qed.

Lemma tally_insert p es (i : nat) q c c' :
  es !! i = Some (q, c) ->
  tally w p (<[i := (q, c')]> es) = tally w p es + (if q =? p then w c' - w c else 0).
Proof.
  revert i. induction es as [|[q0 c0] es IH]; intros [|i] Hi; simplify_eq/=.
  - destruct (q =? p); lia.
  - rewrite (IH i) by done. lia.
Qed.

Lemma tally_pos p es (i : nat) c :
  (forall (j : nat) q d, es !! j = Some (q, d) -> 1 <= w d) ->
  es !! i = Some (p, c) -> 0 < tally w p es.
Proof.
  revert i. induction es as [|[q d] es IH]; intros i Hpos Hi; [done|]. simpl.
  assert (0 <= tally w p es).
  { clear IH i Hi. assert (Hp' : forall (j : nat) q d, es !! j = Some (q, d) -> 1 <= w d).
    { intros j q' d' Hj. exact (Hpos (S j) q' d' Hj). }
    clear Hpos. induction es as [|[q' d'] es IH]; simpl; [lia|].
    pose proof (Hp' 0%nat q' d' eq_refl).
    assert (0 <= tally w p es) by (apply IH; intros j a b Hj; exact (Hp' (S j) a b Hj)).
    destruct (q' =? p); lia. }
  pose proof (Hpos 0%nat q d eq_refl). destruct i as [|i]; simplify_eq/=.
  - rewrite Z.eqb_refl. lia.
  - assert (0 < tally w p es) by (apply (IH i); [|done]; intros j a b Hj; exact (Hpos (S j) a b Hj)).
    destruct (q =? p); lia.
Qed.
End tally.
