(* ===== verification/PCData.v ===== *)
(** The PC sample buffer: services/include/.../Data.h (CBTF_PCData) and
    services/src/data/UpdatePCData.c. The abstract state of a buffer is the list
    of PCs sampled since it was initialised, the latest first; [pcdata_inv]
    relates the two and CBTF_UpdatePCData is shown to push its PC on it. *)
From S2P Require Import Prelude Probe PCIndex.

Definition CBTF_PCBufferSize (a : arch) : Z := 256 * CBTF_BlobSizeFactor a.
Definition CBTF_PCHashTableSize (a : arch) : Z :=
  CBTF_PCBufferSize a + CBTF_PCBufferSize a / 4.

Record CBTF_PCData := mkPCData {
  pcd_addr_begin : Z;
  pcd_addr_end : Z;
  pcd_length : Z;             (* uint16_t *)
  pcd_pc : list Z;            (* uint64_t[CBTF_PCBufferSize] *)
  pcd_count : list Z;         (* uint8_t[CBTF_PCBufferSize] *)
  pcd_hash_table : list Z     (* unsigned[CBTF_PCHashTableSize] *)
}.

(** The body of CBTF_UpdatePCData(pc, buffer), over the two array sizes: the
    returned flag and the new buffer. *)
Definition update_pcdata (B N : Z) (pc : Z) (buffer : CBTF_PCData)
  : outcome (bool * CBTF_PCData) :=
  (* search for an existing entry *)
  bucket ← bucket_search N (pcd_pc buffer) (pcd_hash_table buffer) pc;
  e ← arr_get (pcd_hash_table buffer) bucket;
  (* existing entry found and not already maxed? *)
  hit ← entry_open (pcd_pc buffer) (pcd_count buffer) pc e;
  if (hit : bool) then
    c ← arr_get (pcd_count buffer) (u32 (e - 1));
    count' ← arr_set (pcd_count buffer) (u32 (e - 1)) (u8 (c + 1));
    Ok (false, mkPCData (pcd_addr_begin buffer) (pcd_addr_end buffer) (pcd_length buffer)
                 (pcd_pc buffer) count' (pcd_hash_table buffer))
  else
    (* add a new entry *)
    let entry := pcd_length buffer in
    pc' ← arr_set (pcd_pc buffer) entry pc;
    count' ← arr_set (pcd_count buffer) entry 1;
    let length' := u16 (pcd_length buffer + 1) in
    (* update the address interval *)
    let addr_begin' := if pc <? pcd_addr_begin buffer then pc else pcd_addr_begin buffer in
    let addr_end' := if pc >? pcd_addr_end buffer then pc else pcd_addr_end buffer in
    (* update the hash table *)
    hash' ← arr_set (pcd_hash_table buffer) bucket (u32 (entry + 1));
    Ok (length' =? B,
        mkPCData addr_begin' addr_end' length' pc' count' hash').

Definition CBTF_UpdatePCData (a : arch) : Z -> CBTF_PCData -> outcome (bool * CBTF_PCData) :=
  update_pcdata (CBTF_PCBufferSize a) (CBTF_PCHashTableSize a).

(** Number of samples of [p] in the abstract state. *)
Definition occurrences (p : Z) (samples : list Z) : Z := countb (fun q => q =? p) samples.

Definition pcd_entries (buffer : CBTF_PCData) : list (Z * Z) :=
  entries (pcd_pc buffer) (pcd_count buffer) (pcd_length buffer).

(** The entry at position [i] is the one its bucket points at. *)
Definition is_current (hash_table : list Z) (i : nat) : Prop :=
  exists b : nat, hash_table !! b = Some (Z.of_nat i + 1).

(** What a buffer that has absorbed [samples] looks like. *)
Record pcdata_inv (B N : Z) (buffer : CBTF_PCData) (samples : list Z) : Prop := {
  pi_pc_size : Z.of_nat (length (pcd_pc buffer)) = B;
  pi_count_size : Z.of_nat (length (pcd_count buffer)) = B;
  pi_index : index_inv N (pcd_pc buffer) (pcd_hash_table buffer)
               (pcd_length buffer);
  pi_counts : forall (i : nat) q c, pcd_entries buffer !! i = Some (q, c) -> 1 <= c <= UINT8_MAX;
  pi_tally : forall p, tally id p (pcd_entries buffer) = occurrences p samples;
  pi_full : forall (i : nat) q c, pcd_entries buffer !! i = Some (q, c) ->
    is_current (pcd_hash_table buffer) i \/ c = UINT8_MAX;
  pi_addr_begin : pcd_addr_begin buffer = foldr Z.min UINT64_MAX samples;
  pi_addr_end : pcd_addr_end buffer = foldr Z.max 0 samples
}.

(** What the proofs need of the two sizes. *)
Definition sizes_ok (B N : Z) : Prop := 0 < B < 2 ^ 16 /\ B < N < 2 ^ 32.

Lemma PCBuffer_sizes a : sizes_ok (CBTF_PCBufferSize a) (CBTF_PCHashTableSize a).
Proof. destruct a; vm_compute; split_and!; congruence. Qed.

Lemma occurrences_cons p q samples :
  occurrences p (q :: samples) = (if q =? p then 1 else 0) + occurrences p samples.
Proof. unfold occurrences. by rewrite countb_cons. Qed.

Lemma occurrences_pos p samples : 0 < occurrences p samples -> p ∈ samples.
Proof.
  unfold occurrences. induction samples as [|q l IH]; [by rewrite countb_nil|].
  rewrite countb_cons. destruct (q =? p) eqn:Hq; bools; set_solver.
Qed.

Lemma foldr_min_in l m x : x ∈ l -> foldr Z.min m l <= x.
Proof. induction l; set_unfold; simpl; intros; [done|]. destruct_or?; subst; [lia|]. specialize (IHl H). lia. Qed.

Lemma foldr_max_in l m x : x ∈ l -> x <= foldr Z.max m l.
Proof. induction l; set_unfold; simpl; intros; [done|]. destruct_or?; subst; [lia|]. specialize (IHl H). lia. Qed.

Section update.
Context (B N : Z) (pc : Z) (buffer : CBTF_PCData) (samples : list Z).
Context (Inv : pcdata_inv B N buffer samples).

(** The two branches of the update, with the reads they make resolved. *)
Lemma update_cases :
  exists b, 0 <= b < N /\
    reach N home (slot_key (pcd_pc buffer) (pcd_hash_table buffer)) pc b /\
    stops (slot_key (pcd_pc buffer) (pcd_hash_table buffer)) pc b = true /\
    bucket_search N (pcd_pc buffer) (pcd_hash_table buffer) pc = Ok b /\
    exists e, pcd_hash_table buffer !! Z.to_nat b = Some e /\ 0 <= e <= pcd_length buffer /\
      (0 < e -> exists c, pcd_entries buffer !! Z.to_nat (e - 1) = Some (pc, c)).
Proof using Inv.
  destruct (bucket_search_ok (pi_index _ _ _ _ Inv) pc) as (b & Hs & Hb & Hr & Hst).
  exists b. split_and!; try done; try lia.
  destruct (pi_index _ _ _ _ Inv) as [Hsz Hlen _ Hsl _ _ _].
  destruct (lookup_lt_is_Some_2 (pcd_hash_table buffer) (Z.to_nat b)) as [e He]; [lia|].
  exists e. split_and!; try done; [naive_solver..|]. intros Hpos.
  specialize (Hsl _ _ He).
  destruct (lookup_lt_is_Some_2 (pcd_count buffer) (Z.to_nat (e - 1))) as [c Hc].
  { pose proof (pi_count_size _ _ _ _ Inv). pose proof (pi_pc_size _ _ _ _ Inv). lia. }
  exists c. apply entries_lookup. split_and!; [lia| |done].
  unfold stops, slot_key in Hst. rewrite He in Hst.
  replace (e >? 0) with true in Hst by (symmetry; rewrite Z.gtb_ltb; by apply Z.ltb_lt).
  destruct (pcd_pc buffer !! Z.to_nat (e - 1)) as [q|] eqn:Hq.
  - case_bool_decide; congruence.
  - apply lookup_ge_None in Hq. lia.
Qed.

(** Bumping the count of an entry of [pc]. *)
Lemma pcdata_inv_bump (i : nat) c :
  pcd_entries buffer !! i = Some (pc, c) -> c < UINT8_MAX ->
  is_current (pcd_hash_table buffer) i ->
  pcdata_inv B N (mkPCData (pcd_addr_begin buffer) (pcd_addr_end buffer) (pcd_length buffer)
                 (pcd_pc buffer) (<[i := c + 1]> (pcd_count buffer)) (pcd_hash_table buffer))
    (pc :: samples).
Proof using Inv.
  intros Hi Hc Hcur. destruct Inv as [Hps Hcs Hix Hcnt Htal Hful Hab Hae].
  pose proof (Hcnt _ _ _ Hi) as Hci.
  assert (Hin : pc ∈ samples).
  { apply occurrences_pos. rewrite <- Htal. eapply tally_pos; [|done].
    intros j q d Hj. unfold id. specialize (Hcnt _ _ _ Hj). lia. }
  apply entries_lookup in Hi as Hi'. destruct Hi' as (Hil & Hpi & Hcc).
  assert (Hes : pcd_entries (mkPCData (pcd_addr_begin buffer) (pcd_addr_end buffer)
      (pcd_length buffer) (pcd_pc buffer) (<[i := c + 1]> (pcd_count buffer))
      (pcd_hash_table buffer)) = <[i := (pc, c + 1)]> (pcd_entries buffer)).
  { apply entries_insert; auto. lia. }
  constructor; simpl; rewrite ?Hes, ?length_insert; auto.
  - intros j q d. rewrite list_lookup_insert_Some.
    intros [(_ & ? & _)|[_ Hj]]; [simplify_eq; lia|eauto].
  - intros p. rewrite (tally_insert id p _ i pc c) by done.
    rewrite Htal, occurrences_cons. unfold id. destruct (pc =? p); lia.
  - intros j q d. rewrite list_lookup_insert_Some.
    intros [(<- & _ & _)|[_ Hj]]; [by left|eauto].
  - rewrite Hab. pose proof (foldr_min_in samples UINT64_MAX pc Hin). lia.
  - rewrite Hae. pose proof (foldr_max_in samples 0 pc Hin). lia.
Qed.

(** Appending a new entry for [pc]; an entry it supersedes is maxed out. *)
Lemma pcdata_inv_append b ab ae :
  pcd_length buffer < B -> 0 <= b < N ->
  reach N home (slot_key (pcd_pc buffer) (pcd_hash_table buffer)) pc b ->
  stops (slot_key (pcd_pc buffer) (pcd_hash_table buffer)) pc b = true ->
  (forall (i : nat) q c, pcd_hash_table buffer !! Z.to_nat b = Some (Z.of_nat i + 1) ->
     pcd_entries buffer !! i = Some (q, c) -> c = UINT8_MAX) ->
  ab = Z.min pc (pcd_addr_begin buffer) -> ae = Z.max pc (pcd_addr_end buffer) ->
  pcdata_inv B N (mkPCData ab ae (pcd_length buffer + 1)
                 (<[Z.to_nat (pcd_length buffer) := pc]> (pcd_pc buffer))
                 (<[Z.to_nat (pcd_length buffer) := 1]> (pcd_count buffer))
                 (<[Z.to_nat b := pcd_length buffer + 1]> (pcd_hash_table buffer)))
    (pc :: samples).
Proof using Inv.
  intros Hlt Hb Hr Hs Hmax -> ->. destruct Inv as [Hps Hcs Hix Hcnt Htal Hful Hab Hae].
  pose proof (ix_len _ _ _ _ Hix) as Hlen. pose proof (ix_size _ _ _ _ Hix) as Hsz.
  pose proof (ix_slots _ _ _ _ Hix) as Hsl.
  match goal with |- pcdata_inv _ _ ?B' _ => assert (Hes : pcd_entries B' =
    pcd_entries buffer ++ [(pc, 1)]) by (apply entries_snoc; lia) end.
  constructor; simpl; rewrite ?Hes, ?length_insert; auto.
  - apply (index_inv_add Hix); auto. lia.
  - intros j q d [[_ ?]|[_ [= <- <-]]]%lookup_snoc_Some; [eauto|]. unfold UINT8_MAX. lia.
  - intros p. rewrite tally_app, Htal, occurrences_cons. simpl. unfold id.
    destruct (pc =? p); lia.
  - intros j q d [[_ Hj]|[-> _]]%lookup_snoc_Some.
    + destruct (Hful j q d Hj) as [[b' Hb']|]; [|by right].
      destruct (decide (b' = Z.to_nat b)) as [->|Hne]; [right; eauto|left].
      exists b'. by rewrite list_lookup_insert_ne by done.
    + left. exists (Z.to_nat b). unfold pcd_entries. rewrite entries_length by lia.
      rewrite list_lookup_insert_eq by lia. f_equal. lia.
  - rewrite Hab. done.
  - rewrite Hae. done.
Qed.
End update.

(** One update of a buffer with room, at any array sizes. *)
Lemma update_pcdata_refines B N pc buffer samples :
  sizes_ok B N -> pcdata_inv B N buffer samples -> pcd_length buffer < B ->
  exists full buffer', update_pcdata B N pc buffer = Ok (full, buffer') /\
    pcdata_inv B N buffer' (pc :: samples) /\
    full = (pcd_length buffer' =? B) /\
    pcd_length buffer <= pcd_length buffer' <= pcd_length buffer + 1.
Proof.
  intros [HB HN] Inv Hlt.
  destruct (update_cases B N pc buffer samples Inv)
    as (b & Hb & Hr & Hst & Hsearch & e & He & Hle & Hent).
  pose proof Inv as [Hps Hcs [Hsz Hlen _ _ _ _ _] Hcnt _ _ _ _].
  unfold update_pcdata. rewrite Hsearch, bind_of_Ok.
  rewrite (arr_get_lookup _ b e), bind_of_Ok by (done || lia).
  destruct (entry_open_cases (pcd_pc buffer) (pcd_count buffer) (pcd_length buffer) pc e)
    as [(c & Hpos & Hmax & Hget & Hi & ->)|[-> Hmax]]; [lia|lia|done| |]; rewrite bind_of_Ok.
  - rewrite Hget, bind_of_Ok. specialize (Hcnt _ _ _ Hi).
    rewrite u8_small, u32_small by (unfold UINT8_MAX in *; lia).
    rewrite arr_set_in, bind_of_Ok by lia. eexists _, _. split; [done|]. simpl. split_and!; try lia.
    apply pcdata_inv_bump; auto. exists (Z.to_nat b). rewrite He. f_equal. lia.
  - rewrite !arr_set_in, !bind_of_Ok by lia. rewrite u16_small, u32_small by lia.
    eexists _, _. split; [done|]. simpl. split_and!; try lia.
    apply pcdata_inv_append; auto.
    + intros i q c Hbi Hi. rewrite He in Hbi. simplify_eq.
      assert (UINT8_MAX <= c) by (apply (Hmax q c); [lia|]; by replace (Z.to_nat (Z.of_nat i + 1 - 1)) with i by lia).
      specialize (Hcnt _ _ _ Hi). lia.
    + destruct (pc <? pcd_addr_begin buffer) eqn:?; bools; lia.
    + destruct (pc >? pcd_addr_end buffer) eqn:?; bools; lia.
Qed.

(** C1: on a buffer with room, CBTF_UpdatePCData terminates without an
    out-of-bounds access, and the buffer it returns has absorbed exactly one more
    sample, of the PC passed: for every PC the counts of its entries add up to
    the number of its samples, the index still finds every PC, counts stay in
    1..255 and the address interval is the least one holding all samples. The
    returned flag says whether the buffer is now full. *)
Theorem CBTF_UpdatePCData_refines (a : arch) (pc : Z) (buffer : CBTF_PCData) (samples : list Z) :
  pcdata_inv (CBTF_PCBufferSize a) (CBTF_PCHashTableSize a) buffer samples -> pcd_length buffer < CBTF_PCBufferSize a ->
  exists full buffer', CBTF_UpdatePCData a pc buffer = Ok (full, buffer') /\
    pcdata_inv (CBTF_PCBufferSize a) (CBTF_PCHashTableSize a) buffer' (pc :: samples) /\
    full = (pcd_length buffer' =? CBTF_PCBufferSize a) /\
    pcd_length buffer <= pcd_length buffer' <= pcd_length buffer + 1.
Proof. apply update_pcdata_refines, PCBuffer_sizes. Qed.

(** The buffer as the collectors' initialize_data sets it up. *)
Definition pcdata_reset (N : Z) (pcs counts : list Z) : CBTF_PCData :=
  mkPCData UINT64_MAX 0 0 pcs counts (replicate (Z.to_nat N) 0).

Lemma pcdata_inv_reset B N pcs counts :
  sizes_ok B N ->
  Z.of_nat (length pcs) = B -> Z.of_nat (length counts) = B ->
  pcdata_inv B N (pcdata_reset N pcs counts) [].
Proof.
  intros [HB HN] Hp Hc.
  constructor; simpl; auto; try (unfold pcd_entries, entries; simpl; done).
  apply index_inv_empty; try lia.
  - rewrite length_replicate. lia.
  - by apply Forall_replicate.
Qed.

(** ** Compression

    The entries of one PC are maxed out except for the current one, so a PC
    takes the fewest entries that 8-bit counts allow. *)
Lemma tally_maxed p es :
  (forall (i : nat) c, es !! i = Some (p, c) -> c = UINT8_MAX) ->
  tally id p es = UINT8_MAX * countb (fun e => e.1 =? p) es.
Proof.
  induction es as [|[q c] es IH]; intros Hmax; [done|]. simpl. rewrite countb_cons. simpl.
  rewrite IH by (intros i c' Hi; exact (Hmax (S i) c' Hi)).
  destruct (q =? p) eqn:Hq; bools; [|lia]. subst. rewrite (Hmax 0%nat c eq_refl). unfold id. lia.
Qed.

Lemma tally_one_open p es (i0 : nat) :
  (forall (i : nat) c, es !! i = Some (p, c) -> 1 <= c <= UINT8_MAX) ->
  (forall (i : nat) c, es !! i = Some (p, c) -> i <> i0 -> c = UINT8_MAX) ->
  UINT8_MAX * countb (fun e => e.1 =? p) es - (UINT8_MAX - 1) <= tally id p es <=
    UINT8_MAX * countb (fun e => e.1 =? p) es.
Proof.
  revert i0. induction es as [|[q c] es IH]; intros i0 Hb Hmax; [by vm_compute|].
  simpl. rewrite countb_cons. simpl. destruct i0 as [|i0].
  - rewrite tally_maxed by (intros i c' Hi; apply (Hmax (S i) c' Hi); done).
    destruct (q =? p) eqn:Hq; bools; unfold id; [|unfold UINT8_MAX; lia].
    subst. pose proof (Hb 0%nat c eq_refl). lia.
  - assert (UINT8_MAX * countb (fun e => e.1 =? p) es - (UINT8_MAX - 1) <= tally id p es <=
      UINT8_MAX * countb (fun e => e.1 =? p) es).
    { apply (IH i0); [intros i c' Hi; exact (Hb (S i) c' Hi)|].
      intros i c' Hi Hne. apply (Hmax (S i) c' Hi). lia. }
    destruct (q =? p) eqn:Hq; bools; [|lia].
    subst. rewrite (Hmax 0%nat c eq_refl) by done. change (id UINT8_MAX) with UINT8_MAX. lia.
Qed.

Lemma current_slot_key N buffer (i : nat) p (b : nat) :
  index_inv N (pcd_pc buffer) (pcd_hash_table buffer) (pcd_length buffer) ->
  pcd_hash_table buffer !! b = Some (Z.of_nat i + 1) -> pcd_pc buffer !! i = Some p ->
  0 <= Z.of_nat b < N /\
  slot_key (pcd_pc buffer) (pcd_hash_table buffer) (Z.of_nat b) = Some p.
Proof.
  intros Hix Hb Hp. apply lookup_lt_Some in Hb as Hlt. rewrite <- (ix_size _ _ _ _ Hix).
  split; [lia|]. unfold slot_key. rewrite Nat2Z.id, Hb.
  destruct (Z.of_nat i + 1 >? 0) eqn:?; bools; [|lia].
  by replace (Z.to_nat (Z.of_nat i + 1 - 1)) with i by lia.
Qed.

Lemma update_pcdata_compression B N buffer samples p :
  pcdata_inv B N buffer samples ->
  countb (fun e => e.1 =? p) (pcd_entries buffer) = (occurrences p samples + 254) / 255.
Proof.
  intros Inv. pose proof Inv as [Hps Hcs Hix Hcnt Htal Hful _ _].
  assert (exists i0 : nat, forall (i : nat) c, pcd_entries buffer !! i = Some (p, c) ->
            i <> i0 -> c = UINT8_MAX) as [i0 Hi0].
  { destruct (update_cases B N p buffer samples Inv)
      as (b & Hb & Hr & Hst & _ & e & He & _ & _).
    exists (Z.to_nat (e - 1)). intros i c Hi Hne.
    destruct (Hful _ _ _ Hi) as [[b' Hb']|]; [exfalso|done].
    apply entries_lookup in Hi as (Hil & Hpi & _).
    pose proof (bucket_search_found Hix i p b Hil Hpi Hb Hr Hst) as Hkb.
    destruct (current_slot_key N buffer i p b') as [Hb'r Hkb']; [done..|].
    assert (b = Z.of_nat b') by (eapply key_unique; eauto using ix_table, index_N_pos).
    subst b. rewrite Nat2Z.id, Hb' in He. simplify_eq. lia. }
  assert (Hb := tally_one_open p (pcd_entries buffer) i0 (fun i c Hi => Hcnt i p c Hi) Hi0).
  rewrite Htal in Hb. unfold UINT8_MAX in Hb.
  apply Z.le_antisymm.
  - apply Z.div_le_lower_bound; lia.
  - apply Z.lt_succ_r, Z.div_lt_upper_bound; lia.
Qed.

(** A run of updates, as a collector makes between two resets of the buffer. *)
Fixpoint update_all (a : arch) (pcs : list Z) (buffer : CBTF_PCData) : outcome CBTF_PCData :=
  match pcs with
  | [] => Ok buffer
  | pc :: pcs' => r ← CBTF_UpdatePCData a pc buffer; update_all a pcs' r.2
  end.

Lemma update_all_refines a pcs : forall buffer samples,
  pcdata_inv (CBTF_PCBufferSize a) (CBTF_PCHashTableSize a) buffer samples ->
  pcd_length buffer + Z.of_nat (length pcs) <= CBTF_PCBufferSize a ->
  exists buffer', update_all a pcs buffer = Ok buffer' /\
    pcdata_inv (CBTF_PCBufferSize a) (CBTF_PCHashTableSize a) buffer' (rev pcs ++ samples).
Proof.
  induction pcs as [|pc pcs IH]; intros buffer samples Inv Hlen; [by exists buffer|]. simpl in *.
  destruct (update_pcdata_refines _ _ pc buffer samples (PCBuffer_sizes a) Inv)
    as (full & buffer' & Hu & Inv' & _ & Hl); [lia|].
  unfold CBTF_UpdatePCData. rewrite Hu, bind_of_Ok. rewrite <- app_assoc.
  apply (IH buffer' (pc :: samples) Inv'). simpl. lia.
Qed.

(** Any run of at most CBTF_PCBufferSize updates of a freshly reset buffer
    succeeds, and stores each PC in the fewest entries that 8-bit counts allow:
    ceil(n / 255) entries for n samples of it. *)
Theorem pcdata_compression (a : arch) (pcs counts samples : list Z) :
  Z.of_nat (length pcs) = CBTF_PCBufferSize a -> Z.of_nat (length counts) = CBTF_PCBufferSize a ->
  Z.of_nat (length samples) <= CBTF_PCBufferSize a ->
  exists buffer,
    update_all a samples (pcdata_reset (CBTF_PCHashTableSize a) pcs counts) = Ok buffer /\
    forall p, countb (fun e => e.1 =? p) (pcd_entries buffer) = (occurrences p samples + 254) / 255.
Proof.
  intros Hp Hc Hs.
  destruct (update_all_refines a samples (pcdata_reset (CBTF_PCHashTableSize a) pcs counts) [])
    as (buffer & Hu & Inv).
  - by apply pcdata_inv_reset; [apply PCBuffer_sizes|..].
  - simpl. lia.
  - exists buffer. split; [done|]. intros p.
    rewrite (update_pcdata_compression _ _ _ _ _ Inv), app_nil_r.
    unfold occurrences. by rewrite countb_rev.
Qed.

(** A freshly reset buffer takes its first sample. *)
Lemma CBTF_UpdatePCData_witness :
  let size := Z.to_nat (CBTF_PCBufferSize arch_other) in
  exists full buffer',
    CBTF_UpdatePCData arch_other 4198400
      (pcdata_reset (CBTF_PCHashTableSize arch_other) (replicate size 0) (replicate size 0)) = Ok (full, buffer') /\
    pcdata_inv (CBTF_PCBufferSize arch_other) (CBTF_PCHashTableSize arch_other) buffer' [4198400].
Proof.
  intros size. set (b := pcdata_reset (CBTF_PCHashTableSize arch_other) (replicate size 0) (replicate size 0)).
  destruct (CBTF_UpdatePCData_refines arch_other 4198400 b []) as (full & b' & H & Hi & _).
  - apply pcdata_inv_reset; [apply PCBuffer_sizes|by vm_compute..].
  - by vm_compute.
  - exists full, b'. by split.
Defined.

(** 300 samples of one PC and one of another take two entries and one. *)
Lemma pcdata_compression_witness :
  let size := Z.to_nat (CBTF_PCBufferSize arch_other) in
  exists buffer,
    update_all arch_other (replicate 300 16 ++ [32])
      (pcdata_reset (CBTF_PCHashTableSize arch_other) (replicate size 0) (replicate size 0)) = Ok buffer /\
    countb (fun e => e.1 =? 16) (pcd_entries buffer) = 2 /\ countb (fun e => e.1 =? 32) (pcd_entries buffer) = 1.
Proof.
  intros size.
  destruct (pcdata_compression arch_other (replicate size 0) (replicate size 0) (replicate 300 16 ++ [32]))
    as (b & H & Hc).
  1-3: by vm_compute.
  exists b. split; [exact H|]. rewrite !Hc. split; vm_compute; reflexivity.
Defined.
