(* ===== verification/HWCPCData.v ===== *)
(** The hardware-counter PC sample buffer: Data.h (CBTF_HWCPCData) and
    services/src/data/UpdateHWCPCData.c. It is the PC buffer with six event
    totals per entry; [hwc_base] forgets the totals, and the update is shown to
    act on the base as CBTF_UpdatePCData does and to add the event counts of the
    sample to the totals of its PC, modulo 2^64. *)
From S2P Require Import Prelude Probe PCIndex PCData.

Definition CBTF_HWCPCBufferSize (a : arch) : Z := 128 * CBTF_BlobSizeFactor a.
Definition CBTF_HWCPCHashTableSize (a : arch) : Z :=
  CBTF_HWCPCBufferSize a + CBTF_HWCPCBufferSize a / 4.

(** CBTF_evcounts: uint64_t[6]. *)
Definition evcounts_len : Z := 6.

Record CBTF_HWCPCData := mkHWCPCData {
  hwc_addr_begin : Z;
  hwc_addr_end : Z;
  hwc_length : Z;
  hwc_pc : list Z;
  hwc_count : list Z;
  hwc_hwccounts : list (list Z);
  hwc_hash_table : list Z
}.

(** for (i = 0; i < 6; i++) row[i] += evcounts[i]; *)
Definition add_evcounts (row evcounts : list Z) : outcome (list Z) :=
  for_loop 6 0 (fun i r =>
    x ← arr_get r i; y ← arr_get evcounts i; arr_set r i (u64 (x + y))) row.

(** for (i = 0; i < 6; i++) row[i] = evcounts[i]; *)
Definition set_evcounts (row evcounts : list Z) : outcome (list Z) :=
  for_loop 6 0 (fun i r => y ← arr_get evcounts i; arr_set r i (u64 y)) row.

Definition CBTF_UpdateHWCPCData (a : arch) (pc : Z) (buffer : CBTF_HWCPCData) (evcounts : list Z)
  : outcome (bool * CBTF_HWCPCData) :=
  bucket ← bucket_search (CBTF_HWCPCHashTableSize a) (hwc_pc buffer) (hwc_hash_table buffer) pc;
  e ← arr_get (hwc_hash_table buffer) bucket;
  hit ← entry_open (hwc_pc buffer) (hwc_count buffer) pc e;
  if (hit : bool) then
    c ← arr_get (hwc_count buffer) (u32 (e - 1));
    count' ← arr_set (hwc_count buffer) (u32 (e - 1)) (u8 (c + 1));
    row ← arr_get (hwc_hwccounts buffer) (u32 (e - 1));
    row' ← add_evcounts row evcounts;
    hwccounts' ← arr_set (hwc_hwccounts buffer) (u32 (e - 1)) row';
    Ok (false, mkHWCPCData (hwc_addr_begin buffer) (hwc_addr_end buffer) (hwc_length buffer)
                 (hwc_pc buffer) count' hwccounts' (hwc_hash_table buffer))
  else
    let entry := hwc_length buffer in
    pc' ← arr_set (hwc_pc buffer) entry pc;
    count' ← arr_set (hwc_count buffer) entry 1;
    row ← arr_get (hwc_hwccounts buffer) entry;
    row' ← set_evcounts row evcounts;
    hwccounts' ← arr_set (hwc_hwccounts buffer) entry row';
    let length' := u16 (hwc_length buffer + 1) in
    let addr_begin' := if pc <? hwc_addr_begin buffer then pc else hwc_addr_begin buffer in
    let addr_end' := if pc >? hwc_addr_end buffer then pc else hwc_addr_end buffer in
    hash' ← arr_set (hwc_hash_table buffer) bucket (u32 (entry + 1));
    Ok (length' =? CBTF_HWCPCBufferSize a,
        mkHWCPCData addr_begin' addr_end' length' pc' count' hwccounts' hash').

(** The buffer without its event totals. *)
Definition hwc_base (buffer : CBTF_HWCPCData) : CBTF_PCData :=
  mkPCData (hwc_addr_begin buffer) (hwc_addr_end buffer) (hwc_length buffer) (hwc_pc buffer)
    (hwc_count buffer) (hwc_hash_table buffer).

Definition hwc_rows (buffer : CBTF_HWCPCData) : list (Z * list Z) :=
  entries (hwc_pc buffer) (hwc_hwccounts buffer) (hwc_length buffer).

(** Total of event [j] over the samples of PC [p]. *)
Definition events_at (p : Z) (j : nat) (samples : list (Z * list Z)) : Z :=
  tally (fun ev => ev !!! j) p samples.

Record hwcdata_inv (a : arch) (buffer : CBTF_HWCPCData) (samples : list (Z * list Z)) : Prop := {
  hi_base : pcdata_inv (CBTF_HWCPCBufferSize a) (CBTF_HWCPCHashTableSize a) (hwc_base buffer)
              (map fst samples);
  hi_rows : Z.of_nat (length (hwc_hwccounts buffer)) = CBTF_HWCPCBufferSize a;
  hi_row : forall (i : nat) row, hwc_hwccounts buffer !! i = Some row -> length row = 6%nat;
  hi_events : forall p (j : nat), (j < 6)%nat ->
    u64 (tally (fun row => row !!! j) p (hwc_rows buffer)) = u64 (events_at p j samples)
}.

Lemma HWCPCBuffer_sizes a : sizes_ok (CBTF_HWCPCBufferSize a) (CBTF_HWCPCHashTableSize a).
Proof. destruct a; vm_compute; split_and!; congruence. Qed.

Ltac six l := destruct l as [|? [|? [|? [|? [|? [|? [|? ?]]]]]]]; try discriminate.

Lemma add_evcounts_ok row ev : length row = 6%nat -> length ev = 6%nat ->
  add_evcounts row ev = Ok (zip_with (fun x y => u64 (x + y)) row ev).
Proof. intros Hr He. six row. six ev. reflexivity. Qed.

Lemma set_evcounts_ok row ev : length row = 6%nat -> length ev = 6%nat ->
  set_evcounts row ev = Ok (u64 <$> ev).
Proof. intros Hr He. six row. six ev. reflexivity. Qed.

Lemma lookup_total_zip_u64 row ev (j : nat) : length row = 6%nat -> length ev = 6%nat -> (j < 6)%nat ->
  zip_with (fun x y => u64 (x + y)) row ev !!! j = u64 (row !!! j + ev !!! j).
Proof. intros Hr He Hj. six row. six ev. do 6 (destruct j as [|j]; [reflexivity|]). lia. Qed.

Lemma lookup_total_u64 (ev : list Z) (j : nat) : length ev = 6%nat -> (j < 6)%nat ->
  (u64 <$> ev) !!! j = u64 (ev !!! j).
Proof. intros He Hj. six ev. do 6 (destruct j as [|j]; [reflexivity|]). lia. Qed.

Lemma u64_shift t t' x y : u64 t = u64 t' -> u64 (t + (u64 (x + y) - x)) = u64 (y + t').
Proof.
  unfold u64. intros H. rewrite Z.add_sub_assoc, <- Zminus_mod_idemp_l, Zplus_mod_idemp_r.
  rewrite Zminus_mod_idemp_l. replace (t + (x + y) - x) with (y + t) by lia.
  by rewrite <- Zplus_mod_idemp_r, H, Zplus_mod_idemp_r.
Qed.

Lemma u64_push t t' y : u64 t = u64 t' -> u64 (t + u64 y) = u64 (y + t').
Proof.
  unfold u64. intros H. rewrite Zplus_mod_idemp_r, Z.add_comm.
  by rewrite <- Zplus_mod_idemp_r, H, Zplus_mod_idemp_r.
Qed.

(** The claim below, for use by the collector. *)
Lemma update_hwcpcdata_refines (a : arch) (pc : Z) (buffer : CBTF_HWCPCData)
    (evcounts : list Z) (samples : list (Z * list Z)) :
  hwcdata_inv a buffer samples -> hwc_length buffer < CBTF_HWCPCBufferSize a ->
  length evcounts = 6%nat ->
  exists full buffer', CBTF_UpdateHWCPCData a pc buffer evcounts = Ok (full, buffer') /\
    update_pcdata (CBTF_HWCPCBufferSize a) (CBTF_HWCPCHashTableSize a) pc (hwc_base buffer)
      = Ok (full, hwc_base buffer') /\
    hwcdata_inv a buffer' ((pc, evcounts) :: samples) /\
    full = (hwc_length buffer' =? CBTF_HWCPCBufferSize a).
Proof.
  intros Inv Hlt Hev. pose proof (HWCPCBuffer_sizes a) as Hsizes.
  destruct Inv as [Hb Hrows Hrow Hevs].
  destruct (update_pcdata_refines _ _ pc (hwc_base buffer) _ Hsizes Hb Hlt)
    as (full & b' & Hupd & Hb' & Hfull & _). rewrite Hupd.
  destruct (update_cases _ _ pc _ _ Hb) as (b & Hbr & Hr & Hst & Hsearch & e & He & Hle & Hent).
  pose proof Hb as [Hps Hcs [Hsz Hlen _ _ _ _ _] Hcnt _ _ _ _]. destruct Hsizes as [HB HN].
  revert Hupd. unfold update_pcdata, CBTF_UpdateHWCPCData. simpl in *.
  rewrite Hsearch, !bind_of_Ok, (arr_get_lookup _ b e), !bind_of_Ok by (done || lia).
  destruct (entry_open_cases (hwc_pc buffer) (hwc_count buffer) (hwc_length buffer) pc e)
    as [(c & Hpos & Hmax & Hget & Hi & ->)|[-> Hmax]]; [lia|lia|done| |]; rewrite !bind_of_Ok.
  - rewrite Hget, !bind_of_Ok, u32_small, arr_set_in, !bind_of_Ok by lia.
    destruct (arr_get_in (hwc_hwccounts buffer) (e - 1)) as (row & -> & Hlk); [lia|].
    rewrite bind_of_Ok, add_evcounts_ok, bind_of_Ok, arr_set_in, bind_of_Ok by (eauto || lia).
    intros [= <- <-]. eexists _, _. split_and!; [reflexivity..| |done]. constructor; simpl; auto.
    + by rewrite length_insert.
    + intros i r [(_ & <- & _)|[_ ?]]%list_lookup_insert_Some; [|eauto].
      rewrite length_zip_with, Hev, (Hrow _ _ Hlk). done.
    + intros p j Hj. apply entries_lookup in Hi as (Hil & Hpi & _). unfold hwc_rows. simpl.
      rewrite (entries_insert _ _ _ _ pc) by (auto; lia).
      rewrite (tally_insert _ p _ _ pc row) by (apply entries_lookup; auto).
      rewrite lookup_total_zip_u64 by eauto. unfold events_at. simpl.
      destruct (pc =? p); [by apply u64_shift, Hevs|]. rewrite Z.add_0_r. by apply Hevs.
  - rewrite !arr_set_in, !bind_of_Ok by lia.
    destruct (arr_get_in (hwc_hwccounts buffer) (hwc_length buffer)) as (row & -> & Hlk); [lia|].
    rewrite bind_of_Ok, set_evcounts_ok, bind_of_Ok, arr_set_in, bind_of_Ok by (eauto || lia).
    rewrite u16_small, u32_small by lia.
    intros [= <- <-]. eexists _, _. split_and!; [reflexivity..| |done]. constructor; simpl; auto.
    + by rewrite length_insert.
    + intros i r [(_ & <- & _)|[_ ?]]%list_lookup_insert_Some; [|eauto]. by rewrite length_fmap.
    + intros p j Hj. unfold hwc_rows. simpl. rewrite entries_snoc by lia.
      unfold events_at. rewrite tally_app. simpl. rewrite lookup_total_u64 by done.
      destruct (pc =? p); rewrite Z.add_0_r; [by apply u64_push, Hevs|by apply Hevs].
Qed.

(** The buffer as the collector's initialize_data sets it up. *)
Definition hwcdata_reset (N : Z) (pcs counts : list Z) (rows : list (list Z)) : CBTF_HWCPCData :=
  mkHWCPCData UINT64_MAX 0 0 pcs counts (replicate (length rows) (replicate 6 0)) (replicate (Z.to_nat N) 0).

Lemma hwcdata_inv_reset a pcs counts rows :
  Z.of_nat (length pcs) = CBTF_HWCPCBufferSize a -> Z.of_nat (length counts) = CBTF_HWCPCBufferSize a ->
  Z.of_nat (length rows) = CBTF_HWCPCBufferSize a ->
  hwcdata_inv a (hwcdata_reset (CBTF_HWCPCHashTableSize a) pcs counts rows) [].
Proof.
  intros Hp Hc Hr. constructor; simpl.
  - apply (pcdata_inv_reset _ _ pcs counts); [apply HWCPCBuffer_sizes|done..].
  - by rewrite length_replicate.
  - by intros i row [-> _]%lookup_replicate.
  - done.
Qed.

(** on a buffer with room CBTF_UpdateHWCPCData terminates within bounds, acts
    on the PCs, counts, index and address interval exactly as CBTF_UpdatePCData
    does at its own sizes, and adds the six event counts of the sample to the
    totals kept for its PC, modulo 2^64; the flag says whether the buffer is full. *)
Theorem CBTF_UpdateHWCPCData_refines (a : arch) (pc : Z) (buffer : CBTF_HWCPCData)
    (evcounts : list Z) (samples : list (Z * list Z)) :
  hwcdata_inv a buffer samples -> hwc_length buffer < CBTF_HWCPCBufferSize a ->
  length evcounts = 6%nat ->
  exists full buffer', CBTF_UpdateHWCPCData a pc buffer evcounts = Ok (full, buffer') /\
    update_pcdata (CBTF_HWCPCBufferSize a) (CBTF_HWCPCHashTableSize a) pc (hwc_base buffer)
      = Ok (full, hwc_base buffer') /\
    hwcdata_inv a buffer' ((pc, evcounts) :: samples) /\
    full = (hwc_length buffer' =? CBTF_HWCPCBufferSize a).
Proof. apply update_hwcpcdata_refines. Qed.

(** A sample with six event counts enters an empty buffer. *)
Lemma CBTF_UpdateHWCPCData_witness :
  let size := Z.to_nat (CBTF_HWCPCBufferSize arch_other) in
  let empty := mkHWCPCData UINT64_MAX 0 0 (replicate size 0) (replicate size 0)
    (replicate size [0; 0; 0; 0; 0; 0]) (replicate (Z.to_nat (CBTF_HWCPCHashTableSize arch_other)) 0) in
  exists full buffer',
    CBTF_UpdateHWCPCData arch_other 4198400 empty [1; 2; 3; 4; 5; 6] = Ok (full, buffer') /\
    hwcdata_inv arch_other buffer' [(4198400, [1; 2; 3; 4; 5; 6])].
Proof.
  intros size empty.
  destruct (CBTF_UpdateHWCPCData_refines arch_other 4198400 empty [1; 2; 3; 4; 5; 6] [])
    as (full & b' & H & _ & Hi & _).
  - constructor.
    + apply pcdata_inv_reset; [apply HWCPCBuffer_sizes|by vm_compute..].
    + by vm_compute.
    + intros i row Hr. cbn [hwc_hwccounts empty] in Hr. by apply lookup_replicate in Hr as [-> _].
    + done.
  - by vm_compute.
  - done.
  - exists full, b'. by split.
Defined.
