(* ===== verification/TLS.v ===== *)
(** Explicit thread-local storage: services/src/common/TLS.c. Each thread (or
    the process, when the Pthread functions are absent) has a map from 32-bit
    keys to pointers, a hash table of 32 buckets with linear probing. The
    abstract state of a thread is a finite map [f]; CBTF_SetTLS is shown to be
    insertion and CBTF_GetTLS lookup with NULL as default. *)
From S2P Require Import Prelude Probe.

Definition MapSize : Z := 32.

Record Map := mkMap {
  map_size : Z;           (* uint32_t *)
  map_keys : list Z;      (* uint32_t[MapSize] *)
  map_values : list Z     (* void*[MapSize], 0 is NULL *)
}.

(** memset(map, 0, sizeof(Map)) *)
Definition zero_map : Map := mkMap 0 (replicate 32 0) (replicate 32 0).

(** The file's static variables, with the thread-specific value of [map_key]
    for every thread that has set it. *)
Record tls_state := mkTls {
  is_multithreaded : bool;
  map_for_process : Map;
  thread_maps : gmap Z Map
}.

(** initialize(): which Pthread functions dlsym() found and the result of
    pthread_key_create(). *)
Definition initialize (has_key_create has_key_delete has_getspecific has_setspecific : bool)
    (key_create_ret : Z) : outcome tls_state :=
  let mt := has_key_create && has_key_delete && has_getspecific && has_setspecific in
  if mt then
    Assert (key_create_ret =? 0) ;;
    Ok (mkTls true zero_map ∅)
  else Ok (mkTls false zero_map ∅).

(** What the system calls of one getValue() call answer. *)
Record tls_oracle := mkOracle { malloc_ok : bool; setspecific_ret : Z }.

(** The negated loop condition of getValue(). *)
Definition key_stop (keys : list Z) (key bucket : Z) : outcome bool :=
  k ← arr_get keys bucket;
  Ok (negb ((k >? 0) && negb (k =? key))).

(** The part of getValue() that works on the selected map: the new map and the
    bucket whose value is pointed at. *)
Definition map_bucket (map : Map) (key : Z) : outcome (Map * Z) :=
  bucket ← probe_loop MapSize (key_stop (map_keys map) key) (Z.to_nat MapSize) (key mod MapSize);
  k ← arr_get (map_keys map) bucket;
  if k =? 0 then
    keys' ← arr_set (map_keys map) bucket key;
    let size' := u32 (map_size map + 1) in
    Assert (size' <? MapSize - 1) ;;
    Ok (mkMap size' keys' (map_values map), bucket)
  else Ok (map, bucket).

Definition store_map (st : tls_state) (tid : Z) (m : Map) : tls_state :=
  if is_multithreaded st then mkTls true (map_for_process st) (<[tid := m]> (thread_maps st))
  else mkTls false m (thread_maps st).

(** The map of thread [tid], created on its first access. *)
Definition select_map (os : tls_oracle) (st : tls_state) (tid : Z) : outcome Map :=
  if is_multithreaded st then
    match thread_maps st !! tid with
    | Some m => Ok m
    | None =>
        Assert (malloc_ok os) ;;
        Assert (setspecific_ret os =? 0) ;;
        Ok zero_map
    end
  else Ok (map_for_process st).

(** getValue(key) called by thread [tid]: the state and the map and bucket of
    the value it points at. *)
Definition getValue (os : tls_oracle) (st : tls_state) (tid key : Z) : outcome (Map * Z) :=
  map ← select_map os st tid;
  map_bucket map key.

Definition CBTF_GetTLS (os : tls_oracle) (tid key : Z) (st : tls_state) : outcome (Z * tls_state) :=
  Assert (0 <? key) ;;
  r ← getValue os st tid key;
  v ← arr_get (map_values r.1) r.2;
  Ok (v, store_map st tid r.1).

Definition CBTF_SetTLS (os : tls_oracle) (tid key value : Z) (st : tls_state) : outcome tls_state :=
  Assert (0 <? key) ;;
  r ← getValue os st tid key;
  values' ← arr_set (map_values r.1) r.2 value;
  Ok (store_map st tid (mkMap (map_size r.1) (map_keys r.1) values')).

(** ** The abstract state *)
Definition occupant (keys : list Z) (b : Z) : option Z :=
  match keys !! Z.to_nat b with
  | Some k => if k =? 0 then None else Some k
  | None => None
  end.

Record map_ok (m : Map) (f : gmap Z Z) : Prop := {
  mo_keys : length (map_keys m) = 32%nat;
  mo_values : length (map_values m) = 32%nat;
  mo_nonneg : forall (b : nat) k, map_keys m !! b = Some k -> 0 <= k;
  mo_table : table_ok MapSize id (occupant (map_keys m));
  mo_size : map_size m = Z.of_nat (base.size f);
  mo_used : countb (fun k => k >? 0) (map_keys m) = map_size m;
  mo_bound : map_size m <= MapSize - 2;
  mo_view : forall k v, f !! k = Some v <->
    k <> 0 /\ exists b : nat, map_keys m !! b = Some k /\ map_values m !! b = Some v;
  mo_null : forall b : nat, map_keys m !! b = Some 0 -> map_values m !! b = Some 0
}.

Lemma zero_map_ok : map_ok zero_map ∅.
Proof.
  assert (H0 : forall (b : nat) k, replicate 32 0 !! b = Some k -> k = 0).
  { intros b k Hb. by apply lookup_replicate in Hb as [-> _]. }
  constructor; simpl; try done.
  - intros b k Hb. rewrite (H0 _ _ Hb). lia.
  - intros b k _ Hb. unfold occupant in Hb. destruct (_ !! _) eqn:He; [|done].
    by rewrite (H0 _ _ He) in Hb.
  - intros k v. rewrite lookup_empty. split; [done|].
    intros [Hk (b & Hb & _)]. by rewrite (H0 _ _ Hb) in Hk.
Qed.

Section access.
Context (m : Map) (f : gmap Z Z) (key : Z) (M : map_ok m f) (Hkey : 0 < key < 2 ^ 32).

Lemma key_stop_spec b :
  0 <= b < MapSize -> key_stop (map_keys m) key b = Ok (stops (occupant (map_keys m)) key b).
Proof using M Hkey.
  intros Hb. unfold key_stop, stops, occupant, MapSize in *.
  destruct (arr_get_in (map_keys m) b) as (k & -> & Hk); [rewrite (mo_keys _ _ M); lia|].
  rewrite bind_of_Ok, Hk. pose proof (mo_nonneg _ _ M _ _ Hk). f_equal.
  destruct (k =? 0) eqn:H0; bools.
  - subst. reflexivity.
  - destruct (k >? 0) eqn:H1; bools; [|lia]. simpl. rewrite negb_involutive.
    case_bool_decide; [by apply Z.eqb_eq|by apply Z.eqb_neq].
Qed.

(** The probe ends at the bucket of [key], or at an empty one if it has none. *)
Lemma key_search :
  exists b, probe_loop MapSize (key_stop (map_keys m) key) (Z.to_nat MapSize) (key mod MapSize) = Ok b /\
    0 <= b < MapSize /\ reach MapSize id (occupant (map_keys m)) key b /\
    stops (occupant (map_keys m)) key b = true.
Proof using M Hkey.
  assert (exists b0, 0 <= b0 < MapSize /\ stops (occupant (map_keys m)) key b0 = true)
    as (b0 & Hb0 & Hs0).
  { destruct (countb_lt_length (fun k => k >? 0) (map_keys m)) as (i & k & Hi & Hk).
    { rewrite (mo_used _ _ M), (mo_keys _ _ M). pose proof (mo_bound _ _ M).
      unfold MapSize in *. lia. }
    exists (Z.of_nat i). apply lookup_lt_Some in Hi as Hlt. rewrite (mo_keys _ _ M) in Hlt.
    split; [unfold MapSize; lia|]. unfold stops, occupant. rewrite Nat2Z.id, Hi. bools.
    pose proof (mo_nonneg _ _ M _ _ Hi). by replace k with 0 by lia. }
  exact (probe_loop_total MapSize ltac:(done) id _ key _ key_stop_spec b0 Hb0 Hs0).
Qed.

Lemma key_bucket (b : nat) : map_keys m !! b = Some key ->
  0 <= Z.of_nat b < MapSize /\ occupant (map_keys m) (Z.of_nat b) = Some key.
Proof using M Hkey.
  intros Hb. apply lookup_lt_Some in Hb as Hlt. rewrite (mo_keys _ _ M) in Hlt.
  split; [unfold MapSize; lia|]. unfold occupant. rewrite Nat2Z.id, Hb.
  destruct (key =? 0) eqn:?; bools; [lia|done].
Qed.

(** Both outcomes of the probe, read off the abstract map. *)
Lemma key_search_view :
  exists b : nat, probe_loop MapSize (key_stop (map_keys m) key) (Z.to_nat MapSize) (key mod MapSize)
      = Ok (Z.of_nat b) /\ Z.of_nat b < MapSize /\
    reach MapSize id (occupant (map_keys m)) key (Z.of_nat b) /\
    stops (occupant (map_keys m)) key (Z.of_nat b) = true /\
    match f !! key with
    | Some v => map_keys m !! b = Some key /\ map_values m !! b = Some v
    | None => map_keys m !! b = Some 0
    end.
Proof using M Hkey.
  destruct key_search as (b & Hp & Hb & Hr & Hs). exists (Z.to_nat b).
  rewrite Z2Nat.id by lia. split_and!; try done; [lia|].
  destruct (f !! key) as [v|] eqn:Hf.
  - apply (mo_view _ _ M) in Hf as [_ (b' & Hk & Hv)].
    destruct (key_bucket b' Hk) as [Hb' Ho].
    enough (b = Z.of_nat b') as -> by by rewrite Nat2Z.id.
    apply (reach_unique MapSize id (occupant (map_keys m)) key); auto.
    + by apply (mo_table _ _ M).
    + unfold stops. rewrite Ho. by apply bool_decide_true.
  - destruct (lookup_lt_is_Some_2 (map_keys m) (Z.to_nat b)) as [k Hk].
    { rewrite (mo_keys _ _ M). unfold MapSize in *. lia. }
    unfold stops, occupant in Hs. rewrite Hk in Hs |- *.
    destruct (k =? 0) eqn:H0; bools; [by subst|]. case_bool_decide; [subst|done].
    destruct (lookup_lt_is_Some_2 (map_values m) (Z.to_nat b)) as [v Hv].
    { rewrite (mo_values _ _ M). unfold MapSize in *. lia. }
    assert (f !! key = Some v) by (apply (mo_view _ _ M); eauto). congruence.
Qed.

Lemma map_bucket_found v :
  f !! key = Some v -> exists b : nat, map_bucket m key = Ok (m, Z.of_nat b) /\
    map_keys m !! b = Some key /\ map_values m !! b = Some v.
Proof using M Hkey.
  intros Hf. destruct key_search_view as (b & Hp & _ & _ & _ & Hv). rewrite Hf in Hv.
  destruct Hv as [Hk Hv]. exists b. split; [|done]. unfold map_bucket. rewrite Hp, bind_of_Ok.
  rewrite (arr_get_lookup _ _ key), bind_of_Ok by (rewrite ?Nat2Z.id; done || lia).
  destruct (key =? 0) eqn:?; bools; [lia|done].
Qed.

(** Storing [key] in the empty bucket its probe ends at. *)
Lemma map_ok_new (b : nat) :
  f !! key = None -> map_size m < MapSize - 2 -> Z.of_nat b < MapSize ->
  reach MapSize id (occupant (map_keys m)) key (Z.of_nat b) ->
  stops (occupant (map_keys m)) key (Z.of_nat b) = true -> map_keys m !! b = Some 0 ->
  map_ok (mkMap (map_size m + 1) (<[b := key]> (map_keys m)) (map_values m)) (<[key := 0]> f).
Proof using M Hkey.
  intros Hf Hsz Hb Hr Hs Hb0. apply lookup_lt_Some in Hb0 as Hlt.
  assert (Hother : forall (b' : nat) k, <[b := key]> (map_keys m) !! b' = Some k -> k <> key ->
            map_keys m !! b' = Some k /\ b' <> b).
  { intros b' k Hb' Hne. apply list_lookup_insert_Some in Hb' as [(_ & ? & _)|[? ?]]; naive_solver. }
  constructor; simpl; rewrite ?length_insert; try apply M.
  - intros b' k [(_ & <- & _)|[_ H]]%list_lookup_insert_Some; [lia|]. by eapply (mo_nonneg _ _ M).
  - refine (table_ok_insert MapSize ltac:(done) id (occupant (map_keys m)) _ key (Z.of_nat b)
      (mo_table _ _ M) ltac:(lia) Hr Hs _ _); unfold occupant.
    + rewrite Nat2Z.id, list_lookup_insert_eq by done.
      destruct (key =? 0) eqn:?; bools; [lia|done].
    + intros b' Hb' Hne. by rewrite list_lookup_insert_ne by lia.
  - rewrite map_size_insert_None by done. rewrite (mo_size _ _ M). lia.
  - rewrite (countb_insert _ _ _ 0) by done. rewrite (mo_used _ _ M). simpl.
    destruct (key >? 0) eqn:?; bools; lia.
  - lia.
  - intros k v. destruct (decide (k = key)) as [->|Hne].
    + rewrite lookup_insert_eq. split.
      * intros [= <-]. split; [lia|]. exists b. rewrite list_lookup_insert_eq by done.
        split; [done|]. by apply (mo_null _ _ M).
      * intros [_ (b' & Hk & Hv)]. apply list_lookup_insert_Some in Hk as [(<- & _)|[_ Hk]].
        -- rewrite (mo_null _ _ M b Hb0) in Hv. done.
        -- assert (f !! key = Some v) by (apply (mo_view _ _ M); split; [lia|eauto]). congruence.
    + rewrite lookup_insert_ne by done. rewrite (mo_view _ _ M).
      split; intros [Hk0 (b' & Hk & Hv)]; split; auto; exists b'.
      * rewrite list_lookup_insert_ne; [done|]. naive_solver.
      * by destruct (Hother _ _ Hk Hne).
  - intros b' Hb'. destruct (Hother b' 0 Hb') as [? _]; [lia|]. by apply (mo_null _ _ M).
Qed.

(** The first access to a key: a bucket is taken for it, or the assertion on
    the number of keys fails. *)
Lemma map_bucket_new :
  f !! key = None ->
  if map_size m <? MapSize - 2
  then exists (b : nat) m', map_bucket m key = Ok (m', Z.of_nat b) /\ map_ok m' (<[key := 0]> f) /\
         map_keys m' !! b = Some key /\ map_values m' !! b = Some 0
  else map_bucket m key = Aborted.
Proof using M Hkey.
  intros Hf. destruct key_search_view as (b & Hp & Hb & Hr & Hs & Hv). rewrite Hf in Hv.
  pose proof (mo_bound _ _ M) as Hbd. pose proof (mo_size _ _ M) as Hsz.
  pose proof (mo_keys _ _ M). apply lookup_lt_Some in Hv as Hlt.
  unfold map_bucket. rewrite Hp, bind_of_Ok.
  rewrite (arr_get_lookup _ _ 0), bind_of_Ok by (rewrite ?Nat2Z.id; done || lia). simpl (0 =? 0).
  rewrite arr_set_in, bind_of_Ok, Nat2Z.id by lia. unfold MapSize in *.
  rewrite u32_small by lia. destruct (map_size m <? 32 - 2) eqn:Hlim; bools.
  - unfold Assert. replace (map_size m + 1 <? 32 - 1) with true by lia. simpl.
    exists b. eexists. split; [reflexivity|]. split; [by apply map_ok_new|]. simpl.
    rewrite list_lookup_insert_eq by done. split; [done|]. by apply (mo_null _ _ M).
  - unfold Assert. replace (map_size m + 1 <? 32 - 1) with false by lia. done.
Qed.

(** Writing through the returned pointer. *)
Lemma map_ok_write (b : nat) v :
  map_keys m !! b = Some key ->
  map_ok (mkMap (map_size m) (map_keys m) (<[b := v]> (map_values m))) (<[key := v]> f).
Proof using M Hkey.
  intros Hb. destruct (key_bucket b Hb) as [Hbr Ho].
  destruct (lookup_lt_is_Some_2 (map_values m) b) as [v0 Hv0].
  { rewrite (mo_values _ _ M). unfold MapSize in *. lia. }
  assert (Hin : f !! key = Some v0) by (apply (mo_view _ _ M); split; [lia|eauto]).
  constructor; simpl; rewrite ?length_insert; try apply M.
  - rewrite map_size_insert_Some by eauto. apply M.
  - intros k w. destruct (decide (k = key)) as [->|Hne].
    + rewrite lookup_insert_eq. split.
      * intros [= <-]. split; [lia|]. exists b. split; [done|].
        apply list_lookup_insert_eq. by apply lookup_lt_Some in Hv0.
      * intros [_ (b' & Hk & Hw)]. destruct (key_bucket b' Hk) as [Hb'r Ho'].
        assert (Z.of_nat b = Z.of_nat b') by (eapply (key_unique MapSize id); eauto using mo_table).
        assert (b' = b) as -> by lia.
        rewrite list_lookup_insert_eq in Hw by (by apply lookup_lt_Some in Hv0). done.
    + rewrite lookup_insert_ne by done. rewrite (mo_view _ _ M).
      split; intros [Hk0 (b' & Hk & Hw)]; split; auto; exists b'; split; auto.
      * rewrite list_lookup_insert_ne; [done|]. naive_solver.
      * rewrite list_lookup_insert_ne in Hw; [done|]. naive_solver.
  - intros b' Hb'. rewrite list_lookup_insert_ne; [by apply (mo_null _ _ M)|].
    intros ->. rewrite Hb in Hb'. simplify_eq. lia.
Qed.
End access.

(** Thread [tid] has the abstract contents [f]. *)
Definition tls_rel (st : tls_state) (tid : Z) (f : gmap Z Z) : Prop :=
  if is_multithreaded st then
    match thread_maps st !! tid with Some m => map_ok m f | None => f = ∅ end
  else map_ok (map_for_process st) f.

(** The system calls succeed. *)
Definition os_ok (os : tls_oracle) : Prop := malloc_ok os = true /\ setspecific_ret os = 0.

(** Contents after an access to [key]: a first access enters it with NULL. *)
Definition touch (key : Z) (f : gmap Z Z) : gmap Z Z :=
  match f !! key with Some _ => f | None => <[key := 0]> f end.

(** There is room for [key]: it is known, or fewer than 30 keys are. *)
Definition has_room (key : Z) (f : gmap Z Z) : Prop :=
  is_Some (f !! key) \/ Z.of_nat (base.size f) < MapSize - 2.

Lemma select_map_ok os st tid f :
  os_ok os -> tls_rel st tid f -> exists m, select_map os st tid = Ok m /\ map_ok m f.
Proof.
  intros [Hm Hs] Hr. unfold select_map, tls_rel in *.
  destruct (is_multithreaded st); [|by eauto]. destruct (thread_maps st !! tid) eqn:?; [by eauto|].
  subst. rewrite Hm, Hs. simpl. eauto using zero_map_ok.
Qed.

Lemma store_map_rel st tid m f : map_ok m f -> tls_rel (store_map st tid m) tid f.
Proof.
  intros Hm. unfold tls_rel, store_map. destruct (is_multithreaded st) eqn:?; simpl; [|done].
  by rewrite lookup_insert_eq.
Qed.

Lemma store_map_other st tid tid' m f :
  is_multithreaded st = true -> tid' <> tid -> tls_rel st tid' f ->
  tls_rel (store_map st tid m) tid' f.
Proof.
  unfold tls_rel, store_map. intros -> Hne. simpl. by rewrite lookup_insert_ne.
Qed.

Lemma getValue_ok os st tid key f :
  os_ok os -> tls_rel st tid f -> 0 < key < 2 ^ 32 -> has_room key f ->
  exists m (b : nat), getValue os st tid key = Ok (m, Z.of_nat b) /\ map_ok m (touch key f) /\
    map_keys m !! b = Some key /\ map_values m !! b = Some (default 0 (f !! key)).
Proof.
  intros Hos Hr Hk Hroom. destruct (select_map_ok os st tid f Hos Hr) as (m & Hsel & Hm).
  unfold getValue, touch. rewrite Hsel, bind_of_Ok. destruct (f !! key) as [v|] eqn:Hf.
  - destruct (map_bucket_found m f key Hm Hk v Hf) as (b & -> & ? & ?). by exists m, b.
  - pose proof (map_bucket_new m f key Hm Hk Hf) as Hnew.
    replace (map_size m <? MapSize - 2) with true in Hnew.
    + destruct Hnew as (b & m' & -> & ? & ? & ?). by exists m', b.
    + rewrite (mo_size _ _ Hm). destruct Hroom as [[? ?]|]; [congruence|lia].
Qed.

(** C9: CBTF_SetTLS(key, value) by a thread that has room for the key succeeds
    and updates exactly that key of that thread: the thread's contents become
    [<[key := value]> f] and no other thread's contents change. *)
Theorem CBTF_SetTLS_refines (os : tls_oracle) (st : tls_state) (tid key value : Z) (f : gmap Z Z) :
  os_ok os -> tls_rel st tid f -> 0 < key < 2 ^ 32 -> has_room key f ->
  exists st', CBTF_SetTLS os tid key value st = Ok st' /\
    tls_rel st' tid (<[key := value]> f) /\
    forall tid' f', is_multithreaded st = true -> tid' <> tid -> tls_rel st tid' f' -> tls_rel st' tid' f'.
Proof.
  intros Hos Hr Hk Hroom. destruct (getValue_ok os st tid key f Hos Hr Hk Hroom)
    as (m & b & Hg & Hm & Hkb & Hvb).
  unfold CBTF_SetTLS, Assert. replace (0 <? key) with true by lia. simpl. rewrite Hg, bind_of_Ok. simpl.
  rewrite arr_set_in, bind_of_Ok, Nat2Z.id by (apply lookup_lt_Some in Hvb; lia).
  eexists. split; [reflexivity|]. split; [|eauto using store_map_other].
  apply store_map_rel. replace (<[key := value]> f) with (<[key := value]> (touch key f)).
  - by apply map_ok_write.
  - unfold touch. destruct (f !! key); [done|]. apply insert_insert_eq.
Qed.

(** CBTF_GetTLS(key) by a thread that has room for the key returns the value
    last set for it, NULL if none was, and changes no value of any thread. *)
Theorem CBTF_GetTLS_refines (os : tls_oracle) (st : tls_state) (tid key : Z) (f : gmap Z Z) :
  os_ok os -> tls_rel st tid f -> 0 < key < 2 ^ 32 -> has_room key f ->
  exists st', CBTF_GetTLS os tid key st = Ok (default 0 (f !! key), st') /\
    tls_rel st' tid (touch key f) /\
    (forall k, default 0 (touch key f !! k) = default 0 (f !! k)) /\
    forall tid' f', is_multithreaded st = true -> tid' <> tid -> tls_rel st tid' f' -> tls_rel st' tid' f'.
Proof.
  intros Hos Hr Hk Hroom. destruct (getValue_ok os st tid key f Hos Hr Hk Hroom)
    as (m & b & Hg & Hm & Hkb & Hvb).
  unfold CBTF_GetTLS, Assert. replace (0 <? key) with true by lia. simpl. rewrite Hg, bind_of_Ok. simpl.
  rewrite (arr_get_lookup _ _ (default 0 (f !! key))), bind_of_Ok by (rewrite ?Nat2Z.id; done || lia).
  eexists. split_and!; [reflexivity| | |].
  - by apply store_map_rel.
  - intros k. unfold touch. destruct (f !! key) eqn:Hf; [done|].
    rewrite lookup_insert. by case_decide; subst; rewrite ?Hf.
  - eauto using store_map_other.
Qed.

(** The 31st distinct key of a thread fails the assertion that keeps an
    empty bucket for the probe to end at: CBTF_SetTLS and CBTF_GetTLS abort. *)
Theorem TLS_31st_key_aborts (os : tls_oracle) (st : tls_state) (tid key value : Z) (f : gmap Z Z) :
  os_ok os -> tls_rel st tid f -> 0 < key < 2 ^ 32 ->
  f !! key = None -> Z.of_nat (base.size f) = MapSize - 2 ->
  CBTF_SetTLS os tid key value st = Aborted /\ CBTF_GetTLS os tid key st = Aborted.
Proof.
  intros Hos Hr Hk Hf Hsz. destruct (select_map_ok os st tid f Hos Hr) as (m & Hsel & Hm).
  pose proof (map_bucket_new m f key Hm Hk Hf) as Hnew.
  rewrite (mo_size _ _ Hm), Hsz in Hnew. simpl in Hnew.
  unfold CBTF_SetTLS, CBTF_GetTLS, getValue, Assert. replace (0 <? key) with true by lia. simpl.
  by rewrite Hsel, bind_of_Ok, Hnew.
Qed.

(** Contents of a thread that has touched the keys 1..n. *)
Fixpoint keys_upto (n : nat) : gmap Z Z :=
  match n with O => ∅ | S n' => <[Z.of_nat n := 0]> (keys_upto n') end.

Lemma keys_upto_fresh n k : Z.of_nat n < k -> keys_upto n !! k = None.
Proof.
  induction n as [|n IH]; intros Hk; [done|]. cbn [keys_upto]. rewrite lookup_insert_ne by lia. apply IH. lia.
Qed.

Lemma keys_upto_size n : base.size (keys_upto n) = n.
Proof.
  induction n as [|n IH]; [done|]. cbn [keys_upto]. rewrite map_size_insert_None; [by rewrite IH|].
  apply keys_upto_fresh. lia.
Qed.

Lemma keys_upto_reached n : Z.of_nat n <= MapSize - 2 -> exists m, map_ok m (keys_upto n).
Proof.
  induction n as [|n IH]; intros Hn; [eauto using zero_map_ok|]. destruct IH as [m Hm]; [lia|].
  pose proof (map_bucket_new m (keys_upto n) (Z.of_nat (S n)) Hm) as H.
  rewrite (mo_size _ _ Hm), keys_upto_size in H. unfold MapSize in *.
  rewrite (proj2 (Z.ltb_lt _ _)) in H by lia.
  destruct H as (b & m' & _ & Hm' & _); [lia|apply keys_upto_fresh; lia|by exists m'].
Qed.

Lemma CBTF_SetTLS_witness :
  exists st', CBTF_SetTLS (mkOracle true 0) 7 5 4096 (mkTls true zero_map ∅) = Ok st' /\
    tls_rel st' 7 (<[5 := 4096]> ∅) /\ tls_rel st' 8 ∅.
Proof.
  destruct (CBTF_SetTLS_refines (mkOracle true 0) (mkTls true zero_map ∅) 7 5 4096 ∅) as (st' & H & Hr & Ho);
    [done..|by right; vm_compute|].
  exists st'. split_and!; [exact H|exact Hr|by apply Ho].
Defined.

Lemma CBTF_GetTLS_witness :
  exists st', CBTF_GetTLS (mkOracle true 0) 7 5 (mkTls true zero_map ∅) = Ok (0, st') /\
    tls_rel st' 7 (<[5 := 0]> ∅).
Proof.
  destruct (CBTF_GetTLS_refines (mkOracle true 0) (mkTls true zero_map ∅) 7 5 ∅) as (st' & H & Hr & _);
    [done..|by right; vm_compute|].
  exists st'. split; [exact H|exact Hr].
Defined.

(** A thread that has used the keys 1..30 asks for key 31. *)
Lemma TLS_31st_key_witness :
  exists st, tls_rel st 7 (keys_upto 30) /\ CBTF_SetTLS (mkOracle true 0) 7 31 4096 st = Aborted.
Proof.
  destruct (keys_upto_reached 30) as [m Hm]; [by vm_compute|].
  exists (mkTls true zero_map {[7 := m]}).
  assert (Hr : tls_rel (mkTls true zero_map {[7 := m]}) 7 (keys_upto 30)).
  { by apply (store_map_rel (mkTls true zero_map ∅)). }
  split; [exact Hr|].
  apply (TLS_31st_key_aborts (mkOracle true 0) _ 7 31 4096 (keys_upto 30)); [done|exact Hr|done| |].
  - by apply keys_upto_fresh.
  - by rewrite keys_upto_size.
Defined.
