(* ===== verification/Headers.v ===== *)
(** The headers of performance data and of events: the structures of
    DataHeader.x and EventHeader.x, services/src/data/InitializeDataHeader.c and
    InitializeEventHeader.c, and the interval updates every collector defines
    (update_header_with_time, update_header_with_address). *)
From S2P Require Import Prelude.

Record CBTF_DataHeader := mkDataHeader {
  dh_experiment : Z;
  dh_collector : Z;
  dh_id : string;
  dh_host : string;
  dh_pid : Z;
  dh_posix_tid : Z;
  dh_rank : Z;
  dh_omp_tid : Z;
  dh_time_begin : Z;
  dh_time_end : Z;
  dh_addr_begin : Z;
  dh_addr_end : Z
}.

Record CBTF_EventHeader := mkEventHeader {
  eh_host : string;
  eh_pid : Z;
  eh_posix_tid : Z;
  eh_rank : Z;
  eh_omp_tid : Z;
  eh_has_posix_tid : bool
}.

#[export] Instance DataHeader_eq : EqDecision CBTF_DataHeader.
Proof. solve_decision. Defined.
#[export] Instance EventHeader_eq : EqDecision CBTF_EventHeader.
Proof. solve_decision. Defined.

(** Field updates used by the collectors. *)
Definition with_times (h : CBTF_DataHeader) (tb te : Z) : CBTF_DataHeader :=
  mkDataHeader (dh_experiment h) (dh_collector h) (dh_id h) (dh_host h) (dh_pid h) (dh_posix_tid h)
    (dh_rank h) (dh_omp_tid h) tb te (dh_addr_begin h) (dh_addr_end h).
Definition with_addrs (h : CBTF_DataHeader) (ab ae : Z) : CBTF_DataHeader :=
  mkDataHeader (dh_experiment h) (dh_collector h) (dh_id h) (dh_host h) (dh_pid h) (dh_posix_tid h)
    (dh_rank h) (dh_omp_tid h) (dh_time_begin h) (dh_time_end h) ab ae.
Definition with_rank (h : CBTF_DataHeader) (r : Z) : CBTF_DataHeader :=
  mkDataHeader (dh_experiment h) (dh_collector h) (dh_id h) (dh_host h) (dh_pid h) (dh_posix_tid h)
    r (dh_omp_tid h) (dh_time_begin h) (dh_time_end h) (dh_addr_begin h) (dh_addr_end h).
Definition with_omp_tid (h : CBTF_DataHeader) (t : Z) : CBTF_DataHeader :=
  mkDataHeader (dh_experiment h) (dh_collector h) (dh_id h) (dh_host h) (dh_pid h) (dh_posix_tid h)
    (dh_rank h) t (dh_time_begin h) (dh_time_end h) (dh_addr_begin h) (dh_addr_end h).
Definition with_id (h : CBTF_DataHeader) (i : string) : CBTF_DataHeader :=
  mkDataHeader (dh_experiment h) (dh_collector h) i (dh_host h) (dh_pid h) (dh_posix_tid h)
    (dh_rank h) (dh_omp_tid h) (dh_time_begin h) (dh_time_end h) (dh_addr_begin h) (dh_addr_end h).

(** ** The name of the host *)

(** One result of getaddrinfo(): whether its address is INADDR_LOOPBACK, and
    its canonical name. *)
Record addrinfo := mkAddrinfo { ai_loopback : bool; ai_canonname : option string }.

(** What the system tells a thread that asks who it is. HOST_NAME_MAX is the
    platform's limit, or 256 where it has none. *)
Record identity := mkIdentity {
  HOST_NAME_MAX : Z;
  id_gethostname : option string;         (* None: gethostname() fails *)
  id_getaddrinfo : nat -> option addrinfo;   (* result of the n-th call *)
  id_getpid : Z;
  id_pthread_self : Z
}.

(** gethostname(buf, len) keeps at most [len] characters of the name. *)
Definition gethostname (who : identity) : outcome string :=
  match id_gethostname who with
  | Some name => Ok (String.substring 0 (Z.to_nat (HOST_NAME_MAX who)) name)
  | None => Aborted
  end.

(** strcpy into char[HOST_NAME_MAX] *)
Definition strcpy_host (who : identity) (name : string) : outcome string :=
  if Z.of_nat (String.length name) <? HOST_NAME_MAX who then Ok name else Fault.

(** Lines shared by the two functions: the host name, replaced by the canonical
    name of its address when there is one. [offline] is CBTF_OFFLINE_SERVICE. *)
Definition host_name (offline : bool) (who : identity) : outcome string :=
  host ← gethostname who;
  if offline then Ok host else
    let results := match id_getaddrinfo who 0 with
                   | Some ai => if ai_loopback ai then id_getaddrinfo who 1 else Some ai
                   | None => None
                   end in
    match results with
    | Some ai => match ai_canonname ai with
                 | Some name => strcpy_host who name
                 | None => Ok host
                 end
    | None => Ok host
    end.

Definition CBTF_InitializeDataHeader (offline : bool) (who : identity) (experiment collector : Z)
  : outcome CBTF_DataHeader :=
  host ← host_name offline who;
  Ok (mkDataHeader experiment collector "" host (id_getpid who) (id_pthread_self who) (-1) 0 0 0 0 0).

Definition CBTF_InitializeEventHeader (offline : bool) (who : identity) : outcome CBTF_EventHeader :=
  host ← host_name offline who;
  Ok (mkEventHeader host (id_getpid who) (id_pthread_self who) (-1) 0 false).

(** ** Interval updates *)
Definition update_header_with_time (h : CBTF_DataHeader) (time : Z) : CBTF_DataHeader :=
  let h1 := if time <? dh_time_begin h then with_times h time (dh_time_end h) else h in
  if time >=? dh_time_end h1 then with_times h1 (dh_time_begin h1) (u64 (time + 1)) else h1.

Definition update_header_with_address (h : CBTF_DataHeader) (addr : Z) : CBTF_DataHeader :=
  let h1 := if addr <? dh_addr_begin h then with_addrs h addr (dh_addr_end h) else h in
  if addr >=? dh_addr_end h1 then with_addrs h1 (dh_addr_begin h1) (u64 (addr + 1)) else h1.

(** One update extends the interval just as far as needed. *)
Lemma update_header_with_time_spec h time :
  0 <= time < UINT64_MAX ->
  dh_time_begin (update_header_with_time h time) = Z.min (dh_time_begin h) time /\
  dh_time_end (update_header_with_time h time) = Z.max (dh_time_end h) (time + 1).
Proof.
  intros Ht. unfold update_header_with_time, UINT64_MAX in *.
  destruct (time <? dh_time_begin h) eqn:?; simpl;
    destruct (time >=? dh_time_end h) eqn:?; simpl; rewrite ?u64_small by lia; lia.
Qed.

Lemma update_header_with_address_spec h addr :
  0 <= addr < UINT64_MAX ->
  dh_addr_begin (update_header_with_address h addr) = Z.min (dh_addr_begin h) addr /\
  dh_addr_end (update_header_with_address h addr) = Z.max (dh_addr_end h) (addr + 1).
Proof.
  intros Ht. unfold update_header_with_address, UINT64_MAX in *.
  destruct (addr <? dh_addr_begin h) eqn:?; simpl;
    destruct (addr >=? dh_addr_end h) eqn:?; simpl; rewrite ?u64_small by lia; lia.
Qed.

(** A fold of interval updates that each take the minimum and the maximum. *)
Lemma interval_fold {H} (upd : H -> Z -> H) (lo hi : H -> Z) (l : list Z) : forall h,
  (forall h x, x ∈ l -> lo (upd h x) = Z.min (lo h) x /\ hi (upd h x) = Z.max (hi h) (x + 1)) ->
  lo (foldl upd h l) = foldr Z.min (lo h) l /\ hi (foldl upd h l) = foldr Z.max (hi h) (Z.succ <$> l).
Proof.
  induction l as [|x l IH]; intros h Hu; [done|]. rewrite fmap_cons. cbn [foldl foldr].
  destruct (IH (upd h x)) as [-> ->]; [intros; apply Hu; by right|].
  destruct (Hu h x) as [-> ->]; [by left|]. clear.
  generalize (Z.succ <$> l) as l'. intros l'. change (x + 1) with (Z.succ x). split.
  - induction l as [|y l IH]; simpl; [lia|rewrite IH; lia].
  - induction l' as [|y l' IH]; simpl; [lia|rewrite IH; lia].
Qed.

Lemma frame_fold {H A} (upd : H -> Z -> H) (f : H -> A) (l : list Z) : forall h,
  (forall h x, f (upd h x) = f h) -> f (foldl upd h l) = f h.
Proof. induction l as [|x l IH]; intros h Hu; [done|]. simpl. by rewrite IH, Hu. Qed.

(** Folding any number of event times and addresses below 2^64 - 1 into a
    header with update_header_with_time and update_header_with_address leaves
    half-open intervals that are the least ones extending the original intervals
    to contain every one of them. *)
Theorem header_intervals_are_least (times addrs : list Z) (h : CBTF_DataHeader) :
  Forall (fun t => 0 <= t < UINT64_MAX) times -> Forall (fun a => 0 <= a < UINT64_MAX) addrs ->
  let h' := foldl update_header_with_address (foldl update_header_with_time h times) addrs in
  dh_time_begin h' = foldr Z.min (dh_time_begin h) times /\
  dh_time_end h' = foldr Z.max (dh_time_end h) (Z.succ <$> times) /\
  dh_addr_begin h' = foldr Z.min (dh_addr_begin h) addrs /\
  dh_addr_end h' = foldr Z.max (dh_addr_end h) (Z.succ <$> addrs).
Proof.
  rewrite !Forall_forall. intros Ht Ha h'. subst h'.
  destruct (interval_fold update_header_with_time dh_time_begin dh_time_end times h) as [H1 H2].
  { intros. by apply update_header_with_time_spec, Ht. }
  destruct (interval_fold update_header_with_address dh_addr_begin dh_addr_end addrs
    (foldl update_header_with_time h times)) as [-> ->].
  { intros. by apply update_header_with_address_spec, Ha. }
  rewrite !(frame_fold update_header_with_address dh_time_begin), (frame_fold update_header_with_address dh_time_end),
    (frame_fold update_header_with_time dh_addr_begin), (frame_fold update_header_with_time dh_addr_end), H1, H2;
    [done|..]; intros; unfold update_header_with_time, update_header_with_address; by repeat case_match.
Qed.

Lemma header_intervals_witness :
  let h := mkDataHeader 0 1 "pcsamp" "n0" 1 1 (-1) 0 UINT64_MAX 0 UINT64_MAX 0 in
  let h' := foldl update_header_with_address (foldl update_header_with_time h [7; 3]) [4096] in
  dh_time_begin h' = 3 /\ dh_time_end h' = 8 /\ dh_addr_begin h' = 4096 /\ dh_addr_end h' = 4097.
Proof.
  apply (header_intervals_are_least [7; 3] [4096]
    (mkDataHeader 0 1 "pcsamp" "n0" 1 1 (-1) 0 UINT64_MAX 0 UINT64_MAX 0)); repeat constructor; by vm_compute.
Defined.

Lemma substring_length (s : string) (n : nat) : (String.length (String.substring 0 n s) <= n)%nat.
Proof. revert n. induction s as [|c s IH]; intros [|n]; simpl; try lia. specialize (IH n). lia. Qed.

(** Whenever the header initialisation returns, the host name it stored fits
    in the char[HOST_NAME_MAX] member. *)
Lemma InitializeDataHeader_host_fits (offline : bool) (who : identity) (experiment collector : Z)
    (h : CBTF_DataHeader) :
  CBTF_InitializeDataHeader offline who experiment collector = Ok h -> 0 <= HOST_NAME_MAX who ->
  Z.of_nat (String.length (dh_host h)) <= HOST_NAME_MAX who /\ dh_rank h = -1 /\
  dh_experiment h = experiment /\ dh_collector h = collector.
Proof.
  unfold CBTF_InitializeDataHeader, host_name, gethostname, strcpy_host. intros H Hmax. inv_ok. simpl.
  split; [|done]. destruct (id_gethostname who) as [name|]; inv_ok.
  pose proof (substring_length name (Z.to_nat (HOST_NAME_MAX who))).
  repeat (case_match; inv_ok; bools; auto; try lia).
Qed.
