(* ===== verification/Services.v ===== *)
(** What a collector may ask of the services it is linked with (Services/*.h and
    the libmonitor queries): an interface, the laws its clients rely on, and the
    reference implementation that discharges them. Collectors are modelled and
    verified against the interface. *)
From S2P Require Import Prelude Probe PCIndex Headers.

(** The flags OMPT sets (HAVE_OMPT builds). *)
Record ompt_flags := mkOmpt {
  thread_idle : bool;
  thread_wait_barrier : bool;
  thread_barrier : bool
}.

(** Build options of the sampling collectors and addresses of its OMPT functions. *)
Record build := mkBuild {
  b_arch : arch;
  b_have_ompt : bool;
  b_addr_idle : Z;
  b_addr_wait_barrier : Z;
  b_addr_barrier : Z
}.

(** [W] is the state of everything outside the collector, [D] the collector's
    data blob. *)
Class Services (W D : Type) := {
  CBTF_GetTime : W -> outcome (Z * W);
  cbtf_collector_send : CBTF_DataHeader -> D -> W -> outcome W;
  svc_timer_start : Z -> W -> outcome W;      (* CBTF_Timer(interval, handler) *)
  svc_timer_stop : W -> outcome W;            (* CBTF_Timer(0, NULL) *)
  svc_block_signal : W -> W;                  (* CBTF_BlockTimerSignal() *)
  svc_unblock_signal : W -> W;                (* CBTF_UnBlockTimerSignal() *)
  monitor_mpi_comm_rank : W -> Z;
  monitor_get_thread_num : W -> Z;
  getenv : W -> string -> option string;
  cbtf_connected_to_mrnet : W -> bool;
  cbtf_mpi_init_done : W -> bool
}.

(** The clock answers, each blob sent is delivered once and in order, and
    nothing else delivers a blob. *)
Class ServicesLaws (W D : Type) {S : Services W D} := {
  sent : W -> list (CBTF_DataHeader * D);
  time_law : forall w, exists t w', CBTF_GetTime w = Ok (t, w') /\ 0 <= t < 2 ^ 64 /\ sent w' = sent w;
  send_law : forall h d w, exists w', cbtf_collector_send h d w = Ok w' /\ sent w' = sent w ++ [(h, d)];
  timer_start_law : forall i w, exists w', svc_timer_start i w = Ok w' /\ sent w' = sent w;
  timer_stop_law : forall w, exists w', svc_timer_stop w = Ok w' /\ sent w' = sent w;
  block_law : forall w, sent (svc_block_signal w) = sent w;
  unblock_law : forall w, sent (svc_unblock_signal w) = sent w
}.

(** ** Reference implementation: a log of what was asked, over a clock. *)
Inductive call :=
| CallTimerStart (interval : Z)
| CallTimerStop
| CallBlock
| CallUnblock.

Record log_world (D : Type) := mkLog {
  lw_clock : nat -> Z;
  lw_tick : nat;
  lw_rank : Z;
  lw_thread_num : Z;
  lw_env : string -> option string;
  lw_connected : bool;
  lw_mpi_done : bool;
  lw_sent : list (CBTF_DataHeader * D);
  lw_calls : list call
}.
Arguments mkLog {D}.
Arguments lw_clock {D}. Arguments lw_tick {D}. Arguments lw_rank {D}.
Arguments lw_thread_num {D}. Arguments lw_env {D}. Arguments lw_connected {D}.
Arguments lw_mpi_done {D}. Arguments lw_sent {D}. Arguments lw_calls {D}.

Definition lw_with {D} (w : log_world D) (tick : nat) (snt : list (CBTF_DataHeader * D))
    (calls : list call) : log_world D :=
  mkLog (lw_clock w) tick (lw_rank w) (lw_thread_num w) (lw_env w) (lw_connected w) (lw_mpi_done w)
    snt calls.

#[export] Instance log_services {D} : Services (log_world D) D := {
  CBTF_GetTime w := Ok (u64 (lw_clock w (lw_tick w)),
                        lw_with w (S (lw_tick w)) (lw_sent w) (lw_calls w));
  cbtf_collector_send h d w := Ok (lw_with w (lw_tick w) (lw_sent w ++ [(h, d)]) (lw_calls w));
  svc_timer_start i w := Ok (lw_with w (lw_tick w) (lw_sent w) (lw_calls w ++ [CallTimerStart i]));
  svc_timer_stop w := Ok (lw_with w (lw_tick w) (lw_sent w) (lw_calls w ++ [CallTimerStop]));
  svc_block_signal w := lw_with w (lw_tick w) (lw_sent w) (lw_calls w ++ [CallBlock]);
  svc_unblock_signal w := lw_with w (lw_tick w) (lw_sent w) (lw_calls w ++ [CallUnblock]);
  monitor_mpi_comm_rank := lw_rank;
  monitor_get_thread_num := lw_thread_num;
  getenv := lw_env;
  cbtf_connected_to_mrnet := lw_connected;
  cbtf_mpi_init_done := lw_mpi_done
}.

#[export] Instance log_laws {D} : ServicesLaws (log_world D) D.
Proof.
  refine {| sent := lw_sent |}; simpl; intros; repeat eexists; auto; apply Z.mod_pos_bound; lia.
Defined.

(** A world for concrete runs. *)
Definition quiet_world (D : Type) : log_world D :=
  mkLog (fun n => 1000 + 10 * Z.of_nat n) 0 0 0 (fun _ => None) true true [] [].

(** atoi(): strtol() with base 10, converted to an int. White space and a sign may
    come first; what a long does not hold saturates. *)
Fixpoint after_space (s : string) : string :=
  match s with
  | String c s' =>
      let n := Z.of_nat (Ascii.nat_of_ascii c) in
      if (n =? 32) || ((9 <=? n) && (n <=? 13)) then after_space s' else s
  | EmptyString => s
  end.

Fixpoint atoi_digits (acc : Z) (s : string) : Z :=
  match s with
  | EmptyString => acc
  | String c s' =>
      let d := Z.of_nat (Ascii.nat_of_ascii c) - 48 in
      if (0 <=? d) && (d <=? 9) then atoi_digits (acc * 10 + d) s' else acc
  end.

Definition atoi (s : string) : Z :=
  let clamp n := Z.max (- 2 ^ 63) (Z.min n (2 ^ 63 - 1)) in
  match after_space s with
  | String c s' as t =>
      if Nat.eqb (Ascii.nat_of_ascii c) 45 then i32 (clamp (- atoi_digits 0 s'))
      else if Nat.eqb (Ascii.nat_of_ascii c) 43 then i32 (clamp (atoi_digits 0 s'))
      else i32 (clamp (atoi_digits 0 t))
  | EmptyString => 0
  end.

Example atoi_forms : atoi " 	+100" = 100 /\ atoi "-5x" = -5 /\ atoi "99999999999999999999" = -1.
Proof. by vm_compute. Qed.
