(* ===== verification/Papi.v ===== *)
(** Hardware counters: services/src/papi/PapiAPI.c over the PAPI library. PAPI is
    not under src/: its calls and constants are an interface ([Papi]), and what
    the collectors rely on is stated as laws: no PAPI call touches what the
    collector observes elsewhere ([PapiFrame]), and the counters of an event set
    behave as PAPI documents ([PapiCounters]). A reference implementation over the
    log of Services.v satisfies them. *)
From S2P Require Import Prelude Probe PCIndex Headers Services.

(** PAPI calls return a code, and what they store through pointers. *)
Class Papi (W : Type) := {
  PAPI_OK : Z;
  PAPI_NULL : Z;
  PAPI_ENOTRUN : Z;
  PAPI_ENOSUPP : Z;
  PAPI_VER_CURRENT : Z;
  PAPI_STOPPED : Z;
  PAPI_RUNNING : Z;
  PAPI_MAX_STR_LEN : Z;
  PAPI_library_init : Z -> W -> Z * W;
  PAPI_get_hardware_info : W -> option Z;        (* the mhz of the description, or NULL *)
  PAPI_thread_init : W -> Z * W;
  PAPI_multiplex_init : W -> Z * W;
  PAPI_event_name_to_code : string -> Z -> W -> Z * Z;   (* code, new *EventCode *)
  PAPI_query_event : Z -> W -> Z;
  PAPI_get_event_info : Z -> W -> Z;
  PAPI_create_eventset : Z -> W -> Z * Z * W;            (* code, new *EventSet *)
  PAPI_assign_eventset_component : Z -> Z -> W -> Z * W;
  PAPI_set_multiplex : Z -> W -> Z * W;
  PAPI_add_event : Z -> Z -> W -> Z * W;
  PAPI_overflow : Z -> Z -> Z -> Z -> W -> Z * W;        (* set, event, threshold, flags *)
  PAPI_state : Z -> Z -> W -> Z * Z;                     (* code, new *status *)
  PAPI_start : Z -> W -> Z * W;
  PAPI_stop : Z -> option (list Z) -> W -> Z * option (list Z) * W;
  PAPI_accum : Z -> list Z -> W -> Z * list Z * W;
  PAPI_read : Z -> list Z -> W -> Z * list Z * W;
  papi_message : string -> Z -> W -> W                   (* fprintf(stderr, ...) *)
}.

Definition THRESHOLD : Z := 20000000.

Section papi_api.
Context {W : Type} {PA : Papi W}.

(** CBTF_PAPIerror(rval, where) *)
Definition CBTF_PAPIerror (rval : Z) (site : string) (w : W) : W := papi_message site rval w.

(** rval = call; if (rval != PAPI_OK) CBTF_PAPIerror(rval, where); *)
Definition report (site : string) (r : Z * W) : W :=
  if r.1 =? PAPI_OK then r.2 else CBTF_PAPIerror r.1 site r.2.

(** CBTF_init_papi(), threaded build: [hw_info] is the global pointer (NULL is
    [None]), [multiplex] whether CBTF_HWCSAMP_MULTIPLEX is set. A version
    mismatch ends the process; a negative code returns before hw_info is set. *)
Definition CBTF_init_papi (multiplex : bool) (hw_info : option Z) (w : W) : outcome (option Z * W) :=
  let r := PAPI_library_init PAPI_VER_CURRENT w in
  if negb (r.1 =? PAPI_VER_CURRENT) && (r.1 >? 0) then Aborted
  else if r.1 <? 0 then Ok (hw_info, papi_message "CBTF_init_papi" r.1 r.2)
  else
    let hw_info' := PAPI_get_hardware_info r.2 in
    let w2 := match hw_info' with
              | Some _ => r.2
              | None => papi_message "PAPI_get_hardware_info failed" 0 r.2
              end in
    let w3 := report "PAPI_thread_init failed" (PAPI_thread_init w2) in
    Ok (hw_info', if multiplex then report "PAPI_multiplex_init failed" (PAPI_multiplex_init w3) else w3).

(** get_papi_eventcode(): the name is copied into char[PAPI_MAX_STR_LEN]. *)
Definition get_papi_eventcode (eventname : string) (w : W) : outcome (Z * W) :=
  if Z.of_nat (String.length eventname) + 1 >? PAPI_MAX_STR_LEN then Fault else
    let r := PAPI_event_name_to_code eventname PAPI_NULL w in
    if r.1 =? PAPI_OK then Ok (r.2, w)
    else Ok (PAPI_NULL, papi_message "get_papi_eventcode" r.1 w).

Definition CBTF_event_exists (event : Z) (w : W) : bool * W :=
  let rval := PAPI_query_event event w in
  if negb (rval =? PAPI_OK) then (false, CBTF_PAPIerror rval "CBTF_event_exists" w)
  else
    let rval := PAPI_get_event_info event w in
    if negb (rval =? PAPI_OK) then (false, CBTF_PAPIerror rval "CBTF_event_exists" w)
    else (true, w).

(** CBTF_Create_Eventset(&EventSet): the new value of EventSet. *)
Definition CBTF_Create_Eventset (EventSet : Z) (w : W) : Z * W :=
  let e := if negb (EventSet =? PAPI_NULL) then PAPI_NULL else EventSet in
  let r := PAPI_create_eventset e w in
  (r.1.2, report "CBTF_Create_Eventset" (r.1.1, r.2)).

Definition CBTF_AddEvent (EventSet event : Z) (w : W) : W :=
  report "CBTF_AddEvent" (PAPI_add_event EventSet event (CBTF_event_exists event w).2).

Definition CBTF_Overflow (EventSet event threshold : Z) (w : W) : W :=
  let w1 := if EventSet =? PAPI_NULL then papi_message "CBTF_Overflow:EventSet is PAPI_NULL!" 0 w else w in
  report "CBTF_Overflow" (PAPI_overflow EventSet event threshold 0 w1).

Definition CBTF_Start (EventSet : Z) (w : W) : W :=
  let s := PAPI_state EventSet 0 w in
  let w1 := report "CBTF_Start" (s.1, w) in
  if Z.land s.2 PAPI_RUNNING =? 0 then report "CBTF_Start" (PAPI_start EventSet w1) else w1.

Definition CBTF_Stop (EventSet : Z) (evalues : option (list Z)) (w : W) : option (list Z) * W :=
  if EventSet =? PAPI_NULL then (evalues, w) else
    let s := PAPI_state EventSet 0 w in
    let w1 := report "CBTF_Stop" (s.1, w) in
    if Z.land s.2 PAPI_STOPPED =? 0 then
      let r := PAPI_stop EventSet evalues w1 in
      (r.1.2, report "CBTF_Stop" (r.1.1, r.2))
    else (evalues, w1).

Definition CBTF_HWCAccum (EventSet : Z) (evalues : list Z) (w : W) : list Z * W :=
  if EventSet =? PAPI_NULL then (evalues, w) else
    let r := PAPI_accum EventSet evalues w in
    (r.1.2, report "CBTF_HWCAccum" (r.1.1, r.2)).

Definition CBTF_HWCRead (EventSet : Z) (evalues : list Z) (w : W) : list Z * W :=
  if EventSet =? PAPI_NULL then (evalues, w) else
    let r := PAPI_read EventSet evalues w in
    (r.1.2, report "CBTF_HWCRead" (r.1.1, r.2)).
End papi_api.

(** ** What PAPI promises

    An observation [obs] that no PAPI call changes. *)
Class PapiFrame {W A : Type} {PA : Papi W} (obs : W -> A) := {
  frame_library_init : forall v w, obs (PAPI_library_init v w).2 = obs w;
  frame_thread_init : forall w, obs (PAPI_thread_init w).2 = obs w;
  frame_multiplex_init : forall w, obs (PAPI_multiplex_init w).2 = obs w;
  frame_create : forall e w, obs (PAPI_create_eventset e w).2 = obs w;
  frame_assign : forall e c w, obs (PAPI_assign_eventset_component e c w).2 = obs w;
  frame_set_multiplex : forall e w, obs (PAPI_set_multiplex e w).2 = obs w;
  frame_add : forall e ev w, obs (PAPI_add_event e ev w).2 = obs w;
  frame_overflow : forall e ev t f w, obs (PAPI_overflow e ev t f w).2 = obs w;
  frame_start : forall e w, obs (PAPI_start e w).2 = obs w;
  frame_stop : forall e v w, obs (PAPI_stop e v w).2 = obs w;
  frame_accum : forall e v w, obs (PAPI_accum e v w).2 = obs w;
  frame_read : forall e v w, obs (PAPI_read e v w).2 = obs w;
  frame_message : forall s r w, obs (papi_message s r w) = obs w
}.

Section frame_lemmas.
Context {W A : Type} {PA : Papi W} (obs : W -> A) {PF : PapiFrame obs}.

Lemma report_frame site r : obs (report site r) = obs r.2.
Proof. unfold report, CBTF_PAPIerror. destruct (_ =? _); [done|]. apply frame_message. Qed.

Lemma event_exists_frame ev w : obs (CBTF_event_exists ev w).2 = obs w.
Proof.
  unfold CBTF_event_exists, CBTF_PAPIerror. repeat case_match; simpl; rewrite ?frame_message; done.
Qed.

Ltac frame_call :=
  repeat case_match; simpl;
  rewrite ?report_frame, ?frame_message, ?event_exists_frame, ?frame_create, ?frame_add,
    ?frame_overflow, ?frame_start, ?frame_stop, ?frame_accum, ?frame_thread_init,
    ?frame_multiplex_init, ?frame_library_init; simpl;
  rewrite ?report_frame, ?frame_message, ?event_exists_frame, ?frame_create, ?frame_add,
    ?frame_overflow, ?frame_start, ?frame_stop, ?frame_accum, ?frame_read, ?frame_thread_init,
    ?frame_multiplex_init, ?frame_library_init; simpl;
  rewrite ?report_frame, ?frame_message, ?frame_library_init, ?frame_thread_init; done.

Lemma Create_Eventset_frame es w : obs (CBTF_Create_Eventset es w).2 = obs w.
Proof. unfold CBTF_Create_Eventset. frame_call. Qed.
Lemma AddEvent_frame es ev w : obs (CBTF_AddEvent es ev w) = obs w.
Proof. unfold CBTF_AddEvent. frame_call. Qed.
Lemma Overflow_frame es ev t w : obs (CBTF_Overflow es ev t w) = obs w.
Proof. unfold CBTF_Overflow. frame_call. Qed.
Lemma Start_frame es w : obs (CBTF_Start es w) = obs w.
Proof. unfold CBTF_Start. frame_call. Qed.
Lemma Stop_frame es v w : obs (CBTF_Stop es v w).2 = obs w.
Proof. unfold CBTF_Stop. frame_call. Qed.
Lemma HWCAccum_frame es v w : obs (CBTF_HWCAccum es v w).2 = obs w.
Proof. unfold CBTF_HWCAccum. frame_call. Qed.
Lemma HWCRead_frame es v w : obs (CBTF_HWCRead es v w).2 = obs w.
Proof. unfold CBTF_HWCRead. frame_call. Qed.

Lemma init_papi_frame m hw w hw' w' : CBTF_init_papi m hw w = Ok (hw', w') -> obs w' = obs w.
Proof.
  unfold CBTF_init_papi. repeat case_match; intros [= <- <-]; rewrite ?report_frame; frame_call.
Qed.

Lemma get_papi_eventcode_frame name w c w' :
  get_papi_eventcode name w = Ok (c, w') -> obs w' = obs w.
Proof. unfold get_papi_eventcode. repeat case_match; intros [= <- <-]; rewrite ?frame_message; done. Qed.
End frame_lemmas.

(** PAPI is usable: the library has the version the collector was built for or
    reports an error, and event sets can be created. *)
Class PapiWorks (W : Type) {PA : Papi W} := {
  works_version : forall w, (PAPI_library_init PAPI_VER_CURRENT w).1 = PAPI_VER_CURRENT \/
    (PAPI_library_init PAPI_VER_CURRENT w).1 <= 0;
  works_create : forall w, (PAPI_create_eventset PAPI_NULL w).1.2 <> PAPI_NULL
}.

Lemma init_papi_ok {W} {PA : Papi W} {PW : PapiWorks W} m hw (w : W) :
  exists hw' w', CBTF_init_papi m hw w = Ok (hw', w').
Proof.
  unfold CBTF_init_papi. destruct (negb _ && _) eqn:Hv.
  - bools. destruct (works_version w); [congruence|lia].
  - destruct (_ <? 0); eauto.
Qed.

Lemma get_papi_eventcode_ok {W} {PA : Papi W} name (w : W) :
  Z.of_nat (String.length name) < PAPI_MAX_STR_LEN ->
  exists c w', get_papi_eventcode name w = Ok (c, w').
Proof.
  intros Hn. unfold get_papi_eventcode. destruct (_ >? _) eqn:Hl; bools; [lia|].
  destruct (_ =? _); eauto.
Qed.

Lemma Create_Eventset_set {W} {PA : Papi W} {PW : PapiWorks W} es (w : W) :
  (CBTF_Create_Eventset es w).1 <> PAPI_NULL.
Proof.
  unfold CBTF_Create_Eventset. destruct (es =? PAPI_NULL) eqn:He; bools; subst; apply works_create.
Qed.

(** ** Sampling on counter overflow

    The globals of hwc and hwctime: hwc_papi_init_done or hwctime_papi_init_done,
    and hw_info of PapiAPI.h. *)
Record papi_globals := mkGlobals {
  g_papi_init_done : bool;
  g_hw_info : option Z
}.

(** The PAPI part of cbtf_collector_start of hwc and hwctime: initialise PAPI in
    the first thread, create an event set for the event and have it call the
    handler at each [threshold] events. *)
Definition setup_overflow {W} {PA : Papi W} (multiplex : bool) (event : string) (threshold : Z)
    (g : papi_globals) (EventSet : Z) (w : W) : outcome (papi_globals * Z * W) :=
  i ← (if g_papi_init_done g then Ok (g, EventSet, w)
       else r ← CBTF_init_papi multiplex (g_hw_info g) w; Ok (mkGlobals true r.1, PAPI_NULL, r.2));
  c ← get_papi_eventcode event i.2;
  let code := i32 (u32 c.1) in
  let e := CBTF_Create_Eventset i.1.2 c.2 in
  Ok (i.1.1, e.1, CBTF_Overflow e.1 code threshold (CBTF_AddEvent e.1 code e.2)).

Lemma setup_overflow_ok {W A} {PA : Papi W} (obs : W -> A) {PF : PapiFrame obs} {PW : PapiWorks W}
    mp event threshold g es (w : W) :
  Z.of_nat (String.length event) < PAPI_MAX_STR_LEN ->
  exists g' es' w', setup_overflow mp event threshold g es w = Ok (g', es', w') /\
    es' <> PAPI_NULL /\ g_papi_init_done g' = true /\ obs w' = obs w.
Proof.
  intros Hn. unfold setup_overflow.
  assert (exists g' e w', (if g_papi_init_done g then Ok (g, es, w)
       else r ← CBTF_init_papi mp (g_hw_info g) w; Ok (mkGlobals true r.1, PAPI_NULL, r.2)) = Ok (g', e, w') /\
     g_papi_init_done g' = true /\ obs w' = obs w) as (g' & e & w1 & -> & Hg & Hs1).
  { destruct (g_papi_init_done g) eqn:Hg; [by eexists _, _, _|].
    destruct (init_papi_ok mp (g_hw_info g) w) as (hw & w1 & Hi).
    apply (init_papi_frame obs) in Hi as Hs. rewrite Hi, bind_of_Ok. by eexists _, _, _. }
  rewrite bind_of_Ok. cbn [fst snd].
  destruct (get_papi_eventcode_ok event w1 Hn) as (c & w2 & Hc).
  apply (get_papi_eventcode_frame obs) in Hc as Hs2. rewrite Hc, bind_of_Ok. cbn [fst snd].
  eexists _, _, _. split_and!; [reflexivity|apply Create_Eventset_set|done|].
  by rewrite (Overflow_frame obs), (AddEvent_frame obs), (Create_Eventset_frame obs), Hs2, Hs1.
Qed.

(** PAPI knows the hardware and gives event sets to the CPU component. *)
Class PapiHardware (W : Type) {PA : Papi W} := {
  hw_version : forall w, (PAPI_library_init PAPI_VER_CURRENT w).1 = PAPI_VER_CURRENT;
  hw_version_pos : 0 <= PAPI_VER_CURRENT;
  hw_known : forall w, is_Some (PAPI_get_hardware_info w);
  hw_assign : forall e c w, (PAPI_assign_eventset_component e c w).1 = PAPI_OK
}.

Lemma init_papi_hardware {W} {PA : Papi W} {PH : PapiHardware W} m hw (w : W) :
  exists mhz w', CBTF_init_papi m hw w = Ok (Some mhz, w').
Proof.
  unfold CBTF_init_papi. rewrite hw_version, Z.eqb_refl. pose proof hw_version_pos.
  destruct (_ <? 0) eqn:Hv; bools; [lia|]. simpl.
  destruct (hw_known (PAPI_library_init PAPI_VER_CURRENT w).2) as [mhz ->]. eauto.
Qed.

(** ** Counters

    The counters of the event set of the running thread. [count] is what the
    hardware does between two calls. *)
Definition add_values (xs ys : list Z) : list Z := zip_with (fun x y => u64 (x + y)) xs ys.

Class PapiCounters (W : Type) {PA : Papi W} := {
  counters : W -> list Z;
  running : W -> bool;
  count : list Z -> W -> W;
  counters_six : forall w, length (counters w) = 6%nat;
  count_running : forall inc w, length inc = 6%nat ->
    counters (count inc w) = (if running w then add_values (counters w) inc else counters w) /\
    running (count inc w) = running w;
  accum_running : forall e v w, e <> PAPI_NULL -> running w = true -> length v = 6%nat ->
    (PAPI_accum e v w).1.2 = add_values v (counters w) /\
    counters (PAPI_accum e v w).2 = replicate 6 0 /\ running (PAPI_accum e v w).2 = true;
  state_law : forall e s w, e <> PAPI_NULL ->
    Z.land (PAPI_state e s w).2 PAPI_RUNNING <> 0 <-> running w = true;
  state_stopped : forall e s w, e <> PAPI_NULL ->
    Z.land (PAPI_state e s w).2 PAPI_STOPPED <> 0 <-> running w = false;
  start_zeroes : forall e w, e <> PAPI_NULL -> running w = false ->
    counters (PAPI_start e w).2 = replicate 6 0 /\ running (PAPI_start e w).2 = true;
  stop_stores : forall e v w, e <> PAPI_NULL -> running w = true ->
    (PAPI_stop e (Some v) w).1.2 = Some (counters w) /\ running (PAPI_stop e (Some v) w).2 = false;
  create_stopped : forall e w, running (PAPI_create_eventset e w).2 = false;
  setup_keeps : forall e x w, running (PAPI_assign_eventset_component e x w).2 = running w /\
    running (PAPI_set_multiplex e w).2 = running w /\ running (PAPI_add_event e x w).2 = running w;
  message_counters : forall s r w, counters (papi_message s r w) = counters w /\
    running (papi_message s r w) = running w
}.

Section counter_lemmas.
Context {W : Type} {PA : Papi W} {PC : PapiCounters W}.

Lemma report_counters site (r : Z * W) :
  counters (report site r) = counters r.2 /\ running (report site r) = running r.2.
Proof. unfold report, CBTF_PAPIerror. destruct (_ =? _); [done|]. apply message_counters. Qed.

Lemma HWCAccum_running e v (w : W) : e <> PAPI_NULL -> running w = true -> length v = 6%nat ->
  (CBTF_HWCAccum e v w).1 = add_values v (counters w) /\
  counters (CBTF_HWCAccum e v w).2 = replicate 6 0 /\ running (CBTF_HWCAccum e v w).2 = true.
Proof.
  intros He Hr Hv. unfold CBTF_HWCAccum. destruct (e =? PAPI_NULL) eqn:Hn; bools; [done|].
  destruct (accum_running e v w He Hr Hv) as (Ha & Hc & Hr').
  match goal with |- context [report ?st ?r] => destruct (report_counters st r) as [Hc2 Hr2] end.
  cbn [fst snd] in *. by rewrite Hc2, Hr2.
Qed.

(** CBTF_Start starts the counters from zero, unless they are running. *)
Lemma Start_counters e (w : W) : e <> PAPI_NULL ->
  running (CBTF_Start e w) = true /\
  counters (CBTF_Start e w) = if running w then counters w else replicate 6 0.
Proof.
  intros He. unfold CBTF_Start. destruct (report_counters "CBTF_Start" ((PAPI_state e 0 w).1, w)) as [Hc Hr].
  cbn [fst snd] in *. destruct (Z.land _ _ =? 0) eqn:Hs; bools.
  - assert (Hrun : running w = false).
    { destruct (running w) eqn:Hrw; [|done]. by apply (state_law e 0 w He) in Hrw. }
    rewrite Hrun in *. destruct (start_zeroes e (report "CBTF_Start" ((PAPI_state e 0 w).1, w)) He Hr) as [Hc' Hr'].
    match goal with |- context [report ?st (PAPI_start e ?w1)] =>
      destruct (report_counters st (PAPI_start e w1)) as [-> ->] end. done.
  - apply (state_law e 0 w He) in Hs. by rewrite Hr, Hc, Hs.
Qed.

(** CBTF_Stop hands out the counters, unless they are stopped. *)
Lemma Stop_counters e v (w : W) : e <> PAPI_NULL ->
  running (CBTF_Stop e (Some v) w).2 = false /\
  (CBTF_Stop e (Some v) w).1 = Some (if running w then counters w else v).
Proof.
  intros He. unfold CBTF_Stop. destruct (e =? PAPI_NULL) eqn:Hn; bools; [done|].
  destruct (report_counters "CBTF_Stop" ((PAPI_state e 0 w).1, w)) as [Hc Hr].
  cbn [fst snd] in *. destruct (Z.land _ _ =? 0) eqn:Hs; bools.
  - assert (Hrun : running w = true).
    { destruct (running w) eqn:Hrw; [done|]. by apply (state_stopped e 0 w He) in Hrw. }
    rewrite Hrun in *. destruct (stop_stores e v (report "CBTF_Stop" ((PAPI_state e 0 w).1, w)) He Hr) as [Hc' Hr'].
    cbn [fst snd]. match goal with |- context [report ?st ?r] =>
      destruct (report_counters st r) as [_ ->] end. cbn [snd]. by rewrite Hc', Hc.
  - apply (state_stopped e 0 w He) in Hs. cbn [fst snd]. by rewrite Hr, Hs.
Qed.
End counter_lemmas.

(** The other services leave the counters alone. *)
Class ServicesCounters (W D : Type) {SV : Services W D} {SL : ServicesLaws W D} {PA : Papi W}
    {PC : PapiCounters W} := {
  count_sent : forall inc w, sent (count inc w) = sent w;
  time_counters : forall w t w', CBTF_GetTime w = Ok (t, w') ->
    counters w' = counters w /\ running w' = running w;
  send_counters : forall h d w w', cbtf_collector_send h d w = Ok w' ->
    counters w' = counters w /\ running w' = running w;
  block_counters : forall w, counters (svc_block_signal w) = counters w /\
    running (svc_block_signal w) = running w;
  unblock_counters : forall w, counters (svc_unblock_signal w) = counters w /\
    running (svc_unblock_signal w) = running w;
  timer_start_counters : forall i w w', svc_timer_start i w = Ok w' ->
    counters w' = counters w /\ running w' = running w
}.

(** ** Reference implementation: one event set per process over the log. *)
Record papi_world (D : Type) := mkPapiWorld {
  pw_log : log_world D;
  pw_next : Z;              (* next event set *)
  pw_running : bool;
  pw_counters : list Z;
  pw_messages : list (string * Z)
}.
Arguments mkPapiWorld {D}.
Arguments pw_log {D}. Arguments pw_next {D}.
Arguments pw_running {D}. Arguments pw_counters {D}. Arguments pw_messages {D}.

Definition six (l : list Z) : list Z := take 6 (l ++ replicate 6 0).

Lemma six_length l : length (six l) = 6%nat.
Proof. unfold six. rewrite length_take, length_app, length_replicate. lia. Qed.

Lemma six_id l : length l = 6%nat -> six l = l.
Proof. intros Hl. unfold six. by rewrite take_app_length' by lia. Qed.

Lemma add_values_length xs ys : length xs = 6%nat -> length ys = 6%nat -> length (add_values xs ys) = 6%nat.
Proof. intros Hx Hy. unfold add_values. rewrite length_zip_with. lia. Qed.

Section reference.
Context {D : Type}.
Implicit Type w : papi_world D.

Definition pw_set_log w (l : log_world D) : papi_world D :=
  mkPapiWorld l (pw_next w) (pw_running w) (pw_counters w) (pw_messages w).
Definition pw_set w (r : bool) (c : list Z) : papi_world D :=
  mkPapiWorld (pw_log w) (pw_next w) r c (pw_messages w).

#[export] Instance papi_services : Services (papi_world D) D := {
  CBTF_GetTime w := r ← CBTF_GetTime (pw_log w); Ok (r.1, pw_set_log w r.2);
  cbtf_collector_send h d w := l ← cbtf_collector_send h d (pw_log w); Ok (pw_set_log w l);
  svc_timer_start i w := l ← svc_timer_start i (pw_log w); Ok (pw_set_log w l);
  svc_timer_stop w := l ← svc_timer_stop (pw_log w); Ok (pw_set_log w l);
  svc_block_signal w := pw_set_log w (svc_block_signal (pw_log w));
  svc_unblock_signal w := pw_set_log w (svc_unblock_signal (pw_log w));
  monitor_mpi_comm_rank w := monitor_mpi_comm_rank (pw_log w);
  monitor_get_thread_num w := monitor_get_thread_num (pw_log w);
  getenv w := getenv (pw_log w);
  cbtf_connected_to_mrnet w := cbtf_connected_to_mrnet (pw_log w);
  cbtf_mpi_init_done w := cbtf_mpi_init_done (pw_log w)
}.

#[export] Instance papi_services_laws : ServicesLaws (papi_world D) D.
Proof.
  refine {| sent := fun w => lw_sent (pw_log w) |}; simpl; intros; repeat eexists; auto;
    apply Z.mod_pos_bound; lia.
Defined.

(** PAPI as it is, or one that cannot be initialised. *)
Definition papi_with (usable : bool) : Papi (papi_world D) := {|
  PAPI_OK := 0;
  PAPI_NULL := -1;
  PAPI_ENOTRUN := -9;
  PAPI_ENOSUPP := -18;
  PAPI_VER_CURRENT := 100;
  PAPI_STOPPED := 1;
  PAPI_RUNNING := 2;
  PAPI_MAX_STR_LEN := 128;
  PAPI_library_init v w := (if usable then v else -1, w);
  PAPI_get_hardware_info w := Some 2400;
  PAPI_thread_init w := (0, w);
  PAPI_multiplex_init w := (0, w);
  PAPI_event_name_to_code s c w := (0, Z.of_nat (String.length s));
  PAPI_query_event e w := 0;
  PAPI_get_event_info e w := 0;
  PAPI_create_eventset e w :=
    (0, Z.abs (pw_next w), mkPapiWorld (pw_log w) (Z.abs (pw_next w) + 1) false
       (pw_counters w) (pw_messages w));
  PAPI_assign_eventset_component e c w := (0, w);
  PAPI_set_multiplex e w := (0, w);
  PAPI_add_event e ev w := (0, w);
  PAPI_overflow e ev t f w := (0, w);
  PAPI_state e s w := (0, if pw_running w then 2 else 1);
  PAPI_start e w := (0, pw_set w true (replicate 6 0));
  PAPI_stop e v w := (0, (fun _ => six (pw_counters w)) <$> v, pw_set w false (pw_counters w));
  PAPI_accum e v w :=
    if pw_running w then (0, add_values v (six (pw_counters w)), pw_set w true (replicate 6 0))
    else (-9, v, w);
  PAPI_read e v w := if pw_running w then (0, six (pw_counters w), w) else (-9, v, w);
  papi_message s r w :=
    mkPapiWorld (pw_log w) (pw_next w) (pw_running w) (pw_counters w)
      (pw_messages w ++ [(s, r)])
|}.

#[export] Instance reference_papi : Papi (papi_world D) := papi_with true.

#[export] Instance reference_frame : PapiFrame (sent (W := papi_world D)).
Proof. constructor; try done; intros; cbn; by case_match. Qed.

#[export] Instance reference_works : PapiWorks (papi_world D).
Proof. constructor; intros w; [by left|]. cbn. lia. Qed.

#[export] Instance reference_hardware : PapiHardware (papi_world D).
Proof. by constructor. Qed.

#[export] Instance reference_counters : PapiCounters (papi_world D).
Proof.
  refine {| counters := fun w => six (pw_counters w); running := pw_running;
            count := fun inc w => if pw_running w
              then pw_set w true (add_values (six (pw_counters w)) inc) else w |}; simpl.
  - intros. apply six_length.
  - intros inc w Hi. destruct (pw_running w) eqn:Hr; simpl; [|by rewrite Hr].
    split; [|done]. by apply six_id, add_values_length; [apply six_length|].
  - intros e v w _ -> Hv. by split_and!.
  - intros e s w _. by destruct (pw_running w).
  - intros e s w _. by destruct (pw_running w).
  - done.
  - done.
  - done.
  - done.
  - done.
Defined.

#[export] Instance reference_services_counters : ServicesCounters (papi_world D) D.
Proof. constructor; simpl; intros; try by case_match. all: inv_ok; done. Qed.
End reference.

(** A world for concrete runs. *)
Definition quiet_papi (D : Type) : papi_world D :=
  mkPapiWorld (quiet_world D) 0 false (replicate 6 0) [].
