(* ===== verification/PCSamp.v ===== *)
(** The PC sampling collector: core/collectors/pcsamp/collector.c, over the
    services interface. The main theorem accounts for every sample from start to
    stop: what the blobs sent to the framework count for a PC is the number of
    timer interrupts taken at it while sampling was not deferred. *)
From S2P Require Import Prelude Probe PCIndex PCData Headers Services.

(** CBTF_pcsamp_data as it is on the wire. *)
Record pcsamp_data := mkPcsampData {
  pd_interval : Z;
  pd_pc : list Z;
  pd_count : list Z
}.

(** Thread-local storage of the collector. The pointers data.pc.pc_val and
    data.count.count_val always point at buffer.pc and buffer.count, so the blob
    is read from the buffer when it is sent. *)
Record TLS := mkTLS {
  t_header : CBTF_DataHeader;
  t_interval : Z;       (* data.interval *)
  t_pc_len : Z;         (* data.pc.pc_len *)
  t_count_len : Z;      (* data.count.count_len *)
  t_buffer : CBTF_PCData;
  t_ompt : ompt_flags;
  t_defer : bool        (* defer_sampling *)
}.

Definition cbtf_collector_unique_id : string := "pcsamp".

Section pcsamp.
Context {W : Type} {SV : Services W pcsamp_data} (bld : build).

Definition OMPT_THREAD_IDLE (flag : bool) (tls : TLS) : TLS :=
  mkTLS (t_header tls) (t_interval tls) (t_pc_len tls) (t_count_len tls) (t_buffer tls)
    (mkOmpt flag (thread_wait_barrier (t_ompt tls)) (thread_barrier (t_ompt tls))) (t_defer tls).

Definition OMPT_THREAD_BARRIER (flag : bool) (tls : TLS) : TLS :=
  mkTLS (t_header tls) (t_interval tls) (t_pc_len tls) (t_count_len tls) (t_buffer tls)
    (mkOmpt (thread_idle (t_ompt tls)) (thread_wait_barrier (t_ompt tls)) flag) (t_defer tls).

Definition OMPT_THREAD_WAIT_BARRIER (flag : bool) (tls : TLS) : TLS :=
  mkTLS (t_header tls) (t_interval tls) (t_pc_len tls) (t_count_len tls) (t_buffer tls)
    (mkOmpt (thread_idle (t_ompt tls)) flag (thread_barrier (t_ompt tls))) (t_defer tls).

Definition initialize_data (tls : TLS) (w : W) : outcome (TLS * W) :=
  r ← CBTF_GetTime w;
  let header := with_addrs (with_times (t_header tls) r.1 0) UINT64_MAX 0 in
  let buffer := pcdata_reset (CBTF_PCHashTableSize (b_arch bld))
                  (pcd_pc (t_buffer tls)) (pcd_count (t_buffer tls)) in
  Ok (mkTLS header (t_interval tls) 0 0 buffer (t_ompt tls) (t_defer tls), r.2).

(** The data blob the pointers of [tls->data] describe. *)
Definition blob (tls : TLS) : pcsamp_data :=
  mkPcsampData (t_interval tls) (take (Z.to_nat (t_pc_len tls)) (pcd_pc (t_buffer tls)))
    (take (Z.to_nat (t_count_len tls)) (pcd_count (t_buffer tls))).

Definition send_samples (tls : TLS) (w : W) : outcome (TLS * W) :=
  r ← CBTF_GetTime w;
  let header := with_rank (with_addrs (with_times (t_header tls) (dh_time_begin (t_header tls)) r.1)
                  (pcd_addr_begin (t_buffer tls)) (pcd_addr_end (t_buffer tls)))
                  (monitor_mpi_comm_rank r.2) in
  let tls1 := mkTLS header (t_interval tls) (pcd_length (t_buffer tls)) (pcd_length (t_buffer tls))
                (t_buffer tls) (t_ompt tls) (t_defer tls) in
  w2 ← cbtf_collector_send header (blob tls1) r.2;
  initialize_data tls1 w2.

(** The address a sample is charged to. *)
Definition blame (ompt : ompt_flags) (pc : Z) : Z :=
  if b_have_ompt bld then
    if thread_idle ompt then b_addr_idle bld
    else if thread_wait_barrier ompt then b_addr_wait_barrier bld
    else if thread_barrier ompt then b_addr_barrier bld
    else pc
  else pc.

(** [pc] is what CBTF_GetPCFromContext(context) extracts. *)
Definition serviceTimerHandler (pc : Z) (tls : TLS) (w : W) : outcome (TLS * W) :=
  if t_defer tls then Ok (tls, w) else
    r ← CBTF_UpdatePCData (b_arch bld) (blame (t_ompt tls) pc) (t_buffer tls);
    let tls1 := mkTLS (t_header tls) (t_interval tls) (t_pc_len tls) (t_count_len tls) r.2
                  (t_ompt tls) (t_defer tls) in
    if (r.1 : bool) then send_samples tls1 w else Ok (tls1, w).

(** (uint64_t)1000000000 / (uint64_t)args.sampling_rate; a zero rate traps. *)
Definition sampling_interval (rate : Z) : outcome Z :=
  if rate =? 0 then Fault else Ok (1000000000 / rate).

Definition cbtf_collector_start (header : CBTF_DataHeader) (tls : TLS) (w : W) : outcome (TLS * W) :=
  let rate := match getenv w "CBTF_PCSAMP_RATE" with
              | Some s => u32 (atoi s)
              | None => 100
              end in
  let tls1 := mkTLS header (t_interval tls) (t_pc_len tls) (t_count_len tls) (t_buffer tls)
                (t_ompt tls) false in
  r ← initialize_data tls1 w;
  interval ← sampling_interval rate;
  t ← CBTF_GetTime r.2;
  let h := with_id (with_omp_tid (t_header r.1) (monitor_get_thread_num r.2))
             cbtf_collector_unique_id in
  let tls2 := mkTLS (with_times h t.1 (dh_time_end h)) interval (t_pc_len r.1) (t_count_len r.1)
                (t_buffer r.1)
                (if b_have_ompt bld then mkOmpt false false false else t_ompt r.1)
                (t_defer r.1) in
  w3 ← svc_timer_start interval t.2;
  Ok (tls2, w3).

Definition cbtf_collector_pause (tls : TLS) (w : W) : outcome (TLS * W) :=
  Ok (mkTLS (t_header tls) (t_interval tls) (t_pc_len tls) (t_count_len tls) (t_buffer tls)
        (t_ompt tls) true, svc_block_signal w).

Definition cbtf_collector_resume (tls : TLS) (w : W) : outcome (TLS * W) :=
  Ok (mkTLS (t_header tls) (t_interval tls) (t_pc_len tls) (t_count_len tls) (t_buffer tls)
        (t_ompt tls) false, svc_unblock_signal w).

Definition cbtf_collector_stop (tls : TLS) (w : W) : outcome (TLS * W) :=
  w1 ← svc_timer_stop w;
  r ← CBTF_GetTime w1;
  let h := t_header tls in
  let tls1 := mkTLS (with_times h (dh_time_begin h) r.1) (t_interval tls) (t_pc_len tls)
                (t_count_len tls) (t_buffer tls) (t_ompt tls) (t_defer tls) in
  if pcd_length (t_buffer tls1) >? 0 then send_samples tls1 r.2 else Ok (tls1, r.2).

(** ** Runs *)
Inductive event :=
| Tick (pc : Z)          (* a timer interrupt at [pc] *)
| Pause
| Resume
| Idle (flag : bool)
| Barrier (flag : bool)
| WaitBarrier (flag : bool).

Definition step (ev : event) (s : TLS * W) : outcome (TLS * W) :=
  match ev with
  | Tick pc => serviceTimerHandler pc s.1 s.2
  | Pause => cbtf_collector_pause s.1 s.2
  | Resume => cbtf_collector_resume s.1 s.2
  | Idle f => Ok (OMPT_THREAD_IDLE f s.1, s.2)
  | Barrier f => Ok (OMPT_THREAD_BARRIER f s.1, s.2)
  | WaitBarrier f => Ok (OMPT_THREAD_WAIT_BARRIER f s.1, s.2)
  end.

Fixpoint run (evs : list event) (s : TLS * W) : outcome (TLS * W) :=
  match evs with
  | [] => Ok s
  | ev :: evs' => s' ← step ev s; run evs' s'
  end.

(** The samples a run takes, by the flags alone. *)
Fixpoint accepted (ompt : ompt_flags) (defer : bool) (evs : list event) : list Z :=
  match evs with
  | [] => []
  | Tick pc :: evs' => (if defer then [] else [blame ompt pc]) ++ accepted ompt defer evs'
  | Pause :: evs' => accepted ompt true evs'
  | Resume :: evs' => accepted ompt false evs'
  | Idle f :: evs' => accepted (mkOmpt f (thread_wait_barrier ompt) (thread_barrier ompt)) defer evs'
  | Barrier f :: evs' => accepted (mkOmpt (thread_idle ompt) (thread_wait_barrier ompt) f) defer evs'
  | WaitBarrier f :: evs' => accepted (mkOmpt (thread_idle ompt) f (thread_barrier ompt)) defer evs'
  end.
End pcsamp.

(** Samples of [p] in a list of sent blobs. *)
Definition delivered (p : Z) (blobs : list (CBTF_DataHeader * pcsamp_data)) : Z :=
  foldr (fun hd acc => tally id p (zip (pd_pc hd.2) (pd_count hd.2)) + acc) 0 blobs.

Lemma delivered_app p l l' : delivered p (l ++ l') = delivered p l + delivered p l'.
Proof. unfold delivered. induction l as [|x l IH]; simpl; lia. Qed.

(** A blob that is fit to be sent: its samples, none of them outside the
    address range of its header, in at most CBTF_PCBufferSize entries. *)
Definition blob_ok (a : arch) (hd : CBTF_DataHeader * pcsamp_data) : Prop :=
  Z.of_nat (length (pd_pc hd.2)) <= CBTF_PCBufferSize a /\
  length (pd_pc hd.2) = length (pd_count hd.2) /\
  Forall (fun c => 1 <= c <= UINT8_MAX) (pd_count hd.2) /\
  Forall (fun pc => dh_addr_begin hd.1 <= pc <= dh_addr_end hd.1) (pd_pc hd.2).

Section correctness.
Context {W : Type} {SV : Services W pcsamp_data} {SL : ServicesLaws W pcsamp_data} (bld : build).
Notation a := (b_arch bld).
Notation B := (CBTF_PCBufferSize a).
Notation N := (CBTF_PCHashTableSize a).

(** The buffer holds [cur], and what was sent since [w0] together with [cur]
    is [acc]. *)
Record ps_inv (w0 : W) (tls : TLS) (w : W) (acc cur : list Z) : Prop := {
  si_buffer : pcdata_inv B N (t_buffer tls) cur;
  si_sent : exists new, sent w = sent w0 ++ new /\ Forall (blob_ok a) new /\
    forall p, delivered p new + occurrences p cur = occurrences p acc
}.

(** Between two interrupts the buffer has room. *)
Definition ps_ready (w0 : W) (tls : TLS) (w : W) (acc : list Z) : Prop :=
  exists cur, ps_inv w0 tls w acc cur /\ pcd_length (t_buffer tls) < B.

Lemma entry_sampled buffer cur (i : nat) q c :
  pcdata_inv B N buffer cur -> pcd_entries buffer !! i = Some (q, c) -> q ∈ cur.
Proof.
  intros Inv Hi. apply occurrences_pos. rewrite <- (pi_tally _ _ _ _ Inv).
  eapply tally_pos; [|done]. intros j q' d Hj. pose proof (pi_counts _ _ _ _ Inv _ _ _ Hj).
  unfold id. lia.
Qed.

(** The blob of a buffer that holds [cur]: fit to be sent, and worth [cur]. *)
Lemma blob_of_buffer buffer cur h i :
  pcdata_inv B N buffer cur ->
  dh_addr_begin h = pcd_addr_begin buffer -> dh_addr_end h = pcd_addr_end buffer ->
  let d := mkPcsampData i (take (Z.to_nat (pcd_length buffer)) (pcd_pc buffer))
             (take (Z.to_nat (pcd_length buffer)) (pcd_count buffer)) in
  blob_ok a (h, d) /\ forall p, delivered p [(h, d)] = occurrences p cur.
Proof.
  intros Inv Hab Hae d.
  assert (Hes : zip (pd_pc d) (pd_count d) = pcd_entries buffer).
  { unfold pcd_entries, entries. symmetry. apply zip_with_take. }
  pose proof (pi_pc_size _ _ _ _ Inv). pose proof (pi_count_size _ _ _ _ Inv).
  assert (Hlen : length (pd_pc d) = length (pd_count d)) by (unfold d; simpl; rewrite !length_take; lia).
  assert (Hlk : forall (j : nat) q c, pd_pc d !! j = Some q -> pd_count d !! j = Some c ->
            pcd_entries buffer !! j = Some (q, c)).
  { intros j q c Hq Hc. rewrite <- Hes. apply lookup_zip_with_Some. eauto. }
  split; [split_and!; [unfold d; simpl; rewrite length_take; lia|done| |]|].
  - apply Forall_lookup. intros j c Hc. change (pd_count d !! j = Some c) in Hc.
    destruct (lookup_lt_is_Some_2 (pd_pc d) j) as [q Hq]; [apply lookup_lt_Some in Hc; lia|].
    eapply (pi_counts _ _ _ _ Inv); eauto.
  - apply Forall_lookup. intros j q Hq. change (pd_pc d !! j = Some q) in Hq.
    destruct (lookup_lt_is_Some_2 (pd_count d) j) as [c Hc]; [apply lookup_lt_Some in Hq; lia|].
    pose proof (entry_sampled buffer cur j q c Inv (Hlk _ _ _ Hq Hc)) as Hin.
    simpl. rewrite Hab, Hae, (pi_addr_begin _ _ _ _ Inv), (pi_addr_end _ _ _ _ Inv).
    split; [by apply foldr_min_in|by apply foldr_max_in].
  - intros p. change (delivered p [(h, d)]) with (tally id p (zip (pd_pc d) (pd_count d)) + 0).
    rewrite Hes, <- (pi_tally _ _ _ _ Inv). lia.
Qed.

Lemma initialize_data_ok tls w :
  Z.of_nat (length (pcd_pc (t_buffer tls))) = B ->
  Z.of_nat (length (pcd_count (t_buffer tls))) = B ->
  exists tls' w', initialize_data bld tls w = Ok (tls', w') /\ sent w' = sent w /\
    pcdata_inv B N (t_buffer tls') [] /\ pcd_length (t_buffer tls') = 0 /\
    t_ompt tls' = t_ompt tls /\ t_defer tls' = t_defer tls.
Proof.
  intros Hp Hc. unfold initialize_data. destruct (time_law w) as (t & w' & -> & _ & Hs).
  rewrite bind_of_Ok. eexists _, _. split_and!; try done. simpl.
  by apply pcdata_inv_reset; [apply PCBuffer_sizes|..].
Qed.

Lemma send_samples_ok w0 tls w acc cur :
  ps_inv w0 tls w acc cur ->
  exists tls' w', send_samples bld tls w = Ok (tls', w') /\ ps_inv w0 tls' w' acc [] /\
    pcd_length (t_buffer tls') = 0 /\ t_ompt tls' = t_ompt tls /\ t_defer tls' = t_defer tls.
Proof.
  intros [Hb (new & Hnew & Hok & Hsum)]. unfold send_samples.
  destruct (time_law w) as (t & w1 & -> & _ & Hs1). rewrite bind_of_Ok. simpl.
  match goal with |- context [cbtf_collector_send ?h (blob ?t1) ?w2] =>
    destruct (send_law h (blob t1) w2) as (w3 & -> & Hs3); rewrite bind_of_Ok;
    destruct (blob_of_buffer (t_buffer tls) cur h (t_interval tls) Hb) as [Hbok Hdel]; [done..|];
    destruct (initialize_data_ok t1 w3) as (tls' & w' & -> & Hs & Hinv & Hlen & Ho & Hd)
  end; [apply Hb..|].
  eexists _, _. split_and!; try done. constructor; [done|].
  eexists (new ++ [_]). split_and!; [by rewrite Hs, Hs3, Hs1, Hnew, app_assoc| |].
  - apply Forall_app_2; [done|]. by apply Forall_singleton.
  - intros p. rewrite delivered_app, Hdel, <- Hsum. unfold occurrences at 2. rewrite countb_nil. lia.
Qed.

(** Readiness is a matter of the buffer and of what was sent. *)
Lemma ps_ready_same w0 tls w tls' w' acc :
  t_buffer tls' = t_buffer tls -> sent w' = sent w -> ps_ready w0 tls w acc -> ps_ready w0 tls' w' acc.
Proof.
  intros Hb Hs (cur & [Hi Hn] & Hl). exists cur. rewrite Hb. split; [|done].
  constructor; [by rewrite Hb|]. by rewrite Hs.
Qed.

(** One sample enters the buffer, which is sent when it is full. *)
Lemma record_pc_ok w0 tls w acc pc :
  ps_ready w0 tls w acc ->
  exists u tls' w', CBTF_UpdatePCData a pc (t_buffer tls) = Ok u /\
    (let tls1 := mkTLS (t_header tls) (t_interval tls) (t_pc_len tls) (t_count_len tls) u.2
                   (t_ompt tls) (t_defer tls) in
     if (u.1 : bool) then send_samples bld tls1 w else Ok (tls1, w)) = Ok (tls', w') /\
    ps_ready w0 tls' w' (pc :: acc) /\ t_ompt tls' = t_ompt tls /\ t_defer tls' = t_defer tls.
Proof.
  intros (cur & [Hb Hsent] & Hroom).
  destruct (update_pcdata_refines _ _ pc _ _ (PCBuffer_sizes a) Hb Hroom)
    as (full & buf' & Hu & Hb' & Hfull & Hle).
  exists (full, buf'). unfold CBTF_UpdatePCData. rewrite Hu. cbn [fst snd].
  match goal with |- context [send_samples bld ?t w] => set (tls1 := t) end.
  assert (Hinv : ps_inv w0 tls1 w (pc :: acc) (pc :: cur)).
  { constructor; [done|]. destruct Hsent as (new & Hnew & Hok & Hsum). exists new.
    split_and!; [done..|]. intros p. rewrite !occurrences_cons, <- Hsum. lia. }
  destruct full.
  - destruct (send_samples_ok _ _ _ _ _ Hinv) as (tls' & w' & -> & Hi & Hl & Ho & Hdf).
    eexists _, _. split_and!; [done|done| |by rewrite Ho|by rewrite Hdf].
    exists []. split; [done|]. rewrite Hl. pose proof (PCBuffer_sizes a) as [? ?]. lia.
  - eexists _, _. split_and!; try done. eexists. split; [done|].
    symmetry in Hfull. bools. pose proof (pi_index _ _ _ _ Hb') as [_ ? _ _ _ _ _].
    pose proof (pi_pc_size _ _ _ _ Hb'). simpl. lia.
Qed.

(** One interrupt: a sample is taken unless sampling is deferred. *)
Lemma serviceTimerHandler_ok w0 tls w acc pc :
  ps_ready w0 tls w acc ->
  exists tls' w', serviceTimerHandler bld pc tls w = Ok (tls', w') /\
    ps_ready w0 tls' w' (if t_defer tls then acc else blame bld (t_ompt tls) pc :: acc) /\
    t_ompt tls' = t_ompt tls /\ t_defer tls' = t_defer tls.
Proof.
  intros Hr. unfold serviceTimerHandler. destruct (t_defer tls) eqn:Hd; [by exists tls, w|].
  destruct (record_pc_ok _ _ _ _ (blame bld (t_ompt tls) pc) Hr) as (u & tls' & w' & -> & Hs & Hr' & Ho & Hdf).
  rewrite bind_of_Ok. exists tls', w'. rewrite <- Hd. by split_and!.
Qed.

Lemma run_ok w0 evs : forall tls w acc,
  ps_ready w0 tls w acc ->
  exists tls' w', run bld evs (tls, w) = Ok (tls', w') /\
    ps_ready w0 tls' w' (rev (accepted bld (t_ompt tls) (t_defer tls) evs) ++ acc).
Proof.
  induction evs as [|ev evs IH]; intros tls w acc Hr; [by exists tls, w|]. simpl.
  destruct ev as [pc| | |f|f|f]; simpl.
  - destruct (serviceTimerHandler_ok w0 tls w acc pc Hr) as (tls' & w' & -> & Hr' & Ho & Hd).
    rewrite bind_of_Ok. destruct (IH tls' w' _ Hr') as (tls2 & w2 & H2 & Hr2).
    exists tls2, w2. split; [done|]. rewrite Ho, Hd in Hr2.
    destruct (t_defer tls); simpl; [done|]. by rewrite <- app_assoc.
  - apply (IH (mkTLS _ _ _ _ _ _ true)). apply (ps_ready_same _ tls w); [done|apply block_law|done].
  - apply (IH (mkTLS _ _ _ _ _ _ false)). apply (ps_ready_same _ tls w); [done|apply unblock_law|done].
  - apply (IH (OMPT_THREAD_IDLE f tls)). by apply (ps_ready_same _ tls w).
  - apply (IH (OMPT_THREAD_BARRIER f tls)). by apply (ps_ready_same _ tls w).
  - apply (IH (OMPT_THREAD_WAIT_BARRIER f tls)). by apply (ps_ready_same _ tls w).
Qed.

Lemma cbtf_collector_start_ok header tls w :
  Z.of_nat (length (pcd_pc (t_buffer tls))) = B ->
  Z.of_nat (length (pcd_count (t_buffer tls))) = B ->
  (forall s, getenv w "CBTF_PCSAMP_RATE" = Some s -> u32 (atoi s) <> 0) ->
  exists tls' w', cbtf_collector_start bld header tls w = Ok (tls', w') /\
    ps_ready w tls' w' [] /\ t_defer tls' = false /\
    t_ompt tls' = if b_have_ompt bld then mkOmpt false false false else t_ompt tls.
Proof.
  intros Hp Hc Hrate. unfold cbtf_collector_start.
  match goal with |- context [initialize_data bld ?t w] =>
    destruct (initialize_data_ok t w) as (tls1 & w1 & -> & Hs1 & Hi1 & Hl1 & Ho1 & Hd1) end; [done..|].
  rewrite bind_of_Ok. unfold sampling_interval.
  destruct (_ =? 0) eqn:Hz; bools; [destruct (getenv w _) eqn:?; [by eapply Hrate in Hz|lia]|].
  rewrite bind_of_Ok. simpl. destruct (time_law w1) as (t & w2 & -> & _ & Hs2).
  rewrite bind_of_Ok. match goal with |- context [svc_timer_start ?i ?w'] =>
    destruct (timer_start_law i w') as (w3 & -> & Hs3) end. rewrite bind_of_Ok.
  eexists _, _. split_and!; [done| |by rewrite Hd1|by rewrite Ho1].
  exists []. split; [|simpl; rewrite Hl1; pose proof (PCBuffer_sizes a) as [? ?]; lia].
  constructor; [done|]. exists []. rewrite app_nil_r, Hs3. simpl. by rewrite Hs2, Hs1.
Qed.

(** What is left at the end is sent, unless nothing is. *)
Lemma flush_ok w0 tls w acc cur :
  ps_inv w0 tls w acc cur ->
  exists tls' w', (if pcd_length (t_buffer tls) >? 0 then send_samples bld tls w else Ok (tls, w))
      = Ok (tls', w') /\ ps_inv w0 tls' w' acc [].
Proof.
  intros Hinv. pose proof (si_buffer _ _ _ _ _ Hinv) as Hb. destruct (_ >? 0) eqn:Hl; bools.
  - destruct (send_samples_ok _ _ _ _ _ Hinv) as (tls' & w' & ? & ? & _). eauto.
  - exists tls, w. split; [done|].
    enough (cur = []) as -> by done.
    destruct cur as [|q cur]; [done|]. exfalso.
    assert (0 < occurrences q (q :: cur)) as Hpos.
    { rewrite occurrences_cons, Z.eqb_refl. pose proof (countb_nonneg (fun x => x =? q) cur).
      unfold occurrences. lia. }
    rewrite <- (pi_tally _ _ _ _ Hb) in Hpos. unfold pcd_entries, entries in Hpos.
    pose proof (pi_index _ _ _ _ Hb) as [_ ? _ _ _ _ _].
    replace (Z.to_nat (pcd_length (t_buffer tls))) with 0%nat in Hpos by lia. done.
Qed.

Lemma cbtf_collector_stop_ok w0 tls w acc :
  ps_ready w0 tls w acc ->
  exists tls' w', cbtf_collector_stop bld tls w = Ok (tls', w') /\ ps_inv w0 tls' w' acc [] .
Proof.
  intros (cur & [Hb Hsent] & _). unfold cbtf_collector_stop.
  destruct (timer_stop_law w) as (w1 & -> & Hs1). rewrite bind_of_Ok.
  destruct (time_law w1) as (t & w2 & -> & _ & Hs2). rewrite bind_of_Ok. cbn [fst snd].
  apply (flush_ok _ _ _ _ cur). constructor; [done|]. by rewrite Hs2, Hs1.
Qed.
End correctness.

(** The claim below, for use by the files that put the parts together. *)
Lemma pcsamp_run_accounts {W} {SV : Services W pcsamp_data}
    {SL : ServicesLaws W pcsamp_data} (bld : build) (header : CBTF_DataHeader) (tls : TLS) (w : W)
    (evs : list event) :
  Z.of_nat (length (pcd_pc (t_buffer tls))) = CBTF_PCBufferSize (b_arch bld) ->
  Z.of_nat (length (pcd_count (t_buffer tls))) = CBTF_PCBufferSize (b_arch bld) ->
  (forall s, getenv w "CBTF_PCSAMP_RATE" = Some s -> u32 (atoi s) <> 0) ->
  exists tls1 w1 tls2 w2 tls3 w3 new,
    cbtf_collector_start bld header tls w = Ok (tls1, w1) /\
    run bld evs (tls1, w1) = Ok (tls2, w2) /\
    cbtf_collector_stop bld tls2 w2 = Ok (tls3, w3) /\
    sent w3 = sent w ++ new /\ Forall (blob_ok (b_arch bld)) new /\
    forall p, delivered p new = occurrences p (accepted bld (t_ompt tls1) false evs).
Proof.
  intros Hp Hc Hr.
  destruct (cbtf_collector_start_ok bld header tls w Hp Hc Hr) as (tls1 & w1 & H1 & R1 & Hd & _).
  destruct (run_ok bld w evs tls1 w1 [] R1) as (tls2 & w2 & H2 & R2).
  destruct (cbtf_collector_stop_ok bld w tls2 w2 _ R2) as (tls3 & w3 & H3 & [_ (new & Hn & Hok & Hs)]).
  exists tls1, w1, tls2, w2, tls3, w3, new. split_and!; try done.
  intros p. specialize (Hs p). rewrite Hd, app_nil_r in Hs. unfold occurrences in *.
  rewrite countb_rev, countb_nil in Hs. lia.
Qed.

(** C2: from cbtf_collector_start through any sequence of timer interrupts,
    pauses, resumes and OMPT flag changes to cbtf_collector_stop, the collector
    neither aborts nor leaves its arrays, every blob it sends is well formed (at
    most CBTF_PCBufferSize entries, counts in 1..255, every PC inside the address
    range of its header), and the blobs sent count each address exactly as often
    as an interrupt was charged to it while sampling was not deferred. *)
Theorem pcsamp_accounts_for_every_sample {W} {SV : Services W pcsamp_data}
    {SL : ServicesLaws W pcsamp_data} (bld : build) (header : CBTF_DataHeader) (tls : TLS) (w : W)
    (evs : list event) :
  Z.of_nat (length (pcd_pc (t_buffer tls))) = CBTF_PCBufferSize (b_arch bld) ->
  Z.of_nat (length (pcd_count (t_buffer tls))) = CBTF_PCBufferSize (b_arch bld) ->
  (forall s, getenv w "CBTF_PCSAMP_RATE" = Some s -> u32 (atoi s) <> 0) ->
  exists tls1 w1 tls2 w2 tls3 w3 new,
    cbtf_collector_start bld header tls w = Ok (tls1, w1) /\
    run bld evs (tls1, w1) = Ok (tls2, w2) /\
    cbtf_collector_stop bld tls2 w2 = Ok (tls3, w3) /\
    sent w3 = sent w ++ new /\ Forall (blob_ok (b_arch bld)) new /\
    forall p, delivered p new = occurrences p (accepted bld (t_ompt tls1) false evs).
Proof. apply pcsamp_run_accounts. Qed.

(** Two interrupts, a pause, a third interrupt that is deferred, a resume and a
    fourth one: the blobs sent hold three samples. *)
Lemma pcsamp_accounts_witness :
  let size := Z.to_nat (CBTF_PCBufferSize arch_other) in
  let tls := mkTLS (mkDataHeader 0 1 "" "n0" 1 1 (-1) 0 0 0 0 0) 0 0 0
    (mkPCData 0 0 0 (replicate size 0) (replicate size 0) []) (mkOmpt false false false) false in
  let evs := [Tick 4096; Tick 4096; Pause; Tick 4096; Resume; Tick 8192] in
  let bld := mkBuild arch_other false 0 0 0 in
  exists tls1 w1 s2 tls3 w3,
    cbtf_collector_start bld (t_header tls) tls (quiet_world pcsamp_data) = Ok (tls1, w1) /\
    run bld evs (tls1, w1) = Ok s2 /\ cbtf_collector_stop bld s2.1 s2.2 = Ok (tls3, w3) /\
    delivered 4096 (lw_sent w3) = 2 /\ delivered 8192 (lw_sent w3) = 1.
Proof.
  intros size tls evs bld.
  destruct (pcsamp_accounts_for_every_sample bld (t_header tls) tls (quiet_world pcsamp_data) evs)
    as (tls1 & w1 & tls2 & w2 & tls3 & w3 & new & H1 & H2 & H3 & Hs & _ & Hd);
    [by vm_compute|by vm_compute|done|].
  change (sent (quiet_world pcsamp_data)) with (@nil (CBTF_DataHeader * pcsamp_data)) in Hs.
  simpl sent in Hs. exists tls1, w1, (tls2, w2), tls3, w3. split; [exact H1|]. split; [exact H2|].
  split; [exact H3|]. rewrite Hs. split; (etransitivity; [apply Hd|vm_compute; reflexivity]).
Defined.
