(* ===== verification/HWC.v ===== *)
(** The hardware counter overflow collector: core/collectors/hwc/collector.c. PAPI
    calls its handler each time a counter passes a threshold; the samples go into
    the same buffer and by the same code as in pcsamp (the two files agree in
    initialize_data, send_samples, the handler and the OMPT functions), so the
    thread-local storage is that of pcsamp with an event set. *)
From S2P Require Import Prelude Probe PCIndex PCData Headers Services Papi PCSamp.

(** CBTF_hwc_data has the fields of CBTF_pcsamp_data. *)
Notation hwc_data := pcsamp_data.

Record TLS := mkTLS {
  h_pcs : PCSamp.TLS;
  h_EventSet : Z
}.

Definition hwc_unique_id : string := "hwc".

Section hwc.
Context {W : Type} {SV : Services W hwc_data} {PA : Papi W} (bld : build).

Definition state : Type := papi_globals * TLS * W.

Definition with_pcs (tls : TLS) (r : PCSamp.TLS * W) : TLS * W := (mkTLS r.1 (h_EventSet tls), r.2).

Definition hwc_initialize_data (tls : TLS) (w : W) : outcome (TLS * W) :=
  r ← PCSamp.initialize_data bld (h_pcs tls) w; Ok (with_pcs tls r).

Definition hwc_send_samples (tls : TLS) (w : W) : outcome (TLS * W) :=
  r ← PCSamp.send_samples bld (h_pcs tls) w; Ok (with_pcs tls r).

(** [pc] is the address PAPI passes to the handler. *)
Definition hwcPAPIHandler (pc : Z) (tls : TLS) (w : W) : outcome (TLS * W) :=
  r ← PCSamp.serviceTimerHandler bld pc (h_pcs tls) w; Ok (with_pcs tls r).

Definition set_defer (d : bool) (t : PCSamp.TLS) : PCSamp.TLS :=
  PCSamp.mkTLS (t_header t) (t_interval t) (t_pc_len t) (t_count_len t) (t_buffer t) (t_ompt t) d.

(** collector_record_addr: an address is recorded with sampling deferred, and
    deferral is off afterwards. *)
Definition collector_record_addr (addr : Z) (tls : TLS) (w : W) : outcome (TLS * W) :=
  let t := set_defer true (h_pcs tls) in
  u ← CBTF_UpdatePCData (b_arch bld) addr (t_buffer t);
  let t1 := PCSamp.mkTLS (t_header t) (t_interval t) (t_pc_len t) (t_count_len t) u.2 (t_ompt t)
              (t_defer t) in
  r ← (if (u.1 : bool) then PCSamp.send_samples bld t1 w else Ok (t1, w));
  Ok (with_pcs tls (set_defer false r.1, r.2)).

Definition cbtf_collector_start (header : CBTF_DataHeader) (s : state) : outcome state :=
  let '(g, tls, w) := s in
  let event := default "PAPI_TOT_CYC" (getenv w "CBTF_HWC_EVENT") in
  let threshold := match getenv w "CBTF_HWC_THRESHOLD" with
                   | Some str => atoi str
                   | None => THRESHOLD * 2
                   end in
  let t := h_pcs tls in
  let t1 := PCSamp.mkTLS header (u64 threshold) (t_pc_len t) (t_count_len t) (t_buffer t) (t_ompt t) false in
  r ← PCSamp.initialize_data bld t1 w;
  tm ← CBTF_GetTime r.2;
  let h := with_id (with_omp_tid (t_header r.1) (monitor_get_thread_num r.2)) hwc_unique_id in
  let t2 := PCSamp.mkTLS (with_times h tm.1 (dh_time_end h)) (t_interval r.1) (t_pc_len r.1)
              (t_count_len r.1) (t_buffer r.1)
              (if b_have_ompt bld then mkOmpt false false false else t_ompt r.1) (t_defer r.1) in
  p ← setup_overflow (bool_decide (is_Some (getenv tm.2 "CBTF_HWCSAMP_MULTIPLEX"))) event threshold g
        (h_EventSet tls) tm.2;
  tm' ← CBTF_GetTime p.2;
  let t3 := PCSamp.mkTLS (with_times (t_header t2) tm'.1 (dh_time_end (t_header t2))) (t_interval t2)
              (t_pc_len t2) (t_count_len t2) (t_buffer t2) (t_ompt t2) (t_defer t2) in
  Ok (p.1.1, mkTLS t3 p.1.2, CBTF_Start p.1.2 tm'.2).

Definition cbtf_collector_pause (s : state) : outcome state :=
  let '(g, tls, w) := s in
  if g_papi_init_done g then Ok (g, mkTLS (set_defer true (h_pcs tls)) (h_EventSet tls), w) else Ok s.

Definition cbtf_collector_resume (s : state) : outcome state :=
  let '(g, tls, w) := s in
  if g_papi_init_done g then Ok (g, mkTLS (set_defer false (h_pcs tls)) (h_EventSet tls), w) else Ok s.

Definition cbtf_collector_stop (s : state) : outcome state :=
  let '(g, tls, w) := s in
  if h_EventSet tls =? PAPI_NULL then Ok s else
    let w1 := (CBTF_Stop (h_EventSet tls) None w).2 in
    tm ← CBTF_GetTime w1;
    let t := h_pcs tls in
    let h := t_header t in
    let t1 := PCSamp.mkTLS (with_times h (dh_time_begin h) tm.1) (t_interval t) (t_pc_len t)
                (t_count_len t) (t_buffer t) (t_ompt t) (t_defer t) in
    if pcd_length (t_buffer t1) >? 0 then
      r ← hwc_send_samples (mkTLS t1 (h_EventSet tls)) tm.2; Ok (g, r.1, r.2)
    else Ok (g, mkTLS t1 (h_EventSet tls), tm.2).

(** ** Runs *)
Inductive event :=
| Overflow (pc : Z)      (* the counter passes the threshold at [pc] *)
| RecordAddr (addr : Z)
| Pause
| Resume
| SetOmpt (o : ompt_flags).

Definition set_ompt (o : ompt_flags) (t : PCSamp.TLS) : PCSamp.TLS :=
  PCSamp.mkTLS (t_header t) (t_interval t) (t_pc_len t) (t_count_len t) (t_buffer t) o (t_defer t).

Definition step (ev : event) (s : state) : outcome state :=
  let '(g, tls, w) := s in
  match ev with
  | Overflow pc => r ← hwcPAPIHandler pc tls w; Ok (g, r.1, r.2)
  | RecordAddr addr => r ← collector_record_addr addr tls w; Ok (g, r.1, r.2)
  | Pause => cbtf_collector_pause s
  | Resume => cbtf_collector_resume s
  | SetOmpt o => Ok (g, mkTLS (set_ompt o (h_pcs tls)) (h_EventSet tls), w)
  end.

Fixpoint run (evs : list event) (s : state) : outcome state :=
  match evs with
  | [] => Ok s
  | ev :: evs' => s' ← step ev s; run evs' s'
  end.

(** The addresses a run samples, by the flags alone: recording an address ends a
    pause. *)
Fixpoint accepted (ompt : ompt_flags) (defer : bool) (evs : list event) : list Z :=
  match evs with
  | [] => []
  | Overflow pc :: evs' => (if defer then [] else [blame bld ompt pc]) ++ accepted ompt defer evs'
  | RecordAddr addr :: evs' => addr :: accepted ompt false evs'
  | Pause :: evs' => accepted ompt true evs'
  | Resume :: evs' => accepted ompt false evs'
  | SetOmpt o :: evs' => accepted o defer evs'
  end.
End hwc.

Section correctness.
Context {W : Type} {SV : Services W hwc_data} {SL : ServicesLaws W hwc_data}.
Context {PA : Papi W} {PF : PapiFrame (sent (W := W))} {PW : PapiWorks W} (bld : build).

(** The invariant of pcsamp on the embedded storage, with an event set. *)
Definition hwc_ready (w0 : W) (s : @state W) (acc : list Z) : Prop :=
  ps_ready bld w0 (h_pcs s.1.2) s.2 acc /\ h_EventSet s.1.2 <> PAPI_NULL /\
  g_papi_init_done s.1.1 = true.

Definition flags_of (s : @state W) : ompt_flags := t_ompt (h_pcs s.1.2).
Definition deferred (s : @state W) : bool := t_defer (h_pcs s.1.2).

Lemma record_addr_ok w0 g tls w acc addr :
  hwc_ready w0 (g, tls, w) acc ->
  exists tls' w', collector_record_addr bld addr tls w = Ok (tls', w') /\
    hwc_ready w0 (g, tls', w') (addr :: acc) /\ t_ompt (h_pcs tls') = t_ompt (h_pcs tls) /\
    t_defer (h_pcs tls') = false.
Proof.
  intros (Hr & He & Hg). unfold collector_record_addr.
  assert (Hr' : ps_ready bld w0 (set_defer true (h_pcs tls)) w acc) by (by apply (ps_ready_same bld _ (h_pcs tls) w)).
  destruct (record_pc_ok bld _ _ _ _ addr Hr') as (u & t' & w' & -> & Hs & Hr1 & Ho & _).
  rewrite bind_of_Ok. cbv zeta in Hs. cbv zeta. rewrite Hs, bind_of_Ok. eexists _, _. split; [reflexivity|].
  unfold hwc_ready. cbn [fst snd h_pcs h_EventSet with_pcs]. split_and!; try done.
  by apply (ps_ready_same bld _ t' w').
Qed.

(** The flags do not matter to the invariant. *)
Lemma hwc_ready_flags w0 g tls w acc t :
  t_buffer t = t_buffer (h_pcs tls) ->
  hwc_ready w0 (g, tls, w) acc -> hwc_ready w0 (g, mkTLS t (h_EventSet tls), w) acc.
Proof. intros Hb (Hr & He & Hg). split_and!; [|done..]. by apply (ps_ready_same bld _ (h_pcs tls) w). Qed.

Lemma hwc_step_ok w0 ev s acc :
  hwc_ready w0 s acc ->
  exists s', step bld ev s = Ok s' /\
    hwc_ready w0 s' (rev (accepted bld (flags_of s) (deferred s) [ev]) ++ acc) /\
    forall evs, accepted bld (flags_of s) (deferred s) (ev :: evs) =
      accepted bld (flags_of s) (deferred s) [ev] ++ accepted bld (flags_of s') (deferred s') evs.
Proof.
  destruct s as [[g tls] w]. intros Hr. pose proof Hr as (Hp & He & Hg). cbn [fst snd] in *.
  unfold flags_of, deferred in *. cbn [fst snd] in *.
  destruct ev as [pc|addr| | |o]; cbn [step].
  - unfold hwcPAPIHandler.
    destruct (serviceTimerHandler_ok bld _ _ _ _ pc Hp) as (t' & w' & -> & Hp' & Ho & Hd).
    rewrite !bind_of_Ok. eexists. split; [reflexivity|]. simpl. rewrite Ho, Hd. unfold hwc_ready. simpl.
    by destruct (t_defer _).
  - destruct (record_addr_ok _ _ _ _ _ addr Hr) as (tls' & w' & -> & Hr' & Ho & Hd).
    rewrite bind_of_Ok. eexists. split; [reflexivity|]. simpl. by rewrite Ho, Hd.
  - unfold cbtf_collector_pause. rewrite Hg. by eauto using hwc_ready_flags.
  - unfold cbtf_collector_resume. rewrite Hg. by eauto using hwc_ready_flags.
  - by eauto using hwc_ready_flags.
Qed.

Lemma hwc_run_ok w0 evs : forall s acc,
  hwc_ready w0 s acc ->
  exists s', run bld evs s = Ok s' /\
    hwc_ready w0 s' (rev (accepted bld (flags_of s) (deferred s) evs) ++ acc).
Proof.
  induction evs as [|ev evs IH]; intros s acc Hr; [by exists s|]. cbn [run].
  destruct (hwc_step_ok w0 ev s acc Hr) as (s1 & -> & Hr1 & Hacc). rewrite bind_of_Ok.
  destruct (IH s1 _ Hr1) as (s2 & H2 & Hr2). exists s2. split; [done|].
  by rewrite Hacc, rev_app_distr, <- app_assoc.
Qed.

Lemma hwc_start_ok header g tls w :
  Z.of_nat (length (pcd_pc (t_buffer (h_pcs tls)))) = CBTF_PCBufferSize (b_arch bld) ->
  Z.of_nat (length (pcd_count (t_buffer (h_pcs tls)))) = CBTF_PCBufferSize (b_arch bld) ->
  Z.of_nat (String.length (default "PAPI_TOT_CYC" (getenv w "CBTF_HWC_EVENT"))) < PAPI_MAX_STR_LEN ->
  exists s', cbtf_collector_start bld header (g, tls, w) = Ok s' /\ hwc_ready w s' [] /\
    deferred s' = false /\
    flags_of s' = if b_have_ompt bld then mkOmpt false false false else t_ompt (h_pcs tls).
Proof.
  intros Hp Hc Hn. unfold cbtf_collector_start.
  match goal with |- context [PCSamp.initialize_data bld ?t w] =>
    destruct (initialize_data_ok bld t w) as (t1 & w1 & -> & Hs1 & Hi1 & Hl1 & Ho1 & Hd1) end; [done..|].
  rewrite bind_of_Ok. cbn [fst snd]. destruct (time_law w1) as (tm & w2 & -> & _ & Hs2).
  rewrite bind_of_Ok. cbn [fst snd].
  match goal with |- context [setup_overflow ?mp ?e ?th g ?e0 w2] =>
    destruct (setup_overflow_ok sent mp e th g e0 w2 Hn) as (g' & es & w3 & -> & He & Hg & Hs3) end.
  rewrite bind_of_Ok. cbn [fst snd]. destruct (time_law w3) as (tm' & w4 & -> & _ & Hs4). rewrite bind_of_Ok.
  eexists. split; [reflexivity|]. unfold hwc_ready, deferred, flags_of. simpl.
  split_and!; try done; [|by rewrite Ho1].
  exists []. split; [|simpl; rewrite Hl1; pose proof (PCBuffer_sizes (b_arch bld)) as [? ?]; lia].
  constructor; [done|]. exists []. rewrite app_nil_r, (Start_frame sent). by rewrite Hs4, Hs3, Hs2, Hs1.
Qed.

Lemma hwc_stop_ok w0 s acc :
  hwc_ready w0 s acc ->
  exists s' new, cbtf_collector_stop bld s = Ok s' /\ sent s'.2 = sent w0 ++ new /\
    Forall (blob_ok (b_arch bld)) new /\ forall p, delivered p new = occurrences p acc.
Proof.
  destruct s as [[g tls] w]. intros ((cur & [Hb Hsent] & _) & He & Hg). cbn [fst snd] in *.
  unfold cbtf_collector_stop. destruct (_ =? PAPI_NULL) eqn:Hn; bools; [done|].
  match goal with |- context [CBTF_GetTime ?w'] => destruct (time_law w') as (tm & w2 & -> & _ & Hs2) end.
  rewrite bind_of_Ok. cbn [fst snd]. rewrite (Stop_frame sent) in Hs2.
  match goal with |- context [t_buffer ?t] => destruct (flush_ok bld w0 t w2 acc cur) as (t' & w' & Hf & Hi) end.
  { constructor; [done|]. by rewrite Hs2. }
  destruct Hi as [_ (new & Hnew & Hok & Hsum)].
  revert Hf. unfold hwc_send_samples. cbn [h_pcs]. destruct (_ >? 0); intros Hf.
  - rewrite Hf, !bind_of_Ok. eexists _, new. split_and!; try done. intros p.
    specialize (Hsum p). unfold occurrences at 1 in Hsum. rewrite countb_nil in Hsum. lia.
  - injection Hf as <- <-. eexists _, new. split_and!; try done. intros p.
    specialize (Hsum p). unfold occurrences at 1 in Hsum. rewrite countb_nil in Hsum. lia.
Qed.
End correctness.

(** with a usable PAPI, the hwc collector runs from start through any
    sequence of counter overflows, recorded addresses, pauses, resumes and OMPT
    flag changes to stop without leaving its arrays, whether it is the first
    thread of the process to start or not; every blob it sends is well formed, and
    the blobs count each address exactly as often as it was recorded or an
    overflow was charged to it while sampling was not deferred. *)
Theorem hwc_accounts_for_every_overflow {W} {SV : Services W hwc_data} {SL : ServicesLaws W hwc_data}
    {PA : Papi W} {PF : PapiFrame (sent (W := W))} {PW : PapiWorks W} (bld : build)
    (header : CBTF_DataHeader) (g : papi_globals) (tls : TLS) (w : W) (evs : list event) :
  Z.of_nat (length (pcd_pc (t_buffer (h_pcs tls)))) = CBTF_PCBufferSize (b_arch bld) ->
  Z.of_nat (length (pcd_count (t_buffer (h_pcs tls)))) = CBTF_PCBufferSize (b_arch bld) ->
  Z.of_nat (String.length (default "PAPI_TOT_CYC" (getenv w "CBTF_HWC_EVENT"))) < PAPI_MAX_STR_LEN ->
  let flags := if b_have_ompt bld then mkOmpt false false false else t_ompt (h_pcs tls) in
  exists s1 s2 s3 new,
    cbtf_collector_start bld header (g, tls, w) = Ok s1 /\
    run bld evs s1 = Ok s2 /\ cbtf_collector_stop bld s2 = Ok s3 /\
    sent s3.2 = sent w ++ new /\ Forall (blob_ok (b_arch bld)) new /\
    forall p, delivered p new = occurrences p (accepted bld flags false evs).
Proof.
  intros Hp Hc Hn flags.
  destruct (hwc_start_ok bld header g tls w Hp Hc Hn) as (s1 & H1 & R1 & Hd & Ho).
  destruct (hwc_run_ok bld w evs s1 [] R1) as (s2 & H2 & R2).
  destruct (hwc_stop_ok bld w s2 _ R2) as (s3 & new & H3 & Hs & Hok & Hdel).
  exists s1, s2, s3, new. split_and!; try done. intros p.
  rewrite Hdel, app_nil_r, Hd, Ho. unfold occurrences. by rewrite countb_rev.
Qed.

(** Overflows before, during and after a pause that a recorded address ends. *)
Lemma hwc_accounts_witness :
  let size := Z.to_nat (CBTF_PCBufferSize arch_other) in
  let pcs := PCSamp.mkTLS (mkDataHeader 0 1 "" "n0" 1 1 (-1) 0 0 0 0 0) 0 0 0
    (mkPCData 0 0 0 (replicate size 0) (replicate size 0) []) (mkOmpt false false false) false in
  let evs := [Overflow 4096; Pause; Overflow 4096; RecordAddr 12288; Overflow 8192] in
  let bld := mkBuild arch_other false 0 0 0 in
  exists s1 s2 s3,
    cbtf_collector_start bld (t_header pcs) (mkGlobals false None, mkTLS pcs 0, quiet_papi hwc_data) = Ok s1 /\
    run bld evs s1 = Ok s2 /\ cbtf_collector_stop bld s2 = Ok s3 /\
    delivered 4096 (lw_sent (pw_log s3.2)) = 1 /\ delivered 8192 (lw_sent (pw_log s3.2)) = 1 /\
    delivered 12288 (lw_sent (pw_log s3.2)) = 1.
Proof.
  intros size pcs evs bld.
  destruct (hwc_accounts_for_every_overflow bld (t_header pcs) (mkGlobals false None)
    (mkTLS pcs 0) (quiet_papi hwc_data) evs) as (s1 & s2 & s3 & new & H1 & H2 & H3 & Hs & _ & Hd);
    [by vm_compute..|].
  change (sent (quiet_papi hwc_data)) with (@nil (CBTF_DataHeader * hwc_data)) in Hs.
  simpl sent in Hs. exists s1, s2, s3. split; [exact H1|]. split; [exact H2|]. split; [exact H3|].
  rewrite Hs. split_and!; (etransitivity; [apply Hd|vm_compute; reflexivity]).
Defined.
