(* ===== verification/HWCSamp.v ===== *)
(** The hardware counter sampling collector: core/collectors/hwcsamp/collector.c.
    At each timer interrupt the counters are accumulated into evalues[], which is
    charged to the PC of the sample. evalues[] is one array of the process, so a
    process state (globals) is threaded beside the thread's storage. The main
    theorem accounts for samples and counts in a thread that runs alone; after it,
    what two threads do to each other. *)
From S2P Require Import Prelude Probe PCIndex PCData HWCPCData Headers Services Papi.

(** CBTF_hwcsamp_data as it is on the wire. *)
Record hwcsamp_data := mkHwcsampData {
  hd_interval : Z;
  hd_pc : list Z;
  hd_count : list Z;
  hd_events : list (list Z);
  hd_clock_mhz : Z
}.

(** Thread-local storage; the pointers of data always point into the buffer. *)
Record TLS := mkTLS {
  t_header : CBTF_DataHeader;
  t_interval : Z;
  t_pc_len : Z;
  t_count_len : Z;
  t_events_len : Z;
  t_clock_mhz : Z;
  t_buffer : CBTF_HWCPCData;
  t_ompt : ompt_flags;
  t_defer : bool;
  t_EventSet : Z
}.

Definition set_header (h : CBTF_DataHeader) (t : TLS) : TLS :=
  mkTLS h (t_interval t) (t_pc_len t) (t_count_len t) (t_events_len t) (t_clock_mhz t) (t_buffer t)
    (t_ompt t) (t_defer t) (t_EventSet t).
Definition set_lens (p c e : Z) (t : TLS) : TLS :=
  mkTLS (t_header t) (t_interval t) p c e (t_clock_mhz t) (t_buffer t) (t_ompt t) (t_defer t) (t_EventSet t).
Definition set_buffer (b : CBTF_HWCPCData) (t : TLS) : TLS :=
  mkTLS (t_header t) (t_interval t) (t_pc_len t) (t_count_len t) (t_events_len t) (t_clock_mhz t) b
    (t_ompt t) (t_defer t) (t_EventSet t).
Definition set_interval (i : Z) (t : TLS) : TLS :=
  mkTLS (t_header t) i (t_pc_len t) (t_count_len t) (t_events_len t) (t_clock_mhz t) (t_buffer t)
    (t_ompt t) (t_defer t) (t_EventSet t).
Definition set_flags (o : ompt_flags) (d : bool) (t : TLS) : TLS :=
  mkTLS (t_header t) (t_interval t) (t_pc_len t) (t_count_len t) (t_events_len t) (t_clock_mhz t)
    (t_buffer t) o d (t_EventSet t).
Definition set_papi (mhz es : Z) (t : TLS) : TLS :=
  mkTLS (t_header t) (t_interval t) (t_pc_len t) (t_count_len t) (t_events_len t) mhz (t_buffer t)
    (t_ompt t) (t_defer t) es.

(** Globals of the process. *)
Record globals := mkGlobals {
  g_papi_init_done : bool;     (* hwcsamp_papi_init_done *)
  g_hw_info : option Z;        (* hw_info of PapiAPI.h: NULL, or its mhz *)
  g_evalues : list Z           (* evalues[6] *)
}.

Definition set_evalues (v : list Z) (g : globals) : globals :=
  mkGlobals (g_papi_init_done g) (g_hw_info g) v.

Notation zero_values := (replicate 6 0).

Definition hwcsamp_unique_id : string := "hwcsamp".

(** The tokens strtok_r(..., ",") delivers: the non-empty pieces. *)
Fixpoint tokens (acc : string) (s : string) : list string :=
  match s with
  | EmptyString => if String.eqb acc "" then [] else [acc]
  | String c s' =>
      if Nat.eqb (Ascii.nat_of_ascii c) 44 then (if String.eqb acc "" then [] else [acc]) ++ tokens "" s'
      else tokens (String.append acc (String c EmptyString)) s'
  end.

Section hwcsamp.
Context {W : Type} {SV : Services W hwcsamp_data} {PA : Papi W} (bld : build).

Definition state : Type := globals * TLS * W.

Definition initialize_data (s : state) : outcome state :=
  let '(g, tls, w) := s in
  r ← CBTF_GetTime w;
  let header := with_addrs (with_times (t_header tls) r.1 0) UINT64_MAX 0 in
  let b := t_buffer tls in
  let buffer := hwcdata_reset (CBTF_HWCPCHashTableSize (b_arch bld)) (hwc_pc b) (hwc_count b)
                  (hwc_hwccounts b) in
  Ok (set_evalues zero_values g,
      set_buffer buffer (set_lens 0 0 (hwc_length b) (set_header header tls)), r.2).

Definition blob (tls : TLS) : hwcsamp_data :=
  let b := t_buffer tls in
  mkHwcsampData (t_interval tls) (take (Z.to_nat (t_pc_len tls)) (hwc_pc b))
    (take (Z.to_nat (t_count_len tls)) (hwc_count b))
    (take (Z.to_nat (t_events_len tls)) (hwc_hwccounts b)) (t_clock_mhz tls).

Definition send_samples (s : state) : outcome state :=
  let '(g, tls, w) := s in
  r ← CBTF_GetTime w;
  let b := t_buffer tls in
  let header := with_rank (with_addrs (with_times (t_header tls) (dh_time_begin (t_header tls)) r.1)
                  (hwc_addr_begin b) (hwc_addr_end b)) (monitor_mpi_comm_rank r.2) in
  let tls1 := set_lens (hwc_length b) (hwc_length b) (hwc_length b) (set_header header tls) in
  w2 ← cbtf_collector_send header (blob tls1) r.2;
  initialize_data (g, tls1, w2).

(** The address a sample is charged to. *)
Definition blame (ompt : ompt_flags) (pc : Z) : Z :=
  if b_have_ompt bld then
    if thread_idle ompt then b_addr_idle bld
    else if thread_wait_barrier ompt then b_addr_wait_barrier bld
    else if thread_barrier ompt then b_addr_barrier bld
    else pc
  else pc.

(** The three accesses of the handler to evalues[]: accumulate, use, clear. *)
Definition handler_accum (s : state) : state :=
  let '(g, tls, w) := s in
  let r := CBTF_HWCAccum (t_EventSet tls) (g_evalues g) w in
  (set_evalues r.1 g, tls, r.2).

Definition handler_update (pc : Z) (s : state) : outcome state :=
  let '(g, tls, w) := s in
  u ← CBTF_UpdateHWCPCData (b_arch bld) (blame (t_ompt tls) pc) (t_buffer tls) (g_evalues g);
  let tls1 := set_buffer u.2 tls in
  if (u.1 : bool) then send_samples (g, tls1, w) else Ok (g, tls1, w).

Definition handler_clear (s : state) : state :=
  let '(g, tls, w) := s in (set_evalues zero_values g, tls, w).

Definition hwcsampTimerHandler (pc : Z) (s : state) : outcome state :=
  if t_defer s.1.2 then Ok s else
    s' ← handler_update pc (handler_accum s);
    Ok (handler_clear s').

(** (uint64_t)1000000000 / (uint64_t)hwcsamp_rate; a zero rate traps. *)
Definition sampling_interval (rate : Z) : outcome Z :=
  if u64 rate =? 0 then Fault else Ok (1000000000 / u64 rate).

(** The loop over the event names: the code of an unknown name is that of the
    name before it, as the result of the look-up is not checked. *)
Fixpoint add_events (es : Z) (names : list string) (eventcode : Z) (w : W) : W :=
  match names with
  | [] => w
  | name :: names' =>
      let code := (PAPI_event_name_to_code name eventcode w).2 in
      add_events es names' code
        (report "CBTF_Create_Eventset PAPI_event_name_to_code" (PAPI_add_event es code w))
  end.

(** The PAPI part of cbtf_collector_start. The flag says whether sampling goes
    on: it does not when the component of the event set cannot be assigned. *)
Definition setup_papi (names : string) (s : state) : outcome (bool * state) :=
  let '(g, tls, w) := s in
  let multiplex := bool_decide (is_Some (getenv w "CBTF_HWCSAMP_MULTIPLEX")) in
  i ← (if g_papi_init_done g then Ok (g, t_EventSet tls, w)
       else
         r ← CBTF_init_papi multiplex (g_hw_info g) w;
         Ok (mkGlobals true r.1 (g_evalues g), PAPI_NULL, r.2));
  let '(g1, es0, w1) := i in
  mhz ← (match g_hw_info g1 with Some m => Ok m | None => Fault end);
  let e := CBTF_Create_Eventset es0 w1 in
  let a := PAPI_assign_eventset_component e.1 0 e.2 in
  let w2 := report "CBTF_Create_Eventset assign_eventset_component" a in
  let tls1 := set_papi mhz e.1 tls in
  if negb (a.1 =? PAPI_OK) then Ok (false, (g1, tls1, w2)) else
    let w3 := if multiplex then
                let m := PAPI_set_multiplex e.1 w2 in
                if m.1 =? PAPI_ENOSUPP then papi_message "CBTF_Create_Eventset: Multiplex not supported" 0 m.2
                else report "CBTF_Create_Eventset set_multiplex" m
              else w2 in
    Ok (true, (g1, tls1, add_events e.1 (tokens "" names) 0 w3)).

Definition cbtf_collector_start (header : CBTF_DataHeader) (s : state) : outcome state :=
  let '(g, tls, w) := s in
  let names := default "PAPI_TOT_CYC,PAPI_TOT_INS" (getenv w "CBTF_HWCSAMP_EVENTS") in
  let rate := match getenv w "CBTF_HWCSAMP_RATE" with Some str => atoi str | None => 100 end in
  interval ← sampling_interval rate;
  r ← initialize_data (g, set_header header (set_interval interval (set_flags (t_ompt tls) false tls)), w);
  let '(g1, tls1, w1) := r in
  tm ← CBTF_GetTime w1;
  let h := with_id (with_omp_tid (t_header tls1) (monitor_get_thread_num w1)) hwcsamp_unique_id in
  p ← setup_papi names (g1, set_header (with_times h tm.1 (dh_time_end h)) tls1, tm.2);
  let '(go, (g2, tls2, w2)) := p in
  if negb go then Ok (g2, tls2, w2) else
    let tls3 := if b_have_ompt bld then set_flags (mkOmpt false false false) (t_defer tls2) tls2 else tls2 in
    tm' ← CBTF_GetTime w2;
    let tls4 := set_header (with_times (t_header tls3) tm'.1 (dh_time_end (t_header tls3))) tls3 in
    w4 ← svc_timer_start (t_interval tls4) (CBTF_Start (t_EventSet tls4) tm'.2);
    Ok (g2, tls4, w4).

Definition cbtf_collector_pause (s : state) : outcome state :=
  let '(g, tls, w) := s in
  let w1 := svc_block_signal w in
  let tls1 := set_flags (t_ompt tls) true tls in
  if g_papi_init_done g then
    let r := CBTF_Stop (t_EventSet tls1) (Some (g_evalues g)) w1 in
    Ok (set_evalues (default (g_evalues g) r.1) g, tls1, r.2)
  else Ok (g, tls1, w1).

Definition cbtf_collector_resume (s : state) : outcome state :=
  let '(g, tls, w) := s in
  let w1 := svc_unblock_signal w in
  let tls1 := set_flags (t_ompt tls) false tls in
  Ok (g, tls1, if g_papi_init_done g then CBTF_Start (t_EventSet tls1) w1 else w1).

Definition cbtf_collector_stop (s : state) : outcome state :=
  let '(g, tls, w) := s in
  if t_EventSet tls =? PAPI_NULL then Ok s else
    let r := CBTF_Stop (t_EventSet tls) (Some (g_evalues g)) w in
    let g1 := set_evalues (default (g_evalues g) r.1) g in
    w2 ← svc_timer_stop r.2;
    tm ← CBTF_GetTime w2;
    let tls1 := set_header (with_times (t_header tls) (dh_time_begin (t_header tls)) tm.1) tls in
    if hwc_length (t_buffer tls1) >? 0 then send_samples (g1, tls1, tm.2) else Ok (g1, tls1, tm.2).
End hwcsamp.

(** ** Runs of one thread *)
Inductive event :=
| Count (inc : list Z)   (* the hardware counts *)
| Tick (pc : Z)          (* a timer interrupt at [pc] *)
| Pause
| Resume
| SetOmpt (o : ompt_flags).

Section runs.
Context {W : Type} {SV : Services W hwcsamp_data} {PA : Papi W} {PC : PapiCounters W} (bld : build).

Definition step (ev : event) (s : @state W) : outcome (@state W) :=
  match ev with
  | Count inc => Ok (s.1, count inc s.2)
  | Tick pc => hwcsampTimerHandler bld pc s
  | Pause => cbtf_collector_pause s
  | Resume => cbtf_collector_resume s
  | SetOmpt o => Ok (s.1.1, set_flags o (t_defer s.1.2) s.1.2, s.2)
  end.

Fixpoint run (evs : list event) (s : @state W) : outcome (@state W) :=
  match evs with
  | [] => Ok s
  | ev :: evs' => s' ← step ev s; run evs' s'
  end.
End runs.

(** What a run charges to PCs, by the flags and the hardware's counts alone:
    a pause keeps what was counted since the last sample or resume ([x_carried]),
    and the next sample is charged with it and with what was counted since. *)
Record ledger := mkLedger {
  x_ompt : ompt_flags;
  x_defer : bool;
  x_carried : list Z;
  x_counted : list Z
}.

Definition charge (bld : build) (ev : event) (x : ledger) : list (Z * list Z) * ledger :=
  match ev with
  | Count inc =>
      ([], if x_defer x then x
           else mkLedger (x_ompt x) (x_defer x) (x_carried x) (add_values (x_counted x) inc))
  | Tick pc =>
      if x_defer x then ([], x)
      else ([(blame bld (x_ompt x) pc, add_values (x_carried x) (x_counted x))],
            mkLedger (x_ompt x) false zero_values zero_values)
  | Pause => ([], if x_defer x then x else mkLedger (x_ompt x) true (x_counted x) (x_counted x))
  | Resume => ([], if x_defer x then mkLedger (x_ompt x) false (x_carried x) zero_values else x)
  | SetOmpt o => ([], mkLedger o (x_defer x) (x_carried x) (x_counted x))
  end.

Fixpoint charged (bld : build) (x : ledger) (evs : list event) : list (Z * list Z) :=
  match evs with
  | [] => []
  | ev :: evs' => (charge bld ev x).1 ++ charged bld (charge bld ev x).2 evs'
  end.

(** Samples of [p], and the total of event [j] over them, in the blobs sent. *)
Definition delivered (p : Z) (blobs : list (CBTF_DataHeader * hwcsamp_data)) : Z :=
  foldr (fun hd acc => tally id p (zip (hd_pc hd.2) (hd_count hd.2)) + acc) 0 blobs.
Definition delivered_events (p : Z) (j : nat) (blobs : list (CBTF_DataHeader * hwcsamp_data)) : Z :=
  foldr (fun hd acc => events_at p j (zip (hd_pc hd.2) (hd_events hd.2)) + acc) 0 blobs.

Lemma hs_delivered_snoc p l x : delivered p (l ++ [x]) = delivered p l + delivered p [x].
Proof. unfold delivered. rewrite foldr_app. simpl. induction l as [|y l IH]; simpl; lia. Qed.
Lemma delivered_events_snoc p j l x :
  delivered_events p j (l ++ [x]) = delivered_events p j l + delivered_events p j [x].
Proof. unfold delivered_events. rewrite foldr_app. simpl. induction l as [|y l IH]; simpl; lia. Qed.

(** A blob that is fit to be sent. *)
Definition blob_ok (a : arch) (hd : CBTF_DataHeader * hwcsamp_data) : Prop :=
  Z.of_nat (length (hd_pc hd.2)) <= CBTF_HWCPCBufferSize a /\
  length (hd_pc hd.2) = length (hd_count hd.2) /\
  length (hd_pc hd.2) = length (hd_events hd.2) /\
  Forall (fun row => length row = 6%nat) (hd_events hd.2).

Section correctness.
Context {W : Type} {SV : Services W hwcsamp_data} {SL : ServicesLaws W hwcsamp_data}.
Context {PA : Papi W} {PF : PapiFrame (sent (W := W))} {PC : PapiCounters W}.
Context {SC : ServicesCounters W hwcsamp_data} (bld : build).
Notation a := (b_arch bld).
Notation B := (CBTF_HWCPCBufferSize a).

(** What was sent since [w0] and the buffer together hold the samples [acc]. *)
Definition hs_stored (w0 : W) (b : CBTF_HWCPCData) (w : W) (acc cur : list (Z * list Z)) : Prop :=
  hwcdata_inv a b cur /\ exists new, sent w = sent w0 ++ new /\ Forall (blob_ok a) new /\
    (forall p, delivered p new + occurrences p (map fst cur) = occurrences p (map fst acc)) /\
    (forall p (j : nat), (j < 6)%nat ->
       u64 (delivered_events p j new + events_at p j cur) = u64 (events_at p j acc)).

(** The thread is as the ledger says. *)
Record hs_ledger (x : ledger) (s : @state W) : Prop := {
  hl_ompt : t_ompt s.1.2 = x_ompt x;
  hl_defer : t_defer s.1.2 = x_defer x;
  hl_carried : g_evalues s.1.1 = x_carried x;
  hl_six : length (x_carried x) = 6%nat;
  hl_six' : length (x_counted x) = 6%nat;
  hl_running : running s.2 = negb (x_defer x);
  hl_counted : x_defer x = false -> counters s.2 = x_counted x;
  hl_set : t_EventSet s.1.2 <> PAPI_NULL;
  hl_init : g_papi_init_done s.1.1 = true
}.

Definition hs_inv (w0 : W) (x : ledger) (s : @state W) (acc : list (Z * list Z)) : Prop :=
  hs_ledger x s /\ exists cur, hs_stored w0 (t_buffer s.1.2) s.2 acc cur /\ hwc_length (t_buffer s.1.2) < B.

Lemma hs_stored_sent w0 b w w' acc cur :
  sent w' = sent w -> hs_stored w0 b w acc cur -> hs_stored w0 b w' acc cur.
Proof. unfold hs_stored. by intros ->. Qed.

(** The blob of a buffer that holds [cur]. *)
Lemma blob_of_hwcbuffer b cur h i m :
  hwcdata_inv a b cur ->
  let n := Z.to_nat (hwc_length b) in
  let d := mkHwcsampData i (take n (hwc_pc b)) (take n (hwc_count b)) (take n (hwc_hwccounts b)) m in
  blob_ok a (h, d) /\ (forall p, delivered p [(h, d)] = occurrences p (map fst cur)) /\
  (forall p (j : nat), (j < 6)%nat -> u64 (delivered_events p j [(h, d)]) = u64 (events_at p j cur)).
Proof.
  intros [Hb Hrows Hrow Hev] n d. destruct Hb as [Hps Hcs Hix _ Htal _ _ _].
  pose proof (ix_len _ _ _ _ Hix) as Hlen. cbn [hwc_base pcd_pc pcd_count pcd_length] in *.
  split_and!.
  - unfold blob_ok, d, n. simpl. rewrite !length_take. split_and!; try lia.
    apply Forall_forall. intros row Hin. apply elem_of_take in Hin as (k & Hk & _). eauto.
  - intros p. unfold delivered. simpl. rewrite <- Htal. unfold pcd_entries, entries, n. simpl.
    rewrite <- zip_with_take. lia.
  - intros p j Hj. unfold delivered_events. simpl. rewrite <- (Hev p j Hj). f_equal.
    unfold hwc_rows, entries, events_at, n. rewrite <- zip_with_take. lia.
Qed.

Lemma u64_add_compat x x' y : u64 x = u64 x' -> u64 (y + x) = u64 (y + x').
Proof. unfold u64. intros H. by rewrite <- Zplus_mod_idemp_r, H, Zplus_mod_idemp_r. Qed.

Lemma initialize_hs_ok g tls w :
  exists h w', initialize_data bld (g, tls, w) = Ok (set_evalues zero_values g,
      set_buffer (hwcdata_reset (CBTF_HWCPCHashTableSize a) (hwc_pc (t_buffer tls)) (hwc_count (t_buffer tls))
         (hwc_hwccounts (t_buffer tls))) (set_lens 0 0 (hwc_length (t_buffer tls)) (set_header h tls)), w') /\
    sent w' = sent w /\ counters w' = counters w /\ running w' = running w.
Proof.
  unfold initialize_data. destruct (time_law w) as (t & w' & Ht & _ & Hs).
  apply time_counters in Ht as Hcr. destruct Hcr. rewrite Ht, bind_of_Ok. eexists _, w'. by split_and!.
Qed.

Lemma send_hs_ok w0 g tls w acc cur :
  hs_stored w0 (t_buffer tls) w acc cur ->
  exists g' tls' w', send_samples bld (g, tls, w) = Ok (g', tls', w') /\
    hs_stored w0 (t_buffer tls') w' acc [] /\ hwc_length (t_buffer tls') = 0 /\
    g' = set_evalues zero_values g /\
    t_ompt tls' = t_ompt tls /\ t_defer tls' = t_defer tls /\ t_EventSet tls' = t_EventSet tls /\
    counters w' = counters w /\ running w' = running w.
Proof.
  intros [Hb (new & Hnew & Hok & Hsum & Hev)]. unfold send_samples.
  destruct (time_law w) as (t' & w1' & Ht & _ & Hs1'). apply time_counters in Ht as Hcr1. rewrite Ht, bind_of_Ok. cbn [fst snd].
  match goal with |- context [cbtf_collector_send ?h (blob ?t1) ?w2] =>
    destruct (send_law h (blob t1) w2) as (w3 & Hsend & Hs3); apply send_counters in Hsend as Hcr3;
    rewrite Hsend, bind_of_Ok;
    destruct (blob_of_hwcbuffer (t_buffer tls) cur h (t_interval tls) (t_clock_mhz tls) Hb) as (Hbok & Hdel & Hdev);
    destruct (initialize_hs_ok g t1 w3) as (h' & w' & -> & Hs & Hc & Hr)
  end.
  eexists _, _, _. split; [reflexivity|]. simpl. split_and!; try done.
  - split; [apply hwcdata_inv_reset; apply Hb|].
    eexists (new ++ [_]). split_and!; [by rewrite Hs, Hs3, Hs1', Hnew, app_assoc| | |].
    + apply Forall_app_2; [done|]. by apply Forall_singleton.
    + intros p. rewrite hs_delivered_snoc, Hdel, <- Hsum. unfold occurrences at 2. simpl. rewrite countb_nil. lia.
    + intros p j Hj. rewrite delivered_events_snoc. unfold events_at at 1. simpl. rewrite Z.add_0_r.
      rewrite <- (Hev p j Hj). by apply u64_add_compat, Hdev.
  - rewrite Hc. destruct Hcr3 as [-> _]. by destruct Hcr1 as [-> _].
  - rewrite Hr. destruct Hcr3 as [_ ->]. by destruct Hcr1 as [_ ->].
Qed.

(** One sample with the counts [v] of evalues[] enters the buffer. *)
Lemma handler_update_ok w0 g tls w acc cur pc :
  hs_stored w0 (t_buffer tls) w acc cur -> hwc_length (t_buffer tls) < B -> length (g_evalues g) = 6%nat ->
  exists g' tls' w', handler_update bld pc (g, tls, w) = Ok (g', tls', w') /\
    (exists cur', hs_stored w0 (t_buffer tls') w' ((blame bld (t_ompt tls) pc, g_evalues g) :: acc) cur') /\
    hwc_length (t_buffer tls') < B /\
    g_papi_init_done g' = g_papi_init_done g /\
    t_ompt tls' = t_ompt tls /\ t_defer tls' = t_defer tls /\ t_EventSet tls' = t_EventSet tls /\
    counters w' = counters w /\ running w' = running w.
Proof.
  intros [Hb Hsent] Hroom Hsix. unfold handler_update. set (q := blame bld (t_ompt tls) pc).
  destruct (update_hwcpcdata_refines a q (t_buffer tls) (g_evalues g) cur Hb Hroom Hsix)
    as (full & b' & -> & _ & Hb' & Hfull). rewrite bind_of_Ok. cbn [fst snd].
  assert (Hst : hs_stored w0 (t_buffer (set_buffer b' tls)) w ((q, g_evalues g) :: acc) ((q, g_evalues g) :: cur)).
  { split; [done|]. destruct Hsent as (new & Hnew & Hok & Hsum & Hev). exists new. split_and!; try done.
    - intros p. simpl. rewrite !occurrences_cons, <- Hsum. lia.
    - intros p j Hj. unfold events_at in *. simpl. destruct (q =? p); [|by apply Hev].
      rewrite !Z.add_0_l || idtac. specialize (Hev p j Hj).
      rewrite Z.add_assoc, (Z.add_comm _ (g_evalues g !!! j)), <- Z.add_assoc. by apply u64_add_compat. }
  destruct full.
  - destruct (send_hs_ok w0 g (set_buffer b' tls) w _ _ Hst) as (g' & tls' & w' & -> & Hst' & Hl & -> & ? & ? & ? & ? & ?).
    eexists _, _, _. split; [reflexivity|]. split_and!; try done; [by eexists|].
    rewrite Hl. pose proof (HWCPCBuffer_sizes a) as [? ?]. lia.
  - eexists _, _, _. split; [reflexivity|]. split_and!; try done; [by eexists|]. simpl.
    symmetry in Hfull. bools. destruct Hb' as [[Hps _ Hix _ _ _ _ _] _ _ _].
    pose proof (ix_len _ _ _ _ Hix). simpl in *. lia.
Qed.

Lemma hs_tick_ok w0 x s acc pc :
  hs_inv w0 x s acc ->
  exists s', hwcsampTimerHandler bld pc s = Ok s' /\
    hs_inv w0 (charge bld (Tick pc) x).2 s' ((charge bld (Tick pc) x).1 ++ acc).
Proof.
  destruct s as [[g tls] w]. intros [[Ho Hd Hc Hs1 Hs2 Hr Hcn He Hi] (cur & Hst & Hroom)].
  cbn [fst snd] in *. unfold hwcsampTimerHandler. cbn [charge fst snd]. rewrite Hd.
  destruct (x_defer x) eqn:Hdef; simpl in Hr.
  { exists (g, tls, w). split; [done|]. split; [|by exists cur]. constructor; simpl; rewrite ?Hdef; done. }
  rewrite <- Hc in *. destruct (HWCAccum_running (t_EventSet tls) (g_evalues g) w He Hr Hs1) as (Ha & Hca & Hra).
  unfold handler_accum. rewrite Ha, Hcn by done.
  assert (Hsa : sent (CBTF_HWCAccum (t_EventSet tls) (g_evalues g) w).2 = sent w) by apply (HWCAccum_frame sent).
  destruct (handler_update_ok w0 (set_evalues (add_values (g_evalues g) (x_counted x)) g) tls
    (CBTF_HWCAccum (t_EventSet tls) (g_evalues g) w).2 acc cur pc) as
    (g' & tls' & w' & -> & (cur' & Hst') & Hl & Hi' & Ho' & Hd' & He' & Hc' & Hr').
  { by apply (hs_stored_sent _ _ w). }
  { done. }
  { by apply add_values_length. }
  rewrite bind_of_Ok. eexists. split; [reflexivity|]. split.
  - constructor; simpl in *; try done; try congruence.
  - exists cur'. rewrite Ho in Hst'. by split.
Qed.

Lemma hs_pause_ok w0 x s acc :
  hs_inv w0 x s acc ->
  exists s', cbtf_collector_pause s = Ok s' /\ hs_inv w0 (charge bld Pause x).2 s' acc.
Proof.
  destruct s as [[g tls] w]. intros [[Ho Hd Hc Hs1 Hs2 Hr Hcn He Hi] (cur & Hst & Hroom)].
  cbn [fst snd] in *. unfold cbtf_collector_pause. rewrite Hi. eexists. split; [reflexivity|].
  cbn [t_EventSet set_flags]. destruct (block_counters w) as [Hbc Hbr].
  destruct (Stop_counters (t_EventSet tls) (g_evalues g) (svc_block_signal w) He) as [Hr' Hv].
  rewrite Hv, Hbr, Hbc. cbn [default charge snd]. split.
  - destruct (x_defer x) eqn:Hdef; rewrite Hr; constructor; simpl; rewrite ?Hdef; try done.
    by apply Hcn.
  - exists cur. split; [|done]. cbn [fst snd].
    apply (hs_stored_sent _ _ w); [|done]. by rewrite (Stop_frame sent), block_law.
Qed.

Lemma hs_resume_ok w0 x s acc :
  hs_inv w0 x s acc ->
  exists s', cbtf_collector_resume s = Ok s' /\ hs_inv w0 (charge bld Resume x).2 s' acc.
Proof.
  destruct s as [[g tls] w]. intros [[Ho Hd Hc Hs1 Hs2 Hr Hcn He Hi] (cur & Hst & Hroom)].
  cbn [fst snd] in *. unfold cbtf_collector_resume. rewrite Hi. eexists. split; [reflexivity|].
  cbn [t_EventSet set_flags]. destruct (unblock_counters w) as [Hbc Hbr].
  destruct (Start_counters (t_EventSet tls) (svc_unblock_signal w) He) as [Hr' Hv].
  rewrite Hbr, Hbc in Hv. cbn [charge snd]. split.
  - destruct (x_defer x) eqn:Hdef; rewrite Hr in Hv; constructor; simpl; rewrite ?Hdef; try done.
    intros _. rewrite Hv. by apply Hcn.
  - exists cur. split; [|done]. cbn [fst snd].
    apply (hs_stored_sent _ _ w); [|done]. by rewrite (Start_frame sent), unblock_law.
Qed.

Lemma hs_step_ok w0 ev x s acc :
  (forall inc, ev = Count inc -> length inc = 6%nat) ->
  hs_inv w0 x s acc ->
  exists s', step bld ev s = Ok s' /\
    hs_inv w0 (charge bld ev x).2 s' (rev (charge bld ev x).1 ++ acc).
Proof.
  intros Hinc Hinv. destruct ev as [inc|pc| | |o]; cbn [step].
  - eexists. split; [reflexivity|]. destruct Hinv as [[Ho Hd Hc Hs1 Hs2 Hr Hcn He Hi] (cur & Hst & Hroom)].
    destruct (count_running inc s.2 (Hinc inc eq_refl)) as [Hc' Hr'].
    cbn [charge fst snd]. split; [|exists cur; split; [|done]; by apply (hs_stored_sent _ _ s.2); [apply count_sent|]].
    destruct (x_defer x) eqn:Hdef; constructor; simpl; rewrite ?Hdef; try done; try congruence;
      [by apply add_values_length, Hinc|by rewrite Hr', Hr|]. rewrite Hc', Hr. simpl. intros _. by rewrite Hcn.
  - destruct (hs_tick_ok w0 x s acc pc Hinv) as (s' & Hs & Hi). exists s'. split; [done|].
    by simpl in *; destruct (x_defer x).
  - by apply hs_pause_ok.
  - by apply hs_resume_ok.
  - eexists. split; [reflexivity|]. destruct Hinv as [[Ho Hd Hc Hs1 Hs2 Hr Hcn He Hi] Hst].
    split; [|exact Hst]. by constructor.
Qed.

Lemma hs_run_ok w0 evs : forall x s acc,
  Forall (fun ev => forall inc, ev = Count inc -> length inc = 6%nat) evs ->
  hs_inv w0 x s acc ->
  exists x' s', run bld evs s = Ok s' /\ hs_inv w0 x' s' (rev (charged bld x evs) ++ acc).
Proof.
  induction evs as [|ev evs IH]; intros x s acc Hinc Hinv; [by exists x, s|].
  inversion_clear Hinc as [|? ? Hev Hevs]. cbn [run charged].
  destruct (hs_step_ok w0 ev x s acc Hev Hinv) as (s1 & -> & Hi1). rewrite bind_of_Ok.
  destruct (IH _ s1 _ Hevs Hi1) as (x2 & s2 & H2 & Hi2). exists x2, s2. split; [done|].
  by rewrite rev_app_distr, <- app_assoc.
Qed.

Lemma add_events_frame es names : forall code w,
  sent (add_events es names code w) = sent w /\ running (add_events es names code w) = running w.
Proof.
  induction names as [|n names IH]; intros code w; [done|]. simpl.
  match goal with |- context [report ?st ?r] =>
    destruct (IH (PAPI_event_name_to_code n code w).2 (report st r)) as [-> ->];
    destruct (report_counters st r) as [_ ->] end.
  rewrite (report_frame sent), frame_add. by destruct (setup_keeps es (PAPI_event_name_to_code n code w).2 w) as (_ & _ & ->).
Qed.

Context {PW : PapiWorks W} {PH : PapiHardware W}.

Lemma setup_papi_hs_ok names g tls w :
  (g_papi_init_done g = true -> is_Some (g_hw_info g)) ->
  exists g' mhz es w', setup_papi names (g, tls, w) = Ok (true, (g', set_papi mhz es tls, w')) /\
    es <> PAPI_NULL /\ g_papi_init_done g' = true /\ g_evalues g' = g_evalues g /\
    sent w' = sent w /\ running w' = false.
Proof.
  intros Hhw. unfold setup_papi. set (mp := bool_decide _).
  assert (exists g' mhz e w', (if g_papi_init_done g then Ok (g, t_EventSet tls, w)
       else r ← CBTF_init_papi mp (g_hw_info g) w;
         Ok (mkGlobals true r.1 (g_evalues g), PAPI_NULL, r.2)) = Ok (g', e, w') /\
     g_papi_init_done g' = true /\ g_hw_info g' = Some mhz /\ g_evalues g' = g_evalues g /\
     sent w' = sent w) as (g' & mhz & e & w1 & -> & Hg & Hm & Hv & Hs1).
  { destruct (g_papi_init_done g) eqn:Hg.
    - destruct (Hhw eq_refl) as [mhz Hm]. by eexists _, mhz, _, _.
    - destruct (init_papi_hardware mp (g_hw_info g) w) as (mhz & w1 & Hi).
      apply (init_papi_frame sent) in Hi as Hs. rewrite Hi, bind_of_Ok. by eexists _, mhz, _, _. }
  rewrite bind_of_Ok, Hm, bind_of_Ok, hw_assign, Z.eqb_refl. cbn [negb].
  eexists _, _, _, _. split; [reflexivity|]. split_and!; [apply Create_Eventset_set|done|done|..].
  - match goal with |- context [add_events ?e ?n ?c ?w'] => destruct (add_events_frame e n c w') as [-> _] end.
    repeat case_match; rewrite ?frame_message, ?(report_frame sent), ?frame_set_multiplex, ?(report_frame sent),
      ?frame_assign, ?(Create_Eventset_frame sent); done.
  - match goal with |- context [add_events ?e ?n ?c ?w'] => destruct (add_events_frame e n c w') as [_ ->] end.
    set (w2 := report _ (PAPI_assign_eventset_component _ _ _)).
    assert (Hr2 : running w2 = false).
    { unfold w2. destruct (report_counters "CBTF_Create_Eventset assign_eventset_component"
        (PAPI_assign_eventset_component (CBTF_Create_Eventset e w1).1 0 (CBTF_Create_Eventset e w1).2)) as [_ ->].
      destruct (setup_keeps (CBTF_Create_Eventset e w1).1 0 (CBTF_Create_Eventset e w1).2) as (-> & _).
      unfold CBTF_Create_Eventset. cbn [snd]. match goal with |- context [report ?st ?r] =>
        destruct (report_counters st r) as [_ ->] end. apply create_stopped. }
    destruct mp; [|done]. destruct (setup_keeps (CBTF_Create_Eventset e w1).1 0 w2) as (_ & Hm2 & _).
    destruct (_ =? PAPI_ENOSUPP).
    + match goal with |- context [papi_message ?st ?r ?w'] => destruct (message_counters st r w') as [_ ->] end.
      by rewrite Hm2.
    + match goal with |- context [report ?st ?r] => destruct (report_counters st r) as [_ ->] end. by rewrite Hm2.
Qed.

Definition arrays_ok (b : CBTF_HWCPCData) : Prop :=
  Z.of_nat (length (hwc_pc b)) = B /\ Z.of_nat (length (hwc_count b)) = B /\
  Z.of_nat (length (hwc_hwccounts b)) = B.

Definition start_ledger (tls : TLS) : ledger :=
  mkLedger (if b_have_ompt bld then mkOmpt false false false else t_ompt tls) false zero_values zero_values.

Lemma hs_start_ok header g tls w :
  arrays_ok (t_buffer tls) -> (g_papi_init_done g = true -> is_Some (g_hw_info g)) ->
  (forall s, getenv w "CBTF_HWCSAMP_RATE" = Some s -> u64 (atoi s) <> 0) ->
  exists s', cbtf_collector_start bld header (g, tls, w) = Ok s' /\ hs_inv w (start_ledger tls) s' [].
Proof.
  intros (Hp & Hc & Hrw) Hhw Hrate. unfold cbtf_collector_start, sampling_interval.
  destruct (_ =? 0) eqn:Hz; bools; [destruct (getenv w "CBTF_HWCSAMP_RATE") eqn:?; [by eapply Hrate in Hz|done]|].
  rewrite bind_of_Ok.
  match goal with |- context [initialize_data bld (g, ?t, w)] =>
    destruct (initialize_hs_ok g t w) as (h1 & w1 & -> & Hs1 & _ & _) end.
  rewrite bind_of_Ok. destruct (time_law w1) as (tm & w2 & -> & _ & Hs2). rewrite bind_of_Ok. cbn [fst snd].
  match goal with |- context [setup_papi _ (_, ?t, w2)] => set (T := t) end.
  assert (HT : hwcdata_inv a (t_buffer T) [] /\ hwc_length (t_buffer T) = 0 /\ t_ompt T = t_ompt tls /\
    t_defer T = false) by (split_and!; [by apply hwcdata_inv_reset|done..]).
  clearbody T. destruct HT as (HTb & HTl & HTo & HTd).
  match goal with |- context [setup_papi ?n (?g1, ?t, w2)] =>
    destruct (setup_papi_hs_ok n g1 t w2) as (g' & mhz & es & w3 & -> & He & Hg & Hv & Hs3 & Hr3) end; [done|].
  rewrite bind_of_Ok. cbn [negb]. destruct (time_law w3) as (tm' & w4' & Ht4' & _ & Hs4').
  apply time_counters in Ht4' as Hcr4. rewrite Ht4', bind_of_Ok. cbn [fst snd].
  match goal with |- context [svc_timer_start ?i ?w'] => destruct (timer_start_law i w') as (w5 & Hts & Hs5) end.
  apply timer_start_counters in Hts as Hcr5. rewrite Hts, bind_of_Ok. eexists. split; [reflexivity|].
  destruct (b_have_ompt bld) eqn:Hom; cbn [t_EventSet set_header set_flags set_papi] in *;
    destruct (Start_counters es w4' He) as [HrS HcS]; destruct Hcr4 as [_ Hr4']; rewrite Hr4', Hr3 in HcS;
    destruct Hcr5 as [Hc5 Hr5].
  all: split; [constructor; unfold start_ledger; simpl in *; rewrite ?Hom; try done; congruence|].
  all: exists []; split; [split; [exact HTb|]|
    simpl; rewrite HTl; pose proof (HWCPCBuffer_sizes a) as [? ?]; lia].
  all: exists []; split_and!; try done; rewrite app_nil_r; cbn [snd];
    rewrite Hs5, (Start_frame sent); congruence.
Qed.

Lemma hs_stop_ok w0 x s acc :
  hs_inv w0 x s acc ->
  exists s' new, cbtf_collector_stop bld s = Ok s' /\ sent s'.2 = sent w0 ++ new /\ Forall (blob_ok a) new /\
    (forall p, delivered p new = occurrences p (map fst acc)) /\
    (forall p (j : nat), (j < 6)%nat -> u64 (delivered_events p j new) = u64 (events_at p j acc)).
Proof.
  destruct s as [[g tls] w]. intros [[_ _ _ _ _ _ _ He _] (cur & Hst & Hroom)]. cbn [fst snd] in *.
  unfold cbtf_collector_stop. destruct (_ =? PAPI_NULL) eqn:Hn; bools; [done|].
  match goal with |- context [svc_timer_stop ?w'] => destruct (timer_stop_law w') as (w2 & -> & Hs2) end.
  rewrite bind_of_Ok. destruct (time_law w2) as (tm & w3 & -> & _ & Hs3). rewrite bind_of_Ok. cbn [fst snd].
  rewrite (Stop_frame sent) in Hs2.
  match goal with |- context [send_samples bld (?g1, ?t, w3)] => set (tls1 := t); set (g1' := g1) end.
  assert (Hst1 : hs_stored w0 (t_buffer tls1) w3 acc cur).
  { apply (hs_stored_sent _ _ w); [congruence|done]. }
  destruct (_ >? 0) eqn:Hl; bools.
  - destruct (send_hs_ok w0 g1' tls1 w3 acc cur Hst1) as (g' & tls' & w' & -> & [_ (new & Hnew & Hok & Hsum & Hev)] & _).
    eexists _, new. split_and!; [reflexivity|done|done|..].
    + intros p. specialize (Hsum p). simpl in Hsum. unfold occurrences at 1 in Hsum. rewrite countb_nil in Hsum. lia.
    + intros p j Hj. specialize (Hev p j Hj). unfold events_at at 1 in Hev. simpl in Hev. by rewrite Z.add_0_r in Hev.
  - destruct Hst1 as [Hb (new & Hnew & Hok & Hsum & Hev)].
    assert (cur = []) as ->.
    { destruct cur as [|[q v] cur]; [done|]. exfalso. destruct Hb as [[_ _ Hix _ Htal _ _ _] _ _ _].
      pose proof (ix_len _ _ _ _ Hix) as Hlen. specialize (Htal q). simpl in Htal.
      rewrite occurrences_cons, Z.eqb_refl in Htal. pose proof (countb_nonneg (fun y => y =? q) (map fst cur)).
      unfold occurrences, pcd_entries, entries in Htal. simpl in *.
      replace (Z.to_nat (hwc_length (t_buffer tls))) with 0%nat in Htal by lia. simpl in Htal. lia. }
    eexists _, new. split_and!; [reflexivity|done|done|..].
    + intros p. specialize (Hsum p). simpl in Hsum. unfold occurrences at 1 in Hsum. rewrite countb_nil in Hsum. lia.
    + intros p j Hj. specialize (Hev p j Hj). unfold events_at at 1 in Hev. simpl in Hev. by rewrite Z.add_0_r in Hev.
Qed.
End correctness.

(** with a usable PAPI, the hwcsamp collector of a thread that runs alone goes
    from start through any sequence of hardware counts, timer interrupts, pauses,
    resumes and OMPT flag changes to stop without leaving its arrays; every blob
    is well formed; the blobs count each PC as often as it was sampled while
    sampling was not deferred, and the event totals of a PC add up, modulo 2^64,
    to what the hardware counted up to its samples since the sample before them or
    the last resume, together with what the last pause put aside. *)
Theorem hwcsamp_accounts_for_counts {W} {SV : Services W hwcsamp_data} {SL : ServicesLaws W hwcsamp_data}
    {PA : Papi W} {PF : PapiFrame (sent (W := W))} {PC : PapiCounters W}
    {SC : ServicesCounters W hwcsamp_data} {PW : PapiWorks W} {PH : PapiHardware W} (bld : build)
    (header : CBTF_DataHeader) (g : globals) (tls : TLS) (w : W) (evs : list event) :
  arrays_ok bld (t_buffer tls) -> (g_papi_init_done g = true -> is_Some (g_hw_info g)) ->
  (forall s, getenv w "CBTF_HWCSAMP_RATE" = Some s -> u64 (atoi s) <> 0) ->
  Forall (fun ev => forall inc, ev = Count inc -> length inc = 6%nat) evs ->
  exists s1 s2 s3 new,
    cbtf_collector_start bld header (g, tls, w) = Ok s1 /\
    run bld evs s1 = Ok s2 /\ cbtf_collector_stop bld s2 = Ok s3 /\
    sent s3.2 = sent w ++ new /\ Forall (blob_ok (b_arch bld)) new /\
    (forall p, delivered p new = occurrences p (map fst (charged bld (start_ledger bld tls) evs))) /\
    (forall p (j : nat), (j < 6)%nat ->
       u64 (delivered_events p j new) = u64 (events_at p j (charged bld (start_ledger bld tls) evs))).
Proof.
  intros Ha Hhw Hrate Hinc.
  destruct (hs_start_ok bld header g tls w Ha Hhw Hrate) as (s1 & H1 & I1).
  destruct (hs_run_ok bld w evs _ s1 [] Hinc I1) as (x2 & s2 & H2 & I2).
  destruct (hs_stop_ok bld w x2 s2 _ I2) as (s3 & new & H3 & Hs & Hok & Hd & He).
  exists s1, s2, s3, new. rewrite app_nil_r in *. split_and!; try done.
  - intros p. rewrite Hd, map_rev. unfold occurrences. apply countb_rev.
  - intros p j Hj. rewrite (He p j Hj). f_equal. apply tally_rev.
Qed.

(** ** Two threads

    Each thread has its own world (clock, counters, blobs), but both use the
    evalues[] of the process. *)
Section two_threads.
Context {W : Type} {SV : Services W hwcsamp_data} {PA : Papi W} {PC : PapiCounters W} (bld : build).
Notation a := (b_arch bld).
Notation B := (CBTF_HWCPCBufferSize a).

(** A sample into a buffer that does not become full. *)
Lemma handler_update_room g tls (w : W) cur pc :
  hwcdata_inv a (t_buffer tls) cur -> hwc_length (t_buffer tls) + 1 < B -> length (g_evalues g) = 6%nat ->
  exists b', handler_update bld pc (g, tls, w) = Ok (g, set_buffer b' tls, w) /\
    hwcdata_inv a b' ((blame bld (t_ompt tls) pc, g_evalues g) :: cur).
Proof.
  intros Hb Hroom Hsix. unfold handler_update.
  destruct (update_hwcpcdata_refines a (blame bld (t_ompt tls) pc) (t_buffer tls) (g_evalues g) cur Hb)
    as (full & b' & -> & Hu & Hb' & Hfull); [lia|done|].
  destruct (update_pcdata_refines _ _ (blame bld (t_ompt tls) pc) _ _ (HWCPCBuffer_sizes a) (hi_base _ _ _ Hb))
    as (full2 & b2 & Hu2 & _ & _ & Hlen); [simpl; lia|].
  rewrite Hu in Hu2. injection Hu2 as <- <-. simpl in Hlen. rewrite bind_of_Ok. cbn [fst snd].
  replace full with false by (symmetry; rewrite Hfull; apply Z.eqb_neq; lia). by exists b'.
Qed.
End two_threads.

(** The array evalues[] is not protected: when a thread's interrupt falls between the
    accumulation and the update of another thread's handler, its own sample is
    charged with the counts of both, and the sample of the other with none. *)
Theorem hwcsamp_counts_race {W} {SV : Services W hwcsamp_data} {PA : Papi W} {PC : PapiCounters W}
    (bld : build) (g : globals) (tls1 tls2 : TLS) (w1 w2 : W) (pc1 pc2 : Z) (cur1 cur2 : list (Z * list Z)) :
  length (g_evalues g) = 6%nat ->
  t_EventSet tls1 <> PAPI_NULL -> t_EventSet tls2 <> PAPI_NULL ->
  running w1 = true -> running w2 = true -> t_defer tls2 = false ->
  hwcdata_inv (b_arch bld) (t_buffer tls1) cur1 -> hwcdata_inv (b_arch bld) (t_buffer tls2) cur2 ->
  hwc_length (t_buffer tls1) + 1 < CBTF_HWCPCBufferSize (b_arch bld) ->
  hwc_length (t_buffer tls2) + 1 < CBTF_HWCPCBufferSize (b_arch bld) ->
  let s1 := handler_accum (g, tls1, w1) in
  exists g2 tls2' w2' g1 tls1' w1',
    hwcsampTimerHandler bld pc2 (s1.1.1, tls2, w2) = Ok (g2, tls2', w2') /\
    handler_update bld pc1 (g2, s1.1.2, s1.2) = Ok (g1, tls1', w1') /\
    hwcdata_inv (b_arch bld) (t_buffer tls2')
      ((blame bld (t_ompt tls2) pc2, add_values (add_values (g_evalues g) (counters w1)) (counters w2)) :: cur2) /\
    hwcdata_inv (b_arch bld) (t_buffer tls1') ((blame bld (t_ompt tls1) pc1, zero_values) :: cur1).
Proof.
  intros Hsix He1 He2 Hr1 Hr2 Hd Hb1 Hb2 Hl1 Hl2.
  destruct (HWCAccum_running (t_EventSet tls1) (g_evalues g) w1 He1 Hr1 Hsix) as (Ha1 & _ & _).
  set (v := add_values (g_evalues g) (counters w1)) in *.
  assert (Hv : length v = 6%nat) by (apply add_values_length; [done|apply counters_six]).
  destruct (HWCAccum_running (t_EventSet tls2) v w2 He2 Hr2 Hv) as (Ha2 & _ & _).
  unfold handler_accum. cbn [fst snd]. rewrite Ha1. unfold hwcsampTimerHandler. cbn [fst snd]. rewrite Hd.
  unfold handler_accum. cbn [g_evalues set_evalues]. rewrite Ha2.
  destruct (handler_update_room bld (set_evalues (add_values v (counters w2)) (set_evalues v g)) tls2
    (CBTF_HWCAccum (t_EventSet tls2) v w2).2 cur2 pc2 Hb2 Hl2) as (b2 & -> & Hb2').
  { apply add_values_length; [done|apply counters_six]. }
  rewrite bind_of_Ok. cbn [handler_clear].
  match goal with |- context [CBTF_HWCAccum (t_EventSet tls1) (g_evalues g) w1] =>
    destruct (handler_update_room bld (set_evalues zero_values g) tls1
      (CBTF_HWCAccum (t_EventSet tls1) (g_evalues g) w1).2 cur1 pc1 Hb1 Hl1) as (b1 & Hu & Hb1'); [done|] end.
  eexists _, _, _, _, _, _. split_and!; [reflexivity|exact Hu|exact Hb2'|exact Hb1'].
Qed.

(** When PAPI cannot be initialised, hw_info stays NULL and is dereferenced. *)
Theorem hwcsamp_faults_without_papi {W} {SV : Services W hwcsamp_data} {SL : ServicesLaws W hwcsamp_data}
    {PA : Papi W} (bld : build) (header : CBTF_DataHeader) (evalues : list Z) (tls : TLS) (w : W) :
  (forall w', (PAPI_library_init PAPI_VER_CURRENT w').1 < 0) ->
  getenv w "CBTF_HWCSAMP_RATE" = None ->
  cbtf_collector_start bld header (mkGlobals false None evalues, tls, w) = Fault.
Proof.
  intros Hneg Hrate. unfold cbtf_collector_start. rewrite Hrate.
  change (sampling_interval 100) with (Ok (A := Z) (1000000000 / 100)). rewrite bind_of_Ok.
  unfold initialize_data. destruct (time_law w) as (t & w1 & -> & _). rewrite !bind_of_Ok. cbn [fst snd].
  destruct (time_law w1) as (t2 & w2 & -> & _). rewrite bind_of_Ok. unfold setup_papi. cbn [g_papi_init_done set_evalues].
  unfold CBTF_init_papi. cbn [fst snd]. specialize (Hneg w2).
  replace ((PAPI_library_init PAPI_VER_CURRENT w2).1 >? 0) with false by lia.
  replace ((PAPI_library_init PAPI_VER_CURRENT w2).1 <? 0) with true by lia.
  by rewrite andb_false_r.
Qed.

(** A pause overwrites what the pause before it had put aside: counts between two
    resumes that no sample follows are lost. *)
Theorem hwcsamp_second_pause_loses_counts (bld : build) (x : ledger) (inc1 inc2 : list Z) (pc : Z) :
  x_defer x = false ->
  charged bld x [Count inc1; Pause; Resume; Count inc2; Pause; Resume; Tick pc] =
  charged bld x [Pause; Resume; Count inc2; Pause; Resume; Tick pc].
Proof. intros Hd. simpl. by rewrite Hd. Qed.

Definition example_tls (es : Z) : TLS :=
  let size := Z.to_nat (CBTF_HWCPCBufferSize arch_other) in
  mkTLS (mkDataHeader 0 1 "" "n0" 1 1 (-1) 0 0 0 0 0) 0 0 0 0 0
    (hwcdata_reset (CBTF_HWCPCHashTableSize arch_other) (replicate size 0) (replicate size 0)
       (replicate size (replicate 6 0)))
    (mkOmpt false false false) false es.

Lemma example_buffer es : hwcdata_inv arch_other (t_buffer (example_tls es)) [].
Proof. by apply hwcdata_inv_reset; vm_compute. Qed.

(** Two samples of one PC with a pause before the second: the counts of before
    the pause and of after the resume are charged to it. *)
Lemma hwcsamp_accounts_witness :
  let bld := mkBuild arch_other false 0 0 0 in
  let evs := [Count [10; 1; 0; 0; 0; 0]; Tick 4096; Count [5; 0; 0; 0; 0; 0]; Pause;
              Count [100; 0; 0; 0; 0; 0]; Resume; Count [7; 0; 0; 0; 0; 0]; Tick 4096] in
  exists s1 s2 s3,
    cbtf_collector_start bld (t_header (example_tls 0)) (mkGlobals false None zero_values, example_tls 0,
      quiet_papi hwcsamp_data) = Ok s1 /\
    run bld evs s1 = Ok s2 /\ cbtf_collector_stop bld s2 = Ok s3 /\
    delivered 4096 (lw_sent (pw_log s3.2)) = 2 /\
    u64 (delivered_events 4096 0 (lw_sent (pw_log s3.2))) = 22 /\
    u64 (delivered_events 4096 1 (lw_sent (pw_log s3.2))) = 1.
Proof.
  intros bld evs.
  destruct (hwcsamp_accounts_for_counts bld (t_header (example_tls 0)) (mkGlobals false None zero_values)
    (example_tls 0) (quiet_papi hwcsamp_data) evs) as (s1 & s2 & s3 & new & H1 & H2 & H3 & Hs & _ & Hd & He).
  - by vm_compute.
  - done.
  - done.
  - repeat constructor; by intros inc [= <-].
  - change (sent (quiet_papi hwcsamp_data)) with (@nil (CBTF_DataHeader * hwcsamp_data)) in Hs.
    simpl sent in Hs. exists s1, s2, s3. split; [exact H1|]. split; [exact H2|]. split; [exact H3|].
    rewrite Hs. split_and!.
    + etransitivity; [apply Hd|vm_compute; reflexivity].
    + etransitivity; [apply He; lia|vm_compute; reflexivity].
    + etransitivity; [apply He; lia|vm_compute; reflexivity].
Defined.

(** One thread has counted 10, the other 3: the second is charged with 13. *)
Lemma hwcsamp_counts_race_witness :
  let bld := mkBuild arch_other false 0 0 0 in
  let w n := mkPapiWorld (quiet_world hwcsamp_data) 1 true [n; 0; 0; 0; 0; 0] [] in
  let s1 := handler_accum (mkGlobals true None zero_values, example_tls 0, w 10) in
  exists g2 tls2' w2' g1 tls1' w1',
    hwcsampTimerHandler bld 8192 (s1.1.1, example_tls 1, w 3) = Ok (g2, tls2', w2') /\
    handler_update bld 4096 (g2, s1.1.2, s1.2) = Ok (g1, tls1', w1') /\
    hwcdata_inv arch_other (t_buffer tls2') [(8192, [13; 0; 0; 0; 0; 0])] /\
    hwcdata_inv arch_other (t_buffer tls1') [(4096, zero_values)].
Proof.
  intros bld w s1.
  destruct (hwcsamp_counts_race bld (mkGlobals true None zero_values) (example_tls 0) (example_tls 1) (w 10) (w 3)
    4096 8192 [] []) as (g2 & t2 & w2 & g1 & t1 & w1 & H2 & H1 & I2 & I1);
    try done; try apply example_buffer.
  exists g2, t2, w2, g1, t1, w1. split; [exact H2|]. split; [exact H1|]. by split.
Defined.

Lemma hwcsamp_faults_without_papi_witness :
  let bld := mkBuild arch_other false 0 0 0 in
  cbtf_collector_start (PA := papi_with false) bld (t_header (example_tls 0))
    (mkGlobals false None zero_values, example_tls 0, quiet_papi hwcsamp_data) = Fault.
Proof. intros bld. by apply (hwcsamp_faults_without_papi (PA := papi_with false)). Defined.
