(* ===== verification/Unwind.v ===== *)
(** Stack traces: services/src/unwind/GetStackTraceFromContext.c. libunwind is
    not under src/: a context is given by the frames its cursor walks over, the
    current frame first, and unw_step() fails only on the last one. *)
From S2P Require Import Prelude.

Record frame := mkFrame { fr_pc : Z; fr_signal : bool }.

(** while (!unw_is_signal_frame(&cursor)) unw_step(&cursor); a failing step is
    reported and the loop goes on. *)
Fixpoint skip_to_signal (cursor : list frame) : outcome (list frame) :=
  match cursor with
  | [] => Diverged
  | f :: rest =>
      if fr_signal f then Ok (f :: rest)
      else match rest with [] => Diverged | _ => skip_to_signal rest end
  end.

(** The loop over the frames. [keep pc] is false when libmonitor places [pc] in
    its own start functions (always true without USES_LIBMONITOR). *)
Fixpoint unwind_loop (keep : Z -> bool) (cursor : list frame) (skip_frames index max_frames : Z)
    (stacktrace : list Z) : list Z :=
  match cursor with
  | [] => stacktrace
  | f :: rest =>
      if skip_frames >? 0 then
        unwind_loop keep rest (skip_frames - 1) index max_frames stacktrace
      else if index =? max_frames then stacktrace
      else if keep (fr_pc f) then
        unwind_loop keep rest skip_frames (index + 1) max_frames (stacktrace ++ [fr_pc f])
      else unwind_loop keep rest skip_frames index max_frames stacktrace
  end.

(** CBTF_GetStackTraceFromContext on Linux/x86-64: a signal context is unwound
    from directly, so its signal frames are not skipped. *)
Definition CBTF_GetStackTraceFromContext (keep : Z -> bool) (has_signal_context : bool)
    (cursor : list frame) (skip_signal_frames : bool) (skip_frames max_frames : Z) : outcome (list Z) :=
  let skip_signal := if has_signal_context then false else skip_signal_frames in
  cursor' ← (if skip_signal then skip_to_signal cursor else Ok cursor);
  Ok (unwind_loop keep cursor' skip_frames 0 max_frames []).

Definition UNWIND_SKIP_FRAMES : Z := 4.

Definition frames_skipped (skip_signal_frames : bool) (skip_frames : Z) : Z :=
  if (skip_frames =? 0) && skip_signal_frames then UNWIND_SKIP_FRAMES else skip_frames.

(** CBTF_GetStackTrace: [backtrace] is what unw_backtrace() stored; the result is
    the value left in *stacktrace_size and the frames copied. *)
Definition CBTF_GetStackTrace (skip_signal_frames : bool) (skip_frames : Z) (backtrace : list Z)
  : Z * list Z :=
  let skip := frames_skipped skip_signal_frames skip_frames in
  (u32 (Z.of_nat (length backtrace) - skip), drop (Z.to_nat skip) backtrace).

(** How a sampling handler obtains its frames: from the signal context (static
    builds), or by the fast backtrace (USE_FASTTRACE, the shared x86_64 builds)
    with the frames it asks to be skipped. *)
Inductive unwinder :=
| FromContext (keep : Z -> bool)
| FastTrace (skip_signal_frames : bool) (skip_frames : nat).

Lemma unwind_loop_spec keep cursor : forall skip index max acc,
  0 <= skip -> index <= max ->
  unwind_loop keep cursor skip index max acc =
  acc ++ take (Z.to_nat (max - index))
           (List.filter keep (fr_pc <$> drop (Z.to_nat skip) cursor)).
Proof.
  induction cursor as [|f rest IH]; intros skip index max acc Hs Hi; simpl.
  { rewrite drop_nil. simpl. rewrite take_nil. by rewrite app_nil_r. }
  destruct (skip >? 0) eqn:Hsk; bools.
  { rewrite IH by lia. replace (Z.to_nat skip) with (S (Z.to_nat (skip - 1))) by lia. done. }
  replace (Z.to_nat skip) with 0%nat by lia. rewrite drop_0. simpl.
  destruct (index =? max) eqn:Hm; bools.
  { replace (Z.to_nat (max - index)) with 0%nat by lia. by rewrite app_nil_r. }
  destruct (keep (fr_pc f)) eqn:Hk; rewrite IH by lia;
    replace (Z.to_nat skip) with 0%nat by lia; rewrite drop_0; [|done].
  replace (Z.to_nat (max - index)) with (S (Z.to_nat (max - (index + 1)))) by lia.
  simpl. by rewrite <- app_assoc.
Qed.

(** unwinding from a signal context returns the kept frames after the
    skipped ones, cut at max_frames; in particular never more than max_frames. *)
Theorem GetStackTraceFromContext_frames (keep : Z -> bool) (cursor : list frame)
    (skip_signal_frames : bool) (skip_frames max_frames : Z) :
  0 <= skip_frames -> 0 <= max_frames ->
  CBTF_GetStackTraceFromContext keep true cursor skip_signal_frames skip_frames max_frames =
    Ok (take (Z.to_nat max_frames)
          (List.filter keep (fr_pc <$> drop (Z.to_nat skip_frames) cursor))).
Proof.
  intros Hs Hm. unfold CBTF_GetStackTraceFromContext. rewrite bind_of_Ok, unwind_loop_spec by lia.
  by rewrite Z.sub_0_r.
Qed.

(** skipping signal frames in a context that has none never returns. *)
Theorem GetStackTraceFromContext_no_signal_frame (keep : Z -> bool) (cursor : list frame)
    (skip_frames max_frames : Z) :
  Forall (fun f => fr_signal f = false) cursor ->
  CBTF_GetStackTraceFromContext keep false cursor true skip_frames max_frames = Diverged.
Proof.
  intros Hns. unfold CBTF_GetStackTraceFromContext.
  enough (skip_to_signal cursor = Diverged) as -> by done.
  induction Hns as [|f rest Hf _ IH]; [done|]. simpl. rewrite Hf. by destruct rest.
Qed.

(** When unw_backtrace() finds fewer frames than are to be skipped,
    CBTF_GetStackTrace reports a stack trace of almost 2^32 frames. *)
Theorem GetStackTrace_size_wraps (skip_signal_frames : bool) (skip_frames : Z) (backtrace : list Z) :
  Z.of_nat (length backtrace) < skip_frames < 2 ^ 32 ->
  fst (CBTF_GetStackTrace skip_signal_frames skip_frames backtrace) =
    2 ^ 32 - (skip_frames - Z.of_nat (length backtrace)).
Proof.
  intros Hlt. unfold CBTF_GetStackTrace, frames_skipped. replace (skip_frames =? 0) with false by lia. simpl fst.
  simpl (false && _). cbv iota. unfold u32.
  rewrite <- (Z.mod_add _ 1) by lia. rewrite Z.mod_small; lia.
Qed.

Lemma GetStackTraceFromContext_frames_witness :
  CBTF_GetStackTraceFromContext (fun pc => negb (pc =? 30)) true
    [mkFrame 10 false; mkFrame 20 false; mkFrame 30 false; mkFrame 40 false; mkFrame 50 false] false 1 2 = Ok [20; 40].
Proof.
  rewrite (GetStackTraceFromContext_frames (fun pc => negb (pc =? 30))
    [mkFrame 10 false; mkFrame 20 false; mkFrame 30 false; mkFrame 40 false; mkFrame 50 false] false 1 2) by lia.
  reflexivity.
Defined.

Lemma GetStackTraceFromContext_no_signal_frame_witness :
  CBTF_GetStackTraceFromContext (fun _ => true) false [mkFrame 10 false; mkFrame 20 false] true 0 100 = Diverged.
Proof. apply (GetStackTraceFromContext_no_signal_frame (fun _ => true)); by repeat constructor. Defined.

Lemma GetStackTrace_size_wraps_witness : fst (CBTF_GetStackTrace false 3 [10; 20]) = 4294967295.
Proof. apply (GetStackTrace_size_wraps false 3 [10; 20]). by vm_compute. Defined.
