(* ===== verification/StackBuffer.v ===== *)
(** The stack trace sample buffer the usertime and hwctime collectors share in
    form: a flat array of frame addresses and a parallel array of counts, in
    which a positive count marks the top frame of a stack. The file has the
    search and append loops of the sample handlers, the encoding of a list of
    counted stacks into the two arrays with its decoder, and the proof that for
    stacks of which none is the beginning of another, such as rooted ones, the
    flat search finds exactly the stack it is asked for. *)
From S2P Require Import Prelude.

Definition CBTF_ST_BufferSize : Z := 1024.

(** CBTF_StackTraceData together with the lengths kept in the data blob that
    points into it, and the address range kept in the data header. *)
Record stack_buffer := mkStackBuffer {
  sb_stacktraces : list Z;
  sb_count : list Z;
  sb_stacktraces_len : Z;
  sb_count_len : Z;
  sb_addr_begin : Z;
  sb_addr_end : Z
}.

(** for (j = 0; j < framecount; j++) if (stacktraces[i+j] != framebuf[j]) break;
    with the test j == framecount after it. *)
Fixpoint frames_match (stacktraces : list Z) (i : Z) (framebuf : list Z) : outcome bool :=
  match framebuf with
  | [] => Ok true
  | f :: framebuf' =>
      x ← arr_get stacktraces i;
      if x =? f then frames_match stacktraces (i + 1) framebuf' else Ok false
  end.

(** One iteration of the search: [idx] is stackindex once a stack was found. *)
Definition search_step (stacktraces count framebuf : list Z) (i : Z) (idx : option Z)
  : outcome (option Z) :=
  c ← arr_get count i;
  if (c =? 0) || (c =? 255) then Ok idx else
    m ← frames_match stacktraces i framebuf;
    Ok (if (m : bool) then Some i else idx).

(** The whole search over count[0..count_len-1]; the last match wins. *)
Definition search_stacks (framebuf : list Z) (b : stack_buffer) : outcome (option Z) :=
  for_loop (Z.to_nat (sb_count_len b)) 0
    (search_step (sb_stacktraces b) (sb_count b) framebuf) None.

(** The loop that adds the frames, widening the address range. *)
Fixpoint add_frames (i : Z) (framebuf : list Z) (b : stack_buffer) : outcome stack_buffer :=
  match framebuf with
  | [] => Ok b
  | f :: framebuf' =>
      st ← arr_set (sb_stacktraces b) (sb_stacktraces_len b) f;
      cs ← arr_set (sb_count b) (sb_count_len b) (if i >? 0 then 0 else 1);
      add_frames (i + 1) framebuf'
        (mkStackBuffer st cs (sb_stacktraces_len b + 1) (sb_count_len b + 1)
           (if f <? sb_addr_begin b then f else sb_addr_begin b)
           (if f >? sb_addr_end b then f else sb_addr_end b))
  end.

(** initialize_data(): both arrays zeroed, lengths 0, address range [~0, 0]. *)
Definition reset_stacks (size : Z) : stack_buffer :=
  mkStackBuffer (replicate (Z.to_nat size) 0) (replicate (Z.to_nat size) 0) 0 0 UINT64_MAX 0.
Definition reset_buffer (b : stack_buffer) : stack_buffer := reset_stacks CBTF_ST_BufferSize.

(** stack_already_exists && count[stackindex] < 255: bump the count; [None] when
    the stack has to be added. *)
Definition bump_count (idx : option Z) (b : stack_buffer) : outcome (option stack_buffer) :=
  match idx with
  | None => Ok None
  | Some k =>
      c ← arr_get (sb_count b) k;
      if c <? 255 then
        cs ← arr_set (sb_count b) k (c + 1);
        Ok (Some (mkStackBuffer (sb_stacktraces b) cs (sb_stacktraces_len b) (sb_count_len b)
                    (sb_addr_begin b) (sb_addr_end b)))
      else Ok None
  end.

(** The part of a sample handler after the unwinding, over a collector state
    [St] that holds a buffer: count the stack where it already is, or send the
    buffer if the frames do not fit, and add them. *)
Section record.
Context {St : Type} (buf : St -> stack_buffer) (set_buf : stack_buffer -> St -> St).
Context (send_samples : St -> outcome St).

Definition record_stack (framebuf : list Z) (s : St) : outcome St :=
  idx ← search_stacks framebuf (buf s);
  r ← bump_count idx (buf s);
  match r with
  | Some b => Ok (set_buf b s)
  | None =>
      let buflen := sb_stacktraces_len (buf s) + Z.of_nat (length framebuf) in
      s1 ← (if buflen >? CBTF_ST_BufferSize then send_samples s else Ok s);
      b ← add_frames 0 framebuf (buf s1);
      Ok (set_buf b s1)
  end.
End record.

(** ** Counted stacks and their flat encoding *)
Notation entry := (list Z * Z)%type.

Definition flat_frames (es : list entry) : list Z := concat (fst <$> es).
Definition flat_counts (es : list entry) : list Z :=
  concat ((fun e => match e.1 with [] => [] | _ :: s => e.2 :: replicate (length s) 0 end) <$> es).

(** What a reader of the blob makes of the arrays: a positive count starts a
    new stack. *)
Definition decode_step (pc_c : Z * Z) (acc : list Z * list entry) : list Z * list entry :=
  if pc_c.2 >? 0 then ([], (pc_c.1 :: acc.1, pc_c.2) :: acc.2) else (pc_c.1 :: acc.1, acc.2).
Definition decode (stacktraces count : list Z) : list entry :=
  (foldr decode_step ([], []) (zip stacktraces count)).2.

(** Samples of stack [s] among counted stacks. *)
Definition samples_of (s : list Z) (es : list entry) : Z :=
  foldr (fun e acc => (if bool_decide (e.1 = s) then e.2 else 0) + acc) 0 es.

(** The stacks of a thread are rooted when they all end in the frame the
    thread started in, which occurs nowhere else in them. *)
Fixpoint rooted (root : Z) (s : list Z) : Prop :=
  match s with
  | [] => False
  | [x] => x = root
  | x :: s' => x <> root /\ rooted root s'
  end.

(** Stacks that the search can tell apart: none is the beginning of another. *)
Class Distinguishable (T : list Z -> Prop) : Prop := {
  ds_nonempty : ~ T [];
  ds_prefix : forall s t, T s -> T t -> s `prefix_of` t -> s = t
}.

Definition entry_ok (T : list Z -> Prop) (e : entry) : Prop := T e.1 /\ 1 <= e.2 <= 255.

(** The buffer, of arrays of length [size], is the encoding of [es]. *)
Record encodes_in (size : Z) (T : list Z -> Prop) (b : stack_buffer) (es : list entry) : Prop := {
  en_st_size : Z.of_nat (length (sb_stacktraces b)) = size;
  en_ct_size : Z.of_nat (length (sb_count b)) = size;
  en_lens : sb_stacktraces_len b = Z.of_nat (length (flat_frames es)) /\
            sb_count_len b = Z.of_nat (length (flat_frames es));
  en_room : Z.of_nat (length (flat_frames es)) <= size;
  en_st : exists rest, sb_stacktraces b = flat_frames es ++ rest;
  en_ct : exists rest, sb_count b = flat_counts es ++ rest;
  en_ok : Forall (entry_ok T) es;
  en_addr : Forall (fun pc => sb_addr_begin b <= pc <= sb_addr_end b) (flat_frames es)
}.
Arguments en_lens {size}. Arguments en_ok {size}. Arguments en_st {size}. Arguments en_ct {size}.
Arguments en_room {size}. Arguments en_addr {size}.
Notation encodes := (encodes_in CBTF_ST_BufferSize).

(** ** Lemmas *)
Lemma flat_frames_app es1 es2 : flat_frames (es1 ++ es2) = flat_frames es1 ++ flat_frames es2.
Proof. unfold flat_frames. by rewrite fmap_app, concat_app. Qed.
Lemma flat_counts_app es1 es2 : flat_counts (es1 ++ es2) = flat_counts es1 ++ flat_counts es2.
Proof. unfold flat_counts. by rewrite fmap_app, concat_app. Qed.

Lemma flat_frames_cons e es : flat_frames (e :: es) = e.1 ++ flat_frames es.
Proof. reflexivity. Qed.

Lemma flat_lengths es : length (flat_counts es) = length (flat_frames es).
Proof.
  induction es as [|[[|x s] c] es IH]; [done|done|].
  change (length ((c :: replicate (length s) 0) ++ flat_counts es) =
          length ((x :: s) ++ flat_frames es)).
  rewrite !length_app, IH. simpl. by rewrite length_replicate.
Qed.

Lemma samples_of_app s es1 es2 : samples_of s (es1 ++ es2) = samples_of s es1 + samples_of s es2.
Proof.
  induction es1 as [|e es1 IH]; [done|]. rewrite <- app_comm_cons. unfold samples_of in *.
  cbn [foldr]. rewrite IH. lia.
Qed.

Lemma rooted_cons root x s : rooted root (x :: s) -> (s = [] /\ x = root) \/ (x <> root /\ rooted root s).
Proof. destruct s; simpl; naive_solver. Qed.

(** Decoding inverts the encoding of stacks that have a frame and a count. *)
Lemma decode_flat es :
  Forall (fun e => e.1 <> [] /\ 0 < e.2) es -> decode (flat_frames es) (flat_counts es) = es.
Proof.
  intros Hes. unfold decode.
  enough (foldr decode_step ([], []) (zip (flat_frames es) (flat_counts es)) = ([], es)) as -> by done.
  induction Hes as [|[[|x s] c] es [Hne Hc] _ IH]; [done|done|].
  change (foldr decode_step ([], []) ((x, c) :: zip (s ++ flat_frames es)
    (replicate (length s) 0 ++ flat_counts es)) = ([], (x :: s, c) :: es)).
  simpl in Hc. assert (Hz : forall l, foldr decode_step ([], es) (zip l (replicate (length l) 0)) = (l, es)).
  { induction l as [|y l IHl]; [done|]. simpl. by rewrite IHl. }
  rewrite zip_with_app by (by rewrite length_replicate). cbn [foldr].
  rewrite foldr_app, IH, Hz. unfold decode_step. simpl. by replace (c >? 0) with true by lia.
Qed.

Lemma lookup_prefix {A} (l1 l2 : list A) (x : A) (i : Z) :
  i = Z.of_nat (length l1) -> arr_get (l1 ++ x :: l2) i = Ok x.
Proof.
  intros ->. apply arr_get_lookup; [lia|]. by rewrite Nat2Z.id, list_lookup_middle.
Qed.

Lemma rooted_prefix root s : forall t, rooted root s -> rooted root t -> s `prefix_of` t -> s = t.
Proof.
  induction s as [|x s IH]; intros [|y t] Hs Ht Hp; try done.
  pose proof (prefix_cons_inv_1 _ _ _ _ Hp) as ->. apply prefix_cons_inv_2 in Hp.
  apply rooted_cons in Hs as [[-> ->]|[Hs1 Hs2]], Ht as [[-> Ht]|[Ht1 Ht2]]; try done.
  f_equal. by apply IH.
Qed.

#[export] Instance rooted_distinguishable root : Distinguishable (rooted root).
Proof. split; [exact (fun H => H)|]. intros s t. apply rooted_prefix. Qed.

(** Comparing a stack with a stored stack, neither the beginning of the other,
    never looks past the stored one, and decides equality. *)
Lemma frames_match_apart pre s rest frames (i : Z) :
  (s `prefix_of` frames -> s = frames) -> (frames `prefix_of` s -> s = frames) -> i = Z.of_nat (length pre) ->
  frames_match (pre ++ s ++ rest) i frames = Ok (bool_decide (s = frames)).
Proof.
  revert pre frames i. induction s as [|x s IH]; intros pre frames i Hs Hf Hi.
  { rewrite <- Hs by apply prefix_nil. by rewrite bool_decide_true. }
  destruct frames as [|f fs]; [by specialize (Hf (prefix_nil _))|]. simpl. rewrite lookup_prefix, bind_of_Ok by done.
  destruct (x =? f) eqn:Hx; bools.
  2:{ f_equal. symmetry. apply bool_decide_false. congruence. }
  subst f. rewrite (cons_middle x pre), (app_assoc pre [x]), IH.
  - f_equal. apply bool_decide_ext. naive_solver.
  - intros Hp. specialize (Hs (prefix_cons x _ _ Hp)). by injection Hs.
  - intros Hp. specialize (Hf (prefix_cons x _ _ Hp)). by injection Hf.
  - rewrite length_app. simpl. lia.
Qed.

(** [frames] are compared with a stored stack [s] as [P s]. *)
Definition compares (T : list Z -> Prop) (frames : list Z) (P : list Z -> bool) : Prop :=
  forall pre s rest, T s ->
    frames_match (pre ++ s ++ rest) (Z.of_nat (length pre)) frames = Ok (P s).

Lemma compares_stack T {DT : Distinguishable T} frames :
  T frames -> compares T frames (fun s => bool_decide (s = frames)).
Proof.
  intros Hf pre s rest Hs. apply frames_match_apart; [by apply ds_prefix| |done]. symmetry. by apply ds_prefix.
Qed.

(** No frames at all match every stored stack. *)
Lemma compares_empty T : compares T [] (fun _ => true).
Proof. done. Qed.

(** The iteration at the top frame of a stored stack. *)
Lemma search_step_top T pre_f pre_c x s c rest_f rest_c frames P idx :
  T (x :: s) -> compares T frames P -> 1 <= c <= 255 -> length pre_f = length pre_c ->
  search_step (pre_f ++ x :: s ++ rest_f) (pre_c ++ c :: rest_c) frames (Z.of_nat (length pre_f)) idx =
  Ok (if P (x :: s) && (c <? 255) then Some (Z.of_nat (length pre_f)) else idx).
Proof.
  intros Hs Hf Hc Hlen. unfold search_step. rewrite lookup_prefix, bind_of_Ok by lia.
  replace (c =? 0) with false by lia. simpl orb. destruct (c =? 255) eqn:H255; bools.
  - replace (c <? 255) with false by lia. by rewrite andb_false_r.
  - rewrite (app_comm_cons s), Hf, bind_of_Ok by done.
    replace (c <? 255) with true by lia. by rewrite andb_true_r.
Qed.

(** Iterations on non-top frames (count 0) do nothing. *)
Lemma search_zeros st cs frames (n : nat) : forall i idx,
  0 <= i -> (forall j, i <= j < i + Z.of_nat n -> cs !! Z.to_nat j = Some 0) ->
  for_loop n i (search_step st cs frames) idx = Ok idx.
Proof.
  induction n as [|n IH]; intros i idx Hi Hz; [done|]. simpl.
  assert (search_step st cs frames i idx = Ok idx) as ->.
  { unfold search_step. by rewrite (arr_get_lookup cs i 0) by (auto; apply Hz; lia). }
  rewrite bind_of_Ok. apply IH; [lia|]. intros j ?. apply Hz. lia.
Qed.

Lemma for_loop_app {St} (n m : nat) : forall (i : Z) body (s : St),
  for_loop (n + m) i body s = for_loop n i body s ≫= for_loop m (i + Z.of_nat n) body.
Proof.
  induction n as [|n IH]; intros i body s; simpl.
  - by rewrite Z.add_0_r.
  - destruct (body i s); simpl; try done. rewrite IH.
    replace (i + 1 + Z.of_nat n) with (i + Z.of_nat (S n)) by lia. done.
Qed.

(** What the search returns over the entries [es]: the last open entry of the
    stack, or what it started from. *)
Fixpoint search_entries (P : list Z -> bool) (pos : Z) (es : list entry) (idx : option Z) : option Z :=
  match es with
  | [] => idx
  | e :: es' =>
      search_entries P (pos + Z.of_nat (length e.1)) es'
        (if P e.1 && (e.2 <? 255) then Some pos else idx)
  end.

Lemma search_entries_run T {DT : Distinguishable T} frames P pre_f pre_c es rest_f rest_c idx :
  compares T frames P -> Forall (entry_ok T) es -> length pre_f = length pre_c ->
  for_loop (length (flat_frames es)) (Z.of_nat (length pre_f))
    (search_step (pre_f ++ flat_frames es ++ rest_f) (pre_c ++ flat_counts es ++ rest_c) frames) idx =
  Ok (search_entries P (Z.of_nat (length pre_f)) es idx).
Proof.
  intros Hf Hes. revert pre_f pre_c idx.
  induction Hes as [|[[|x s] c] es [Hr Hc] _ IH]; intros pre_f pre_c idx Hlen; [done|by destruct ds_nonempty|].
  change (flat_frames ((x :: s, c) :: es)) with ((x :: s) ++ flat_frames es).
  change (flat_counts ((x :: s, c) :: es)) with ((c :: replicate (length s) 0) ++ flat_counts es).
  rewrite length_app, for_loop_app, <- !app_assoc, <- !app_comm_cons.
  cbn [length for_loop search_entries fst snd].
  rewrite (search_step_top T _ _ _ _ _ _ _ _ P), bind_of_Ok by done. rewrite search_zeros; [|lia|].
  - rewrite bind_of_Ok. specialize (IH (pre_f ++ x :: s) (pre_c ++ c :: replicate (length s) 0)).
    rewrite !length_app, Nat2Z.inj_add, <- !app_assoc in IH. apply IH. simpl.
    rewrite length_replicate. lia.
  - intros j Hj. rewrite lookup_app_r by lia.
    replace (Z.to_nat j - length pre_c)%nat with (S (Z.to_nat j - length pre_c - 1)) by lia. simpl.
    rewrite lookup_app_l by (rewrite length_replicate; lia). apply lookup_replicate. lia.
Qed.

Lemma search_entries_spec P es : forall pos idx,
  (search_entries P pos es idx = idx /\ Forall (fun e => P e.1 = false \/ 255 <= e.2) es) \/
  exists es1 s c es2, es = es1 ++ (s, c) :: es2 /\ P s = true /\ c < 255 /\
    Forall (fun e => P e.1 = false \/ 255 <= e.2) es2 /\
    search_entries P pos es idx = Some (pos + Z.of_nat (length (flat_frames es1))).
Proof.
  induction es as [|[s c] es IH]; intros pos idx; simpl; [by left|].
  destruct (IH (pos + Z.of_nat (length s)) (if P s && (c <? 255) then Some pos else idx))
    as [[Heq Hno]|(es1 & s' & c' & es2 & -> & Hs' & Hc & Hno & Heq)].
  - rewrite Heq. destruct (P s) eqn:Hs; simpl; [|left; split; [done|]; constructor; auto].
    destruct (c <? 255) eqn:Hc; bools; [|left; split; [done|]; constructor; auto].
    right. exists [], s, c, es. split_and!; [done..|]. simpl. f_equal. lia.
  - right. exists ((s, c) :: es1), s', c', es2. split_and!; [done..|]. rewrite Heq. f_equal.
    rewrite flat_frames_cons, length_app. simpl. lia.
Qed.

Lemma samples_of_cons s e es :
  samples_of s (e :: es) = (if bool_decide (e.1 = s) then e.2 else 0) + samples_of s es.
Proof. reflexivity. Qed.

(** Frames written after a full prefix. *)
Lemma insert_after {A} (l : list A) (y x : A) (rest : list A) (i : Z) :
  i = Z.of_nat (length l) -> arr_set (l ++ y :: rest) i x = Ok (l ++ x :: rest).
Proof.
  intros ->. rewrite arr_set_in by (rewrite length_app; simpl; lia).
  by rewrite Nat2Z.id, insert_app_r_alt, Nat.sub_diag by lia.
Qed.

(** Lowering the address range to cover [f]. *)
Definition widen_begin (b : Z) (frames : list Z) : Z :=
  foldl (fun a f => if f <? a then f else a) b frames.
Definition widen_end (e : Z) (frames : list Z) : Z :=
  foldl (fun a f => if f >? a then f else a) e frames.

Lemma widen_covers frames : forall b e,
  widen_begin b frames <= b /\ e <= widen_end e frames /\
  Forall (fun pc => widen_begin b frames <= pc <= widen_end e frames) frames.
Proof.
  induction frames as [|f fs IH]; intros b e; [split_and!; [done..|constructor]|].
  unfold widen_begin, widen_end in *. simpl.
  destruct (IH (if f <? b then f else b) (if f >? e then f else e)) as (Hb & He & Hall).
  destruct (f <? b) eqn:H1, (f >? e) eqn:H2; bools; split_and!; try lia; constructor; try lia; done.
Qed.

Lemma add_frames_app frames : forall i b pf pc rf rc,
  0 <= i -> length pf = length pc ->
  sb_stacktraces b = pf ++ rf -> sb_count b = pc ++ rc ->
  sb_stacktraces_len b = Z.of_nat (length pf) -> sb_count_len b = Z.of_nat (length pf) ->
  (length frames <= length rf)%nat -> (length frames <= length rc)%nat ->
  add_frames i frames b =
    Ok (mkStackBuffer (pf ++ frames ++ drop (length frames) rf)
          (pc ++ (match frames with
                  | [] => []
                  | _ :: fs => (if i >? 0 then 0 else 1) :: replicate (length fs) 0
                  end) ++ drop (length frames) rc)
          (Z.of_nat (length pf + length frames)) (Z.of_nat (length pf + length frames))
          (widen_begin (sb_addr_begin b) frames) (widen_end (sb_addr_end b) frames)).
Proof.
  induction frames as [|f fs IH]; intros i [st cs ls lc ab ae] pf pc [|y rf] [|z rc] Hi Hl;
    simpl; intros -> -> -> -> Hrf Hrc; try lia; try (rewrite Nat.add_0_r; done).
  rewrite (insert_after pf y f rf), bind_of_Ok by lia.
  rewrite (insert_after pc z), bind_of_Ok by lia.
  rewrite (IH _ _ (pf ++ [f]) (pc ++ [if i >? 0 then 0 else 1]) rf rc); try lia; simpl;
    rewrite ?length_app, <- ?app_assoc; simpl; try lia; try done.
  rewrite <- Nat.add_assoc. simpl. f_equal. f_equal.
  replace (i + 1 >? 0) with true by lia. destruct fs; done.
Qed.

Section refinement.
Context {size : Z} (T : list Z -> Prop) {DT : Distinguishable T}.

Lemma encodes_reset : 0 <= size -> encodes_in size T (reset_stacks size) [].
Proof.
  intros Hs. constructor; simpl; rewrite ?length_replicate; try lia; try done; try (eexists; done); try apply Forall_nil_2.
Qed.

Lemma encodes_search b es frames P :
  encodes_in size T b es -> compares T frames P ->
  search_stacks frames b = Ok (search_entries P 0 es None).
Proof.
  intros [_ _ [_ Hlc] _ [rf Hf] [rc Hc] Hok _] Hr. unfold search_stacks.
  rewrite Hlc, Hf, Hc, Nat2Z.id.
  exact (search_entries_run T frames P [] [] es rf rc None Hr Hok eq_refl).
Qed.

(** When the search finds the stack, its count goes up by one and nothing
    else changes. *)
Lemma encodes_bump b es1 frames c es2 :
  encodes_in size T b (es1 ++ (frames, c) :: es2) -> c < 255 ->
  exists b', bump_count (Some (Z.of_nat (length (flat_frames es1)))) b = Ok (Some b') /\
    encodes_in size T b' (es1 ++ (frames, c + 1) :: es2).
Proof.
  intros [Hs Hcs [Hl1 Hl2] Hroom [rf Hf] [rc Hc] Hok Had] Hlt.
  apply Forall_app in Hok as [Hok1 Hok2]. apply Forall_cons in Hok2 as [[Hr H1] Hok2].
  simpl in Hr, H1. destruct frames as [|x s]; [by destruct ds_nonempty|].
  assert (Hff : flat_frames (es1 ++ (x :: s, c + 1) :: es2) = flat_frames (es1 ++ (x :: s, c) :: es2))
    by (rewrite !flat_frames_app; done).
  assert (Hfc : forall d, flat_counts (es1 ++ (x :: s, d) :: es2) =
            flat_counts es1 ++ d :: replicate (length s) 0 ++ flat_counts es2)
    by (intros d; rewrite flat_counts_app; done).
  unfold bump_count. rewrite Hc, Hfc, <- app_assoc, <- app_comm_cons.
  rewrite lookup_prefix, bind_of_Ok by (by rewrite flat_lengths).
  replace (c <? 255) with true by lia. rewrite insert_after, bind_of_Ok by (by rewrite flat_lengths).
  eexists. split; [reflexivity|]. constructor; simpl; rewrite ?Hff, ?Hfc; try done.
  - rewrite <- Hcs, Hc, Hfc. simpl. repeat (rewrite !length_app; simpl). lia.
  - eauto.
  - exists rc. simpl. by rewrite <- (app_assoc (flat_counts es1)), <- app_comm_cons, <- app_assoc.
  - apply Forall_app_2; [done|]. constructor; [|done]. split; simpl; [done|lia].
Qed.

(** Adding a stack that fits appends it with count 1. *)
Lemma encodes_add b es frames :
  encodes_in size T b es -> T frames ->
  sb_stacktraces_len b + Z.of_nat (length frames) <= size ->
  exists b', add_frames 0 frames b = Ok b' /\ encodes_in size T b' (es ++ [(frames, 1)]).
Proof.
  intros [Hs Hcs [Hl1 Hl2] Hroom [rf Hf] [rc Hc] Hok Had] Hr Hfit.
  pose proof (flat_lengths es) as Hfl.
  assert (Hrf : (length frames <= length rf)%nat) by (rewrite Hf, length_app in Hs; lia).
  assert (Hrc : (length frames <= length rc)%nat) by (rewrite Hc, length_app in Hcs; lia).
  rewrite (add_frames_app frames 0 b (flat_frames es) (flat_counts es) rf rc) by (done || lia).
  eexists. split; [reflexivity|].
  destruct (widen_covers frames (sb_addr_begin b) (sb_addr_end b)) as (Hb & He & Hall).
  destruct frames as [|x s]; [by destruct ds_nonempty|].
  constructor; cbn [sb_stacktraces sb_count sb_stacktraces_len sb_count_len sb_addr_begin sb_addr_end];
    rewrite ?flat_frames_app, ?flat_counts_app.
  - rewrite !length_app, length_drop. rewrite Hf, length_app in Hs. lia.
  - rewrite !length_app, length_drop. simpl length. rewrite length_replicate.
    rewrite Hc, length_app in Hcs. simpl in Hrc. lia.
  - rewrite flat_frames_cons, !length_app. simpl. lia.
  - rewrite flat_frames_cons, !length_app. simpl in *. lia.
  - exists (drop (length (x :: s)) rf). rewrite <- (app_assoc (flat_frames es)). do 2 f_equal.
    unfold flat_frames. simpl. by rewrite app_nil_r.
  - exists (drop (length (x :: s)) rc). rewrite <- (app_assoc (flat_counts es)). do 2 f_equal.
    unfold flat_counts. simpl. by rewrite app_nil_r.
  - apply Forall_app_2; [done|]. constructor; [split; [done|simpl; lia]|constructor].
  - apply Forall_app_2; [eapply Forall_impl; [exact Had|]; cbv beta; lia|].
    rewrite flat_frames_cons. unfold flat_frames. simpl. rewrite app_nil_r. exact Hall.
Qed.

Lemma samples_of_bump t es1 frames c es2 :
  samples_of t (es1 ++ (frames, c + 1) :: es2) =
  samples_of t (es1 ++ (frames, c) :: es2) + (if bool_decide (frames = t) then 1 else 0).
Proof. rewrite !samples_of_app, !samples_of_cons. simpl. case_bool_decide; lia. Qed.

Lemma samples_of_add t es frames :
  samples_of t (es ++ [(frames, 1)]) =
  samples_of t es + (if bool_decide (frames = t) then 1 else 0).
Proof. rewrite samples_of_app, samples_of_cons. simpl. case_bool_decide; lia. Qed.
End refinement.

(** One sample of a stack that fits an empty buffer: it is counted in
    the buffer, or the buffer is sent and the sample starts a new one. *)
Lemma record_stack_ok {St} (buf : St -> stack_buffer) (set_buf : stack_buffer -> St -> St)
    (send_samples : St -> outcome St) T {DT : Distinguishable T} (s s1 : St) es frames :
  encodes T (buf s) es -> T frames ->
  Z.of_nat (length frames) <= CBTF_ST_BufferSize ->
  send_samples s = Ok s1 -> encodes T (buf s1) [] ->
  exists b', (record_stack buf set_buf send_samples frames s = Ok (set_buf b' s) /\
    exists es', encodes T b' es' /\
      forall t, samples_of t es' = samples_of t es + (if bool_decide (frames = t) then 1 else 0)) \/
   (record_stack buf set_buf send_samples frames s = Ok (set_buf b' s1) /\
    encodes T b' [(frames, 1)]).
Proof.
  intros He Hr Hfit Hsend He1. unfold record_stack.
  rewrite (encodes_search T _ _ _ _ He (compares_stack T _ Hr)), bind_of_Ok.
  destruct (search_entries_spec (fun s => bool_decide (s = frames)) es 0 None)
    as [[-> _]|(es1 & s' & c & es2 & -> & Hs' & Hc & _ & ->)].
  - simpl bump_count. rewrite bind_of_Ok. destruct (_ >? CBTF_ST_BufferSize) eqn:Hlen; bools.
    + rewrite Hsend, bind_of_Ok. destruct (encodes_add T _ _ frames He1 Hr) as (b' & Hb & Hen).
      { destruct (en_lens _ _ _ He1) as [-> _]. done. }
      exists b'. right. by rewrite Hb, bind_of_Ok.
    + rewrite bind_of_Ok. destruct (encodes_add T _ _ frames He Hr) as (b' & Hb & Hen); [done|].
      exists b'. left. rewrite Hb, bind_of_Ok. split; [done|]. eexists. split; [done|].
      intros t. apply samples_of_add.
  - apply bool_decide_eq_true in Hs' as ->.
    destruct (encodes_bump T _ _ _ _ _ He Hc) as (b' & Hb & Hen).
    exists b'. left. rewrite Z.add_0_l, Hb, bind_of_Ok. split; [done|]. eexists. split; [done|].
    intros t. apply samples_of_bump.
Qed.

(** A sample without frames: charged to the last stack whose count is not at
    its limit, and dropped when there is none. *)
Lemma record_no_frames {St} (buf : St -> stack_buffer) (set_buf : stack_buffer -> St -> St)
    (send_samples : St -> outcome St) T {DT : Distinguishable T} (s : St) es1 st c es2 :
  encodes T (buf s) (es1 ++ (st, c) :: es2) -> c < 255 -> Forall (fun e => e.2 = 255) es2 ->
  exists b', record_stack buf set_buf send_samples [] s = Ok (set_buf b' s) /\
    encodes T b' (es1 ++ (st, c + 1) :: es2).
Proof.
  intros He Hc Hfull. unfold record_stack.
  rewrite (encodes_search T _ _ _ _ He (compares_empty T)), bind_of_Ok.
  assert (Hsk : forall pos idx, search_entries (fun _ => true) pos es2 idx = idx).
  { clear He. induction Hfull as [|e es2 He _ IH]; intros pos idx; simpl; [done|]. by rewrite IH, He. }
  assert (Hse : forall es pos idx, search_entries (fun _ => true) pos (es ++ (st, c) :: es2) idx =
            Some (pos + Z.of_nat (length (flat_frames es)))).
  { induction es as [|e es IH]; intros pos idx; simpl.
    - rewrite Hsk. replace (c <? 255) with true by lia. f_equal. lia.
    - rewrite IH, flat_frames_cons, length_app. f_equal. lia. }
  rewrite Hse, Z.add_0_l. destruct (encodes_bump T _ _ _ _ _ He Hc) as (b' & Hb & Hen).
  exists b'. by rewrite Hb.
Qed.

(** The search only ends normally or out of bounds. *)
Lemma frames_match_total st frames : forall i,
  frames_match st i frames = Fault \/ exists m, frames_match st i frames = Ok m.
Proof.
  induction frames as [|f fs IH]; intros i; simpl; [eauto|].
  unfold arr_get. case_decide; [|by left]. destruct (st !! _); [|by left]. rewrite bind_of_Ok.
  destruct (_ =? f); eauto.
Qed.

Lemma frames_match_past_end pre s x rest :
  frames_match (pre ++ s) (Z.of_nat (length pre)) (s ++ x :: rest) = Fault.
Proof.
  revert pre. induction s as [|y s IH]; intros pre; simpl.
  - unfold arr_get. rewrite decide_True by lia.
    by rewrite Nat2Z.id, app_nil_r, lookup_ge_None_2 by lia.
  - rewrite lookup_prefix, bind_of_Ok, Z.eqb_refl by done. specialize (IH (pre ++ [y])).
    rewrite <- app_assoc, length_app in IH. simpl in IH. rewrite <- IH. f_equal. lia.
Qed.

Lemma search_reaches_fault st cs frames (n k : nat) : forall i idx,
  0 <= i -> (forall j, i <= j < i + Z.of_nat n -> is_Some (cs !! Z.to_nat j)) -> (k < n)%nat ->
  (forall idx', search_step st cs frames (i + Z.of_nat k) idx' = Fault) ->
  for_loop n i (search_step st cs frames) idx = Fault.
Proof.
  revert k. induction n as [|n IH]; intros k i idx Hi Hin Hk Hf; [lia|]. simpl.
  destruct k as [|k]; [by rewrite Z.add_0_r in Hf; rewrite Hf|].
  assert (search_step st cs frames i idx = Fault \/ exists r, search_step st cs frames i idx = Ok r)
    as [->|[r ->]]; [|done|].
  - unfold search_step. destruct (Hin i) as [c Hc]; [lia|].
    rewrite (arr_get_lookup cs i c), bind_of_Ok by done. destruct (_ || _); [eauto|].
    destruct (frames_match_total st frames i) as [->|[m ->]]; eauto.
  - rewrite bind_of_Ok. apply (IH k); try lia.
    + intros j ?. apply Hin. lia.
    + intros idx'. rewrite <- (Hf idx'). f_equal. lia.
Qed.

(** Stacks that are not rooted are confused: after samples of [A; B] and of
    [C], a sample of [A; B; C] is counted as one of [A; B]. *)
Theorem usertime_confuses_adjacent_stacks :
  let rec frames b := record_stack id (fun b' _ => b') (fun b => Ok (reset_buffer b)) frames b in
  exists b1 b2 b3, rec [1; 2] (reset_buffer (mkStackBuffer [] [] 0 0 0 0)) = Ok b1 /\
    rec [3] b1 = Ok b2 /\ rec [1; 2; 3] b2 = Ok b3 /\
    decode (take (Z.to_nat (sb_stacktraces_len b3)) (sb_stacktraces b3))
      (take (Z.to_nat (sb_count_len b3)) (sb_count b3)) = [([1; 2], 2); ([3], 1)].
Proof. eexists _, _, _. split_and!; vm_compute; reflexivity. Qed.
