(* ===== verification/UserTime.v ===== *)
(** The call stack sampling collector: core/collectors/usertime/collector.c. Its
    sample handler keeps the stack buffer of StackBuffer.v. The main theorem
    accounts for every sampled stack from start to stop; the theorems after it
    show what the flat buffer does to samples outside its assumptions. *)
From S2P Require Import Prelude Probe PCIndex Headers Services Unwind StackBuffer.

(** CBTF_usertime_data as it is on the wire. *)
Record usertime_data := mkUsertimeData {
  ud_interval : Z;
  ud_stacktraces : list Z;
  ud_count : list Z
}.

Definition CBTF_USERTIME_MAXFRAMES : Z := 100.

(** Thread-local storage. The address range of the header is kept in the
    buffer record and copied into the header when it is sent. *)
Record TLS := mkTLS {
  t_header : CBTF_DataHeader;
  t_interval : Z;
  t_buffer : stack_buffer;
  t_ompt : ompt_flags;
  t_defer : bool;
  t_is_unwinding : bool;
  t_segvcount : Z;
  t_sample_count : Z
}.

Definition set_buffer (b : stack_buffer) (tls : TLS) : TLS :=
  mkTLS (t_header tls) (t_interval tls) b (t_ompt tls) (t_defer tls) (t_is_unwinding tls)
    (t_segvcount tls) (t_sample_count tls).
Definition set_ompt (o : ompt_flags) (tls : TLS) : TLS :=
  mkTLS (t_header tls) (t_interval tls) (t_buffer tls) o (t_defer tls) (t_is_unwinding tls)
    (t_segvcount tls) (t_sample_count tls).
Definition set_defer (d : bool) (tls : TLS) : TLS :=
  mkTLS (t_header tls) (t_interval tls) (t_buffer tls) (t_ompt tls) d (t_is_unwinding tls)
    (t_segvcount tls) (t_sample_count tls).
Definition set_header (h : CBTF_DataHeader) (tls : TLS) : TLS :=
  mkTLS h (t_interval tls) (t_buffer tls) (t_ompt tls) (t_defer tls) (t_is_unwinding tls)
    (t_segvcount tls) (t_sample_count tls).
Definition set_unwind (u : bool) (segv samples : Z) (tls : TLS) : TLS :=
  mkTLS (t_header tls) (t_interval tls) (t_buffer tls) (t_ompt tls) (t_defer tls) u segv samples.

Definition usertime_unique_id : string := "usertime".

(** What a timer interrupt finds: a context whose unwinding completes, or one in
    which the unwinder takes a SIGSEGV or SIGBUS. *)
Inductive sample :=
| Unwound (cursor : list frame)
| Segv.

Section usertime.
Context {W : Type} {SV : Services W usertime_data} (bld : build) (uw : unwinder).

(** CBTF_Usertime_SEGVhandler: 0 (handled, by a jump back into the sample
    handler) while unwinding, 1 (pass the signal on) otherwise. *)
Definition CBTF_Usertime_SEGVhandler (tls : TLS) : Z * TLS :=
  if t_is_unwinding tls then
    (0, set_unwind (t_is_unwinding tls) (i32 (t_segvcount tls + 1)) (t_sample_count tls) tls)
  else (1, tls).

Definition CBTF_Usertime_SetSEGVhandler (tls : TLS) : TLS :=
  set_unwind false 0 (t_sample_count tls) tls.

Definition initialize_data (tls : TLS) (w : W) : outcome (TLS * W) :=
  r ← CBTF_GetTime w;
  let header := with_addrs (with_times (t_header tls) r.1 0) UINT64_MAX 0 in
  Ok (set_header header (set_buffer (reset_buffer (t_buffer tls)) tls), r.2).

(** The data blob: the first lengths' worth of both arrays. *)
Definition blob (tls : TLS) : usertime_data :=
  let b := t_buffer tls in
  mkUsertimeData (t_interval tls) (take (Z.to_nat (sb_stacktraces_len b)) (sb_stacktraces b))
    (take (Z.to_nat (sb_count_len b)) (sb_count b)).

(** The rank is set under CBTF_SERVICE_USE_OFFLINE, which every build of the
    collectors defines. *)
Definition send_samples (s : TLS * W) : outcome (TLS * W) :=
  let (tls, w) := s in
  r ← CBTF_GetTime w;
  let header := with_rank (with_addrs (with_times (t_header tls) (dh_time_begin (t_header tls)) r.1)
                  (sb_addr_begin (t_buffer tls)) (sb_addr_end (t_buffer tls)))
                  (monitor_mpi_comm_rank r.2) in
  let tls1 := set_header header tls in
  w2 ← cbtf_collector_send header (blob tls1) r.2;
  initialize_data tls1 w2.

(** The unwinding: the frames found and the state after it. A jump out of the
    unwinder leaves framecount at 0. *)
Definition unwind (smp : sample) (tls : TLS) : outcome (list Z * TLS) :=
  let tls1 := set_unwind true (t_segvcount tls) (i32 (t_sample_count tls + 1)) tls in
  r ← match smp with
      | Unwound cursor =>
          fs ← match uw with
               | FromContext keep =>
                   CBTF_GetStackTraceFromContext keep true cursor true 0 CBTF_USERTIME_MAXFRAMES
               | FastTrace skip_signal skip =>
                   (* a framecount beyond framebuf runs past the buffers below *)
                   let r := CBTF_GetStackTrace skip_signal (Z.of_nat skip)
                              (take (Z.to_nat CBTF_USERTIME_MAXFRAMES) (fr_pc <$> cursor)) in
                   if r.1 =? Z.of_nat (length r.2) then Ok r.2 else Fault
               end;
          Ok (fs, tls1)
      | Segv => Ok ([], (CBTF_Usertime_SEGVhandler tls1).2)
      end;
  Ok (r.1, set_unwind false (t_segvcount r.2) (t_sample_count r.2) r.2).

(** framebuf[0] = the address of the OMPT function of the thread's state. *)
Definition blame_top (ompt : ompt_flags) (framebuf : list Z) : list Z :=
  match framebuf with
  | [] => []
  | f :: fs =>
      (if b_have_ompt bld then
         if thread_idle ompt then b_addr_idle bld
         else if thread_wait_barrier ompt then b_addr_wait_barrier bld
         else if thread_barrier ompt then b_addr_barrier bld
         else f
       else f) :: fs
  end.

Definition serviceTimerHandler (smp : sample) (s : TLS * W) : outcome (TLS * W) :=
  if t_defer s.1 then Ok s else
    r ← unwind smp s.1;
    record_stack (fun s => t_buffer s.1) (fun b s => (set_buffer b s.1, s.2)) send_samples
      (blame_top (t_ompt r.2) r.1) (r.2, s.2).

Definition sampling_interval (rate : Z) : outcome Z :=
  if rate =? 0 then Fault else Ok (1000000000 / rate).

Definition cbtf_collector_start (header : CBTF_DataHeader) (tls : TLS) (w : W) : outcome (TLS * W) :=
  let rate := match getenv w "CBTF_USERTIME_RATE" with
              | Some s => u32 (atoi s)
              | None => 35
              end in
  r ← initialize_data (set_header header (set_defer false tls)) w;
  interval ← sampling_interval rate;
  t ← CBTF_GetTime r.2;
  let h := with_id (with_omp_tid (t_header r.1) (monitor_get_thread_num r.2)) usertime_unique_id in
  let tls2 := CBTF_Usertime_SetSEGVhandler
                (mkTLS (with_times h t.1 (dh_time_end h)) interval (t_buffer r.1)
                   (if b_have_ompt bld then mkOmpt false false false else t_ompt r.1)
                   (t_defer r.1) (t_is_unwinding r.1) (t_segvcount r.1) (t_sample_count r.1)) in
  w3 ← svc_timer_start interval t.2;
  Ok (set_unwind (t_is_unwinding tls2) (t_segvcount tls2) 0 tls2, w3).

Definition cbtf_collector_pause (s : TLS * W) : outcome (TLS * W) :=
  Ok (set_defer true s.1, svc_block_signal s.2).

Definition cbtf_collector_resume (s : TLS * W) : outcome (TLS * W) :=
  Ok (set_defer false s.1, svc_unblock_signal s.2).

Definition cbtf_collector_stop (s : TLS * W) : outcome (TLS * W) :=
  w1 ← svc_timer_stop s.2;
  r ← CBTF_GetTime w1;
  let h := t_header s.1 in
  let tls1 := set_header (with_times h (dh_time_begin h) r.1) s.1 in
  if sb_stacktraces_len (t_buffer tls1) >? 0 then send_samples (tls1, r.2) else Ok (tls1, r.2).

(** ** Runs *)
Inductive event :=
| Tick (smp : sample)
| Pause
| Resume
| SetOmpt (flags : ompt_flags).

Definition step (ev : event) (s : TLS * W) : outcome (TLS * W) :=
  match ev with
  | Tick smp => serviceTimerHandler smp s
  | Pause => cbtf_collector_pause s
  | Resume => cbtf_collector_resume s
  | SetOmpt o => Ok (set_ompt o s.1, s.2)
  end.

Fixpoint run (evs : list event) (s : TLS * W) : outcome (TLS * W) :=
  match evs with
  | [] => Ok s
  | ev :: evs' => s' ← step ev s; run evs' s'
  end.

(** The stack a completed unwinding records. *)
Definition frames_of (cursor : list frame) : list Z :=
  match uw with
  | FromContext keep => take (Z.to_nat CBTF_USERTIME_MAXFRAMES) (List.filter keep (fr_pc <$> cursor))
  | FastTrace skip_signal skip =>
      drop (Z.to_nat (frames_skipped skip_signal (Z.of_nat skip))) (take (Z.to_nat CBTF_USERTIME_MAXFRAMES) (fr_pc <$> cursor))
  end.
Definition stack_of (ompt : ompt_flags) (cursor : list frame) : list Z :=
  blame_top ompt (frames_of cursor).

(** The stacks a run samples, by the flags alone; a failed unwinding has none. *)
Fixpoint accepted (ompt : ompt_flags) (defer : bool) (evs : list event) : list (list Z) :=
  match evs with
  | [] => []
  | Tick (Unwound cursor) :: evs' =>
      (if defer then [] else [stack_of ompt cursor]) ++ accepted ompt defer evs'
  | Tick Segv :: evs' => (if defer then [] else [[]]) ++ accepted ompt defer evs'
  | Pause :: evs' => accepted ompt true evs'
  | Resume :: evs' => accepted ompt false evs'
  | SetOmpt o :: evs' => accepted o defer evs'
  end.
End usertime.

(** Samples of stack [s] a reader finds in a list of sent blobs. *)
Definition delivered (s : list Z) (blobs : list (CBTF_DataHeader * usertime_data)) : Z :=
  foldr (fun hd acc => samples_of s (decode (ud_stacktraces hd.2) (ud_count hd.2)) + acc) 0 blobs.

Definition occurrences_of (s : list Z) (l : list (list Z)) : Z := countb (fun x => bool_decide (x = s)) l.

(** A blob fit to be sent. *)
Definition blob_ok (hd : CBTF_DataHeader * usertime_data) : Prop :=
  Z.of_nat (length (ud_stacktraces hd.2)) <= CBTF_ST_BufferSize /\
  length (ud_stacktraces hd.2) = length (ud_count hd.2) /\
  Forall (fun pc => dh_addr_begin hd.1 <= pc <= dh_addr_end hd.1) (ud_stacktraces hd.2).

Lemma ut_delivered_app s l l' : delivered s (l ++ l') = delivered s l + delivered s l'.
Proof. unfold delivered. induction l as [|x l IH]; simpl; lia. Qed.

Section correctness.
Context {W : Type} {SV : Services W usertime_data} {SL : ServicesLaws W usertime_data}.
Context (bld : build) (uw : unwinder) (root : Z).

(** What was sent since [w0] together with the buffer is [acc]. *)
Definition ut_inv (w0 : W) (s : TLS * W) (acc : list (list Z)) : Prop :=
  exists es new, encodes (rooted root) (t_buffer s.1) es /\ sent s.2 = sent w0 ++ new /\ Forall blob_ok new /\
    forall t, delivered t new + samples_of t es = occurrences_of t acc.

Lemma encodes_blob b es h i :
  encodes (rooted root) b es -> dh_addr_begin h = sb_addr_begin b -> dh_addr_end h = sb_addr_end b ->
  let d := mkUsertimeData i (take (Z.to_nat (sb_stacktraces_len b)) (sb_stacktraces b))
             (take (Z.to_nat (sb_count_len b)) (sb_count b)) in
  blob_ok (h, d) /\ forall t, delivered t [(h, d)] = samples_of t es.
Proof.
  intros [_ _ [Hl1 Hl2] Hroom [rf Hf] [rc Hc] Hok Had] Hb He d.
  assert (ud_stacktraces d = flat_frames es) as Hsf.
  { simpl. by rewrite Hl1, Nat2Z.id, Hf, take_app_length. }
  assert (ud_count d = flat_counts es) as Hsc.
  { simpl. by rewrite Hl2, Nat2Z.id, Hc, <- flat_lengths, take_app_length. }
  split.
  - unfold blob_ok. cbn [fst snd]. rewrite Hsf, Hsc, flat_lengths, Hb, He. done.
  - intros t. unfold delivered. cbn [foldr fst snd]. rewrite Hsf, Hsc, decode_flat; [lia|].
    eapply Forall_impl; [exact Hok|]. intros [[|x s] c] [Hr Hc']; simpl in *; [done|]. split; [done|lia].
Qed.

Lemma usertime_initialize_ok tls w :
  exists h w', initialize_data tls w =
    Ok (set_header h (set_buffer (reset_buffer (t_buffer tls)) tls), w') /\ sent w' = sent w.
Proof.
  unfold initialize_data. destruct (time_law w) as (t & w' & -> & _ & Hs). rewrite bind_of_Ok.
  eexists _, w'. split; [reflexivity|done].
Qed.

(** Sending empties the buffer into one well formed blob. *)
Lemma usertime_send_ok s es :
  encodes (rooted root) (t_buffer s.1) es ->
  exists tls' w' hd, send_samples s = Ok (tls', w') /\
    t_buffer tls' = reset_buffer (t_buffer s.1) /\
    t_ompt tls' = t_ompt s.1 /\ t_defer tls' = t_defer s.1 /\
    sent w' = sent s.2 ++ [hd] /\ blob_ok hd /\ forall t, delivered t [hd] = samples_of t es.
Proof.
  destruct s as [tls w]. simpl. intros He. destruct (time_law w) as (t & w1 & -> & _ & Hs1).
  rewrite bind_of_Ok. simpl.
  match goal with |- context [cbtf_collector_send ?h (blob ?t1) ?w2] =>
    destruct (send_law h (blob t1) w2) as (w3 & -> & Hs3); rewrite bind_of_Ok;
    destruct (encodes_blob (t_buffer tls) es h (t_interval tls) He) as [Hbok Hdel]; [done..|];
    destruct (usertime_initialize_ok t1 w3) as (h' & w' & -> & Hs)
  end.
  eexists _, _, _. split_and!; [reflexivity|reflexivity..| |exact Hbok|exact Hdel].
  by rewrite Hs, Hs3, Hs1.
Qed.

Lemma unwind_ok ompt cursor tls :
  stack_of bld uw ompt cursor <> [] ->
  exists tls', unwind uw (Unwound cursor) tls = Ok (frames_of uw cursor, tls') /\
    t_buffer tls' = t_buffer tls /\ t_ompt tls' = t_ompt tls /\ t_defer tls' = t_defer tls.
Proof.
  unfold stack_of, frames_of, unwind. intros Hne. destruct uw as [keep|skip_signal skip].
  - unfold CBTF_GetStackTraceFromContext. rewrite bind_of_Ok, unwind_loop_spec by (done || lia).
    eexists. split; [reflexivity|]. done.
  - unfold CBTF_GetStackTrace. cbv zeta. cbn [fst snd].
    set (fs := take _ _) in *. set (n := frames_skipped skip_signal (Z.of_nat skip)) in *.
    assert (Hn : 0 <= n) by (unfold n, frames_skipped; destruct (_ && _); [by vm_compute|lia]).
    assert (Hl : (length fs <= 100)%nat) by (unfold fs; rewrite length_take; apply Nat.le_min_l).
    assert (Hd : drop (Z.to_nat n) fs <> []) by (intros Hd; by rewrite Hd in Hne).
    assert (Hlen := length_drop fs (Z.to_nat n)).
    assert (Z.to_nat n < length fs)%nat by (destruct (drop _ fs); [done|simpl in Hlen; lia]).
    rewrite Hlen, u32_small, Nat2Z.inj_sub, Z2Nat.id, Z.eqb_refl, bind_of_Ok by lia.
    eexists. split; [reflexivity|]. done.
Qed.

Lemma stack_of_length ompt cursor :
  Z.of_nat (length (stack_of bld uw ompt cursor)) <= CBTF_ST_BufferSize.
Proof.
  unfold stack_of.
  assert (Hfs : (length (frames_of uw cursor) <= 100)%nat).
  { unfold frames_of. destruct uw; rewrite ?length_drop, length_take; unfold CBTF_USERTIME_MAXFRAMES; lia. }
  assert (length (blame_top bld ompt (frames_of uw cursor)) = length (frames_of uw cursor)) as ->
    by (by destruct (frames_of uw cursor)).
  unfold CBTF_ST_BufferSize. lia.
Qed.

(** One interrupt with a rooted stack. *)
Lemma usertime_tick_ok w0 s acc cursor :
  ut_inv w0 s acc ->
  (t_defer s.1 = false -> rooted root (stack_of bld uw (t_ompt s.1) cursor)) ->
  exists s', serviceTimerHandler bld uw (Unwound cursor) s = Ok s' /\
    t_ompt s'.1 = t_ompt s.1 /\ t_defer s'.1 = t_defer s.1 /\
    ut_inv w0 s' (if t_defer s.1 then acc else stack_of bld uw (t_ompt s.1) cursor :: acc).
Proof.
  destruct s as [tls w]. cbn [fst snd]. intros (es & new & He & Hs & Hok & Hsum) Hroot.
  cbn [fst snd] in *. unfold serviceTimerHandler. cbn [fst snd].
  destruct (t_defer tls) eqn:Hd.
  { exists (tls, w). split_and!; try done. by exists es, new. }
  destruct (unwind_ok (t_ompt tls) cursor tls) as (tls1 & -> & Hb1 & Ho1 & Hd1).
  { intros Hn. specialize (Hroot eq_refl). by rewrite Hn in Hroot. }
  rewrite bind_of_Ok.
  cbn [fst snd]. rewrite Ho1. fold (stack_of bld uw (t_ompt tls) cursor).
  set (st := stack_of bld uw (t_ompt tls) cursor) in *.
  assert (He1 : encodes (rooted root) (t_buffer (tls1, w).1) es) by (simpl; by rewrite Hb1).
  destruct (usertime_send_ok (tls1, w) es He1) as (tls2 & w2 & hd & Hsend & Hb2 & Ho2 & Hd2 & Hs2 & Hbo & Hdl).
  cbn [fst snd] in Hb2, Ho2, Hd2, Hs2.
  destruct (record_stack_ok (fun s => t_buffer s.1) (fun b s => (set_buffer b s.1, s.2)) send_samples
    (rooted root) (tls1, w) (tls2, w2) es st He1 (Hroot eq_refl) (stack_of_length _ _) Hsend)
    as (b' & [[-> (es' & He' & Hsum')]|[-> He']]).
  { simpl. rewrite Hb2. by apply encodes_reset. }
  - eexists. split_and!; [reflexivity|done|simpl; congruence|].
    exists es', new. split_and!; try done. intros t. rewrite Hsum', Z.add_assoc, Hsum.
    unfold occurrences_of. rewrite countb_cons. lia.
  - eexists. split_and!; [reflexivity|simpl; congruence|simpl; congruence|].
    exists [(st, 1)], (new ++ [hd]). split_and!; [done|simpl; by rewrite Hs2, Hs, app_assoc| |].
    + apply Forall_app_2; [done|]. by apply Forall_singleton.
    + intros t. rewrite ut_delivered_app, Hdl, Hsum. unfold occurrences_of.
      rewrite countb_cons, samples_of_cons. simpl. unfold samples_of. simpl. lia.
Qed.

Lemma usertime_run_ok w0 evs : forall s acc,
  ut_inv w0 s acc -> Forall (rooted root) (accepted bld uw (t_ompt s.1) (t_defer s.1) evs) ->
  exists s', run bld uw evs s = Ok s' /\
    ut_inv w0 s' (rev (accepted bld uw (t_ompt s.1) (t_defer s.1) evs) ++ acc).
Proof.
  induction evs as [|ev evs IH]; intros s acc Hi Hr; [by exists s|].
  destruct ev as [[cursor|]| | |o].
  - cbn [accepted run step] in *. apply Forall_app in Hr as [Hr1 Hr2].
    destruct (usertime_tick_ok w0 s acc cursor Hi) as (s1 & -> & Ho & Hd & Hi1).
    { intros Hd. rewrite Hd in Hr1. by inversion Hr1. }
    rewrite bind_of_Ok. destruct (IH s1 _ Hi1) as (s2 & H2 & Hi2); [by rewrite Ho, Hd|].
    exists s2. split; [done|]. rewrite Ho, Hd in Hi2.
    destruct (t_defer s.1); simpl; [done|]. by rewrite <- app_assoc.
  - cbn [accepted run step] in *. apply Forall_app in Hr as [Hr1 Hr2].
    unfold serviceTimerHandler. destruct (t_defer s.1) eqn:Hd.
    + rewrite bind_of_Ok. destruct (IH s acc Hi) as (s2 & H2 & Hi2); [by rewrite Hd|].
      exists s2. by rewrite Hd in Hi2.
    + by inversion Hr1.
  - apply (IH (set_defer true s.1, svc_block_signal s.2)); [|done].
    destruct Hi as (es & new & ?). exists es, new. simpl. by rewrite block_law.
  - apply (IH (set_defer false s.1, svc_unblock_signal s.2)); [|done].
    destruct Hi as (es & new & ?). exists es, new. simpl. by rewrite unblock_law.
  - apply (IH (set_ompt o s.1, s.2)); done.
Qed.
Lemma usertime_start_ok header tls w :
  (forall s, getenv w "CBTF_USERTIME_RATE" = Some s -> u32 (atoi s) <> 0) ->
  exists tls' w', cbtf_collector_start bld header tls w = Ok (tls', w') /\
    ut_inv w (tls', w') [] /\ t_defer tls' = false /\
    t_ompt tls' = if b_have_ompt bld then mkOmpt false false false else t_ompt tls.
Proof.
  intros Hrate. unfold cbtf_collector_start.
  match goal with |- context [initialize_data ?t w] =>
    destruct (usertime_initialize_ok t w) as (h1 & w1 & -> & Hs1) end.
  rewrite bind_of_Ok. unfold sampling_interval.
  destruct (_ =? 0) eqn:Hz; bools; [destruct (getenv w _) eqn:?; [by eapply Hrate in Hz|lia]|].
  rewrite bind_of_Ok. simpl. destruct (time_law w1) as (t & w2 & -> & _ & Hs2).
  rewrite bind_of_Ok. match goal with |- context [svc_timer_start ?i ?w'] =>
    destruct (timer_start_law i w') as (w3 & -> & Hs3) end. rewrite bind_of_Ok.
  eexists _, _. split_and!; [done| |done..].
  exists [], []. split_and!; [by apply encodes_reset| |done|done].
  simpl. rewrite Hs3. simpl. by rewrite Hs2, Hs1, app_nil_r.
Qed.

(** What is left at the end is sent, unless nothing is. *)
Lemma usertime_flush_ok w0 s acc :
  ut_inv w0 s acc ->
  exists s' new,
    (if sb_stacktraces_len (t_buffer s.1) >? 0 then send_samples s else Ok s) = Ok s' /\
    sent s'.2 = sent w0 ++ new /\ Forall blob_ok new /\ forall t, delivered t new = occurrences_of t acc.
Proof.
  intros (es & new & He & Hs & Hok & Hsum). destruct (_ >? 0) eqn:Hl; bools.
  - destruct (usertime_send_ok s es He) as (tls2 & w3 & hd & -> & _ & _ & _ & Hs3 & Hb & Hd).
    exists (tls2, w3), (new ++ [hd]). split_and!; [done| | |].
    + cbn [snd] in *. by rewrite Hs3, Hs, app_assoc.
    + apply Forall_app_2; [done|]. by apply Forall_singleton.
    + intros u. by rewrite ut_delivered_app, Hd.
  - exists s, new. split_and!; try done. intros u. rewrite <- Hsum.
    enough (es = []) as -> by (simpl; lia).
    destruct (en_lens _ _ _ He) as [Hl' _]. destruct es as [|[[|x st] c] es]; [done|..].
    + by destruct (Forall_inv (en_ok _ _ _ He)).
    + rewrite flat_frames_cons, length_app in Hl'. simpl in Hl'. lia.
Qed.

(** The invariant is about the buffer and what was sent. *)
Lemma ut_inv_same w0 s s' acc :
  t_buffer s'.1 = t_buffer s.1 -> sent s'.2 = sent s.2 -> ut_inv w0 s acc -> ut_inv w0 s' acc.
Proof. unfold ut_inv. by intros -> ->. Qed.

Lemma usertime_stop_ok w0 s acc :
  ut_inv w0 s acc ->
  exists s' new, cbtf_collector_stop s = Ok s' /\ sent s'.2 = sent w0 ++ new /\ Forall blob_ok new /\
    forall t, delivered t new = occurrences_of t acc.
Proof.
  intros Hi. unfold cbtf_collector_stop.
  destruct (timer_stop_law s.2) as (w1 & -> & Hs1). rewrite bind_of_Ok.
  destruct (time_law w1) as (t & w2 & -> & _ & Hs2). rewrite bind_of_Ok. cbn [fst snd].
  match goal with |- context [send_samples (?t, w2)] => apply (usertime_flush_ok w0 (t, w2)) end.
  apply (ut_inv_same _ s); [done| |done]. simpl. by rewrite Hs2, Hs1.
Qed.
End correctness.

(** C3: provided every stack sampled in the run is rooted (it ends in the frame
    the thread started in, which occurs only there) and its unwinding completed,
    the usertime collector runs from start through any sequence of interrupts,
    pauses, resumes and OMPT flag changes to stop without leaving its arrays,
    every blob it sends is well formed, and for each stack the counts a reader
    decodes from the blobs add up to the number of interrupts it was sampled at
    while sampling was not deferred. *)
Theorem usertime_accounts_for_every_stack {W} {SV : Services W usertime_data}
    {SL : ServicesLaws W usertime_data} (bld : build) (uw : unwinder) (root : Z)
    (header : CBTF_DataHeader) (tls : TLS) (w : W) (evs : list event) :
  (forall s, getenv w "CBTF_USERTIME_RATE" = Some s -> u32 (atoi s) <> 0) ->
  let flags := if b_have_ompt bld then mkOmpt false false false else t_ompt tls in
  Forall (rooted root) (accepted bld uw flags false evs) ->
  exists tls1 w1 s2 s3 new,
    cbtf_collector_start bld header tls w = Ok (tls1, w1) /\
    run bld uw evs (tls1, w1) = Ok s2 /\
    cbtf_collector_stop s2 = Ok s3 /\
    sent s3.2 = sent w ++ new /\ Forall blob_ok new /\
    forall t, delivered t new = occurrences_of t (accepted bld uw flags false evs).
Proof.
  intros Hrate flags Hroot.
  destruct (usertime_start_ok bld root header tls w Hrate) as (tls1 & w1 & H1 & I1 & Hd & Ho).
  destruct (usertime_run_ok bld uw root w evs (tls1, w1) [] I1) as (s2 & H2 & I2).
  { cbn [fst]. by rewrite Hd, Ho. }
  destruct (usertime_stop_ok root w s2 _ I2) as (s3 & new & H3 & Hn & Hok & Hdel).
  exists tls1, w1, s2, s3, new. split_and!; try done.
  intros t. rewrite Hdel, app_nil_r. cbn [fst]. rewrite Hd, Ho. apply countb_rev.
Qed.

(** A sample whose unwinding takes a SIGSEGV has no frames, and the handler
    charges it to the stack that was last added and is not at the count limit,
    whatever that stack is. *)
Theorem usertime_failed_unwind_is_charged {W} {SV : Services W usertime_data} (bld : build)
    (uw : unwinder) (root : Z) (tls : TLS) (w : W) (es1 : list entry) (st : list Z) (c : Z)
    (es2 : list entry) :
  t_defer tls = false -> encodes (rooted root) (t_buffer tls) (es1 ++ (st, c) :: es2) -> c < 255 ->
  Forall (fun e => e.2 = 255) es2 ->
  exists tls', serviceTimerHandler bld uw Segv (tls, w) = Ok (tls', w) /\
    t_segvcount tls' = i32 (t_segvcount tls + 1) /\
    encodes (rooted root) (t_buffer tls') (es1 ++ (st, c + 1) :: es2).
Proof.
  intros Hd He Hc Hf. unfold serviceTimerHandler. cbn [fst snd]. rewrite Hd.
  unfold unwind. rewrite !bind_of_Ok. cbn [fst snd blame_top].
  match goal with |- context [record_stack ?b ?sb ?sd [] ?s] =>
    destruct (record_no_frames b sb sd (rooted root) s es1 st c es2 He Hc Hf) as (b' & -> & Hen) end.
  eexists. split_and!; [reflexivity|done|done].
Qed.

(** The buffer is sent only when a stack does not fit, so it can be exactly
    full; a sample whose stack properly extends the last stack of a full buffer
    is then compared past the end of stacktraces[]. *)
Theorem usertime_full_buffer_overread {W} {SV : Services W usertime_data} (bld : build)
    (uw : unwinder) (tls : TLS) (w : W) (cursor : list frame) (pre s : list Z) (c x : Z) (rest : list Z) :
  t_defer tls = false -> s <> [] ->
  sb_stacktraces (t_buffer tls) = pre ++ s ->
  sb_count_len (t_buffer tls) = Z.of_nat (length (pre ++ s)) ->
  Z.of_nat (length (sb_count (t_buffer tls))) = sb_count_len (t_buffer tls) ->
  sb_count (t_buffer tls) !! length pre = Some c -> 0 < c < 255 ->
  stack_of bld uw (t_ompt tls) cursor = s ++ x :: rest ->
  serviceTimerHandler bld uw (Unwound cursor) (tls, w) = Fault.
Proof.
  intros Hd Hs Hst Hlen Hcs Hc Hrange Hstack. unfold serviceTimerHandler. cbn [fst snd]. rewrite Hd.
  destruct (unwind_ok bld uw (t_ompt tls) cursor tls) as (tls1 & -> & Hb1 & Ho1 & _).
  { rewrite Hstack. by destruct s. }
  rewrite bind_of_Ok.
  cbn [fst snd]. rewrite Ho1. fold (stack_of bld uw (t_ompt tls) cursor). rewrite Hstack.
  unfold record_stack. cbn [fst]. rewrite Hb1.
  enough (search_stacks (s ++ x :: rest) (t_buffer tls) = Fault) as -> by done.
  unfold search_stacks. rewrite Hst. apply (search_reaches_fault _ _ _ _ (length pre)); [lia| | |].
  - intros j Hj. apply lookup_lt_is_Some. lia.
  - rewrite Hlen, Nat2Z.id, length_app. destruct s; [done|]. simpl. lia.
  - intros idx. unfold search_step.
    rewrite (arr_get_lookup _ _ c), bind_of_Ok by (try rewrite Z.add_0_l, Nat2Z.id; done || lia).
    replace (c =? 0) with false by lia. replace (c =? 255) with false by lia. simpl orb. cbv iota.
    by rewrite Z.add_0_l, frames_match_past_end.
Qed.

(** Two rooted stacks, one sampled twice, one of its samples deferred. *)
Lemma usertime_accounts_witness :
  let bld := mkBuild arch_other false 0 0 0 in
  let uw := FastTrace true 0 in
  let tls := mkTLS (mkDataHeader 0 1 "" "n0" 1 1 (-1) 0 0 0 0 0) 0
    (mkStackBuffer [] [] 0 0 0 0) (mkOmpt false false false) false false 0 0 in
  let overhead := replicate 4 (mkFrame 1 false) in
  let a := Unwound (overhead ++ [mkFrame 30 false; mkFrame 20 false; mkFrame 10 false]) in
  let b := Unwound (overhead ++ [mkFrame 20 false; mkFrame 10 false]) in
  let evs := [Tick a; Tick b; Pause; Tick a; Resume; Tick a] in
  exists s1 s2 s3, cbtf_collector_start bld (t_header tls) tls (quiet_world usertime_data) = Ok s1 /\
    run bld uw evs s1 = Ok s2 /\ cbtf_collector_stop s2 = Ok s3 /\
    delivered [30; 20; 10] (lw_sent s3.2) = 2 /\ delivered [20; 10] (lw_sent s3.2) = 1.
Proof.
  intros bld uw tls overhead a b evs.
  destruct (usertime_accounts_for_every_stack bld uw 10 (t_header tls) tls (quiet_world usertime_data) evs)
    as (tls1 & w1 & s2 & s3 & new & H1 & H2 & H3 & Hs & _ & Hd).
  - done.
  - apply Forall_forall. intros st Hst. vm_compute in Hst |- *.
    repeat (apply elem_of_cons in Hst as [->|Hst]; [done|]). by apply elem_of_nil in Hst.
  - change (sent s3.2) with (lw_sent s3.2) in Hs. change (sent (quiet_world usertime_data))
      with (@nil (CBTF_DataHeader * usertime_data)) in Hs.
    exists (tls1, w1), s2, s3. split; [exact H1|]. split; [exact H2|]. split; [exact H3|].
    rewrite Hs. split; (etransitivity; [apply Hd|vm_compute; reflexivity]).
Defined.

(** A buffer that holds the stack [20; 10], sampled once, and room behind it. *)
Lemma usertime_failed_unwind_witness :
  let buffer := mkStackBuffer ([20; 10] ++ replicate 1022 0) ([1; 0] ++ replicate 1022 0) 2 2 10 20 in
  let tls := mkTLS (mkDataHeader 0 1 "" "n0" 1 1 (-1) 0 0 0 0 0) 0 buffer (mkOmpt false false false)
    false false 0 0 in
  exists tls', serviceTimerHandler (mkBuild arch_other false 0 0 0) (FromContext (fun _ => true)) Segv
      (tls, quiet_world usertime_data) = Ok (tls', quiet_world usertime_data) /\
    encodes (rooted 10) (t_buffer tls') [([20; 10], 2)].
Proof.
  intros buffer tls.
  destruct (usertime_failed_unwind_is_charged (mkBuild arch_other false 0 0 0) (FromContext (fun _ => true)) 10 tls
    (quiet_world usertime_data) [] [20; 10] 1 []) as (tls' & H & _ & He).
  - done.
  - constructor; try done.
    + by eexists.
    + by eexists.
    + by repeat constructor.
    + by repeat constructor.
  - done.
  - done.
  - exists tls'. split; [exact H|exact He].
Defined.

(** A full buffer whose last stack is [5; 6], and a sample of [5; 6; 7]. *)
Lemma usertime_full_buffer_witness :
  let buffer := mkStackBuffer (replicate 1022 1 ++ [5; 6]) (<[1022%nat := 1]> (replicate 1024 0)) 1024 1024 1 6 in
  let tls := mkTLS (mkDataHeader 0 1 "" "n0" 1 1 (-1) 0 0 0 0 0) 0 buffer (mkOmpt false false false)
    false false 0 0 in
  serviceTimerHandler (mkBuild arch_other false 0 0 0) (FromContext (fun _ => true))
    (Unwound [mkFrame 5 false; mkFrame 6 false; mkFrame 7 false]) (tls, quiet_world usertime_data) = Fault.
Proof.
  intros buffer tls.
  by apply (usertime_full_buffer_overread (mkBuild arch_other false 0 0 0) (FromContext (fun _ => true)) tls
    (quiet_world usertime_data) [mkFrame 5 false; mkFrame 6 false; mkFrame 7 false] (replicate 1022 1) [5; 6] 1 7 []).
Defined.
