(* ===== verification/HWCTime.v ===== *)
(** The hardware counter call stack collector: core/collectors/hwctime/collector.c.
    PAPI calls its handler each time a counter passes a threshold; the stacks go
    into the same buffer and by the same code as in usertime (the two files agree
    in initialize_data, send_samples, the SIGSEGV handler, the OMPT functions and
    the handler, but for the frames the unwinder skips), so the thread-local storage
    is that of usertime with an event set. *)
From S2P Require Import Prelude Probe PCIndex Headers Services Papi Unwind StackBuffer UserTime.

(** CBTF_hwctime_data has the fields of CBTF_usertime_data. *)
Notation hwctime_data := usertime_data.

Record TLS := mkTLS {
  ht_ut : UserTime.TLS;
  ht_EventSet : Z
}.

Definition hwctime_unique_id : string := "hwctime".

Section hwctime.
Context {W : Type} {SV : Services W hwctime_data} {PA : Papi W} (bld : build).
(** [fast] is USE_FASTTRACE; [keep] as in Unwind.v. *)
Context (fast : bool) (keep : Z -> bool).

Definition state : Type := papi_globals * TLS * W.

(** CBTF_GetStackTrace(FALSE, 6, ...), or CBTF_GetStackTraceFromContext. *)
Definition hwctime_unwinder : unwinder := if fast then FastTrace false 6 else FromContext keep.

Definition hwctimePAPIHandler (smp : sample) (s : state) : outcome state :=
  r ← UserTime.serviceTimerHandler bld hwctime_unwinder smp (ht_ut s.1.2, s.2);
  Ok (s.1.1, mkTLS r.1 (ht_EventSet s.1.2), r.2).

Definition cbtf_collector_start (header : CBTF_DataHeader) (s : state) : outcome state :=
  let '(g, tls, w) := s in
  let event := default "PAPI_TOT_CYC" (getenv w "CBTF_HWCTIME_EVENT") in
  let threshold := match getenv w "CBTF_HWCTIME_THRESHOLD" with
                   | Some str => atoi str
                   | None => THRESHOLD * 2
                   end in
  let t := ht_ut tls in
  let t1 := UserTime.mkTLS header (u64 threshold) (t_buffer t) (t_ompt t) (t_defer t) (t_is_unwinding t)
              (t_segvcount t) (t_sample_count t) in
  r ← UserTime.initialize_data t1 w;
  tm ← CBTF_GetTime r.2;
  let h := with_id (with_omp_tid (t_header r.1) (monitor_get_thread_num r.2)) hwctime_unique_id in
  let t2 := set_header (with_times h tm.1 (dh_time_end h)) r.1 in
  let t3 := if b_have_ompt bld then set_ompt (mkOmpt false false false) t2 else t2 in
  let t4 := CBTF_Usertime_SetSEGVhandler t3 in
  let t5 := set_unwind (t_is_unwinding t4) (t_segvcount t4) 0 t4 in
  p ← setup_overflow (bool_decide (is_Some (getenv tm.2 "CBTF_HWCSAMP_MULTIPLEX"))) event threshold g
        (ht_EventSet tls) tm.2;
  tm' ← CBTF_GetTime p.2;
  let h' := t_header t5 in
  Ok (p.1.1, mkTLS (set_defer false (set_header (with_times h' tm'.1 (dh_time_end h')) t5)) p.1.2,
      CBTF_Start p.1.2 tm'.2).

Definition cbtf_collector_pause (s : state) : outcome state :=
  let '(g, tls, w) := s in
  if g_papi_init_done g then Ok (g, mkTLS (set_defer true (ht_ut tls)) (ht_EventSet tls), w) else Ok s.

Definition cbtf_collector_resume (s : state) : outcome state :=
  let '(g, tls, w) := s in
  if g_papi_init_done g then Ok (g, mkTLS (set_defer false (ht_ut tls)) (ht_EventSet tls), w) else Ok s.

Definition cbtf_collector_stop (s : state) : outcome state :=
  let '(g, tls, w) := s in
  if ht_EventSet tls =? PAPI_NULL then Ok s else
    let w1 := (CBTF_Stop (ht_EventSet tls) None w).2 in
    tm ← CBTF_GetTime w1;
    let h := t_header (ht_ut tls) in
    let t1 := set_header (with_times h (dh_time_begin h) tm.1) (ht_ut tls) in
    r ← (if sb_stacktraces_len (t_buffer t1) >? 0 then UserTime.send_samples (t1, tm.2) else Ok (t1, tm.2));
    Ok (g, mkTLS r.1 (ht_EventSet tls), r.2).

(** ** Runs: the events are those of usertime, an overflow being a tick. *)
Definition step (ev : UserTime.event) (s : state) : outcome state :=
  match ev with
  | Tick smp => hwctimePAPIHandler smp s
  | Pause => cbtf_collector_pause s
  | Resume => cbtf_collector_resume s
  | SetOmpt o => Ok (s.1.1, mkTLS (set_ompt o (ht_ut s.1.2)) (ht_EventSet s.1.2), s.2)
  end.

Fixpoint run (evs : list UserTime.event) (s : state) : outcome state :=
  match evs with
  | [] => Ok s
  | ev :: evs' => s' ← step ev s; run evs' s'
  end.
End hwctime.

Section correctness.
Context {W : Type} {SV : Services W hwctime_data} {SL : ServicesLaws W hwctime_data}.
Context {PA : Papi W} {PF : PapiFrame (sent (W := W))} {PW : PapiWorks W}.
Context (bld : build) (fast : bool) (keep : Z -> bool) (root : Z).
Notation uw := (hwctime_unwinder fast keep).

Definition ht_inv (w0 : W) (s : @state W) (acc : list (list Z)) : Prop :=
  ut_inv root w0 (ht_ut s.1.2, s.2) acc /\ ht_EventSet s.1.2 <> PAPI_NULL /\ g_papi_init_done s.1.1 = true.

Lemma ht_run_ok w0 evs : forall (s : @state W) acc,
  ht_inv w0 s acc ->
  Forall (rooted root) (accepted bld uw (t_ompt (ht_ut s.1.2)) (t_defer (ht_ut s.1.2)) evs) ->
  exists s', run bld fast keep evs s = Ok s' /\
    ht_inv w0 s' (rev (accepted bld uw (t_ompt (ht_ut s.1.2)) (t_defer (ht_ut s.1.2)) evs) ++ acc).
Proof.
  induction evs as [|ev evs IH]; intros [[g tls] w] acc (Hi & He & Hg) Hr; [by exists (g, tls, w)|].
  cbn [fst snd] in *. destruct ev as [[cursor|]| | |o]; cbn [run step accepted] in *.
  - apply Forall_app in Hr as [Hr1 Hr2]. unfold hwctimePAPIHandler. cbn [fst snd].
    destruct (usertime_tick_ok bld uw root w0 (ht_ut tls, w) acc cursor Hi) as ([t1 w1] & -> & Ho & Hd & Hi1).
    { intros Hd. cbn [fst] in *. rewrite Hd in Hr1. by inversion Hr1. }
    cbn [fst snd] in *. rewrite !bind_of_Ok.
    destruct (IH (g, mkTLS t1 (ht_EventSet tls), w1) _ (conj Hi1 (conj He Hg))) as (s2 & H2 & Hi2).
    { cbn [fst snd ht_ut]. by rewrite Ho, Hd. }
    exists s2. split; [done|]. cbn [fst snd ht_ut] in Hi2. rewrite Ho, Hd in Hi2.
    destruct (t_defer (ht_ut tls)); simpl; [done|]. by rewrite <- app_assoc.
  - apply Forall_app in Hr as [Hr1 Hr2]. unfold hwctimePAPIHandler, serviceTimerHandler. cbn [fst snd].
    destruct (t_defer (ht_ut tls)) eqn:Hd; [|by inversion Hr1]. rewrite !bind_of_Ok.
    destruct (IH (g, mkTLS (ht_ut tls) (ht_EventSet tls), w) acc (conj Hi (conj He Hg))) as (s2 & H2 & Hi2);
      cbn [fst snd ht_ut] in *; rewrite Hd in *; [done|]. by exists s2.
  - unfold cbtf_collector_pause. rewrite Hg. by apply (IH (g, mkTLS (set_defer true (ht_ut tls)) _, w)).
  - unfold cbtf_collector_resume. rewrite Hg. by apply (IH (g, mkTLS (set_defer false (ht_ut tls)) _, w)).
  - by apply (IH (g, mkTLS (set_ompt o (ht_ut tls)) _, w)).
Qed.

Lemma ht_start_ok header g tls w :
  Z.of_nat (String.length (default "PAPI_TOT_CYC" (getenv w "CBTF_HWCTIME_EVENT"))) < PAPI_MAX_STR_LEN ->
  exists s', cbtf_collector_start bld header (g, tls, w) = Ok s' /\ ht_inv w s' [] /\
    t_defer (ht_ut s'.1.2) = false /\
    t_ompt (ht_ut s'.1.2) = if b_have_ompt bld then mkOmpt false false false else t_ompt (ht_ut tls).
Proof.
  intros Hn. unfold cbtf_collector_start.
  match goal with |- context [UserTime.initialize_data ?t w] =>
    destruct (usertime_initialize_ok t w) as (h1 & w1 & -> & Hs1) end.
  rewrite bind_of_Ok. cbn [fst snd]. destruct (time_law w1) as (tm & w2 & -> & _ & Hs2).
  rewrite bind_of_Ok. cbn [fst snd].
  match goal with |- context [setup_overflow ?mp ?e ?th g ?e0 w2] =>
    destruct (setup_overflow_ok sent mp e th g e0 w2 Hn) as (g' & es' & w3 & -> & He & Hg & Hs3) end.
  rewrite bind_of_Ok. cbn [fst snd]. destruct (time_law w3) as (tm' & w4 & -> & _ & Hs4). rewrite bind_of_Ok.
  eexists. split; [reflexivity|]. cbn [fst snd ht_ut]. split_and!; [|done|by destruct (b_have_ompt bld)].
  split; [|done]. exists [], []. split_and!; [|cbn [fst snd]; rewrite (Start_frame sent), app_nil_r; congruence|done..].
  destruct (b_have_ompt bld); by apply encodes_reset.
Qed.

Lemma ht_stop_ok w0 s acc :
  ht_inv w0 s acc ->
  exists s' new, cbtf_collector_stop s = Ok s' /\ sent s'.2 = sent w0 ++ new /\ Forall blob_ok new /\
    forall t, delivered t new = occurrences_of t acc.
Proof.
  destruct s as [[g tls] w]. intros (Hi & He & Hg). cbn [fst snd] in *.
  unfold cbtf_collector_stop. destruct (_ =? PAPI_NULL) eqn:Hn; bools; [done|].
  match goal with |- context [CBTF_GetTime ?w'] => destruct (time_law w') as (tm & w2 & -> & _ & Hs2) end.
  rewrite bind_of_Ok. cbn [fst snd]. rewrite (Stop_frame sent) in Hs2.
  match goal with |- context [UserTime.send_samples (?t, w2)] =>
    destruct (usertime_flush_ok root w0 (t, w2) acc) as (s' & new & Hf & Hs & Hok & Hd) end.
  { by apply (ut_inv_same _ _ (ht_ut tls, w)). }
  cbn [fst] in Hf. rewrite Hf, bind_of_Ok. by eexists _, new.
Qed.
End correctness.

(** With a usable PAPI, and for stacks that are rooted and whose unwinding
    completes, the hwctime collector runs from start through any sequence of
    counter overflows, pauses, resumes and OMPT flag changes to stop without
    leaving its arrays, every blob it sends is well formed, and the counts a
    reader decodes for a stack add up to the overflows it was sampled at while
    sampling was not deferred. *)
Theorem hwctime_accounts_for_every_stack {W} {SV : Services W hwctime_data}
    {SL : ServicesLaws W hwctime_data} {PA : Papi W} {PF : PapiFrame (sent (W := W))} {PW : PapiWorks W}
    (bld : build) (fast : bool) (keep : Z -> bool) (root : Z)
    (header : CBTF_DataHeader) (g : papi_globals) (tls : TLS) (w : W) (evs : list UserTime.event) :
  Z.of_nat (String.length (default "PAPI_TOT_CYC" (getenv w "CBTF_HWCTIME_EVENT"))) < PAPI_MAX_STR_LEN ->
  let flags := if b_have_ompt bld then mkOmpt false false false else t_ompt (ht_ut tls) in
  let stacks := accepted bld (hwctime_unwinder fast keep) flags false evs in
  Forall (rooted root) stacks ->
  exists s1 s2 s3 new,
    cbtf_collector_start bld header (g, tls, w) = Ok s1 /\
    run bld fast keep evs s1 = Ok s2 /\ cbtf_collector_stop s2 = Ok s3 /\
    sent s3.2 = sent w ++ new /\ Forall blob_ok new /\
    forall t, delivered t new = occurrences_of t stacks.
Proof.
  intros Hn flags stacks Hroot.
  destruct (ht_start_ok bld root header g tls w Hn) as (s1 & H1 & I1 & Hd & Ho).
  destruct (ht_run_ok bld fast keep root w evs s1 [] I1) as (s2 & H2 & I2); [by rewrite Hd, Ho|].
  destruct (ht_stop_ok root w s2 _ I2) as (s3 & new & H3 & Hs & Hok & Hdel).
  exists s1, s2, s3, new. split_and!; try done.
  intros t. rewrite Hdel, app_nil_r, Hd, Ho. apply countb_rev.
Qed.

(** One stack behind the six frames of the PAPI handler, sampled twice. *)
Lemma hwctime_accounts_witness :
  let bld := mkBuild arch_other false 0 0 0 in
  let ut := UserTime.mkTLS (mkDataHeader 0 1 "" "n0" 1 1 (-1) 0 0 0 0 0) 0
    (mkStackBuffer [] [] 0 0 0 0) (mkOmpt false false false) false false 0 0 in
  let a := Unwound (replicate 6 (mkFrame 1 false) ++ [mkFrame 20 false; mkFrame 10 false]) in
  let evs := [Tick a; Pause; Tick a; Resume; Tick a] in
  exists s1 s2 s3,
    cbtf_collector_start bld (t_header ut) (mkGlobals false None, mkTLS ut 0, quiet_papi hwctime_data) = Ok s1 /\
    run bld true (fun _ => true) evs s1 = Ok s2 /\ cbtf_collector_stop s2 = Ok s3 /\
    delivered [20; 10] (lw_sent (pw_log s3.2)) = 2.
Proof.
  intros bld ut a evs.
  destruct (hwctime_accounts_for_every_stack bld true (fun _ => true) 10 (t_header ut) (mkGlobals false None)
    (mkTLS ut 0) (quiet_papi hwctime_data) evs) as (s1 & s2 & s3 & new & H1 & H2 & H3 & Hs & _ & Hd).
  - done.
  - apply Forall_forall. intros st Hst. vm_compute in Hst |- *.
    repeat (apply elem_of_cons in Hst as [->|Hst]; [done|]). by apply elem_of_nil in Hst.
  - change (sent (quiet_papi hwctime_data)) with (@nil (CBTF_DataHeader * hwctime_data)) in Hs.
    simpl sent in Hs. exists s1, s2, s3. split; [exact H1|]. split; [exact H2|]. split; [exact H3|].
    rewrite Hs. etransitivity; [apply Hd|vm_compute; reflexivity].
Defined.
