(* ===== verification/TraceBuffer.v ===== *)
(** The event tracing buffer of the mem, io, mpi and pthreads collectors: an
    array of zero-terminated stack traces, an array of events that refer to a
    stack trace by its position, and the linear search that looks a stack trace
    up before it is added (the io collector searches its pathname buffer with the
    same loop). The file has the loops, what the search really compares, the
    encoding of a list of traced events and its reader. *)
From S2P Require Import Prelude StackBuffer.

(** An event on the wire: its payload and the position of its stack trace. *)
Record traced_event (P : Type) := mkEvent { te_data : P; te_stacktrace : Z }.
Arguments mkEvent {P}. Arguments te_data {P}. Arguments te_stacktrace {P}.

Record trace_buffer (P : Type) := mkTraceBuffer {
  tb_stacktraces : list Z;
  tb_stacktraces_len : Z;
  tb_events : list (traced_event P);
  tb_events_len : Z;
  tb_addr_begin : Z;
  tb_addr_end : Z
}.
Arguments mkTraceBuffer {P}.
Arguments tb_stacktraces {P}. Arguments tb_stacktraces_len {P}. Arguments tb_events {P}.
Arguments tb_events_len {P}. Arguments tb_addr_begin {P}. Arguments tb_addr_end {P}.

(** for (start += i; buf[start] != 0 && start < len; ++start); *)
Fixpoint skip_entry (fuel : nat) (buf : list Z) (len start : Z) : outcome Z :=
  match fuel with
  | O => Diverged
  | S fuel' =>
      x ← arr_get buf start;
      if negb (x =? 0) && (start <? len) then skip_entry fuel' buf len (start + 1) else Ok start
  end.

(** The search loop from (start, i) on; [i] goes back to 0 after a mismatch and
    is then incremented by the loop. The result is the final (start, i). *)
Fixpoint search_loop (fuel : nat) (buf : list Z) (len : Z) (key : list Z) (start i : Z)
  : outcome (Z * Z) :=
  match fuel with
  | O => Diverged
  | S fuel' =>
      if (i <? Z.of_nat (length key)) && (start + i <? len) then
        k ← arr_get key i;
        x ← arr_get buf (start + i);
        if k =? x then search_loop fuel' buf len key start (i + 1)
        else
          start1 ← skip_entry (S (length buf)) buf len (start + i);
          search_loop fuel' buf len key (start1 + 1) 1
      else Ok (start, i)
  end.

(** The position of [key] when the search ends with i == size. *)
Definition search_entry (buf : list Z) (len : Z) (key : list Z) : outcome (option Z) :=
  r ← search_loop (S (Z.to_nat (len + Z.of_nat (length key)))) buf len key 0 0;
  Ok (if r.2 =? Z.of_nat (length key) then Some r.1 else None).

(** buffer.stacktraces[entry + i] = stacktrace[i] and the update of the address
    interval; mem stores only the nonzero frames ([skip_zero]). *)
Fixpoint store_frames (skip_zero : bool) (entry i : Z) (frames : list Z) (st : list Z) (ab ae : Z)
  : outcome (list Z * Z * Z) :=
  match frames with
  | [] => Ok (st, ab, ae)
  | f :: fs =>
      st1 ← (if skip_zero && (f =? 0) then Ok st else arr_set st (entry + i) f);
      store_frames skip_zero entry (i + 1) fs st1 (if f <? ab then f else ab) (if f >? ae then f else ae)
  end.

(** Add the frames and their terminating zero. *)
Definition add_trace {P} (skip_zero : bool) (frames : list Z) (b : trace_buffer P) : outcome (trace_buffer P) :=
  let entry := tb_stacktraces_len b in
  r ← store_frames skip_zero entry 0 frames (tb_stacktraces b) (tb_addr_begin b) (tb_addr_end b);
  st ← arr_set r.1.1 (entry + Z.of_nat (length frames)) 0;
  Ok (mkTraceBuffer st (entry + Z.of_nat (length frames) + 1) (tb_events b) (tb_events_len b) r.1.2 r.2).

(** Add an event that refers to position [entry] (a uint16_t on the wire). *)
Definition add_event {P} (p : P) (entry : Z) (b : trace_buffer P) : outcome (trace_buffer P) :=
  evs ← arr_set (tb_events b) (tb_events_len b) (mkEvent p (u16 entry));
  Ok (mkTraceBuffer (tb_stacktraces b) (tb_stacktraces_len b) evs (tb_events_len b + 1)
        (tb_addr_begin b) (tb_addr_end b)).

(** The empty buffer initialize_data() leaves; [dflt] is the zeroed event. *)
Definition reset_traces {P} (SB EB : Z) (dflt : traced_event P) : trace_buffer P :=
  mkTraceBuffer (replicate (Z.to_nat SB) 0) 0 (replicate (Z.to_nat EB) dflt) 0 UINT64_MAX 0.

(** The part of a record_event() function from the search to the end, over a
    collector state [St] that holds a buffer. *)
Section record.
Context {P St : Type} (skip_zero : bool) (SB EB : Z).
Context (buf : St -> trace_buffer P) (set_buf : trace_buffer P -> St -> St).
Context (send_samples : St -> outcome St).

Definition trace_position (frames : list Z) (s : St) : outcome (Z * St) :=
  r ← search_entry (tb_stacktraces (buf s)) (tb_stacktraces_len (buf s)) frames;
  match r with
  | Some start => Ok (start, s)
  | None =>
      s1 ← (if tb_stacktraces_len (buf s) + Z.of_nat (length frames) + 1 >=? SB
            then send_samples s else Ok s);
      b ← add_trace skip_zero frames (buf s1);
      Ok (tb_stacktraces_len (buf s1), set_buf b s1)
  end.

Definition record_traced (p : P) (frames : list Z) (s : St) : outcome St :=
  r ← trace_position frames s;
  b ← add_event p r.1 (buf r.2);
  let s2 := set_buf b r.2 in
  if tb_events_len b =? EB then send_samples s2 else Ok s2.
End record.

(** ** The list of traced functions

    strtok_r(s, ":,"): the maximal runs of other characters. *)
Definition is_delim (c : Ascii.ascii) : bool :=
  (Nat.eqb (Ascii.nat_of_ascii c) 58 (* : *) || Nat.eqb (Ascii.nat_of_ascii c) 44 (* , *))%bool.
Fixpoint tokens_from (cur : string) (s : string) : list string :=
  match s with
  | EmptyString => if String.eqb cur "" then [] else [cur]
  | String c s' =>
      if is_delim c then
        (if String.eqb cur "" then [] else [cur]) ++ tokens_from "" s'
      else tokens_from (cur +:+ String c "") s'
  end.
Definition strtok_all (s : string) : list string := tokens_from "" s.

Definition PATH_MAX : Z := 4096.

(** stacktrace[0] = function, if there is a frame. *)
Definition replace_top (function : Z) (stacktrace : list Z) : list Z :=
  match stacktrace with [] => [] | _ :: fs => function :: fs end.

(** ** Encoding *)
Definition flat_traces (ts : list (list Z)) : list Z := concat ((fun t => t ++ [0]) <$> ts).

(** What a reader makes of a position: the frames up to the next zero. *)
Fixpoint take_nonzero (l : list Z) : list Z :=
  match l with
  | [] => []
  | x :: l' => if x =? 0 then [] else x :: take_nonzero l'
  end.
Definition trace_at (st : list Z) (pos : Z) : list Z := take_nonzero (drop (Z.to_nat pos) st).

(** The events of a blob with the stack traces they refer to. *)
Definition decode_events {P} (st : list Z) (evs : list (traced_event P)) : list (P * list Z) :=
  (fun e => (te_data e, trace_at st (te_stacktrace e))) <$> evs.

(** What the search compares: the whole key with the first trace, but the key
    without its first element with the later ones. *)
Fixpoint find_entry (first : bool) (key : list Z) (pos : Z) (ts : list (list Z)) : option Z :=
  match ts with
  | [] => None
  | t :: ts' =>
      if (if first then bool_decide (key `prefix_of` t) else bool_decide (tail key `prefix_of` tail t))
      then Some pos
      else find_entry false key (pos + Z.of_nat (length t) + 1) ts'
  end.

Definition trace_ok (t : list Z) : Prop := t <> [] /\ Forall (fun x => x <> 0) t.

Lemma flat_traces_cons t ts : flat_traces (t :: ts) = t ++ 0 :: flat_traces ts.
Proof. unfold flat_traces. simpl. by rewrite <- app_assoc. Qed.

Lemma flat_traces_app ts us : flat_traces (ts ++ us) = flat_traces ts ++ flat_traces us.
Proof. unfold flat_traces. by rewrite fmap_app, concat_app. Qed.

(** Skipping from inside a trace stops at its terminator. *)
Lemma skip_entry_ok t : forall fuel pre rest len,
  Forall (fun x => x <> 0) t -> (length t < fuel)%nat ->
  Z.of_nat (length pre + length t) < len ->
  skip_entry fuel (pre ++ t ++ 0 :: rest) len (Z.of_nat (length pre)) =
    Ok (Z.of_nat (length pre + length t)).
Proof.
  induction t as [|x t IH]; intros [|fuel] pre rest len Hnz Hfuel Hlen; simpl in *; try lia.
  - rewrite lookup_prefix, bind_of_Ok by done. simpl. by rewrite Nat.add_0_r.
  - apply Forall_cons in Hnz as [Hx Hnz]. rewrite lookup_prefix, bind_of_Ok by done.
    replace (x =? 0) with false by lia. replace (_ <? len) with true by lia. simpl.
    specialize (IH fuel (pre ++ [x]) rest len Hnz). rewrite <- app_assoc, length_app in IH.
    simpl in IH. replace (Z.of_nat (length pre) + 1) with (Z.of_nat (length pre + 1)) by lia.
    rewrite IH by lia. f_equal. lia.
Qed.

(** Comparing one stored trace [t1 ++ t2] from the i'th element on: a match, or
    on to the second element of the next trace. *)
Lemma search_trace buf pre t rest len key :
  buf = pre ++ t ++ 0 :: rest -> Forall (fun x => x <> 0) t -> Forall (fun x => x <> 0) key ->
  Z.of_nat (length pre + length t) < len ->
  forall k2 k1 t1 t2 fuel,
  key = k1 ++ k2 -> t = t1 ++ t2 -> length k1 = length t1 -> (length t2 + length k2 < fuel)%nat ->
  if bool_decide (k2 `prefix_of` t2)
  then search_loop fuel buf len key (Z.of_nat (length pre)) (Z.of_nat (length k1)) =
         Ok (Z.of_nat (length pre), Z.of_nat (length key))
  else exists fuel', (fuel <= fuel' + length t2 + 1)%nat /\
    search_loop fuel buf len key (Z.of_nat (length pre)) (Z.of_nat (length k1)) =
    search_loop fuel' buf len key (Z.of_nat (length pre) + Z.of_nat (length t) + 1) 1.
Proof.
  intros -> Hnt Hnk Hlen. induction k2 as [|a k2 IH]; intros k1 t1 t2 [|fuel] Hk Ht Hl Hfuel;
    try (simpl in *; lia).
  { rewrite bool_decide_true by apply prefix_nil. simpl. subst key. rewrite app_nil_r.
    by rewrite Z.ltb_irrefl. }
  assert (Hskip : forall u, t = t1 ++ u -> skip_entry (S (length (pre ++ t ++ 0 :: rest)))
             (pre ++ t ++ 0 :: rest) len (Z.of_nat (length pre) + Z.of_nat (length k1)) =
             Ok (Z.of_nat (length pre) + Z.of_nat (length t))).
  { intros u Hu. pose proof (skip_entry_ok u (S (length (pre ++ t ++ 0 :: rest))) (pre ++ t1) rest len) as Hs.
    rewrite Hu in Hnt. apply Forall_app in Hnt as [_ Hnu]. rewrite Hu in *.
    rewrite !length_app in *. rewrite <- !app_assoc in *. simpl in *.
    replace (Z.of_nat (length pre) + Z.of_nat (length k1)) with (Z.of_nat (length pre + length t1)) by lia.
    rewrite Hs by (done || lia). f_equal. lia. }
  assert (Hbound : (length k1 <= length t)%nat) by (rewrite Ht, length_app; lia).
  assert (Hhead : search_loop (S fuel) (pre ++ t ++ 0 :: rest) len key (Z.of_nat (length pre))
                    (Z.of_nat (length k1)) =
    (x ← arr_get (pre ++ t ++ 0 :: rest) (Z.of_nat (length pre) + Z.of_nat (length k1));
     if a =? x then search_loop fuel (pre ++ t ++ 0 :: rest) len key (Z.of_nat (length pre))
                      (Z.of_nat (length k1) + 1)
     else search_loop fuel (pre ++ t ++ 0 :: rest) len key
            (Z.of_nat (length pre) + Z.of_nat (length t) + 1) 1)).
  { cbn [search_loop]. subst key. rewrite (length_app k1). simpl (length (a :: k2)).
    rewrite (proj2 (Z.ltb_lt _ (Z.of_nat (length k1 + _)))), (proj2 (Z.ltb_lt _ len)) by lia. simpl andb.
    rewrite lookup_prefix, bind_of_Ok by done. destruct (arr_get _ _); try done. rewrite !bind_of_Ok.
    destruct (a =? _); [done|]. by rewrite (Hskip t2), bind_of_Ok. }
  rewrite Hhead. clear Hhead. subst t. destruct t2 as [|b t2].
  - rewrite bool_decide_false by (intros Hp; by apply prefix_nil_inv in Hp).
    rewrite app_nil_r in *. rewrite (app_assoc pre), lookup_prefix by (rewrite length_app; lia).
    rewrite bind_of_Ok. assert (a <> 0) as Ha.
    { subst key. apply Forall_app in Hnk as [_ Hnk]. by apply Forall_inv in Hnk. }
    replace (a =? 0) with false by lia. exists fuel. split; [simpl; lia|]. by rewrite <- app_assoc.
  - assert (Hg : arr_get (pre ++ (t1 ++ b :: t2) ++ 0 :: rest)
                   (Z.of_nat (length pre) + Z.of_nat (length k1)) = Ok b).
    { rewrite <- (app_assoc t1), (app_assoc pre t1). apply lookup_prefix. rewrite length_app. lia. }
    rewrite Hg, bind_of_Ok. destruct (a =? b) eqn:Hab; bools.
    + subst b. specialize (IH (k1 ++ [a]) (t1 ++ [a]) t2 fuel). rewrite <- !app_assoc, !length_app in IH.
      simpl in IH. specialize (IH Hk eq_refl). simpl in Hfuel.
      replace (Z.of_nat (length k1) + 1) with (Z.of_nat (length k1 + 1)) by lia.
      rewrite (bool_decide_ext (a :: k2 `prefix_of` a :: t2) (k2 `prefix_of` t2))
        by (split; [apply prefix_cons_inv_2|apply prefix_cons]).
      rewrite <- (app_assoc t1) in *. simpl app in *.
      case_bool_decide; [apply IH; lia|]. destruct IH as (fuel' & Hf & ->); [lia..|].
      exists fuel'. split; [simpl; lia|]. by rewrite length_app.
    + rewrite bool_decide_false by (intros Hp; apply prefix_cons_inv_1 in Hp; done).
      exists fuel. split; [simpl; lia|done].
Qed.

(** The search over the traces after the first one. *)
Lemma search_later key len rest ts : forall pre fuel,
  (2 <= length key)%nat -> Forall (fun x => x <> 0) key -> Forall trace_ok ts ->
  len = Z.of_nat (length pre + length (flat_traces ts)) ->
  (length (flat_traces ts) + length key < fuel)%nat ->
  exists r, search_loop fuel (pre ++ flat_traces ts ++ rest) len key (Z.of_nat (length pre)) 1 = Ok r /\
    (if r.2 =? Z.of_nat (length key) then Some r.1 else None) =
    find_entry false key (Z.of_nat (length pre)) ts.
Proof.
  induction ts as [|t ts IH]; intros pre fuel Hk Hnk Hts Hlen Hfuel.
  - destruct fuel as [|fuel]; [lia|]. simpl. rewrite (proj2 (Z.ltb_ge _ len)) by (simpl in Hlen; lia).
    rewrite andb_false_r. eexists. split; [reflexivity|]. cbn [fst snd].
    by rewrite (proj2 (Z.eqb_neq 1 _)) by lia.
  - apply Forall_cons in Hts as [[Hne Hnt] Hts]. rewrite flat_traces_cons, length_app in *.
    simpl length in *. destruct key as [|k key]; [simpl in Hk; lia|]. destruct t as [|b t]; [done|].
    pose proof (search_trace (pre ++ ((b :: t) ++ 0 :: flat_traces ts) ++ rest) pre (b :: t)
      (flat_traces ts ++ rest) len (k :: key)) as Hst.
    rewrite <- (app_assoc (b :: t)) in *. specialize (Hst eq_refl Hnt Hnk). simpl app in *.
    specialize (Hst ltac:(simpl in *; lia) key [k] [b] t fuel eq_refl eq_refl eq_refl).
    simpl length in *. specialize (Hst ltac:(lia)). cbn [find_entry tail].
    case_bool_decide.
    + change 1 with (Z.of_nat 1). rewrite Hst. eexists. split; [reflexivity|]. cbn [fst snd].
      by rewrite Z.eqb_refl.
    + destruct Hst as (fuel' & Hf & Hst). change 1 with (Z.of_nat 1) at 1. rewrite Hst.
      destruct (IH (pre ++ b :: t ++ [0]) fuel') as (r & Hr & Hfind); try done.
      * rewrite length_app. simpl. rewrite length_app. simpl. lia.
      * simpl. lia.
      * exists r. rewrite <- app_assoc, length_app in Hr. simpl in Hr.
        rewrite length_app, <- app_assoc in Hr. simpl in Hr. split.
        -- rewrite <- Hr. f_equal. lia.
        -- rewrite Hfind, length_app. simpl. rewrite length_app. f_equal. simpl. lia.
Qed.

(** The whole search for a key of at least two elements. *)
Lemma search_entry_spec key ts rest :
  (2 <= length key)%nat -> Forall (fun x => x <> 0) key -> Forall trace_ok ts ->
  search_entry (flat_traces ts ++ rest) (Z.of_nat (length (flat_traces ts))) key =
    Ok (find_entry true key 0 ts).
Proof.
  intros Hk Hnk Hts. unfold search_entry. set (fuel := S _).
  assert (Hfuel : fuel = S (length (flat_traces ts) + length key)) by (unfold fuel; lia).
  clearbody fuel. destruct ts as [|t ts].
  { subst fuel. simpl. replace (_ <? 0) with false by lia. rewrite andb_false_r, bind_of_Ok. cbn [fst snd].
    by rewrite (proj2 (Z.eqb_neq 0 _)) by lia. }
  apply Forall_cons in Hts as [[Hne Hnt] Hts]. rewrite flat_traces_cons, length_app in *.
  simpl length in *.
  pose proof (search_trace ((t ++ 0 :: flat_traces ts) ++ rest) [] t (flat_traces ts ++ rest)
    (Z.of_nat (length t + S (length (flat_traces ts)))) key) as Hst.
  rewrite <- app_assoc in *. specialize (Hst eq_refl Hnt Hnk ltac:(simpl; lia) key [] [] t fuel
    eq_refl eq_refl eq_refl ltac:(lia)).
  simpl length in Hst. change (Z.of_nat 0) with 0 in Hst. cbn [find_entry]. case_bool_decide.
  - rewrite Hst, bind_of_Ok. cbn [fst snd]. by rewrite Z.eqb_refl.
  - destruct Hst as (fuel' & Hf & ->).
    destruct (search_later key (Z.of_nat (length t + S (length (flat_traces ts)))) rest ts (t ++ [0]) fuel')
      as (r & Hr & Hfind); try done.
    + rewrite length_app. simpl. lia.
    + lia.
    + rewrite <- app_assoc in Hr. simpl app in *.
      replace (0 + Z.of_nat (length t) + 1) with (Z.of_nat (length (t ++ [0]))) by (rewrite length_app; simpl; lia).
      by rewrite Hr, bind_of_Ok, Hfind.
Qed.

(** ** When the search is exact

    The call paths of a program: rooted traces of at least two nonzero frames in
    which the calling frames determine the function called. *)
Record call_paths (root : Z) (T : list Z -> Prop) : Prop := {
  cp_rooted : forall t, T t -> rooted root t;
  cp_length : forall t, T t -> (2 <= length t)%nat;
  cp_nonzero : forall t, T t -> Forall (fun x => x <> 0) t;
  cp_callee : forall t u, T t -> T u -> tail t = tail u -> t = u
}.

Lemma find_entry_Some first key ts : forall pos p, find_entry first key pos ts = Some p ->
  exists ts1 t ts2, ts = ts1 ++ t :: ts2 /\ p = pos + Z.of_nat (length (flat_traces ts1)) /\
    tail key `prefix_of` tail t.
Proof.
  revert first. induction ts as [|t ts IH]; intros first pos p Hf; [done|]. cbn [find_entry] in Hf.
  destruct (if first then _ else _) eqn:Hc.
  - simplify_eq. exists [], t, ts. split_and!; [done|simpl; lia|].
    destruct first; apply bool_decide_eq_true in Hc; [|done].
    destruct Hc as [k ->]. destruct key; [apply prefix_nil|]. by exists k.
  - destruct (IH _ _ _ Hf) as (ts1 & t' & ts2 & -> & -> & Hp).
    exists (t :: ts1), t', ts2. split_and!; [done| |done].
    rewrite flat_traces_cons, length_app. simpl. lia.
Qed.

Section exact.
Context {P : Type} (root : Z) (T : list Z -> Prop) (paths : call_paths root T).
Context (SB EB : Z) (small : 0 < SB <= 2 ^ 16).

Lemma call_path_ok t : T t -> trace_ok t.
Proof.
  intros Ht. split; [|by apply (cp_nonzero _ _ paths)].
  pose proof (cp_length _ _ paths t Ht). by destruct t; simpl in *; [lia|].
Qed.

(** On call paths the search finds the position of the key and nothing else. *)
Lemma find_entry_exact key ts p :
  T key -> Forall T ts -> find_entry true key 0 ts = Some p ->
  exists ts1 ts2, ts = ts1 ++ key :: ts2 /\ p = Z.of_nat (length (flat_traces ts1)).
Proof.
  intros Hk Hts Hf. destruct (find_entry_Some _ _ _ _ _ Hf) as (ts1 & t & ts2 & -> & -> & Hp).
  apply Forall_app in Hts as [_ Hts]. apply Forall_inv in Hts as Ht.
  exists ts1, ts2. split; [|lia]. do 2 f_equal. symmetry. apply (cp_callee _ _ paths); [done..|].
  pose proof (cp_rooted _ _ paths _ Hk) as Hrk. pose proof (cp_rooted _ _ paths _ Ht) as Hrt.
  pose proof (cp_length _ _ paths _ Hk). pose proof (cp_length _ _ paths _ Ht).
  destruct key as [|k [|k' key]], t as [|x [|x' t]]; simpl in *; try lia.
  apply (rooted_prefix root); naive_solver.
Qed.

(** The buffer holds the traced events [recs], in order. *)
Record traces (b : trace_buffer P) (recs : list (P * list Z)) (ts : list (list Z)) : Prop := {
  tr_st_size : Z.of_nat (length (tb_stacktraces b)) = SB;
  tr_ev_size : Z.of_nat (length (tb_events b)) = EB;
  tr_st : exists rest, tb_stacktraces b = flat_traces ts ++ rest;
  tr_st_len : tb_stacktraces_len b = Z.of_nat (length (flat_traces ts)) /\ tb_stacktraces_len b < SB;
  tr_paths : Forall T ts;
  tr_ev_len : tb_events_len b = Z.of_nat (length recs) /\ tb_events_len b <= EB;
  tr_recs : Forall2 (fun e r => te_data e = r.1 /\ exists ts1 ts2, ts = ts1 ++ r.2 :: ts2 /\
      te_stacktrace e = Z.of_nat (length (flat_traces ts1)))
    (take (length recs) (tb_events b)) recs;
  tr_addr : Forall (Forall (fun pc => tb_addr_begin b <= pc <= tb_addr_end b)) ts
}.

Definition traces_inv b recs : Prop := exists ts, traces b recs ts.

Lemma traces_reset dflt : 0 <= EB -> traces_inv (reset_traces SB EB dflt) [].
Proof.
  intros HEB. exists []. constructor; simpl; rewrite ?length_replicate; try done; try lia; eauto.
Qed.

Lemma take_nonzero_app t rest :
  Forall (fun x => x <> 0) t -> take_nonzero (t ++ 0 :: rest) = t.
Proof.
  induction 1 as [|x t Hx _ IH]; simpl; [done|]. replace (x =? 0) with false by lia. by rewrite IH.
Qed.

(** A reader of the blob recovers exactly the traced events. *)
Lemma traces_decode b recs :
  traces_inv b recs ->
  decode_events (take (Z.to_nat (tb_stacktraces_len b)) (tb_stacktraces b))
    (take (Z.to_nat (tb_events_len b)) (tb_events b)) = recs.
Proof.
  intros [ts [_ _ [rest ->] [-> _] Hts [-> _] Hrecs _]]. rewrite !Nat2Z.id, take_app_length.
  unfold decode_events. induction Hrecs as [|e r es rs [Hd (ts1 & ts2 & Hsplit & Hp)] _ IH]; [done|].
  rewrite fmap_cons, IH. f_equal. destruct r as [p s]. simpl in *. subst p. f_equal.
  unfold trace_at. rewrite Hp, Nat2Z.id, Hsplit, flat_traces_app, drop_app_length.
  rewrite flat_traces_cons. apply take_nonzero_app, (cp_nonzero _ _ paths).
  rewrite Hsplit in Hts. apply Forall_app in Hts as [_ Hts]. by apply Forall_inv in Hts.
Qed.

Lemma store_frames_app skip_zero frames : forall entry i pre mid rest ab ae,
  Forall (fun x => x <> 0) frames -> entry + i = Z.of_nat (length pre) -> length mid = length frames ->
  store_frames skip_zero entry i frames (pre ++ mid ++ rest) ab ae =
    Ok (pre ++ frames ++ rest, widen_begin ab frames, widen_end ae frames).
Proof.
  induction frames as [|f fs IH]; intros entry i pre [|m mid] rest ab ae Hnz Hpos Hlen;
    simpl in *; try done. apply Forall_cons in Hnz as [Hf Hnz]. replace (f =? 0) with false by lia.
  rewrite andb_false_r, insert_after, bind_of_Ok by done.
  specialize (IH entry (i + 1) (pre ++ [f]) mid rest). rewrite <- !app_assoc in IH. simpl in IH.
  apply IH; [done| |lia]. rewrite length_app. simpl. lia.
Qed.

(** Adding a call path that fits. *)
Lemma traces_add skip_zero b recs ts frames :
  traces b recs ts -> T frames ->
  tb_stacktraces_len b + Z.of_nat (length frames) + 1 < SB ->
  exists b', add_trace skip_zero frames b = Ok b' /\ traces b' recs (ts ++ [frames]) /\
    tb_events_len b' = tb_events_len b.
Proof.
  intros [Hs He [rest Hst] [Hl1 Hl2] Hts Hev Hrecs Had] HT Hfit. unfold add_trace.
  assert (Hrest : (length frames + 1 <= length rest)%nat) by (rewrite Hst, length_app in Hs; lia).
  assert (exists mid z rest', rest = mid ++ z :: rest' /\ length mid = length frames)
    as (mid & z & rest' & -> & Hmid).
  { exists (take (length frames) rest). destruct (drop (length frames) rest) as [|z r] eqn:Hd.
    - apply (f_equal length) in Hd. rewrite length_drop in Hd. simpl in Hd. lia.
    - exists z, r. rewrite <- Hd, take_drop, length_take. split; [done|lia]. }
  pose proof (cp_nonzero _ _ paths _ HT) as Hnz.
  rewrite Hst, (store_frames_app skip_zero frames _ 0 (flat_traces ts) mid) by (done || lia).
  rewrite bind_of_Ok. cbn [fst snd]. rewrite app_assoc, insert_after by (rewrite length_app; lia).
  rewrite bind_of_Ok. eexists. split_and!; [reflexivity| |done].
  destruct (widen_covers frames (tb_addr_begin b) (tb_addr_end b)) as (Hb & Hae & Hall).
  assert (Hff : flat_traces (ts ++ [frames]) = flat_traces ts ++ frames ++ [0]).
  { rewrite flat_traces_app, flat_traces_cons. done. }
  constructor; cbn [tb_stacktraces tb_stacktraces_len tb_events tb_events_len tb_addr_begin tb_addr_end];
    rewrite ?Hff; try done.
  - rewrite Hst, !length_app in Hs. simpl in Hs. rewrite !length_app. simpl. lia.
  - exists rest'. by rewrite <- !app_assoc.
  - rewrite !length_app. simpl. lia.
  - apply Forall_app_2; [done|by apply Forall_singleton].
  - eapply Forall2_impl; [exact Hrecs|]. intros e r [Hd (ts1 & ts2 & -> & Hp)].
    split; [done|]. exists ts1, (ts2 ++ [frames]). split; [by rewrite <- app_assoc|done].
  - apply Forall_app_2; [|by apply Forall_singleton]. eapply Forall_impl; [exact Had|].
    intros t Ht. eapply Forall_impl; [exact Ht|]. cbv beta. lia.
Qed.

(** Adding an event that refers to a stored call path. *)
Lemma traces_event b recs ts p frames ts1 ts2 :
  traces b recs ts -> ts = ts1 ++ frames :: ts2 -> tb_events_len b < EB ->
  exists b', add_event p (Z.of_nat (length (flat_traces ts1))) b = Ok b' /\
    traces b' (recs ++ [(p, frames)]) ts.
Proof.
  intros [Hs He Hst [Hl1 Hl2] Hts [Hev Hle] Hrecs Had] Hsplit Hroom. unfold add_event.
  rewrite arr_set_in, bind_of_Ok by lia. eexists. split; [reflexivity|].
  assert (Hpos : 0 <= Z.of_nat (length (flat_traces ts1)) < 2 ^ 16).
  { rewrite Hsplit, flat_traces_app, length_app in Hl1. lia. }
  constructor; cbn [tb_stacktraces tb_stacktraces_len tb_events tb_events_len tb_addr_begin tb_addr_end];
    try done.
  - by rewrite length_insert.
  - rewrite length_app. simpl. lia.
  - rewrite length_app. simpl. rewrite Nat.add_1_r, (take_S_r _ _ (mkEvent p (u16 (Z.of_nat (length (flat_traces ts1)))))).
    + rewrite take_insert_ge by lia. apply Forall2_app; [done|]. constructor; [|constructor].
      simpl. split; [done|]. exists ts1, ts2. split; [done|]. by apply u16_small.
    + rewrite Hev, Nat2Z.id. apply list_lookup_insert_eq. lia.
Qed.
End exact.

(** ** Recording an event

    [I s done cur]: the state [s] has sent the traced events [done] and holds
    [cur] in its buffer. *)
Section record_correct.
Context {P St : Type} (root : Z) (T : list Z -> Prop) (paths : call_paths root T).
Context (skip_zero : bool) (SB EB : Z) (small : 0 < SB <= 2 ^ 16) (EBpos : 0 < EB).
Context (buf : St -> trace_buffer P) (set_buf : trace_buffer P -> St -> St).
Context (send_samples : St -> outcome St).
Context (I : St -> list (P * list Z) -> list (P * list Z) -> Prop).
Context (buf_set : forall b s, buf (set_buf b s) = b).
Context (I_inv : forall s dn cur, I s dn cur -> traces_inv T SB EB (buf s) cur).
Context (I_set : forall s dn cur cur' b, I s dn cur -> traces_inv T SB EB b cur' -> I (set_buf b s) dn cur').
Context (I_send : forall s dn cur, I s dn cur ->
  exists s', send_samples s = Ok s' /\ I s' (dn ++ cur) [] /\ tb_stacktraces_len (buf s') = 0).

(** Looking a call path up leaves it at the position returned. *)
Lemma trace_position_ok s dn cur frames :
  I s dn cur -> T frames -> Z.of_nat (length frames) + 1 < SB ->
  exists s' dn' cur' ts ts1 ts2,
    trace_position skip_zero SB buf set_buf send_samples frames s =
      Ok (Z.of_nat (length (flat_traces ts1)), s') /\
    I s' dn' cur' /\ dn' ++ cur' = dn ++ cur /\ (length cur' <= length cur)%nat /\
    traces T SB EB (buf s') cur' ts /\ ts = ts1 ++ frames :: ts2.
Proof.
  intros HI HT Hfit. destruct (I_inv _ _ _ HI) as [ts Hts]. unfold trace_position.
  destruct (tr_st _ _ _ _ _ _ Hts) as [rest Hst]. destruct (tr_st_len _ _ _ _ _ _ Hts) as [Hl Hlt].
  rewrite Hst, Hl, search_entry_spec, bind_of_Ok; [|by apply (cp_length _ _ paths)|
    by apply (cp_nonzero _ _ paths)|].
  2:{ eapply Forall_impl; [exact (tr_paths _ _ _ _ _ _ Hts)|].
      intros t Ht. by apply (call_path_ok root T paths). }
  destruct (find_entry true frames 0 ts) as [p|] eqn:Hf.
  { destruct (find_entry_exact root T paths _ _ _ HT (tr_paths _ _ _ _ _ _ Hts) Hf)
      as (ts1 & ts2 & Hsplit & ->). exists s, dn, cur, ts, ts1, ts2. done. }
  assert (Hadd : forall s1 dn1 cur1 ts1, I s1 dn1 cur1 -> traces T SB EB (buf s1) cur1 ts1 ->
    tb_stacktraces_len (buf s1) + Z.of_nat (length frames) + 1 < SB ->
    dn1 ++ cur1 = dn ++ cur -> (length cur1 <= length cur)%nat ->
    exists b, add_trace skip_zero frames (buf s1) = Ok b /\ exists s' dn' cur' ts ts1 ts2,
      (tb_stacktraces_len (buf s1), set_buf b s1) = (Z.of_nat (length (flat_traces ts1)), s') /\
      I s' dn' cur' /\ dn' ++ cur' = dn ++ cur /\ (length cur' <= length cur)%nat /\
      traces T SB EB (buf s') cur' ts /\ ts = ts1 ++ frames :: ts2).
  { intros s1 dn1 cur1 ts1 HI1 Ht1 Hfit1 Happ Hlen.
    destruct (traces_add root T paths SB EB skip_zero _ _ _ _ Ht1 HT Hfit1) as (b & Hb & Hbt & _).
    exists b. split; [done|]. exists (set_buf b s1), dn1, cur1, (ts1 ++ [frames]), ts1, [].
    split_and!; try done.
    - f_equal. apply (tr_st_len _ _ _ _ _ _ Ht1).
    - eapply I_set; [exact HI1|]. by eexists.
    - by rewrite buf_set. }
  destruct (_ >=? SB) eqn:Hge.
  - destruct (I_send _ _ _ HI) as (s1 & -> & HI1 & Hz). rewrite bind_of_Ok.
    destruct (I_inv _ _ _ HI1) as [ts1 Hts1].
    destruct (Hadd s1 (dn ++ cur) [] ts1 HI1 Hts1) as (b & -> & Hres).
    + rewrite Hz. lia.
    + by rewrite app_nil_r.
    + simpl. lia.
    + rewrite bind_of_Ok. destruct Hres as (s' & dn' & cur' & ts' & u & v & [= -> ->] & Hrest).
      by exists s', dn', cur', ts', u, v.
  - rewrite bind_of_Ok, <- Hl in *. destruct (Hadd s dn cur ts HI Hts) as (b & -> & Hres); [lia|done..|].
    rewrite bind_of_Ok. destruct Hres as (s' & dn' & cur' & ts' & u & v & [= -> ->] & Hrest).
    by exists s', dn', cur', ts', u, v.
Qed.

(** An event on a call path is recorded after all earlier ones. *)
Lemma record_traced_ok s dn cur p frames :
  I s dn cur -> (Z.of_nat (length cur) < EB) -> T frames -> Z.of_nat (length frames) + 1 < SB ->
  exists s' dn' cur', record_traced skip_zero SB EB buf set_buf send_samples p frames s = Ok s' /\
    I s' dn' cur' /\ dn' ++ cur' = dn ++ cur ++ [(p, frames)] /\ Z.of_nat (length cur') < EB.
Proof.
  intros HI Hroom HT Hfit. unfold record_traced.
  destruct (trace_position_ok s dn cur frames HI HT Hfit)
    as (s1 & dn1 & cur1 & ts & ts1 & ts2 & -> & HI1 & Happ & Hlen & Htr & Hsplit).
  rewrite bind_of_Ok. cbn [fst snd]. destruct (tr_ev_len _ _ _ _ _ _ Htr) as [Hel _].
  destruct (traces_event T SB EB small _ _ _ p frames ts1 ts2 Htr Hsplit) as (b & -> & Hb); [lia|].
  rewrite bind_of_Ok. destruct (tr_ev_len _ _ _ _ _ _ Hb) as [Hbl Hble]. rewrite length_app in Hbl.
  assert (HI2 : I (set_buf b s1) dn1 (cur1 ++ [(p, frames)])) by (eapply I_set; [done|by eexists]).
  assert (Hout : dn1 ++ cur1 ++ [(p, frames)] = dn ++ cur ++ [(p, frames)]) by (by rewrite !app_assoc, Happ).
  destruct (_ =? EB) eqn:Hfull; bools.
  - destruct (I_send _ _ _ HI2) as (s' & -> & HI' & _). exists s', (dn1 ++ cur1 ++ [(p, frames)]), [].
    split_and!; [done..|by rewrite app_nil_r|simpl; lia].
  - exists (set_buf b s1), dn1, (cur1 ++ [(p, frames)]). split_and!; [done..|].
    rewrite length_app. simpl in *. lia.
Qed.
End record_correct.

(** A one-element key that differs from the first trace is reported at the
    position after it, whatever is there: also at the end of the buffer. *)
Lemma search_single_key k t ts rest :
  k <> 0 -> trace_ok t -> k <> hd 0 t ->
  search_entry (flat_traces (t :: ts) ++ rest) (Z.of_nat (length (flat_traces (t :: ts)))) [k] =
    Ok (Some (Z.of_nat (length t) + 1)).
Proof.
  intros Hk [Hne Hnt] Hhd. unfold search_entry. set (fuel := S _).
  assert (Hfuel : (length t + 2 < fuel)%nat).
  { unfold fuel. rewrite flat_traces_cons, length_app. simpl. lia. }
  clearbody fuel. rewrite flat_traces_cons, length_app in *. simpl length in *.
  pose proof (search_trace ((t ++ 0 :: flat_traces ts) ++ rest) [] t (flat_traces ts ++ rest)
    (Z.of_nat (length t + S (length (flat_traces ts)))) [k]) as Hst.
  rewrite <- app_assoc in *.
  specialize (Hst eq_refl Hnt ltac:(by constructor) ltac:(simpl; lia) [k] [] [] t fuel
    eq_refl eq_refl eq_refl ltac:(simpl; lia)).
  rewrite bool_decide_false in Hst.
  2:{ intros Hp. destruct t; [done|]. by apply prefix_cons_inv_1 in Hp. }
  simpl length in Hst. change (Z.of_nat 0) with 0 in Hst. destruct Hst as (fuel' & Hf & ->).
  destruct fuel' as [|fuel']; [lia|]. reflexivity.
Qed.

(** For every trace after the first one in the buffer the search compares
    from the second frame on, so a stack trace is taken for another that differs
    from it in the function called; a trace of one frame is even given the
    position after the first stored trace whatever is there. *)
Theorem trace_search_ignores_callee (t rest : list Z) (f g : Z) (tail_ : list Z) :
  trace_ok t -> trace_ok (f :: rest) -> g <> 0 -> rest <> [] -> g <> hd 0 t ->
  search_entry (flat_traces [t; f :: rest] ++ tail_)
    (Z.of_nat (length (flat_traces [t; f :: rest]))) (g :: rest) = Ok (Some (Z.of_nat (length t) + 1)) /\
  search_entry (flat_traces [t] ++ tail_) (Z.of_nat (length (flat_traces [t]))) [g] =
    Ok (Some (Z.of_nat (length t) + 1)).
Proof.
  intros Ht Hf Hg Hr Hhd. split; [|by apply search_single_key].
  destruct Hf as [_ Hnz]. apply Forall_cons in Hnz as [Hfz Hnz].
  rewrite search_entry_spec.
  - cbn [find_entry]. rewrite bool_decide_false.
    2:{ intros Hp. destruct t as [|x t]; [by apply prefix_nil_inv in Hp|].
        by apply prefix_cons_inv_1 in Hp. }
    simpl tail. rewrite bool_decide_true by done. done.
  - destruct rest; [done|]. simpl. lia.
  - by constructor.
  - constructor; [done|]. constructor; [|done]. split; [done|]. by constructor.
Qed.

(** The path [7; 20; 10] is taken for the stored [100; 20; 10]. *)
Lemma trace_search_witness :
  search_entry (flat_traces [[200; 30; 10]; [100; 20; 10]])
    (Z.of_nat (length (flat_traces [[200; 30; 10]; [100; 20; 10]]))) [7; 20; 10] = Ok (Some 4).
Proof.
  destruct (trace_search_ignores_callee [200; 30; 10] [20; 10] 100 7 []) as [H _];
    [by split; repeat constructor|by split; repeat constructor|done..|].
  exact H.
Defined.

(** A program with two call paths. *)
Definition two_paths (t : list Z) : Prop := t = [100; 20; 10] \/ t = [200; 30; 10].

Lemma two_paths_ok : call_paths 10 two_paths.
Proof.
  split; [intros t [-> | ->]; by vm_compute|intros t [-> | ->]; simpl; lia|
    intros t [-> | ->]; by repeat constructor|].
  intros t u [-> | ->] [-> | ->] H; by simpl in H.
Qed.
