(* ===== verification/Tracer.v ===== *)
(** The event tracing collectors io, mpi and pthreads: what their collector.c files
    share. The three files are copies of one another that differ in constants,
    in the treatment of do_trace and in the start; [tracer] lists the differences,
    and the operations below are those of all three. What the builds of a file
    differ in is where the records go, a trace or a profile: [store] is the
    interface the operations use and [StoreLaws] what it promises. Wrapped
    functions may call wrapped functions, so a program's calls form trees. *)
From S2P Require Import Prelude Probe PCIndex Headers Services Unwind StackBuffer TraceBuffer.

Record tracer := mkTracer {
  tr_id : string;             (* cbtf_collector_unique_id *)
  tr_overhead : Z;            (* OverheadFrameCount *)
  tr_frames : Z;              (* MaxFramesPerStackTrace *)
  tr_stack_size : Z;          (* StackTraceBufferSize *)
  tr_event_size : Z;          (* EventBufferSize *)
  tr_restores : bool;         (* record_event puts do_trace back (pthreads); io and mpi set it *)
  tr_env : string;            (* environment variable with the list of functions *)
  tr_traceable : string;      (* the list used by default *)
  tr_sets_tid : bool          (* start fills in header.omp_tid (mpi) *)
}.

(** A buffer [B] of records [P] with their stack traces that is sent as blobs [D]:
    the empty one, the blob, the address range of the header, whether there is
    anything to send, and what record_event() does with a record, for a collector
    state that holds a buffer. *)
Record store (P B D : Type) := mkStore {
  st_empty : B;
  st_blob : B -> D;
  st_addrs : B -> Z * Z;
  st_unsent : B -> bool;
  st_record : forall St, (St -> B) -> (B -> St -> St) -> (St -> outcome St) -> P -> list Z -> St -> outcome St
}.
Arguments mkStore {P B D}. Arguments st_empty {P B D}. Arguments st_blob {P B D}.
Arguments st_addrs {P B D}. Arguments st_unsent {P B D}. Arguments st_record {P B D} _ {St}.

(** Thread-local storage; the address range of the header is kept in the buffer. *)
Record TLS (B : Type) := mkTLS {
  t_header : CBTF_DataHeader;
  t_buffer : B;
  t_traced : string;
  t_nesting_depth : Z;
  t_do_trace : bool;
  t_defer : bool
}.
Arguments mkTLS {B}. Arguments t_header {B}. Arguments t_buffer {B}. Arguments t_traced {B}.
Arguments t_nesting_depth {B}. Arguments t_do_trace {B}. Arguments t_defer {B}.

Section setters.
Context {B : Type}.
Definition set_header (h : CBTF_DataHeader) (t : TLS B) : TLS B :=
  mkTLS h (t_buffer t) (t_traced t) (t_nesting_depth t) (t_do_trace t) (t_defer t).
Definition set_buffer (b : B) (t : TLS B) : TLS B :=
  mkTLS (t_header t) b (t_traced t) (t_nesting_depth t) (t_do_trace t) (t_defer t).
Definition set_traced (s : string) (t : TLS B) : TLS B :=
  mkTLS (t_header t) (t_buffer t) s (t_nesting_depth t) (t_do_trace t) (t_defer t).
Definition set_nesting (n : Z) (t : TLS B) : TLS B :=
  mkTLS (t_header t) (t_buffer t) (t_traced t) n (t_do_trace t) (t_defer t).
Definition set_do_trace (d : bool) (t : TLS B) : TLS B :=
  mkTLS (t_header t) (t_buffer t) (t_traced t) (t_nesting_depth t) d (t_defer t).
Definition set_defer (d : bool) (t : TLS B) : TLS B :=
  mkTLS (t_header t) (t_buffer t) (t_traced t) (t_nesting_depth t) (t_do_trace t) d.
End setters.

(** A few mpi wrappers read the clock once more before a record. *)
Inductive stamp := NoStamp | Restamp (* new stop time *) | Unused (* for a record already made *).

(** A call of a wrapper: the name it passes to do_trace, the real function it
    calls with its arguments, the function whose address is recorded, and for each
    of its event records (one, but for a few mpi wrappers) the record in terms of
    start time, stop time and return value. *)
Record wrapped (P : Type) := mkWrapped {
  wr_guard : string;
  wr_real : string;
  wr_args : list Z;
  wr_function : string;
  wr_events : list (stamp * (Z -> Z -> Z -> P))
}.
Arguments mkWrapped {P}. Arguments wr_guard {P}. Arguments wr_real {P}. Arguments wr_args {P}.
Arguments wr_function {P}. Arguments wr_events {P}.

(** A call at run time: what the real function returns, the stack the unwinder
    finds, and the calls of wrapped functions the real function makes in turn. *)
Inductive call (P : Type) :=
| Call (wr : wrapped P) (retval : Z) (cursor : list frame) (inner : list (call P)).
Arguments Call {P}.

Inductive event (P : Type) :=
| Do (c : call P)
| Pause
| Resume.
Arguments Do {P}. Arguments Pause {P}. Arguments Resume {P}.

Section tracing.
Context {P B D W : Type} {SV : Services W D}.
Context (tr : tracer) (ST : store P B D) (addr_of : string -> Z) (keep : Z -> bool).
Notation state := (TLS B * W)%type.

Definition defer_trace (d : bool) (tls : TLS B) : TLS B := set_do_trace d tls.

Definition initialize_data (s : state) : outcome state :=
  r ← CBTF_GetTime s.2;
  let header := with_addrs (with_times (t_header s.1) r.1 0) UINT64_MAX 0 in
  Ok (set_header header (set_buffer (st_empty ST) (set_nesting 0 s.1)), r.2).

(** pthreads clears do_trace here and leaves it cleared. *)
Definition send_samples (s : state) : outcome state :=
  let tls := if tr_restores tr then set_do_trace false s.1 else s.1 in
  r ← CBTF_GetTime s.2;
  let h := with_id (t_header tls) (tr_id tr) in
  let header := with_rank (with_addrs (with_times h (dh_time_begin h) r.1)
                  (st_addrs ST (t_buffer tls)).1 (st_addrs ST (t_buffer tls)).2)
                  (monitor_mpi_comm_rank r.2) in
  let tls1 := set_header header tls in
  w2 ← cbtf_collector_send header (st_blob ST (t_buffer tls1)) r.2;
  initialize_data (tls1, w2).

Definition start_event (tls : TLS B) : TLS B := set_nesting (u32 (t_nesting_depth tls + 1)) tls.

Definition record_event (ev : P) (function : Z) (cursor : list frame) (s : state) : outcome state :=
  let saved_do_trace := t_do_trace s.1 in
  let tls1 := set_do_trace false s.1 in
  let tls2 := set_nesting (u32 (t_nesting_depth tls1 - 1)) tls1 in
  if t_nesting_depth tls2 >? 0 then Ok (tls2, s.2) else
    fs ← CBTF_GetStackTraceFromContext keep false cursor false (tr_overhead tr) (tr_frames tr);
    r ← st_record ST (fun s => t_buffer s.1) (fun b s => (set_buffer b s.1, s.2)) send_samples
          ev (replace_top function fs) (tls2, s.2);
    Ok (set_do_trace (if tr_restores tr then saved_do_trace else true) r.1, r.2).

(** The list of functions from the environment, or the default one. *)
Definition traced_list (w : W) : string :=
  match getenv w (tr_env tr) with
  | Some s => if String.eqb s "" then tr_traceable tr else s
  | None => tr_traceable tr
  end.

(** cbtf_collector_start up to the decision whether to trace at once. *)
Definition start_tracer (header : CBTF_DataHeader) (s : state) : outcome state :=
  let traced := traced_list s.2 in
  tls1 ← (if Z.of_nat (String.length traced) <? PATH_MAX then Ok (set_traced traced s.1) else Fault);
  r ← initialize_data (set_header header tls1, s.2);
  let h := if tr_sets_tid tr then with_omp_tid (t_header r.1) (monitor_get_thread_num r.2) else t_header r.1 in
  t ← CBTF_GetTime r.2;
  Ok (set_header (with_times h t.1 (dh_time_end h)) (set_nesting 0 r.1), t.2).

Definition cbtf_collector_pause (tls : TLS B) : TLS B := set_do_trace false (set_defer true tls).
Definition cbtf_collector_resume (tls : TLS B) : TLS B := set_do_trace true (set_defer false tls).

Definition cbtf_collector_stop (s : state) : outcome state :=
  r ← CBTF_GetTime s.2;
  let h := t_header s.1 in
  let tls1 := defer_trace false (set_header (with_times h (dh_time_begin h) r.1) s.1) in
  if st_unsent ST (t_buffer tls1) then send_samples (tls1, r.2) else Ok (tls1, r.2).

(** --nesting_depth where do_trace finds it above 1. *)
Definition unnest (tls : TLS B) : TLS B :=
  if t_nesting_depth tls >? 1 then set_nesting (t_nesting_depth tls - 1) tls else tls.

Definition do_trace (traced_func : string) (tls : TLS B) : bool * TLS B :=
  if negb (t_do_trace tls) then (false, unnest tls)
  else if bool_decide (traced_func ∈ strtok_all (t_traced tls)) then (true, tls)
  else (false, unnest tls).

(** The records of a call, one after the other. *)
Fixpoint record_all (evs : list (stamp * (Z -> Z -> Z -> P))) (t0 t1 retval function : Z) (cursor : list frame)
    (s : state) : outcome state :=
  match evs with
  | [] => Ok s
  | (st, mk) :: evs' =>
      t ← match st with NoStamp => Ok (t1, s.2) | _ => CBTF_GetTime s.2 end;
      let stop := match st with Restamp => t.1 | _ => t1 end in
      s' ← record_event (mk t0 stop retval) function cursor (s.1, t.2);
      record_all evs' t0 t1 retval function cursor s'
  end.

(** What the wrappers share; [real] is the wrapped function. *)
Definition wrapper (wr : wrapped P) (cursor : list frame)
    (real : state -> outcome (Z * state)) (s : state) : outcome (Z * state) :=
  let d := do_trace (wr_guard wr) s.1 in
  if d.1 then
    let tls1 := Nat.iter (length (wr_events wr)) start_event d.2 in
    t0 ← CBTF_GetTime s.2;
    r ← real (tls1, t0.2);
    t1 ← CBTF_GetTime r.2.2;
    s' ← record_all (wr_events wr) t0.1 t1.1 r.1 (addr_of (wr_function wr)) cursor (r.2.1, t1.2);
    Ok (r.1, s')
  else real (d.2, s.2).

Fixpoint do_call (c : call P) (s : state) : outcome (Z * state) :=
  match c with
  | Call wr retval cursor inner =>
      wrapper wr cursor (fun s =>
        s' ← (fix calls (cs : list (call P)) (s : state) : outcome state :=
                match cs with
                | [] => Ok s
                | c' :: cs' => r ← do_call c' s; calls cs' r.2
                end) inner s;
        Ok (retval, s')) s
  end.

Fixpoint do_calls (cs : list (call P)) (s : state) : outcome state :=
  match cs with
  | [] => Ok s
  | c :: cs' => r ← do_call c s; do_calls cs' r.2
  end.

(** A sequence of calls, pauses and resumes; the result is what the calls returned. *)
Fixpoint run (evs : list (event P)) (s : state) : outcome (list Z * state) :=
  match evs with
  | [] => Ok ([], s)
  | Do c :: evs' => r ← do_call c s; r' ← run evs' r.2; Ok (r.1 :: r'.1, r'.2)
  | Pause :: evs' => run evs' (cbtf_collector_pause s.1, s.2)
  | Resume :: evs' => run evs' (cbtf_collector_resume s.1, s.2)
  end.

(** ** The clock around the calls

    Specification: what the clock says right before and right after the real function of each
    outermost call that is recorded. A wrapper that reads the clock again before a
    record gives it that time as its end. *)
Fixpoint last_reading (stamps : list stamp) (t1 stop : Z) (w : W) : outcome Z :=
  match stamps with
  | [] => Ok stop
  | NoStamp :: stamps' => last_reading stamps' t1 t1 w
  | Restamp :: stamps' => t ← CBTF_GetTime w; last_reading stamps' t1 t.1 t.2
  | Unused :: stamps' => t ← CBTF_GetTime w; last_reading stamps' t1 t1 t.2
  end.

Fixpoint call_times (c : call P) (s : state) : outcome (list (Z * Z)) :=
  match c with
  | Call wr retval cursor inner =>
      let d := do_trace (wr_guard wr) s.1 in
      if d.1 then
        t0 ← CBTF_GetTime s.2;
        s' ← do_calls inner (Nat.iter (length (wr_events wr)) start_event d.2, t0.2);
        t1 ← CBTF_GetTime s'.2;
        stop ← last_reading (fst <$> wr_events wr) t1.1 t1.1 t1.2;
        Ok [(t0.1, stop)]
      else
        (fix calls (cs : list (call P)) (s : state) : outcome (list (Z * Z)) :=
           match cs with
           | [] => Ok []
           | c' :: cs' => ts ← call_times c' s; r ← do_call c' s; ts' ← calls cs' r.2; Ok (ts ++ ts')
           end) inner (d.2, s.2)
  end.

Fixpoint calls_times (cs : list (call P)) (s : state) : outcome (list (Z * Z)) :=
  match cs with
  | [] => Ok []
  | c :: cs' => ts ← call_times c s; r ← do_call c s; ts' ← calls_times cs' r.2; Ok (ts ++ ts')
  end.

Fixpoint run_times (evs : list (event P)) (s : state) : outcome (list (Z * Z)) :=
  match evs with
  | [] => Ok []
  | Do c :: evs' => ts ← call_times c s; r ← do_call c s; ts' ← run_times evs' r.2; Ok (ts ++ ts')
  | Pause :: evs' => run_times evs' (cbtf_collector_pause s.1, s.2)
  | Resume :: evs' => run_times evs' (cbtf_collector_resume s.1, s.2)
  end.

(** The call path recorded for a call. *)
Definition call_path (function : Z) (cursor : list frame) : list Z :=
  replace_top function (take (Z.to_nat (tr_frames tr))
    (List.filter keep (fr_pc <$> drop (Z.to_nat (tr_overhead tr)) cursor))).
End tracing.

(** ** What is to be recorded

    A traced function is recorded and hides the calls it makes; the calls of a
    function that is not traced count as the program's own. A function with
    several records is recorded with the last one. *)
Section accepted.
Context {P : Type} (tr : tracer) (addr_of : string -> Z) (keep : Z -> bool) (traced : string).

Definition is_traced (wr : wrapped P) : bool := bool_decide (wr_guard wr ∈ strtok_all traced).

(** The record of a call but for its times, and its call path. *)
Definition record_of (wr : wrapped P) (retval : Z) (cursor : list frame) : list ((Z -> Z -> P) * list Z) :=
  match last (wr_events wr) with
  | Some mk => [(fun t0 t1 => mk.2 t0 t1 retval, call_path tr keep (addr_of (wr_function wr)) cursor)]
  | None => []
  end.

Fixpoint call_records (c : call P) : list ((Z -> Z -> P) * list Z) :=
  match c with
  | Call wr retval cursor inner =>
      if is_traced wr then record_of wr retval cursor
      else (fix calls (cs : list (call P)) :=
              match cs with [] => [] | c' :: cs' => call_records c' ++ calls cs' end) inner
  end.

Fixpoint calls_records (cs : list (call P)) : list ((Z -> Z -> P) * list Z) :=
  match cs with [] => [] | c :: cs' => call_records c ++ calls_records cs' end.

Fixpoint accepted (tracing : bool) (evs : list (event P)) : list ((Z -> Z -> P) * list Z) :=
  match evs with
  | [] => []
  | Do c :: evs' => (if tracing then call_records c else []) ++ accepted tracing evs'
  | Pause :: evs' => accepted false evs'
  | Resume :: evs' => accepted true evs'
  end.

(** How deep calls may be nested: the calls inside a traced call make no wrapped
    calls in turn (pthreads: there are none inside), and there are none inside a
    call with several records. *)
Definition is_leaf (c : call P) : bool :=
  match c with
  | Call (mkWrapped _ _ _ _ ([_] | [_; _])) _ _ [] => true
  | _ => false
  end.

Fixpoint shallow (c : call P) : bool :=
  match c with
  | Call wr _ _ inner =>
      if is_traced wr then
        match wr_events wr, inner with
        | [_], [] => true
        | [_], _ => negb (tr_restores tr) && forallb is_leaf inner
        | [_; _], [] => negb (tr_restores tr)
        | _, _ => false
        end
      else forallb shallow inner
  end.

(** What the program gets back. *)
Definition call_retval (c : call P) : Z := match c with Call _ retval _ _ => retval end.

Fixpoint returned (evs : list (event P)) : list Z :=
  match evs with
  | [] => []
  | Do c :: evs' => call_retval c :: returned evs'
  | _ :: evs' => returned evs'
  end.

Definition shallow_event (ev : event P) : bool := match ev with Do c => shallow c | _ => true end.
End accepted.

(** A record is the expected one at some times. *)
Definition matches {P} (d : P * list Z) (x : (Z -> Z -> P) * list Z) : Prop :=
  exists t0 t1, d = (x.1 t0 t1, x.2).

(** The records are the expected ones, each at its own times. *)
Definition at_times {P} (xs : list ((Z -> Z -> P) * list Z)) (ts : list (Z * Z)) (ds : list (P * list Z)) : Prop :=
  length ts = length xs /\ ds = zip_with (fun x t => (x.1 t.1 t.2, x.2)) xs ts.

Lemma at_times_nil {P} : at_times (P := P) [] [] [].
Proof. done. Qed.
Lemma at_times_one {P} (x : (Z -> Z -> P) * list Z) t0 t1 : at_times [x] [(t0, t1)] [(x.1 t0 t1, x.2)].
Proof. done. Qed.
Lemma at_times_app {P} (xs1 xs2 : list ((Z -> Z -> P) * list Z)) ts1 ts2 ds1 ds2 :
  at_times xs1 ts1 ds1 -> at_times xs2 ts2 ds2 -> at_times (xs1 ++ xs2) (ts1 ++ ts2) (ds1 ++ ds2).
Proof. intros [H1 ->] [H2 ->]. split; [by rewrite !length_app, H1, H2|]. by rewrite zip_with_app. Qed.
Lemma at_times_matches {P} (xs : list ((Z -> Z -> P) * list Z)) ts ds : at_times xs ts ds -> Forall2 matches ds xs.
Proof.
  intros [Hl ->]. revert ts Hl. induction xs as [|x xs IH]; intros [|[t0 t1] ts] Hl; try done; constructor; [by exists t0, t1|].
  apply IH. by injection Hl.
Qed.

(** Induction over the tree of a call. *)
Lemma call_tree_ind {P} (Q : call P -> Prop) :
  (forall wr retval cursor inner, Forall Q inner -> Q (Call wr retval cursor inner)) ->
  forall c, Q c.
Proof.
  intros HQ. fix IH 1. intros [wr rv cur inner]. apply HQ.
  induction inner as [|c inner IHi]; constructor; [apply IH|exact IHi].
Qed.

(** The start of a collector returns, whatever the store. *)
Lemma start_tracer_returns {P B D W} {SV : Services W D} {SL : ServicesLaws W D} (tr : tracer) (ST : store P B D)
    header tls w :
  Z.of_nat (String.length (traced_list tr w)) < PATH_MAX ->
  exists tls' w', start_tracer tr ST header (tls, w) = Ok (tls', w') /\ sent w' = sent w /\
    t_buffer tls' = st_empty ST /\ t_traced tls' = traced_list tr w /\ t_nesting_depth tls' = 0.
Proof.
  intros Hlen. unfold start_tracer. cbn [fst snd].
  rewrite (proj2 (Z.ltb_lt _ PATH_MAX)), bind_of_Ok by done.
  unfold initialize_data. cbn [fst snd]. destruct (time_law w) as (t & w1 & -> & _ & Hs1). rewrite !bind_of_Ok.
  cbn [fst snd]. destruct (time_law w1) as (t' & w2 & -> & _ & Hs2). rewrite !bind_of_Ok. cbn [fst snd].
  eexists _, w2. split; [reflexivity|]. split_and!; try done. by rewrite Hs2, Hs1.
Qed.

(** What a store promises for records whose stack traces are of [T] and have at
    most [frames] frames: a relation of buffers to the records they hold, one of
    the blobs sent to the records they convey, and that recording adds a record,
    to the buffer or after a send. *)
Class StoreLaws {P B D : Type} (ST : store P B D) (T : list Z -> Prop) (frames : Z) := {
  st_holds : B -> list (P * list Z) -> Prop;
  st_conveys : list (CBTF_DataHeader * D) -> list (P * list Z) -> Prop;
  st_room : list (P * list Z) -> Prop;
  st_room_nil : st_room [];
  st_holds_empty : st_holds (st_empty ST) [];
  st_conveys_nil : st_conveys [] [];
  st_conveys_blob l h b dn cur :
    st_conveys l dn -> st_holds b cur -> st_conveys (l ++ [(h, st_blob ST b)]) (dn ++ cur);
  st_all_sent b cur : st_holds b cur -> st_unsent ST b = false -> cur = [];
  st_record_law {St} (buf : St -> B) (set_buf : B -> St -> St) (send : St -> outcome St)
      (I : St -> list (P * list Z) -> list (P * list Z) -> Prop) :
    (forall b s, buf (set_buf b s) = b) ->
    (forall s dn cur, I s dn cur -> st_holds (buf s) cur) ->
    (forall s dn cur cur' b, I s dn cur -> st_holds b cur' -> I (set_buf b s) dn cur') ->
    (forall s dn cur, I s dn cur ->
      exists s', send s = Ok s' /\ I s' (dn ++ cur) [] /\ buf s' = st_empty ST) ->
    forall s dn cur p fs, I s dn cur -> st_room cur -> T fs -> Z.of_nat (length fs) <= frames ->
    exists s' dn' cur', st_record ST buf set_buf send p fs s = Ok s' /\ I s' dn' cur' /\
      dn' ++ cur' = dn ++ cur ++ [(p, fs)] /\ st_room cur'
}.

(** The constants of a tracer that bound the unwinding. *)
Definition tracer_ok (tr : tracer) : Prop := 0 <= tr_frames tr /\ 0 <= tr_overhead tr.

Section correctness.
Context {P B D W : Type} {SV : Services W D} {SL : ServicesLaws W D}.
Context (tr : tracer) (ST : store P B D) (addr_of : string -> Z) (keep : Z -> bool) (T : list Z -> Prop).
Context {LS : StoreLaws ST T (tr_frames tr)}.
Context (sizes : tracer_ok tr).
Notation state := (TLS B * W)%type.

(** Since [w0] the blobs sent convey [dn], and the buffer holds [cur]. *)
Definition tr_inv (w0 : W) (traced : string) (n : Z) (d : bool) (s : state)
    (dn cur : list (P * list Z)) : Prop :=
  st_holds (t_buffer s.1) cur /\
  (exists new, sent s.2 = sent w0 ++ new /\ st_conveys new dn) /\
  t_traced s.1 = traced /\ t_nesting_depth s.1 = n /\ t_do_trace s.1 = d.

Lemma tr_inv_time w0 traced n d tls w w' dn cur :
  sent w' = sent w -> tr_inv w0 traced n d (tls, w) dn cur -> tr_inv w0 traced n d (tls, w') dn cur.
Proof. unfold tr_inv. cbn [fst snd]. by intros ->. Qed.

Lemma tracer_send_ok w0 traced n s dn cur :
  tr_inv w0 traced n false s dn cur ->
  exists s', send_samples tr ST s = Ok s' /\ tr_inv w0 traced 0 false s' (dn ++ cur) [] /\
    t_buffer s'.1 = st_empty ST.
Proof.
  destruct s as [tls w]. intros (Hb & (new & Hs & Hdel) & Htr & Hn & Hd). cbn [fst snd] in *.
  unfold send_samples. cbn [fst snd].
  assert (Htls : (if tr_restores tr then set_do_trace false tls else tls) = tls).
  { destruct tls. simpl in *. subst. by destruct (tr_restores tr). }
  rewrite Htls. destruct (time_law w) as (t & w1 & -> & _ & Hs1). rewrite bind_of_Ok. cbn [fst snd].
  match goal with |- context [cbtf_collector_send ?h ?b ?w'] =>
    destruct (send_law h b w') as (w3 & -> & Hs3) end. rewrite bind_of_Ok.
  unfold initialize_data. cbn [fst snd]. destruct (time_law w3) as (t' & w4 & -> & _ & Hs4). rewrite !bind_of_Ok.
  eexists. split_and!; [reflexivity| |done]. split_and!; cbn [fst snd]; try done.
  - apply st_holds_empty.
  - eexists (new ++ [_]). split; [by rewrite Hs4, Hs3, Hs1, Hs, <- app_assoc|].
    by apply st_conveys_blob.
Qed.

Lemma tracer_path_length f cursor :
  Z.of_nat (length (call_path tr keep f cursor)) <= tr_frames tr.
Proof.
  unfold call_path. set (fs := take _ _). destruct sizes as [? _].
  assert (length fs <= Z.to_nat (tr_frames tr))%nat as Hfs by (unfold fs; rewrite length_take; apply Nat.le_min_l).
  clearbody fs. assert (length (replace_top f fs) = length fs) as -> by (by destruct fs). lia.
Qed.

(** Recording the event of an outermost call. *)
Lemma record_outer_ok w0 traced d s dn cur ev f cursor :
  tr_inv w0 traced 1 d s dn cur -> st_room cur -> T (call_path tr keep f cursor) ->
  exists s' dn' cur', record_event tr ST keep ev f cursor s = Ok s' /\
    tr_inv w0 traced 0 (if tr_restores tr then d else true) s' dn' cur' /\
    dn' ++ cur' = dn ++ cur ++ [(ev, call_path tr keep f cursor)] /\ st_room cur'.
Proof.
  destruct s as [tls w]. intros (Hb & Hs & Htr & Hn & Hd) Hroom HT. cbn [fst snd] in *.
  unfold record_event. cbn [fst snd]. set (tls2 := set_nesting _ _).
  replace (t_nesting_depth tls2) with 0 by (unfold tls2; simpl; by rewrite Hn).
  cbn [Z.gtb Z.compare]. unfold CBTF_GetStackTraceFromContext. rewrite bind_of_Ok.
  destruct sizes as [Hfr Hov]. rewrite unwind_loop_spec by lia.
  rewrite Z.sub_0_r, app_nil_l, bind_of_Ok. fold (call_path tr keep f cursor).
  destruct (st_record_law (fun s : state => t_buffer s.1) (fun b s => (set_buffer b s.1, s.2)) (send_samples tr ST)
    (tr_inv w0 traced 0 false)) with
    (s := (tls2, w)) (dn := dn) (cur := cur) (p := ev) (fs := call_path tr keep f cursor)
    as (s' & dn' & cur' & -> & HI & Happ & Hlen); try done.
  - intros s dn0 cur0 Hi. apply Hi.
  - intros s dn0 cur0 cur1 b (_ & Hrest) Hb1. by split.
  - intros s dn0 cur0 Hi. by apply (tracer_send_ok _ _ 0).
  - split_and!; try done. unfold tls2. simpl. by rewrite Hn.
  - apply tracer_path_length.
  - rewrite bind_of_Ok, Hd. eexists _, dn', cur'. split_and!; [reflexivity| |done..].
    destruct HI as (H1 & H2 & H3 & H4 & H5). split_and!; done.
Qed.

(** The records of calls inside another one are dropped, and do_trace is off. *)
Lemma record_nested ev f cursor tls w m :
  t_nesting_depth tls = m + 1 -> 1 <= m -> m + 1 < 2 ^ 32 ->
  record_event tr ST keep ev f cursor (tls, w) = Ok (set_nesting m (set_do_trace false tls), w).
Proof.
  intros Hn Hm Hlt. unfold record_event. cbn [fst snd t_nesting_depth set_nesting set_do_trace]. rewrite Hn.
  replace (m + 1 - 1) with m by lia. rewrite u32_small by lia. by replace (m >? 0) with true by lia.
Qed.

(** The stop time that goes into a record. *)
Lemma record_all_cons st mk evs t0 t1 rv f cursor tls w :
  exists t w', sent w' = sent w /\
  (forall stamps stop, last_reading (st :: stamps) t1 stop w = last_reading stamps t1 t w') /\
  record_all tr ST keep ((st, mk) :: evs) t0 t1 rv f cursor (tls, w) =
  (s' ← record_event tr ST keep (mk t0 t rv) f cursor (tls, w'); record_all tr ST keep evs t0 t1 rv f cursor s').
Proof.
  cbn [record_all last_reading fst snd]. destruct (time_law w) as (t & w' & Ht & _ & Hs).
  destruct st; [exists t1, w|exists t, w'|exists t1, w']; rewrite ?Ht, ?bind_of_Ok; split_and!; done || (intros; by rewrite ?Ht).
Qed.

Lemma record_all_nested evs t0 t1 rv f cursor : forall tls w m,
  t_nesting_depth tls = m + Z.of_nat (length evs) -> 1 <= m -> m + Z.of_nat (length evs) < 2 ^ 32 -> evs <> [] ->
  exists w', sent w' = sent w /\
  record_all tr ST keep evs t0 t1 rv f cursor (tls, w) = Ok (set_nesting m (set_do_trace false tls), w').
Proof.
  induction evs as [|[st mk] evs IH]; intros tls w m Hn Hm Hlt Hne; [done|]. simpl length in *.
  destruct (record_all_cons st mk evs t0 t1 rv f cursor tls w) as (t & w' & Hs & _ & ->).
  rewrite (record_nested _ _ _ _ _ (m + Z.of_nat (length evs))), bind_of_Ok by lia.
  destruct evs as [|e evs].
  - exists w'. split; [done|]. cbn [record_all]. do 3 f_equal. simpl. lia.
  - edestruct (IH (set_nesting (m + Z.of_nat (length (e :: evs))) (set_do_trace false tls)) w' m) as (w2 & Hs2 & ->);
      [done|lia..|done|]. exists w2. split; [by rewrite Hs2|done].
Qed.

Lemma start_events_nesting k (tls : TLS B) :
  0 <= t_nesting_depth tls -> t_nesting_depth tls + Z.of_nat k < 2 ^ 32 ->
  Nat.iter k start_event tls = set_nesting (t_nesting_depth tls + Z.of_nat k) tls.
Proof.
  induction k as [|k IH]; intros H0 Hlt.
  - simpl. rewrite Z.add_0_r. by destruct tls.
  - simpl Nat.iter. rewrite IH by lia. unfold start_event. simpl. rewrite u32_small by lia.
    unfold set_nesting. simpl. f_equal. lia.
Qed.

Lemma do_trace_eq name (tls : TLS B) traced n d :
  t_traced tls = traced -> t_nesting_depth tls = n -> n <= 1 -> t_do_trace tls = d ->
  do_trace name tls = (d && bool_decide (name ∈ strtok_all traced), tls).
Proof.
  intros <- <- Hn <-. unfold do_trace, unnest. replace (_ >? 1) with false by lia.
  destruct (t_do_trace tls); [|done]. simpl. by case_bool_decide.
Qed.

Lemma do_call_unfold wr retval cursor inner s :
  do_call tr ST addr_of keep (Call wr retval cursor inner) s =
  wrapper tr ST addr_of keep wr cursor (fun s => s' ← do_calls tr ST addr_of keep inner s; Ok (retval, s')) s.
Proof. reflexivity. Qed.

Lemma call_times_unfold wr retval cursor inner s :
  call_times tr ST addr_of keep (Call wr retval cursor inner) s =
  let d := do_trace (wr_guard wr) s.1 in
  if d.1 then
    t0 ← CBTF_GetTime s.2;
    s' ← do_calls tr ST addr_of keep inner (Nat.iter (length (wr_events wr)) start_event d.2, t0.2);
    t1 ← CBTF_GetTime s'.2;
    stop ← last_reading (fst <$> wr_events wr) t1.1 t1.1 t1.2;
    Ok [(t0.1, stop)]
  else calls_times tr ST addr_of keep inner (d.2, s.2).
Proof. reflexivity. Qed.

(** With tracing off nothing happens, whatever is called. *)
Lemma off_ok w0 traced dn cur c : forall s : state,
  tr_inv w0 traced 0 false s dn cur -> do_call tr ST addr_of keep c s = Ok (call_retval c, s).
Proof.
  induction c as [wr rv cursor inner IH] using call_tree_ind. intros [tls w] HI.
  pose proof HI as (_ & _ & Htr & Hn & Hd). cbn [fst snd] in *.
  rewrite do_call_unfold. unfold wrapper. cbn [fst snd].
  rewrite (do_trace_eq _ _ traced 0 false) by (done || lia). cbn [fst snd andb].
  assert (do_calls tr ST addr_of keep inner (tls, w) = Ok (tls, w)) as ->; [|by rewrite bind_of_Ok].
  induction IH as [|c inner Hc _ IH]; [done|]. cbn [do_calls].
  rewrite (Hc (tls, w) HI). by rewrite bind_of_Ok.
Qed.
Lemma off_times w0 traced dn cur c : forall s : state,
  tr_inv w0 traced 0 false s dn cur -> call_times tr ST addr_of keep c s = Ok [].
Proof.
  induction c as [wr rv cursor inner IH] using call_tree_ind. intros [tls w] HI.
  pose proof HI as (_ & _ & Htr & Hn & Hd). cbn [fst snd] in *.
  rewrite call_times_unfold. cbn [fst snd].
  rewrite (do_trace_eq _ _ traced 0 false) by (done || lia). cbn [fst snd andb].
  induction IH as [|c inner Hc _ IH]; [done|]. cbn [calls_times].
  rewrite (Hc (tls, w) HI), bind_of_Ok, (off_ok w0 traced dn cur c (tls, w) HI), bind_of_Ok. cbn [snd]. by rewrite IH, bind_of_Ok.
Qed.

(** A call inside a traced call leaves everything but do_trace alone. *)
Lemma leaf_ok w0 traced d c s dn cur :
  is_leaf c = true -> tr_inv w0 traced 1 d s dn cur ->
  exists r s' d', do_call tr ST addr_of keep c s = Ok (r, s') /\ tr_inv w0 traced 1 d' s' dn cur.
Proof.
  destruct c as [[guard rl args fn evs] rv cursor inner], s as [tls w]. intros Hleaf HI.
  assert (Hevs : evs <> [] /\ (length evs <= 2)%nat /\ inner = []).
  { destruct evs as [|e [|e' [|? ?]]], inner; try done; simpl; split_and!; (done || lia). }
  destruct Hevs as (Hne & Hl & ->). clear Hleaf.
  pose proof HI as (Hb & Hs & Htr & Hn & Hd). cbn [fst snd] in *.
  rewrite do_call_unfold. unfold wrapper. cbn [fst snd wr_guard wr_events wr_function do_calls].
  rewrite (do_trace_eq _ _ traced 1 d) by (done || lia). cbn [fst snd].
  destruct (d && _); [|exists rv, (tls, w), d; by rewrite bind_of_Ok].
  rewrite start_events_nesting by (rewrite Hn; lia).
  destruct (time_law w) as (t0 & w1 & -> & _ & Hs1). rewrite !bind_of_Ok. cbn [fst snd].
  destruct (time_law w1) as (t1 & w2 & -> & _ & Hs2). rewrite bind_of_Ok. cbn [fst snd].
  destruct (record_all_nested evs t0 t1 rv (addr_of fn) cursor
    (set_nesting (t_nesting_depth tls + Z.of_nat (length evs)) tls) w2 1) as (w3 & Hs3 & ->);
    [simpl; by rewrite Hn|lia..|done|].
  rewrite bind_of_Ok. exists rv, (set_nesting 1 (set_do_trace false tls), w3), false. split; [done|].
  split_and!; cbn [fst snd]; try done. by rewrite Hs3, Hs2, Hs1.
Qed.

Lemma leaves_ok w0 traced inner : forall d s dn cur,
  forallb is_leaf inner = true -> tr_inv w0 traced 1 d s dn cur ->
  exists s' d', do_calls tr ST addr_of keep inner s = Ok s' /\ tr_inv w0 traced 1 d' s' dn cur.
Proof.
  induction inner as [|c inner IH]; intros d s dn cur Hl HI; [by exists s, d|].
  simpl in Hl. apply andb_true_iff in Hl as [Hc Hl]. cbn [do_calls].
  destruct (leaf_ok w0 traced d c s dn cur Hc HI) as (r & s1 & d1 & -> & HI1). rewrite bind_of_Ok.
  apply (IH d1 s1 dn cur Hl HI1).
Qed.

(** The body of a traced outermost call: nesting depth [1] throughout. *)
Lemma inner_ok w0 traced inner s dn cur :
  forallb is_leaf inner = true -> (tr_restores tr = true -> inner = []) -> tr_inv w0 traced 1 true s dn cur ->
  exists s' d', do_calls tr ST addr_of keep inner s = Ok s' /\ tr_inv w0 traced 1 d' s' dn cur /\
    (if tr_restores tr then d' else true) = true.
Proof.
  intros Hl Hr HI. destruct (tr_restores tr).
  - rewrite Hr by done. by exists s, true.
  - destruct (leaves_ok w0 traced inner true s dn cur Hl HI) as (s' & d' & H1 & H2). by exists s', d'.
Qed.

(** A call with one record. *)
Lemma single_ok w0 traced s dn cur guard rl args fn st mk rv cursor inner :
  guard ∈ strtok_all traced -> forallb is_leaf inner = true -> (tr_restores tr = true -> inner = []) ->
  tr_inv w0 traced 0 true s dn cur -> st_room cur -> T (call_path tr keep (addr_of fn) cursor) ->
  exists s' dn' cur' t0 t1, do_call tr ST addr_of keep (Call (mkWrapped guard rl args fn [(st, mk)]) rv cursor inner) s = Ok (rv, s') /\
    tr_inv w0 traced 0 true s' dn' cur' /\
    dn' ++ cur' = dn ++ cur ++ [(mk t0 t1 rv, call_path tr keep (addr_of fn) cursor)] /\ st_room cur' /\
    call_times tr ST addr_of keep (Call (mkWrapped guard rl args fn [(st, mk)]) rv cursor inner) s = Ok [(t0, t1)].
Proof.
  intros Hg Hl Hr HI Hroom HT. destruct s as [tls w]. pose proof HI as (Hb & Hs & Htr & Hn & Hd).
  cbn [fst snd] in *. rewrite call_times_unfold, do_call_unfold. unfold wrapper. cbn [fst snd wr_guard wr_events wr_function].
  rewrite (do_trace_eq _ _ traced 0 true), bool_decide_true by (done || lia). cbn [fst snd andb length].
  rewrite start_events_nesting by (rewrite Hn; lia). rewrite Hn.
  destruct (time_law w) as (t0 & w1 & -> & _ & Hs1). rewrite !bind_of_Ok. cbn [fst snd].
  destruct (inner_ok w0 traced inner (set_nesting (0 + Z.of_nat 1) tls, w1) dn cur Hl Hr) as ([tls2 w2] & d' & -> & HI2 & Hd').
  { split_and!; cbn [fst snd]; try done. by rewrite Hs1. }
  rewrite !bind_of_Ok. cbn [fst snd].
  destruct (time_law w2) as (t1 & w3 & -> & _ & Hs3). rewrite !bind_of_Ok. cbn [fst snd fmap list_fmap].
  destruct (record_all_cons st mk [] t0 t1 rv (addr_of fn) cursor tls2 w3) as (t & w4 & Hs4 & -> & ->).
  destruct (record_outer_ok w0 traced d' (tls2, w4) dn cur (mk t0 t rv) (addr_of fn) cursor)
    as (s' & dn' & cur' & -> & HI' & Happ & Hlen);
    [apply (tr_inv_time _ _ _ _ _ w2); [by rewrite Hs4|done]|done..|].
  rewrite Hd' in HI'. rewrite bind_of_Ok. simpl record_all. rewrite bind_of_Ok.
  exists s', dn', cur', t0, t. cbn [last_reading]. by rewrite bind_of_Ok.
Qed.

(** A call with two records, of which the first is dropped. *)
Lemma double_ok w0 traced s dn cur guard rl args fn st1 mk1 st2 mk2 rv cursor :
  guard ∈ strtok_all traced -> tr_restores tr = false ->
  tr_inv w0 traced 0 true s dn cur -> st_room cur -> T (call_path tr keep (addr_of fn) cursor) ->
  exists s' dn' cur' t0 t1,
    do_call tr ST addr_of keep (Call (mkWrapped guard rl args fn [(st1, mk1); (st2, mk2)]) rv cursor []) s = Ok (rv, s') /\
    tr_inv w0 traced 0 true s' dn' cur' /\
    dn' ++ cur' = dn ++ cur ++ [(mk2 t0 t1 rv, call_path tr keep (addr_of fn) cursor)] /\ st_room cur' /\
    call_times tr ST addr_of keep (Call (mkWrapped guard rl args fn [(st1, mk1); (st2, mk2)]) rv cursor []) s = Ok [(t0, t1)].
Proof.
  intros Hg Hr HI Hroom HT. destruct s as [tls w]. pose proof HI as (Hb & Hs & Htr & Hn & Hd).
  cbn [fst snd] in *. rewrite call_times_unfold, do_call_unfold. unfold wrapper. cbn [fst snd wr_guard wr_events wr_function do_calls].
  rewrite (do_trace_eq _ _ traced 0 true), bool_decide_true by (done || lia). cbn [fst snd andb length].
  rewrite start_events_nesting by (rewrite Hn; lia). rewrite Hn.
  destruct (time_law w) as (t0 & w1 & -> & _ & Hs1). rewrite !bind_of_Ok. cbn [fst snd].
  destruct (time_law w1) as (t1 & w2 & -> & _ & Hs2). rewrite !bind_of_Ok. cbn [fst snd fmap list_fmap].
  destruct (record_all_cons st1 mk1 [(st2, mk2)] t0 t1 rv (addr_of fn) cursor (set_nesting (0 + Z.of_nat 2) tls) w2)
    as (t & w3 & Hs3 & -> & ->).
  rewrite (record_nested _ _ _ _ _ 1), bind_of_Ok by (done || lia). set (tls1 := set_nesting 1 _).
  destruct (record_all_cons st2 mk2 [] t0 t1 rv (addr_of fn) cursor tls1 w3) as (t' & w4 & Hs4 & -> & ->).
  destruct (record_outer_ok w0 traced false (tls1, w4) dn cur (mk2 t0 t' rv) (addr_of fn) cursor)
    as (s' & dn' & cur' & -> & HI' & Happ & Hlen); [|done..|].
  { split_and!; cbn [fst snd]; try done. by rewrite Hs4, Hs3, Hs2, Hs1. }
  rewrite Hr in HI'. rewrite bind_of_Ok. simpl record_all. rewrite bind_of_Ok.
  exists s', dn', cur', t0, t'. cbn [last_reading]. by rewrite bind_of_Ok.
Qed.

(** An outermost call. *)
Lemma call_ok w0 traced c : forall s dn cur,
  shallow tr traced c = true -> tr_inv w0 traced 0 true s dn cur -> st_room cur ->
  Forall (fun x => T x.2) (call_records tr addr_of keep traced c) ->
  exists s' dn' cur' recs ts, do_call tr ST addr_of keep c s = Ok (call_retval c, s') /\
    tr_inv w0 traced 0 true s' dn' cur' /\ dn' ++ cur' = dn ++ cur ++ recs /\
    call_times tr ST addr_of keep c s = Ok ts /\ at_times (call_records tr addr_of keep traced c) ts recs /\ st_room cur'.
Proof.
  induction c as [[guard rl args fn evs] rv cursor inner IH] using call_tree_ind. intros s dn cur Hsh HI Hroom HT.
  cbn [shallow call_records call_retval] in *. unfold is_traced, record_of in *. cbn [wr_guard wr_events wr_function] in *.
  case_bool_decide as Hg.
  - destruct evs as [|[st1 mk1] [|[st2 mk2] [|]]]; try done; simpl last in *; apply Forall_cons in HT as [HT _]; cbn [snd] in HT.
    + destruct (single_ok w0 traced s dn cur guard rl args fn st1 mk1 rv cursor inner)
        as (s' & dn' & cur' & t0 & t1 & H & HI' & Happ & Hl & Ht); try done.
      { destruct inner; [done|]. by apply andb_true_iff in Hsh as [_ Hsh]. }
      { destruct inner; [done|]. apply andb_true_iff in Hsh as [Hsh _]. by destruct (tr_restores tr). }
      exists s', dn', cur', [(mk1 t0 t1 rv, call_path tr keep (addr_of fn) cursor)], [(t0, t1)]. by split_and!.
    + destruct inner; [|done].
      destruct (double_ok w0 traced s dn cur guard rl args fn st1 mk1 st2 mk2 rv cursor)
        as (s' & dn' & cur' & t0 & t1 & H & HI' & Happ & Hl & Ht); try done.
      { by destruct (tr_restores tr). }
      exists s', dn', cur', [(mk2 t0 t1 rv, call_path tr keep (addr_of fn) cursor)], [(t0, t1)]. by split_and!.
  - destruct s as [tls w]. pose proof HI as (_ & _ & Htr & Hn & Hd). cbn [fst snd] in *.
    rewrite call_times_unfold, do_call_unfold. unfold wrapper. cbn [fst snd wr_guard].
    rewrite (do_trace_eq _ _ traced 0 true), bool_decide_false by (done || lia). cbn [fst snd andb].
    enough (exists s' dn' cur' recs ts, do_calls tr ST addr_of keep inner (tls, w) = Ok s' /\
      tr_inv w0 traced 0 true s' dn' cur' /\ dn' ++ cur' = dn ++ cur ++ recs /\
      calls_times tr ST addr_of keep inner (tls, w) = Ok ts /\
      at_times (calls_records tr addr_of keep traced inner) ts recs /\ st_room cur')
      as (s' & dn' & cur' & recs & ts & -> & Hrest)
      by (exists s', dn', cur', recs, ts; rewrite bind_of_Ok; split; [done|exact Hrest]).
    clear Htr Hn Hd Hg guard rl args fn evs rv cursor. generalize dependent (tls, w). clear tls w. revert dn cur Hroom.
    induction IH as [|c inner Hc _ IH]; intros dn cur Hroom s HI.
    { exists s, dn, cur, [], []. by rewrite app_nil_r. }
    simpl in Hsh. apply andb_true_iff in Hsh as [Hsh1 Hsh2]. apply Forall_app in HT as [HT1 HT2].
    destruct (Hc s dn cur Hsh1 HI Hroom HT1) as (s1 & dn1 & cur1 & recs1 & ts1 & H1 & HI1 & Happ1 & Ht1 & Hm1 & Hl1).
    destruct (IH Hsh2 HT2 dn1 cur1 Hl1 s1 HI1) as (s2 & dn2 & cur2 & recs2 & ts2 & H2 & HI2 & Happ2 & Ht2 & Hm2 & Hl2).
    exists s2, dn2, cur2, (recs1 ++ recs2), (ts1 ++ ts2). cbn [do_calls calls_times].
    rewrite H1, Ht1, !bind_of_Ok. cbn [snd]. rewrite Ht2, bind_of_Ok. split_and!; try done.
    + by rewrite Happ2, !(app_assoc dn1), Happ1, <- !app_assoc.
    + by apply at_times_app.
Qed.

Lemma tracer_run_ok w0 traced evs : forall d s dn cur,
  tr_inv w0 traced 0 d s dn cur -> st_room cur ->
  forallb (shallow_event tr traced) evs = true ->
  Forall (fun x => T x.2) (accepted tr addr_of keep traced d evs) ->
  exists s' d' dn' cur' recs ts, run tr ST addr_of keep evs s = Ok (returned evs, s') /\
    tr_inv w0 traced 0 d' s' dn' cur' /\ dn' ++ cur' = dn ++ cur ++ recs /\
    run_times tr ST addr_of keep evs s = Ok ts /\ at_times (accepted tr addr_of keep traced d evs) ts recs.
Proof.
  induction evs as [|[c| |] evs IH]; intros d s dn cur HI Hroom Hsh HT; cbn [run run_times accepted returned] in *.
  - exists s, d, dn, cur, [], []. by rewrite app_nil_r.
  - simpl in Hsh. apply andb_true_iff in Hsh as [Hsh1 Hsh2]. apply Forall_app in HT as [HT1 HT2].
    assert (exists s1 dn1 cur1 recs1 ts1, do_call tr ST addr_of keep c s = Ok (call_retval c, s1) /\
      tr_inv w0 traced 0 d s1 dn1 cur1 /\ dn1 ++ cur1 = dn ++ cur ++ recs1 /\
      call_times tr ST addr_of keep c s = Ok ts1 /\
      at_times (if d then call_records tr addr_of keep traced c else []) ts1 recs1 /\ st_room cur1)
      as (s1 & dn1 & cur1 & recs1 & ts1 & -> & HI1 & Happ1 & -> & Hm1 & Hl1).
    { destruct d; [by apply call_ok|]. exists s, dn, cur, [], []. rewrite app_nil_r.
      split_and!; try done; [by apply (off_ok w0 traced dn cur)|by apply (off_times w0 traced dn cur)]. }
    rewrite !bind_of_Ok. cbn [fst snd].
    destruct (IH d s1 dn1 cur1 HI1 Hl1 Hsh2 HT2) as (s2 & d2 & dn2 & cur2 & recs2 & ts2 & -> & HI2 & Happ2 & -> & Hm2).
    rewrite !bind_of_Ok. exists s2, d2, dn2, cur2, (recs1 ++ recs2), (ts1 ++ ts2). split_and!; try done.
    + by rewrite Happ2, !(app_assoc dn1), Happ1, <- !app_assoc.
    + by apply at_times_app.
  - apply (IH false); [|done..]. destruct HI as (? & ? & ? & ? & ?). by split_and!.
  - apply (IH true); [|done..]. destruct HI as (? & ? & ? & ? & ?). by split_and!.
Qed.

Lemma start_tracer_ok header tls w :
  Z.of_nat (String.length (traced_list tr w)) < PATH_MAX ->
  exists tls' w', start_tracer tr ST header (tls, w) = Ok (tls', w') /\
    forall d defer, tr_inv w (traced_list tr w) 0 d (set_do_trace d (set_defer defer tls'), w') [] [].
Proof.
  intros Hlen. destruct (start_tracer_returns tr ST header tls w Hlen) as (tls' & w' & H & Hs & Hb & Ht & Hn).
  exists tls', w'. split; [done|]. intros d defer. split_and!; cbn; try done.
  - rewrite Hb. apply st_holds_empty.
  - exists []. rewrite Hs, app_nil_r. split; [done|apply st_conveys_nil].
Qed.

Lemma stop_ok w0 traced d s dn cur :
  tr_inv w0 traced 0 d s dn cur ->
  exists s' new, cbtf_collector_stop tr ST s = Ok s' /\ sent s'.2 = sent w0 ++ new /\
    st_conveys new (dn ++ cur).
Proof.
  destruct s as [tls w]. intros (Hb & (new & Hs & Hdel) & Htr & Hn & Hd). unfold cbtf_collector_stop. cbn [fst snd] in *.
  destruct (time_law w) as (t & w1 & -> & _ & Hs1). rewrite bind_of_Ok. cbn [fst snd].
  set (tls1 := defer_trace false _). change (t_buffer tls1) with (t_buffer tls).
  destruct (st_unsent _ _) eqn:Hc.
  - destruct (tracer_send_ok w0 traced 0 (tls1, w1) dn cur) as (s' & -> & (_ & (new' & Hs' & Hdel') & _) & _).
    { split_and!; try done. exists new. cbn [snd]. by rewrite Hs1. }
    exists s', new'. split_and!; [done..|]. by rewrite app_nil_r in Hdel' || exact Hdel'.
  - exists (tls1, w1), new. split_and!; [done|cbn [snd]; by rewrite Hs1|].
    by rewrite (st_all_sent _ _ Hb Hc), app_nil_r.
Qed.

(** From start to stop, for a start that ends in the [do_trace] and
    [defer_sampling] given. *)
Lemma tracer_delivers header tls w s1 d defer evs :
  Z.of_nat (String.length (traced_list tr w)) < PATH_MAX ->
  (s ← start_tracer tr ST header (tls, w); Ok (set_do_trace d (set_defer defer s.1), s.2)) = Ok s1 ->
  forallb (shallow_event tr (traced_list tr w)) evs = true ->
  Forall (fun x => T x.2) (accepted tr addr_of keep (traced_list tr w) d evs) ->
  exists s2 s3 new recs ts, run tr ST addr_of keep evs s1 = Ok (returned evs, s2) /\
    cbtf_collector_stop tr ST s2 = Ok s3 /\ sent s3.2 = sent w ++ new /\
    st_conveys new recs /\ run_times tr ST addr_of keep evs s1 = Ok ts /\
    at_times (accepted tr addr_of keep (traced_list tr w) d evs) ts recs.
Proof.
  intros Hlen Hst Hsh HT. destruct (start_tracer_ok header tls w Hlen) as (tls' & w' & Hs & HI).
  rewrite Hs, bind_of_Ok in Hst. injection Hst as <-. cbn [fst snd].
  destruct (tracer_run_ok w (traced_list tr w) evs d _ [] [] (HI d defer)) as (s2 & d2 & dn & cur & recs & ts & H2 & HI2 & Happ & Ht & Hm);
    [apply st_room_nil|done..|].
  destruct (stop_ok w _ d2 s2 dn cur HI2) as (s3 & new & H3 & Hsent & Hdel).
  exists s2, s3, new, recs, ts. rewrite Happ in Hdel. by split_and!.
Qed.
End correctness.

(** ** The trace: records with positions in the buffer of stack traces *)
(** The data blob of a trace. *)
Record trace_data (P : Type) := mkTraceData {
  td_stacktraces : list Z;
  td_events : list (traced_event P)
}.
Arguments mkTraceData {P}. Arguments td_stacktraces {P}. Arguments td_events {P}.

Definition trace_store {P} (tr : tracer) (zero : P) : store P (trace_buffer P) (trace_data P) :=
  let SB := tr_stack_size tr in let EB := tr_event_size tr in
  mkStore (reset_traces SB EB (mkEvent zero 0))
    (fun b => mkTraceData (take (Z.to_nat (tb_stacktraces_len b)) (tb_stacktraces b))
                (take (Z.to_nat (tb_events_len b)) (tb_events b)))
    (fun b => (tb_addr_begin b, tb_addr_end b))
    (fun b => (tb_events_len b >? 0) || (tb_stacktraces_len b >? 0))
    (fun St buf set_buf send => record_traced false SB EB buf set_buf send).

(** What a reader finds in the blobs. *)
Definition delivered {P} (blobs : list (CBTF_DataHeader * trace_data P)) : list (P * list Z) :=
  concat ((fun hd => decode_events (td_stacktraces hd.2) (td_events hd.2)) <$> blobs).

Lemma tracer_delivered_snoc {P} l h (d : trace_data P) :
  delivered (l ++ [(h, d)]) = delivered l ++ decode_events (td_stacktraces d) (td_events d).
Proof. unfold delivered. rewrite fmap_app, concat_app. simpl. by rewrite app_nil_r. Qed.

(** Positions fit in 16 bits, a stack trace in the buffer. *)
Definition trace_sizes (tr : tracer) : Prop :=
  0 < tr_stack_size tr <= 2 ^ 16 /\ 0 < tr_event_size tr /\ tr_frames tr + 1 < tr_stack_size tr.

(** A trace delivers the records themselves, in order. *)
#[export, refine] Instance trace_store_laws {P} (tr : tracer) (zero : P) (root : Z) (T : list Z -> Prop)
    (paths : call_paths root T) (sizes : trace_sizes tr) : StoreLaws (trace_store tr zero) T (tr_frames tr) := {
  st_holds := traces_inv T (tr_stack_size tr) (tr_event_size tr);
  st_conveys l dn := delivered l = dn;
  st_room cur := Z.of_nat (length cur) < tr_event_size tr
}.
Proof.
  all: destruct sizes as (Hsb & Heb & Hfr).
  - done.
  - apply traces_reset; lia.
  - done.
  - intros l h b dn cur Hdel Hb. rewrite tracer_delivered_snoc, Hdel. f_equal. by apply (traces_decode root T paths (tr_stack_size tr) (tr_event_size tr)).
  - intros b cur [ts [_ _ _ _ _ [Hel _] _ _]] [Hc _]%orb_false_iff. bools.
    destruct cur as [|r cur]; [done|]. simpl in Hel. lia.
  - intros St buf set_buf send I Hset Hinv HI Hsend s dn cur p fs Hs Hroom HT Hl.
    apply (record_traced_ok root T paths false _ _ Hsb Heb buf set_buf send I); try done; [|lia].
    intros s0 dn0 cur0 H0. destruct (Hsend s0 dn0 cur0 H0) as (s' & H1 & H2 & H3). exists s'. by rewrite H3.
Defined.

(** From start to stop with a trace. *)
Lemma trace_delivers {P W} {SV : Services W (trace_data P)} {SL : ServicesLaws W (trace_data P)} (tr : tracer)
    (zero : P) addr_of keep root T header tls w s1 d defer evs :
  call_paths root T -> tracer_ok tr -> trace_sizes tr ->
  Z.of_nat (String.length (traced_list tr w)) < PATH_MAX ->
  (s ← start_tracer tr (trace_store tr zero) header (tls, w); Ok (set_do_trace d (set_defer defer s.1), s.2)) = Ok s1 ->
  forallb (shallow_event tr (traced_list tr w)) evs = true ->
  Forall (fun x => T x.2) (accepted tr addr_of keep (traced_list tr w) d evs) ->
  exists s2 s3 new, run tr (trace_store tr zero) addr_of keep evs s1 = Ok (returned evs, s2) /\
    cbtf_collector_stop tr (trace_store tr zero) s2 = Ok s3 /\ sent s3.2 = sent w ++ new /\
    Forall2 matches (delivered new) (accepted tr addr_of keep (traced_list tr w) d evs) /\
    exists ts, run_times tr (trace_store tr zero) addr_of keep evs s1 = Ok ts /\
      at_times (accepted tr addr_of keep (traced_list tr w) d evs) ts (delivered new).
Proof.
  intros Hp Hok Hsz Hlen Hst Hsh HT.
  destruct (tracer_delivers (LS := trace_store_laws tr zero root T Hp Hsz) tr (trace_store tr zero) addr_of keep T Hok header
    tls w s1 d defer evs Hlen Hst Hsh HT) as (s2 & s3 & new & recs & ts & H2 & H3 & Hs & Hc & Ht & Hm).
  exists s2, s3, new. cbn [st_conveys trace_store_laws] in Hc. rewrite Hc. split_and!; [done..|by eapply at_times_matches|by exists ts].
Qed.
