(* ===== verification/Profile.v ===== *)
(** The profile builds of the mpi and io collectors (mpip, iop): the buffer of
    stack traces with a call count and a total time for each, in which a positive
    count marks the top frame of a stack, as a [store] of the tracing collectors.
    The search and the counts are those of the usertime collector (StackBuffer.v);
    times are added up modulo 2^64. *)
From S2P Require Import Prelude Headers Services StackBuffer TraceBuffer Tracer.

(** CBTF_mpi_profile_data, CBTF_io_profile_data. *)
Record profile_data := mkProfileData {
  pd_stacktraces : list Z;
  pd_time : list Z;
  pd_count : list Z
}.

Record profile_buffer := mkProfile {
  pb_stacks : stack_buffer;
  pb_time : list Z;
  pb_time_len : Z
}.

(** The loop that adds the frames; the time goes where the count is positive. *)
Fixpoint add_timed (i time : Z) (frames : list Z) (b : profile_buffer) : outcome profile_buffer :=
  match frames with
  | [] => Ok b
  | f :: frames' =>
      stacks ← add_frames i [f] (pb_stacks b);
      times ← (if i >? 0 then Ok (pb_time b) else arr_set (pb_time b) (pb_time_len b) time);
      add_timed (i + 1) time frames' (mkProfile stacks times (pb_time_len b + 1))
  end.

(** A stack that is in the buffer: one more call, and its time. *)
Definition bump_timed (idx : option Z) (time : Z) (b : profile_buffer) : outcome (option profile_buffer) :=
  r ← bump_count idx (pb_stacks b);
  match idx, r with
  | Some k, Some stacks =>
      t ← arr_get (pb_time b) k;
      times ← arr_set (pb_time b) k (u64 (t + time));
      Ok (Some (mkProfile stacks times (pb_time_len b)))
  | _, _ => Ok None
  end.

Section record.
Context {St : Type} (size : Z) (buf : St -> profile_buffer) (set_buf : profile_buffer -> St -> St).
Context (send_samples : St -> outcome St).

(** record_event() of the profile builds, after the unwinding; the result says
    whether the stack was found. *)
Definition record_known (time : Z) (frames : list Z) (s : St) : outcome (bool * St) :=
  idx ← search_stacks frames (pb_stacks (buf s));
  r ← bump_timed idx time (buf s);
  match r with
  | Some b => Ok (true, set_buf b s)
  | None =>
      let buflen := sb_stacktraces_len (pb_stacks (buf s)) + Z.of_nat (length frames) in
      s1 ← (if buflen >? size then send_samples s else Ok s);
      b ← add_timed 0 time frames (buf s1);
      Ok (false, set_buf b s1)
  end.

Definition record_profile (time : Z) (frames : list Z) (s : St) : outcome St :=
  r ← record_known time frames s; Ok r.2.

Lemma record_profile_known time frames s s' :
  record_profile time frames s = Ok s' -> exists known, record_known time frames s = Ok (known, s').
Proof.
  unfold record_profile. destruct (record_known time frames s) as [[known s1]| | |]; [|done..].
  rewrite bind_of_Ok. intros [= <-]. by exists known.
Qed.
End record.

Definition profile_store {P} (size : Z) (time_of : P -> Z) : store P profile_buffer profile_data :=
  mkStore (mkProfile (reset_stacks size) (replicate (Z.to_nat size) 0) 0)
    (fun b => mkProfileData (take (Z.to_nat (sb_stacktraces_len (pb_stacks b))) (sb_stacktraces (pb_stacks b)))
                (take (Z.to_nat (pb_time_len b)) (pb_time b))
                (take (Z.to_nat (sb_count_len (pb_stacks b))) (sb_count (pb_stacks b))))
    (fun b => (sb_addr_begin (pb_stacks b), sb_addr_end (pb_stacks b)))
    (fun b => (sb_count_len (pb_stacks b) >? 0) || (sb_stacktraces_len (pb_stacks b) >? 0))
    (fun St buf set_buf send p => record_profile size buf set_buf send (time_of p)).

(** ** What a profile says

    A stack with its count and its total time. *)
Notation timed := (list Z * (Z * Z))%type.
Definition counts_of (es : list timed) : list entry := (fun e => (e.1, e.2.1)) <$> es.
Definition times_of (es : list timed) : list entry := (fun e => (e.1, e.2.2)) <$> es.

Definition profile_step (x : Z * (Z * Z)) (acc : list Z * list timed) : list Z * list timed :=
  if x.2.1 >? 0 then ([], (x.1 :: acc.1, x.2) :: acc.2) else (x.1 :: acc.1, acc.2).
Definition decode_profile (d : profile_data) : list timed :=
  (foldr profile_step ([], []) (zip (pd_stacktraces d) (zip (pd_count d) (pd_time d)))).2.

Definition profiled (blobs : list (CBTF_DataHeader * profile_data)) : list timed :=
  concat ((fun hd => decode_profile hd.2) <$> blobs).

(** Calls with stack [s] and their total time, in a profile and among records. *)
Definition calls_in (s : list Z) (es : list timed) : Z := samples_of s (counts_of es).
Definition time_in (s : list Z) (es : list timed) : Z := samples_of s (times_of es).

Section records.
Context {P : Type} (time_of : P -> Z).
Definition calls_on (s : list Z) (recs : list (P * list Z)) : Z :=
  foldr (fun r acc => (if bool_decide (r.2 = s) then 1 else 0) + acc) 0 recs.
Definition time_on (s : list Z) (recs : list (P * list Z)) : Z :=
  foldr (fun r acc => (if bool_decide (r.2 = s) then time_of r.1 else 0) + acc) 0 recs.

(** The profile has, for each stack, the calls of [recs] and their total time. *)
Definition profiles (es : list timed) (recs : list (P * list Z)) : Prop :=
  forall s, calls_in s es = calls_on s recs /\ u64 (time_in s es) = u64 (time_on s recs).
End records.

(** ** Lemmas *)
Lemma u64_add x x' y y' : u64 x = u64 x' -> u64 y = u64 y' -> u64 (x + y) = u64 (x' + y').
Proof. unfold u64. intros Hx Hy. by rewrite (Z.add_mod x), (Z.add_mod x'), Hx, Hy. Qed.

Lemma calls_on_app {P} s (r1 r2 : list (P * list Z)) : calls_on s (r1 ++ r2) = calls_on s r1 + calls_on s r2.
Proof. induction r1 as [|r r1 IH]; simpl; [done|]. rewrite IH. lia. Qed.
Lemma time_on_app {P} (time_of : P -> Z) s r1 r2 :
  time_on time_of s (r1 ++ r2) = time_on time_of s r1 + time_on time_of s r2.
Proof. induction r1 as [|r r1 IH]; simpl; [done|]. rewrite IH. lia. Qed.

Lemma profiles_app {P} (time_of : P -> Z) es1 es2 r1 r2 :
  profiles time_of es1 r1 -> profiles time_of es2 r2 -> profiles time_of (es1 ++ es2) (r1 ++ r2).
Proof.
  intros H1 H2 s. destruct (H1 s) as [Hc1 Ht1], (H2 s) as [Hc2 Ht2].
  unfold calls_in, time_in, counts_of, times_of in *. rewrite !fmap_app, !samples_of_app, calls_on_app, time_on_app.
  split; [lia|by apply u64_add].
Qed.

Lemma profiles_add {P} (time_of : P -> Z) es recs p frames :
  profiles time_of es recs -> profiles time_of (es ++ [(frames, (1, time_of p))]) (recs ++ [(p, frames)]).
Proof. intros H. apply profiles_app; [done|]. by intros s. Qed.

Lemma profiles_bump {P} (time_of : P -> Z) es1 frames c t es2 recs p :
  profiles time_of (es1 ++ (frames, (c, t)) :: es2) recs ->
  profiles time_of (es1 ++ (frames, (c + 1, u64 (t + time_of p))) :: es2) (recs ++ [(p, frames)]).
Proof.
  intros H s. destruct (H s) as [Hc Ht]. unfold calls_in, time_in, counts_of, times_of in *.
  rewrite !fmap_app, !fmap_cons, !samples_of_app, !samples_of_cons in *. cbn [fst snd] in *.
  rewrite calls_on_app, time_on_app. simpl. rewrite !Z.add_0_r.
  case_bool_decide; [|split; [lia|by rewrite Z.add_0_r]]. split; [lia|].
  rewrite <- (u64_add _ _ _ _ Ht eq_refl). set (a := samples_of _ _). set (b := samples_of _ _).
  replace (a + (t + b) + time_of p) with (a + (t + time_of p + b)) by lia.
  apply u64_add; [done|]. apply u64_add; [|done]. unfold u64. by rewrite Z.mod_mod.
Qed.

Lemma counts_of_frames es : flat_frames (counts_of es) = concat (fst <$> es).
Proof. unfold flat_frames, counts_of. by rewrite <- list_fmap_compose. Qed.
Lemma times_of_frames es : flat_frames (times_of es) = flat_frames (counts_of es).
Proof. rewrite counts_of_frames. unfold flat_frames, times_of. by rewrite <- list_fmap_compose. Qed.

(** A reader of the blob finds the stacks with their counts and times. *)
Lemma decode_profile_flat es :
  Forall (fun e => e.1 <> [] /\ 0 < e.2.1) es ->
  decode_profile (mkProfileData (flat_frames (counts_of es)) (flat_counts (times_of es)) (flat_counts (counts_of es))) = es.
Proof.
  intros Hes. unfold decode_profile. cbn [pd_stacktraces pd_count pd_time].
  enough (foldr profile_step ([], []) (zip (flat_frames (counts_of es))
    (zip (flat_counts (counts_of es)) (flat_counts (times_of es)))) = ([], es)) as -> by done.
  induction Hes as [|[[|x s] [c t]] es [Hne Hc] _ IH]; [done|done|]. cbn [fst snd] in *.
  change (foldr profile_step ([], []) ((x, (c, t)) :: zip (s ++ flat_frames (counts_of es))
    (zip (replicate (length s) 0 ++ flat_counts (counts_of es)) (replicate (length s) 0 ++ flat_counts (times_of es)))) =
    ([], (x :: s, (c, t)) :: es)).
  assert (Hz : forall l, foldr profile_step ([], es) (zip l (zip (replicate (length l) 0) (replicate (length l) 0))) = (l, es)).
  { induction l as [|y l IHl]; [done|]. simpl. by rewrite IHl. }
  rewrite zip_with_app by done. rewrite zip_with_app by (rewrite length_zip_with, !length_replicate; lia).
  cbn [foldr]. rewrite foldr_app, IH, Hz. unfold profile_step. simpl. by replace (c >? 0) with true by lia.
Qed.

Lemma add_frames_cons i f frames b :
  add_frames i (f :: frames) b = (b1 ← add_frames i [f] b; add_frames (i + 1) frames b1).
Proof.
  cbn [add_frames]. destruct (arr_set (sb_stacktraces b) _ _); [|done..]. rewrite !bind_of_Ok.
  by destruct (arr_set (sb_count b) _ _).
Qed.

Lemma add_timed_later frames : forall i time b stacks, 0 < i ->
  add_frames i frames (pb_stacks b) = Ok stacks ->
  add_timed i time frames b = Ok (mkProfile stacks (pb_time b) (pb_time_len b + Z.of_nat (length frames))).
Proof.
  induction frames as [|f frames IH]; intros i time [sb tm len] stacks Hi; cbn [pb_stacks pb_time pb_time_len].
  { intros [= <-]. simpl. by rewrite Z.add_0_r. }
  rewrite add_frames_cons. cbn [add_timed pb_stacks pb_time pb_time_len].
  destruct (add_frames i [f] sb) as [b1| | |]; [|done..]. rewrite !bind_of_Ok. intros H.
  replace (i >? 0) with true by lia. rewrite bind_of_Ok, (IH _ _ _ stacks) by (done || lia). simpl.
  do 2 f_equal. lia.
Qed.

Lemma add_timed_top time f frames b stacks times :
  add_frames 0 (f :: frames) (pb_stacks b) = Ok stacks -> arr_set (pb_time b) (pb_time_len b) time = Ok times ->
  add_timed 0 time (f :: frames) b =
    Ok (mkProfile stacks times (pb_time_len b + Z.of_nat (length (f :: frames)))).
Proof.
  intros H Ht. rewrite add_frames_cons in H. cbn [add_timed]. destruct (add_frames 0 [f] (pb_stacks b)); [|done..].
  rewrite !bind_of_Ok in *. cbn [Z.gtb Z.compare]. rewrite Ht, bind_of_Ok.
  rewrite (add_timed_later _ _ _ _ stacks) by (done || lia). simpl. do 2 f_equal. lia.
Qed.

(** ** The laws of the profile *)
Section laws.
Context {P : Type} (size : Z) (T : list Z -> Prop) {DT : Distinguishable T} (time_of : P -> Z).
Notation ST := (profile_store (P := P) size time_of).

Record profile_encodes (b : profile_buffer) (es : list timed) : Prop := {
  pe_stacks : encodes_in size T (pb_stacks b) (counts_of es);
  pe_time_size : Z.of_nat (length (pb_time b)) = size;
  pe_time_len : pb_time_len b = Z.of_nat (length (flat_frames (counts_of es)));
  pe_time : exists n, pb_time b = flat_counts (times_of es) ++ replicate n 0
}.

Definition profile_holds (b : profile_buffer) (recs : list (P * list Z)) : Prop :=
  exists es, profile_encodes b es /\ profiles time_of es recs.

Lemma profile_encodes_empty : 0 <= size -> profile_encodes (st_empty ST) [].
Proof.
  intros Hs. constructor; simpl; [by apply encodes_reset|rewrite length_replicate; lia|done|by eexists].
Qed.

Lemma profile_encodes_add b es frames time :
  profile_encodes b es -> T frames ->
  sb_stacktraces_len (pb_stacks b) + Z.of_nat (length frames) <= size ->
  exists b', add_timed 0 time frames b = Ok b' /\ profile_encodes b' (es ++ [(frames, (1, time))]).
Proof.
  intros [He Hts Htl [n Ht]] Hr Hfit. destruct frames as [|f frames]; [by destruct ds_nonempty|].
  destruct (encodes_add T _ _ _ He Hr Hfit) as (sb & Hsb & Hen). destruct (en_lens _ _ _ He) as [Hl _].
  assert (Hlt : length (flat_counts (times_of es)) = length (flat_frames (counts_of es)))
    by (by rewrite flat_lengths, times_of_frames).
  rewrite Ht, length_app, length_replicate, Hlt in Hts. simpl length in Hfit.
  assert (n = S (length frames + (n - S (length frames)))) as Hn by lia. rewrite Hn in Ht. simpl in Ht.
  exists (mkProfile sb (flat_counts (times_of es) ++ time :: replicate (length frames + (n - S (length frames))) 0)
    (pb_time_len b + Z.of_nat (length (f :: frames)))). split.
  - apply add_timed_top; [done|]. rewrite Ht. apply insert_after. lia.
  - unfold counts_of, times_of in *.
    constructor; cbn [pb_stacks pb_time pb_time_len]; unfold counts_of, times_of; rewrite ?fmap_app; [done|..].
    + rewrite length_app. simpl. rewrite length_replicate. lia.
    + rewrite flat_frames_app, length_app, Htl. simpl. rewrite app_nil_r. simpl. lia.
    + exists (n - S (length frames))%nat. rewrite flat_counts_app, <- app_assoc. f_equal.
      unfold flat_counts. simpl. rewrite app_nil_r, replicate_add. done.
Qed.

Lemma profile_encodes_bump b es1 frames c t es2 time :
  profile_encodes b (es1 ++ (frames, (c, t)) :: es2) -> c < 255 ->
  exists b', bump_timed (Some (Z.of_nat (length (flat_frames (counts_of es1))))) time b = Ok (Some b') /\
    profile_encodes b' (es1 ++ (frames, (c + 1, u64 (t + time))) :: es2).
Proof.
  intros [He Hts Htl [n Ht]] Hc. unfold counts_of, times_of in *. rewrite fmap_app, fmap_cons in *. cbn [fst snd] in *.
  destruct (encodes_bump T _ _ _ _ _ He Hc) as (sb & Hb & Hen).
  assert (Hr : T frames).
  { pose proof (en_ok _ _ _ He) as Hok. apply Forall_app in Hok as [_ Hok]. by destruct (Forall_inv Hok). }
  destruct frames as [|f frames]; [by destruct ds_nonempty|].
  set (es1' := (fun e : timed => (e.1, e.2.2)) <$> es1) in *. set (es2' := (fun e : timed => (e.1, e.2.2)) <$> es2) in *.
  assert (Hlt : length (flat_counts es1') = length (flat_frames ((fun e : timed => (e.1, e.2.1)) <$> es1)))
    by (rewrite flat_lengths; f_equal; apply times_of_frames).
  assert (Hfc : forall d, flat_counts (es1' ++ (f :: frames, d) :: es2') =
            flat_counts es1' ++ d :: replicate (length frames) 0 ++ flat_counts es2')
    by (intros d; rewrite flat_counts_app; done).
  rewrite Hfc, <- app_assoc in Ht. simpl in Ht. unfold bump_timed. rewrite Hb, bind_of_Ok, Ht.
  rewrite lookup_prefix, bind_of_Ok, insert_after, bind_of_Ok by (by rewrite Hlt).
  eexists. split; [reflexivity|].
  constructor; cbn [pb_stacks pb_time pb_time_len]; unfold counts_of, times_of; rewrite ?fmap_app, ?fmap_cons; cbn [fst snd];
    [done|..].
  - rewrite <- Hts, Ht, !length_app. simpl. by rewrite !length_app.
  - rewrite Htl, !flat_frames_app. done.
  - exists n. by rewrite Hfc, <- (app_assoc (flat_counts es1')), <- app_comm_cons.
Qed.

Lemma profile_blob b recs :
  profile_holds b recs -> profiles time_of (decode_profile (st_blob ST b)) recs.
Proof.
  intros (es & [He _ Htl [n Ht]] & Hp). destruct (en_lens _ _ _ He) as [Hl1 Hl2].
  destruct (en_st _ _ _ He) as [rf Hf], (en_ct _ _ _ He) as [rc Hc].
  enough (decode_profile (st_blob ST b) = es) as -> by done.
  rewrite <- (decode_profile_flat es).
  - f_equal. cbn [st_blob profile_store]. rewrite Hf, Hc, Ht, Hl1, Hl2, Htl, !Nat2Z.id, take_app_length.
    by rewrite <- (flat_lengths (counts_of es)), take_app_length, flat_lengths, <- times_of_frames, <- flat_lengths, take_app_length.
  - pose proof (en_ok _ _ _ He) as Hok. unfold counts_of in Hok. rewrite Forall_fmap in Hok.
    eapply Forall_impl; [exact Hok|]. intros [[|x st] [c t]] [H1 H2]; cbn in *; [by destruct ds_nonempty|]. split; [done|lia].
Qed.

#[export, refine] Instance profile_store_laws (frames : Z) (fits : 0 <= frames <= size) :
    StoreLaws ST T frames := {
  st_holds := profile_holds;
  st_conveys l recs := profiles time_of (profiled l) recs;
  st_room _ := True
}.
Proof.
  - done.
  - exists []. split; [apply profile_encodes_empty; lia|done].
  - done.
  - intros l h b dn cur Hl Hb. unfold profiled. rewrite fmap_app, concat_app. apply profiles_app; [done|].
    simpl. rewrite app_nil_r. by apply profile_blob.
  - intros b cur (es & [He _ _ _] & Hp) [Hc _]%orb_false_iff. destruct (en_lens _ _ _ He) as [_ Hl]. bools.
    destruct cur as [|[p fs] cur]; [done|]. destruct es as [|[[|x st] [c t]] es].
    + destruct (Hp fs) as [Hcl _]. unfold calls_in in Hcl. simpl in Hcl. rewrite bool_decide_true in Hcl by done.
      assert (forall l : list (P * list Z), 0 <= calls_on fs l) as Hpos
        by (induction l as [|r l IH]; simpl; [done|case_bool_decide; lia]). specialize (Hpos cur). lia.
    + pose proof (Forall_inv (en_ok _ _ _ He)) as [Hr _]. by destruct ds_nonempty.
    + cbn [counts_of fmap list_fmap flat_frames concat fst] in Hl. rewrite length_app in Hl. simpl in Hl. lia.
  - intros St buf set_buf send I Hset Hinv HI Hsend s dn cur p fs Hs _ HT Hl. cbn [st_record profile_store].
    unfold record_profile, record_known. destruct (Hinv s dn cur Hs) as (es & Hes & Hp).
    pose proof (pe_stacks _ _ Hes) as He.
    rewrite (encodes_search T _ _ _ _ He (compares_stack T _ HT)), bind_of_Ok.
    assert (Hadd : forall s1 dn1 cur1 es1, I s1 dn1 cur1 -> profile_encodes (buf s1) es1 -> profiles time_of es1 cur1 ->
      sb_stacktraces_len (pb_stacks (buf s1)) + Z.of_nat (length fs) <= size -> dn1 ++ cur1 = dn ++ cur ->
      exists s' dn' cur', (r ← (b ← add_timed 0 (time_of p) fs (buf s1); Ok (false, set_buf b s1)); Ok r.2) = Ok s' /\ I s' dn' cur' /\
        dn' ++ cur' = dn ++ cur ++ [(p, fs)] /\ True).
    { intros s1 dn1 cur1 es1 HI1 He1 Hp1 Hfit Happ.
      destruct (profile_encodes_add _ _ _ (time_of p) He1 HT Hfit) as (b & -> & Hb). rewrite !bind_of_Ok.
      exists (set_buf b s1), dn1, (cur1 ++ [(p, fs)]). split_and!; try done; [|by rewrite !app_assoc, Happ].
      apply (HI s1 dn1 cur1); [done|]. eexists. split; [exact Hb|]. by apply profiles_add. }
    destruct (search_entries_spec (fun st => bool_decide (st = fs)) (counts_of es) 0 None)
      as [[-> _]|(e1 & st & c & e2 & Hsp & Hst & Hc & _ & ->)].
    + change (bump_timed None (time_of p) (buf s)) with (Ok (A := option profile_buffer) None). rewrite bind_of_Ok. destruct (_ >? size) eqn:Hfull; bools.
      * destruct (Hsend s dn cur Hs) as (s1 & -> & HI1 & Hb1). rewrite bind_of_Ok.
        apply (Hadd s1 (dn ++ cur) [] []); [done|rewrite Hb1; apply profile_encodes_empty; lia|done| |by rewrite app_nil_r].
        rewrite Hb1. simpl. lia.
      * rewrite bind_of_Ok. by apply (Hadd s dn cur es).
    + apply bool_decide_eq_true in Hst as ->. unfold counts_of in Hsp.
      apply fmap_app_inv in Hsp as (es1 & es2' & -> & Hsp & ->). destruct es2' as [|[fs' [c' t]] es2]; [done|].
      cbn in Hsp. injection Hsp as <- <- ->.
      destruct (profile_encodes_bump _ _ _ _ _ _ (time_of p) Hes Hc) as (b & Hb & Hen).
      rewrite Z.add_0_l. unfold counts_of in Hb. rewrite Hb, !bind_of_Ok.
      exists (set_buf b s), dn, (cur ++ [(p, fs)]). split_and!; try done.
      apply (HI s dn cur); [done|]. eexists. split; [exact Hen|]. by apply profiles_bump.
Defined.
End laws.

(** From start to stop with a profile. *)
Lemma profile_accounts {P W} {SV : Services W profile_data} {SL : ServicesLaws W profile_data} (tr : tracer)
    (time_of : P -> Z) addr_of keep T {DT : Distinguishable T} header tls w s1 d defer evs :
  let ST := profile_store (tr_stack_size tr) time_of in
  tracer_ok tr -> tr_frames tr <= tr_stack_size tr ->
  Z.of_nat (String.length (traced_list tr w)) < PATH_MAX ->
  (s ← start_tracer tr ST header (tls, w); Ok (set_do_trace d (set_defer defer s.1), s.2)) = Ok s1 ->
  forallb (shallow_event tr (traced_list tr w)) evs = true ->
  Forall (fun x => T x.2) (accepted tr addr_of keep (traced_list tr w) d evs) ->
  exists s2 s3 new recs ts, run tr ST addr_of keep evs s1 = Ok (returned evs, s2) /\
    cbtf_collector_stop tr ST s2 = Ok s3 /\ sent s3.2 = sent w ++ new /\
    run_times tr ST addr_of keep evs s1 = Ok ts /\
    at_times (accepted tr addr_of keep (traced_list tr w) d evs) ts recs /\ profiles time_of (profiled new) recs.
Proof.
  intros ST Hok Hfit Hlen Hst Hsh HT. assert (Hfr : 0 <= tr_frames tr <= tr_stack_size tr) by (split; [apply Hok|done]).
  destruct (tracer_delivers (LS := profile_store_laws _ T time_of _ Hfr) tr ST addr_of keep T Hok header
    tls w s1 d defer evs Hlen Hst Hsh HT) as (s2 & s3 & new & recs & ts & H2 & H3 & Hs & Hc & Ht & Hm).
  by exists s2, s3, new, recs, ts.
Qed.
