(* ===== verification/Omptp.v ===== *)
(** The omptp collector (collectors/omptp/collector.c) and its OMPT callbacks
    (callbacks.c): a profile of the time threads spend in the tasks of OpenMP
    parallel regions, in barriers and idle. The master's callback stores the call
    stack of a region in a table of the process; the threads that run tasks of the
    region take their stack from there. The callbacks that only print are left
    out. The buffer is that of the profile builds (Profile.v). *)
From S2P Require Import Prelude Probe PCIndex Headers Services Unwind StackBuffer TraceBuffer Tracer Profile.

Definition MAX_REGIONS : Z := 8.
Definition MaxFramesPerStackTrace : Z := 32.
Definition OverheadFrameCount : Z := 2.
Definition StackTraceBufferSize (a : arch) : Z := CBTF_BlobSizeFactor a * 384.
Definition omptp_unique_id : string := "omptp".

(** ** The table of regions *)

(** A region; the frames of its stack are those in use. The ID of a free entry is 0. *)
Record CBTF_omptp_region := mkRegion { r_id : Z; r_stacktrace : list Z }.
Definition free_region : CBTF_omptp_region := mkRegion 0 [].

(** The new region goes to the first free entry, and nowhere when there is none. *)
Fixpoint CBTF_omptp_region_add (parallelID : Z) (stacktrace : list Z) (regions : list CBTF_omptp_region)
  : list CBTF_omptp_region :=
  match regions with
  | [] => []
  | r :: regions' =>
      if r_id r =? 0 then mkRegion parallelID stacktrace :: regions'
      else r :: CBTF_omptp_region_add parallelID stacktrace regions'
  end.

Fixpoint CBTF_omptp_region_clear (id : Z) (regions : list CBTF_omptp_region) : list CBTF_omptp_region :=
  match regions with
  | [] => []
  | r :: regions' =>
      if r_id r =? id then free_region :: regions' else r :: CBTF_omptp_region_clear id regions'
  end.

(** The first entry with the ID; the result is uninitialised when there is none. *)
Fixpoint CBTF_omptp_region_with_id (id : Z) (regions : list CBTF_omptp_region) : option CBTF_omptp_region :=
  match regions with
  | [] => None
  | r :: regions' => if r_id r =? id then Some r else CBTF_omptp_region_with_id id regions'
  end.

(** ** The collector *)
Record TLS := mkTLS {
  t_header : CBTF_DataHeader;
  t_buffer : profile_buffer;
  t_nesting_depth : Z;
  t_do_trace : bool;
  t_defer : bool;
  t_in_parallel_region : bool
}.
Definition set_header (h : CBTF_DataHeader) (t : TLS) : TLS :=
  mkTLS h (t_buffer t) (t_nesting_depth t) (t_do_trace t) (t_defer t) (t_in_parallel_region t).
Definition set_buffer (b : profile_buffer) (t : TLS) : TLS :=
  mkTLS (t_header t) b (t_nesting_depth t) (t_do_trace t) (t_defer t) (t_in_parallel_region t).
Definition set_nesting (n : Z) (t : TLS) : TLS :=
  mkTLS (t_header t) (t_buffer t) n (t_do_trace t) (t_defer t) (t_in_parallel_region t).
Definition set_do_trace (d : bool) (t : TLS) : TLS :=
  mkTLS (t_header t) (t_buffer t) (t_nesting_depth t) d (t_defer t) (t_in_parallel_region t).
Definition set_defer (d : bool) (t : TLS) : TLS :=
  mkTLS (t_header t) (t_buffer t) (t_nesting_depth t) (t_do_trace t) d (t_in_parallel_region t).
Definition omptp_set_in_parallel_region (flag : bool) (t : TLS) : TLS :=
  mkTLS (t_header t) (t_buffer t) (t_nesting_depth t) (t_do_trace t) (t_defer t) flag.

Section collector.
Context {W : Type} {SV : Services W profile_data} (a : arch) (keep : Z -> bool).
Notation ST := (profile_store (P := Z) (StackTraceBufferSize a) (fun time => time)).

Definition initialize_data (s : TLS * W) : outcome (TLS * W) :=
  r ← CBTF_GetTime s.2;
  let header := with_addrs (with_times (t_header s.1) r.1 0) UINT64_MAX 0 in
  Ok (set_header header (set_buffer (st_empty ST) (set_nesting 0 s.1)), r.2).

(** do_trace is cleared and stays cleared. *)
Definition send_samples (s : TLS * W) : outcome (TLS * W) :=
  let tls := set_do_trace false s.1 in
  r ← CBTF_GetTime s.2;
  let h := with_id (with_omp_tid (t_header tls) (monitor_get_thread_num s.2)) omptp_unique_id in
  let header := with_rank (with_addrs (with_times h (dh_time_begin h) r.1)
                  (st_addrs ST (t_buffer tls)).1 (st_addrs ST (t_buffer tls)).2)
                  (monitor_mpi_comm_rank r.2) in
  let tls1 := set_header header tls in
  w2 ← cbtf_collector_send header (st_blob ST (t_buffer tls1)) r.2;
  initialize_data (tls1, w2).

(** The stack of the caller, its top frame replaced by the function unless that is NULL. *)
Definition omptp_start_event (function : Z) (cursor : list frame) (tls : TLS) : outcome (list Z * TLS) :=
  fs ← CBTF_GetStackTraceFromContext keep false cursor false OverheadFrameCount MaxFramesPerStackTrace;
  Ok (if function =? 0 then fs else replace_top function fs,
      set_nesting (u32 (t_nesting_depth tls + 1)) tls).

(** do_trace is set when the stack was in the buffer, otherwise restored; nothing
    looks at it before recording. *)
Definition omptp_record_event (time : Z) (stacktrace : list Z) (s : TLS * W) : outcome (TLS * W) :=
  let saved_do_trace := t_do_trace s.1 in
  r ← record_known (StackTraceBufferSize a) (fun s : TLS * W => t_buffer s.1) (fun b s => (set_buffer b s.1, s.2))
        send_samples time stacktrace (set_do_trace false s.1, s.2);
  Ok (set_do_trace (if (r.1 : bool) then true else saved_do_trace) r.2.1, r.2.2).

Definition cbtf_collector_pause (tls : TLS) : TLS := set_do_trace false (set_defer true tls).
Definition cbtf_collector_resume (tls : TLS) : TLS := set_do_trace true (set_defer false tls).
End collector.

(** ** The callbacks *)

(** The pairs <name>_btime, <name>_ttime of the thread's storage: when it began, and
    the total (lock_btime, lock_time for a lock). *)
Inductive watch := Region | Idle | Barrier | Wbarrier | Lock | Itask | Serial | Thread.
#[export] Instance watch_eq_dec : EqDecision watch.
Proof. solve_decision. Defined.

Record cb_tls := mkCb {
  cb_active : bool;             (* collector_active *)
  cb_etime : Z;                 (* collector_etime *)
  cb_btime : watch -> Z;
  cb_ttime : watch -> Z;
  cb_stacktrace : list Z;       (* stacktrace, stacktrace_size *)
  cb_region_event : Z;          (* region_event.time *)
  cb_task_event : Z             (* task_event.time *)
}.
Definition set_active (flag : bool) (etime : Z) (c : cb_tls) : cb_tls :=
  mkCb flag etime (cb_btime c) (cb_ttime c) (cb_stacktrace c) (cb_region_event c) (cb_task_event c).
Definition upd (w : watch) (v : Z) (f : watch -> Z) : watch -> Z := fun x => if decide (x = w) then v else f x.
Definition set_btime (w : watch) (v : Z) (c : cb_tls) : cb_tls :=
  mkCb (cb_active c) (cb_etime c) (upd w v (cb_btime c)) (cb_ttime c) (cb_stacktrace c) (cb_region_event c) (cb_task_event c).
Definition set_ttime (w : watch) (v : Z) (c : cb_tls) : cb_tls :=
  mkCb (cb_active c) (cb_etime c) (cb_btime c) (upd w v (cb_ttime c)) (cb_stacktrace c) (cb_region_event c) (cb_task_event c).
Definition set_stacktrace (st : list Z) (c : cb_tls) : cb_tls :=
  mkCb (cb_active c) (cb_etime c) (cb_btime c) (cb_ttime c) st (cb_region_event c) (cb_task_event c).
Definition set_region_event (t : Z) (c : cb_tls) : cb_tls :=
  mkCb (cb_active c) (cb_etime c) (cb_btime c) (cb_ttime c) (cb_stacktrace c) t (cb_task_event c).
Definition set_task_event (t : Z) (c : cb_tls) : cb_tls :=
  mkCb (cb_active c) (cb_etime c) (cb_btime c) (cb_ttime c) (cb_stacktrace c) (cb_region_event c) t.
(** <name>_ttime += t *)
Definition add_ttime (w : watch) (t : Z) (c : cb_tls) : cb_tls := set_ttime w (u64 (cb_ttime c w + t)) c.

(** What the threads share. *)
Record shared := mkShared {
  sh_regions : list CBTF_omptp_region;   (* Regions.values *)
  sh_context : Z                         (* current_region_context *)
}.

(** A thread, with the shared variables and the rest of the process. *)
Record state (W : Type) := mkState {
  st_shared : shared;
  st_cb : cb_tls;
  st_tls : TLS;
  st_world : W
}.
Arguments mkState {W}. Arguments st_shared {W}. Arguments st_cb {W}. Arguments st_tls {W}. Arguments st_world {W}.

Section callbacks.
Context {W : Type} {SV : Services W profile_data} (a : arch) (keep : Z -> bool).
Context (IDLE BARRIER WAIT_BARRIER : Z).     (* addresses of the functions *)
Notation ST := (profile_store (P := Z) (StackTraceBufferSize a) (fun time => time)).
Notation state := (state W).

(** CBTF_GetTime() for the callback's own storage. *)
Definition with_time (f : Z -> cb_tls -> cb_tls) (s : state) : outcome state :=
  r ← CBTF_GetTime (st_world s); Ok (mkState (st_shared s) (f r.1 (st_cb s)) (st_tls s) r.2).

Definition record (time : Z) (stacktrace : list Z) (s : state) : outcome state :=
  r ← omptp_record_event a time stacktrace (st_tls s, st_world s);
  Ok (mkState (st_shared s) (st_cb s) r.1 r.2).

Definition CBTF_ompt_set_collector_active (flag : bool) (s : state) : outcome state :=
  with_time (fun t => set_active flag t) s.

Definition CBTF_ompt_cb_parallel_begin (parallelID parallel_function : Z) (cursor : list frame) (s : state) : outcome state :=
  s1 ← with_time (set_btime Region) s;
  e ← omptp_start_event keep parallel_function cursor (st_tls s1);
  Ok (mkState (mkShared (CBTF_omptp_region_add parallelID e.1 (sh_regions (st_shared s1))) parallel_function)
        (set_region_event 0 (st_cb s1)) e.2 (st_world s1)).

Definition CBTF_ompt_cb_parallel_end (parallelID : Z) (s : state) : outcome state :=
  s1 ← with_time (fun t c => add_ttime Region (u64 (t - cb_btime c Region)) c) s;
  s2 ← with_time (fun t c => set_region_event (u64 (t - cb_btime c Region)) c) s1;
  Ok (mkState (mkShared (CBTF_omptp_region_clear parallelID (sh_regions (st_shared s2))) 0)
        (st_cb s2) (st_tls s2) (st_world s2)).

Definition CBTF_ompt_cb_thread_begin (s : state) : outcome state :=
  with_time (fun t c =>
    set_ttime Lock 0 (set_btime Lock 0 (set_btime Thread t (set_btime Serial t
      (set_ttime Serial 0 (set_ttime Itask 0 (set_ttime Wbarrier 0 (set_ttime Barrier 0
        (set_ttime Idle 0 (set_ttime Region 0 (set_active (cb_active c) 0 c))))))))))) s.

Definition CBTF_ompt_cb_thread_end (s : state) : outcome state :=
  let c := st_cb s in
  Ok (mkState (st_shared s) (set_ttime Thread (u64 (cb_etime c - cb_btime c Thread)) c) (st_tls s) (st_world s)).

Definition CBTF_ompt_cb_acquired_lock (s : state) : outcome state := with_time (set_btime Lock) s.
Definition CBTF_ompt_cb_release_lock (s : state) : outcome state :=
  with_time (fun t c => add_ttime Lock (u64 (t - cb_btime c Lock)) c) s.

(** The stack an event is recorded with: [address] on top of the stack of the task,
    in an array of as many frames, so that its last frame is dropped; a full array
    is filled but for its last element, which has the value [junk] it happens to have. *)
Definition blamed (address junk : Z) (stacktrace : list Z) : list Z :=
  let size := length stacktrace in
  let adjusted_size := if Z.of_nat size =? MaxFramesPerStackTrace then (size - 1)%nat else size in
  match adjusted_size with
  | O => []
  | S n => address :: take n stacktrace
  end ++ replicate (size - adjusted_size) junk.

Definition CBTF_ompt_cb_barrier_begin (s : state) : outcome state := with_time (set_btime Barrier) s.

(** barrier_end and wait_barrier_end, with the name of their times and the address
    recorded; the time is read twice, and added to the total twice. *)
Definition waited (w : watch) (address junk : Z) (s : state) : outcome state :=
  s1 ← with_time (fun t c => add_ttime w (u64 (t - cb_btime c w)) c) s;
  r ← CBTF_GetTime (st_world s1);
  let t := u64 (r.1 - cb_btime (st_cb s1) w) in
  record t (blamed address junk (cb_stacktrace (st_cb s1)))
    (mkState (st_shared s1) (add_ttime w t (st_cb s1)) (st_tls s1) r.2).

Definition CBTF_ompt_cb_barrier_end (junk : Z) (s : state) : outcome state := waited Barrier BARRIER junk s.
Definition CBTF_ompt_cb_wait_barrier_begin (s : state) : outcome state := with_time (set_btime Wbarrier) s.
Definition CBTF_ompt_cb_wait_barrier_end (junk : Z) (s : state) : outcome state := waited Wbarrier WAIT_BARRIER junk s.

Definition CBTF_ompt_cb_implicit_task_begin (parallelID : Z) (s : state) : outcome state :=
  s1 ← with_time (fun t c => set_task_event 0 (add_ttime Serial (u64 (t - cb_btime c Serial)) (set_btime Itask t c))) s;
  match CBTF_omptp_region_with_id parallelID (sh_regions (st_shared s1)) with
  | Some r => Ok (mkState (st_shared s1) (set_stacktrace (r_stacktrace r) (st_cb s1)) (st_tls s1) (st_world s1))
  | None => Fault          (* the size of an uninitialised stack *)
  end.

Definition CBTF_ompt_cb_implicit_task_end (s : state) : outcome state :=
  s1 ← with_time (fun etime c =>
    let t := u64 (etime - cb_btime c Itask) in
    add_ttime Itask t (set_task_event t (set_btime Serial etime c))) s;
  record (cb_task_event (st_cb s1)) (cb_stacktrace (st_cb s1)) s1.

Definition CBTF_ompt_cb_idle_begin (s : state) : outcome state := with_time (set_btime Idle) s.

(** When the collector was stopped, the idle time ends there. *)
Definition CBTF_ompt_cb_idle_end (junk : Z) (s : state) : outcome state :=
  let c := st_cb s in
  r ← (if cb_active c then CBTF_GetTime (st_world s) else Ok (cb_etime c, st_world s));
  let t := u64 (r.1 - cb_btime c Idle) in
  record t (blamed IDLE junk (cb_stacktrace c)) (mkState (st_shared s) (add_ttime Idle t c) (st_tls s) r.2).

(** *** Start and stop of the collector *)
Definition cbtf_collector_start (header : CBTF_DataHeader) (s : state) : outcome state :=
  let tls0 := omptp_set_in_parallel_region false (set_do_trace false (set_defer true (st_tls s))) in
  r ← initialize_data a (set_header header tls0, st_world s);
  let tls1 := set_nesting 0 r.1 in
  t ← CBTF_GetTime r.2;
  let h := t_header tls1 in
  let tls2 := set_do_trace true (set_defer false (set_header (with_times h t.1 (dh_time_end h)) tls1)) in
  CBTF_ompt_set_collector_active true (mkState (st_shared s) (st_cb s) tls2 t.2).

Definition cbtf_collector_stop (s : state) : outcome state :=
  r ← CBTF_GetTime (st_world s);
  let h := t_header (st_tls s) in
  let tls1 := set_header (with_times h (dh_time_begin h) r.1) (st_tls s) in
  s1 ← CBTF_ompt_set_collector_active false (mkState (st_shared s) (st_cb s) tls1 r.2);
  let tls2 := set_do_trace false (st_tls s1) in
  r2 ← (if st_unsent ST (t_buffer tls2) then send_samples a (tls2, st_world s1) else Ok (tls2, st_world s1));
  Ok (mkState (st_shared s1) (st_cb s1) r2.1 r2.2).

(** ** What happens to a thread

    Its own callbacks, pauses and resumes, and the regions other threads begin and
    end meanwhile. *)
Inductive event :=
| ParallelBegin (id function : Z) (cursor : list frame)
| ParallelEnd (id : Z)
| OtherBegin (id function : Z) (stacktrace : list Z)
| OtherEnd (id : Z)
| ThreadBegin
| ThreadEnd
| AcquiredLock
| ReleaseLock
| TaskBegin (id : Z)
| TaskEnd
| BarrierBegin
| BarrierEnd (junk : Z)
| WaitBegin
| WaitEnd (junk : Z)
| IdleBegin
| IdleEnd (junk : Z)
| Pause
| Resume.

Definition on_tls (f : TLS -> TLS) (s : state) : state := mkState (st_shared s) (st_cb s) (f (st_tls s)) (st_world s).
Definition on_shared (sh : shared) (s : state) : state := mkState sh (st_cb s) (st_tls s) (st_world s).

Definition step (ev : event) (s : state) : outcome state :=
  match ev with
  | ParallelBegin id function cursor => CBTF_ompt_cb_parallel_begin id function cursor s
  | ParallelEnd id => CBTF_ompt_cb_parallel_end id s
  | OtherBegin id function st =>
      Ok (on_shared (mkShared (CBTF_omptp_region_add id st (sh_regions (st_shared s))) function) s)
  | OtherEnd id => Ok (on_shared (mkShared (CBTF_omptp_region_clear id (sh_regions (st_shared s))) 0) s)
  | ThreadBegin => CBTF_ompt_cb_thread_begin s
  | ThreadEnd => CBTF_ompt_cb_thread_end s
  | AcquiredLock => CBTF_ompt_cb_acquired_lock s
  | ReleaseLock => CBTF_ompt_cb_release_lock s
  | TaskBegin id => CBTF_ompt_cb_implicit_task_begin id s
  | TaskEnd => CBTF_ompt_cb_implicit_task_end s
  | BarrierBegin => CBTF_ompt_cb_barrier_begin s
  | BarrierEnd junk => CBTF_ompt_cb_barrier_end junk s
  | WaitBegin => CBTF_ompt_cb_wait_barrier_begin s
  | WaitEnd junk => CBTF_ompt_cb_wait_barrier_end junk s
  | IdleBegin => CBTF_ompt_cb_idle_begin s
  | IdleEnd junk => CBTF_ompt_cb_idle_end junk s
  | Pause => Ok (on_tls cbtf_collector_pause s)
  | Resume => Ok (on_tls cbtf_collector_resume s)
  end.

Fixpoint run (evs : list event) (s : state) : outcome state :=
  match evs with
  | [] => Ok s
  | ev :: evs' => s' ← step ev s; run evs' s'
  end.
End callbacks.

(** ** The table as a finite map *)
Definition in_use (r : CBTF_omptp_region) : Prop := r_id r <> 0.
#[export] Instance in_use_dec r : Decision (in_use r).
Proof. unfold in_use. apply _. Defined.

Definition regions_list (regions : list CBTF_omptp_region) : list (Z * list Z) :=
  (fun r => (r_id r, r_stacktrace r)) <$> filter in_use regions.
Definition regions_map (regions : list CBTF_omptp_region) : gmap Z (list Z) := list_to_map (regions_list regions).

(** At most one entry per ID, in a table of the right size. *)
Definition regions_ok (regions : list CBTF_omptp_region) : Prop :=
  Z.of_nat (length regions) = MAX_REGIONS /\ NoDup (regions_list regions).*1.

Lemma regions_list_used r rs : in_use r -> regions_list (r :: rs) = (r_id r, r_stacktrace r) :: regions_list rs.
Proof. intros H. unfold regions_list. by rewrite filter_cons_True. Qed.
Lemma regions_list_free r rs : r_id r = 0 -> regions_list (r :: rs) = regions_list rs.
Proof. intros H. unfold regions_list. rewrite filter_cons_False; [done|]. by intros []. Qed.

Lemma regions_map_size rs : NoDup (regions_list rs).*1 -> size (regions_map rs) = length (regions_list rs).
Proof. intros H. unfold regions_map. by apply map_size_list_to_map. Qed.

Lemma regions_dom rs id : id ∈ (regions_list rs).*1 <-> is_Some (regions_map rs !! id).
Proof.
  unfold regions_map. rewrite <- not_eq_None_Some, <- not_elem_of_list_to_map.
  split; [intros H H'; done|]. intros H. by apply dec_stable.
Qed.

Lemma region_add_length id st rs : length (CBTF_omptp_region_add id st rs) = length rs.
Proof. induction rs as [|r rs IH]; simpl; [done|]. destruct (r_id r =? 0); simpl; [done|]. by rewrite IH. Qed.
Lemma region_clear_length id rs : length (CBTF_omptp_region_clear id rs) = length rs.
Proof. induction rs as [|r rs IH]; simpl; [done|]. destruct (r_id r =? id); simpl; [done|]. by rewrite IH. Qed.

(** With a free entry the new region is added. *)
Lemma region_add_list id st rs :
  id <> 0 -> (length (regions_list rs) < length rs)%nat ->
  regions_list (CBTF_omptp_region_add id st rs) ≡ₚ (id, st) :: regions_list rs.
Proof.
  intros Hid. induction rs as [|r rs IH]; intros Hfree; [simpl in Hfree; lia|]. cbn [CBTF_omptp_region_add].
  destruct (r_id r =? 0) eqn:Hr; bools.
  - rewrite regions_list_used by exact Hid. by rewrite (regions_list_free r).
  - rewrite !regions_list_used in * by done. simpl in Hfree. rewrite IH by lia. apply Permutation_swap.
Qed.

Lemma region_clear_list id rs :
  id <> 0 -> NoDup (regions_list rs).*1 ->
  regions_map (CBTF_omptp_region_clear id rs) = delete id (regions_map rs) /\
  NoDup (regions_list (CBTF_omptp_region_clear id rs)).*1.
Proof.
  intros Hid. induction rs as [|r rs IH]; intros Hnd.
  { split; [|done]. unfold regions_map. simpl. by rewrite delete_empty. }
  cbn [CBTF_omptp_region_clear]. destruct (r_id r =? id) eqn:Hr; bools.
  - unfold regions_map in *. rewrite (regions_list_free free_region) by done. rewrite regions_list_used in * by (unfold in_use; lia).
    simpl in *. apply NoDup_cons in Hnd as [Hni Hnd]. split; [|done]. subst id. symmetry. apply delete_insert_id.
    by apply not_elem_of_list_to_map.
  - destruct (decide (in_use r)) as [Hu|Hu].
    + unfold regions_map in *. rewrite !regions_list_used in * by done. simpl in *. apply NoDup_cons in Hnd as [Hni Hnd].
      destruct (IH Hnd) as [Hm Hn]. rewrite Hm, delete_insert_ne by done. split; [done|]. apply NoDup_cons. split; [|done].
      change (r_id r ∉ (regions_list (CBTF_omptp_region_clear id rs)).*1). rewrite regions_dom. unfold regions_map. rewrite Hm.
      rewrite lookup_delete_ne by done. intros Hsome. apply Hni. by apply regions_dom.
    + apply dec_stable in Hu. unfold regions_map in *. rewrite !(regions_list_free r) in * by done. by apply IH.
Qed.

Lemma region_with_id_map id rs :
  id <> 0 -> r_stacktrace <$> CBTF_omptp_region_with_id id rs = regions_map rs !! id.
Proof.
  intros Hid. induction rs as [|r rs IH]; [done|]. cbn [CBTF_omptp_region_with_id]. unfold regions_map in *.
  destruct (decide (in_use r)) as [Hu|Hu].
  - rewrite regions_list_used by done. simpl. destruct (r_id r =? id) eqn:Hr; bools.
    + subst id. by rewrite lookup_insert_eq.
    + by rewrite lookup_insert_ne.
  - apply dec_stable in Hu. rewrite regions_list_free, Hu by done. by replace (0 =? id) with false by lia.
Qed.

Lemma region_add_full id st rs :
  length (regions_list rs) = length rs -> CBTF_omptp_region_add id st rs = rs.
Proof.
  assert (Hle : forall l, (length (regions_list l) <= length l)%nat)
    by (intros l; unfold regions_list; rewrite length_fmap; apply length_filter).
  induction rs as [|r rs IH]; intros Hfull; [done|]. cbn [CBTF_omptp_region_add].
  destruct (r_id r =? 0) eqn:Hr; bools.
  - rewrite regions_list_free in Hfull by done. specialize (Hle rs). simpl in Hfull. lia.
  - rewrite regions_list_used in Hfull by done. injection Hfull as Hfull. by rewrite IH.
Qed.

(** Adding a region that is not in the table: it is in the map, or the table is full. *)
Lemma region_add_map id st rs :
  regions_ok rs -> id <> 0 -> regions_map rs !! id = None ->
  regions_ok (CBTF_omptp_region_add id st rs) /\
  regions_map (CBTF_omptp_region_add id st rs) =
    (if decide (Z.of_nat (size (regions_map rs)) < MAX_REGIONS) then <[id := st]> (regions_map rs) else regions_map rs).
Proof.
  intros [Hlen Hnd] Hid Hnone. rewrite (regions_map_size rs Hnd).
  assert (Hle : (length (regions_list rs) <= length rs)%nat)
    by (unfold regions_list; rewrite length_fmap; apply length_filter).
  case_decide as Hfree.
  - assert (Hp := region_add_list id st rs Hid ltac:(lia)).
    assert (Hnd' : NoDup ((id, st) :: regions_list rs).*1).
    { rewrite fmap_cons. apply NoDup_cons. split; [|done]. rewrite regions_dom. cbn [fst]. rewrite Hnone. by intros []. }
    assert (Hnd2 : NoDup (regions_list (CBTF_omptp_region_add id st rs)).*1) by (by rewrite Hp).
    split; [split; [by rewrite region_add_length|done]|].
    unfold regions_map. by rewrite (list_to_map_proper _ _ Hnd2 Hp).
  - rewrite region_add_full by lia. by split.
Qed.

Lemma region_clear_map id rs :
  regions_ok rs -> id <> 0 ->
  regions_ok (CBTF_omptp_region_clear id rs) /\ regions_map (CBTF_omptp_region_clear id rs) = delete id (regions_map rs).
Proof.
  intros [Hlen Hnd] Hid. destruct (region_clear_list id rs Hid Hnd) as [Hm Hn].
  split; [split; [by rewrite region_clear_length|done]|done].
Qed.

(** C15: the table of regions implements a finite map of at most eight region IDs to
    call stacks: looking an ID up, clearing it and adding a new one act on the map
    as lookup, delete and insert, but for the ninth region at a time, which is not
    stored. *)
Theorem omptp_regions_refine (regions : list CBTF_omptp_region) (id : Z) :
  regions_ok regions -> id <> 0 ->
  r_stacktrace <$> CBTF_omptp_region_with_id id regions = regions_map regions !! id /\
  (regions_ok (CBTF_omptp_region_clear id regions) /\
   regions_map (CBTF_omptp_region_clear id regions) = delete id (regions_map regions)) /\
  forall stacktrace, regions_map regions !! id = None ->
    regions_ok (CBTF_omptp_region_add id stacktrace regions) /\
    regions_map (CBTF_omptp_region_add id stacktrace regions) =
      (if decide (Z.of_nat (size (regions_map regions)) < MAX_REGIONS)
       then <[id := stacktrace]> (regions_map regions) else regions_map regions).
Proof.
  intros Hok Hid. split; [by apply region_with_id_map|]. split; [by apply region_clear_map|].
  intros st Hnone. by apply region_add_map.
Qed.

(** ** What is to be recorded

    The stacks of a thread's records, given the regions and the stack of the last
    task; [None] when a task belongs to no region of the table, or a region has
    an ID in use or is the ninth. *)
Section recorded.
Context (keep : Z -> bool) (IDLE BARRIER WAIT_BARRIER : Z).

Definition region_stack (function : Z) (cursor : list frame) : list Z :=
  let fs := take (Z.to_nat MaxFramesPerStackTrace) (List.filter keep (fr_pc <$> drop (Z.to_nat OverheadFrameCount) cursor)) in
  if function =? 0 then fs else replace_top function fs.

Definition may_add (id : Z) (stacktrace : list Z) (m : gmap Z (list Z)) : Prop :=
  id <> 0 /\ m !! id = None /\ Z.of_nat (size m) < MAX_REGIONS /\ Z.of_nat (length stacktrace) <= MaxFramesPerStackTrace.
#[export] Instance may_add_dec id stacktrace m : Decision (may_add id stacktrace m).
Proof. unfold may_add. apply _. Defined.

Fixpoint recorded (m : gmap Z (list Z)) (st : list Z) (evs : list event) : option (list (list Z)) :=
  match evs with
  | [] => Some []
  | ParallelBegin id function cursor :: evs' =>
      if decide (may_add id (region_stack function cursor) m)
      then recorded (<[id := region_stack function cursor]> m) st evs' else None
  | OtherBegin id _ stacktrace :: evs' =>
      if decide (may_add id stacktrace m) then recorded (<[id := stacktrace]> m) st evs' else None
  | ParallelEnd id :: evs' | OtherEnd id :: evs' =>
      if decide (id <> 0) then recorded (delete id m) st evs' else None
  | TaskBegin id :: evs' =>
      if decide (id <> 0) then st' ← m !! id; recorded m st' evs' else None
  | TaskEnd :: evs' => l ← recorded m st evs'; Some (st :: l)
  | BarrierEnd junk :: evs' => l ← recorded m st evs'; Some (blamed BARRIER junk st :: l)
  | WaitEnd junk :: evs' => l ← recorded m st evs'; Some (blamed WAIT_BARRIER junk st :: l)
  | IdleEnd junk :: evs' => l ← recorded m st evs'; Some (blamed IDLE junk st :: l)
  | _ :: evs' => recorded m st evs'
  end.
End recorded.

(** ** How long it took

    The time of each record: from the clock's reading in the last callback that began the
    task, barrier, wait or idle time ([began] before the first) to the reading in
    the callback that ends it, the second reading for barriers and waits. *)
Section lasted.
Context {W : Type} {SV : Services W profile_data} (a : arch) (keep : Z -> bool) (IDLE BARRIER WAIT_BARRIER : Z).

Definition begins (ev : event) : option watch :=
  match ev with
  | TaskBegin _ => Some Itask | BarrierBegin => Some Barrier | WaitBegin => Some Wbarrier | IdleBegin => Some Idle
  | _ => None
  end.

Definition ends (ev : event) : option watch :=
  match ev with
  | TaskEnd => Some Itask | BarrierEnd _ => Some Barrier | WaitEnd _ => Some Wbarrier | IdleEnd _ => Some Idle
  | _ => None
  end.

Definition elapsed (ev : event) (began : watch -> Z) (w : W) : outcome (list Z) :=
  match ends ev with
  | None => Ok []
  | Some x =>
      now ← CBTF_GetTime w;
      later ← (if decide (x = Barrier \/ x = Wbarrier) then CBTF_GetTime now.2 else Ok now);
      Ok [u64 (later.1 - began x)]
  end.

Definition began_by (ev : event) (began : watch -> Z) (w : W) : outcome (watch -> Z) :=
  match begins ev with
  | None => Ok began
  | Some x => now ← CBTF_GetTime w; Ok (upd x now.1 began)
  end.

Fixpoint lasted (evs : list event) (began : watch -> Z) (s : state W) : outcome (list Z) :=
  match evs with
  | [] => Ok []
  | ev :: evs' =>
      ts ← elapsed ev began (st_world s);
      began' ← began_by ev began (st_world s);
      s' ← step a keep IDLE BARRIER WAIT_BARRIER ev s;
      ts' ← lasted evs' began' s';
      Ok (ts ++ ts')
  end.
End lasted.

Lemma region_stack_length keep function cursor :
  Z.of_nat (length (region_stack keep function cursor)) <= MaxFramesPerStackTrace.
Proof.
  unfold region_stack. set (fs := take _ _).
  assert (length fs <= Z.to_nat MaxFramesPerStackTrace)%nat as Hfs by (unfold fs; rewrite length_take; apply Nat.le_min_l).
  clearbody fs. assert (length (replace_top function fs) = length fs) as Hr by (by destruct fs).
  unfold MaxFramesPerStackTrace in *. destruct (function =? 0); rewrite ?Hr; lia.
Qed.

Lemma blamed_length address junk st : length (blamed address junk st) = length st.
Proof.
  unfold blamed. rewrite length_app, length_replicate. 
  set (n := if Z.of_nat (length st) =? _ then (length st - 1)%nat else length st).
  assert (n <= length st)%nat as Hn by (unfold n; destruct (_ =? _); lia). clearbody n.
  destruct n as [|n]; simpl; [lia|]. rewrite length_take. lia.
Qed.

Section correctness.
Context {W : Type} {SV : Services W profile_data} {SL : ServicesLaws W profile_data}.
Context (a : arch) (keep : Z -> bool) (IDLE BARRIER WAIT_BARRIER : Z).
Context (T : list Z -> Prop) {DT : Distinguishable T}.
Notation SZ := (StackTraceBufferSize a).
Notation time_of := (fun time : Z => time).
Notation holds := (profile_holds SZ T time_of).
Notation ST := (profile_store (P := Z) SZ time_of).

Lemma buffer_fits : 0 <= MaxFramesPerStackTrace <= SZ.
Proof. destruct a; by vm_compute. Qed.

(** Since [w0] the blobs sent have the profile of [dn], and the buffer that of [cur]. *)
Definition om_buffer (w0 : W) (s : TLS * W) (dn cur : list (Z * list Z)) : Prop :=
  holds (t_buffer s.1) cur /\
  exists new, sent s.2 = sent w0 ++ new /\ profiles time_of (profiled new) dn.

Definition om_inv (w0 : W) (m : gmap Z (list Z)) (st : list Z) (s : state W) (dn cur : list (Z * list Z)) : Prop :=
  om_buffer w0 (st_tls s, st_world s) dn cur /\
  regions_ok (sh_regions (st_shared s)) /\ regions_map (sh_regions (st_shared s)) = m /\
  map_Forall (fun _ t => Z.of_nat (length t) <= MaxFramesPerStackTrace) m /\
  cb_stacktrace (st_cb s) = st /\ Z.of_nat (length st) <= MaxFramesPerStackTrace.

Lemma om_send_ok w0 s dn cur :
  om_buffer w0 s dn cur ->
  exists s', send_samples a s = Ok s' /\ om_buffer w0 s' (dn ++ cur) [] /\ t_buffer s'.1 = st_empty ST.
Proof.
  destruct s as [tls w]. intros (Hb & new & Hs & Hp). cbn [fst snd] in *. unfold send_samples. cbn [fst snd].
  destruct (time_law w) as (t & w1 & -> & _ & Hs1). rewrite bind_of_Ok. cbn [fst snd].
  match goal with |- context [cbtf_collector_send ?h ?b ?w'] =>
    destruct (send_law h b w') as (w3 & -> & Hs3) end. rewrite bind_of_Ok.
  unfold initialize_data. cbn [fst snd]. destruct (time_law w3) as (t' & w4 & -> & _ & Hs4). rewrite bind_of_Ok.
  eexists. split; [reflexivity|]. split; [|done]. split; cbn [fst snd].
  - apply (st_holds_empty (StoreLaws := profile_store_laws SZ T time_of _ buffer_fits)).
  - eexists (new ++ [_]). split; [by rewrite Hs4, Hs3, Hs1, Hs, <- app_assoc|].
    by apply (st_conveys_blob (StoreLaws := profile_store_laws SZ T time_of _ buffer_fits)).
Qed.

(** A record of a stack is added. *)
Lemma om_record_ok w0 m st s dn cur time stack :
  om_inv w0 m st s dn cur -> T stack -> Z.of_nat (length stack) <= MaxFramesPerStackTrace ->
  exists s' dn' cur', record a time stack s = Ok s' /\ om_inv w0 m st s' dn' cur' /\
    dn' ++ cur' = dn ++ cur ++ [(time, stack)].
Proof.
  destruct s as [sh cb tls w]. intros (Hb & Hrest) HT Hl. cbn [st_tls st_world st_cb st_shared] in *.
  unfold record, omptp_record_event. cbn [st_tls st_world st_cb st_shared fst snd].
  set (buf := fun s : TLS * W => t_buffer s.1). set (set_buf := fun (b : profile_buffer) (s : TLS * W) => (set_buffer b s.1, s.2)).
  destruct (st_record_law (StoreLaws := profile_store_laws SZ T time_of _ buffer_fits) buf set_buf (send_samples a)
    (om_buffer w0)) with (s := (set_do_trace false tls, w)) (dn := dn) (cur := cur) (p := time) (fs := stack)
    as (s' & dn' & cur' & Hr & HI & Happ & _); try done.
  - intros s dn0 cur0 Hi. apply Hi.
  - intros s dn0 cur0 cur1 b (_ & Hn) Hb1. by split.
  - intros s dn0 cur0 Hi. by apply om_send_ok.
  - apply record_profile_known in Hr as (known & ->). rewrite !bind_of_Ok. cbn [fst snd].
    eexists _, dn', cur'. split; [reflexivity|]. by split.
Qed.

Lemma om_time_ok w0 m st s dn cur f :
  om_inv w0 m st s dn cur -> (forall t c, cb_stacktrace (f t c) = cb_stacktrace c) ->
  exists s', with_time f s = Ok s' /\ om_inv w0 m st s' dn cur.
Proof.
  destruct s as [sh cb tls w]. intros ((Hb & new & Hs & Hp) & Hrest) Hf. unfold with_time. cbn [st_tls st_world st_cb st_shared fst snd] in *.
  destruct (time_law w) as (t & w1 & -> & _ & Hs1). rewrite bind_of_Ok. eexists. split; [reflexivity|].
  split; [split; [done|]; exists new; cbn; by rewrite Hs1|]. cbn [st_shared st_cb]. by rewrite Hf.
Qed.

(** Changes of what records do not depend on. *)
Lemma om_inv_cb w0 m st s dn cur c' :
  om_inv w0 m st s dn cur -> cb_stacktrace c' = cb_stacktrace (st_cb s) ->
  om_inv w0 m st (mkState (st_shared s) c' (st_tls s) (st_world s)) dn cur.
Proof. destruct s. intros H Hc. unfold om_inv in *. cbn in *. by rewrite Hc. Qed.

Lemma om_inv_tls w0 m st s dn cur tls' :
  om_inv w0 m st s dn cur -> t_buffer tls' = t_buffer (st_tls s) ->
  om_inv w0 m st (mkState (st_shared s) (st_cb s) tls' (st_world s)) dn cur.
Proof. destruct s. intros ((Hb & Hn) & Hrest) Ht. split; [|done]. split; [cbn; by rewrite Ht|done]. Qed.

Lemma om_inv_world w0 m st s dn cur w' :
  om_inv w0 m st s dn cur -> sent w' = sent (st_world s) ->
  om_inv w0 m st (mkState (st_shared s) (st_cb s) (st_tls s) w') dn cur.
Proof.
  destruct s. intros ((Hb & new & Hn & Hp) & Hrest) Hw. split; [|done]. split; [done|]. exists new. cbn in *. by rewrite Hw.
Qed.

Lemma om_inv_moves w0 m st s dn cur c' w' :
  om_inv w0 m st s dn cur -> cb_stacktrace c' = cb_stacktrace (st_cb s) -> sent w' = sent (st_world s) ->
  om_inv w0 m st (mkState (st_shared s) c' (st_tls s) w') dn cur.
Proof. intros HI Hc Hw. apply (om_inv_cb w0 m st (mkState (st_shared s) (st_cb s) (st_tls s) w')); [by apply om_inv_world|exact Hc]. Qed.

(** Regions come and go. *)
Lemma om_inv_add w0 m st s dn cur id stack context :
  om_inv w0 m st s dn cur -> may_add id stack m ->
  om_inv w0 (<[id := stack]> m) st
    (on_shared (mkShared (CBTF_omptp_region_add id stack (sh_regions (st_shared s))) context) s) dn cur.
Proof.
  destruct s as [[rs ctx] cb tls w]. intros (Hb & Hok & Hm & Hall & Hst) (Hid & Hnone & Hsize & Hl). cbn in *. subst m.
  destruct (region_add_map id stack rs Hok Hid Hnone) as [Hok' Hm']. rewrite decide_True in Hm' by done.
  split; [done|]. split; [done|]. split; [done|]. split; [by apply map_Forall_insert_2|done].
Qed.

Lemma om_inv_clear w0 m st s dn cur id context :
  om_inv w0 m st s dn cur -> id <> 0 ->
  om_inv w0 (delete id m) st
    (on_shared (mkShared (CBTF_omptp_region_clear id (sh_regions (st_shared s))) context) s) dn cur.
Proof.
  destruct s as [[rs ctx] cb tls w]. intros (Hb & Hok & Hm & Hall & Hst) Hid. cbn in *. subst m.
  destruct (region_clear_map id rs Hok Hid) as [Hok' Hm'].
  split; [done|]. split; [done|]. split; [done|]. split; [by apply map_Forall_delete|done].
Qed.

(** What the thread's storage says of the clock. *)
Definition keeps_time (began : watch -> Z) (s : state W) : Prop :=
  cb_active (st_cb s) = true /\
  forall ev x, begins ev = Some x -> cb_btime (st_cb s) x = began x.

Lemma ends_begins ev x : ends ev = Some x -> exists ev', begins ev' = Some x.
Proof. destruct ev; try done; intros [= <-]; [by exists (TaskBegin 0)|by exists BarrierBegin|by exists WaitBegin|by exists IdleBegin]. Qed.

(** Decide where a watch began. *)
Ltac watches Hb :=
  split; [exact (proj1 Hb)|]; intros ev' x' Hx'; destruct ev'; try discriminate Hx'; injection Hx' as <-; cbn;
  first [reflexivity|apply (proj2 Hb (TaskBegin 0)); reflexivity|apply (proj2 Hb BarrierBegin); reflexivity
        |apply (proj2 Hb WaitBegin); reflexivity|apply (proj2 Hb IdleBegin); reflexivity].

Lemma keeps_time_step ev s s' began :
  keeps_time began s -> step a keep IDLE BARRIER WAIT_BARRIER ev s = Ok s' ->
  exists began', began_by ev began (st_world s) = Ok began' /\ keeps_time began' s'.
Proof.
  intros Hb Hstep. unfold began_by.
  destruct ev; cbn [step begins] in *;
    unfold CBTF_ompt_cb_parallel_begin, CBTF_ompt_cb_parallel_end, CBTF_ompt_cb_thread_begin, CBTF_ompt_cb_thread_end,
      CBTF_ompt_cb_acquired_lock, CBTF_ompt_cb_release_lock, CBTF_ompt_cb_implicit_task_begin,
      CBTF_ompt_cb_implicit_task_end, CBTF_ompt_cb_barrier_begin, CBTF_ompt_cb_barrier_end,
      CBTF_ompt_cb_wait_barrier_begin, CBTF_ompt_cb_wait_barrier_end, CBTF_ompt_cb_idle_begin, CBTF_ompt_cb_idle_end,
      waited, record, with_time in Hstep;
    inv_ok; repeat case_match; inv_ok;
    (eexists; split; [first [reflexivity|match goal with H : CBTF_GetTime _ = Ok _ |- _ => rewrite H; reflexivity end]|watches Hb]).
Qed.

Lemma om_waited_ok w0 m st s dn cur ev w address junk began :
  om_inv w0 m st s dn cur -> T (blamed address junk st) -> keeps_time began s ->
  ends ev = Some w -> w = Barrier \/ w = Wbarrier ->
  exists s' dn' cur' time, waited a w address junk s = Ok s' /\ om_inv w0 m st s' dn' cur' /\
    dn' ++ cur' = dn ++ cur ++ [(time, blamed address junk st)] /\ elapsed ev began (st_world s) = Ok [time].
Proof.
  intros HI HT [_ Hb] Hev Hw. destruct (ends_begins ev w Hev) as [ev' Hev']. specialize (Hb ev' w Hev').
  unfold waited, elapsed. rewrite Hev. unfold with_time.
  destruct (time_law (st_world s)) as (t1 & w1 & -> & _ & Hs1). rewrite !bind_of_Ok, decide_True by done.
  cbn [fst snd st_world st_cb st_tls st_shared].
  destruct (time_law w1) as (t & w2 & -> & _ & Hs2). rewrite !bind_of_Ok. cbn [fst snd st_world st_cb st_tls st_shared].
  pose proof HI as (_ & _ & _ & _ & Hst & Hl). cbn [cb_stacktrace cb_btime add_ttime set_ttime].
  rewrite Hst, Hb. set (time := u64 _). edestruct (om_record_ok w0 m st) as (s' & dn' & cur' & Hr & HI' & Happ); [|exact HT|by rewrite blamed_length|].
  - eapply (om_inv_moves _ _ _ _ _ _ (add_ttime w time (add_ttime w _ (st_cb s))) w2 HI); [reflexivity|by etransitivity].
  - by exists s', dn', cur', time.
Qed.

Lemma om_idle_ok w0 m st s dn cur junk began :
  om_inv w0 m st s dn cur -> T (blamed IDLE junk st) -> keeps_time began s ->
  exists s' dn' cur' time, CBTF_ompt_cb_idle_end a IDLE junk s = Ok s' /\ om_inv w0 m st s' dn' cur' /\
    dn' ++ cur' = dn ++ cur ++ [(time, blamed IDLE junk st)] /\ elapsed (IdleEnd junk) began (st_world s) = Ok [time].
Proof.
  intros HI HT [Hact Hb]. specialize (Hb IdleBegin Idle eq_refl). unfold CBTF_ompt_cb_idle_end, elapsed. cbn [ends].
  rewrite Hact. destruct (time_law (st_world s)) as (t & w' & -> & _ & Hs).
  rewrite !bind_of_Ok, decide_False, bind_of_Ok by (by intros [|]). cbn [fst snd]. pose proof HI as (_ & _ & _ & _ & Hst & Hl). rewrite Hst, Hb. set (time := u64 _).
  edestruct (om_record_ok w0 m st) as (s' & dn' & cur' & Hr & HI' & Happ); [|exact HT|by rewrite blamed_length|].
  - eapply (om_inv_moves _ _ _ _ _ _ (add_ttime Idle time (st_cb s)) w' HI); [reflexivity|exact Hs].
  - by exists s', dn', cur', time.
Qed.

Lemma om_task_end_ok w0 m st s dn cur began :
  om_inv w0 m st s dn cur -> T st -> keeps_time began s ->
  exists s' dn' cur' time, CBTF_ompt_cb_implicit_task_end a s = Ok s' /\ om_inv w0 m st s' dn' cur' /\
    dn' ++ cur' = dn ++ cur ++ [(time, st)] /\ elapsed TaskEnd began (st_world s) = Ok [time].
Proof.
  intros HI HT [_ Hb]. specialize (Hb (TaskBegin 0) Itask eq_refl). unfold CBTF_ompt_cb_implicit_task_end, with_time, elapsed.
  cbn [ends]. destruct (time_law (st_world s)) as (t & w1 & -> & _ & Hs).
  rewrite !bind_of_Ok, decide_False, bind_of_Ok by (by intros [|]). cbn [fst snd st_world st_cb]. pose proof HI as (_ & _ & _ & _ & Hst & Hl).
  edestruct (om_record_ok w0 m st) as (s' & dn' & cur' & Hr & HI' & Happ); [|exact HT|done|].
  - eapply (om_inv_moves _ _ _ _ _ _ (add_ttime Itask _ (set_task_event _ (set_btime Serial t (st_cb s)))) w1 HI);
      [reflexivity|exact Hs].
  - exists s', dn', cur'. eexists. cbn [cb_stacktrace add_ttime set_ttime set_task_event set_btime]. rewrite Hst.
    split; [exact Hr|]. split; [done|]. split; [exact Happ|]. by rewrite <- Hb.
Qed.

Lemma om_task_begin_ok w0 m st s dn cur id st' :
  om_inv w0 m st s dn cur -> id <> 0 -> m !! id = Some st' ->
  exists s', CBTF_ompt_cb_implicit_task_begin id s = Ok s' /\ om_inv w0 m st' s' dn cur.
Proof.
  intros HI Hid Hm. unfold CBTF_ompt_cb_implicit_task_begin. match goal with |- context [with_time ?g s] => set (f := g) end.
  destruct (om_time_ok _ _ _ _ _ _ f HI) as (s1 & -> & HI1); [done|].
  rewrite bind_of_Ok. destruct HI1 as (Hb & Hok & Hmap & Hall & Hst & Hl).
  pose proof (region_with_id_map id (sh_regions (st_shared s1)) Hid) as Hr. rewrite Hmap, Hm in Hr.
  destruct (CBTF_omptp_region_with_id _ _) as [r|]; [|done]. injection Hr as Hr. rewrite Hr.
  eexists. split; [reflexivity|]. split_and!; try done. by apply (Hall id).
Qed.

Lemma om_parallel_begin_ok w0 m st s dn cur id function cursor :
  om_inv w0 m st s dn cur -> may_add id (region_stack keep function cursor) m ->
  exists s', CBTF_ompt_cb_parallel_begin keep id function cursor s = Ok s' /\
    om_inv w0 (<[id := region_stack keep function cursor]> m) st s' dn cur.
Proof.
  intros HI Hadd. unfold CBTF_ompt_cb_parallel_begin.
  destruct (om_time_ok _ _ _ _ _ _ (set_btime Region) HI) as (s1 & -> & HI1); [done|].
  rewrite bind_of_Ok. unfold omptp_start_event, CBTF_GetStackTraceFromContext.
  rewrite bind_of_Ok, unwind_loop_spec by done. rewrite Z.sub_0_r, app_nil_l, !bind_of_Ok. cbn [fst snd].
  eexists. split; [reflexivity|].
  apply (om_inv_tls _ _ _ (mkState _ _ (st_tls s1) _)); [|done].
  apply (om_inv_cb _ _ _ (mkState _ (st_cb s1) _ _)); [|done].
  exact (om_inv_add _ _ _ _ _ _ _ _ _ HI1 Hadd).
Qed.

Lemma om_parallel_end_ok w0 m st s dn cur id :
  om_inv w0 m st s dn cur -> id <> 0 ->
  exists s', CBTF_ompt_cb_parallel_end id s = Ok s' /\ om_inv w0 (delete id m) st s' dn cur.
Proof.
  intros HI Hid. unfold CBTF_ompt_cb_parallel_end.
  match goal with |- context [with_time ?g s] => destruct (om_time_ok _ _ _ _ _ _ g HI) as (s1 & -> & HI1); [done|] end.
  rewrite bind_of_Ok.
  match goal with |- context [with_time ?g s1] => destruct (om_time_ok _ _ _ _ _ _ g HI1) as (s2 & -> & HI2); [done|] end.
  rewrite bind_of_Ok. eexists. split; [reflexivity|]. exact (om_inv_clear _ _ _ _ _ _ _ _ HI2 Hid).
Qed.

(** The events that make no record and leave regions and stack alone. *)
Definition silent (ev : event) : bool :=
  match ev with
  | ThreadBegin | ThreadEnd | AcquiredLock | ReleaseLock | BarrierBegin | WaitBegin | IdleBegin | Pause | Resume => true
  | _ => false
  end.

Lemma om_silent_ok w0 m st s dn cur ev :
  silent ev = true -> om_inv w0 m st s dn cur ->
  exists s', step a keep IDLE BARRIER WAIT_BARRIER ev s = Ok s' /\ om_inv w0 m st s' dn cur.
Proof.
  intros Hq HI.
  destruct ev; try done; cbn [step]; try (apply (om_time_ok _ _ _ _ _ _ _ HI); done).
  - eexists. split; [reflexivity|]. by apply om_inv_cb.
  - eexists. split; [reflexivity|]. by apply om_inv_tls.
  - eexists. split; [reflexivity|]. by apply om_inv_tls.
Qed.

Notation recorded := (recorded keep IDLE BARRIER WAIT_BARRIER).
Notation run := (run a keep IDLE BARRIER WAIT_BARRIER).

Notation lasted := (lasted a keep IDLE BARRIER WAIT_BARRIER).

Lemma om_run_ok w0 evs : forall m st s dn cur stacks began,
  om_inv w0 m st s dn cur -> keeps_time began s -> recorded m st evs = Some stacks -> Forall T stacks ->
  exists s' m' st' dn' cur' recs, run evs s = Ok s' /\ om_inv w0 m' st' s' dn' cur' /\
    dn' ++ cur' = dn ++ cur ++ recs /\ recs.*2 = stacks /\ lasted evs began s = Ok recs.*1.
Proof.
  induction evs as [|ev evs IH]; intros m st s dn cur stacks began HI HK Hrec HT; cbn [Omptp.run Omptp.lasted].
  { injection Hrec as <-. exists s, m, st, dn, cur, []. by rewrite app_nil_r. }
  assert (Hgo : forall s1 m1 st1 dn1 cur1 recs1 stacks1,
    step a keep IDLE BARRIER WAIT_BARRIER ev s = Ok s1 -> om_inv w0 m1 st1 s1 dn1 cur1 ->
    dn1 ++ cur1 = dn ++ cur ++ recs1 -> elapsed ev began (st_world s) = Ok recs1.*1 -> recorded m1 st1 evs = Some stacks1 -> stacks = recs1.*2 ++ stacks1 ->
    exists s' m' st' dn' cur' recs, (s' ← step a keep IDLE BARRIER WAIT_BARRIER ev s; run evs s') = Ok s' /\
      om_inv w0 m' st' s' dn' cur' /\ dn' ++ cur' = dn ++ cur ++ recs /\ recs.*2 = stacks /\
      (ts ← elapsed ev began (st_world s); began' ← began_by ev began (st_world s);
       s' ← step a keep IDLE BARRIER WAIT_BARRIER ev s; ts' ← lasted evs began' s'; Ok (ts ++ ts')) = Ok recs.*1).
  { intros s1 m1 st1 dn1 cur1 recs1 stacks1 H1 HI1 Happ -> Hrec1 ->.
    destruct (keeps_time_step ev s s1 began HK H1) as (began' & -> & HK1). rewrite H1, !bind_of_Ok. apply Forall_app in HT as [_ HT].
    destruct (IH m1 st1 s1 dn1 cur1 stacks1 began' HI1 HK1 Hrec1 HT) as (s' & m' & st' & dn' & cur' & recs & H2 & H3 & H4 & H5 & H6).
    exists s', m', st', dn', cur', (recs1 ++ recs). split_and!; try done.
    - by rewrite H4, !(app_assoc dn1), Happ, <- !app_assoc.
    - by rewrite fmap_app, H5.
    - by rewrite H6, bind_of_Ok, fmap_app. }
  assert (Hquiet : forall s1 m1 st1, step a keep IDLE BARRIER WAIT_BARRIER ev s = Ok s1 -> om_inv w0 m1 st1 s1 dn cur ->
    ends ev = None -> recorded m1 st1 evs = Some stacks -> exists s' m' st' dn' cur' recs,
      (s' ← step a keep IDLE BARRIER WAIT_BARRIER ev s; run evs s') = Ok s' /\
      om_inv w0 m' st' s' dn' cur' /\ dn' ++ cur' = dn ++ cur ++ recs /\ recs.*2 = stacks /\
      (ts ← elapsed ev began (st_world s); began' ← began_by ev began (st_world s);
       s' ← step a keep IDLE BARRIER WAIT_BARRIER ev s; ts' ← lasted evs began' s'; Ok (ts ++ ts')) = Ok recs.*1).
  { intros s1 m1 st1 H1 H2 He H3. apply (Hgo s1 m1 st1 dn cur [] stacks); rewrite ?app_nil_r; try done.
    unfold elapsed. by rewrite He. }
  destruct (silent ev) eqn:Hsil.
  { destruct (om_silent_ok w0 m st s dn cur ev Hsil HI) as (s1 & H1 & HI1). apply (Hquiet s1 m st); try done; by destruct ev. }
  destruct ev; try done; cbn [Omptp.recorded] in Hrec.
  - case_decide; [|done]. destruct (om_parallel_begin_ok _ _ _ _ _ _ _ _ _ HI H) as (s1 & H1 & HI1). by eapply Hquiet.
  - case_decide; [|done]. destruct (om_parallel_end_ok _ _ _ _ _ _ _ HI H) as (s1 & H1 & HI1). by eapply Hquiet.
  - case_decide; [|done]. eapply Hquiet; [reflexivity| |done|exact Hrec]. by apply om_inv_add.
  - case_decide; [|done]. eapply Hquiet; [reflexivity| |done|exact Hrec]. by apply om_inv_clear.
  - case_decide; [|done]. apply bind_Some in Hrec as (st1 & Hst1 & Hrec).
    destruct (om_task_begin_ok _ _ _ _ _ _ _ _ HI H Hst1) as (s1 & H1 & HI1). by eapply Hquiet.
  - apply bind_Some in Hrec as (l & Hl & [= <-]). apply Forall_cons in HT as [HT1 _].
    destruct (om_task_end_ok _ _ _ _ _ _ _ HI HT1 HK) as (s1 & dn1 & cur1 & t & H1 & HI1 & Happ & He). by eapply Hgo.
  - apply bind_Some in Hrec as (l & Hl & [= <-]). apply Forall_cons in HT as [HT1 _].
    destruct (om_waited_ok _ _ _ _ _ _ (BarrierEnd junk) Barrier _ _ _ HI HT1 HK eq_refl)
      as (s1 & dn1 & cur1 & t & H1 & HI1 & Happ & He); [by left|]. by eapply Hgo.
  - apply bind_Some in Hrec as (l & Hl & [= <-]). apply Forall_cons in HT as [HT1 _].
    destruct (om_waited_ok _ _ _ _ _ _ (WaitEnd junk) Wbarrier _ _ _ HI HT1 HK eq_refl)
      as (s1 & dn1 & cur1 & t & H1 & HI1 & Happ & He); [by right|]. by eapply Hgo.
  - apply bind_Some in Hrec as (l & Hl & [= <-]). apply Forall_cons in HT as [HT1 _].
    destruct (om_idle_ok _ _ _ _ _ _ _ _ HI HT1 HK) as (s1 & dn1 & cur1 & t & H1 & HI1 & Happ & He). by eapply Hgo.
Qed.

(** The table and the stack of the last task when a thread starts the collector. *)
Definition start_ok (s : state W) : Prop :=
  regions_ok (sh_regions (st_shared s)) /\
  map_Forall (fun _ t => Z.of_nat (length t) <= MaxFramesPerStackTrace) (regions_map (sh_regions (st_shared s))) /\
  Z.of_nat (length (cb_stacktrace (st_cb s))) <= MaxFramesPerStackTrace.

Lemma om_start_ok header s :
  start_ok s -> exists s', cbtf_collector_start a header s = Ok s' /\
    om_inv (st_world s) (regions_map (sh_regions (st_shared s))) (cb_stacktrace (st_cb s)) s' [] [] /\
    keeps_time (cb_btime (st_cb s)) s'.
Proof.
  destruct s as [sh cb tls w]. intros (Hok & Hall & Hl). unfold cbtf_collector_start, initialize_data.
  cbn [st_shared st_cb st_tls st_world fst snd] in *.
  destruct (time_law w) as (t & w1 & -> & _ & Hs1). rewrite !bind_of_Ok. cbn [fst snd].
  destruct (time_law w1) as (t' & w2 & -> & _ & Hs2). rewrite !bind_of_Ok. cbn [fst snd].
  unfold CBTF_ompt_set_collector_active, with_time. cbn [st_shared st_cb st_tls st_world].
  destruct (time_law w2) as (t2 & w3 & -> & _ & Hs3). rewrite bind_of_Ok. eexists. split; [reflexivity|].
  split; [|by split]. split; [|by split_and!]. split.
  - apply (st_holds_empty (StoreLaws := profile_store_laws SZ T time_of _ buffer_fits)).
  - exists []. cbn. by rewrite Hs3, Hs2, Hs1, app_nil_r.
Qed.

Lemma om_stop_ok w0 m st s dn cur :
  om_inv w0 m st s dn cur ->
  exists s' new, cbtf_collector_stop a s = Ok s' /\ sent (st_world s') = sent w0 ++ new /\
    profiles time_of (profiled new) (dn ++ cur).
Proof.
  intros HI. unfold cbtf_collector_stop. destruct (time_law (st_world s)) as (t & w1 & -> & _ & Hs1). rewrite bind_of_Ok.
  cbn [fst snd]. set (tls1 := set_header _ _). unfold CBTF_ompt_set_collector_active.
  destruct (om_time_ok w0 m st (mkState (st_shared s) (st_cb s) tls1 w1) dn cur (fun t => set_active false t))
    as (s1 & -> & HI1); [|done|].
  { apply (om_inv_tls _ _ _ (mkState _ _ (st_tls s) _)); [|done]. by apply om_inv_world. }
  rewrite bind_of_Ok. destruct HI1 as ((Hb & new & Hs & Hp) & _).
  set (tls2 := set_do_trace false _). destruct (st_unsent _ _) eqn:Hun.
  - destruct (om_send_ok w0 (tls2, st_world s1) dn cur) as (s' & -> & (_ & new' & Hs' & Hp') & _).
    { split; [done|]. by exists new. }
    rewrite bind_of_Ok. by eexists _, new'.
  - rewrite bind_of_Ok. eexists _, new. split_and!; [reflexivity|done|].
    by rewrite (st_all_sent (StoreLaws := profile_store_laws SZ T time_of _ buffer_fits) _ _ Hb Hun), app_nil_r.
Qed.
End correctness.

(** C14: from the start of the collector through a sequence of its callbacks, with
    regions that other threads begin and end in between, to the stop, a thread never
    fails, provided that its tasks belong to regions in the table, that regions have IDs of
    their own other than 0 and are no more than eight at a time ([recorded] is not [None]),
    and that none of the stacks recorded is the beginning of another. The profile in
    the blobs has for every stack the records of tasks, barriers, waits and idle times made
    with it, and the total of their times modulo 2^64, where the time of a record is what
    the clock says it lasted ([lasted]), from the callback that began it to the one that
    ends it. Records are made while the collector is paused, too. *)
Theorem omptp_accounts_for_events {W} {SV : Services W profile_data} {SL : ServicesLaws W profile_data} (a : arch)
    (keep : Z -> bool) (IDLE BARRIER WAIT_BARRIER : Z) (T : list Z -> Prop) (header : CBTF_DataHeader)
    (s : state W) (evs : list event) (stacks : list (list Z)) :
  Distinguishable T -> start_ok s ->
  recorded keep IDLE BARRIER WAIT_BARRIER (regions_map (sh_regions (st_shared s))) (cb_stacktrace (st_cb s)) evs = Some stacks ->
  Forall T stacks ->
  exists s1 s2 s3 new times,
    cbtf_collector_start a header s = Ok s1 /\
    run a keep IDLE BARRIER WAIT_BARRIER evs s1 = Ok s2 /\
    cbtf_collector_stop a s2 = Ok s3 /\
    sent (st_world s3) = sent (st_world s) ++ new /\
    lasted a keep IDLE BARRIER WAIT_BARRIER evs (cb_btime (st_cb s)) s1 = Ok times /\ length times = length stacks /\
    forall path, calls_in path (profiled new) = calls_on path (zip times stacks) /\
      u64 (time_in path (profiled new)) = u64 (time_on (fun time => time) path (zip times stacks)).
Proof.
  intros DT Hs Hrec HT. destruct (om_start_ok a T header s Hs) as (s1 & H1 & HI1 & HK1).
  destruct (om_run_ok a keep IDLE BARRIER WAIT_BARRIER T _ evs _ _ s1 [] [] stacks _ HI1 HK1 Hrec HT)
    as (s2 & m & st & dn & cur & recs & H2 & HI2 & Happ & Hst & Hl).
  destruct (om_stop_ok a T _ _ _ _ _ _ HI2) as (s3 & new & H3 & Hsent & Hp). rewrite Happ in Hp.
  exists s1, s2, s3, new, recs.*1. subst stacks. rewrite !length_fmap, zip_fst_snd. by split_and!.
Qed.

(** The address takes the place of a frame at the other end: of the stack of a
    task the outermost frame is lost, and of a full one the two outermost frames,
    with an arbitrary value in place of the last. *)
Theorem omptp_blamed_loses_root (address junk root : Z) (st : list Z) :
  (Z.of_nat (length st) + 1 < MaxFramesPerStackTrace -> blamed address junk (st ++ [root]) = address :: st) /\
  (forall r2, Z.of_nat (length st) + 2 = MaxFramesPerStackTrace ->
     blamed address junk (st ++ [r2; root]) = address :: st ++ [junk]).
Proof.
  unfold blamed. split; [|intros r2]; intros Hl; rewrite length_app; cbn [length].
  - replace (_ =? _) with false by (symmetry; apply Z.eqb_neq; lia). rewrite Nat.add_1_r, Nat.sub_diag, app_nil_r.
    f_equal. apply take_app_length.
  - replace (_ =? _) with true by (symmetry; apply Z.eqb_eq; lia).
    replace (length st + 2 - 1)%nat with (S (length st)) by lia. replace (length st + 2 - S (length st))%nat with 1%nat by lia.
    by rewrite take_app_length.
Qed.

(** A task of a ninth region takes its stack from an uninitialised variable. *)
Theorem omptp_ninth_region_faults {W} {SV : Services W profile_data} {SL : ServicesLaws W profile_data} (keep : Z -> bool)
    (s : state W) (id function : Z) (cursor : list frame) :
  regions_ok (sh_regions (st_shared s)) -> Z.of_nat (size (regions_map (sh_regions (st_shared s)))) = MAX_REGIONS ->
  id <> 0 -> regions_map (sh_regions (st_shared s)) !! id = None ->
  exists s1, CBTF_ompt_cb_parallel_begin keep id function cursor s = Ok s1 /\
    CBTF_ompt_cb_implicit_task_begin id s1 = Fault.
Proof.
  intros Hok Hsize Hid Hnone. unfold CBTF_ompt_cb_parallel_begin, with_time.
  destruct (time_law (st_world s)) as (t & w1 & -> & _ & _). rewrite !bind_of_Ok. cbn [st_shared st_cb st_tls st_world fst snd].
  unfold omptp_start_event, CBTF_GetStackTraceFromContext.
  rewrite bind_of_Ok, unwind_loop_spec by done. rewrite !bind_of_Ok. cbn [fst snd]. eexists. split; [reflexivity|].
  unfold CBTF_ompt_cb_implicit_task_begin, with_time. cbn [st_shared st_cb st_tls st_world fst snd sh_regions].
  destruct (time_law w1) as (t2 & w2 & -> & _ & _). rewrite !bind_of_Ok. cbn [st_shared st_cb st_tls st_world fst snd sh_regions].
  match goal with |- context [CBTF_omptp_region_add id ?st ?rs] => destruct (region_add_map id st rs Hok Hid Hnone) as [_ Hm] end.
  rewrite decide_False in Hm by lia.
  match goal with |- context [CBTF_omptp_region_with_id id ?rs] => pose proof (region_with_id_map id rs Hid) as Hr end.
  rewrite Hm, Hnone in Hr. by destruct (CBTF_omptp_region_with_id _ _).
Qed.

(** ** Witnesses *)
Definition example_state : state (log_world profile_data) :=
  mkState (mkShared (replicate 8 free_region) 0) (mkCb false 0 (fun _ => 0) (fun _ => 0) [] 0 0)
    (mkTLS (mkDataHeader 0 1 "" "n0" 1 1 (-1) 0 0 0 0 0) (mkProfile (reset_stacks 0) [] 0) 0 false false false)
    (quiet_world profile_data).

Definition example_cursor : list frame :=
  [mkFrame 1 false; mkFrame 2 false; mkFrame 3 false; mkFrame 20 false; mkFrame 10 false].

(** Two stacks: a task and the barrier in it. *)
Definition task_or_barrier (st : list Z) : Prop := st = [50; 20; 10] \/ st = [7; 50; 20].
Lemma task_or_barrier_ok : Distinguishable task_or_barrier.
Proof.
  split; [by intros [|]|]. intros s t [->| ->] [->| ->] Hp; try done; by apply prefix_cons_inv_1 in Hp.
Qed.

(** A barrier in a task: the clock goes by ten from reading to reading. *)
Example task_and_barrier_times :
  (s1 ← cbtf_collector_start arch_other (t_header (st_tls example_state)) example_state;
   lasted arch_other (fun _ => true) 6 7 8
     [ThreadBegin; ParallelBegin 3 50 example_cursor; TaskBegin 3; BarrierBegin; BarrierEnd 0; Pause; TaskEnd; ParallelEnd 3]
     (fun _ => 0) s1) = Ok [20; 40].
Proof. by vm_compute. Qed.

Lemma omptp_accounts_witness :
  let evs := [ThreadBegin; ParallelBegin 3 50 example_cursor; TaskBegin 3; BarrierBegin; BarrierEnd 0; Pause; TaskEnd;
              ParallelEnd 3] in
  exists s1 s2 s3 times,
    cbtf_collector_start arch_other (t_header (st_tls example_state)) example_state = Ok s1 /\
    run arch_other (fun _ => true) 6 7 8 evs s1 = Ok s2 /\
    cbtf_collector_stop arch_other s2 = Ok s3 /\
    lasted arch_other (fun _ => true) 6 7 8 evs (fun _ => 0) s1 = Ok times /\ length times = 2%nat /\
    calls_in [50; 20; 10] (profiled (lw_sent (st_world s3))) = calls_on [50; 20; 10] (zip times [[7; 50; 20]; [50; 20; 10]]) /\
    u64 (time_in [50; 20; 10] (profiled (lw_sent (st_world s3)))) =
      u64 (time_on (fun time => time) [50; 20; 10] (zip times [[7; 50; 20]; [50; 20; 10]])).
Proof.
  intros evs.
  destruct (omptp_accounts_for_events arch_other (fun _ => true) 6 7 8 task_or_barrier (t_header (st_tls example_state))
    example_state evs [[7; 50; 20]; [50; 20; 10]] task_or_barrier_ok) as (s1 & s2 & s3 & new & ts & H1 & H2 & H3 & Hs & Hl & Hn & Hp).
  - split; [split; [reflexivity|constructor]|]. split; [vm_compute; intros ? ? [=]|done].
  - vm_compute. reflexivity.
  - apply Forall_cons. split; [by right|]. apply Forall_cons. split; [by left|]. by apply Forall_nil.
  - exists s1, s2, s3, ts. split; [exact H1|]. split; [exact H2|]. split; [exact H3|]. split; [exact Hl|]. split; [exact Hn|].
    cbn in Hs. rewrite Hs. apply Hp.
Defined.

Lemma omptp_regions_witness :
  let rs := mkRegion 3 [50; 20; 10] :: replicate 7 free_region in
  r_stacktrace <$> CBTF_omptp_region_with_id 3 rs = regions_map rs !! 3 /\
  regions_map (CBTF_omptp_region_clear 3 rs) = delete 3 (regions_map rs).
Proof.
  intros rs. destruct (omptp_regions_refine rs 3) as (H1 & (_ & H2) & _).
  - split; [reflexivity|]. apply (bool_decide_unpack _). vm_compute. exact I.
  - done.
  - split; [exact H1|exact H2].
Defined.
