(* ===== verification/Omptp50.v ===== *)
(** The omptp collector under OMPT 5.0 (collectors/omptp/callbacks-50.c): the runtime
    reports both ends of an activity through one callback, with barriers, taskwaits
    and taskgroups in one callback for the region and one for the wait. A thread that
    is told of the same activities as by the earlier interface (callbacks.c, in
    Omptp.v) ends in the same state, so that its blobs account for them, too. The
    callbacks for the begin and end of a thread, which also call the service, are
    left out. *)
From S2P Require Import Prelude Probe PCIndex Headers Services Unwind StackBuffer TraceBuffer Tracer Profile Omptp.

Inductive scope_endpoint := scope_begin | scope_end.
Inductive sync_region_kind := sync_region_barrier | sync_region_taskwait | sync_region_taskgroup.

Section callbacks50.
Context {W : Type} {SV : Services W profile_data} (a : arch) (keep : Z -> bool).
Context (IDLE BARRIER WAIT_BARRIER : Z).     (* addresses of the functions *)
Notation state := (state W).

(** The ID of the region is new, from ompt_get_unique_id(). *)
Definition CBTF_ompt_callback_parallel_begin (unique_id parallel_function : Z) (cursor : list frame) (s : state) : outcome state :=
  s1 ← with_time (set_btime Region) s;
  e ← omptp_start_event keep parallel_function cursor (st_tls s1);
  Ok (mkState (mkShared (CBTF_omptp_region_add unique_id e.1 (sh_regions (st_shared s1))) parallel_function)
        (set_region_event 0 (st_cb s1)) e.2 (st_world s1)).

Definition CBTF_ompt_callback_parallel_end (parallel_data : Z) (s : state) : outcome state :=
  s1 ← with_time (fun t c => add_ttime Region (u64 (t - cb_btime c Region)) c) s;
  s2 ← with_time (fun t c => set_region_event (u64 (t - cb_btime c Region)) c) s1;
  Ok (mkState (mkShared (CBTF_omptp_region_clear parallel_data (sh_regions (st_shared s2))) 0)
        (st_cb s2) (st_tls s2) (st_world s2)).

(** The end of a barrier or of a wait for one, as in the earlier callbacks. *)
Definition sync_region (w : watch) (address : Z) (kind : sync_region_kind) (endpoint : scope_endpoint) (junk : Z) (s : state)
  : outcome state :=
  match endpoint, kind with
  | scope_begin, sync_region_barrier => with_time (set_btime w) s
  | scope_end, sync_region_barrier => waited a w address junk s
  | _, _ => Ok s
  end.
Definition CBTF_ompt_callback_sync_region := sync_region Barrier BARRIER.
Definition CBTF_ompt_callback_sync_region_wait := sync_region Wbarrier WAIT_BARRIER.

Definition CBTF_ompt_callback_implicit_task (endpoint : scope_endpoint) (parallel_data : Z) (s : state) : outcome state :=
  match endpoint with
  | scope_begin =>
      s1 ← with_time (fun t c => set_task_event 0 (add_ttime Serial (u64 (t - cb_btime c Serial)) (set_btime Itask t c))) s;
      match CBTF_omptp_region_with_id parallel_data (sh_regions (st_shared s1)) with
      | Some r => Ok (mkState (st_shared s1) (set_stacktrace (r_stacktrace r) (st_cb s1)) (st_tls s1) (st_world s1))
      | None => Fault
      end
  | scope_end =>
      s1 ← with_time (fun etime c =>
        let t := u64 (etime - cb_btime c Itask) in add_ttime Itask t (set_task_event t (set_btime Serial etime c))) s;
      record a (cb_task_event (st_cb s1)) (cb_stacktrace (st_cb s1)) s1
  end.

Definition CBTF_ompt_callback_idle (endpoint : scope_endpoint) (junk : Z) (s : state) : outcome state :=
  match endpoint with
  | scope_begin => with_time (set_btime Idle) s
  | scope_end =>
      let c := st_cb s in
      r ← (if cb_active c then CBTF_GetTime (st_world s) else Ok (cb_etime c, st_world s));
      let t := u64 (r.1 - cb_btime c Idle) in
      record a t (blamed IDLE junk (cb_stacktrace c)) (mkState (st_shared s) (add_ttime Idle t c) (st_tls s) r.2)
  end.

(** ** What the runtime reports *)
Inductive report50 :=
| Parallel (unique_id function : Z) (cursor : list frame)
| ParallelDone (parallel_data : Z)
| SyncRegion (kind : sync_region_kind) (endpoint : scope_endpoint) (junk : Z)
| SyncRegionWait (kind : sync_region_kind) (endpoint : scope_endpoint) (junk : Z)
| ImplicitTask (endpoint : scope_endpoint) (parallel_data : Z)
| IdleThread (endpoint : scope_endpoint) (junk : Z).

Definition step50 (ev : report50) : state -> outcome state :=
  match ev with
  | Parallel id function cursor => CBTF_ompt_callback_parallel_begin id function cursor
  | ParallelDone id => CBTF_ompt_callback_parallel_end id
  | SyncRegion kind endpoint junk => CBTF_ompt_callback_sync_region kind endpoint junk
  | SyncRegionWait kind endpoint junk => CBTF_ompt_callback_sync_region_wait kind endpoint junk
  | ImplicitTask endpoint id => CBTF_ompt_callback_implicit_task endpoint id
  | IdleThread endpoint junk => CBTF_ompt_callback_idle endpoint junk
  end.
Fixpoint run50 (evs : list report50) (s : state) : outcome state :=
  match evs with
  | [] => Ok s
  | ev :: evs' => s' ← step50 ev s; run50 evs' s'
  end.

(** The same activity as the earlier interface reports it; it has no taskwaits and
    taskgroups that do anything. *)
Definition earlier (ev : report50) : list event :=
  match ev with
  | Parallel id function cursor => [ParallelBegin id function cursor]
  | ParallelDone id => [ParallelEnd id]
  | SyncRegion sync_region_barrier scope_begin _ => [BarrierBegin]
  | SyncRegion sync_region_barrier scope_end junk => [BarrierEnd junk]
  | SyncRegionWait sync_region_barrier scope_begin _ => [WaitBegin]
  | SyncRegionWait sync_region_barrier scope_end junk => [WaitEnd junk]
  | SyncRegion _ _ _ | SyncRegionWait _ _ _ => []
  | ImplicitTask scope_begin id => [TaskBegin id]
  | ImplicitTask scope_end _ => [TaskEnd]
  | IdleThread scope_begin _ => [IdleBegin]
  | IdleThread scope_end junk => [IdleEnd junk]
  end.

Lemma run_app evs evs' : forall s : state,
  run a keep IDLE BARRIER WAIT_BARRIER (evs ++ evs') s =
  s' ← run a keep IDLE BARRIER WAIT_BARRIER evs s; run a keep IDLE BARRIER WAIT_BARRIER evs' s'.
Proof.
  induction evs as [|ev evs IH]; intros s; cbn [run app]; [by rewrite bind_of_Ok|].
  destruct (step a keep IDLE BARRIER WAIT_BARRIER ev s) as [s1| | |]; [|done..]. rewrite !bind_of_Ok. apply IH.
Qed.

Lemma step50_earlier ev (s : state) : step50 ev s = run a keep IDLE BARRIER WAIT_BARRIER (earlier ev) s.
Proof.
  assert (Hone : forall e, run a keep IDLE BARRIER WAIT_BARRIER [e] s = step a keep IDLE BARRIER WAIT_BARRIER e s).
  { intros e. cbn [run]. by destruct (step a keep IDLE BARRIER WAIT_BARRIER e s). }
  destruct ev as [| |[] []|[] []|[]|[]]; cbn [earlier]; rewrite ?Hone; done.
Qed.

Lemma run50_earlier evs : forall s : state,
  run50 evs s = run a keep IDLE BARRIER WAIT_BARRIER (evs ≫= earlier) s.
Proof.
  induction evs as [|ev evs IH]; intros s; cbn [run50]; [done|].
  rewrite bind_cons, run_app, step50_earlier.
  destruct (run a keep IDLE BARRIER WAIT_BARRIER (earlier ev) s); [|done..]. rewrite !bind_of_Ok. apply IH.
Qed.
End callbacks50.

(** The OMPT 5.0 callbacks account for a thread's events as the earlier ones do:
    the blobs of a run have for every stack the records of tasks, barriers, waits and
    idle times made with it, and the total of their times modulo 2^64, which are those
    of the activities as the earlier interface reports them. *)
Theorem omptp50_accounts_for_events {W} {SV : Services W profile_data} {SL : ServicesLaws W profile_data} (a : arch)
    (keep : Z -> bool) (IDLE BARRIER WAIT_BARRIER : Z) (T : list Z -> Prop) (header : CBTF_DataHeader)
    (s : state W) (evs : list report50) (stacks : list (list Z)) :
  Distinguishable T -> start_ok s ->
  recorded keep IDLE BARRIER WAIT_BARRIER (regions_map (sh_regions (st_shared s))) (cb_stacktrace (st_cb s))
    (evs ≫= earlier) = Some stacks ->
  Forall T stacks ->
  exists s1 s2 s3 new times,
    cbtf_collector_start a header s = Ok s1 /\
    run50 a keep IDLE BARRIER WAIT_BARRIER evs s1 = Ok s2 /\
    cbtf_collector_stop a s2 = Ok s3 /\
    sent (st_world s3) = sent (st_world s) ++ new /\
    lasted a keep IDLE BARRIER WAIT_BARRIER (evs ≫= earlier) (cb_btime (st_cb s)) s1 = Ok times /\ length times = length stacks /\
    forall path, calls_in path (profiled new) = calls_on path (zip times stacks) /\
      u64 (time_in path (profiled new)) = u64 (time_on (fun time => time) path (zip times stacks)).
Proof.
  intros DT Hs Hrec HT. destruct (om_start_ok a T header s Hs) as (s1 & H1 & HI1 & HK1).
  destruct (om_run_ok a keep IDLE BARRIER WAIT_BARRIER T _ _ _ _ s1 [] [] stacks _ HI1 HK1 Hrec HT)
    as (s2 & m & st & dn & cur & recs & H2 & HI2 & Happ & Hst & Hl).
  destruct (om_stop_ok a T _ _ _ _ _ _ HI2) as (s3 & new & H3 & Hsent & Hp). rewrite Happ in Hp.
  exists s1, s2, s3, new, recs.*1. subst stacks. rewrite !length_fmap, zip_fst_snd. split_and!; try done. by rewrite run50_earlier.
Qed.

Lemma omptp50_accounts_witness :
  let evs := [Parallel 3 50 example_cursor; ImplicitTask scope_begin 3; SyncRegion sync_region_taskwait scope_begin 0;
              SyncRegion sync_region_barrier scope_begin 0; SyncRegion sync_region_barrier scope_end 0;
              ImplicitTask scope_end 3; ParallelDone 3] in
  exists s1 s2 s3 (times : list Z),
    cbtf_collector_start arch_other (t_header (st_tls example_state)) example_state = Ok s1 /\
    run50 arch_other (fun _ => true) 6 7 8 evs s1 = Ok s2 /\
    cbtf_collector_stop arch_other s2 = Ok s3 /\
    length times = 2%nat /\
    calls_in [50; 20; 10] (profiled (lw_sent (st_world s3))) = calls_on [50; 20; 10] (zip times [[7; 50; 20]; [50; 20; 10]]).
Proof.
  intros evs.
  destruct (omptp50_accounts_for_events arch_other (fun _ => true) 6 7 8 task_or_barrier (t_header (st_tls example_state))
    example_state evs [[7; 50; 20]; [50; 20; 10]] task_or_barrier_ok) as (s1 & s2 & s3 & new & times & H1 & H2 & H3 & Hs & _ & Hr & Hp).
  - split; [split; [reflexivity|constructor]|]. split; [vm_compute; intros ? ? [=]|done].
  - vm_compute. reflexivity.
  - apply Forall_cons. split; [by right|]. apply Forall_cons. split; [by left|]. by apply Forall_nil.
  - exists s1, s2, s3, times. split; [exact H1|]. split; [exact H2|]. split; [exact H3|]. split; [exact Hr|].
    cbn in Hs. rewrite Hs. apply Hp.
Defined.
