(* ===== verification/PThreads.v ===== *)
(** The pthreads collector (collectors/pthreads/collector.c, wrappers.c): the
    tracing collector of Tracer.v with its constants, its start, and the wrappers
    of the twelve POSIX thread functions. *)
From S2P Require Import Prelude Probe PCIndex Headers Services Unwind StackBuffer TraceBuffer Tracer.

(** enum CBTF_pthread_type *)
Inductive CBTF_pthread_type :=
| CBTF_PTHREAD_UNKNOWN | CBTF_PTHREAD_CREATE | CBTF_PTHREAD_MUTEX_INIT | CBTF_PTHREAD_MUTEX_DESTROY
| CBTF_PTHREAD_MUTEX_LOCK | CBTF_PTHREAD_MUTEX_UNLOCK | CBTF_PTHREAD_MUTEX_TRYLOCK | CBTF_PTHREAD_COND_INIT
| CBTF_PTHREAD_COND_DESTROY | CBTF_PTHREAD_COND_SIGNAL | CBTF_PTHREAD_COND_BROADCAST | CBTF_PTHREAD_COND_WAIT
| CBTF_PTHREAD_COND_TIMEDWAIT.

(** CBTF_pthreadt_event but for the position of its stack trace. *)
Record pthreadt_event := mkPthreadt {
  pe_start_time : Z;
  pe_stop_time : Z;
  pe_ptr1 : Z;
  pe_ptr2 : Z;
  pe_ptr3 : Z;
  pe_retval : Z;
  pe_type : CBTF_pthread_type
}.

Definition zero_pthreadt : pthreadt_event := mkPthreadt 0 0 0 0 0 0 CBTF_PTHREAD_UNKNOWN.

Definition traceable : string :=
  "pthread_create,pthread_mutex_init,pthread_mutex_destroy,pthread_mutex_lock,pthread_mutex_trylock,pthread_mutex_unlock,pthread_cond_init,pthread_cond_destroy,pthread_cond_signal,pthread_cond_broadcast,pthread_cond_wait,pthread_cond_timedwait".

Definition pthreads (a : arch) : tracer :=
  mkTracer "pthreads" 1 48 (CBTF_BlobSizeFactor a * 384) (CBTF_BlobSizeFactor a * 415) true
    "CBTF_PTHREAD_TRACED" traceable false.

Definition pthreads_store (a : arch) : store pthreadt_event (trace_buffer pthreadt_event) (trace_data pthreadt_event) :=
  trace_store (pthreads a) zero_pthreadt.


(** ** The wrappers

    Each finds the function it wraps by its own name (dlsym) and records that
    function's address. *)
Definition pthread_wrapper (name : string) (args : list Z) (type : CBTF_pthread_type) (p1 p2 p3 : Z)
  : wrapped pthreadt_event :=
  mkWrapped name name args name
    [(NoStamp, fun start stop retval => mkPthreadt start stop (u64 p1) (u64 p2) (u64 p3) (i32 retval) type)].

Definition pthread_create (thread attr start_routine arg : Z) :=
  pthread_wrapper "pthread_create" [thread; attr; start_routine; arg] CBTF_PTHREAD_CREATE thread attr start_routine.
Definition pthread_mutex_init (mtx attr : Z) :=
  pthread_wrapper "pthread_mutex_init" [mtx; attr] CBTF_PTHREAD_MUTEX_INIT mtx attr 0.
Definition pthread_mutex_destroy (mtx : Z) :=
  pthread_wrapper "pthread_mutex_destroy" [mtx] CBTF_PTHREAD_MUTEX_DESTROY mtx 0 0.
Definition pthread_mutex_lock (mtx : Z) :=
  pthread_wrapper "pthread_mutex_lock" [mtx] CBTF_PTHREAD_MUTEX_LOCK mtx 0 0.
Definition pthread_mutex_unlock (mtx : Z) :=
  pthread_wrapper "pthread_mutex_unlock" [mtx] CBTF_PTHREAD_MUTEX_UNLOCK mtx 0 0.
Definition pthread_mutex_trylock (mtx : Z) :=
  pthread_wrapper "pthread_mutex_trylock" [mtx] CBTF_PTHREAD_MUTEX_TRYLOCK mtx 0 0.
Definition pthread_cond_init (cnd attr : Z) :=
  pthread_wrapper "pthread_cond_init" [cnd; attr] CBTF_PTHREAD_COND_INIT cnd attr 0.
Definition pthread_cond_destroy (cnd : Z) :=
  pthread_wrapper "pthread_cond_destroy" [cnd] CBTF_PTHREAD_COND_DESTROY cnd 0 0.
Definition pthread_cond_signal (cnd : Z) :=
  pthread_wrapper "pthread_cond_signal" [cnd] CBTF_PTHREAD_COND_SIGNAL cnd 0 0.
Definition pthread_cond_broadcast (cnd : Z) :=
  pthread_wrapper "pthread_cond_broadcast" [cnd] CBTF_PTHREAD_COND_BROADCAST cnd 0 0.
Definition pthread_cond_wait (cnd mtx : Z) :=
  pthread_wrapper "pthread_cond_wait" [cnd; mtx] CBTF_PTHREAD_COND_WAIT cnd mtx 0.
Definition pthread_cond_timedwait (cnd mtx tspec : Z) :=
  pthread_wrapper "pthread_cond_timedwait" [cnd; mtx; tspec] CBTF_PTHREAD_COND_TIMEDWAIT cnd mtx 0.

(** The calls a program can make. *)
Inductive pthread_op :=
| Create (thread attr start_routine arg : Z)
| MutexInit (mtx attr : Z)
| MutexDestroy (mtx : Z)
| MutexLock (mtx : Z)
| MutexUnlock (mtx : Z)
| MutexTrylock (mtx : Z)
| CondInit (cnd attr : Z)
| CondDestroy (cnd : Z)
| CondSignal (cnd : Z)
| CondBroadcast (cnd : Z)
| CondWait (cnd mtx : Z)
| CondTimedwait (cnd mtx tspec : Z).

Definition op_wrapper (op : pthread_op) : wrapped pthreadt_event :=
  match op with
  | Create thread attr start_routine arg => pthread_create thread attr start_routine arg
  | MutexInit mtx attr => pthread_mutex_init mtx attr
  | MutexDestroy mtx => pthread_mutex_destroy mtx
  | MutexLock mtx => pthread_mutex_lock mtx
  | MutexUnlock mtx => pthread_mutex_unlock mtx
  | MutexTrylock mtx => pthread_mutex_trylock mtx
  | CondInit cnd attr => pthread_cond_init cnd attr
  | CondDestroy cnd => pthread_cond_destroy cnd
  | CondSignal cnd => pthread_cond_signal cnd
  | CondBroadcast cnd => pthread_cond_broadcast cnd
  | CondWait cnd mtx => pthread_cond_wait cnd mtx
  | CondTimedwait cnd mtx tspec => pthread_cond_timedwait cnd mtx tspec
  end.




(** The records a complete trace of the program has, but for their times. *)
Section ops.
Context (a : arch) (addr_of : string -> Z) (keep : Z -> bool) (traced : string).





End ops.

Lemma pthreads_ok a : tracer_ok (pthreads a) /\ trace_sizes (pthreads a).
Proof. destruct a; by vm_compute. Qed.

(** Without a list in the environment every wrapped function is traced. *)
Lemma pthreads_all_traced op : wr_real (op_wrapper op) ∈ strtok_all traceable.
Proof. destruct op; apply (bool_decide_unpack _); reflexivity. Qed.


(** A pthread function that calls another one while both are traced ends the
    tracing of the thread: the early return for the inner call leaves do_trace 0,
    which the outer call saves and restores. *)
Theorem pthreads_nested_call_stops_tracing {W} {SV : Services W (trace_data pthreadt_event)}
    {SL : ServicesLaws W (trace_data pthreadt_event)} (a : arch) (addr_of : string -> Z) (keep : Z -> bool)
    (root : Z) (T : list Z -> Prop) (w0 : W) (traced : string) (op1 op2 : pthread_op) (r1 r2 : Z)
    (cursor1 cursor2 : list frame) s dn cur :
  forall Hp : call_paths root T,
  tr_inv (LS := trace_store_laws (pthreads a) zero_pthreadt root T Hp (proj2 (pthreads_ok a))) _ _ _ w0 traced 0 true s dn cur ->
  Z.of_nat (length cur) < tr_event_size (pthreads a) ->
  wr_real (op_wrapper op1) ∈ strtok_all traced -> wr_real (op_wrapper op2) ∈ strtok_all traced ->
  T (call_path (pthreads a) keep (addr_of (wr_real (op_wrapper op1))) cursor1) ->
  exists s', do_call (pthreads a) (pthreads_store a) addr_of keep
      (Call (op_wrapper op1) r1 cursor1 [Call (op_wrapper op2) r2 cursor2 []]) s = Ok (r1, s') /\
    t_do_trace s'.1 = false /\
    forall name, (do_trace name s'.1).1 = false.
Proof.
  destruct s as [tls w]. intros Hp HI Hroom H1 H2 HT. pose proof HI as (Hb & Hs & Htr & Hn & Hd). cbn [fst snd] in *.
  assert (Hop : forall op, exists mk, wr_events (op_wrapper op) = [(NoStamp, mk)] /\
    wr_guard (op_wrapper op) = wr_real (op_wrapper op) /\ wr_function (op_wrapper op) = wr_real (op_wrapper op))
    by (intros []; eexists; by split_and!).
  destruct (Hop op1) as (mk1 & He1 & Hg1 & Hf1), (Hop op2) as (mk2 & He2 & Hg2 & _).
  rewrite do_call_unfold. unfold wrapper. rewrite He1, Hg1, Hf1. cbn [fst snd do_calls length].
  rewrite (do_trace_eq _ _ traced 0 true), bool_decide_true by (done || lia). cbn [fst snd andb].
  rewrite start_events_nesting by (rewrite Hn; lia). rewrite Hn. change (0 + Z.of_nat 1) with 1.
  destruct (time_law w) as (t0 & w1 & -> & _ & Hs1). rewrite bind_of_Ok. cbn [fst snd].
  rewrite do_call_unfold. unfold wrapper. rewrite He2, Hg2. cbn [fst snd do_calls length].
  rewrite (do_trace_eq _ _ traced 1 true), bool_decide_true by (done || lia). cbn [fst snd andb].
  rewrite start_events_nesting by (simpl; lia). cbn [t_nesting_depth set_nesting].
  destruct (time_law w1) as (t1 & w2 & -> & _ & Hs2). rewrite !bind_of_Ok. cbn [fst snd].
  destruct (time_law w2) as (t2 & w3 & -> & _ & Hs3). rewrite bind_of_Ok. cbn [fst snd record_all].
  rewrite bind_of_Ok. cbn [fst snd]. rewrite (record_nested _ _ _ _ _ _ _ _ 1), !bind_of_Ok by (done || lia). cbn [fst snd].
  destruct (time_law w3) as (t3 & w4 & -> & _ & Hs4). rewrite bind_of_Ok. cbn [fst snd record_all].
  rewrite bind_of_Ok. cbn [fst snd]. set (tls2 := set_nesting 1 _).
  destruct (record_outer_ok (LS := trace_store_laws (pthreads a) zero_pthreadt root T Hp (proj2 (pthreads_ok a))) (pthreads a) (pthreads_store a) keep T (proj1 (pthreads_ok a)) w0 traced false (tls2, w4) dn cur
    (mk1 t0 t3 r1) (addr_of (wr_real (op_wrapper op1))) cursor1) as (s' & dn' & cur' & -> & (_ & _ & _ & _ & Hd') & _);
    [|done..|].
  - split_and!; cbn [fst snd]; try done. by rewrite Hs4, Hs3, Hs2, Hs1.
  - rewrite !bind_of_Ok. exists s'. split_and!; [done..|]. intros name. unfold do_trace. by rewrite Hd'.
Qed.



