(* ===== verification/MPIWrappers.v ===== *)
(** The wrappers of 117 MPI functions (collectors/mpi/wrappers.c), in the three
    builds of the mpi collector: trace (mpi), extended trace (mpit) and profile
    (mpip), for an MPI library of version 3. All share one skeleton,
    [mpi_wrapper]: ask do_trace, start the event and read the clock, call the PMPI
    function, read the clock again, fill in the event, record it. A wrapper is
    given by the name it asks do_trace for, the PMPI function and the arguments it
    passes, the function whose address it records, and the assignments to the
    event fields of the extended trace, in the order of the code. *)
From S2P Require Import Prelude Tracer.

Inductive build := TRACE | EXTENDEDTRACE | PROFILE.

(** CBTF_mpit_event but for the position of its stack trace. *)
Record mpit_event := mkMpit {
  me_start_time : Z;
  me_stop_time : Z;
  me_source : Z;
  me_destination : Z;
  me_size : Z;
  me_tag : Z;
  me_communicator : Z;
  me_datatype : Z;
  me_retval : Z
}.

(** The event of each build. *)
Inductive mpi_event :=
| CBTF_mpi_event (start_time stop_time : Z)
| CBTF_mpit_event (e : mpit_event)
| CBTF_mpip_event (time : Z).

(** event.field = value; all fields but size are ints. *)
Definition set_source (v : Z) (e : mpit_event) : mpit_event :=
  mkMpit (me_start_time e) (me_stop_time e) (i32 v) (me_destination e) (me_size e) (me_tag e) (me_communicator e) (me_datatype e) (me_retval e).
Definition set_destination (v : Z) (e : mpit_event) : mpit_event :=
  mkMpit (me_start_time e) (me_stop_time e) (me_source e) (i32 v) (me_size e) (me_tag e) (me_communicator e) (me_datatype e) (me_retval e).
Definition set_size (v : Z) (e : mpit_event) : mpit_event :=
  mkMpit (me_start_time e) (me_stop_time e) (me_source e) (me_destination e) (u64 v) (me_tag e) (me_communicator e) (me_datatype e) (me_retval e).
Definition set_tag (v : Z) (e : mpit_event) : mpit_event :=
  mkMpit (me_start_time e) (me_stop_time e) (me_source e) (me_destination e) (me_size e) (i32 v) (me_communicator e) (me_datatype e) (me_retval e).
Definition set_communicator (v : Z) (e : mpit_event) : mpit_event :=
  mkMpit (me_start_time e) (me_stop_time e) (me_source e) (me_destination e) (me_size e) (me_tag e) (i32 v) (me_datatype e) (me_retval e).
Definition set_datatype (v : Z) (e : mpit_event) : mpit_event :=
  mkMpit (me_start_time e) (me_stop_time e) (me_source e) (me_destination e) (me_size e) (me_tag e) (me_communicator e) (i32 v) (me_retval e).
Definition set_retval (v : Z) (e : mpit_event) : mpit_event :=
  mkMpit (me_start_time e) (me_stop_time e) (me_source e) (me_destination e) (me_size e) (me_tag e) (me_communicator e) (me_datatype e) (i32 v).

(** What the wrappers ask of the MPI library and of the program's memory: the
    rank in MPI_COMM_WORLD, the size of a datatype, the int and the datatype
    stored at an address. *)
Record mpi_library := mkLibrary {
  lib_comm_rank : Z;
  lib_type_size : Z -> Z;
  lib_int_at : Z -> Z;
  lib_type_at : Z -> Z
}.

Section wrappers.
Context (b : build) (L : mpi_library).

(** The zeroed event with its times, then the assignments in order. *)
Definition fill (start stop : Z) (assignments : list (mpit_event -> mpit_event)) : mpit_event :=
  fold_left (fun e f => f e) assignments (mkMpit start stop 0 0 0 0 0 0 0).

(** [details] has the records of the extended trace; the other builds have one. *)
Definition mpi_wrapper (guard real : string) (args : list Z) (function : string)
    (details : list (stamp * (Z -> list (mpit_event -> mpit_event)))) : wrapped mpi_event :=
  mkWrapped guard real args function
    match b with
    | TRACE => [(NoStamp, fun start stop _ => CBTF_mpi_event start stop)]
    | PROFILE => [(NoStamp, fun start stop _ => CBTF_mpip_event (u64 (stop - start)))]
    | EXTENDEDTRACE => (fun x => (x.1, fun start stop retval => CBTF_mpit_event (fill start stop (x.2 retval)))) <$> details
    end.

Definition MPI_Iallgather (sendbuf sendcount sendtype recvbuf recvcount recvtype comm request : Z) : wrapped
    mpi_event :=
  mpi_wrapper "MPI_Iallgather" "PMPI_Iallgather"
    [sendbuf; sendcount; sendtype; recvbuf; recvcount; recvtype; comm; request] "PMPI_Iallgather"
    [(NoStamp, fun _ =>
       [set_destination (lib_comm_rank L); set_size (i32 (recvcount * lib_type_size L recvtype));
        set_communicator comm; set_datatype recvtype; set_source (-1); set_size 0; set_tag 0;
        set_datatype 0; set_destination (-1)])].

Definition MPI_Iallgatherv (sendbuf sendcount sendtype recvbuf recvcounts displs recvtype comm request : Z) :
    wrapped mpi_event :=
  mpi_wrapper "MPI_Iallgatherv" "PMPI_Iallgatherv"
    [sendbuf; sendcount; sendtype; recvbuf; recvcounts; displs; recvtype; comm; request] "PMPI_Iallgatherv"
    [(NoStamp, fun _ =>
       [set_destination (lib_comm_rank L);
        set_size (i32 (lib_int_at L recvcounts * lib_type_size L recvtype)); set_communicator comm;
        set_datatype recvtype; set_source (-1); set_tag 0; set_destination (-1); set_datatype 0])].

Definition MPI_Iallreduce (sendbuf recvbuf count datatype op comm request : Z) : wrapped mpi_event :=
  mpi_wrapper "MPI_Iallreduce" "PMPI_Iallreduce"
    [sendbuf; recvbuf; count; datatype; op; comm; request] "PMPI_Iallreduce"
    [(NoStamp, fun _ =>
       [set_destination (lib_comm_rank L); set_size (i32 (count * lib_type_size L datatype));
        set_communicator comm; set_datatype datatype; set_destination (-1); set_source (-1); set_tag 0;
        set_destination (-1)])].

Definition MPI_Ialltoall (sendbuf sendcount sendtype recvbuf recvcount recvtype comm request : Z) : wrapped
    mpi_event :=
  mpi_wrapper "MPI_Ialltoall" "PMPI_Ialltoall"
    [sendbuf; sendcount; sendtype; recvbuf; recvcount; recvtype; comm; request] "PMPI_Ialltoall"
    [(NoStamp, fun _ =>
       [set_destination (lib_comm_rank L); set_size (i32 (recvcount * lib_type_size L recvtype));
        set_communicator comm; set_datatype recvtype; set_destination (-1)])].

Definition MPI_Ialltoallv (sendbuf sendcounts sdispls sendtype recvbuf recvcounts rdispls recvtype comm request
    : Z) : wrapped mpi_event :=
  mpi_wrapper "MPI_Ialltoallv" "PMPI_Ialltoallv"
    [sendbuf; sendcounts; sdispls; sendtype; recvbuf; recvcounts; rdispls; recvtype; comm; request] "PMPI_Ialltoallv"
    [(NoStamp, fun _ =>
       [set_destination (lib_comm_rank L);
        set_size (i32 (lib_int_at L recvcounts * lib_type_size L recvtype)); set_communicator comm;
        set_datatype recvtype; set_destination (-1); set_source (-1); set_tag 0])].

Definition MPI_Ialltoallw (sendbuf sendcounts sdispls sendtypes recvbuf recvcounts rdispls recvtypes comm
    request : Z) : wrapped mpi_event :=
  mpi_wrapper "MPI_Ialltoallw" "PMPI_Ialltoallw"
    [sendbuf; sendcounts; sdispls; sendtypes; recvbuf; recvcounts; rdispls; recvtypes; comm; request] "PMPI_Ialltoallw"
    [(NoStamp, fun _ =>
       [set_destination (lib_comm_rank L);
        set_size (i32 (lib_int_at L recvcounts * lib_type_size L (lib_type_at L recvtypes)));
        set_communicator comm; set_datatype (lib_type_at L recvtypes); set_destination (-1);
        set_source (-1); set_tag 0])].

Definition MPI_Ibarrier (comm request : Z) : wrapped mpi_event :=
  mpi_wrapper "MPI_Ibarrier" "PMPI_Ibarrier" [comm; request] "PMPI_Ibarrier"
    [(NoStamp, fun _ =>
       [set_destination (lib_comm_rank L); set_size 0; set_communicator comm; set_datatype 0;
        set_source (-1); set_tag 0; set_destination (-1)])].

Definition MPI_Ibcast (buffer count datatype root comm request : Z) : wrapped mpi_event :=
  mpi_wrapper "MPI_Ibcast" "PMPI_Ibcast" [buffer; count; datatype; root; comm; request] "PMPI_Ibcast"
    [(NoStamp, fun _ =>
       [set_destination (lib_comm_rank L); set_size (i32 (count * lib_type_size L datatype));
        set_communicator comm; set_datatype datatype; set_destination (-1); set_source (-1); set_tag 0])].

Definition MPI_Iexscan (sendbuf recvbuf count datatype op comm request : Z) : wrapped mpi_event :=
  mpi_wrapper "MPI_Iexscan" "PMPI_Iexscan" [sendbuf; recvbuf; count; datatype; op; comm; request] "PMPI_Iexscan"
    [(NoStamp, fun _ =>
       [set_destination (lib_comm_rank L); set_size (i32 (count * lib_type_size L datatype));
        set_communicator comm; set_datatype datatype; set_source (-1); set_tag 0; set_destination (-1)])].

Definition MPI_Igather (sendbuf sendcount sendtype recvbuf recvcount recvtype root comm request : Z) : wrapped
    mpi_event :=
  mpi_wrapper "MPI_Igather" "PMPI_Igather"
    [sendbuf; sendcount; sendtype; recvbuf; recvcount; recvtype; root; comm; request] "PMPI_Igather"
    [(NoStamp, fun _ =>
       [set_destination (lib_comm_rank L); set_size (i32 (recvcount * lib_type_size L recvtype));
        set_communicator comm; set_datatype recvtype; set_source (-1); set_tag 0; set_destination (-1)])].

Definition MPI_Igatherv (sendbuf sendcount sendtype recvbuf recvcounts displs recvtype root comm request : Z) :
    wrapped mpi_event :=
  mpi_wrapper "MPI_Igatherv" "PMPI_Igatherv"
    [sendbuf; sendcount; sendtype; recvbuf; recvcounts; displs; recvtype; root; comm; request] "PMPI_Igatherv"
    [(NoStamp, fun _ =>
       [set_destination (lib_comm_rank L);
        set_size (i32 (lib_int_at L recvcounts * lib_type_size L recvtype)); set_communicator comm;
        set_datatype recvtype; set_source (-1); set_tag 0; set_destination (-1)])].

Definition MPI_Improbe (source tag comm flag message status : Z) : wrapped mpi_event :=
  mpi_wrapper "MPI_Improbe" "PMPI_Improbe" [source; tag; comm; flag; message; status] "PMPI_Improbe"
    [(NoStamp, fun _ =>
       [set_source source; set_destination (lib_comm_rank L); set_size 0; set_communicator comm;
        set_datatype 0; set_tag tag; set_destination (-1)])].

Definition MPI_Imrecv (buf count datatype message request : Z) : wrapped mpi_event :=
  mpi_wrapper "MPI_Imrecv" "PMPI_Imrecv" [buf; count; datatype; message; request] "PMPI_Imrecv"
    [(NoStamp, fun _ =>
       [set_destination (lib_comm_rank L); set_size (i32 (count * lib_type_size L datatype));
        set_datatype datatype; set_communicator 0; set_destination (-1); set_source (-1); set_tag 0])].

Definition MPI_Ineighbor_allgather (sendbuf sendcount sendtype recvbuf recvcount recvtype comm request : Z) :
    wrapped mpi_event :=
  mpi_wrapper "MPI_Ineighbor_allgather" "PMPI_Ineighbor_allgather"
    [sendbuf; sendcount; sendtype; recvbuf; recvcount; recvtype; comm; request] "PMPI_Ineighbor_allgather"
    [(NoStamp, fun _ =>
       [set_destination (lib_comm_rank L); set_size (i32 (recvcount * lib_type_size L recvtype));
        set_datatype recvtype; set_communicator comm; set_destination (-1); set_source (-1); set_tag 0])].

Definition MPI_Ineighbor_allgatherv (sendbuf sendcount sendtype recvbuf recvcounts displs recvtype comm request
    : Z) : wrapped mpi_event :=
  mpi_wrapper "MPI_Ineighbor_allgatherv" "PMPI_Ineighbor_allgatherv"
    [sendbuf; sendcount; sendtype; recvbuf; recvcounts; displs; recvtype; comm; request] "PMPI_Ineighbor_allgatherv"
    [(NoStamp, fun _ =>
       [set_destination (lib_comm_rank L);
        set_size (i32 (lib_int_at L recvcounts * lib_type_size L recvtype)); set_datatype recvtype;
        set_communicator comm; set_destination (-1); set_source (-1); set_tag 0])].

Definition MPI_Ineighbor_alltoall (sendbuf sendcount sendtype recvbuf recvcount recvtype comm request : Z) :
    wrapped mpi_event :=
  mpi_wrapper "MPI_Ineighbor_alltoall" "PMPI_Ineighbor_alltoall"
    [sendbuf; sendcount; sendtype; recvbuf; recvcount; recvtype; comm; request] "PMPI_Ineighbor_alltoall"
    [(NoStamp, fun _ =>
       [set_destination (lib_comm_rank L); set_size (i32 (recvcount * lib_type_size L recvtype));
        set_datatype recvtype; set_communicator comm; set_source (-1); set_destination (-1); set_tag 0])].

Definition MPI_Ineighbor_alltoallv (sendbuf sendcounts sdispls sendtype recvbuf recvcounts rdispls recvtype
    comm request : Z) : wrapped mpi_event :=
  mpi_wrapper "MPI_Ineighbor_alltoallv" "PMPI_Ineighbor_alltoallv"
    [sendbuf; sendcounts; sdispls; sendtype; recvbuf; recvcounts; rdispls; recvtype; comm; request] "PMPI_Ineighbor_alltoallv"
    [(NoStamp, fun _ =>
       [set_destination (lib_comm_rank L);
        set_size (i32 (lib_int_at L recvcounts * lib_type_size L recvtype)); set_datatype recvtype;
        set_communicator comm; set_destination (-1); set_source (-1); set_tag 0])].

Definition MPI_Ineighbor_alltoallw (sendbuf sendcounts sdispls sendtypes recvbuf recvcounts rdispls recvtypes
    comm request : Z) : wrapped mpi_event :=
  mpi_wrapper "MPI_Ineighbor_alltoallw" "PMPI_Ineighbor_alltoallw"
    [sendbuf; sendcounts; sdispls; sendtypes; recvbuf; recvcounts; rdispls; recvtypes; comm; request] "PMPI_Ineighbor_alltoallw"
    [(NoStamp, fun _ =>
       [set_destination (lib_comm_rank L);
        set_size (i32 (lib_int_at L recvcounts * lib_type_size L (lib_type_at L recvtypes)));
        set_datatype (lib_type_at L recvtypes); set_communicator comm; set_destination (-1);
        set_source (-1); set_tag 0])].

Definition MPI_Ireduce (sendbuf recvbuf count datatype op root comm request : Z) : wrapped mpi_event :=
  mpi_wrapper "MPI_Ireduce" "PMPI_Ireduce" [sendbuf; recvbuf; count; datatype; op; root; comm; request] "PMPI_Ireduce"
    [(NoStamp, fun _ =>
       [set_destination (lib_comm_rank L); set_size (i32 (count * lib_type_size L datatype));
        set_datatype datatype; set_communicator comm; set_destination (-1); set_source (-1); set_tag 0;
        set_communicator (-1); set_destination (-1); set_datatype 0])].

Definition MPI_Ireduce_scatter (sendbuf recvbuf recvcounts datatype op comm request : Z) : wrapped mpi_event :=
  mpi_wrapper "MPI_Ireduce_scatter" "PMPI_Ireduce_scatter"
    [sendbuf; recvbuf; recvcounts; datatype; op; comm; request] "PMPI_Ireduce_scatter"
    [(NoStamp, fun _ =>
       [set_destination (lib_comm_rank L);
        set_size (i32 (lib_int_at L recvcounts * lib_type_size L datatype)); set_datatype datatype;
        set_communicator comm; set_destination (-1); set_source (-1); set_tag 0; set_communicator (-1)])].

Definition MPI_Ireduce_scatter_block (sendbuf recvbuf recvcount datatype op comm request : Z) : wrapped mpi_event :=
  mpi_wrapper "MPI_Ireduce_scatter_block" "PMPI_Ireduce_scatter_block"
    [sendbuf; recvbuf; recvcount; datatype; op; comm; request] "PMPI_Ireduce_scatter_block"
    [(NoStamp, fun _ =>
       [set_destination (lib_comm_rank L); set_size (i32 (recvcount * lib_type_size L datatype));
        set_datatype datatype; set_communicator comm; set_destination (-1); set_source (-1); set_tag 0])].

Definition MPI_Comm_idup (comm newcomm request : Z) : wrapped mpi_event :=
  mpi_wrapper "MPI_Comm_idup" "PMPI_Comm_idup" [comm; newcomm; request] "PMPI_Comm_idup"
    [(NoStamp, fun _ =>
       [set_destination (lib_comm_rank L); set_size 0; set_datatype 0; set_communicator newcomm;
        set_destination (-1); set_source (-1); set_tag 0])].

Definition MPI_Iscan (sendbuf recvbuf count datatype op comm request : Z) : wrapped mpi_event :=
  mpi_wrapper "MPI_Iscan" "PMPI_Iscan" [sendbuf; recvbuf; count; datatype; op; comm; request] "PMPI_Iscan"
    [(NoStamp, fun _ =>
       [set_destination (lib_comm_rank L); set_size (i32 (count * lib_type_size L datatype));
        set_datatype datatype; set_communicator comm; set_destination (-1); set_source (-1); set_tag 0])].

Definition MPI_Iscatter (sendbuf sendcount sendtype recvbuf recvcount recvtype root comm request : Z) : wrapped
    mpi_event :=
  mpi_wrapper "MPI_Iscatter" "PMPI_Iscatter"
    [sendbuf; sendcount; sendtype; recvbuf; recvcount; recvtype; root; comm; request] "PMPI_Iscatter"
    [(NoStamp, fun _ =>
       [set_destination (lib_comm_rank L); set_size (i32 (recvcount * lib_type_size L recvtype));
        set_datatype recvtype; set_communicator comm; set_destination (-1); set_source (-1); set_tag 0])].

Definition MPI_Iscatterv (sendbuf sendcounts displs sendtype recvbuf recvcount recvtype root comm request : Z)
    : wrapped mpi_event :=
  mpi_wrapper "MPI_Iscatterv" "PMPI_Iscatterv"
    [sendbuf; sendcounts; displs; sendtype; recvbuf; recvcount; recvtype; root; comm; request] "PMPI_Iscatterv"
    [(NoStamp, fun _ =>
       [set_destination (lib_comm_rank L); set_size (i32 (recvcount * lib_type_size L recvtype));
        set_datatype recvtype; set_communicator comm; set_destination (-1); set_source (-1); set_tag 0])].

Definition MPI_Irecv (buf count datatype source tag comm request : Z) : wrapped mpi_event :=
  mpi_wrapper "MPI_Irecv" "PMPI_Irecv" [buf; count; datatype; source; tag; comm; request] "PMPI_Irecv"
    [(NoStamp, fun _ =>
       [set_source source; set_destination (lib_comm_rank L);
        set_size (i32 (count * lib_type_size L datatype)); set_tag tag; set_communicator comm;
        set_datatype datatype; set_destination (-1)])].

Definition MPI_Recv (buf count datatype source tag comm status : Z) : wrapped mpi_event :=
  mpi_wrapper "MPI_Recv" "PMPI_Recv" [buf; count; datatype; source; tag; comm; status] "PMPI_Recv"
    [(NoStamp, fun retval =>
       [set_source source; set_destination (lib_comm_rank L);
        set_size (i32 (count * lib_type_size L datatype)); set_tag tag; set_communicator comm;
        set_datatype datatype; set_retval retval; set_destination (-1)])].

Definition MPI_Recv_init (buf count datatype source tag comm request : Z) : wrapped mpi_event :=
  mpi_wrapper "MPI_Recv_init" "PMPI_Recv_init" [buf; count; datatype; source; tag; comm; request] "PMPI_Recv_init"
    [(NoStamp, fun retval =>
       [set_source source; set_destination (lib_comm_rank L);
        set_size (i32 (count * lib_type_size L datatype)); set_tag tag; set_communicator comm;
        set_datatype datatype; set_retval retval; set_destination (-1)])].

Definition MPI_Iprobe (source tag comm flag status : Z) : wrapped mpi_event :=
  mpi_wrapper "MPI_Iprobe" "PMPI_Iprobe" [source; tag; comm; flag; status] "PMPI_Iprobe"
    [(NoStamp, fun retval =>
       [set_source source; set_destination (lib_comm_rank L); set_tag tag; set_communicator comm;
        set_retval retval; set_destination (-1); set_datatype 0; set_size 0])].

Definition MPI_Probe (source tag comm status : Z) : wrapped mpi_event :=
  mpi_wrapper "MPI_Probe" "PMPI_Probe" [source; tag; comm; status] "PMPI_Probe"
    [(NoStamp, fun retval =>
       [set_source source; set_destination (lib_comm_rank L); set_tag tag; set_communicator comm;
        set_retval retval; set_destination (-1); set_datatype 0; set_size 0])].

Definition MPI_Isend (buf count datatype dest tag comm request : Z) : wrapped mpi_event :=
  mpi_wrapper "MPI_Isend" "PMPI_Isend" [buf; count; datatype; dest; tag; comm; request] "PMPI_Isend"
    [(NoStamp, fun retval =>
       [set_source (lib_comm_rank L); set_destination dest;
        set_size (i32 (count * lib_type_size L datatype)); set_tag tag; set_communicator comm;
        set_datatype datatype; set_retval retval])].

Definition MPI_Bsend (buf count datatype dest tag comm : Z) : wrapped mpi_event :=
  mpi_wrapper "MPI_Bsend" "PMPI_Bsend" [buf; count; datatype; dest; tag; comm] "PMPI_Bsend"
    [(NoStamp, fun retval =>
       [set_destination dest; set_source (lib_comm_rank L);
        set_size (i32 (count * lib_type_size L datatype)); set_tag tag; set_communicator comm;
        set_datatype datatype; set_retval retval])].

Definition MPI_Bsend_init (buf count datatype dest tag comm request : Z) : wrapped mpi_event :=
  mpi_wrapper "Bsend_init" "PMPI_Bsend_init" [buf; count; datatype; dest; tag; comm; request] "PMPI_Bsend_init"
    [(NoStamp, fun retval =>
       [set_destination dest; set_source (lib_comm_rank L);
        set_size (i32 (count * lib_type_size L datatype)); set_tag tag; set_communicator comm;
        set_datatype datatype; set_retval retval])].

Definition MPI_Ibsend (buf count datatype dest tag comm request : Z) : wrapped mpi_event :=
  mpi_wrapper "MPI_Ibsend" "PMPI_Ibsend" [buf; count; datatype; dest; tag; comm; request] "PMPI_Ibsend"
    [(NoStamp, fun retval =>
       [set_destination dest; set_source (lib_comm_rank L);
        set_size (i32 (count * lib_type_size L datatype)); set_tag tag; set_communicator comm;
        set_datatype datatype; set_retval retval])].

Definition MPI_Irsend (buf count datatype dest tag comm request : Z) : wrapped mpi_event :=
  mpi_wrapper "MPI_Irsend" "PMPI_Irsend" [buf; count; datatype; dest; tag; comm; request] "PMPI_Irsend"
    [(NoStamp, fun retval =>
       [set_destination dest; set_source (lib_comm_rank L);
        set_size (i32 (count * lib_type_size L datatype)); set_tag tag; set_communicator comm;
        set_datatype datatype; set_retval retval])].

Definition MPI_Issend (buf count datatype dest tag comm request : Z) : wrapped mpi_event :=
  mpi_wrapper "MPI_Issend" "PMPI_Issend" [buf; count; datatype; dest; tag; comm; request] "PMPI_Issend"
    [(NoStamp, fun retval =>
       [set_destination dest; set_source (lib_comm_rank L);
        set_size (i32 (count * lib_type_size L datatype)); set_tag tag; set_communicator comm;
        set_datatype datatype; set_retval retval])].

Definition MPI_Rsend (buf count datatype dest tag comm : Z) : wrapped mpi_event :=
  mpi_wrapper "MPI_Rsend" "PMPI_Rsend" [buf; count; datatype; dest; tag; comm] "PMPI_Rsend"
    [(NoStamp, fun retval =>
       [set_destination dest; set_source (lib_comm_rank L);
        set_size (i32 (count * lib_type_size L datatype)); set_tag tag; set_communicator comm;
        set_datatype datatype; set_retval retval])].

Definition MPI_Rsend_init (buf count datatype dest tag comm request : Z) : wrapped mpi_event :=
  mpi_wrapper "MPI_Rsend_init" "PMPI_Rsend_init" [buf; count; datatype; dest; tag; comm; request] "PMPI_Rsend_init"
    [(NoStamp, fun retval =>
       [set_destination dest; set_source (lib_comm_rank L);
        set_size (i32 (count * lib_type_size L datatype)); set_tag tag; set_communicator comm;
        set_datatype datatype; set_retval retval])].

Definition MPI_Send (buf count datatype dest tag comm : Z) : wrapped mpi_event :=
  mpi_wrapper "MPI_Send" "PMPI_Send" [buf; count; datatype; dest; tag; comm] "PMPI_Send"
    [(NoStamp, fun retval =>
       [set_destination dest; set_source (lib_comm_rank L);
        set_size (i32 (count * lib_type_size L datatype)); set_tag tag; set_communicator comm;
        set_datatype datatype; set_retval retval])].

Definition MPI_Send_init (buf count datatype dest tag comm request : Z) : wrapped mpi_event :=
  mpi_wrapper "MPI_Send_init" "PMPI_Send_init" [buf; count; datatype; dest; tag; comm; request] "PMPI_Send_init"
    [(NoStamp, fun retval =>
       [set_destination dest; set_source (lib_comm_rank L);
        set_size (i32 (count * lib_type_size L datatype)); set_tag tag; set_communicator comm;
        set_datatype datatype; set_retval retval])].

Definition MPI_Ssend (buf count datatype dest tag comm : Z) : wrapped mpi_event :=
  mpi_wrapper "MPI_Ssend" "PMPI_Ssend" [buf; count; datatype; dest; tag; comm] "PMPI_Ssend"
    [(NoStamp, fun retval =>
       [set_destination dest; set_source (lib_comm_rank L);
        set_size (i32 (count * lib_type_size L datatype)); set_tag tag; set_communicator comm;
        set_datatype datatype; set_retval retval])].

Definition MPI_Ssend_init (buf count datatype dest tag comm request : Z) : wrapped mpi_event :=
  mpi_wrapper "MPI_Ssend_init" "PMPI_Ssend_init" [buf; count; datatype; dest; tag; comm; request] "PMPI_Ssend_init"
    [(NoStamp, fun retval =>
       [set_destination dest; set_source (lib_comm_rank L);
        set_size (i32 (count * lib_type_size L datatype)); set_tag tag; set_communicator comm;
        set_datatype datatype; set_retval retval])].

Definition MPI_Waitall (count array_of_requests status : Z) : wrapped mpi_event :=
  mpi_wrapper "MPI_Waitall" "PMPI_Waitall" [count; array_of_requests; status] "PMPI_Waitall"
    [(NoStamp, fun retval =>
       [set_destination (lib_comm_rank L); set_retval retval; set_source (-1); set_size 0; set_tag 0;
        set_communicator (-1); set_datatype 0])].

Definition MPI_Finalize : wrapped mpi_event :=
  mpi_wrapper "MPI_Finalize" "PMPI_Finalize" [] "PMPI_Finalize"
    [(NoStamp, fun retval =>
       [set_destination (lib_comm_rank L); set_retval retval; set_size 0; set_tag 0; set_communicator (-1);
        set_source (-1); set_datatype 0])].

Definition MPI_Waitsome (incount array_of_requests outcount array_of_indices array_of_statuses : Z) : wrapped
    mpi_event :=
  mpi_wrapper "MPI_Waitsome" "PMPI_Waitsome"
    [incount; array_of_requests; outcount; array_of_indices; array_of_statuses] "PMPI_Waitsome"
    [(NoStamp, fun retval =>
       [set_destination (lib_comm_rank L); set_retval retval; set_source (-1); set_size 0; set_tag 0;
        set_communicator (-1); set_datatype 0])].

Definition MPI_Testsome (incount array_of_requests outcount array_of_indices array_of_statuses : Z) : wrapped
    mpi_event :=
  mpi_wrapper "MPI_Testsome" "PMPI_Testsome"
    [incount; array_of_requests; outcount; array_of_indices; array_of_statuses] "PMPI_Testsome"
    [(NoStamp, fun retval =>
       [set_destination (lib_comm_rank L); set_retval retval; set_source (-1); set_size 0; set_tag 0;
        set_communicator (-1); set_datatype 0])].

Definition MPI_Waitany (count array_of_requests index status : Z) : wrapped mpi_event :=
  mpi_wrapper "MPI_Waitany" "PMPI_Waitany" [count; array_of_requests; index; status] "PMPI_Waitany"
    [(NoStamp, fun retval =>
       [set_destination (lib_comm_rank L); set_retval retval; set_source (-1); set_size 0; set_tag 0;
        set_communicator (-1); set_datatype 0])].

Definition MPI_Unpack (inbuf insize position outbuf outcount datatype comm : Z) : wrapped mpi_event :=
  mpi_wrapper "MPI_Unpack" "PMPI_Unpack" [inbuf; insize; position; outbuf; outcount; datatype; comm] "PMPI_Unpack"
    [(NoStamp, fun retval =>
       [set_destination (lib_comm_rank L); set_size (i32 (outcount * lib_type_size L datatype));
        set_datatype datatype; set_retval retval; set_source (-1); set_tag 0; set_communicator (-1)])].

Definition MPI_Wait (request status : Z) : wrapped mpi_event :=
  mpi_wrapper "MPI_Wait" "PMPI_Wait" [request; status] "PMPI_Wait"
    [(NoStamp, fun retval =>
       [set_destination (lib_comm_rank L); set_retval retval; set_source (-1); set_size 0; set_tag 0;
        set_communicator (-1); set_datatype 0])].

Definition MPI_Testany (count array_of_requests index flag status : Z) : wrapped mpi_event :=
  mpi_wrapper "MPI_Testany" "PMPI_Testany" [count; array_of_requests; index; flag; status] "PMPI_Testany"
    [(NoStamp, fun retval =>
       [set_destination (lib_comm_rank L); set_retval retval; set_source (-1); set_size 0; set_tag 0;
        set_communicator (-1); set_datatype 0])].

Definition MPI_Testall (count array_of_requests flag status : Z) : wrapped mpi_event :=
  mpi_wrapper "MPI_Testall" "PMPI_Testall" [count; array_of_requests; flag; status] "PMPI_Testall"
    [(NoStamp, fun retval =>
       [set_destination (lib_comm_rank L); set_retval retval; set_source (-1); set_size 0; set_tag 0;
        set_communicator (-1); set_datatype 0])].

Definition MPI_Test (request flag status : Z) : wrapped mpi_event :=
  mpi_wrapper "MPI_Test" "PMPI_Test" [request; flag; status] "PMPI_Test"
    [(NoStamp, fun retval =>
       [set_destination (lib_comm_rank L); set_retval retval; set_source (-1); set_size 0; set_tag 0;
        set_communicator (-1); set_datatype 0])].

Definition MPI_Scan (sendbuf recvbuf count datatype op comm : Z) : wrapped mpi_event :=
  mpi_wrapper "MPI_Scan" "PMPI_Scan" [sendbuf; recvbuf; count; datatype; op; comm] "PMPI_Scan"
    [(NoStamp, fun retval =>
       [set_destination (lib_comm_rank L); set_size (i32 (count * lib_type_size L datatype));
        set_communicator comm; set_datatype datatype; set_retval retval; set_source (-1); set_tag 0])].

Definition MPI_Request_free (request : Z) : wrapped mpi_event :=
  mpi_wrapper "MPI_Request_free" "PMPI_Request_free" [request] "PMPI_Request_free"
    [(NoStamp, fun retval =>
       [set_destination (lib_comm_rank L); set_retval retval; set_source (-1); set_size 0; set_tag 0;
        set_communicator (-1); set_datatype 0])].

Definition MPI_Reduce_scatter (sendbuf recvbuf recvcounts datatype op comm : Z) : wrapped mpi_event :=
  mpi_wrapper "MPI_Reduce_scatter" "PMPI_Reduce_scatter"
    [sendbuf; recvbuf; recvcounts; datatype; op; comm] "PMPI_Reduce_scatter"
    [(NoStamp, fun retval =>
       [set_destination (lib_comm_rank L);
        set_size (i32 (lib_int_at L recvcounts * lib_type_size L datatype)); set_communicator comm;
        set_datatype datatype; set_retval retval; set_source (-1); set_tag 0])].

Definition MPI_Reduce (sendbuf recvbuf count datatype op root comm : Z) : wrapped mpi_event :=
  mpi_wrapper "MPI_Reduce" "PMPI_Reduce" [sendbuf; recvbuf; count; datatype; op; root; comm] "PMPI_Reduce"
    [(NoStamp, fun retval =>
       [set_destination (lib_comm_rank L); set_size (i32 (count * lib_type_size L datatype));
        set_communicator comm; set_datatype datatype; set_retval retval; set_source (-1); set_tag 0])].

Definition MPI_Pack (inbuf incount datatype outbuf outsize position comm : Z) : wrapped mpi_event :=
  mpi_wrapper "MPI_Pack" "PMPI_Pack" [inbuf; incount; datatype; outbuf; outsize; position; comm] "PMPI_Pack"
    [(NoStamp, fun retval =>
       [set_destination (lib_comm_rank L); set_size (i32 (incount * lib_type_size L datatype));
        set_communicator comm; set_datatype datatype; set_retval retval; set_source (-1); set_tag 0])].

Definition MPI_Init (argc argv : Z) : wrapped mpi_event :=
  mpi_wrapper "MPI_Init" "PMPI_Init" [argc; argv] "PMPI_Init"
    [(NoStamp, fun retval =>
       [set_destination (lib_comm_rank L); set_retval retval; set_source (-1); set_size 0; set_tag 0;
        set_communicator (-1); set_datatype 0])].

Definition MPI_Get_count (status datatype count : Z) : wrapped mpi_event :=
  mpi_wrapper "MPI_Get_count" "PMPI_Get_count" [status; datatype; count] "PMPI_Get_count"
    [(NoStamp, fun retval =>
       [set_destination (lib_comm_rank L); set_size (i32 (lib_int_at L count * lib_type_size L datatype));
        set_datatype datatype; set_retval retval; set_source (-1); set_tag 0; set_communicator (-1)])].

Definition MPI_Gatherv (sendbuf sendcount sendtype recvbuf recvcounts displs recvtype root comm : Z) : wrapped
    mpi_event :=
  mpi_wrapper "MPI_Gatherv" "PMPI_Gatherv"
    [sendbuf; sendcount; sendtype; recvbuf; recvcounts; displs; recvtype; root; comm] "PMPI_Gatherv"
    [(NoStamp, fun retval =>
       [set_destination (lib_comm_rank L);
        set_size (i32 (lib_int_at L recvcounts * lib_type_size L recvtype)); set_communicator comm;
        set_datatype recvtype; set_retval retval; set_source (-1); set_tag 0; set_communicator (-1)])].

Definition MPI_Gather (sendbuf sendcount sendtype recvbuf recvcount recvtype root comm : Z) : wrapped mpi_event :=
  mpi_wrapper "MPI_Gather" "PMPI_Gather"
    [sendbuf; sendcount; sendtype; recvbuf; recvcount; recvtype; root; comm] "PMPI_Gather"
    [(NoStamp, fun retval =>
       [set_destination (lib_comm_rank L); set_size (i32 (recvcount * lib_type_size L recvtype));
        set_communicator comm; set_datatype recvtype; set_retval retval; set_source (-1); set_tag 0])].

Definition MPI_Cancel (request : Z) : wrapped mpi_event :=
  mpi_wrapper "MPI_Cancel" "PMPI_Cancel" [request] "PMPI_Cancel"
    [(NoStamp, fun retval =>
       [set_destination (lib_comm_rank L); set_retval retval; set_source (-1); set_size 0; set_tag 0;
        set_communicator (-1); set_datatype 0])].

Definition MPI_Bcast (buffer count datatype root comm : Z) : wrapped mpi_event :=
  mpi_wrapper "MPI_Bcast" "PMPI_Bcast" [buffer; count; datatype; root; comm] "PMPI_Bcast"
    [(NoStamp, fun retval =>
       [set_destination (lib_comm_rank L); set_size (i32 (count * lib_type_size L datatype));
        set_communicator comm; set_datatype datatype; set_retval retval; set_source (-1); set_tag 0])].

Definition MPI_Barrier (comm : Z) : wrapped mpi_event :=
  mpi_wrapper "MPI_Barrier" "PMPI_Barrier" [comm] "PMPI_Barrier"
    [(NoStamp, fun retval =>
       [set_destination (lib_comm_rank L); set_communicator comm; set_retval retval; set_source (-1);
        set_size 0; set_tag 0; set_datatype 0])].

Definition MPI_Alltoallv (sendbuf sendcounts sdispls sendtype recvbuf recvcounts rdispls recvtype comm : Z) :
    wrapped mpi_event :=
  mpi_wrapper "MPI_Alltoallv" "PMPI_Alltoallv"
    [sendbuf; sendcounts; sdispls; sendtype; recvbuf; recvcounts; rdispls; recvtype; comm] "PMPI_Alltoallv"
    [(NoStamp, fun retval =>
       [set_destination (lib_comm_rank L);
        set_size (i32 (lib_int_at L recvcounts * lib_type_size L recvtype)); set_communicator comm;
        set_datatype recvtype; set_retval retval])].

Definition MPI_Alltoall (sendbuf sendcount sendtype recvbuf recvcount recvtype comm : Z) : wrapped mpi_event :=
  mpi_wrapper "MPI_Alltoall" "PMPI_Alltoall"
    [sendbuf; sendcount; sendtype; recvbuf; recvcount; recvtype; comm] "PMPI_Alltoall"
    [(NoStamp, fun retval =>
       [set_destination (lib_comm_rank L); set_size (i32 (recvcount * lib_type_size L recvtype));
        set_communicator comm; set_datatype recvtype; set_retval retval; set_source (-1); set_tag 0])].

Definition MPI_Allreduce (sendbuf recvbuf count datatype op comm : Z) : wrapped mpi_event :=
  mpi_wrapper "MPI_Allreduce" "PMPI_Allreduce" [sendbuf; recvbuf; count; datatype; op; comm] "PMPI_Allreduce"
    [(NoStamp, fun retval =>
       [set_destination (lib_comm_rank L); set_size (i32 (count * lib_type_size L datatype));
        set_communicator comm; set_datatype datatype; set_retval retval; set_source (-1); set_tag 0])].

Definition MPI_Allgatherv (sendbuf sendcount sendtype recvbuf recvcounts displs recvtype comm : Z) : wrapped
    mpi_event :=
  mpi_wrapper "MPI_Allgatherv" "PMPI_Allgatherv"
    [sendbuf; sendcount; sendtype; recvbuf; recvcounts; displs; recvtype; comm] "PMPI_Allgatherv"
    [(NoStamp, fun retval =>
       [set_destination (lib_comm_rank L);
        set_size (i32 (lib_int_at L recvcounts * lib_type_size L recvtype)); set_communicator comm;
        set_datatype recvtype; set_retval retval; set_source (-1); set_tag 0])].

Definition MPI_Allgather (sendbuf sendcount sendtype recvbuf recvcount recvtype comm : Z) : wrapped mpi_event :=
  mpi_wrapper "MPI_Allgather" "PMPI_Allgather"
    [sendbuf; sendcount; sendtype; recvbuf; recvcount; recvtype; comm] "PMPI_Allgather"
    [(NoStamp, fun retval =>
       [set_destination (lib_comm_rank L); set_size (i32 (recvcount * lib_type_size L recvtype));
        set_communicator comm; set_datatype recvtype; set_retval retval; set_source (-1); set_tag 0])].

Definition MPI_Scatter (sendbuf sendcount sendtype recvbuf recvcount recvtype root comm : Z) : wrapped mpi_event :=
  mpi_wrapper "MPI_Scatter" "PMPI_Scatter"
    [sendbuf; sendcount; sendtype; recvbuf; recvcount; recvtype; root; comm] "PMPI_Scatter"
    [(NoStamp, fun retval =>
       [set_source root; set_source (lib_comm_rank L);
        set_size (i32 (sendcount * lib_type_size L sendtype)); set_datatype sendtype; set_tag 0;
        set_communicator comm; set_retval retval]);
     (NoStamp, fun retval =>
       [set_size (i32 (recvcount * lib_type_size L recvtype)); set_datatype recvtype;
        set_communicator comm; set_retval retval; set_tag 0])].

Definition MPI_Scatterv (sendbuf sendcounts displs sendtype recvbuf recvcount recvtype root comm : Z) : wrapped
    mpi_event :=
  mpi_wrapper "MPI_Scatterv" "PMPI_Scatterv"
    [sendbuf; sendcounts; displs; sendtype; recvbuf; recvcount; recvtype; root; comm] "PMPI_Scatterv"
    [(Restamp, fun retval =>
       [set_source root; set_source (lib_comm_rank L);
        set_size (i32 (lib_int_at L sendcounts * lib_type_size L sendtype)); set_datatype sendtype;
        set_communicator comm; set_retval retval; set_tag 0]);
     (Restamp, fun retval =>
       [set_size (i32 (recvcount * lib_type_size L recvtype)); set_datatype recvtype;
        set_communicator comm; set_retval retval; set_tag 0])].

Definition MPI_Sendrecv (sendbuf sendcount sendtype dest sendtag recvbuf recvcount recvtype source recvtag comm
    status : Z) : wrapped mpi_event :=
  mpi_wrapper "MPI_Sendrecv" "PMPI_Sendrecv"
    [sendbuf; sendcount; sendtype; dest; sendtag; recvbuf; recvcount; recvtype; source; recvtag; comm; status] "PMPI_Sendrecv"
    [(NoStamp, fun retval =>
       [set_destination dest; set_source (lib_comm_rank L);
        set_size (i32 (sendcount * lib_type_size L sendtype)); set_tag sendtag; set_datatype sendtype;
        set_communicator comm; set_retval retval]);
     (Unused, fun retval =>
       [set_source source; set_destination (lib_comm_rank L);
        set_size (i32 (recvcount * lib_type_size L recvtype)); set_tag recvtag; set_datatype recvtype;
        set_communicator comm; set_retval retval])].

Definition MPI_Sendrecv_replace (buf count datatype dest sendtag source recvtag comm status : Z) : wrapped
    mpi_event :=
  mpi_wrapper "MPI_Sendrecv_replace" "PMPI_Sendrecv_replace"
    [buf; count; datatype; dest; sendtag; source; recvtag; comm; status] "PMPI_Sendrecv_replace"
    [(NoStamp, fun retval =>
       [set_destination dest; set_source (lib_comm_rank L);
        set_size (i32 (count * lib_type_size L datatype)); set_tag sendtag; set_datatype datatype;
        set_communicator comm; set_retval retval]);
     (NoStamp, fun retval =>
       [set_source source; set_destination (lib_comm_rank L);
        set_size (i32 (count * lib_type_size L datatype)); set_tag recvtag; set_datatype datatype;
        set_communicator comm; set_retval retval])].

Definition MPI_Cart_create (comm_old ndims dims periodv reorder comm_cart : Z) : wrapped mpi_event :=
  mpi_wrapper "MPI_Cart_create" "PMPI_Cart_create"
    [comm_old; ndims; dims; periodv; reorder; comm_cart] "PMPI_Cart_create"
    [(NoStamp, fun retval =>
       [set_retval retval; set_source (-1); set_size 0; set_tag 0; set_communicator (-1);
        set_destination (-1); set_datatype 0])].

Definition MPI_Cart_sub (comm rem_dims newcomm : Z) : wrapped mpi_event :=
  mpi_wrapper "MPI_Cart_sub" "PMPI_Cart_sub" [comm; rem_dims; newcomm] "PMPI_Cart_sub"
    [(NoStamp, fun retval =>
       [set_retval retval; set_source (-1); set_size 0; set_tag 0; set_communicator (-1);
        set_destination (-1); set_datatype 0])].

Definition MPI_Graph_create (comm_old nnodes index edges reorder comm_graph : Z) : wrapped mpi_event :=
  mpi_wrapper "MPI_Graph_create" "PMPI_Graph_create"
    [comm_old; nnodes; index; edges; reorder; comm_graph] "PMPI_Graph_create"
    [(NoStamp, fun retval =>
       [set_retval retval; set_source (-1); set_size 0; set_tag 0; set_communicator (-1);
        set_destination (-1); set_datatype 0])].

Definition MPI_Intercomm_create (local_comm local_leader peer_comm remote_leader tag newintercomm : Z) :
    wrapped mpi_event :=
  mpi_wrapper "MPI_Intercomm_create" "PMPI_Intercomm_create"
    [local_comm; local_leader; peer_comm; remote_leader; tag; newintercomm] "PMPI_Intercomm_create"
    [(NoStamp, fun retval =>
       [set_retval retval; set_source (-1); set_size 0; set_tag 0; set_communicator (-1);
        set_destination (-1); set_datatype 0])].

Definition MPI_Intercomm_merge (intercomm high newcomm : Z) : wrapped mpi_event :=
  mpi_wrapper "MPI_Intercomm_merge" "PMPI_Intercomm_merge" [intercomm; high; newcomm] "PMPI_Intercomm_merge"
    [(NoStamp, fun retval =>
       [set_retval retval; set_source (-1); set_size 0; set_tag 0; set_communicator (-1);
        set_destination (-1); set_datatype 0])].

Definition MPI_Comm_free (comm : Z) : wrapped mpi_event :=
  mpi_wrapper "MPI_Comm_free" "PMPI_Comm_free" [comm] "PMPI_Comm_free"
    [(NoStamp, fun retval =>
       [set_retval retval; set_source (-1); set_size 0; set_tag 0; set_communicator (-1);
        set_destination (-1); set_datatype 0])].

Definition MPI_Comm_dup (comm newcomm : Z) : wrapped mpi_event :=
  mpi_wrapper "MPI_Comm_dup" "PMPI_Comm_dup" [comm; newcomm] "PMPI_Comm_dup"
    [(NoStamp, fun retval =>
       [set_retval retval; set_source (-1); set_size 0; set_tag 0; set_communicator (-1);
        set_destination (-1); set_datatype 0])].

Definition MPI_Comm_create (comm group newcomm : Z) : wrapped mpi_event :=
  mpi_wrapper "MPI_Comm_create" "PMPI_Comm_create" [comm; group; newcomm] "PMPI_Comm_create"
    [(NoStamp, fun retval =>
       [set_retval retval; set_source (-1); set_size 0; set_tag 0; set_communicator (-1);
        set_destination (-1); set_datatype 0])].

Definition MPI_Comm_split (comm color key newcomm : Z) : wrapped mpi_event :=
  mpi_wrapper "MPI_Comm_split" "PMPI_Comm_split" [comm; color; key; newcomm] "PMPI_Comm_split"
    [(NoStamp, fun retval =>
       [set_retval retval; set_source (-1); set_size 0; set_tag 0; set_communicator (-1);
        set_destination (-1); set_datatype 0])].

Definition MPI_Start (request : Z) : wrapped mpi_event :=
  mpi_wrapper "MPI_Start" "PMPI_Start" [request] "PMPI_Start"
    [(NoStamp, fun retval =>
       [set_retval retval; set_source (-1); set_size 0; set_tag 0; set_communicator (-1);
        set_destination (-1); set_datatype 0])].

Definition MPI_Startall (count array_of_requests : Z) : wrapped mpi_event :=
  mpi_wrapper "MPI_Startall" "PMPI_Startall" [count; array_of_requests] "PMPI_Startall"
    [(NoStamp, fun retval =>
       [set_retval retval; set_source (-1); set_size 0; set_tag 0; set_communicator (-1);
        set_destination (-1); set_datatype 0])].

Definition MPI_File_open (comm filename amode info mfile : Z) : wrapped mpi_event :=
  mpi_wrapper "MPI_File_open" "PMPI_File_open" [comm; filename; amode; info; mfile] "PMPI_File_open"
    [(NoStamp, fun _ => [])].

Definition MPI_File_write (mfile buf count dtype status : Z) : wrapped mpi_event :=
  mpi_wrapper "MPI_File_write" "PMPI_File_write" [mfile; buf; count; dtype; status] "PMPI_File_write"
    [(NoStamp, fun _ => [])].

Definition MPI_File_write_ordered (mfile buf count dtype status : Z) : wrapped mpi_event :=
  mpi_wrapper "MPI_File_write_ordered" "PMPI_File_write_ordered"
    [mfile; buf; count; dtype; status] "PMPI_File_write_ordered"
    [(NoStamp, fun _ => [])].

Definition MPI_File_write_shared (mfile buf count dtype status : Z) : wrapped mpi_event :=
  mpi_wrapper "MPI_File_write_shared" "PMPI_File_write_shared"
    [mfile; buf; count; dtype; status] "PMPI_File_write_shared"
    [(NoStamp, fun _ => [])].

Definition MPI_File_write_all (mfile buf count dtype status : Z) : wrapped mpi_event :=
  mpi_wrapper "MPI_File_write_all" "PMPI_File_write_all" [mfile; buf; count; dtype; status] "PMPI_File_write_all"
    [(NoStamp, fun _ => [])].

Definition MPI_File_seek (mfile offset whence : Z) : wrapped mpi_event :=
  mpi_wrapper "MPI_File_seek" "PMPI_File_seek" [mfile; offset; whence] "PMPI_File_seek"
    [(NoStamp, fun _ => [])].

Definition MPI_File_seek_shared (mfile offset whence : Z) : wrapped mpi_event :=
  mpi_wrapper "MPI_File_seek_shared" "PMPI_File_seek_shared" [mfile; offset; whence] "PMPI_File_seek_shared"
    [(NoStamp, fun _ => [])].

Definition MPI_File_set_view (mfile disp etype ftype datarep info : Z) : wrapped mpi_event :=
  mpi_wrapper "MPI_File_set_view" "PMPI_File_set_view" [mfile; disp; etype; ftype; datarep; info] "PMPI_File_set_view"
    [(NoStamp, fun _ => [])].

Definition MPI_File_close (mfile : Z) : wrapped mpi_event :=
  mpi_wrapper "MPI_File_close" "PMPI_File_close" [mfile] "PMPI_File_close"
    [(NoStamp, fun _ => [])].

Definition MPI_File_delete (filename info : Z) : wrapped mpi_event :=
  mpi_wrapper "MPI_File_delete" "PMPI_File_delete" [filename; info] "PMPI_File_delete"
    [(NoStamp, fun _ => [])].

Definition MPI_File_set_size (mfile size : Z) : wrapped mpi_event :=
  mpi_wrapper "MPI_File_set_size" "PMPI_File_set_size" [mfile; size] "PMPI_File_set_size"
    [(NoStamp, fun _ => [])].

Definition MPI_File_get_size (mfile size : Z) : wrapped mpi_event :=
  mpi_wrapper "MPI_File_get_size" "PMPI_File_get_size" [mfile; size] "PMPI_File_get_size"
    [(NoStamp, fun _ => [])].

Definition MPI_File_get_position (mfile size : Z) : wrapped mpi_event :=
  mpi_wrapper "MPI_File_get_position" "PMPI_File_get_position" [mfile; size] "PMPI_File_get_position"
    [(NoStamp, fun _ => [])].

Definition MPI_File_get_position_shared (mfile size : Z) : wrapped mpi_event :=
  mpi_wrapper "MPI_File_get_position_shared" "PMPI_File_get_position_shared"
    [mfile; size] "PMPI_File_get_position_shared"
    [(NoStamp, fun _ => [])].

Definition MPI_File_get_group (mfile group : Z) : wrapped mpi_event :=
  mpi_wrapper "MPI_File_get_group" "PMPI_File_get_group" [mfile; group] "PMPI_File_get_group"
    [(NoStamp, fun _ => [])].

Definition MPI_File_get_amode (mfile amode : Z) : wrapped mpi_event :=
  mpi_wrapper "MPI_File_get_amode" "PMPI_File_get_amode" [mfile; amode] "PMPI_File_get_amode"
    [(NoStamp, fun _ => [])].

Definition MPI_File_set_info (mfile info : Z) : wrapped mpi_event :=
  mpi_wrapper "MPI_File_set_info" "PMPI_File_set_info" [mfile; info] "PMPI_File_set_info"
    [(NoStamp, fun _ => [])].

Definition MPI_File_get_info (mfile ginfo : Z) : wrapped mpi_event :=
  mpi_wrapper "MPI_File_get_info" "PMPI_File_get_info" [mfile; ginfo] "PMPI_File_get_info"
    [(NoStamp, fun _ => [])].

Definition MPI_File_get_view (mfile disp etype ftype datarep : Z) : wrapped mpi_event :=
  mpi_wrapper "MPI_File_get_view" "PMPI_File_get_view" [mfile; disp; etype; ftype; datarep] "PMPI_File_get_view"
    [(NoStamp, fun _ => [])].

Definition MPI_File_read (mfile buf count dtype status : Z) : wrapped mpi_event :=
  mpi_wrapper "MPI_File_read" "PMPI_File_read" [mfile; buf; count; dtype; status] "PMPI_File_read"
    [(NoStamp, fun _ => [])].

Definition MPI_File_read_shared (mfile buf count dtype status : Z) : wrapped mpi_event :=
  mpi_wrapper "MPI_File_read_shared" "PMPI_File_read_shared"
    [mfile; buf; count; dtype; status] "PMPI_File_read_shared"
    [(NoStamp, fun _ => [])].

Definition MPI_File_read_ordered (mfile buf count dtype status : Z) : wrapped mpi_event :=
  mpi_wrapper "MPI_File_read_ordered" "PMPI_File_read_ordered"
    [mfile; buf; count; dtype; status] "PMPI_File_read_ordered"
    [(NoStamp, fun _ => [])].

Definition MPI_File_read_all (mfile buf count dtype status : Z) : wrapped mpi_event :=
  mpi_wrapper "MPI_File_read_all" "PMPI_File_read_all" [mfile; buf; count; dtype; status] "PMPI_File_read_all"
    [(NoStamp, fun _ => [])].

Definition MPI_File_read_at (mfile offset buf count dtype status : Z) : wrapped mpi_event :=
  mpi_wrapper "MPI_File_read_at" "PMPI_File_read_at" [mfile; offset; buf; count; dtype; status] "PMPI_File_read_at"
    [(NoStamp, fun _ => [])].

Definition MPI_File_read_at_all (mfile offset buf count dtype status : Z) : wrapped mpi_event :=
  mpi_wrapper "MPI_File_read_at_all" "PMPI_File_read_at_all"
    [mfile; offset; buf; count; dtype; status] "PMPI_File_read_at_all"
    [(NoStamp, fun _ => [])].

Definition MPI_File_write_at (mfile offset buf count dtype status : Z) : wrapped mpi_event :=
  mpi_wrapper "MPI_File_write_at" "PMPI_File_write_at" [mfile; offset; buf; count; dtype; status] "PMPI_File_write_at"
    [(NoStamp, fun _ => [])].

Definition MPI_File_write_at_all (mfile offset buf count dtype status : Z) : wrapped mpi_event :=
  mpi_wrapper "MPI_File_write_at_all" "PMPI_File_write_at_all"
    [mfile; offset; buf; count; dtype; status] "PMPI_File_write_at_all"
    [(NoStamp, fun _ => [])].

Definition MPI_File_iread_at (mfile offset buf count dtype request : Z) : wrapped mpi_event :=
  mpi_wrapper "MPI_File_iread_at" "PMPI_File_iread_at"
    [mfile; offset; buf; count; dtype; request] "PMPI_File_iread_at"
    [(NoStamp, fun _ => [])].

Definition MPI_File_iread (mfile buf count dtype request : Z) : wrapped mpi_event :=
  mpi_wrapper "MPI_File_iread" "PMPI_File_iread" [mfile; buf; count; dtype; request] "PMPI_File_iread"
    [(NoStamp, fun _ => [])].

Definition MPI_File_iread_shared (mfile buf count dtype request : Z) : wrapped mpi_event :=
  mpi_wrapper "MPI_File_iread_shared" "PMPI_File_iread_shared"
    [mfile; buf; count; dtype; request] "PMPI_File_iread_shared"
    [(NoStamp, fun _ => [])].

Definition MPI_File_iwrite_at (mfile offset buf count dtype request : Z) : wrapped mpi_event :=
  mpi_wrapper "MPI_File_iwrite_at" "PMPI_File_iwrite_at"
    [mfile; offset; buf; count; dtype; request] "PMPI_File_iwrite_at"
    [(NoStamp, fun _ => [])].

Definition MPI_File_iwrite (mfile buf count dtype request : Z) : wrapped mpi_event :=
  mpi_wrapper "MPI_File_iwrite" "PMPI_File_iwrite" [mfile; buf; count; dtype; request] "PMPI_File_iwrite"
    [(NoStamp, fun _ => [])].

Definition MPI_File_iwrite_shared (mfile buf count dtype request : Z) : wrapped mpi_event :=
  mpi_wrapper "MPI_File_iwrite_shared" "PMPI_File_iwrite_shared"
    [mfile; buf; count; dtype; request] "PMPI_File_iwrite_shared"
    [(NoStamp, fun _ => [])].

(** The function a call by name reaches. *)
Definition mpi_functions : list (string * (list Z -> option (wrapped mpi_event))) :=
  [ ("MPI_Iallgather", fun args => match args with [sendbuf; sendcount; sendtype; recvbuf; recvcount; recvtype; comm; request] => Some (MPI_Iallgather sendbuf sendcount sendtype recvbuf recvcount recvtype comm request) | _ => None end);
    ("MPI_Iallgatherv", fun args => match args with [sendbuf; sendcount; sendtype; recvbuf; recvcounts; displs; recvtype; comm; request] => Some (MPI_Iallgatherv sendbuf sendcount sendtype recvbuf recvcounts displs recvtype comm request) | _ => None end);
    ("MPI_Iallreduce", fun args => match args with [sendbuf; recvbuf; count; datatype; op; comm; request] => Some (MPI_Iallreduce sendbuf recvbuf count datatype op comm request) | _ => None end);
    ("MPI_Ialltoall", fun args => match args with [sendbuf; sendcount; sendtype; recvbuf; recvcount; recvtype; comm; request] => Some (MPI_Ialltoall sendbuf sendcount sendtype recvbuf recvcount recvtype comm request) | _ => None end);
    ("MPI_Ialltoallv", fun args => match args with [sendbuf; sendcounts; sdispls; sendtype; recvbuf; recvcounts; rdispls; recvtype; comm; request] => Some (MPI_Ialltoallv sendbuf sendcounts sdispls sendtype recvbuf recvcounts rdispls recvtype comm request) | _ => None end);
    ("MPI_Ialltoallw", fun args => match args with [sendbuf; sendcounts; sdispls; sendtypes; recvbuf; recvcounts; rdispls; recvtypes; comm; request] => Some (MPI_Ialltoallw sendbuf sendcounts sdispls sendtypes recvbuf recvcounts rdispls recvtypes comm request) | _ => None end);
    ("MPI_Ibarrier", fun args => match args with [comm; request] => Some (MPI_Ibarrier comm request) | _ => None end);
    ("MPI_Ibcast", fun args => match args with [buffer; count; datatype; root; comm; request] => Some (MPI_Ibcast buffer count datatype root comm request) | _ => None end);
    ("MPI_Iexscan", fun args => match args with [sendbuf; recvbuf; count; datatype; op; comm; request] => Some (MPI_Iexscan sendbuf recvbuf count datatype op comm request) | _ => None end);
    ("MPI_Igather", fun args => match args with [sendbuf; sendcount; sendtype; recvbuf; recvcount; recvtype; root; comm; request] => Some (MPI_Igather sendbuf sendcount sendtype recvbuf recvcount recvtype root comm request) | _ => None end);
    ("MPI_Igatherv", fun args => match args with [sendbuf; sendcount; sendtype; recvbuf; recvcounts; displs; recvtype; root; comm; request] => Some (MPI_Igatherv sendbuf sendcount sendtype recvbuf recvcounts displs recvtype root comm request) | _ => None end);
    ("MPI_Improbe", fun args => match args with [source; tag; comm; flag; message; status] => Some (MPI_Improbe source tag comm flag message status) | _ => None end);
    ("MPI_Imrecv", fun args => match args with [buf; count; datatype; message; request] => Some (MPI_Imrecv buf count datatype message request) | _ => None end);
    ("MPI_Ineighbor_allgather", fun args => match args with [sendbuf; sendcount; sendtype; recvbuf; recvcount; recvtype; comm; request] => Some (MPI_Ineighbor_allgather sendbuf sendcount sendtype recvbuf recvcount recvtype comm request) | _ => None end);
    ("MPI_Ineighbor_allgatherv", fun args => match args with [sendbuf; sendcount; sendtype; recvbuf; recvcounts; displs; recvtype; comm; request] => Some (MPI_Ineighbor_allgatherv sendbuf sendcount sendtype recvbuf recvcounts displs recvtype comm request) | _ => None end);
    ("MPI_Ineighbor_alltoall", fun args => match args with [sendbuf; sendcount; sendtype; recvbuf; recvcount; recvtype; comm; request] => Some (MPI_Ineighbor_alltoall sendbuf sendcount sendtype recvbuf recvcount recvtype comm request) | _ => None end);
    ("MPI_Ineighbor_alltoallv", fun args => match args with [sendbuf; sendcounts; sdispls; sendtype; recvbuf; recvcounts; rdispls; recvtype; comm; request] => Some (MPI_Ineighbor_alltoallv sendbuf sendcounts sdispls sendtype recvbuf recvcounts rdispls recvtype comm request) | _ => None end);
    ("MPI_Ineighbor_alltoallw", fun args => match args with [sendbuf; sendcounts; sdispls; sendtypes; recvbuf; recvcounts; rdispls; recvtypes; comm; request] => Some (MPI_Ineighbor_alltoallw sendbuf sendcounts sdispls sendtypes recvbuf recvcounts rdispls recvtypes comm request) | _ => None end);
    ("MPI_Ireduce", fun args => match args with [sendbuf; recvbuf; count; datatype; op; root; comm; request] => Some (MPI_Ireduce sendbuf recvbuf count datatype op root comm request) | _ => None end);
    ("MPI_Ireduce_scatter", fun args => match args with [sendbuf; recvbuf; recvcounts; datatype; op; comm; request] => Some (MPI_Ireduce_scatter sendbuf recvbuf recvcounts datatype op comm request) | _ => None end);
    ("MPI_Ireduce_scatter_block", fun args => match args with [sendbuf; recvbuf; recvcount; datatype; op; comm; request] => Some (MPI_Ireduce_scatter_block sendbuf recvbuf recvcount datatype op comm request) | _ => None end);
    ("MPI_Comm_idup", fun args => match args with [comm; newcomm; request] => Some (MPI_Comm_idup comm newcomm request) | _ => None end);
    ("MPI_Iscan", fun args => match args with [sendbuf; recvbuf; count; datatype; op; comm; request] => Some (MPI_Iscan sendbuf recvbuf count datatype op comm request) | _ => None end);
    ("MPI_Iscatter", fun args => match args with [sendbuf; sendcount; sendtype; recvbuf; recvcount; recvtype; root; comm; request] => Some (MPI_Iscatter sendbuf sendcount sendtype recvbuf recvcount recvtype root comm request) | _ => None end);
    ("MPI_Iscatterv", fun args => match args with [sendbuf; sendcounts; displs; sendtype; recvbuf; recvcount; recvtype; root; comm; request] => Some (MPI_Iscatterv sendbuf sendcounts displs sendtype recvbuf recvcount recvtype root comm request) | _ => None end);
    ("MPI_Irecv", fun args => match args with [buf; count; datatype; source; tag; comm; request] => Some (MPI_Irecv buf count datatype source tag comm request) | _ => None end);
    ("MPI_Recv", fun args => match args with [buf; count; datatype; source; tag; comm; status] => Some (MPI_Recv buf count datatype source tag comm status) | _ => None end);
    ("MPI_Recv_init", fun args => match args with [buf; count; datatype; source; tag; comm; request] => Some (MPI_Recv_init buf count datatype source tag comm request) | _ => None end);
    ("MPI_Iprobe", fun args => match args with [source; tag; comm; flag; status] => Some (MPI_Iprobe source tag comm flag status) | _ => None end);
    ("MPI_Probe", fun args => match args with [source; tag; comm; status] => Some (MPI_Probe source tag comm status) | _ => None end);
    ("MPI_Isend", fun args => match args with [buf; count; datatype; dest; tag; comm; request] => Some (MPI_Isend buf count datatype dest tag comm request) | _ => None end);
    ("MPI_Bsend", fun args => match args with [buf; count; datatype; dest; tag; comm] => Some (MPI_Bsend buf count datatype dest tag comm) | _ => None end);
    ("MPI_Bsend_init", fun args => match args with [buf; count; datatype; dest; tag; comm; request] => Some (MPI_Bsend_init buf count datatype dest tag comm request) | _ => None end);
    ("MPI_Ibsend", fun args => match args with [buf; count; datatype; dest; tag; comm; request] => Some (MPI_Ibsend buf count datatype dest tag comm request) | _ => None end);
    ("MPI_Irsend", fun args => match args with [buf; count; datatype; dest; tag; comm; request] => Some (MPI_Irsend buf count datatype dest tag comm request) | _ => None end);
    ("MPI_Issend", fun args => match args with [buf; count; datatype; dest; tag; comm; request] => Some (MPI_Issend buf count datatype dest tag comm request) | _ => None end);
    ("MPI_Rsend", fun args => match args with [buf; count; datatype; dest; tag; comm] => Some (MPI_Rsend buf count datatype dest tag comm) | _ => None end);
    ("MPI_Rsend_init", fun args => match args with [buf; count; datatype; dest; tag; comm; request] => Some (MPI_Rsend_init buf count datatype dest tag comm request) | _ => None end);
    ("MPI_Send", fun args => match args with [buf; count; datatype; dest; tag; comm] => Some (MPI_Send buf count datatype dest tag comm) | _ => None end);
    ("MPI_Send_init", fun args => match args with [buf; count; datatype; dest; tag; comm; request] => Some (MPI_Send_init buf count datatype dest tag comm request) | _ => None end);
    ("MPI_Ssend", fun args => match args with [buf; count; datatype; dest; tag; comm] => Some (MPI_Ssend buf count datatype dest tag comm) | _ => None end);
    ("MPI_Ssend_init", fun args => match args with [buf; count; datatype; dest; tag; comm; request] => Some (MPI_Ssend_init buf count datatype dest tag comm request) | _ => None end);
    ("MPI_Waitall", fun args => match args with [count; array_of_requests; status] => Some (MPI_Waitall count array_of_requests status) | _ => None end);
    ("MPI_Finalize", fun args => match args with [] => Some (MPI_Finalize) | _ => None end);
    ("MPI_Waitsome", fun args => match args with [incount; array_of_requests; outcount; array_of_indices; array_of_statuses] => Some (MPI_Waitsome incount array_of_requests outcount array_of_indices array_of_statuses) | _ => None end);
    ("MPI_Testsome", fun args => match args with [incount; array_of_requests; outcount; array_of_indices; array_of_statuses] => Some (MPI_Testsome incount array_of_requests outcount array_of_indices array_of_statuses) | _ => None end);
    ("MPI_Waitany", fun args => match args with [count; array_of_requests; index; status] => Some (MPI_Waitany count array_of_requests index status) | _ => None end);
    ("MPI_Unpack", fun args => match args with [inbuf; insize; position; outbuf; outcount; datatype; comm] => Some (MPI_Unpack inbuf insize position outbuf outcount datatype comm) | _ => None end);
    ("MPI_Wait", fun args => match args with [request; status] => Some (MPI_Wait request status) | _ => None end);
    ("MPI_Testany", fun args => match args with [count; array_of_requests; index; flag; status] => Some (MPI_Testany count array_of_requests index flag status) | _ => None end);
    ("MPI_Testall", fun args => match args with [count; array_of_requests; flag; status] => Some (MPI_Testall count array_of_requests flag status) | _ => None end);
    ("MPI_Test", fun args => match args with [request; flag; status] => Some (MPI_Test request flag status) | _ => None end);
    ("MPI_Scan", fun args => match args with [sendbuf; recvbuf; count; datatype; op; comm] => Some (MPI_Scan sendbuf recvbuf count datatype op comm) | _ => None end);
    ("MPI_Request_free", fun args => match args with [request] => Some (MPI_Request_free request) | _ => None end);
    ("MPI_Reduce_scatter", fun args => match args with [sendbuf; recvbuf; recvcounts; datatype; op; comm] => Some (MPI_Reduce_scatter sendbuf recvbuf recvcounts datatype op comm) | _ => None end);
    ("MPI_Reduce", fun args => match args with [sendbuf; recvbuf; count; datatype; op; root; comm] => Some (MPI_Reduce sendbuf recvbuf count datatype op root comm) | _ => None end);
    ("MPI_Pack", fun args => match args with [inbuf; incount; datatype; outbuf; outsize; position; comm] => Some (MPI_Pack inbuf incount datatype outbuf outsize position comm) | _ => None end);
    ("MPI_Init", fun args => match args with [argc; argv] => Some (MPI_Init argc argv) | _ => None end);
    ("MPI_Get_count", fun args => match args with [status; datatype; count] => Some (MPI_Get_count status datatype count) | _ => None end);
    ("MPI_Gatherv", fun args => match args with [sendbuf; sendcount; sendtype; recvbuf; recvcounts; displs; recvtype; root; comm] => Some (MPI_Gatherv sendbuf sendcount sendtype recvbuf recvcounts displs recvtype root comm) | _ => None end);
    ("MPI_Gather", fun args => match args with [sendbuf; sendcount; sendtype; recvbuf; recvcount; recvtype; root; comm] => Some (MPI_Gather sendbuf sendcount sendtype recvbuf recvcount recvtype root comm) | _ => None end);
    ("MPI_Cancel", fun args => match args with [request] => Some (MPI_Cancel request) | _ => None end);
    ("MPI_Bcast", fun args => match args with [buffer; count; datatype; root; comm] => Some (MPI_Bcast buffer count datatype root comm) | _ => None end);
    ("MPI_Barrier", fun args => match args with [comm] => Some (MPI_Barrier comm) | _ => None end);
    ("MPI_Alltoallv", fun args => match args with [sendbuf; sendcounts; sdispls; sendtype; recvbuf; recvcounts; rdispls; recvtype; comm] => Some (MPI_Alltoallv sendbuf sendcounts sdispls sendtype recvbuf recvcounts rdispls recvtype comm) | _ => None end);
    ("MPI_Alltoall", fun args => match args with [sendbuf; sendcount; sendtype; recvbuf; recvcount; recvtype; comm] => Some (MPI_Alltoall sendbuf sendcount sendtype recvbuf recvcount recvtype comm) | _ => None end);
    ("MPI_Allreduce", fun args => match args with [sendbuf; recvbuf; count; datatype; op; comm] => Some (MPI_Allreduce sendbuf recvbuf count datatype op comm) | _ => None end);
    ("MPI_Allgatherv", fun args => match args with [sendbuf; sendcount; sendtype; recvbuf; recvcounts; displs; recvtype; comm] => Some (MPI_Allgatherv sendbuf sendcount sendtype recvbuf recvcounts displs recvtype comm) | _ => None end);
    ("MPI_Allgather", fun args => match args with [sendbuf; sendcount; sendtype; recvbuf; recvcount; recvtype; comm] => Some (MPI_Allgather sendbuf sendcount sendtype recvbuf recvcount recvtype comm) | _ => None end);
    ("MPI_Scatter", fun args => match args with [sendbuf; sendcount; sendtype; recvbuf; recvcount; recvtype; root; comm] => Some (MPI_Scatter sendbuf sendcount sendtype recvbuf recvcount recvtype root comm) | _ => None end);
    ("MPI_Scatterv", fun args => match args with [sendbuf; sendcounts; displs; sendtype; recvbuf; recvcount; recvtype; root; comm] => Some (MPI_Scatterv sendbuf sendcounts displs sendtype recvbuf recvcount recvtype root comm) | _ => None end);
    ("MPI_Sendrecv", fun args => match args with [sendbuf; sendcount; sendtype; dest; sendtag; recvbuf; recvcount; recvtype; source; recvtag; comm; status] => Some (MPI_Sendrecv sendbuf sendcount sendtype dest sendtag recvbuf recvcount recvtype source recvtag comm status) | _ => None end);
    ("MPI_Sendrecv_replace", fun args => match args with [buf; count; datatype; dest; sendtag; source; recvtag; comm; status] => Some (MPI_Sendrecv_replace buf count datatype dest sendtag source recvtag comm status) | _ => None end);
    ("MPI_Cart_create", fun args => match args with [comm_old; ndims; dims; periodv; reorder; comm_cart] => Some (MPI_Cart_create comm_old ndims dims periodv reorder comm_cart) | _ => None end);
    ("MPI_Cart_sub", fun args => match args with [comm; rem_dims; newcomm] => Some (MPI_Cart_sub comm rem_dims newcomm) | _ => None end);
    ("MPI_Graph_create", fun args => match args with [comm_old; nnodes; index; edges; reorder; comm_graph] => Some (MPI_Graph_create comm_old nnodes index edges reorder comm_graph) | _ => None end);
    ("MPI_Intercomm_create", fun args => match args with [local_comm; local_leader; peer_comm; remote_leader; tag; newintercomm] => Some (MPI_Intercomm_create local_comm local_leader peer_comm remote_leader tag newintercomm) | _ => None end);
    ("MPI_Intercomm_merge", fun args => match args with [intercomm; high; newcomm] => Some (MPI_Intercomm_merge intercomm high newcomm) | _ => None end);
    ("MPI_Comm_free", fun args => match args with [comm] => Some (MPI_Comm_free comm) | _ => None end);
    ("MPI_Comm_dup", fun args => match args with [comm; newcomm] => Some (MPI_Comm_dup comm newcomm) | _ => None end);
    ("MPI_Comm_create", fun args => match args with [comm; group; newcomm] => Some (MPI_Comm_create comm group newcomm) | _ => None end);
    ("MPI_Comm_split", fun args => match args with [comm; color; key; newcomm] => Some (MPI_Comm_split comm color key newcomm) | _ => None end);
    ("MPI_Start", fun args => match args with [request] => Some (MPI_Start request) | _ => None end);
    ("MPI_Startall", fun args => match args with [count; array_of_requests] => Some (MPI_Startall count array_of_requests) | _ => None end);
    ("MPI_File_open", fun args => match args with [comm; filename; amode; info; mfile] => Some (MPI_File_open comm filename amode info mfile) | _ => None end);
    ("MPI_File_write", fun args => match args with [mfile; buf; count; dtype; status] => Some (MPI_File_write mfile buf count dtype status) | _ => None end);
    ("MPI_File_write_ordered", fun args => match args with [mfile; buf; count; dtype; status] => Some (MPI_File_write_ordered mfile buf count dtype status) | _ => None end);
    ("MPI_File_write_shared", fun args => match args with [mfile; buf; count; dtype; status] => Some (MPI_File_write_shared mfile buf count dtype status) | _ => None end);
    ("MPI_File_write_all", fun args => match args with [mfile; buf; count; dtype; status] => Some (MPI_File_write_all mfile buf count dtype status) | _ => None end);
    ("MPI_File_seek", fun args => match args with [mfile; offset; whence] => Some (MPI_File_seek mfile offset whence) | _ => None end);
    ("MPI_File_seek_shared", fun args => match args with [mfile; offset; whence] => Some (MPI_File_seek_shared mfile offset whence) | _ => None end);
    ("MPI_File_set_view", fun args => match args with [mfile; disp; etype; ftype; datarep; info] => Some (MPI_File_set_view mfile disp etype ftype datarep info) | _ => None end);
    ("MPI_File_close", fun args => match args with [mfile] => Some (MPI_File_close mfile) | _ => None end);
    ("MPI_File_delete", fun args => match args with [filename; info] => Some (MPI_File_delete filename info) | _ => None end);
    ("MPI_File_set_size", fun args => match args with [mfile; size] => Some (MPI_File_set_size mfile size) | _ => None end);
    ("MPI_File_get_size", fun args => match args with [mfile; size] => Some (MPI_File_get_size mfile size) | _ => None end);
    ("MPI_File_get_position", fun args => match args with [mfile; size] => Some (MPI_File_get_position mfile size) | _ => None end);
    ("MPI_File_get_position_shared", fun args => match args with [mfile; size] => Some (MPI_File_get_position_shared mfile size) | _ => None end);
    ("MPI_File_get_group", fun args => match args with [mfile; group] => Some (MPI_File_get_group mfile group) | _ => None end);
    ("MPI_File_get_amode", fun args => match args with [mfile; amode] => Some (MPI_File_get_amode mfile amode) | _ => None end);
    ("MPI_File_set_info", fun args => match args with [mfile; info] => Some (MPI_File_set_info mfile info) | _ => None end);
    ("MPI_File_get_info", fun args => match args with [mfile; ginfo] => Some (MPI_File_get_info mfile ginfo) | _ => None end);
    ("MPI_File_get_view", fun args => match args with [mfile; disp; etype; ftype; datarep] => Some (MPI_File_get_view mfile disp etype ftype datarep) | _ => None end);
    ("MPI_File_read", fun args => match args with [mfile; buf; count; dtype; status] => Some (MPI_File_read mfile buf count dtype status) | _ => None end);
    ("MPI_File_read_shared", fun args => match args with [mfile; buf; count; dtype; status] => Some (MPI_File_read_shared mfile buf count dtype status) | _ => None end);
    ("MPI_File_read_ordered", fun args => match args with [mfile; buf; count; dtype; status] => Some (MPI_File_read_ordered mfile buf count dtype status) | _ => None end);
    ("MPI_File_read_all", fun args => match args with [mfile; buf; count; dtype; status] => Some (MPI_File_read_all mfile buf count dtype status) | _ => None end);
    ("MPI_File_read_at", fun args => match args with [mfile; offset; buf; count; dtype; status] => Some (MPI_File_read_at mfile offset buf count dtype status) | _ => None end);
    ("MPI_File_read_at_all", fun args => match args with [mfile; offset; buf; count; dtype; status] => Some (MPI_File_read_at_all mfile offset buf count dtype status) | _ => None end);
    ("MPI_File_write_at", fun args => match args with [mfile; offset; buf; count; dtype; status] => Some (MPI_File_write_at mfile offset buf count dtype status) | _ => None end);
    ("MPI_File_write_at_all", fun args => match args with [mfile; offset; buf; count; dtype; status] => Some (MPI_File_write_at_all mfile offset buf count dtype status) | _ => None end);
    ("MPI_File_iread_at", fun args => match args with [mfile; offset; buf; count; dtype; request] => Some (MPI_File_iread_at mfile offset buf count dtype request) | _ => None end);
    ("MPI_File_iread", fun args => match args with [mfile; buf; count; dtype; request] => Some (MPI_File_iread mfile buf count dtype request) | _ => None end);
    ("MPI_File_iread_shared", fun args => match args with [mfile; buf; count; dtype; request] => Some (MPI_File_iread_shared mfile buf count dtype request) | _ => None end);
    ("MPI_File_iwrite_at", fun args => match args with [mfile; offset; buf; count; dtype; request] => Some (MPI_File_iwrite_at mfile offset buf count dtype request) | _ => None end);
    ("MPI_File_iwrite", fun args => match args with [mfile; buf; count; dtype; request] => Some (MPI_File_iwrite mfile buf count dtype request) | _ => None end);
    ("MPI_File_iwrite_shared", fun args => match args with [mfile; buf; count; dtype; request] => Some (MPI_File_iwrite_shared mfile buf count dtype request) | _ => None end) ].
End wrappers.

(** The list of functions traced by default (MPITraceableFunctions.h). *)
Definition all : string :=
  "MPI_Allgather:MPI_Allgatherv:MPI_Allreduce:MPI_Alltoall:MPI_Alltoallv:MPI_Barrier:MPI_Bcast:MPI_Bsend:MPI_Bsend_init:MPI_Cancel:MPI_Cart_create:MPI_Cart_sub:MPI_Comm_create:MPI_Comm_dup:MPI_Comm_free:MPI_Comm_idup:MPI_Comm_split:MPI_File_close:MPI_File_delete:MPI_File_get_amode:MPI_File_get_group:MPI_File_get_info:MPI_File_get_position:MPI_File_get_position_shared: MPI_File_get_size:MPI_File_get_view:MPI_File_iread:MPI_File_iread_at:MPI_File_iread_shared:MPI_File_iwrite:MPI_File_iwrite_at:MPI_File_iwrite_shared:MPI_File_open:MPI_File_read:MPI_File_read_all:MPI_File_read_at:MPI_File_read_at_all:MPI_File_read_ordered:MPI_File_seek:MPI_File_seek_shared:MPI_File_set_info:MPI_File_set_size:MPI_File_set_view:MPI_File_write:MPI_File_write_all:MPI_File_write_at:MPI_File_write_at_all:MPI_File_write_ordered:MPI_File_write_shared:MPI_Finalize:MPI_Gather:MPI_Gatherv:MPI_Get_count:MPI_Graph_create:MPI_Iallgather:MPI_Iallgatherv:MPI_Iallreduce:MPI_Ialltoall:MPI_Ialltoallv:MPI_Ialltoallw:MPI_Ibarrier:MPI_Ibcast:MPI_Ibsend:MPI_Iexscan:MPI_Igather:MPI_Ibsend:MPI_Improbe:MPI_Imrecv:MPI_Ineighbor_allgather:MPI_Ineighbor_allgatherv:MPI_Ineighbor_alltoall:MPI_Ineighbor_alltoallv:MPI_Ineighbor_alltoallw:MPI_Init:MPI_Intercomm_create:MPI_Intercomm_merge:MPI_Iprobe:MPI_Irecv:MPI_Ireduce:MPI_Ireduce_scatter:MPI_Ireduce_scatter_block:MPI_Irsend:MPI_Iscan:MPI_Iscatter:MPI_Iscatterv:MPI_Isend:MPI_Issend:MPI_Pack:MPI_Probe:MPI_Recv:MPI_Recv_init:MPI_Reduce:MPI_Reduce_scatter:MPI_Request_free:MPI_Rsend:MPI_Rsend_init:MPI_Scan:MPI_Scatter:MPI_Scatterv:MPI_Send:MPI_Sendrecv:MPI_Sendrecv_replace:MPI_Ssend:MPI_Ssend_init:MPI_Start:MPI_Startall:MPI_Test:MPI_Testall:MPI_Testany:MPI_Testsome:MPI_Unpack:MPI_Wait:MPI_Waitall:MPI_Waitany:MPI_Waitsome".
