(* ===== verification/MPI.v ===== *)
(** The mpi collector (collectors/mpi/collector.c) in its three builds, trace,
    extended trace and profile (mpi, mpit, mpip): the tracing collector of Tracer.v
    with its constants and its start, over the wrappers of MPIWrappers.v. *)
From S2P Require Import Prelude Probe PCIndex Headers Services Unwind StackBuffer TraceBuffer Tracer Profile MPIWrappers.

(** The builds that trace (mpi, mpit). *)
Definition traces (b : build) : bool := match b with PROFILE => false | _ => true end.

Definition mpi (a : arch) (b : build) : tracer :=
  mkTracer (match b with TRACE => "mpi" | EXTENDEDTRACE => "mpit" | PROFILE => "mpip" end) 2
    (match b with PROFILE => 100 | _ => 64 end)
    (CBTF_BlobSizeFactor a * (match b with PROFILE => 512 | _ => 384 end))
    (CBTF_BlobSizeFactor a * (match b with EXTENDEDTRACE => 215 | TRACE => 415 | PROFILE => 0 end))
    false "CBTF_MPI_TRACED" all true.

Definition zero_event (b : build) : mpi_event :=
  match b with
  | TRACE => CBTF_mpi_event 0 0
  | EXTENDEDTRACE => CBTF_mpit_event (mkMpit 0 0 0 0 0 0 0 0 0)
  | PROFILE => CBTF_mpip_event 0
  end.

Definition mpi_store (a : arch) (b : build) : store mpi_event (trace_buffer mpi_event) (trace_data mpi_event) :=
  trace_store (mpi a b) (zero_event b).

Definition mpip_time (ev : mpi_event) : Z := match ev with CBTF_mpip_event time => time | _ => 0 end.
Definition mpip_store (a : arch) : store mpi_event profile_buffer profile_data :=
  profile_store (tr_stack_size (mpi a PROFILE)) mpip_time.

Definition cbtf_collector_start {B D W} {SV : Services W D} (a : arch) (b : build) (ST : store mpi_event B D)
    (header : CBTF_DataHeader) (s : TLS B * W) : outcome (TLS B * W) :=
  s' ← start_tracer (mpi a b) ST header s;
  Ok (set_do_trace true (set_defer false s'.1), s'.2).

Lemma mpi_ok a b : tracer_ok (mpi a b) /\ (traces b = true -> trace_sizes (mpi a b)) /\
  tr_frames (mpi a b) <= tr_stack_size (mpi a b).
Proof. destruct a, b; by vm_compute. Qed.

(** ** The table of wrappers *)

(** A call of an MPI function by name reaches this wrapper. *)
Definition mpi_call (b : build) (L : mpi_library) (name : string) (args : list Z) : option (wrapped mpi_event) :=
  match list_find (fun x => x.1 = name) (mpi_functions b L) with
  | Some (_, (_, f)) => f args
  | None => None
  end.

(** What is checked of each entry of the table. *)
Definition entry_ok (Q : string -> list Z -> wrapped mpi_event -> Prop)
    (x : string * (list Z -> option (wrapped mpi_event))) : Prop :=
  forall args wr, x.2 args = Some wr -> Q x.1 args wr.

Lemma mpi_call_ind b L (Q : string -> list Z -> wrapped mpi_event -> Prop) name args wr :
  Forall (entry_ok Q) (mpi_functions b L) -> mpi_call b L name args = Some wr -> Q name args wr.
Proof.
  unfold mpi_call. intros HQ H. destruct (list_find _ _) as [[i [n f]]|] eqn:Hf; [|done].
  apply list_find_Some in Hf as (Hl & Hn & _). simpl in Hn. subst n.
  by apply (Forall_lookup_1 _ _ _ _ HQ Hl).
Qed.

(** The arguments of an entry are those of the call: destruct the list to its length. *)
Ltac table_entry :=
  let args := fresh "args" in let wr := fresh "wr" in let H := fresh "H" in
  intros args wr H; cbn [fst snd] in *;
  repeat (destruct args as [|? args]; try discriminate H);
  injection H as <-.
Ltac by_table H tac :=
  match type of H with mpi_call ?b ?L ?name ?args = Some ?wr =>
    pattern name, args, wr; apply (mpi_call_ind b L _ name args wr); [|exact H]
  end;
  unfold mpi_functions; repeat (apply Forall_cons; split; [table_entry; tac|]); by apply Forall_nil.

(** C37: whatever is traced, the wrapper of an MPI function calls the PMPI function
    of that name with the arguments of the program, unchanged and in order, records
    the address of that PMPI function, and asks do_trace for its own name; only the
    wrapper of MPI_Bsend_init asks for Bsend_init. *)
Theorem mpi_wrappers_transparent (b : build) (L : mpi_library) (name : string) (args : list Z)
    (wr : wrapped mpi_event) :
  mpi_call b L name args = Some wr ->
  wr_real wr = "P" +:+ name /\ wr_args wr = args /\ wr_function wr = wr_real wr /\
  wr_guard wr = (if String.eqb name "MPI_Bsend_init" then "Bsend_init" else name).
Proof. intros H. by_table H ltac:(by split_and!). Qed.

(** ** What is traced by default *)
Definition untraced : list string :=
  ["MPI_Bsend_init"; "MPI_File_get_size"; "MPI_Igatherv"; "MPI_Send_init"; "MPI_File_read_shared"].

Definition all_tokens : list string := Eval vm_compute in strtok_all all.
Lemma all_tokens_ok : strtok_all all = all_tokens.
Proof. vm_compute. reflexivity. Qed.

(** With no list in the environment the collector traces every MPI function it
    wraps but five: MPI_Bsend_init, whose wrapper asks for another name,
    MPI_File_get_size, which the default list has with a leading blank, and
    MPI_Igatherv, MPI_Send_init and MPI_File_read_shared, which it does not have. *)
Theorem mpi_default_leaves_out (b : build) (L : mpi_library) (name : string) (args : list Z) (wr : wrapped mpi_event) :
  mpi_call b L name args = Some wr ->
  is_traced all wr = negb (bool_decide (name ∈ untraced)).
Proof. intros H. unfold is_traced. rewrite all_tokens_ok. by_table H ltac:(vm_compute; reflexivity). Qed.

(** ** Programs *)

(** A call of an MPI function, and one with the calls the MPI library makes inside it. *)
Record mpi_use := mkUse { us_name : string; us_args : list Z; us_retval : Z; us_cursor : list frame }.

Inductive mpi_step :=
| Use (u : mpi_use) (inner : list mpi_use)
| PauseMPI
| ResumeMPI.

Definition to_call (b : build) (L : mpi_library) (inner : list (call mpi_event)) (u : mpi_use) : option (call mpi_event) :=
  wr ← mpi_call b L (us_name u) (us_args u); Some (Call wr (us_retval u) (us_cursor u) inner).

Definition to_event (b : build) (L : mpi_library) (st : mpi_step) : option (event mpi_event) :=
  match st with
  | Use u inner => cs ← mapM (to_call b L []) inner; c ← to_call b L cs u; Some (Do c)
  | PauseMPI => Some Pause
  | ResumeMPI => Some Resume
  end.

(** In the extended trace the functions with a send and a receive record make no
    wrapped calls. *)
Definition pairs : list string := ["MPI_Scatter"; "MPI_Scatterv"; "MPI_Sendrecv"; "MPI_Sendrecv_replace"].
Definition pairs_flat (b : build) (st : mpi_step) : bool :=
  match b, st with
  | EXTENDEDTRACE, Use u (_ :: _) => negb (bool_decide (us_name u ∈ pairs))
  | _, _ => true
  end.

(** How many records a wrapper makes. *)
Lemma mpi_call_records b L name args wr : mpi_call b L name args = Some wr ->
  length (wr_events wr) = (match b with EXTENDEDTRACE => if bool_decide (name ∈ pairs) then 2 else 1 | _ => 1 end)%nat.
Proof. intros H. by_table H ltac:(destruct b; vm_compute; reflexivity). Qed.

Lemma use_leaf b L u c : to_call b L [] u = Some c -> is_leaf c = true.
Proof.
  unfold to_call. intros H. apply bind_Some in H as (wr & Hwr & [= <-]).
  apply mpi_call_records in Hwr. destruct wr as [g rl ar fn [|? [|? [|? ?]]]]; simpl in *; try done;
    destruct b; try done; by case_bool_decide.
Qed.

Lemma uses_leaves b L us cs : mapM (to_call b L []) us = Some cs -> forallb is_leaf cs = true.
Proof.
  intros H. apply mapM_Some in H. induction H as [|u c us cs Hu _ IH]; [done|]. simpl. by rewrite (use_leaf b L u).
Qed.

Lemma leaf_shallow tr traced (c : call mpi_event) : tr_restores tr = false -> is_leaf c = true -> shallow tr traced c = true.
Proof.
  intros Hr. destruct c as [[g rl ar fn evs] rv cur inner]. simpl. rewrite Hr.
  destruct evs as [|? [|? [|? ?]]], inner; try done; by destruct (is_traced _ _).
Qed.

Lemma step_shallow a b L traced st ev :
  to_event b L st = Some ev -> pairs_flat b st = true -> shallow_event (mpi a b) traced ev = true.
Proof.
  destruct st as [u inner| |]; [|by intros [= <-]..]. cbn [to_event]. intros H Hflat.
  apply bind_Some in H as (cs & Hcs & H). apply bind_Some in H as (c & Hc & [= <-]).
  pose proof (uses_leaves b L inner cs Hcs) as Hleaves. unfold to_call in Hc.
  apply bind_Some in Hc as (wr & Hwr & [= <-]). cbn [shallow_event shallow].
  assert (Hsub : forallb (shallow (mpi a b) traced) cs = true).
  { clear -Hleaves. induction cs as [|c cs IH]; [done|]. simpl in *. apply andb_true_iff in Hleaves as [H1 H2].
    by rewrite leaf_shallow, IH. }
  destruct (is_traced traced wr); [|exact Hsub].
  apply mpi_call_records in Hwr. destruct (wr_events wr) as [|? [|? [|? ?]]].
  - destruct b; try done. by case_bool_decide.
  - by destruct cs.
  - destruct inner as [|i inner]; [apply mapM_Some in Hcs; by inversion Hcs|].
    destruct b; try done. simpl in Hflat, Hwr. by case_bool_decide.
  - destruct b; try done. simpl in Hwr. by case_bool_decide.
Qed.

Lemma mpi_steps_shallow a b L traced sts evs :
  mapM (to_event b L) sts = Some evs -> forallb (pairs_flat b) sts = true ->
  forallb (shallow_event (mpi a b) traced) evs = true.
Proof.
  intros H Hf. apply mapM_Some in H. induction H as [|st ev sts evs Hst _ IH]; [done|].
  simpl in *. apply andb_true_iff in Hf as [H1 H2]. rewrite (step_shallow a b L traced st ev Hst H1). by apply IH.
Qed.


(** C13: the profile build runs a program of MPI calls, nested ones too, pauses and
    resumes from start to stop without leaving the collector's arrays, and the
    program gets what the PMPI functions returned; and the profile in the blobs has
    for every call path as many calls as the program made outermost calls of traced
    functions on it while tracing was on, and the total of the times they took, modulo 2^64:
    a call takes the difference between what the clock says right after and right before
    the PMPI function, or before its last record for wrappers that read it again. *)
Theorem mpip_accounts_for_calls {W} {SV : Services W profile_data} {SL : ServicesLaws W profile_data} (a : arch)
    (L : mpi_library) (addr_of : string -> Z) (keep : Z -> bool) (root : Z) (header : CBTF_DataHeader)
    (tls : TLS profile_buffer) (w : W) (sts : list mpi_step) (evs : list (event mpi_event)) :
  mapM (to_event PROFILE L) sts = Some evs ->
  Z.of_nat (String.length (traced_list (mpi a PROFILE) w)) < PATH_MAX ->
  Forall (fun x => rooted root x.2) (accepted (mpi a PROFILE) addr_of keep (traced_list (mpi a PROFILE) w) true evs) ->
  exists s1 s2 s3 new recs ts,
    cbtf_collector_start a PROFILE (mpip_store a) header (tls, w) = Ok s1 /\
    run (mpi a PROFILE) (mpip_store a) addr_of keep evs s1 = Ok (returned evs, s2) /\
    cbtf_collector_stop (mpi a PROFILE) (mpip_store a) s2 = Ok s3 /\
    sent s3.2 = sent w ++ new /\
    run_times (mpi a PROFILE) (mpip_store a) addr_of keep evs s1 = Ok ts /\
    at_times (accepted (mpi a PROFILE) addr_of keep (traced_list (mpi a PROFILE) w) true evs) ts recs /\
    forall path, calls_in path (profiled new) = calls_on path recs /\
      u64 (time_in path (profiled new)) = u64 (time_on mpip_time path recs).
Proof.
  intros Hevs Hlen HT. destruct (mpi_ok a PROFILE) as (Hok & _ & Hfit).
  destruct (start_tracer_returns (mpi a PROFILE) (mpip_store a) header tls w Hlen) as (tls1 & w1 & Hs & _).
  eexists. destruct (profile_accounts (mpi a PROFILE) mpip_time addr_of keep (rooted root) header tls w
    (set_do_trace true (set_defer false tls1), w1) true false evs Hok Hfit Hlen)
    as (s2 & s3 & new & recs & ts & H2 & H3 & Hsent & Ht & Hm & Hp).
  - unfold mpip_store in Hs. by rewrite Hs, bind_of_Ok.
  - apply (mpi_steps_shallow a PROFILE L _ sts); [done|]. by apply forallb_forall.
  - done.
  - exists s2, s3, new, recs, ts. unfold cbtf_collector_start. rewrite Hs, bind_of_Ok. by split_and!.
Qed.

(** The receive record of MPI_Sendrecv. *)
Definition sendrecv_received (L : mpi_library) (recvcount recvtype source recvtag comm retval start stop : Z) : mpit_event :=
  mkMpit start stop (i32 source) (i32 (lib_comm_rank L)) (u64 (i32 (recvcount * lib_type_size L recvtype)))
    (i32 recvtag) (i32 comm) (i32 recvtype) (i32 retval).

(** In the extended trace MPI_Sendrecv starts a send and a receive event before
    it records either; the record of the send finds the nesting depth still above
    zero and is dropped as that of an inner call. From start to stop the call leaves
    one record, that of the receive, and nothing of what was sent. *)
Theorem mpit_sendrecv_loses_send {W} {SV : Services W (trace_data mpi_event)}
    {SL : ServicesLaws W (trace_data mpi_event)} (a : arch) (L : mpi_library) (addr_of : string -> Z)
    (keep : Z -> bool) (root : Z) (T : list Z -> Prop) (header : CBTF_DataHeader) (tls : TLS (trace_buffer mpi_event)) (w : W)
    (sendbuf sendcount sendtype dest sendtag recvbuf recvcount recvtype source recvtag comm status retval : Z)
    (cursor : list frame) :
  call_paths root T -> Z.of_nat (String.length (traced_list (mpi a EXTENDEDTRACE) w)) < PATH_MAX ->
  "MPI_Sendrecv" ∈ strtok_all (traced_list (mpi a EXTENDEDTRACE) w) ->
  T (call_path (mpi a EXTENDEDTRACE) keep (addr_of "PMPI_Sendrecv") cursor) ->
  exists s1 s2 s3 new start stop,
    cbtf_collector_start a EXTENDEDTRACE (mpi_store a EXTENDEDTRACE) header (tls, w) = Ok s1 /\
    run (mpi a EXTENDEDTRACE) (mpi_store a EXTENDEDTRACE) addr_of keep
      [Do (Call (MPI_Sendrecv EXTENDEDTRACE L sendbuf sendcount sendtype dest sendtag recvbuf recvcount recvtype
                   source recvtag comm status) retval cursor [])] s1 = Ok ([retval], s2) /\
    cbtf_collector_stop (mpi a EXTENDEDTRACE) (mpi_store a EXTENDEDTRACE) s2 = Ok s3 /\
    sent s3.2 = sent w ++ new /\
    delivered new = [(CBTF_mpit_event (sendrecv_received L recvcount recvtype source recvtag comm retval start stop),
                      call_path (mpi a EXTENDEDTRACE) keep (addr_of "PMPI_Sendrecv") cursor)].
Proof.
  intros Hp Hlen Htr HT. destruct (mpi_ok a EXTENDEDTRACE) as (Hok & Hsz & _). set (traced := traced_list _ _) in *.
  destruct (start_tracer_returns (mpi a EXTENDEDTRACE) (mpi_store a EXTENDEDTRACE) header tls w Hlen)
    as (tls1 & w1 & Hs & _).
  set (ev := Do _).
  assert (Hacc : accepted (mpi a EXTENDEDTRACE) addr_of keep traced true [ev] =
    [(fun start stop => CBTF_mpit_event (sendrecv_received L recvcount recvtype source recvtag comm retval start stop),
      call_path (mpi a EXTENDEDTRACE) keep (addr_of "PMPI_Sendrecv") cursor)]).
  { unfold ev. cbn [accepted call_records]. unfold is_traced. cbn [wr_guard MPI_Sendrecv mpi_wrapper].
    by rewrite bool_decide_true. }
  destruct (trace_delivers (mpi a EXTENDEDTRACE) (zero_event EXTENDEDTRACE) addr_of keep root T header
    tls w (set_do_trace true (set_defer false tls1), w1) true false [ev] Hp Hok (Hsz eq_refl) Hlen) as (s2 & s3 & new & H2 & H3 & Hsent & Hm & _).
  - unfold mpi_store in Hs. by rewrite Hs, bind_of_Ok.
  - unfold ev. cbn [forallb shallow_event shallow]. by destruct (is_traced _ _).
  - fold traced. rewrite Hacc. by repeat constructor.
  - fold traced in Hm. rewrite Hacc in Hm. inversion Hm as [|d ? ds ? (start & stop & Hd) Hnil E]; subst. inversion Hnil; subst.
    eexists _, s2, s3, new, start, stop. unfold cbtf_collector_start. rewrite Hs, bind_of_Ok.
    split_and!; [reflexivity|exact H2|exact H3|exact Hsent|done].
Qed.

(** In the extended trace MPI_Iallgather first records its communication and then
    overwrites it: the size and the datatype are always 0, the ranks -1. *)
Lemma mpit_iallgather_size_lost L sendbuf sendcount sendtype recvbuf recvcount recvtype comm request st mk start stop retval :
  wr_events (MPI_Iallgather EXTENDEDTRACE L sendbuf sendcount sendtype recvbuf recvcount recvtype comm request) = [(st, mk)] ->
  mk start stop retval = CBTF_mpit_event (mkMpit start stop (-1) (-1) 0 0 (i32 comm) 0 0).
Proof. by intros [= _ <-]. Qed.

Definition example_cursor (caller : Z) : list frame :=
  [mkFrame 1 false; mkFrame 2 false; mkFrame 3 false; mkFrame caller false; mkFrame 10 false].

Definition example_tls (b : build) : TLS (trace_buffer mpi_event) :=
  mkTLS (mkDataHeader 0 1 "" "n0" 1 1 (-1) 0 0 0 0 0)
    (reset_traces (tr_stack_size (mpi arch_other b)) (tr_event_size (mpi arch_other b)) (mkEvent (zero_event b) 0))
    all 0 true false.

Definition example_library : mpi_library := mkLibrary 3 (fun _ => 8) (fun _ => 0) (fun _ => 0).

Definition example_addr (name : string) : Z := if String.eqb name "PMPI_Allreduce" then 100 else 200.

Lemma mpi_wrappers_transparent_witness :
  let wr := MPI_Send TRACE example_library 4096 10 1 2 3 4 in
  wr_real wr = "PMPI_Send" /\ wr_args wr = [4096; 10; 1; 2; 3; 4] /\ wr_function wr = wr_real wr /\
  wr_guard wr = "MPI_Send".
Proof. exact (mpi_wrappers_transparent TRACE example_library "MPI_Send" [4096; 10; 1; 2; 3; 4] _ eq_refl). Defined.

Lemma mpi_default_leaves_out_witness :
  is_traced all (MPI_File_get_size TRACE 1 2) = false.
Proof. exact (mpi_default_leaves_out TRACE example_library "MPI_File_get_size" [1; 2] _ eq_refl). Defined.

(** An MPI_Allreduce that calls MPI_Send and MPI_Recv, and a barrier. *)
Definition example_program : list mpi_step :=
  [Use (mkUse "MPI_Allreduce" [4096; 8192; 10; 1; 2; 3] 0 (example_cursor 20))
     [mkUse "MPI_Send" [4096; 10; 1; 2; 3; 4] 0 (example_cursor 20);
      mkUse "MPI_Recv" [4096; 10; 1; 2; 3; 4; 5] 0 (example_cursor 20)];
   PauseMPI; Use (mkUse "MPI_Barrier" [3] 0 (example_cursor 30)) []; ResumeMPI;
   Use (mkUse "MPI_Barrier" [3] 0 (example_cursor 30)) []].


Lemma mpit_sendrecv_witness :
  exists s1 s2 s3 start stop,
    cbtf_collector_start arch_other EXTENDEDTRACE (mpi_store arch_other EXTENDEDTRACE) (t_header (example_tls EXTENDEDTRACE))
      (example_tls EXTENDEDTRACE, quiet_world (trace_data mpi_event)) = Ok s1 /\
    run (mpi arch_other EXTENDEDTRACE) (mpi_store arch_other EXTENDEDTRACE) example_addr (fun _ => true)
      [Do (Call (MPI_Sendrecv EXTENDEDTRACE example_library 4096 10 1 5 6 8192 20 1 7 8 9 0) 0 (example_cursor 30) [])] s1 =
        Ok ([0], s2) /\
    cbtf_collector_stop (mpi arch_other EXTENDEDTRACE) (mpi_store arch_other EXTENDEDTRACE) s2 = Ok s3 /\
    delivered (lw_sent s3.2) = [(CBTF_mpit_event (mkMpit start stop 7 3 160 8 9 1 0), [200; 30; 10])].
Proof.
  destruct (mpit_sendrecv_loses_send arch_other example_library example_addr (fun _ => true) 10 two_paths
    (t_header (example_tls EXTENDEDTRACE)) (example_tls EXTENDEDTRACE) (quiet_world (trace_data mpi_event))
    4096 10 1 5 6 8192 20 1 7 8 9 0 0 (example_cursor 30) two_paths_ok)
    as (s1 & s2 & s3 & new & start & stop & H1 & H2 & H3 & Hs & Hd).
  - done.
  - apply (bool_decide_unpack _). vm_compute. exact I.
  - by right.
  - exists s1, s2, s3, start, stop. split; [exact H1|]. split; [exact H2|]. split; [exact H3|].
    cbn in Hs. rewrite Hs. exact Hd.
Defined.

Definition example_profile_tls : TLS profile_buffer :=
  mkTLS (t_header (example_tls TRACE)) (st_empty (mpip_store arch_other)) all 0 true false.

Lemma mpip_accounts_witness :
  exists evs s1 s2 s3 recs ts,
    mapM (to_event PROFILE example_library) example_program = Some evs /\
    cbtf_collector_start arch_other PROFILE (mpip_store arch_other) (t_header (example_tls TRACE))
      (example_profile_tls, quiet_world profile_data) = Ok s1 /\
    run (mpi arch_other PROFILE) (mpip_store arch_other) example_addr (fun _ => true) evs s1 = Ok ([0; 0; 0], s2) /\
    cbtf_collector_stop (mpi arch_other PROFILE) (mpip_store arch_other) s2 = Ok s3 /\
    run_times (mpi arch_other PROFILE) (mpip_store arch_other) example_addr (fun _ => true) evs s1 = Ok ts /\
    at_times (accepted (mpi arch_other PROFILE) example_addr (fun _ => true) all true evs) ts recs /\
    calls_in [100; 20; 10] (profiled (lw_sent s3.2)) = calls_on [100; 20; 10] recs.
Proof.
  eexists.
  destruct (mpip_accounts_for_calls arch_other example_library example_addr (fun _ => true) 10
    (t_header (example_tls TRACE)) example_profile_tls (quiet_world profile_data) example_program _ eq_refl)
    as (s1 & s2 & s3 & new & recs & ts & H1 & H2 & H3 & Hs & Ht & Hm & Hp).
  - done.
  - repeat (apply Forall_cons; split; [split; [done|split; [done|reflexivity]]|]). by apply Forall_nil.
  - exists s1, s2, s3, recs, ts. split; [reflexivity|]. split; [exact H1|]. split; [exact H2|]. split; [exact H3|].
    split; [exact Ht|]. split; [exact Hm|]. cbn in Hs. rewrite Hs. apply Hp.
Defined.
