(* ===== verification/MPIFortran.v ===== *)
(** The Fortran bindings of the wrapped MPI functions
    (collectors/mpi/wrappers-fortran.c): each converts its arguments, calls the C
    wrapper of MPIWrappers.v, stores the return code in ierr and converts the
    results back. [binding] is the conversion the C prototypes ask for, and the
    theorems compare the two.

    A Fortran program passes addresses. Memory maps an address to the value of
    whatever type the code reads there; an array has its elements at consecutive
    addresses. The address of a local variable (CRef, with its contents before the
    call, if any) or of a malloc'ed array (CArray, CNewArray if it is not
    initialised) goes to the C function, which returns their contents after the call. *)
From S2P Require Import Prelude.

Definition MPI_SUCCESS : Z := 0.

Notation memory := (Z -> Z).
Definition store (p v : Z) (m : memory) : memory := fun x => if x =? p then v else m x.

(** The kinds of MPI handles. *)
Inductive hkind := HType | HComm | HOp | HRequest | HMessage | HFile | HInfo | HGroup.

(** An argument of a C function. *)
Inductive carg :=
| CVal (v : Z)
| CRef (init : option Z)
| CArray (l : list Z)
| CNewArray (n : nat).

Record cresult := mkResult {
  cr_retval : Z;
  cr_outs : list Z;          (* locals passed by address, in order *)
  cr_arrays : list (list Z); (* arrays, in order *)
  cr_memory : memory
}.

(** The C functions and the conversions of the MPI library. *)
Record mpi_c := mkMpiC {
  c_call : string -> list carg -> memory -> cresult;
  f2c : hkind -> Z -> Z;
  c2f : hkind -> Z -> Z;
  status_c2f : Z -> Z -> memory -> memory;   (* MPI_Status_c2f(&status, address) *)
  status_f2c : Z -> memory -> Z;
  status_size : Z;                           (* MPI_STATUS_SIZE *)
  comm_size : Z -> Z                         (* PMPI_Comm_size *)
}.

(** The contents of the i'th local passed by address. *)
Definition out (r : cresult) (i : nat) : Z := nth i (cr_outs r) 0.
Definition out_array (r : cresult) (i : nat) : list Z := nth i (cr_arrays r) [].

Section bindings.
Context (V : mpi_c).

Definition mpi_iallgather (sendbuf sendcount sendtype recvbuf recvcount recvtype comm request ierr
    : Z) (m : memory) : memory :=
  let r := c_call V "MPI_Iallgather" [CVal sendbuf; CVal (m sendcount); CVal (f2c V HType (m sendtype));
      CVal recvbuf; CVal (m recvcount); CVal (f2c V HType (m recvtype)); CVal (f2c V HComm (m comm)); CRef None] m in
  let m1 := store ierr (cr_retval r) (cr_memory r) in
  if m1 ierr =? MPI_SUCCESS then store request (c2f V HRequest (out r 0)) m1 else m1.

Definition mpi_iallgatherv (sendbuf sendcount sendtype recvbuf recvcounts displs recvtype comm
    request ierr : Z) (m : memory) : memory :=
  let r := c_call V "MPI_Iallgatherv" [CVal sendbuf; CVal (m sendcount); CVal (f2c V HType (m sendtype));
      CVal recvbuf; CVal recvcounts; CVal displs; CVal (f2c V HType (m recvtype)); CVal (f2c V HComm (m comm));
      CRef None] m in
  let m1 := store ierr (cr_retval r) (cr_memory r) in
  if m1 ierr =? MPI_SUCCESS then store request (c2f V HRequest (out r 0)) m1 else m1.

Definition mpi_iallreduce (sendbuf recvbuf count datatype op comm request ierr : Z) (m : memory) : memory :=
  let r := c_call V "MPI_Iallreduce" [CVal sendbuf; CVal recvbuf; CVal (m count);
      CVal (f2c V HType (m datatype)); CVal (f2c V HOp (m op)); CVal (f2c V HComm (m comm)); CRef None] m in
  let m1 := store ierr (cr_retval r) (cr_memory r) in
  if m1 ierr =? MPI_SUCCESS then store request (c2f V HRequest (out r 0)) m1 else m1.

Definition mpi_ialltoall (sendbuf sendcount sendtype recvbuf recvcount recvtype comm request ierr :
    Z) (m : memory) : memory :=
  let r := c_call V "MPI_Ialltoall" [CVal sendbuf; CVal (m sendcount); CVal (f2c V HType (m sendtype));
      CVal recvbuf; CVal (m recvcount); CVal (f2c V HType (m recvtype)); CVal (f2c V HComm (m comm)); CRef None] m in
  let m1 := store ierr (cr_retval r) (cr_memory r) in
  if m1 ierr =? MPI_SUCCESS then store request (c2f V HRequest (out r 0)) m1 else m1.

Definition mpi_ialltoallv (sendbuf sendcounts sdispls sendtype recvbuf recvcounts rdispls recvtype
    comm request ierr : Z) (m : memory) : memory :=
  let r := c_call V "MPI_Ialltoallv" [CVal sendbuf; CVal sendcounts; CVal sdispls;
      CVal (f2c V HType (m sendtype)); CVal recvbuf; CVal recvcounts; CVal rdispls;
      CVal (f2c V HType (m recvtype)); CVal (f2c V HComm (m comm)); CRef None] m in
  let m1 := store ierr (cr_retval r) (cr_memory r) in
  if m1 ierr =? MPI_SUCCESS then store request (c2f V HRequest (out r 0)) m1 else m1.

Definition mpi_ibarrier (comm request ierr : Z) (m : memory) : memory :=
  let r := c_call V "MPI_IBarrier" [CVal (f2c V HType (m comm)); CRef None] m in
  let m1 := store ierr (cr_retval r) (cr_memory r) in
  if m1 ierr =? MPI_SUCCESS then store request (c2f V HRequest (out r 0)) m1 else m1.

Definition mpi_ibcast (buffer count datatype root comm request ierr : Z) (m : memory) : memory :=
  let r := c_call V "MPI_Ibcast" [CVal buffer; CVal (m count); CVal (f2c V HType (m datatype)); CVal (m root);
      CVal (f2c V HComm (m comm)); CRef None] m in
  let m1 := store ierr (cr_retval r) (cr_memory r) in
  if m1 ierr =? MPI_SUCCESS then store request (c2f V HRequest (out r 0)) m1 else m1.

Definition mpi_iexscan (sendbuf recvbuf count datatype op comm request ierr : Z) (m : memory) : memory :=
  let r := c_call V "MPI_Iexscan" [CVal sendbuf; CVal recvbuf; CVal (m count); CVal (f2c V HType (m datatype));
      CVal (f2c V HOp (m op)); CVal (f2c V HComm (m comm)); CRef None] m in
  let m1 := store ierr (cr_retval r) (cr_memory r) in
  if m1 ierr =? MPI_SUCCESS then store request (c2f V HRequest (out r 0)) m1 else m1.

Definition mpi_igather (sendbuf sendcount sendtype recvbuf recvcount recvtype root comm request
    ierr : Z) (m : memory) : memory :=
  let r := c_call V "MPI_Igather" [CVal sendbuf; CVal (m sendcount); CVal (f2c V HType (m sendtype));
      CVal recvbuf; CVal (m recvcount); CVal (f2c V HType (m recvtype)); CVal (m root);
      CVal (f2c V HComm (m comm)); CRef None] m in
  let m1 := store ierr (cr_retval r) (cr_memory r) in
  if m1 ierr =? MPI_SUCCESS then store request (c2f V HRequest (out r 0)) m1 else m1.

Definition mpi_igatherv (sendbuf sendcount sendtype recvbuf recvcounts displs recvtype root comm
    request ierr : Z) (m : memory) : memory :=
  let r := c_call V "MPI_Igatherv" [CVal sendbuf; CVal (m sendcount); CVal (f2c V HType (m sendtype));
      CVal recvbuf; CVal recvcounts; CVal displs; CVal (f2c V HType (m recvtype)); CVal (m root);
      CVal (f2c V HComm (m comm)); CRef None] m in
  let m1 := store ierr (cr_retval r) (cr_memory r) in
  if m1 ierr =? MPI_SUCCESS then store request (c2f V HRequest (out r 0)) m1 else m1.

Definition mpi_improbe (source tag comm flag message status ierr : Z) (m : memory) : memory :=
  let r := c_call V "MPI_Improbe" [CVal (m source); CVal (m tag); CVal (f2c V HComm (m comm)); CVal (m flag);
      CVal (f2c V HMessage (m message)); CRef None] m in
  let m1 := store ierr (cr_retval r) (cr_memory r) in
  if m1 ierr =? MPI_SUCCESS then status_c2f V (out r 0) (m1 status) m1 else m1.

Definition mpi_imrecv (buf count type message request ierr : Z) (m : memory) : memory :=
  let r := c_call V "MPI_Imrecv" [CVal buf; CVal (m count); CVal (f2c V HType (m type));
      CVal (f2c V HMessage (m message)); CRef None] m in
  let m1 := store ierr (cr_retval r) (cr_memory r) in
  if m1 ierr =? MPI_SUCCESS then store request (c2f V HRequest (out r 0)) m1 else m1.

Definition mpi_ineighbor_allgather (sendbuf sendcount sendtype recvbuf recvcount recvtype comm
    request ierr : Z) (m : memory) : memory :=
  let r := c_call V "MPI_Iallgather" [CVal sendbuf; CVal (m sendcount); CVal (f2c V HType (m sendtype));
      CVal recvbuf; CVal (m recvcount); CVal (f2c V HType (m recvtype)); CVal (f2c V HComm (m comm)); CRef None] m in
  let m1 := store ierr (cr_retval r) (cr_memory r) in
  if m1 ierr =? MPI_SUCCESS then store request (c2f V HRequest (out r 0)) m1 else m1.

Definition mpi_ineighbor_allgatherv (sendbuf sendcount sendtype recvbuf recvcounts displs recvtype
    comm request ierr : Z) (m : memory) : memory :=
  let r := c_call V "MPI_Iallgatherv" [CVal sendbuf; CVal (m sendcount); CVal (f2c V HType (m sendtype));
      CVal recvbuf; CVal recvcounts; CVal displs; CVal (f2c V HType (m recvtype)); CVal (f2c V HComm (m comm));
      CRef None] m in
  let m1 := store ierr (cr_retval r) (cr_memory r) in
  if m1 ierr =? MPI_SUCCESS then store request (c2f V HRequest (out r 0)) m1 else m1.

Definition mpi_ineighbor_alltoall (sendbuf sendcount sendtype recvbuf recvcount recvtype comm
    request ierr : Z) (m : memory) : memory :=
  let r := c_call V "MPI_Ialltoall" [CVal sendbuf; CVal (m sendcount); CVal (f2c V HType (m sendtype));
      CVal recvbuf; CVal (m recvcount); CVal (f2c V HType (m recvtype)); CVal (f2c V HComm (m comm)); CRef None] m in
  let m1 := store ierr (cr_retval r) (cr_memory r) in
  if m1 ierr =? MPI_SUCCESS then store request (c2f V HRequest (out r 0)) m1 else m1.

Definition mpi_ineighbor_alltoallv (sendbuf sendcounts sdispls sendtype recvbuf recvcounts rdispls
    recvtype comm request ierr : Z) (m : memory) : memory :=
  let r := c_call V "MPI_Ialltoallv" [CVal sendbuf; CVal sendcounts; CVal sdispls;
      CVal (f2c V HType (m sendtype)); CVal recvbuf; CVal recvcounts; CVal sdispls;
      CVal (f2c V HType (m recvtype)); CVal (f2c V HComm (m comm)); CRef None] m in
  let m1 := store ierr (cr_retval r) (cr_memory r) in
  if m1 ierr =? MPI_SUCCESS then store request (c2f V HRequest (out r 0)) m1 else m1.

Definition mpi_ineighbor_alltoallw (sendbuf sendcounts sdispls sendtype recvbuf recvcounts rdispls
    recvtype comm request ierr : Z) (m : memory) : memory :=
  let r := c_call V "MPI_Ialltoallw" [CVal sendbuf; CVal sendcounts; CVal sdispls;
      CVal (f2c V HType (m sendtype)); CVal recvbuf; CVal recvcounts; CVal sdispls;
      CVal (f2c V HType (m recvtype)); CVal (f2c V HComm (m comm)); CRef None] m in
  let m1 := store ierr (cr_retval r) (cr_memory r) in
  if m1 ierr =? MPI_SUCCESS then store request (c2f V HRequest (out r 0)) m1 else m1.

Definition mpi_ireduce (sendbuf recvbuf count datatype op root comm request ierr : Z) (m : memory) : memory :=
  let r := c_call V "MPI_Ireduce" [CVal sendbuf; CVal recvbuf; CVal (m count); CVal (f2c V HType (m datatype));
      CVal (f2c V HOp (m op)); CVal (m root); CVal (f2c V HComm (m comm)); CRef None] m in
  let m1 := store ierr (cr_retval r) (cr_memory r) in
  if m1 ierr =? MPI_SUCCESS then store request (c2f V HRequest (out r 0)) m1 else m1.

Definition mpi_ireduce_scatter (sendbuf recvbuf recvcounts datatype op comm request ierr : Z) (m : memory) : memory :=
  let r := c_call V "MPI_Ireduce_scatter" [CVal sendbuf; CVal recvbuf; CVal recvcounts;
      CVal (f2c V HType (m datatype)); CVal (f2c V HOp (m op)); CVal (f2c V HComm (m comm)); CRef None] m in
  let m1 := store ierr (cr_retval r) (cr_memory r) in
  if m1 ierr =? MPI_SUCCESS then store request (c2f V HRequest (out r 0)) m1 else m1.

Definition mpi_ireduce_scatter_block (sendbuf recvbuf recvcount datatype op comm request ierr : Z)
    (m : memory) : memory :=
  let r := c_call V "MPI_Ireduce_scatter_block" [CVal sendbuf; CVal recvbuf; CVal (m recvcount);
      CVal (f2c V HType (m datatype)); CVal (f2c V HOp (m op)); CVal (f2c V HComm (m comm)); CRef None] m in
  let m1 := store ierr (cr_retval r) (cr_memory r) in
  if m1 ierr =? MPI_SUCCESS then store request (c2f V HRequest (out r 0)) m1 else m1.

Definition mpi_comm_idup (comm newcomm request ierr : Z) (m : memory) : memory :=
  let r := c_call V "MPI_Comm_idup" [CVal (f2c V HComm (m comm)); CRef None; CRef None] m in
  let m1 := store ierr (cr_retval r) (cr_memory r) in
  let m2 := if m1 ierr =? MPI_SUCCESS then store request (c2f V HRequest (out r 1)) m1 else m1 in
  if m2 ierr =? MPI_SUCCESS then store newcomm (c2f V HComm (out r 0)) m2 else m2.

Definition mpi_iscan (sendbuf recvbuf count datatype op comm request ierr : Z) (m : memory) : memory :=
  let r := c_call V "MPI_Iscan" [CVal sendbuf; CVal recvbuf; CVal (m count); CVal (f2c V HType (m datatype));
      CVal (f2c V HOp (m op)); CVal (f2c V HComm (m comm)); CRef None] m in
  let m1 := store ierr (cr_retval r) (cr_memory r) in
  if m1 ierr =? MPI_SUCCESS then store request (c2f V HRequest (out r 0)) m1 else m1.

Definition mpi_iscatter (sendbuf sendcount sendtype recvbuf recvcount recvtype root comm request
    ierr : Z) (m : memory) : memory :=
  let r := c_call V "MPI_Iscatter" [CVal sendbuf; CVal (m sendcount); CVal (f2c V HType (m sendtype));
      CVal recvbuf; CVal (m recvcount); CVal (f2c V HType (m recvtype)); CVal (m root);
      CVal (f2c V HComm (m comm)); CRef None] m in
  let m1 := store ierr (cr_retval r) (cr_memory r) in
  if m1 ierr =? MPI_SUCCESS then store request (c2f V HRequest (out r 0)) m1 else m1.

Definition mpi_iscatterv (sendbuf sendcounts displs sendtype recvbuf recvcount recvtype root comm
    request ierr : Z) (m : memory) : memory :=
  let r := c_call V "MPI_Iscatterv" [CVal sendbuf; CVal sendcounts; CVal (m displs);
      CVal (f2c V HType (m sendtype)); CVal recvbuf; CVal (m recvcount); CVal (f2c V HType (m recvtype));
      CVal (m root); CVal (f2c V HComm (m comm)); CRef None] m in
  let m1 := store ierr (cr_retval r) (cr_memory r) in
  if m1 ierr =? MPI_SUCCESS then store request (c2f V HRequest (out r 0)) m1 else m1.

Definition mpi_irecv (buf count datatype source tag comm request ierr : Z) (m : memory) : memory :=
  let r := c_call V "MPI_Irecv" [CVal buf; CVal (m count); CVal (f2c V HType (m datatype)); CVal (m source);
      CVal (m tag); CVal (f2c V HComm (m comm)); CRef None] m in
  let m1 := store ierr (cr_retval r) (cr_memory r) in
  if m1 ierr =? MPI_SUCCESS then store request (c2f V HRequest (out r 0)) m1 else m1.

Definition mpi_recv (buf count datatype source tag comm status ierr : Z) (m : memory) : memory :=
  let r := c_call V "MPI_Recv" [CVal buf; CVal (m count); CVal (f2c V HType (m datatype)); CVal (m source);
      CVal (m tag); CVal (f2c V HComm (m comm)); CRef None] m in
  let m1 := store ierr (cr_retval r) (cr_memory r) in
  if m1 ierr =? MPI_SUCCESS then status_c2f V (out r 0) status m1 else m1.

Definition mpi_recv_init (buf count datatype source tag comm request ierr : Z) (m : memory) : memory :=
  let r := c_call V "MPI_Recv_init" [CVal buf; CVal (m count); CVal (m datatype); CVal (m source);
      CVal (m tag); CVal (m comm); CVal request] m in
  store ierr (cr_retval r) (cr_memory r).

Definition mpi_iprobe (source tag comm flag status ierr : Z) (m : memory) : memory :=
  let r := c_call V "MPI_Iprobe" [CVal (m source); CVal (m tag); CVal (f2c V HComm (m comm)); CVal flag;
      CRef None] m in
  let m1 := store ierr (cr_retval r) (cr_memory r) in
  if m1 ierr =? MPI_SUCCESS then status_c2f V (out r 0) status m1 else m1.

Definition mpi_probe (source tag comm status ierr : Z) (m : memory) : memory :=
  let r := c_call V "MPI_Probe" [CVal (m source); CVal (m tag); CVal (f2c V HComm (m comm)); CRef None] m in
  let m1 := store ierr (cr_retval r) (cr_memory r) in
  if m1 ierr =? MPI_SUCCESS then status_c2f V (out r 0) status m1 else m1.

Definition mpi_isend (buf count datatype dest tag comm request ierr : Z) (m : memory) : memory :=
  let r := c_call V "MPI_Isend" [CVal buf; CVal (m count); CVal (f2c V HType (m datatype)); CVal (m dest);
      CVal (m tag); CVal (f2c V HComm (m comm)); CRef None] m in
  let m1 := store ierr (cr_retval r) (cr_memory r) in
  if m1 ierr =? MPI_SUCCESS then store request (c2f V HRequest (out r 0)) m1 else m1.

Definition mpi_bsend (buf count datatype dest tag comm ierr : Z) (m : memory) : memory :=
  let r := c_call V "MPI_Bsend" [CVal buf; CVal (m count); CVal (f2c V HType (m datatype)); CVal (m dest);
      CVal (m tag); CVal (f2c V HComm (m comm))] m in
  store ierr (cr_retval r) (cr_memory r).

Definition mpi_bsend_init (buf count datatype dest tag comm request ierr : Z) (m : memory) : memory :=
  let r := c_call V "MPI_Bsend_init" [CVal buf; CVal (m count); CVal (f2c V HType (m datatype)); CVal (m dest);
      CVal (m tag); CVal (f2c V HComm (m comm)); CRef None] m in
  let m1 := store ierr (cr_retval r) (cr_memory r) in
  if m1 ierr =? MPI_SUCCESS then store request (c2f V HRequest (out r 0)) m1 else m1.

Definition mpi_ibsend (buf count datatype dest tag comm request ierr : Z) (m : memory) : memory :=
  let r := c_call V "MPI_Ibsend" [CVal buf; CVal (m count); CVal (f2c V HType (m datatype)); CVal (m dest);
      CVal (m tag); CVal (f2c V HComm (m comm)); CRef None] m in
  let m1 := store ierr (cr_retval r) (cr_memory r) in
  if m1 ierr =? MPI_SUCCESS then store request (c2f V HRequest (out r 0)) m1 else m1.

Definition mpi_irsend (buf count datatype dest tag comm request ierr : Z) (m : memory) : memory :=
  let r := c_call V "MPI_Irsend" [CVal buf; CVal (m count); CVal (f2c V HType (m datatype)); CVal (m dest);
      CVal (m tag); CVal (f2c V HComm (m comm)); CRef None] m in
  let m1 := store ierr (cr_retval r) (cr_memory r) in
  if m1 ierr =? MPI_SUCCESS then store request (c2f V HRequest (out r 0)) m1 else m1.

Definition mpi_issend (buf count datatype dest tag comm request ierr : Z) (m : memory) : memory :=
  let r := c_call V "MPI_Issend" [CVal buf; CVal (m count); CVal (f2c V HType (m datatype)); CVal (m dest);
      CVal (m tag); CVal (f2c V HComm (m comm)); CRef None] m in
  let m1 := store ierr (cr_retval r) (cr_memory r) in
  if m1 ierr =? MPI_SUCCESS then store request (c2f V HRequest (out r 0)) m1 else m1.

Definition mpi_rsend (buf count datatype dest tag comm ierr : Z) (m : memory) : memory :=
  let r := c_call V "MPI_Rsend" [CVal buf; CVal (m count); CVal (f2c V HType (m datatype)); CVal (m dest);
      CVal (m tag); CVal (f2c V HComm (m comm))] m in
  store ierr (cr_retval r) (cr_memory r).

Definition mpi_rsend_init (buf count datatype dest tag comm request ierr : Z) (m : memory) : memory :=
  let r := c_call V "MPI_Rsend_init" [CVal buf; CVal (m count); CVal (f2c V HType (m datatype)); CVal (m dest);
      CVal (m tag); CVal (f2c V HComm (m comm)); CRef None] m in
  let m1 := store ierr (cr_retval r) (cr_memory r) in
  if m1 ierr =? MPI_SUCCESS then store request (c2f V HRequest (out r 0)) m1 else m1.

Definition mpi_send (buf count datatype dest tag comm ierr : Z) (m : memory) : memory :=
  let r := c_call V "MPI_Send" [CVal buf; CVal (m count); CVal (f2c V HType (m datatype)); CVal (m dest);
      CVal (m tag); CVal (f2c V HComm (m comm))] m in
  store ierr (cr_retval r) (cr_memory r).

Definition mpi_send_init (buf count datatype dest tag comm request ierr : Z) (m : memory) : memory :=
  let r := c_call V "MPI_Send_init" [CVal buf; CVal (m count); CVal (f2c V HType (m datatype)); CVal (m dest);
      CVal (m tag); CVal (f2c V HComm (m comm)); CRef None] m in
  let m1 := store ierr (cr_retval r) (cr_memory r) in
  if m1 ierr =? MPI_SUCCESS then store request (c2f V HRequest (out r 0)) m1 else m1.

Definition mpi_ssend (buf count datatype dest tag comm ierr : Z) (m : memory) : memory :=
  let r := c_call V "MPI_Ssend" [CVal buf; CVal (m count); CVal (f2c V HType (m datatype)); CVal (m dest);
      CVal (m tag); CVal (f2c V HComm (m comm))] m in
  store ierr (cr_retval r) (cr_memory r).

Definition mpi_ssend_init (buf count datatype dest tag comm request ierr : Z) (m : memory) : memory :=
  let r := c_call V "MPI_Ssend_init" [CVal buf; CVal (m count); CVal (f2c V HType (m datatype)); CVal (m dest);
      CVal (m tag); CVal (f2c V HComm (m comm)); CRef None] m in
  let m1 := store ierr (cr_retval r) (cr_memory r) in
  if m1 ierr =? MPI_SUCCESS then store request (c2f V HRequest (out r 0)) m1 else m1.

Definition mpi_finalize (ierr : Z) (m : memory) : memory :=
  let r := c_call V "MPI_Finalize" [] m in
  store ierr (cr_retval r) (cr_memory r).

Definition mpi_unpack (inbuf insize position outbuf outcount datatype comm ierr : Z) (m : memory) : memory :=
  let r := c_call V "MPI_Unpack" [CVal inbuf; CVal (m insize); CVal position; CVal outbuf; CVal (m outcount);
      CVal (m datatype); CVal (f2c V HComm (m comm))] m in
  store ierr (cr_retval r) (cr_memory r).

Definition mpi_wait (request status ierr : Z) (m : memory) : memory :=
  let r := c_call V "MPI_Wait" [CRef (Some (f2c V HRequest (m request))); CRef None] m in
  let m1 := store ierr (cr_retval r) (cr_memory r) in
  let m2 := store request (c2f V HRequest (out r 0)) m1 in
  if m2 ierr =? MPI_SUCCESS then status_c2f V (out r 1) status m2 else m2.

Definition mpi_scan (sendbuf recvbuf count datatype op comm ierr : Z) (m : memory) : memory :=
  let r := c_call V "MPI_Scan" [CVal sendbuf; CVal recvbuf; CVal (m count); CVal (f2c V HType (m datatype));
      CVal (f2c V HOp (m op)); CVal (f2c V HComm (m comm))] m in
  store ierr (cr_retval r) (cr_memory r).

Definition mpi_request_free (request ierr : Z) (m : memory) : memory :=
  let r := c_call V "MPI_Request_free" [CRef (Some (f2c V HRequest (m request)))] m in
  let m1 := store ierr (cr_retval r) (cr_memory r) in
  if m1 ierr =? MPI_SUCCESS then store request (c2f V HRequest (out r 0)) m1 else m1.

Definition mpi_reduce_scatter (sendbuf recvbuf recvcounts datatype op comm ierr : Z) (m : memory) : memory :=
  let r := c_call V "MPI_Reduce_scatter" [CVal sendbuf; CVal recvbuf; CVal recvcounts;
      CVal (f2c V HType (m datatype)); CVal (f2c V HOp (m op)); CVal (f2c V HComm (m comm))] m in
  store ierr (cr_retval r) (cr_memory r).

Definition mpi_reduce (sendbuf recvbuf count datatype op root comm ierr : Z) (m : memory) : memory :=
  let r := c_call V "MPI_Reduce" [CVal sendbuf; CVal recvbuf; CVal (m count); CVal (f2c V HType (m datatype));
      CVal (f2c V HOp (m op)); CVal (m root); CVal (f2c V HComm (m comm))] m in
  store ierr (cr_retval r) (cr_memory r).

Definition mpi_pack (inbuf incount datatype outbuf outsize position comm ierr : Z) (m : memory) : memory :=
  let r := c_call V "MPI_Pack" [CVal inbuf; CVal (m incount); CVal (f2c V HType (m datatype)); CVal outbuf;
      CVal (m outsize); CVal position; CVal (f2c V HComm (m comm))] m in
  store ierr (cr_retval r) (cr_memory r).

Definition mpi_init (ierr : Z) (m : memory) : memory :=
  let r := c_call V "MPI_Init" [CVal 0; CVal 0] m in
  store ierr (cr_retval r) (cr_memory r).

Definition mpi_get_count (status datatype count ierr : Z) (m : memory) : memory :=
  let r := c_call V "MPI_Get_count" [CRef None; CVal (f2c V HType (m datatype)); CVal count] m in
  let m1 := store ierr (cr_retval r) (cr_memory r) in
  if m1 ierr =? MPI_SUCCESS then status_c2f V (out r 0) status m1 else m1.

Definition mpi_gatherv (sendbuf sendcount sendtype recvbuf recvcounts displs recvtype root comm
    ierr : Z) (m : memory) : memory :=
  let r := c_call V "MPI_Gatherv" [CVal sendbuf; CVal (m sendcount); CVal (f2c V HType (m sendtype));
      CVal recvbuf; CVal recvcounts; CVal displs; CVal (f2c V HType (m recvtype)); CVal (m root);
      CVal (f2c V HComm (m comm))] m in
  store ierr (cr_retval r) (cr_memory r).

Definition mpi_gather (sendbuf sendcount sendtype recvbuf recvcount recvtype root comm ierr : Z) (m
    : memory) : memory :=
  let r := c_call V "MPI_Gather" [CVal sendbuf; CVal (m sendcount); CVal (f2c V HType (m sendtype));
      CVal recvbuf; CVal (m recvcount); CVal (f2c V HType (m recvtype)); CVal (m root);
      CVal (f2c V HComm (m comm))] m in
  store ierr (cr_retval r) (cr_memory r).

Definition mpi_cancel (request ierr : Z) (m : memory) : memory :=
  let r := c_call V "MPI_Cancel" [CRef (Some (f2c V HRequest (m request)))] m in
  store ierr (cr_retval r) (cr_memory r).

Definition mpi_bcast (buffer count datatype root comm ierr : Z) (m : memory) : memory :=
  let r := c_call V "MPI_Bcast" [CVal buffer; CVal (m count); CVal (f2c V HType (m datatype)); CVal (m root);
      CVal (f2c V HComm (m comm))] m in
  store ierr (cr_retval r) (cr_memory r).

Definition mpi_barrier (comm ierr : Z) (m : memory) : memory :=
  let r := c_call V "MPI_Barrier" [CVal (f2c V HComm (m comm))] m in
  store ierr (cr_retval r) (cr_memory r).

Definition mpi_alltoallv (sendbuf sendcounts sdispls sendtype recvbuf recvcounts rdispls recvtype
    comm ierr : Z) (m : memory) : memory :=
  let r := c_call V "MPI_Alltoallv" [CVal sendbuf; CVal sendcounts; CVal sdispls;
      CVal (f2c V HType (m sendtype)); CVal recvbuf; CVal (m recvcounts); CVal (m rdispls);
      CVal (f2c V HType (m recvtype)); CVal (f2c V HComm (m comm))] m in
  store ierr (cr_retval r) (cr_memory r).

Definition mpi_alltoall (sendbuf sendcount sendtype recvbuf recvcount recvtype comm ierr : Z) (m : memory) : memory :=
  let r := c_call V "MPI_Alltoall" [CVal sendbuf; CVal (m sendcount); CVal (f2c V HType (m sendtype));
      CVal recvbuf; CVal (m recvcount); CVal (f2c V HType (m recvtype)); CVal (f2c V HComm (m comm))] m in
  store ierr (cr_retval r) (cr_memory r).

Definition mpi_allreduce (sendbuf recvbuf count datatype op comm ierr : Z) (m : memory) : memory :=
  let r := c_call V "MPI_Allreduce" [CVal sendbuf; CVal recvbuf; CVal (m count);
      CVal (f2c V HType (m datatype)); CVal (f2c V HOp (m op)); CVal (f2c V HComm (m comm))] m in
  store ierr (cr_retval r) (cr_memory r).

Definition mpi_allgatherv (sendbuf sendcount sendtype recvbuf recvcounts displs recvtype comm ierr
    : Z) (m : memory) : memory :=
  let r := c_call V "MPI_Allgatherv" [CVal sendbuf; CVal (m sendcount); CVal (f2c V HType (m sendtype));
      CVal recvbuf; CVal recvcounts; CVal displs; CVal (f2c V HType (m recvtype)); CVal (f2c V HComm (m comm))] m in
  store ierr (cr_retval r) (cr_memory r).

Definition mpi_allgather (sendbuf sendcount sendtype recvbuf recvcount recvtype comm ierr : Z) (m :
    memory) : memory :=
  let r := c_call V "MPI_Allgather" [CVal sendbuf; CVal (m sendcount); CVal (f2c V HType (m sendtype));
      CVal recvbuf; CVal (m recvcount); CVal (f2c V HType (m recvtype)); CVal (f2c V HComm (m comm))] m in
  store ierr (cr_retval r) (cr_memory r).

Definition mpi_scatter (sendbuf sendcount sendtype recvbuf recvcount recvtype root comm ierr : Z)
    (m : memory) : memory :=
  let r := c_call V "MPI_Scatter" [CVal sendbuf; CVal (m sendcount); CVal (f2c V HType (m sendtype));
      CVal recvbuf; CVal (m recvcount); CVal (f2c V HType (m recvtype)); CVal (m root);
      CVal (f2c V HComm (m comm))] m in
  store ierr (cr_retval r) (cr_memory r).

Definition mpi_scatterv (sendbuf sendcounts displs sendtype recvbuf recvcount recvtype root comm
    ierr : Z) (m : memory) : memory :=
  let r := c_call V "MPI_Scatterv" [CVal sendbuf; CVal sendcounts; CVal displs;
      CVal (f2c V HType (m sendtype)); CVal recvbuf; CVal (m recvcount); CVal (f2c V HType (m recvtype));
      CVal (m root); CVal (f2c V HComm (m comm))] m in
  store ierr (cr_retval r) (cr_memory r).

Definition mpi_sendrecv (sendbuf sendcount sendtype dest sendtag recvbuf recvcount recvtype source
    recvtag comm status ierr : Z) (m : memory) : memory :=
  let r := c_call V "MPI_Sendrecv" [CVal sendbuf; CVal (m sendcount); CVal (f2c V HType (m sendtype));
      CVal (m dest); CVal (m sendtag); CVal recvbuf; CVal (m recvcount); CVal (f2c V HType (m recvtype));
      CVal (m source); CVal (m recvtag); CVal (f2c V HComm (m comm)); CRef None] m in
  let m1 := store ierr (cr_retval r) (cr_memory r) in
  if m1 ierr =? MPI_SUCCESS then status_c2f V (out r 0) status m1 else m1.

Definition mpi_sendrecv_replace (buf count datatype dest sendtag source recvtag comm status ierr :
    Z) (m : memory) : memory :=
  let r := c_call V "MPI_Sendrecv_replace" [CVal buf; CVal (m count); CVal (f2c V HType (m datatype));
      CVal (m dest); CVal (m sendtag); CVal (m source); CVal (m recvtag); CVal (f2c V HComm (m comm)); CRef None] m in
  let m1 := store ierr (cr_retval r) (cr_memory r) in
  if m1 ierr =? MPI_SUCCESS then status_c2f V (out r 0) status m1 else m1.

Definition mpi_intercomm_create (local_comm local_leader peer_comm remote_leader tag newintercomm
    ierr : Z) (m : memory) : memory :=
  let r := c_call V "MPI_Intercomm_create" [CVal (f2c V HComm (m local_comm)); CVal (m local_leader);
      CVal (f2c V HComm (m peer_comm)); CVal (m remote_leader); CVal (m tag); CRef None] m in
  let m1 := store ierr (cr_retval r) (cr_memory r) in
  if m1 ierr =? MPI_SUCCESS then store newintercomm (c2f V HComm (out r 0)) m1 else m1.

Definition mpi_intercomm_merge (intercomm high newcomm ierr : Z) (m : memory) : memory :=
  let r := c_call V "MPI_Intercomm_merge" [CVal (f2c V HComm (m intercomm)); CVal (m high); CRef None] m in
  let m1 := store ierr (cr_retval r) (cr_memory r) in
  if m1 ierr =? MPI_SUCCESS then store newcomm (c2f V HComm (out r 0)) m1 else m1.

Definition mpi_comm_free (comm ierr : Z) (m : memory) : memory :=
  let r := c_call V "MPI_Comm_free" [CRef (Some (f2c V HComm (m comm)))] m in
  let m1 := store ierr (cr_retval r) (cr_memory r) in
  if m1 ierr =? MPI_SUCCESS then store comm (c2f V HComm (out r 0)) m1 else m1.

Definition mpi_comm_dup (comm newcomm ierr : Z) (m : memory) : memory :=
  let r := c_call V "MPI_Comm_dup" [CVal (f2c V HComm (m comm)); CRef None] m in
  let m1 := store ierr (cr_retval r) (cr_memory r) in
  if m1 ierr =? MPI_SUCCESS then store newcomm (c2f V HComm (out r 0)) m1 else m1.

Definition mpi_comm_create (comm group newcomm ierr : Z) (m : memory) : memory :=
  let r := c_call V "MPI_Comm_create" [CVal (f2c V HComm (m comm)); CVal (f2c V HGroup (m group)); CRef None] m in
  let m1 := store ierr (cr_retval r) (cr_memory r) in
  if m1 ierr =? MPI_SUCCESS then store newcomm (c2f V HComm (out r 0)) m1 else m1.

Definition mpi_comm_split (comm color key newcomm ierr : Z) (m : memory) : memory :=
  let r := c_call V "MPI_Comm_split" [CVal (f2c V HComm (m comm)); CVal (m color); CVal (m key); CRef None] m in
  let m1 := store ierr (cr_retval r) (cr_memory r) in
  if m1 ierr =? MPI_SUCCESS then store newcomm (c2f V HComm (out r 0)) m1 else m1.

Definition mpi_start (request ierr : Z) (m : memory) : memory :=
  let r := c_call V "MPI_Start" [CRef (Some (f2c V HRequest (m request)))] m in
  let m1 := store ierr (cr_retval r) (cr_memory r) in
  if m1 ierr =? MPI_SUCCESS then store request (c2f V HRequest (out r 0)) m1 else m1.

Definition mpi_file_open (comm filename amode info mfile ierr : Z) (m : memory) : memory :=
  let r := c_call V "MPI_File_open" [CVal (f2c V HComm (m comm)); CVal filename; CVal (m amode);
      CVal (f2c V HInfo (m info)); CRef None] m in
  let m1 := store ierr (cr_retval r) (cr_memory r) in
  store mfile (c2f V HFile (out r 0)) m1.

Definition mpi_file_close (mfile ierr : Z) (m : memory) : memory :=
  let r := c_call V "MPI_File_close" [CRef (Some (f2c V HFile (m mfile)))] m in
  let m1 := store ierr (cr_retval r) (cr_memory r) in
  store mfile (c2f V HFile (out r 0)) m1.

Definition mpi_file_delete (filename info ierr : Z) (m : memory) : memory :=
  let r := c_call V "MPI_File_delete" [CVal filename; CVal info] m in
  store ierr (cr_retval r) (cr_memory r).

Definition mpi_file_set_size (mfile size ierr : Z) (m : memory) : memory :=
  let r := c_call V "MPI_File_set_size" [CVal (f2c V HFile (m mfile)); CVal size] m in
  store ierr (cr_retval r) (cr_memory r).

Definition mpi_file_get_size (mfile size ierr : Z) (m : memory) : memory :=
  let r := c_call V "MPI_File_get_size" [CVal (f2c V HFile (m mfile)); CVal size] m in
  store ierr (cr_retval r) (cr_memory r).

Definition mpi_file_get_group (mfile group ierr : Z) (m : memory) : memory :=
  let r := c_call V "MPI_File_get_group" [CVal (f2c V HFile (m mfile)); CRef None] m in
  let m1 := store ierr (cr_retval r) (cr_memory r) in
  store group (c2f V HGroup (out r 0)) m1.

Definition mpi_file_get_info (mfile info ierr : Z) (m : memory) : memory :=
  let r := c_call V "MPI_File_get_info" [CVal (f2c V HFile (m mfile)); CRef None] m in
  let m1 := store ierr (cr_retval r) (cr_memory r) in
  store info (c2f V HInfo (out r 0)) m1.

Definition mpi_file_get_view (mfile offset etype filetype datarep ierr : Z) (m : memory) : memory :=
  let r := c_call V "MPI_File_get_view" [CVal (f2c V HFile (m mfile)); CVal offset; CRef None; CRef None;
      CVal datarep] m in
  let m1 := store ierr (cr_retval r) (cr_memory r) in
  let m2 := store filetype (c2f V HType (out r 1)) m1 in
  store etype (c2f V HType (out r 0)) m2.

Definition mpi_file_set_view (mfile offset etype filetype datarep info ierr : Z) (m : memory) : memory :=
  let r := c_call V "MPI_File_set_view" [CVal (f2c V HFile (m mfile)); CVal offset;
      CVal (f2c V HType (m etype)); CVal (f2c V HType (m filetype)); CVal datarep; CVal (f2c V HInfo (m info))] m in
  store ierr (cr_retval r) (cr_memory r).

Definition mpi_file_get_amode (mfile amode ierr : Z) (m : memory) : memory :=
  let r := c_call V "MPI_File_get_amode" [CVal (f2c V HFile (m mfile)); CVal amode] m in
  store ierr (cr_retval r) (cr_memory r).

Definition mpi_file_set_info (mfile info ierr : Z) (m : memory) : memory :=
  let r := c_call V "MPI_File_set_info" [CVal (f2c V HFile (m mfile)); CVal (f2c V HInfo (m info))] m in
  store ierr (cr_retval r) (cr_memory r).

Definition mpi_file_write (mfile buf count datatype status ierr : Z) (m : memory) : memory :=
  let r := c_call V "MPI_File_write" [CVal (f2c V HFile (m mfile)); CVal buf; CVal count;
      CVal (f2c V HType (m datatype)); CRef None] m in
  let m1 := store ierr (cr_retval r) (cr_memory r) in
  status_c2f V (out r 0) status m1.

Definition mpi_file_write_at (mfile offset buf count datatype status ierr : Z) (m : memory) : memory :=
  let r := c_call V "MPI_File_write_at" [CVal (f2c V HFile (m mfile)); CVal (m offset); CVal buf; CVal count;
      CVal (f2c V HType (m datatype)); CRef None] m in
  let m1 := store ierr (cr_retval r) (cr_memory r) in
  status_c2f V (out r 0) status m1.

Definition mpi_file_write_at_all (mfile offset buf count datatype status ierr : Z) (m : memory) : memory :=
  let r := c_call V "MPI_File_write_at_all" [CVal (f2c V HFile (m mfile)); CVal (m offset); CVal buf;
      CVal count; CVal (f2c V HType (m datatype)); CRef None] m in
  let m1 := store ierr (cr_retval r) (cr_memory r) in
  status_c2f V (out r 0) status m1.

Definition mpi_file_write_ordered (mfile buf count datatype status ierr : Z) (m : memory) : memory :=
  let r := c_call V "MPI_File_write_ordered" [CVal (f2c V HFile (m mfile)); CVal buf; CVal count;
      CVal (f2c V HType (m datatype)); CRef None] m in
  let m1 := store ierr (cr_retval r) (cr_memory r) in
  status_c2f V (out r 0) status m1.

Definition mpi_file_write_shared (mfile buf count datatype status ierr : Z) (m : memory) : memory :=
  let r := c_call V "MPI_File_write_shared" [CVal (f2c V HFile (m mfile)); CVal buf; CVal count;
      CVal (f2c V HType (m datatype)); CRef None] m in
  let m1 := store ierr (cr_retval r) (cr_memory r) in
  status_c2f V (out r 0) status m1.

Definition mpi_file_write_all (mfile buf count datatype status ierr : Z) (m : memory) : memory :=
  let r := c_call V "MPI_File_write_all" [CVal (f2c V HFile (m mfile)); CVal buf; CVal count;
      CVal (f2c V HType (m datatype)); CRef None] m in
  let m1 := store ierr (cr_retval r) (cr_memory r) in
  status_c2f V (out r 0) status m1.

Definition mpi_file_read (mfile buf count datatype status ierr : Z) (m : memory) : memory :=
  let r := c_call V "MPI_File_read" [CVal (f2c V HFile (m mfile)); CVal buf; CVal count;
      CVal (f2c V HType (m datatype)); CRef None] m in
  let m1 := store ierr (cr_retval r) (cr_memory r) in
  status_c2f V (out r 0) status m1.

Definition mpi_file_read_shared (mfile buf count datatype status ierr : Z) (m : memory) : memory :=
  let r := c_call V "MPI_File_read_shared" [CVal (f2c V HFile (m mfile)); CVal buf; CVal count;
      CVal (f2c V HType (m datatype)); CRef None] m in
  let m1 := store ierr (cr_retval r) (cr_memory r) in
  status_c2f V (out r 0) status m1.

Definition mpi_file_read_ordered (mfile buf count datatype status ierr : Z) (m : memory) : memory :=
  let r := c_call V "MPI_File_read_ordered" [CVal (f2c V HFile (m mfile)); CVal buf; CVal count;
      CVal (f2c V HType (m datatype)); CRef None] m in
  let m1 := store ierr (cr_retval r) (cr_memory r) in
  status_c2f V (out r 0) status m1.

Definition mpi_file_read_all (mfile buf count datatype status ierr : Z) (m : memory) : memory :=
  let r := c_call V "MPI_File_read_all" [CVal (f2c V HFile (m mfile)); CVal buf; CVal count;
      CVal (f2c V HType (m datatype)); CRef None] m in
  let m1 := store ierr (cr_retval r) (cr_memory r) in
  status_c2f V (out r 0) status m1.

Definition mpi_file_read_at (mfile offset buf count datatype status ierr : Z) (m : memory) : memory :=
  let r := c_call V "MPI_File_read_at" [CVal (f2c V HFile (m mfile)); CVal (m offset); CVal buf; CVal count;
      CVal (f2c V HType (m datatype)); CRef None] m in
  let m1 := store ierr (cr_retval r) (cr_memory r) in
  status_c2f V (out r 0) status m1.

Definition mpi_file_read_at_all (mfile offset buf count datatype status ierr : Z) (m : memory) : memory :=
  let r := c_call V "MPI_File_read_at_all" [CVal (f2c V HFile (m mfile)); CVal (m offset); CVal buf;
      CVal count; CVal (f2c V HType (m datatype)); CRef None] m in
  let m1 := store ierr (cr_retval r) (cr_memory r) in
  status_c2f V (out r 0) status m1.

Definition mpi_file_iread_at (mfile offset buf count datatype status ierr : Z) (m : memory) : memory :=
  let r := c_call V "MPI_File_iread_at" [CVal (f2c V HFile (m mfile)); CVal (m offset); CVal buf; CVal count;
      CVal (f2c V HType (m datatype)); CRef None] m in
  let m1 := store ierr (cr_retval r) (cr_memory r) in
  status_c2f V (out r 0) status m1.

Definition mpi_file_iread_shared (mfile buf count datatype status ierr : Z) (m : memory) : memory :=
  let r := c_call V "MPI_File_iread_shared" [CVal (f2c V HFile (m mfile)); CVal buf; CVal count;
      CVal (f2c V HType (m datatype)); CRef None] m in
  let m1 := store ierr (cr_retval r) (cr_memory r) in
  status_c2f V (out r 0) status m1.

Definition mpi_file_iread (mfile buf count datatype status ierr : Z) (m : memory) : memory :=
  let r := c_call V "MPI_File_iread" [CVal (f2c V HFile (m mfile)); CVal buf; CVal count;
      CVal (f2c V HType (m datatype)); CRef None] m in
  let m1 := store ierr (cr_retval r) (cr_memory r) in
  status_c2f V (out r 0) status m1.

Definition mpi_file_iwrite_at (mfile offset buf count datatype status ierr : Z) (m : memory) : memory :=
  let r := c_call V "MPI_File_iwrite_at" [CVal (f2c V HFile (m mfile)); CVal (m offset); CVal buf; CVal count;
      CVal (f2c V HType (m datatype)); CRef None] m in
  let m1 := store ierr (cr_retval r) (cr_memory r) in
  status_c2f V (out r 0) status m1.

Definition mpi_file_iwrite (mfile buf count datatype status ierr : Z) (m : memory) : memory :=
  let r := c_call V "MPI_File_iwrite" [CVal (f2c V HFile (m mfile)); CVal buf; CVal count;
      CVal (f2c V HType (m datatype)); CRef None] m in
  let m1 := store ierr (cr_retval r) (cr_memory r) in
  status_c2f V (out r 0) status m1.

Definition mpi_file_iwrite_shared (mfile buf count datatype status ierr : Z) (m : memory) : memory :=
  let r := c_call V "MPI_File_iwrite_shared" [CVal (f2c V HFile (m mfile)); CVal buf; CVal count;
      CVal (f2c V HType (m datatype)); CRef None] m in
  let m1 := store ierr (cr_retval r) (cr_memory r) in
  status_c2f V (out r 0) status m1.

Definition mpi_file_seek (mfile offset whence ierr : Z) (m : memory) : memory :=
  let r := c_call V "MPI_File_seek" [CVal (f2c V HFile (m mfile)); CVal (m offset); CVal (m whence)] m in
  store ierr (cr_retval r) (cr_memory r).

Definition mpi_file_seek_shared (mfile offset whence ierr : Z) (m : memory) : memory :=
  let r := c_call V "MPI_File_seek_shared" [CVal (f2c V HFile (m mfile)); CVal (m offset); CVal (m whence)] m in
  store ierr (cr_retval r) (cr_memory r).

Definition mpi_file_get_position (mfile offset ierr : Z) (m : memory) : memory :=
  let r := c_call V "MPI_File_get_position" [CVal (f2c V HFile (m mfile)); CRef None] m in
  let m1 := store ierr (cr_retval r) (cr_memory r) in
  store offset (out r 0) m1.

Definition mpi_file_get_position_shared (mfile offset ierr : Z) (m : memory) : memory :=
  let r := c_call V "MPI_File_get_position_shared" [CVal (f2c V HFile (m mfile)); CRef None] m in
  let m1 := store ierr (cr_retval r) (cr_memory r) in
  store offset (out r 0) m1.

(** ** Arrays of requests, datatypes and statuses

    count is not part of an array the wrapper writes, so the loops read it once. *)
Definition load_array (p n : Z) (m : memory) : list Z := (fun i => m (p + Z.of_nat i)) <$> seq 0 (Z.to_nat n).
Fixpoint store_array (p : Z) (l : list Z) (m : memory) : memory :=
  match l with
  | [] => m
  | v :: l' => store_array (p + 1) l' (store p v m)
  end.

(** for (i=0; i<n; i++) MPI_Status_c2f(&c_status[i], &array_of_statuses[i][0]) *)
Fixpoint store_statuses (p : Z) (l : list Z) (m : memory) : memory :=
  match l with
  | [] => m
  | v :: l' => store_statuses (p + status_size V) l' (status_c2f V v p m)
  end.

(** The converted copy of an array of requests, NULL if it is empty, and the array for the statuses. *)
Definition requests_arg (array_of_requests n : Z) (m : memory) : carg :=
  if n >? 0 then CArray (f2c V HRequest <$> load_array array_of_requests n m) else CVal 0.
Definition statuses_arg (n : Z) : carg := if n >? 0 then CNewArray (Z.to_nat n) else CVal 0.

(** array_of_requests[i] = MPI_Request_c2f(l_request[i]) for i < n *)
Definition store_requests (array_of_requests n : Z) (l_request : list Z) (m : memory) : memory :=
  store_array array_of_requests (c2f V HRequest <$> take (Z.to_nat n) l_request) m.

Definition mpi_ialltoallw (sendbuf sendcounts sdispls sendtypes recvbuf recvcounts rdispls recvtypes comm request ierr : Z)
    (m : memory) : memory :=
  let group_size := comm_size V (f2c V HComm (m comm)) in
  let c_sendtypes := f2c V HType <$> load_array sendtypes group_size m in
  let c_recvtypes := f2c V HType <$> load_array recvtypes group_size m in
  let r := c_call V "MPI_Ialltoallw" [CVal sendbuf; CVal sendcounts; CVal sdispls; CArray c_sendtypes;
      CVal recvbuf; CVal recvcounts; CVal rdispls; CArray c_recvtypes; CVal (f2c V HComm (m comm)); CRef None] m in
  let m1 := store ierr (cr_retval r) (cr_memory r) in
  if m1 ierr =? MPI_SUCCESS then store request (c2f V HRequest (out r 0)) m1 else m1.

Definition mpi_waitall (count array_of_requests array_of_statuses ierr : Z) (m : memory) : memory :=
  let n := m count in
  let r := c_call V "MPI_Waitall" [CVal n; requests_arg array_of_requests n m; statuses_arg n] m in
  let m1 := store ierr (cr_retval r) (cr_memory r) in
  let m2 := store_requests array_of_requests n (out_array r 0) m1 in
  if m2 ierr =? MPI_SUCCESS then store_statuses array_of_statuses (take (Z.to_nat n) (out_array r 1)) m2 else m2.

(** One step of the loop over the requests of MPI_Waitsome and MPI_Testsome; [checks]: indices[i] >= 0 is tested. *)
Definition some_step (checks : bool) (array_of_requests array_of_indices outcount : Z) (l_request : list Z)
    (m : memory) (k : nat) : memory :=
  let i := Z.of_nat k in
  if i <? m outcount then
    let idx := m (array_of_indices + i) in
    if checks && (idx <? 0) then m
    else store (array_of_requests + idx) (c2f V HRequest (nth (Z.to_nat idx) l_request 0)) m
  else if bool_decide (i ∈ load_array array_of_indices (m outcount) m) then m
  else store (array_of_requests + i) (c2f V HRequest (nth k l_request 0)) m.

(** One step of the loop over the results. *)
Definition some_result (array_of_indices array_of_statuses : Z) (c_status : list Z) (m : memory) (k : nat) : memory :=
  let i := Z.of_nat k in
  let m1 := status_c2f V (nth k c_status 0) (array_of_statuses + status_size V * i) m in
  let idx := m1 (array_of_indices + i) in
  if idx >=? 0 then store (array_of_indices + i) (idx + 1) m1 else m1.

Definition some_completion (checks : bool) (cname : string)
    (incount array_of_requests outcount array_of_indices array_of_statuses ierr : Z) (m : memory) : memory :=
  let n := m incount in
  let r := c_call V cname [CVal n; requests_arg array_of_requests n m; CVal outcount; CVal array_of_indices;
      statuses_arg n] m in
  let m1 := store ierr (cr_retval r) (cr_memory r) in
  if m1 ierr =? MPI_SUCCESS then
    let m2 := fold_left (some_step checks array_of_requests array_of_indices outcount (out_array r 0))
                (seq 0 (Z.to_nat n)) m1 in
    fold_left (some_result array_of_indices array_of_statuses (out_array r 1)) (seq 0 (Z.to_nat (m2 outcount))) m2
  else m1.

Definition mpi_waitsome (incount array_of_requests outcount array_of_indices array_of_statuses ierr : Z) (m : memory)
  : memory :=
  some_completion true "MPI_Waitsome" incount array_of_requests outcount array_of_indices array_of_statuses ierr m.
Definition mpi_testsome (incount array_of_requests outcount array_of_indices array_of_statuses ierr : Z) (m : memory)
  : memory :=
  some_completion false "MPI_Testsome" incount array_of_requests outcount array_of_indices array_of_statuses ierr m.

Definition mpi_waitany (count array_of_requests index status ierr : Z) (m : memory) : memory :=
  let n := m count in
  let r := c_call V "MPI_Waitany" [CVal n; requests_arg array_of_requests n m; CVal index; CRef None] m in
  let m1 := store ierr (cr_retval r) (cr_memory r) in
  if m1 ierr =? MPI_SUCCESS then
    let idx := m1 index in
    let m2 := if idx >=? 0
              then store index (idx + 1)
                     (store (array_of_requests + idx) (c2f V HRequest (nth (Z.to_nat idx) (out_array r 0) 0)) m1)
              else m1 in
    status_c2f V (out r 0) status m2
  else m1.

Definition mpi_testany (count array_of_requests index flag status ierr : Z) (m : memory) : memory :=
  let n := m count in
  let r := c_call V "MPI_Testany" [CVal n; requests_arg array_of_requests n m; CVal index; CVal flag; CRef None] m in
  let m1 := store ierr (cr_retval r) (cr_memory r) in
  if m1 ierr =? MPI_SUCCESS then
    let idx := m1 index in
    let m2 := if negb (m1 flag =? 0) && (idx >=? 0)
              then store index (idx + 1)
                     (store (array_of_requests + idx) (c2f V HRequest (nth (Z.to_nat idx) (out_array r 0) 0)) m1)
              else m1 in
    status_c2f V (out r 0) status m2
  else m1.

Definition mpi_testall (count array_of_requests flag array_of_statuses ierr : Z) (m : memory) : memory :=
  let n := m count in
  let r := c_call V "MPI_Testall" [CVal n; requests_arg array_of_requests n m; CVal flag; statuses_arg n] m in
  let m1 := store ierr (cr_retval r) (cr_memory r) in
  let m2 := store_requests array_of_requests n (out_array r 0) m1 in
  if (m2 ierr =? MPI_SUCCESS) && negb (m2 flag =? 0)
  then store_statuses array_of_statuses (take (Z.to_nat n) (out_array r 1)) m2 else m2.

(** The status is stored if the address flag is not NULL. *)
Definition mpi_test (request flag status ierr : Z) (m : memory) : memory :=
  let r := c_call V "MPI_Test" [CRef (Some (f2c V HRequest (m request))); CVal flag; CRef None] m in
  let m1 := store ierr (cr_retval r) (cr_memory r) in
  if negb (m1 ierr =? MPI_SUCCESS) then m1
  else
    let m2 := store request (c2f V HRequest (out r 0)) m1 in
    if negb (flag =? 0) then status_c2f V (out r 1) status m2 else m2.

Definition mpi_startall (count array_of_requests ierr : Z) (m : memory) : memory :=
  let n := m count in
  let r := c_call V "MPI_Startall" [CVal n; requests_arg array_of_requests n m] m in
  let m1 := store ierr (cr_retval r) (cr_memory r) in
  if m1 ierr =? MPI_SUCCESS then store_requests array_of_requests n (out_array r 0) m1 else m1.

(** OSS_WRAP_FORTRAN: the names a Fortran program links with (mpi_send_,
    MPI_SEND, ...) pass their arguments on in order, but for two functions that
    exchange the sixth and the seventh. *)
Definition alias_args (name : string) (args : list Z) : list Z :=
  if String.eqb name "mpi_ialltoallv" || String.eqb name "mpi_ialltoallw" then
    match args with
    | a1 :: a2 :: a3 :: a4 :: a5 :: a6 :: a7 :: rest => a1 :: a2 :: a3 :: a4 :: a5 :: a7 :: a6 :: rest
    | _ => args
    end
  else args.

(** ** What the C prototypes ask for *)

(** A parameter of a C function as a Fortran program passes it. *)
Inductive pkind :=
| PPtr                      (* an address, passed on *)
| PInt                      (* a value *)
| PHandle (k : hkind)       (* a handle *)
| POut (k : hkind)          (* the address for a handle the function returns *)
| PInOut (k : hkind)        (* the address of a handle it replaces *)
| PRefIn (k : hkind)        (* the address of a handle it reads *)
| POutVal                   (* the address for a value, through a local variable *)
| PStatus                   (* the address for a status *)
| PStatusIn                 (* the address of a status *)
| PNull.                    (* no Fortran argument, NULL in C *)

Fixpoint marshal (ks : list pkind) (ps : list Z) (m : memory) : list carg :=
  match ks, ps with
  | PNull :: ks', _ => CVal 0 :: marshal ks' ps m
  | k :: ks', p :: ps' =>
      match k with
      | PPtr | PNull => CVal p
      | PInt => CVal (m p)
      | PHandle k => CVal (f2c V k (m p))
      | POut _ | POutVal | PStatus => CRef None
      | PInOut k | PRefIn k => CRef (Some (f2c V k (m p)))
      | PStatusIn => CRef (Some (status_f2c V p m))
      end :: marshal ks' ps' m
  | _, _ => []
  end.

(** The results of the call, stored where the program wants them. *)
Fixpoint unmarshal (ks : list pkind) (ps : list Z) (outs : list Z) (m : memory) : memory :=
  match ks, ps with
  | PNull :: ks', _ => unmarshal ks' ps outs m
  | k :: ks', p :: ps' =>
      match k with
      | POut k | PInOut k => unmarshal ks' ps' (tail outs) (store p (c2f V k (hd 0 outs)) m)
      | POutVal => unmarshal ks' ps' (tail outs) (store p (hd 0 outs) m)
      | PStatus => unmarshal ks' ps' (tail outs) (status_c2f V (hd 0 outs) p m)
      | PStatusIn | PRefIn _ => unmarshal ks' ps' (tail outs) m
      | _ => unmarshal ks' ps' outs m
      end
  | _, _ => m
  end.

(** The last argument is ierr. *)
Definition binding (cname : string) (ks : list pkind) (args : list Z) (m : memory) : memory :=
  let ps := removelast args in
  let ierr := List.last args 0 in
  let r := c_call V cname (marshal ks ps m) m in
  let m1 := store ierr (cr_retval r) (cr_memory r) in
  if cr_retval r =? MPI_SUCCESS then unmarshal ks ps (cr_outs r) m1 else m1.

(** The wrappers by name, each with its C function and the kinds of that function's parameters. *)
Definition fortran_table : list (string * (list Z -> memory -> option memory) * (string * list pkind)) :=
  [ (("mpi_iallgather", fun args m => match args with [sendbuf; sendcount; sendtype; recvbuf; recvcount; recvtype; comm; request; ierr] => Some (mpi_iallgather sendbuf sendcount sendtype recvbuf recvcount recvtype comm request ierr m) | _ => None end),
     ("MPI_Iallgather", [PPtr; PInt; PHandle HType; PPtr; PInt; PHandle HType; PHandle HComm; POut HRequest]));
    (("mpi_iallgatherv", fun args m => match args with [sendbuf; sendcount; sendtype; recvbuf; recvcounts; displs; recvtype; comm; request; ierr] => Some (mpi_iallgatherv sendbuf sendcount sendtype recvbuf recvcounts displs recvtype comm request ierr m) | _ => None end),
     ("MPI_Iallgatherv", [PPtr; PInt; PHandle HType; PPtr; PPtr; PPtr; PHandle HType; PHandle HComm; POut HRequest]));
    (("mpi_iallreduce", fun args m => match args with [sendbuf; recvbuf; count; datatype; op; comm; request; ierr] => Some (mpi_iallreduce sendbuf recvbuf count datatype op comm request ierr m) | _ => None end),
     ("MPI_Iallreduce", [PPtr; PPtr; PInt; PHandle HType; PHandle HOp; PHandle HComm; POut HRequest]));
    (("mpi_ialltoall", fun args m => match args with [sendbuf; sendcount; sendtype; recvbuf; recvcount; recvtype; comm; request; ierr] => Some (mpi_ialltoall sendbuf sendcount sendtype recvbuf recvcount recvtype comm request ierr m) | _ => None end),
     ("MPI_Ialltoall", [PPtr; PInt; PHandle HType; PPtr; PInt; PHandle HType; PHandle HComm; POut HRequest]));
    (("mpi_ialltoallv", fun args m => match args with [sendbuf; sendcounts; sdispls; sendtype; recvbuf; recvcounts; rdispls; recvtype; comm; request; ierr] => Some (mpi_ialltoallv sendbuf sendcounts sdispls sendtype recvbuf recvcounts rdispls recvtype comm request ierr m) | _ => None end),
     ("MPI_Ialltoallv", [PPtr; PPtr; PPtr; PHandle HType; PPtr; PPtr; PPtr; PHandle HType; PHandle HComm; POut HRequest]));
    (("mpi_ibarrier", fun args m => match args with [comm; request; ierr] => Some (mpi_ibarrier comm request ierr m) | _ => None end),
     ("MPI_Ibarrier", [PHandle HComm; POut HRequest]));
    (("mpi_ibcast", fun args m => match args with [buffer; count; datatype; root; comm; request; ierr] => Some (mpi_ibcast buffer count datatype root comm request ierr m) | _ => None end),
     ("MPI_Ibcast", [PPtr; PInt; PHandle HType; PInt; PHandle HComm; POut HRequest]));
    (("mpi_iexscan", fun args m => match args with [sendbuf; recvbuf; count; datatype; op; comm; request; ierr] => Some (mpi_iexscan sendbuf recvbuf count datatype op comm request ierr m) | _ => None end),
     ("MPI_Iexscan", [PPtr; PPtr; PInt; PHandle HType; PHandle HOp; PHandle HComm; POut HRequest]));
    (("mpi_igather", fun args m => match args with [sendbuf; sendcount; sendtype; recvbuf; recvcount; recvtype; root; comm; request; ierr] => Some (mpi_igather sendbuf sendcount sendtype recvbuf recvcount recvtype root comm request ierr m) | _ => None end),
     ("MPI_Igather", [PPtr; PInt; PHandle HType; PPtr; PInt; PHandle HType; PInt; PHandle HComm; POut HRequest]));
    (("mpi_igatherv", fun args m => match args with [sendbuf; sendcount; sendtype; recvbuf; recvcounts; displs; recvtype; root; comm; request; ierr] => Some (mpi_igatherv sendbuf sendcount sendtype recvbuf recvcounts displs recvtype root comm request ierr m) | _ => None end),
     ("MPI_Igatherv", [PPtr; PInt; PHandle HType; PPtr; PPtr; PPtr; PHandle HType; PInt; PHandle HComm; POut HRequest]));
    (("mpi_improbe", fun args m => match args with [source; tag; comm; flag; message; status; ierr] => Some (mpi_improbe source tag comm flag message status ierr m) | _ => None end),
     ("MPI_Improbe", [PInt; PInt; PHandle HComm; PPtr; POut HMessage; PStatus]));
    (("mpi_imrecv", fun args m => match args with [buf; count; type; message; request; ierr] => Some (mpi_imrecv buf count type message request ierr m) | _ => None end),
     ("MPI_Imrecv", [PPtr; PInt; PHandle HType; PInOut HMessage; POut HRequest]));
    (("mpi_ineighbor_allgather", fun args m => match args with [sendbuf; sendcount; sendtype; recvbuf; recvcount; recvtype; comm; request; ierr] => Some (mpi_ineighbor_allgather sendbuf sendcount sendtype recvbuf recvcount recvtype comm request ierr m) | _ => None end),
     ("MPI_Ineighbor_allgather", [PPtr; PInt; PHandle HType; PPtr; PInt; PHandle HType; PHandle HComm; POut HRequest]));
    (("mpi_ineighbor_allgatherv", fun args m => match args with [sendbuf; sendcount; sendtype; recvbuf; recvcounts; displs; recvtype; comm; request; ierr] => Some (mpi_ineighbor_allgatherv sendbuf sendcount sendtype recvbuf recvcounts displs recvtype comm request ierr m) | _ => None end),
     ("MPI_Ineighbor_allgatherv", [PPtr; PInt; PHandle HType; PPtr; PPtr; PPtr; PHandle HType; PHandle HComm; POut HRequest]));
    (("mpi_ineighbor_alltoall", fun args m => match args with [sendbuf; sendcount; sendtype; recvbuf; recvcount; recvtype; comm; request; ierr] => Some (mpi_ineighbor_alltoall sendbuf sendcount sendtype recvbuf recvcount recvtype comm request ierr m) | _ => None end),
     ("MPI_Ineighbor_alltoall", [PPtr; PInt; PHandle HType; PPtr; PInt; PHandle HType; PHandle HComm; POut HRequest]));
    (("mpi_ineighbor_alltoallv", fun args m => match args with [sendbuf; sendcounts; sdispls; sendtype; recvbuf; recvcounts; rdispls; recvtype; comm; request; ierr] => Some (mpi_ineighbor_alltoallv sendbuf sendcounts sdispls sendtype recvbuf recvcounts rdispls recvtype comm request ierr m) | _ => None end),
     ("MPI_Ineighbor_alltoallv", [PPtr; PPtr; PPtr; PHandle HType; PPtr; PPtr; PPtr; PHandle HType; PHandle HComm; POut HRequest]));
    (("mpi_ireduce", fun args m => match args with [sendbuf; recvbuf; count; datatype; op; root; comm; request; ierr] => Some (mpi_ireduce sendbuf recvbuf count datatype op root comm request ierr m) | _ => None end),
     ("MPI_Ireduce", [PPtr; PPtr; PInt; PHandle HType; PHandle HOp; PInt; PHandle HComm; POut HRequest]));
    (("mpi_ireduce_scatter", fun args m => match args with [sendbuf; recvbuf; recvcounts; datatype; op; comm; request; ierr] => Some (mpi_ireduce_scatter sendbuf recvbuf recvcounts datatype op comm request ierr m) | _ => None end),
     ("MPI_Ireduce_scatter", [PPtr; PPtr; PPtr; PHandle HType; PHandle HOp; PHandle HComm; POut HRequest]));
    (("mpi_ireduce_scatter_block", fun args m => match args with [sendbuf; recvbuf; recvcount; datatype; op; comm; request; ierr] => Some (mpi_ireduce_scatter_block sendbuf recvbuf recvcount datatype op comm request ierr m) | _ => None end),
     ("MPI_Ireduce_scatter_block", [PPtr; PPtr; PInt; PHandle HType; PHandle HOp; PHandle HComm; POut HRequest]));
    (("mpi_comm_idup", fun args m => match args with [comm; newcomm; request; ierr] => Some (mpi_comm_idup comm newcomm request ierr m) | _ => None end),
     ("MPI_Comm_idup", [PHandle HComm; POut HComm; POut HRequest]));
    (("mpi_iscan", fun args m => match args with [sendbuf; recvbuf; count; datatype; op; comm; request; ierr] => Some (mpi_iscan sendbuf recvbuf count datatype op comm request ierr m) | _ => None end),
     ("MPI_Iscan", [PPtr; PPtr; PInt; PHandle HType; PHandle HOp; PHandle HComm; POut HRequest]));
    (("mpi_iscatter", fun args m => match args with [sendbuf; sendcount; sendtype; recvbuf; recvcount; recvtype; root; comm; request; ierr] => Some (mpi_iscatter sendbuf sendcount sendtype recvbuf recvcount recvtype root comm request ierr m) | _ => None end),
     ("MPI_Iscatter", [PPtr; PInt; PHandle HType; PPtr; PInt; PHandle HType; PInt; PHandle HComm; POut HRequest]));
    (("mpi_iscatterv", fun args m => match args with [sendbuf; sendcounts; displs; sendtype; recvbuf; recvcount; recvtype; root; comm; request; ierr] => Some (mpi_iscatterv sendbuf sendcounts displs sendtype recvbuf recvcount recvtype root comm request ierr m) | _ => None end),
     ("MPI_Iscatterv", [PPtr; PPtr; PPtr; PHandle HType; PPtr; PInt; PHandle HType; PInt; PHandle HComm; POut HRequest]));
    (("mpi_irecv", fun args m => match args with [buf; count; datatype; source; tag; comm; request; ierr] => Some (mpi_irecv buf count datatype source tag comm request ierr m) | _ => None end),
     ("MPI_Irecv", [PPtr; PInt; PHandle HType; PInt; PInt; PHandle HComm; POut HRequest]));
    (("mpi_recv", fun args m => match args with [buf; count; datatype; source; tag; comm; status; ierr] => Some (mpi_recv buf count datatype source tag comm status ierr m) | _ => None end),
     ("MPI_Recv", [PPtr; PInt; PHandle HType; PInt; PInt; PHandle HComm; PStatus]));
    (("mpi_recv_init", fun args m => match args with [buf; count; datatype; source; tag; comm; request; ierr] => Some (mpi_recv_init buf count datatype source tag comm request ierr m) | _ => None end),
     ("MPI_Recv_init", [PPtr; PInt; PHandle HType; PInt; PInt; PHandle HComm; POut HRequest]));
    (("mpi_iprobe", fun args m => match args with [source; tag; comm; flag; status; ierr] => Some (mpi_iprobe source tag comm flag status ierr m) | _ => None end),
     ("MPI_Iprobe", [PInt; PInt; PHandle HComm; PPtr; PStatus]));
    (("mpi_probe", fun args m => match args with [source; tag; comm; status; ierr] => Some (mpi_probe source tag comm status ierr m) | _ => None end),
     ("MPI_Probe", [PInt; PInt; PHandle HComm; PStatus]));
    (("mpi_isend", fun args m => match args with [buf; count; datatype; dest; tag; comm; request; ierr] => Some (mpi_isend buf count datatype dest tag comm request ierr m) | _ => None end),
     ("MPI_Isend", [PPtr; PInt; PHandle HType; PInt; PInt; PHandle HComm; POut HRequest]));
    (("mpi_bsend", fun args m => match args with [buf; count; datatype; dest; tag; comm; ierr] => Some (mpi_bsend buf count datatype dest tag comm ierr m) | _ => None end),
     ("MPI_Bsend", [PPtr; PInt; PHandle HType; PInt; PInt; PHandle HComm]));
    (("mpi_bsend_init", fun args m => match args with [buf; count; datatype; dest; tag; comm; request; ierr] => Some (mpi_bsend_init buf count datatype dest tag comm request ierr m) | _ => None end),
     ("MPI_Bsend_init", [PPtr; PInt; PHandle HType; PInt; PInt; PHandle HComm; POut HRequest]));
    (("mpi_ibsend", fun args m => match args with [buf; count; datatype; dest; tag; comm; request; ierr] => Some (mpi_ibsend buf count datatype dest tag comm request ierr m) | _ => None end),
     ("MPI_Ibsend", [PPtr; PInt; PHandle HType; PInt; PInt; PHandle HComm; POut HRequest]));
    (("mpi_irsend", fun args m => match args with [buf; count; datatype; dest; tag; comm; request; ierr] => Some (mpi_irsend buf count datatype dest tag comm request ierr m) | _ => None end),
     ("MPI_Irsend", [PPtr; PInt; PHandle HType; PInt; PInt; PHandle HComm; POut HRequest]));
    (("mpi_issend", fun args m => match args with [buf; count; datatype; dest; tag; comm; request; ierr] => Some (mpi_issend buf count datatype dest tag comm request ierr m) | _ => None end),
     ("MPI_Issend", [PPtr; PInt; PHandle HType; PInt; PInt; PHandle HComm; POut HRequest]));
    (("mpi_rsend", fun args m => match args with [buf; count; datatype; dest; tag; comm; ierr] => Some (mpi_rsend buf count datatype dest tag comm ierr m) | _ => None end),
     ("MPI_Rsend", [PPtr; PInt; PHandle HType; PInt; PInt; PHandle HComm]));
    (("mpi_rsend_init", fun args m => match args with [buf; count; datatype; dest; tag; comm; request; ierr] => Some (mpi_rsend_init buf count datatype dest tag comm request ierr m) | _ => None end),
     ("MPI_Rsend_init", [PPtr; PInt; PHandle HType; PInt; PInt; PHandle HComm; POut HRequest]));
    (("mpi_send", fun args m => match args with [buf; count; datatype; dest; tag; comm; ierr] => Some (mpi_send buf count datatype dest tag comm ierr m) | _ => None end),
     ("MPI_Send", [PPtr; PInt; PHandle HType; PInt; PInt; PHandle HComm]));
    (("mpi_send_init", fun args m => match args with [buf; count; datatype; dest; tag; comm; request; ierr] => Some (mpi_send_init buf count datatype dest tag comm request ierr m) | _ => None end),
     ("MPI_Send_init", [PPtr; PInt; PHandle HType; PInt; PInt; PHandle HComm; POut HRequest]));
    (("mpi_ssend", fun args m => match args with [buf; count; datatype; dest; tag; comm; ierr] => Some (mpi_ssend buf count datatype dest tag comm ierr m) | _ => None end),
     ("MPI_Ssend", [PPtr; PInt; PHandle HType; PInt; PInt; PHandle HComm]));
    (("mpi_ssend_init", fun args m => match args with [buf; count; datatype; dest; tag; comm; request; ierr] => Some (mpi_ssend_init buf count datatype dest tag comm request ierr m) | _ => None end),
     ("MPI_Ssend_init", [PPtr; PInt; PHandle HType; PInt; PInt; PHandle HComm; POut HRequest]));
    (("mpi_finalize", fun args m => match args with [ierr] => Some (mpi_finalize ierr m) | _ => None end),
     ("MPI_Finalize", []));
    (("mpi_unpack", fun args m => match args with [inbuf; insize; position; outbuf; outcount; datatype; comm; ierr] => Some (mpi_unpack inbuf insize position outbuf outcount datatype comm ierr m) | _ => None end),
     ("MPI_Unpack", [PPtr; PInt; PPtr; PPtr; PInt; PHandle HType; PHandle HComm]));
    (("mpi_wait", fun args m => match args with [request; status; ierr] => Some (mpi_wait request status ierr m) | _ => None end),
     ("MPI_Wait", [PInOut HRequest; PStatus]));
    (("mpi_scan", fun args m => match args with [sendbuf; recvbuf; count; datatype; op; comm; ierr] => Some (mpi_scan sendbuf recvbuf count datatype op comm ierr m) | _ => None end),
     ("MPI_Scan", [PPtr; PPtr; PInt; PHandle HType; PHandle HOp; PHandle HComm]));
    (("mpi_request_free", fun args m => match args with [request; ierr] => Some (mpi_request_free request ierr m) | _ => None end),
     ("MPI_Request_free", [PInOut HRequest]));
    (("mpi_reduce_scatter", fun args m => match args with [sendbuf; recvbuf; recvcounts; datatype; op; comm; ierr] => Some (mpi_reduce_scatter sendbuf recvbuf recvcounts datatype op comm ierr m) | _ => None end),
     ("MPI_Reduce_scatter", [PPtr; PPtr; PPtr; PHandle HType; PHandle HOp; PHandle HComm]));
    (("mpi_reduce", fun args m => match args with [sendbuf; recvbuf; count; datatype; op; root; comm; ierr] => Some (mpi_reduce sendbuf recvbuf count datatype op root comm ierr m) | _ => None end),
     ("MPI_Reduce", [PPtr; PPtr; PInt; PHandle HType; PHandle HOp; PInt; PHandle HComm]));
    (("mpi_pack", fun args m => match args with [inbuf; incount; datatype; outbuf; outsize; position; comm; ierr] => Some (mpi_pack inbuf incount datatype outbuf outsize position comm ierr m) | _ => None end),
     ("MPI_Pack", [PPtr; PInt; PHandle HType; PPtr; PInt; PPtr; PHandle HComm]));
    (("mpi_init", fun args m => match args with [ierr] => Some (mpi_init ierr m) | _ => None end),
     ("MPI_Init", [PNull; PNull]));
    (("mpi_get_count", fun args m => match args with [status; datatype; count; ierr] => Some (mpi_get_count status datatype count ierr m) | _ => None end),
     ("MPI_Get_count", [PStatusIn; PHandle HType; PPtr]));
    (("mpi_gatherv", fun args m => match args with [sendbuf; sendcount; sendtype; recvbuf; recvcounts; displs; recvtype; root; comm; ierr] => Some (mpi_gatherv sendbuf sendcount sendtype recvbuf recvcounts displs recvtype root comm ierr m) | _ => None end),
     ("MPI_Gatherv", [PPtr; PInt; PHandle HType; PPtr; PPtr; PPtr; PHandle HType; PInt; PHandle HComm]));
    (("mpi_gather", fun args m => match args with [sendbuf; sendcount; sendtype; recvbuf; recvcount; recvtype; root; comm; ierr] => Some (mpi_gather sendbuf sendcount sendtype recvbuf recvcount recvtype root comm ierr m) | _ => None end),
     ("MPI_Gather", [PPtr; PInt; PHandle HType; PPtr; PInt; PHandle HType; PInt; PHandle HComm]));
    (("mpi_cancel", fun args m => match args with [request; ierr] => Some (mpi_cancel request ierr m) | _ => None end),
     ("MPI_Cancel", [PRefIn HRequest]));
    (("mpi_bcast", fun args m => match args with [buffer; count; datatype; root; comm; ierr] => Some (mpi_bcast buffer count datatype root comm ierr m) | _ => None end),
     ("MPI_Bcast", [PPtr; PInt; PHandle HType; PInt; PHandle HComm]));
    (("mpi_barrier", fun args m => match args with [comm; ierr] => Some (mpi_barrier comm ierr m) | _ => None end),
     ("MPI_Barrier", [PHandle HComm]));
    (("mpi_alltoallv", fun args m => match args with [sendbuf; sendcounts; sdispls; sendtype; recvbuf; recvcounts; rdispls; recvtype; comm; ierr] => Some (mpi_alltoallv sendbuf sendcounts sdispls sendtype recvbuf recvcounts rdispls recvtype comm ierr m) | _ => None end),
     ("MPI_Alltoallv", [PPtr; PPtr; PPtr; PHandle HType; PPtr; PPtr; PPtr; PHandle HType; PHandle HComm]));
    (("mpi_alltoall", fun args m => match args with [sendbuf; sendcount; sendtype; recvbuf; recvcount; recvtype; comm; ierr] => Some (mpi_alltoall sendbuf sendcount sendtype recvbuf recvcount recvtype comm ierr m) | _ => None end),
     ("MPI_Alltoall", [PPtr; PInt; PHandle HType; PPtr; PInt; PHandle HType; PHandle HComm]));
    (("mpi_allreduce", fun args m => match args with [sendbuf; recvbuf; count; datatype; op; comm; ierr] => Some (mpi_allreduce sendbuf recvbuf count datatype op comm ierr m) | _ => None end),
     ("MPI_Allreduce", [PPtr; PPtr; PInt; PHandle HType; PHandle HOp; PHandle HComm]));
    (("mpi_allgatherv", fun args m => match args with [sendbuf; sendcount; sendtype; recvbuf; recvcounts; displs; recvtype; comm; ierr] => Some (mpi_allgatherv sendbuf sendcount sendtype recvbuf recvcounts displs recvtype comm ierr m) | _ => None end),
     ("MPI_Allgatherv", [PPtr; PInt; PHandle HType; PPtr; PPtr; PPtr; PHandle HType; PHandle HComm]));
    (("mpi_allgather", fun args m => match args with [sendbuf; sendcount; sendtype; recvbuf; recvcount; recvtype; comm; ierr] => Some (mpi_allgather sendbuf sendcount sendtype recvbuf recvcount recvtype comm ierr m) | _ => None end),
     ("MPI_Allgather", [PPtr; PInt; PHandle HType; PPtr; PInt; PHandle HType; PHandle HComm]));
    (("mpi_scatter", fun args m => match args with [sendbuf; sendcount; sendtype; recvbuf; recvcount; recvtype; root; comm; ierr] => Some (mpi_scatter sendbuf sendcount sendtype recvbuf recvcount recvtype root comm ierr m) | _ => None end),
     ("MPI_Scatter", [PPtr; PInt; PHandle HType; PPtr; PInt; PHandle HType; PInt; PHandle HComm]));
    (("mpi_scatterv", fun args m => match args with [sendbuf; sendcounts; displs; sendtype; recvbuf; recvcount; recvtype; root; comm; ierr] => Some (mpi_scatterv sendbuf sendcounts displs sendtype recvbuf recvcount recvtype root comm ierr m) | _ => None end),
     ("MPI_Scatterv", [PPtr; PPtr; PPtr; PHandle HType; PPtr; PInt; PHandle HType; PInt; PHandle HComm]));
    (("mpi_sendrecv", fun args m => match args with [sendbuf; sendcount; sendtype; dest; sendtag; recvbuf; recvcount; recvtype; source; recvtag; comm; status; ierr] => Some (mpi_sendrecv sendbuf sendcount sendtype dest sendtag recvbuf recvcount recvtype source recvtag comm status ierr m) | _ => None end),
     ("MPI_Sendrecv", [PPtr; PInt; PHandle HType; PInt; PInt; PPtr; PInt; PHandle HType; PInt; PInt; PHandle HComm; PStatus]));
    (("mpi_sendrecv_replace", fun args m => match args with [buf; count; datatype; dest; sendtag; source; recvtag; comm; status; ierr] => Some (mpi_sendrecv_replace buf count datatype dest sendtag source recvtag comm status ierr m) | _ => None end),
     ("MPI_Sendrecv_replace", [PPtr; PInt; PHandle HType; PInt; PInt; PInt; PInt; PHandle HComm; PStatus]));
    (("mpi_intercomm_create", fun args m => match args with [local_comm; local_leader; peer_comm; remote_leader; tag; newintercomm; ierr] => Some (mpi_intercomm_create local_comm local_leader peer_comm remote_leader tag newintercomm ierr m) | _ => None end),
     ("MPI_Intercomm_create", [PHandle HComm; PInt; PHandle HComm; PInt; PInt; POut HComm]));
    (("mpi_intercomm_merge", fun args m => match args with [intercomm; high; newcomm; ierr] => Some (mpi_intercomm_merge intercomm high newcomm ierr m) | _ => None end),
     ("MPI_Intercomm_merge", [PHandle HComm; PInt; POut HComm]));
    (("mpi_comm_free", fun args m => match args with [comm; ierr] => Some (mpi_comm_free comm ierr m) | _ => None end),
     ("MPI_Comm_free", [PInOut HComm]));
    (("mpi_comm_dup", fun args m => match args with [comm; newcomm; ierr] => Some (mpi_comm_dup comm newcomm ierr m) | _ => None end),
     ("MPI_Comm_dup", [PHandle HComm; POut HComm]));
    (("mpi_comm_create", fun args m => match args with [comm; group; newcomm; ierr] => Some (mpi_comm_create comm group newcomm ierr m) | _ => None end),
     ("MPI_Comm_create", [PHandle HComm; PHandle HGroup; POut HComm]));
    (("mpi_comm_split", fun args m => match args with [comm; color; key; newcomm; ierr] => Some (mpi_comm_split comm color key newcomm ierr m) | _ => None end),
     ("MPI_Comm_split", [PHandle HComm; PInt; PInt; POut HComm]));
    (("mpi_start", fun args m => match args with [request; ierr] => Some (mpi_start request ierr m) | _ => None end),
     ("MPI_Start", [PInOut HRequest]));
    (("mpi_file_open", fun args m => match args with [comm; filename; amode; info; mfile; ierr] => Some (mpi_file_open comm filename amode info mfile ierr m) | _ => None end),
     ("MPI_File_open", [PHandle HComm; PPtr; PInt; PHandle HInfo; POut HFile]));
    (("mpi_file_close", fun args m => match args with [mfile; ierr] => Some (mpi_file_close mfile ierr m) | _ => None end),
     ("MPI_File_close", [PInOut HFile]));
    (("mpi_file_delete", fun args m => match args with [filename; info; ierr] => Some (mpi_file_delete filename info ierr m) | _ => None end),
     ("MPI_File_delete", [PPtr; PHandle HInfo]));
    (("mpi_file_set_size", fun args m => match args with [mfile; size; ierr] => Some (mpi_file_set_size mfile size ierr m) | _ => None end),
     ("MPI_File_set_size", [PHandle HFile; PInt]));
    (("mpi_file_get_size", fun args m => match args with [mfile; size; ierr] => Some (mpi_file_get_size mfile size ierr m) | _ => None end),
     ("MPI_File_get_size", [PHandle HFile; PPtr]));
    (("mpi_file_get_group", fun args m => match args with [mfile; group; ierr] => Some (mpi_file_get_group mfile group ierr m) | _ => None end),
     ("MPI_File_get_group", [PHandle HFile; POut HGroup]));
    (("mpi_file_get_info", fun args m => match args with [mfile; info; ierr] => Some (mpi_file_get_info mfile info ierr m) | _ => None end),
     ("MPI_File_get_info", [PHandle HFile; POut HInfo]));
    (("mpi_file_get_view", fun args m => match args with [mfile; offset; etype; filetype; datarep; ierr] => Some (mpi_file_get_view mfile offset etype filetype datarep ierr m) | _ => None end),
     ("MPI_File_get_view", [PHandle HFile; PPtr; POut HType; POut HType; PPtr]));
    (("mpi_file_set_view", fun args m => match args with [mfile; offset; etype; filetype; datarep; info; ierr] => Some (mpi_file_set_view mfile offset etype filetype datarep info ierr m) | _ => None end),
     ("MPI_File_set_view", [PHandle HFile; PInt; PHandle HType; PHandle HType; PPtr; PHandle HInfo]));
    (("mpi_file_get_amode", fun args m => match args with [mfile; amode; ierr] => Some (mpi_file_get_amode mfile amode ierr m) | _ => None end),
     ("MPI_File_get_amode", [PHandle HFile; PPtr]));
    (("mpi_file_set_info", fun args m => match args with [mfile; info; ierr] => Some (mpi_file_set_info mfile info ierr m) | _ => None end),
     ("MPI_File_set_info", [PHandle HFile; PHandle HInfo]));
    (("mpi_file_write", fun args m => match args with [mfile; buf; count; datatype; status; ierr] => Some (mpi_file_write mfile buf count datatype status ierr m) | _ => None end),
     ("MPI_File_write", [PHandle HFile; PPtr; PInt; PHandle HType; PStatus]));
    (("mpi_file_write_at", fun args m => match args with [mfile; offset; buf; count; datatype; status; ierr] => Some (mpi_file_write_at mfile offset buf count datatype status ierr m) | _ => None end),
     ("MPI_File_write_at", [PHandle HFile; PInt; PPtr; PInt; PHandle HType; PStatus]));
    (("mpi_file_write_at_all", fun args m => match args with [mfile; offset; buf; count; datatype; status; ierr] => Some (mpi_file_write_at_all mfile offset buf count datatype status ierr m) | _ => None end),
     ("MPI_File_write_at_all", [PHandle HFile; PInt; PPtr; PInt; PHandle HType; PStatus]));
    (("mpi_file_write_ordered", fun args m => match args with [mfile; buf; count; datatype; status; ierr] => Some (mpi_file_write_ordered mfile buf count datatype status ierr m) | _ => None end),
     ("MPI_File_write_ordered", [PHandle HFile; PPtr; PInt; PHandle HType; PStatus]));
    (("mpi_file_write_shared", fun args m => match args with [mfile; buf; count; datatype; status; ierr] => Some (mpi_file_write_shared mfile buf count datatype status ierr m) | _ => None end),
     ("MPI_File_write_shared", [PHandle HFile; PPtr; PInt; PHandle HType; PStatus]));
    (("mpi_file_write_all", fun args m => match args with [mfile; buf; count; datatype; status; ierr] => Some (mpi_file_write_all mfile buf count datatype status ierr m) | _ => None end),
     ("MPI_File_write_all", [PHandle HFile; PPtr; PInt; PHandle HType; PStatus]));
    (("mpi_file_read", fun args m => match args with [mfile; buf; count; datatype; status; ierr] => Some (mpi_file_read mfile buf count datatype status ierr m) | _ => None end),
     ("MPI_File_read", [PHandle HFile; PPtr; PInt; PHandle HType; PStatus]));
    (("mpi_file_read_shared", fun args m => match args with [mfile; buf; count; datatype; status; ierr] => Some (mpi_file_read_shared mfile buf count datatype status ierr m) | _ => None end),
     ("MPI_File_read_shared", [PHandle HFile; PPtr; PInt; PHandle HType; PStatus]));
    (("mpi_file_read_ordered", fun args m => match args with [mfile; buf; count; datatype; status; ierr] => Some (mpi_file_read_ordered mfile buf count datatype status ierr m) | _ => None end),
     ("MPI_File_read_ordered", [PHandle HFile; PPtr; PInt; PHandle HType; PStatus]));
    (("mpi_file_read_all", fun args m => match args with [mfile; buf; count; datatype; status; ierr] => Some (mpi_file_read_all mfile buf count datatype status ierr m) | _ => None end),
     ("MPI_File_read_all", [PHandle HFile; PPtr; PInt; PHandle HType; PStatus]));
    (("mpi_file_read_at", fun args m => match args with [mfile; offset; buf; count; datatype; status; ierr] => Some (mpi_file_read_at mfile offset buf count datatype status ierr m) | _ => None end),
     ("MPI_File_read_at", [PHandle HFile; PInt; PPtr; PInt; PHandle HType; PStatus]));
    (("mpi_file_read_at_all", fun args m => match args with [mfile; offset; buf; count; datatype; status; ierr] => Some (mpi_file_read_at_all mfile offset buf count datatype status ierr m) | _ => None end),
     ("MPI_File_read_at_all", [PHandle HFile; PInt; PPtr; PInt; PHandle HType; PStatus]));
    (("mpi_file_iread_at", fun args m => match args with [mfile; offset; buf; count; datatype; status; ierr] => Some (mpi_file_iread_at mfile offset buf count datatype status ierr m) | _ => None end),
     ("MPI_File_iread_at", [PHandle HFile; PInt; PPtr; PInt; PHandle HType; POut HRequest]));
    (("mpi_file_iread_shared", fun args m => match args with [mfile; buf; count; datatype; status; ierr] => Some (mpi_file_iread_shared mfile buf count datatype status ierr m) | _ => None end),
     ("MPI_File_iread_shared", [PHandle HFile; PPtr; PInt; PHandle HType; POut HRequest]));
    (("mpi_file_iread", fun args m => match args with [mfile; buf; count; datatype; status; ierr] => Some (mpi_file_iread mfile buf count datatype status ierr m) | _ => None end),
     ("MPI_File_iread", [PHandle HFile; PPtr; PInt; PHandle HType; POut HRequest]));
    (("mpi_file_iwrite_at", fun args m => match args with [mfile; offset; buf; count; datatype; status; ierr] => Some (mpi_file_iwrite_at mfile offset buf count datatype status ierr m) | _ => None end),
     ("MPI_File_iwrite_at", [PHandle HFile; PInt; PPtr; PInt; PHandle HType; POut HRequest]));
    (("mpi_file_iwrite", fun args m => match args with [mfile; buf; count; datatype; status; ierr] => Some (mpi_file_iwrite mfile buf count datatype status ierr m) | _ => None end),
     ("MPI_File_iwrite", [PHandle HFile; PPtr; PInt; PHandle HType; POut HRequest]));
    (("mpi_file_iwrite_shared", fun args m => match args with [mfile; buf; count; datatype; status; ierr] => Some (mpi_file_iwrite_shared mfile buf count datatype status ierr m) | _ => None end),
     ("MPI_File_iwrite_shared", [PHandle HFile; PPtr; PInt; PHandle HType; POut HRequest]));
    (("mpi_file_seek", fun args m => match args with [mfile; offset; whence; ierr] => Some (mpi_file_seek mfile offset whence ierr m) | _ => None end),
     ("MPI_File_seek", [PHandle HFile; PInt; PInt]));
    (("mpi_file_seek_shared", fun args m => match args with [mfile; offset; whence; ierr] => Some (mpi_file_seek_shared mfile offset whence ierr m) | _ => None end),
     ("MPI_File_seek_shared", [PHandle HFile; PInt; PInt]));
    (("mpi_file_get_position", fun args m => match args with [mfile; offset; ierr] => Some (mpi_file_get_position mfile offset ierr m) | _ => None end),
     ("MPI_File_get_position", [PHandle HFile; POutVal]));
    (("mpi_file_get_position_shared", fun args m => match args with [mfile; offset; ierr] => Some (mpi_file_get_position_shared mfile offset ierr m) | _ => None end),
     ("MPI_File_get_position_shared", [PHandle HFile; POutVal]));
    (("mpi_test", fun args m => match args with [request; flag; status; ierr] => Some (mpi_test request flag status ierr m) | _ => None end),
     ("MPI_Test", [PInOut HRequest; PPtr; PStatus])) ].

End bindings.

(** The bindings that do not convert their arguments as the C function needs. *)
Definition misbound : list string :=
  ["mpi_ialltoallv"; "mpi_ibarrier"; "mpi_improbe"; "mpi_imrecv"; "mpi_ineighbor_allgather"; "mpi_ineighbor_allgatherv";
   "mpi_ineighbor_alltoall"; "mpi_ineighbor_alltoallv"; "mpi_iscatterv"; "mpi_recv_init"; "mpi_unpack"; "mpi_get_count";
   "mpi_alltoallv"; "mpi_file_delete"; "mpi_file_set_size"; "mpi_file_set_view"; "mpi_file_write"; "mpi_file_write_at";
   "mpi_file_write_at_all"; "mpi_file_write_ordered"; "mpi_file_write_shared"; "mpi_file_write_all"; "mpi_file_read";
   "mpi_file_read_shared"; "mpi_file_read_ordered"; "mpi_file_read_all"; "mpi_file_read_at"; "mpi_file_read_at_all";
   "mpi_file_iread_at"; "mpi_file_iread_shared"; "mpi_file_iread"; "mpi_file_iwrite_at"; "mpi_file_iwrite";
   "mpi_file_iwrite_shared"].

Lemma store_same p v m : store p v m p = v.
Proof. unfold store. by rewrite Z.eqb_refl. Qed.

Lemma store_other p v m x : x <> p -> store p v m x = m x.
Proof. unfold store. intros H. by rewrite (proj2 (Z.eqb_neq x p)). Qed.

Lemma store_swap p q v v' m x : p <> q -> store p v (store q v' m) x = store q v' (store p v m) x.
Proof. unfold store. intros H. destruct (x =? p) eqn:E1, (x =? q) eqn:E2; bools; congruence. Qed.

(** The C functions succeed. *)
Definition succeeds (V : mpi_c) : Prop := forall name args m, cr_retval (c_call V name args m) = MPI_SUCCESS.

Definition entry := (string * (list Z -> memory -> option memory) * (string * list pkind))%type.
Definition converts (V : mpi_c) (e : entry) : Prop :=
  e.1.1 ∉ misbound -> forall args m m', NoDup args -> 0 ∉ args ->
  e.1.2 (alias_args e.1.1 args) m = Some m' ->
  forall x, m' x = binding V e.2.1 e.2.2 args m x.

(** One binding: its body and the reference make the same call and store the same results. *)
Ltac head_of t := lazymatch t with ?f _ => head_of f | _ => t end.
Ltac same_binding Hs :=
  match goal with |- ?lhs = _ => let f := head_of lhs in unfold f end; unfold binding; cbv zeta;
  cbn [removelast List.last marshal unmarshal]; set (r := c_call _ _ _ _);
  assert (Hr : cr_retval r = MPI_SUCCESS) by apply Hs; rewrite !Hr, ?store_same; cbn [Z.eqb MPI_SUCCESS];
  unfold out; clearbody r; destruct (cr_outs r) as [|o1 [|o2 outs]]; cbn [nth hd tail];
  rewrite ?store_same.

Ltac binding_entry Hs :=
  let Hn := fresh "Hn" in let args := fresh "args" in let H := fresh "H" in
  intros Hn args ? ? Hdup Hnz H x; cbn [fst snd alias_args] in *;
  try (exfalso; apply Hn; apply (bool_decide_unpack _); vm_compute; exact I);
  change (alias_args _ args) with args in H;
  repeat (destruct args as [|? args]; try discriminate H); injection H as <-.

(** Two of the arguments are different. *)
Lemma distinct_args (args : list Z) i j p q :
  NoDup args -> args !! i = Some p -> args !! j = Some q -> i <> j -> p <> q.
Proof. intros Hd Hp Hq Hij ->. by pose proof (NoDup_lookup args i j q Hd Hp Hq). Qed.

Lemma fortran_table_converts V : succeeds V -> Forall (converts V) (fortran_table V).
Proof.
  intros Hs. unfold fortran_table.
  repeat (apply Forall_cons; split; [binding_entry Hs; try (by same_binding Hs)|]); [..|by apply Forall_nil].
  - pose proof (distinct_args _ 1 2 _ _ Hdup eq_refl eq_refl ltac:(done)).
    pose proof (distinct_args _ 3 2 _ _ Hdup eq_refl eq_refl ltac:(done)).
    same_binding Hs; rewrite (store_other z1 _ _ z2), store_same by done; cbn [Z.eqb MPI_SUCCESS]; by rewrite store_swap.
  - pose proof (distinct_args _ 2 0 _ _ Hdup eq_refl eq_refl ltac:(done)).
    same_binding Hs; by rewrite (store_other z _ _ z1), store_same.
  - pose proof (distinct_args _ 2 3 _ _ Hdup eq_refl eq_refl ltac:(done)).
    same_binding Hs; by rewrite store_swap.
  - assert (z0 <> 0) by (intros ->; apply Hnz; set_solver).
    same_binding Hs; by rewrite (proj2 (Z.eqb_neq z0 0)).
Qed.

(** C36: when the C function succeeds, each of the 71 Fortran bindings of [fortran_table] that is
    not listed as misbound leaves the memory as the reference binding does: it calls
    the C wrapper its name stands for with every argument converted as the C
    prototype asks for (values read, handles translated, buffers passed on),
    stores 0 in ierr, and stores every handle and status that comes back,
    translated, where the program wants it. Nine bindings that take arrays of
    handles (the waits and tests of several requests, mpi_startall, mpi_ialltoallw and
    mpi_ineighbor_alltoallw) are not in the table. *)
Theorem fortran_bindings_convert (V : mpi_c) (name cname : string) (f : list Z -> memory -> option memory)
    (ks : list pkind) (args : list Z) (m m' : memory) :
  succeeds V -> ((name, f), (cname, ks)) ∈ fortran_table V -> name ∉ misbound ->
  NoDup args -> 0 ∉ args -> f (alias_args name args) m = Some m' ->
  forall x, m' x = binding V cname ks args m x.
Proof.
  intros Hs Hin Hn Hd H0 Hf. pose proof (fortran_table_converts V Hs) as H. rewrite Forall_forall in H.
  by apply (H _ Hin).
Qed.

(** ** The misbound ones

    An MPI library that succeeds, leaves a trace of the call at address 0 and has
    conversions that can be told apart. *)
Definition trace_of (l : list Z) : Z := fold_left (fun a v => a * 100003 + v + 7) l 1.
Definition trace_arg (a : carg) : Z :=
  match a with
  | CVal v => 10 * v + 1
  | CRef None => 2
  | CRef (Some v) => 10 * v + 3
  | CArray l => 10 * trace_of l + 4
  | CNewArray n => 10 * Z.of_nat n + 5
  end.
Definition trace_name (s : string) : Z :=
  trace_of ((fun c => Z.of_nat (Ascii.nat_of_ascii c)) <$> String.list_ascii_of_string s).
Definition kind_code (k : hkind) : Z :=
  match k with
  | HType => 1 | HComm => 2 | HOp => 3 | HRequest => 4 | HMessage => 5 | HFile => 6 | HInfo => 7 | HGroup => 8
  end.
Definition recording_c : mpi_c :=
  mkMpiC (fun name args m => mkResult MPI_SUCCESS [501; 502; 503] []
            (store 0 (trace_of (trace_name name :: (trace_arg <$> args))) m))
    (fun k v => 1000 * kind_code k + v) (fun k v => 20000 * kind_code k + v)
    (fun v p m => store p (v + 7) m) (fun p m => m p + 9) 5 (fun _ => 2).

Definition example_memory : memory := fun x => 300 + x.
Definition arity (ks : list pkind) : nat :=
  S (length (List.filter (fun k => match k with PNull => false | _ => true end) ks)).

(** Some cell among the first twenty is not what the reference stores. *)
Definition differs (e : entry) : bool :=
  let args := Z.of_nat <$> seq 1 (arity e.2.2) in
  match e.1.2 (alias_args e.1.1 args) example_memory with
  | Some m => existsb (fun x => negb (m x =? binding recording_c e.2.1 e.2.2 args example_memory x)) (Z.of_nat <$> seq 0 20)
  | None => false
  end.

Lemma misbound_differ :
  forallb (fun e => implb (bool_decide (e.1.1 ∈ misbound)) (differs e)) (fortran_table recording_c) = true.
Proof. vm_compute. reflexivity. Qed.

(** Each of the 34 misbound Fortran bindings goes wrong: there are a program
    with distinct arguments and an MPI library that succeeds for which memory
    after the call is not what the reference binding leaves. Among them are all
    file reads and writes, which pass the address of count as the count, and the
    neighbourhood collectives, which call the collectives over the whole
    communicator. *)
Theorem fortran_misbound (name cname : string) (f : list Z -> memory -> option memory) (ks : list pkind) :
  ((name, f), (cname, ks)) ∈ fortran_table recording_c -> name ∈ misbound ->
  exists args m m' x, NoDup args /\ 0 ∉ args /\ f (alias_args name args) m = Some m' /\
    m' x <> binding recording_c cname ks args m x.
Proof.
  intros Hin Hn. pose proof (proj1 (forallb_forall _ _) misbound_differ _ (proj1 (list_elem_of_In _ _) Hin)) as H.
  cbn [fst snd] in H. rewrite bool_decide_true in H by done. cbn [implb] in H. unfold differs in H. cbn [fst snd] in H.
  set (args := Z.of_nat <$> seq 1 (arity ks)) in *. exists args, example_memory.
  destruct (f (alias_args name args) example_memory) as [m'|]; [|done].
  apply existsb_exists in H as (x & _ & Hx). exists m', x. bools. split_and!; try done.
  - apply NoDup_fmap; [|apply NoDup_seq]. intros i j. lia.
  - intros (i & Hi & Hs)%list_elem_of_fmap. apply elem_of_seq in Hs. lia.
Qed.

(** ** Arrays of requests *)

Lemma store_array_lookup l : forall p m x,
  store_array p l m x = if (p <=? x) && (x <? p + Z.of_nat (length l)) then nth (Z.to_nat (x - p)) l 0 else m x.
Proof.
  induction l as [|v l IH]; intros p m x.
  - cbn [store_array length]. destruct ((p <=? x) && _) eqn:E; [bools; lia|done].
  - cbn [store_array]. rewrite IH. simpl length. destruct (decide (x = p)) as [->|Hx].
    + rewrite (proj2 (Z.leb_gt (p + 1) p)) by lia. cbn [andb].
      by rewrite (proj2 (Z.leb_le p p)), (proj2 (Z.ltb_lt p _)), store_same, Z.sub_diag by lia.
    + rewrite store_other by done. destruct (p <=? x) eqn:E1, (x <? p + Z.of_nat (S (length l))) eqn:E2; bools.
      * rewrite (proj2 (Z.leb_le (p + 1) x)), (proj2 (Z.ltb_lt x _)) by lia.
        by replace (Z.to_nat (x - p)) with (S (Z.to_nat (x - (p + 1)))) by lia.
      * by rewrite (proj2 (Z.ltb_ge x _)), andb_false_r by lia.
      * by rewrite (proj2 (Z.leb_gt (p + 1) x)) by lia.
      * by rewrite (proj2 (Z.leb_gt (p + 1) x)) by lia.
Qed.

(** Starting persistent requests stores every converted request and nothing else. *)
Lemma mpi_startall_stores V count array_of_requests ierr m l x :
  let r := c_call V "MPI_Startall" [CVal (m count); requests_arg V array_of_requests (m count) m] m in
  cr_retval r = MPI_SUCCESS -> out_array r 0 = l -> Z.of_nat (length l) = m count ->
  mpi_startall V count array_of_requests ierr m x =
    if (array_of_requests <=? x) && (x <? array_of_requests + m count)
    then c2f V HRequest (nth (Z.to_nat (x - array_of_requests)) l 0)
    else store ierr MPI_SUCCESS (cr_memory r) x.
Proof.
  intros r Hr Hl Hn. unfold mpi_startall. fold r. rewrite Hr, store_same, Hl. cbn [Z.eqb MPI_SUCCESS].
  unfold store_requests. rewrite store_array_lookup, length_fmap, take_ge by lia. rewrite Hn.
  destruct ((array_of_requests <=? x) && _) eqn:E; [|done].
  rewrite (nth_indep _ _ (c2f V HRequest 0)) by (rewrite length_fmap; lia). apply (map_nth (c2f V HRequest)).
Qed.

(** MPI_Waitany counts from 0 in C and from 1 in Fortran: the program reads the C
    index plus one, and finds the converted request in its array at that place. *)
Lemma mpi_waitany_index V count array_of_requests index status ierr m :
  let r := c_call V "MPI_Waitany" [CVal (m count); requests_arg V array_of_requests (m count) m; CVal index; CRef None] m in
  cr_retval r = MPI_SUCCESS -> index <> ierr -> 0 <= cr_memory r index ->
  index <> array_of_requests + cr_memory r index ->
  (forall v p m x, x = index \/ x = array_of_requests + cr_memory r index -> status_c2f V v p m x = m x) ->
  let m' := mpi_waitany V count array_of_requests index status ierr m in
  m' index = cr_memory r index + 1 /\
  m' (array_of_requests + (m' index - 1)) = c2f V HRequest (nth (Z.to_nat (cr_memory r index)) (out_array r 0) 0).
Proof.
  intros r Hr Hi Hge Hne Hst. unfold mpi_waitany. fold r. rewrite Hr, store_same, store_other by done. cbn [Z.eqb MPI_SUCCESS].
  replace (_ >=? 0) with true by lia. rewrite Hst by auto. rewrite store_same. split; [done|].
  replace (array_of_requests + (cr_memory r index + 1 - 1)) with (array_of_requests + cr_memory r index) by lia.
  by rewrite Hst, store_other, store_same by auto.
Qed.

(** MPI_Isend: the request the C function returned arrives converted. *)
Lemma fortran_bindings_convert_witness :
  mpi_isend recording_c 1 2 3 4 5 6 7 8 example_memory 7 = 80501.
Proof.
  rewrite (fortran_bindings_convert recording_c "mpi_isend" "MPI_Isend"
    (fun args m => match args with
       [buf; count; datatype; dest; tag; comm; request; ierr] =>
         Some (mpi_isend recording_c buf count datatype dest tag comm request ierr m) | _ => None end)
    [PPtr; PInt; PHandle HType; PInt; PInt; PHandle HComm; POut HRequest] [1; 2; 3; 4; 5; 6; 7; 8] example_memory
    (mpi_isend recording_c 1 2 3 4 5 6 7 8 example_memory)).
  - vm_compute. reflexivity.
  - by intros name args m.
  - apply list_elem_of_In. unfold fortran_table. repeat first [left; reflexivity | right].
  - apply (bool_decide_unpack _). vm_compute. exact I.
  - apply (bool_decide_unpack _). vm_compute. exact I.
  - apply (bool_decide_unpack _). vm_compute. exact I.
  - reflexivity.
Defined.

Lemma fortran_misbound_witness :
  exists args m m' x, NoDup args /\ 0 ∉ args /\
    match args with
    | [mfile; buf; count; datatype; status; ierr] => Some (mpi_file_write recording_c mfile buf count datatype status ierr m)
    | _ => None
    end = Some m' /\
    m' x <> binding recording_c "MPI_File_write" [PHandle HFile; PPtr; PInt; PHandle HType; PStatus] args m x.
Proof.
  destruct (fortran_misbound "mpi_file_write" "MPI_File_write"
    (fun args m => match args with
       [mfile; buf; count; datatype; status; ierr] =>
         Some (mpi_file_write recording_c mfile buf count datatype status ierr m) | _ => None end)
    [PHandle HFile; PPtr; PInt; PHandle HType; PStatus]) as (args & m & m' & x & H1 & H2 & H3 & H4).
  - apply list_elem_of_In. unfold fortran_table. repeat first [left; reflexivity | right].
  - apply (bool_decide_unpack _). vm_compute. exact I.
  - exists args, m, m', x. split; [exact H1|]. split; [exact H2|]. split; [exact H3|exact H4].
Defined.
