(* ===== verification/IO.v ===== *)
(** The io collector (collectors/io/collector.c, wrappers.c) in its trace and profile
    builds (io, iop): the tracing collector of Tracer.v with its constants and its
    start, and the wrappers of the eighteen file functions. The wrappers are
    described once for all builds; the extended trace, which also records the
    arguments and the name of the file, is in IOT.v. *)
From S2P Require Import Prelude Probe PCIndex Headers Services Unwind StackBuffer TraceBuffer Tracer Profile.

(** CBTF_io_event but for the position of its stack trace. *)
Record io_event := mkIOEvent { ie_start_time : Z; ie_stop_time : Z }.
Definition zero_io : io_event := mkIOEvent 0 0.

Definition traceable : string :=
  "close,creat,creat64,dup,dup2,lseek,lseek64,open,open64,pipe,pread,pread64,pwrite,pwrite64,read,readv,write,writev".

Definition io (a : arch) : tracer :=
  mkTracer "io" 1 64 (CBTF_BlobSizeFactor a * 384) (CBTF_BlobSizeFactor a * 415) false "CBTF_IO_TRACED" traceable false.
Definition io_store (a : arch) : store io_event (trace_buffer io_event) (trace_data io_event) :=
  trace_store (io a) zero_io.

(** The profile build; a record is the time a call took. *)
Definition iop (a : arch) : tracer :=
  mkTracer "iop" 2 100 (CBTF_BlobSizeFactor a * 512) 0 false "CBTF_IO_TRACED" traceable false.
Definition iop_event (start stop : Z) : Z := u64 (stop - start).
Definition iop_store (a : arch) : store Z profile_buffer profile_data :=
  profile_store (tr_stack_size (iop a)) (fun time => time).

(** ** The wrappers

    Where the extended trace finds the name of the file: in an argument, or
    through the link /proc/self/fd/<fd>, which close reads before the real close. *)
Inductive path_source :=
| PathNone
| PathArg (pathname : Z)
| PathFd (fd : Z)
| PathFdBefore (fd : Z).

(** A call of a wrapper: the function (do_trace is asked for its name, dlsym for
    the real function of that name), its arguments, and for the extended trace
    the system call with the arguments recorded and the source of the path. *)
Record io_call := mkIO {
  io_name : string;
  io_args : list Z;
  io_syscall : string;
  io_sysargs : list Z;
  io_path : path_source
}.

Definition read (fd buf count : Z) : io_call :=
  mkIO "read" [fd; buf; count] "SYS_read" [fd; buf; count] (PathFd fd).
Definition write (fd buf count : Z) : io_call :=
  mkIO "write" [fd; buf; count] "SYS_write" [fd; buf; count] (PathFd fd).
Definition lseek (fd offset whence : Z) : io_call :=
  mkIO "lseek" [fd; offset; whence] "SYS_lseek" [fd; offset; whence] (PathFd fd).
Definition lseek64 (fd offset whence : Z) : io_call :=
  mkIO "lseek64" [fd; offset; whence] "SYS_lseek" [fd; offset; whence] (PathFd fd).
Definition open (pathname flags mode : Z) : io_call :=
  mkIO "open" [pathname; flags; mode] "SYS_open" [pathname; flags; mode] (PathArg pathname).
Definition open64 (pathname flags mode : Z) : io_call :=
  mkIO "open64" [pathname; flags; mode] "SYS_open" [pathname; flags; mode] (PathArg pathname).
Definition close (fd : Z) : io_call :=
  mkIO "close" [fd] "SYS_close" [fd] (PathFdBefore fd).
Definition dup (oldfd : Z) : io_call :=
  mkIO "dup" [oldfd] "SYS_dup" [oldfd] (PathFd oldfd).
Definition dup2 (oldfd newfd : Z) : io_call :=
  mkIO "dup2" [oldfd; newfd] "SYS_dup2" [oldfd; newfd] (PathFd oldfd).
Definition creat (pathname mode : Z) : io_call :=
  mkIO "creat" [pathname; mode] "SYS_creat" [pathname; mode] (PathArg pathname).
Definition creat64 (pathname mode : Z) : io_call :=
  mkIO "creat64" [pathname; mode] "SYS_creat" [pathname; mode] (PathArg pathname).
Definition pipe (filedes : Z) : io_call :=
  mkIO "pipe" [filedes] "SYS_pipe" [filedes] PathNone.
Definition pread (fd buf count offset : Z) : io_call :=
  mkIO "pread" [fd; buf; count; offset] "SYS_pread" [fd; buf; count; offset] PathNone.
Definition pread64 (fd buf count offset : Z) : io_call :=
  mkIO "pread64" [fd; buf; count; offset] "SYS_pread" [fd; buf; count; offset] (PathFd fd).
Definition pwrite (fd buf count offset : Z) : io_call :=
  mkIO "pwrite" [fd; buf; count; offset] "SYS_pwrite" [fd; buf; count; offset] (PathFd fd).
Definition pwrite64 (fd buf count offset : Z) : io_call :=
  mkIO "pwrite64" [fd; buf; count; offset] "SYS_pwrite" [fd; buf; count; offset] (PathFd fd).
Definition readv (fd vector count : Z) : io_call :=
  mkIO "readv" [fd; vector; count] "SYS_readv" [fd; vector; count] (PathFd fd).
Definition writev (fd vector count : Z) : io_call :=
  mkIO "writev" [fd; vector; count] "SYS_writev" [fd; vector; count] (PathFd fd).

Inductive io_op :=
| Read (fd buf count : Z)
| Write (fd buf count : Z)
| Lseek (fd offset whence : Z)
| Lseek64 (fd offset whence : Z)
| Open (pathname flags mode : Z)
| Open64 (pathname flags mode : Z)
| Close (fd : Z)
| Dup (oldfd : Z)
| Dup2 (oldfd newfd : Z)
| Creat (pathname mode : Z)
| Creat64 (pathname mode : Z)
| Pipe (filedes : Z)
| Pread (fd buf count offset : Z)
| Pread64 (fd buf count offset : Z)
| Pwrite (fd buf count offset : Z)
| Pwrite64 (fd buf count offset : Z)
| Readv (fd vector count : Z)
| Writev (fd vector count : Z).

Definition op_call (op : io_op) : io_call :=
  match op with
  | Read fd buf count => read fd buf count
  | Write fd buf count => write fd buf count
  | Lseek fd offset whence => lseek fd offset whence
  | Lseek64 fd offset whence => lseek64 fd offset whence
  | Open pathname flags mode => open pathname flags mode
  | Open64 pathname flags mode => open64 pathname flags mode
  | Close fd => close fd
  | Dup oldfd => dup oldfd
  | Dup2 oldfd newfd => dup2 oldfd newfd
  | Creat pathname mode => creat pathname mode
  | Creat64 pathname mode => creat64 pathname mode
  | Pipe filedes => pipe filedes
  | Pread fd buf count offset => pread fd buf count offset
  | Pread64 fd buf count offset => pread64 fd buf count offset
  | Pwrite fd buf count offset => pwrite fd buf count offset
  | Pwrite64 fd buf count offset => pwrite64 fd buf count offset
  | Readv fd vector count => readv fd vector count
  | Writev fd vector count => writev fd vector count
  end.

(** The wrapper in a build whose records are made by [mk] of the two times. *)
Definition io_wrapper {P} (mk : Z -> Z -> P) (op : io_op) : wrapped P :=
  let c := op_call op in
  mkWrapped (io_name c) (io_name c) (io_args c) (io_name c) [(NoStamp, fun start stop _ => mk start stop)].

(** Tracing starts at once when the connection to MRNet, or with file I/O the
    initialisation of MPI, is done; otherwise it waits for a resume. *)
Definition cbtf_collector_start {P B D W} {SV : Services W D} (tr : tracer) (ST : store P B D) (fileio : bool)
    (header : CBTF_DataHeader) (s : TLS B * W) : outcome (TLS B * W) :=
  s' ← start_tracer tr ST header (set_do_trace false (set_defer true s.1), s.2);
  if (if fileio then cbtf_mpi_init_done s'.2 else cbtf_connected_to_mrnet s'.2)
  then Ok (set_do_trace true (set_defer false s'.1), s'.2) else Ok s'.

(** ** Programs

    A call of a file function with the wrapped calls the C library makes inside it. *)
Record io_use := mkUse { us_op : io_op; us_retval : Z; us_cursor : list frame }.

Inductive io_step :=
| UseIO (u : io_use) (inner : list io_use)
| PauseIO
| ResumeIO.

Section programs.
Context {P : Type} (mk : Z -> Z -> P).

Definition to_call (inner : list (call P)) (u : io_use) : call P :=
  Call (io_wrapper mk (us_op u)) (us_retval u) (us_cursor u) inner.

Definition to_event (st : io_step) : event P :=
  match st with
  | UseIO u inner => Do (to_call (to_call [] <$> inner) u)
  | PauseIO => Pause
  | ResumeIO => Resume
  end.

(** What is to be recorded: the outermost calls of traced functions; the calls
    inside a function that is not traced count as the program's own. *)
Context (tr : tracer) (addr_of : string -> Z) (keep : Z -> bool) (traced : string).

Definition use_traced (u : io_use) : bool := bool_decide (io_name (op_call (us_op u)) ∈ strtok_all traced).
Definition use_record (u : io_use) : (Z -> Z -> P) * list Z :=
  (mk, call_path tr keep (addr_of (io_name (op_call (us_op u)))) (us_cursor u)).

Fixpoint expected (tracing : bool) (sts : list io_step) : list ((Z -> Z -> P) * list Z) :=
  match sts with
  | [] => []
  | UseIO u inner :: sts' =>
      (if tracing then
         if use_traced u then [use_record u] else use_record <$> List.filter use_traced inner
       else []) ++ expected tracing sts'
  | PauseIO :: sts' => expected false sts'
  | ResumeIO :: sts' => expected true sts'
  end.

Lemma inner_accepted inner :
  calls_records tr addr_of keep traced (to_call [] <$> inner) = use_record <$> List.filter use_traced inner.
Proof.
  induction inner as [|u inner IH]; [done|]. rewrite fmap_cons. cbn [calls_records]. rewrite IH.
  cbn [to_call call_records List.filter]. change (is_traced traced (io_wrapper mk (us_op u))) with (use_traced u).
  by destruct (use_traced u).
Qed.

Lemma expected_accepted sts : forall d,
  accepted tr addr_of keep traced d (to_event <$> sts) = expected d sts.
Proof.
  induction sts as [|[u inner| |] sts IH]; intros d; rewrite ?fmap_cons; cbn [to_event accepted expected]; try done.
  rewrite IH. f_equal. destruct d; [|done]. cbn [to_call call_records].
  change (is_traced traced (io_wrapper mk (us_op u))) with (use_traced u).
  destruct (use_traced u); [done|]. apply inner_accepted.
Qed.

Lemma io_steps_shallow sts :
  tr_restores tr = false -> forallb (shallow_event tr traced) (to_event <$> sts) = true.
Proof.
  intros Hr. induction sts as [|[u inner| |] sts IH]; [done| |exact IH..]. rewrite fmap_cons. cbn [forallb].
  rewrite IH, andb_true_r. cbn [to_event shallow_event to_call shallow]. destruct (is_traced _ _).
  - cbn [io_wrapper wr_events]. destruct inner as [|u' inner]; [done|]. rewrite fmap_cons, Hr.
    cbn [negb andb]. change (to_call [] u' :: _) with (to_call [] <$> u' :: inner).
    induction (u' :: inner) as [|v l IHl]; [done|]. exact IHl.
  - induction inner as [|u' inner IHi]; [done|]. rewrite fmap_cons. cbn [forallb]. rewrite IHi, andb_true_r.
    cbn [to_call shallow]. by destruct (is_traced _ _).
Qed.
End programs.

Definition step_returns (sts : list io_step) : list Z :=
  omap (fun st => match st with UseIO u _ => Some (us_retval u) | _ => None end) sts.

Lemma steps_returned {P} (mk : Z -> Z -> P) sts : returned (to_event mk <$> sts) = step_returns sts.
Proof. induction sts as [|[u inner| |] sts IH]; cbn; try done. by f_equal. Qed.

Lemma io_ok a : tracer_ok (io a) /\ trace_sizes (io a).
Proof. destruct a; by vm_compute. Qed.
Lemma iop_ok a : tracer_ok (iop a) /\ tr_frames (iop a) <= tr_stack_size (iop a).
Proof. destruct a; by vm_compute. Qed.

(** Without a list in the environment every wrapped function is traced. *)
Lemma io_all_traced op : io_name (op_call op) ∈ strtok_all traceable.
Proof. destruct op; apply (bool_decide_unpack _); reflexivity. Qed.

Lemma io_start_ok {P B D W} {SV : Services W D} {SL : ServicesLaws W D} tr (ST : store P B D) fileio header
    (tls : TLS B) (w : W) :
  Z.of_nat (String.length (traced_list tr w)) < PATH_MAX ->
  exists s1, cbtf_collector_start tr ST fileio header (tls, w) = Ok s1 /\
    exists tls0 defer, (s ← start_tracer tr ST header (tls0, w);
      Ok (set_do_trace (t_do_trace s1.1) (set_defer defer s.1), s.2)) = Ok s1.
Proof.
  intros Hlen. unfold cbtf_collector_start. cbn [fst snd]. set (tls0 := set_do_trace false _).
  destruct (start_tracer_returns tr ST header tls0 w Hlen) as (tls1 & w1 & Hs & _).
  rewrite Hs, bind_of_Ok. cbn [fst snd]. destruct (if fileio then _ else _).
  - eexists. split; [reflexivity|]. exists tls0, false. by rewrite Hs, bind_of_Ok.
  - eexists. split; [reflexivity|]. exists tls0, (t_defer tls1). rewrite Hs, bind_of_Ok. by destruct tls1.
Qed.

(** C11: a program calls file functions, which may call wrapped file functions in
    turn, and pauses and resumes; it runs from start to stop without leaving the
    collector's arrays and gets what the real functions returned; and a reader of
    the blobs finds exactly the outermost calls of traced functions made while
    tracing was on (from the start, if MRNet or MPI was ready then), each once and
    in order, with its own call path and the times the clock gave right before and
    right after the real function. *)
Theorem io_delivers_outermost_calls {W} {SV : Services W (trace_data io_event)}
    {SL : ServicesLaws W (trace_data io_event)} (a : arch) (fileio : bool) (addr_of : string -> Z) (keep : Z -> bool)
    (root : Z) (T : list Z -> Prop) (header : CBTF_DataHeader) (tls : TLS (trace_buffer io_event)) (w : W) (sts : list io_step) :
  call_paths root T -> Z.of_nat (String.length (traced_list (io a) w)) < PATH_MAX ->
  (forall d, Forall (fun x => T x.2) (expected mkIOEvent (io a) addr_of keep (traced_list (io a) w) d sts)) ->
  exists s1 s2 s3 new ts,
    cbtf_collector_start (io a) (io_store a) fileio header (tls, w) = Ok s1 /\
    run (io a) (io_store a) addr_of keep (to_event mkIOEvent <$> sts) s1 = Ok (step_returns sts, s2) /\
    cbtf_collector_stop (io a) (io_store a) s2 = Ok s3 /\
    sent s3.2 = sent w ++ new /\
    run_times (io a) (io_store a) addr_of keep (to_event mkIOEvent <$> sts) s1 = Ok ts /\
    at_times (expected mkIOEvent (io a) addr_of keep (traced_list (io a) w) (t_do_trace s1.1) sts) ts (delivered new).
Proof.
  intros Hp Hlen HT. destruct (io_start_ok (io a) (io_store a) fileio header tls w Hlen) as (s1 & Hs & tls0 & defer & Hst).
  destruct (io_ok a) as [Hok Hsz].
  destruct (trace_delivers (io a) zero_io addr_of keep root T header tls0 w s1 (t_do_trace s1.1) defer
    (to_event mkIOEvent <$> sts) Hp Hok Hsz Hlen Hst) as (s2 & s3 & new & H2 & H3 & Hsent & _ & ts & Ht & Hm).
  - by apply io_steps_shallow.
  - by rewrite expected_accepted.
  - exists s1, s2, s3, new, ts. rewrite steps_returned in H2. rewrite expected_accepted in Hm. by split_and!.
Qed.

(** The profile build runs a program from start to stop without leaving the
    collector's arrays, and the program gets what the real functions returned; and
    the profile in the blobs has for every call path as many calls as the program
    made outermost calls of traced functions on it while tracing was on, and the
    total of the times they took by the clock, modulo 2^64. *)
Theorem iop_accounts_for_calls {W} {SV : Services W profile_data} {SL : ServicesLaws W profile_data} (a : arch)
    (fileio : bool) (addr_of : string -> Z) (keep : Z -> bool) (root : Z) (header : CBTF_DataHeader)
    (tls : TLS profile_buffer) (w : W) (sts : list io_step) :
  Z.of_nat (String.length (traced_list (iop a) w)) < PATH_MAX ->
  (forall d, Forall (fun x => rooted root x.2) (expected iop_event (iop a) addr_of keep (traced_list (iop a) w) d sts)) ->
  exists s1 s2 s3 new recs ts,
    cbtf_collector_start (iop a) (iop_store a) fileio header (tls, w) = Ok s1 /\
    run (iop a) (iop_store a) addr_of keep (to_event iop_event <$> sts) s1 = Ok (step_returns sts, s2) /\
    cbtf_collector_stop (iop a) (iop_store a) s2 = Ok s3 /\
    sent s3.2 = sent w ++ new /\
    run_times (iop a) (iop_store a) addr_of keep (to_event iop_event <$> sts) s1 = Ok ts /\
    at_times (expected iop_event (iop a) addr_of keep (traced_list (iop a) w) (t_do_trace s1.1) sts) ts recs /\
    forall path, calls_in path (profiled new) = calls_on path recs /\
      u64 (time_in path (profiled new)) = u64 (time_on (fun time => time) path recs).
Proof.
  intros Hlen HT. destruct (io_start_ok (iop a) (iop_store a) fileio header tls w Hlen) as (s1 & Hs & tls0 & defer & Hst).
  destruct (iop_ok a) as [Hok Hfit].
  destruct (profile_accounts (iop a) (fun time => time) addr_of keep (rooted root) header tls0 w s1 (t_do_trace s1.1) defer
    (to_event iop_event <$> sts) Hok Hfit Hlen Hst) as (s2 & s3 & new & recs & ts & H2 & H3 & Hsent & Ht & Hm & Hp).
  - by apply io_steps_shallow.
  - by rewrite expected_accepted.
  - exists s1, s2, s3, new, recs, ts. rewrite steps_returned in H2. rewrite expected_accepted in Hm. by split_and!.
Qed.

Definition example_cursor (caller : Z) : list frame :=
  [mkFrame 1 false; mkFrame 2 false; mkFrame caller false; mkFrame 10 false].

Definition example_tls : TLS (trace_buffer io_event) :=
  mkTLS (mkDataHeader 0 1 "" "n0" 1 1 (-1) 0 0 0 0 0)
    (reset_traces (tr_stack_size (io arch_other)) (tr_event_size (io arch_other)) (mkEvent zero_io 0)) traceable 0 true false.

(** An open64 that calls open, and a read; a write in between is not traced because of the pause. *)
Lemma io_delivers_witness :
  let addr_of name := if String.eqb name "open64" then 100 else 200 in
  let sts := [UseIO (mkUse (Open64 4096 0 0) 3 (example_cursor 20)) [mkUse (Open 4096 0 0) 3 (example_cursor 20)];
              PauseIO; UseIO (mkUse (Write 3 8192 10) 10 (example_cursor 30)) []; ResumeIO;
              UseIO (mkUse (Read 3 8192 10) 10 (example_cursor 30)) []] in
  exists s1 s2 s3 new ts,
    cbtf_collector_start (io arch_other) (io_store arch_other) true (t_header example_tls) (example_tls, quiet_world (trace_data io_event)) = Ok s1 /\
    run (io arch_other) (io_store arch_other) addr_of (fun _ => true) (to_event mkIOEvent <$> sts) s1 = Ok ([3; 10; 10], s2) /\
    cbtf_collector_stop (io arch_other) (io_store arch_other) s2 = Ok s3 /\
    lw_sent s3.2 = new /\
    run_times (io arch_other) (io_store arch_other) addr_of (fun _ => true) (to_event mkIOEvent <$> sts) s1 = Ok ts /\
    at_times (expected mkIOEvent (io arch_other) addr_of (fun _ => true) traceable (t_do_trace s1.1) sts) ts (delivered new).
Proof.
  intros addr_of sts.
  destruct (io_delivers_outermost_calls arch_other true addr_of (fun _ => true) 10 two_paths (t_header example_tls)
    example_tls (quiet_world (trace_data io_event)) sts two_paths_ok) as (s1 & s2 & s3 & new & ts & H1 & H2 & H3 & Hs & Hd).
  - done.
  - intros []; [apply Forall_cons; split; [by left|]|]; (apply Forall_cons; split; [by right|]; by apply Forall_nil).
  - exists s1, s2, s3, new, ts. split; [exact H1|]. split; [exact H2|]. split; [exact H3|]. split; [exact Hs|exact Hd].
Defined.

Definition example_profile_tls : TLS profile_buffer :=
  mkTLS (t_header example_tls) (st_empty (iop_store arch_other)) traceable 0 true false.

(** A file is read twice from one place and once from another. *)
Lemma iop_accounts_witness :
  let cursor caller := mkFrame 1 false :: example_cursor caller in
  let rd caller := UseIO (mkUse (Read 3 8192 10) 10 (cursor caller)) [] in
  let sts := [rd 20; rd 30; rd 20] in
  exists s1 s2 s3 recs ts,
    cbtf_collector_start (iop arch_other) (iop_store arch_other) true (t_header example_tls)
      (example_profile_tls, quiet_world profile_data) = Ok s1 /\
    run (iop arch_other) (iop_store arch_other) (fun _ => 200) (fun _ => true) (to_event iop_event <$> sts) s1 =
      Ok ([10; 10; 10], s2) /\
    cbtf_collector_stop (iop arch_other) (iop_store arch_other) s2 = Ok s3 /\
    at_times (expected iop_event (iop arch_other) (fun _ => 200) (fun _ => true) traceable (t_do_trace s1.1) sts) ts recs /\
    calls_in [200; 20; 10] (profiled (lw_sent s3.2)) = calls_on [200; 20; 10] recs.
Proof.
  intros cursor rd sts.
  destruct (iop_accounts_for_calls arch_other true (fun _ => 200) (fun _ => true) 10 (t_header example_tls)
    example_profile_tls (quiet_world profile_data) sts) as (s1 & s2 & s3 & new & recs & ts & H1 & H2 & H3 & Hs & Ht & Hm & Hp).
  - done.
  - intros []; [|by apply Forall_nil].
    repeat (apply Forall_cons; split; [split; [done|split; [done|reflexivity]]|]). by apply Forall_nil.
  - exists s1, s2, s3, recs, ts. split; [exact H1|]. split; [exact H2|]. split; [exact H3|]. split; [exact Hm|].
    cbn in Hs. rewrite Hs. apply Hp.
Defined.
