(* ===== verification/IOT.v ===== *)
(** The io collector in its extended trace build (EXTENDEDTRACE, iot): events with
    their system call, arguments and return value, and the index of the file's
    name in a buffer of path names that goes with the blob. The file has the
    wrapper, which finds the name, and io_record_event, which looks it up in the
    buffer before it records the event, and theorems on the names recorded. *)
From S2P Require Import Prelude Probe PCIndex Headers Services Unwind StackBuffer TraceBuffer Tracer Profile IO.

(** CBTF_iot_event but for the position of its stack trace. *)
Record iot_event := mkIot {
  it_start_time : Z;
  it_stop_time : Z;
  it_pathindex : Z;
  it_syscallno : Z;
  it_nsysargs : Z;
  it_sysargs : list Z;
  it_retval : Z
}.
Definition zero_iot : iot_event := mkIot 0 0 0 0 0 [0; 0; 0; 0] 0.
Definition set_pathindex (i : Z) (e : iot_event) : iot_event :=
  mkIot (it_start_time e) (it_stop_time e) (u16 i) (it_syscallno e) (it_nsysargs e) (it_sysargs e) (it_retval e).

(** CBTF_io_exttrace_data *)
Record iot_data := mkIotData { id_stacktraces : list Z; id_events : list (traced_event iot_event); id_pathnames : list Z }.

(** Thread-local storage, with the buffer of path names, and the global
    currentpathname (of PATH_MAX characters). *)
Record IOT := mkIOT {
  t_tls : TLS (trace_buffer iot_event);
  t_pathnames : list Z;
  t_pathnames_len : Z;
  t_currentpathname : list Z
}.
Definition set_tls (t : TLS (trace_buffer iot_event)) (s : IOT) : IOT :=
  mkIOT t (t_pathnames s) (t_pathnames_len s) (t_currentpathname s).
Definition set_pathnames (p : list Z) (n : Z) (s : IOT) : IOT := mkIOT (t_tls s) p n (t_currentpathname s).
Definition set_currentpathname (c : list Z) (s : IOT) : IOT := mkIOT (t_tls s) (t_pathnames s) (t_pathnames_len s) c.

Definition iot (a : arch) : tracer :=
  mkTracer "iot" 1 64 (CBTF_BlobSizeFactor a * 384) (CBTF_BlobSizeFactor a * 140) false "CBTF_IO_TRACED" traceable false.
Definition PathBufferSize (a : arch) : Z := CBTF_BlobSizeFactor a * 2048.
Definition NAMEBUF : Z := 1024.  (* char namebuf[1024] of the wrappers *)

Section extended.
Context {W : Type} {SV : Services W iot_data}.
Context (a : arch) (addr_of : string -> Z) (keep : Z -> bool).
(** The platform's system call numbers, the string at an address, and readlink on
    /proc/self/fd/<fd>: at most 1024 characters, or an error. *)
Context (SYS : string -> Z) (string_at : Z -> list Z) (readlink : Z -> W -> option (list Z)).
Notation SB := (tr_stack_size (iot a)).
Notation EB := (tr_event_size (iot a)).
Notation state := (IOT * W)%type.

Definition initialize_data (s : state) : outcome state :=
  r ← CBTF_GetTime s.2;
  let tls := t_tls s.1 in
  let header := with_addrs (with_times (t_header tls) r.1 0) UINT64_MAX 0 in
  let tls1 := set_header header (set_buffer (reset_traces SB EB (mkEvent zero_iot 0)) (set_nesting 0 tls)) in
  Ok (set_pathnames (replicate (Z.to_nat (PathBufferSize a)) 0) 1 (set_tls tls1 s.1), r.2).

Definition blob (s : IOT) : iot_data :=
  let b := t_buffer (t_tls s) in
  mkIotData (take (Z.to_nat (tb_stacktraces_len b)) (tb_stacktraces b))
    (take (Z.to_nat (tb_events_len b)) (tb_events b)) (take (Z.to_nat (t_pathnames_len s)) (t_pathnames s)).

Definition send_samples (s : state) : outcome state :=
  r ← CBTF_GetTime s.2;
  let tls := t_tls s.1 in
  let h := with_id (t_header tls) (tr_id (iot a)) in
  let header := with_rank (with_addrs (with_times h (dh_time_begin h) r.1)
                  (tb_addr_begin (t_buffer tls)) (tb_addr_end (t_buffer tls)))
                  (monitor_mpi_comm_rank r.2) in
  let s1 := set_tls (set_header header tls) s.1 in
  w2 ← cbtf_collector_send header (blob s1) r.2;
  initialize_data (s1, w2).

Definition io_start_event (s : IOT) : IOT :=
  set_currentpathname (replicate (Z.to_nat PATH_MAX) 0) (set_tls (start_event (t_tls s)) s).

(** The name in currentpathname, of no characters if the first is not positive as
    a signed char. *)
Definition current_path (c : list Z) : list Z :=
  if (0 <? hd 0 c) && (hd 0 c <? 128) then take_nonzero c else [].

(** Copy the name to the end of the buffer. *)
Fixpoint store_path (pos : Z) (path : list Z) (buf : list Z) : outcome (list Z) :=
  match path with
  | [] => arr_set buf pos 0
  | c :: path' => buf' ← arr_set buf pos c; store_path (pos + 1) path' buf'
  end.

(** The index of the name in the buffer, where it is added if the search fails. *)
Definition path_position (path : list Z) (s : state) : outcome (Z * state) :=
  r ← search_entry (t_pathnames s.1) (t_pathnames_len s.1) path;
  match r with
  | Some start => Ok (start, s)
  | None =>
      s1 ← (if t_pathnames_len s.1 + Z.of_nat (length path) + 1 >=? PathBufferSize a then send_samples s else Ok s);
      let entry := t_pathnames_len s1.1 in
      buf ← store_path entry path (t_pathnames s1.1);
      Ok (entry, (set_pathnames buf (entry + Z.of_nat (length path) + 1) s1.1, s1.2))
  end.

Definition io_record_event (ev : iot_event) (function : Z) (cursor : list frame) (s : state) : outcome state :=
  let s0 := (set_tls (set_do_trace false (t_tls s.1)) s.1, s.2) in
  p ← path_position (current_path (t_currentpathname s0.1)) s0;
  let s1 := p.2 in
  let tls2 := set_nesting (u32 (t_nesting_depth (t_tls s1.1) - 1)) (t_tls s1.1) in
  let s2 := (set_tls tls2 s1.1, s1.2) in
  if t_nesting_depth tls2 >? 0 then Ok s2 else
    fs ← CBTF_GetStackTraceFromContext keep false cursor false (tr_overhead (iot a)) (tr_frames (iot a));
    r ← record_traced false SB EB (fun s => t_buffer (t_tls s.1))
          (fun b s => (set_tls (set_buffer b (t_tls s.1)) s.1, s.2)) send_samples
          (set_pathindex p.1 ev) (replace_top function fs) s2;
    Ok (set_tls (set_do_trace true (t_tls r.1)) r.1, r.2).

(** strncpy(currentpathname, name, strlen(name)) *)
Definition set_path (name : list Z) (s : IOT) : outcome IOT :=
  if Z.of_nat (length name) <=? PATH_MAX
  then Ok (set_currentpathname (name ++ drop (length name) (t_currentpathname s)) s) else Fault.

(** status = readlink(...); namebuf[status] = 0; an error gives -1, a name that
    fills the buffer 1024. *)
Definition link_path (fd : Z) (s : state) : outcome state :=
  match readlink fd s.2 with
  | None => Fault
  | Some name =>
      if Z.of_nat (length name) <? NAMEBUF
      then s' ← set_path (take_nonzero name) s.1; Ok (s', s.2) else Fault
  end.

(** The event of a call. *)
Definition iot_of (c : io_call) (start stop retval : Z) : iot_event :=
  mkIot start stop 0 (u16 (SYS (io_syscall c))) (Z.of_nat (length (io_sysargs c)))
    (take 4 ((u64 <$> io_sysargs c) ++ [0; 0; 0; 0])) (i32 retval).

Definition iot_wrapper (c : io_call) (cursor : list frame) (real : state -> outcome (Z * state)) (s : state)
  : outcome (Z * state) :=
  let d := do_trace (io_name c) (t_tls s.1) in
  let s0 := set_tls d.2 s.1 in
  if d.1 then
    let s1 := io_start_event s0 in
    t0 ← CBTF_GetTime s.2;
    s2 ← match io_path c with PathFdBefore fd => link_path fd (s1, t0.2) | _ => Ok (s1, t0.2) end;
    r ← real s2;
    t1 ← CBTF_GetTime r.2.2;
    let s3 := (r.2.1, t1.2) in
    s4 ← match io_path c with
         | PathFd fd => link_path fd s3
         | PathArg p => s' ← set_path (string_at p) s3.1; Ok (s', s3.2)
         | _ => Ok s3
         end;
    s5 ← io_record_event (iot_of c t0.1 t1.1 r.1) (addr_of (io_name c)) cursor s4;
    Ok (r.1, s5)
  else real (s0, s.2).

Definition iot_collector_start (fileio : bool) (header : CBTF_DataHeader) (s : state) : outcome state :=
  let tls0 := set_do_trace false (set_defer true (t_tls s.1)) in
  let traced := match getenv s.2 (tr_env (iot a)) with
                | Some l => if String.eqb l "" then tr_traceable (iot a) else l
                | None => tr_traceable (iot a)
                end in
  tls1 ← (if Z.of_nat (String.length traced) <? PATH_MAX then Ok (set_traced traced tls0) else Fault);
  r ← initialize_data (set_tls (set_header header tls1) s.1, s.2);
  let tls2 := set_nesting 0 (t_tls r.1) in
  t ← CBTF_GetTime r.2;
  let tls3 := set_header (with_times (t_header tls2) t.1 (dh_time_end (t_header tls2))) tls2 in
  let tls4 := if (if fileio then cbtf_mpi_init_done t.2 else cbtf_connected_to_mrnet t.2)
              then set_do_trace true (set_defer false tls3) else tls3 in
  Ok (set_tls tls4 r.1, t.2).

Definition iot_collector_stop (s : state) : outcome state :=
  r ← CBTF_GetTime s.2;
  let tls := t_tls s.1 in
  let h := t_header tls in
  let tls1 := set_do_trace false (set_header (with_times h (dh_time_begin h) r.1) tls) in
  if (tb_events_len (t_buffer tls1) >? 0) || (tb_stacktraces_len (t_buffer tls1) >? 0)
  then send_samples (set_tls tls1 s.1, r.2) else Ok (set_tls tls1 s.1, r.2).
End extended.

Lemma iot_ok a : tracer_ok (iot a) /\ trace_sizes (iot a).
Proof. destruct a; by vm_compute. Qed.

(** What a reader finds at an index of the path names. *)
Definition path_at (s : IOT) (i : Z) : list Z := trace_at (t_pathnames s) i.

(** The buffer holds the names [ps], after the empty name at index 0. *)
Record paths_inv (a : arch) (s : IOT) (ps : list (list Z)) : Prop := {
  pi_names : exists rest, t_pathnames s = 0 :: flat_traces ps ++ rest;
  pi_size : Z.of_nat (length (t_pathnames s)) = PathBufferSize a;
  pi_len : t_pathnames_len s = 1 + Z.of_nat (length (flat_traces ps));
  pi_ok : Forall trace_ok ps
}.

(** No name of [ps] is mistaken for [path]: the search compares from the second
    character on and takes a prefix for a match. *)
Definition unmistakable (path : list Z) (ps : list (list Z)) : Prop :=
  forall q, q ∈ ps -> tail path `prefix_of` tail q -> q = path.

Lemma path_search path ps rest :
  (2 <= length path)%nat -> Forall (fun x => x <> 0) path -> Forall trace_ok ps ->
  search_entry (0 :: flat_traces ps ++ rest) (1 + Z.of_nat (length (flat_traces ps))) path =
    Ok (find_entry false path 1 ps).
Proof.
  intros Hl Hnz Hps. destruct path as [|c path]; [simpl in Hl; lia|]. unfold search_entry.
  set (fuel := Z.to_nat _).
  assert (Hfuel : (length (flat_traces ps) + length (c :: path) < fuel)%nat) by (unfold fuel; lia).
  clearbody fuel. cbn [search_loop]. rewrite (proj2 (Z.ltb_lt 0 _)), (proj2 (Z.ltb_lt (0 + 0) _)) by (simpl length; lia).
  cbn [andb]. apply Forall_cons in Hnz as Hc. destruct Hc as [Hc _].
  change (arr_get (c :: path) 0) with (Ok c). rewrite bind_of_Ok.
  change (arr_get (0 :: flat_traces ps ++ rest) (0 + 0)) with (Ok 0). rewrite bind_of_Ok.
  replace (c =? 0) with false by lia.
  change (skip_entry _ (0 :: flat_traces ps ++ rest) _ (0 + 0)) with (Ok 0). rewrite bind_of_Ok.
  change (0 + 1) with (Z.of_nat (length [0])).
  pose proof (search_later (c :: path) (1 + Z.of_nat (length (flat_traces ps))) rest ps [0] fuel Hl Hnz Hps) as (r & Hr & Hf).
  { simpl length. lia. }
  { exact Hfuel. }
  cbn [app] in Hr. rewrite Hr, bind_of_Ok. by rewrite Hf.
Qed.

Lemma find_entry_split path ts : forall pos p,
  find_entry false path pos ts = Some p ->
  exists ts1 t ts2, ts = ts1 ++ t :: ts2 /\ tail path `prefix_of` tail t /\ p = pos + Z.of_nat (length (flat_traces ts1)).
Proof.
  induction ts as [|t ts IH]; intros pos p Hf; [done|]. cbn [find_entry] in Hf. case_bool_decide as Hp.
  - injection Hf as <-. exists [], t, ts. split_and!; [done..|simpl; lia].
  - destruct (IH _ _ Hf) as (ts1 & u & ts2 & -> & Hu & ->). exists (t :: ts1), u, ts2. split_and!; [done..|].
    rewrite flat_traces_cons, length_app. simpl. lia.
Qed.

Lemma find_entry_none path ts pos :
  (forall t, t ∈ ts -> ~ tail path `prefix_of` tail t) -> find_entry false path pos ts = None.
Proof.
  revert pos. induction ts as [|t ts IH]; intros pos H; [done|]. cbn [find_entry].
  rewrite bool_decide_false by (apply H; constructor). apply IH. intros u Hu. apply H. by constructor.
Qed.

(** The index of a stored name leads to it. *)
Lemma path_at_split s ps1 q ps2 rest :
  t_pathnames s = 0 :: flat_traces (ps1 ++ q :: ps2) ++ rest -> trace_ok q ->
  path_at s (1 + Z.of_nat (length (flat_traces ps1))) = q.
Proof.
  intros Hs [_ Hq]. unfold path_at, trace_at. rewrite Hs, flat_traces_app, flat_traces_cons.
  replace (Z.to_nat (1 + Z.of_nat (length (flat_traces ps1)))) with (S (length (flat_traces ps1))) by lia.
  cbn [drop]. rewrite <- !app_assoc, drop_app_length. cbn [app]. by apply take_nonzero_app.
Qed.

Lemma store_path_app path : forall pos pre mid rest,
  pos = Z.of_nat (length pre) -> length mid = S (length path) ->
  store_path pos path (pre ++ mid ++ rest) = Ok (pre ++ path ++ 0 :: rest).
Proof.
  induction path as [|c path IH]; intros pos pre mid rest Hpos Hmid.
  - destruct mid as [|x [|? ?]]; simpl in Hmid; try lia. cbn [store_path app]. by rewrite insert_after.
  - destruct mid as [|x mid]; [done|]. cbn [store_path app]. rewrite insert_after, bind_of_Ok by done.
    change (pre ++ c :: mid ++ rest) with (pre ++ [c] ++ mid ++ rest). rewrite app_assoc.
    rewrite (IH (pos + 1) (pre ++ [c]) mid rest), <- app_assoc; [done| |simpl in Hmid; lia].
    rewrite length_app. simpl. lia.
Qed.

(** Adding a name that fits. *)
Lemma path_added a s ps path :
  paths_inv a s ps -> trace_ok path -> t_pathnames_len s + Z.of_nat (length path) + 1 < PathBufferSize a ->
  exists buf, store_path (t_pathnames_len s) path (t_pathnames s) = Ok buf /\
    let s' := set_pathnames buf (t_pathnames_len s + Z.of_nat (length path) + 1) s in
    paths_inv a s' (ps ++ [path]) /\ path_at s' (t_pathnames_len s) = path.
Proof.
  intros [[rest Hs] Hsize Hlen Hok] Hp Hroom.
  assert (Hrest : (length path + 1 <= length rest)%nat).
  { rewrite Hs in Hsize. simpl length in Hsize. rewrite length_app in Hsize. lia. }
  assert (exists mid rest', rest = mid ++ rest' /\ length mid = S (length path)) as (mid & rest' & -> & Hmid).
  { exists (take (S (length path)) rest), (drop (S (length path)) rest). rewrite take_drop, length_take. split; [done|lia]. }
  assert (Hst : store_path (t_pathnames_len s) path (t_pathnames s) = Ok (0 :: flat_traces (ps ++ [path]) ++ rest')).
  { rewrite Hs. change (0 :: flat_traces ps ++ mid ++ rest') with ((0 :: flat_traces ps) ++ mid ++ rest').
    rewrite store_path_app by (done || (rewrite Hlen; simpl; lia)).
    rewrite flat_traces_app, flat_traces_cons. cbn [app]. by rewrite <- !app_assoc. }
  eexists. split; [exact Hst|]. cbv zeta. split.
  - constructor; cbn [set_pathnames t_pathnames t_pathnames_len].
    + by eexists.
    + rewrite <- Hsize, Hs. cbn [length]. rewrite flat_traces_app, flat_traces_cons, !length_app. simpl length.
      rewrite Hmid. lia.
    + rewrite flat_traces_app, flat_traces_cons, !length_app. simpl length. lia.
    + apply Forall_app_2; [done|by apply Forall_singleton].
  - rewrite Hlen. eapply path_at_split; [|done]. cbn [set_pathnames t_pathnames]. reflexivity.
Qed.

(** The names already in the buffer are still found. *)
Lemma path_at_kept a s s' ps ps' ps1 q ps2 :
  paths_inv a s ps -> paths_inv a s' ps' -> ps = ps1 ++ q :: ps2 -> ps `prefix_of` ps' ->
  path_at s' (1 + Z.of_nat (length (flat_traces ps1))) = path_at s (1 + Z.of_nat (length (flat_traces ps1))).
Proof.
  intros [[r Hr] _ _ Hok] [[r' Hr'] _ _ _] -> [ext ->].
  assert (trace_ok q) as Hq by (apply Forall_app in Hok as [_ Hok]; by apply Forall_inv in Hok).
  rewrite (path_at_split s ps1 q ps2 r) by done.
  apply (path_at_split s' ps1 q (ps2 ++ ext) r'); [|done]. by rewrite Hr', <- !app_assoc.
Qed.

(** while a path name fits and none of those stored is mistaken for it, the
    extended trace gives the event an index at which a reader of the blob finds
    that name, sends nothing, and every name stored before is still found where it
    was; the buffer again holds a list of names, at most one longer. *)
Theorem iot_path_index {W} {SV : Services W iot_data} (a : arch) (s : IOT) (w : W) (ps : list (list Z)) (path : list Z) :
  paths_inv a s ps -> trace_ok path -> (2 <= length path)%nat -> unmistakable path ps ->
  t_pathnames_len s + Z.of_nat (length path) + 1 < PathBufferSize a ->
  exists i s' ps', path_position a path (s, w) = Ok (i, (s', w)) /\
    paths_inv a s' ps' /\ ps `prefix_of` ps' /\ (length ps' <= S (length ps))%nat /\
    path_at s' i = path /\ 0 <= i < 2 ^ 16 /\
    (forall ps1 q ps2, ps = ps1 ++ q :: ps2 -> path_at s' (1 + Z.of_nat (length (flat_traces ps1))) = q).
Proof.
  intros Hinv Hp Hl Hun Hroom. pose proof Hinv as [[rest Hs] Hsize Hlen Hok]. destruct Hp as [Hne Hnz].
  assert (Hmax : PathBufferSize a <= 2 ^ 16) by (destruct a; by vm_compute).
  assert (Hold : forall s' ps', paths_inv a s' ps' -> ps `prefix_of` ps' ->
    forall ps1 q ps2, ps = ps1 ++ q :: ps2 -> path_at s' (1 + Z.of_nat (length (flat_traces ps1))) = q).
  { intros s' ps' Hinv' Hpre ps1 q ps2 Hsplit. rewrite (path_at_kept a s s' ps ps' ps1 q ps2) by done.
    apply (path_at_split s ps1 q ps2 rest); [by rewrite Hs, Hsplit|].
    rewrite Hsplit in Hok. apply Forall_app in Hok as [_ Hok]. by apply Forall_inv in Hok. }
  unfold path_position. cbn [fst snd]. rewrite Hs, Hlen, path_search, bind_of_Ok by done.
  destruct (find_entry false path 1 ps) as [p|] eqn:Hf.
  - destruct (find_entry_split path ps 1 p Hf) as (ps1 & q & ps2 & Hsplit & Hq & ->).
    assert (q = path) as -> by (apply Hun; [rewrite Hsplit; set_solver|done]).
    exists (1 + Z.of_nat (length (flat_traces ps1))), s, ps.
    rewrite Hsplit, flat_traces_app, length_app in Hlen.
    split_and!; [done|exact Hinv|done|lia| |lia|lia|by apply (Hold s ps)].
    by apply (Hold s ps Hinv ltac:(done) ps1 path ps2).
  - rewrite <- Hlen. replace (_ >=? PathBufferSize a) with false by lia. rewrite bind_of_Ok. cbn [fst snd].
    destruct (path_added a s ps path Hinv (conj Hne Hnz) Hroom) as (buf & -> & Hinv' & Hat). rewrite bind_of_Ok.
    eexists _, _, (ps ++ [path]). split_and!; [reflexivity|exact Hinv'|by apply prefix_app_r| |exact Hat|lia|lia|].
    + rewrite length_app. simpl. lia.
    + apply (Hold _ (ps ++ [path]) Hinv'). by apply prefix_app_r.
Qed.

(** send_samples sends the blob and leaves everything empty, the nesting depth too. *)
Lemma iot_send_ok {W} {SV : Services W iot_data} {SL : ServicesLaws W iot_data} (a : arch) (s : IOT) (w : W) :
  exists s' w' h, send_samples a (s, w) = Ok (s', w') /\ sent w' = sent w ++ [(h, blob s)] /\
    t_nesting_depth (t_tls s') = 0 /\ t_do_trace (t_tls s') = t_do_trace (t_tls s) /\
    t_buffer (t_tls s') =
      reset_traces (tr_stack_size (iot a)) (tr_event_size (iot a)) (mkEvent zero_iot 0) /\
    t_pathnames s' = replicate (Z.to_nat (PathBufferSize a)) 0 /\ t_pathnames_len s' = 1 /\
    t_currentpathname s' = t_currentpathname s.
Proof.
  unfold send_samples. cbn [fst snd]. destruct (time_law w) as (t & w1 & -> & _ & Hs1). rewrite bind_of_Ok. cbn [fst snd].
  match goal with |- context [cbtf_collector_send ?h ?b ?w'] =>
    destruct (send_law h b w') as (w3 & -> & Hs3); change b with (blob s) in Hs3 end. rewrite bind_of_Ok.
  unfold initialize_data. cbn [fst snd]. destruct (time_law w3) as (t' & w4 & -> & _ & Hs4). rewrite bind_of_Ok.
  eexists _, w4, _. split_and!; [reflexivity|by rewrite Hs4, Hs3, Hs1|done..].
Qed.

Lemma paths_reset a s : t_pathnames s = replicate (Z.to_nat (PathBufferSize a)) 0 -> t_pathnames_len s = 1 -> paths_inv a s [].
Proof.
  intros Hs Hl. constructor.
  - rewrite Hs. exists (replicate (Z.to_nat (PathBufferSize a) - 1) 0).
    destruct (Z.to_nat (PathBufferSize a)) eqn:E; [destruct a; done|]. simpl. by rewrite Nat.sub_0_r.
  - rewrite Hs, length_replicate. destruct a; by vm_compute.
  - by rewrite Hl.
  - constructor.
Qed.

(** When the name of the file of an outermost call does not fit in the buffer
    of path names, io_record_event sends the blob, which sets the nesting depth to
    0; the decrement that follows wraps around to 2^32-1, the event is dropped as
    that of an inner call, do_trace stays false, and every later call of the thread
    is refused. *)
Theorem iot_full_path_buffer_stops_tracing {W} {SV : Services W iot_data} {SL : ServicesLaws W iot_data}
    (a : arch) (keep : Z -> bool) (s : IOT) (w : W) (ps : list (list Z)) (path : list Z) (ev : iot_event)
    (function : Z) (cursor : list frame) :
  paths_inv a s ps -> current_path (t_currentpathname s) = path -> trace_ok path -> (2 <= length path)%nat ->
  find_entry false path 1 ps = None -> Z.of_nat (length path) + 2 < PathBufferSize a ->
  PathBufferSize a <= t_pathnames_len s + Z.of_nat (length path) + 1 ->
  exists s' w' h, io_record_event a keep ev function cursor (s, w) = Ok (s', w') /\
    sent w' = sent w ++ [(h, blob s)] /\ tb_events_len (t_buffer (t_tls s')) = 0 /\
    t_nesting_depth (t_tls s') = 2 ^ 32 - 1 /\ t_do_trace (t_tls s') = false /\
    forall name, (do_trace name (t_tls s')).1 = false.
Proof.
  intros [[rest Hs] Hsize Hlen Hok] Hcur Hp Hl Hnone Hfit Hfull. unfold io_record_event. cbn [fst snd].
  set (s0 := set_tls _ _). replace (t_currentpathname s0) with (t_currentpathname s) by done. rewrite Hcur.
  unfold path_position. cbn [fst snd]. change (t_pathnames s0) with (t_pathnames s).
  change (t_pathnames_len s0) with (t_pathnames_len s). pose proof Hp as [_ Hnz].
  rewrite Hs, Hlen, path_search, Hnone, bind_of_Ok by done. rewrite <- Hlen.
  replace (_ >=? PathBufferSize a) with true by lia.
  destruct (iot_send_ok a s0 w) as (s1 & w1 & h & -> & Hsent & Hn & Hd & Hb & Hpn & Hpl & _). rewrite bind_of_Ok.
  cbn [fst snd]. destruct (path_added a s1 [] path (paths_reset a s1 Hpn Hpl) Hp) as (buf & -> & _); [rewrite Hpl; lia|].
  rewrite !bind_of_Ok. cbn [fst snd set_pathnames set_tls t_tls set_nesting t_nesting_depth]. rewrite Hn.
  change (u32 (0 - 1)) with (2 ^ 32 - 1). cbn [Z.gtb Z.compare].
  eexists _, w1, h. split; [reflexivity|]. change (blob s0) with (blob s) in Hsent.
  cbn [set_tls set_pathnames t_tls set_nesting t_buffer t_nesting_depth t_do_trace]. rewrite Hb.
  split_and!; [exact Hsent|done|done|exact Hd|]. intros name. unfold do_trace.
  change (t_do_trace (set_nesting _ _)) with (t_do_trace (t_tls s1)). by rewrite Hd.
Qed.

(** The first event of an empty buffer. *)
Lemma add_trace_reset {P} SB EB (d : traced_event P) frames :
  Forall (fun x => x <> 0) frames -> Z.of_nat (length frames) < SB ->
  exists st ab ae, add_trace false frames (reset_traces SB EB d) =
    Ok (mkTraceBuffer st (Z.of_nat (length frames) + 1) (replicate (Z.to_nat EB) d) 0 ab ae).
Proof.
  intros Hnz Hlen. unfold add_trace, reset_traces. cbn [tb_stacktraces tb_stacktraces_len tb_events tb_events_len tb_addr_begin tb_addr_end].
  replace (Z.to_nat SB) with (length frames + S (Z.to_nat SB - length frames - 1))%nat by lia.
  rewrite replicate_add.
  pose proof (store_frames_app false frames 0 0 [] (replicate (length frames) 0)
    (replicate (S (Z.to_nat SB - length frames - 1)) 0) UINT64_MAX 0 Hnz eq_refl (length_replicate _ _)) as Hst.
  cbn [app] in Hst. rewrite Hst, bind_of_Ok. cbn [fst snd app replicate]. rewrite insert_after, bind_of_Ok by lia. by eexists _, _, _.
Qed.

Lemma add_event_first {P} (p : P) st len n d ab ae : (0 < n)%nat ->
  add_event p 0 (mkTraceBuffer st len (replicate n d) 0 ab ae) =
    Ok (mkTraceBuffer st len (mkEvent p 0 :: replicate (n - 1) d) 1 ab ae).
Proof. destruct n as [|n]; [lia|]. intros _. unfold add_event. cbn. by rewrite Nat.sub_0_r. Qed.

(** Past the end of the names there is only the empty one. *)
Lemma path_at_empty s n i : t_pathnames s = replicate n 0 -> path_at s i = [].
Proof.
  intros H. unfold path_at, trace_at. rewrite H, drop_replicate. by destruct (n - _)%nat.
Qed.

(** When the call path of an event does not fit in the buffer of stack traces,
    the blob is sent after the index of the path name was taken, and the path names
    go with it: the event is stored in the new blob, where its index leads to the
    empty name, although the file has a name. *)
Theorem iot_stack_flush_loses_path {W} {SV : Services W iot_data} {SL : ServicesLaws W iot_data}
    (a : arch) (keep : Z -> bool) (s : IOT) (w : W) (ps1 ps2 : list (list Z)) (path : list Z) (ev : iot_event)
    (function : Z) (cursor : list frame) (frames : list Z) :
  paths_inv a s (ps1 ++ path :: ps2) -> current_path (t_currentpathname s) = path -> (2 <= length path)%nat ->
  find_entry false path 1 (ps1 ++ path :: ps2) = Some (1 + Z.of_nat (length (flat_traces ps1))) ->
  t_pathnames_len s < PathBufferSize a -> t_nesting_depth (t_tls s) = 1 ->
  call_path (iot a) keep function cursor = frames -> trace_ok frames ->
  search_entry (tb_stacktraces (t_buffer (t_tls s))) (tb_stacktraces_len (t_buffer (t_tls s))) frames = Ok None ->
  tr_stack_size (iot a) <= tb_stacktraces_len (t_buffer (t_tls s)) + Z.of_nat (length frames) + 1 ->
  exists s' w' h e, io_record_event a keep ev function cursor (s, w) = Ok (s', w') /\
    sent w' = sent w ++ [(h, blob s)] /\
    id_events (blob s') = [mkEvent e 0] /\ it_pathindex e = 1 + Z.of_nat (length (flat_traces ps1)) /\
    path_at s' (it_pathindex e) = [] /\ path <> [].
Proof.
  intros [[rest Hs] Hsize Hlen Hok] Hcur Hl Hfind Hpl Hn Hcp [Hfne Hfnz] Hsearch Hfull. unfold io_record_event.
  cbn [fst snd]. set (s0 := set_tls _ _). replace (t_currentpathname s0) with (t_currentpathname s) by done. rewrite Hcur.
  assert (Hok' := Hok). apply Forall_app in Hok' as [_ Hok']. apply Forall_inv in Hok' as [Hpne Hpnz].
  unfold path_position. cbn [fst snd]. change (t_pathnames s0) with (t_pathnames s).
  change (t_pathnames_len s0) with (t_pathnames_len s).
  rewrite Hs, Hlen, path_search, Hfind, !bind_of_Ok by done. cbn [fst snd].
  change (t_nesting_depth (t_tls s0)) with (t_nesting_depth (t_tls s)). rewrite Hn.
  set (tls2 := set_nesting _ _). change (t_nesting_depth tls2) with 0. cbn [Z.gtb Z.compare].
  unfold CBTF_GetStackTraceFromContext. rewrite bind_of_Ok, unwind_loop_spec by (vm_compute; congruence).
  rewrite Z.sub_0_r, app_nil_l, bind_of_Ok. fold (call_path (iot a) keep function cursor). rewrite Hcp.
  unfold record_traced, trace_position. cbn [fst snd]. set (s2 := set_tls tls2 s0).
  change (t_buffer (t_tls s2)) with (t_buffer (t_tls s)). rewrite Hsearch, bind_of_Ok.
  replace (_ >=? tr_stack_size (iot a)) with true by lia.
  destruct (iot_send_ok a s2 w) as (s3 & w3 & h & -> & Hsent & _ & _ & Hb & Hpn & Hpl3 & _). rewrite bind_of_Ok.
  cbn [fst snd]. rewrite Hb.
  assert (Hfl : Z.of_nat (length frames) < tr_stack_size (iot a)).
  { rewrite <- Hcp. pose proof (tracer_path_length (iot a) keep (proj1 (iot_ok a)) function cursor) as Hpl'.
    change (tr_frames (iot a)) with 64 in Hpl'. assert (64 < tr_stack_size (iot a)) by (destruct a; by vm_compute). lia. }
  destruct (add_trace_reset (tr_stack_size (iot a)) (tr_event_size (iot a)) (mkEvent zero_iot 0) frames Hfnz Hfl)
    as (st & ab & ae & ->).
  rewrite !bind_of_Ok. cbn [fst snd set_tls t_tls set_buffer t_buffer reset_traces tb_stacktraces_len].
  rewrite add_event_first, bind_of_Ok by (destruct a; vm_compute; lia). cbn [tb_events_len].
  replace (1 =? tr_event_size (iot a)) with false by (by destruct a). rewrite bind_of_Ok.
  set (e := set_pathindex _ ev). eexists _, w3, h, e. split; [reflexivity|].
  split_and!; [exact Hsent|reflexivity| | |done].
  - unfold e. cbn [set_pathindex it_pathindex]. apply u16_small.
    rewrite flat_traces_app, length_app in Hlen. assert (PathBufferSize a <= 2 ^ 16) by (destruct a; by vm_compute). lia.
  - by apply (path_at_empty _ (Z.to_nat (PathBufferSize a))).
Qed.

(** A file whose name is the beginning of a name recorded earlier in the blob is
    recorded under that longer name. *)
Theorem iot_prefix_taken_for_path {W} {SV : Services W iot_data} (a : arch) (s : IOT) (w : W) (path more : list Z) :
  paths_inv a s [path ++ more] -> (2 <= length path)%nat -> Forall (fun x => x <> 0) path -> more <> [] ->
  path_position a path (s, w) = Ok (1, (s, w)) /\ path_at s 1 = path ++ more /\ path_at s 1 <> path.
Proof.
  intros [[rest Hs] _ Hlen Hok] Hl Hnz Hmore.
  assert (Hat : path_at s 1 = path ++ more).
  { apply (path_at_split s [] (path ++ more) [] rest); [exact Hs|by apply Forall_inv in Hok]. }
  split_and!; [|exact Hat|].
  - unfold path_position. cbn [fst snd]. rewrite Hs, Hlen, path_search, bind_of_Ok by done. cbn [find_entry].
    rewrite bool_decide_true; [done|]. destruct path as [|c path]; [simpl in Hl; lia|]. cbn [app tail]. by exists more.
  - rewrite Hat. intros H. apply Hmore. rewrite <- (app_nil_r path) in H at 2. by apply app_inv_head in H.
Qed.

(** A traced function on a file descriptor without a link in /proc, a closed one
    for example, or with a name of 1024 characters, writes outside namebuf. *)
Theorem iot_missing_link_faults {W} {SV : Services W iot_data} {SL : ServicesLaws W iot_data} (a : arch)
    (addr_of : string -> Z) (keep : Z -> bool) (SYS : string -> Z) (string_at : Z -> list Z)
    (readlink : Z -> W -> option (list Z)) (c : io_call) (fd retval : Z) (cursor : list frame) (s : IOT) (w : W) :
  io_path c = PathFd fd -> t_do_trace (t_tls s) = true -> io_name c ∈ strtok_all (t_traced (t_tls s)) ->
  (forall w', readlink fd w' = None) ->
  iot_wrapper a addr_of keep SYS string_at readlink c cursor (fun s => Ok (retval, s)) (s, w) = Fault.
Proof.
  intros Hp Hd Hin Hr. unfold iot_wrapper, do_trace. cbn [fst snd]. rewrite Hd. cbn [negb].
  rewrite bool_decide_true by done. cbn [fst snd].
  destruct (time_law w) as (t0 & w1 & -> & _ & _). rewrite bind_of_Ok, Hp, !bind_of_Ok. cbn [fst snd].
  destruct (time_law w1) as (t1 & w2 & -> & _ & _). rewrite bind_of_Ok. cbn [fst snd]. unfold link_path. cbn [fst snd].
  by rewrite Hr.
Qed.

(** ** An example: the file "/a" in an otherwise empty buffer *)
Definition example_iot (names : list Z) (len : Z) (stacks : Z) : IOT :=
  let b := reset_traces (tr_stack_size (iot arch_other)) (tr_event_size (iot arch_other)) (mkEvent zero_iot 0) in
  mkIOT (mkTLS (mkDataHeader 0 1 "" "n0" 1 1 (-1) 0 0 0 0 0)
      (mkTraceBuffer (replicate (Z.to_nat stacks) 7 ++ replicate (Z.to_nat (tr_stack_size (iot arch_other) - stacks)) 0) stacks
         (tb_events b) 0 UINT64_MAX 0) traceable 1 true false)
    (0 :: names ++ replicate (Z.to_nat (PathBufferSize arch_other) - length names - 1) 0) len
    ([47; 97] ++ replicate (Z.to_nat PATH_MAX - 2) 0).

Lemma example_paths names len stacks ps :
  names = flat_traces ps -> len = 1 + Z.of_nat (length names) -> len <= PathBufferSize arch_other -> Forall trace_ok ps ->
  paths_inv arch_other (example_iot names len stacks) ps.
Proof.
  intros -> Hlen Hfit Hok. constructor; cbn [example_iot t_pathnames t_pathnames_len]; [by eexists| |done|done].
  cbn [length]. rewrite length_app, length_replicate. lia.
Qed.

Lemma iot_path_index_witness :
  exists i s', path_position arch_other [47; 98] (example_iot [47; 97; 0] 4 0, quiet_world iot_data) =
      Ok (i, (s', quiet_world iot_data)) /\
    path_at s' i = [47; 98] /\ path_at s' 1 = [47; 97].
Proof.
  destruct (iot_path_index arch_other (example_iot [47; 97; 0] 4 0) (quiet_world iot_data) [[47; 97]] [47; 98])
    as (i & s' & ps' & H & _ & _ & _ & Hi & _ & Hold).
  - apply example_paths; [done..|]. apply Forall_singleton. split; [done|by repeat constructor].
  - split; [done|by repeat constructor].
  - simpl. lia.
  - intros q Hq Hpre. apply list_elem_of_singleton in Hq as ->. simpl in Hpre. by apply prefix_cons_inv_1 in Hpre.
  - vm_compute. reflexivity.
  - exists i, s'. split; [exact H|]. split; [exact Hi|]. exact (Hold [] [47; 97] [] eq_refl).
Defined.

(** A name as long as the buffer but for two places is already there. *)
Lemma iot_full_path_buffer_witness :
  let name := replicate 30716 98 in
  exists s' w', io_record_event arch_other (fun _ => true) zero_iot 100 []
      (example_iot (name ++ [0]) 30718 0, quiet_world iot_data) = Ok (s', w') /\
    t_do_trace (t_tls s') = false.
Proof.
  intros name.
  destruct (iot_full_path_buffer_stops_tracing arch_other (fun _ => true) (example_iot (name ++ [0]) 30718 0)
    (quiet_world iot_data) [name] [47; 97] zero_iot 100 []) as (s' & w' & h & H & _ & _ & _ & Hd & _).
  - apply example_paths; [by rewrite flat_traces_cons|by vm_compute|by vm_compute|].
    apply Forall_singleton. split; [done|]. by apply Forall_replicate.
  - reflexivity.
  - split; [done|by repeat constructor].
  - simpl. lia.
  - reflexivity.
  - by vm_compute.
  - by vm_compute.
  - exists s', w'. split; [exact H|exact Hd].
Defined.

Lemma iot_stack_flush_witness :
  exists s' w' e, io_record_event arch_other (fun _ => true) zero_iot 100 (example_cursor 20)
      (example_iot [47; 97; 0] 4 5758, quiet_world iot_data) = Ok (s', w') /\
    id_events (blob s') = [mkEvent e 0] /\ path_at s' (it_pathindex e) = [].
Proof.
  destruct (iot_stack_flush_loses_path arch_other (fun _ => true) (example_iot [47; 97; 0] 4 5758)
    (quiet_world iot_data) [] [] [47; 97] zero_iot 100 (example_cursor 20) [100; 20; 10])
    as (s' & w' & h & e & H & _ & He & _ & Hp & _).
  - apply example_paths; [done..|]. apply Forall_singleton. split; [done|by repeat constructor].
  - reflexivity.
  - simpl. lia.
  - reflexivity.
  - by vm_compute.
  - reflexivity.
  - reflexivity.
  - split; [done|by repeat constructor].
  - vm_compute. reflexivity.
  - by vm_compute.
  - exists s', w', e. split; [exact H|]. split; [exact He|exact Hp].
Defined.
