(* ===== verification/Mem.v ===== *)
(** The memory call tracing collector: core/collectors/mem/collector.c and the
    shape of its function wrappers (wrappers.c). Events go through the trace
    buffer of TraceBuffer.v. The main theorem shows that traced calls reach the
    framework exactly once, in order and with their call path; the last one that
    a nested traced call turns tracing off. *)
From S2P Require Import Prelude Probe PCIndex Headers Services Unwind StackBuffer TraceBuffer.

Inductive mem_type := MEM_UNKNOWN | MEM_MALLOC | MEM_CALLOC | MEM_REALLOC | MEM_FREE | MEM_MEMALIGN | MEM_POSIX_MEMALIGN.

(** The fields of CBTF_memt_event the wrappers fill in. *)
Record memt_event := mkMemt {
  me_start_time : Z;
  me_stop_time : Z;
  me_retval : Z;
  me_ptr : Z;
  me_size1 : Z;
  me_size2 : Z;
  me_type : mem_type
}.
Definition zero_memt : memt_event := mkMemt 0 0 0 0 0 0 MEM_UNKNOWN.

(** CBTF_mem_exttrace_data as it is on the wire. *)
Record mem_data := mkMemData {
  md_stacktraces : list Z;
  md_events : list (traced_event memt_event)
}.

Definition mem_unique_id : string := "mem".
Definition OverheadFrameCount : Z := 2.
Definition MaxFramesPerStackTrace : Z := 48.
Definition StackTraceBufferSize (a : arch) : Z := CBTF_BlobSizeFactor a * 384.
Definition EventBufferSize (a : arch) : Z := CBTF_BlobSizeFactor a * 100.
Definition traceable : string := "malloc,free,memalign,posix_memalign,calloc,realloc".

(** Thread-local storage; the address range of the header is kept in the buffer. *)
Record TLS := mkTLS {
  t_header : CBTF_DataHeader;
  t_buffer : trace_buffer memt_event;
  t_mem_traced : string;
  t_nesting_depth : Z;
  t_do_trace : bool;
  t_defer : bool;
  t_event_count : Z
}.

Definition set_header (h : CBTF_DataHeader) (t : TLS) : TLS :=
  mkTLS h (t_buffer t) (t_mem_traced t) (t_nesting_depth t) (t_do_trace t) (t_defer t) (t_event_count t).
Definition set_buffer (b : trace_buffer memt_event) (t : TLS) : TLS :=
  mkTLS (t_header t) b (t_mem_traced t) (t_nesting_depth t) (t_do_trace t) (t_defer t) (t_event_count t).
Definition set_traced (s : string) (t : TLS) : TLS :=
  mkTLS (t_header t) (t_buffer t) s (t_nesting_depth t) (t_do_trace t) (t_defer t) (t_event_count t).
Definition set_nesting (n : Z) (t : TLS) : TLS :=
  mkTLS (t_header t) (t_buffer t) (t_mem_traced t) n (t_do_trace t) (t_defer t) (t_event_count t).
Definition set_do_trace (d : bool) (t : TLS) : TLS :=
  mkTLS (t_header t) (t_buffer t) (t_mem_traced t) (t_nesting_depth t) d (t_defer t) (t_event_count t).
Definition set_defer (d : bool) (t : TLS) : TLS :=
  mkTLS (t_header t) (t_buffer t) (t_mem_traced t) (t_nesting_depth t) (t_do_trace t) d (t_event_count t).
Definition set_event_count (n : Z) (t : TLS) : TLS :=
  mkTLS (t_header t) (t_buffer t) (t_mem_traced t) (t_nesting_depth t) (t_do_trace t) (t_defer t) n.

Section mem.
Context {W : Type} {SV : Services W mem_data} (a : arch) (fileio : bool) (keep : Z -> bool).
Notation SB := (StackTraceBufferSize a).
Notation EB := (EventBufferSize a).

Definition defer_trace (d : bool) (tls : TLS) : TLS := set_do_trace d tls.

Definition initialize_data (tls : TLS) (w : W) : outcome (TLS * W) :=
  r ← CBTF_GetTime w;
  let header := with_addrs (with_times (t_header tls) r.1 0) UINT64_MAX 0 in
  Ok (set_header header (set_buffer (reset_traces SB EB (mkEvent zero_memt 0)) (set_nesting 0 tls)), r.2).

Definition blob (tls : TLS) : mem_data :=
  let b := t_buffer tls in
  mkMemData (take (Z.to_nat (tb_stacktraces_len b)) (tb_stacktraces b))
    (take (Z.to_nat (tb_events_len b)) (tb_events b)).

Definition send_samples (s : TLS * W) : outcome (TLS * W) :=
  let (tls0, w) := s in
  let saved_do_trace := t_do_trace tls0 in
  let tls := set_do_trace false tls0 in
  r ← CBTF_GetTime w;
  let h := with_id (t_header tls) mem_unique_id in
  let header := with_rank (with_addrs (with_times h (dh_time_begin h) r.1)
                  (tb_addr_begin (t_buffer tls)) (tb_addr_end (t_buffer tls)))
                  (monitor_mpi_comm_rank r.2) in
  let tls1 := set_header header tls in
  w2 ← cbtf_collector_send header (blob tls1) r.2;
  q ← initialize_data tls1 w2;
  Ok (set_do_trace saved_do_trace q.1, q.2).

(** The nesting depth goes up; the event record is zeroed by the caller's copy. *)
Definition mem_start_event (tls : TLS) : TLS :=
  let saved_do_trace := t_do_trace tls in
  let tls1 := set_do_trace false tls in
  let tls2 := set_nesting (u32 (t_nesting_depth tls1 + 1)) tls1 in
  set_do_trace saved_do_trace tls2.

(** [cursor] is the stack of the caller, for the unwinder. *)
Definition mem_record_event (ev : memt_event) (function : Z) (cursor : list frame) (s : TLS * W)
  : outcome (TLS * W) :=
  let saved_do_trace := t_do_trace s.1 in
  let tls1 := set_event_count (i32 (t_event_count s.1 + 1)) (set_do_trace false s.1) in
  let tls2 := set_nesting (u32 (t_nesting_depth tls1 - 1)) tls1 in
  if t_nesting_depth tls2 >? 0 then Ok (tls2, s.2) else
    fs ← CBTF_GetStackTraceFromContext keep false cursor false OverheadFrameCount MaxFramesPerStackTrace;
    r ← record_traced true SB EB (fun s => t_buffer s.1) (fun b s => (set_buffer b s.1, s.2)) send_samples
          ev (replace_top function fs) (tls2, s.2);
    Ok (set_do_trace saved_do_trace r.1, r.2).

(** strcpy() into CBTF_mem_traced[PATH_MAX]. *)
Definition strcpy_traced (str : string) (tls : TLS) : outcome TLS :=
  if Z.of_nat (String.length str) <? PATH_MAX then Ok (set_traced str tls) else Fault.

Definition cbtf_collector_start (header : CBTF_DataHeader) (tls : TLS) (w : W) : outcome (TLS * W) :=
  let tls1 := set_event_count 0 (set_do_trace false (set_defer true tls)) in
  let traced := match getenv w "CBTF_MEM_TRACED" with
                | Some s => if String.eqb s "" then traceable else s
                | None => traceable
                end in
  tls2 ← strcpy_traced traced tls1;
  r ← initialize_data (set_header header tls2) w;
  t ← CBTF_GetTime r.2;
  let h := t_header r.1 in
  let tls3 := set_header (with_times h t.1 (dh_time_end h)) (set_nesting 0 r.1) in
  if (if fileio then cbtf_mpi_init_done t.2 else cbtf_connected_to_mrnet t.2)
  then Ok (set_do_trace true (set_defer false tls3), t.2)
  else Ok (tls3, t.2).

Definition cbtf_collector_pause (tls : TLS) : TLS := set_do_trace false (set_defer true tls).
Definition cbtf_collector_resume (tls : TLS) : TLS := set_do_trace true (set_defer false tls).

Definition cbtf_collector_stop (s : TLS * W) : outcome (TLS * W) :=
  r ← CBTF_GetTime s.2;
  let h := t_header s.1 in
  let tls1 := defer_trace false (set_header (with_times h (dh_time_begin h) r.1) s.1) in
  if (tb_events_len (t_buffer tls1) >? 0) && (tb_stacktraces_len (t_buffer tls1) >? 0)
  then send_samples (tls1, r.2) else Ok (tls1, r.2).

(** --nesting_depth where do_trace finds it above 1. *)
Definition unnest (tls : TLS) : TLS :=
  if t_nesting_depth tls >? 1 then set_nesting (t_nesting_depth tls - 1) tls else tls.

(** The copy strtok_r works on is made by strdup() and released by free(), whose
    own allocation calls come back to this function through the wrappers while
    do_trace is 0; [reenters] says whether libc's calls are interposed. *)
Definition mem_do_trace (reenters : bool) (traced_func : string) (tls : TLS) : bool * TLS :=
  if negb (t_do_trace tls) then (false, unnest tls) else
    let reenter := if reenters then unnest else id in
    let toks := strtok_all (t_mem_traced tls) in
    let tls1 := reenter (set_do_trace false tls) in
    if bool_decide (traced_func ∈ toks) then
      (* only a match on the first token frees the copy *)
      let tls2 := if bool_decide (head toks = Some traced_func) then reenter tls1 else tls1 in
      (true, set_do_trace (t_do_trace tls) tls2)
    else (false, set_do_trace (t_do_trace tls) (unnest tls1)).

(** What the six wrappers share: [real] is the wrapped function with the state it
    leaves (it may call wrapped functions itself), [mk] fills in the event. *)
Definition wrapper (reenters : bool) (name : string) (function : Z) (cursor : list frame)
    (mk : Z -> Z -> Z -> memt_event) (real : TLS * W -> outcome (Z * (TLS * W))) (s : TLS * W)
  : outcome (Z * (TLS * W)) :=
  let (dotrace, tls1) := mem_do_trace reenters name s.1 in
  if (dotrace : bool) then
    t0 ← CBTF_GetTime s.2;
    r ← real (mem_start_event tls1, t0.2);
    t1 ← CBTF_GetTime r.2.2;
    s' ← mem_record_event (mk t0.1 t1.1 r.1) function cursor (r.2.1, t1.2);
    Ok (r.1, s')
  else real (tls1, s.2).

(** The wrappers of wrappers.c. [function] is the address of the real function and
    [cursor] what the unwinder finds. *)
Section wrappers.
Context (reenters : bool) (function : Z) (cursor : list frame).
Context (real : TLS * W -> outcome (Z * (TLS * W))).

Definition malloc (size : Z) : TLS * W -> outcome (Z * (TLS * W)) :=
  wrapper reenters "malloc" function cursor
    (fun t0 t1 retval => mkMemt t0 t1 retval 0 size size MEM_MALLOC) real.

Definition calloc (count size : Z) : TLS * W -> outcome (Z * (TLS * W)) :=
  wrapper reenters "calloc" function cursor
    (fun t0 t1 retval => mkMemt t0 t1 retval 0 count size MEM_CALLOC) real.

Definition realloc (oldPtr size : Z) : TLS * W -> outcome (Z * (TLS * W)) :=
  wrapper reenters "realloc" function cursor
    (fun t0 t1 retval => mkMemt t0 t1 retval oldPtr size size MEM_REALLOC) real.

(** [memptr] is what *memptr holds after the call. *)
Definition posix_memalign (memptr alignment size : Z) : TLS * W -> outcome (Z * (TLS * W)) :=
  wrapper reenters "posix_memalign" function cursor
    (fun t0 t1 retval => mkMemt t0 t1 (u64 retval) memptr alignment size MEM_POSIX_MEMALIGN) real.

(** Declared as int memalign(): the pointer is converted to int. *)
Definition memalign (blocksize bytes : Z) : TLS * W -> outcome (Z * (TLS * W)) :=
  wrapper reenters "memalign" function cursor
    (fun t0 t1 retval => mkMemt t0 t1 (u64 retval) 0 blocksize bytes MEM_MEMALIGN)
    (fun s => r ← real s; Ok (i32 r.1, r.2)).

Definition free (ptr : Z) (s : TLS * W) : outcome (Z * (TLS * W)) :=
  if ptr =? 0 then real ((mem_do_trace reenters "free" s.1).2, s.2)
  else wrapper reenters "free" function cursor (fun t0 t1 _ => mkMemt t0 t1 0 ptr 0 0 MEM_FREE) real s.
End wrappers.
End mem.

(** A call the program makes, with what it finds in *memptr after posix_memalign. *)
Inductive mem_call :=
| Malloc (size : Z)
| Calloc (count size : Z)
| Realloc (oldPtr size : Z)
| PosixMemalign (memptr alignment size : Z)
| Memalign (blocksize bytes : Z)
| Free (ptr : Z).

(** The calls of a run: one wrapped call, not nested, for which the real function
    returns [retval], or a control call. *)
Inductive event :=
| Call (c : mem_call) (retval function : Z) (cursor : list frame)
| Pause
| Resume.

(** What is to be known of a call: its name, whether it does anything, the record
    of it without times and what the program gets back. *)
Definition call_name (c : mem_call) : string :=
  match c with
  | Malloc _ => "malloc" | Calloc _ _ => "calloc" | Realloc _ _ => "realloc"
  | PosixMemalign _ _ _ => "posix_memalign" | Memalign _ _ => "memalign" | Free _ => "free"
  end.
Definition call_counts (c : mem_call) : bool := match c with Free ptr => negb (ptr =? 0) | _ => true end.
Definition call_returns (c : mem_call) (retval : Z) : Z := match c with Memalign _ _ => i32 retval | _ => retval end.
Definition call_record (c : mem_call) (retval : Z) : memt_event :=
  match c with
  | Malloc size => mkMemt 0 0 retval 0 size size MEM_MALLOC
  | Calloc count size => mkMemt 0 0 retval 0 count size MEM_CALLOC
  | Realloc old size => mkMemt 0 0 retval old size size MEM_REALLOC
  | PosixMemalign p alignment size => mkMemt 0 0 (u64 retval) p alignment size MEM_POSIX_MEMALIGN
  | Memalign blocksize bytes => mkMemt 0 0 (u64 (i32 retval)) 0 blocksize bytes MEM_MEMALIGN
  | Free ptr => mkMemt 0 0 0 ptr 0 0 MEM_FREE
  end.

(** An event without its times. *)
Definition erase (e : memt_event) : memt_event :=
  mkMemt 0 0 (me_retval e) (me_ptr e) (me_size1 e) (me_size2 e) (me_type e).

Section runs.
Context {W : Type} {SV : Services W mem_data} (a : arch) (keep : Z -> bool) (reenters : bool).

Definition do_call (c : mem_call) (function : Z) (cursor : list frame)
    (real : TLS * W -> outcome (Z * (TLS * W))) : TLS * W -> outcome (Z * (TLS * W)) :=
  match c with
  | Malloc size => malloc a keep reenters function cursor real size
  | Calloc count size => calloc a keep reenters function cursor real count size
  | Realloc old size => realloc a keep reenters function cursor real old size
  | PosixMemalign p al size => posix_memalign a keep reenters function cursor real p al size
  | Memalign bs bytes => memalign a keep reenters function cursor real bs bytes
  | Free ptr => free a keep reenters function cursor real ptr
  end.

(** The values handed to the program and the state at the end. *)
Fixpoint run (evs : list event) (s : TLS * W) : outcome (list Z * (TLS * W)) :=
  match evs with
  | [] => Ok ([], s)
  | Call c retval function cursor :: evs' =>
      r ← do_call c function cursor (fun s => Ok (retval, s)) s;
      rs ← run evs' r.2;
      Ok (r.1 :: rs.1, rs.2)
  | Pause :: evs' => run evs' (cbtf_collector_pause s.1, s.2)
  | Resume :: evs' => run evs' (cbtf_collector_resume s.1, s.2)
  end.

(** The call path the collector records for a call. *)
Definition call_path (function : Z) (cursor : list frame) : list Z :=
  replace_top function (take (Z.to_nat MaxFramesPerStackTrace)
    (List.filter keep (fr_pc <$> drop (Z.to_nat OverheadFrameCount) cursor))).

(** The calls that are to be traced, by the flags alone. *)
Fixpoint accepted (traced : string) (tracing : bool) (evs : list event) : list (memt_event * list Z) :=
  match evs with
  | [] => []
  | Call c retval function cursor :: evs' =>
      (if tracing && bool_decide (call_name c ∈ strtok_all traced) && call_counts c
       then [(call_record c retval, call_path function cursor)] else []) ++ accepted traced tracing evs'
  | Pause :: evs' => accepted traced false evs'
  | Resume :: evs' => accepted traced true evs'
  end.
End runs.

(** What the program is to get back from its calls. *)
Fixpoint returned (evs : list event) : list Z :=
  match evs with
  | [] => []
  | Call c retval _ _ :: evs' => call_returns c retval :: returned evs'
  | _ :: evs' => returned evs'
  end.

(** What a reader finds in the blobs, times erased. *)
Definition delivered (blobs : list (CBTF_DataHeader * mem_data)) : list (memt_event * list Z) :=
  concat ((fun hd => decode_events (md_stacktraces hd.2) (md_events hd.2)) <$> blobs).

Definition erase_all (l : list (memt_event * list Z)) : list (memt_event * list Z) :=
  (fun r => (erase r.1, r.2)) <$> l.

Lemma mem_delivered_snoc l h d :
  delivered (l ++ [(h, d)]) = delivered l ++ decode_events (md_stacktraces d) (md_events d).
Proof. unfold delivered. rewrite fmap_app, concat_app. simpl. by rewrite app_nil_r. Qed.

Section correctness.
Context {W : Type} {SV : Services W mem_data} {SL : ServicesLaws W mem_data}.
Context (a : arch) (keep : Z -> bool) (root : Z) (T : list Z -> Prop) (paths : call_paths root T).
Notation SB := (StackTraceBufferSize a).
Notation EB := (EventBufferSize a).

Lemma mem_sizes : 0 < SB <= 2 ^ 16 /\ 0 < EB /\ MaxFramesPerStackTrace + 1 < SB.
Proof. destruct a; repeat split; vm_compute; congruence. Qed.

(** Since [w0] the blobs sent decode to [dn], and the buffer holds [cur]. *)
Definition mem_inv (w0 : W) (traced : string) (n : Z) (d : bool) (s : TLS * W)
    (dn cur : list (memt_event * list Z)) : Prop :=
  traces_inv T SB EB (t_buffer s.1) cur /\
  (exists new, sent s.2 = sent w0 ++ new /\ delivered new = dn) /\
  t_mem_traced s.1 = traced /\ t_nesting_depth s.1 = n /\ t_do_trace s.1 = d.

Lemma mem_send_ok w0 traced d s dn cur :
  mem_inv w0 traced 0 d s dn cur ->
  exists s', send_samples a s = Ok s' /\ mem_inv w0 traced 0 d s' (dn ++ cur) [] /\
    tb_stacktraces_len (t_buffer s'.1) = 0.
Proof.
  destruct s as [tls w]. intros (Hb & (new & Hs & Hdel) & Htr & Hn & Hd). cbn [fst snd] in *.
  unfold send_samples. destruct (time_law w) as (t & w1 & -> & _ & Hs1). rewrite bind_of_Ok.
  match goal with |- context [cbtf_collector_send ?h ?b ?w'] =>
    destruct (send_law h b w') as (w3 & -> & Hs3) end. rewrite bind_of_Ok.
  unfold initialize_data. destruct (time_law w3) as (t' & w4 & -> & _ & Hs4). rewrite !bind_of_Ok.
  eexists. split_and!; [reflexivity| |done]. split_and!; cbn [fst snd]; try done.
  - destruct mem_sizes as (? & ? & _). apply traces_reset; lia.
  - eexists (new ++ [_]). split; [rewrite Hs4, Hs3; cbn [snd]; by rewrite Hs1, Hs, <- app_assoc|].
    rewrite mem_delivered_snoc, Hdel. f_equal. cbn [md_stacktraces md_events blob].
    by apply (traces_decode root T paths SB EB).
Qed.

Lemma call_path_length f cursor :
  Z.of_nat (length (call_path keep f cursor)) <= MaxFramesPerStackTrace.
Proof.
  unfold call_path. set (fs := take _ _).
  assert (length fs <= 48)%nat as Hfs by (unfold fs; rewrite length_take; apply Nat.le_min_l).
  clearbody fs. assert (length (replace_top f fs) = length fs) as -> by (by destruct fs).
  unfold MaxFramesPerStackTrace. lia.
Qed.

(** Recording the event of an outermost call. *)
Lemma mem_record_ok w0 traced d s dn cur ev f cursor :
  mem_inv w0 traced 1 d s dn cur -> Z.of_nat (length cur) < EB -> T (call_path keep f cursor) ->
  exists s' dn' cur', mem_record_event a keep ev f cursor s = Ok s' /\
    mem_inv w0 traced 0 d s' dn' cur' /\
    dn' ++ cur' = dn ++ cur ++ [(ev, call_path keep f cursor)] /\ Z.of_nat (length cur') < EB.
Proof.
  destruct s as [tls w]. intros (Hb & Hs & Htr & Hn & Hd) Hroom HT. cbn [fst snd] in *.
  unfold mem_record_event. cbn [fst snd]. set (tls2 := set_nesting _ _).
  replace (t_nesting_depth tls2) with 0 by (unfold tls2; simpl; by rewrite Hn).
  cbn [Z.gtb Z.compare]. unfold CBTF_GetStackTraceFromContext. rewrite bind_of_Ok.
  rewrite unwind_loop_spec by (vm_compute; congruence).
  rewrite Z.sub_0_r, app_nil_l, bind_of_Ok. fold (call_path keep f cursor).
  destruct mem_sizes as (Hsb & Heb & Hmax).
  destruct (record_traced_ok root T paths true SB EB Hsb Heb (fun s : TLS * W => t_buffer s.1)
    (fun b s => (set_buffer b s.1, s.2)) (send_samples a) (mem_inv w0 traced 0 false)) with
    (s := (tls2, w)) (dn := dn) (cur := cur) (p := ev) (frames := call_path keep f cursor)
    as (s' & dn' & cur' & -> & HI & Happ & Hlen); try done.
  - intros s dn0 cur0 Hi. apply Hi.
  - intros s dn0 cur0 cur1 b (_ & Hrest) Hb1. by split.
  - intros s dn0 cur0 Hi. by apply mem_send_ok.
  - split_and!; try done. unfold tls2. simpl. by rewrite Hn.
  - pose proof (call_path_length f cursor). lia.
  - rewrite bind_of_Ok. eexists _, dn', cur'. split_and!; [reflexivity| |done..].
    destruct HI as (H1 & H2 & H3 & H4 & H5). split_and!; done.
Qed.
(** Outside nested calls the test has no side effect. *)
Lemma mem_do_trace_outer reenters name tls :
  t_nesting_depth tls <= 1 ->
  mem_do_trace reenters name tls =
    (t_do_trace tls && bool_decide (name ∈ strtok_all (t_mem_traced tls)), tls).
Proof.
  intros Hn. assert (Hun : forall t, t_nesting_depth t <= 1 -> unnest t = t).
  { intros t Ht. unfold unnest. by replace (_ >? 1) with false by lia. }
  assert (Hre : forall t, t_nesting_depth t <= 1 -> (if reenters then unnest else id) t = t).
  { intros t Ht. destruct reenters; [by apply Hun|done]. }
  unfold mem_do_trace. destruct tls as [h b tr n d df c]. simpl in *.
  destruct d; simpl; [|by rewrite Hun].
  rewrite !Hre by (simpl; try done; rewrite Hre; done).
  case_bool_decide; [|by rewrite Hun]. by case_bool_decide; rewrite ?Hre.
Qed.

Lemma wrapper_ok w0 traced d reenters s dn cur name f cursor mk r :
  mem_inv w0 traced 0 d s dn cur -> Z.of_nat (length cur) < EB ->
  (d && bool_decide (name ∈ strtok_all traced) = true -> T (call_path keep f cursor)) ->
  exists s' dn' cur', wrapper a keep reenters name f cursor mk (fun s => Ok (r, s)) s = Ok (r, s') /\
    mem_inv w0 traced 0 d s' dn' cur' /\ Z.of_nat (length cur') < EB /\
    if d && bool_decide (name ∈ strtok_all traced)
    then exists t0 t1, dn' ++ cur' = dn ++ cur ++ [(mk t0 t1 r, call_path keep f cursor)]
    else dn' ++ cur' = dn ++ cur.
Proof.
  destruct s as [tls w]. intros HI Hroom HT. pose proof HI as (Hb & Hs & Htr & Hn & Hd).
  cbn [fst snd] in *. unfold wrapper. cbn [fst snd]. rewrite mem_do_trace_outer by lia.
  rewrite Htr, Hd. destruct (d && _) eqn:Htrace.
  2:{ exists (tls, w), dn, cur. split_and!; done. }
  destruct (time_law w) as (t0 & w1 & -> & _ & Hs1). rewrite !bind_of_Ok. cbn [fst snd].
  destruct (time_law w1) as (t1 & w2 & -> & _ & Hs2). rewrite bind_of_Ok. cbn [fst snd].
  destruct (mem_record_ok w0 traced d (mem_start_event tls, w2) dn cur (mk t0 t1 r) f cursor)
    as (s' & dn' & cur' & -> & HI' & Happ & Hlen); [|done|by apply HT|].
  - split_and!; cbn [fst snd]; try done.
    + by rewrite Hs2, Hs1.
    + unfold mem_start_event. simpl. by rewrite Hn.
  - rewrite bind_of_Ok. exists s', dn', cur'. split_and!; try done. by exists t0, t1.
Qed.

Lemma mem_call_ok w0 traced d reenters s dn cur c r f cursor :
  mem_inv w0 traced 0 d s dn cur -> Z.of_nat (length cur) < EB ->
  (d && bool_decide (call_name c ∈ strtok_all traced) && call_counts c = true -> T (call_path keep f cursor)) ->
  exists s' dn' cur', do_call a keep reenters c f cursor (fun s => Ok (r, s)) s = Ok (call_returns c r, s') /\
    mem_inv w0 traced 0 d s' dn' cur' /\ Z.of_nat (length cur') < EB /\
    if d && bool_decide (call_name c ∈ strtok_all traced) && call_counts c
    then exists e, erase e = call_record c r /\ dn' ++ cur' = dn ++ cur ++ [(e, call_path keep f cursor)]
    else dn' ++ cur' = dn ++ cur.
Proof.
  intros HI Hroom HT.
  assert (Hdo : exists mk, (forall t0 t1, erase (mk t0 t1 (call_returns c r)) = call_record c r) /\
    (call_counts c = true -> do_call a keep reenters c f cursor (fun s => Ok (r, s)) s =
      wrapper a keep reenters (call_name c) f cursor mk (fun s => Ok (call_returns c r, s)) s)).
  { destruct c as [sz|n sz|o sz|p al sz|bs n|ptr]; simpl; unfold malloc, calloc, realloc, posix_memalign, memalign;
      try (eexists (fun t0 t1 r => mkMemt t0 t1 _ _ _ _ _); split; [reflexivity|done]).
    exists (fun t0 t1 _ => mkMemt t0 t1 0 ptr 0 0 MEM_FREE). split; [done|].
    unfold free. by destruct (ptr =? 0). }
  destruct Hdo as (mk & Hmk & Hdo). destruct (call_counts c) eqn:Hcc.
  - rewrite Hdo, andb_true_r in * by done.
    destruct (wrapper_ok w0 traced d reenters s dn cur (call_name c) f cursor mk (call_returns c r) HI Hroom)
      as (s' & dn' & cur' & -> & HI' & Hl & Hrec); [done|].
    exists s', dn', cur'. split_and!; try done. destruct (d && _); [|done].
    destruct Hrec as (t0 & t1 & Hrec). by exists (mk t0 t1 (call_returns c r)).
  - rewrite andb_false_r in *. exists s, dn, cur. split_and!; try done.
    destruct c as [| | | | |ptr]; try done. simpl in *. unfold free. apply negb_false_iff in Hcc as ->.
    destruct HI as (_ & _ & _ & Hn & _). rewrite mem_do_trace_outer by lia. by destruct s.
Qed.

Lemma mem_run_ok w0 traced reenters evs : forall d s dn cur,
  mem_inv w0 traced 0 d s dn cur -> Z.of_nat (length cur) < EB ->
  Forall (fun r => T r.2) (accepted keep traced d evs) ->
  exists s' d' dn' cur' recs, run a keep reenters evs s = Ok (returned evs, s') /\
    mem_inv w0 traced 0 d' s' dn' cur' /\ dn' ++ cur' = dn ++ cur ++ recs /\
    erase_all recs = accepted keep traced d evs.
Proof.
  induction evs as [|ev evs IH]; intros d s dn cur HI Hroom Hacc.
  { exists s, d, dn, cur, []. by rewrite app_nil_r. }
  destruct ev as [c r f cursor| |]; cbn [run accepted returned] in *.
  - apply Forall_app in Hacc as [Hacc1 Hacc2].
    destruct (mem_call_ok w0 traced d reenters s dn cur c r f cursor HI Hroom)
      as (s' & dn' & cur' & -> & HI' & Hlen & Hrec).
    { intros Hc. rewrite Hc in Hacc1. by inversion Hacc1. }
    rewrite bind_of_Ok. cbn [fst snd].
    destruct (IH d s' dn' cur' HI' Hlen Hacc2) as (s2' & d2 & dn2 & cur2 & recs & -> & HI2 & Happ & Her).
    rewrite bind_of_Ok. cbn [fst snd]. destruct (_ && call_counts c).
    + destruct Hrec as (e & He & Hrec).
      exists s2', d2, dn2, cur2, ((e, call_path keep f cursor) :: recs). split_and!; try done.
      * rewrite Happ, app_assoc, Hrec, <- !app_assoc. done.
      * unfold erase_all in *. rewrite fmap_cons, Her. cbn [fst snd]. by rewrite He.
    + exists s2', d2, dn2, cur2, recs. split_and!; try done. by rewrite Happ, app_assoc, Hrec, <- app_assoc.
  - apply (IH false); [|done..]. destruct HI as (? & ? & ? & ? & ?). by split_and!.
  - apply (IH true); [|done..]. destruct HI as (? & ? & ? & ? & ?). by split_and!.
Qed.

Lemma mem_start_ok fileio header tls w traced :
  traced = (match getenv w "CBTF_MEM_TRACED" with
            | Some s => if String.eqb s "" then traceable else s
            | None => traceable
            end) ->
  Z.of_nat (String.length traced) < PATH_MAX ->
  exists tls' w' w1 d, cbtf_collector_start a fileio header tls w = Ok (tls', w') /\
    d = (if fileio then cbtf_mpi_init_done w1 else cbtf_connected_to_mrnet w1) /\
    mem_inv w traced 0 d (tls', w') [] [].
Proof.
  intros -> Hlen. unfold cbtf_collector_start, strcpy_traced.
  rewrite (proj2 (Z.ltb_lt _ PATH_MAX)), bind_of_Ok by done.
  unfold initialize_data. destruct (time_law w) as (t & w1 & -> & _ & Hs1). rewrite !bind_of_Ok.
  cbn [fst snd]. destruct (time_law w1) as (t' & w2 & -> & _ & Hs2). rewrite !bind_of_Ok. cbn [fst snd].
  assert (Hr : traces_inv T SB EB (reset_traces SB EB (mkEvent zero_memt 0)) []).
  { destruct mem_sizes as (? & ? & _). apply traces_reset; lia. }
  assert (Hsent : exists new, sent w2 = sent w ++ new /\ delivered new = []).
  { exists []. by rewrite Hs2, Hs1, app_nil_r. }
  destruct (if fileio then _ else _) eqn:Hc.
  - exists (set_do_trace true (set_defer false (set_header
      (with_times (with_addrs (with_times header t 0) UINT64_MAX 0) t' 0)
      (set_nesting 0 (set_buffer (reset_traces SB EB (mkEvent zero_memt 0)) (set_traced
        (match getenv w "CBTF_MEM_TRACED" with
         | Some s => if String.eqb s "" then traceable else s
         | None => traceable end)
        (set_event_count 0 (set_do_trace false (set_defer true (set_header header tls)))))))))), w2, w2, true.
    by split_and!.
  - eexists _, w2, w2, false. split_and!; try done.
Qed.

Lemma mem_stop_ok w0 traced d s dn cur :
  mem_inv w0 traced 0 d s dn cur ->
  exists s' new, cbtf_collector_stop a s = Ok s' /\ sent s'.2 = sent w0 ++ new /\
    delivered new = dn ++ cur.
Proof.
  intros (Hb & (new & Hs & Hdel) & Htr & Hn & Hd). unfold cbtf_collector_stop.
  destruct (time_law s.2) as (t & w1 & -> & _ & Hs1). rewrite bind_of_Ok. cbn [fst snd].
  match goal with |- context [send_samples a (?t, w1)] => set (tls1 := t) end.
  destruct (_ && _) eqn:Hc.
  - destruct (mem_send_ok w0 traced false (tls1, w1) dn cur) as (s' & -> & (_ & (new' & Hs' & Hdel') & _) & _).
    { split_and!; try done. exists new. cbn [snd]. by rewrite Hs1. }
    exists s', new'. split_and!; [done..|]. by rewrite Hdel'.
  - exists (tls1, w1), new. split_and!; [done|cbn [snd]; by rewrite Hs1|].
    rewrite Hdel. enough (cur = []) as -> by (by rewrite app_nil_r).
    destruct Hb as [ts [_ _ _ [Hl _] _ [Hel _] Hrecs _]]. change (t_buffer tls1) with (t_buffer s.1) in Hc.
    destruct cur as [|r cur]; [done|]. exfalso. inversion Hrecs as [|e r' es rs [_ (ts1 & ts2 & -> & _)]]; subst.
    rewrite flat_traces_app, flat_traces_cons, !length_app in Hl. simpl in Hl, Hel.
    apply andb_false_iff in Hc as [Hc|Hc]; bools; lia.
Qed.
End correctness.

(** The event of a nested call is dropped, and do_trace stays 0. *)
Lemma mem_record_nested {W} {SV : Services W mem_data} (a : arch) (keep : Z -> bool) ev f cursor tls (w : W) :
  t_nesting_depth tls = 2 ->
  mem_record_event a keep ev f cursor (tls, w) =
    Ok (set_nesting 1 (set_event_count (i32 (t_event_count tls + 1)) (set_do_trace false tls)), w).
Proof. intros Hn. unfold mem_record_event. simpl. by rewrite Hn. Qed.

(** C4: for a program whose call paths are rooted, at least two nonzero frames
    long and determined by the calling frames, and that calls no wrapped function from within
    another, the collector runs from start through any sequence of wrapped calls,
    pauses and resumes to stop without leaving its arrays, and a reader of the blobs it sent
    finds exactly the calls of traced functions made while tracing was on: each once, in
    the order they were made, with its arguments, its return value and its own call path. The
    program gets from each call what the real function returned, but from memalign
    only what is left of the pointer in an int (memalign_truncates_pointer). After a
    call from within a traced one nothing more is traced (mem_nested_call_stops_tracing). *)
Theorem mem_delivers_every_call {W} {SV : Services W mem_data} {SL : ServicesLaws W mem_data}
    (a : arch) (fileio : bool) (keep : Z -> bool) (root : Z) (T : list Z -> Prop) (reenters : bool)
    (header : CBTF_DataHeader) (tls : TLS) (w : W) (evs : list event) (traced : string) :
  call_paths root T ->
  traced = (match getenv w "CBTF_MEM_TRACED" with
            | Some s => if String.eqb s "" then traceable else s
            | None => traceable
            end) ->
  Z.of_nat (String.length traced) < PATH_MAX ->
  (forall d, Forall (fun r => T r.2) (accepted keep traced d evs)) ->
  exists s1 s2 s3 new,
    cbtf_collector_start a fileio header tls w = Ok s1 /\
    run a keep reenters evs s1 = Ok (returned evs, s2) /\
    cbtf_collector_stop a s2 = Ok s3 /\
    sent s3.2 = sent w ++ new /\
    erase_all (delivered new) = accepted keep traced (t_do_trace s1.1) evs.
Proof.
  intros Hp Htr Hlen Hacc.
  destruct (mem_start_ok a T fileio header tls w traced Htr Hlen) as (tls1 & w1 & w' & d & H1 & _ & HI).
  destruct (mem_run_ok a keep root T Hp w traced reenters evs d (tls1, w1) [] [] HI)
    as (s2 & d2 & dn & cur & recs & H2 & HI2 & Happ & Her).
  { destruct a; reflexivity. }
  { apply Hacc. }
  destruct (mem_stop_ok a root T Hp w traced d2 s2 dn cur HI2) as (s3 & new & H3 & Hs & Hdel).
  exists (tls1, w1), s2, s3, new. split_and!; try done.
  rewrite Hdel, Happ. destruct HI as (_ & _ & _ & _ & Hd). cbn [fst] in *. by rewrite Hd.
Qed.

(** when a traced function is called from inside another traced function,
    mem_record_event returns early for the inner call and leaves do_trace at 0;
    the outer call saves and restores that 0, so that tracing is off after it and
    every later call is refused. *)
Theorem mem_nested_call_stops_tracing {W} {SV : Services W mem_data} {SL : ServicesLaws W mem_data}
    (a : arch) (keep : Z -> bool) (root : Z) (T : list Z -> Prop) (reenters : bool) (w0 : W)
    (traced name1 name2 : string) (f1 f2 : Z) (cursor1 cursor2 : list frame)
    (mk1 mk2 : Z -> Z -> Z -> memt_event) (r1 r2 : Z) (s : TLS * W) (dn cur : list (memt_event * list Z)) :
  call_paths root T -> mem_inv a T w0 traced 0 true s dn cur ->
  Z.of_nat (length cur) < EventBufferSize a ->
  name1 ∈ strtok_all traced -> name2 ∈ strtok_all traced -> T (call_path keep f1 cursor1) ->
  exists s', wrapper a keep reenters name1 f1 cursor1 mk1
      (fun s => r ← wrapper a keep reenters name2 f2 cursor2 mk2 (fun s => Ok (r2, s)) s; Ok (r1, r.2)) s =
        Ok (r1, s') /\
    t_do_trace s'.1 = false /\
    forall name, (mem_do_trace reenters name s'.1).1 = false.
Proof.
  destruct s as [tls w]. intros Hp HI Hroom H1 H2 HT. pose proof HI as (Hb & Hs & Htr & Hn & Hd).
  cbn [fst snd] in *. unfold wrapper at 1. cbn [fst snd].
  rewrite mem_do_trace_outer, Hd, Htr, bool_decide_true by (done || lia). simpl andb. cbv iota.
  destruct (time_law w) as (t0 & w1 & -> & _ & Hs1). rewrite bind_of_Ok. unfold wrapper. cbn [fst snd].
  rewrite mem_do_trace_outer by (unfold mem_start_event; simpl; rewrite Hn; vm_compute; congruence).
  change (t_do_trace (mem_start_event tls)) with (t_do_trace tls).
  change (t_mem_traced (mem_start_event tls)) with (t_mem_traced tls).
  rewrite Hd, Htr, bool_decide_true by done. simpl andb. cbv iota.
  destruct (time_law w1) as (t1 & w2 & -> & _ & Hs2). rewrite !bind_of_Ok. cbn [fst snd].
  destruct (time_law w2) as (t2 & w3 & -> & _ & Hs3). rewrite bind_of_Ok. cbn [fst snd].
  rewrite mem_record_nested, !bind_of_Ok by (unfold mem_start_event; simpl; by rewrite Hn).
  cbn [fst snd]. set (tls2 := set_nesting 1 _).
  destruct (time_law w3) as (t3 & w4 & -> & _ & Hs4). rewrite bind_of_Ok. cbn [fst snd].
  destruct (mem_record_ok a keep root T Hp w0 traced false (tls2, w4) dn cur (mk1 t0 t3 r1) f1 cursor1)
    as (s' & dn' & cur' & -> & (_ & _ & _ & _ & Hd') & _); [|done..|].
  - split_and!; cbn [fst snd]; try done. by rewrite Hs4, Hs3, Hs2, Hs1.
  - rewrite bind_of_Ok. exists s'. split_and!; [done..|]. intros name. unfold mem_do_trace. by rewrite Hd'.
Qed.

(** The wrapper of memalign is declared to return int, so a program that
    calls it, traced or not, gets a pointer from 2^31 on back as another value,
    equal to it only modulo 2^32. *)
Theorem memalign_truncates_pointer {W} {SV : Services W mem_data} (a : arch) (keep : Z -> bool)
    (reenters : bool) (function : Z) (cursor : list frame) (ptr blocksize bytes : Z) (s : TLS * W) :
  t_do_trace s.1 = false -> 2 ^ 31 <= ptr < 2 ^ 64 ->
  exists v s', memalign a keep reenters function cursor (fun s => Ok (ptr, s)) blocksize bytes s = Ok (v, s') /\
    v <> ptr /\ v mod 2 ^ 32 = ptr mod 2 ^ 32.
Proof.
  intros Hd Hp. unfold memalign, wrapper, mem_do_trace. rewrite Hd. simpl negb. cbv iota.
  rewrite bind_of_Ok. cbn [fst snd]. eexists _, _. split; [reflexivity|]. unfold i32.
  pose proof (Z.mod_pos_bound (ptr + 2 ^ 31) (2 ^ 32)). split; [lia|].
  rewrite Zminus_mod_idemp_l. f_equal. lia.
Qed.

Definition example_tls : TLS :=
  mkTLS (mkDataHeader 0 1 "" "n0" 1 1 (-1) 0 0 0 0 0)
    (reset_traces (StackTraceBufferSize arch_other) (EventBufferSize arch_other) (mkEvent zero_memt 0))
    traceable 0 true false 0.

Definition example_cursor (caller : Z) : list frame :=
  [mkFrame 1 false; mkFrame 2 false; mkFrame 3 false; mkFrame caller false; mkFrame 10 false].

(** malloc and free are traced, a free in between is not because of the pause. *)
Lemma mem_delivers_witness :
  let evs := [Call (Malloc 64) 4096 100 (example_cursor 20); Pause;
              Call (Free 4096) 0 200 (example_cursor 30); Resume;
              Call (Free 4096) 0 200 (example_cursor 30)] in
  exists s1 s2 s3 new,
    cbtf_collector_start arch_other true (t_header example_tls) example_tls (quiet_world mem_data) = Ok s1 /\
    run arch_other (fun _ => true) true evs s1 = Ok ([4096; 0; 0], s2) /\ cbtf_collector_stop arch_other s2 = Ok s3 /\
    lw_sent s3.2 = new /\
    erase_all (delivered new) =
      accepted (fun _ => true) traceable (t_do_trace s1.1) evs.
Proof.
  intros evs.
  destruct (mem_delivers_every_call arch_other true (fun _ => true) 10 two_paths true (t_header example_tls)
    example_tls (quiet_world mem_data) evs traceable two_paths_ok) as (s1 & s2 & s3 & new & H1 & H2 & H3 & Hs & Hd).
  - done.
  - done.
  - intros d. apply Forall_forall. intros r Hr. destruct d; vm_compute in Hr;
      repeat (apply elem_of_cons in Hr as [->|Hr]; [simpl; first [by left|by right]|]); by apply elem_of_nil in Hr.
  - exists s1, s2, s3, new. split; [exact H1|]. split; [exact H2|]. split; [exact H3|]. split; [exact Hs|exact Hd].
Defined.

(** A malloc called from inside a calloc. *)
Lemma mem_nested_call_witness :
  exists s', calloc arch_other (fun _ => true) true 100 (example_cursor 20)
      (fun s => r ← malloc arch_other (fun _ => true) true 200 (example_cursor 30) (fun s => Ok (4096, s)) 64 s;
                Ok (4096, r.2)) 8 8
      (example_tls, quiet_world mem_data) = Ok (4096, s') /\
    t_do_trace s'.1 = false.
Proof.
  destruct (mem_nested_call_stops_tracing arch_other (fun _ => true) 10 two_paths true (quiet_world mem_data)
    traceable "calloc" "malloc" 100 200 (example_cursor 20) (example_cursor 30)
    (fun t0 t1 r => mkMemt t0 t1 r 0 8 8 MEM_CALLOC) (fun t0 t1 r => mkMemt t0 t1 r 0 64 64 MEM_MALLOC) 4096 4096
    (example_tls, quiet_world mem_data) [] [] two_paths_ok) as (s' & H & Hd & _).
  - split_and!; try done; [|by exists []].
    apply traces_reset; by vm_compute.
  - done.
  - by apply (bool_decide_unpack _).
  - by apply (bool_decide_unpack _).
  - by left.
  - exists s'. split; [exact H|exact Hd].
Defined.

Lemma memalign_truncates_witness :
  exists v s', memalign arch_other (fun _ => true) true 100 (example_cursor 20) (fun s => Ok (139637976727552, s)) 64 64
      (set_do_trace false example_tls, quiet_world mem_data) = Ok (v, s') /\ v <> 139637976727552.
Proof.
  destruct (memalign_truncates_pointer arch_other (fun _ => true) true 100 (example_cursor 20) 139637976727552 64 64
    (set_do_trace false example_tls, quiet_world mem_data)) as (v & s' & H & Hne & _); [done|by vm_compute|].
  exists v, s'. split; [exact H|exact Hne].
Defined.
