(* ===== verification/Overview.v ===== *)
(** The overview collector: core/collectors/overview. It keeps one set of totals per
    thread (time and bytes of file functions, time, calls and bytes of memory
    functions, time in MPI, OpenMP task and idle times, hardware counters), which
    are written to a CSV file when the thread stops. The wrappers of the eighteen
    file functions and the six memory functions and the OMPT 5.0 callbacks feed the
    totals. The storage's buffers for PC samples, messages and stack traces are left
    out: the timer handler that would fill them is not built. *)
From S2P Require Import Prelude Probe PCIndex Headers Services Papi Unwind StackBuffer TraceBuffer Tracer Omptp IO.

Definition MAX_PAPI_EVENTS : Z := 12.
Definition overview_unique_id : string := "overview".
Definition master_papi_events : string :=
  "PAPI_TOT_CYC,PAPI_TOT_INS,PAPI_LD_INS,PAPI_VEC_DP,PAPI_DP_OPS,PAPI_FDV_OPS,PAPI_FP_INS,PAPI_FP_OPS,PAPI_L3_TCM,PAPI_L2_TCM,PAPI_L1_TCM,PAPI_TLB_IM,PAPI_REF_CYC,PAPI_REF_NS,PAPI_FUL_CCY,PAPI_RES_STL".

(** ** Thread-local storage *)

(** total_posixio_time, _read_time, _write_time, _bytes_read, _bytes_written. *)
Record io_totals := mkIOTotals {
  io_time : Z;
  io_read_time : Z;
  io_write_time : Z;
  io_bytes_read : Z;
  io_bytes_written : Z
}.

Record overview_mem_t := mkMemTotals {
  total_allocation_time : Z;
  total_allocation_calls : Z;
  total_free_time : Z;
  total_free_calls : Z;
  total_bytes_allocated : Z
}.

(** The times the OMPT callbacks keep: as for the omptp collector, when an activity
    began and the total of it. *)
Record ompt_times := mkTimes {
  collector_active : bool;
  collector_etime : Z;
  btime : watch -> Z;
  ttime : watch -> Z
}.

Record TLS := mkTLS {
  t_started : bool;
  t_defer : bool;               (* defer_sampling *)
  t_do_trace : bool;            (* do_trace, a thread-local variable of collector.c *)
  t_header : CBTF_DataHeader;
  t_interval : Z;               (* hwc_samp_data.interval *)
  t_clock_mhz : Z;
  t_evalues : list Z;
  t_EventSet : Z;
  t_ompt : ompt_times;
  t_mpi : Z;                    (* total_mpi_time *)
  t_io : io_totals;
  t_mem : overview_mem_t;
  t_start_time : Z;             (* collector_start_time *)
  t_nesting_depth : Z
}.

Definition set_flags (started defer do_trace : bool) (t : TLS) : TLS :=
  mkTLS started defer do_trace (t_header t) (t_interval t) (t_clock_mhz t) (t_evalues t) (t_EventSet t) (t_ompt t)
    (t_mpi t) (t_io t) (t_mem t) (t_start_time t) (t_nesting_depth t).
Definition set_header (h : CBTF_DataHeader) (t : TLS) : TLS :=
  mkTLS (t_started t) (t_defer t) (t_do_trace t) h (t_interval t) (t_clock_mhz t) (t_evalues t) (t_EventSet t) (t_ompt t)
    (t_mpi t) (t_io t) (t_mem t) (t_start_time t) (t_nesting_depth t).
Definition set_sampling (interval mhz : Z) (t : TLS) : TLS :=
  mkTLS (t_started t) (t_defer t) (t_do_trace t) (t_header t) interval mhz (t_evalues t) (t_EventSet t) (t_ompt t)
    (t_mpi t) (t_io t) (t_mem t) (t_start_time t) (t_nesting_depth t).
Definition set_papi (evalues : list Z) (EventSet : Z) (t : TLS) : TLS :=
  mkTLS (t_started t) (t_defer t) (t_do_trace t) (t_header t) (t_interval t) (t_clock_mhz t) evalues EventSet (t_ompt t)
    (t_mpi t) (t_io t) (t_mem t) (t_start_time t) (t_nesting_depth t).
Definition set_ompt (o : ompt_times) (t : TLS) : TLS :=
  mkTLS (t_started t) (t_defer t) (t_do_trace t) (t_header t) (t_interval t) (t_clock_mhz t) (t_evalues t) (t_EventSet t) o
    (t_mpi t) (t_io t) (t_mem t) (t_start_time t) (t_nesting_depth t).
Definition set_totals (mpi : Z) (io : io_totals) (mem : overview_mem_t) (t : TLS) : TLS :=
  mkTLS (t_started t) (t_defer t) (t_do_trace t) (t_header t) (t_interval t) (t_clock_mhz t) (t_evalues t) (t_EventSet t)
    (t_ompt t) mpi io mem (t_start_time t) (t_nesting_depth t).
Definition set_start_time (time : Z) (t : TLS) : TLS :=
  mkTLS (t_started t) (t_defer t) (t_do_trace t) (t_header t) (t_interval t) (t_clock_mhz t) (t_evalues t) (t_EventSet t)
    (t_ompt t) (t_mpi t) (t_io t) (t_mem t) time (t_nesting_depth t).

Definition zero_io : io_totals := mkIOTotals 0 0 0 0 0.
Definition zero_mem : overview_mem_t := mkMemTotals 0 0 0 0 0.
Definition zero_header : CBTF_DataHeader := mkDataHeader 0 0 "" "" 0 0 0 0 0 0 0 0.

(** TLS_initialize(), implicit storage: everything is zero but for the begin times. *)
Definition TLS_initialize (do_trace : bool) (now : Z) : TLS :=
  let o := mkTimes false 0 (upd Thread now (upd Idle now (upd Serial now (fun _ => 0)))) (fun _ => 0) in
  mkTLS false false do_trace zero_header 0 0 (replicate 12 0) 0 o 0 zero_io zero_mem 0 0.

(** TLS_initialize_data(): the interval and the address range of the header. *)
Definition TLS_initialize_data (t : TLS) : TLS :=
  set_header (with_addrs (with_times (t_header t) UINT64_MAX 0) UINT64_MAX 0) t.

(** ** Recording an event *)
Inductive CBTF_io_event_kind :=
  | Unknown | KindRead | KindWrite | KindSeek | KindOpen | KindClose | KindCreate | KindPipe | KindDup.

(** CBTF_overview_iop_event but for the stack trace, which is not used. *)
Record iop_event := mkIop { ev_time : Z; ev_bytes : Z; ev_kind : CBTF_io_event_kind }.

Definition TLS_record_io_event (event : iop_event) (t : TLS) : TLS :=
  if t_defer t then t else
    let io := t_io t in
    let time := u64 (io_time io + ev_time event) in
    let io' :=
      match ev_kind event with
      | KindRead => mkIOTotals time (u64 (io_read_time io + ev_time event)) (io_write_time io)
                      (u64 (io_bytes_read io + ev_bytes event)) (io_bytes_written io)
      | KindWrite => mkIOTotals time (io_read_time io) (u64 (io_write_time io + ev_time event))
                       (io_bytes_read io) (u64 (io_bytes_written io + ev_bytes event))
      | _ => mkIOTotals time (io_read_time io) (io_write_time io) (io_bytes_read io) (io_bytes_written io)
      end in
    set_totals (t_mpi t) io' (t_mem t) t.

(** Also while the collector is paused. *)
Definition TLS_record_mpi_event (time : Z) (t : TLS) : TLS :=
  set_totals (u64 (t_mpi t + time)) (t_io t) (t_mem t) t.

Inductive CBTF_mem_type :=
  | MEM_UNKNOWN | MEM_MALLOC | MEM_CALLOC | MEM_REALLOC | MEM_FREE | MEM_MEMALIGN | MEM_POSIX_MEMALIGN.

(** CBTF_memt_event but for the fields nothing reads. *)
Record memt_event := mkMemt {
  me_start_time : Z;
  me_stop_time : Z;
  me_size1 : Z;
  me_size2 : Z;
  me_type : CBTF_mem_type
}.

Definition allocated (time bytes : Z) (m : overview_mem_t) : overview_mem_t :=
  mkMemTotals (u64 (total_allocation_time m + time)) (u64 (total_allocation_calls m + 1)) (total_free_time m)
    (total_free_calls m) (u64 (total_bytes_allocated m + bytes)).
Definition freed (time : Z) (m : overview_mem_t) : overview_mem_t :=
  mkMemTotals (total_allocation_time m) (total_allocation_calls m) (u64 (total_free_time m + time))
    (u64 (total_free_calls m + 1)) (total_bytes_allocated m).

Definition TLS_record_mem_event (event : memt_event) (t : TLS) : TLS :=
  if t_defer t then t else if 0 <? t_nesting_depth t then t else
    let time := u64 (me_stop_time event - me_start_time event) in
    let m :=
      match me_type event with
      | MEM_MALLOC => allocated time (me_size1 event)
      | MEM_CALLOC => allocated time (u64 (me_size1 event * me_size2 event))
      | MEM_REALLOC => if me_size1 event =? 0 then freed time else allocated time (me_size1 event)
      | MEM_FREE => freed time
      | MEM_UNKNOWN | MEM_POSIX_MEMALIGN | MEM_MEMALIGN => fun m => m
      end in
    set_totals (t_mpi t) (t_io t) (m (t_mem t)) t.

(** ** OMPT *)
Definition TLS_update_ompt_task_begin (task_btime : Z) (t : TLS) : TLS :=
  let o := t_ompt t in
  set_ompt (mkTimes (collector_active o) (collector_etime o) (upd Itask task_btime (btime o))
    (upd Serial (u64 (ttime o Serial + u64 (task_btime - btime o Serial))) (ttime o))) t.

Definition TLS_update_ompt_task_totals (task_etime : Z) (t : TLS) : TLS :=
  let o := t_ompt t in
  set_ompt (mkTimes (collector_active o) (collector_etime o) (upd Serial task_etime (btime o))
    (upd Itask (u64 (ttime o Itask + u64 (task_etime - btime o Itask))) (ttime o))) t.

Definition TLS_update_ompt_idle_begin (time : Z) (t : TLS) : TLS :=
  let o := t_ompt t in
  set_ompt (mkTimes (collector_active o) (collector_etime o) (upd Idle time (btime o)) (ttime o)) t.

(** When the collector is not active the idle time ends at collector_etime. *)
Definition TLS_update_ompt_idle_totals (etime : Z) (t : TLS) : TLS :=
  let o := t_ompt t in
  let stop := if collector_active o then etime else collector_etime o in
  set_ompt (mkTimes (collector_active o) (collector_etime o) (btime o)
    (upd Idle (u64 (ttime o Idle + u64 (stop - btime o Idle))) (ttime o))) t.

(** tls->idle_ttime = 0 *)
Definition TLS_update_ompt_idle_init (t : TLS) : TLS :=
  let o := t_ompt t in
  set_ompt (mkTimes (collector_active o) (collector_etime o) (btime o) (upd Idle 0 (ttime o))) t.

(** ** The collector *)

(** What the process shares: the number of threads started, the list of events,
    whether PAPI is initialised, hw_info (NULL, or its mhz), the regions, and
    CBTF_in_mpi_startup of the monitor. *)
Record globals := mkGlobals {
  g_thread_count : Z;
  g_papi_event : string;
  g_papi_init_done : bool;
  g_hw_info : option Z;
  g_regions : list CBTF_omptp_region;
  g_in_mpi_startup : bool
}.

(** Further calls of PAPI. *)
Class PapiInfo (W : Type) := {
  PAPI_num_events : Z -> W -> Z;
  PAPI_list_events : Z -> W -> list Z;
  PAPI_event_code_to_name : Z -> W -> option string;
  PAPI_get_dmem_info : W -> list Z      (* size, resident, high_water_mark, shared, heap *)
}.

Section overview.
Context {W D : Type} {SV : Services W D} {PA : Papi W} {PI : PapiInfo W} (have_ompt : bool).

Definition state : Type := globals * TLS * W.

Definition TLS_ompt_set_collector_active (flag : bool) (t : TLS) (w : W) : outcome (TLS * W) :=
  r ← CBTF_GetTime w;
  let o := t_ompt t in
  Ok (set_ompt (mkTimes flag r.1 (btime o) (ttime o)) t, r.2).

(** PAPI_CHECK(call): any other result than PAPI_OK and PAPI_VER_CURRENT aborts. *)
Definition PAPI_CHECK (r : Z * W) : outcome W :=
  if (r.1 =? PAPI_OK) || (r.1 =? PAPI_VER_CURRENT) then Ok r.2 else Aborted.

(** The loop over the names of events: those PAPI does not accept are left out. *)
Fixpoint add_events (EventSet : Z) (names : list string) (eventcode : Z) (w : W) : W :=
  match names with
  | [] => w
  | name :: names' =>
      let r := PAPI_event_name_to_code name eventcode w in
      let w1 := if negb (r.1 =? PAPI_OK) then w
                else if negb (PAPI_query_event r.2 w =? PAPI_OK) then w
                else (PAPI_add_event EventSet r.2 w).2 in
      add_events EventSet names' r.2 w1
  end.

(** The part of cbtf_collector_start() between the two comments PAPI SETUP and "these
    are ompt specific". *)
Definition papi_setup (g : globals) (tls : TLS) (w : W) : outcome (globals * TLS * W) :=
  let r := PAPI_library_init PAPI_VER_CURRENT w in
  let w1 := if r.1 =? PAPI_VER_CURRENT then r.2 else papi_message "ERROR initializing PAPI." r.1 r.2 in
  w2 ← PAPI_CHECK (PAPI_thread_init w1);
  w3 ← PAPI_CHECK (PAPI_multiplex_init w2);
  let c := PAPI_create_eventset PAPI_NULL w3 in
  w4 ← PAPI_CHECK (c.1.1, c.2);
  let es := c.1.2 in
  w5 ← PAPI_CHECK (PAPI_assign_eventset_component es 0 w4);
  w6 ← PAPI_CHECK (PAPI_set_multiplex es w5);
  let hw_info := if g_papi_init_done g then g_hw_info g else PAPI_get_hardware_info w6 in
  match hw_info with
  | None => Fault
  | Some mhz =>
      let g1 := mkGlobals (g_thread_count g) (g_papi_event g) true hw_info (g_regions g) (g_in_mpi_startup g) in
      let tls1 := set_papi (t_evalues tls) es (set_sampling (t_interval tls) mhz tls) in
      Ok (g1, tls1, add_events es (strtok_all (g_papi_event g)) 0 w6)
  end.

(** ThreadCount: the first thread chooses the events for all, and a rate for itself. *)
Definition count_thread (g : globals) (w : W) : globals * Z :=
  let first := g_thread_count g =? 0 in
  let event := if first then default master_papi_events (getenv w "OVERVIEW_HWC_EVENTS") else g_papi_event g in
  let rate := if first then default 100 (atoi <$> getenv w "OVERVIEW_SAMP_RATE") else 100 in
  (mkGlobals (i32 (g_thread_count g + 1)) event (g_papi_init_done g) (g_hw_info g) (g_regions g) (g_in_mpi_startup g), rate).

Definition cbtf_collector_start (header : CBTF_DataHeader) (s : state) : outcome state :=
  let '(g, tls, w) := s in
  r ← CBTF_GetTime w;
  let tls1 := set_flags false true (t_do_trace tls) (TLS_initialize (t_do_trace tls) r.1) in
  if g_in_mpi_startup g then Ok (g, tls1, r.2) else
    let tls2 := set_header header (set_flags true true (t_do_trace tls1) tls1) in
    let c := count_thread g r.2 in
    if u64 c.2 =? 0 then Fault else
      let tls3 := TLS_initialize_data (set_sampling (1000000000 / u64 c.2) (t_clock_mhz tls2) tls2) in
      let h := with_id (with_omp_tid (t_header tls3) (monitor_get_thread_num r.2)) overview_unique_id in
      p ← papi_setup c.1 (set_header h tls3) r.2;
      q ← (if have_ompt then TLS_ompt_set_collector_active true p.1.2 p.2 else Ok (p.1.2, p.2));
      let tls4 := set_flags true false true (TLS_update_ompt_idle_init q.1) in
      b ← CBTF_GetTime q.2;
      let tls5 := set_start_time b.1 (set_header (with_times (t_header tls4) b.1 (dh_time_end (t_header tls4))) tls4) in
      Ok (p.1.1, tls5, (PAPI_start (t_EventSet tls5) b.2).2).

(** PAPI stores a value for each event of the set, through a pointer to evalues[]. *)
Definition stores_values (EventSet : Z) (w : W) : bool := PAPI_num_events EventSet w <=? MAX_PAPI_EVENTS.

Definition cbtf_collector_pause (s : state) : outcome state :=
  let '(g, tls, w) := s in
  r ← TLS_ompt_set_collector_active false tls w;
  let tls1 := set_flags (t_started r.1) true false r.1 in
  if g_papi_init_done g then
    if negb (stores_values (t_EventSet tls1) r.2) then Fault else
      let p := PAPI_stop (t_EventSet tls1) (Some (t_evalues tls1)) r.2 in
      Ok (g, set_papi (default (t_evalues tls1) p.1.2) (t_EventSet tls1) tls1, p.2)
  else Ok (g, tls1, r.2).

Definition cbtf_collector_resume (s : state) : outcome state :=
  let '(g, tls, w) := s in
  let w1 := if g_papi_init_done g then (PAPI_start (t_EventSet tls) w).2 else w in
  Ok (g, set_flags (t_started tls) false true tls, w1).

(** The part of cbtf_collector_stop() before TLS_print_data prints the totals, and whether it
    gets there; the whole of it is in OverviewCSV.v. *)
Definition stop_counting (s : state) : outcome (bool * state) :=
  let '(g, tls, w) := s in
  if negb (t_started tls) then Ok (false, s) else
    r ← CBTF_GetTime w;
    let h := t_header tls in
    let o := t_ompt tls in
    let o1 := mkTimes (collector_active o) (collector_etime o) (btime o)
                (upd Thread (u64 (r.1 - dh_time_begin h)) (ttime o)) in
    let tls1 := set_ompt o1 (set_header (with_times h (dh_time_begin h) r.1) (set_flags true true false tls)) in
    if t_EventSet tls1 =? PAPI_NULL then Ok (false, (g, tls1, r.2)) else
    if negb (stores_values (t_EventSet tls1) r.2) then Fault else
      let p := PAPI_accum (t_EventSet tls1) (t_evalues tls1) r.2 in
      Ok (true, (g, set_papi p.1.2 (t_EventSet tls1) tls1, (PAPI_stop (t_EventSet tls1) None p.2).2)).

(** ** The wrappers

    [real] are the functions dlsym(RTLD_NEXT, ...) finds, by name. *)
Section wrappers.
Context (real : string -> list Z -> W -> outcome (Z * W)).

(** A wrapper of a file function: TLS_start_io_event() clears the event, the call is
    timed, and for reads and writes what it returned is stored as bytes. *)
Definition io_wrapper (name : string) (args : list Z) (kind : CBTF_io_event_kind) (s : state) : outcome (Z * state) :=
  let '(g, tls, w) := s in
  t0 ← CBTF_GetTime w;
  r ← real name args t0.2;
  t1 ← CBTF_GetTime r.2;
  let bytes := match kind with KindRead | KindWrite => u64 r.1 | _ => 0 end in
  Ok (r.1, (g, TLS_record_io_event (mkIop (u64 (t1.1 - t0.1)) bytes kind) tls, t1.2)).

Definition read (fd buf count : Z) := io_wrapper "read" [fd; buf; count] KindRead.
Definition write (fd buf count : Z) := io_wrapper "write" [fd; buf; count] KindWrite.
Definition lseek (fd offset whence : Z) := io_wrapper "lseek" [fd; offset; whence] Unknown.
Definition lseek64 (fd offset whence : Z) := io_wrapper "lseek64" [fd; offset; whence] Unknown.
Definition open (pathname flags mode : Z) := io_wrapper "open" [pathname; flags; mode] Unknown.
Definition open64 (pathname flags mode : Z) := io_wrapper "open64" [pathname; flags; mode] Unknown.
Definition close (fd : Z) := io_wrapper "close" [fd] Unknown.
Definition dup (oldfd : Z) := io_wrapper "dup" [oldfd] Unknown.
Definition dup2 (oldfd newfd : Z) := io_wrapper "dup2" [oldfd; newfd] Unknown.
Definition creat (pathname mode : Z) := io_wrapper "creat" [pathname; mode] Unknown.
Definition creat64 (pathname mode : Z) := io_wrapper "creat64" [pathname; mode] Unknown.
Definition pipe (filedes : Z) := io_wrapper "pipe" [filedes] Unknown.
Definition pread (fd buf count offset : Z) := io_wrapper "pread" [fd; buf; count; offset] KindRead.
Definition pread64 (fd buf count offset : Z) := io_wrapper "pread64" [fd; buf; count; offset] KindRead.
Definition pwrite (fd buf count offset : Z) := io_wrapper "pwrite" [fd; buf; count; offset] KindWrite.
Definition pwrite64 (fd buf count offset : Z) := io_wrapper "pwrite64" [fd; buf; count; offset] KindWrite.
Definition readv (fd vector count : Z) := io_wrapper "readv" [fd; vector; count] KindRead.
Definition writev (fd vector count : Z) := io_wrapper "writev" [fd; vector; count] KindWrite.

(** A wrapper of a memory function; the time is taken only while do_trace is set. *)
Definition mem_wrapper (name : string) (args : list Z) (dotrace : bool) (size1 size2 : Z) (ty : CBTF_mem_type)
    (s : state) : outcome (Z * state) :=
  let '(g, tls, w) := s in
  if dotrace then
    t0 ← CBTF_GetTime w;
    r ← real name args t0.2;
    t1 ← CBTF_GetTime r.2;
    Ok (r.1, (g, TLS_record_mem_event (mkMemt t0.1 t1.1 size1 size2 ty) tls, t1.2))
  else r ← real name args w; Ok (r.1, (g, tls, r.2)).

Definition collector_do_trace (s : state) : bool := t_do_trace s.1.2.

Definition malloc (size : Z) (s : state) :=
  mem_wrapper "malloc" [size] (collector_do_trace s) size size MEM_MALLOC s.
Definition calloc (count size : Z) (s : state) :=
  mem_wrapper "__libc_calloc" [count; size] (collector_do_trace s) count size MEM_CALLOC s.
Definition realloc (oldPtr size : Z) (s : state) :=
  mem_wrapper "realloc" [oldPtr; size] (collector_do_trace s) size size MEM_REALLOC s.
Definition posix_memalign (memptr alignment size : Z) (s : state) :=
  mem_wrapper "posix_memalign" [memptr; alignment; size] (collector_do_trace s) alignment size MEM_POSIX_MEMALIGN s.
(** The function is declared to return int. *)
Definition memalign (blocksize bytes : Z) (s : state) : outcome (Z * state) :=
  r ← mem_wrapper "memalign" [blocksize; bytes] (collector_do_trace s) blocksize bytes MEM_MEMALIGN s;
  Ok (i32 r.1, r.2).
Definition free (ptr : Z) (s : state) :=
  mem_wrapper "free" [ptr] (collector_do_trace s && negb (ptr =? 0)) 0 0 MEM_FREE s.

(** The wrapper every MPI function gets from the template wrappers.w; MPI_Init and
    MPI_Init_thread also ask for the rank and the size. *)
Definition mpi_wrapper (name : string) (args : list Z) (s : state) : outcome (Z * state) :=
  let '(g, tls, w) := s in
  t0 ← CBTF_GetTime w;
  r ← real name args t0.2;
  t1 ← CBTF_GetTime r.2;
  Ok (r.1, (g, TLS_record_mpi_event (u64 (t1.1 - t0.1)) tls, t1.2)).

(** ** The OMPT 5.0 callbacks *)
Inductive scope_endpoint := scope_begin | scope_end.

(** A stack of no frames is stored for the region. *)
Definition CBTF_ompt_callback_parallel_begin (unique_id : Z) (s : state) : outcome state :=
  let '(g, tls, w) := s in
  Ok (mkGlobals (g_thread_count g) (g_papi_event g) (g_papi_init_done g) (g_hw_info g)
        (CBTF_omptp_region_add unique_id [] (g_regions g)) (g_in_mpi_startup g), tls, w).
Definition CBTF_ompt_callback_parallel_end (parallel_data : Z) (s : state) : outcome state :=
  let '(g, tls, w) := s in
  Ok (mkGlobals (g_thread_count g) (g_papi_event g) (g_papi_init_done g) (g_hw_info g)
        (CBTF_omptp_region_clear parallel_data (g_regions g)) (g_in_mpi_startup g), tls, w).

Definition CBTF_ompt_callback_implicit_task (endpoint : scope_endpoint) (s : state) : outcome state :=
  let '(g, tls, w) := s in
  r ← CBTF_GetTime w;
  Ok (g, match endpoint with
         | scope_begin => TLS_update_ompt_task_begin r.1 tls
         | scope_end => TLS_update_ompt_task_totals r.1 tls
         end, r.2).

Definition CBTF_ompt_callback_idle (endpoint : scope_endpoint) (s : state) : outcome state :=
  let '(g, tls, w) := s in
  r ← CBTF_GetTime w;
  Ok (g, match endpoint with
         | scope_begin => TLS_update_ompt_idle_begin r.1 tls
         | scope_end => TLS_update_ompt_idle_totals r.1 tls
         end, r.2).

(** ** A thread between start and stop *)
Inductive mem_op :=
| Malloc (size : Z)
| Calloc (count size : Z)
| Realloc (oldPtr size : Z)
| PosixMemalign (memptr alignment size : Z)
| Memalign (blocksize bytes : Z)
| Free (ptr : Z).
#[global] Instance mem_op_eq : EqDecision mem_op.
Proof. solve_decision. Defined.

Inductive event :=
| File (op : io_op)
| Memory (op : mem_op)
| Mpi (name : string) (args : list Z)
| Task (endpoint : scope_endpoint)
| IdleTime (endpoint : scope_endpoint)
| ParallelBegin (unique_id : Z)
| ParallelEnd (parallel_data : Z)
| Pause
| Resume.

Definition run_file (op : io_op) : state -> outcome (Z * state) :=
  match op with
  | Read fd buf count => read fd buf count
  | Write fd buf count => write fd buf count
  | Lseek fd offset whence => lseek fd offset whence
  | Lseek64 fd offset whence => lseek64 fd offset whence
  | Open pathname flags mode => open pathname flags mode
  | Open64 pathname flags mode => open64 pathname flags mode
  | Close fd => close fd
  | Dup oldfd => dup oldfd
  | Dup2 oldfd newfd => dup2 oldfd newfd
  | Creat pathname mode => creat pathname mode
  | Creat64 pathname mode => creat64 pathname mode
  | Pipe filedes => pipe filedes
  | Pread fd buf count offset => pread fd buf count offset
  | Pread64 fd buf count offset => pread64 fd buf count offset
  | Pwrite fd buf count offset => pwrite fd buf count offset
  | Pwrite64 fd buf count offset => pwrite64 fd buf count offset
  | Readv fd vector count => readv fd vector count
  | Writev fd vector count => writev fd vector count
  end.

Definition run_memory (op : mem_op) : state -> outcome (Z * state) :=
  match op with
  | Malloc size => malloc size
  | Calloc count size => calloc count size
  | Realloc oldPtr size => realloc oldPtr size
  | PosixMemalign memptr alignment size => posix_memalign memptr alignment size
  | Memalign blocksize bytes => memalign blocksize bytes
  | Free ptr => free ptr
  end.

(** One event, with what the program gets from it. *)
Definition step (ev : event) (s : state) : outcome (list Z * state) :=
  match ev with
  | File op => r ← run_file op s; Ok ([r.1], r.2)
  | Memory op => r ← run_memory op s; Ok ([r.1], r.2)
  | Mpi name args => r ← mpi_wrapper name args s; Ok ([r.1], r.2)
  | Task endpoint => s' ← CBTF_ompt_callback_implicit_task endpoint s; Ok ([], s')
  | IdleTime endpoint => s' ← CBTF_ompt_callback_idle endpoint s; Ok ([], s')
  | ParallelBegin id => s' ← CBTF_ompt_callback_parallel_begin id s; Ok ([], s')
  | ParallelEnd id => s' ← CBTF_ompt_callback_parallel_end id s; Ok ([], s')
  | Pause => s' ← cbtf_collector_pause s; Ok ([], s')
  | Resume => s' ← cbtf_collector_resume s; Ok ([], s')
  end.

Fixpoint run (evs : list event) (s : state) : outcome (list Z * state) :=
  match evs with
  | [] => Ok ([], s)
  | ev :: evs' => r ← step ev s; q ← run evs' r.2; Ok (r.1 ++ q.1, q.2)
  end.

(** ** What the totals are to be

    A call of a real function with the time it takes. *)
Definition timed (name : string) (args : list Z) (w : W) : outcome (Z * Z * W) :=
  t0 ← CBTF_GetTime w; r ← real name args t0.2; t1 ← CBTF_GetTime r.2; Ok (r.1, u64 (t1.1 - t0.1), t1.2).

(** The calls that count, with what they returned and their time. *)
Inductive entry :=
| FileEntry (op : io_op) (retval time : Z)
| MemEntry (op : mem_op) (time : Z)
| MpiEntry (time : Z).

Definition reads (op : io_op) : bool :=
  match op with Read _ _ _ | Pread _ _ _ _ | Pread64 _ _ _ _ | Readv _ _ _ => true | _ => false end.
Definition writes (op : io_op) : bool :=
  match op with Write _ _ _ | Pwrite _ _ _ _ | Pwrite64 _ _ _ _ | Writev _ _ _ => true | _ => false end.

(** The real function of a memory function, with its arguments. *)
Definition mem_call (op : mem_op) : string * list Z :=
  match op with
  | Malloc size => ("malloc", [size])
  | Calloc count size => ("__libc_calloc", [count; size])
  | Realloc oldPtr size => ("realloc", [oldPtr; size])
  | PosixMemalign memptr alignment size => ("posix_memalign", [memptr; alignment; size])
  | Memalign blocksize bytes => ("memalign", [blocksize; bytes])
  | Free ptr => ("free", [ptr])
  end.

(** The bytes an operation allocates; a realloc to no bytes frees, and the aligned
    allocations are not counted. *)
Definition allocates (op : mem_op) : option Z :=
  match op with
  | Malloc size => Some size
  | Calloc count size => Some (count * size)
  | Realloc _ size => if size =? 0 then None else Some size
  | _ => None
  end.
Definition frees (op : mem_op) : bool :=
  match op with Realloc _ size => size =? 0 | Free _ => true | _ => false end.

Definition if_ (b : bool) (x : Z) : Z := if b then x else 0.
Definition sum (f : entry -> Z) (l : list entry) : Z := foldr (fun e acc => f e + acc) 0 l.

Definition file_sum (f : io_op -> Z -> Z -> Z) : list entry -> Z :=
  sum (fun e => match e with FileEntry op r t => f op r t | _ => 0 end).
Definition mem_sum (f : mem_op -> Z -> Z) : list entry -> Z :=
  sum (fun e => match e with MemEntry op t => f op t | _ => 0 end).
Definition mpi_sum : list entry -> Z := sum (fun e => match e with MpiEntry t => t | _ => 0 end).

(** The totals of some calls. *)
Definition io_of (l : list entry) : io_totals :=
  mkIOTotals (u64 (file_sum (fun _ _ t => t) l)) (u64 (file_sum (fun op _ t => if_ (reads op) t) l))
    (u64 (file_sum (fun op _ t => if_ (writes op) t) l)) (u64 (file_sum (fun op r _ => if_ (reads op) r) l))
    (u64 (file_sum (fun op r _ => if_ (writes op) r) l)).
Definition mem_of (l : list entry) : overview_mem_t :=
  mkMemTotals (u64 (mem_sum (fun op t => if_ (bool_decide (is_Some (allocates op))) t) l))
    (u64 (mem_sum (fun op _ => if_ (bool_decide (is_Some (allocates op))) 1) l))
    (u64 (mem_sum (fun op t => if_ (frees op) t) l)) (u64 (mem_sum (fun op _ => if_ (frees op) 1) l))
    (u64 (mem_sum (fun op _ => default 0 (allocates op)) l)).

(** The calls of a run that count, from the clock and the real functions alone:
    file and memory functions while the collector is not paused, but for free(NULL),
    and MPI functions always. *)
Definition entries (active : bool) (ev : event) (w : W) : list entry :=
  match ev with
  | File op => match timed (io_name (op_call op)) (io_args (op_call op)) w with
               | Ok r => if active then [FileEntry op r.1.1 r.1.2] else []
               | _ => []
               end
  | Memory op => match timed (mem_call op).1 (mem_call op).2 w with
                 | Ok r => if active && negb (bool_decide (op = Free 0)) then [MemEntry op r.1.2] else []
                 | _ => []
                 end
  | Mpi name args => match timed name args w with Ok r => [MpiEntry r.1.2] | _ => [] end
  | _ => []
  end.
Definition activity (active : bool) (ev : event) : bool :=
  match ev with Pause => false | Resume => true | _ => active end.
Fixpoint ledger (active : bool) (evs : list event) (s : state) : list entry :=
  match evs with
  | [] => []
  | ev :: evs' => entries active ev s.2 ++
      match step ev s with Ok r => ledger (activity active ev) evs' r.2 | _ => [] end
  end.
End wrappers.
End overview.

(** ** What is assumed of PAPI

    Multiplexed counters can be had, and the numbers of events in the sets. *)
Class PapiMultiplex (W : Type) {PA : Papi W} := {
  mpx_thread_init : forall w, (PAPI_thread_init w).1 = PAPI_OK;
  mpx_init : forall w, (PAPI_multiplex_init w).1 = PAPI_OK;
  mpx_create : forall w, (PAPI_create_eventset PAPI_NULL w).1.1 = PAPI_OK;
  mpx_set : forall e w, (PAPI_set_multiplex e w).1 = PAPI_OK
}.

Class PapiSets (W D : Type) {SV : Services W D} {PA : Papi W} {PI : PapiInfo W} := {
  num_create : forall w, PAPI_num_events (PAPI_create_eventset PAPI_NULL w).1.2 (PAPI_create_eventset PAPI_NULL w).2 = 0;
  num_add : forall e c w, PAPI_num_events e (PAPI_add_event e c w).2 =
    PAPI_num_events e w + (if (PAPI_add_event e c w).1 =? PAPI_OK then 1 else 0);
  num_assign : forall e c x w, PAPI_num_events e (PAPI_assign_eventset_component c x w).2 = PAPI_num_events e w;
  num_set_multiplex : forall e c w, PAPI_num_events e (PAPI_set_multiplex c w).2 = PAPI_num_events e w;
  num_start : forall e c w, PAPI_num_events e (PAPI_start c w).2 = PAPI_num_events e w;
  num_stop : forall e c v w, PAPI_num_events e (PAPI_stop c v w).2 = PAPI_num_events e w;
  num_time : forall e w t w', CBTF_GetTime w = Ok (t, w') -> PAPI_num_events e w' = PAPI_num_events e w
}.

(** ** Sums *)
Lemma u64_add_l a b : u64 (u64 a + b) = u64 (a + b).
Proof. unfold u64. apply Zplus_mod_idemp_l. Qed.
Lemma u64_add_r a b : u64 (a + u64 b) = u64 (a + b).
Proof. unfold u64. apply Zplus_mod_idemp_r. Qed.

Lemma sum_app f l l' : sum f (l ++ l') = sum f l + sum f l'.
Proof. induction l as [|e l IH]; simpl; [done|]. rewrite IH. lia. Qed.

#[local] Ltac totals :=
  unfold io_of, mem_of, mpi_sum, file_sum, mem_sum, if_; rewrite ?sum_app; simpl;
  rewrite ?Z.add_0_r, ?u64_add_l, ?u64_add_r; try done.

Lemma op_kind_calls {W D} {SV : Services W D} (real : string -> list Z -> W -> outcome (Z * W)) op s :
  run_file real op s = io_wrapper real (io_name (op_call op)) (io_args (op_call op))
    (if reads op then KindRead else if writes op then KindWrite else Unknown) s.
Proof. by destruct op. Qed.

Lemma record_io_totals op r t tls l :
  t_defer tls = false -> t_io tls = io_of l ->
  t_io (TLS_record_io_event (mkIop t (match (if reads op then KindRead else if writes op then KindWrite else Unknown)
                                      with KindRead | KindWrite => u64 r | _ => 0 end)
    (if reads op then KindRead else if writes op then KindWrite else Unknown)) tls) = io_of (l ++ [FileEntry op r t]).
Proof.
  intros Hd Hio. unfold TLS_record_io_event. rewrite Hd, Hio.
  destruct op; totals.
Qed.

(** What recording an event leaves alone. *)
Lemma record_io_keeps event tls :
  let tls' := TLS_record_io_event event tls in
  t_started tls' = t_started tls /\ t_defer tls' = t_defer tls /\ t_do_trace tls' = t_do_trace tls /\
  t_nesting_depth tls' = t_nesting_depth tls /\ t_EventSet tls' = t_EventSet tls /\ t_mem tls' = t_mem tls /\
  t_mpi tls' = t_mpi tls.
Proof. unfold TLS_record_io_event. destruct (t_defer tls) eqn:Hd; split_and!; by rewrite ?Hd. Qed.

Lemma record_mem_keeps event tls :
  let tls' := TLS_record_mem_event event tls in
  t_started tls' = t_started tls /\ t_defer tls' = t_defer tls /\ t_do_trace tls' = t_do_trace tls /\
  t_nesting_depth tls' = t_nesting_depth tls /\ t_EventSet tls' = t_EventSet tls /\ t_io tls' = t_io tls /\
  t_mpi tls' = t_mpi tls.
Proof.
  unfold TLS_record_mem_event. destruct (t_defer tls) eqn:Hd; [|destruct (0 <? _)]; split_and!; by rewrite ?Hd.
Qed.

(** The memory operation as an event, and whether its wrapper traces it. *)
Definition op_event (op : mem_op) (t0 t1 : Z) : memt_event :=
  match op with
  | Malloc size => mkMemt t0 t1 size size MEM_MALLOC
  | Calloc count size => mkMemt t0 t1 count size MEM_CALLOC
  | Realloc _ size => mkMemt t0 t1 size size MEM_REALLOC
  | PosixMemalign _ alignment size => mkMemt t0 t1 alignment size MEM_POSIX_MEMALIGN
  | Memalign blocksize bytes => mkMemt t0 t1 blocksize bytes MEM_MEMALIGN
  | Free _ => mkMemt t0 t1 0 0 MEM_FREE
  end.

Lemma run_memory_calls {W D} {SV : Services W D} (real : string -> list Z -> W -> outcome (Z * W)) op g tls w :
  let result := fun r => match op with Memalign _ _ => i32 r | _ => r end in
  run_memory real op (g, tls, w) =
    if t_do_trace tls && negb (bool_decide (op = Free 0)) then
      t0 ← CBTF_GetTime w; r ← real (mem_call op).1 (mem_call op).2 t0.2; t1 ← CBTF_GetTime r.2;
      Ok (result r.1, (g, TLS_record_mem_event (op_event op t0.1 t1.1) tls, t1.2))
    else r ← real (mem_call op).1 (mem_call op).2 w; Ok (result r.1, (g, tls, r.2)).
Proof.
  intros result. subst result.
  destruct op as [| | | | |ptr]; cbn [run_memory];
    unfold malloc, calloc, realloc, posix_memalign, memalign, free, mem_wrapper, collector_do_trace, op_event, mem_call;
    cbn [fst snd].
  all: try (rewrite bool_decide_false, andb_true_r by done; by destruct (t_do_trace tls)).
  - rewrite bool_decide_false, andb_true_r by done. destruct (t_do_trace tls).
    + destruct (CBTF_GetTime w) as [t0| | |]; [|done..]. rewrite !bind_of_Ok.
      destruct (real _ _ _) as [r| | |]; [|done..]. rewrite !bind_of_Ok. by destruct (CBTF_GetTime r.2).
    + by destruct (real _ _ _).
  - replace (bool_decide (Free ptr = Free 0)) with (ptr =? 0); [done|].
    destruct (ptr =? 0) eqn:Hp; bools; symmetry; [by apply bool_decide_true; subst|apply bool_decide_false; congruence].
Qed.

Lemma record_mem_totals op t0 t1 tls l :
  t_defer tls = false -> t_nesting_depth tls = 0 -> t_mem tls = mem_of l ->
  t_mem (TLS_record_mem_event (op_event op t0 t1) tls) = mem_of (l ++ [MemEntry op (u64 (t1 - t0))]).
Proof.
  intros Hd Hn Hm. unfold TLS_record_mem_event. rewrite Hd, Hn, Hm. simpl (0 <? 0).
  destruct op as [s|c s|p s| | |]; unfold op_event; cbn [me_type me_size1 me_size2 me_start_time me_stop_time t_mem set_totals];
    unfold allocated, freed, mem_of, mem_sum; rewrite !sum_app; cbn [allocates frees sum foldr total_allocation_time
      total_allocation_calls total_free_time total_free_calls total_bytes_allocated].
  3: destruct (s =? 0).
  all: rewrite ?bool_decide_true by eauto; rewrite ?bool_decide_false by (by intros [? [=]]); unfold if_; simpl;
    rewrite ?Z.add_0_r, ?u64_add_l, ?u64_add_r; done.
Qed.

(** The serial and the task time make up the time from [T0] to the last change. *)
Definition partition (T0 : Z) (in_task : bool) (o : ompt_times) : Prop :=
  u64 (ttime o Serial + ttime o Itask) = u64 (btime o (if in_task then Itask else Serial) - T0).

Lemma upd_same x v f : upd x v f x = v.
Proof. unfold upd. by rewrite decide_True. Qed.
Lemma upd_other x y v f : x <> y -> upd x v f y = f y.
Proof. intros H. unfold upd. by rewrite decide_False. Qed.

Section correctness.
Context {W D : Type} {SV : Services W D} {SL : ServicesLaws W D} {PA : Papi W} {PI : PapiInfo W}.
Context {PS : PapiSets W D} (have_ompt : bool).
Context (real : string -> list Z -> W -> outcome (Z * W)).
Context (Hreal : forall name args w, exists r w', real name args w = Ok (r, w') /\
  forall e, PAPI_num_events e w' = PAPI_num_events e w).

(** A started thread, active or paused, with the totals of [l]. *)
Definition ov_inv (active : bool) (s : state) (l : list entry) : Prop :=
  let tls := s.1.2 in
  (t_started tls = true /\ t_defer tls = negb active /\ t_do_trace tls = active /\ t_nesting_depth tls = 0) /\
  (t_EventSet tls <> PAPI_NULL /\ PAPI_num_events (t_EventSet tls) s.2 <= MAX_PAPI_EVENTS) /\
  t_io tls = io_of l /\ t_mem tls = mem_of l /\ t_mpi tls = u64 (mpi_sum l).

Lemma time_num w : exists t w', CBTF_GetTime w = Ok (t, w') /\ forall e, PAPI_num_events e w' = PAPI_num_events e w.
Proof. destruct (time_law w) as (t & w' & H & _). exists t, w'. split; [done|]. intros e. by eapply num_time. Qed.

(** A timed call leaves the numbers of events alone. *)
Lemma timed_ok name args w : exists t0 w0 r w1 t1 w2,
  CBTF_GetTime w = Ok (t0, w0) /\ real name args w0 = Ok (r, w1) /\ CBTF_GetTime w1 = Ok (t1, w2) /\
  timed real name args w = Ok (r, u64 (t1 - t0), w2) /\ forall e, PAPI_num_events e w2 = PAPI_num_events e w.
Proof.
  destruct (time_num w) as (t0 & w0 & H0 & N0). destruct (Hreal name args w0) as (r & w1 & H1 & N1).
  destruct (time_num w1) as (t1 & w2 & H2 & N2). exists t0, w0, r, w1, t1, w2. split_and!; try done.
  - unfold timed. rewrite H0, bind_of_Ok. cbn [snd]. rewrite H1, bind_of_Ok. cbn [snd]. by rewrite H2.
  - intros e. by rewrite N2, N1, N0.
Qed.

Notation result ev s active l :=
  (exists out s', step real ev s = Ok (out, s') /\ ov_inv (activity active ev) s' (l ++ entries real active ev s.2)).

Lemma file_ok active op s l : ov_inv active s l -> result (File op) s active l.
Proof.
  destruct s as [[g tls] w]. intros ((Hst & Hd & Ht & Hn) & (He & Hnum) & Hio & Hmem & Hmpi). cbn [fst snd] in *.
  destruct (timed_ok (io_name (op_call op)) (io_args (op_call op)) w) as (t0 & w0 & r & w1 & t1 & w2 & H0 & H1 & H2 & H3 & Hsame).
  cbn [step]. rewrite op_kind_calls. unfold io_wrapper. rewrite H0, bind_of_Ok. cbn [fst snd]. rewrite H1, bind_of_Ok. cbn [fst snd].
  rewrite H2, !bind_of_Ok. eexists _, _. split; [reflexivity|]. cbn [entries activity snd]. rewrite H3.
  set (event := mkIop _ _ _). set (tls' := TLS_record_io_event _ _).
  destruct (record_io_keeps event tls) as (K1 & K2 & K3 & K4 & K5 & K6 & K7).
  unfold ov_inv. cbn [fst snd]. subst tls'. rewrite K1, K2, K3, K4, K5, K6, K7, Hsame.
  set (tls' := TLS_record_io_event _ _). split_and!; try done; destruct active; cbn [negb] in *.
  - by apply record_io_totals.
  - subst tls'. unfold TLS_record_io_event. by rewrite Hd, app_nil_r.
  - rewrite Hmem. totals.
  - by rewrite app_nil_r.
  - rewrite Hmpi. totals.
  - by rewrite app_nil_r.
Qed.

Lemma memory_ok active op s l : ov_inv active s l -> result (Memory op) s active l.
Proof.
  destruct s as [[g tls] w]. intros ((Hst & Hd & Ht & Hn) & (He & Hnum) & Hio & Hmem & Hmpi). cbn [fst snd] in *.
  destruct (timed_ok (mem_call op).1 (mem_call op).2 w) as (t0 & w0 & r & w1 & t1 & w2 & H0 & H1 & H2 & H3 & Hsame).
  cbn [step entries activity snd]. rewrite run_memory_calls, H3, Ht. destruct (active && _) eqn:Ha.
  - apply andb_prop in Ha as [-> _]. rewrite H0, bind_of_Ok. cbn [fst snd]. rewrite H1, bind_of_Ok. cbn [fst snd].
    rewrite H2, !bind_of_Ok. eexists _, _. split; [reflexivity|]. cbn [fst snd].
    destruct (record_mem_keeps (op_event op t0 t1) tls) as (K1 & K2 & K3 & K4 & K5 & K6 & K7).
    unfold ov_inv. cbn [fst snd]. rewrite K1, K2, K3, K4, K5, K6, K7, Hsame. split_and!; try done.
    + rewrite Hio. totals.
    + by apply record_mem_totals.
    + rewrite Hmpi. totals.
  - destruct (Hreal (mem_call op).1 (mem_call op).2 w) as (r' & w' & -> & Hs'). rewrite !bind_of_Ok, app_nil_r.
    eexists _, _. split; [reflexivity|]. unfold ov_inv. cbn [fst snd]. by rewrite Hs'.
Qed.

Lemma mpi_call_ok active name args s l : ov_inv active s l -> result (Mpi name args) s active l.
Proof.
  destruct s as [[g tls] w]. intros ((Hst & Hd & Ht & Hn) & (He & Hnum) & Hio & Hmem & Hmpi). cbn [fst snd] in *.
  destruct (timed_ok name args w) as (t0 & w0 & r & w1 & t1 & w2 & H0 & H1 & H2 & H3 & Hsame).
  cbn [step entries activity snd]. unfold mpi_wrapper. rewrite H3, H0, bind_of_Ok. cbn [fst snd]. rewrite H1, bind_of_Ok. cbn [fst snd].
  rewrite H2, !bind_of_Ok. eexists _, _. split; [reflexivity|]. unfold ov_inv. cbn [fst snd]. rewrite Hsame.
  split_and!; try done; cbn [TLS_record_mpi_event set_totals t_io t_mem t_mpi].
  - rewrite Hio. totals.
  - rewrite Hmem. totals.
  - rewrite Hmpi. totals.
Qed.

(** The events that change no total. *)
Lemma keep_inv active active' g g' tls tls' w w' l :
  ov_inv active (g, tls, w) l -> t_started tls' = true -> t_defer tls' = negb active' -> t_do_trace tls' = active' ->
  t_nesting_depth tls' = t_nesting_depth tls -> t_EventSet tls' = t_EventSet tls ->
  (forall e, PAPI_num_events e w' = PAPI_num_events e w) ->
  t_io tls' = t_io tls -> t_mem tls' = t_mem tls -> t_mpi tls' = t_mpi tls -> ov_inv active' (g', tls', w') l.
Proof.
  intros ((Hst & Hd & Ht & Hn) & (He & Hnum) & Hio & Hmem & Hmpi) ? ? ? ? Hes Hw ? ? ?. cbn [fst snd] in *.
  unfold ov_inv. cbn [fst snd]. rewrite Hes, Hw. split_and!; congruence.
Qed.

Lemma pause_ok active s l : ov_inv active s l -> result Pause s active l.
Proof.
  destruct s as [[g tls] w]. intros HI. pose proof HI as ((Hst & Hd & Ht & Hn) & (He & Hnum) & _). cbn [fst snd] in *.
  cbn [step entries activity]. rewrite app_nil_r. unfold cbtf_collector_pause, TLS_ompt_set_collector_active.
  destruct (time_num w) as (t & w1 & -> & Hw1). rewrite !bind_of_Ok. cbn [fst snd].
  destruct (g_papi_init_done g).
  - cbn [t_EventSet set_flags set_ompt]. unfold stores_values. rewrite Hw1.
    destruct (_ <=? _) eqn:Hle; bools; [|lia]. cbn [negb]. rewrite bind_of_Ok. eexists _, _. split; [reflexivity|].
    eapply keep_inv; [exact HI|done..| |done|done|done]. intros e. cbn. by rewrite num_stop, Hw1.
  - rewrite bind_of_Ok. eexists _, _. split; [reflexivity|]. by eapply keep_inv; [exact HI|done..].
Qed.

Lemma silent_ok active ev s l : ov_inv active s l ->
  match ev with File _ | Memory _ | Mpi _ _ | Pause => False | _ => True end -> result ev s active l.
Proof.
  destruct s as [[g tls] w]. intros HI Hev. pose proof HI as ((Hst & Hd & Ht & Hn) & _). cbn [fst snd] in *.
  destruct (time_num w) as (t & w1 & Hw & Hw1).
  destruct ev as [| | |[]|[]| | | |]; try done; cbn [step entries activity];
    unfold CBTF_ompt_callback_implicit_task, CBTF_ompt_callback_idle; rewrite app_nil_r, ?Hw, ?bind_of_Ok;
    (eexists _, _; split; [reflexivity|]); try (eapply keep_inv; [exact HI|done..]).
  destruct (g_papi_init_done g); (eapply keep_inv; [exact HI|try done..]). intros e. apply num_start.
Qed.

Lemma ov_step_ok active ev s l : ov_inv active s l -> result ev s active l.
Proof.
  intros HI. destruct ev; (by apply file_ok || by apply memory_ok || by apply mpi_call_ok || by apply pause_ok || by apply silent_ok).
Qed.

Lemma ov_run_ok evs : forall active s l, ov_inv active s l ->
  exists out s', run real evs s = Ok (out, s') /\ exists active', ov_inv active' s' (l ++ ledger real active evs s).
Proof.
  induction evs as [|ev evs IH]; intros active s l HI.
  - eexists _, _. split; [reflexivity|]. cbn [ledger]. rewrite app_nil_r. by exists active.
  - destruct (ov_step_ok active ev s l HI) as (o1 & s1 & H1 & HI1). destruct (IH _ _ _ HI1) as (o2 & s2 & H2 & a' & HI2).
    cbn [run ledger]. rewrite H1, bind_of_Ok. cbn [fst snd]. rewrite H2, bind_of_Ok. eexists _, _. split; [reflexivity|].
    exists a'. by rewrite app_assoc.
Qed.

Lemma add_events_num e names : forall code w,
  PAPI_num_events e (add_events e names code w) <= PAPI_num_events e w + Z.of_nat (length names).
Proof using PS.
  induction names as [|name names IH]; intros code w; cbn [add_events length]; [lia|].
  etransitivity; [apply IH|]. destruct (negb _); [lia|]. destruct (negb _); [lia|].
  rewrite num_add. destruct (_ =? _); lia.
Qed.

Context {PM : PapiMultiplex W} {PH : PapiHardware W} {PW : PapiWorks W}.

Lemma check_ok (r : Z * W) : r.1 = PAPI_OK -> PAPI_CHECK r = Ok r.2.
Proof. intros H. unfold PAPI_CHECK. by rewrite H, Z.eqb_refl. Qed.

Lemma papi_setup_ok g tls w :
  (g_papi_init_done g = true -> is_Some (g_hw_info g)) ->
  exists g' es mhz w', papi_setup g tls w = Ok (g', set_papi (t_evalues tls) es (set_sampling (t_interval tls) mhz tls),
      add_events es (strtok_all (g_papi_event g)) 0 w') /\
    g_papi_init_done g' = true /\ es <> PAPI_NULL /\ PAPI_num_events es w' = 0.
Proof using PS PM PH PW.
  intros Hhw. unfold papi_setup. match goal with |- context [PAPI_thread_init ?x] => generalize x; intros w1 end.
  rewrite check_ok by apply mpx_thread_init. rewrite bind_of_Ok, check_ok by apply mpx_init. rewrite bind_of_Ok.
  rewrite check_ok by apply mpx_create. rewrite bind_of_Ok. cbn [fst snd]. set (w3 := (PAPI_multiplex_init _).2).
  rewrite check_ok by apply hw_assign. rewrite bind_of_Ok, check_ok by apply mpx_set. rewrite bind_of_Ok.
  set (es := (PAPI_create_eventset PAPI_NULL w3).1.2).
  assert (is_Some (if g_papi_init_done g then g_hw_info g
    else PAPI_get_hardware_info (PAPI_set_multiplex es (PAPI_assign_eventset_component es 0 (PAPI_create_eventset PAPI_NULL w3).2).2).2))
    as [mhz ->].
  { destruct (g_papi_init_done g); [by apply Hhw|apply hw_known]. }
  eexists _, _, _, _. split; [reflexivity|]. cbn [g_papi_init_done]. split_and!; [done|apply works_create|].
  rewrite num_set_multiplex, num_assign. subst es. by rewrite num_create.
Qed.

(** The events the first thread asks for, or those asked for before. *)
Definition events_wanted (g : globals) (w : W) : list string := strtok_all (g_papi_event (count_thread g w).1).

(** What the start of the collector leaves: nothing in the totals, and the events
    wanted in the event set, as far as PAPI accepts them. *)
Lemma ov_start_shape header g tls w :
  g_in_mpi_startup g = false -> (g_papi_init_done g = true -> is_Some (g_hw_info g)) ->
  (forall w', u64 (count_thread g w').2 <> 0) ->
  exists s1 w0 w1, cbtf_collector_start have_ompt header (g, tls, w) = Ok s1 /\
    (t_started s1.1.2 = true /\ t_defer s1.1.2 = false /\ t_do_trace s1.1.2 = true /\ t_nesting_depth s1.1.2 = 0) /\
    t_EventSet s1.1.2 <> PAPI_NULL /\ (t_io s1.1.2 = zero_io /\ t_mem s1.1.2 = zero_mem /\ t_mpi s1.1.2 = 0) /\
    (g_papi_init_done s1.1.1 = true /\ ttime (t_ompt s1.1.2) Serial = 0 /\ ttime (t_ompt s1.1.2) Itask = 0) /\
    PAPI_num_events (t_EventSet s1.1.2) w1 = 0 /\
    PAPI_num_events (t_EventSet s1.1.2) s1.2 =
      PAPI_num_events (t_EventSet s1.1.2) (add_events (t_EventSet s1.1.2) (events_wanted g w0) 0 w1).
Proof using SL PS PM PH PW.
  intros Hmpi Hhw Hrate. unfold cbtf_collector_start.
  destruct (time_num w) as (t0 & w0 & -> & _). rewrite bind_of_Ok. cbn [fst snd]. rewrite Hmpi.
  destruct (u64 (count_thread g w0).2 =? 0) eqn:Hr; bools; [by destruct (Hrate w0)|].
  match goal with |- context [papi_setup ?g1 ?tls1 ?w1] =>
    destruct (papi_setup_ok g1 tls1 w1) as (g' & es & mhz & w' & -> & Hdone & Hes & Hnum) end.
  { by unfold count_thread. }
  rewrite bind_of_Ok. cbn [fst snd]. set (wa := add_events _ _ _ _).
  match goal with |- context [(if have_ompt then ?x else ?y)] => assert (exists tls2 w2, (if have_ompt then x else y) = Ok (tls2, w2) /\
      (forall e, PAPI_num_events e w2 = PAPI_num_events e wa) /\ t_nesting_depth tls2 = 0 /\ t_EventSet tls2 = es /\
      (t_io tls2 = zero_io /\ t_mem tls2 = zero_mem /\ t_mpi tls2 = 0) /\
      ttime (t_ompt tls2) = fun _ => 0) as (tls2 & w2 & -> & Hw2 & N & E & (I & M & P) & T) end.
  { destruct have_ompt; [|by eexists _, _]. unfold TLS_ompt_set_collector_active.
    destruct (time_num wa) as (t2 & w2 & -> & Hw2). rewrite bind_of_Ok. by eexists _, _. }
  rewrite bind_of_Ok. cbn [fst snd]. destruct (time_num w2) as (t3 & w3 & -> & Hw3). rewrite bind_of_Ok. cbn [fst snd].
  eexists _, w0, w'. split; [reflexivity|]. cbn. rewrite !upd_other, T, N, E, I, M, P by done. split_and!; try done.
  by rewrite num_start, Hw3, Hw2.
Qed.

Lemma ov_start_ok header g tls w :
  g_in_mpi_startup g = false -> (g_papi_init_done g = true -> is_Some (g_hw_info g)) ->
  (forall w', u64 (count_thread g w').2 <> 0) -> (forall w', (length (events_wanted g w') <= 12)%nat) ->
  exists s1, cbtf_collector_start have_ompt header (g, tls, w) = Ok s1 /\ ov_inv true s1 [] /\
    partition (btime (t_ompt s1.1.2) Serial) false (t_ompt s1.1.2).
Proof using SL PS PM PH PW.
  intros Hmpi Hhw Hrate Hev. destruct (ov_start_shape header g tls w Hmpi Hhw Hrate)
    as (s1 & w0 & w1 & H1 & Hfl & He & (I & M & P) & (_ & TS & TI) & Hn0 & Hn). exists s1. split; [done|]. split.
  - split; [done|]. split; [split; [done|]|by rewrite I, M, P]. rewrite Hn.
    pose proof (add_events_num (t_EventSet s1.1.2) (events_wanted g w0) 0 w1). specialize (Hev w0). unfold MAX_PAPI_EVENTS. lia.
  - unfold partition. by rewrite TS, TI, Z.sub_diag.
Qed.

Lemma ov_stop_ok active s l : ov_inv active s l ->
  exists s', stop_counting s = Ok (true, s') /\ t_io s'.1.2 = io_of l /\ t_mem s'.1.2 = mem_of l /\
    t_mpi s'.1.2 = u64 (mpi_sum l).
Proof using SL PS.
  destruct s as [[g tls] w]. intros ((Hst & Hd & Ht & Hn) & (He & Hnum) & Hio & Hmem & Hmpi). cbn [fst snd] in *.
  unfold stop_counting. rewrite Hst. cbn [negb]. destruct (time_num w) as (t & w1 & -> & Hw1). rewrite bind_of_Ok. cbn.
  destruct (t_EventSet tls =? PAPI_NULL) eqn:HE; bools; [done|]. unfold stores_values. rewrite Hw1.
  destruct (_ <=? _) eqn:Hle; bools; [|lia]. cbn [negb]. by eexists.
Qed.
End correctness.

(** ** Serial and task time *)

(** Implicit tasks begin and end in turns; the result is whether one is left running. *)
Fixpoint in_turns (in_task : bool) (evs : list event) : option bool :=
  match evs with
  | [] => Some in_task
  | Task scope_begin :: evs' => if in_task then None else in_turns true evs'
  | Task scope_end :: evs' => if in_task then in_turns false evs' else None
  | _ :: evs' => in_turns in_task evs'
  end.

Lemma u64_eq_shift x y d : u64 x = u64 y -> u64 (x + d) = u64 (y + d).
Proof. intros H. by rewrite <- (u64_add_l x), H, u64_add_l. Qed.

Lemma partition_begin T0 t tls :
  partition T0 false (t_ompt tls) -> partition T0 true (t_ompt (TLS_update_ompt_task_begin t tls)).
Proof.
  unfold partition. cbn [t_ompt set_ompt TLS_update_ompt_task_begin TLS_update_ompt_task_totals btime ttime].
  rewrite !upd_same, upd_other by done. intros H.
  apply (u64_eq_shift _ _ (t - btime (t_ompt tls) Serial)) in H.
  rewrite u64_add_l, <- Z.add_assoc, (Z.add_comm (u64 _)), Z.add_assoc, u64_add_r, H. f_equal.  lia.
Qed.

Lemma partition_end T0 t tls :
  partition T0 true (t_ompt tls) -> partition T0 false (t_ompt (TLS_update_ompt_task_totals t tls)).
Proof.
  unfold partition. cbn [t_ompt set_ompt TLS_update_ompt_task_begin TLS_update_ompt_task_totals btime ttime].
  rewrite !upd_same, upd_other by done. intros H.
  apply (u64_eq_shift _ _ (t - btime (t_ompt tls) Itask)) in H.
  rewrite u64_add_r, Z.add_assoc, u64_add_r, H. f_equal. lia.
Qed.

(** Everything else leaves these times alone. *)
Definition same_tasks (o o' : ompt_times) : Prop :=
  forall x, x <> Idle -> x <> Thread -> btime o' x = btime o x /\ ttime o' x = ttime o x.

Lemma partition_same T0 b o o' : same_tasks o o' -> partition T0 b o -> partition T0 b o'.
Proof.
  intros H. unfold partition. destruct (H Serial) as [Hb Ht], (H Itask) as [Hb' Ht']; try done.
  rewrite Ht, Ht'. destruct b; [rewrite Hb'|rewrite Hb]; done.
Qed.

Section tasks.
Context {W D : Type} {SV : Services W D} {PA : Papi W} {PI : PapiInfo W}.
Context (real : string -> list Z -> W -> outcome (Z * W)).

Lemma io_same_tasks name args kind (s s' : state) r :
  io_wrapper real name args kind s = Ok (r, s') -> t_ompt s'.1.2 = t_ompt s.1.2.
Proof.
  destruct s as [[g tls] w]. unfold io_wrapper.
  destruct (CBTF_GetTime w) as [t0| | |]; [|done..]. rewrite bind_of_Ok. destruct (real _ _ _) as [q| | |]; [|done..].
  rewrite bind_of_Ok. destruct (CBTF_GetTime q.2) as [t1| | |]; [|done..]. rewrite bind_of_Ok. intros [= <- <-]. cbn.
  unfold TLS_record_io_event. by destruct (t_defer tls).
Qed.

Lemma memory_same_tasks op (s s' : state) r : run_memory real op s = Ok (r, s') -> t_ompt s'.1.2 = t_ompt s.1.2.
Proof.
  destruct s as [[g tls] w]. rewrite run_memory_calls. destruct (_ && _).
  - destruct (CBTF_GetTime w) as [t0| | |]; [|done..]. rewrite bind_of_Ok. destruct (real _ _ _) as [q| | |]; [|done..].
    rewrite bind_of_Ok. destruct (CBTF_GetTime q.2) as [t1| | |]; [|done..]. rewrite bind_of_Ok. intros [= <- <-]. cbn.
    unfold TLS_record_mem_event. destruct (t_defer tls); [done|]. by destruct (0 <? _).
  - destruct (real _ _ _) as [q| | |]; [|done..]. rewrite bind_of_Ok. by intros [= <- <-].
Qed.

Lemma step_tasks T0 b ev (s s' : state) out : step real ev s = Ok (out, s') -> partition T0 b (t_ompt s.1.2) ->
  forall b', in_turns b [ev] = Some b' -> partition T0 b' (t_ompt s'.1.2).
Proof.
  destruct s as [[g tls] w]. intros Hs HP b' Ht.
  destruct ev as [op|op|name args|[]|[]| | | |]; cbn [step] in Hs.
  - rewrite op_kind_calls in Hs. destruct (io_wrapper _ _ _ _ _) as [[r q]| | |] eqn:Hio; [|done..].
    rewrite bind_of_Ok in Hs. injection Hs as <- <-. injection Ht as <-. by rewrite (io_same_tasks _ _ _ _ _ _ Hio).
  - destruct (run_memory _ _ _) as [[r q]| | |] eqn:Hm; [|done..]. rewrite bind_of_Ok in Hs. injection Hs as <- <-.
    injection Ht as <-. by rewrite (memory_same_tasks _ _ _ _ Hm).
  - unfold mpi_wrapper in Hs. destruct (CBTF_GetTime w) as [t0| | |]; [|done..]. rewrite bind_of_Ok in Hs.
    destruct (real _ _ _) as [q| | |]; [|done..]. rewrite bind_of_Ok in Hs. destruct (CBTF_GetTime q.2) as [t1| | |]; [|done..].
    rewrite !bind_of_Ok in Hs. injection Hs as <- <-. by injection Ht as <-.
  - unfold CBTF_ompt_callback_implicit_task in Hs. destruct (CBTF_GetTime w) as [t| | |]; [|done..]. rewrite !bind_of_Ok in Hs.
    injection Hs as <- <-. destruct b; [done|]. injection Ht as <-. by apply partition_begin.
  - unfold CBTF_ompt_callback_implicit_task in Hs. destruct (CBTF_GetTime w) as [t| | |]; [|done..]. rewrite !bind_of_Ok in Hs.
    injection Hs as <- <-. destruct b; [|done]. injection Ht as <-. by apply partition_end.
  - unfold CBTF_ompt_callback_idle in Hs. destruct (CBTF_GetTime w) as [t| | |]; [|done..]. rewrite !bind_of_Ok in Hs.
    injection Hs as <- <-. injection Ht as <-. eapply partition_same; [|exact HP]. intros x Hx _. cbn.
    by rewrite upd_other.
  - unfold CBTF_ompt_callback_idle in Hs. destruct (CBTF_GetTime w) as [t| | |]; [|done..]. rewrite !bind_of_Ok in Hs.
    injection Hs as <- <-. injection Ht as <-. eapply partition_same; [|exact HP]. intros x Hx _. cbn.
    by rewrite upd_other.
  - injection Hs as <- <-. by injection Ht as <-.
  - injection Hs as <- <-. by injection Ht as <-.
  - unfold cbtf_collector_pause, TLS_ompt_set_collector_active in Hs. destruct (CBTF_GetTime w) as [t| | |]; [|done..].
    rewrite !bind_of_Ok in Hs. cbn [fst snd] in Hs. injection Ht as <-. destruct (g_papi_init_done g); [destruct (negb _); [done|]|];
      rewrite bind_of_Ok in Hs; by injection Hs as <- <-.
  - injection Hs as <- <-. by injection Ht as <-.
Qed.

Lemma in_turns_cons b ev evs : in_turns b (ev :: evs) = b' ← in_turns b [ev]; in_turns b' evs.
Proof. by destruct ev as [| | |[]| | | | |], b. Qed.

Lemma run_tasks T0 evs : forall b (s s' : state) out b', run real evs s = Ok (out, s') ->
  partition T0 b (t_ompt s.1.2) -> in_turns b evs = Some b' -> partition T0 b' (t_ompt s'.1.2).
Proof.
  induction evs as [|ev evs IH]; intros b s s' out b' Hrun HP Ht.
  - injection Hrun as <- <-. by injection Ht as <-.
  - rewrite in_turns_cons in Ht. apply bind_Some in Ht as (b1 & H1 & Ht). cbn [run] in Hrun.
    destruct (step real ev s) as [[o1 s1]| | |] eqn:Hs; [|done..]. rewrite bind_of_Ok in Hrun. cbn [fst snd] in Hrun.
    destruct (run real evs s1) as [[o2 s2]| | |] eqn:Hr; [|done..]. rewrite bind_of_Ok in Hrun. injection Hrun as <- <-.
    eapply IH; [exact Hr| |exact Ht]. by eapply step_tasks.
Qed.
End tasks.

(** ** Theorems *)

(** C16: with usable PAPI counters, at most twelve events asked for and no MPI_Init
    going on, a thread goes from the start of the overview collector through any
    sequence of file, memory and MPI calls, OMPT callbacks, pauses and resumes to the
    point of the stop at which counting has ended (stop_counting) without a failure. Its
    totals are then exactly those of the calls made while
    it was not paused, and of all MPI calls: time, bytes read and written, calls and
    bytes allocated, calls that free, modulo 2^64. A call that returns -1 counts as
    -1 bytes. What is left of the stop, printing the totals, overruns arrays
    (OverviewCSV.v). *)
Theorem overview_totals_account {W D} {SV : Services W D} {SL : ServicesLaws W D} {PA : Papi W} {PI : PapiInfo W}
    {PS : PapiSets W D} {PM : PapiMultiplex W} {PH : PapiHardware W} {PW : PapiWorks W} (have_ompt : bool)
    (real : string -> list Z -> W -> outcome (Z * W)) (header : CBTF_DataHeader) (g : globals) (tls : TLS) (w : W)
    (evs : list event) :
  (forall name args w, exists r w', real name args w = Ok (r, w') /\ forall e, PAPI_num_events e w' = PAPI_num_events e w) ->
  g_in_mpi_startup g = false -> (g_papi_init_done g = true -> is_Some (g_hw_info g)) ->
  (forall w', u64 (count_thread g w').2 <> 0) -> (forall w', (length (events_wanted g w') <= 12)%nat) ->
  exists s1 out s2 s3,
    cbtf_collector_start have_ompt header (g, tls, w) = Ok s1 /\ run real evs s1 = Ok (out, s2) /\
    stop_counting s2 = Ok (true, s3) /\
    t_io s3.1.2 = io_of (ledger real true evs s1) /\ t_mem s3.1.2 = mem_of (ledger real true evs s1) /\
    t_mpi s3.1.2 = u64 (mpi_sum (ledger real true evs s1)).
Proof.
  intros Hreal Hmpi Hhw Hrate Hev. destruct (ov_start_ok have_ompt header g tls w Hmpi Hhw Hrate Hev) as (s1 & H1 & HI1 & _).
  destruct (ov_run_ok real Hreal evs true s1 [] HI1) as (out & s2 & H2 & a & HI2).
  destruct (ov_stop_ok a s2 _ HI2) as (s3 & H3 & Ht). by exists s1, out, s2, s3.
Qed.

(** when implicit tasks begin and end in turns, then at any time between start
    and stop the serial time and the task time of a thread add up to the time from
    the initialisation of its storage to the last begin or end of a task, whatever
    else happens in between. *)
Theorem overview_time_partition {W D} {SV : Services W D} {SL : ServicesLaws W D} {PA : Papi W} {PI : PapiInfo W}
    {PS : PapiSets W D} {PM : PapiMultiplex W} {PH : PapiHardware W} {PW : PapiWorks W} (have_ompt : bool)
    (real : string -> list Z -> W -> outcome (Z * W)) (header : CBTF_DataHeader) (g : globals) (tls : TLS) (w : W)
    (evs : list event) (in_task : bool) :
  (forall name args w, exists r w', real name args w = Ok (r, w') /\ forall e, PAPI_num_events e w' = PAPI_num_events e w) ->
  g_in_mpi_startup g = false -> (g_papi_init_done g = true -> is_Some (g_hw_info g)) ->
  (forall w', u64 (count_thread g w').2 <> 0) -> (forall w', (length (events_wanted g w') <= 12)%nat) ->
  in_turns false evs = Some in_task ->
  exists s1 out s2,
    cbtf_collector_start have_ompt header (g, tls, w) = Ok s1 /\ run real evs s1 = Ok (out, s2) /\
    u64 (ttime (t_ompt s2.1.2) Serial + ttime (t_ompt s2.1.2) Itask) =
      u64 (btime (t_ompt s2.1.2) (if in_task then Itask else Serial) - btime (t_ompt s1.1.2) Serial).
Proof.
  intros Hreal Hmpi Hhw Hrate Hev Ht. destruct (ov_start_ok have_ompt header g tls w Hmpi Hhw Hrate Hev) as (s1 & H1 & HI1 & HP).
  destruct (ov_run_ok real Hreal evs true s1 [] HI1) as (out & s2 & H2 & _).
  exists s1, out, s2. split_and!; [done|done|]. by apply (run_tasks real _ evs false s1 s2 out).
Qed.

(** On a machine that counts all sixteen events of the default list, pausing and
    stopping store sixteen values into the twelve elements of evalues[]. *)
Lemma add_events_all {W D} {SV : Services W D} {PA : Papi W} {PI : PapiInfo W} {PS : PapiSets W D} e names :
  (forall name c w, (PAPI_event_name_to_code name c w).1 = PAPI_OK) -> (forall c w, PAPI_query_event c w = PAPI_OK) ->
  (forall c w, (PAPI_add_event e c w).1 = PAPI_OK) ->
  forall code w, PAPI_num_events e (add_events e names code w) = PAPI_num_events e w + Z.of_nat (length names).
Proof.
  intros Hn Hq Ha. induction names as [|name names IH]; intros code w; cbn [add_events length]; [lia|].
  rewrite IH, Hn, Hq, Z.eqb_refl. cbn [negb]. rewrite num_add, Ha, Z.eqb_refl. lia.
Qed.

Theorem overview_default_events_overrun {W D} {SV : Services W D} {SL : ServicesLaws W D} {PA : Papi W} {PI : PapiInfo W}
    {PS : PapiSets W D} {PM : PapiMultiplex W} {PH : PapiHardware W} {PW : PapiWorks W} (have_ompt : bool)
    (header : CBTF_DataHeader) (g : globals) (tls : TLS) (w : W) :
  (forall name c w, (PAPI_event_name_to_code name c w).1 = PAPI_OK) -> (forall c w, PAPI_query_event c w = PAPI_OK) ->
  (forall e c w, (PAPI_add_event e c w).1 = PAPI_OK) ->
  g_thread_count g = 0 -> g_in_mpi_startup g = false -> (g_papi_init_done g = true -> is_Some (g_hw_info g)) ->
  (forall w' : W, getenv w' "OVERVIEW_HWC_EVENTS" = None /\ getenv w' "OVERVIEW_SAMP_RATE" = None) ->
  exists s1, cbtf_collector_start have_ompt header (g, tls, w) = Ok s1 /\
    cbtf_collector_pause s1 = Fault /\ stop_counting s1 = Fault.
Proof.
  intros Hn Hq Ha Hc Hmpi Hhw Henv.
  destruct (ov_start_shape have_ompt header g tls w Hmpi Hhw) as (s1 & w0 & w1 & H1 & (Hst & _) & He & _ & (Hd & _) & Hn0 & Hnum).
  { intros w'. unfold count_thread. rewrite Hc. cbn. by rewrite (proj2 (Henv w')). }
  exists s1. split; [done|]. rewrite add_events_all, Hn0 in Hnum by done.
  assert (Hw : events_wanted g w0 = strtok_all master_papi_events).
  { unfold events_wanted, count_thread. rewrite Hc. cbn [Z.eqb fst g_papi_event]. by rewrite (proj1 (Henv w0)). }
  rewrite Hw in Hnum. change (length (strtok_all master_papi_events)) with 16%nat in Hnum.
  assert (Hover : forall w2, PAPI_num_events (t_EventSet s1.1.2) w2 = PAPI_num_events (t_EventSet s1.1.2) s1.2 ->
    stores_values (t_EventSet s1.1.2) w2 = false).
  { intros w2 Hw2. unfold stores_values. by rewrite Hw2, Hnum. }
  destruct s1 as [[g1 tls1] w2]. cbn [fst snd] in *. destruct (time_num w2) as (t & w3 & Hw3 & Hsame). split.
  - unfold cbtf_collector_pause, TLS_ompt_set_collector_active. rewrite Hw3, !bind_of_Ok. cbn [fst snd]. rewrite Hd.
    cbn [t_EventSet set_flags set_ompt]. by rewrite Hover.
  - unfold stop_counting. rewrite Hst, Hw3, bind_of_Ok. cbn [negb fst snd t_EventSet set_flags set_ompt set_header].
    destruct (_ =? _) eqn:HE; bools; [done|]. by rewrite Hover.
Qed.

Lemma pause_shape {W D} {SV : Services W D} {SL : ServicesLaws W D} {PA : Papi W} {PI : PapiInfo W} {PS : PapiSets W D}
    active g tls (w : W) l : ov_inv active (g, tls, w) l ->
  exists t tls' w', cbtf_collector_pause (g, tls, w) = Ok (g, tls', w') /\
    t_ompt tls' = mkTimes false t (btime (t_ompt tls)) (ttime (t_ompt tls)).
Proof.
  intros (_ & (He & Hnum) & _). cbn [fst snd] in *. destruct (time_num w) as (t & w1 & Hw1 & Hs1).
  unfold cbtf_collector_pause, TLS_ompt_set_collector_active. rewrite Hw1, !bind_of_Ok. cbn [fst snd].
  destruct (g_papi_init_done g); [|by eexists _, _, _]. cbn [t_EventSet set_flags set_ompt]. unfold stores_values.
  rewrite Hs1. destruct (_ <=? _) eqn:Hle; bools; [|lia]. by eexists _, _, _.
Qed.

(** The pause ends the collector's activity for OMPT, and the resume does not begin
    it again: an idle period that begins after a resume is counted up to the pause,
    so that the idle total changes by the time from its begin to the pause before. *)
Theorem overview_idle_after_resume {W D} {SV : Services W D} {SL : ServicesLaws W D} {PA : Papi W} {PI : PapiInfo W}
    {PS : PapiSets W D} (real : string -> list Z -> W -> outcome (Z * W)) (active : bool) (s : state) (l : list entry) :
  ov_inv active s l ->
  exists s' tp tb, run real [Pause; Resume; IdleTime scope_begin; IdleTime scope_end] s = Ok ([], s') /\
    collector_etime (t_ompt s'.1.2) = tp /\ btime (t_ompt s'.1.2) Idle = tb /\
    ttime (t_ompt s'.1.2) Idle = u64 (ttime (t_ompt s.1.2) Idle + u64 (tp - tb)).
Proof.
  destruct s as [[g tls] w]. intros HI. destruct (pause_shape _ _ _ _ _ HI) as (t1 & tls2 & w2 & Hp & Ho).
  cbn [run step]. rewrite Hp, !bind_of_Ok. cbn [fst snd]. unfold cbtf_collector_resume. rewrite !bind_of_Ok. cbn [fst snd].
  unfold CBTF_ompt_callback_idle. match goal with |- context [CBTF_GetTime ?x] => destruct (time_num x) as (tb & w4 & -> & _) end.
  rewrite !bind_of_Ok. cbn [fst snd]. destruct (time_num w4) as (te & w5 & -> & _). rewrite !bind_of_Ok. cbn [fst snd app].
  eexists _, t1, tb. split; [reflexivity|]. cbn. rewrite Ho. cbn. by rewrite !upd_same.
Qed.

(** ** A world with event sets, for concrete runs *)
Record set_world := mkSetWorld {
  sw_log : log_world unit;
  sw_sets : list Z              (* the number of events of each set *)
}.
Definition sw_num (e : Z) (w : set_world) : Z := if e <? 0 then 0 else default 0 (sw_sets w !! Z.to_nat e).
Definition sw_set_log (w : set_world) (l : log_world unit) : set_world := mkSetWorld l (sw_sets w).

#[export] Instance set_services : Services set_world unit := {
  CBTF_GetTime w := r ← CBTF_GetTime (sw_log w); Ok (r.1, sw_set_log w r.2);
  cbtf_collector_send h d w := l ← cbtf_collector_send h d (sw_log w); Ok (sw_set_log w l);
  svc_timer_start i w := l ← svc_timer_start i (sw_log w); Ok (sw_set_log w l);
  svc_timer_stop w := l ← svc_timer_stop (sw_log w); Ok (sw_set_log w l);
  svc_block_signal w := sw_set_log w (svc_block_signal (sw_log w));
  svc_unblock_signal w := sw_set_log w (svc_unblock_signal (sw_log w));
  monitor_mpi_comm_rank w := monitor_mpi_comm_rank (sw_log w);
  monitor_get_thread_num w := monitor_get_thread_num (sw_log w);
  getenv w x := if String.eqb x "OVERVIEW_HWC_EVENTS" then Some "PAPI_TOT_CYC,PAPI_TOT_INS" else None;
  cbtf_connected_to_mrnet w := cbtf_connected_to_mrnet (sw_log w);
  cbtf_mpi_init_done w := cbtf_mpi_init_done (sw_log w)
}.
#[export] Instance set_services_laws : ServicesLaws set_world unit.
Proof. refine {| sent := fun w => lw_sent (sw_log w) |}; simpl; intros; repeat eexists; auto; apply Z.mod_pos_bound; lia. Defined.

#[export] Instance set_papi_calls : Papi set_world := {|
  PAPI_OK := 0; PAPI_NULL := -1; PAPI_ENOTRUN := -9; PAPI_ENOSUPP := -18; PAPI_VER_CURRENT := 100;
  PAPI_STOPPED := 1; PAPI_RUNNING := 2; PAPI_MAX_STR_LEN := 128;
  PAPI_library_init v w := (v, w);
  PAPI_get_hardware_info w := Some 2400;
  PAPI_thread_init w := (0, w);
  PAPI_multiplex_init w := (0, w);
  PAPI_event_name_to_code s c w := (0, Z.of_nat (String.length s));
  PAPI_query_event e w := 0;
  PAPI_get_event_info e w := 0;
  PAPI_create_eventset e w := (0, Z.of_nat (length (sw_sets w)), mkSetWorld (sw_log w) (sw_sets w ++ [0]));
  PAPI_assign_eventset_component e c w := (0, w);
  PAPI_set_multiplex e w := (0, w);
  PAPI_add_event e ev w :=
    if (e <? 0) || (Z.of_nat (length (sw_sets w)) <=? e) then (-1, w)
    else (0, mkSetWorld (sw_log w) (alter (Z.add 1) (Z.to_nat e) (sw_sets w)));
  PAPI_overflow e ev t f w := (0, w);
  PAPI_state e s w := (0, 2);
  PAPI_start e w := (0, w);
  PAPI_stop e v w := (0, v, w);
  PAPI_accum e v w := (0, v, w);
  PAPI_read e v w := (0, v, w);
  papi_message s r w := w
|}.
#[export] Instance set_papi_info : PapiInfo set_world := {|
  PAPI_num_events := sw_num;
  PAPI_list_events e w := seqZ 0 (sw_num e w);
  PAPI_event_code_to_name c w := Some "PAPI_TOT_CYC";
  PAPI_get_dmem_info w := [1; 2; 3; 4; 5]
|}.
#[export] Instance set_papi_sets : PapiSets set_world unit.
Proof.
  constructor; try done; cbn.
  - intros w. unfold sw_num. destruct (_ <? 0); [done|]. cbn. by rewrite Nat2Z.id, list_lookup_middle.
  - intros e c w. unfold sw_num. destruct (e <? 0) eqn:He; cbn; [done|].
    destruct (_ <=? e) eqn:Hl; cbn; [lia|]. bools. rewrite list_lookup_alter_eq.
    destruct (lookup_lt_is_Some_2 (sw_sets w) (Z.to_nat e)) as [x ->]; [lia|]. cbn. lia.
  - intros e w t w' H. by inv_ok.
Qed.
#[export] Instance set_papi_multiplex : PapiMultiplex set_world.
Proof. by constructor. Qed.
#[export] Instance set_papi_hardware : PapiHardware set_world.
Proof. by constructor. Qed.
#[export] Instance set_papi_works : PapiWorks set_world.
Proof. constructor; intros w; [by left|]. cbn. lia. Qed.

(** Reads return 100 bytes, or fail for the descriptor -1. *)
Definition example_real (name : string) (args : list Z) (w : set_world) : outcome (Z * set_world) :=
  Ok (if bool_decide (head args = Some (-1)) then -1 else 100, w).
Definition example_globals : globals := mkGlobals 0 "" false None (replicate 8 free_region) false.
Definition example_world : set_world := mkSetWorld (quiet_world unit) [].

Lemma example_real_ok name args (w : set_world) :
  exists r w', example_real name args w = Ok (r, w') /\ forall e, PAPI_num_events e w' = PAPI_num_events e w.
Proof. by eexists _, _. Qed.

(** Two reads, one of which fails, a write while paused, an allocation, an MPI call. *)
Lemma overview_totals_witness :
  let evs := [File (Read 3 4096 100); File (Read (-1) 4096 100); Memory (Malloc 64); Pause; File (Write 3 4096 5);
              Mpi "MPI_Barrier" [0]; Resume; Memory (Free 4096)] in
  exists s1 out s2 s3,
    cbtf_collector_start true zero_header (example_globals, TLS_initialize false 0, example_world) = Ok s1 /\
    run example_real evs s1 = Ok (out, s2) /\ stop_counting s2 = Ok (true, s3) /\
    t_io s3.1.2 = io_of (ledger example_real true evs s1) /\
    t_mem s3.1.2 = mem_of (ledger example_real true evs s1) /\
    t_mpi s3.1.2 = u64 (mpi_sum (ledger example_real true evs s1)).
Proof.
  intros evs.
  apply (overview_totals_account true example_real zero_header example_globals (TLS_initialize false 0) example_world evs).
  - exact example_real_ok.
  - done.
  - done.
  - intros w'. vm_compute. done.
  - intros w'. vm_compute. lia.
Defined.

(** The totals of this run. *)
Example overview_totals_example :
  (s1 ← cbtf_collector_start true zero_header (example_globals, TLS_initialize false 0, example_world);
   r ← run example_real [File (Read 3 4096 100); File (Read (-1) 4096 100); Memory (Malloc 64); Pause;
         File (Write 3 4096 5); Mpi "MPI_Barrier" [0]; Resume; Memory (Free 4096)] s1;
   Ok (t_io r.2.1.2, t_mem r.2.1.2, t_mpi r.2.1.2)) =
  Ok (mkIOTotals 20 20 0 99 0, mkMemTotals 10 1 10 1 64, 10).
Proof. vm_compute. reflexivity. Qed.

Lemma overview_partition_witness :
  let evs := [Task scope_begin; File (Read 3 4096 100); Task scope_end; Pause; Task scope_begin] in
  exists s1 out s2,
    cbtf_collector_start true zero_header (example_globals, TLS_initialize false 0, example_world) = Ok s1 /\
    run example_real evs s1 = Ok (out, s2) /\
    u64 (ttime (t_ompt s2.1.2) Serial + ttime (t_ompt s2.1.2) Itask) =
      u64 (btime (t_ompt s2.1.2) Itask - btime (t_ompt s1.1.2) Serial).
Proof.
  intros evs.
  apply (overview_time_partition true example_real zero_header example_globals (TLS_initialize false 0) example_world evs true).
  - exact example_real_ok.
  - done.
  - done.
  - intros w'. vm_compute. done.
  - intros w'. vm_compute. lia.
  - reflexivity.
Defined.
