(* ===== verification/OverviewCSV.v ===== *)
(** What the overview collector prints when a thread stops: TLS_print_data() of
    core/collectors/overview/overviewTLS.c, and the whole of cbtf_collector_stop(). The
    lines go through character arrays of fixed sizes, whose bounds are checked here.
    The name of the file (SetCSVFile()) and the copy on the standard output are left
    out; that the file could be opened is a parameter, as are getrusage() and the
    name of the executable. *)
From stdpp Require Import pretty.
From S2P Require Import Prelude Probe PCIndex Headers Services Papi Omptp Overview.

(** ** Numbers as printf() prints them *)
Definition i64 (z : Z) : Z := (z + 2 ^ 63) mod 2 ^ 64 - 2 ^ 63.
Definition d (z : Z) : string := pretty z.

(** n / d rounded to the nearest integer, ties to even. *)
Definition round_even (n d : Z) : Z :=
  let q := n / d in
  let r := n mod d in
  if 2 * r <? d then q else if d <? 2 * r then q + 1 else if Z.even q then q else q + 1.

(** The float nearest to n / d > 0, as a fraction: a multiple of a power of two with
    24 bits. *)
Definition float_of (n d : Z) : Z * Z :=
  let e := Z.log2 n - Z.log2 d - 23 in
  let scale := fun e => (n * 2 ^ Z.max 0 (- e), d * 2 ^ Z.max 0 e) in
  let e' := if (scale e).1 / (scale e).2 <? 2 ^ 23 then e - 1 else e in
  (round_even (scale e').1 (scale e').2 * 2 ^ Z.max 0 e', 2 ^ Z.max 0 (- e')).

Fixpoint zeros (n : nat) : string := match n with O => "" | S n' => String (Ascii.ascii_of_nat 48) (zeros n') end.
Definition padded (width : nat) (z : Z) : string := zeros (width - String.length (d z)) +:+ d z.

(** "%f" of (float)x / 1000000000 *)
Definition seconds (x : Z) : string :=
  let v := if x =? 0 then (0, 1) else let f := float_of x 1 in float_of f.1 (f.2 * 1000000000) in
  let micros := round_even (v.1 * 1000000) v.2 in
  d (micros / 1000000) +:+ "." +:+ padded 6 (micros mod 1000000).

(** ** The sections of the file

    A line of column names and a line of values, with the sizes of their arrays. *)
Record csv_section := mkSection {
  cs_header_size : Z;
  cs_header : string;
  cs_values_size : Z;
  cs_values : string
}.

(** Text copied to an array of characters of this size. *)
Definition put (size : Z) (text : string) : outcome string :=
  if Z.of_nat (String.length text) <? size then Ok text else Fault.

Definition print_section (c : csv_section) : outcome (list string) :=
  h ← put (cs_header_size c) (cs_header c); v ← put (cs_values_size c) (cs_values c); Ok [h; v].

Fixpoint print_sections (cs : list csv_section) : outcome (list string) :=
  match cs with
  | [] => Ok []
  | c :: cs' => l ← print_section c; l' ← print_sections cs'; Ok (l ++ l')
  end.

(** What getrusage() reports: the memory, and seconds and microseconds twice. *)
Record overview_rusage_t := mkUsage {
  ru_maxrss : Z;
  ru_utime : Z * Z;
  ru_stime : Z * Z
}.

Section csv.
Context {W D : Type} {SV : Services W D} {PA : Papi W} {PI : PapiInfo W}.
Context (exename : string) (usage : overview_rusage_t) (opened : bool).

Definition provenance (tls : TLS) : csv_section :=
  let h := t_header tls in
  mkSection 64 "host,pid,rank,tid,posix_tid,executable,total_time_seconds" 1024
    (dh_host h +:+ "," +:+ d (dh_pid h) +:+ "," +:+ d (dh_rank h) +:+ "," +:+ d (dh_omp_tid h) +:+ "," +:+
     d (dh_posix_tid h) +:+ "," +:+ exename +:+ "," +:+ seconds (ttime (t_ompt tls) Thread)).

Definition rusage : csv_section :=
  mkSection 48 "maxrss_kB,utime_seconds,stime_seconds" 128
    (d (ru_maxrss usage) +:+ "," +:+ d (ru_utime usage).1 +:+ "." +:+ padded 6 (ru_utime usage).2 +:+ "," +:+
     d (ru_stime usage).1 +:+ "." +:+ padded 6 (ru_stime usage).2).

Definition papi_dmem (w : W) : csv_section :=
  mkSection 80 "dmem_size_kB,dmem_resident_kB,dmem_high_water_mark_kB,dmem_shared_kB,dmem_heap_kB" 128
    (String.concat "," (d <$> PAPI_get_dmem_info w)).

Definition posixio (tls : TLS) : list csv_section :=
  let io := t_io tls in
  if 0 <? io_time io then
    [mkSection 64 "io_total_time_seconds,read_time_seconds,write_time_seconds,read_bytes,write_bytes" 64
       (seconds (io_time io) +:+ "," +:+ seconds (io_read_time io) +:+ "," +:+ seconds (io_write_time io) +:+ "," +:+
        d (i64 (io_bytes_read io)) +:+ "," +:+ d (i64 (io_bytes_written io)))]
  else [].

Definition mem (tls : TLS) : list csv_section :=
  let m := t_mem tls in
  (if 0 <? total_allocation_calls m then
    [mkSection 64 "allocation_time_seconds,allocation_calls,allocation_bytes" 64
       (seconds (total_allocation_time m) +:+ "," +:+ d (i64 (total_allocation_calls m)) +:+ "," +:+
        d (i64 (total_bytes_allocated m)))]
  else []) ++
  (if 0 <? total_free_calls m then
    [mkSection 64 "free_time_seconds,free_calls" 64
       (seconds (total_free_time m) +:+ "," +:+ d (i64 (total_free_calls m)))]
  else []).

Definition mpi (tls : TLS) : list csv_section :=
  if 0 <? t_mpi tls then [mkSection 64 "total_mpi_time_seconds" 64 (seconds (t_mpi tls))] else [].

(** The events: a name and a value for each that PAPI knows the name of, each
    followed by a comma unless it is the last of the set. *)
Fixpoint papi_columns (codes values : list Z) (w : W) : outcome (string * string) :=
  match codes with
  | [] => Ok ("", "")
  | c :: codes' =>
      rest ← papi_columns codes' (drop 1 values) w;
      match PAPI_event_code_to_name c w with
      | None => Ok rest
      | Some name =>
          str ← put 20 (d (hd 0 values));
          let comma := match codes' with [] => "" | _ => "," end in
          Ok (name +:+ comma +:+ rest.1, str +:+ comma +:+ rest.2)
      end
  end.

Definition papi (tls : TLS) (w : W) : outcome (list string) :=
  if negb (stores_values (t_EventSet tls) w) then Fault else
    c ← papi_columns (PAPI_list_events (t_EventSet tls) w) (t_evalues tls) w;
    print_section (mkSection 8192 c.1 4096 c.2).

Definition ompt (tls : TLS) : list csv_section :=
  let o := ttime (t_ompt tls) in
  if 0 <? o Itask then
    [mkSection 128 "implicit_task_time_seconds,serial_time_seconds,barrier_time_seconds,wait_barrier_time_seconds,idle_time_seconds" 128
       (seconds (o Itask) +:+ "," +:+ seconds (o Serial) +:+ "," +:+ seconds (o Barrier) +:+ "," +:+
        seconds (o Wbarrier) +:+ "," +:+ seconds (o Idle))]
  else [].

(** The lines written; writing to a file that could not be opened faults. *)
Definition TLS_print_data (tls : TLS) (w : W) : outcome (TLS * list string) :=
  let tls1 := set_header (with_rank (t_header tls) (monitor_mpi_comm_rank w)) tls in
  if negb opened then Fault else
    l1 ← print_sections ([provenance tls1; rusage; papi_dmem w] ++ posixio tls1 ++ mem tls1 ++ mpi tls1);
    l2 ← papi tls1 w;
    l3 ← print_sections (ompt tls1);
    Ok (tls1, l1 ++ l2 ++ l3).

(** The PC buffer is empty, so that nothing is sent. *)
Definition cbtf_collector_stop (s : state) : outcome (state * list string) :=
  r ← stop_counting s;
  let '(printing, (g, tls, w)) := r in
  if (printing : bool) then p ← TLS_print_data tls w; Ok ((g, p.1, w), p.2) else Ok ((g, tls, w), []).
End csv.

(** ** Which arrays are large enough *)
Definition header_fits (c : csv_section) : bool := Z.of_nat (String.length (cs_header c)) <? cs_header_size c.

Lemma put_ok_or_fault size text : put size text = Ok text \/ put size text = Fault.
Proof. unfold put. destruct (_ <? _); eauto. Qed.

Lemma print_section_ok_or_fault c : (exists l, print_section c = Ok l) \/ print_section c = Fault.
Proof.
  unfold print_section. destruct (put_ok_or_fault (cs_header_size c) (cs_header c)) as [-> | ->]; [|by right].
  rewrite bind_of_Ok. destruct (put_ok_or_fault (cs_values_size c) (cs_values c)) as [-> | ->]; [|by right]. by left; eexists.
Qed.

(** A list of sections with an array that is too small is not printed. *)
Lemma print_sections_fault cs : Exists (fun c => header_fits c = false) cs -> print_sections cs = Fault.
Proof.
  induction 1 as [c cs Hc|c cs _ IH]; cbn [print_sections].
  - unfold print_section, put. unfold header_fits in Hc. by rewrite Hc.
  - destruct (print_section_ok_or_fault c) as [[l ->]| ->]; [|done]. by rewrite bind_of_Ok, IH.
Qed.

(** every thread that gets to print its totals writes past the end of an array:
    the column names of the memory section have 82 characters with the final zero,
    and their array 80, so that the stop of the collector never completes within
    bounds. The same goes for the column names of the file functions (82 characters,
    64), while the names of every other section fit. *)
Theorem overview_stop_overruns {W D} {SV : Services W D} {PA : Papi W} {PI : PapiInfo W} (exename : string)
    (usage : overview_rusage_t) (opened : bool) (s s' : state) :
  stop_counting (W := W) s = Ok (true, s') ->
  cbtf_collector_stop exename usage opened s = Fault /\
  header_fits (papi_dmem s'.2) = false /\ Forall (fun c => header_fits c = false) (posixio s'.1.2) /\
  Forall (fun c => header_fits c = true)
    ([provenance exename s'.1.2; rusage usage] ++ mem s'.1.2 ++ mpi s'.1.2 ++ ompt s'.1.2).
Proof.
  intros Hs. split_and!.
  - unfold cbtf_collector_stop. rewrite Hs, bind_of_Ok. destruct s' as [[g tls] w]. unfold TLS_print_data.
    destruct (negb opened); [done|]. match goal with |- context [print_sections (?a ++ ?b)] => rewrite (print_sections_fault (a ++ b)); [reflexivity|] end.
    apply Exists_app. left. by apply Exists_cons_tl, Exists_cons_tl, Exists_cons_hd.
  - done.
  - unfold posixio. destruct (0 <? _); [by apply Forall_singleton|apply Forall_nil_2].
  - repeat apply Forall_app_2; [apply Forall_cons_2; [done|by apply Forall_singleton]|..]; unfold mem, mpi, ompt;
      repeat apply Forall_app_2; destruct (0 <? _); (apply Forall_nil_2 || by apply Forall_singleton).
Qed.

Lemma overview_stop_witness :
  let s := (example_globals, set_flags true false true (TLS_initialize true 0), mkSetWorld (quiet_world unit) [2]) in
  cbtf_collector_stop "a.out" (mkUsage 1024 (0, 5) (0, 7)) true s = Fault.
Proof.
  intros s. eapply (overview_stop_overruns "a.out" (mkUsage 1024 (0, 5) (0, 7)) true s). reflexivity.
Defined.
