(* ===== verification/XDR.v ===== *)
(** External Data Representation (RFC 4506) as the procedures rpcgen generates from
    messages/src/perfdata/*.x use it: a codec is an encoder, a decoder, and the values
    the decoder gets back from what the encoder wrote. Bytes are integers from 0
    to 255. Everything is a multiple of four bytes; a char or a small integer takes
    four. *)
From S2P Require Import Prelude Probe PCIndex Headers Services.

(** ** Big-endian integers *)
Fixpoint be (n : nat) (z : Z) : list Z :=
  match n with O => [] | S n' => be n' (z / 256) ++ [z mod 256] end.
Definition of_be (bs : list Z) : Z := foldl (fun acc b => acc * 256 + b) 0 bs.

Lemma be_length n z : length (be n z) = n.
Proof. revert z. induction n as [|n IH]; intros z; simpl; [done|]. rewrite length_app, IH. simpl. lia. Qed.

Lemma of_be_app bs b : of_be (bs ++ [b]) = of_be bs * 256 + b.
Proof. unfold of_be. by rewrite foldl_app. Qed.

Lemma of_be_be n z : of_be (be n z) = z mod 256 ^ Z.of_nat n.
Proof.
  revert z. induction n as [|n IH]; intros z; cbn [be]; [by rewrite Z.mod_1_r|].
  rewrite of_be_app, IH, Nat2Z.inj_succ, Z.pow_succ_r by lia.
  rewrite (Z.rem_mul_r z 256) by (try apply Z.pow_pos_nonneg; lia). lia.
Qed.

(** ** Codecs *)
Record codec (A : Type) := mkCodec {
  enc : A -> list Z;
  dec : list Z -> option (A * list Z);
  valid : A -> Prop;
  enc_dec : forall x rest, valid x -> dec (enc x ++ rest) = Some (x, rest)
}.
Arguments mkCodec {A}. Arguments enc {A}. Arguments dec {A}. Arguments valid {A}. Arguments enc_dec {A}.

(** The first [n] bytes, if there are as many. *)
Definition take_bytes (n : nat) (bs : list Z) : option (list Z * list Z) :=
  if (length bs <? n)%nat then None else Some (take n bs, drop n bs).

Lemma take_bytes_app bs rest : take_bytes (length bs) (bs ++ rest) = Some (bs, rest).
Proof.
  unfold take_bytes. rewrite length_app. destruct (_ <? _)%nat eqn:H; [apply Nat.ltb_lt in H; lia|].
  by rewrite take_app_length, drop_app_length.
Qed.

Lemma take_bytes_be n z rest : take_bytes n (be n z ++ rest) = Some (be n z, rest).
Proof. pose proof (take_bytes_app (be n z) rest) as H. by rewrite be_length in H. Qed.

(** Unsigned integers of [n] bytes, for values below [bound]. *)
Program Definition xdr_unsigned (n : nat) (bound : Z) (Hb : bound <= 256 ^ Z.of_nat n) : codec Z := {|
  enc z := be n z;
  dec bs := r ← take_bytes n bs; Some (of_be r.1, r.2);
  valid z := 0 <= z < bound
|}.
Next Obligation.
  intros n bound Hb z rest Hz. cbv beta in *. rewrite take_bytes_be. simpl.
  by rewrite of_be_be, Z.mod_small by lia.
Qed.

(** Signed integers of [n] bytes. *)
Definition sign (n : nat) (z : Z) : Z := if z <? 256 ^ Z.of_nat n / 2 then z else z - 256 ^ Z.of_nat n.
Program Definition xdr_signed (n : nat) (Hn : (0 < n)%nat) : codec Z := {|
  enc z := be n z;
  dec bs := r ← take_bytes n bs; Some (sign n (of_be r.1), r.2);
  valid z := - (256 ^ Z.of_nat n / 2) <= z < 256 ^ Z.of_nat n / 2
|}.
Next Obligation.
  intros n Hn z rest Hz. cbv beta in *. rewrite take_bytes_be. simpl. rewrite of_be_be.
  do 2 f_equal. unfold sign. set (M := 256 ^ Z.of_nat n) in *.
  assert (HM : M = 2 * (M / 2)).
  { assert (Hp : M = 256 * 256 ^ Z.of_nat (n - 1)).
    { subst M. rewrite <- Z.pow_succ_r by lia. f_equal. lia. }
    rewrite Hp. replace (256 * 256 ^ Z.of_nat (n - 1)) with (128 * 256 ^ Z.of_nat (n - 1) * 2) by lia.
    rewrite Z.div_mul by lia. lia. }
  destruct (decide (0 <= z)).
  - rewrite Z.mod_small by lia. by destruct (_ <? _) eqn:H; bools; [|lia].
  - replace (z mod M) with (z + M); [destruct (_ <? _) eqn:H; bools; lia|].
    apply (Z.mod_unique _ _ (-1)); lia.
Qed.

(** xdr_u_int, xdr_uint64_t; xdr_uint8_t and xdr_uint16_t take four bytes, too. *)
Program Definition xdr_u32 : codec Z := xdr_unsigned 4 (2 ^ 32) _.
Program Definition xdr_u64 : codec Z := xdr_unsigned 8 (2 ^ 64) _.
Program Definition xdr_u16 : codec Z := xdr_unsigned 4 (2 ^ 16) _.
Program Definition xdr_u8 : codec Z := xdr_unsigned 4 (2 ^ 8) _.
Solve All Obligations with done.
Program Definition xdr_i32 : codec Z := xdr_signed 4 _.
Program Definition xdr_i64 : codec Z := xdr_signed 8 _.
Solve All Obligations with (simpl; lia).

(** Two fields one after the other. *)
Program Definition xdr_pair {A B} (ca : codec A) (cb : codec B) : codec (A * B) := {|
  enc p := enc ca p.1 ++ enc cb p.2;
  dec bs := r ← dec ca bs; q ← dec cb r.2; Some ((r.1, q.1), q.2);
  valid p := valid ca p.1 /\ valid cb p.2
|}.
Next Obligation.
  intros A B ca cb [x y] rest [Hx Hy]. cbv beta in *. simpl in *. rewrite <- app_assoc, enc_dec by done. simpl. by rewrite enc_dec.
Qed.

(** A structure, by its fields. *)
Program Definition xdr_struct {A B} (c : codec A) (make : A -> B) (fields : B -> A) (H : forall y, make (fields y) = y)
  : codec B := {|
  enc y := enc c (fields y);
  dec bs := r ← dec c bs; Some (make r.1, r.2);
  valid y := valid c (fields y)
|}.
Next Obligation. intros A B c make fields H y rest Hy. cbv beta in *. simpl. rewrite enc_dec by done. simpl. by rewrite H. Qed.

(** Arrays of a variable length: the length, then the elements. *)
Fixpoint dec_n {A} (c : codec A) (n : nat) (bs : list Z) : option (list A * list Z) :=
  match n with
  | O => Some ([], bs)
  | S n' => r ← dec c bs; q ← dec_n c n' r.2; Some (r.1 :: q.1, q.2)
  end.

Fixpoint enc_all {A} (c : codec A) (xs : list A) : list Z :=
  match xs with [] => [] | x :: xs' => enc c x ++ enc_all c xs' end.

Lemma dec_n_enc {A} (c : codec A) xs rest : Forall (valid c) xs ->
  dec_n c (length xs) (enc_all c xs ++ rest) = Some (xs, rest).
Proof.
  induction 1 as [|x xs Hx _ IH]; [done|]. cbn [dec_n length enc_all].
  rewrite <- app_assoc, enc_dec by done. simpl. by rewrite IH.
Qed.

Program Definition xdr_array {A} (c : codec A) : codec (list A) := {|
  enc xs := enc xdr_u32 (Z.of_nat (length xs)) ++ enc_all c xs;
  dec bs := r ← dec xdr_u32 bs; dec_n c (Z.to_nat r.1) r.2;
  valid xs := Z.of_nat (length xs) < 2 ^ 32 /\ Forall (valid c) xs
|}.
Next Obligation.
  intros A c xs rest [Hl Hv]. cbv beta in *. rewrite <- app_assoc, enc_dec by (simpl; lia). simpl.
  rewrite Nat2Z.id. by apply dec_n_enc.
Qed.

(** ** Sizes *)
Lemma u32_length z : Z.of_nat (length (enc xdr_u32 z)) = 4.
Proof. exact (f_equal Z.of_nat (be_length 4 z)). Qed.
Lemma u64_length z : Z.of_nat (length (enc xdr_u64 z)) = 8.
Proof. exact (f_equal Z.of_nat (be_length 8 z)). Qed.
Lemma u16_length z : Z.of_nat (length (enc xdr_u16 z)) = 4.
Proof. exact (f_equal Z.of_nat (be_length 4 z)). Qed.
Lemma u8_length z : Z.of_nat (length (enc xdr_u8 z)) = 4.
Proof. exact (f_equal Z.of_nat (be_length 4 z)). Qed.
Lemma i32_length z : Z.of_nat (length (enc xdr_i32 z)) = 4.
Proof. exact (f_equal Z.of_nat (be_length 4 z)). Qed.
Lemma i64_length z : Z.of_nat (length (enc xdr_i64 z)) = 8.
Proof. exact (f_equal Z.of_nat (be_length 8 z)). Qed.

Lemma join_length {A} (c : codec A) (k : Z) xs : (forall x, Z.of_nat (length (enc c x)) = k) ->
  Z.of_nat (length (enc_all c xs)) = k * Z.of_nat (length xs).
Proof.
  intros Hk. induction xs as [|x xs IH]; cbn [enc_all length]; [lia|].
  rewrite length_app, Nat2Z.inj_add, Hk, IH. lia.
Qed.
Lemma array_length {A} (c : codec A) (k : Z) xs : (forall x, Z.of_nat (length (enc c x)) = k) ->
  Z.of_nat (length (enc (xdr_array c) xs)) = 4 + k * Z.of_nat (length xs).
Proof. intros Hk. cbn [enc xdr_array]. rewrite length_app, Nat2Z.inj_add, u32_length, (join_length c k) by done. lia. Qed.
Lemma struct_length {A B} (c : codec A) make fields H (y : B) :
  length (enc (xdr_struct c make fields H) y) = length (enc c (fields y)).
Proof. done. Qed.
Lemma pair_length {A B} (ca : codec A) (cb : codec B) p :
  Z.of_nat (length (enc (xdr_pair ca cb) p)) = Z.of_nat (length (enc ca p.1)) + Z.of_nat (length (enc cb p.2)).
Proof. cbn [enc xdr_pair]. rewrite length_app. lia. Qed.

Create HintDb xdr_size.
#[export] Hint Rewrite u32_length u64_length u16_length u8_length i32_length i64_length @pair_length @struct_length : xdr_size.

(** ** Strings *)
Definition chars (s : string) : list Z := (fun c => Z.of_nat (Ascii.nat_of_ascii c)) <$> String.list_ascii_of_string s.
Definition of_chars (bs : list Z) : string :=
  String.string_of_list_ascii ((fun b => Ascii.ascii_of_nat (Z.to_nat b)) <$> bs).

Lemma of_chars_chars s : of_chars (chars s) = s.
Proof.
  unfold of_chars, chars. rewrite <- list_fmap_compose. rewrite <- (String.string_of_list_ascii_of_string s) at 2. f_equal.
  rewrite <- (list_fmap_id (String.list_ascii_of_string s)) at 2. apply list_fmap_ext. intros _ c _. cbn.
  by rewrite Nat2Z.id, Ascii.ascii_nat_embedding.
Qed.
Lemma chars_range s : Forall (fun b => 0 <= b < 256) (chars s).
Proof.
  unfold chars. apply Forall_fmap, Forall_true. intros c. cbn. pose proof (Ascii.nat_ascii_bounded c). lia.
Qed.
Lemma chars_length s : length (chars s) = String.length s.
Proof. unfold chars. rewrite length_fmap. induction s; simpl; lia. Qed.

(** xdr_string: the length, the characters, and zeros up to a multiple of four. *)
Definition pad (n : nat) : nat := ((4 - n mod 4) mod 4)%nat.
Program Definition xdr_string : codec string := {|
  enc s := enc xdr_u32 (Z.of_nat (length (chars s))) ++ chars s ++ replicate (pad (length (chars s))) 0;
  dec bs := r ← dec xdr_u32 bs; q ← take_bytes (Z.to_nat r.1) r.2; p ← take_bytes (pad (Z.to_nat r.1)) q.2;
            Some (of_chars q.1, p.2);
  valid s := Z.of_nat (String.length s) < 2 ^ 32
|}.
Next Obligation.
  intros s rest Hs. cbv beta in *. rewrite <- !app_assoc, enc_dec by (cbn; rewrite chars_length; lia). simpl.
  rewrite Nat2Z.id, take_bytes_app. simpl.
  pose proof (take_bytes_app (replicate (pad (length (chars s))) 0) rest) as Hp. rewrite length_replicate in Hp.
  rewrite Hp. simpl. by rewrite of_chars_chars.
Qed.

(** xdr_char: the character as a signed integer; only its low byte is read back. *)
Program Definition xdr_char : codec Z := {|
  enc b := be 4 (if b <? 128 then b else b - 256);
  dec bs := r ← take_bytes 4 bs; Some (of_be r.1 mod 256, r.2);
  valid b := 0 <= b < 256
|}.
Next Obligation.
  intros b rest Hb. cbv beta in *. rewrite take_bytes_be. cbn [mbind option_bind fst snd]. do 2 f_equal. rewrite of_be_be.
  change (256 ^ Z.of_nat 4) with (256 * 2 ^ 24). rewrite <- Znumtheory.Zmod_div_mod by (try done; by exists (2 ^ 24)).
  destruct (_ <? _); [by apply Z.mod_small|]. replace (b - 256) with (b + (-1) * 256) by lia.
  by rewrite Z.mod_add, Z.mod_small.
Qed.

(** A string in an array of [n] characters, the rest of which is zero. *)
Fixpoint to_nul (bs : list Z) : list Z :=
  match bs with [] => [] | b :: bs' => if b =? 0 then [] else b :: to_nul bs' end.
Lemma to_nul_app bs k : Forall (fun b => b <> 0) bs -> to_nul (bs ++ replicate k 0) = bs.
Proof.
  induction 1 as [|b bs Hb _ IH]; simpl; [by destruct k|]. destruct (b =? 0) eqn:H; bools; [done|]. by rewrite IH.
Qed.
Program Definition xdr_char_array (n : nat) : codec string := {|
  enc s := enc_all xdr_char (chars s ++ replicate (n - String.length s) 0);
  dec bs := r ← dec_n xdr_char n bs; Some (of_chars (to_nul r.1), r.2);
  valid s := (String.length s <= n)%nat /\ Forall (fun b => b <> 0) (chars s)
|}.
Next Obligation.
  intros n s rest [Hl Hz]. cbv beta in *. set (bs := chars s ++ _).
  assert (Hn : length bs = n). { subst bs. rewrite length_app, chars_length, length_replicate. lia. }
  rewrite <- Hn at 1. rewrite dec_n_enc. { simpl. subst bs. by rewrite to_nul_app, of_chars_chars. }
  subst bs. apply Forall_app. split; [apply chars_range|]. apply Forall_replicate. cbn. lia.
Qed.

Lemma char_array_length n s : (String.length s <= n)%nat -> Z.of_nat (length (enc (xdr_char_array n) s)) = 4 * Z.of_nat n.
Proof.
  intros Hl. cbn [enc xdr_char_array]. rewrite (join_length xdr_char 4); [|intros b; exact (f_equal Z.of_nat (be_length 4 _))].
  rewrite length_app, chars_length, length_replicate. lia.
Qed.
Lemma string_length s : Z.of_nat (length (enc xdr_string s)) <= 8 + Z.of_nat (String.length s).
Proof.
  cbn [enc xdr_string]. rewrite !length_app, !Nat2Z.inj_add, u32_length, chars_length, length_replicate.
  unfold pad. pose proof (Nat.mod_upper_bound (4 - String.length s mod 4) 4). lia.
Qed.
