(* ===== verification/RawData.v ===== *)
(** Raw data files: services/src/xdr/Send.c and services/src/fileio/SendToFile.c, send.c.
    In the file build every blob is encoded with its header in a buffer of fixed size
    and appended, after its length, to the file of the thread. Encoding follows the
    structures of messages/src/perfdata/*.x. The theorems: what was sent is read back
    from the file, and which collectors' blobs always fit the buffer. write() is
    taken to store all bytes. *)
From stdpp Require Import pretty.
From S2P Require Import Prelude Probe PCIndex PCData Headers Services XDR PCSamp Unwind StackBuffer.
From S2P Require Import UserTime TraceBuffer Tracer Profile Omptp PThreads MPIWrappers MPI IO IOT Mem.

(** ** The structures on the wire *)
Notation "a ⊗ b" := (xdr_pair a b) (at level 60, right associativity).

Section header.
Context (HOST_NAME_MAX : nat).
Program Definition xdr_CBTF_DataHeader : codec CBTF_DataHeader :=
  xdr_struct (xdr_i32 ⊗ xdr_i32 ⊗ xdr_string ⊗ xdr_char_array HOST_NAME_MAX ⊗ xdr_i64 ⊗ xdr_i64 ⊗ xdr_i32 ⊗
              xdr_i32 ⊗ xdr_u64 ⊗ xdr_u64 ⊗ xdr_u64 ⊗ xdr_u64)
    (fun '(a, (b, (c, (d, (e, (f, (g, (h, (i, (j, (k, l))))))))))) => mkDataHeader a b c d e f g h i j k l)
    (fun h => (dh_experiment h, (dh_collector h, (dh_id h, (dh_host h, (dh_pid h, (dh_posix_tid h, (dh_rank h,
      (dh_omp_tid h, (dh_time_begin h, (dh_time_end h, (dh_addr_begin h, dh_addr_end h)))))))))))) _.
Next Obligation. by intros []. Qed.
End header.

Program Definition xdr_CBTF_pcsamp_data : codec pcsamp_data :=
  xdr_struct (xdr_u64 ⊗ xdr_array xdr_u64 ⊗ xdr_array xdr_u8)
    (fun '(i, (p, c)) => mkPcsampData i p c) (fun d => (pd_interval d, (pd_pc d, PCSamp.pd_count d))) _.
Next Obligation. by intros []. Qed.

Program Definition xdr_CBTF_usertime_data : codec usertime_data :=
  xdr_struct (xdr_u64 ⊗ xdr_array xdr_u64 ⊗ xdr_array xdr_u8)
    (fun '(i, (p, c)) => mkUsertimeData i p c) (fun d => (ud_interval d, (ud_stacktraces d, ud_count d))) _.
Next Obligation. by intros []. Qed.

(** CBTF_mpi_profile_data, CBTF_io_profile_data and CBTF_ompt_profile_data. *)
Program Definition xdr_profile_data : codec profile_data :=
  xdr_struct (xdr_array xdr_u64 ⊗ xdr_array xdr_u64 ⊗ xdr_array xdr_u8)
    (fun '(s, (t, c)) => mkProfileData s t c) (fun d => (pd_stacktraces d, (pd_time d, Profile.pd_count d))) _.
Next Obligation. by intros []. Qed.

(** Enumerations are integers. *)
Program Definition xdr_enum {A} (code : A -> Z) (decode : Z -> A) (H : forall x, decode (code x) = x) : codec A :=
  xdr_struct xdr_i32 decode code H.

Program Definition xdr_CBTF_io_event : codec (traced_event io_event) :=
  xdr_struct (xdr_u64 ⊗ xdr_u64 ⊗ xdr_u16)
    (fun '(a, (b, s)) => mkEvent (mkIOEvent a b) s)
    (fun e => (ie_start_time (te_data e), (ie_stop_time (te_data e), te_stacktrace e))) _.
Next Obligation. by intros [[]]. Qed.

(** sysargs[4] *)
Program Definition xdr_vector {A} (n : nat) (c : codec A) : codec (list A) := {|
  enc xs := enc_all c xs;
  dec bs := dec_n c n bs;
  valid xs := length xs = n /\ Forall (valid c) xs
|}.
Next Obligation. intros A n c xs rest [<- Hv]. by apply dec_n_enc. Qed.

Program Definition xdr_CBTF_iot_event : codec (traced_event iot_event) :=
  xdr_struct (xdr_u64 ⊗ xdr_u64 ⊗ xdr_u16 ⊗ xdr_u16 ⊗ xdr_u16 ⊗ xdr_u16 ⊗ xdr_vector 4 xdr_u64 ⊗ xdr_i32)
    (fun '(a, (b, (s, (p, (n, (k, (l, r))))))) => mkEvent (mkIot a b p n k l r) s)
    (fun e => let d := te_data e in (it_start_time d, (it_stop_time d, (te_stacktrace e, (it_pathindex d, (it_syscallno d,
      (it_nsysargs d, (it_sysargs d, it_retval d)))))))) _.
Next Obligation. by intros [[]]. Qed.

Program Definition xdr_CBTF_mpit_event : codec (traced_event mpit_event) :=
  xdr_struct (xdr_u64 ⊗ xdr_u64 ⊗ xdr_u16 ⊗ xdr_i32 ⊗ xdr_i32 ⊗ xdr_u64 ⊗ xdr_i32 ⊗ xdr_i32 ⊗ xdr_i32 ⊗ xdr_i32)
    (fun '(a, (b, (s, (c, (d, (e, (f, (g, (h, i))))))))) => mkEvent (mkMpit a b c d e f g h i) s)
    (fun e => let d := te_data e in (MPIWrappers.me_start_time d, (MPIWrappers.me_stop_time d, (te_stacktrace e,
      (me_source d, (me_destination d, (me_size d, (me_tag d, (me_communicator d, (me_datatype d,
      MPIWrappers.me_retval d)))))))))) _.
Next Obligation. by intros [[]]. Qed.

Definition pthread_code (t : CBTF_pthread_type) : Z :=
  match t with
  | CBTF_PTHREAD_UNKNOWN => 0 | CBTF_PTHREAD_CREATE => 1 | CBTF_PTHREAD_MUTEX_INIT => 4
  | CBTF_PTHREAD_MUTEX_DESTROY => 5 | CBTF_PTHREAD_MUTEX_LOCK => 6 | CBTF_PTHREAD_MUTEX_UNLOCK => 7
  | CBTF_PTHREAD_MUTEX_TRYLOCK => 8 | CBTF_PTHREAD_COND_INIT => 9 | CBTF_PTHREAD_COND_DESTROY => 10
  | CBTF_PTHREAD_COND_SIGNAL => 11 | CBTF_PTHREAD_COND_BROADCAST => 12 | CBTF_PTHREAD_COND_WAIT => 13
  | CBTF_PTHREAD_COND_TIMEDWAIT => 14
  end.
Definition pthread_types : list CBTF_pthread_type :=
  [CBTF_PTHREAD_CREATE; CBTF_PTHREAD_MUTEX_INIT; CBTF_PTHREAD_MUTEX_DESTROY; CBTF_PTHREAD_MUTEX_LOCK;
   CBTF_PTHREAD_MUTEX_UNLOCK; CBTF_PTHREAD_MUTEX_TRYLOCK; CBTF_PTHREAD_COND_INIT; CBTF_PTHREAD_COND_DESTROY;
   CBTF_PTHREAD_COND_SIGNAL; CBTF_PTHREAD_COND_BROADCAST; CBTF_PTHREAD_COND_WAIT; CBTF_PTHREAD_COND_TIMEDWAIT].
Definition pthread_of_code (z : Z) : CBTF_pthread_type :=
  default CBTF_PTHREAD_UNKNOWN (List.find (fun t => pthread_code t =? z) pthread_types).

Program Definition xdr_CBTF_pthreadt_event : codec (traced_event pthreadt_event) :=
  xdr_struct (xdr_u64 ⊗ xdr_u64 ⊗ xdr_u64 ⊗ xdr_u64 ⊗ xdr_u64 ⊗ xdr_i32 ⊗ xdr_u16 ⊗ xdr_enum pthread_code pthread_of_code _)
    (fun '(a, (b, (c, (d, (e, (r, (s, t))))))) => mkEvent (mkPthreadt a b c d e r t) s)
    (fun e => let d := te_data e in (pe_start_time d, (pe_stop_time d, (pe_ptr1 d, (pe_ptr2 d, (pe_ptr3 d, (pe_retval d,
      (te_stacktrace e, pe_type d)))))))) _.
Next Obligation. by intros []. Qed.
Next Obligation. by intros [[]]. Qed.

Definition mem_code (t : mem_type) : Z :=
  match t with
  | MEM_UNKNOWN => 0 | MEM_MALLOC => 1 | MEM_CALLOC => 2 | MEM_REALLOC => 3 | MEM_FREE => 4 | MEM_MEMALIGN => 5 | MEM_POSIX_MEMALIGN => 6
  end.
Definition mem_of_code (z : Z) : mem_type :=
  default MEM_UNKNOWN (List.find (fun t => mem_code t =? z) [MEM_MALLOC; MEM_CALLOC; MEM_REALLOC; MEM_FREE; MEM_MEMALIGN; MEM_POSIX_MEMALIGN]).

(** The fields that are not filled in are zero: total_allocation, max, min, count and
    reason. *)
Program Definition xdr_CBTF_memt_event : codec (traced_event Mem.memt_event) :=
  xdr_struct (xdr_u64 ⊗ xdr_u64 ⊗ xdr_u64 ⊗ xdr_u64 ⊗ xdr_u64 ⊗ xdr_u64 ⊗ xdr_u64 ⊗ xdr_u64 ⊗ xdr_u64 ⊗ xdr_u32 ⊗
              xdr_u16 ⊗ xdr_enum mem_code mem_of_code _ ⊗ xdr_i32)
    (fun '(a, (b, (c, (d, (e, (f, (_, (_, (_, (_, (s, (t, _)))))))))))) => mkEvent (Mem.mkMemt a b c d e f t) s)
    (fun e => let d := te_data e in (Mem.me_start_time d, (Mem.me_stop_time d, (Mem.me_retval d, (me_ptr d, (Mem.me_size1 d,
      (Mem.me_size2 d, (0, (0, (0, (0, (te_stacktrace e, (Mem.me_type d, 0)))))))))))))  _.
Next Obligation. by intros []. Qed.
Next Obligation. by intros [[]]. Qed.

(** The data of a tracing collector, with the codec of its events. *)
Program Definition xdr_trace_data {P} (event : codec (traced_event P)) : codec (trace_data P) :=
  xdr_struct (xdr_array xdr_u64 ⊗ xdr_array event)
    (fun '(s, e) => mkTraceData s e) (fun d => (td_stacktraces d, td_events d)) _.
Next Obligation. by intros P event []. Qed.
Program Definition xdr_CBTF_mem_exttrace_data : codec mem_data :=
  xdr_struct (xdr_array xdr_u64 ⊗ xdr_array xdr_CBTF_memt_event)
    (fun '(s, e) => mkMemData s e) (fun d => (md_stacktraces d, md_events d)) _.
Next Obligation. by intros []. Qed.
Program Definition xdr_CBTF_io_exttrace_data : codec iot_data :=
  xdr_struct (xdr_array xdr_u64 ⊗ xdr_array xdr_CBTF_iot_event ⊗ xdr_array xdr_char)
    (fun '(s, (e, p)) => mkIotData s e p) (fun d => (id_stacktraces d, (id_events d, id_pathnames d))) _.
Next Obligation. by intros []. Qed.

(** ** Sending to a file *)

(** The path of the calling thread, and the directories and files there are. *)
Record rawdata := mkRaw {
  rd_path : string;
  rd_dirs : gset string;
  rd_files : gmap string (list Z)
}.

(** dir_path and tls->path; the directory is CBTF_RAWDATA_DIR or /tmp. *)
Definition dir_path (rawdata_dir : option string) (host : string) (pid : Z) : string :=
  default "/tmp" rawdata_dir +:+ "/cbtf-rawdata-" +:+ host +:+ "-" +:+ pretty pid.
Definition file_path (dir exe_name : string) (pid posix_tid : Z) (suffix : string) : string :=
  dir +:+ "/" +:+ exe_name +:+ "-" +:+ pretty pid +:+
    (if posix_tid =? 0 then "" else "-" +:+ pretty posix_tid) +:+ "." +:+ suffix.

(** while (status != 0) status = mkdir(...): [mkdir n] is whether the n-th attempt
    succeeds. *)
Fixpoint mkdir_loop (fuel : nat) (mkdir : nat -> bool) (try_count : nat) : outcome nat :=
  match fuel with
  | O => Diverged
  | S fuel' => if mkdir try_count then Ok (S try_count) else mkdir_loop fuel' mkdir (S try_count)
  end.

(** __CBTF_SetSendToFile(): [creates] is whether the file can be created. *)
Definition __CBTF_SetSendToFile (fuel : nat) (mkdir : nat -> bool) (creates : bool) (rawdata_dir : option string)
    (exe_name host : string) (pid posix_tid : Z) (suffix : string) (s : rawdata) : outcome rawdata :=
  let dir := dir_path rawdata_dir host pid in
  let path := file_path dir exe_name pid posix_tid suffix in
  dirs ← (if decide (dir ∈ rd_dirs s) then Ok (rd_dirs s)
          else _ ← mkdir_loop fuel mkdir 0; Ok ({[dir]} ∪ rd_dirs s));
  let files := match rd_files s !! path with
               | None => if creates then <[path := []]> (rd_files s) else rd_files s
               | Some _ => rd_files s
               end in
  Ok (mkRaw path dirs files).

(** CBTF_SendToFile(), which cbtf_send() of send.c calls: the size, then the data,
    at the end of the file, which must exist. *)
Definition CBTF_SendToFile (data : list Z) (s : rawdata) : outcome rawdata :=
  match rd_files s !! rd_path s with
  | None => Aborted
  | Some bytes =>
      Ok (mkRaw (rd_path s) (rd_dirs s)
        (<[rd_path s := bytes ++ enc xdr_u32 (Z.of_nat (length data)) ++ data]> (rd_files s)))
  end.

Section send.
Context (a : arch) (HOST_NAME_MAX : nat) {D : Type} (c : codec D).
Notation header := (xdr_CBTF_DataHeader HOST_NAME_MAX).

Definition EncodingBufferSize : Z := CBTF_BlobSizeFactor a * 15 * 1024.

(** CBTF_Data_Send(): an XDR procedure fails when the buffer is full, and the Assert
    around it aborts. *)
Definition CBTF_Data_Send (h : CBTF_DataHeader) (data : D) (s : rawdata) : outcome rawdata :=
  let buffer := enc header h ++ enc c data in
  if Z.of_nat (length buffer) <=? EncodingBufferSize then CBTF_SendToFile buffer s else Aborted.

Fixpoint send_all (blobs : list (CBTF_DataHeader * D)) (s : rawdata) : outcome rawdata :=
  match blobs with
  | [] => Ok s
  | b :: blobs' => s' ← CBTF_Data_Send b.1 b.2 s; send_all blobs' s'
  end.

(** ** Reading a file back: sizes and blobs up to the end. *)
Definition read_blob (bs : list Z) : option ((CBTF_DataHeader * D) * list Z) :=
  n ← dec xdr_u32 bs;
  r ← take_bytes (Z.to_nat n.1) n.2;
  h ← dec header r.1;
  d ← dec c h.2;
  match d.2 with [] => Some ((h.1, d.1), r.2) | _ => None end.
Fixpoint read_blobs (fuel : nat) (bs : list Z) : option (list (CBTF_DataHeader * D)) :=
  match bs, fuel with
  | [], _ => Some []
  | _, O => None
  | _, S fuel' => r ← read_blob bs; l ← read_blobs fuel' r.2; Some (r.1 :: l)
  end.
Definition read_file (bs : list Z) : option (list (CBTF_DataHeader * D)) := read_blobs (length bs) bs.

(** The bytes of a blob in the file, and whether it can be sent. *)
Definition blob_bytes (b : CBTF_DataHeader * D) : list Z :=
  enc xdr_u32 (Z.of_nat (length (enc header b.1 ++ enc c b.2))) ++ enc header b.1 ++ enc c b.2.
Definition fits (b : CBTF_DataHeader * D) : Prop :=
  Z.of_nat (length (enc header b.1 ++ enc c b.2)) <= EncodingBufferSize.
Definition sendable (b : CBTF_DataHeader * D) : Prop := valid header b.1 /\ valid c b.2 /\ fits b.

Lemma EncodingBufferSize_u32 : EncodingBufferSize < 2 ^ 32.
Proof. unfold EncodingBufferSize. by destruct a. Qed.

Lemma blob_bytes_nonempty b : exists x bs, blob_bytes b = x :: bs.
Proof.
  unfold blob_bytes. destruct (enc xdr_u32 _) eqn:He; [|by eexists _, _].
  pose proof (u32_length (Z.of_nat (length (enc header b.1 ++ enc c b.2)))) as H. by rewrite He in H.
Qed.

Lemma read_blob_enc b rest : sendable b -> read_blob (blob_bytes b ++ rest) = Some (b, rest).
Proof.
  intros (Hh & Hd & Hf). unfold read_blob, blob_bytes. rewrite <- app_assoc, enc_dec.
  - cbn [mbind option_bind fst snd]. rewrite Nat2Z.id, take_bytes_app. cbn [mbind option_bind fst snd].
    rewrite enc_dec by done. cbn [mbind option_bind fst snd]. rewrite <- (app_nil_r (enc c b.2)), enc_dec by done.
    by destruct b.
  - split; [apply Nat2Z.is_nonneg|]. eapply Z.le_lt_trans; [exact Hf|apply EncodingBufferSize_u32].
Qed.

(** The contents of a file with these blobs. *)
Fixpoint file_of (blobs : list (CBTF_DataHeader * D)) : list Z :=
  match blobs with [] => [] | b :: blobs' => blob_bytes b ++ file_of blobs' end.

Lemma file_of_app bs bs' : file_of (bs ++ bs') = file_of bs ++ file_of bs'.
Proof. induction bs as [|b bs IH]; cbn [file_of app]; [done|]. by rewrite IH, app_assoc. Qed.

Lemma read_blobs_file blobs : Forall sendable blobs ->
  forall fuel, (length (file_of blobs) <= fuel)%nat -> read_blobs fuel (file_of blobs) = Some blobs.
Proof.
  induction 1 as [|b blobs Hb Hs IH]; intros fuel Hf; [by destruct fuel|]. cbn [file_of] in *.
  destruct (blob_bytes_nonempty b) as (x & xs & Hx).
  assert (Hlen : (length (file_of blobs) < length (blob_bytes b ++ file_of blobs))%nat).
  { rewrite length_app, Hx. simpl. lia. }
  destruct fuel as [|fuel]; [lia|]. cbn [read_blobs].
  destruct (blob_bytes b ++ file_of blobs) as [|y ys] eqn:Hne; [by rewrite Hx in Hne|]. rewrite <- Hne.
  rewrite read_blob_enc by done. cbn [mbind option_bind fst snd]. rewrite IH by lia. done.
Qed.

Lemma read_file_of blobs : Forall sendable blobs -> read_file (file_of blobs) = Some blobs.
Proof. intros Hs. by apply read_blobs_file. Qed.

(** Sending stores the bytes of the blob. *)
Lemma send_ok b s bytes : fits b -> rd_files s !! rd_path s = Some bytes ->
  CBTF_Data_Send b.1 b.2 s =
    Ok (mkRaw (rd_path s) (rd_dirs s) (<[rd_path s := bytes ++ blob_bytes b]> (rd_files s))).
Proof.
  intros Hf Hfile. unfold CBTF_Data_Send. destruct (_ <=? _) eqn:Hle; bools.
  - unfold CBTF_SendToFile. by rewrite Hfile.
  - unfold fits in Hf. lia.
Qed.

Lemma send_all_ok blobs : Forall fits blobs -> forall s bytes, rd_files s !! rd_path s = Some bytes ->
  send_all blobs s =
    Ok (mkRaw (rd_path s) (rd_dirs s) (<[rd_path s := bytes ++ file_of blobs]> (rd_files s))).
Proof.
  induction 1 as [|b blobs Hb Hs IH]; intros s bytes Hfile; cbn [send_all file_of].
  - rewrite app_nil_r, insert_id by done. by destruct s.
  - rewrite (send_ok b s bytes Hb Hfile), bind_of_Ok. rewrite (IH _ (bytes ++ blob_bytes b)); cbn [rd_path rd_dirs rd_files].
    + by rewrite insert_insert_eq, app_assoc.
    + by rewrite lookup_insert_eq.
Qed.
End send.

(** C17: blobs of any collector that are within the types of their fields and fit the
    encoding buffer are all written to the file of the thread, after what is there,
    and a reader of the file gets back the blobs that were there and then those sent,
    headers and data, in order. No other file changes. *)
Theorem rawdata_roundtrip {D} (a : arch) (HOST_NAME_MAX : nat) (c : codec D) (s : rawdata)
    (old blobs : list (CBTF_DataHeader * D)) :
  rd_files s !! rd_path s = Some (file_of HOST_NAME_MAX c old) ->
  Forall (sendable a HOST_NAME_MAX c) old -> Forall (sendable a HOST_NAME_MAX c) blobs ->
  exists s', send_all a HOST_NAME_MAX c blobs s = Ok s' /\
    read_file HOST_NAME_MAX c <$> (rd_files s' !! rd_path s) = Some (Some (old ++ blobs)) /\
    forall path, path <> rd_path s -> rd_files s' !! path = rd_files s !! path.
Proof.
  intros Hfile Hold Hblobs. assert (Hfits : Forall (fits a HOST_NAME_MAX c) blobs).
  { eapply Forall_impl; [exact Hblobs|]. by intros x (_ & _ & H). }
  eexists. split; [by apply send_all_ok|].
  cbn [rd_files]. split; [|intros path Hp; by apply lookup_insert_ne].
  rewrite lookup_insert_eq, <- file_of_app. cbn [fmap option_fmap option_map]. f_equal. apply (read_file_of a). by apply Forall_app.
Qed.

(** ** Which blobs fit

    The sizes of the encodings. *)
Lemma header_size HM h : (String.length (dh_host h) <= HM)%nat ->
  Z.of_nat (length (enc (xdr_CBTF_DataHeader HM) h)) <= 72 + Z.of_nat (String.length (dh_id h)) + 4 * Z.of_nat HM.
Proof.
  intros Hh. unfold xdr_CBTF_DataHeader. autorewrite with xdr_size. cbn [fst snd].
  rewrite char_array_length by done. pose proof (string_length (dh_id h)). lia.
Qed.
Lemma header_size_min HM h : (String.length (dh_host h) <= HM)%nat ->
  64 + 4 * Z.of_nat HM <= Z.of_nat (length (enc (xdr_CBTF_DataHeader HM) h)).
Proof.
  intros Hh. unfold xdr_CBTF_DataHeader. autorewrite with xdr_size. cbn [fst snd]. rewrite char_array_length by done. lia.
Qed.

Lemma io_event_size e : Z.of_nat (length (enc xdr_CBTF_io_event e)) = 20.
Proof. unfold xdr_CBTF_io_event. autorewrite with xdr_size. done. Qed.
Lemma mpit_event_size e : Z.of_nat (length (enc xdr_CBTF_mpit_event e)) = 52.
Proof. unfold xdr_CBTF_mpit_event. autorewrite with xdr_size. done. Qed.
Lemma pthreadt_event_size e : Z.of_nat (length (enc xdr_CBTF_pthreadt_event e)) = 52.
Proof. unfold xdr_CBTF_pthreadt_event, xdr_enum. autorewrite with xdr_size. done. Qed.
Lemma memt_event_size e : Z.of_nat (length (enc xdr_CBTF_memt_event e)) = 88.
Proof. unfold xdr_CBTF_memt_event, xdr_enum. autorewrite with xdr_size. done. Qed.
Lemma char_size b : Z.of_nat (length (enc xdr_char b)) = 4.
Proof. exact (f_equal Z.of_nat (be_length 4 _)). Qed.

Lemma u64s_size xs : Z.of_nat (length (enc (xdr_array xdr_u64) xs)) = 4 + 8 * Z.of_nat (length xs).
Proof. apply array_length, u64_length. Qed.
Lemma u8s_size xs : Z.of_nat (length (enc (xdr_array xdr_u8) xs)) = 4 + 4 * Z.of_nat (length xs).
Proof. apply array_length, u8_length. Qed.
#[local] Hint Rewrite u64s_size u8s_size : xdr_size.

Lemma trace_size {P} (event : codec (traced_event P)) k d : (forall e, Z.of_nat (length (enc event e)) = k) ->
  Z.of_nat (length (enc (xdr_trace_data event) d)) =
    8 + 8 * Z.of_nat (length (td_stacktraces d)) + k * Z.of_nat (length (td_events d)).
Proof.
  intros Hk. unfold xdr_trace_data. autorewrite with xdr_size. cbn [fst snd]. rewrite (array_length event k) by done. lia.
Qed.

Section fit.
Context (a : arch) (HM : nat) (h : CBTF_DataHeader).
Context (Hhost : (String.length (dh_host h) <= HM)%nat) (HHM : (HM <= 256)%nat) (Hid : (String.length (dh_id h) <= 16)%nat).

Lemma fits_size {D} (c : codec D) d : Z.of_nat (length (enc c d)) <= EncodingBufferSize a - 1112 -> fits a HM c (h, d).
Proof using Hhost HHM Hid.
  intros Hd. unfold fits. rewrite length_app, Nat2Z.inj_add. pose proof (header_size HM h Hhost). cbn [fst snd]. lia.
Qed.

Lemma trace_fits {P} (event : codec (traced_event P)) (k : Z) (tr : tracer) d :
  (forall e, Z.of_nat (length (enc event e)) = k) -> 0 <= k ->
  8 * tr_stack_size tr + k * tr_event_size tr <= EncodingBufferSize a - 1120 ->
  Z.of_nat (length (td_stacktraces d)) <= tr_stack_size tr -> Z.of_nat (length (td_events d)) <= tr_event_size tr ->
  fits a HM (xdr_trace_data event) (h, d).
Proof using Hhost HHM Hid.
  intros Hk H0 Hsz Hs He. apply fits_size. rewrite (trace_size event k) by done.
  pose proof (Z.mul_le_mono_nonneg_l _ _ k H0 He). lia.
Qed.
End fit.

#[local] Ltac sizes := unfold EncodingBufferSize, CBTF_PCBufferSize, CBTF_ST_BufferSize, Mem.StackTraceBufferSize,
  Mem.EventBufferSize, Omptp.StackTraceBufferSize, io, iop, mpi, pthreads, CBTF_BlobSizeFactor in *.

(** C35: with a header whose host name fits its array of at most 256 characters and a
    collector name of at most 16, no blob that the pcsamp, hwc, usertime, hwctime,
    mem or io collector, the extended mpi trace or one of the profiling collectors can
    put together in its buffers is too large for the encoding buffer, on either kind
    of architecture. *)
Theorem collector_blobs_fit (a : arch) (HM : nat) (h : CBTF_DataHeader) :
  (String.length (dh_host h) <= HM)%nat -> (HM <= 256)%nat -> (String.length (dh_id h) <= 16)%nat ->
  (forall d, Z.of_nat (length (pd_pc d)) <= CBTF_PCBufferSize a -> length (pd_pc d) = length (PCSamp.pd_count d) ->
     fits a HM xdr_CBTF_pcsamp_data (h, d)) /\
  (forall d, Z.of_nat (length (ud_stacktraces d)) <= CBTF_ST_BufferSize -> length (ud_count d) = length (ud_stacktraces d) ->
     fits a HM xdr_CBTF_usertime_data (h, d)) /\
  (forall d, Z.of_nat (length (pd_stacktraces d)) <= tr_stack_size (iop a) ->
     length (pd_time d) = length (pd_stacktraces d) -> length (Profile.pd_count d) = length (pd_stacktraces d) ->
     fits a HM xdr_profile_data (h, d)) /\
  (forall d, Z.of_nat (length (md_stacktraces d)) <= Mem.StackTraceBufferSize a ->
     Z.of_nat (length (md_events d)) <= Mem.EventBufferSize a -> fits a HM xdr_CBTF_mem_exttrace_data (h, d)) /\
  (forall d, Z.of_nat (length (td_stacktraces d)) <= tr_stack_size (io a) ->
     Z.of_nat (length (td_events d)) <= tr_event_size (io a) -> fits a HM (xdr_trace_data xdr_CBTF_io_event) (h, d)) /\
  (forall d, Z.of_nat (length (td_stacktraces d)) <= tr_stack_size (mpi a EXTENDEDTRACE) ->
     Z.of_nat (length (td_events d)) <= tr_event_size (mpi a EXTENDEDTRACE) ->
     fits a HM (xdr_trace_data xdr_CBTF_mpit_event) (h, d)).
Proof.
  intros Hhost HHM Hid. split_and!; intros d.
  - intros Hl Hc. apply fits_size; [done..|]. unfold xdr_CBTF_pcsamp_data. autorewrite with xdr_size. cbn [fst snd].
    rewrite <- Hc. sizes. destruct a; lia.
  - intros Hl Hc. apply fits_size; [done..|]. unfold xdr_CBTF_usertime_data. autorewrite with xdr_size. cbn [fst snd].
    rewrite Hc. sizes. destruct a; lia.
  - intros Hl Ht Hc. apply fits_size; [done..|]. unfold xdr_profile_data. autorewrite with xdr_size. cbn [fst snd].
    rewrite Ht, Hc. sizes. cbn [tr_stack_size] in Hl. destruct a; lia.
  - intros Hs He. apply fits_size; [done..|]. unfold xdr_CBTF_mem_exttrace_data. autorewrite with xdr_size. cbn [fst snd].
    rewrite (array_length _ 88) by apply memt_event_size. sizes. destruct a; lia.
  - intros Hs He. eapply (trace_fits a HM h Hhost HHM Hid _ 20 (io a)); [apply io_event_size|done| |done|done].
    sizes. cbn [tr_stack_size tr_event_size]. destruct a; lia.
  - intros Hs He. eapply (trace_fits a HM h Hhost HHM Hid _ 52 (mpi a EXTENDEDTRACE)); [apply mpit_event_size|done| |done|done].
    sizes. cbn [tr_stack_size tr_event_size]. destruct a; lia.
Qed.

(** A blob with a full event buffer of the pthreads collector does not fit, so that
    sending it aborts the program: 415 events per unit of the buffer sizes take
    21580 bytes, and the encoding buffer has 15360. *)
Theorem pthreads_full_buffer_aborts (a : arch) (HM : nat) (h : CBTF_DataHeader) (d : trace_data pthreadt_event) (s : rawdata) :
  Z.of_nat (length (td_events d)) = tr_event_size (pthreads a) ->
  CBTF_Data_Send a HM (xdr_trace_data xdr_CBTF_pthreadt_event) h d s = Aborted.
Proof.
  intros He. unfold CBTF_Data_Send. destruct (_ <=? _) eqn:Hle; bools; [|done]. exfalso.
  rewrite length_app, Nat2Z.inj_add, (trace_size _ 52) in Hle by apply pthreadt_event_size. rewrite He in Hle.
  sizes. cbn [tr_event_size] in Hle. destruct a; lia.
Qed.

(** The name of a file tells the threads of a process apart. *)
Lemma append_inj_r s1 s2 t : s1 +:+ t = s2 +:+ t -> s1 = s2.
Proof.
  assert (Hlen : forall s u, String.length (s +:+ u) = (String.length s + String.length u)%nat).
  { induction s as [|c s IH]; intros u; simpl; [done|]. by rewrite IH. }
  revert s2. induction s1 as [|c s1 IH]; intros [|c2 s2] H; [done|..].
  - apply (f_equal String.length) in H. rewrite !Hlen in H. simpl in H. lia.
  - apply (f_equal String.length) in H. rewrite !Hlen in H. simpl in H. lia.
  - injection H as -> H. by rewrite (IH s2).
Qed.
Theorem rawdata_paths_distinct dir exe_name pid tid tid' suffix :
  tid <> tid' -> file_path dir exe_name pid tid suffix <> file_path dir exe_name pid tid' suffix.
Proof.
  intros Hne Heq. unfold file_path in Heq. do 5 apply (inj (String.append _)) in Heq. apply append_inj_r in Heq.
  destruct (tid =? 0) eqn:H1, (tid' =? 0) eqn:H2; bools; [congruence|done|done|].
  apply (inj (String.append _)) in Heq. by apply (inj pretty) in Heq.
Qed.

(** A directory that cannot be made is tried for again without end. *)
Theorem rawdata_mkdir_diverges fuel mkdir creates rawdata_dir exe_name host pid tid suffix s :
  (forall n, mkdir n = false) -> dir_path rawdata_dir host pid ∉ rd_dirs s ->
  __CBTF_SetSendToFile fuel mkdir creates rawdata_dir exe_name host pid tid suffix s = Diverged.
Proof.
  intros Hm Hd. unfold __CBTF_SetSendToFile. rewrite decide_False by done.
  assert (Hloop : forall n, mkdir_loop fuel mkdir n = Diverged).
  { induction fuel as [|fuel IH]; intros n; cbn [mkdir_loop]; [done|]. by rewrite Hm. }
  by rewrite Hloop.
Qed.

(** A full event buffer of the extended io trace leaves room for less than the path
    name buffer may hold. *)
Lemma iot_event_size e : length (it_sysargs (te_data e)) = 4%nat -> Z.of_nat (length (enc xdr_CBTF_iot_event e)) = 68.
Proof.
  intros Hl. unfold xdr_CBTF_iot_event. autorewrite with xdr_size. cbn [fst snd enc xdr_vector].
  rewrite (join_length xdr_u64 8) by apply u64_length. rewrite Hl. done.
Qed.

Lemma iot_events_size es : Forall (fun e => length (it_sysargs (te_data e)) = 4%nat) es ->
  Z.of_nat (length (enc_all xdr_CBTF_iot_event es)) = 68 * Z.of_nat (length es).
Proof.
  induction 1 as [|e es He _ IH]; cbn [enc_all length]; [done|]. rewrite length_app, Nat2Z.inj_add, iot_event_size, IH by done. lia.
Qed.

Theorem iot_full_buffer_aborts (a : arch) (HM : nat) (h : CBTF_DataHeader) (d : iot_data) (s : rawdata) :
  Z.of_nat (length (id_events d)) = tr_event_size (iot a) ->
  Forall (fun e => length (it_sysargs (te_data e)) = 4%nat) (id_events d) ->
  3 * PathBufferSize a <= 4 * Z.of_nat (length (id_pathnames d)) ->
  CBTF_Data_Send a HM xdr_CBTF_io_exttrace_data h d s = Aborted.
Proof.
  intros He Hargs Hp. unfold CBTF_Data_Send. destruct (_ <=? _) eqn:Hle; bools; [|done]. exfalso.
  rewrite length_app, Nat2Z.inj_add in Hle. unfold xdr_CBTF_io_exttrace_data in Hle. autorewrite with xdr_size in Hle.
  cbn [fst snd] in Hle. rewrite (array_length xdr_char 4) in Hle by apply char_size.
  assert (Hev : 68 * Z.of_nat (length (id_events d)) <= Z.of_nat (length (enc (xdr_array xdr_CBTF_iot_event) (id_events d)))).
  { cbn [enc xdr_array]. rewrite length_app, Nat2Z.inj_add, iot_events_size by done. lia. }
  rewrite He in Hev. sizes. unfold iot, PathBufferSize, CBTF_BlobSizeFactor in *. cbn [tr_event_size] in *. destruct a; lia.
Qed.

(** ** Witnesses *)
Definition example_header : CBTF_DataHeader := mkDataHeader 0 1 "pcsamp" "n0" 42 7 (-1) 0 1000 2000 4096 8192.
Definition example_raw : rawdata := mkRaw "/tmp/a" {["/tmp"]} {["/tmp/a" := []]}.

Lemma example_header_valid : valid (xdr_CBTF_DataHeader 64) example_header.
Proof. repeat (split || apply Forall_cons_2 || apply Forall_nil_2); vm_compute; (done || lia || by intros [=]). Qed.

(** Two blobs are written and read. *)
Lemma rawdata_roundtrip_witness :
  let blobs := [(example_header, mkPcsampData 10000000 [4096; 8192] [1; 2]); (example_header, mkPcsampData 10000000 [4096] [255])] in
  exists s', send_all arch_other 64 xdr_CBTF_pcsamp_data blobs example_raw = Ok s' /\
    read_file 64 xdr_CBTF_pcsamp_data <$> (rd_files s' !! "/tmp/a") = Some (Some blobs).
Proof.
  intros blobs.
  assert (Hb : Forall (sendable arch_other 64 xdr_CBTF_pcsamp_data) blobs).
  { apply Forall_cons_2; [|apply Forall_singleton]; (split; [exact example_header_valid|]); (split; [|by vm_compute]);
      repeat (split || apply Forall_cons_2 || apply Forall_nil_2); vm_compute; (done || lia || by intros [=]). }
  destruct (rawdata_roundtrip arch_other 64 xdr_CBTF_pcsamp_data example_raw [] blobs) as (s' & H1 & H2 & _).
  - reflexivity.
  - constructor.
  - exact Hb.
  - exists s'. split; [exact H1|exact H2].
Defined.

Lemma collector_blobs_fit_witness :
  fits arch_other 64 (xdr_trace_data xdr_CBTF_mpit_event)
    (example_header, mkTraceData [1; 2; 0] (replicate 10 (mkEvent (mkMpit 1 2 0 1 8 0 0 0 0) 0))).
Proof.
  destruct (collector_blobs_fit arch_other 64 example_header) as (_ & _ & _ & _ & _ & H).
  - cbn. lia.
  - lia.
  - cbn. lia.
  - apply H; by vm_compute.
Defined.

Lemma pthreads_full_buffer_witness :
  let d := mkTraceData [1; 2; 0] (replicate 6225 (mkEvent zero_pthreadt 0)) in
  CBTF_Data_Send arch_other 64 (xdr_trace_data xdr_CBTF_pthreadt_event) example_header d example_raw = Aborted.
Proof.
  intros d. apply (pthreads_full_buffer_aborts arch_other 64 example_header d example_raw).
  unfold d. cbn [td_events]. rewrite length_replicate. reflexivity.
Defined.
