(* ===== verification/Timer.v ===== *)
(** The timer service: services/src/timer/TimerHandler.c. The threads of a process
    share the count of timer users, the signal action and the mutex; the kernel
    side is modelled by the table of POSIX timers, the process-wide interval
    timer and the current action of the timer signal. Calls are atomic: the
    shared part of __CBTF_Timer runs under mutex_lock and the rest touches only
    the thread's own storage. *)
From S2P Require Import Prelude.

Definition CBTF_ITIMER_SIGNAL : Z := 27.          (* SIGPROF *)
Definition CBTF_REALTIME_SIGNAL : Z := 34 + 3.    (* SIGRTMIN + 3 *)
Definition ns_per_s : Z := 1000000000.

(** The action of the timer signal: the program's, or signalHandler. *)
Inductive sigact := Original (addr : Z) | SignalHandler.
#[export] Instance sigact_eq_dec : EqDecision sigact.
Proof. solve_decision. Defined.

(** Thread-local storage; the timer_t is that of the kernel timer with this id, or
    NULL until a timer is created. *)
Record thread := mkThread {
  th_timer_handler : option Z;
  th_timerid : option nat;
  th_posix_timer_initialized : bool
}.
Definition fresh_thread : thread := mkThread None None false.

(** A kernel timer: the thread it signals and its period, 0 when disarmed. *)
Record ktimer := mkKtimer { kt_owner : nat; kt_period : Z }.

Record process := mkProcess {
  num_threads : Z;
  original_sigprof_action : option sigact;
  cbtf_timer_signal : Z;
  use_posix_timer : bool;
  init_timer_signal : bool;
  threads : gmap nat thread;
  k_action : sigact;             (* kernel: action of the timer signal *)
  k_timers : gmap nat ktimer;    (* kernel: POSIX timers by id *)
  k_next : nat;                  (* kernel: the next unused timer id *)
  k_itimer : Z                   (* kernel: period of ITIMER_PROF *)
}.

Definition get_thread (tid : nat) (p : process) : thread := default fresh_thread (threads p !! tid).

Definition set_thread (tid : nat) (t : thread) (p : process) : process :=
  mkProcess (num_threads p) (original_sigprof_action p) (cbtf_timer_signal p) (use_posix_timer p)
    (init_timer_signal p) (<[tid := t]> (threads p)) (k_action p) (k_timers p) (k_next p) (k_itimer p).
Definition set_num_threads (n : Z) (p : process) : process :=
  mkProcess n (original_sigprof_action p) (cbtf_timer_signal p) (use_posix_timer p)
    (init_timer_signal p) (threads p) (k_action p) (k_timers p) (k_next p) (k_itimer p).
Definition set_timers (m : gmap nat ktimer) (next : nat) (p : process) : process :=
  mkProcess (num_threads p) (original_sigprof_action p) (cbtf_timer_signal p) (use_posix_timer p)
    (init_timer_signal p) (threads p) (k_action p) m next (k_itimer p).
Definition setitimer (period : Z) (p : process) : process :=
  mkProcess (num_threads p) (original_sigprof_action p) (cbtf_timer_signal p) (use_posix_timer p)
    (init_timer_signal p) (threads p) (k_action p) (k_timers p) (k_next p) period.

(** sigaction(signal, signalHandler, &original_sigprof_action) *)
Definition install_action (p : process) : process :=
  mkProcess (num_threads p) (Some (k_action p)) (cbtf_timer_signal p) (use_posix_timer p)
    (init_timer_signal p) (threads p) SignalHandler (k_timers p) (k_next p) (k_itimer p).
(** sigaction(signal, &original_sigprof_action, NULL); the static variable is
    zero (the default action) until it was saved. *)
Definition restore_action (p : process) : process :=
  mkProcess (num_threads p) (original_sigprof_action p) (cbtf_timer_signal p) (use_posix_timer p)
    (init_timer_signal p) (threads p) (default (Original 0) (original_sigprof_action p))
    (k_timers p) (k_next p) (k_itimer p).

(** timer_settime(); an id that names no timer makes it fail without effect. *)
Definition timer_settime (id : option nat) (period : Z) (p : process) : process :=
  match id with
  | Some i =>
      match k_timers p !! i with
      | Some t => set_timers (<[i := mkKtimer (kt_owner t) period]> (k_timers p)) (k_next p) p
      | None => p
      end
  | None => p
  end.

Section timer.
(** HAVE_POSIX_TIMERS, getenv("CBTF_FORCE_ITIMER_SIGNAL") != NULL, which kernel timers
    have a timer_t that is NULL, and whether timer_create() succeeds. *)
Context (have_posix force_itimer : bool) (null : nat -> bool) (timer_create_ok : process -> bool).

(** The POSIX timer of a thread that enables its timer. *)
Definition create_timer (tid : nat) (p : process) : process :=
  let tls := get_thread tid p in
  if th_posix_timer_initialized tls then p
  else if timer_create_ok p then
    let id := k_next p in
    set_thread tid (mkThread (th_timer_handler tls) (Some id) true)
      (set_timers (<[id := mkKtimer tid 0]> (k_timers p)) (S id) p)
  else p.

(** ... and of one that disables it, if its timer_t is not NULL. *)
Definition delete_timer (tid : nat) (p : process) : process :=
  let tls := get_thread tid p in
  match th_timerid tls with
  | Some id =>
      if null id then set_thread tid (mkThread (th_timer_handler tls) (Some id) false) p
      else
        let p1 := timer_settime (Some id) 0 p in
        if th_posix_timer_initialized tls
        then set_thread tid (mkThread (th_timer_handler tls) None false) (set_timers (delete id (k_timers p1)) (k_next p1) p1)
        else set_thread tid (mkThread (th_timer_handler tls) (Some id) false) p1
  | None => set_thread tid (mkThread (th_timer_handler tls) None false) p
  end.

(** The period programmed into it_interval / it_value, read back in
    nanoseconds: tv_sec and tv_nsec, or tv_sec and tv_usec. *)
Definition posix_period (interval : Z) : Z :=
  (interval / ns_per_s) * ns_per_s + (1000 * (interval mod ns_per_s)) / 1000.
Definition itimer_period (interval : Z) : Z :=
  (interval / ns_per_s) * ns_per_s + ((interval mod ns_per_s) / 1000) * 1000.

(** interval > 0 && handler != NULL *)
Definition enabling (interval : Z) (handler : option Z) : bool :=
  (interval >? 0) && (match handler with Some _ => true | None => false end).

(** __CBTF_Timer under the mutex, for a thread that enables its timer ... *)
Definition enable_shared (tid : nat) (p : process) : process :=
  let p1 := if num_threads p =? 0 then install_action p else p in
  let p2 := if use_posix_timer p1 then (if have_posix then create_timer tid p1 else p1) else p1 in
  match th_timer_handler (get_thread tid p2) with
  | None => set_num_threads (u32 (num_threads p2 + 1)) p2
  | Some _ => p2
  end.

(** ... and for one that disables it. *)
Definition disable_shared (tid : nat) (p : process) : process :=
  let p1 := if use_posix_timer p then (if have_posix then delete_timer tid p else p) else p in
  let p2 := set_num_threads (u32 (num_threads p1 - 1)) p1 in
  if num_threads p2 =? 0 then restore_action p2 else p2.

Definition set_handler (tid : nat) (handler : option Z) (p : process) : process :=
  let tls := get_thread tid p in
  set_thread tid (mkThread handler (th_timerid tls) (th_posix_timer_initialized tls)) p.

(** Starting the timer, after the mutex is released. *)
Definition arm (tid : nat) (interval : Z) (p : process) : process :=
  if use_posix_timer p then
    (if have_posix then timer_settime (th_timerid (get_thread tid p)) (posix_period interval) p else p)
  else setitimer (itimer_period interval) p.

Definition cbtf_timer_impl (tid : nat) (interval : Z) (handler : option Z) (p0 : process) : process :=
  let p := if use_posix_timer p0 then p0 else setitimer 0 p0 in
  if enabling interval handler
  then arm tid interval (set_handler tid handler (enable_shared tid p))
  else set_handler tid None (disable_shared tid p).

Definition CBTF_SetTimerSignal (p : process) : process :=
  if init_timer_signal p then p else
    let posix := have_posix && negb force_itimer in
    mkProcess (num_threads p) (original_sigprof_action p)
      (if posix then CBTF_REALTIME_SIGNAL else CBTF_ITIMER_SIGNAL) posix true
      (threads p) (k_action p) (k_timers p) (k_next p) (k_itimer p).

Definition CBTF_Timer (tid : nat) (interval : Z) (handler : option Z) (p0 : process) : process :=
  let p := CBTF_SetTimerSignal p0 in
  let tls := get_thread tid p in
  let p1 := if have_posix && enabling interval handler
            then set_thread tid (mkThread (th_timer_handler tls) (th_timerid tls) false) p else p in
  cbtf_timer_impl tid interval handler p1.

(** What the kernel's delivery of the timer signal to a thread runs. *)
Definition signalHandler (tid : nat) (p : process) : option Z :=
  match k_action p with
  | SignalHandler => th_timer_handler (get_thread tid p)
  | Original _ => None
  end.

(** The threads whose signal mask holds the timer signal, beside the process:
    pthread_sigmask (for the interval timer sigprocmask) changes the mask of the
    calling thread. *)
Definition CBTF_BlockTimerSignal (tid : nat) (pm : process * gset nat) : process * gset nat :=
  (CBTF_SetTimerSignal pm.1, {[tid]} ∪ pm.2).
Definition CBTF_UnBlockTimerSignal (tid : nat) (pm : process * gset nat) : process * gset nat :=
  (CBTF_SetTimerSignal pm.1, pm.2 ∖ {[tid]}).

(** What an expiry of the thread's timer runs at once: nothing while blocked. *)
Definition interrupt (tid : nat) (pm : process * gset nat) : option Z :=
  if bool_decide (tid ∈ pm.2) then None else signalHandler tid pm.1.

(** ** Protocol

    A call: a thread enables (a positive interval and a handler) or disables. *)
Inductive call := Start (tid : nat) (interval handler : Z) | Stop (tid : nat).

Definition do_call (c : call) (p : process) : process :=
  match c with
  | Start tid interval handler => CBTF_Timer tid interval (Some handler) p
  | Stop tid => CBTF_Timer tid 0 None p
  end.
Definition do_calls (cs : list call) (p : process) : process := foldl (fun p c => do_call c p) p cs.
End timer.

(** The specification: which threads run a timer, with which period and handler. *)
Notation spec := (gmap nat (Z * Z)).
Definition spec_call (c : call) (s : spec) : spec :=
  match c with
  | Start tid interval handler => <[tid := (interval, handler)]> s
  | Stop tid => delete tid s
  end.
Definition spec_calls (cs : list call) (s : spec) : spec := foldl (fun s c => spec_call c s) s cs.

(** Calls that alternate per thread, as the documentation of the service asks. *)
Definition allowed (c : call) (s : spec) : bool :=
  match c with
  | Start tid interval _ => (0 <? interval) && negb (bool_decide (is_Some (s !! tid)))
  | Stop tid => bool_decide (is_Some (s !! tid))
  end.
Fixpoint well_behaved (cs : list call) (s : spec) : bool :=
  match cs with
  | [] => true
  | c :: cs' => allowed c s && well_behaved cs' (spec_call c s)
  end.

Lemma get_set_thread tid tid' t p :
  get_thread tid' (set_thread tid t p) = if decide (tid = tid') then t else get_thread tid' p.
Proof.
  unfold get_thread. simpl. case_decide as H; subst; [by rewrite lookup_insert_eq|by rewrite lookup_insert_ne].
Qed.

(** The POSIX timer is programmed with exactly the interval asked for. *)
Lemma posix_period_exact interval : posix_period interval = interval.
Proof.
  unfold posix_period. rewrite (Z.mul_comm 1000), Z.div_mul by lia.
  rewrite Z.mul_comm. symmetry. apply Z.div_mod. done.
Qed.

Section posix.
Context (null : nat -> bool) (never_null : forall id, null id = false).
Context (timer_create_ok : process -> bool) (create_succeeds : forall p, timer_create_ok p = true).

Record implements (orig : sigact) (p : process) (s : spec) : Prop := {
  im_mode : use_posix_timer p = true;
  im_count : num_threads p = Z.of_nat (size s);
  im_action : k_action p = if decide (size s = 0%nat) then orig else SignalHandler;
  im_saved : size s <> 0%nat -> original_sigprof_action p = Some orig;
  im_idle : forall tid, s !! tid = None -> get_thread tid p = fresh_thread;
  im_running : forall tid iv h, s !! tid = Some (iv, h) ->
    exists id, get_thread tid p = mkThread (Some h) (Some id) true /\
      k_timers p !! id = Some (mkKtimer tid iv);
  im_owned : forall id t, k_timers p !! id = Some t ->
    (id < k_next p)%nat /\ is_Some (s !! kt_owner t) /\ th_timerid (get_thread (kt_owner t) p) = Some id
}.

Lemma enable_shared_result tid p ho o :
  use_posix_timer p = true -> get_thread tid p = mkThread ho o false ->
  enable_shared true timer_create_ok tid p =
    mkProcess (match ho with None => u32 (num_threads p + 1) | Some _ => num_threads p end)
      (if num_threads p =? 0 then Some (k_action p) else original_sigprof_action p)
      (cbtf_timer_signal p) (use_posix_timer p) (init_timer_signal p)
      (<[tid := mkThread ho (Some (k_next p)) true]> (threads p))
      (if num_threads p =? 0 then SignalHandler else k_action p)
      (<[k_next p := mkKtimer tid 0]> (k_timers p)) (S (k_next p)) (k_itimer p).
Proof.
  intros Hp Ht. unfold enable_shared.
  assert (Hc : forall q, use_posix_timer q = true -> get_thread tid q = mkThread ho o false ->
    create_timer timer_create_ok tid q = set_thread tid (mkThread ho (Some (k_next q)) true)
      (set_timers (<[k_next q := mkKtimer tid 0]> (k_timers q)) (S (k_next q)) q)).
  { intros q _ Hq. unfold create_timer. by rewrite create_succeeds, Hq. }
  destruct (num_threads p =? 0).
  - change (use_posix_timer (install_action p)) with (use_posix_timer p).
    rewrite Hp, Hc, get_set_thread, decide_True by done. unfold set_num_threads, set_thread, set_timers, install_action; cbn; destruct ho; by rewrite ?Hp.
  - rewrite Hp, Hc, get_set_thread, decide_True by done. unfold set_num_threads, set_thread, set_timers, install_action; cbn; destruct ho; by rewrite ?Hp.
Qed.

Lemma enable_result tid iv h p ho o :
  use_posix_timer p = true -> get_thread tid p = mkThread ho o false ->
  arm true tid iv (set_handler tid (Some h) (enable_shared true timer_create_ok tid p)) =
    mkProcess (match ho with None => u32 (num_threads p + 1) | Some _ => num_threads p end)
      (if num_threads p =? 0 then Some (k_action p) else original_sigprof_action p)
      (cbtf_timer_signal p) (use_posix_timer p) (init_timer_signal p)
      (<[tid := mkThread (Some h) (Some (k_next p)) true]> (threads p))
      (if num_threads p =? 0 then SignalHandler else k_action p)
      (<[k_next p := mkKtimer tid iv]> (k_timers p)) (S (k_next p)) (k_itimer p).
Proof.
  intros Hp Ht. rewrite (enable_shared_result tid p ho o Hp Ht). unfold set_handler.
  match goal with |- context [set_thread tid ?t ?q] => assert (Hg : get_thread tid q =
    mkThread ho (Some (k_next p)) true) by (unfold get_thread; cbn; by rewrite lookup_insert_eq);
    rewrite Hg; set (q0 := q) in * end.
  unfold arm. change (use_posix_timer (set_thread _ _ q0)) with (use_posix_timer p). rewrite Hp.
  rewrite get_set_thread, decide_True by done. cbn [th_timerid th_posix_timer_initialized].
  unfold timer_settime. change (k_timers (set_thread _ _ q0)) with
    (<[k_next p := mkKtimer tid 0]> (k_timers p)). rewrite lookup_insert_eq, posix_period_exact.
  unfold set_timers, set_thread. cbn. rewrite !insert_insert_eq. by rewrite Hp.
Qed.

Lemma set_signal_implements orig p s :
  implements orig p s -> implements orig (CBTF_SetTimerSignal true false p) s.
Proof. intros [? ? ? ? ? ? ?]. unfold CBTF_SetTimerSignal. by destruct (init_timer_signal p). Qed.

(** Writing back what a thread already has changes nothing. *)
Lemma touch_implements orig p s tid :
  implements orig p s -> implements orig (set_thread tid (get_thread tid p) p) s.
Proof.
  assert (Hg : forall t, get_thread t (set_thread tid (get_thread tid p) p) = get_thread t p)
    by (intros t; rewrite get_set_thread; by case_decide; subst).
  intros [? ? ? ? Hi Hr Ho]. constructor; try done.
  - intros t Ht. rewrite Hg. auto.
  - intros t iv h Ht. rewrite Hg. by apply Hr.
  - intros id t Ht. rewrite Hg. by apply Ho.
Qed.

(** Starting: the thread gets a new timer with the interval asked for. *)
Lemma enable_implements orig p s tid iv h :
  implements orig p s -> s !! tid = None -> Z.of_nat (size s) + 1 < 2 ^ 32 ->
  implements orig (arm true tid iv (set_handler tid (Some h) (enable_shared true timer_create_ok tid p)))
    (<[tid := (iv, h)]> s).
Proof.
  intros [Hm Hn Ha Hs Hi Hr Ho] Hnew Hsz.
  rewrite (enable_result tid iv h p None None Hm (Hi tid Hnew)).
  assert (Hsize : size (<[tid := (iv, h)]> s) = S (size s)) by (by rewrite map_size_insert, Hnew).
  assert (Hzero : (num_threads p =? 0) = bool_decide (size s = 0%nat)).
  { rewrite Hn. case_bool_decide; lia. }
  constructor; cbn [set_timers set_thread use_posix_timer num_threads k_action original_sigprof_action k_next k_timers].
  - done.
  - rewrite Hsize, Hn, u32_small by lia. lia.
  - rewrite Hsize, Hzero, decide_False by lia. rewrite Ha. case_bool_decide; [done|]. by rewrite decide_False.
  - intros _. rewrite Hzero, Ha. case_bool_decide; [by rewrite decide_True|by apply Hs].
  - intros t Ht. apply lookup_insert_None in Ht as [Ht Hne]. rewrite <- (Hi t Ht).
    unfold get_thread. simpl. by rewrite !lookup_insert_ne.
  - intros t iv' h' Ht. apply lookup_insert_Some in Ht as [[<- [= <- <-]]|[Hne Ht]].
    + exists (k_next p). unfold get_thread. simpl. by rewrite !lookup_insert_eq.
    + destruct (Hr t iv' h' Ht) as (id & Hg & Hk). exists id. split.
      * rewrite <- Hg. unfold get_thread. simpl. by rewrite !lookup_insert_ne.
      * destruct (Ho _ _ Hk) as [Hlt _]. rewrite !lookup_insert_ne by lia. done.
  - intros id t Ht. apply lookup_insert_Some in Ht as [[<- <-]|[Hne Ht]].
    + split_and!; [lia|simpl; rewrite lookup_insert_eq; eauto|].
      unfold get_thread. simpl. by rewrite !lookup_insert_eq.
    + destruct (Ho _ _ Ht) as (Hlt & Hs' & Hid). split_and!; [lia| |].
      * by apply lookup_insert_is_Some'; right.
      * rewrite <- Hid. unfold get_thread. simpl. rewrite !lookup_insert_ne; [done|..];
          intros ->; rewrite Hnew in Hs'; by destruct Hs'.
Qed.

(** Stopping: the thread's timer is gone, the last one restores the action. *)
Lemma disable_implements orig p s tid iv h :
  implements orig p s -> s !! tid = Some (iv, h) -> Z.of_nat (size s) < 2 ^ 32 ->
  implements orig (set_handler tid None (disable_shared true null tid p)) (delete tid s).
Proof.
  intros [Hm Hn Ha Hs Hi Hr Ho] Hrun Hsz.
  destruct (Hr _ _ _ Hrun) as (id & Hg & Hk).
  assert (Hsize : size s = S (size (delete tid s))).
  { rewrite (map_size_delete tid s). rewrite Hrun. pose proof (map_size_non_empty_iff s).
    destruct (size s) eqn:E; [|simpl; lia]. apply map_size_empty_inv in E. subst. by rewrite lookup_empty in Hrun. }
  assert (Hd : delete_timer null tid p = set_thread tid (mkThread (Some h) None false)
    (set_timers (delete id (<[id := mkKtimer tid 0]> (k_timers p))) (k_next p) p)).
  { unfold delete_timer. rewrite Hg. cbn [th_timerid th_posix_timer_initialized th_timer_handler]. rewrite never_null.
    unfold timer_settime. by rewrite Hk. }
  unfold disable_shared. rewrite Hm, Hd.
  cbn [set_thread set_timers num_threads set_num_threads].
  replace (u32 (num_threads p - 1)) with (Z.of_nat (size (delete tid s)))
    by (rewrite Hn, u32_small by lia; lia).
  match goal with |- implements _ (set_handler tid None ?q) _ => set (q0 := q) end.
  assert (Hq : use_posix_timer q0 = true /\ num_threads q0 = Z.of_nat (size (delete tid s)) /\
    k_action q0 = (if decide (size (delete tid s) = 0%nat) then orig else SignalHandler) /\
    original_sigprof_action q0 = original_sigprof_action p /\
    threads q0 = <[tid := mkThread (Some h) None false]> (threads p) /\
    k_timers q0 = delete id (k_timers p) /\ k_next q0 = k_next p).
  { unfold q0. rewrite delete_insert_eq. destruct (_ =? 0) eqn:Hz; bools; simpl; rewrite ?Hm.
    - rewrite (Hs ltac:(lia)). simpl. by rewrite decide_True by lia.
    - rewrite Ha, !decide_False by lia. done. }
  clearbody q0. destruct Hq as (Q1 & Q2 & Q3 & Q4 & Q5 & Q6 & Q7).
  assert (Hget : forall t, get_thread t (set_handler tid None q0) =
            if decide (tid = t) then fresh_thread else get_thread t p).
  { intros t. unfold set_handler. rewrite get_set_thread. unfold get_thread. rewrite Q5, lookup_insert_eq.
    destruct (decide (tid = t)); [reflexivity|]. by rewrite lookup_insert_ne. }
  constructor; try done.
  - cbn [original_sigprof_action set_handler set_thread]. rewrite Q4. intros ?. apply Hs. lia.
  - intros t Ht. rewrite Hget. destruct (decide (tid = t)); [done|]. apply Hi.
    by rewrite lookup_delete_ne in Ht.
  - intros t iv' h' Ht. apply lookup_delete_Some in Ht as [Hne Ht]. rewrite Hget, decide_False by done.
    destruct (Hr _ _ _ Ht) as (id' & Hg' & Hk'). exists id'. split; [done|].
    cbn [k_timers set_handler set_thread]. rewrite Q6. rewrite lookup_delete_ne; [done|].
    intros ->. rewrite Hk in Hk'. congruence.
  - intros id' t Ht. cbn [k_timers set_handler set_thread k_next] in *. rewrite Q6 in Ht. rewrite Q7.
    apply lookup_delete_Some in Ht as [Hne Ht]. destruct (Ho _ _ Ht) as (Hlt & Hs' & Hid).
    assert (Hown : tid <> kt_owner t).
    { intros Heq. rewrite <- Heq, Hg in Hid. simpl in Hid. congruence. }
    split_and!; [done|by rewrite lookup_delete_ne|]. by rewrite Hget, decide_False.
Qed.
Lemma call_implements orig p s c :
  implements orig p s -> allowed c s = true -> Z.of_nat (size s) + 1 < 2 ^ 32 ->
  implements orig (do_call true false null timer_create_ok c p) (spec_call c s).
Proof.
  intros Hi Ha Hsz. apply set_signal_implements in Hi. destruct c as [tid iv h|tid]; simpl in Ha.
  - apply andb_true_iff in Ha as [Hiv Hnew]. bools. apply bool_decide_eq_false, eq_None_not_Some in Hnew.
    simpl. unfold CBTF_Timer. assert (enabling iv (Some h) = true) as He
      by (unfold enabling; rewrite andb_true_r; lia). rewrite He. cbn [andb].
    set (p1 := CBTF_SetTimerSignal true false p) in *.
    pose proof (touch_implements orig p1 s tid Hi) as Ht.
    rewrite (im_idle _ _ _ Hi tid Hnew) in *. unfold cbtf_timer_impl. rewrite He.
    cbn [fresh_thread th_timer_handler th_timerid]. fold fresh_thread.
    rewrite (im_mode _ _ _ Ht). by apply enable_implements.
  - apply bool_decide_eq_true in Ha as [[iv h] Hrun]. simpl. unfold CBTF_Timer, cbtf_timer_impl.
    cbn [enabling Z.gtb Z.compare andb]. rewrite (im_mode _ _ _ Hi).
    apply (disable_implements _ _ _ _ iv h); [done|done|lia].
Qed.

Lemma spec_size c s : (size (spec_call c s) <= S (size s))%nat.
Proof.
  destruct c as [tid iv h|tid]; simpl.
  - rewrite map_size_insert. destruct (s !! tid); simpl; lia.
  - rewrite map_size_delete. destruct (s !! tid); simpl; lia.
Qed.

Lemma calls_implement orig cs : forall p s,
  implements orig p s -> well_behaved cs s = true ->
  Z.of_nat (size s + length cs) + 1 < 2 ^ 32 ->
  implements orig (do_calls true false null timer_create_ok cs p) (spec_calls cs s).
Proof.
  induction cs as [|c cs IH]; intros p s Hi Hw Hsz; [done|]. simpl in Hw, Hsz.
  apply andb_true_iff in Hw as [Ha Hw]. apply (IH (do_call true false null timer_create_ok c p)); [|done|].
  - apply call_implements; [done..|lia].
  - pose proof (spec_size c s). lia.
Qed.

(** What a start does to a thread in any state. *)
Lemma start_effect tid iv h p :
  use_posix_timer p = true -> 0 < iv ->
  let p' := CBTF_Timer true false null timer_create_ok tid iv (Some h) p in
  use_posix_timer p' = true /\
  k_timers p' = <[k_next p := mkKtimer tid iv]> (k_timers p) /\ k_next p' = S (k_next p) /\
  k_action p' = (if num_threads p =? 0 then SignalHandler else k_action p) /\
  get_thread tid p' = mkThread (Some h) (Some (k_next p)) true.
Proof.
  intros Hp Hiv p'. unfold p', CBTF_Timer, cbtf_timer_impl.
  assert (enabling iv (Some h) = true) as -> by (unfold enabling; rewrite andb_true_r; lia).
  assert (exists sg i, CBTF_SetTimerSignal true false p =
    mkProcess (num_threads p) (original_sigprof_action p) sg true i (threads p) (k_action p)
      (k_timers p) (k_next p) (k_itimer p)) as (sg & i & ->).
  { unfold CBTF_SetTimerSignal. destruct p as [? ? ? ? [] ? ? ? ? ?]; simpl in *; subst; eauto. }
  cbn [andb]. set (q := set_thread tid _ _). assert (Hq : use_posix_timer q = true) by done.
  assert (Ht : exists ho o, get_thread tid q = mkThread ho o false).
  { unfold q. rewrite get_set_thread, decide_True by done. eauto. }
  destruct Ht as (ho & o & Ht). rewrite Hq, (enable_result tid iv h q ho o Hq Ht).
  cbn. split_and!; try done. unfold get_thread. cbn. by rewrite lookup_insert_eq.
Qed.
End posix.

(** A process before its first timer call. *)
Definition boot (addr : Z) : process := mkProcess 0 None 0 true false ∅ (Original addr) ∅ 0 0.

Lemma boot_implements addr : implements (Original addr) (boot addr) ∅.
Proof.
  constructor; try done.
Qed.

(** What an implementation state shows from outside. *)
Lemma implements_view addr p s :
  implements (Original addr) p s ->
  (forall tid, signalHandler tid p = snd <$> s !! tid) /\
  (forall tid period, (exists id, k_timers p !! id = Some (mkKtimer tid period)) <->
     exists h, s !! tid = Some (period, h)) /\
  (forall id id' t t', k_timers p !! id = Some t -> k_timers p !! id' = Some t' ->
     kt_owner t = kt_owner t' -> id = id') /\
  (s = ∅ -> k_action p = Original addr).
Proof.
  intros [_ _ Ha _ Hidle Hr Ho]. split_and!.
  - intros tid. unfold signalHandler. rewrite Ha. destruct (s !! tid) as [[iv h]|] eqn:Hs.
    + destruct (Hr _ _ _ Hs) as (id & -> & _). rewrite decide_False; [done|].
      intros Hz. apply map_size_empty_inv in Hz. rewrite Hz, lookup_empty in Hs. done.
    + rewrite (Hidle _ Hs). by case_decide.
  - intros tid period. split.
    + intros [id Hk]. destruct (Ho _ _ Hk) as (_ & [[iv h] Hs] & Hid). simpl in *.
      destruct (Hr _ _ _ Hs) as (id' & Hg & Hk'). rewrite Hg in Hid. simpl in Hid. exists h. congruence.
    + intros [h Hs]. destruct (Hr _ _ _ Hs) as (id & _ & Hk). eauto.
  - intros id id' t t' Hk Hk' Heq. destruct (Ho _ _ Hk) as (_ & _ & H1). destruct (Ho _ _ Hk') as (_ & _ & H2).
    rewrite Heq in H1. congruence.
  - intros Hs. rewrite Ha, Hs. done.
Qed.

(** C5: with POSIX timers that can be created and whose handles are not NULL, and any
    interleaving of fewer than 2^32 - 1 calls in which each thread alternates starting and
    stopping, beginning with a start, every thread's interrupts run the handler
    it last asked for, each running thread owns exactly one kernel timer with the
    interval it asked for and no other timer exists, and when no thread runs a
    timer the signal has its original action back. *)
Theorem timers_implement_spec (null : nat -> bool) (timer_create_ok : process -> bool) (addr : Z) (cs : list call) :
  (forall id, null id = false) -> (forall p, timer_create_ok p = true) -> well_behaved cs ∅ = true ->
  Z.of_nat (length cs) + 1 < 2 ^ 32 ->
  let p := do_calls true false null timer_create_ok cs (boot addr) in
  let s := spec_calls cs ∅ in
  (forall tid, signalHandler tid p = snd <$> s !! tid) /\
  (forall tid period, (exists id, k_timers p !! id = Some (mkKtimer tid period)) <->
     exists h, s !! tid = Some (period, h)) /\
  (forall id id' t t', k_timers p !! id = Some t -> k_timers p !! id' = Some t' ->
     kt_owner t = kt_owner t' -> id = id') /\
  (s = ∅ -> k_action p = Original addr).
Proof.
  intros Hnull Hc Hw Hlen p s.
  assert (Hi : implements (Original addr) p s).
  { apply calls_implement; [done|done|apply boot_implements|done|]. rewrite map_size_empty. lia. }
  by apply implements_view.
Qed.

(** A thread that stops a timer it never started wraps num_threads around to
    2^32 - 1, so the next start does not install the signal handler although it
    arms the timer: the first expiry is delivered to the program's own action. *)
Theorem timer_stop_without_start (null : nat -> bool) (timer_create_ok : process -> bool) (addr : Z) (tid tid' : nat) (iv h : Z) :
  (forall p, timer_create_ok p = true) -> 0 < iv ->
  let p1 := CBTF_Timer true false null timer_create_ok tid 0 None (boot addr) in
  let p2 := CBTF_Timer true false null timer_create_ok tid' iv (Some h) p1 in
  num_threads p1 = 2 ^ 32 - 1 /\ k_action p2 = Original addr /\
  (exists id, k_timers p2 !! id = Some (mkKtimer tid' iv)) /\ signalHandler tid' p2 = None.
Proof.
  intros Hc Hiv p1 p2.
  destruct (start_effect null timer_create_ok Hc tid' iv h p1 eq_refl Hiv) as (_ & Hk & _ & Ha & _).
  assert (Hn : num_threads p1 = 2 ^ 32 - 1) by reflexivity.
  assert (Ha1 : k_action p1 = Original addr) by reflexivity.
  rewrite Hn in Ha. change (2 ^ 32 - 1 =? 0) with false in Ha. cbv iota in Ha. rewrite Ha1 in Ha.
  split_and!; [done..| |].
  - exists (k_next p1). unfold p2. by rewrite Hk, lookup_insert_eq.
  - unfold signalHandler, p2. by rewrite Ha.
Qed.

(** The documentation of CBTF_Timer says that a previously configured timer
    is first removed; with POSIX timers a second start by the same thread leaves
    the first timer armed beside the new one. *)
Theorem timer_restart_keeps_old_timer (null : nat -> bool) (timer_create_ok : process -> bool) (tid : nat) (iv1 iv2 h1 h2 : Z)
    (p : process) :
  (forall p, timer_create_ok p = true) -> use_posix_timer p = true -> 0 < iv1 -> 0 < iv2 ->
  let p1 := CBTF_Timer true false null timer_create_ok tid iv1 (Some h1) p in
  let p2 := CBTF_Timer true false null timer_create_ok tid iv2 (Some h2) p1 in
  exists id1 id2, id1 <> id2 /\ k_timers p2 !! id1 = Some (mkKtimer tid iv1) /\
    k_timers p2 !! id2 = Some (mkKtimer tid iv2).
Proof.
  intros Hc Hp H1 H2 p1 p2.
  destruct (start_effect null timer_create_ok Hc tid iv1 h1 p Hp H1) as (Hp1 & Hk1 & Hn1 & _).
  destruct (start_effect null timer_create_ok Hc tid iv2 h2 p1 Hp1 H2) as (_ & Hk2 & _).
  fold p1 in Hk1, Hn1. fold p2 in Hk2. exists (k_next p), (k_next p1). rewrite Hk2, Hn1.
  split_and!; [lia| |by rewrite lookup_insert_eq].
  rewrite lookup_insert_ne by lia. by rewrite Hk1, lookup_insert_eq.
Qed.

(** The first kernel timer may have a timer_t that is NULL. A thread that stops it then
    leaves it running, with the program's own action for its signal. *)
Example null_timer_stays :
  let p := do_calls true false (fun id => Nat.eqb id 0) (fun _ => true) [Start 0 1000 7; Stop 0] (boot 42) in
  k_timers p !! 0%nat = Some (mkKtimer 0 1000) /\ k_action p = Original 42.
Proof. by vm_compute. Qed.

(** Two threads run timers at once; the first stops its own. *)
Lemma timers_implement_spec_witness :
  let p := do_calls true false (fun _ => false) (fun _ => true) [Start 0 1000 7; Start 1 2000 8; Stop 0] (boot 42) in
  signalHandler 0 p = None /\ signalHandler 1 p = Some 8 /\ exists id, k_timers p !! id = Some (mkKtimer 1 2000).
Proof.
  destruct (timers_implement_spec (fun _ => false) (fun _ => true) 42 [Start 0 1000 7; Start 1 2000 8; Stop 0])
    as (Hh & Ht & _ & _); [done|done|by vm_compute|by vm_compute|].
  split; [rewrite Hh; by vm_compute|]. split; [rewrite Hh; by vm_compute|].
  apply Ht. exists 8. by vm_compute.
Defined.

Lemma timer_stop_without_start_witness :
  let p1 := CBTF_Timer true false (fun _ => false) (fun _ => true) 0 0 None (boot 42) in
  let p2 := CBTF_Timer true false (fun _ => false) (fun _ => true) 1 1000 (Some 7) p1 in
  num_threads p1 = 4294967295 /\ k_action p2 = Original 42.
Proof.
  destruct (timer_stop_without_start (fun _ => false) (fun _ => true) 42 0 1 1000 7) as (H1 & H2 & _); [done|done|].
  split; [exact H1|exact H2].
Defined.

Lemma timer_restart_witness :
  let p1 := CBTF_Timer true false (fun _ => false) (fun _ => true) 0 1000 (Some 7) (boot 42) in
  let p2 := CBTF_Timer true false (fun _ => false) (fun _ => true) 0 2000 (Some 7) p1 in
  exists id1 id2, id1 <> id2 /\ k_timers p2 !! id1 = Some (mkKtimer 0 1000) /\
    k_timers p2 !! id2 = Some (mkKtimer 0 2000).
Proof. by apply (timer_restart_keeps_old_timer (fun _ => false) (fun _ => true) 0 1000 2000 7 7 (boot 42)). Defined.
