(* ===== verification/DLInfo.v ===== *)
(** The address map of a process: CBTF_GetDLInfo of
    services/src/offline/GetDLInfo.c, which reads /proc/<pid>/maps line by line and
    records the executable mappings of files. C strings are lists of characters
    without the terminating NUL. *)
From S2P Require Import Prelude.

Notation cstr := (list Ascii.ascii).
Definition str (s : string) : cstr := String.list_ascii_of_string s.
Definition chr (n : nat) : Ascii.ascii := Ascii.ascii_of_nat n.
Definition SP : Ascii.ascii := chr 32.
Definition DASH : Ascii.ascii := chr 45.
Definition SLASH : Ascii.ascii := chr 47.
Definition NL : Ascii.ascii := chr 10.
Definition LOWER_X : Ascii.ascii := chr 120.

(** strchr(s, c): the suffix from the first [c] on. *)
Fixpoint strchr (c : Ascii.ascii) (s : cstr) : option cstr :=
  match s with
  | [] => None
  | x :: s' => if bool_decide (x = c) then Some s else strchr c s'
  end.

(** What is before the first [c] once it was overwritten by NUL. *)
Fixpoint upto (c : Ascii.ascii) (s : cstr) : cstr :=
  match s with
  | [] => []
  | x :: s' => if bool_decide (x = c) then [] else x :: upto c s'
  end.

(** strrchr(s, c): what follows the last [c]. *)
Fixpoint after_last (c : Ascii.ascii) (s : cstr) : option cstr :=
  match s with
  | [] => None
  | x :: s' =>
      match after_last c s' with
      | Some r => Some r
      | None => if bool_decide (x = c) then Some s' else None
      end
  end.

Definition hex_digit (c : Ascii.ascii) : option Z :=
  let n := Z.of_nat (Ascii.nat_of_ascii c) in
  if (48 <=? n) && (n <=? 57) then Some (n - 48)
  else if (97 <=? n) && (n <=? 102) then Some (n - 87)
  else if (65 <=? n) && (n <=? 70) then Some (n - 55)
  else None.

(** strtoull(s, NULL, 16) on a string that starts with a digit: the digits up to
    the first other character, saturating at ULLONG_MAX. *)
Fixpoint strtoull_from (acc : Z) (s : cstr) : Z :=
  match s with
  | [] => acc
  | c :: s' =>
      match hex_digit c with
      | Some d => strtoull_from (Z.min UINT64_MAX (acc * 16 + d)) s'
      | None => acc
      end
  end.
Definition strtoull (s : cstr) : Z := strtoull_from 0 s.

Definition is_space (c : Ascii.ascii) : bool :=
  let n := Ascii.nat_of_ascii c in Nat.eqb n 32 || ((9 <=? n) && (n <=? 13))%nat.
Fixpoint skip_space (s : cstr) : cstr :=
  match s with [] => [] | c :: s' => if is_space c then skip_space s' else s end.
Fixpoint word (s : cstr) : cstr :=
  match s with [] => [] | c :: s' => if is_space c then [] else c :: word s' end.
(** sscanf(s, "%s", mappedpath); without a word the buffer keeps its old,
    possibly uninitialised, contents. *)
Definition sscanf_s (s : cstr) : outcome cstr :=
  match word (skip_space s) with [] => Fault | w => Ok w end.

(** One line of the maps file: [None] when it is skipped. *)
Definition parse_maps_line (buf : cstr) : outcome (option (Z * Z * cstr)) :=
  match strchr SP buf with
  | None => Fault                              (* *(NULL + 3) *)
  | Some permstring =>
      perm ← match permstring !! 3%nat with
             | Some c => Ok c
             | None => if Nat.eqb (length permstring) 3 then Ok (chr 0) else Fault
             end;
      if bool_decide (perm = LOWER_X) && (match strchr SLASH buf with Some _ => true | None => false end) then
        match strchr DASH buf, after_last SP buf with
        | Some (_ :: end_addr), Some mpath =>
            path ← sscanf_s mpath;
            Ok (Some (strtoull (upto DASH buf), strtoull end_addr, path))
        | _, _ => Fault
        end
      else Ok None
  end.

(** basename() of string.h: what follows the last slash. *)
Definition basename (path : cstr) : cstr := default path (after_last SLASH path).

(** strncmp(a, b, strlen(a)) == 0 *)
Definition starts_with (a b : cstr) : bool := bool_decide (a `prefix_of` b).

(** What is to be recorded: everything loaded, or one dlopened object. *)
Inductive dl_record :=
| RecordDso (path : cstr) (begin_ end_ : Z)
| RecordDlopen (path : cstr) (begin_ end_ b_time e_time : Z).

(** The loop over the lines of the file. *)
Fixpoint CBTF_GetDLInfo (maps : list cstr) (path : option cstr) (b_time e_time : Z)
  : outcome (list dl_record) :=
  match maps with
  | [] => Ok []
  | buf :: maps' =>
      r ← parse_maps_line buf;
      match r with
      | None => CBTF_GetDLInfo maps' path b_time e_time
      | Some (b, e, mappedpath) =>
          match path with
          | Some p =>
              if starts_with (basename p) (basename mappedpath)
              then Ok [RecordDlopen mappedpath b e b_time e_time]
              else CBTF_GetDLInfo maps' path b_time e_time
          | None =>
              rs ← CBTF_GetDLInfo maps' path b_time e_time;
              Ok (RecordDso mappedpath b e :: rs)
          end
      end
  end.

(** ** The format the kernel prints *)
Definition digit_char (d : Z) : Ascii.ascii :=
  chr (Z.to_nat (if d <? 10 then 48 + d else 87 + d)).
(** [n] in lower case hexadecimal, with [w] digits. *)
Fixpoint hex (w : nat) (n : Z) : cstr :=
  match w with
  | O => []
  | S w' => hex w' (n / 16) ++ [digit_char (n mod 16)]
  end.

(** A mapping: begin, end, permissions, the fields offset, device and inode with
    the padding, and the path. *)
Record mapping := mkMapping {
  mp_begin : Z; mp_end : Z; mp_read : Ascii.ascii; mp_write : Ascii.ascii;
  mp_exec : bool; mp_share : Ascii.ascii; mp_middle : cstr; mp_path : cstr
}.
Definition print_mapping (w : nat) (m : mapping) : cstr :=
  hex w (mp_begin m) ++ DASH :: hex w (mp_end m) ++ SP ::
  mp_read m :: mp_write m :: (if mp_exec m then LOWER_X else DASH) :: mp_share m ::
  SP :: mp_middle m ++ SP :: mp_path m ++ [NL].

Lemma strchr_app c l1 l2 : c ∉ l1 -> strchr c (l1 ++ c :: l2) = Some (c :: l2).
Proof.
  induction l1 as [|x l1 IH]; intros Hc; simpl; [by rewrite bool_decide_true|].
  rewrite bool_decide_false by set_solver. apply IH. set_solver.
Qed.

Lemma strchr_in c l : c ∈ l -> is_Some (strchr c l).
Proof.
  induction l as [|x l IH]; intros Hc; [set_solver|]. simpl.
  case_bool_decide; [eauto|]. apply IH. set_solver.
Qed.

Lemma upto_app c l1 l2 : c ∉ l1 -> upto c (l1 ++ c :: l2) = l1.
Proof.
  induction l1 as [|x l1 IH]; intros Hc; simpl; [by rewrite bool_decide_true|].
  rewrite bool_decide_false by set_solver. rewrite IH by set_solver. done.
Qed.

Lemma after_last_None c l : c ∉ l -> after_last c l = None.
Proof.
  induction l as [|x l IH]; intros Hc; [done|]. simpl. rewrite IH by set_solver.
  by rewrite bool_decide_false by set_solver.
Qed.

Lemma after_last_app c l1 l2 : c ∉ l2 -> after_last c (l1 ++ c :: l2) = Some l2.
Proof.
  intros Hc. induction l1 as [|x l1 IH]; simpl; [|by rewrite IH].
  rewrite after_last_None by done. by rewrite bool_decide_true.
Qed.

(** The hexadecimal digits are read back. *)
Lemma hex_digit_char d : 0 <= d < 16 -> hex_digit (digit_char d) = Some d.
Proof.
  intros Hd. assert (d = 0 \/ d = 1 \/ d = 2 \/ d = 3 \/ d = 4 \/ d = 5 \/ d = 6 \/ d = 7 \/ d = 8 \/
    d = 9 \/ d = 10 \/ d = 11 \/ d = 12 \/ d = 13 \/ d = 14 \/ d = 15) as Hc by lia.
  by repeat destruct Hc as [->|Hc]; [..|subst].
Qed.

Lemma hex_digits w n : Forall (fun c => is_Some (hex_digit c)) (hex w n).
Proof.
  revert n. induction w as [|w IH]; intros n; simpl; [constructor|].
  apply Forall_app_2; [apply IH|]. apply Forall_singleton. rewrite hex_digit_char; [eauto|].
  apply Z.mod_pos_bound. lia.
Qed.

Lemma not_in_hex c w n : hex_digit c = None -> c ∉ hex w n.
Proof.
  intros Hc Hin. pose proof (hex_digits w n) as Hf. rewrite Forall_forall in Hf.
  destruct (Hf _ Hin). congruence.
Qed.

Lemma strtoull_hex w : forall acc n rest,
  0 <= acc -> 0 <= n < 16 ^ Z.of_nat w -> acc * 16 ^ Z.of_nat w + n <= UINT64_MAX ->
  strtoull_from acc (hex w n ++ rest) = strtoull_from (acc * 16 ^ Z.of_nat w + n) rest.
Proof.
  induction w as [|w IH]; intros acc n rest Hacc Hn Hle.
  { simpl in *. f_equal. lia. }
  simpl hex. rewrite <- app_assoc. simpl.
  assert (Hpow : 16 ^ Z.of_nat (S w) = 16 * 16 ^ Z.of_nat w) by (rewrite Nat2Z.inj_succ, Z.pow_succ_r; lia).
  rewrite Hpow in *. pose proof (Z.div_mod n 16 ltac:(lia)) as Hdm.
  pose proof (Z.mod_pos_bound n 16 ltac:(lia)) as Hmb.
  assert (Hq : 0 <= n / 16 < 16 ^ Z.of_nat w).
  { split; [apply Z.div_pos; lia|apply Z.div_lt_upper_bound; lia]. }
  rewrite IH by nia. simpl. rewrite hex_digit_char by done. f_equal.
  rewrite Z.min_r by nia. nia.
Qed.

Lemma strtoull_print w n : 0 <= n < 16 ^ Z.of_nat w -> n <= UINT64_MAX ->
  forall rest, match rest with [] => True | c :: _ => hex_digit c = None end ->
  strtoull (hex w n ++ rest) = n.
Proof.
  intros Hn Hle rest Hr. unfold strtoull. rewrite strtoull_hex by lia.
  destruct rest as [|c rest]; simpl; [|rewrite Hr]; lia.
Qed.

Lemma word_path p c rest :
  p <> [] -> Forall (fun x => is_space x = false) p -> is_space c = true ->
  sscanf_s (p ++ c :: rest) = Ok p.
Proof.
  intros Hne Hp Hc. unfold sscanf_s.
  assert (skip_space (p ++ c :: rest) = p ++ c :: rest) as ->.
  { destruct Hp as [|x p Hx]; [done|]. simpl. by rewrite Hx. }
  assert (Hw : word (p ++ c :: rest) = p).
  { clear Hne. induction Hp as [|x p Hx _ IH]; simpl; [by rewrite Hc|]. by rewrite Hx, IH. }
  rewrite Hw. by destruct p.
Qed.

(** C38: the line of the maps file for a mapping of a file whose path has no white space, with
    addresses of up to sixteen digits: of an executable mapping the exact address range and
    path are read back, and any other one is skipped. A path with white space is cut
    (maps_line_last_word). *)
Theorem maps_line_roundtrip (w : nat) (m : mapping) :
  (1 <= w <= 16)%nat -> 0 <= mp_begin m < 16 ^ Z.of_nat w -> 0 <= mp_end m < 16 ^ Z.of_nat w ->
  SLASH ∈ mp_path m -> Forall (fun x => is_space x = false) (mp_path m) ->
  parse_maps_line (print_mapping w m) =
    Ok (if mp_exec m then Some (mp_begin m, mp_end m, mp_path m) else None).
Proof.
  intros Hw Hb He Hsl Hsp. destruct m as [b e r wr x sh mid p]. simpl in *.
  assert (Hmax : 16 ^ Z.of_nat w <= 2 ^ 64).
  { change (2 ^ 64) with (16 ^ 16). apply Z.pow_le_mono_r; lia. }
  unfold print_mapping. cbn [mp_begin mp_end mp_read mp_write mp_exec mp_share mp_middle mp_path].
  set (tl_ := r :: wr :: (if x then LOWER_X else DASH) :: sh :: SP :: mid ++ SP :: p ++ [NL]).
  set (L := hex w b ++ DASH :: hex w e ++ SP :: tl_).
  assert (HSP : strchr SP L = Some (SP :: tl_)).
  { unfold L. rewrite app_comm_cons, app_assoc. apply strchr_app. rewrite elem_of_app, elem_of_cons.
    intros [Hin|[Heq|Hin]]; [by apply not_in_hex in Hin|done|by apply not_in_hex in Hin]. }
  assert (HD : strchr DASH L = Some (DASH :: hex w e ++ SP :: tl_)).
  { apply strchr_app. by apply not_in_hex. }
  assert (HU : upto DASH L = hex w b) by (apply upto_app; by apply not_in_hex).
  assert (HS : is_Some (strchr SLASH L)).
  { apply strchr_in. unfold L, tl_. rewrite !elem_of_app, !elem_of_cons, !elem_of_app, !elem_of_cons.
    rewrite !elem_of_app, !elem_of_cons, !elem_of_app. auto 20. }
  assert (HP : after_last SP L = Some (p ++ [NL])).
  { assert (L = (hex w b ++ DASH :: hex w e ++ SP :: r :: wr :: (if x then LOWER_X else DASH) :: sh ::
      SP :: mid) ++ SP :: p ++ [NL]) as ->.
    { unfold L, tl_. rewrite <- app_assoc. simpl. do 2 f_equal. by rewrite <- app_assoc. }
    apply after_last_app. rewrite elem_of_app, list_elem_of_singleton.
    intros [Hin|Hin]; [|done]. rewrite Forall_forall in Hsp. by specialize (Hsp _ Hin). }
  unfold parse_maps_line. rewrite HSP, HD, HU, HP. clearbody L.
  destruct HS as [sl ->]. cbn [lookup list_lookup tl_]. rewrite bind_of_Ok.
  destruct x.
  - rewrite bool_decide_true by done. cbn [andb]. rewrite word_path, bind_of_Ok; [|intros ->; set_solver|done..].
    rewrite <- (app_nil_r (hex w b)).
    rewrite !strtoull_print; try done; unfold UINT64_MAX; lia.
  - by rewrite bool_decide_false.
Qed.

(** The path is taken to be what follows the last space of the line, so a
    mapping of a file whose path contains one is recorded under the last word of
    it; the kernel's mark for an unlinked file gives the path (deleted). *)
Theorem maps_line_last_word :
  let line path := print_mapping 8 (mkMapping 4096 8192 (chr 114) DASH true (chr 112)
                     (str "00000000 08:01 42") (str path)) in
  parse_maps_line (line "/opt/my libs/libm.so") = Ok (Some (4096, 8192, str "libs/libm.so")) /\
  parse_maps_line (line "/tmp/libm.so (deleted)") = Ok (Some (4096, 8192, str "(deleted)")).
Proof. by vm_compute. Qed.

Lemma maps_line_roundtrip_witness :
  parse_maps_line (print_mapping 12 (mkMapping 139637976727552 139637978525696 (chr 114) DASH true (chr 112)
    (str "00028000 08:01 42") (str "/lib/libc.so.6"))) =
    Ok (Some (139637976727552, 139637978525696, str "/lib/libc.so.6")).
Proof.
  rewrite (maps_line_roundtrip 12 (mkMapping 139637976727552 139637978525696 (chr 114) DASH true (chr 112)
    (str "00028000 08:01 42") (str "/lib/libc.so.6"))); [reflexivity|lia|by vm_compute..| |].
  - by apply elem_of_cons; left.
  - by repeat constructor.
Defined.
