(* ===== verification/CollectorService.v ===== *)
(** The collector service: services/collector/collector.c and
    services/collector/monitor.c, the layer between the libmonitor callbacks
    (Monitor.v) and the linked-in collector. A thread owns the thread-local
    storage of both files; the process-wide variables, the clock and the log of
    what was asked of the collector and of the network are shared. *)
From S2P Require Import Prelude Headers DLInfo.

Inductive CBTF_Monitor_Status := Started | Finished | Paused | Resumed | Not_Started.
Inductive CBTF_Monitor_Event_Type :=
| MPI_pre_init_event | MPI_init_event | MPI_post_fini_event | MPI_fini_event
| MPI_post_comm_rank_event | pre_dlopen_event | dlopen_event | dlclose_event
| post_dlclose_event | init_process_event | fini_process_event | init_thread_event
| fini_thread_event | pre_fork_event | post_fork_event | thread_pre_create_event
| thread_post_create_event | mpi_pcontrol_event | Default_event.
#[export] Instance status_eq : EqDecision CBTF_Monitor_Status.
Proof. solve_decision. Defined.

(** The three ways services/collector is built. *)
Inductive build_mode := FILEIO | MRNET | MRNET_MPI.
Definition use_mrnet (m : build_mode) : bool := match m with FILEIO => false | _ => true end.

(** CBTF_Protocol_ThreadName, and a linked object of either protocol. A field the
    code leaves uninitialised is [None]. *)
Record thread_name := mkThreadName {
  tn_experiment : Z; tn_host : string; tn_pid : Z; tn_posix_tid : Z; tn_rank : Z; tn_omp_tid : Z
}.
Record linked_object := mkLinkedObject {
  lo_name : string;
  lo_begin : Z;
  lo_end : Z;
  lo_time_begin : Z;
  lo_time_end : Z;
  lo_is_executable : option bool;
  lo_is_open : option bool       (* only the file build has the member *)
}.

(** What the service asks of others. *)
Inductive action :=
| CollectorStart (h : CBTF_DataHeader)
| CollectorStop
| CollectorPause
| CollectorResume
| SetSendToFile (h : CBTF_DataHeader)
| DataSend (h : CBTF_DataHeader)                 (* CBTF_Data_Send / CBTF_MRNet_Send_PerfData *)
| SendAttached (threads : list thread_name)
| SendStateChanged (threads : list thread_name)
| SendDsos (h : CBTF_EventHeader) (objs : list linked_object)
| MRNetConnect (rank : Z)
| WaitShutdown.

(** Process-wide state. *)
Record shared := mkShared {
  mpi_init_done : bool;
  mon_connected : bool;     (* connected_to_mrnet of monitor.c *)
  connected : bool;         (* connected_to_mrnet of collector.c *)
  NumThreads : Z;
  mpi_rank : Z;             (* monitor_mpi_comm_rank() *)
  clock : nat -> Z;
  tick : nat;
  log : list (nat * action)
}.

(** Thread-local storage: of monitor.c (m_) and of collector.c (c_). *)
Record thread := mkThread {
  m_started : bool;
  m_finished : bool;
  m_sent_data : Z;
  c_header : CBTF_DataHeader;
  c_dso_header : CBTF_EventHeader;
  c_status : CBTF_Monitor_Status;
  c_time_started : Z;
  c_dsoname_len : Z;
  c_objs : list linked_object;     (* buffer.objs[0 .. linkedobjects_len-1] *)
  c_ompt_finished : bool;
  c_has_ompt : bool;
  c_tname : thread_name;
  c_tgrp : list thread_name;
  c_sent_attached : bool
}.

Notation St := (shared * thread)%type.

Definition CBTF_MAXLINKEDOBJECTS : Z := 512.

(** ** Field updates *)
Definition set_mpi_init_done b (g : shared) := mkShared b (mon_connected g) (connected g) (NumThreads g) (mpi_rank g) (clock g) (tick g) (log g).
Definition set_mon_connected b (g : shared) := mkShared (mpi_init_done g) b (connected g) (NumThreads g) (mpi_rank g) (clock g) (tick g) (log g).
Definition set_connected b (g : shared) := mkShared (mpi_init_done g) (mon_connected g) b (NumThreads g) (mpi_rank g) (clock g) (tick g) (log g).
Definition set_NumThreads n (g : shared) := mkShared (mpi_init_done g) (mon_connected g) (connected g) n (mpi_rank g) (clock g) (tick g) (log g).
Definition next_tick (g : shared) := mkShared (mpi_init_done g) (mon_connected g) (connected g) (NumThreads g) (mpi_rank g) (clock g) (S (tick g)) (log g).
Definition emit (tid : nat) (a : action) (g : shared) := mkShared (mpi_init_done g) (mon_connected g) (connected g) (NumThreads g) (mpi_rank g) (clock g) (tick g) (log g ++ [(tid, a)]).

Definition set_m (st fin : bool) (sd : Z) (t : thread) := mkThread st fin sd (c_header t) (c_dso_header t) (c_status t) (c_time_started t) (c_dsoname_len t) (c_objs t) (c_ompt_finished t) (c_has_ompt t) (c_tname t) (c_tgrp t) (c_sent_attached t).
Definition set_header h (t : thread) := mkThread (m_started t) (m_finished t) (m_sent_data t) h (c_dso_header t) (c_status t) (c_time_started t) (c_dsoname_len t) (c_objs t) (c_ompt_finished t) (c_has_ompt t) (c_tname t) (c_tgrp t) (c_sent_attached t).
Definition set_dso_header h (t : thread) := mkThread (m_started t) (m_finished t) (m_sent_data t) (c_header t) h (c_status t) (c_time_started t) (c_dsoname_len t) (c_objs t) (c_ompt_finished t) (c_has_ompt t) (c_tname t) (c_tgrp t) (c_sent_attached t).
Definition set_status s (t : thread) := mkThread (m_started t) (m_finished t) (m_sent_data t) (c_header t) (c_dso_header t) s (c_time_started t) (c_dsoname_len t) (c_objs t) (c_ompt_finished t) (c_has_ompt t) (c_tname t) (c_tgrp t) (c_sent_attached t).
Definition set_time_started z (t : thread) := mkThread (m_started t) (m_finished t) (m_sent_data t) (c_header t) (c_dso_header t) (c_status t) z (c_dsoname_len t) (c_objs t) (c_ompt_finished t) (c_has_ompt t) (c_tname t) (c_tgrp t) (c_sent_attached t).
Definition set_objs l n (t : thread) := mkThread (m_started t) (m_finished t) (m_sent_data t) (c_header t) (c_dso_header t) (c_status t) (c_time_started t) n l (c_ompt_finished t) (c_has_ompt t) (c_tname t) (c_tgrp t) (c_sent_attached t).
Definition set_ompt has fin (t : thread) := mkThread (m_started t) (m_finished t) (m_sent_data t) (c_header t) (c_dso_header t) (c_status t) (c_time_started t) (c_dsoname_len t) (c_objs t) fin has (c_tname t) (c_tgrp t) (c_sent_attached t).
Definition set_names n g (t : thread) := mkThread (m_started t) (m_finished t) (m_sent_data t) (c_header t) (c_dso_header t) (c_status t) (c_time_started t) (c_dsoname_len t) (c_objs t) (c_ompt_finished t) (c_has_ompt t) n g (c_sent_attached t).
Definition set_sent_attached b (t : thread) := mkThread (m_started t) (m_finished t) (m_sent_data t) (c_header t) (c_dso_header t) (c_status t) (c_time_started t) (c_dsoname_len t) (c_objs t) (c_ompt_finished t) (c_has_ompt t) (c_tname t) (c_tgrp t) b.

Section service.
(** [who] is what the system says of the thread, [offline] whether the header
    functions are built with CBTF_OFFLINE_SERVICE, [sizeof_obj] is
    sizeof(objects), of a structure rpcgen generates, [maps] the lines of
    /proc/<pid>/maps, [exe] CBTF_GetExecutablePath(), and [unique_id] the
    collector's name. *)
Context (mode : build_mode) (offline : bool) (who : identity) (tid : nat).
Context (sizeof_obj : Z) (maps : list cstr) (exe unique_id : string).

(** monitor_get_thread_num() *)
Definition thread_num : Z := Z.of_nat tid.

Definition CBTF_GetTime (g : shared) : Z * shared := (u64 (clock g (tick g)), next_tick g).

(** ** services/collector/monitor.c, the shared flags *)
Definition cbtf_connected_to_mrnet (g : shared) : bool :=
  if use_mrnet mode then mon_connected g else true.
Definition cbtf_mpi_init_done (g : shared) : bool := mpi_init_done g.
Definition cbtf_set_connected_to_mrnet (flag : bool) (s : St) : St := (set_mon_connected flag s.1, s.2).

(** ** services/collector/collector.c *)
Definition cbtf_offline_service_sampling_control (current : CBTF_Monitor_Status) (s : St) : St :=
  let (g, t) := s in
  let g1 :=
    if bool_decide (current = Resumed) && negb (bool_decide (c_status t = Resumed))
    then emit tid CollectorResume g
    else if bool_decide (current = Paused) && negb (bool_decide (c_status t = Paused))
    then emit tid CollectorPause g
    else g in
  (g1, set_status current t).

Definition init_process_thread (s : St) : St :=
  if use_mrnet mode then
    let (g, t) := s in
    let n := c_tname t in
    let n' := mkThreadName (tn_experiment n) (tn_host n) (tn_pid n) (tn_posix_tid n) (mpi_rank g) thread_num in
    (g, set_names n' [n'] (set_header (with_omp_tid (with_rank (c_header t) (mpi_rank g)) thread_num) t))
  else s.

Definition send_attached_to_threads_message (s : St) : St :=
  if use_mrnet mode && connected s.1 && negb (c_sent_attached s.2) then
    let s1 := init_process_thread s in
    let s2 := cbtf_offline_service_sampling_control Paused s1 in
    let s3 := (emit tid (SendAttached (c_tgrp s2.2)) s2.1, set_sent_attached true s2.2) in
    cbtf_offline_service_sampling_control Resumed s3
  else s.

Definition cbtf_reset_header_begin_time (s : St) : St :=
  let (time, g) := CBTF_GetTime s.1 in
  (g, set_header (with_times (c_header s.2) time (dh_time_end (c_header s.2))) s.2).

Definition connect_to_mrnet (s : St) : bool * St :=
  if use_mrnet mode then
    if connected s.1 then (true, s)
    else
      let g1 := emit tid (MRNetConnect (mpi_rank s.1)) s.1 in
      let t1 := set_header (with_omp_tid (with_rank (c_header s.2) (mpi_rank g1)) thread_num) s.2 in
      (true, cbtf_reset_header_begin_time (set_connected true g1, t1))
  else (true, s).

Definition cbtf_collector_set_openmp_threadid (omptid : Z) (s : St) : St :=
  let (g, t) := s in
  let n := c_tname t in
  let t1 := if use_mrnet mode
            then set_names (mkThreadName (tn_experiment n) (tn_host n) (tn_pid n) (tn_posix_tid n)
                              (tn_rank n) omptid) (c_tgrp t) t
            else t in
  (g, set_ompt true false (set_header (with_omp_tid (c_header t1) omptid) t1)).

Definition cbtf_collector_get_openmp_threadid (s : St) : Z :=
  if dh_omp_tid (c_header s.2) >=? 0 then dh_omp_tid (c_header s.2) else -1.
Definition set_ompt_flag (flag : bool) (s : St) : St := (s.1, set_ompt flag (c_ompt_finished s.2) s.2).
Definition get_ompt_flag (s : St) : bool := c_has_ompt s.2.
Definition set_ompt_thread_finished (flag : bool) (s : St) : St := (s.1, set_ompt (c_has_ompt s.2) flag s.2).

Definition send_thread_state_changed_message (s : St) : St :=
  if use_mrnet mode && connected s.1 then (emit tid (SendStateChanged (c_tgrp s.2)) s.1, s.2) else s.

(** cbtf_offline_sent_data() of monitor.c *)
Definition cbtf_offline_sent_data (sent : Z) (s : St) : St :=
  (s.1, set_m (m_started s.2) (m_finished s.2) sent s.2).

Definition cbtf_collector_send (header : CBTF_DataHeader) (s : St) : St :=
  let s1 :=
    if use_mrnet mode then
      if connected s.1 then
        let s' := if negb (c_sent_attached s.2) then
                    let s'' := send_attached_to_threads_message s in
                    (s''.1, set_sent_attached true s''.2)
                  else s in
        (emit tid (DataSend header) s'.1, s'.2)
      else s
    else (emit tid (DataSend header) s.1, s.2) in
  cbtf_offline_sent_data 1 s1.

(** ** Linked objects *)
Definition cbtf_offline_send_dsos (s : St) : St :=
  let (g, t) := s in
  let g1 := if use_mrnet mode then
              if connected g then emit tid (SendDsos (c_dso_header t) (c_objs t)) g else g
            else emit tid (SendDsos (c_dso_header t) (c_objs t)) g in
  (g1, set_objs [] 0 t).

(** The thread's name and one-element group, for the loaded-object message. *)
Definition name_thread (h : CBTF_EventHeader) (s : St) : St :=
  if use_mrnet mode then
    let n := mkThreadName 0 (eh_host h) (eh_pid h) (eh_posix_tid h) (mpi_rank s.1) thread_num in
    (s.1, set_names n [n] s.2)
  else s.

(** The event header of a linked-object record, stored in dso_header. *)
Definition start_dso_record (s : St) : outcome St :=
  h ← CBTF_InitializeEventHeader offline who;
  let h1 := mkEventHeader (eh_host h) (eh_pid h) (eh_posix_tid h) (mpi_rank s.1) thread_num
              (eh_has_posix_tid h) in
  Ok (s.1, set_dso_header h1 s.2).

(** Storing the object, after sending the buffer if it would not fit. *)
Definition store_object (o : linked_object) (s : St) : outcome St :=
  let dsoname_len := Z.of_nat (String.length (lo_name o)) in
  let newsize := Z.of_nat (length (c_objs s.2)) * sizeof_obj + (c_dsoname_len s.2 + dsoname_len) in
  let (g, t) := if newsize >? CBTF_MAXLINKEDOBJECTS * sizeof_obj then cbtf_offline_send_dsos s else s in
  if Z.of_nat (length (c_objs t)) <? CBTF_MAXLINKEDOBJECTS
  then Ok (g, set_objs (c_objs t ++ [o]) (c_dsoname_len t + dsoname_len) t)
  else Fault.

Definition cbtf_offline_record_dso (dsoname : string) (begin_ end_ : Z) (is_dlopen : bool) (s : St)
  : outcome St :=
  s1 ← start_dso_record s;
  let (time_begin, g1) := if is_dlopen then CBTF_GetTime s1.1 else (c_time_started s1.2, s1.1) in
  let (time_end, g2) := if is_dlopen then (UINT64_MAX, g1) else CBTF_GetTime g1 in
  let o := mkLinkedObject dsoname begin_ end_ time_begin time_end (Some (String.eqb exe dsoname))
             (if use_mrnet mode then None else Some is_dlopen) in
  store_object o (name_thread (c_dso_header s1.2) (g2, s1.2)).

Definition cbtf_offline_record_dlopen (dsoname : string) (begin_ end_ b_time e_time : Z) (s : St)
  : outcome St :=
  s1 ← start_dso_record s;
  let o := mkLinkedObject dsoname begin_ end_ b_time e_time
             (if use_mrnet mode then Some (String.eqb exe dsoname) else None)
             (if use_mrnet mode then None else Some true) in
  store_object o (name_thread (c_dso_header s1.2) s1).

(** CBTF_GetDLInfo(getpid(), path, b_time, e_time) with its recording calls. *)
Definition record_dl (r : dl_record) (s : St) : outcome St :=
  match r with
  | RecordDso p b e => cbtf_offline_record_dso (String.string_of_list_ascii p) b e false s
  | RecordDlopen p b e bt et => cbtf_offline_record_dlopen (String.string_of_list_ascii p) b e bt et s
  end.
Fixpoint record_dls (rs : list dl_record) (s : St) : outcome St :=
  match rs with
  | [] => Ok s
  | r :: rs' => s' ← record_dl r s; record_dls rs' s'
  end.
Definition get_dl_info (path : option cstr) (b_time e_time : Z) (s : St) : outcome St :=
  rs ← CBTF_GetDLInfo maps path b_time e_time; record_dls rs s.

Definition cbtf_record_dsos (s : St) : outcome St :=
  if String.eqb unique_id "overview" then Ok s else
    _ ← CBTF_InitializeEventHeader offline who;
    s1 ← get_dl_info None 0 0 s;
    Ok (if (0 <? length (c_objs s1.2))%nat then cbtf_offline_send_dsos s1 else s1).

(** cbtf_offline_finish() of monitor.c *)
Definition cbtf_offline_finish (s : St) : outcome St :=
  if m_started s.2 then cbtf_record_dsos s else Ok s.

(** ** Start and stop *)
Definition cbtf_timer_service_start_sampling (s : St) : outcome St :=
  let (time, g1) := CBTF_GetTime s.1 in
  let t1 := set_time_started time (set_status Not_Started s.2) in
  h ← CBTF_InitializeDataHeader offline who 0 1;
  let t2 := set_objs [] 0 (set_header (with_id h unique_id) t1) in
  let s3 :=
    if use_mrnet mode then
      let g2 := set_NumThreads (NumThreads g1 + 1) g1 in
      let n := mkThreadName 0 (dh_host h) (dh_pid h) (dh_posix_tid h) (dh_rank h) thread_num in
      let t3 := set_sent_attached false (set_names n [n] t2) in
      match mode with
      | MRNET =>
          let s4 := if NumThreads g2 =? 1 then
                      let (ok, s') := connect_to_mrnet (set_connected false g2, t3) in
                      (set_connected ok s'.1, s'.2)
                    else (g2, t3) in
          if connected s4.1 then
            let s5 := cbtf_set_connected_to_mrnet true s4 in
            if negb (c_sent_attached s5.2) then
              let s6 := send_attached_to_threads_message s5 in (s6.1, set_sent_attached true s6.2)
            else s5
          else s4
      | _ => (g2, t3)
      end
    else (g1, t2) in
  let (g4, t4) := s3 in
  let h4 := c_header t4 in
  let h5 := mkDataHeader (dh_experiment h4) (dh_collector h4) (dh_id h4) (dh_host h4) (dh_pid h4)
              (dh_posix_tid h) (dh_rank h) thread_num (dh_time_begin h4) (dh_time_end h4)
              (dh_addr_begin h4) (dh_addr_end h4) in
  let t5 := set_header h5 t4 in
  let g5 := if negb (use_mrnet mode) && negb (String.eqb unique_id "overview")
            then emit tid (SetSendToFile h5) g4 else g4 in
  Ok (emit tid (CollectorStart h5) g5, set_status Started t5).

Definition cbtf_timer_service_stop_sampling (s : St) : outcome St :=
  if c_has_ompt s.2 && negb (c_ompt_finished s.2) then Ok s else
    let s1 := (emit tid CollectorStop s.1, set_status Finished s.2) in
    if use_mrnet mode then
      s2 ← (if c_sent_attached s1.2 then
              r ← cbtf_record_dsos s1; Ok (send_thread_state_changed_message r)
            else Ok s1);
      let g := set_NumThreads (NumThreads s2.1 - 1) s2.1 in
      Ok (if NumThreads g =? 0 then emit tid WaitShutdown g else g, s2.2)
    else cbtf_offline_finish s1.

(** ** services/collector/monitor.c *)
Definition cbtf_offline_start_sampling (s : St) : outcome St :=
  let s1 := (set_mpi_init_done false s.1, set_m false false 0 s.2) in
  s2 ← cbtf_timer_service_start_sampling s1;
  Ok (s2.1, set_m true (m_finished s2.2) (m_sent_data s2.2) s2.2).

Definition cbtf_offline_stop_sampling (finished : bool) (s : St) : outcome St :=
  if negb (m_started s.2) then Ok s else
    s1 ← cbtf_timer_service_stop_sampling s;
    Ok (s1.1, set_m (m_started s1.2) finished (m_sent_data s1.2) s1.2).

(** connect, and send the attached message once connected *)
Definition connect_and_attach (s : St) : St :=
  let (ok, s1) := connect_to_mrnet s in
  if (ok : bool)
  then send_attached_to_threads_message (cbtf_set_connected_to_mrnet true s1)
  else cbtf_set_connected_to_mrnet false s1.

Definition cbtf_offline_notify_event (event : CBTF_Monitor_Event_Type) (s : St) : St :=
  match event with
  | init_process_event =>
      match mode with MRNET_MPI => cbtf_set_connected_to_mrnet false s | _ => s end
  | init_thread_event =>
      if use_mrnet mode then
        if cbtf_connected_to_mrnet s.1 then send_attached_to_threads_message s else s
      else s
  | mpi_pcontrol_event =>
      if negb (cbtf_connected_to_mrnet s.1)
      then match mode with MRNET_MPI => connect_and_attach s | _ => s end
      else s
  | MPI_init_event => (set_mpi_init_done true s.1, s.2)
  | _ => s
  end.

(** The pause/resume arms of cbtf_offline_sampling_status: those that test for
    Resumed, and those that test for Paused a second time. *)
Definition pause_or_resume (status : CBTF_Monitor_Status) (s : St) : St :=
  if bool_decide (status = Paused) && m_started s.2 then cbtf_offline_service_sampling_control Paused s
  else if bool_decide (status = Resumed) && m_started s.2
  then cbtf_offline_service_sampling_control Resumed s else s.
Definition pause_or_pause (status : CBTF_Monitor_Status) (s : St) : St :=
  if bool_decide (status = Paused) && m_started s.2 then cbtf_offline_service_sampling_control Paused s
  else if bool_decide (status = Paused) && m_started s.2
  then cbtf_offline_service_sampling_control Resumed s else s.

Definition cbtf_offline_sampling_status (event : CBTF_Monitor_Event_Type) (status : CBTF_Monitor_Status)
    (s : St) : St :=
  match event with
  | MPI_pre_init_event => pause_or_resume status s
  | MPI_init_event =>
      if bool_decide (status = Paused) && m_started s.2
      then cbtf_offline_service_sampling_control Paused s
      else if bool_decide (status = Resumed) && m_started s.2
      then cbtf_offline_service_sampling_control Resumed (set_mpi_init_done true s.1, s.2)
      else s
  | MPI_post_comm_rank_event =>
      if negb (cbtf_connected_to_mrnet s.1) && ((mpi_rank s.1 >=? 0) || mpi_init_done s.1) then
        let s1 := if m_started s.2 then cbtf_offline_service_sampling_control Paused s else s in
        let s2 := match mode with MRNET_MPI => connect_and_attach s1 | _ => s1 end in
        if m_started s2.2 then cbtf_offline_service_sampling_control Resumed s2 else s2
      else s
  | MPI_fini_event | MPI_post_fini_event | init_thread_event | mpi_pcontrol_event
  | post_fork_event | Default_event => pause_or_pause status s
  | _ => s
  end.
End service.

(** ** Linked objects are sent once, in order, without overrunning the buffer *)
Definition sent_objs (l : list (nat * action)) : list linked_object :=
  concat ((fun a => match a.2 with SendDsos _ o => o | _ => [] end) <$> l).
Definition obj_key (o : linked_object) : string * Z * Z := (lo_name o, lo_begin o, lo_end o).
Definition record_key (r : dl_record) : string * Z * Z :=
  match r with
  | RecordDso p b e | RecordDlopen p b e _ _ => (String.string_of_list_ascii p, b, e)
  end.

Lemma sent_objs_app l l' : sent_objs (l ++ l') = sent_objs l ++ sent_objs l'.
Proof. unfold sent_objs. by rewrite fmap_app, concat_app. Qed.

(** Every recorded path is a word, hence not empty. *)
Lemma parse_path_nonempty buf b e p : parse_maps_line buf = Ok (Some (b, e, p)) -> p <> [].
Proof.
  unfold parse_maps_line. destruct (strchr SP buf); [|done]. intros H. inv_ok.
  destruct (_ && _); [|by inv_ok]. destruct (strchr DASH buf) as [[|? ?]|]; try done.
  destruct (after_last SP buf); [|done]. inv_ok. unfold sscanf_s in *.
  destruct (word _); by inv_ok.
Qed.

Lemma GetDLInfo_nonempty maps path bt et : forall rs, CBTF_GetDLInfo maps path bt et = Ok rs ->
  Forall (fun r => match r with RecordDso p _ _ | RecordDlopen p _ _ _ _ => p <> [] end) rs.
Proof.
  induction maps as [|buf maps IH]; intros rs H; simpl in H; inv_ok; [constructor|].
  destruct x as [[[b e] p]|]; [|by apply IH]. pose proof (parse_path_nonempty _ _ _ _ H).
  destruct path as [q|].
  - destruct (starts_with _ _); inv_ok; [by repeat constructor|by apply IH].
  - inv_ok. constructor; [done|by apply IH].
Qed.

Section dsos.
Context (mode : build_mode) (offline : bool) (who : identity) (tid : nat).
Context (sizeof_obj : Z) (maps : list cstr) (exe unique_id : string).
Context (size_pos : 0 < sizeof_obj).
Context (eh : CBTF_EventHeader) (header_ok : CBTF_InitializeEventHeader offline who = Ok eh).

(** The network takes what is sent. *)
Definition online (g : shared) : Prop := use_mrnet mode = true -> connected g = true.

Record dso_inv (s0 s : St) (acc : list (string * Z * Z)) : Prop := {
  di_log : exists new, log s.1 = log s0.1 ++ new /\
    obj_key <$> (sent_objs new ++ c_objs s.2) = acc;
  di_len : Z.of_nat (length (c_objs s.2)) <= CBTF_MAXLINKEDOBJECTS;
  di_names : Z.of_nat (length (c_objs s.2)) <= c_dsoname_len s.2;
  di_online : online s.1
}.

Lemma send_dsos_inv s0 s acc :
  dso_inv s0 s acc ->
  dso_inv s0 (cbtf_offline_send_dsos mode tid s) acc /\
  c_objs (cbtf_offline_send_dsos mode tid s).2 = [] /\
  c_dsoname_len (cbtf_offline_send_dsos mode tid s).2 = 0.
Proof.
  destruct s as [g t]. intros [(new & Hlog & Hkey) _ _ Hon]. cbn [fst snd] in *.
  unfold cbtf_offline_send_dsos. split; [|done].
  assert (Hg : (if use_mrnet mode then if connected g then emit tid (SendDsos (c_dso_header t) (c_objs t)) g else g
                else emit tid (SendDsos (c_dso_header t) (c_objs t)) g) =
               emit tid (SendDsos (c_dso_header t) (c_objs t)) g).
  { destruct (use_mrnet mode) eqn:Hm; [|done]. by rewrite (Hon Hm). }
  rewrite Hg. constructor; cbn [fst snd c_objs c_dsoname_len set_objs]; try (simpl; done).
  exists (new ++ [(tid, SendDsos (c_dso_header t) (c_objs t))]). split.
  - simpl. by rewrite Hlog, app_assoc.
  - rewrite sent_objs_app. unfold sent_objs at 2. simpl. by rewrite !app_nil_r.
Qed.

Lemma store_object_inv s0 s acc o :
  dso_inv s0 s acc -> lo_name o <> EmptyString ->
  exists s', store_object mode tid sizeof_obj o s = Ok s' /\ dso_inv s0 s' (acc ++ [obj_key o]).
Proof.
  intros Hinv Hne. unfold store_object.
  assert (Hl : 1 <= Z.of_nat (String.length (lo_name o))) by (destruct (lo_name o); [done|simpl; lia]).
  assert (Hadd : forall g t, dso_inv s0 (g, t) acc -> Z.of_nat (length (c_objs t)) < CBTF_MAXLINKEDOBJECTS ->
    dso_inv s0 (g, set_objs (c_objs t ++ [o]) (c_dsoname_len t + Z.of_nat (String.length (lo_name o))) t)
      (acc ++ [obj_key o])).
  { intros g t [(new & Hlog & Hkey) Hlen Hnm Hon] Hroom. constructor; cbn [fst snd c_objs c_dsoname_len set_objs] in *.
    - exists new. split; [done|]. rewrite app_assoc, fmap_app, Hkey. done.
    - rewrite length_app. simpl. lia.
    - rewrite length_app. simpl. lia.
    - done. }
  pose proof Hinv as [_ Hlen Hnm _]. destruct (_ >? _) eqn:Hbig; bools.
  - destruct (send_dsos_inv s0 s acc Hinv) as (Hinv' & Ho & Hd).
    destruct (cbtf_offline_send_dsos mode tid s) as [g t]. cbn [fst snd] in *.
    rewrite (proj2 (Z.ltb_lt _ CBTF_MAXLINKEDOBJECTS)) by (rewrite Ho; done).
    eexists. split; [reflexivity|]. apply Hadd; [done|]. by rewrite Ho.
  - destruct s as [g t]. cbn [fst snd] in *.
    assert (Z.of_nat (length (c_objs t)) < CBTF_MAXLINKEDOBJECTS) by nia.
    rewrite (proj2 (Z.ltb_lt _ CBTF_MAXLINKEDOBJECTS)) by done.
    eexists. split; [reflexivity|]. by apply Hadd.
Qed.

(** Bookkeeping outside the buffer and the log keeps the invariant. *)
Lemma dso_inv_ext s0 s s' acc :
  dso_inv s0 s acc -> log s'.1 = log s.1 -> connected s'.1 = connected s.1 ->
  c_objs s'.2 = c_objs s.2 -> c_dsoname_len s'.2 = c_dsoname_len s.2 -> dso_inv s0 s' acc.
Proof.
  intros [Hl Hn Hm Ho] H1 H2 H3 H4. unfold online in *.
  constructor; rewrite ?H1, ?H3, ?H4; try done. unfold online. by rewrite H2.
Qed.

Lemma string_nonempty (p : cstr) : p <> [] -> String.string_of_list_ascii p <> EmptyString.
Proof. by destruct p. Qed.

Lemma record_dl_inv s0 s acc r :
  dso_inv s0 s acc -> (match r with RecordDso p _ _ | RecordDlopen p _ _ _ _ => p <> [] end) ->
  exists s', record_dl mode offline who tid sizeof_obj exe r s = Ok s' /\
    dso_inv s0 s' (acc ++ [record_key r]).
Proof.
  intros Hinv Hne. destruct r as [p b e|p b e bt et]; simpl record_dl;
    unfold cbtf_offline_record_dso, cbtf_offline_record_dlopen, start_dso_record;
    rewrite header_ok, !bind_of_Ok; cbn -[store_object name_thread].
  - match goal with |- context [store_object _ _ _ ?o (name_thread ?m ?t ?h ?s1)] =>
      destruct (store_object_inv s0 (name_thread m t h s1) acc o) as (s' & Hs & Hi) end.
    + eapply dso_inv_ext; [exact Hinv|..]; unfold name_thread; by destruct (use_mrnet mode).
    + by apply string_nonempty.
    + exists s'. split; [exact Hs|exact Hi].
  - match goal with |- context [store_object _ _ _ ?o (name_thread ?m ?t ?h ?s1)] =>
      destruct (store_object_inv s0 (name_thread m t h s1) acc o) as (s' & Hs & Hi) end.
    + eapply dso_inv_ext; [exact Hinv|..]; unfold name_thread; by destruct (use_mrnet mode).
    + by apply string_nonempty.
    + exists s'. split; [exact Hs|exact Hi].
Qed.

Lemma record_dls_inv s0 rs : forall s acc,
  dso_inv s0 s acc ->
  Forall (fun r => match r with RecordDso p _ _ | RecordDlopen p _ _ _ _ => p <> [] end) rs ->
  exists s', record_dls mode offline who tid sizeof_obj exe rs s = Ok s' /\
    dso_inv s0 s' (acc ++ (record_key <$> rs)).
Proof.
  induction rs as [|r rs IH]; intros s acc Hinv Hne; simpl.
  { exists s. by rewrite app_nil_r. }
  apply Forall_cons in Hne as [Hr Hrs]. destruct (record_dl_inv s0 s acc r Hinv Hr) as (s1 & -> & Hi).
  rewrite bind_of_Ok. destruct (IH s1 _ Hi Hrs) as (s2 & -> & Hi2). exists s2. split; [done|].
  by rewrite <- app_assoc in Hi2.
Qed.
End dsos.

(** when the thread's buffer is empty and the network, if any, is connected,
    cbtf_record_dsos returns without writing past the buffer of linked objects,
    leaves it empty, and the blobs it sent hold exactly the objects CBTF_GetDLInfo
    found, in order. *)
Theorem record_dsos_sends_all (mode : build_mode) (offline : bool) (who : identity) (tid : nat)
    (sizeof_obj : Z) (maps : list cstr) (exe unique_id : string) (eh : CBTF_EventHeader)
    (rs : list dl_record) (s : St) :
  0 < sizeof_obj -> CBTF_InitializeEventHeader offline who = Ok eh ->
  CBTF_GetDLInfo maps None 0 0 = Ok rs -> unique_id <> "overview"%string ->
  online mode s.1 -> c_objs s.2 = [] -> c_dsoname_len s.2 = 0 ->
  exists s' new, cbtf_record_dsos mode offline who tid sizeof_obj maps exe unique_id s = Ok s' /\
    c_objs s'.2 = [] /\ log s'.1 = log s.1 ++ new /\
    obj_key <$> sent_objs new = record_key <$> rs.
Proof.
  intros Hsz Hh Hrs Hov Hon Ho Hd. unfold cbtf_record_dsos, get_dl_info.
  rewrite (proj2 (String.eqb_neq _ _) Hov), Hh, bind_of_Ok, Hrs, bind_of_Ok.
  assert (Hi0 : dso_inv mode s s []).
  { constructor; rewrite ?Ho, ?Hd; try done. exists []. by rewrite app_nil_r. }
  destruct (record_dls_inv mode offline who tid sizeof_obj exe Hsz eh Hh s rs s [] Hi0) as (s1 & -> & Hi1).
  { by eapply GetDLInfo_nonempty. }
  rewrite bind_of_Ok. destruct (0 <? length (c_objs s1.2))%nat eqn:Hl.
  - destruct (send_dsos_inv mode tid s s1 _ Hi1) as ([(new & Hlog & Hk) _ _ _] & He & _).
    rewrite He, app_nil_r in Hk. eauto 10.
  - destruct Hi1 as [(new & Hlog & Hk) _ _ _]. apply Nat.ltb_ge in Hl.
    destruct (c_objs s1.2) as [|? ?] eqn:Hc; [|simpl in Hl; lia]. rewrite app_nil_r in Hk.
    exists s1, new. done.
Qed.

(** ** A concrete process, for examples *)
Definition example_identity : identity := mkIdentity 64 (Some "n0"%string) (fun _ => None) 1 1.
Definition example_shared (on : bool) : shared := mkShared false on on 0 (-1) (fun n => Z.of_nat n) 0 [].
Definition example_thread : thread :=
  mkThread false false 0 (mkDataHeader 0 1 "" "" 0 0 (-1) 0 0 0 0 0) (mkEventHeader "" 0 0 (-1) 0 false)
    Not_Started 0 0 [] false false (mkThreadName 0 "" 0 0 (-1) 0) [] false.
Definition example_maps : list cstr :=
  [print_mapping 8 (mkMapping 4096 8192 (chr 114) DASH true (chr 112) (str "00000000 08:01 42") (str "/bin/a"));
   print_mapping 8 (mkMapping 8192 12288 (chr 114) DASH false (chr 112) (str "00001000 08:01 42") (str "/bin/a"));
   print_mapping 8 (mkMapping 65536 131072 (chr 114) DASH true (chr 112) (str "00000000 08:01 43") (str "/lib/b.so"))].

Lemma record_dsos_witness :
  exists s' new, cbtf_record_dsos MRNET true example_identity 0 64 example_maps "/bin/a" "pcsamp"
      (example_shared true, example_thread) = Ok s' /\
    log s'.1 = new /\
    obj_key <$> sent_objs new = [("/bin/a"%string, 4096, 8192); ("/lib/b.so"%string, 65536, 131072)].
Proof.
  destruct (record_dsos_sends_all MRNET true example_identity 0 64 example_maps "/bin/a" "pcsamp"
    (mkEventHeader "n0" 1 1 (-1) 0 false)
    [RecordDso (str "/bin/a") 4096 8192; RecordDso (str "/lib/b.so") 65536 131072]
    (example_shared true, example_thread)) as (s' & new & H & _ & Hl & Hk); try done; [by vm_compute..|].
  exists s', new. split; [exact H|]. split; [exact Hl|exact Hk].
Defined.
