(* ===== verification/ServiceProtocol.v ===== *)
(** The order of the messages of the collector service (CollectorService.v) over
    MRNet, as a transition system: any number of threads of a process make any
    sequence of service calls, in any interleaving. *)
From S2P Require Import Prelude Headers DLInfo CollectorService.

(** The calls other components make on the service. *)
Inductive service_op :=
| OpStart
| OpStop (finished : bool)
| OpNotify (event : CBTF_Monitor_Event_Type)
| OpStatus (event : CBTF_Monitor_Event_Type) (status : CBTF_Monitor_Status)
| OpSend (h : CBTF_DataHeader)
| OpSetOmpThread (omptid : Z)
| OpOmptFlag (flag : bool)
| OpOmptFinished (flag : bool)
| OpRecordDlopen (name : cstr) (b_time e_time : Z)
| OpRank.          (* the MPI library gives the process its rank *)

Section protocol.
Context (mode : build_mode) (offline : bool) (who : nat -> identity).
Context (sizeof_obj : Z) (maps : list cstr) (exe unique_id : string) (rank : Z) (fresh : thread).

Definition do_op (tid : nat) (op : service_op) (s : St) : outcome St :=
  match op with
  | OpStart => cbtf_offline_start_sampling mode offline (who tid) tid unique_id s
  | OpStop fin => cbtf_offline_stop_sampling mode offline (who tid) tid sizeof_obj maps exe unique_id fin s
  | OpNotify e => Ok (cbtf_offline_notify_event mode tid e s)
  | OpStatus e st => Ok (cbtf_offline_sampling_status mode tid e st s)
  | OpSend h => Ok (cbtf_collector_send mode tid h s)
  | OpSetOmpThread i => Ok (cbtf_collector_set_openmp_threadid mode i s)
  | OpOmptFlag b => Ok (set_ompt_flag b s)
  | OpOmptFinished b => Ok (set_ompt_thread_finished b s)
  | OpRecordDlopen n b e => get_dl_info mode offline (who tid) tid sizeof_obj maps exe (Some n) b e s
  | OpRank => let g := s.1 in
      Ok (mkShared (mpi_init_done g) (mon_connected g) (connected g) (NumThreads g) rank (clock g)
            (tick g) (log g), s.2)
  end.

(** A process: the shared state and the threads that ran so far. *)
Definition process := (shared * gmap nat thread)%type.

Inductive process_step : process -> process -> Prop :=
| step_thread (g : shared) (ths : gmap nat thread) (tid : nat) (op : service_op) (g' : shared) (t' : thread) :
    do_op tid op (g, default fresh (ths !! tid)) = Ok (g', t') ->
    process_step (g, ths) (g', <[tid := t']> ths).

Definition reachable (p0 p : process) : Prop := rtc process_step p0 p.
End protocol.

Definition is_data (a : action) : bool := match a with DataSend _ => true | _ => false end.

(** Every data message of a thread comes after a message that announces it. *)
Definition announced_first (l : list (nat * action)) : Prop :=
  forall l1 tid h l2, l = l1 ++ (tid, DataSend h) :: l2 -> exists ns, (tid, SendAttached ns) ∈ l1.

(** What a service call other than a data send may do to the log. *)
Definition quiet (tid : nat) (s s' : St) : Prop :=
  exists new, log s'.1 = log s.1 ++ new /\ Forall (fun a => a.1 = tid /\ is_data a.2 = false) new /\
    (c_sent_attached s'.2 = true -> c_sent_attached s.2 = true \/ exists ns, (tid, SendAttached ns) ∈ new).

Lemma quiet_refl tid s s' :
  log s'.1 = log s.1 -> (c_sent_attached s'.2 = true -> c_sent_attached s.2 = true) -> quiet tid s s'.
Proof. intros Hl Hc. exists []. rewrite app_nil_r. split_and!; [done|constructor|auto]. Qed.

Lemma quiet_trans tid s1 s2 s3 : quiet tid s1 s2 -> quiet tid s2 s3 -> quiet tid s1 s3.
Proof.
  intros (n1 & H1 & F1 & C1) (n2 & H2 & F2 & C2). exists (n1 ++ n2). split_and!.
  - by rewrite H2, H1, app_assoc.
  - by apply Forall_app_2.
  - intros H3. destruct (C2 H3) as [H|[ns H]].
    + destruct (C1 H) as [?|[ns ?]]; [auto|]. right. exists ns. set_solver.
    + right. exists ns. set_solver.
Qed.

Lemma quiet_emit tid s s' a :
  is_data a = false -> log s'.1 = log s.1 ++ [(tid, a)] ->
  (c_sent_attached s'.2 = true -> c_sent_attached s.2 = true \/ exists ns, a = SendAttached ns) ->
  quiet tid s s'.
Proof.
  intros Ha Hl Hc. exists [(tid, a)]. split_and!; [done|by repeat constructor|].
  intros H. destruct (Hc H) as [?|[ns ->]]; [auto|]. right. exists ns. set_solver.
Qed.

#[export] Hint Resolve quiet_refl quiet_trans : cbtf.

Section quietness.
Context (mode : build_mode) (offline : bool) (who : identity) (tid : nat).
Context (sizeof_obj : Z) (maps : list cstr) (exe unique_id : string).

Lemma control_quiet st s : quiet tid s (cbtf_offline_service_sampling_control tid st s).
Proof.
  destruct s as [g t]. unfold cbtf_offline_service_sampling_control.
  destruct (_ && _); [by eapply (quiet_emit _ _ _ CollectorResume); auto|].
  destruct (_ && _); [by eapply (quiet_emit _ _ _ CollectorPause); auto|].
  by apply quiet_refl.
Qed.

Lemma attached_quiet s : quiet tid s (send_attached_to_threads_message mode tid s).
Proof.
  unfold send_attached_to_threads_message. destruct (_ && _); [|by apply quiet_refl].
  set (s2 := cbtf_offline_service_sampling_control tid Paused (init_process_thread mode tid s)).
  assert (H2 : quiet tid s s2).
  { eapply quiet_trans; [|apply control_quiet]. unfold init_process_thread.
    destruct (use_mrnet mode), s; by apply quiet_refl. }
  clearbody s2. eapply quiet_trans; [exact H2|]. eapply quiet_trans; [|apply control_quiet].
  eapply (quiet_emit _ _ _ (SendAttached (c_tgrp s2.2))); [done|reflexivity|]. intros _. right. eauto.
Qed.

(** Once connected, the message is among the new entries of the log. *)
Lemma attached_announces s :
  use_mrnet mode = true -> connected s.1 = true -> c_sent_attached s.2 = false ->
  exists new ns, log (send_attached_to_threads_message mode tid s).1 = log s.1 ++ new /\
    Forall (fun a => a.1 = tid /\ is_data a.2 = false) new /\ (tid, SendAttached ns) ∈ new.
Proof.
  intros Hm Hc Hs. destruct (attached_quiet s) as (new & Hl & Hf & Hatt).
  destruct Hatt as [Hatt|[ns Hin]].
  - unfold send_attached_to_threads_message, cbtf_offline_service_sampling_control.
    rewrite Hm, Hc, Hs. cbn [andb negb]. by destruct (init_process_thread mode tid s).
  - congruence.
  - eauto.
Qed.

Lemma announce_quiet s :
  use_mrnet mode = true -> connected s.1 = true -> c_sent_attached s.2 = false ->
  quiet tid s ((send_attached_to_threads_message mode tid s).1,
               set_sent_attached true (send_attached_to_threads_message mode tid s).2).
Proof.
  intros Hm Hc Hs. destruct (attached_announces s Hm Hc Hs) as (new & ns & Hl & Hf & Hin).
  exists new. split_and!; [done..|]. eauto.
Qed.

Lemma connect_quiet s : quiet tid s (connect_to_mrnet mode tid s).2.
Proof.
  unfold connect_to_mrnet. destruct (use_mrnet mode); [|by apply quiet_refl].
  destruct (connected s.1); [by apply quiet_refl|]. simpl.
  by apply (quiet_emit _ _ _ (MRNetConnect (mpi_rank s.1))); auto.
Qed.

Lemma connect_and_attach_quiet s : quiet tid s (connect_and_attach mode tid s).
Proof.
  unfold connect_and_attach. pose proof (connect_quiet s) as Hq.
  destruct (connect_to_mrnet mode tid s) as [ok s1]. simpl in Hq. eapply quiet_trans; [exact Hq|].
  destruct ok; [|by apply quiet_refl].
  eapply quiet_trans; [|apply attached_quiet]. by apply quiet_refl.
Qed.

Lemma notify_quiet e s : quiet tid s (cbtf_offline_notify_event mode tid e s).
Proof.
  unfold cbtf_offline_notify_event. destruct e; try (by apply quiet_refl).
  - destruct mode; by apply quiet_refl.
  - destruct (use_mrnet mode); [|by apply quiet_refl].
    destruct (cbtf_connected_to_mrnet mode s.1); [apply attached_quiet|by apply quiet_refl].
  - destruct (negb _); [|by apply quiet_refl].
    destruct mode eqn:Hm; try (by apply quiet_refl). rewrite <- Hm. apply connect_and_attach_quiet.
Qed.

Lemma arms_quiet st s : quiet tid s (pause_or_resume tid st s) /\ quiet tid s (pause_or_pause tid st s).
Proof.
  unfold pause_or_resume, pause_or_pause.
  split; repeat case_match; solve [apply control_quiet | by apply quiet_refl].
Qed.

Lemma status_quiet e st s : quiet tid s (cbtf_offline_sampling_status mode tid e st s).
Proof.
  unfold cbtf_offline_sampling_status. pose proof (arms_quiet st s) as [Hr Hp].
  destruct e; try done; try (by apply quiet_refl).
  - destruct (_ && _); [apply control_quiet|]. destruct (_ && _); [|by apply quiet_refl].
    eapply quiet_trans; [|apply control_quiet]. by apply quiet_refl.
  - destruct (_ && _); [|by apply quiet_refl].
    set (s1 := if m_started s.2 then _ else _).
    assert (quiet tid s s1) as H1 by (unfold s1; destruct (m_started s.2); [apply control_quiet|by apply quiet_refl]).
    clearbody s1.
    assert (H2 : quiet tid s1 (match mode with MRNET_MPI => connect_and_attach mode tid s1 | _ => s1 end)).
    { destruct mode eqn:Hm; try (by apply quiet_refl). rewrite <- Hm. apply connect_and_attach_quiet. }
    eapply quiet_trans; [exact H1|]. eapply quiet_trans; [exact H2|].
    destruct (m_started _); [apply control_quiet|by apply quiet_refl].
Qed.

Lemma send_dsos_quiet s : quiet tid s (cbtf_offline_send_dsos mode tid s).
Proof.
  destruct s as [g t]. unfold cbtf_offline_send_dsos.
  assert (H : quiet tid (g, t) (emit tid (SendDsos (c_dso_header t) (c_objs t)) g, set_objs [] 0 t)).
  { by apply (quiet_emit _ _ _ (SendDsos (c_dso_header t) (c_objs t))); auto. }
  destruct (use_mrnet mode); [|done]. destruct (connected g); [done|by apply quiet_refl].
Qed.

Lemma store_quiet o s s' : store_object mode tid sizeof_obj o s = Ok s' -> quiet tid s s'.
Proof.
  unfold store_object. intros H. destruct (_ >? _).
  - pose proof (send_dsos_quiet s) as Hq. destruct (cbtf_offline_send_dsos mode tid s) as [g t].
    destruct (_ <? _); [|done]. injection H as <-. eapply quiet_trans; [exact Hq|]. by apply quiet_refl.
  - destruct s as [g t]. destruct (_ <? _); [|done]. injection H as <-. by apply quiet_refl.
Qed.

Lemma record_dl_quiet r s s' :
  record_dl mode offline who tid sizeof_obj exe r s = Ok s' -> quiet tid s s'.
Proof.
  destruct r as [p b e|p b e bt et]; simpl;
    unfold cbtf_offline_record_dso, cbtf_offline_record_dlopen, start_dso_record; intros H; inv_ok;
    cbn -[store_object name_thread] in *;
    match goal with H : store_object _ _ _ _ _ = Ok _ |- _ => apply store_quiet in H; eapply quiet_trans; [|exact H] end;
    unfold name_thread; destruct (use_mrnet mode); by apply quiet_refl.
Qed.

Lemma record_dls_quiet rs : forall s s',
  record_dls mode offline who tid sizeof_obj exe rs s = Ok s' -> quiet tid s s'.
Proof.
  induction rs as [|r rs IH]; intros s s' H; simpl in H; inv_ok; [by apply quiet_refl|].
  eapply quiet_trans; [by eapply record_dl_quiet|by apply IH].
Qed.

Lemma get_dl_info_quiet p b e s s' :
  get_dl_info mode offline who tid sizeof_obj maps exe p b e s = Ok s' -> quiet tid s s'.
Proof. unfold get_dl_info. intros H. inv_ok. by eapply record_dls_quiet. Qed.

Lemma record_dsos_quiet s s' :
  cbtf_record_dsos mode offline who tid sizeof_obj maps exe unique_id s = Ok s' -> quiet tid s s'.
Proof.
  unfold cbtf_record_dsos. destruct (String.eqb _ _); intros H; inv_ok; [by apply quiet_refl|].
  eapply quiet_trans; [by eapply get_dl_info_quiet|].
  destruct (_ <? _)%nat; [apply send_dsos_quiet|by apply quiet_refl].
Qed.

Lemma stop_quiet fin s s' :
  cbtf_offline_stop_sampling mode offline who tid sizeof_obj maps exe unique_id fin s = Ok s' ->
  quiet tid s s'.
Proof.
  unfold cbtf_offline_stop_sampling. destruct (negb _); intros H; inv_ok; [by apply quiet_refl|].
  enough (quiet tid s x) as Hq by (eapply quiet_trans; [exact Hq|by apply quiet_refl]).
  unfold cbtf_timer_service_stop_sampling in *. destruct (_ && _); inv_ok; [by apply quiet_refl|].
  set (s1 := (emit tid CollectorStop s.1, set_status Finished s.2)) in *.
  assert (H1 : quiet tid s s1) by (by apply (quiet_emit _ _ _ CollectorStop); auto).
  clearbody s1. eapply quiet_trans; [exact H1|]. destruct (use_mrnet mode) eqn:Hm; inv_ok.
  - assert (H2 : quiet tid s1 x0).
    { destruct (c_sent_attached s1.2); inv_ok; [|by apply quiet_refl].
      eapply quiet_trans; [by eapply record_dsos_quiet|]. unfold send_thread_state_changed_message.
      destruct (_ && _); [|by apply quiet_refl].
      match goal with |- quiet _ ?q _ => apply (quiet_emit _ _ _ (SendStateChanged (c_tgrp q.2))) end; auto. }
    eapply quiet_trans; [exact H2|]. cbn. destruct (_ =? 0); [|by apply quiet_refl].
    by apply (quiet_emit _ _ _ WaitShutdown); auto.
  - unfold cbtf_offline_finish in *. destruct (m_started s1.2); inv_ok; [|by apply quiet_refl].
    by eapply record_dsos_quiet.
Qed.

Lemma start_quiet s s' :
  cbtf_offline_start_sampling mode offline who tid unique_id s = Ok s' -> quiet tid s s'.
Proof.
  unfold cbtf_offline_start_sampling. intros H. inv_ok.
  enough (quiet tid s x) as Hq by (eapply quiet_trans; [exact Hq|by apply quiet_refl]).
  match goal with H : cbtf_timer_service_start_sampling _ _ _ _ _ ?q = Ok _ |- _ =>
    assert (Hq : quiet tid s q) by (by apply quiet_refl);
    eapply quiet_trans; [exact Hq|]; clear Hq; set (s0 := q) in *; clearbody s0 end.
  unfold cbtf_timer_service_start_sampling in *. cbn [CBTF_GetTime] in *. inv_ok.
  match goal with H : (let (_, _) := ?q in _) = Ok _ |- _ =>
    assert (Hq : quiet tid s0 q); [|set (s3 := q) in *; clearbody s3] end.
  - destruct (use_mrnet mode) eqn:Hm; [|by apply quiet_refl].
    match goal with |- context [set_sent_attached false ?t] => set (t3 := set_sent_attached false t) end.
    match goal with |- context [set_NumThreads ?n ?g] => set (g2 := set_NumThreads n g) end.
    assert (Hg2 : log g2 = log s0.1) by done. assert (Ht3 : c_sent_attached t3 = false) by done.
    clearbody g2 t3. destruct mode eqn:Hmode; try solve [apply quiet_refl; simpl; intros; congruence].
    set (s4 := if NumThreads g2 =? 1 then _ else _).
    assert (H4 : quiet tid s0 s4 /\ c_sent_attached s4.2 = false).
    { unfold s4. destruct (NumThreads g2 =? 1); [|split; [apply quiet_refl; simpl; intros; congruence|done]].
      cbn [connect_to_mrnet use_mrnet connected set_connected fst snd cbtf_reset_header_begin_time CBTF_GetTime].
      split; [|done]. apply (quiet_emit _ _ _ (MRNetConnect (mpi_rank g2))); simpl; try done; intros; congruence. }
    destruct H4 as [H4 H4s]. clearbody s4. destruct (connected s4.1) eqn:Hc; [|done].
    cbn [cbtf_set_connected_to_mrnet snd fst]. rewrite H4s. cbn [negb].
    eapply quiet_trans; [exact H4|].
    eapply quiet_trans; [|rewrite <- Hmode; apply announce_quiet; [by rewrite Hmode|..]]; try done.
    by apply quiet_refl.
  - eapply quiet_trans; [exact Hq|]. destruct s3 as [g4 t4]. inv_ok.
    destruct (_ && _).
    + match goal with |- quiet _ _ (emit _ ?a (emit _ ?b _), _) =>
        exists [(tid, b); (tid, a)] end.
      split_and!; [simpl; by rewrite <- app_assoc|by repeat constructor|auto].
    + match goal with |- quiet _ _ (emit _ ?a _, _) => by apply (quiet_emit _ _ _ a); auto end.
Qed.
End quietness.

Lemma announced_first_app l new :
  announced_first l ->
  (forall l1 tid h l2, new = l1 ++ (tid, DataSend h) :: l2 -> exists ns, (tid, SendAttached ns) ∈ l ++ l1) ->
  announced_first (l ++ new).
Proof.
  intros Hl Hnew l1 tid h l2 Heq.
  apply app_eq_inv in Heq as [(k & -> & Hk)|(k & -> & Hk)].
  - destruct k as [|x k].
    + simpl in Hk. destruct (Hnew [] tid h l2) as [ns Hns]; [done|]. exists ns. by rewrite !app_nil_r in *.
    + injection Hk as <- Hk. by apply (Hl l1 tid h k).
  - by apply (Hnew k tid h l2).
Qed.

Lemma announced_first_quiet l new tid :
  announced_first l -> Forall (fun a : nat * action => a.1 = tid /\ is_data a.2 = false) new ->
  announced_first (l ++ new).
Proof.
  intros Hl Hf. apply announced_first_app; [done|]. intros l1 t h l2 ->.
  apply Forall_app in Hf as [_ Hf]. by apply Forall_inv in Hf as [_ ?].
Qed.

(** The invariant of a process: data is announced first, and a thread that
    believes to be announced is. *)
Definition protocol_inv (fresh : thread) (p : process) : Prop :=
  announced_first (log p.1) /\
  forall tid, c_sent_attached (default fresh (p.2 !! tid)) = true ->
    exists ns, (tid, SendAttached ns) ∈ log p.1.

(** A data send: announced, if it has to be, just before. *)
Lemma send_announced mode tid h s :
  use_mrnet mode = true ->
  (c_sent_attached s.2 = true -> exists ns, (tid, SendAttached ns) ∈ log s.1) ->
  announced_first (log s.1) ->
  let s' := cbtf_collector_send mode tid h s in
  (exists new, log s'.1 = log s.1 ++ new) /\ announced_first (log s'.1) /\
  (c_sent_attached s'.2 = true -> exists ns, (tid, SendAttached ns) ∈ log s'.1).
Proof.
  intros Hm Hatt Hann s'. unfold s', cbtf_collector_send. rewrite Hm.
  destruct (connected s.1) eqn:Hc; [|simpl; split_and!; [exists []; by rewrite app_nil_r|done..]].
  set (s1 := if negb (c_sent_attached s.2) then _ else s).
  assert (H1 : exists new, log s1.1 = log s.1 ++ new /\
    Forall (fun a => a.1 = tid /\ is_data a.2 = false) new /\ exists ns, (tid, SendAttached ns) ∈ log s1.1).
  { unfold s1. destruct (c_sent_attached s.2) eqn:Hs; cbn [negb].
    - exists []. rewrite app_nil_r. split_and!; [done|constructor|auto].
    - destruct (attached_announces mode tid s Hm Hc Hs) as (new & ns & Hl & Hf & Hin).
      exists new. cbn [fst]. split_and!; [done..|]. exists ns. rewrite Hl. set_solver. }
  clearbody s1. destruct H1 as (new & Hl & Hf & ns & Hin). simpl. split_and!.
  - exists (new ++ [(tid, DataSend h)]). by rewrite Hl, app_assoc.
  - apply announced_first_app; [rewrite Hl; by eapply announced_first_quiet|].
    intros l1 t h' l2 Heq. destruct l1 as [|x l1]; [|destruct l1; by injection Heq].
    injection Heq as <- _ _. exists ns. by rewrite app_nil_r.
  - intros _. exists ns. set_solver.
Qed.

Section protocol_correct.
Context (mode : build_mode) (offline : bool) (who : nat -> identity).
Context (sizeof_obj : Z) (maps : list cstr) (exe unique_id : string) (rank : Z) (fresh : thread).
Context (mrnet : use_mrnet mode = true).
Notation step := (process_step mode offline who sizeof_obj maps exe unique_id rank fresh).

Lemma do_op_inv tid op s s' :
  do_op mode offline who sizeof_obj maps exe unique_id rank tid op s = Ok s' ->
  announced_first (log s.1) ->
  (c_sent_attached s.2 = true -> exists ns, (tid, SendAttached ns) ∈ log s.1) ->
  (exists new, log s'.1 = log s.1 ++ new) /\ announced_first (log s'.1) /\
  (c_sent_attached s'.2 = true -> exists ns, (tid, SendAttached ns) ∈ log s'.1).
Proof.
  intros Hop Hann Hatt. assert (Hcase : quiet tid s s' \/ exists h, op = OpSend h).
  { destruct op; simpl in Hop; inv_ok; eauto using start_quiet, stop_quiet, notify_quiet, status_quiet,
      get_dl_info_quiet; left; unfold cbtf_collector_set_openmp_threadid;
      try (destruct s; simpl; destruct (use_mrnet mode)); by apply quiet_refl. }
  destruct Hcase as [(new & Hl & Hf & Hc)|[h ->]].
  - split_and!; [eauto|rewrite Hl; by eapply announced_first_quiet|]. intros Hs.
    destruct (Hc Hs) as [H|[ns H]]; [destruct (Hatt H) as [ns ?]|]; exists ns; rewrite Hl; set_solver.
  - simpl in Hop. injection Hop as <-. by apply send_announced.
Qed.

Lemma step_inv p p' : step p p' -> protocol_inv fresh p -> protocol_inv fresh p'.
Proof.
  intros [g ths tid op g' t' Hop] [Hann Hatt]. simpl in *.
  destruct (do_op_inv tid op (g, default fresh (ths !! tid)) (g', t') Hop Hann (Hatt tid))
    as ([new Hl] & Hann' & Hatt'). simpl in *. split; [done|]. simpl. intros tid'.
  destruct (decide (tid = tid')) as [<-|Hne].
  - by rewrite lookup_insert_eq.
  - rewrite lookup_insert_ne by done. intros Hs. destruct (Hatt _ Hs) as [ns Hns].
    exists ns. rewrite Hl. set_solver.
Qed.
End protocol_correct.

(** C6: over MRNet, in every state a process can reach by service calls of its
    threads in any interleaving, each performance data message of a thread is
    preceded by a message that attached that thread. *)
Theorem data_follows_attach (mode : build_mode) (offline : bool) (who : nat -> identity)
    (sizeof_obj : Z) (maps : list cstr) (exe unique_id : string) (rank : Z) (fresh : thread)
    (g0 : shared) (p : process) :
  use_mrnet mode = true -> log g0 = [] -> c_sent_attached fresh = false ->
  reachable mode offline who sizeof_obj maps exe unique_id rank fresh (g0, ∅) p ->
  announced_first (log p.1).
Proof.
  intros Hm Hl Hf Hr.
  assert (H0 : protocol_inv fresh (g0, ∅)).
  { split; simpl; [rewrite Hl; by intros [|] ? ? ?|]. intros tid. rewrite lookup_empty. simpl. congruence. }
  unfold reachable in Hr. remember (g0, ∅) as p0 eqn:Hp0. clear Hp0.
  enough (protocol_inv fresh p) as [? _] by done.
  induction Hr as [p|p p1 p2 Hs _ IH]; [done|]. apply IH. by eapply step_inv.
Qed.

(** Two threads start and each sends a blob. *)
Lemma data_follows_attach_witness :
  exists p, reachable MRNET true (fun _ => example_identity) 64 [] "/bin/a" "pcsamp" 0 example_thread
      (example_shared true, ∅) p /\
    length (List.filter (fun a => is_data a.2) (log p.1)) = 2%nat /\ announced_first (log p.1).
Proof.
  set (R := reachable _ _ _ _ _ _ _ _ _).
  assert (H : exists p, R (example_shared true, ∅) p /\
    length (List.filter (fun a => is_data a.2) (log p.1)) = 2%nat).
  { eexists. split.
    - eapply rtc_l; [apply (step_thread _ _ _ _ _ _ _ _ _ _ _ 0%nat OpStart); vm_compute; reflexivity|].
      eapply rtc_l; [apply (step_thread _ _ _ _ _ _ _ _ _ _ _ 1%nat OpStart); vm_compute; reflexivity|].
      eapply rtc_l; [apply (step_thread _ _ _ _ _ _ _ _ _ _ _ 1%nat
        (OpSend (mkDataHeader 0 1 "pcsamp" "n0" 1 1 (-1) 0 0 0 0 0))); vm_compute; reflexivity|].
      eapply rtc_l; [apply (step_thread _ _ _ _ _ _ _ _ _ _ _ 0%nat
        (OpSend (mkDataHeader 0 1 "pcsamp" "n0" 1 1 (-1) 0 0 0 0 0))); vm_compute; reflexivity|].
      apply rtc_refl.
    - by vm_compute. }
  destruct H as (p & Hp & Hn). exists p. split; [exact Hp|]. split; [exact Hn|].
  by apply (data_follows_attach MRNET true (fun _ => example_identity) 64 [] "/bin/a" "pcsamp" 0 example_thread
    (example_shared true) p).
Defined.
