(* ===== verification/ServiceWorld.v ===== *)
(** The services a collector runs on, put together: the collector service in its
    file build (CollectorService.v) and the timer service (Timer.v) as one
    implementation of the Services interface, for one thread of a process. What is
    proved of collectors against the interface holds on it. *)
From S2P Require Import Prelude PCIndex PCData Headers Services PCSamp DLInfo CollectorService Timer.

(** Headers of the data messages of a thread. *)
Definition data_headers (tid : nat) (l : list (nat * CollectorService.action)) : list CBTF_DataHeader :=
  omap (fun a => if bool_decide (a.1 = tid) then match a.2 with CollectorService.DataSend h => Some h | _ => None end else None) l.

Lemma data_headers_app tid l l' : data_headers tid (l ++ l') = data_headers tid l ++ data_headers tid l'.
Proof. apply omap_app. Qed.

Section world.
Context (D : Type) (tid : nat).

(** The state of both services with the blobs handed over, which are those of the
    data messages of this thread, in their order. *)
Record file_world := mkFileWorld {
  fw_service : CollectorService.shared * CollectorService.thread;
  fw_timer : process * gset nat;
  fw_env : string -> option string;
  fw_blobs : list (CBTF_DataHeader * D);
  fw_agree : data_headers tid (CollectorService.log fw_service.1) = fst <$> fw_blobs
}.
End world.
Arguments mkFileWorld {D tid}. Arguments fw_service {D tid}. Arguments fw_timer {D tid}.
Arguments fw_env {D tid}. Arguments fw_blobs {D tid}. Arguments fw_agree {D tid}.

Section operations.
Context {D : Type} {tid : nat}.

Definition with_timer (p : process * gset nat) (w : file_world D tid) : file_world D tid :=
  mkFileWorld (fw_service w) p (fw_env w) (fw_blobs w) (fw_agree w).

Definition world_GetTime (w : file_world D tid) : Z * file_world D tid :=
  let r := CollectorService.CBTF_GetTime (fw_service w).1 in
  (r.1, mkFileWorld (r.2, (fw_service w).2) (fw_timer w) (fw_env w) (fw_blobs w) (fw_agree w)).

Lemma send_agree h d (w : file_world D tid) :
  data_headers tid (CollectorService.log (CollectorService.cbtf_collector_send CollectorService.FILEIO tid h (fw_service w)).1) =
    fst <$> (fw_blobs w ++ [(h, d)]).
Proof.
  destruct w as [[g t] p e b Ha]. simpl in *. rewrite data_headers_app, Ha, fmap_app. f_equal.
  unfold data_headers. simpl. by rewrite bool_decide_true.
Qed.

Definition world_send (h : CBTF_DataHeader) (d : D) (w : file_world D tid) : file_world D tid :=
  mkFileWorld (CollectorService.cbtf_collector_send CollectorService.FILEIO tid h (fw_service w)) (fw_timer w) (fw_env w)
    (fw_blobs w ++ [(h, d)]) (send_agree h d w).

(** The handles of POSIX timers are not NULL here. *)
Context (have_posix force_itimer : bool) (timer_create_ok : process -> bool) (handler : Z).

Definition file_services : Services.Services (file_world D tid) D := {|
  Services.CBTF_GetTime w := Ok (world_GetTime w);
  Services.cbtf_collector_send h d w := Ok (world_send h d w);
  Services.svc_timer_start interval w :=
    Ok (with_timer (CBTF_Timer have_posix force_itimer (fun _ => false) timer_create_ok tid interval (Some handler) (fw_timer w).1,
                    (fw_timer w).2) w);
  Services.svc_timer_stop w :=
    Ok (with_timer (CBTF_Timer have_posix force_itimer (fun _ => false) timer_create_ok tid 0 None (fw_timer w).1,
                    (fw_timer w).2) w);
  Services.svc_block_signal w := with_timer (CBTF_BlockTimerSignal have_posix force_itimer tid (fw_timer w)) w;
  Services.svc_unblock_signal w := with_timer (CBTF_UnBlockTimerSignal have_posix force_itimer tid (fw_timer w)) w;
  Services.monitor_mpi_comm_rank w := CollectorService.mpi_rank (fw_service w).1;
  Services.monitor_get_thread_num w := CollectorService.thread_num tid;
  Services.getenv w := fw_env w;
  Services.cbtf_connected_to_mrnet w := CollectorService.cbtf_connected_to_mrnet CollectorService.FILEIO (fw_service w).1;
  Services.cbtf_mpi_init_done w := CollectorService.cbtf_mpi_init_done (fw_service w).1
|}.

(** The two services keep the promises of the interface. *)
Definition file_laws : @Services.ServicesLaws (file_world D tid) D file_services.
Proof.
  refine {| Services.sent := fw_blobs |}; simpl; intros; repeat eexists; auto; apply Z.mod_pos_bound; lia.
Defined.
End operations.

(** ** pcsamp on these services *)
Section pcsamp_world.
Context (bld : build) (tid : nat) (handler addr : Z).
Context (timer_create_ok : process -> bool) (create_succeeds : forall p, timer_create_ok p = true).
Notation world := (file_world pcsamp_data tid).
#[local] Instance pcsamp_services : Services world pcsamp_data := file_services true false timer_create_ok handler.
#[local] Instance pcsamp_laws : ServicesLaws world pcsamp_data := file_laws true false timer_create_ok handler.






End pcsamp_world.




