(* ===== verification/Monitor.v ===== *)
(** The libmonitor callbacks: services/src/monitor/Monitor.c. libmonitor calls
    them in the thread they concern; each is a function of the thread's monitor
    storage, the process-wide flags and the collector service below it. *)
From S2P Require Import Prelude Headers DLInfo CollectorService.

Inductive CBTF_Monitor_Type := Monitor_Proc | Monitor_Thread | Monitor_Default.

(** One node of the list of dlopened objects. *)
Record dlinfo := mkDlinfo {
  dl_load_time : Z; dl_unload_time : Z; dl_name : cstr; dl_handle : Z
}.

(** Thread-local storage. The list is kept newest first; cbtf_dllist_curr points
    at the node that has [dll_curr] - 1 nodes after it, or is NULL when it is 0. *)
Record mtls := mkMtls {
  in_mpi_pre_init : bool;
  mpi_pcontrol : bool;
  start_enabled : bool;
  sampling_status : CBTF_Monitor_Status;
  process_is_terminating : bool;
  thread_is_terminating : bool;
  collector_started : bool;
  monitor_type : CBTF_Monitor_Type;
  dll_head : list dlinfo;
  dll_curr : nat
}.

(** Process-wide flags, and the static counters of the two fini callbacks. *)
Record mglobals := mkMglobals {
  CBTF_in_mpi_startup : bool;
  init_mpi_comm_rank : bool;
  fini_process_calls : Z;
  fini_library_calls : Z
}.

Record mon := mkMon { mg : mglobals; mt : mtls; svc : St }.

Definition set_sampling (st : CBTF_Monitor_Status) (m : mon) : mon :=
  let t := mt m in
  mkMon (mg m) (mkMtls (in_mpi_pre_init t) (mpi_pcontrol t) (start_enabled t) st (process_is_terminating t)
    (thread_is_terminating t) (collector_started t) (monitor_type t) (dll_head t) (dll_curr t)) (svc m).
Definition set_terminating (p th : bool) (m : mon) : mon :=
  let t := mt m in
  mkMon (mg m) (mkMtls (in_mpi_pre_init t) (mpi_pcontrol t) (start_enabled t) (sampling_status t) p th
    (collector_started t) (monitor_type t) (dll_head t) (dll_curr t)) (svc m).
Definition set_collector_started (b : bool) (m : mon) : mon :=
  let t := mt m in
  mkMon (mg m) (mkMtls (in_mpi_pre_init t) (mpi_pcontrol t) (start_enabled t) (sampling_status t)
    (process_is_terminating t) (thread_is_terminating t) b (monitor_type t) (dll_head t) (dll_curr t)) (svc m).
Definition set_type (ty : CBTF_Monitor_Type) (m : mon) : mon :=
  let t := mt m in
  mkMon (mg m) (mkMtls (in_mpi_pre_init t) (mpi_pcontrol t) (start_enabled t) (sampling_status t)
    (process_is_terminating t) (thread_is_terminating t) (collector_started t) ty (dll_head t) (dll_curr t)) (svc m).
Definition set_pre_init (b : bool) (m : mon) : mon :=
  let t := mt m in
  mkMon (mg m) (mkMtls b (mpi_pcontrol t) (start_enabled t) (sampling_status t) (process_is_terminating t)
    (thread_is_terminating t) (collector_started t) (monitor_type t) (dll_head t) (dll_curr t)) (svc m).
Definition set_pcontrol (p e : bool) (m : mon) : mon :=
  let t := mt m in
  mkMon (mg m) (mkMtls (in_mpi_pre_init t) p e (sampling_status t) (process_is_terminating t)
    (thread_is_terminating t) (collector_started t) (monitor_type t) (dll_head t) (dll_curr t)) (svc m).
Definition set_dll (h : list dlinfo) (c : nat) (m : mon) : mon :=
  let t := mt m in
  mkMon (mg m) (mkMtls (in_mpi_pre_init t) (mpi_pcontrol t) (start_enabled t) (sampling_status t)
    (process_is_terminating t) (thread_is_terminating t) (collector_started t) (monitor_type t) h c) (svc m).
Definition set_startup (b r : bool) (m : mon) : mon :=
  mkMon (mkMglobals b r (fini_process_calls (mg m)) (fini_library_calls (mg m))) (mt m) (svc m).
Definition set_fini (p l : Z) (m : mon) : mon :=
  mkMon (mkMglobals (CBTF_in_mpi_startup (mg m)) (init_mpi_comm_rank (mg m)) p l) (mt m) (svc m).
Definition on_svc (f : St -> St) (m : mon) : mon := mkMon (mg m) (mt m) (f (svc m)).
Definition try_svc (f : St -> outcome St) (m : mon) : outcome mon :=
  s ← f (svc m); Ok (mkMon (mg m) (mt m) s).

Section callbacks.
Context (mode : build_mode) (offline : bool) (who : identity) (tid : nat).
Context (sizeof_obj : Z) (maps : list cstr) (exe unique_id : string).
(** Whether one of the two environment variables is set, of each pair
    OPENSS_/CBTF_ENABLE_MPI_PCONTROL and OPENSS_/CBTF_START_ENABLED. *)
Context (env_pcontrol env_start_enabled : bool).

Definition notify (e : CBTF_Monitor_Event_Type) : mon -> mon :=
  on_svc (cbtf_offline_notify_event mode tid e).
Definition status (e : CBTF_Monitor_Event_Type) (st : CBTF_Monitor_Status) : mon -> mon :=
  on_svc (cbtf_offline_sampling_status mode tid e st).
Definition start_sampling : mon -> outcome mon :=
  try_svc (cbtf_offline_start_sampling mode offline who tid unique_id).
Definition stop_sampling : mon -> outcome mon :=
  try_svc (cbtf_offline_stop_sampling mode offline who tid sizeof_obj maps exe unique_id true).

Definition is_status (st : CBTF_Monitor_Status) (m : mon) : bool := bool_decide (sampling_status (mt m) = st).
Definition in_startup (m : mon) : bool := CBTF_in_mpi_startup (mg m) || in_mpi_pre_init (mt m).

(** ** Process *)
Definition monitor_fini_process (m : mon) : outcome mon :=
  if is_status Finished m then Ok m
  else if is_status Not_Started m then Ok m
  else if fini_process_calls (mg m) >? 0 then Aborted      (* raise(SIGSEGV) *)
  else
    let m1 := set_fini (fini_process_calls (mg m) + 1) (fini_library_calls (mg m)) m in
    let m2 := set_terminating true (thread_is_terminating (mt m1)) (set_sampling Finished m1) in
    m3 ← stop_sampling m2;
    Ok (notify fini_process_event m3).

(** From the pcontrol flags on, common to processes and threads. *)
Definition start_collecting (ty : CBTF_Monitor_Type) (e : CBTF_Monitor_Event_Type) (m : mon) : outcome mon :=
  let m1 := set_pcontrol env_pcontrol env_start_enabled (set_type ty m) in
  m2 ← start_sampling (set_collector_started true (set_sampling Started m1));
  let m3 := notify e m2 in
  Ok (if mpi_pcontrol (mt m3) && negb (start_enabled (mt m3))
      then status e Paused (set_sampling Paused m3) else m3).

Definition monitor_init_process (m : mon) : outcome mon :=
  let m1 := set_pre_init false (set_collector_started false (set_dll [] 0 m)) in
  if in_startup m1 then Ok (status init_process_event Not_Started (set_sampling Not_Started m1))
  else start_collecting Monitor_Proc init_process_event m1.

Definition monitor_fini_library (m : mon) : outcome mon :=
  if fini_library_calls (mg m) >? 0 then Aborted
  else Ok (set_fini (fini_process_calls (mg m)) (fini_library_calls (mg m) + 1) m).

(** ** Threads *)
Definition monitor_fini_thread (m : mon) : outcome mon :=
  if negb (collector_started (mt m)) then Ok m else
    m1 ← stop_sampling m;
    let m2 := set_terminating (process_is_terminating (mt m1)) true (set_sampling Finished m1) in
    Ok (notify fini_thread_event m2).

Definition monitor_init_thread (m : mon) : outcome mon :=
  let m1 := set_pre_init false (set_dll [] 0 (set_collector_started false m)) in
  start_collecting Monitor_Thread init_thread_event m1.

(** ** dlopen and dlclose *)
Definition gettime (m : mon) : Z * mon :=
  let (t, g) := CBTF_GetTime (svc m).1 in (t, mkMon (mg m) (mt m) (g, (svc m).2)).

Definition monitor_dlopen (library : option cstr) (handle : Z) (m : mon) : mon :=
  if is_status Finished m then m
  else if in_startup m then m
  else match library with
  | None => m
  | Some name =>
      let (t1, m1) := gettime m in
      let (t2, m2) := gettime m1 in
      let nodes := mkDlinfo t1 (u64 (t2 + 1)) name handle :: dll_head (mt m2) in
      let m3 := set_dll nodes (length nodes) m2 in
      if is_status Paused m3 && negb (in_mpi_pre_init (mt m3))
      then status dlopen_event Resumed (set_sampling Resumed m3) else m3
  end.

Definition monitor_pre_dlopen (path : option cstr) (m : mon) : mon :=
  if is_status Finished m then m
  else if in_mpi_pre_init (mt m) then m
  else match path with
  | None => m
  | Some _ =>
      if (is_status Started m || is_status Resumed m) && negb (in_mpi_pre_init (mt m))
      then status pre_dlopen_event Paused (set_sampling Paused m) else m
  end.

(** while (curr) { if (curr->handle == handle) ...; curr = curr->next; } *)
Fixpoint find_handle (handle : Z) (nodes : list dlinfo) : option (dlinfo * nat) :=
  match nodes with
  | [] => None
  | d :: rest => if dl_handle d =? handle then Some (d, length nodes) else find_handle handle rest
  end.

Definition close_node (handle : Z) (m : mon) : outcome mon :=
  let nodes := dll_head (mt m) in
  match find_handle handle (drop (length nodes - dll_curr (mt m)) nodes) with
  | None => Ok (set_dll nodes 0 m)
  | Some (d, c) =>
      let (t, m') := gettime m in
      let d' := mkDlinfo (dl_load_time d) t (dl_name d) (dl_handle d) in
      let m'' := set_dll (<[(length nodes - c)%nat := d']> nodes) c m' in
      try_svc (get_dl_info mode offline who tid sizeof_obj maps exe (Some (dl_name d'))
                 (dl_load_time d') (dl_unload_time d')) m''
  end.

Definition monitor_dlclose (handle : Z) (m : mon) : outcome mon :=
  if is_status Finished m then Ok m
  else if in_mpi_pre_init (mt m) then Ok m
  else
    m1 ← close_node handle m;
    Ok (if negb (thread_is_terminating (mt m1)) || negb (process_is_terminating (mt m1)) then
          if (is_status Started m1 || is_status Resumed m1) && negb (in_mpi_pre_init (mt m1))
          then status dlclose_event Paused (set_sampling Paused m1) else m1
        else m1).

Definition monitor_post_dlclose (m : mon) : mon :=
  if is_status Finished m then m
  else if in_mpi_pre_init (mt m) then m
  else if negb (thread_is_terminating (mt m)) || negb (process_is_terminating (mt m)) then
    if is_status Paused m && negb (in_mpi_pre_init (mt m))
    then status post_dlclose_event Resumed (set_sampling Resumed m) else m
  else m.

(** ** fork *)
Definition monitor_pre_fork (m : mon) : mon :=
  if in_startup m then m
  else if is_status Paused m || is_status Started m
  then status pre_fork_event Paused (set_sampling Paused m) else m.

Definition monitor_post_fork (m : mon) : mon :=
  if in_startup m then m
  else if is_status Paused m || is_status Finished m
  then status post_fork_event Resumed (set_sampling Resumed (set_type Monitor_Proc m)) else m.

(** ** MPI *)
Definition monitor_mpi_pre_init (m : mon) : mon :=
  let m1 := notify MPI_pre_init_event (set_startup true false (set_pre_init true m)) in
  if is_status Started m1 then status MPI_pre_init_event Paused (set_sampling Paused m1) else m1.

Definition monitor_init_mpi (m : mon) : mon :=
  let resume_sampling := is_status Paused m &&
    (if mpi_pcontrol (mt m) && start_enabled (mt m) then true
     else if mpi_pcontrol (mt m) && negb (start_enabled (mt m)) then false else true) in
  let m1 := notify MPI_init_event m in
  let m2 := if resume_sampling then status MPI_init_event Resumed (set_sampling Resumed m1) else m1 in
  set_startup false (init_mpi_comm_rank (mg m2)) (set_pre_init false m2).

Definition monitor_fini_mpi (m : mon) : mon := notify MPI_fini_event m.
Definition monitor_mpi_post_fini (m : mon) : mon := notify MPI_post_fini_event m.

Definition monitor_mpi_post_comm_rank (m : mon) : mon :=
  if init_mpi_comm_rank (mg m) then m else
    let m1 := set_startup (CBTF_in_mpi_startup (mg m)) true m in
    let m2 := if mpi_pcontrol (mt m1) && start_enabled (mt m1) then set_sampling Resumed m1
              else if mpi_pcontrol (mt m1) && negb (start_enabled (mt m1)) then m1
              else set_sampling Resumed m1 in
    status MPI_post_comm_rank_event Resumed m2.

Definition monitor_mpi_pcontrol (level : Z) (m : mon) : outcome mon :=
  if mpi_pcontrol (mt m) then
    if level =? 0 then
      Ok (if (is_status Started m || is_status Resumed m) && negb (in_mpi_pre_init (mt m))
          then status mpi_pcontrol_event Paused (set_sampling Paused m) else m)
    else if level =? 1 then
      if is_status Not_Started m then
        start_sampling (set_sampling Started (set_type Monitor_Proc (notify mpi_pcontrol_event m)))
      else Ok (if is_status Paused m && negb (in_mpi_pre_init (mt m))
               then status mpi_pcontrol_event Resumed (set_sampling Resumed m) else m)
    else Ok m
  else Ok m.

(** ** Runs *)
Inductive callback :=
| CbPreDlopen (path : option cstr) | CbDlopen (lib : option cstr) (handle : Z)
| CbDlclose (handle : Z) | CbPostDlclose | CbPreFork | CbPostFork
| CbMpiPreInit | CbInitMpi | CbFiniMpi | CbMpiPostFini | CbPostCommRank | CbPcontrol (level : Z).

Definition call_back (c : callback) (m : mon) : outcome mon :=
  match c with
  | CbPreDlopen p => Ok (monitor_pre_dlopen p m)
  | CbDlopen l h => Ok (monitor_dlopen l h m)
  | CbDlclose h => monitor_dlclose h m
  | CbPostDlclose => Ok (monitor_post_dlclose m)
  | CbPreFork => Ok (monitor_pre_fork m)
  | CbPostFork => Ok (monitor_post_fork m)
  | CbMpiPreInit => Ok (monitor_mpi_pre_init m)
  | CbInitMpi => Ok (monitor_init_mpi m)
  | CbFiniMpi => Ok (monitor_fini_mpi m)
  | CbMpiPostFini => Ok (monitor_mpi_post_fini m)
  | CbPostCommRank => Ok (monitor_mpi_post_comm_rank m)
  | CbPcontrol l => monitor_mpi_pcontrol l m
  end.

Fixpoint call_backs (cs : list callback) (m : mon) : outcome mon :=
  match cs with
  | [] => Ok m
  | c :: cs' => m' ← call_back c m; call_backs cs' m'
  end.
End callbacks.

(** Whether a thread's collector collects, by the calls it received: it does
    from its start to its stop, except while it is paused. *)
Fixpoint collecting_from (tid : nat) (on : bool) (l : list (nat * action)) : bool :=
  match l with
  | [] => on
  | (t, a) :: l' =>
      let on' := if Nat.eqb t tid then
                   match a with
                   | CollectorStart _ | CollectorResume => true
                   | CollectorStop | CollectorPause => false
                   | _ => on
                   end else on in
      collecting_from tid on' l'
  end.
Definition collecting (tid : nat) (l : list (nat * action)) : bool := collecting_from tid false l.

Lemma collecting_from_app tid on l l' :
  collecting_from tid on (l ++ l') = collecting_from tid (collecting_from tid on l) l'.
Proof.
  revert on. induction l as [|[t a] l IH]; intros on; [done|]. simpl. apply IH.
Qed.

Lemma collecting_snoc tid l a :
  collecting tid (l ++ [(tid, a)]) =
    match a with
    | CollectorStart _ | CollectorResume => true
    | CollectorStop | CollectorPause => false
    | _ => collecting tid l
    end.
Proof.
  unfold collecting. rewrite collecting_from_app. simpl. rewrite Nat.eqb_refl. by destruct a.
Qed.

(** The collector's state in terms of what the service last told it. *)
Definition in_step (tid : nat) (s : St) : Prop :=
  collecting tid (log s.1) = negb (bool_decide (c_status s.2 = Paused)).

Lemma control_in_step tid st s :
  st = Paused \/ st = Resumed -> in_step tid s ->
  let s' := cbtf_offline_service_sampling_control tid st s in
  in_step tid s' /\ c_status s'.2 = st /\ m_started s'.2 = m_started s.2.
Proof.
  destruct s as [g t]. unfold in_step. cbn [fst snd]. intros Hst Hin.
  unfold cbtf_offline_service_sampling_control. cbn [fst snd]. split; [|by destruct t].
  destruct Hst as [-> | ->]; destruct (c_status t) eqn:Hc; simpl;
    rewrite ?collecting_snoc; try done; by rewrite Hin.
Qed.

(** MPI_Pcontrol(1) does not turn collection on again: once a thread's
    collector does not collect, it does not after any sequence of MPI_Pcontrol
    calls. *)
Theorem pcontrol_never_resumes (mode : build_mode) (offline : bool) (who : identity) (tid : nat)
    (sizeof_obj : Z) (maps : list cstr) (exe unique_id : string) (levels : list Z) (m : mon) :
  sampling_status (mt m) <> Not_Started -> collecting tid (log (svc m).1) = false ->
  exists m', call_backs mode offline who tid sizeof_obj maps exe unique_id (CbPcontrol <$> levels) m = Ok m' /\
    collecting tid (log (svc m').1) = false.
Proof.
  revert m. induction levels as [|l levels IH]; intros m Hns Hc; simpl; [by exists m|].
  assert (Hstep : exists m1, monitor_mpi_pcontrol mode offline who tid unique_id l m = Ok m1 /\
    sampling_status (mt m1) <> Not_Started /\ collecting tid (log (svc m1).1) = false).
  { unfold monitor_mpi_pcontrol. destruct (mpi_pcontrol (mt m)); [|by exists m].
    destruct (l =? 0).
    - eexists. split; [reflexivity|]. destruct (_ && _); [|done]. split; [done|].
      destruct m as [g t [sh th]]. simpl in *. unfold pause_or_pause. simpl.
      destruct (m_started th); [|done]. simpl. destruct (c_status th); simpl; rewrite ?collecting_snoc; done.
    - destruct (l =? 1); [|by exists m]. unfold is_status at 1. rewrite bool_decide_false by done.
      eexists. split; [reflexivity|]. destruct (_ && _); [|done]. split; done. }
  destruct Hstep as (m1 & -> & Hns1 & Hc1). rewrite bind_of_Ok. by apply IH.
Qed.

(** With MPI_Pcontrol enabled and CBTF_START_ENABLED not set, the start of a
    process means to defer collection (its status is Paused), but the pause is
    sent with an event the collector service ignores: the collector collects. *)
Theorem deferred_start_still_collects (offline : bool) (who : identity) (tid : nat)
    (unique_id : string) (h : CBTF_DataHeader) (m : mon) :
  CBTF_InitializeDataHeader offline who 0 1 = Ok h -> CBTF_in_mpi_startup (mg m) = false ->
  exists m', monitor_init_process FILEIO offline who tid unique_id true false m = Ok m' /\
    sampling_status (mt m') = Paused /\ collecting tid (log (svc m').1) = true.
Proof.
  intros Hh Hs. destruct m as [g t [sh th]]. simpl in Hs. unfold monitor_init_process, in_startup. simpl.
  rewrite Hs. simpl. unfold start_collecting, start_sampling, try_svc. simpl.
  unfold cbtf_offline_start_sampling, cbtf_timer_service_start_sampling. simpl.
  rewrite Hh. simpl. eexists. split; [reflexivity|]. simpl. split; [done|]. by rewrite collecting_snoc.
Qed.

(** ** Recording linked objects leaves the rest of the service alone *)
Definition is_dsos (a : action) : bool := match a with SendDsos _ _ => true | _ => false end.

Record dso_frame (tid : nat) (s s' : St) : Prop := {
  df_log : exists new, log s'.1 = log s.1 ++ new /\ Forall (fun a => is_dsos a.2 = true) new;
  df_status : c_status s'.2 = c_status s.2;
  df_started : m_started s'.2 = m_started s.2;
  df_ompt : c_has_ompt s'.2 = c_has_ompt s.2 /\ c_ompt_finished s'.2 = c_ompt_finished s.2
}.

Lemma dso_frame_trans tid s1 s2 s3 : dso_frame tid s1 s2 -> dso_frame tid s2 s3 -> dso_frame tid s1 s3.
Proof.
  intros [(n1 & H1 & F1) ? ? [? ?]] [(n2 & H2 & F2) ? ? [? ?]]. constructor; try congruence.
  - exists (n1 ++ n2). split; [by rewrite H2, H1, app_assoc|by apply Forall_app_2].
  - split; congruence.
Qed.

Lemma dso_frame_collecting tid s s' :
  dso_frame tid s s' -> collecting tid (log s'.1) = collecting tid (log s.1).
Proof.
  intros [(new & -> & Hf) _ _ _]. unfold collecting. rewrite collecting_from_app.
  generalize (collecting_from tid false (log s.1)). induction Hf as [|[t a] new Ha _ IH]; intros on; [done|].
  simpl. destruct (Nat.eqb t tid); [|done]. by destruct a.
Qed.

Section frame.
Context (mode : build_mode) (offline : bool) (who : identity) (tid : nat).
Context (sizeof_obj : Z) (maps : list cstr) (exe unique_id : string).

Lemma dso_frame_same s s' :
  log s'.1 = log s.1 -> c_status s'.2 = c_status s.2 -> m_started s'.2 = m_started s.2 ->
  c_has_ompt s'.2 = c_has_ompt s.2 -> c_ompt_finished s'.2 = c_ompt_finished s.2 -> dso_frame tid s s'.
Proof. intros. constructor; auto. exists []. by rewrite app_nil_r. Qed.

Lemma send_dsos_frame s : dso_frame tid s (cbtf_offline_send_dsos mode tid s).
Proof.
  destruct s as [g t]. unfold cbtf_offline_send_dsos.
  assert (H : dso_frame tid (g, t) (emit tid (SendDsos (c_dso_header t) (c_objs t)) g, set_objs [] 0 t)).
  { constructor; try done. eexists. split; [reflexivity|]. by repeat constructor. }
  destruct (use_mrnet mode); [|done]. destruct (connected g); [done|by apply dso_frame_same].
Qed.

Lemma store_frame o s s' : store_object mode tid sizeof_obj o s = Ok s' -> dso_frame tid s s'.
Proof.
  unfold store_object. intros H. destruct (_ >? _).
  - pose proof (send_dsos_frame s) as Hq. destruct (cbtf_offline_send_dsos mode tid s) as [g t].
    destruct (_ <? _); [|done]. injection H as <-. eapply dso_frame_trans; [exact Hq|]. by apply dso_frame_same.
  - destruct s as [g t]. destruct (_ <? _); [|done]. injection H as <-. by apply dso_frame_same.
Qed.

Lemma record_dls_frame rs : forall s s',
  record_dls mode offline who tid sizeof_obj exe rs s = Ok s' -> dso_frame tid s s'.
Proof.
  induction rs as [|r rs IH]; intros s s' H; simpl in H; inv_ok; [by apply dso_frame_same|].
  eapply dso_frame_trans; [|by apply IH].
  destruct r as [p b e|p b e bt et]; simpl in H;
    unfold cbtf_offline_record_dso, cbtf_offline_record_dlopen, start_dso_record in H; inv_ok;
    cbn -[store_object name_thread] in *;
    match goal with H : store_object _ _ _ _ _ = Ok _ |- _ =>
      apply store_frame in H; eapply dso_frame_trans; [|exact H] end;
    unfold name_thread; destruct (use_mrnet mode); by apply dso_frame_same.
Qed.
End frame.

(** The address map can be read, whichever object is asked for. *)
Definition readable (maps : list cstr) : Prop := Forall (fun l => exists r, parse_maps_line l = Ok r) maps.

Lemma GetDLInfo_total maps path bt et : readable maps -> exists rs, CBTF_GetDLInfo maps path bt et = Ok rs.
Proof.
  induction 1 as [|l maps [r Hr] _ [rs IH]]; simpl; [eauto|]. rewrite Hr, bind_of_Ok.
  destruct r as [[[b e] p]|]; [|eauto]. destruct path as [q|]; [destruct (starts_with _ _); eauto|].
  rewrite IH. eauto.
Qed.

(** The buffer of linked objects can take another one. *)
Definition buffer_ok (s : St) : Prop :=
  Z.of_nat (length (c_objs s.2)) <= CBTF_MAXLINKEDOBJECTS /\
  Z.of_nat (length (c_objs s.2)) <= c_dsoname_len s.2.

Section running.
Context (offline : bool) (who : identity) (tid : nat).
Context (sizeof_obj : Z) (maps : list cstr) (exe unique_id : string) (size_pos : 0 < sizeof_obj).
Context (eh : CBTF_EventHeader) (header_ok : CBTF_InitializeEventHeader offline who = Ok eh).
Context (maps_ok : readable maps).

Lemma get_dl_info_ok p bt et s :
  buffer_ok s ->
  exists s', get_dl_info FILEIO offline who tid sizeof_obj maps exe p bt et s = Ok s' /\
    buffer_ok s' /\ dso_frame tid s s'.
Proof.
  intros [Hb1 Hb2]. unfold get_dl_info. destruct (GetDLInfo_total maps p bt et maps_ok) as [rs Hrs].
  rewrite Hrs, bind_of_Ok.
  assert (Hi : dso_inv FILEIO s s (obj_key <$> c_objs s.2)).
  { constructor; try done. exists []. rewrite app_nil_r. done. }
  destruct (record_dls_inv FILEIO offline who tid sizeof_obj exe size_pos eh header_ok s rs s _ Hi)
    as (s' & Hs' & [_ H1 H2 _]); [by eapply GetDLInfo_nonempty|].
  exists s'. split_and!; [done|done|]. by eapply record_dls_frame.
Qed.

(** A running process without MPI_Pcontrol: its collector is told to pause only
    by the start of MPI_Init, and is then still in it. *)
Record running (m : mon) : Prop := {
  ru_pcontrol : mpi_pcontrol (mt m) = false;
  ru_status : sampling_status (mt m) <> Not_Started /\ sampling_status (mt m) <> Finished;
  ru_startup : CBTF_in_mpi_startup (mg m) = in_mpi_pre_init (mt m);
  ru_started : m_started (svc m).2 = true;
  ru_in_step : in_step tid (svc m);
  ru_paused : c_status (svc m).2 = Paused ->
    in_mpi_pre_init (mt m) = true /\ sampling_status (mt m) = Paused;
  ru_buffer : buffer_ok (svc m);
  ru_ompt : c_has_ompt (svc m).2 = false;
  ru_fini : fini_process_calls (mg m) = 0
}.

(** When libmonitor makes the MPI calls: MPI_Init is not nested, and the first
    MPI_Comm_rank is not made inside it. *)
Definition orderly (c : callback) (m : mon) : bool :=
  match c with
  | CbMpiPreInit | CbPostCommRank => negb (in_mpi_pre_init (mt m))
  | CbInitMpi => in_mpi_pre_init (mt m)
  | _ => true
  end.

Lemma control_buffer st s : buffer_ok s -> buffer_ok (cbtf_offline_service_sampling_control tid st s).
Proof. by destruct s. Qed.

(** A change of the monitor status outside MPI_Init that leaves the service alone. *)
Lemma running_status m st :
  running m -> in_mpi_pre_init (mt m) = false -> st <> Not_Started -> st <> Finished ->
  running (set_sampling st m).
Proof.
  intros [Hp [Hs1 Hs2] Hst Hsd Hin Hpa Hb Hom Hfp] Hpre H1 H2. constructor; try done.
  intros Hc. destruct (Hpa Hc) as [Hpi _]. rewrite Hpre in Hpi. done.
Qed.

Lemma running_dlclose h m :
  running m -> exists m', monitor_dlclose FILEIO offline who tid sizeof_obj maps exe h m = Ok m' /\ running m'.
Proof.
  intros Hr. unfold monitor_dlclose. destruct (is_status Finished m); [by exists m|].
  destruct (in_mpi_pre_init (mt m)) eqn:Hpre; [by exists m|].
  assert (Hfind : exists m1, close_node FILEIO offline who tid sizeof_obj maps exe h m = Ok m1 /\
    running m1 /\ in_mpi_pre_init (mt m1) = false).
  { unfold close_node. destruct (find_handle _ _) as [[d c]|].
    - cbn [gettime CBTF_GetTime]. unfold try_svc. cbn [svc set_dll].
      destruct Hr as [Hp Hst Hsu Hsd Hin Hpa Hb Hom Hfp]. destruct m as [g t [sh th]]. cbn [mg mt svc fst snd] in *.
      match goal with |- context [get_dl_info _ _ _ _ _ _ _ ?a ?b ?c ?s] =>
        destruct (get_dl_info_ok a b c s Hb) as (s' & -> & Hb' & Hf) end.
      rewrite bind_of_Ok. eexists. split; [reflexivity|]. split; [|done].
      pose proof (dso_frame_collecting _ _ _ Hf) as Hcol. destruct Hf as [_ Hfs Hfm [Hfo _]].
      constructor; cbn [mg mt svc] in *; try done.
      + by rewrite Hfm.
      + unfold in_step in *. cbn [fst snd] in *. by rewrite Hcol, Hfs.
      + by rewrite Hfs.
      + by rewrite Hfo.
    - eexists. split; [reflexivity|]. split; [|done]. by destruct Hr. }
  destruct Hfind as (m1 & -> & Hr1 & Hpre1). rewrite bind_of_Ok. eexists. split; [reflexivity|].
  destruct (_ || _); [|done]. destruct (_ && _); [|done].
  by apply (running_status m1 Paused).
Qed.

Lemma running_comm_rank m :
  running m -> in_mpi_pre_init (mt m) = false ->
  running (status FILEIO tid MPI_post_comm_rank_event Resumed (set_sampling Resumed m)).
Proof.
  intros Hr Hpre. apply (running_status m Resumed) in Hr; [|done..]. revert Hr Hpre.
  set (m1 := set_sampling Resumed m). intros Hr _. unfold status, on_svc, cbtf_offline_sampling_status.
  destruct (_ && _); [|by destruct Hr; constructor]. pose proof Hr as [_ _ _ Hsd Hin _ _ _ _].
  pose proof (control_in_step tid Paused (svc m1) ltac:(by left) Hin) as (Hi1 & _ & Hd1).
  pose proof (control_in_step tid Resumed _ ltac:(by right) Hi1) as (Hi2 & Hc2 & Hd2).
  rewrite Hsd, Hd1, Hsd. destruct Hr. constructor; cbn [mg mt svc]; try done.
  - by rewrite Hd2, Hd1.
  - intros Hc. by rewrite Hc2 in Hc.
  - by repeat apply control_buffer.
  - by destruct (svc m1).
Qed.

Lemma running_call c m :
  running m -> orderly c m = true ->
  exists m', call_back FILEIO offline who tid sizeof_obj maps exe unique_id c m = Ok m' /\ running m'.
Proof.
  intros Hr Ho. pose proof Hr as [Hp [Hs1 Hs2] Hsu Hsd Hin Hpa Hb Hom Hfp].
  destruct c as [p|l h|h| | | | | | | | |lv]; simpl in *.
  - eexists. split; [reflexivity|]. unfold monitor_pre_dlopen. destruct (is_status Finished m); [done|].
    destruct (in_mpi_pre_init (mt m)) eqn:Hpre; [done|]. destruct p; [|done].
    destruct (_ && _); [|done]. by apply (running_status m Paused).
  - eexists. split; [reflexivity|]. unfold monitor_dlopen. destruct (is_status Finished m); [done|].
    unfold in_startup. destruct (CBTF_in_mpi_startup (mg m) || in_mpi_pre_init (mt m)) eqn:Hst; [done|].
    apply orb_false_iff in Hst as [_ Hpre]. destruct l; [|done]. cbn [gettime CBTF_GetTime].
    match goal with |- running (if ?b then _ else ?q) => set (m3 := q); assert (Hr3 : running m3) end.
    { constructor; done. }
    destruct (_ && _); [|done]. by apply (running_status m3 Resumed).
  - by apply running_dlclose.
  - eexists. split; [reflexivity|]. unfold monitor_post_dlclose. destruct (is_status Finished m); [done|].
    destruct (in_mpi_pre_init (mt m)) eqn:Hpre; [done|]. destruct (_ || _); [|done].
    destruct (_ && _); [|done]. by apply (running_status m Resumed).
  - eexists. split; [reflexivity|]. unfold monitor_pre_fork, in_startup. rewrite Hsu.
    destruct (in_mpi_pre_init (mt m)) eqn:Hpre; [done|]. simpl.
    destruct (_ || _); [|done]. by apply (running_status m Paused).
  - eexists. split; [reflexivity|]. unfold monitor_post_fork, in_startup. rewrite Hsu.
    destruct (in_mpi_pre_init (mt m)) eqn:Hpre; [done|]. simpl.
    destruct (_ || _); [|done]. 
    assert (Hq : status FILEIO tid post_fork_event Resumed (set_sampling Resumed (set_type Monitor_Proc m)) =
      set_sampling Resumed (set_type Monitor_Proc m)) by (by destruct m as [g t [sh th]]).
    rewrite Hq. apply running_status; [|done..]. by destruct Hr; constructor.
  - eexists. split; [reflexivity|]. apply negb_true_iff in Ho. unfold monitor_mpi_pre_init.
    match goal with |- running (if _ then _ else ?q) => set (m1 := q) end.
    assert (Hnp : c_status (svc m).2 <> Paused).
    { intros Hc. destruct (Hpa Hc). congruence. }
    unfold is_status. destruct (bool_decide _) eqn:Hst.
    + pose proof (control_in_step tid Paused (svc m) ltac:(by left) Hin) as (H1 & H2 & H3).
      unfold status, on_svc, cbtf_offline_sampling_status, pause_or_resume.
      change (svc (set_sampling Paused m1)) with (svc m). rewrite Hsd, bool_decide_true by done.
      cbn [andb]. constructor; cbn [mg mt svc]; try done; [by rewrite H3|by apply control_buffer|by destruct (svc m)].
    + constructor; try done.
  - eexists. split; [reflexivity|]. unfold monitor_init_mpi. rewrite Hp. cbn [andb].
    destruct (is_status Paused m) eqn:Hst; cbn [andb].
    + pose proof (control_in_step tid Resumed (set_mpi_init_done true (set_mpi_init_done true (svc m).1), (svc m).2)
        ltac:(by right) Hin) as (H1 & H2 & H3).
      unfold status, on_svc, cbtf_offline_sampling_status.
      match goal with |- context [m_started (svc ?q).2] =>
        change (m_started (svc q).2) with (m_started (svc m).2) end.
      rewrite Hsd, bool_decide_false, bool_decide_true by done. cbn [andb].
      constructor; cbn [mg mt svc set_startup set_pre_init]; try done.
    + assert (Hnp : c_status (svc m).2 <> Paused).
      { intros Hc. destruct (Hpa Hc) as [_ Hq]. unfold is_status in Hst. by rewrite Hq in Hst. }
      constructor; done.
  - eexists. split; [reflexivity|]. by constructor.
  - eexists. split; [reflexivity|]. by constructor.
  - eexists. split; [reflexivity|]. apply negb_true_iff in Ho. unfold monitor_mpi_post_comm_rank.
    destruct (init_mpi_comm_rank (mg m)); [done|]. cbn [set_startup mt mpi_pcontrol]. rewrite Hp. cbn [andb].
    apply running_comm_rank; [|done]. constructor; done.
  - eexists. split; [|exact Hr]. unfold monitor_mpi_pcontrol. by rewrite Hp.
Qed.

(** Where MPI_Init stands after a callback, and the sequences in which it is not
    nested. *)
Definition mpi_phase (inside : bool) (c : callback) : bool :=
  match c with CbMpiPreInit => true | CbInitMpi => false | _ => inside end.
Fixpoint well_nested (inside : bool) (cs : list callback) : bool :=
  match cs with
  | [] => true
  | c :: cs' =>
      match c with
      | CbMpiPreInit | CbPostCommRank => negb inside
      | CbInitMpi => inside
      | _ => true
      end && well_nested (mpi_phase inside c) cs'
  end.

Lemma call_back_phase c m m' :
  call_back FILEIO offline who tid sizeof_obj maps exe unique_id c m = Ok m' ->
  in_mpi_pre_init (mt m') = mpi_phase (in_mpi_pre_init (mt m)) c.
Proof.
  destruct m as [g t [sh th]]. intros H.
  destruct c as [p|l h|h| | | | | | | | |lv]; cbn [call_back] in H; [injection H as <-..| | | | | | | | | |];
    unfold monitor_pre_dlopen, monitor_dlopen, monitor_dlclose, close_node, monitor_post_dlclose,
      monitor_pre_fork, monitor_post_fork, monitor_mpi_pre_init, monitor_init_mpi,
      monitor_mpi_post_comm_rank, monitor_mpi_pcontrol, start_sampling, try_svc, gettime in *;
    cbn [fst snd CBTF_GetTime svc mt mg] in *;
    repeat match goal with
    | H : context [if ?b then _ else _] |- _ => destruct b eqn:?
    | H : context [match ?b with Some _ => _ | None => _ end] |- _ => destruct b as [?|]
    | H : context [let (_, _) := ?b in _] |- _ => destruct b
    | |- context [if ?b then _ else _] => destruct b eqn:?
    | |- context [match ?b with Some _ => _ | None => _ end] => destruct b as [?|]
    end; inv_ok; simpl in *; repeat match goal with |- context [if ?b then _ else _] => destruct b eqn:? end; simpl in *; congruence.
Qed.

Lemma running_calls cs : forall m,
  running m -> well_nested (in_mpi_pre_init (mt m)) cs = true ->
  exists m', call_backs FILEIO offline who tid sizeof_obj maps exe unique_id cs m = Ok m' /\ running m' /\
    in_mpi_pre_init (mt m') = foldl mpi_phase (in_mpi_pre_init (mt m)) cs.
Proof.
  induction cs as [|c cs IH]; intros m Hr Hn; simpl in *; [by exists m|].
  apply andb_true_iff in Hn as [Ho Hn].
  destruct (running_call c m Hr) as (m1 & Hc & Hr1); [by destruct c|].
  rewrite Hc, bind_of_Ok. pose proof (call_back_phase _ _ _ Hc) as Hp. rewrite <- Hp in Hn |- *. by apply IH.
Qed.

Lemma init_process_running dh m :
  CBTF_InitializeDataHeader offline who 0 1 = Ok dh ->
  CBTF_in_mpi_startup (mg m) = false -> c_has_ompt (svc m).2 = false -> fini_process_calls (mg m) = 0 ->
  exists m', monitor_init_process FILEIO offline who tid unique_id false false m = Ok m' /\ running m' /\
    in_mpi_pre_init (mt m') = false.
Proof.
  intros Hh Hs Hom Hfp. destruct m as [g t [sh th]]. simpl in Hs, Hom, Hfp.
  unfold monitor_init_process, in_startup. simpl. rewrite Hs. simpl.
  unfold start_collecting, start_sampling, try_svc. simpl.
  unfold cbtf_offline_start_sampling, cbtf_timer_service_start_sampling. simpl.
  rewrite Hh. simpl. eexists. split; [reflexivity|]. split; [|done].
  constructor; simpl; try done. unfold in_step. simpl. by rewrite collecting_snoc.
Qed.

Lemma fini_process_stops m :
  running m ->
  exists m', monitor_fini_process FILEIO offline who tid sizeof_obj maps exe unique_id m = Ok m' /\
    sampling_status (mt m') = Finished /\ collecting tid (log (svc m').1) = false.
Proof.
  intros [Hp [Hs1 Hs2] Hst Hsd Hin Hpa Hb Hom Hfp]. unfold monitor_fini_process, is_status.
  rewrite !bool_decide_false, Hfp by done. simpl. unfold stop_sampling, try_svc.
  destruct m as [g t [sh th]]. cbn [mg mt svc fst snd set_sampling set_terminating set_fini] in *.
  unfold cbtf_offline_stop_sampling, cbtf_timer_service_stop_sampling. cbn [fst snd]. rewrite Hsd, Hom. simpl.
  unfold cbtf_offline_finish. cbn [fst snd]. cbn [set_status m_started]. rewrite Hsd. unfold cbtf_record_dsos.
  destruct (String.eqb unique_id "overview").
  { rewrite !bind_of_Ok. eexists. split; [reflexivity|]. split; [done|]. simpl. by rewrite collecting_snoc. }
  rewrite header_ok, bind_of_Ok.
  destruct (get_dl_info_ok None 0 0 (emit tid CollectorStop sh, set_status Finished th) Hb)
    as (s' & -> & Hb' & Hf). rewrite !bind_of_Ok. eexists. split; [reflexivity|]. split; [done|].
  cbn [mg mt svc fst snd]. apply dso_frame_collecting in Hf.
  match goal with |- collecting tid (log (svc (notify _ _ _ (mkMon _ _ (fst ?x, _)))).1) = false =>
    change (collecting tid (log x.1) = false) end.
  destruct (0 <? _)%nat; rewrite ?(dso_frame_collecting _ _ _ (send_dsos_frame FILEIO tid s')), Hf;
    simpl; by rewrite collecting_snoc.
Qed.
End running.

(** C7: in the build that writes files, without an OMPT service, with MPI_Pcontrol disabled and outside a running
    MPI_Init, a process that starts and then makes any sequence of dlopen, dlclose, fork
    and MPI callbacks, in which MPI_Init is not nested and MPI_Comm_rank is not called
    inside it, collects at every point outside MPI_Init: no callback fails as long as the
    maps file can be read, and the end of the process stops the collector. With
    MPI_Pcontrol it need not: pcontrol_never_resumes. *)
Theorem process_collects_outside_mpi_init (offline : bool) (who : identity) (tid : nat)
    (sizeof_obj : Z) (maps : list cstr) (exe unique_id : string)
    (dh : CBTF_DataHeader) (eh : CBTF_EventHeader) (cs : list callback) (m : mon) :
  0 < sizeof_obj -> CBTF_InitializeDataHeader offline who 0 1 = Ok dh ->
  CBTF_InitializeEventHeader offline who = Ok eh -> readable maps ->
  CBTF_in_mpi_startup (mg m) = false -> c_has_ompt (svc m).2 = false -> fini_process_calls (mg m) = 0 ->
  well_nested false cs = true ->
  exists m1 m2 m3,
    monitor_init_process FILEIO offline who tid unique_id false false m = Ok m1 /\
    call_backs FILEIO offline who tid sizeof_obj maps exe unique_id cs m1 = Ok m2 /\
    (foldl mpi_phase false cs = false -> collecting tid (log (svc m2).1) = true) /\
    monitor_fini_process FILEIO offline who tid sizeof_obj maps exe unique_id m2 = Ok m3 /\
    sampling_status (mt m3) = Finished /\ collecting tid (log (svc m3).1) = false.
Proof.
  intros Hsz Hdh Heh Hmaps Hs Hom Hfp Hn.
  destruct (init_process_running offline who tid unique_id dh m Hdh Hs Hom Hfp) as (m1 & H1 & Hr1 & Hp1).
  rewrite <- Hp1 in Hn.
  destruct (running_calls offline who tid sizeof_obj maps exe unique_id Hsz eh Heh Hmaps cs m1 Hr1 Hn)
    as (m2 & H2 & Hr2 & Hp2). rewrite Hp1 in Hp2.
  destruct (fini_process_stops offline who tid sizeof_obj maps exe unique_id Hsz eh Heh Hmaps m2 Hr2)
    as (m3 & H3 & Hst & Hc).
  exists m1, m2, m3. split_and!; try done. intros Hout. rewrite <- Hp2 in Hout. destruct Hr2 as [_ _ _ _ Hin Hpa _ _ _].
  rewrite Hin. rewrite bool_decide_false; [done|]. intros Hpz. destruct (Hpa Hpz). congruence.
Qed.

Lemma find_handle_absent h nodes :
  Forall (fun d => dl_handle d <> h) nodes -> find_handle h nodes = None.
Proof. induction 1 as [|d nodes Hd _ IH]; simpl; [done|]. by rewrite (proj2 (Z.eqb_neq _ _) Hd). Qed.

(** The cursor into the list of dlopened objects only moves on: when of two
    objects the one opened first is closed first, the later dlclose of the other
    does not find it, records no linked object and leaves the unload time it had. *)
Theorem dlclose_in_opening_order_is_lost (mode : build_mode) (offline : bool) (who : identity) (tid : nat)
    (sizeof_obj : Z) (maps : list cstr) (exe : string) (a b : dlinfo) (rest : list dlinfo) (m m1 : mon) :
  dll_head (mt m) = b :: a :: rest -> dll_curr (mt m) = length (dll_head (mt m)) ->
  Forall (fun d => dl_handle d <> dl_handle b) (a :: rest) ->
  sampling_status (mt m) <> Finished -> in_mpi_pre_init (mt m) = false ->
  monitor_dlclose mode offline who tid sizeof_obj maps exe (dl_handle a) m = Ok m1 ->
  exists m2, monitor_dlclose mode offline who tid sizeof_obj maps exe (dl_handle b) m1 = Ok m2 /\
    svc m2 = svc m1 /\ head (dll_head (mt m2)) = Some b.
Proof.
  intros Hhead Hcurr Hb Hf Hpre H. apply Forall_cons in Hb as [Hab Hrest].
  assert (H1 : head (dll_head (mt m1)) = Some b /\ dll_curr (mt m1) = S (length rest) /\
    (exists a', dll_head (mt m1) = b :: a' :: rest /\ dl_handle a' <> dl_handle b) /\
    sampling_status (mt m1) <> Finished /\ in_mpi_pre_init (mt m1) = false).
  { revert H. unfold monitor_dlclose at 1, is_status at 1. rewrite bool_decide_false, Hpre by done.
    unfold close_node. rewrite Hcurr, Hhead, Nat.sub_diag. simpl.
    rewrite (proj2 (Z.eqb_neq (dl_handle b) (dl_handle a))) by done. rewrite Z.eqb_refl.
    destruct m as [g t [sh th]]. cbn [gettime CBTF_GetTime]. unfold try_svc. intros H. inv_ok.
    assert (Hone : (S (length rest) - length rest)%nat = 1%nat) by lia.
    repeat match goal with |- context [if ?c then _ else _] => destruct c end; simpl in *;
      rewrite Hone; (split_and!; [done|done|by eexists|done..]). }
  destruct H1 as (_ & Hc1 & (a' & Hh1 & Ha') & Hf1 & Hp1).
  unfold monitor_dlclose, is_status at 1. rewrite bool_decide_false, Hp1 by done.
  assert (Hcl : close_node mode offline who tid sizeof_obj maps exe (dl_handle b) m1 =
    Ok (set_dll (dll_head (mt m1)) 0 m1)).
  { unfold close_node. rewrite Hc1, Hh1. simpl length.
    replace (S (S (length rest)) - S (length rest))%nat with 1%nat by lia.
    rewrite find_handle_absent; [done|]. by constructor. }
  rewrite Hcl, bind_of_Ok. eexists. split; [reflexivity|].
  repeat match goal with |- context [if ?c then _ else _] => destruct c end; simpl; rewrite Hh1; split; try done;
    by destruct m1 as [g1 t1 [sh1 th1]].
Qed.

(** ** Examples *)
Definition example_mon (st : CBTF_Monitor_Status) (pcontrol : bool) (nodes : list dlinfo) : mon :=
  mkMon (mkMglobals false false 0 0)
    (mkMtls false pcontrol false st false false false Monitor_Default nodes (length nodes))
    (example_shared false, example_thread).

Lemma pcontrol_never_resumes_witness :
  exists m', call_backs FILEIO true example_identity 0 64 [] "/bin/a" "pcsamp"
      [CbPcontrol 0; CbPcontrol 1; CbPcontrol 1] (example_mon Paused true []) = Ok m' /\
    collecting 0 (log (svc m').1) = false.
Proof.
  by apply (pcontrol_never_resumes FILEIO true example_identity 0 64 [] "/bin/a" "pcsamp" [0; 1; 1]
    (example_mon Paused true [])).
Defined.

Lemma deferred_start_witness :
  exists m', monitor_init_process FILEIO true example_identity 0 "pcsamp" true false
      (example_mon Not_Started false []) = Ok m' /\
    sampling_status (mt m') = Paused /\ collecting 0 (log (svc m').1) = true.
Proof.
  by apply (deferred_start_still_collects true example_identity 0 "pcsamp"
    (mkDataHeader 0 1 "" "n0" 1 1 (-1) 0 0 0 0 0) (example_mon Not_Started false [])).
Defined.

(** A run through MPI_Init with a dlopen and dlclose after it. *)
Lemma process_collects_witness :
  let cs := [CbMpiPreInit; CbDlopen (Some (str "/lib/b.so")) 5; CbInitMpi; CbPostCommRank;
             CbPreDlopen (Some (str "/lib/b.so")); CbDlopen (Some (str "/lib/b.so")) 5; CbDlclose 5; CbPostDlclose] in
  exists m1 m2 m3,
    monitor_init_process FILEIO true example_identity 0 "pcsamp" false false
      (example_mon Not_Started false []) = Ok m1 /\
    call_backs FILEIO true example_identity 0 64 example_maps "/bin/a" "pcsamp" cs m1 = Ok m2 /\
    collecting 0 (log (svc m2).1) = true /\
    monitor_fini_process FILEIO true example_identity 0 64 example_maps "/bin/a" "pcsamp" m2 = Ok m3 /\
    collecting 0 (log (svc m3).1) = false.
Proof.
  intros cs.
  destruct (process_collects_outside_mpi_init true example_identity 0 64 example_maps "/bin/a" "pcsamp"
    (mkDataHeader 0 1 "" "n0" 1 1 (-1) 0 0 0 0 0) (mkEventHeader "n0" 1 1 (-1) 0 false) cs
    (example_mon Not_Started false [])) as (m1 & m2 & m3 & H1 & H2 & Hc & H3 & _ & Hd); try done.
  - repeat constructor; eexists; vm_compute; reflexivity.
  - exists m1, m2, m3. split; [exact H1|]. split; [exact H2|]. split; [by apply Hc|]. split; [exact H3|exact Hd].
Defined.

(** Handles 5 and 6 are opened in this order and closed in this order. *)
Lemma dlclose_in_opening_order_witness :
  let a := mkDlinfo 1 3 (str "/lib/a.so") 5 in
  let b := mkDlinfo 2 4 (str "/lib/b.so") 6 in
  exists m1 m2, monitor_dlclose FILEIO true example_identity 0 64 example_maps "/bin/a" 5
      (example_mon Started false [b; a]) = Ok m1 /\
    monitor_dlclose FILEIO true example_identity 0 64 example_maps "/bin/a" 6 m1 = Ok m2 /\
    svc m2 = svc m1 /\ head (dll_head (mt m2)) = Some b.
Proof.
  intros a b.
  assert (H1 : exists m1, monitor_dlclose FILEIO true example_identity 0 64 example_maps "/bin/a" 5
      (example_mon Started false [b; a]) = Ok m1) by (eexists; vm_compute; reflexivity).
  destruct H1 as [m1 H1].
  destruct (dlclose_in_opening_order_is_lost FILEIO true example_identity 0 64 example_maps "/bin/a" a b []
    (example_mon Started false [b; a]) m1) as (m2 & H2 & Hs & Hh); try done; [by repeat constructor|].
  exists m1, m2. split; [exact H1|]. split; [exact H2|]. split; [exact Hs|exact Hh].
Defined.
