(* ===== verification/Params.v ===== *)
(** Parameters of collector functions as strings: EncodeParameters.c and
    DecodeParameters.c of services/src/offline. A char is the byte 0..255 of its
    bit pattern; the XDR procedure of the parameter type is a parameter. *)
From S2P Require Import Prelude.

Definition EncodingBufferSize : Z := 15 * 1024.
Definition ZERO : Z := 48.    (* '0' *)

(** The loop over the encoded bytes and the terminating NUL. *)
Definition nibbles (b : Z) : list Z :=
  [u8 (Z.land (Z.shiftr b 4) 15 + ZERO); u8 (Z.land b 15 + ZERO)].
Definition encode_bytes (buffer : list Z) : list Z := concat (nibbles <$> buffer) ++ [0].

(** strlen() and the characters before the NUL; Fault when there is none. *)
Fixpoint c_string (argument : list Z) : outcome (list Z) :=
  match argument with
  | [] => Fault
  | c :: rest => if c =? 0 then Ok [] else s ← c_string rest; Ok (c :: s)
  end.

(** The loop over pairs of characters, on a string of even length. *)
Fixpoint decode_chars (s : list Z) : list Z :=
  match s with
  | hi :: lo :: rest => u8 (Z.lor (u8 (Z.shiftl (hi - ZERO) 4)) (lo - ZERO)) :: decode_chars rest
  | _ => []
  end.

Section params.
Context {D : Type} (xdr_encode : D -> option (list Z)) (xdr_decode : list Z -> option D).

(** The XDR procedure fails when the stream has no room for the bytes. *)
Definition CBTF_EncodeParameters (data : D) : outcome (list Z) :=
  match xdr_encode data with
  | Some bytes => if Z.of_nat (length bytes) <=? EncodingBufferSize then Ok (encode_bytes bytes) else Aborted
  | None => Aborted
  end.

Definition CBTF_DecodeParameters (argument : list Z) : outcome D :=
  s ← c_string argument;
  Assert (Z.of_nat (length s) mod 2 =? 0) ;;
  match xdr_decode (decode_chars s) with
  | Some data => Ok data
  | None => Aborted
  end.
End params.

Definition is_byte (b : Z) : Prop := 0 <= b < 256.

(** Both characters of a byte are printable, and give it back. *)
Lemma nibbles_ok b :
  is_byte b -> exists hi lo, nibbles b = [hi; lo] /\ 0 < hi /\ 0 < lo /\
    u8 (Z.lor (u8 (Z.shiftl (hi - ZERO) 4)) (lo - ZERO)) = b.
Proof.
  intros Hb. eexists _, _. split; [reflexivity|].
  assert (H : forallb (fun b => (0 <? u8 (Z.land (Z.shiftr b 4) 15 + ZERO)) && (0 <? u8 (Z.land b 15 + ZERO)) &&
    (u8 (Z.lor (u8 (Z.shiftl (u8 (Z.land (Z.shiftr b 4) 15 + ZERO) - ZERO) 4)) (u8 (Z.land b 15 + ZERO) - ZERO)) =? b))
    (Z.of_nat <$> seq 0 256) = true) by (vm_compute; reflexivity).
  rewrite forallb_forall in H. specialize (H b). unfold is_byte in *.
  rewrite !andb_true_iff, !Z.ltb_lt, Z.eqb_eq in H.
  destruct H as [[? ?] ?]; [|done]. apply list_elem_of_In, list_elem_of_fmap. exists (Z.to_nat b).
  split; [lia|]. apply elem_of_seq. lia.
Qed.

Lemma encode_c_string bytes :
  Forall is_byte bytes -> c_string (encode_bytes bytes) = Ok (concat (nibbles <$> bytes)).
Proof.
  unfold encode_bytes. induction 1 as [|b bytes Hb _ IH]; [done|].
  destruct (nibbles_ok b Hb) as (hi & lo & Hn & Hhi & Hlo & _). rewrite fmap_cons. cbn [concat].
  rewrite Hn, <- app_assoc. cbn [app c_string]. replace (hi =? 0) with false by lia.
  replace (lo =? 0) with false by lia. by rewrite IH, !bind_of_Ok.
Qed.

Lemma decode_encode bytes : Forall is_byte bytes -> decode_chars (concat (nibbles <$> bytes)) = bytes.
Proof.
  induction 1 as [|b bytes Hb _ IH]; [done|]. destruct (nibbles_ok b Hb) as (hi & lo & Hn & _ & _ & Hd).
  rewrite fmap_cons. cbn [concat]. rewrite Hn. cbn [app decode_chars]. by rewrite Hd, IH.
Qed.

Lemma nibbles_even bytes : Z.of_nat (length (concat (nibbles <$> bytes))) mod 2 = 0.
Proof.
  assert (H : length (concat (nibbles <$> bytes)) = (2 * length bytes)%nat).
  { induction bytes as [|b bytes IH]; [done|]. rewrite fmap_cons. cbn [concat]. rewrite length_app, IH. simpl. lia. }
  rewrite H, Nat2Z.inj_mul, Z.mul_comm. apply Z.mod_mul. lia.
Qed.

(** Parameters that fit the encoding buffer survive the way through the
    string: what CBTF_EncodeParameters writes is a terminated string of even
    length that CBTF_DecodeParameters turns back into the same parameters,
    provided the XDR procedure writes bytes and reads back what it wrote. *)
Theorem parameters_roundtrip {D} (xdr_encode : D -> option (list Z)) (xdr_decode : list Z -> option D)
    (data : D) (bytes : list Z) :
  xdr_encode data = Some bytes -> Forall is_byte bytes -> xdr_decode bytes = Some data ->
  Z.of_nat (length bytes) <= EncodingBufferSize ->
  exists argument, CBTF_EncodeParameters xdr_encode data = Ok argument /\
    CBTF_DecodeParameters xdr_decode argument = Ok data.
Proof.
  intros He Hb Hd Hl. exists (encode_bytes bytes). unfold CBTF_EncodeParameters, CBTF_DecodeParameters, Assert.
  rewrite He, (proj2 (Z.leb_le _ _)) by done. split; [done|].
  rewrite encode_c_string, bind_of_Ok by done. rewrite nibbles_even, decode_encode by done.
  simpl. by rewrite Hd.
Qed.

(** An unsigned int as XDR writes it, big endian. *)
Definition xdr_u32 (x : Z) : option (list Z) :=
  Some [Z.shiftr x 24 mod 256; Z.shiftr x 16 mod 256; Z.shiftr x 8 mod 256; x mod 256].
Definition xdr_u32_read (l : list Z) : option Z :=
  match l with
  | [a; b; c; d] => Some (Z.shiftl a 24 + Z.shiftl b 16 + Z.shiftl c 8 + d)
  | _ => None
  end.

Lemma parameters_roundtrip_witness :
  exists argument, CBTF_EncodeParameters xdr_u32 305419896 = Ok argument /\
    CBTF_DecodeParameters xdr_u32_read argument = Ok 305419896.
Proof.
  apply (parameters_roundtrip xdr_u32 xdr_u32_read 305419896 [18; 52; 86; 120]); [done| |done|done].
  by repeat constructor.
Defined.
