(* ===== verification/Bst.v ===== *)
(** The tree of parallel regions of the omptp collector: core/collectors/omptp/bst.c.
    NULL is [Leaf]; a node has the region's ID and the stack trace it was entered
    with. *)
From S2P Require Import Prelude.

Definition MaxFramesPerStackTrace : Z := 32.

Inductive CBTF_bst_node :=
| Leaf
| Node (l : CBTF_bst_node) (ID : Z) (stacktrace : list Z) (r : CBTF_bst_node).

Fixpoint CBTF_bst_insert_node (node : CBTF_bst_node) (ID : Z) (stacktrace : list Z) : outcome CBTF_bst_node :=
  match node with
  | Leaf =>
      (* the frames are copied into stacktrace[MaxFramesPerStackTrace] *)
      if Z.of_nat (length stacktrace) <=? MaxFramesPerStackTrace then Ok (Node Leaf ID stacktrace Leaf) else Fault
  | Node l nid st r =>
      if ID >? nid then r' ← CBTF_bst_insert_node r ID stacktrace; Ok (Node l nid st r')
      else if ID <? nid then l' ← CBTF_bst_insert_node l ID stacktrace; Ok (Node l' nid st r)
      else Ok node
  end.

Fixpoint CBTF_bst_min_node (node : CBTF_bst_node) : option Z :=
  match node with
  | Leaf => None
  | Node Leaf nid _ _ => Some nid
  | Node l _ _ _ => CBTF_bst_min_node l
  end.

Fixpoint CBTF_bst_remove_node (node : CBTF_bst_node) (ID : Z) : CBTF_bst_node :=
  match node with
  | Leaf => Leaf
  | Node l nid st r =>
      if ID <? nid then Node l nid st (CBTF_bst_remove_node r ID)
      else if ID >? nid then Node (CBTF_bst_remove_node l ID) nid st r
      else match l, r with
           | Node _ _ _ _, Node _ _ _ _ =>
               match CBTF_bst_min_node r with
               | Some temp => Node l temp st (CBTF_bst_remove_node r temp)
               | None => node
               end
           | Leaf, _ => r
           | _, Leaf => l
           end
  end.

(** The stack trace of the node found. *)
Fixpoint CBTF_bst_find_node (node : CBTF_bst_node) (ID : Z) : option (list Z) :=
  match node with
  | Leaf => None
  | Node l nid st r =>
      if ID >? nid then CBTF_bst_find_node r ID
      else if ID <? nid then CBTF_bst_find_node l ID
      else Some st
  end.

(** ** Contents and order *)
Fixpoint bst_all (P : Z -> Prop) (node : CBTF_bst_node) : Prop :=
  match node with
  | Leaf => True
  | Node l nid _ r => P nid /\ bst_all P l /\ bst_all P r
  end.

Fixpoint ordered (node : CBTF_bst_node) : Prop :=
  match node with
  | Leaf => True
  | Node l nid _ r => bst_all (fun k => k < nid) l /\ bst_all (fun k => nid < k) r /\ ordered l /\ ordered r
  end.

Lemma bst_all_impl (P Q : Z -> Prop) t : (forall k, P k -> Q k) -> bst_all P t -> bst_all Q t.
Proof. intros H. induction t as [|l IHl nid st r IHr]; simpl; [done|]. intros (? & ? & ?). auto. Qed.

(** A step of the searches, with the comparison decided. *)
Ltac bst_compare ID nid :=
  let H := fresh "Hcmp" in
  destruct (Z.lt_trichotomy ID nid) as [H|[->|H]];
  [ rewrite ?(proj2 (Z.ltb_lt ID nid)), ?(Z.gtb_ltb ID nid), ?(proj2 (Z.ltb_ge nid ID)) by lia
  | rewrite ?Z.gtb_ltb, ?Z.ltb_irrefl
  | rewrite ?(Z.gtb_ltb ID nid), ?(proj2 (Z.ltb_lt nid ID)), ?(proj2 (Z.ltb_ge ID nid)) by lia ].

Lemma insert_all (P : Z -> Prop) t ID st t' :
  CBTF_bst_insert_node t ID st = Ok t' -> P ID -> bst_all P t -> bst_all P t'.
Proof.
  revert t'. induction t as [|l IHl nid tr r IHr]; intros t' H HP Ha; simpl in H.
  - destruct (_ <=? _); inv_ok. by simpl.
  - destruct Ha as (Hn & Hl & Hr). destruct (ID >? nid); inv_ok; [simpl; auto|].
    destruct (ID <? nid); inv_ok; simpl; auto.
Qed.

(** In the region tree an insertion that the node's array can hold succeeds,
    keeps the tree ordered, makes the region findable with its stack trace when it
    was not there, keeps the trace it had when it was, and changes no other
    region. *)
Theorem bst_insert_find (t : CBTF_bst_node) (ID : Z) (st : list Z) :
  ordered t -> Z.of_nat (length st) <= MaxFramesPerStackTrace ->
  exists t', CBTF_bst_insert_node t ID st = Ok t' /\ ordered t' /\
    forall k, CBTF_bst_find_node t' k =
      if k =? ID then Some (default st (CBTF_bst_find_node t ID)) else CBTF_bst_find_node t k.
Proof.
  intros Ho Hs. induction t as [|l IHl nid tr r IHr]; simpl.
  - rewrite (proj2 (Z.leb_le _ _)) by done. eexists. split_and!; [reflexivity|done|]. intros k. simpl.
    bst_compare k ID; rewrite ?Z.eqb_refl; try done; by rewrite (proj2 (Z.eqb_neq _ _)) by lia.
  - destruct Ho as (Hl & Hr & Hol & Hor). bst_compare ID nid.
    + destruct IHl as (l' & Hi & Ho' & Hf); [done|]. rewrite Hi, bind_of_Ok.
      eexists. split_and!; [reflexivity| |].
      * simpl. split_and!; try done. by eapply insert_all.
      * intros k. simpl. bst_compare k nid; rewrite ?Hf; try done;
          by rewrite (proj2 (Z.eqb_neq _ ID)) by lia.
    + eexists. split_and!; [reflexivity|done|]. intros k. simpl.
      destruct (k =? nid) eqn:Hk; bools; [subst; by rewrite Z.gtb_ltb, Z.ltb_irrefl|done].
    + destruct IHr as (r' & Hi & Ho' & Hf); [done|]. rewrite Hi, bind_of_Ok.
      eexists. split_and!; [reflexivity| |].
      * simpl. split_and!; try done. by eapply insert_all.
      * intros k. simpl. bst_compare k nid; rewrite ?Hf; try done;
          by rewrite (proj2 (Z.eqb_neq _ ID)) by lia.
Qed.

Lemma remove_beyond t ID :
  (bst_all (fun k => ID < k) t \/ bst_all (fun k => k < ID) t) -> CBTF_bst_remove_node t ID = t.
Proof.
  induction t as [|l IHl nid st r IHr]; [done|]. simpl. intros [(H & Hl & Hr)|(H & Hl & Hr)].
  - rewrite (proj2 (Z.ltb_lt _ _)) by done. by rewrite IHr by auto.
  - rewrite (proj2 (Z.ltb_ge _ _)), Z.gtb_ltb, (proj2 (Z.ltb_lt _ _)) by lia. by rewrite IHl by auto.
Qed.

(** The removal looks for smaller IDs on the right and for larger ones on the
    left: in an ordered tree it removes nothing but the root. When the root has
    two children its successor's ID is given to the root's stack trace, so that
    region is found with the stack trace of the removed one. *)
Theorem bst_remove_only_root (l r : CBTF_bst_node) (nid ID : Z) (st : list Z) :
  ordered (Node l nid st r) ->
  (ID <> nid -> CBTF_bst_remove_node (Node l nid st r) ID = Node l nid st r) /\
  (l <> Leaf -> forall next, CBTF_bst_min_node r = Some next ->
     CBTF_bst_find_node (CBTF_bst_remove_node (Node l nid st r) nid) next = Some st).
Proof.
  intros (Hl & Hr & _ & _). split.
  - intros Hne. simpl. bst_compare ID nid; [| done |].
    + rewrite remove_beyond; [done|]. left. eapply bst_all_impl; [|exact Hr]. simpl. lia.
    + rewrite remove_beyond; [done|]. right. eapply bst_all_impl; [|exact Hl]. simpl. lia.
  - intros Hln next Hmin. cbn [CBTF_bst_remove_node]. rewrite Z.gtb_ltb, Z.ltb_irrefl.
    destruct l as [|ll lid lst lr]; [done|]. destruct r as [|rl rid rst rr]; [done|]. rewrite Hmin.
    cbn [CBTF_bst_find_node]. by rewrite Z.gtb_ltb, Z.ltb_irrefl.
Qed.

Lemma bst_insert_find_witness :
  exists t', CBTF_bst_insert_node (Node (Node Leaf 3 [30] Leaf) 5 [50] Leaf) 7 [70; 1] = Ok t' /\
    CBTF_bst_find_node t' 7 = Some [70; 1] /\ CBTF_bst_find_node t' 3 = Some [30].
Proof.
  destruct (bst_insert_find (Node (Node Leaf 3 [30] Leaf) 5 [50] Leaf) 7 [70; 1]) as (t' & H & _ & Hf);
    [by vm_compute|by vm_compute|].
  exists t'. split; [exact H|]. rewrite !Hf. split; reflexivity.
Defined.

Lemma bst_remove_only_root_witness :
  let t := Node (Node Leaf 3 [30] Leaf) 5 [50] (Node Leaf 7 [70] Leaf) in
  CBTF_bst_remove_node t 7 = t /\ CBTF_bst_find_node (CBTF_bst_remove_node t 5) 7 = Some [50].
Proof.
  split.
  - by apply (bst_remove_only_root (Node Leaf 3 [30] Leaf) (Node Leaf 7 [70] Leaf) 5 7 [50]); vm_compute.
  - by apply (bst_remove_only_root (Node Leaf 3 [30] Leaf) (Node Leaf 7 [70] Leaf) 5 7 [50]); vm_compute.
Defined.
