(* ===== verification/PerfData.v ===== *)
(** Performance data on the side of the tool: core/src/Blob.cpp, AddressBuffer.cpp,
    PCData.cpp, StacktraceData.cpp and PerfData::aggregate of PerfData.cpp. The leaf
    nodes of the filter network decode each blob a collector sent and add what it
    says to the counts or times of the addresses in it. The theorems: what a blob
    adds to a buffer is what the collector put into it, for every collector, and an
    encoded structure is decoded again. *)
From S2P Require Import Prelude Probe PCIndex PCData Headers Services XDR PCSamp Unwind StackBuffer UserTime TraceBuffer.
From S2P Require Import Tracer Profile Omptp PThreads MPIWrappers MPI IO IOT Mem HWCSamp Params RawData.

(** ** Blobs: the bytes; a blob without bytes has null contents. *)
Definition Blob : Type := list Z.

(** A failed XDR procedure fails an Assert. The size of the decoding is the position
    of the stream. *)
Definition getXDRDecoding {A} (xdrproc : codec A) (b : Blob) : outcome (A * Z) :=
  match dec xdrproc b with
  | Some (x, rest) => Ok (x, Z.of_nat (length b - length rest))
  | None => Aborted
  end.

(** Blob::Blob(xdrproc, data): the buffer is doubled until the encoding fits; the
    unsigned size becomes zero after 22 rounds and stays so. *)
Fixpoint encode_growing {A} (xdrproc : codec A) (data : A) (rounds : nat) (size : Z) : outcome Blob :=
  match rounds with
  | O => Diverged
  | S rounds' =>
      if Z.of_nat (length (enc xdrproc data)) <=? size then Ok (enc xdrproc data)
      else encode_growing xdrproc data rounds' (u32 (size * 2))
  end.
Definition Blob_of_xdr {A} (xdrproc : codec A) (data : A) : outcome Blob := encode_growing xdrproc data 23 1024.

(** char is signed: byte >> 4 of a byte above 127 is negative. *)
Definition schar (b : Z) : Z := if b <? 128 then b else b - 256.
Definition getStringEncoding (b : Blob) : list Z :=
  concat ((fun byte => [u8 (48 + Z.shiftr (schar byte) 4); u8 (48 + Z.land (schar byte) 15)]) <$> b).

(** ** Address buffers: std::map<Address, uint64_t> *)
Notation AddressBuffer := (gmap Z Z).

(** The entry found is increased, or a new one inserted. *)
Definition bump (addr count : Z) (m : AddressBuffer) : AddressBuffer :=
  <[addr := match m !! addr with Some x => u64 (x + count) | None => count end]> m.

Definition updateAddressCounts (pc count : Z) (buf : AddressBuffer) : AddressBuffer :=
  if pc =? 0 then buf else bump pc count buf.

(** updateAddressCounts(AddressBuffer&) and updateAddressCounts(AddressCounts&) *)
Definition merge_counts (from buf : AddressBuffer) : AddressBuffer := map_fold bump buf from.

(** PCData::aggregateAddressCounts and the sampling variant of StacktraceData's. *)
Definition aggregateAddressCounts (len : Z) (pc counts : list Z) (buf : AddressBuffer) : outcome AddressBuffer :=
  for_loop (Z.to_nat len) 0 (fun i b =>
    p ← arr_get pc i;
    n ← arr_get counts i;
    Ok (updateAddressCounts p n b)) buf.

(** The loop over the frames of an event, up to the zero that ends its stack. *)
Fixpoint charge_stack (frames : list Z) (time : Z) (m : AddressBuffer) : AddressBuffer :=
  match frames with
  | [] => m
  | f :: frames' => if f =? 0 then m else charge_stack frames' time (bump f time m)
  end.

(** The times of the events of a trace, by address. *)
Definition traceTimes {P} (times : P -> Z * Z) (stacktraces : list Z) (events : list (traced_event P)) : AddressBuffer :=
  foldl (fun m e =>
    charge_stack (drop (Z.to_nat (te_stacktrace e)) stacktraces) (u64 ((times (te_data e)).2 - (times (te_data e)).1)) m)
    ∅ events.

(** The times of a profile, by address. *)
Definition profileTimes (d : profile_data) : outcome AddressBuffer :=
  for_loop (length (pd_time d)) 0 (fun i m =>
    a ← arr_get (pd_stacktraces d) i;
    t ← arr_get (pd_time d) i;
    Ok (bump a t m)) ∅.

(** ** Aggregation

    CBTF_hwc_data has the fields of CBTF_pcsamp_data, CBTF_hwctime_data those of
    CBTF_usertime_data and CBTF_mpi_event those of CBTF_io_event. [xdr_float] is the
    library's procedure for the clock rate of hwcsamp. *)
Section aggregate.
Context (HOST_NAME_MAX : nat) (xdr_float : codec Z).
Notation header := (xdr_CBTF_DataHeader HOST_NAME_MAX).

Program Definition xdr_CBTF_hwcsamp_data : codec hwcsamp_data :=
  xdr_struct (xdr_pair xdr_u64 (xdr_pair (xdr_array xdr_u64) (xdr_pair (xdr_array xdr_u8)
               (xdr_pair (xdr_array (xdr_vector 6 xdr_u64)) xdr_float))))
    (fun '(i, (p, (c, (e, f)))) => mkHwcsampData i p c e f)
    (fun d => (hd_interval d, (hd_pc d, (hd_count d, (hd_events d, hd_clock_mhz d))))) _.
Next Obligation. by intros []. Qed.

Definition aggregatePCData (id : string) (blob : Blob) (buf : AddressBuffer) : outcome AddressBuffer :=
  if (String.eqb id "pcsamp" || String.eqb id "hwc")%bool then
    r ← getXDRDecoding xdr_CBTF_pcsamp_data blob;
    aggregateAddressCounts (Z.of_nat (length (pd_pc r.1))) (pd_pc r.1) (PCSamp.pd_count r.1) buf
  else if String.eqb id "hwcsamp" then
    r ← getXDRDecoding xdr_CBTF_hwcsamp_data blob;
    aggregateAddressCounts (Z.of_nat (length (hd_pc r.1))) (hd_pc r.1) (hd_count r.1) buf
  else Ok buf.

Definition aggregateSTSampleData (id : string) (blob : Blob) (buf : AddressBuffer) : outcome AddressBuffer :=
  if (String.eqb id "usertime" || String.eqb id "hwctime")%bool then
    r ← getXDRDecoding xdr_CBTF_usertime_data blob;
    aggregateAddressCounts (Z.of_nat (length (ud_stacktraces r.1))) (ud_stacktraces r.1) (ud_count r.1) buf
  else Ok buf.

Definition io_times (e : io_event) : Z * Z := (ie_start_time e, ie_stop_time e).
Definition iot_times (e : iot_event) : Z * Z := (it_start_time e, it_stop_time e).
Definition memt_times (e : Mem.memt_event) : Z * Z := (Mem.me_start_time e, Mem.me_stop_time e).
Definition pthreadt_times (e : pthreadt_event) : Z * Z := (pe_start_time e, pe_stop_time e).
Definition mpit_times (e : mpit_event) : Z * Z := (MPIWrappers.me_start_time e, MPIWrappers.me_stop_time e).

Definition aggregateSTTraceData (id : string) (blob : Blob) (buf : AddressBuffer) : outcome AddressBuffer :=
  if (String.eqb id "io" || String.eqb id "mpi")%bool then
    r ← getXDRDecoding (xdr_trace_data xdr_CBTF_io_event) blob;
    Ok (merge_counts (traceTimes io_times (td_stacktraces r.1) (td_events r.1)) buf)
  else if (String.eqb id "iop" || String.eqb id "omptp" || String.eqb id "mpip")%bool then
    r ← getXDRDecoding xdr_profile_data blob;
    m ← profileTimes r.1;
    Ok (merge_counts m buf)
  else if String.eqb id "iot" then
    r ← getXDRDecoding xdr_CBTF_io_exttrace_data blob;
    Ok (merge_counts (traceTimes iot_times (id_stacktraces r.1) (id_events r.1)) buf)
  else if String.eqb id "mem" then
    r ← getXDRDecoding xdr_CBTF_mem_exttrace_data blob;
    Ok (merge_counts (traceTimes memt_times (md_stacktraces r.1) (md_events r.1)) buf)
  else if String.eqb id "pthreads" then
    r ← getXDRDecoding (xdr_trace_data xdr_CBTF_pthreadt_event) blob;
    Ok (merge_counts (traceTimes pthreadt_times (td_stacktraces r.1) (td_events r.1)) buf)
  else if String.eqb id "mpit" then
    r ← getXDRDecoding (xdr_trace_data xdr_CBTF_mpit_event) blob;
    Ok (merge_counts (traceTimes mpit_times (td_stacktraces r.1) (td_events r.1)) buf)
  else Ok buf.

Definition one_of (id : string) (names : list string) : bool := existsb (String.eqb id) names.

(** PerfData::aggregate: the size of the data after the header, and the buffer. *)
Definition aggregate (blob : Blob) (buf : AddressBuffer) : outcome (Z * AddressBuffer) :=
  r ← getXDRDecoding header blob;
  let id := dh_id r.1 in
  let data_size := Z.of_nat (length blob) - r.2 in
  let dblob := drop (Z.to_nat r.2) blob in
  buf' ← (if one_of id ["pcsamp"; "hwc"; "hwcsamp"] then aggregatePCData id dblob buf
          else if one_of id ["usertime"; "hwctime"] then aggregateSTSampleData id dblob buf
          else if one_of id ["io"; "iot"; "iop"; "mem"; "mpi"; "mpit"; "mpip"; "pthreads"; "omptp"]
          then aggregateSTTraceData id dblob buf
          else Ok buf);
  Ok (data_size, buf').

Fixpoint aggregate_all (blobs : list Blob) (buf : AddressBuffer) : outcome AddressBuffer :=
  match blobs with
  | [] => Ok buf
  | b :: blobs' => r ← aggregate b buf; aggregate_all blobs' r.2
  end.
End aggregate.

(** ** Decoding what was encoded *)
Lemma getXDRDecoding_enc {A} (c : codec A) x rest : valid c x ->
  getXDRDecoding c (enc c x ++ rest) = Ok (x, Z.of_nat (length (enc c x))).
Proof.
  intros Hx. unfold getXDRDecoding. rewrite enc_dec by done. do 2 f_equal.
  rewrite length_app. lia.
Qed.

Lemma getXDRDecoding_all {A} (c : codec A) x : valid c x ->
  getXDRDecoding c (enc c x) = Ok (x, Z.of_nat (length (enc c x))).
Proof. intros Hx. rewrite <- (app_nil_r (enc c x)) at 1. by apply getXDRDecoding_enc. Qed.

(** The sizes tried are 1024 and its doubles below 2^32, then zero. *)
Lemma encode_growing_fits {A} (c : codec A) x (rounds : nat) : forall size,
  0 < size -> size * 2 ^ Z.of_nat rounds <= 2 ^ 31 -> Z.of_nat (length (enc c x)) <= size * 2 ^ Z.of_nat rounds ->
  forall more, encode_growing c x (rounds + S more) size = Ok (enc c x).
Proof.
  induction rounds as [|rounds IH]; intros size Hs Hmax Hlen more; cbn [Nat.add encode_growing].
  - rewrite Z.mul_1_r in Hlen. by destruct (_ <=? _) eqn:H; bools; [|lia].
  - rewrite Nat2Z.inj_succ, Z.pow_succ_r in * by lia.
    destruct (_ <=? size) eqn:H; [done|]. assert (0 < 2 ^ Z.of_nat rounds) by (apply Z.pow_pos_nonneg; lia).
    rewrite u32_small by nia. apply IH; nia.
Qed.

(** A structure within the types of its fields is encoded into a blob, and decoded
    from it to itself with all bytes read, whenever its encoding has at most 2^31
    bytes; the loop that looks for a buffer size does not end when it has more. *)
Theorem blob_roundtrip {A} (c : codec A) (x : A) :
  valid c x ->
  (Z.of_nat (length (enc c x)) <= 2 ^ 31 ->
     exists b, Blob_of_xdr c x = Ok b /\ getXDRDecoding c b = Ok (x, Z.of_nat (length b))) /\
  (2 ^ 31 < Z.of_nat (length (enc c x)) -> Blob_of_xdr c x = Diverged).
Proof.
  intros Hx. split; intros Hlen.
  - exists (enc c x). split; [|by apply getXDRDecoding_all].
    unfold Blob_of_xdr. apply (encode_growing_fits c x 21 1024) with (more := 1%nat); [done|done|].
    etrans; [exact Hlen|]. done.
  - assert (Hgt : forall size, size <= 2 ^ 31 -> (Z.of_nat (length (enc c x)) <=? size) = false).
    { intros size Hs. apply Z.leb_gt. lia. }
    unfold Blob_of_xdr. do 22 (cbn [encode_growing]; rewrite Hgt by done;
      match goal with |- context [u32 ?z] => let v := eval vm_compute in (u32 z) in change (u32 z) with v end).
    by rewrite Hgt.
Qed.

(** ** Counts *)
Definition count_at (p : Z) (m : AddressBuffer) : Z := default 0 (m !! p).
Definition is_u64 (z : Z) : Prop := 0 <= z < 2 ^ 64.
Definition counts_ok (m : AddressBuffer) : Prop := map_Forall (fun _ => is_u64) m.

Lemma u64_range z : is_u64 (u64 z).
Proof. apply Z.mod_pos_bound. done. Qed.
Lemma u64_idem_l x y : u64 (u64 x + y) = u64 (x + y).
Proof. apply Z.add_mod_idemp_l. done. Qed.

Lemma counts_ok_empty : counts_ok ∅.
Proof. apply map_Forall_empty. Qed.

Lemma count_at_ok p m : counts_ok m -> is_u64 (count_at p m).
Proof.
  intros Hm. unfold count_at. destruct (m !! p) as [x|] eqn:Hp; simpl; [exact (Hm p x Hp)|done].
Qed.

Lemma bump_ok a n m : is_u64 n -> counts_ok m -> counts_ok (bump a n m).
Proof.
  intros Hn Hm. apply map_Forall_insert_2; [|done]. destruct (m !! a); [apply u64_range|done].
Qed.

Lemma bump_count a n m p : is_u64 n -> counts_ok m ->
  count_at p (bump a n m) = u64 (count_at p m + (if a =? p then n else 0)).
Proof.
  intros Hn Hm. unfold bump. destruct (a =? p) eqn:Ha; bools.
  - subst. unfold count_at at 1. rewrite lookup_insert_eq. unfold count_at. destruct (m !! p); simpl; [done|].
    symmetry. by apply u64_small.
  - rewrite Z.add_0_r, u64_small by (by apply count_at_ok). unfold count_at. by rewrite lookup_insert_ne.
Qed.

(** A list of charges added to a buffer. *)
Definition charges (l : list (Z * Z)) (m : AddressBuffer) : AddressBuffer := foldr (fun c m => bump c.1 c.2 m) m l.

Lemma charges_count l m : Forall (fun c => is_u64 c.2) l -> counts_ok m ->
  counts_ok (charges l m) /\ forall p, count_at p (charges l m) = u64 (count_at p m + tally id p l).
Proof.
  intros Hl Hm. induction Hl as [|[a n] l Hn _ [IHok IH]]; simpl.
  - split; [done|]. intros p. rewrite Z.add_0_r, u64_small; [done|]. by apply count_at_ok.
  - split; [by apply bump_ok|]. intros p. rewrite bump_count by done. rewrite IH, u64_idem_l. f_equal.
    unfold id. lia.
Qed.

Lemma charges_rev l m : foldl (fun m c => bump c.1 c.2 m) m l = charges (rev l) m.
Proof.
  revert m. induction l as [|c l IH]; intros m; [done|]. cbn [foldl rev]. rewrite IH. unfold charges.
  by rewrite foldr_app.
Qed.

Lemma foldl_count l m : Forall (fun c => is_u64 c.2) l -> counts_ok m ->
  counts_ok (foldl (fun m c => bump c.1 c.2 m) m l) /\
  forall p, count_at p (foldl (fun m c => bump c.1 c.2 m) m l) = u64 (count_at p m + tally id p l).
Proof.
  intros Hl Hm. rewrite charges_rev. destruct (charges_count (rev l) m) as [H1 H2].
  - apply List.Forall_forall. intros c Hc. apply in_rev in Hc. by apply (proj1 (List.Forall_forall _ _) Hl).
  - done.
  - split; [done|]. intros p. by rewrite H2, tally_rev.
Qed.

Lemma tally_perm {P} (w : P -> Z) p l l' : l ≡ₚ l' -> tally w p l = tally w p l'.
Proof. induction 1 as [|[] ?? _ IH|[] [] ?|]; simpl; lia. Qed.

Lemma tally_map p (m : AddressBuffer) : tally id p (map_to_list m) = count_at p m.
Proof.
  induction m as [|a n m Ha IH] using map_ind; [done|].
  rewrite (tally_perm _ _ _ _ (map_to_list_insert m a n Ha)). simpl. rewrite IH. unfold count_at, id.
  destruct (a =? p) eqn:Hp; bools.
  - subst. rewrite lookup_insert_eq, Ha. simpl. lia.
  - rewrite lookup_insert_ne by done. lia.
Qed.

(** Adding one buffer to another adds the counts of every address. *)
Lemma merge_counts_count from buf : counts_ok from -> counts_ok buf ->
  counts_ok (merge_counts from buf) /\
  forall p, count_at p (merge_counts from buf) = u64 (count_at p buf + count_at p from).
Proof.
  intros Hf Hb. unfold merge_counts. rewrite map_fold_foldr.
  assert (Heq : forall l m, foldr (uncurry bump) m l = charges l m).
  { intros l m. induction l as [|[a n] l IH]; [done|]. simpl. by rewrite IH. }
  rewrite Heq. destruct (charges_count (map_to_list from) buf) as [H1 H2]; [|done|].
  - apply Forall_forall. intros [a n] Hin. apply elem_of_map_to_list in Hin. exact (Hf a n Hin).
  - split; [done|]. intros p. by rewrite H2, tally_map.
Qed.

(** ** What a blob adds *)
Lemma zip_step (f : Z -> Z -> AddressBuffer -> AddressBuffer) x y xs ys (pre pre' : list Z) buf :
  length pre = length pre' ->
  (p ← arr_get (pre ++ x :: xs) (Z.of_nat (length pre)); n ← arr_get (pre' ++ y :: ys) (Z.of_nat (length pre));
   Ok (f p n buf)) = Ok (f x y buf).
Proof.
  intros Hp. rewrite (arr_get_lookup (pre ++ x :: xs) _ x), bind_of_Ok by (try lia; rewrite Nat2Z.id; by apply list_lookup_middle).
  by rewrite (arr_get_lookup _ _ y) by (try lia; rewrite Nat2Z.id; by apply list_lookup_middle).
Qed.

Lemma aggregateAddressCounts_loop (pc counts : list Z) : forall (pre pre' : list Z) buf,
  length pc = length counts -> length pre = length pre' ->
  for_loop (length pc) (Z.of_nat (length pre)) (fun i b =>
    p ← arr_get (pre ++ pc) i; n ← arr_get (pre' ++ counts) i; Ok (updateAddressCounts p n b)) buf =
  Ok (foldl (fun b c => updateAddressCounts c.1 c.2 b) buf (zip pc counts)).
Proof.
  revert counts. induction pc as [|p pc IH]; intros [|n counts] pre pre' buf Hl Hp; try done.
  cbn [length for_loop zip zip_with foldl]. rewrite (zip_step updateAddressCounts p n pc counts pre pre' buf Hp).
  rewrite bind_of_Ok. specialize (IH counts (pre ++ [p]) (pre' ++ [n]) (updateAddressCounts p n buf)).
  rewrite !length_app, <- !app_assoc in IH. simpl in IH. simpl in Hl.
  replace (Z.of_nat (length pre) + 1) with (Z.of_nat (length pre + 1)) by lia. apply IH; lia.
Qed.

Lemma aggregateAddressCounts_ok pc counts buf : length pc = length counts ->
  aggregateAddressCounts (Z.of_nat (length pc)) pc counts buf =
  Ok (foldl (fun b c => updateAddressCounts c.1 c.2 b) buf (zip pc counts)).
Proof.
  intros Hl. unfold aggregateAddressCounts. rewrite Nat2Z.id.
  exact (aggregateAddressCounts_loop pc counts [] [] buf Hl eq_refl).
Qed.

(** Samples at address zero are left out. *)
Lemma update_all_count l : forall buf, Forall (fun c => is_u64 c.2) l -> counts_ok buf ->
  counts_ok (foldl (fun b c => updateAddressCounts c.1 c.2 b) buf l) /\
  forall p, p <> 0 -> count_at p (foldl (fun b c => updateAddressCounts c.1 c.2 b) buf l) = u64 (count_at p buf + tally id p l).
Proof.
  induction l as [|[a n] l IH]; intros buf Hl Hb; cbn [foldl].
  - split; [done|]. intros p _. simpl. rewrite Z.add_0_r, u64_small; [done|]. by apply count_at_ok.
  - apply Forall_cons in Hl as [Hn Hl]. cbn [fst snd] in *.
    assert (Hb' : counts_ok (updateAddressCounts a n buf)).
    { unfold updateAddressCounts. destruct (a =? 0); [done|by apply bump_ok]. }
    destruct (IH _ Hl Hb') as [H1 H2]. split; [done|]. intros p Hp. rewrite H2 by done. cbn [tally].
    unfold updateAddressCounts. destruct (a =? 0) eqn:Ha; bools.
    + destruct (a =? p) eqn:Hap; bools; [lia|]. f_equal.
    + rewrite bump_count by done. rewrite u64_idem_l. f_equal. unfold id. lia.
Qed.

(** Time of the calls of a trace spent under a frame at [p]: a call counts as often as
    [p] occurs on its call path. *)
Definition time_under {P} (times : P -> Z * Z) (p : Z) (calls : list (P * list Z)) : Z :=
  foldr (fun c acc => u64 ((times c.1).2 - (times c.1).1) * occurrences p c.2 + acc) 0 calls.

Lemma time_under_app {P} (times : P -> Z * Z) p l l' :
  time_under times p (l ++ l') = time_under times p l + time_under times p l'.
Proof. unfold time_under. induction l as [|x l IH]; simpl; lia. Qed.

Lemma charge_stack_charges frames time : forall m,
  charge_stack frames time m = foldl (fun m c => bump c.1 c.2 m) m ((fun f => (f, time)) <$> take_nonzero frames).
Proof.
  induction frames as [|f frames IH]; intros m; [done|]. cbn [charge_stack take_nonzero].
  destruct (f =? 0); [done|]. rewrite fmap_cons. cbn [foldl fst snd]. by rewrite IH.
Qed.

Lemma tally_frames p time fs : tally id p ((fun f => (f, time)) <$> fs) = time * occurrences p fs.
Proof.
  induction fs as [|f fs IH]; [unfold occurrences; rewrite countb_nil; simpl; lia|].
  rewrite fmap_cons. cbn [tally]. rewrite IH. unfold occurrences. rewrite countb_cons. unfold id.
  destruct (f =? p); lia.
Qed.

Lemma charge_stack_count frames time m : is_u64 time -> counts_ok m ->
  counts_ok (charge_stack frames time m) /\
  forall p, count_at p (charge_stack frames time m) = u64 (count_at p m + time * occurrences p (take_nonzero frames)).
Proof.
  intros Ht Hm. rewrite charge_stack_charges. destruct (foldl_count ((fun f => (f, time)) <$> take_nonzero frames) m) as [H1 H2].
  - apply Forall_fmap. by apply Forall_true.
  - done.
  - split; [done|]. intros p. by rewrite H2, tally_frames.
Qed.

Lemma traceTimes_count {P} (times : P -> Z * Z) st evs :
  counts_ok (traceTimes times st evs) /\
  forall p, count_at p (traceTimes times st evs) = u64 (time_under times p (decode_events st evs)).
Proof.
  unfold traceTimes. enough (H : forall m, counts_ok m -> counts_ok (foldl (fun m e =>
      charge_stack (drop (Z.to_nat (te_stacktrace e)) st) (u64 ((times (te_data e)).2 - (times (te_data e)).1)) m) m evs) /\
      forall p, count_at p (foldl (fun m e => charge_stack (drop (Z.to_nat (te_stacktrace e)) st)
        (u64 ((times (te_data e)).2 - (times (te_data e)).1)) m) m evs) =
      u64 (count_at p m + time_under times p (decode_events st evs))).
  { destruct (H ∅ counts_ok_empty) as [H1 H2]. split; [done|]. intros p. by rewrite H2. }
  induction evs as [|e evs IH]; intros m Hm.
  - split; [done|]. intros p. simpl. rewrite Z.add_0_r, u64_small; [done|]. by apply count_at_ok.
  - cbn [foldl]. destruct (charge_stack_count (drop (Z.to_nat (te_stacktrace e)) st)
      (u64 ((times (te_data e)).2 - (times (te_data e)).1)) m (u64_range _) Hm) as [H1 H2].
    destruct (IH _ H1) as [H3 H4]. split; [done|]. intros p. rewrite H4, H2, u64_idem_l. f_equal.
    unfold decode_events, trace_at. rewrite fmap_cons. cbn [time_under foldr fst snd]. unfold time_under. simpl. lia.
Qed.

Lemma profileTimes_loop (st time : list Z) : forall (pre pre' : list Z) m,
  (length time <= length st)%nat -> length pre = length pre' ->
  for_loop (length time) (Z.of_nat (length pre)) (fun i m =>
    a ← arr_get (pre ++ st) i; t ← arr_get (pre' ++ time) i; Ok (bump a t m)) m =
  Ok (foldl (fun m c => bump c.1 c.2 m) m (zip st time)).
Proof.
  revert st. induction time as [|t time IH]; intros st pre pre' m Hl Hp; [by destruct st|].
  destruct st as [|a st]; [simpl in Hl; lia|].
  cbn [length for_loop zip zip_with foldl]. rewrite (zip_step bump a t st time pre pre' m Hp).
  rewrite bind_of_Ok. specialize (IH st (pre ++ [a]) (pre' ++ [t]) (bump a t m)).
  rewrite !length_app, <- !app_assoc in IH. simpl in IH. simpl in Hl.
  replace (Z.of_nat (length pre) + 1) with (Z.of_nat (length pre + 1)) by lia. apply IH; lia.
Qed.

Lemma profileTimes_count d : (length (pd_time d) <= length (pd_stacktraces d))%nat -> Forall is_u64 (pd_time d) ->
  exists m, profileTimes d = Ok m /\ counts_ok m /\
    forall p, count_at p m = u64 (tally id p (zip (pd_stacktraces d) (pd_time d))).
Proof.
  intros Hl Ht. eexists. split; [exact (profileTimes_loop (pd_stacktraces d) (pd_time d) [] [] ∅ Hl eq_refl)|].
  destruct (foldl_count (zip (pd_stacktraces d) (pd_time d)) ∅) as [H1 H2]; [|apply counts_ok_empty|by split].
  apply Forall_forall. intros [a t] Hin. apply elem_of_zip_r in Hin. by apply (proj1 (Forall_forall _ _) Ht).
Qed.

Section adds.
Context (HOST_NAME_MAX : nat) (xdr_float : codec Z).
Notation header := (xdr_CBTF_DataHeader HOST_NAME_MAX).
Notation aggregate := (aggregate HOST_NAME_MAX xdr_float).

(** A blob with header [h] and these data adds [amount p] to the count of every
    address [p] but the null one. *)
Definition adds (h : CBTF_DataHeader) (data : list Z) (amount : Z -> Z) : Prop :=
  forall buf, counts_ok buf -> exists buf',
    aggregate (enc header h ++ data) buf = Ok (Z.of_nat (length data), buf') /\ counts_ok buf' /\
    forall p, p <> 0 -> count_at p buf' = u64 (count_at p buf + amount p).

(** The part of [aggregate] after the header. *)
Definition dispatch (id : string) (dblob : Blob) (buf : AddressBuffer) : outcome AddressBuffer :=
  if one_of id ["pcsamp"; "hwc"; "hwcsamp"] then aggregatePCData xdr_float id dblob buf
  else if one_of id ["usertime"; "hwctime"] then aggregateSTSampleData id dblob buf
  else if one_of id ["io"; "iot"; "iop"; "mem"; "mpi"; "mpit"; "mpip"; "pthreads"; "omptp"]
  then aggregateSTTraceData id dblob buf
  else Ok buf.

Lemma aggregate_header h data buf : valid header h ->
  aggregate (enc header h ++ data) buf = (buf' ← dispatch (dh_id h) data buf; Ok (Z.of_nat (length data), buf')).
Proof.
  intros Hh. unfold PerfData.aggregate. rewrite getXDRDecoding_enc, bind_of_Ok by done. cbn [fst snd].
  rewrite Nat2Z.id, drop_app_length, length_app.
  replace (Z.of_nat (length (enc header h) + length data) - Z.of_nat (length (enc header h))) with (Z.of_nat (length data)) by lia.
  reflexivity.
Qed.

Lemma adds_intro h data amount : valid header h ->
  (forall buf, counts_ok buf -> exists buf', dispatch (dh_id h) data buf = Ok buf' /\ counts_ok buf' /\
    forall p, p <> 0 -> count_at p buf' = u64 (count_at p buf + amount p)) -> adds h data amount.
Proof.
  intros Hh Hd buf Hb. destruct (Hd buf Hb) as (buf' & Hok & H). exists buf'. split; [|done].
  by rewrite aggregate_header, Hok.
Qed.

(** Counted addresses, of samples or of stacks. *)
Lemma adds_samples pc counts buf : length pc = length counts -> Forall is_u64 counts -> counts_ok buf ->
  exists buf', aggregateAddressCounts (Z.of_nat (length pc)) pc counts buf = Ok buf' /\ counts_ok buf' /\
    forall p, p <> 0 -> count_at p buf' = u64 (count_at p buf + tally id p (zip pc counts)).
Proof.
  intros Hl Hc Hb. rewrite aggregateAddressCounts_ok by done. eexists. split; [done|].
  apply update_all_count; [|done]. apply Forall_forall. intros [a n] Hin. apply elem_of_zip_r in Hin.
  by apply (proj1 (Forall_forall _ _) Hc).
Qed.

Lemma merged m buf (amount : Z -> Z) : counts_ok m -> (forall p, count_at p m = u64 (amount p)) -> counts_ok buf ->
  counts_ok (merge_counts m buf) /\ forall p, p <> 0 -> count_at p (merge_counts m buf) = u64 (count_at p buf + amount p).
Proof.
  intros Hm Ha Hb. destruct (merge_counts_count m buf Hm Hb) as [H1 H2]. split; [done|]. intros p _.
  rewrite H2, Ha. apply Z.add_mod_idemp_r. done.
Qed.

Lemma u8_counts l : Forall (valid xdr_u8) l -> Forall is_u64 l.
Proof. intros H. eapply Forall_impl; [exact H|]. intros x Hx. cbn in Hx. unfold is_u64. lia. Qed.
End adds.

(** [id] is one of the names: [dispatch] and the functions below it compute. *)
#[local] Ltac known_id Hid :=
  repeat (apply elem_of_cons in Hid as [Hid|Hid]; [rewrite Hid|]); [..|by apply not_elem_of_nil in Hid].

#[local] Ltac decoded :=
  cbn -[getXDRDecoding enc aggregateAddressCounts traceTimes profileTimes merge_counts xdr_trace_data];
  rewrite getXDRDecoding_all by done; rewrite ?bind_of_Ok; cbn [fst snd].

(** The times of a trace are added. *)
#[local] Ltac traced :=
  eexists; split; [reflexivity|]; apply merged; [apply traceTimes_count|apply traceTimes_count|].

(** The case of counted program counters, for the files that put the parts together. *)
Lemma aggregate_blob_adds (HOST_NAME_MAX : nat) (xdr_float : codec Z) (h : CBTF_DataHeader) d :
  valid (xdr_CBTF_DataHeader HOST_NAME_MAX) h -> one_of (dh_id h) ["pcsamp"; "hwc"] = true ->
  valid xdr_CBTF_pcsamp_data d -> length (pd_pc d) = length (PCSamp.pd_count d) ->
  adds HOST_NAME_MAX xdr_float h (enc xdr_CBTF_pcsamp_data d) (fun p => tally id p (zip (pd_pc d) (PCSamp.pd_count d))).
Proof.
  intros Hh Hid Hd Hl. apply adds_intro; [done|]. intros buf Hb.
  assert (Hc : Forall is_u64 (PCSamp.pd_count d)) by (apply u8_counts, Hd).
  destruct (adds_samples _ _ buf Hl Hc Hb) as (buf' & H). exists buf'. unfold one_of in Hid. simpl in Hid.
  rewrite !orb_true_iff, !String.eqb_eq in Hid. by destruct Hid as [->|[->|?]]; [decoded|decoded|].
Qed.

(** C33: what a blob adds to the buffer. A blob of the
    pcsamp, hwc or hwcsamp collector adds to every address its samples, one of
    usertime or hwctime the samples of the stacks that have the address at their top,
    one of a tracing collector (io, iot, mem, mpi, mpit, pthreads) for every call its time
    as often as the address occurs on its stack (once unless the program recurses,
    charged_under_recursion), and one of a profiling collector (iop, mpip, omptp) the times of
    the call paths at the address; all modulo 2^64. The bytes after the header are all
    read and counted, and nothing else in the buffer changes but for the null address. Blobs
    of overview are not aggregated by it. *)
Theorem aggregate_adds (HOST_NAME_MAX : nat) (xdr_float : codec Z) (h : CBTF_DataHeader) :
  let adds := adds HOST_NAME_MAX xdr_float h in
  valid (xdr_CBTF_DataHeader HOST_NAME_MAX) h ->
  (forall d, dh_id h ∈ ["pcsamp"; "hwc"] -> valid xdr_CBTF_pcsamp_data d -> length (pd_pc d) = length (PCSamp.pd_count d) ->
     adds (enc xdr_CBTF_pcsamp_data d) (fun p => tally id p (zip (pd_pc d) (PCSamp.pd_count d)))) /\
  (forall d, dh_id h = "hwcsamp" -> valid (xdr_CBTF_hwcsamp_data xdr_float) d -> length (hd_pc d) = length (hd_count d) ->
     adds (enc (xdr_CBTF_hwcsamp_data xdr_float) d) (fun p => tally id p (zip (hd_pc d) (hd_count d)))) /\
  (forall d, dh_id h ∈ ["usertime"; "hwctime"] -> valid xdr_CBTF_usertime_data d ->
     length (ud_stacktraces d) = length (ud_count d) ->
     adds (enc xdr_CBTF_usertime_data d) (fun p => tally id p (zip (ud_stacktraces d) (ud_count d)))) /\
  (forall d, dh_id h ∈ ["io"; "mpi"] -> valid (xdr_trace_data xdr_CBTF_io_event) d ->
     adds (enc (xdr_trace_data xdr_CBTF_io_event) d)
       (fun p => time_under io_times p (decode_events (td_stacktraces d) (td_events d)))) /\
  (forall d, dh_id h = "iot" -> valid xdr_CBTF_io_exttrace_data d ->
     adds (enc xdr_CBTF_io_exttrace_data d)
       (fun p => time_under iot_times p (decode_events (id_stacktraces d) (id_events d)))) /\
  (forall d, dh_id h = "mem" -> valid xdr_CBTF_mem_exttrace_data d ->
     adds (enc xdr_CBTF_mem_exttrace_data d)
       (fun p => time_under memt_times p (decode_events (md_stacktraces d) (md_events d)))) /\
  (forall d, dh_id h = "pthreads" -> valid (xdr_trace_data xdr_CBTF_pthreadt_event) d ->
     adds (enc (xdr_trace_data xdr_CBTF_pthreadt_event) d)
       (fun p => time_under pthreadt_times p (decode_events (td_stacktraces d) (td_events d)))) /\
  (forall d, dh_id h = "mpit" -> valid (xdr_trace_data xdr_CBTF_mpit_event) d ->
     adds (enc (xdr_trace_data xdr_CBTF_mpit_event) d)
       (fun p => time_under mpit_times p (decode_events (td_stacktraces d) (td_events d)))) /\
  (forall d, dh_id h ∈ ["iop"; "mpip"; "omptp"] -> valid xdr_profile_data d ->
     (length (pd_time d) <= length (pd_stacktraces d))%nat ->
     adds (enc xdr_profile_data d) (fun p => tally id p (zip (pd_stacktraces d) (pd_time d)))).
Proof.
  intros adds Hh. split_and!; intros d Hid Hd; try intros Hl.
  1: apply aggregate_blob_adds; [done|by known_id Hid|done|done].
  all: apply adds_intro; try done; intros buf Hb.
  - assert (Hc : Forall is_u64 (hd_count d)) by (apply u8_counts, Hd).
    destruct (adds_samples _ _ buf Hl Hc Hb) as (buf' & H). exists buf'. rewrite Hid. by decoded.
  - assert (Hc : Forall is_u64 (ud_count d)) by (apply u8_counts, Hd).
    destruct (adds_samples _ _ buf Hl Hc Hb) as (buf' & H). exists buf'. by known_id Hid; decoded.
  - known_id Hid; decoded; by traced.
  - rewrite Hid. decoded. by traced.
  - rewrite Hid. decoded. by traced.
  - rewrite Hid. decoded. by traced.
  - rewrite Hid. decoded. by traced.
  - destruct (profileTimes_count d Hl) as (m & Hm & Hmok & Hmc).
    { eapply Forall_impl; [apply Hd|]. intros x Hx. exact Hx. }
    known_id Hid; decoded; rewrite Hm; (eexists; split; [reflexivity|]; by apply merged).
Qed.

Section runs.
Context (HOST_NAME_MAX : nat) (xdr_float : codec Z).
Notation header := (xdr_CBTF_DataHeader HOST_NAME_MAX).

(** A sequence of blobs adds the sum. *)
Lemma aggregate_all_adds {D} (c : codec D) (amount : D -> Z -> Z) (blobs : list (CBTF_DataHeader * D)) :
  Forall (fun b => adds HOST_NAME_MAX xdr_float b.1 (enc c b.2) (amount b.2)) blobs ->
  forall buf, counts_ok buf -> exists buf',
    aggregate_all HOST_NAME_MAX xdr_float ((fun b => enc header b.1 ++ enc c b.2) <$> blobs) buf = Ok buf' /\
    counts_ok buf' /\
    forall p, p <> 0 -> count_at p buf' = u64 (count_at p buf + foldr (fun b acc => amount b.2 p + acc) 0 blobs).
Proof.
  induction 1 as [|b blobs Hb _ IH]; intros buf Hbuf.
  - exists buf. split_and!; [done|done|]. intros p _. simpl. rewrite Z.add_0_r, u64_small; [done|]. by apply count_at_ok.
  - destruct (Hb buf Hbuf) as (buf1 & H1 & Hok1 & Hc1). destruct (IH buf1 Hok1) as (buf2 & H2 & Hok2 & Hc2).
    exists buf2. split_and!; [|done|].
    + rewrite fmap_cons. cbn [aggregate_all]. by rewrite H1.
    + intros p Hp. rewrite Hc2, Hc1, u64_idem_l by done. f_equal. simpl. lia.
Qed.
End runs.

(** ** The string encoding

    A collector reads back with CBTF_DecodeParameters (DecodeParameters.c) the bytes
    that getStringEncoding() writes as a string, although it encodes bytes above 127
    with other characters than CBTF_EncodeParameters does. *)
Lemma string_encoding_byte b : Params.is_byte b -> exists hi lo, getStringEncoding [b] = [hi; lo] /\
  u8 (Z.lor (u8 (Z.shiftl (hi - Params.ZERO) 4)) (lo - Params.ZERO)) = b.
Proof.
  intros Hb. eexists _, _. split; [reflexivity|].
  assert (H : forallb (fun b =>
      u8 (Z.lor (u8 (Z.shiftl (u8 (48 + Z.shiftr (schar b) 4) - Params.ZERO) 4)) (u8 (48 + Z.land (schar b) 15) - Params.ZERO)) =? b)
      (Z.of_nat <$> seq 0 256) = true) by (vm_compute; reflexivity).
  rewrite forallb_forall in H. specialize (H b). rewrite Z.eqb_eq in H. apply H.
  apply list_elem_of_In, list_elem_of_fmap. exists (Z.to_nat b). unfold Params.is_byte in Hb.
  split; [lia|]. apply elem_of_seq. lia.
Qed.

Theorem string_encoding_decodes (b : Blob) : Forall Params.is_byte b -> Params.decode_chars (getStringEncoding b) = b.
Proof.
  induction 1 as [|x b Hx _ IH]; [done|]. destruct (string_encoding_byte x Hx) as (hi & lo & He & Hd).
  change (getStringEncoding (x :: b)) with (getStringEncoding [x] ++ getStringEncoding b). rewrite He.
  cbn [app Params.decode_chars]. by rewrite Hd, IH.
Qed.

(** ** Examples *)
Lemma blob_roundtrip_witness : exists b, Blob_of_xdr xdr_CBTF_pcsamp_data (mkPcsampData 10 [4096; 8192] [3; 1]) = Ok b /\
  getXDRDecoding xdr_CBTF_pcsamp_data b = Ok (mkPcsampData 10 [4096; 8192] [3; 1], Z.of_nat (length b)).
Proof.
  apply (blob_roundtrip xdr_CBTF_pcsamp_data (mkPcsampData 10 [4096; 8192] [3; 1])); [|vm_compute; discriminate].
  cbn. split_and!; repeat constructor; vm_compute; done.
Defined.

(** Two samples at 4096 and two calls of 5 and 7 ns, the second called from itself. *)
Lemma aggregate_adds_witness :
  let h := mkDataHeader 0 1 "pcsamp" "n0" 42 7 (-1) 0 1000 2000 4096 8192 in
  exists buf, aggregate 64 xdr_i32 (enc (xdr_CBTF_DataHeader 64) h ++ enc xdr_CBTF_pcsamp_data (mkPcsampData 10 [4096] [2])) ∅ =
    Ok (Z.of_nat (length (enc xdr_CBTF_pcsamp_data (mkPcsampData 10 [4096] [2]))), buf) /\ count_at 4096 buf = 2.
Proof.
  intros h. destruct (aggregate_adds 64 xdr_i32 h) as (H & _).
  { cbn. split_and!; repeat constructor; vm_compute; done. }
  destruct (H (mkPcsampData 10 [4096] [2]) ltac:(set_solver) ltac:(cbn; split_and!; repeat constructor; vm_compute; done) eq_refl
              ∅ counts_ok_empty) as (buf & Hb & _ & Hc).
  exists buf. split; [exact Hb|]. rewrite Hc by done. reflexivity.
Defined.

Example charged_under_recursion :
  count_at 8192 (traceTimes io_times [4096; 8192; 0; 4096; 8192; 8192; 0]
    [mkEvent (mkIOEvent 10 15) 0; mkEvent (mkIOEvent 20 27) 3]) = 5 + 7 + 7.
Proof. reflexivity. Qed.
