(* ===== verification/Pipeline.v ===== *)
(** From the samples of a thread to the counts the tool has: the pcsamp collector
    (PCSamp.v), the encoding of its blobs (XDR.v, RawData.v) and their aggregation in
    the filter network (PerfData.v) put together. *)
From S2P Require Import Prelude Probe PCIndex PCData Headers Services XDR PCSamp RawData PerfData.

Section pcsamp_pipeline.
Context {W : Type} {SV : Services W pcsamp_data} {SL : ServicesLaws W pcsamp_data} (bld : build).
Context (HOST_NAME_MAX : nat).
Notation header := (xdr_CBTF_DataHeader HOST_NAME_MAX).

(** monitor_mpi_comm_rank() and monitor_get_thread_num() return an int. *)
Definition monitor_ints : Prop :=
  (forall w : W, - 2 ^ 31 <= monitor_mpi_comm_rank w < 2 ^ 31) /\
  (forall w : W, - 2 ^ 31 <= monitor_get_thread_num w < 2 ^ 31).

(** Addresses a sample of the run may be charged to. *)
Definition tick_ok (ev : event) : Prop := match ev with Tick pc => is_u64 pc | _ => True end.
Definition build_ok : Prop := is_u64 (b_addr_idle bld) /\ is_u64 (b_addr_wait_barrier bld) /\ is_u64 (b_addr_barrier bld).

Lemma header_fields h : valid header h <->
  - 2 ^ 31 <= dh_experiment h < 2 ^ 31 /\ - 2 ^ 31 <= dh_collector h < 2 ^ 31 /\
  Z.of_nat (String.length (dh_id h)) < 2 ^ 32 /\ valid (xdr_char_array HOST_NAME_MAX) (dh_host h) /\
  - 2 ^ 63 <= dh_pid h < 2 ^ 63 /\ - 2 ^ 63 <= dh_posix_tid h < 2 ^ 63 /\
  - 2 ^ 31 <= dh_rank h < 2 ^ 31 /\ - 2 ^ 31 <= dh_omp_tid h < 2 ^ 31 /\
  is_u64 (dh_time_begin h) /\ is_u64 (dh_time_end h) /\ is_u64 (dh_addr_begin h) /\ is_u64 (dh_addr_end h).
Proof. reflexivity. Qed.

(** The header of the thread and its blobs are within the types of their fields. *)
Definition named (h : CBTF_DataHeader) : Prop := dh_id h = "pcsamp" /\ valid header h.
Record typed (w0 : W) (tls : TLS) (w : W) : Prop := {
  ty_header : named (t_header tls);
  ty_interval : is_u64 (t_interval tls);
  ty_addrs : is_u64 (pcd_addr_begin (t_buffer tls)) /\ is_u64 (pcd_addr_end (t_buffer tls));
  ty_sent : exists new, sent w = sent w0 ++ new /\ Forall (fun b => named b.1 /\ is_u64 (pd_interval b.2)) new
}.

Lemma named_times h tb te : named h -> is_u64 tb -> is_u64 te -> named (with_times h tb te).
Proof. unfold named. rewrite !header_fields. simpl. tauto. Qed.
Lemma named_addrs h ab ae : named h -> is_u64 ab -> is_u64 ae -> named (with_addrs h ab ae).
Proof. unfold named. rewrite !header_fields. simpl. tauto. Qed.
Lemma named_rank h r : named h -> - 2 ^ 31 <= r < 2 ^ 31 -> named (with_rank h r).
Proof. unfold named. rewrite !header_fields. simpl. tauto. Qed.

Lemma initialize_data_typed w0 tls w tls' w' :
  named (t_header tls) -> is_u64 (t_interval tls) ->
  (exists new, sent w = sent w0 ++ new /\ Forall (fun b => named b.1 /\ is_u64 (pd_interval b.2)) new) ->
  initialize_data bld tls w = Ok (tls', w') -> typed w0 tls' w'.
Proof.
  intros Hh Hi Hs. unfold initialize_data. destruct (time_law w) as (t & w1 & -> & Ht & Hs1). rewrite bind_of_Ok.
  intros [= <- <-]. cbn [fst snd]. constructor; cbn [t_header t_interval t_buffer].
  - apply named_addrs; [|done|done]. by apply named_times.
  - done.
  - done.
  - by rewrite Hs1.
Qed.

Lemma send_samples_typed w0 tls w tls' w' : monitor_ints -> typed w0 tls w ->
  send_samples bld tls w = Ok (tls', w') -> typed w0 tls' w'.
Proof.
  intros [Hrank _] [Hh Hi [Hab Hae] (new & Hs & Hf)]. unfold send_samples.
  destruct (time_law w) as (t & w1 & -> & Ht & Hs1). rewrite bind_of_Ok. cbn [fst snd].
  match goal with |- context [cbtf_collector_send ?h ?d w1] =>
    assert (Hn : named h); [|destruct (send_law h d w1) as (w2 & -> & Hs2)] end.
  { apply named_rank; [|done]. apply named_addrs; [|done|done]. apply named_times; [done| |done].
    apply (proj1 (header_fields _) (proj2 Hh)). }
  rewrite bind_of_Ok. apply initialize_data_typed; [done|done|].
  eexists (new ++ [_]). rewrite Hs2, Hs1, Hs, app_assoc. split; [done|]. apply Forall_app_2; [done|].
  by apply Forall_singleton.
Qed.

Lemma update_addrs a pc b r : is_u64 pc -> is_u64 (pcd_addr_begin b) /\ is_u64 (pcd_addr_end b) ->
  CBTF_UpdatePCData a pc b = Ok r -> is_u64 (pcd_addr_begin r.2) /\ is_u64 (pcd_addr_end r.2).
Proof.
  intros Hpc Hb. unfold CBTF_UpdatePCData, update_pcdata. intros H.
  repeat match goal with
  | H : _ ≫= _ = Ok _ |- _ => apply bind_Ok in H as (? & ? & H)
  | H : (if ?b then _ else _) = Ok _ |- _ => destruct b
  end; injection H as <-; cbn [fst snd pcd_addr_begin pcd_addr_end]; [done|].
  split; [destruct (_ <? _)|destruct (_ >? _)]; tauto.
Qed.

Lemma step_typed w0 ev s s' : monitor_ints -> build_ok -> tick_ok ev -> typed w0 s.1 s.2 ->
  step bld ev s = Ok s' -> typed w0 s'.1 s'.2.
Proof.
  intros Hm Hb He Ht. destruct s as [tls w]. cbn [fst snd] in *. destruct ev as [pc| | |f|f|f]; cbn [step fst snd].
  - unfold serviceTimerHandler. destruct (t_defer tls); [by intros [= <-]|]. intros H.
    apply bind_Ok in H as (r & Hu & H). destruct Ht as [Hh Hi Ha Hs].
    assert (Hp : is_u64 (blame bld (t_ompt tls) pc)).
    { unfold blame. destruct Hb as (? & ? & ?). by destruct (b_have_ompt bld), (t_ompt tls) as [[] [] []]. }
    pose proof (update_addrs _ _ _ _ Hp Ha Hu) as Ha'. destruct r as [[] buf]; cbn [fst snd] in *.
    + destruct s' as [tls' w']. by eapply send_samples_typed; [done| |exact H].
    + by injection H as <-.
  - intros [= <-]. destruct Ht as [Hh Hi Ha Hs]. constructor; simpl; try done. by rewrite block_law.
  - intros [= <-]. destruct Ht as [Hh Hi Ha Hs]. constructor; simpl; try done. by rewrite unblock_law.
  - intros [= <-]. by destruct Ht.
  - intros [= <-]. by destruct Ht.
  - intros [= <-]. by destruct Ht.
Qed.

Lemma run_typed w0 evs : monitor_ints -> build_ok -> Forall tick_ok evs -> forall s s',
  typed w0 s.1 s.2 -> run bld evs s = Ok s' -> typed w0 s'.1 s'.2.
Proof.
  intros Hm Hb. induction 1 as [|ev evs He _ IH]; intros s s' Ht H; cbn [run] in H; [by injection H as <-|].
  apply bind_Ok in H as (s1 & H1 & H). apply (IH s1 s'); [|done]. by eapply step_typed.
Qed.

Lemma start_typed h tls w tls' w' : monitor_ints -> valid header h ->
  cbtf_collector_start bld h tls w = Ok (tls', w') -> typed w tls' w'.
Proof.
  intros [_ Hnum] Hh. unfold cbtf_collector_start, initialize_data.
  destruct (time_law w) as (t & w1 & -> & Ht & Hs1). rewrite !bind_of_Ok. cbn [fst snd t_header t_interval t_buffer].
  intros H. apply bind_Ok in H as (i & Hi & H). destruct (time_law w1) as (t2 & w2 & Ht2eq & Ht2 & Hs2).
  rewrite Ht2eq, bind_of_Ok in H. cbn [fst snd] in H. destruct (timer_start_law i w2) as (w3 & Hw3 & Hs3).
  rewrite Hw3, bind_of_Ok in H. injection H as <- <-. constructor; cbn [t_header t_interval t_buffer].
  - specialize (Hnum w1). pose proof (proj1 (header_fields h) Hh) as Hf. unfold named. rewrite header_fields. simpl. unfold is_u64 in *.
    destruct Hf as (He & Hc & _ & Hhost & Hpid & Htid & Hrank & _). split; [done|]. split_and!; first [done|lia|apply Hhost].
  - unfold sampling_interval in Hi. destruct (_ =? 0) eqn:Hz; [done|]. injection Hi as <-. bools. unfold is_u64.
    set (r := match getenv w "CBTF_PCSAMP_RATE" with Some s => u32 (atoi s) | None => 100 end) in *.
    assert (0 <= r) by (subst r; destruct (getenv w _); [apply Z.mod_pos_bound|]; done).
    split; [apply Z.div_pos; lia|]. apply Z.div_lt_upper_bound; nia.
  - done.
  - exists []. by rewrite Hs3, Hs2, Hs1, app_nil_r.
Qed.

Lemma stop_typed w0 tls w tls' w' : monitor_ints -> typed w0 tls w ->
  cbtf_collector_stop bld tls w = Ok (tls', w') -> typed w0 tls' w'.
Proof.
  intros Hm [Hh Hi Ha Hs]. unfold cbtf_collector_stop. destruct (timer_stop_law w) as (w1 & -> & Hs1). rewrite bind_of_Ok.
  destruct (time_law w1) as (t & w2 & -> & Ht & Hs2). rewrite bind_of_Ok. cbn [fst snd].
  match goal with |- context [send_samples bld ?t w2] => assert (H : typed w0 t w2) end.
  { constructor; cbn [t_header t_interval t_buffer]; [|done|done|by rewrite Hs2, Hs1].
    apply named_times; [done| |done]. apply (proj1 (header_fields _) (proj2 Hh)). }
  destruct (_ >? 0); [by apply send_samples_typed|by intros [= <- <-]].
Qed.

(** A blob within its types is decoded to itself. *)
Lemma blob_valid a b : blob_ok a b -> valid header b.1 -> is_u64 (pd_interval b.2) -> valid xdr_CBTF_pcsamp_data b.2.
Proof.
  intros (Hlen & Heq & Hc & Hp) Hh Hi. destruct (proj1 (header_fields _) Hh) as (_ & _ & _ & _ & _ & _ & _ & _ & _ & _ & Hab & Hae).
  unfold is_u64 in *. assert (CBTF_PCBufferSize a < 2 ^ 32) by by destruct a.
  split; [done|]. split; (split; [cbn; lia|]).
  - eapply Forall_impl; [exact Hp|]. intros x Hx. cbn in *. lia.
  - eapply Forall_impl; [exact Hc|]. intros x Hx. unfold UINT8_MAX in Hx. cbn in *. lia.
Qed.
End pcsamp_pipeline.

(** C29: every sample reaches the tool. From the start of the pcsamp collector through any
    sequence of timer interrupts, pauses, resumes and OMPT flag changes to its stop, the
    blobs it sends, encoded as CBTF_Data_Send does and aggregated by the tool in the
    order they were sent, give for every address other than the null one just the number
    of samples that were taken there (modulo 2^64). The header of the thread and the
    addresses of its samples are taken to be within the types of their fields. *)
Theorem pcsamp_samples_reach_the_tool {W} {SV : Services W pcsamp_data} {SL : ServicesLaws W pcsamp_data}
    (bld : build) (HOST_NAME_MAX : nat) (xdr_float : codec Z) (h : CBTF_DataHeader) (tls : TLS) (w : W) (evs : list event) :
  Z.of_nat (length (pcd_pc (t_buffer tls))) = CBTF_PCBufferSize (b_arch bld) ->
  Z.of_nat (length (pcd_count (t_buffer tls))) = CBTF_PCBufferSize (b_arch bld) ->
  (forall s, getenv w "CBTF_PCSAMP_RATE" = Some s -> u32 (atoi s) <> 0) ->
  monitor_ints (W := W) -> build_ok bld -> Forall tick_ok evs -> valid (xdr_CBTF_DataHeader HOST_NAME_MAX) h ->
  exists tls1 w1 tls2 w2 tls3 w3 new buf,
    cbtf_collector_start bld h tls w = Ok (tls1, w1) /\ run bld evs (tls1, w1) = Ok (tls2, w2) /\
    cbtf_collector_stop bld tls2 w2 = Ok (tls3, w3) /\ sent w3 = sent w ++ new /\
    aggregate_all HOST_NAME_MAX xdr_float
      ((fun b => enc (xdr_CBTF_DataHeader HOST_NAME_MAX) b.1 ++ enc xdr_CBTF_pcsamp_data b.2) <$> new) ∅ = Ok buf /\
    forall p, p <> 0 -> count_at p buf = u64 (occurrences p (accepted bld (t_ompt tls1) false evs)).
Proof.
  intros Hp Hc Hr Hm Hb He Hh.
  destruct (pcsamp_run_accounts bld h tls w evs Hp Hc Hr) as (tls1 & w1 & tls2 & w2 & tls3 & w3 & new & H1 & H2 & H3 & Hs & Hok & Hd).
  pose proof (start_typed bld HOST_NAME_MAX h tls w tls1 w1 Hm Hh H1) as T1.
  pose proof (run_typed bld HOST_NAME_MAX w evs Hm Hb He (tls1, w1) (tls2, w2) T1 H2) as T2. cbn [fst snd] in T2.
  pose proof (stop_typed bld HOST_NAME_MAX w tls2 w2 tls3 w3 Hm T2 H3) as T3.
  destruct (ty_sent _ _ _ _ T3) as (new' & Hs' & Hty). rewrite Hs in Hs'. apply app_inv_head in Hs' as <-.
  destruct (aggregate_all_adds HOST_NAME_MAX xdr_float xdr_CBTF_pcsamp_data
    (fun d p => tally id p (zip (pd_pc d) (pd_count d))) new) with (buf := (∅ : AddressBuffer)) as (buf & Hbuf & _ & Hcnt).
  - apply Forall_forall. intros b Hin. pose proof (proj1 (Forall_forall _ _) Hok b Hin) as Hbok.
    destruct (proj1 (Forall_forall _ _) Hty b Hin) as [[Hid Hv] Hi].
    apply aggregate_blob_adds; [done|by rewrite Hid|by eapply blob_valid|apply Hbok].
  - apply counts_ok_empty.
  - exists tls1, w1, tls2, w2, tls3, w3, new, buf. split_and!; try done.
    intros p Hp0. rewrite Hcnt by done. rewrite <- Hd. reflexivity.
Qed.

(** The reference services, with the ranks and thread numbers of libmonitor as ints. *)
Definition int_services : Services (log_world pcsamp_data) pcsamp_data := {|
  CBTF_GetTime := CBTF_GetTime; cbtf_collector_send := cbtf_collector_send;
  svc_timer_start := svc_timer_start; svc_timer_stop := svc_timer_stop;
  svc_block_signal := svc_block_signal; svc_unblock_signal := svc_unblock_signal;
  monitor_mpi_comm_rank w := i32 (lw_rank w); monitor_get_thread_num w := i32 (lw_thread_num w);
  getenv := getenv; cbtf_connected_to_mrnet := cbtf_connected_to_mrnet; cbtf_mpi_init_done := cbtf_mpi_init_done |}.
Definition int_laws : ServicesLaws (S := int_services) (log_world pcsamp_data) pcsamp_data.
Proof. refine {| sent := lw_sent |}; simpl; intros; repeat eexists; auto; apply Z.mod_pos_bound; lia. Defined.

Lemma int_services_ints : monitor_ints (SV := int_services).
Proof.
  split; intros w; simpl; unfold i32; [pose proof (Z.mod_pos_bound (lw_rank w + 2 ^ 31) (2 ^ 32))|
    pose proof (Z.mod_pos_bound (lw_thread_num w + 2 ^ 31) (2 ^ 32))]; lia.
Qed.

(** Three samples at 4096, one of them while paused, and one at 8192. *)
Lemma pcsamp_samples_reach_witness :
  let size := Z.to_nat (CBTF_PCBufferSize arch_other) in
  let h := mkDataHeader 0 1 "" "n0" 1 1 (-1) 0 0 0 0 0 in
  let tls := mkTLS h 0 0 0 (mkPCData 0 0 0 (replicate size 0) (replicate size 0) []) (mkOmpt false false false) false in
  let evs := [Tick 4096; Tick 4096; Pause; Tick 4096; Resume; Tick 8192] in
  let bld := mkBuild arch_other false 0 0 0 in
  exists s1 s2 s3 new buf,
    cbtf_collector_start (SV := int_services) bld h tls (quiet_world pcsamp_data) = Ok s1 /\
    run (SV := int_services) bld evs s1 = Ok s2 /\
    cbtf_collector_stop (SV := int_services) bld s2.1 s2.2 = Ok s3 /\ lw_sent s3.2 = new /\
    aggregate_all 64 xdr_i32 ((fun b => enc (xdr_CBTF_DataHeader 64) b.1 ++ enc xdr_CBTF_pcsamp_data b.2) <$> new) ∅ = Ok buf /\
    count_at 4096 buf = 2 /\ count_at 8192 buf = 1.
Proof.
  intros size h tls evs bld.
  destruct (pcsamp_samples_reach_the_tool (SV := int_services) (SL := int_laws) bld 64 xdr_i32 h tls (quiet_world pcsamp_data) evs)
    as (tls1 & w1 & tls2 & w2 & tls3 & w3 & new & buf & H1 & H2 & H3 & Hs & Hb & Hc).
  - vm_compute. reflexivity.
  - vm_compute. reflexivity.
  - discriminate.
  - apply int_services_ints.
  - done.
  - by repeat constructor.
  - cbn. split_and!; repeat constructor; vm_compute; done.
  - exists (tls1, w1), (tls2, w2), (tls3, w3), new, buf. split_and!; try done; rewrite Hc by done; reflexivity.
Defined.
