(* ===== verification/ThreadName.v ===== *)
(** Names of threads on the side of the tool (core/src/ThreadName.cpp and
    ThreadName.hpp), the messages that carry them (messages/src/base/Thread.x), and
    the std::map with such names as keys. The order of names compares the host,
    the process and the POSIX thread, so that a map has one entry per thread even
    where the names differ in rank or OpenMP thread. *)
From stdpp Require Import sorting.
From S2P Require Import Prelude.

(** ** Data *)
Record ThreadName := mkName {
  dm_command : bool * string; dm_host : string; dm_pid : Z; dm_posixtid : bool * Z;
  dm_rank : Z; dm_omptid : Z; dm_executable : bool * string }.

Record CBTF_Protocol_ThreadName := mkProtocolName {
  p_experiment : Z; p_host : string; p_pid : Z; p_has_posix_tid : bool; p_posix_tid : Z;
  p_rank : Z; p_omp_tid : Z }.

#[export] Instance ThreadName_eq_dec : EqDecision ThreadName.
Proof. solve_decision. Defined.
#[export] Instance CBTF_Protocol_ThreadName_eq_dec : EqDecision CBTF_Protocol_ThreadName.
Proof. solve_decision. Defined.

(** ** Constructors: dm_pid is a 32-bit pid_t. *)
Definition ThreadName_of_ids (host : string) (pid posixtid rank omptid : Z) : ThreadName :=
  mkName (false, "empty command"%string) host (i32 pid) (true, posixtid) rank omptid
    (false, "no executable provided"%string).

Definition ThreadName_of_message (object : CBTF_Protocol_ThreadName) : ThreadName :=
  mkName (false, "empty command"%string) (p_host object) (i32 (p_pid object))
    (p_has_posix_tid object, p_posix_tid object) (p_rank object) (p_omp_tid object)
    (false, "no executable provided"%string).

(** convert() of the components: [old] is what the memory of posix_tid held before. *)
Definition convert (old : Z) (t : ThreadName) : CBTF_Protocol_ThreadName :=
  mkProtocolName 1 (dm_host t) (dm_pid t) (dm_posixtid t).1
    (if (dm_posixtid t).1 then (dm_posixtid t).2 else old) (dm_rank t) (dm_omptid t).

(** operator CBTF_Protocol_ThreadName(): experiment is not assigned. *)
Definition to_message (experiment : Z) (t : ThreadName) : CBTF_Protocol_ThreadName :=
  mkProtocolName experiment (dm_host t) (dm_pid t) (dm_posixtid t).1 (dm_posixtid t).2 (dm_rank t) (dm_omptid t).

(** ** operator== and operator< *)
Definition name_eqb (a b : ThreadName) : bool :=
  String.eqb (dm_host a) (dm_host b) && (dm_pid a =? dm_pid b) && (dm_rank a =? dm_rank b) &&
  (dm_omptid a =? dm_omptid b) && Bool.eqb (dm_posixtid a).1 (dm_posixtid b).1 &&
  ((dm_posixtid a).2 =? (dm_posixtid b).2).

Definition str_ltb (a b : string) : bool := match String.compare a b with Lt => true | _ => false end.

Definition name_ltb (a b : ThreadName) : bool :=
  if str_ltb (dm_host a) (dm_host b) then true
  else if str_ltb (dm_host b) (dm_host a) then false
  else if negb (dm_posixtid a).1 && negb (dm_posixtid b).1 then dm_pid a <? dm_pid b
  else if dm_pid a <? dm_pid b then true
  else if dm_pid b <? dm_pid a then false
  else if (dm_posixtid a).1 && (dm_posixtid b).1 then (dm_posixtid a).2 <? (dm_posixtid b).2
  else negb (dm_posixtid a).1.

(** What the order compares. *)
Definition name_key (t : ThreadName) : string * Z * option Z :=
  (dm_host t, dm_pid t, if (dm_posixtid t).1 then Some (dm_posixtid t).2 else None).

(** ** std::map<ThreadName, V>: the entries in the order of their keys *)
Fixpoint map_insert {V} (k : ThreadName) (v : V) (m : list (ThreadName * V)) : list (ThreadName * V) :=
  match m with
  | [] => [(k, v)]
  | e :: m' =>
      if name_ltb e.1 k then e :: map_insert k v m'
      else if name_ltb k e.1 then (k, v) :: m
      else m
  end.

(** ** The order is a strict order whose equivalence is that of the keys *)
Lemma str_compare_refl a : String.compare a a = Eq.
Proof. pose proof (String.compare_antisym a a) as A. by destruct (String.compare a a). Qed.

Lemma str_ltb_spec a b :
  (a = b /\ str_ltb a b = false /\ str_ltb b a = false) \/
  (a <> b /\ str_ltb a b = true /\ str_ltb b a = false) \/
  (a <> b /\ str_ltb a b = false /\ str_ltb b a = true).
Proof.
  unfold str_ltb. rewrite (String.compare_antisym b a). destruct (String.compare a b) eqn:H; simpl.
  - left. by apply String.compare_eq_iff in H.
  - right; left. split; [|done]. intros ->. by rewrite str_compare_refl in H.
  - right; right. split; [|done]. intros ->. by rewrite str_compare_refl in H.
Qed.

Lemma str_ltb_trans a b c : str_ltb a b = true -> str_ltb b c = true -> str_ltb a c = true.
Proof.
  revert b c. unfold str_ltb. induction a as [|x a IH]; intros [|y b] [|z c]; simpl; try done.
  unfold Ascii.compare.
  destruct (N.compare_spec (Ascii.N_of_ascii x) (Ascii.N_of_ascii y)) as [Hxy|Hxy|Hxy]; [| |done];
  destruct (N.compare_spec (Ascii.N_of_ascii y) (Ascii.N_of_ascii z)) as [Hyz|Hyz|Hyz]; try done;
  destruct (N.compare_spec (Ascii.N_of_ascii x) (Ascii.N_of_ascii z)) as [Hxz|Hxz|Hxz]; try done; try lia.
  intros H1 H2. by apply (IH b c).
Qed.

Lemma str_ltb_irrefl a : str_ltb a a = false.
Proof. unfold str_ltb. by rewrite str_compare_refl. Qed.

(** The order on what is compared. *)
Definition key_lt (a b : string * Z * option Z) : Prop :=
  str_ltb a.1.1 b.1.1 = true \/
  a.1.1 = b.1.1 /\ (a.1.2 < b.1.2 \/ a.1.2 = b.1.2 /\
    match a.2, b.2 with
    | None, Some _ => True
    | Some x, Some y => x < y
    | _, None => False
    end).

Lemma name_ltb_key a b : name_ltb a b = true <-> key_lt (name_key a) (name_key b).
Proof.
  unfold name_ltb, key_lt, name_key. simpl.
  destruct (str_ltb_spec (dm_host a) (dm_host b)) as [(He & H1 & H2)|[(He & H1 & H2)|(He & H1 & H2)]];
    rewrite ?H1, ?H2; [|naive_solver..].
  destruct a as [? ha pa [[] ta] ? ? ?], b as [? hb pb [[] tb] ? ? ?]; simpl in *;
    destruct (Z.ltb_spec pa pb); try (destruct (Z.ltb_spec pb pa)); try (destruct (Z.ltb_spec ta tb));
    simpl; intuition (try done; try lia); right; split; (done || lia).
Qed.

Lemma key_lt_irrefl k : ~ key_lt k k.
Proof. unfold key_lt. rewrite str_ltb_irrefl. destruct k as [[h p] [t|]]; simpl; intuition (try done; lia). Qed.

Lemma key_lt_trans a b c : key_lt a b -> key_lt b c -> key_lt a c.
Proof.
  destruct a as [[ha pa] ta], b as [[hb pb] tb], c as [[hc pc] tc]. unfold key_lt; simpl.
  intros [Hab|(-> & Hab)] [Hbc|(-> & Hbc)].
  - left. by apply str_ltb_trans with hb.
  - by left.
  - by left.
  - right. split; [done|]. destruct Hab as [Hab|(-> & Hab)], Hbc as [Hbc|(-> & Hbc)]; [left; lia..|].
    right. split; [done|]. destruct ta, tb, tc; (done || lia).
Qed.

Lemma key_lt_total a b : a = b \/ key_lt a b \/ key_lt b a.
Proof.
  destruct a as [[ha pa] ta], b as [[hb pb] tb]. unfold key_lt; simpl.
  destruct (str_ltb_spec ha hb) as [(-> & _)|[(_ & -> & _)|(_ & _ & ->)]]; [|by auto..].
  destruct (Z.lt_trichotomy pa pb) as [H|[->|H]]; [by auto 10| |by auto 10].
  destruct ta as [ta|], tb as [tb|]; [|by auto 10..].
  destruct (Z.lt_trichotomy ta tb) as [H|[->|H]]; auto 10.
Qed.

(** ** Insertion: the first entry of a key stays *)
Section map_insert.
Context {V : Type}.
Implicit Types m : list (ThreadName * V).

Definition keys m := (fun e => name_key e.1) <$> m.

#[export] Instance keys_perm : Proper ((≡ₚ) ==> (≡ₚ)) keys.
Proof. intros m m' Hm. unfold keys. by rewrite Hm. Qed.

Lemma insert_present k v m : StronglySorted key_lt (keys m) -> name_key k ∈ keys m -> map_insert k v m = m.
Proof.
  induction m as [|[k' v'] m IH]; intros Hs Hin; [by apply not_elem_of_nil in Hin|].
  unfold keys in *. rewrite fmap_cons in *. apply StronglySorted_inv in Hs as [Hs Hall]. simpl in *.
  destruct (name_ltb k' k) eqn:Hlt.
  - rewrite IH; [done|done|]. apply elem_of_cons in Hin as [Heq|]; [|done].
    apply name_ltb_key in Hlt. rewrite Heq in Hlt. by apply key_lt_irrefl in Hlt.
  - destruct (name_ltb k k') eqn:Hgt; [|done]. apply name_ltb_key in Hgt.
    apply elem_of_cons in Hin as [Heq|Hin]; [rewrite Heq in Hgt; by apply key_lt_irrefl in Hgt|].
    apply (proj1 (Forall_forall _ _) Hall) in Hin. exfalso.
    apply (key_lt_irrefl (name_key k)). by apply key_lt_trans with (name_key k').
Qed.

Lemma insert_absent k v m : name_key k ∉ keys m -> map_insert k v m ≡ₚ (k, v) :: m.
Proof.
  induction m as [|[k' v'] m IH]; intros Hin; [done|]. unfold keys in *. rewrite fmap_cons in *. simpl in *.
  apply not_elem_of_cons in Hin as [Hne Hin]. destruct (name_ltb k' k) eqn:Hlt.
  - rewrite IH by done. constructor.
  - destruct (name_ltb k k') eqn:Hgt; [done|]. exfalso.
    destruct (key_lt_total (name_key k) (name_key k')) as [H|[H|H]]; [done| |];
      apply name_ltb_key in H; congruence.
Qed.

Lemma insert_sorted k v m : StronglySorted key_lt (keys m) -> StronglySorted key_lt (keys (map_insert k v m)).
Proof.
  induction m as [|[k' v'] m IH]; intros Hs; [by repeat constructor|].
  unfold keys in *. rewrite fmap_cons in *. simpl in *. pose proof Hs as Hs0.
  apply StronglySorted_inv in Hs as [Hs Hall]. destruct (name_ltb k' k) eqn:Hlt.
  - rewrite fmap_cons. constructor; [by apply IH|]. apply name_ltb_key in Hlt. simpl. apply Forall_forall. intros x Hx.
    destruct (decide (name_key k ∈ (fun e => name_key e.1) <$> m)) as [Hin|Hin].
    + rewrite insert_present in Hx by done. by apply (proj1 (Forall_forall _ _) Hall).
    + rewrite insert_absent in Hx by done. rewrite fmap_cons in Hx. apply elem_of_cons in Hx as [->|Hx]; [done|].
      by apply (proj1 (Forall_forall _ _) Hall).
  - destruct (name_ltb k k') eqn:Hgt; [|done]. rewrite !fmap_cons. apply name_ltb_key in Hgt.
    constructor; [done|]. constructor; [done|]. simpl in *. apply Forall_forall. intros x Hx.
    apply key_lt_trans with (name_key k'); [done|]. by apply (proj1 (Forall_forall _ _) Hall).
Qed.

(** Entries with different keys are all kept. *)
Definition map_of (l : list (ThreadName * V)) : list (ThreadName * V) :=
  foldl (fun m e => map_insert e.1 e.2 m) [] l.

Lemma map_of_snoc l e : map_of (l ++ [e]) = map_insert e.1 e.2 (map_of l).
Proof. unfold map_of. by rewrite foldl_app. Qed.

Lemma map_of_sorted l : StronglySorted key_lt (keys (map_of l)).
Proof.
  induction l as [|e l IH] using rev_ind; [by constructor|]. rewrite map_of_snoc. by apply insert_sorted.
Qed.

Lemma map_of_perm l : NoDup (keys l) -> map_of l ≡ₚ l.
Proof.
  induction l as [|[k v] l IH] using rev_ind; intros Hnd; [done|]. unfold keys in Hnd. rewrite fmap_app in Hnd.
  apply NoDup_app in Hnd as (Hl & Hd & _). rewrite map_of_snoc, insert_absent.
  - simpl. rewrite (IH Hl). by rewrite (Permutation_app_comm l [(k, v)]).
  - simpl. rewrite (IH Hl). intros Hin. apply (Hd _ Hin). by apply elem_of_cons; left.
Qed.
End map_insert.

(** ** A name is the same after a message, if it has a POSIX thread *)
Lemma i32_idem z : i32 (i32 z) = i32 z.
Proof. unfold i32. rewrite Z.sub_add, Z.mod_mod; done. Qed.

Lemma convert_back old t (p : CBTF_Protocol_ThreadName) :
  t = ThreadName_of_message p -> p_has_posix_tid p = true -> ThreadName_of_message (convert old t) = t.
Proof. intros -> Hp. unfold ThreadName_of_message, convert. simpl. by rewrite Hp, i32_idem. Qed.
