(* ===== verification/NodeRole.v ===== *)
(** What a node of the filter network knows of its place in the tree. Each component
    of core/components keeps a copy of the topology, taken from the library
    (Impl::TheTopologyInfo) by the first handler that runs after it is known. *)
From S2P Require Import Prelude.

Record TopologyInfo := mkTopologyInfo { IsFrontend : bool; MaxLeafDistance : Z; NumChildren : Z }.

Record topology_copy := mkCopy { c_MaxLeafDistance : Z; c_NumChildren : Z; c_initialized : bool }.
Definition no_copy : topology_copy := mkCopy 0 0 false.

Definition init_TopologyInfo (T : TopologyInfo) (c : topology_copy) : topology_copy :=
  if c_initialized c then c
  else
    let initMaxLeafDistance := (c_MaxLeafDistance c =? 0) && (MaxLeafDistance T >? 0) in
    let initNumChildren := (c_NumChildren c =? 0) && (NumChildren T >? 0) in
    mkCopy (if initMaxLeafDistance then MaxLeafDistance T else c_MaxLeafDistance c)
           (if initNumChildren then NumChildren T else c_NumChildren c)
           (initMaxLeafDistance && initNumChildren).

Definition isFrontend (T : TopologyInfo) : bool := IsFrontend T.
Definition isLeafCP (T : TopologyInfo) (c : topology_copy) : bool := negb (IsFrontend T) && (c_MaxLeafDistance c =? 1).
Definition isNonLeafCP (T : TopologyInfo) (c : topology_copy) : bool := negb (IsFrontend T) && (c_MaxLeafDistance c >? 1).
Definition getNumChildren (c : topology_copy) : Z := c_NumChildren c.

(** A topology as the library reports it for a node of a tree. *)
Definition known (T : TopologyInfo) : Prop := 0 < MaxLeafDistance T /\ 0 < NumChildren T.
Definition copy_of (T : TopologyInfo) : topology_copy := mkCopy (MaxLeafDistance T) (NumChildren T) true.

(** The constructor of a component takes the copy, and the handlers keep it. *)
Lemma init_fresh T : known T -> init_TopologyInfo T no_copy = copy_of T.
Proof.
  intros [H1 H2]. unfold init_TopologyInfo. cbn [c_initialized no_copy c_MaxLeafDistance c_NumChildren].
  rewrite !Z.gtb_ltb. by rewrite (proj2 (Z.ltb_lt _ _) H1), (proj2 (Z.ltb_lt _ _) H2).
Qed.

Lemma init_again T : init_TopologyInfo T (copy_of T) = copy_of T.
Proof. reflexivity. Qed.

(** When the two values become known one after the other, both are taken, although
    the copy never counts as complete. *)
Lemma init_in_two_steps f d n : 0 < d -> 0 < n ->
  let c := init_TopologyInfo (mkTopologyInfo f d n) (init_TopologyInfo (mkTopologyInfo f d 0) no_copy) in
  c_MaxLeafDistance c = d /\ c_NumChildren c = n /\ c_initialized c = false.
Proof.
  intros Hd Hn. unfold init_TopologyInfo. cbn. rewrite !Z.gtb_ltb, (proj2 (Z.ltb_lt 0 d) Hd), (proj2 (Z.ltb_lt 0 n) Hn). cbn.
  assert (d =? 0 = false) as -> by lia. done.
Qed.
