(* ===== verification/ThreadEvents.v ===== *)
(** The component that counts the threads of the program:
    core/components/ThreadEventComponent.cpp. It runs on every node of the filter
    network. On a leaf it waits until as many threads have terminated as have
    attached; above, until every child has reported. A handler returns the state
    and what it emits, in order. Counters are unbounded: an int that counts
    messages is taken not to overflow. *)
From S2P Require Import Prelude ThreadName NodeRole.

Record te_state := mkTE {
  te_topology : topology_copy;
  te_is_finished : bool;
  te_threads_finished : Z;
  te_threads_finished_msgs : Z;
  te_threads_attached : Z;
  te_numBE : Z;
  te_numTerminated : Z;
  te_threadnamevec : list ThreadName }.

Inductive te_out :=
| AttachedToThreads_xdr_out (names : list CBTF_Protocol_ThreadName)
| ThreadNameVecOut (names : list ThreadName)
| Threads_finished (value : bool)
| numTerminatedOut (n : Z)
| numBE_out (n : Z).

Section handlers.
(** The topology as the library knows it, and what the memory of a message held. *)
Context (T : TopologyInfo) (uninit : Z).

Definition te_init (s : te_state) : te_state :=
  mkTE (init_TopologyInfo T (te_topology s)) (te_is_finished s) (te_threads_finished s) (te_threads_finished_msgs s)
    (te_threads_attached s) (te_numBE s) (te_numTerminated s) (te_threadnamevec s).

Definition ThreadEventComponent : te_state := te_init (mkTE no_copy false 0 0 0 0 0 []).

Definition convert_names (names : list ThreadName) : list CBTF_Protocol_ThreadName := convert uninit <$> names.

Definition te_numTerminatedHandler (s0 : te_state) (n : Z) : te_state * list te_out :=
  let s := te_init s0 in
  (mkTE (te_topology s) (te_is_finished s) (te_threads_finished s) (te_threads_finished_msgs s)
     (te_threads_attached s) (te_numBE s) (te_numTerminated s + n) (te_threadnamevec s), []).

Definition te_numBEHandler (s0 : te_state) (n : Z) : te_state * list te_out :=
  let s := te_init s0 in
  (mkTE (te_topology s) (te_is_finished s) (te_threads_finished s) (te_threads_finished_msgs s)
     (te_threads_attached s) n (te_numTerminated s) (te_threadnamevec s), [numBE_out n]).

(** The names and the state in the message are only printed. *)
Definition threadstateHandler (s0 : te_state) : te_state * list te_out :=
  let s := te_init s0 in
  let threads_finished := te_threads_finished s + 1 in
  let done := isLeafCP T (te_topology s) && (threads_finished =? te_threads_attached s) in
  (mkTE (te_topology s) (if done then true else te_is_finished s) threads_finished (te_threads_finished_msgs s)
     (te_threads_attached s) (te_numBE s) (te_numTerminated s) (te_threadnamevec s),
   if done then
     [ThreadNameVecOut (te_threadnamevec s);
      AttachedToThreads_xdr_out (convert_names (te_threadnamevec s));
      numTerminatedOut threads_finished;
      Threads_finished true]
   else []).

Definition te_finishedHandler (s0 : te_state) : te_state * list te_out :=
  let s := te_init s0 in
  if isLeafCP T (te_topology s) then (s, [])
  else
    let msgs := te_threads_finished_msgs s + 1 in
    let done := (isFrontend T || isNonLeafCP T (te_topology s)) && (msgs =? getNumChildren (te_topology s)) in
    (mkTE (te_topology s) (if done then true else te_is_finished s) (te_threads_finished s) msgs
       (te_threads_attached s) (te_numBE s) (te_numTerminated s) (te_threadnamevec s),
     if done then [Threads_finished true] else []).

Definition threadsHandler (s0 : te_state) (names : list CBTF_Protocol_ThreadName) : te_state * list te_out :=
  let s := te_init s0 in
  let threads_attached := te_threads_attached s + 1 in
  let send :=
    if isLeafCP T (te_topology s) then false
    else if isNonLeafCP T (te_topology s) && (getNumChildren (te_topology s) =? threads_attached) then true
    else if isFrontend T && (getNumChildren (te_topology s) =? threads_attached) then true
    else false in
  let threadnamevec := te_threadnamevec s ++ (ThreadName_of_message <$> names) in
  (mkTE (te_topology s) (te_is_finished s) (te_threads_finished s) (te_threads_finished_msgs s)
     threads_attached (te_numBE s) (te_numTerminated s) threadnamevec,
   if send then
     [ThreadNameVecOut threadnamevec;
      AttachedToThreads_xdr_out (convert_names threadnamevec);
      numTerminatedOut (Z.of_nat (length threadnamevec))]
   else []).
End handlers.
