(* ===== verification/AddressAggregator.v ===== *)
(** The component that adds up the addresses of the performance data:
    core/components/AddressAggregatorComponent.cpp. On a leaf it decodes each blob and
    emits one buffer when all threads have terminated; above, it merges the
    buffers of the children. The theorem: the map meant for load balance names,
    for each address, the blob with the largest count. *)
From S2P Require Import Prelude PCIndex Headers XDR RawData PerfData ThreadName NodeRole.

Record ag_state := mkAG {
  ag_topology : topology_copy;
  ag_is_finished : bool;
  ag_data_blobs : Z;
  ag_handled_buffers : Z;
  ag_numTerminated : Z;
  ag_threadnames : list ThreadName;
  ag_threadaddrbufmap : list (ThreadName * AddressBuffer);
  ag_total_data_size : Z;
  ag_abuffer : AddressBuffer;
  ag_addrThreadCount : gmap Z (ThreadName * Z) }.

Inductive ag_out :=
| Aggregatorout (buf : AddressBuffer)
| ThreadAddrBufMapOut (m : list (ThreadName * AddressBuffer))
| datablob_xdr_out (blob : Blob).

(** ** updateAddrThreadCountMap: the thread with the largest count of an address *)
Definition update_count (tname : ThreadName) (addr count : Z) (m : gmap Z (ThreadName * Z)) : gmap Z (ThreadName * Z) :=
  match m !! addr with
  | Some (t, c) => if count >? c then <[addr := (tname, count)]> m else m
  | None => <[addr := (tname, count)]> m
  end.
Definition updateAddrThreadCountMap (buf : AddressBuffer) (tname : ThreadName)
    (tm : list (ThreadName * AddressBuffer)) (m : gmap Z (ThreadName * Z)) :
    list (ThreadName * AddressBuffer) * gmap Z (ThreadName * Z) :=
  (map_insert tname buf tm, map_fold (update_count tname) m buf).

Section handlers.
(** The topology, whether the build defines NDEBUG, CBTF_DEFER_AGGR_EMIT, and what
    XDR needs. *)
Context (T : TopologyInfo) (ndebug is_defer_emit : bool) (HOST_NAME_MAX : nat) (xdr_float : codec Z).
Notation header := (xdr_CBTF_DataHeader HOST_NAME_MAX).

Definition ag_init (s : ag_state) : ag_state :=
  mkAG (init_TopologyInfo T (ag_topology s)) (ag_is_finished s) (ag_data_blobs s) (ag_handled_buffers s)
    (ag_numTerminated s) (ag_threadnames s) (ag_threadaddrbufmap s) (ag_total_data_size s) (ag_abuffer s)
    (ag_addrThreadCount s).

Definition AddressAggregator : ag_state := ag_init (mkAG no_copy false 0 0 0 [] [] 0 ∅ ∅).

Definition ag_numBEHandler (s : ag_state) (_ : Z) : ag_state * list ag_out := (ag_init s, []).

Definition ag_threadnamesHandler (s0 : ag_state) (names : list ThreadName) : ag_state * list ag_out :=
  let s := ag_init s0 in
  (mkAG (ag_topology s) (ag_is_finished s) (ag_data_blobs s) (ag_handled_buffers s)
     (ag_numTerminated s) names (ag_threadaddrbufmap s) (ag_total_data_size s) (ag_abuffer s)
     (ag_addrThreadCount s), []).

Definition ag_numTerminatedHandler (s0 : ag_state) (n : Z) : ag_state * list ag_out :=
  let s := ag_init s0 in
  let numTerminated := ag_numTerminated s + n in
  (mkAG (ag_topology s) (ag_is_finished s) (ag_data_blobs s) (ag_handled_buffers s)
     numTerminated (ag_threadnames s) (ag_threadaddrbufmap s) (ag_total_data_size s) (ag_abuffer s)
     (ag_addrThreadCount s),
   if isLeafCP T (ag_topology s) && (numTerminated =? Z.of_nat (length (ag_threadnames s))) then
     [Aggregatorout (ag_abuffer s); ThreadAddrBufMapOut (ag_threadaddrbufmap s)]
   else []).

(** The test comes before the topology is looked up. *)
Definition ag_finishedHandler (s0 : ag_state) : ag_state * list ag_out :=
  if isLeafCP T (ag_topology s0) then (s0, [])
  else
    let s := ag_init s0 in
    (mkAG (ag_topology s) true (ag_data_blobs s) (ag_handled_buffers s)
       (ag_numTerminated s) (ag_threadnames s) (ag_threadaddrbufmap s) (ag_total_data_size s) (ag_abuffer s)
       (ag_addrThreadCount s), []).

(** Above the leaves the blob is emitted again only in builds without NDEBUG. *)
Definition cbtf_protocol_blob_Handler (s0 : ag_state) (blob : Blob) : outcome (ag_state * list ag_out) :=
  let s := ag_init s0 in
  let data_blobs := ag_data_blobs s + 1 in
  if (length blob =? 0)%nat then Aborted
  else if negb (isLeafCP T (ag_topology s)) then
    Ok (mkAG (ag_topology s) (ag_is_finished s) data_blobs (ag_handled_buffers s)
          (ag_numTerminated s) (ag_threadnames s) (ag_threadaddrbufmap s) (ag_total_data_size s) (ag_abuffer s)
          (ag_addrThreadCount s),
        if ndebug then [] else [datablob_xdr_out blob])
  else
    h ← getXDRDecoding header blob;
    let threadname := ThreadName_of_ids (dh_host h.1) (dh_pid h.1) (dh_posix_tid h.1) (dh_rank h.1) (dh_omp_tid h.1) in
    let data_size := u32 (Z.of_nat (length blob) - h.2) in
    let total := i32 (ag_total_data_size s + data_size) in
    r ← aggregate HOST_NAME_MAX xdr_float blob ∅;
    let abuffer := merge_counts r.2 (ag_abuffer s) in
    let u := updateAddrThreadCountMap r.2 threadname (ag_threadaddrbufmap s) (ag_addrThreadCount s) in
    Ok (mkAG (ag_topology s) (ag_is_finished s) data_blobs (ag_handled_buffers s)
          (ag_numTerminated s) (ag_threadnames s) u.1 (i32 (total + r.1)) abuffer u.2,
        [datablob_xdr_out blob]).

Definition pass_cbtf_protocol_blob_Handler (s : ag_state) (blob : Blob) : ag_state * list ag_out :=
  (ag_init s, if is_defer_emit then [] else [datablob_xdr_out blob]).

Definition addressBufferHandler (s0 : ag_state) (buf : AddressBuffer) : ag_state * list ag_out :=
  let s := ag_init s0 in
  let handled_buffers := ag_handled_buffers s + 1 in
  let abuffer := map_fold updateAddressCounts (ag_abuffer s) buf in
  (mkAG (ag_topology s) (ag_is_finished s) (ag_data_blobs s) handled_buffers
     (ag_numTerminated s) (ag_threadnames s) (ag_threadaddrbufmap s) (ag_total_data_size s) abuffer
     (ag_addrThreadCount s),
   if (isFrontend T || isNonLeafCP T (ag_topology s)) && (handled_buffers =? getNumChildren (ag_topology s)) then
     [Aggregatorout abuffer]
   else []).

(** The header is decoded, but the data are not used. *)
Definition blobHandler (s0 : ag_state) (blob : Blob) : outcome (ag_state * list ag_out) :=
  let s := ag_init s0 in
  _ ← getXDRDecoding header blob;
  Ok (s, [Aggregatorout (ag_abuffer s)]).
End handlers.

(** ** Merged buffers *)
Lemma addressBuffer_counts (from buf : AddressBuffer) : counts_ok from -> counts_ok buf ->
  counts_ok (map_fold updateAddressCounts buf from) /\
  forall p, p <> 0 -> count_at p (map_fold updateAddressCounts buf from) = u64 (count_at p buf + count_at p from).
Proof.
  intros Hf Hb. rewrite map_fold_foldr.
  assert (Heq : forall l, foldr (uncurry updateAddressCounts) buf l =
                          charges (List.filter (fun c => negb (c.1 =? 0)) l) buf).
  { intros l. induction l as [|[a n] l IH]; [done|]. simpl. unfold updateAddressCounts at 1.
    destruct (a =? 0); simpl; by rewrite IH. }
  assert (Htally : forall p l, p <> 0 -> tally id p (List.filter (fun c => negb (c.1 =? 0)) l) = tally id p l).
  { intros p l Hp. induction l as [|[a n] l IH]; [done|]. cbn [List.filter fst]. destruct (a =? 0) eqn:Ha; bools; cbn [negb tally].
    - rewrite IH. destruct (a =? p) eqn:?; bools; [lia|done].
    - by rewrite IH. }
  rewrite Heq. destruct (charges_count (List.filter (fun c => negb (c.1 =? 0)) (map_to_list from)) buf) as [H1 H2]; [|done|].
  - apply List.Forall_forall. intros [a n] Hin. apply filter_In in Hin as [Hin _].
    apply list_elem_of_In, elem_of_map_to_list in Hin. exact (Hf a n Hin).
  - split; [done|]. intros p Hp. rewrite H2, Htally, tally_map; done.
Qed.

Lemma merge_domain (from buf : AddressBuffer) a : is_Some (merge_counts from buf !! a) <-> is_Some (from !! a) \/ is_Some (buf !! a).
Proof.
  unfold merge_counts. induction from as [|x n m Hx Hf IH] using map_first_key_ind; [rewrite map_fold_empty, lookup_empty; unfold is_Some; naive_solver|].
  rewrite map_fold_insert_first_key by done.
  unfold bump at 1. destruct (decide (x = a)) as [->|Hne].
  - rewrite !lookup_insert_eq. naive_solver.
  - by rewrite !lookup_insert_ne.
Qed.

Lemma addressBuffer_domain (from buf : AddressBuffer) a : a <> 0 ->
  is_Some (map_fold updateAddressCounts buf from !! a) <-> is_Some (from !! a) \/ is_Some (buf !! a).
Proof.
  intros Ha. induction from as [|x n m Hx Hf IH] using map_first_key_ind; [rewrite map_fold_empty, lookup_empty; unfold is_Some; naive_solver|].
  rewrite map_fold_insert_first_key by done.
  unfold updateAddressCounts at 1, bump. destruct (x =? 0) eqn:H0; bools.
  - subst. by rewrite lookup_insert_ne.
  - destruct (decide (x = a)) as [->|Hne]; [rewrite !lookup_insert_eq; naive_solver|by rewrite !lookup_insert_ne].
Qed.

(** ** Load balance: the blob with the largest count *)
Definition balance (l : list (ThreadName * AddressBuffer)) :
    list (ThreadName * AddressBuffer) * gmap Z (ThreadName * Z) :=
  foldl (fun u e => updateAddrThreadCountMap e.2 e.1 u.1 u.2) ([], ∅) l.

(** One buffer against the entry so far. *)
Lemma update_counts_lookup t (buf : AddressBuffer) m a :
  map_fold (update_count t) m buf !! a =
  match buf !! a, m !! a with
  | None, e => e
  | Some n, None => Some (t, n)
  | Some n, Some (t', c) => if n >? c then Some (t, n) else Some (t', c)
  end.
Proof.
  induction buf as [|x n b Hx Hf IH] using map_first_key_ind; [done|].
  rewrite map_fold_insert_first_key by done.
  unfold update_count at 1. destruct (decide (x = a)) as [->|Hne].
  - rewrite lookup_insert_eq, IH. rewrite Hx. destruct (m !! a) as [[t' c]|] eqn:Hm; rewrite ?lookup_insert_eq; [|done].
    destruct (n >? c); [by rewrite lookup_insert_eq|]. rewrite IH. by rewrite Hx.
  - rewrite lookup_insert_ne by done. rewrite <- IH.
    destruct (map_fold (update_count t) m b !! x) as [[t' c]|]; [destruct (n >? c)|]; rewrite ?lookup_insert_ne; done.
Qed.

(** The first of the blobs with the largest count of the address. *)
Definition busiest (l : list (ThreadName * AddressBuffer)) (a : Z) (t : ThreadName) (c : Z) : Prop :=
  exists i buf, l !! i = Some (t, buf) /\ buf !! a = Some c /\
    forall j t' buf' c', l !! j = Some (t', buf') -> buf' !! a = Some c' -> c' <= c /\ ((j < i)%nat -> c' < c).

Lemma busiest_snoc_keep l t0 (buf0 : AddressBuffer) a t c : busiest l a t c ->
  (forall n, buf0 !! a = Some n -> n <= c) -> busiest (l ++ [(t0, buf0)]) a t c.
Proof.
  intros (i & buf & Hi & Hb & Hmax) Hn. exists i, buf. split_and!; [by apply lookup_app_l_Some|done|].
  intros j t' buf' c' Hj Hc'. apply lookup_app_Some in Hj as [Hj|[Hlen Hj]]; [by apply (Hmax j t' buf')|].
  apply list_lookup_singleton_Some in Hj as [Hz [= <- <-]]. split; [by apply Hn|].
  apply lookup_lt_Some in Hi. lia.
Qed.

Lemma busiest_snoc_new l t0 (buf0 : AddressBuffer) a n : buf0 !! a = Some n ->
  (forall t buf c, (t, buf) ∈ l -> buf !! a = Some c -> c < n) -> busiest (l ++ [(t0, buf0)]) a t0 n.
Proof.
  intros Hn Hlt. exists (length l), buf0. split_and!; [by apply list_lookup_middle|done|].
  intros j t' buf' c' Hj Hc'. apply lookup_app_Some in Hj as [Hj|[Hlen Hj]].
  - apply list_elem_of_lookup_2 in Hj. specialize (Hlt t' buf' c' Hj Hc'). lia.
  - apply list_lookup_singleton_Some in Hj as [Hz [= <- <-]]. rewrite Hn in Hc'. injection Hc' as ->. split; lia.
Qed.

Lemma busiest_max l a t c t' (buf : AddressBuffer) c' : busiest l a t c -> (t', buf) ∈ l -> buf !! a = Some c' -> c' <= c.
Proof.
  intros (i & b & _ & _ & Hmax) Hin Hc'. apply list_elem_of_lookup_1 in Hin as [j Hj].
  by destruct (Hmax j t' buf c' Hj Hc').
Qed.

(** The address map for load balance has, for every address, the thread of the
    first of the blobs in which the address has its largest count, and no entry for
    the other addresses; it is about single blobs, not about what a thread adds
    up to. The map of buffers per thread has only the first blob of each
    thread: threads that send more than one blob lose the rest there. *)
Theorem load_balance_by_blob (l : list (ThreadName * AddressBuffer)) :
  (forall a t c, (balance l).2 !! a = Some (t, c) -> busiest l a t c) /\
  (forall a, (balance l).2 !! a = None -> forall t buf, (t, buf) ∈ l -> buf !! a = None) /\
  (balance l).1 = map_of l.
Proof.
  induction l as [|[t0 buf0] l (IH1 & IH2 & IH3)] using rev_ind.
  - split_and!; [done| |done]. intros a _ t buf Hin. by apply not_elem_of_nil in Hin.
  - unfold balance in *. rewrite foldl_app. simpl. split_and!.
    + intros a t c. rewrite update_counts_lookup. destruct (buf0 !! a) as [n|] eqn:Hn.
      * destruct ((foldl _ _ l).2 !! a) as [[t' c']|] eqn:Hm; [|intros [= -> ->]; apply busiest_snoc_new; [done|]].
        -- destruct (n >? c') eqn:Hgt; intros [= -> ->]; specialize (IH1 a _ _ Hm).
           ++ apply busiest_snoc_new; [done|]. intros t1 b1 c1 Hin Hc1. pose proof (busiest_max _ _ _ _ _ _ _ IH1 Hin Hc1).
              bools. lia.
           ++ apply busiest_snoc_keep; [done|]. intros n' Hn'. rewrite Hn in Hn'. injection Hn' as <-. bools. lia.
        -- intros t1 b1 c1 Hin Hc1. by rewrite (IH2 a Hm t1 b1 Hin) in Hc1.
      * intros Hm. apply busiest_snoc_keep; [by apply IH1|]. intros n Hn'. by rewrite Hn in Hn'.
    + intros a. rewrite update_counts_lookup. destruct (buf0 !! a) as [n|] eqn:Hn.
      * by destruct ((foldl _ _ l).2 !! a) as [[t' c']|]; [destruct (n >? c')|].
      * intros Hm t b Hin. apply elem_of_app in Hin as [Hin|Hin]; [by apply (IH2 a Hm t)|].
        apply elem_of_cons in Hin as [[= -> ->]|Hin]; [done|by apply not_elem_of_nil in Hin].
    + by rewrite map_of_snoc, <- IH3.
Qed.
