(* ===== verification/LinkedObjects.v ===== *)
(** The component that keeps the linked objects of the threads:
    core/components/LinkedObjectComponent.cpp. Each thread sends the group of its linked
    objects; a leaf passes on those with a sample in the buffer of addresses, and
    every node waits until it has a group for each thread. *)
From S2P Require Import Prelude PerfData ThreadName NodeRole.

(** ** Data: AddressRange and TimeInterval are pairs [begin, end) *)
Record LinkedObject := mkLO {
  lo_path : string; lo_time : Z * Z; lo_range : Z * Z; lo_is_executable : bool }.
Record CBTF_Protocol_LinkedObject := mkProtocolLO {
  plo_path : string; plo_range : Z * Z; plo_time_begin : Z; plo_time_end : Z; plo_is_executable : bool }.
Record CBTF_Protocol_LinkedObjectGroup := mkGroup {
  g_thread : CBTF_Protocol_ThreadName; g_linkedobjects : list CBTF_Protocol_LinkedObject }.
Record CBTF_Protocol_LoadedLinkedObject := mkLoaded {
  l_threads : list CBTF_Protocol_ThreadName; l_time : Z; l_range : Z * Z; l_path : string; l_is_executable : bool }.
Record LinkedObjectEntry := mkEntry {
  e_tname : ThreadName; e_path : string; e_addr_begin : Z; e_addr_end : Z; e_is_executable : bool;
  e_time_loaded : Z; e_time_unloaded : Z }.

Notation AddressSpace := (list (ThreadName * list LinkedObject)).

Record lo_state := mkLOS {
  los_topology : topology_copy;
  los_handled_threads : Z;
  los_numTerminated : Z;
  los_numThreads : Z;
  los_abuffer : AddressBuffer;
  los_linkedobjectentryvec : list LinkedObjectEntry;
  los_threadnames : list ThreadName;
  los_addressspace : AddressSpace }.

Inductive lo_out :=
| group_xdr_out (group : CBTF_Protocol_LinkedObjectGroup)
| linkedobject_threadmap_out (found : AddressSpace)
| loaded_xdr_out (m : CBTF_Protocol_LoadedLinkedObject)
| unloaded_xdr_out (m : CBTF_Protocol_LoadedLinkedObject).

(** Interval(begin, end) asserts begin < end. *)
Definition Interval (b e : Z) : outcome (Z * Z) := _ ← Assert (b <? e); Ok (b, e).

Definition LinkedObject_of_message (m : CBTF_Protocol_LinkedObject) : outcome LinkedObject :=
  t ← Interval (plo_time_begin m) (plo_time_end m);
  r ← Interval (plo_range m).1 (plo_range m).2;
  Ok (mkLO (plo_path m) t r (plo_is_executable m)).

Definition convert_linkedobject (o : LinkedObject) : CBTF_Protocol_LinkedObject :=
  mkProtocolLO (lo_path o) (lo_range o) (lo_time o).1 (lo_time o).2 (lo_is_executable o).

(** A group made by new CBTF_Protocol_LinkedObjectGroup() is zero before convert(). *)
Definition group_of (e : ThreadName * list LinkedObject) : CBTF_Protocol_LinkedObjectGroup :=
  mkGroup (convert 0 e.1) (convert_linkedobject <$> e.2).

(** ** Samples in a range: an iterator of the map is the number of the keys before
    it, and equal_range(a) is the pair of lower_bound(a) and upper_bound(a). *)
Definition lower_bound (ac : AddressBuffer) (a : Z) : Z := countb (fun e => e.1 <? a) (map_to_list ac).
Definition upper_bound (ac : AddressBuffer) (a : Z) : Z := countb (fun e => e.1 <=? a) (map_to_list ac).
Definition has_sample (ac : AddressBuffer) (o : LinkedObject) : bool :=
  negb (lower_bound ac (lo_range o).1 =? upper_bound ac (lo_range o).2).
Definition havecounts (ac : AddressBuffer) : bool := Z.of_nat (size ac) >? 0.

Section handlers.
Context (T : TopologyInfo).

Definition los_init (s : lo_state) : lo_state :=
  mkLOS (init_TopologyInfo T (los_topology s)) (los_handled_threads s) (los_numTerminated s) (los_numThreads s)
    (los_abuffer s) (los_linkedobjectentryvec s) (los_threadnames s) (los_addressspace s).

Definition LinkedObjectComponent : lo_state := los_init (mkLOS no_copy 0 0 0 ∅ [] [] []).

Definition los_numBEHandler (s : lo_state) (_ : Z) : lo_state * list lo_out := (los_init s, []).

Definition reduce (ac : AddressBuffer) (space : AddressSpace) : AddressSpace :=
  foldl (fun found e =>
    let tmp := List.filter (fun o => has_sample ac o || negb (havecounts ac)) e.2 in
    if Z.of_nat (length tmp) >? 0 then map_insert e.1 tmp found else found) [] space.

Definition los_numTerminatedHandler (s0 : lo_state) (n : Z) : lo_state * list lo_out :=
  let s := los_init s0 in
  let numTerminated := los_numTerminated s + n in
  (mkLOS (los_topology s) (los_handled_threads s) numTerminated (los_numThreads s)
     (los_abuffer s) (los_linkedobjectentryvec s) (los_threadnames s) (los_addressspace s),
   if (numTerminated =? los_numThreads s) && (Z.of_nat (length (los_addressspace s)) =? los_numThreads s) then
     let found := reduce (los_abuffer s) (los_addressspace s) in
     ((group_xdr_out ∘ group_of) <$> found) ++ [linkedobject_threadmap_out found]
   else []).

Definition AddressBufferHandler (s0 : lo_state) (buf : AddressBuffer) : lo_state * list lo_out :=
  let s := los_init s0 in
  (mkLOS (los_topology s) (los_handled_threads s) (los_numTerminated s) (los_numThreads s)
     buf (los_linkedobjectentryvec s) (los_threadnames s) (los_addressspace s), []).

Definition los_threadnamesHandler (s0 : lo_state) (names : list ThreadName) : lo_state * list lo_out :=
  let s := los_init s0 in
  (mkLOS (los_topology s) (los_handled_threads s) (los_numTerminated s) (Z.of_nat (length names))
     (los_abuffer s) (los_linkedobjectentryvec s) names (los_addressspace s), []).

Fixpoint linkedobjects_of (ms : list CBTF_Protocol_LinkedObject) : outcome (list LinkedObject) :=
  match ms with
  | [] => Ok []
  | m :: ms' => o ← LinkedObject_of_message m; os ← linkedobjects_of ms'; Ok (o :: os)
  end.

Definition groupHandler (s0 : lo_state) (g : CBTF_Protocol_LinkedObjectGroup) : outcome (lo_state * list lo_out) :=
  let s := los_init s0 in
  let tname := ThreadName_of_message (g_thread g) in
  vec ← linkedobjects_of (g_linkedobjects g);
  let space := map_insert tname vec (los_addressspace s) in
  Ok (mkLOS (los_topology s) (los_handled_threads s + 1) (los_numTerminated s) (los_numThreads s)
        (los_abuffer s) (los_linkedobjectentryvec s) (los_threadnames s) space,
      if negb (isLeafCP T (los_topology s)) && (length space =? length (los_threadnames s))%nat &&
         (los_numTerminated s =? Z.of_nat (length (los_threadnames s))) then
        (group_xdr_out ∘ group_of) <$> space
      else []).

(** [now] are the results of Time::Now(), one for each thread. *)
Definition loadedHandler (now : nat -> Z) (s0 : lo_state) (m : CBTF_Protocol_LoadedLinkedObject) : lo_state * list lo_out :=
  let s := los_init s0 in
  let entries := imap (fun i t =>
    mkEntry (ThreadName_of_message t) (l_path m) (l_range m).1 (l_range m).2 (l_is_executable m) (l_time m) (now i)) (l_threads m) in
  (mkLOS (los_topology s) (los_handled_threads s) (los_numTerminated s) (los_numThreads s)
     (los_abuffer s) (los_linkedobjectentryvec s ++ entries) (los_threadnames s) (los_addressspace s),
   [loaded_xdr_out m]).

Definition unloadedHandler (s : lo_state) (m : CBTF_Protocol_LoadedLinkedObject) : lo_state * list lo_out :=
  (los_init s, [unloaded_xdr_out m]).
End handlers.

(** ** Samples *)
Definition sampled (ac : AddressBuffer) (o : LinkedObject) : Prop :=
  exists a, is_Some (ac !! a) /\ (lo_range o).1 <= a <= (lo_range o).2.

Lemma countb_mono {A} (f g : A -> bool) l : (forall x, x ∈ l -> f x = true -> g x = true) -> countb f l <= countb g l.
Proof.
  induction l as [|x l IH]; intros H; [done|]. rewrite !countb_cons.
  assert (countb f l <= countb g l) by (apply IH; set_solver). specialize (H x ltac:(set_solver)).
  destruct (f x), (g x); try lia; by specialize (H eq_refl).
Qed.

Lemma countb_strict {A} (f g : A -> bool) l : (forall x, x ∈ l -> f x = true -> g x = true) ->
  countb f l = countb g l <-> forall x, x ∈ l -> g x = true -> f x = true.
Proof.
  induction l as [|x l IH]; intros H; [set_solver|]. rewrite !countb_cons.
  assert (countb f l <= countb g l) by (apply countb_mono; set_solver).
  specialize (IH ltac:(set_solver)). pose proof (H x ltac:(set_solver)) as Hx. split.
  - intros Heq y Hy. apply elem_of_cons in Hy as [->|Hy].
    + destruct (f x), (g x); try done; lia.
    + apply IH; [|done]. destruct (f x), (g x); try lia; by specialize (Hx eq_refl).
  - intros Hall. rewrite (proj2 IH) by set_solver. specialize (Hall x ltac:(set_solver)).
    destruct (f x), (g x); try done; [by specialize (Hx eq_refl)|by specialize (Hall eq_refl)].
Qed.

(** The end of the range counts as well. *)
Lemma has_sample_iff ac o : (lo_range o).1 < (lo_range o).2 -> has_sample ac o = true <-> sampled ac o.
Proof.
  intros Hr. unfold has_sample, lower_bound, upper_bound. rewrite negb_true_iff, Z.eqb_neq.
  rewrite countb_strict by (intros; bools; apply Z.leb_le; lia). split.
  - intros Hn. destruct (decide (Exists (fun e => (lo_range o).1 <= e.1 <= (lo_range o).2) (map_to_list ac))) as [He|He].
    + apply Exists_exists in He as ([a n] & Hin & Ha). apply elem_of_map_to_list in Hin. exists a. split; [by exists n|done].
    + exfalso. apply Hn. intros x Hx Hle. bools. apply Z.ltb_lt. apply not_Exists_Forall in He; [|apply _].
      apply (proj1 (Forall_forall _ _) He) in Hx. unfold compose in Hx. lia.
  - intros (a & [n Hn] & Ha) H. apply elem_of_map_to_list in Hn. specialize (H _ Hn). cbn [fst] in H.
    rewrite Z.leb_le, Z.ltb_lt in H. lia.
Qed.

(** ** What is kept *)
Definition keeps (ac : AddressBuffer) (e : ThreadName * list LinkedObject) : ThreadName * list LinkedObject :=
  (e.1, List.filter (fun o => has_sample ac o || negb (havecounts ac)) e.2).

Lemma reduce_map ac space : reduce ac space = map_of (List.filter (fun e => Z.of_nat (length e.2) >? 0) (keeps ac <$> space)).
Proof.
  unfold reduce, map_of. generalize (@nil (ThreadName * list LinkedObject)).
  induction space as [|e space IH]; intros found; [done|]. cbn [foldl fmap list_fmap List.filter keeps snd].
  destruct (_ >? 0) eqn:Hg; cbn [foldl]; rewrite IH; done.
Qed.

(** Linked objects as a message carries them. *)
Definition proper_object (o : LinkedObject) : Prop :=
  (lo_time o).1 < (lo_time o).2 /\ (lo_range o).1 < (lo_range o).2.

Lemma linkedobject_back o : proper_object o -> LinkedObject_of_message (convert_linkedobject o) = Ok o.
Proof.
  destruct o as [p [t1 t2] [r1 r2] x]. intros [H1 H2]. simpl in *.
  unfold LinkedObject_of_message, Interval, Assert; simpl.
  by rewrite (proj2 (Z.ltb_lt _ _) H1), (proj2 (Z.ltb_lt _ _) H2).
Qed.

Lemma linkedobjects_back os : Forall proper_object os -> linkedobjects_of (convert_linkedobject <$> os) = Ok os.
Proof.
  induction 1 as [|o os Ho _ IH]; [done|]. rewrite fmap_cons. cbn [linkedobjects_of].
  by rewrite linkedobject_back, bind_of_Ok, IH.
Qed.
