(* ===== verification/FilterNode.v ===== *)
(** A node of the filter network: the components of core/components wired as in
    core/collectors/template.xml.in. Connections between components of a node are
    calls, so that a handler's emissions are handled before the next message; what
    leaves a node goes to the parent, or from the frontend to the tool. The
    theorems: a leaf that is told of the end of every thread after all of them
    attached reports once, with everything it got; a node above reports once when
    all of its children have, whatever the order of their messages. *)
From S2P Require Import Prelude PCIndex Headers XDR RawData PerfData ThreadName NodeRole.
From S2P Require Import ThreadEvents AddressAggregator LinkedObjects.

(** ** Messages between nodes, by the streams of the network *)
Inductive message :=
| MAttached (names : list CBTF_Protocol_ThreadName)   (* CBTF_PROTOCOL_TAG_ATTACHED_TO_THREADS *)
| MState (names : list CBTF_Protocol_ThreadName) (state : Z)   (* CBTF_PROTOCOL_TAG_THREADS_STATE_CHANGED *)
| MFinished   (* ThreadsFinished *)
| MBuffer (buf : AddressBuffer)   (* Buffers *)
| MGroup (g : CBTF_Protocol_LinkedObjectGroup)   (* CBTF_PROTOCOL_TAG_LINKED_OBJECT_GROUP *)
| MBlob (blob : Blob).   (* CBTF_PROTOCOL_TAG_PERFORMANCE_DATA *)

Record node := mkNode { n_te : te_state; n_ag : ag_state; n_lo : lo_state }.

Section node.
(** [aggregator_first]: of the two connections of numTerminatedOut, that to the
    aggregator is served first (it is listed first). *)
Context (ndebug aggregator_first : bool) (uninit : Z) (HOST_NAME_MAX : nat) (xdr_float : codec Z) (T : TopologyInfo).

Definition fresh : node := mkNode (ThreadEventComponent T) (AddressAggregator T) (LinkedObjectComponent T).

Definition lo_up (o : lo_out) : list message :=
  match o with
  | group_xdr_out g => [MGroup g]
  | _ => []
  end.

Definition to_lo (n : node) (r : lo_state * list lo_out) : node * list message :=
  (mkNode (n_te n) (n_ag n) r.1, concat (lo_up <$> r.2)).

(** What the aggregator emits: the buffer goes to the linked object component, too. *)
Definition route_ag (n : node) (o : ag_out) : node * list message :=
  match o with
  | Aggregatorout b =>
      let r := to_lo n (AddressBufferHandler T (n_lo n) b) in
      (r.1, r.2 ++ [MBuffer b])
  | ThreadAddrBufMapOut _ => (n, [])
  | datablob_xdr_out b => (n, [MBlob b])
  end.

Definition route {O} (f : node -> O -> node * list message) (n : node) (outs : list O) : node * list message :=
  foldl (fun r o => let r' := f r.1 o in (r'.1, r.2 ++ r'.2)) (n, []) outs.

Definition to_ag (n : node) (r : ag_state * list ag_out) : node * list message :=
  route route_ag (mkNode (n_te n) r.1 (n_lo n)) r.2.

Definition both (f g : node -> node * list message) (n : node) : node * list message :=
  let r := f n in let r' := g r.1 in (r'.1, r.2 ++ r'.2).

Definition route_te (n : node) (o : te_out) : node * list message :=
  match o with
  | ThreadNameVecOut v =>
      both (fun n => to_ag n (ag_threadnamesHandler T (n_ag n) v))
           (fun n => to_lo n (los_threadnamesHandler T (n_lo n) v)) n
  | AttachedToThreads_xdr_out v => (n, [MAttached v])
  | numTerminatedOut k =>
      let ag n := to_ag n (ag_numTerminatedHandler T (n_ag n) k) in
      let lo n := to_lo n (los_numTerminatedHandler T (n_lo n) k) in
      if aggregator_first then both ag lo n else both lo ag n
  | Threads_finished _ =>
      let r := to_ag n (ag_finishedHandler T (n_ag n)) in (r.1, r.2 ++ [MFinished])
  | numBE_out k =>
      both (fun n => to_lo n (los_numBEHandler T (n_lo n) k))
           (fun n => to_ag n (ag_numBEHandler T (n_ag n) k)) n
  end.

Definition to_te (n : node) (r : te_state * list te_out) : node * list message :=
  route route_te (mkNode r.1 (n_ag n) (n_lo n)) r.2.

(** A message arrives. The frontend has no input for thread states. *)
Definition deliver (n : node) (m : message) : outcome (node * list message) :=
  match m with
  | MAttached names => Ok (to_te n (threadsHandler T uninit (n_te n) names))
  | MState _ _ => if isFrontend T then Ok (n, []) else Ok (to_te n (threadstateHandler T uninit (n_te n)))
  | MFinished => Ok (to_te n (te_finishedHandler T (n_te n)))
  | MBuffer b => Ok (to_ag n (addressBufferHandler T (n_ag n) b))
  | MGroup g => r ← groupHandler T (n_lo n) g; Ok (to_lo n r)
  | MBlob b => r ← cbtf_protocol_blob_Handler T ndebug HOST_NAME_MAX xdr_float (n_ag n) b; Ok (to_ag n r)
  end.

(** The downward message with the number of backends. *)
Definition deliver_numBE (n : node) (k : Z) : node * list message := to_te n (te_numBEHandler T (n_te n) k).

(** A node whose process has ended takes messages and sends none. *)
Definition deliver_all (n : option node) (m : message) : option node * list message :=
  match n with
  | None => (None, [])
  | Some n => match deliver n m with Ok r => (Some r.1, r.2) | _ => (None, []) end
  end.

Definition run (ms : list message) : option node * list message :=
  foldl (fun r m => let r' := deliver_all r.1 m in (r'.1, r.2 ++ r'.2)) (Some fresh, []) ms.

Lemma run_snoc ms m : run (ms ++ [m]) = let r' := deliver_all (run ms).1 m in (r'.1, (run ms).2 ++ r'.2).
Proof. unfold run. by rewrite foldl_app. Qed.
End node.

(** ** What a list of messages says *)
Definition attaches (ms : list message) : list (list ThreadName) :=
  omap (fun m => match m with MAttached ns => Some (ThreadName_of_message <$> ns) | _ => None end) ms.
Definition states (ms : list message) : list unit :=
  omap (fun m => match m with MState _ _ => Some tt | _ => None end) ms.
Definition finishes (ms : list message) : list unit :=
  omap (fun m => match m with MFinished => Some tt | _ => None end) ms.
Definition buffers (ms : list message) : list AddressBuffer :=
  omap (fun m => match m with MBuffer b => Some b | _ => None end) ms.
Definition group_entry (g : CBTF_Protocol_LinkedObjectGroup) : ThreadName * list LinkedObject :=
  (ThreadName_of_message (g_thread g), match linkedobjects_of (g_linkedobjects g) with Ok v => v | _ => [] end).
Definition groups (ms : list message) : list (ThreadName * list LinkedObject) :=
  omap (fun m => match m with MGroup g => Some (group_entry g) | _ => None end) ms.
Definition blobs (ms : list message) : list Blob :=
  omap (fun m => match m with MBlob b => Some b | _ => None end) ms.

Notation count l := (Z.of_nat (length l)).

Section app.
Implicit Types ms : list message.
Lemma attaches_app ms ms' : attaches (ms ++ ms') = attaches ms ++ attaches ms'. Proof. apply omap_app. Qed.
Lemma states_app ms ms' : states (ms ++ ms') = states ms ++ states ms'. Proof. apply omap_app. Qed.
Lemma finishes_app ms ms' : finishes (ms ++ ms') = finishes ms ++ finishes ms'. Proof. apply omap_app. Qed.
Lemma buffers_app ms ms' : buffers (ms ++ ms') = buffers ms ++ buffers ms'. Proof. apply omap_app. Qed.
Lemma groups_app ms ms' : groups (ms ++ ms') = groups ms ++ groups ms'. Proof. apply omap_app. Qed.
Lemma blobs_app ms ms' : blobs (ms ++ ms') = blobs ms ++ blobs ms'. Proof. apply omap_app. Qed.
End app.

#[export] Hint Rewrite attaches_app states_app finishes_app buffers_app groups_app blobs_app : msgs.

(** ** Well-formed messages *)
Definition proper_name (t : ThreadName) : Prop :=
  ThreadName_of_message (convert 0 t) = t /\ (dm_posixtid t).1 = true.

Definition proper_message (m : message) : Prop :=
  match m with
  | MAttached ns => Forall proper_name (ThreadName_of_message <$> ns)
  | MGroup g => proper_name (ThreadName_of_message (g_thread g)) /\
                exists os, linkedobjects_of (g_linkedobjects g) = Ok os /\ Forall proper_object os
  | MBuffer b => counts_ok b
  | MBlob b => b <> []
  | _ => True
  end.

Lemma name_back u t : proper_name t -> ThreadName_of_message (convert u t) = t.
Proof. intros [H1 H2]. rewrite <- H1 at 2. unfold convert. by rewrite H2. Qed.

Lemma names_back u l : Forall proper_name l -> ThreadName_of_message <$> convert_names u l = l.
Proof.
  unfold convert_names. induction 1 as [|t l Ht _ IH]; [done|]. rewrite !fmap_cons, IH. by rewrite name_back.
Qed.

Lemma group_back e : proper_name e.1 -> Forall proper_object e.2 -> group_entry (group_of e) = e.
Proof.
  destruct e as [t os]. intros Ht Hos. unfold group_entry, group_of. simpl. rewrite name_back by done.
  by rewrite linkedobjects_back.
Qed.

Lemma proper_attaches ms : Forall proper_message ms -> Forall proper_name (concat (attaches ms)).
Proof.
  induction 1 as [|m ms Hm _ IH]; [constructor|]. destruct m; simpl; try done.
  unfold attaches. simpl. apply Forall_app. by split.
Qed.

Definition proper_entry (e : ThreadName * list LinkedObject) : Prop := proper_name e.1 /\ Forall proper_object e.2.

Lemma proper_groups ms : Forall proper_message ms -> Forall proper_entry (groups ms).
Proof.
  induction 1 as [|m ms Hm _ IH]; [constructor|]. destruct m; simpl; try done.
  unfold groups. simpl. constructor; [|done]. destruct Hm as [Hn (os & Hos & Hp)]. unfold group_entry. rewrite Hos. by split.
Qed.

(** Groups sent on are those that came. *)
Lemma groups_back es : Forall proper_entry es -> groups (concat (lo_up <$> ((group_xdr_out ∘ group_of) <$> es))) = es.
Proof.
  induction 1 as [|e es [H1 H2] _ IH]; [done|]. rewrite !fmap_cons. cbn [concat lo_up compose]. simpl.
  unfold groups in *. simpl. by rewrite IH, group_back.
Qed.

Lemma count_snoc {A} (l : list A) x : count (l ++ [x]) = count l + 1.
Proof. rewrite length_app. simpl. lia. Qed.

(** Evaluate the projections of a list with a known last message. *)
Ltac one f := repeat match goal with
  |- context [f [?m]] => let t := eval cbv beta iota delta [f omap list_omap] in (f [m]) in change (f [m]) with t
  end.
Ltac proj := autorewrite with msgs; one attaches; one states; one finishes; one buffers; one groups; one blobs;
  rewrite ?app_nil_r, ?count_snoc, ?concat_app; cbn [concat]; rewrite ?app_nil_r.

(** ** A node above the leaves *)
Definition merged (bs : list AddressBuffer) : AddressBuffer :=
  foldl (fun acc b => map_fold updateAddressCounts acc b) ∅ bs.

Section upper.
Context (ndebug aggregator_first : bool) (uninit : Z) (HOST_NAME_MAX : nat) (xdr_float : codec Z) (T : TopologyInfo).
Context (HT : known T) (Hup : isLeafCP T (copy_of T) = false) (Hrole : isFrontend T || isNonLeafCP T (copy_of T) = true).
Notation deliver := (deliver ndebug aggregator_first uninit HOST_NAME_MAX xdr_float T).
Notation run := (run ndebug aggregator_first uninit HOST_NAME_MAX xdr_float T).
Notation n := (NumChildren T).

Definition known_names (p : list message) : list ThreadName :=
  if count (attaches p) =? n then concat (attaches p) else [].
Definition known_buffer (p : list message) : AddressBuffer :=
  if count (buffers p) =? n then merged (buffers p) else ∅.
Definition groups_due (p : list message) : bool :=
  (count (attaches p) =? n) && (count (groups p) =? count (concat (attaches p))).

(** The node after the messages [p]. *)
Definition up_node (p : list message) : node :=
  mkNode
    (mkTE (copy_of T) (count (finishes p) =? n) 0 (count (finishes p)) (count (attaches p)) 0 0 (concat (attaches p)))
    (mkAG (copy_of T) (count (finishes p) =? n) (count (blobs p)) (count (buffers p)) (count (known_names p))
       (known_names p) [] 0 (merged (buffers p)) ∅)
    (mkLOS (copy_of T) (count (groups p)) (count (known_names p)) (count (known_names p)) (known_buffer p) []
       (known_names p) (map_of (groups p))).

Record up_outs (p outs : list message) : Prop := {
  uo_attaches : attaches outs = if count (attaches p) =? n then [concat (attaches p)] else [];
  uo_finishes : count (finishes outs) = if count (finishes p) =? n then 1 else 0;
  uo_buffers : buffers outs = if count (buffers p) =? n then [merged (buffers p)] else [];
  uo_groups : groups outs ≡ₚ if groups_due p then groups p else [];
  uo_blobs : blobs outs = (if ndebug then [] else blobs p);
  uo_states : states outs = [] }.

Lemma up_fresh : fresh T = up_node [].
Proof.
  unfold fresh, ThreadEventComponent, te_init, AddressAggregator, ag_init, LinkedObjectComponent, los_init.
  simpl. rewrite init_fresh by done. unfold up_node, known_names, known_buffer.
  assert (count (@nil (list ThreadName)) =? n = false) as Hn by (destruct HT; apply Z.eqb_neq; simpl; lia).
  cbn in *. by rewrite Hn.
Qed.

(** The messages still to come let no count pass [n]. *)
Record awaited (M : list message) : Prop := {
  aw_proper : Forall proper_message M;
  aw_attaches : count (attaches M) = n;
  aw_finishes : count (finishes M) = n;
  aw_buffers : count (buffers M) = n;
  aw_keys : NoDup (keys (groups M));
  aw_groups : (count (groups M) <= count (concat (attaches M)));
  aw_sampled : Forall (fun e => e.2 <> [] /\
    Forall (fun o => has_sample (merged (buffers M)) o || negb (havecounts (merged (buffers M))) = true) e.2) (groups M) }.

Ltac handle := unfold deliver, to_te, to_ag, to_lo, both, route; cbn [up_node n_te n_ag n_lo].
Ltac role := simpl; rewrite ?init_again, ?Hup, ?Hrole; simpl.

Lemma eqb_next (k : Z) : 0 <= k -> k + 1 <= n -> k =? n = false.
Proof. intros. apply Z.eqb_neq. lia. Qed.

Lemma up_finish p outs0 : count (finishes p) + 1 <= n -> up_outs p outs0 ->
  exists outs, deliver (up_node p) MFinished = Ok (up_node (p ++ [MFinished]), outs) /\
    up_outs (p ++ [MFinished]) (outs0 ++ outs).
Proof.
  intros HM [H1 H2 H3 H4 H5 H6]. rewrite eqb_next in H2 by lia.
  exists (if count (finishes p) + 1 =? n then [MFinished] else []). split.
  - handle. unfold te_finishedHandler, te_init. role. unfold up_node, known_names, known_buffer. proj.
    rewrite (eqb_next (count (finishes p))) by lia.
    destruct (count (finishes p) + 1 =? n); [|done]. simpl. unfold ag_finishedHandler, ag_init. by role.
  - split; unfold groups_due in *; proj; destruct (count (finishes p) + 1 =? n); proj; try done. by rewrite H2.
Qed.

Lemma up_blob p outs0 b : b <> [] -> up_outs p outs0 ->
  exists outs, deliver (up_node p) (MBlob b) = Ok (up_node (p ++ [MBlob b]), outs) /\
    up_outs (p ++ [MBlob b]) (outs0 ++ outs).
Proof.
  intros Hb [H1 H2 H3 H4 H5 H6]. exists (if ndebug then [] else [MBlob b]). split.
  - handle. unfold cbtf_protocol_blob_Handler, ag_init. role. destruct b as [|x b]; [done|]. simpl.
    unfold up_node, known_names, known_buffer. proj. by destruct ndebug.
  - split; unfold groups_due in *; proj; destruct ndebug; proj; try done. by rewrite H5.
Qed.

Lemma merged_snoc bs b : merged (bs ++ [b]) = map_fold updateAddressCounts (merged bs) b.
Proof. unfold merged. by rewrite foldl_app. Qed.

Lemma up_buffer p outs0 b : count (buffers p) + 1 <= n -> up_outs p outs0 ->
  exists outs, deliver (up_node p) (MBuffer b) = Ok (up_node (p ++ [MBuffer b]), outs) /\
    up_outs (p ++ [MBuffer b]) (outs0 ++ outs).
Proof.
  intros HM [H1 H2 H3 H4 H5 H6]. rewrite eqb_next in H3 by lia.
  exists (if count (buffers p) + 1 =? n then [MBuffer (merged (buffers p ++ [b]))] else []). split.
  - handle. unfold addressBufferHandler, ag_init. role. unfold up_node, known_names, known_buffer. proj.
    rewrite merged_snoc, (eqb_next (count (buffers p))) by lia.
    destruct (count (buffers p) + 1 =? n); [|done]. simpl. unfold AddressBufferHandler, los_init. by role.
  - split; unfold groups_due in *; proj; destruct (count (buffers p) + 1 =? n); proj; try done. by rewrite H3.
Qed.

(** What the linked object component sends when it has a group of every thread. *)
Lemma reduce_all ac es : NoDup (keys es) ->
  Forall (fun e => e.2 <> [] /\ Forall (fun o => has_sample ac o || negb (havecounts ac) = true) e.2) es ->
  reduce ac (map_of es) ≡ₚ es.
Proof.
  intros Hnd Hall. rewrite reduce_map.
  assert (Hid : List.filter (fun e => count e.2 >? 0) (keeps ac <$> map_of es) = map_of es).
  { assert (Hall' : Forall (fun e => e.2 <> [] /\ Forall (fun o => has_sample ac o || negb (havecounts ac) = true) e.2) (map_of es))
      by by rewrite map_of_perm.
    clear Hall. induction Hall' as [|[t os] l [Hne Hos] _ IH]; [done|]. simpl in Hne, Hos. rewrite fmap_cons. unfold keeps at 1. simpl.
    assert (List.filter (fun o => has_sample ac o || negb (havecounts ac)) os = os) as ->.
    { clear Hne. induction Hos as [|o os Ho _ IHo]; [done|]. simpl. rewrite Ho. by f_equal. }
    simpl in *. destruct os; [done|]. simpl. by f_equal. }
  rewrite Hid, map_of_perm; [by apply map_of_perm|]. by rewrite map_of_perm.
Qed.

(** What is known of the messages so far from the messages to come. *)
Section prefix.
Context (M p q : list message) (HM : awaited M) (Hpq : M = p ++ q).

Lemma prefix_keys : NoDup (keys (groups p)).
Proof.
  destruct HM as [_ _ _ _ Hk _ _]. rewrite Hpq, groups_app in Hk. unfold keys in *. rewrite fmap_app in Hk.
  by apply NoDup_app in Hk as [? _].
Qed.

Lemma prefix_attaches : count (attaches p) = n -> concat (attaches p) = concat (attaches M).
Proof.
  destruct HM as [_ Ha _ _ _ _ _]. intros Hp. rewrite Hpq, attaches_app, length_app in Ha.
  assert (attaches q = []) as Hq by (apply nil_length_inv; lia). by rewrite Hpq, attaches_app, Hq, app_nil_r.
Qed.

Lemma prefix_sampled : Forall (fun e => e.2 <> [] /\
  Forall (fun o => has_sample (known_buffer p) o || negb (havecounts (known_buffer p)) = true) e.2) (groups p).
Proof.
  destruct HM as [_ _ _ Hb _ _ Hs]. unfold known_buffer. destruct (count (buffers p) =? n) eqn:Hn; bools.
  - rewrite Hpq, buffers_app, length_app in Hb. assert (buffers q = []) as Hq by (apply nil_length_inv; lia).
    rewrite Hpq, buffers_app, Hq, app_nil_r, groups_app in Hs. by apply Forall_app in Hs as [? _].
  - rewrite Hpq, groups_app in Hs. apply Forall_app in Hs as [Hs _].
    eapply Forall_impl; [exact Hs|]. intros e [Hne He]. split; [done|]. eapply Forall_impl; [exact He|].
    intros o _. apply orb_true_iff. by right.
Qed.

Lemma prefix_proper : Forall proper_message p.
Proof. destruct HM as [H _ _ _ _ _ _]. rewrite Hpq in H. by apply Forall_app in H as [? _]. Qed.

Lemma prefix_length : length (map_of (groups p)) = length (groups p).
Proof. apply Permutation_length, map_of_perm, prefix_keys. Qed.
End prefix.

(** The thread names and their number, in either order of the two components. *)
Lemma announce_up te fin nb hb nt names tm sz ab tc lo V A k :
  route (route_te aggregator_first T) (mkNode te (mkAG (copy_of T) fin nb hb nt names tm sz ab tc) lo)
    [ThreadNameVecOut V; AttachedToThreads_xdr_out A; numTerminatedOut k] =
  let r := los_numTerminatedHandler T (los_threadnamesHandler T lo V).1 k in
  (mkNode te (mkAG (copy_of T) fin nb hb (nt + k) V tm sz ab tc) r.1, MAttached A :: concat (lo_up <$> r.2)).
Proof.
  unfold route. simpl. unfold both, to_ag, to_lo, route, ag_threadnamesHandler, ag_numTerminatedHandler, ag_init. simpl.
  destruct aggregator_first; role; rewrite ?app_nil_r; done.
Qed.

(** The groups sent when the names are known. *)
Lemma groups_released M p q (V : list ThreadName) ng :
  awaited M -> M = p ++ q ->
  let outs := (los_numTerminatedHandler T
       (mkLOS (copy_of T) ng 0 (count V) (known_buffer p) [] V (map_of (groups p))) (count V)).2 in
  groups (concat (lo_up <$> outs)) ≡ₚ (if count (groups p) =? count V then groups p else []) /\
  attaches (concat (lo_up <$> outs)) = [] /\ finishes (concat (lo_up <$> outs)) = [] /\
  buffers (concat (lo_up <$> outs)) = [] /\ blobs (concat (lo_up <$> outs)) = [] /\ states (concat (lo_up <$> outs)) = [].
Proof.
  intros HM Hpq. unfold los_numTerminatedHandler, los_init. simpl. rewrite Z.eqb_refl, (prefix_length M p q HM Hpq). simpl.
  destruct (count (groups p) =? count V); [|done].
  rewrite fmap_app, concat_app. simpl. rewrite app_nil_r.
  set (es := reduce (known_buffer p) (map_of (groups p))).
  assert (Hes : es ≡ₚ groups p).
  { apply reduce_all; [by apply (prefix_keys M p q)|by apply (prefix_sampled M p q)]. }
  split; [rewrite groups_back; [done|]|].
  - rewrite Hes. apply proper_groups. by apply (prefix_proper M p q).
  - clear Hes. induction es as [|e es IH]; [done|]. rewrite !fmap_cons. done.
Qed.

Lemma up_attach p q ns outs0 : awaited (p ++ MAttached ns :: q) -> up_outs p outs0 ->
  exists outs, deliver (up_node p) (MAttached ns) = Ok (up_node (p ++ [MAttached ns]), outs) /\
    up_outs (p ++ [MAttached ns]) (outs0 ++ outs).
Proof.
  intros HM [H1 H2 H3 H4 H5 H6].
  assert (Hle : count (attaches p) + 1 <= n).
  { destruct HM as [_ Ha _ _ _ _ _]. rewrite attaches_app, length_app in Ha. simpl in Ha. lia. }
  unfold groups_due in H4. rewrite eqb_next in H1, H4 by lia. cbn [andb] in H4. apply Permutation_nil_r in H4.
  set (V := concat (attaches p) ++ (ThreadName_of_message <$> ns)).
  assert (HV : Forall proper_name V).
  { assert (HP : Forall proper_message (p ++ [MAttached ns])).
    { apply (prefix_proper (p ++ MAttached ns :: q) _ q HM). by rewrite <- app_assoc. }
    apply proper_attaches in HP. revert HP. proj. done. }
  exists (if count (attaches p) + 1 =? n then
            MAttached (convert_names uninit V) ::
            concat (lo_up <$> (los_numTerminatedHandler T
              (mkLOS (copy_of T) (count (groups p)) 0 (count V) (known_buffer p) [] V (map_of (groups p))) (count V)).2)
          else []).
  assert (Hsnd : isNonLeafCP T (copy_of T) || isFrontend T = true) by (by rewrite orb_comm).
  split.
  - handle. unfold threadsHandler, te_init. role. unfold up_node, known_names, known_buffer. proj.
    rewrite (eqb_next (count (attaches p))) by lia. rewrite (Z.eqb_sym n).
    destruct (count (attaches p) + 1 =? n) eqn:Hlast.
    + assert ((if isNonLeafCP T (copy_of T) && true then true else if isFrontend T && true then true else false) = true) as ->.
      { destruct (isNonLeafCP _ _), (isFrontend T); done. }
      change (concat (attaches p) ++ (ThreadName_of_message <$> ns)) with V.
      match goal with |- Ok (foldl ?f (?nd, []) ?l) = _ => change (foldl f (nd, []) l) with (route (route_te aggregator_first T) nd l) end.
      rewrite announce_up. unfold los_threadnamesHandler, los_init. role. unfold known_buffer. rewrite Z.add_0_l. done.
    + assert ((if isNonLeafCP T (copy_of T) && false then true else if isFrontend T && false then true else false) = false) as ->.
      { destruct (isNonLeafCP _ _), (isFrontend T); done. }
      simpl. done.
  - destruct (groups_released (p ++ MAttached ns :: q) p _ V (count (groups p)) HM eq_refl) as (G1 & G2 & G3 & G4 & G5 & G6).
    cbn zeta in *. set (ls := concat (lo_up <$> _)) in *.
    split; unfold groups_due; proj; destruct (count (attaches p) + 1 =? n) eqn:Hlast; proj; try done.
    + rewrite H1. change (MAttached (convert_names uninit V) :: ls) with ([MAttached (convert_names uninit V)] ++ ls).
      rewrite attaches_app, G2. one attaches. by rewrite names_back.
    + change (MAttached (convert_names uninit V) :: ls) with ([MAttached (convert_names uninit V)] ++ ls).
      rewrite finishes_app, G3. one finishes. rewrite app_nil_r. exact H2.
    + change (MAttached (convert_names uninit V) :: ls) with ([MAttached (convert_names uninit V)] ++ ls).
      rewrite buffers_app, G4. one buffers. rewrite app_nil_r. exact H3.
    + change (MAttached (convert_names uninit V) :: ls) with ([MAttached (convert_names uninit V)] ++ ls).
      rewrite groups_app, H4. one groups. exact G1.
    + by rewrite H4.
    + change (MAttached (convert_names uninit V) :: ls) with ([MAttached (convert_names uninit V)] ++ ls).
      rewrite blobs_app, G5. one blobs. rewrite app_nil_r. exact H5.
    + change (MAttached (convert_names uninit V) :: ls) with ([MAttached (convert_names uninit V)] ++ ls).
      rewrite states_app, G6. one states. by rewrite H6.
Qed.

Lemma no_groups es : attaches (concat (lo_up <$> ((group_xdr_out ∘ group_of) <$> es))) = [] /\
  finishes (concat (lo_up <$> ((group_xdr_out ∘ group_of) <$> es))) = [] /\
  buffers (concat (lo_up <$> ((group_xdr_out ∘ group_of) <$> es))) = [] /\
  blobs (concat (lo_up <$> ((group_xdr_out ∘ group_of) <$> es))) = [] /\
  states (concat (lo_up <$> ((group_xdr_out ∘ group_of) <$> es))) = [].
Proof. induction es as [|e es IH]; [done|]. by rewrite !fmap_cons. Qed.

(** Before its last group a node has nothing due. *)
Lemma not_due p q g : awaited (p ++ MGroup g :: q) -> groups_due p = false.
Proof.
  intros HM. unfold groups_due. destruct (count (attaches p) =? n) eqn:Ha; [|done]. bools. simpl.
  rewrite (prefix_attaches _ p _ HM eq_refl Ha). destruct HM as [_ _ _ _ _ Hg _].
  rewrite groups_app in Hg. unfold groups in Hg at 2. simpl in Hg. rewrite length_app in Hg. simpl in Hg.
  apply Z.eqb_neq. lia.
Qed.

Lemma up_group p q g outs0 : awaited (p ++ MGroup g :: q) -> up_outs p outs0 ->
  exists outs, deliver (up_node p) (MGroup g) = Ok (up_node (p ++ [MGroup g]), outs) /\
    up_outs (p ++ [MGroup g]) (outs0 ++ outs).
Proof.
  intros HM [H1 H2 H3 H4 H5 H6]. rewrite (not_due p q g HM) in H4. apply Permutation_nil_r in H4.
  set (p' := p ++ [MGroup g]). assert (Hp' : p ++ MGroup g :: q = p' ++ q) by (unfold p'; by rewrite <- app_assoc).
  pose proof (prefix_length _ p' q HM Hp') as Hlen. pose proof (prefix_proper _ p' q HM Hp') as HP.
  destruct (no_groups (map_of (groups p'))) as (N1 & N2 & N3 & N4 & N5).
  assert (Hg : groups p' = groups p ++ [group_entry g]) by (unfold p'; by rewrite groups_app).
  assert (Hdue : (length (map_of (groups p')) =? length (known_names p))%nat = groups_due p').
  { assert (Ha : attaches p' = attaches p) by (unfold p'; proj; done).
    unfold groups_due, known_names. rewrite Hlen, Ha. destruct (count (attaches p) =? n).
    - simpl. apply Bool.eq_iff_eq_true. rewrite Nat.eqb_eq, Z.eqb_eq. lia.
    - rewrite Hg, length_app, Nat.add_comm. done. }
  exists (if groups_due p' then concat (lo_up <$> ((group_xdr_out ∘ group_of) <$> map_of (groups p'))) else []). split.
  - handle. unfold groupHandler, los_init. role.
    assert (Hok : linkedobjects_of (g_linkedobjects g) = Ok (group_entry g).2).
    { unfold p' in HP. apply Forall_app in HP as [_ HP]. apply Forall_cons in HP as [[_ (os & Hos & _)] _].
      unfold group_entry. by rewrite Hos. }
    rewrite Hok, bind_of_Ok. cbn zeta. change (ThreadName_of_message (g_thread g)) with (group_entry g).1.
    rewrite <- map_of_snoc, <- Hg, Z.eqb_refl, andb_true_r, Hdue. rewrite bind_of_Ok. cbn [fst snd].
    unfold up_node, p', known_names, known_buffer. proj. by destruct (groups_due _).
  - assert (Hb : groups (concat (lo_up <$> ((group_xdr_out ∘ group_of) <$> map_of (groups p')))) ≡ₚ groups p').
    { rewrite groups_back; [|]; rewrite map_of_perm by (by apply (prefix_keys _ p' q HM Hp')); [done|by apply proper_groups]. }
    split; autorewrite with msgs; destruct (groups_due p'); rewrite ?N1, ?N2, ?N3, ?N4, ?N5, ?app_nil_r;
      try (unfold p'; proj; done); rewrite H4; [exact Hb|done].
Qed.

(** Every message that can come is handled. A thread state above the leaves is not
    expected. *)
Lemma up_run M p q : awaited M -> states M = [] -> M = p ++ q ->
  exists outs, run p = (Some (up_node p), outs) /\ up_outs p outs.
Proof.
  intros HM Hst. revert q. induction p as [|m p IH] using rev_ind; intros q Hpq.
  - exists []. split; [by rewrite <- up_fresh|]. destruct HT as [_ Hn].
    assert (Z.of_nat 0 =? n = false) as Hz by (apply Z.eqb_neq; lia).
    split; unfold groups_due, attaches, finishes, buffers, blobs, groups; cbn [omap list_omap length]; rewrite ?Hz;
      try done. by destruct ndebug.
  - rewrite <- app_assoc in Hpq. simpl in Hpq. destruct (IH (m :: q) Hpq) as (outs0 & Hrun & Ho). subst M.
    assert (Hstep : exists outs, deliver (up_node p) m = Ok (up_node (p ++ [m]), outs) /\ up_outs (p ++ [m]) (outs0 ++ outs)).
    { pose proof HM as [Hp _ Hf Hb _ _ _]. destruct m as [ns|ns st| |b|g|b].
      - by apply up_attach with q.
      - rewrite states_app in Hst. by apply app_nil in Hst as [_ ?].
      - apply up_finish; [|done]. rewrite finishes_app, length_app in Hf. simpl in Hf. lia.
      - apply up_buffer; [|done]. rewrite buffers_app, length_app in Hb. simpl in Hb. lia.
      - by apply up_group with q.
      - apply up_blob; [|done]. apply Forall_app in Hp as [_ Hp]. by apply Forall_cons in Hp as [? _]. }
    destruct Hstep as (outs & Hd & Ho'). exists (outs0 ++ outs). split; [|done].
    rewrite run_snoc, Hrun. simpl. by rewrite Hd.
Qed.

(** A node above the leaves that has not got the linked objects of one of the
    threads sends the linked objects of none, whatever else has come. (A leaf that has
    samples does not send those of a thread none of whose objects has a sample.) *)
Theorem missing_group_holds_all (M : list message) : awaited M -> states M = [] ->
  count (groups M) < count (concat (attaches M)) -> groups (run M).2 = [].
Proof.
  intros HM Hst Hlt. destruct (up_run M M [] HM Hst) as (outs & Hr & Ho); [by rewrite app_nil_r|].
  rewrite Hr. apply Permutation_nil_r. rewrite (uo_groups _ _ Ho). unfold groups_due.
  rewrite (proj2 (Z.eqb_neq (count (groups M)) (count (concat (attaches M))))) by lia. by rewrite andb_false_r.
Qed.
End upper.

(** ** A leaf *)
(** Some state message but the last one finds as many threads ended as attached. *)
Fixpoint early (attached finished : Z) (ms : list message) : bool :=
  match ms with
  | [] => false
  | MAttached _ :: ms' => early (attached + 1) finished ms'
  | MState _ _ :: ms' => (finished + 1 =? attached) || early attached (finished + 1) ms'
  | _ :: ms' => early attached finished ms'
  end.

Lemma eqb_shift x y x' y' : x - y = x' - y' -> (x =? y) = (x' =? y').
Proof. intros H. apply Bool.eq_iff_eq_true. rewrite !Z.eqb_eq. lia. Qed.

Lemma early_snoc a f p m : early a f (p ++ [m]) =
  early a f p || match m with MState _ _ => f + count (states p) + 1 =? a + count (attaches p) | _ => false end.
Proof.
  revert a f. induction p as [|x p IH]; intros a f.
  - destruct m; simpl; try done. unfold states, attaches. simpl. by rewrite !Z.add_0_r, orb_false_r.
  - unfold states, attaches in *. destruct x; cbn [early app]; rewrite IH; destruct m; cbn [omap list_omap length];
      rewrite <- ?orb_assoc; try done; rewrite ?Nat2Z.inj_succ;
      repeat apply (f_equal (orb _)); apply eqb_shift; lia.
Qed.

Definition blob_counts (HOST_NAME_MAX : nat) (xdr_float : codec Z) (b : Blob) : AddressBuffer :=
  match aggregate HOST_NAME_MAX xdr_float b ∅ with Ok r => r.2 | _ => ∅ end.
Definition added (HOST_NAME_MAX : nat) (xdr_float : codec Z) (bs : list Blob) : AddressBuffer :=
  foldl (fun acc b => merge_counts (blob_counts HOST_NAME_MAX xdr_float b) acc) ∅ bs.

Section leaf.
Context (ndebug aggregator_first : bool) (uninit : Z) (HOST_NAME_MAX : nat) (xdr_float : codec Z) (T : TopologyInfo).
Context (HT : known T) (Hleaf : isLeafCP T (copy_of T) = true).
Notation deliver := (deliver ndebug aggregator_first uninit HOST_NAME_MAX xdr_float T).
Notation run := (run ndebug aggregator_first uninit HOST_NAME_MAX xdr_float T).
Notation added := (added HOST_NAME_MAX xdr_float).

(** The messages of backends: no blob fails to decode, and no message is of another node. *)
Definition decodable (b : Blob) : Prop := exists r, aggregate HOST_NAME_MAX xdr_float b ∅ = Ok r.
Definition from_backend (m : message) : Prop :=
  proper_message m /\ match m with MFinished | MBuffer _ => False | MBlob b => decodable b | _ => True end.

Lemma not_frontend : isFrontend T = false.
Proof. unfold isLeafCP in Hleaf. unfold isFrontend. by destruct (IsFrontend T). Qed.

(** The node after [p], when [nt] threads with these names have been announced to
    the aggregator and the linked object component, with the buffer [ab]; the data for load balance and the size of
    the blobs are not looked at. *)
Definition leaf_node (fin : bool) (nt : Z) (names : list ThreadName) (ab : AddressBuffer) (p : list message) (nd : node) : Prop :=
  n_te nd = mkTE (copy_of T) fin (count (states p)) 0 (count (attaches p)) 0 0 (concat (attaches p)) /\
  (exists tm sz tc, n_ag nd = mkAG (copy_of T) false (count (blobs p)) 0 nt names tm sz (added (blobs p)) tc) /\
  n_lo nd = mkLOS (copy_of T) (count (groups p)) nt (count names) ab [] names (map_of (groups p)).

Lemma leaf_fresh : leaf_node false 0 [] ∅ [] (fresh T).
Proof.
  unfold leaf_node, fresh, ThreadEventComponent, te_init, AddressAggregator, ag_init, LinkedObjectComponent, los_init.
  simpl. rewrite init_fresh by done. split_and!; [done| |done]. by do 3 eexists.
Qed.

#[local] Arguments aggregate : simpl never.
Ltac lrole := simpl; rewrite ?init_again, ?Hleaf, ?not_frontend; simpl.

(** Until all threads have ended, a leaf sends the blobs on and nothing else. *)
Lemma leaf_step fin nt names ab p m nd : leaf_node fin nt names ab p nd -> from_backend m ->
  match m with MState _ _ => count (states p) + 1 <> count (attaches p) | _ => True end ->
  exists nd', deliver nd m = Ok (nd', match m with MBlob b => [MBlob b] | _ => [] end) /\
    leaf_node fin nt names ab (p ++ [m]) nd'.
Proof.
  destruct nd as [te ag lo]. intros (Hte & (tm & sz & tc & Hag) & Hlo) [Hp Hm] Hst. simpl in *. subst.
  destruct m as [ns|ns st| |b|g|b]; try done; unfold FilterNode.deliver, to_te, to_lo; cbn [n_te n_ag n_lo].
  - unfold threadsHandler, te_init. lrole. eexists. split; [done|]. unfold leaf_node. proj. by do 5 eexists.
  - rewrite not_frontend. unfold threadstateHandler, te_init. lrole. rewrite (proj2 (Z.eqb_neq _ _) Hst).
    eexists. split; [done|]. unfold leaf_node. proj. by do 5 eexists.
  - destruct Hp as [_ (os & Hos & _)]. unfold groupHandler, los_init. lrole. rewrite Hos, !bind_of_Ok. lrole.
    eexists. split; [done|]. unfold leaf_node. proj. split_and!; [done|by do 3 eexists|].
    rewrite map_of_snoc. unfold group_entry. by rewrite Hos.
  - destruct Hm as [[sz' buf] Hagg]. unfold cbtf_protocol_blob_Handler, ag_init. lrole.
    rewrite (proj2 (Nat.eqb_neq (length b) 0)) by (by destruct b).
    assert (Hh : exists h, getXDRDecoding (xdr_CBTF_DataHeader HOST_NAME_MAX) b = Ok h).
    { unfold aggregate in Hagg. apply bind_Ok in Hagg as (h & Hh & _). by exists h. }
    destruct Hh as [h Hh]. rewrite Hh, bind_of_Ok, Hagg, !bind_of_Ok. eexists. split; [done|].
    unfold leaf_node. proj. split_and!; [done| |done]. do 3 eexists. simpl. f_equal.
    unfold FilterNode.added. rewrite foldl_app. simpl. unfold blob_counts. by rewrite Hagg.
Qed.

(** The groups with what the buffer leaves of them. *)
Definition group_outs (ac : AddressBuffer) (ng : Z) (V : list ThreadName) (space : AddressSpace) : list message :=
  concat (lo_up <$> (los_numTerminatedHandler T (mkLOS (copy_of T) ng 0 (count V) ac [] V space) (count V)).2).

Lemma announce_leaf te nb tm sz ab tc ng space V A :
  route (route_te aggregator_first T)
    (mkNode te (mkAG (copy_of T) false nb 0 0 [] tm sz ab tc) (mkLOS (copy_of T) ng 0 0 ∅ [] [] space))
    [ThreadNameVecOut V; AttachedToThreads_xdr_out A; numTerminatedOut (count V); Threads_finished true] =
  (mkNode te (mkAG (copy_of T) false nb 0 (count V) V tm sz ab tc) (mkLOS (copy_of T) ng (count V) (count V) ab [] V space),
   MAttached A :: (if aggregator_first then MBuffer ab :: group_outs ab ng V space
                   else group_outs ∅ ng V space ++ [MBuffer ab]) ++ [MFinished]).
Proof.
  unfold route. simpl. unfold both, to_ag, to_lo, route, ag_threadnamesHandler, ag_numTerminatedHandler, ag_init.
  lrole. rewrite Z.eqb_refl. unfold los_threadnamesHandler, AddressBufferHandler, los_init, ag_finishedHandler.
  unfold group_outs, los_numTerminatedHandler, los_init.
  destruct aggregator_first; lrole; rewrite ?Z.eqb_refl; cbn [andb]; rewrite ?app_nil_r; reflexivity.
Qed.

(** A second announcement, after one of [nt] threads. *)
Lemma announce_again te nb nt names tm sz ab tc ng ab' space V A : 0 < nt ->
  route (route_te aggregator_first T)
    (mkNode te (mkAG (copy_of T) false nb 0 nt names tm sz ab tc) (mkLOS (copy_of T) ng nt (count names) ab' [] names space))
    [ThreadNameVecOut V; AttachedToThreads_xdr_out A; numTerminatedOut (count V); Threads_finished true] =
  (mkNode te (mkAG (copy_of T) false nb 0 (nt + count V) V tm sz ab tc)
     (mkLOS (copy_of T) ng (nt + count V) (count V) ab' [] V space), [MAttached A; MFinished]).
Proof.
  intros Hnt. assert (nt + count V =? count V = false) as Hne by (apply Z.eqb_neq; lia).
  unfold route. simpl. unfold both, to_ag, to_lo, route, ag_threadnamesHandler, ag_numTerminatedHandler, ag_init.
  lrole. unfold los_threadnamesHandler, los_numTerminatedHandler, los_init, ag_finishedHandler.
  destruct aggregator_first; do 3 (lrole; rewrite ?Hne); reflexivity.
Qed.

Lemma reduce_proper ac space : Forall proper_entry space -> Forall proper_entry (reduce ac space).
Proof.
  intros Hs. rewrite reduce_map. set (l := List.filter _ _).
  assert (Hl : Forall proper_entry l).
  { apply List.Forall_forall. intros e He. apply filter_In in He as [He _].
    apply list_elem_of_In, list_elem_of_fmap in He as (e0 & -> & He0). apply (proj1 (Forall_forall _ _) Hs) in He0 as [H1 H2].
    split; [done|]. simpl. apply List.Forall_forall. intros o Ho. apply filter_In in Ho as [Ho _].
    by apply (proj1 (List.Forall_forall _ _) H2). }
  clearbody l. clear Hs. induction l as [|e l IH] using rev_ind; [constructor|].
  apply Forall_app in Hl as [Hl He]. specialize (IH Hl). apply Forall_cons in He as [He _]. rewrite map_of_snoc.
  destruct (decide (name_key e.1 ∈ keys (map_of l))) as [Hin|Hin].
  - by rewrite insert_present by (done || apply map_of_sorted).
  - rewrite insert_absent by done. constructor; [by destruct e|done].
Qed.

Lemma group_outs_proj ac ng V es : Forall proper_entry es ->
  groups (group_outs ac ng V es) = (if count es =? count V then reduce ac es else []) /\
  attaches (group_outs ac ng V es) = [] /\ finishes (group_outs ac ng V es) = [] /\
  buffers (group_outs ac ng V es) = [] /\ blobs (group_outs ac ng V es) = [] /\ states (group_outs ac ng V es) = [].
Proof.
  intros Hes. unfold group_outs, los_numTerminatedHandler, los_init. simpl. rewrite Z.eqb_refl. simpl.
  destruct (count es =? count V); [|done]. rewrite fmap_app, concat_app. simpl. rewrite app_nil_r.
  rewrite groups_back by (by apply reduce_proper). split; [done|]. apply no_groups.
Qed.

(** Messages none of which is the end of the last thread. *)
Lemma leaf_body fin nt names ab p1 nd1 outs1 p :
  run p1 = (Some nd1, outs1) -> leaf_node fin nt names ab p1 nd1 ->
  Forall from_backend p -> early (count (attaches p1)) (count (states p1)) p = false ->
  exists nd, run (p1 ++ p) = (Some nd, outs1 ++ (MBlob <$> blobs p)) /\ leaf_node fin nt names ab (p1 ++ p) nd.
Proof.
  intros Hr1 Hn1. induction p as [|m p IH] using rev_ind; intros Hp He.
  - exists nd1. by rewrite !app_nil_r.
  - apply Forall_app in Hp as [Hp Hm]. apply Forall_cons in Hm as [Hm _]. rewrite early_snoc in He.
    apply orb_false_iff in He as [He Hst]. destruct (IH Hp He) as (nd & Hr & Hn).
    destruct (leaf_step fin nt names ab (p1 ++ p) m nd Hn Hm) as (nd' & Hd & Hn').
    { destruct m; try done. apply Z.eqb_neq in Hst. autorewrite with msgs. rewrite !length_app. lia. }
    exists nd'. rewrite app_assoc. split; [|done]. rewrite run_snoc, Hr. simpl. rewrite Hd. simpl. f_equal. proj.
    rewrite <- app_assoc. f_equal. destruct m; one blobs; rewrite ?app_nil_r; try done. by rewrite fmap_app.
Qed.

Lemma blobs_only bs : attaches (MBlob <$> bs) = [] /\ finishes (MBlob <$> bs) = [] /\
  buffers (MBlob <$> bs) = [] /\ blobs (MBlob <$> bs) = bs /\ groups (MBlob <$> bs) = [] /\ states (MBlob <$> bs) = [].
Proof.
  induction bs as [|b bs (I1 & I2 & I3 & I4 & I5 & I6)]; [done|]. rewrite fmap_cons.
  split_and!; try done. change (b :: blobs (MBlob <$> bs) = b :: bs). by rewrite I4.
Qed.

(** The end of the last thread: four emissions. *)
Lemma last_state te p : te = mkTE (copy_of T) (te_is_finished te) (count (states p)) 0 (count (attaches p)) 0 0 (concat (attaches p)) ->
  count (states p) + 1 = count (attaches p) -> count (concat (attaches p)) = count (attaches p) ->
  let V := concat (attaches p) in
  threadstateHandler T uninit te =
    (mkTE (copy_of T) true (count (attaches p)) 0 (count (attaches p)) 0 0 V,
     [ThreadNameVecOut V; AttachedToThreads_xdr_out (convert_names uninit V); numTerminatedOut (count V); Threads_finished true]).
Proof.
  intros Hte Hk HV V. subst V. rewrite Hte. unfold threadstateHandler, te_init. lrole. by rewrite Hk, Z.eqb_refl, HV.
Qed.

(** What a leaf has sent when the last thread has ended. *)
Lemma leaf_run body ns st : Forall from_backend body -> early 0 0 body = false ->
  count (states body) + 1 = count (attaches body) -> count (concat (attaches body)) = count (attaches body) ->
  NoDup (keys (groups body)) ->
  exists nd outs, run (body ++ [MState ns st]) = (Some nd, outs) /\
    attaches outs = [concat (attaches body)] /\ finishes outs = [tt] /\ buffers outs = [added (blobs body)] /\
    blobs outs = blobs body /\ states outs = [] /\
    groups outs = (if count (groups body) =? count (concat (attaches body))
                   then reduce (if aggregator_first then added (blobs body) else ∅) (map_of (groups body)) else []) /\
    leaf_node true (count (attaches body)) (concat (attaches body)) (added (blobs body)) (body ++ [MState ns st]) nd.
Proof.
  intros Hb He Hk HV Hnd. destruct (leaf_body false 0 [] ∅ [] (fresh T) [] body eq_refl leaf_fresh Hb He)
    as ([te ag lo] & Hr & Hte & (tm & sz & tc & Hag) & Hlo). cbn [app n_te n_ag n_lo] in *.
  change (count (@nil ThreadName)) with 0 in Hlo.
  rewrite run_snoc, Hr. cbn [fst deliver_all]. unfold FilterNode.deliver. rewrite not_frontend. cbn [n_te].
  rewrite (last_state te body) by (by rewrite ?Hte). unfold to_te. cbn [n_ag n_lo fst snd].
  subst ag lo. rewrite announce_leaf. cbn [fst snd]. eexists _, _. split; [done|]. set (V := concat (attaches body)) in *.
  destruct (blobs_only (blobs body)) as (B1 & B2 & B3 & B4 & B5 & B6).
  assert (HPb : Forall proper_message body) by (eapply Forall_impl; [exact Hb|]; by intros m [? _]).
  assert (Hes : Forall proper_entry (map_of (groups body))) by (rewrite map_of_perm by done; by apply proper_groups).
  pose proof (proper_attaches body HPb) as HP.
  assert (Hl : length (map_of (groups body)) = length (groups body)) by (by apply Permutation_length, map_of_perm).
  destruct (group_outs_proj (if aggregator_first then added (blobs body) else ∅) (count (groups body)) V _ Hes)
    as (G1 & G2 & G3 & G4 & G5 & G6). rewrite Hl in G1.
  match goal with |- context [MAttached ?A :: ?l] => change (MAttached A :: l) with ([MAttached A] ++ l) end.
  split_and!; [destruct aggregator_first;
    match goal with |- context [MBuffer ?b :: ?l] => change (MBuffer b :: l) with ([MBuffer b] ++ l) end;
    autorewrite with msgs; rewrite ?B1, ?B2, ?B3, ?B4, ?B5, ?B6, ?G1, ?G2, ?G3, ?G4, ?G5, ?G6;
    one attaches; one finishes; one states; one buffers; one groups; one blobs; rewrite ?app_nil_r, ?names_back by done; done..|].
  unfold leaf_node. proj. rewrite Hk, HV. split_and!; [done|by do 3 eexists|done].
Qed.

Lemma single_names {A} (l : list (list A)) : Forall (fun x => length x = 1%nat) l -> count (concat l) = count l.
Proof. induction 1 as [|x l Hx _ IH]; [done|]. simpl. rewrite length_app, Hx. lia. Qed.

(** C40: A leaf that has been told of the end of all threads it knew reports too early if
    another thread attaches later (the race the comment in the code mentions). It
    sends a second list of threads, that names the first threads again, and a
    second notice that the threads are finished, but not the addresses of the
    blobs that came after the first report: the one buffer it sends has only the
    data from before, and no linked objects follow either. *)
Theorem early_end_loses_samples (first later : list message) ns st ns' st' :
  Forall from_backend first -> Forall from_backend later -> NoDup (keys (groups first)) ->
  early 0 0 first = false -> count (states first) + 1 = count (attaches first) ->
  early (count (attaches first)) (count (attaches first)) later = false ->
  count (states later) + 1 = count (attaches later) ->
  Forall (fun names => length names = 1%nat) (attaches (first ++ later)) ->
  exists nd outs, run (first ++ [MState ns st] ++ later ++ [MState ns' st']) = (Some nd, outs) /\
    attaches outs = [concat (attaches first); concat (attaches first) ++ concat (attaches later)] /\
    finishes outs = [tt; tt] /\ buffers outs = [added (blobs first)] /\
    blobs outs = blobs first ++ blobs later /\
    groups outs = groups (run (first ++ [MState ns st])).2.
Proof.
  intros Hf Hl Hnd He1 Hk1 He2 Hk2 Hs. rewrite attaches_app in Hs. apply Forall_app in Hs as [Hs1 Hs2].
  destruct (leaf_run first ns st Hf He1 Hk1 (single_names _ Hs1) Hnd) as (nd1 & outs1 & Hr1 & A1 & A2 & A3 & A4 & _ & _ & Hn1).
  destruct (leaf_body _ _ _ _ _ _ _ later Hr1 Hn1 Hl) as ([te ag lo] & Hr & Hte & (tm & sz & tc & Hag) & Hlo).
  { revert He2. proj. by rewrite Hk1. }
  cbn [n_te n_ag n_lo] in *. rewrite (app_assoc first), (app_assoc (first ++ _)). set (p := (first ++ [MState ns st]) ++ later) in *.
  assert (Hatt : attaches p = attaches first ++ attaches later) by (unfold p; by proj).
  assert (Hst : states p = states first ++ [tt] ++ states later) by (unfold p; proj; by rewrite <- app_assoc).
  assert (Hk : count (states p) + 1 = count (attaches p)) by (rewrite Hst, Hatt, !length_app; simpl; lia).
  assert (HV : count (concat (attaches p)) = count (attaches p)).
  { apply single_names. rewrite Hatt. by apply Forall_app. }
  rewrite run_snoc, Hr. cbn [fst deliver_all]. unfold FilterNode.deliver. rewrite not_frontend. cbn [n_te].
  rewrite (last_state te p) by (by rewrite ?Hte). unfold to_te. cbn [n_ag n_lo fst snd]. subst ag lo.
  rewrite announce_again by (rewrite <- Hk1; lia). cbn [fst snd]. eexists _, _. split; [done|].
  assert (HP : Forall proper_name (concat (attaches p))).
  { apply proper_attaches. unfold p. apply Forall_app. split; [apply Forall_app; split; [|by repeat constructor]|];
      [eapply Forall_impl; [exact Hf|]|eapply Forall_impl; [exact Hl|]]; by intros m [? _]. }
  set (V := concat (attaches p)) in *. destruct (blobs_only (blobs later)) as (B1 & B2 & B3 & B4 & B5 & B6).
  match goal with |- context [[MAttached ?A; MFinished]] => change [MAttached A; MFinished] with ([MAttached A] ++ [MFinished]) end.
  rewrite Hr1. cbn [snd]. autorewrite with msgs.
  rewrite ?A1, ?A2, ?A3, ?A4, ?B1, ?B2, ?B3, ?B4, ?B5. one attaches; one finishes; one buffers; one groups; one blobs.
  rewrite names_back by done. unfold V. rewrite Hatt, concat_app. by rewrite !app_nil_r.
Qed.
End leaf.

(** ** Sums *)
Definition sum_counts (p : Z) (bs : list AddressBuffer) : Z := foldr (fun b acc => count_at p b + acc) 0 bs.

Lemma sum_counts_app p bs bs' : sum_counts p (bs ++ bs') = sum_counts p bs + sum_counts p bs'.
Proof. unfold sum_counts. induction bs as [|b bs IH]; simpl; lia. Qed.

#[export] Instance sum_counts_perm p : Proper ((≡ₚ) ==> eq) (sum_counts p).
Proof. induction 1; simpl; lia. Qed.

Lemma merged_counts bs : Forall counts_ok bs ->
  counts_ok (merged bs) /\ forall p, p <> 0 -> count_at p (merged bs) = u64 (sum_counts p bs).
Proof.
  induction bs as [|b bs IH] using rev_ind; intros Hb; [split; [apply counts_ok_empty|done]|].
  apply Forall_app in Hb as [Hbs Hb]. apply Forall_cons in Hb as [Hb _]. destruct (IH Hbs) as [Hok Hc].
  rewrite merged_snoc. destruct (addressBuffer_counts b (merged bs) Hb Hok) as [H1 H2]. split; [done|].
  intros p Hp. rewrite H2, Hc, u64_idem_l, sum_counts_app by done. simpl. by rewrite Z.add_0_r.
Qed.

Lemma merged_domain bs a : a <> 0 -> is_Some (merged bs !! a) <-> exists b, b ∈ bs /\ is_Some (b !! a).
Proof.
  intros Ha. induction bs as [|b bs IH] using rev_ind.
  - split; [by intros [? ?]|]. intros (b & Hb & _). by apply not_elem_of_nil in Hb.
  - rewrite merged_snoc, addressBuffer_domain by done. rewrite IH. setoid_rewrite elem_of_app. setoid_rewrite elem_of_cons.
    setoid_rewrite elem_of_nil. naive_solver.
Qed.

Lemma added_counts H x bs : Forall (fun b => counts_ok (blob_counts H x b)) bs ->
  counts_ok (added H x bs) /\ forall p, count_at p (added H x bs) = u64 (sum_counts p (blob_counts H x <$> bs)).
Proof.
  induction bs as [|b bs IH] using rev_ind; intros Hb; [split; [apply counts_ok_empty|done]|].
  apply Forall_app in Hb as [Hbs Hb]. apply Forall_cons in Hb as [Hb _]. destruct (IH Hbs) as [Hok Hc].
  unfold added in *. rewrite foldl_app. simpl. destruct (merge_counts_count (blob_counts H x b) _ Hb Hok) as [H1 H2].
  split; [done|]. intros p. rewrite H2, Hc, u64_idem_l, fmap_app, sum_counts_app. simpl. by rewrite Z.add_0_r.
Qed.

(** ** Messages are proper if what they say is *)
Lemma proper_from ms : Forall proper_name (concat (attaches ms)) ->
  Forall (fun e => proper_entry e /\ e.2 <> []) (groups ms) -> Forall counts_ok (buffers ms) ->
  Forall (fun b => b <> []) (blobs ms) -> Forall proper_message ms.
Proof.
  induction ms as [|m ms IH]; intros Ha Hg Hb Hd; [constructor|].
  unfold attaches, groups, buffers, blobs in *. constructor.
  - destruct m as [ns|ns st| |b|g|b]; cbn [omap list_omap concat] in *; try done.
    + by apply Forall_app in Ha as [? _].
    + by apply Forall_cons in Hb as [? _].
    + apply Forall_cons in Hg as [[[H1 H2] H3] _]. unfold group_entry in *. simpl in *.
      destruct (linkedobjects_of _) as [os| | |]; try done. split; [done|]. by exists os.
    + by apply Forall_cons in Hd as [? _].
  - destruct m as [ns|ns st| |b|g|b]; cbn [omap list_omap concat] in *; apply IH; try done.
    + by apply Forall_app in Ha as [_ ?].
    + by apply Forall_cons in Hb as [_ ?].
    + by apply Forall_cons in Hg as [_ ?].
    + by apply Forall_cons in Hd as [_ ?].
Qed.

(** ** Examples *)
Definition example_blob (host : string) (addr n : Z) : Blob :=
  enc (xdr_CBTF_DataHeader 64) (mkDataHeader 0 1 "pcsamp" host 42 7 0 0 1000 2000 4096 8192) ++
  enc xdr_CBTF_pcsamp_data (PCSamp.mkPcsampData 10 [addr] [n]).
Definition example_name (host : string) : CBTF_Protocol_ThreadName := mkProtocolName 0 host 42 true 7 0 0.

(** The second thread attaches when the first has ended: its three samples are lost. *)
Lemma early_end_loses_samples_witness :
  let first := [MAttached [example_name "n0"]; MBlob (example_blob "n0" 4096 2)] in
  let later := [MAttached [example_name "n1"]; MBlob (example_blob "n1" 4100 3)] in
  exists nd outs buf, run true true 0 64 xdr_i32 (mkTopologyInfo false 1 2)
      (first ++ [MState [example_name "n0"] 5] ++ later ++ [MState [example_name "n1"] 5]) = (Some nd, outs) /\
    buffers outs = [buf] /\ count_at 4096 buf = 2 /\ count_at 4100 buf = 0 /\ finishes outs = [tt; tt].
Proof.
  intros first later.
  assert (Hb : forall h, h = "n0"%string \/ h = "n1"%string -> forall a n, (a = 4096 /\ n = 2) \/ (a = 4100 /\ n = 3) ->
    Forall (from_backend 64 xdr_i32) [MAttached [example_name h]; MBlob (example_blob h a n)]).
  { intros h Hh a n Han. repeat (apply Forall_cons; split); [by repeat constructor|split|constructor].
    - destruct Hh as [-> | ->], Han as [[-> ->]|[-> ->]]; vm_compute; discriminate.
    - destruct Hh as [-> | ->], Han as [[-> ->]|[-> ->]]; eexists; vm_compute; reflexivity. }
  destruct (early_end_loses_samples true true 0 64 xdr_i32 (mkTopologyInfo false 1 2) ltac:(done) eq_refl first later
    [example_name "n0"] 5 [example_name "n1"] 5) as (nd & outs & Hr & _ & Hf & Hbuf & _ & _).
  - apply Hb; auto.
  - apply Hb; auto.
  - constructor.
  - reflexivity.
  - reflexivity.
  - reflexivity.
  - reflexivity.
  - by repeat constructor.
  - exists nd, outs. eexists. split; [exact Hr|]. split; [exact Hbuf|]. split; [vm_compute; reflexivity|]. split; [vm_compute; reflexivity|exact Hf].
Defined.

(** Two children, one of which has no linked objects for its thread. *)
Lemma missing_group_holds_all_witness :
  let M := [MAttached [example_name "n0"]; MBuffer {[4096 := 2]}; MFinished;
            MGroup (mkGroup (example_name "n0") [mkProtocolLO "/bin/a.out" (4096, 5000) 1 100 true]);
            MAttached [example_name "n1"]; MBuffer {[9000 := 3]}; MFinished] in
  groups (run true true 0 64 xdr_i32 (mkTopologyInfo true 2 2) M).2 = [].
Proof.
  intros M. apply missing_group_holds_all; try done.
  split; try done.
  - repeat (apply Forall_cons; split); try (by repeat constructor).
    + apply map_Forall_singleton. unfold is_u64. lia.
    + split; [done|]. eexists. split; [reflexivity|]. by repeat constructor.
    + apply map_Forall_singleton. unfold is_u64. lia.
  - apply NoDup_singleton.
  - constructor; [|constructor]. split; [done|]. repeat constructor.
Defined.
