(* ===== verification/FilterTree.v ===== *)
(** The tree of filter nodes between the backends and the tool, as a transition
    system: leaves take the messages of their backends in some given order, any
    message that waits at a node may be handled next, and what a node sends
    waits at its parent. The theorem: every run of the tree ends, and when it does
    the tool has got one list of all threads, one buffer with the samples of all
    blobs, the linked objects of every thread and one notice that all is done. *)
From stdpp Require Import relations.
From S2P Require Import Prelude PCIndex Headers XDR RawData PerfData ThreadName NodeRole.
From S2P Require Import ThreadEvents AddressAggregator LinkedObjects FilterNode.

(** ** Trees: a leaf with its number of backends and the messages they send *)
Inductive tree :=
| Leaf (backends : Z) (queue : list message)
| Node (children : list tree).

Section tree_ind.
Context (P : tree -> Prop) (Pleaf : forall b q, P (Leaf b q)) (Pnode : forall ts, Forall P ts -> P (Node ts)).
Fixpoint tree_induction (t : tree) : P t :=
  match t with
  | Leaf b q => Pleaf b q
  | Node ts => Pnode ts ((fix all ts : Forall P ts :=
      match ts with [] => Forall_nil_2 P | t :: ts => Forall_cons_2 P t ts (tree_induction t) (all ts) end) ts)
  end.
End tree_ind.

Fixpoint distance (t : tree) : Z :=
  match t with
  | Leaf _ _ => 1
  | Node ts => 1 + foldr Z.max 1 (List.map distance ts)
  end.

(** What the library tells the node at the root of [t] of its place. *)
Definition topology (fe : bool) (t : tree) : TopologyInfo :=
  mkTopologyInfo fe (distance t) (match t with Leaf b _ => b | Node ts => count ts end).

(** ** Configurations: the process, the messages it has handled and sent, those that
    wait, as queues of which any may be served next, and the nodes below. *)
Inductive conf :=
| Conf (T : TopologyInfo) (st : option node) (seen sent : list message) (inbox : list (list message)) (below : list conf).

Section conf_ind.
Context (P : conf -> Prop) (PC : forall T st seen sent inbox cs, Forall P cs -> P (Conf T st seen sent inbox cs)).
Fixpoint conf_induction (c : conf) : P c :=
  match c with
  | Conf T st seen sent inbox cs => PC T st seen sent inbox cs ((fix all cs : Forall P cs :=
      match cs with [] => Forall_nil_2 P | c :: cs => Forall_cons_2 P c cs (conf_induction c) (all cs) end) cs)
  end.
End conf_ind.

Definition sent_of (c : conf) : list message := match c with Conf _ _ _ sent _ _ => sent end.

Section steps.
Context (ndebug aggregator_first : bool) (uninit : Z) (HOST_NAME_MAX : nat) (xdr_float : codec Z).
Notation deliver_all := (deliver_all ndebug aggregator_first uninit HOST_NAME_MAX xdr_float).
Notation run := (run ndebug aggregator_first uninit HOST_NAME_MAX xdr_float).

Fixpoint start (fe : bool) (t : tree) : conf :=
  match t with
  | Leaf _ q => Conf (topology fe t) (Some (fresh (topology fe t))) [] [] [q] []
  | Node ts => Conf (topology fe t) (Some (fresh (topology fe t))) [] [] [] (List.map (start false) ts)
  end.

Inductive step : conf -> conf -> Prop :=
| step_deliver T st seen sent l1 m q l2 cs :
    step (Conf T st seen sent (l1 ++ (m :: q) :: l2) cs)
         (Conf T (deliver_all T st m).1 (seen ++ [m]) (sent ++ (deliver_all T st m).2) (l1 ++ q :: l2) cs)
| step_below T st seen sent inbox l c c' r new :
    step c c' -> sent_of c' = sent_of c ++ new ->
    step (Conf T st seen sent inbox (l ++ c :: r))
         (Conf T st seen sent (inbox ++ ((fun m => [m]) <$> new)) (l ++ c' :: r)).

(** ** Every run ends *)
Definition one {A} (R : A -> A -> Prop) (cs cs' : list A) : Prop :=
  exists l c c' r, cs = l ++ c :: r /\ cs' = l ++ c' :: r /\ R c c'.

Lemma sn_cons {A} (R : A -> A -> Prop) c cs : sn R c -> sn (one R) cs -> sn (one R) (c :: cs).
Proof.
  intros Hc. revert cs. induction Hc as [c Hc IHc]. intros cs Hcs. induction Hcs as [cs Hcs IHcs].
  constructor. intros y (l & x & x' & r & Heq & -> & Hx). destruct l as [|x0 l]; simplify_eq/=.
  - apply IHc; [done|]. by constructor.
  - apply IHcs. by exists l, x, x', r.
Qed.

Lemma sn_list {A} (R : A -> A -> Prop) cs : Forall (sn R) cs -> sn (one R) cs.
Proof.
  induction 1 as [|c cs Hc _ IH]; [|by apply sn_cons].
  constructor. intros y (l & x & x' & r & Heq & _ & _). by destruct l.
Qed.

Lemma all_terminate c : sn step c.
Proof.
  induction c as [T st seen sent inbox cs Hcs] using conf_induction. apply sn_list in Hcs.
  revert st seen sent inbox. induction Hcs as [cs _ IHcs]. intros st seen sent inbox.
  remember (length (concat inbox)) as k eqn:Hk. revert st seen sent inbox Hk.
  induction (lt_wf k) as [k _ IHk]. intros st seen sent inbox ->. constructor. intros y Hy.
  inversion Hy as [? ? ? ? l1 m q l2|? ? ? ? ? l c c' r new Hc Hnew]; subst.
  - eapply IHk; [|done]. rewrite !concat_app, !length_app. simpl. lia.
  - apply IHcs. by exists l, c, c', r.
Qed.

Lemma step_sent c c' : step c c' -> exists new, sent_of c' = sent_of c ++ new.
Proof. destruct 1; simpl; [by eexists|]. exists []. by rewrite app_nil_r. Qed.

(** A configuration in which nothing waits. *)
Lemma idle_or_step c : red step c \/ nf step c.
Proof.
  induction c as [T st seen sent inbox cs Hcs] using conf_induction.
  destruct (decide (Exists (fun q => q <> []) inbox)) as [He|He].
  { apply Exists_exists in He as (q & Hq & Hne). apply list_elem_of_split in Hq as (l1 & l2 & ->).
    destruct q as [|m q]; [done|]. left. eexists. constructor. }
  assert (Hc : (exists l c r, cs = l ++ c :: r /\ red step c) \/ Forall (nf step) cs).
  { clear He. induction Hcs as [|c cs [Hc|Hc] _ IH]; [by right| |].
    - left. by exists [], c, cs.
    - destruct IH as [(l & x & r & -> & Hx)|IH]; [left; by exists (c :: l), x, r|right; by constructor]. }
  destruct Hc as [(l & c & r & -> & [c' Hc'])|Hall].
  - left. destruct (step_sent c c' Hc') as [new Hnew]. eexists. by apply (step_below _ _ _ _ _ _ _ _ _ new Hc').
  - right. intros [y Hy]. inversion Hy as [? ? ? ? l1 m q l2|? ? ? ? ? l c c' r new Hc Hnew]; subst.
    + apply He, Exists_app. right. by constructor.
    + apply Forall_app in Hall as [_ Hall]. apply Forall_cons in Hall as [Hall _]. apply Hall. by exists c'.
Qed.

Lemma can_finish c : exists c', rtc step c c' /\ nf step c'.
Proof.
  induction (all_terminate c) as [c _ IH]. destruct (idle_or_step c) as [[c' Hc']|Hn]; [|by exists c].
  destruct (IH c' Hc') as (d & Hd & Hnf). exists d. split; [by apply rtc_l with c'|done].
Qed.

Lemma nf_quiet T st seen sent inbox cs : nf step (Conf T st seen sent inbox cs) ->
  concat inbox = [] /\ Forall (nf step) cs.
Proof.
  intros Hnf. split.
  - induction inbox as [|[|m q] inbox IH] using rev_ind; [done| |].
    + rewrite concat_app, IH; [done|]. intros [y Hy]. apply Hnf.
      inversion Hy as [? ? ? ? l1 m q l2|? ? ? ? ? l c c' r new Hc Hnew]; subst; eexists.
      * rewrite <- app_assoc. constructor.
      * by apply (step_below _ _ _ _ _ _ _ _ _ new Hc).
    + exfalso. apply Hnf. eexists. constructor.
  - apply Forall_forall. intros c Hc [c' Hc']. apply list_elem_of_split in Hc as (l & r & ->).
    apply Hnf. destruct (step_sent c c' Hc') as [new Hnew]. eexists. by apply (step_below _ _ _ _ _ _ _ _ _ new Hc').
Qed.

(** ** What is handled and what waits is what was sent *)
Inductive consistent : bool -> tree -> conf -> Prop :=
| consistent_leaf fe b q st seen sent rest :
    run (topology fe (Leaf b q)) seen = (st, sent) -> q = seen ++ rest ->
    consistent fe (Leaf b q) (Conf (topology fe (Leaf b q)) st seen sent [rest] [])
| consistent_node fe ts st seen sent inbox cs :
    run (topology fe (Node ts)) seen = (st, sent) ->
    seen ++ concat inbox ≡ₚ concat (sent_of <$> cs) ->
    Forall2 (consistent false) ts cs ->
    consistent fe (Node ts) (Conf (topology fe (Node ts)) st seen sent inbox cs).

Lemma start_consistent fe t : consistent fe t (start fe t).
Proof.
  revert fe. induction t as [b q|ts IH] using tree_induction; intros fe; [by apply consistent_leaf|].
  apply consistent_node; [done| |].
  - simpl. clear IH. induction ts as [|t ts IH]; [done|]. simpl. rewrite <- IH. by destruct t.
  - induction IH as [|t ts Ht _ IH]; constructor; [apply Ht|done].
Qed.

Lemma singletons {A} (l : list A) : concat ((fun m => [m]) <$> l) = l.
Proof. induction l as [|x l IH]; [done|]. rewrite fmap_cons. simpl. by rewrite IH. Qed.

Lemma step_consistent c c' : step c c' -> forall fe t, consistent fe t c -> consistent fe t c'.
Proof.
  induction 1 as [T st seen sent l1 m q l2 cs|T st seen sent inbox l c c' r new Hc IH Hnew]; intros fe t Hinv;
    inversion Hinv as [? b q0 ? ? ? rest Hrun Hq|? ts ? ? ? ? ? Hrun Hperm Hall]; simplify_eq.
  - destruct l1 as [|x l1]; simplify_eq/=; [|by destruct l1].
    apply consistent_leaf; [by rewrite run_snoc, Hrun|by rewrite <- app_assoc].
  - apply consistent_node; [by rewrite run_snoc, Hrun| |done]. rewrite <- Hperm, !concat_app. simpl.
    rewrite <- app_assoc. apply Permutation_app_head. simpl. apply Permutation_middle.
  - by destruct l.
  - apply Forall2_app_inv_r in Hall as (ts1 & ts2 & Hl & Hr & ->). apply Forall2_cons_inv_r in Hr as (t' & ts3 & Ht & Hr & ->).
    apply consistent_node; [done| |].
    + rewrite concat_app, singletons, app_assoc, Hperm, !fmap_app, !fmap_cons, !concat_app. simpl. rewrite Hnew.
      rewrite <- !app_assoc. do 2 apply Permutation_app_head. apply Permutation_app_comm.
    + apply Forall2_app; [done|]. constructor; [by apply IH|done].
Qed.

Lemma reachable_consistent fe t c : rtc step (start fe t) c -> consistent fe t c.
Proof.
  intros Hr. assert (H : forall a, rtc step a c -> consistent fe t a -> consistent fe t c).
  { clear Hr. intros a Hr. induction Hr as [|a b c Hab _ IH]; [done|]. intros Ha. by apply IH, (step_consistent a b). }
  by apply (H _ Hr), start_consistent.
Qed.
End steps.

(** ** What the tool should get *)
Section totals.
Context (HOST_NAME_MAX : nat) (xdr_float : codec Z).
Notation added := (added HOST_NAME_MAX xdr_float).
Notation blob_counts := (blob_counts HOST_NAME_MAX xdr_float).

Definition kept (ac : AddressBuffer) (e : ThreadName * list LinkedObject) : ThreadName * list LinkedObject :=
  (e.1, List.filter (has_sample ac) e.2).

Fixpoint threads (t : tree) : list ThreadName :=
  match t with Leaf _ q => concat (attaches q) | Node ts => concat (List.map threads ts) end.
Fixpoint samples (p : Z) (t : tree) : Z :=
  match t with
  | Leaf _ q => sum_counts p (blob_counts <$> blobs q)
  | Node ts => foldr Z.add 0 (List.map (samples p) ts)
  end.
Fixpoint objects (t : tree) : list (ThreadName * list LinkedObject) :=
  match t with
  | Leaf _ q => kept (added (blobs q)) <$> groups q
  | Node ts => concat (List.map objects ts)
  end.
Fixpoint data (t : tree) : list Blob :=
  match t with Leaf _ q => blobs q | Node ts => concat (List.map data ts) end.

(** The messages at a leaf: they end with the end of the last thread, and no thread
    that ended before was the only one known so far that still ran. Each thread attaches in
    a message of its own and sends a group of linked objects, of which one has a
    sample in the data of the leaf. *)
Record leaf_ok (q : list message) : Prop := {
  lk_last : exists body ns st, q = body ++ [MState ns st] /\ early 0 0 body = false /\
              count (states body) + 1 = count (attaches body);
  lk_messages : Forall (from_backend HOST_NAME_MAX xdr_float) q;
  lk_single : count (concat (attaches q)) = count (attaches q);
  lk_groups : keys (groups q) ≡ₚ name_key <$> concat (attaches q);
  lk_sampled : Forall (fun e => Exists (fun o => has_sample (added (blobs q)) o = true) e.2 /\
                                Forall (fun o => 0 < (lo_range o).1) e.2) (groups q);
  lk_counts : Forall (fun b => counts_ok (blob_counts b)) (blobs q) }.

Inductive sound : tree -> Prop :=
| sound_leaf b q : 0 < b -> leaf_ok q -> sound (Leaf b q)
| sound_node ts : ts <> [] -> Forall sound ts -> sound (Node ts).

Record delivered (ndebug : bool) (t : tree) (outs : list message) : Prop := {
  d_threads : exists V, attaches outs = [V] /\ V ≡ₚ threads t;
  d_finished : finishes outs = [tt];
  d_buffer : exists b, buffers outs = [b] /\ counts_ok b /\ forall p, p <> 0 -> count_at p b = u64 (samples p t);
  d_objects : groups outs ≡ₚ objects t;
  d_data : blobs outs ≡ₚ match t with Leaf _ q => blobs q | Node _ => if ndebug then [] else data t end }.

(** What the parent needs besides. *)
Record reports (ndebug : bool) (t : tree) (outs : list message) : Prop := {
  r_delivered : delivered ndebug t outs;
  r_proper : Forall proper_message outs;
  r_states : states outs = [];
  r_keys : keys (objects t) ≡ₚ name_key <$> threads t;
  r_sampled : exists b, buffers outs = [b] /\
    Forall (fun e => e.2 <> [] /\ Forall (fun o => has_sample b o = true /\ 0 < (lo_range o).1 < (lo_range o).2) e.2) (objects t) }.

Lemma sampled_havecounts ac o : (lo_range o).1 < (lo_range o).2 -> has_sample ac o = true -> havecounts ac = true.
Proof.
  intros Hr Hs. apply has_sample_iff in Hs as (a & [x Hx] & _); [|done]. unfold havecounts.
  rewrite Z.gtb_ltb. apply Z.ltb_lt. assert (size ac <> 0%nat); [|lia]. intros H0. apply map_size_empty_iff in H0.
  subst. by rewrite lookup_empty in Hx.
Qed.

(** When every group has a sampled object, a leaf keeps the sampled ones of each. *)
Lemma reduce_kept ac es : NoDup (keys es) -> Forall proper_entry es ->
  Forall (fun e => Exists (fun o => has_sample ac o = true) e.2) es ->
  reduce ac (map_of es) ≡ₚ kept ac <$> es.
Proof.
  intros Hnd Hp He. rewrite reduce_map.
  assert (Hid : List.filter (fun e => count e.2 >? 0) (keeps ac <$> map_of es) = kept ac <$> map_of es).
  { assert (Hall : Forall (fun e => proper_entry e /\ Exists (fun o => has_sample ac o = true) e.2) (map_of es)).
    { rewrite map_of_perm by done. by apply Forall_and. }
    clear He Hp. induction Hall as [|[t os] l [[_ Hos] Hex] _ IH]; [done|]. rewrite !fmap_cons. simpl in Hos, Hex.
    apply Exists_exists in Hex as (o & Ho & Hs).
    assert (havecounts ac = true) as Hh.
    { apply sampled_havecounts with o; [|done]. by apply (proj1 (Forall_forall _ _) Hos) in Ho as [_ ?]. }
    assert (keeps ac (t, os) = kept ac (t, os)) as ->.
    { unfold keeps, kept. f_equal. apply filter_ext. intros x. by rewrite Hh, orb_false_r. }
    cbn [List.filter]. rewrite IH. destruct (_ >? 0) eqn:Hz; [done|]. exfalso. rewrite Z.gtb_ltb in Hz.
    apply Z.ltb_ge in Hz. simpl in Hz. apply list_elem_of_In in Ho.
    assert (In o (List.filter (has_sample ac) os)) as Hin by (by apply filter_In).
    destruct (List.filter (has_sample ac) os); [done|]. simpl in Hz. lia. }
  rewrite Hid. rewrite map_of_perm; [by rewrite map_of_perm|].
  assert (Hk : keys (kept ac <$> map_of es) = keys (map_of es)).
  { unfold keys. rewrite <- list_fmap_compose. by apply list_fmap_ext. }
  rewrite Hk. by rewrite map_of_perm.
Qed.

End totals.

(** ** A leaf reports *)
Section proofs.
Context (HOST_NAME_MAX : nat) (xdr_float : codec Z) (ndebug aggregator_first : bool) (uninit : Z).
Notation added := (added HOST_NAME_MAX xdr_float).
Notation run := (run ndebug aggregator_first uninit HOST_NAME_MAX xdr_float).
Notation reports := (reports HOST_NAME_MAX xdr_float ndebug).
Notation leaf_ok := (leaf_ok HOST_NAME_MAX xdr_float).
Notation samples := (samples HOST_NAME_MAX xdr_float).
Notation objects := (objects HOST_NAME_MAX xdr_float).
Notation sound := (sound HOST_NAME_MAX xdr_float).

Lemma kept_keys ac es : keys (kept ac <$> es) = keys es.
Proof. unfold keys. rewrite <- list_fmap_compose. by apply list_fmap_ext. Qed.

Lemma kept_sampled ac es : Forall proper_entry es ->
  Forall (fun e => Exists (fun o => has_sample ac o = true) e.2 /\ Forall (fun o => 0 < (lo_range o).1) e.2) es ->
  Forall (fun e => e.2 <> [] /\ Forall (fun o => has_sample ac o = true /\ 0 < (lo_range o).1 < (lo_range o).2) e.2) (kept ac <$> es) /\
  Forall proper_entry (kept ac <$> es).
Proof.
  intros Hp Hs. pose proof (conj Hp Hs) as Hall. apply Forall_and in Hall. split; apply Forall_fmap;
    eapply Forall_impl; try exact Hall; intros [t os] [[H1 H2] [H3 H4]]; simpl in *.
  - apply Exists_exists in H3 as (o & Ho & Hso). split.
    + apply list_elem_of_In in Ho. assert (In o (List.filter (has_sample ac) os)) as Hin by (by apply filter_In).
      intros Hn. by rewrite Hn in Hin.
    + apply List.Forall_forall. intros x Hx. apply filter_In in Hx as [Hx Hsx]. apply list_elem_of_In in Hx.
      apply (proj1 (Forall_forall _ _) H2) in Hx as Hx2. apply (proj1 (Forall_forall _ _) H4) in Hx as Hx4. by destruct Hx2.
  - split; [done|]. simpl. apply List.Forall_forall. intros x Hx. apply filter_In in Hx as [Hx _].
    by apply (proj1 (List.Forall_forall _ _) H2).
Qed.

Lemma leaf_reports b q : aggregator_first = true -> 0 < b -> leaf_ok q -> NoDup (name_key <$> concat (attaches q)) ->
  exists st outs, run (topology false (Leaf b q)) q = (st, outs) /\ reports (Leaf b q) outs.
Proof.
  intros Haf Hb [(body & ns & st & -> & He & Hk) Hm Hs Hg Hsm Hc] Hnd. revert Hm Hs Hg Hsm Hc Hnd. proj. intros Hm Hs Hg Hsm Hc Hnd.
  apply Forall_app in Hm as [Hm _].
  assert (HP : Forall proper_message body) by (eapply Forall_impl; [exact Hm|]; by intros m [? _]).
  assert (Hndk : NoDup (keys (groups body))) by (by rewrite Hg).
  destruct (leaf_run ndebug aggregator_first uninit HOST_NAME_MAX xdr_float (topology false (Leaf b (body ++ [MState ns st]))))
    with (body := body) (ns := ns) (st := st) as (nd & outs & Hr & A1 & A2 & A3 & A4 & A5 & A6 & _); try done.
  assert (count (groups body) =? count (concat (attaches body)) = true) as Hcnt.
  { apply Z.eqb_eq. f_equal. transitivity (length (keys (groups body))); [unfold keys; by rewrite length_fmap|].
    rewrite Hg. by rewrite length_fmap. }
  rewrite Hcnt, Haf in A6. pose proof (proper_groups body HP) as HPg.
  destruct (kept_sampled _ _ HPg Hsm) as [Hks Hkp]. destruct (added_counts _ _ _ Hc) as [Hok Hcount].
  assert (Hgr : groups outs ≡ₚ kept (added (blobs body)) <$> groups body).
  { rewrite A6. apply reduce_kept; [done|done|]. eapply Forall_impl; [exact Hsm|]. by intros e [? _]. }
  exists (Some nd), outs. split; [done|]. split; simpl; proj.
  - split; simpl; proj; [by eexists|done| |done|by rewrite A4]. exists (added (blobs body)). split_and!; [done|done|].
    intros p _. apply Hcount.
  - apply proper_from; rewrite ?A1, ?A3, ?A4.
    + simpl. rewrite app_nil_r. by apply proper_attaches.
    + rewrite Hgr. apply Forall_and. split; [done|]. eapply Forall_impl; [exact Hks|]. by intros e [? _].
    + by constructor.
    + clear -HP. induction HP as [|m ms Hm _ IH]; [constructor|]. destruct m; try done. by constructor.
  - done.
  - by rewrite kept_keys.
  - by exists (added (blobs body)).
Qed.

(** ** The children of a node together *)
#[local] Instance concat_perm {A} : Proper ((≡ₚ) ==> (≡ₚ)) (@concat A).
Proof.
  induction 1 as [|x l l' _ IH|x y l|l l' l'' _ IH1 _ IH2]; simpl; [done|by rewrite IH| |by rewrite IH1].
  rewrite !app_assoc. apply Permutation_app_tail, Permutation_app_comm.
Qed.

Record together (ts : list tree) (M : list message) : Prop := {
  tg_attaches : count (attaches M) = count ts;
  tg_threads : concat (attaches M) ≡ₚ threads (Node ts);
  tg_finishes : count (finishes M) = count ts;
  tg_buffers : count (buffers M) = count ts;
  tg_samples : forall p, p <> 0 -> u64 (sum_counts p (buffers M)) = u64 (samples p (Node ts));
  tg_objects : groups M ≡ₚ objects (Node ts);
  tg_data : ndebug = false -> blobs M ≡ₚ data (Node ts);
  tg_proper : Forall proper_message M;
  tg_states : states M = [];
  tg_keys : keys (objects (Node ts)) ≡ₚ name_key <$> threads (Node ts);
  tg_sampled : Forall (fun e => e.2 <> [] /\ Forall (fun o =>
    (exists b, b ∈ buffers M /\ has_sample b o = true) /\ 0 < (lo_range o).1 < (lo_range o).2) e.2) (objects (Node ts)) }.

#[local] Instance together_perm ts : Proper ((≡ₚ) ==> impl) (together ts).
Proof.
  intros M M' HM [H1 H2 H3 H4 H5 H6 H7 H8 H9 H10 H11].
  assert (Ha : attaches M ≡ₚ attaches M') by (unfold attaches; by rewrite HM).
  assert (Hf : finishes M ≡ₚ finishes M') by (unfold finishes; by rewrite HM).
  assert (Hb : buffers M ≡ₚ buffers M') by (unfold buffers; by rewrite HM).
  assert (Hg : groups M ≡ₚ groups M') by (unfold groups; by rewrite HM).
  assert (Hd : blobs M ≡ₚ blobs M') by (unfold blobs; by rewrite HM).
  assert (Hs : states M ≡ₚ states M') by (unfold states; by rewrite HM).
  split; try done.
  - by rewrite <- Ha.
  - by rewrite <- H2, Ha.
  - by rewrite <- Hf.
  - by rewrite <- Hb.
  - intros p Hp. by rewrite <- (H5 p Hp), Hb.
  - by rewrite <- Hg.
  - intros Hn. by rewrite <- (H7 Hn), Hd.
  - by rewrite <- HM.
  - rewrite H9 in Hs. by apply Permutation_nil_l in Hs.
  - eapply Forall_impl; [exact H11|]. intros e [He Ho]. split; [done|]. eapply Forall_impl; [exact Ho|].
    intros o [(b & Hin & Hsb) Hr]. split; [|done]. exists b. by rewrite <- Hb.
Qed.

Lemma children ts sents : Forall2 reports ts sents -> together ts (concat sents).
Proof.
  induction 1 as [|t outs ts sents Ht _ IH]; [by split|].
  destruct Ht as [[(V & HV & HVt) Hf (b & Hb & Hok & Hcnt) Ho Hd] Hp Hs Hk (b' & Hb' & Hsm)].
  rewrite Hb in Hb'. injection Hb' as <-. destruct IH as [J1 J2 J3 J4 J5 J6 J7 J8 J9 J10 J11].
  cbn [concat]. split; autorewrite with msgs; rewrite ?HV, ?Hf, ?Hb, ?Hs; cbn [length app concat].
  - rewrite !Nat2Z.inj_succ. lia.
  - simpl. rewrite HVt. by rewrite J2.
  - rewrite !Nat2Z.inj_succ. lia.
  - rewrite !Nat2Z.inj_succ. lia.
  - intros p Hpz. simpl. rewrite Hcnt, u64_idem_l by done. specialize (J5 p Hpz). simpl in J5.
    rewrite Z.add_comm, <- u64_idem_l, J5, u64_idem_l. f_equal. lia.
  - simpl. by rewrite Ho, J6.
  - intros Hn. rewrite Hd, (J7 Hn). simpl. by destruct t; rewrite ?Hn.
  - by apply Forall_app.
  - done.
  - simpl. unfold keys in *. rewrite !fmap_app. simpl in J10. by rewrite Hk, J10.
  - simpl. apply Forall_app. split.
    + eapply Forall_impl; [exact Hsm|]. intros e [He Hos]. split; [done|]. eapply Forall_impl; [exact Hos|].
      intros o [Hso Hr]. split; [|done]. exists b. split; [by apply elem_of_cons; left|done].
    + eapply Forall_impl; [exact J11|]. intros e [He Hos]. split; [done|]. eapply Forall_impl; [exact Hos|].
      intros o [(b' & Hin & Hso) Hr]. split; [|done]. exists b'. split; [by apply elem_of_cons; right|done].
Qed.

(** ** A node above the leaves reports *)
Lemma distance_pos t : 1 <= distance t.
Proof. induction t as [b q|ts IH] using tree_induction; simpl; [lia|]. induction ts; simpl; [lia|]. inversion IH; subst. specialize (IHts H2). lia. Qed.

Lemma node_role fe ts : ts <> [] -> let T := topology fe (Node ts) in
  known T /\ isLeafCP T (copy_of T) = false /\ isFrontend T || isNonLeafCP T (copy_of T) = true.
Proof.
  intros Hts T. assert (2 <= distance (Node ts)) as Hd.
  { simpl. clear. induction ts as [|t ts IH]; simpl; lia. }
  assert (0 < count ts) by (destruct ts; [done|simpl; lia]).
  unfold known, isLeafCP, isFrontend, isNonLeafCP, T, topology, copy_of. cbn [IsFrontend MaxLeafDistance NumChildren c_MaxLeafDistance].
  split_and!; [lia|done| |]; destruct fe; simpl negb; rewrite ?Z.gtb_ltb; cbn [andb orb]; try done; [apply Z.eqb_neq|apply Z.ltb_lt]; lia.
Qed.

(** A sample of one of the buffers is one of the merged buffer. *)
Lemma has_sample_merged bs b o : b ∈ bs -> 0 < (lo_range o).1 < (lo_range o).2 -> has_sample b o = true ->
  has_sample (merged bs) o = true.
Proof.
  intros Hb Hr Hs. apply has_sample_iff; [lia|]. apply has_sample_iff in Hs as (a & Ha & Hin); [|lia].
  exists a. split; [|done]. apply merged_domain; [lia|]. by exists b.
Qed.

Lemma together_sampled ts M : together ts M -> Forall (fun e => e.2 <> [] /\
  Forall (fun o => has_sample (merged (buffers M)) o = true /\ 0 < (lo_range o).1 < (lo_range o).2) e.2) (objects (Node ts)).
Proof.
  intros H. eapply Forall_impl; [exact (tg_sampled _ _ H)|]. intros e [He Hos]. split; [done|].
  eapply Forall_impl; [exact Hos|]. intros o [(b & Hb & Hs) Hr]. split; [|done]. by apply has_sample_merged with b.
Qed.

Lemma together_awaited fe ts M : together ts M -> NoDup (name_key <$> threads (Node ts)) ->
  awaited (topology fe (Node ts)) M.
Proof.
  intros Ht Hnd. pose proof (together_sampled ts M Ht) as Hsm.
  destruct Ht as [H1 H2 H3 H4 H5 H6 H7 H8 H9 H10 H11]. split; try done.
  - rewrite H6, H10. exact Hnd.
  - assert (length (groups M) = length (concat (attaches M))); [|lia]. rewrite H2, H6.
    transitivity (length (keys (objects (Node ts)))); [unfold keys; by rewrite length_fmap|]. rewrite H10. by rewrite length_fmap.
  - rewrite H6. eapply Forall_impl; [exact Hsm|]. intros e [He Hos]. split; [done|]. eapply Forall_impl; [exact Hos|].
    intros o [Hs _]. by rewrite Hs.
Qed.

Lemma node_reports fe ts sents seen : ts <> [] -> Forall2 reports ts sents -> NoDup (name_key <$> threads (Node ts)) ->
  seen ≡ₚ concat sents -> exists st outs, run (topology fe (Node ts)) seen = (st, outs) /\ reports (Node ts) outs.
Proof.
  intros Hts Hall Hnd Hperm. pose proof (children ts sents Hall) as Htg. rewrite <- Hperm in Htg. clear Hall Hperm sents.
  destruct (node_role fe ts Hts) as (HT & Hup & Hrole). pose proof (together_awaited fe ts seen Htg Hnd) as Haw.
  pose proof (together_sampled ts seen Htg) as Hsm. destruct Htg as [H1 H2 H3 H4 H5 H6 H7 H8 H9 H10 _].
  destruct (up_run ndebug aggregator_first uninit HOST_NAME_MAX xdr_float _ HT Hup Hrole seen seen [] Haw H9) as (outs & Hr & Ho);
    [by rewrite app_nil_r|].
  destruct Ho as [O1 O2 O3 O4 O5 O6]. unfold groups_due in O4. cbn [topology NumChildren] in *.
  rewrite H1, Z.eqb_refl in O1, O4. rewrite H3, Z.eqb_refl in O2. rewrite H4, Z.eqb_refl in O3.
  assert (count (groups seen) =? count (concat (attaches seen)) = true) as Hc.
  { apply Z.eqb_eq. f_equal. rewrite H2, H6. transitivity (length (keys (objects (Node ts)))); [unfold keys; by rewrite length_fmap|].
    rewrite H10. by rewrite length_fmap. }
  rewrite Hc in O4. cbn [andb] in O4. rewrite H6 in O4.
  assert (Hbok : Forall counts_ok (buffers seen)).
  { clear -H8. induction H8 as [|m ms Hm _ IH]; [constructor|]. destruct m; try done. by constructor. }
  destruct (merged_counts _ Hbok) as [Hok Hcnt].
  exists (Some (up_node (topology fe (Node ts)) seen)), outs. split; [done|]. split; [split|..]; try done.
  - exists (concat (attaches seen)). done.
  - destruct (finishes outs) as [|[] [|]]; try done; simpl in O2; lia.
  - exists (merged (buffers seen)). split_and!; [done|done|]. intros p Hp. by rewrite Hcnt, H5.
  - rewrite O5. destruct ndebug; [done|]. by apply H7.
  - apply proper_from; rewrite ?O1, ?O3, ?O5.
    + simpl. rewrite app_nil_r. by apply proper_attaches.
    + rewrite O4, <- H6. apply Forall_and. split; [by apply proper_groups|]. rewrite H6. eapply Forall_impl; [exact Hsm|].
      by intros e [? _].
    + by constructor.
    + destruct ndebug; [constructor|]. clear -H8. induction H8 as [|m ms Hm _ IH]; [constructor|]. destruct m; try done. by constructor.
  - by exists (merged (buffers seen)).
Qed.

(** ** The whole tree *)
Lemma finished_reports : Is_true aggregator_first -> forall t fe c,
  (fe = true -> exists ts, t = Node ts) -> sound t -> NoDup (name_key <$> threads t) ->
  consistent ndebug aggregator_first uninit HOST_NAME_MAX xdr_float fe t c ->
  nf (step ndebug aggregator_first uninit HOST_NAME_MAX xdr_float) c -> reports t (sent_of c).
Proof.
  intros Haf t. induction t as [b q|ts IH] using tree_induction; intros fe c Hfe Hs Hnd Hinv Hnf;
    inversion Hinv as [? ? ? st seen sent rest Hrun Hq|? ? st seen sent inbox cs Hrun Hperm Hall]; subst;
    inversion Hs as [? ? Hb Hok|? Hts Hch]; subst; apply nf_quiet in Hnf as [Hin Hcs]; simpl.
  - destruct fe; [by destruct Hfe|]. simpl in Hin. rewrite app_nil_r in Hin. subst rest. rewrite app_nil_r in *.
    destruct (leaf_reports b seen (Is_true_eq_true _ Haf) Hb Hok Hnd) as (st' & outs & Hr & Hrep). by rewrite Hrun in Hr; simplify_eq.
  - rewrite Hin, app_nil_r in Hperm.
    assert (Hsub : Forall2 reports ts (sent_of <$> cs)).
    { clear Hperm Hrun Hinv Hs Hin Hts Hfe. simpl in Hnd. revert cs Hall Hcs Hnd. induction IH as [|t ts Ht _ IHl]; intros cs Hall Hcs Hnd;
        inversion Hall as [|? c ? cs' Hc Hall']; subst; [constructor|].
      apply Forall_cons in Hcs as [Hc' Hcs]. apply Forall_cons in Hch as [Hst Hch]. simpl in Hnd.
      rewrite fmap_app in Hnd. apply NoDup_app in Hnd as (Hn1 & _ & Hn2). rewrite fmap_cons. constructor.
      - by apply (Ht false c).
      - by apply IHl. }
    destruct (node_reports fe ts (sent_of <$> cs) seen Hts Hsub Hnd Hperm) as (st' & outs & Hr & Hrep).
    by rewrite Hrun in Hr; simplify_eq.
Qed.
End proofs.

(** C18: The filter network delivers. For a tree of nodes in which every leaf has
    sound messages and the threads have different names, every order in which
    the messages are handled comes to an end, there is such an order, and at
    the end of each the frontend has sent the tool exactly one list of
    threads, with all threads of the tree, one notice that the threads are finished, one
    buffer, whose count of every address is the sum over all blobs (modulo 2^64), and
    for each thread the linked objects that have a sample. The blobs themselves
    reach the tool unless the nodes are built with NDEBUG: then none does. *)
Theorem filter_network_delivers (HOST_NAME_MAX : nat) (xdr_float : codec Z) (ndebug : bool) (uninit : Z) (ts : list tree) :
  let step := step ndebug true uninit HOST_NAME_MAX xdr_float in
  sound HOST_NAME_MAX xdr_float (Node ts) -> NoDup (name_key <$> threads (Node ts)) ->
  sn step (start true (Node ts)) /\
  (exists c, rtc step (start true (Node ts)) c /\ nf step c) /\
  forall c, rtc step (start true (Node ts)) c -> nf step c ->
    delivered HOST_NAME_MAX xdr_float ndebug (Node ts) (sent_of c).
Proof.
  intros step Hs Hnd. split_and!; [apply all_terminate|apply can_finish|].
  intros c Hr Hnf. apply reachable_consistent in Hr.
  destruct (finished_reports HOST_NAME_MAX xdr_float ndebug true uninit I (Node ts) true c) as [Hd _ _ _ _]; try done.
  by exists ts.
Qed.

(** ** A tree of two leaves with a thread each *)
Definition example_leaf (host : string) (addr n : Z) : tree :=
  let name := example_name host in
  Leaf 1 [MAttached [name];
          MGroup (mkGroup name [mkProtocolLO "/bin/a.out" (4096, 5000) 1 100 true; mkProtocolLO "/lib/libc.so" (6000, 7000) 1 100 false]);
          MBlob (example_blob host addr n);
          MState [name] 5].
Definition example_tree : list tree := [example_leaf "n0" 4096 2; example_leaf "n1" 4100 3].

Lemma example_leaf_sound host addr n : (host = "n0"%string /\ addr = 4096 /\ n = 2) \/ (host = "n1"%string /\ addr = 4100 /\ n = 3) ->
  sound 64 xdr_i32 (example_leaf host addr n).
Proof.
  intros H. apply sound_leaf; [done|].
  assert (Hc : blob_counts 64 xdr_i32 (example_blob host addr n) = {[addr := n]}).
  { by destruct H as [(-> & -> & ->)|(-> & -> & ->)]; vm_compute. }
  split.
  - eexists [_; _; _], _, _. by split_and!.
  - repeat (apply Forall_cons; split); [by repeat constructor| |split|by repeat constructor|constructor].
    + split; [|done]. split; [done|]. eexists. split; [reflexivity|]. by repeat constructor.
    + destruct H as [(-> & -> & ->)|(-> & -> & ->)]; vm_compute; discriminate.
    + destruct H as [(-> & -> & ->)|(-> & -> & ->)]; eexists; vm_compute; reflexivity.
  - reflexivity.
  - apply reflexive_eq. reflexivity.
  - constructor; [|constructor]. split; [|repeat constructor].
    apply Exists_cons_hd.
    change (has_sample (merge_counts (blob_counts 64 xdr_i32 (example_blob host addr n)) ∅) (mkLO "/bin/a.out" (1, 100) (4096, 5000) true) = true).
    rewrite Hc. clear Hc.
    by destruct H as [(-> & -> & ->)|(-> & -> & ->)]; vm_compute.
  - constructor; [|constructor]. rewrite Hc. apply map_Forall_singleton. clear Hc.
    unfold is_u64. destruct H as [(_ & _ & ->)|(_ & _ & ->)]; lia.
Qed.

Lemma filter_network_delivers_witness :
  sound 64 xdr_i32 (Node example_tree) /\
  forall c, rtc (step true true 0 64 xdr_i32) (start true (Node example_tree)) c -> nf (step true true 0 64 xdr_i32) c ->
    exists buf, buffers (sent_of c) = [buf] /\ count_at 4096 buf = 2 /\ count_at 4100 buf = 3.
Proof.
  assert (Hs : sound 64 xdr_i32 (Node example_tree)).
  { apply sound_node; [done|]. unfold example_tree. repeat (apply Forall_cons; split); try (apply Forall_nil_2);
    apply example_leaf_sound; auto. }
  split; [done|]. intros c Hr Hnf.
  destruct (filter_network_delivers 64 xdr_i32 true 0 example_tree Hs) as (_ & _ & H).
  - vm_compute. repeat constructor; set_solver.
  - destruct (H c Hr Hnf) as [_ _ (b & Hb & _ & Hc) _ _]. exists b. split; [done|]. split; rewrite Hc by done; vm_compute; reflexivity.
Defined.
