(* ===== verification/MemMetrics.v ===== *)
(** The metrics of the memory experiment: PerfData::memMetrics of core/src/PerfData.cpp
    and core/include/KrellInstitute/Core/MemEventMetrics.hpp. The events of a thread's blob are
    turned into the sizes of its allocations, the current and the highest total,
    the allocations that were never freed, and one summary event per call path.
    The theorems: for mallocs and frees these are right, measured against a
    heap that knows its live blocks; for reallocs they are not. *)
From S2P Require Import Prelude Headers XDR TraceBuffer Mem RawData PerfData.

(** ** Data *)
Inductive mem_reason :=
| REASON_STILLALLOCATED | REASON_UNIQUE_CALLPATH | REASON_DURATION_OF_ALLOCATION | REASON_MAX_ALLOCATION
| REASON_MIN_ALLOCATION | REASON_HIGHWATER_SET | REASON_ALLOCATION_ADDRESS | REASON_UNKNOWN.

Record MemEvent := mkMemEvent {
  dm_start_time : Z; dm_stop_time : Z; dm_retval : Z; dm_ptr : Z; dm_size1 : Z; dm_size2 : Z;
  dm_total_allocation : Z; dm_max : Z; dm_min : Z; dm_count : Z;
  dm_mem_type : mem_type; dm_reason : mem_reason; dm_stacktrace : list Z }.

Record MemMetrics := mkMetrics {
  allocationSizes : gmap Z Z;
  addrMemEvent : gmap Z MemEvent;
  eventsOfInterest : list MemEvent;
  stackMemEvents : gmap (list Z) MemEvent;
  highwater : Z;
  currentAllocation : Z;
  totalAllocations : Z;
  totalFrees : Z }.

(** The constructor from an event and its stack, and the fields the code then sets. *)
Definition MemEvent_of (e : memt_event) (stack : list Z) (reason : mem_reason) (total mx mn n : Z) : MemEvent :=
  mkMemEvent (Mem.me_start_time e) (Mem.me_stop_time e) (me_retval e) (me_ptr e) (me_size1 e) (me_size2 e)
    total mx mn n (me_type e) reason stack.

(** The addresses of the stack, with the zero that ends it. *)
Fixpoint through_zero (l : list Z) : list Z :=
  match l with
  | [] => []
  | a :: l' => if a =? 0 then [a] else a :: through_zero l'
  end.
Definition event_stack (stacktraces : list Z) (e : traced_event memt_event) : list Z :=
  through_zero (drop (Z.to_nat (te_stacktrace e)) stacktraces).

(** std::find with operator==, which compares return values. *)
Definition find_event (events : list MemEvent) (v : Z) : option (nat * MemEvent) :=
  list_find (fun e => dm_retval e = v) events.

(** The three places that count an allocation: a new highwater mark is an event of
    interest, and the allocation is active unless one at this address is. *)
Definition count_allocation (e : memt_event) (stack : list Z) (a : Z) (m : MemMetrics) : MemMetrics :=
  let cur := currentAllocation m in
  let is_interesting := cur >? highwater m in
  let highwater' := if is_interesting then cur else highwater m in
  mkMetrics (allocationSizes m)
    (match addrMemEvent m !! a with
     | None => <[a := MemEvent_of e stack REASON_STILLALLOCATED cur 0 0 0]> (addrMemEvent m)
     | Some _ => addrMemEvent m
     end)
    (if is_interesting then eventsOfInterest m ++ [MemEvent_of e stack REASON_HIGHWATER_SET highwater' 0 0 0]
     else eventsOfInterest m)
    (stackMemEvents m) highwater' cur (totalAllocations m + 1) (totalFrees m).

Definition set_sizes (sizes : gmap Z Z) (cur : Z) (m : MemMetrics) : MemMetrics :=
  mkMetrics sizes (addrMemEvent m) (eventsOfInterest m) (stackMemEvents m) (highwater m) cur (totalAllocations m) (totalFrees m).

(** malloc(), and realloc() of a null pointer *)
Definition malloc_event (e : memt_event) (stack : list Z) (m : MemMetrics) : MemMetrics :=
  let a := me_retval e in
  let size := me_size1 e in
  let sizes := match allocationSizes m !! a with
               | None => <[a := size]> (allocationSizes m)
               | Some s => <[a := u64 (s + size)]> (allocationSizes m)
               end in
  count_allocation e stack a (set_sizes sizes (u64 (currentAllocation m + size)) m).

(** free(), and realloc() to size zero; what std::find finds is not used. *)
Definition free_event (e : memt_event) (m : MemMetrics) : MemMetrics :=
  let a := me_ptr e in
  let tmp := default 0 (allocationSizes m !! a) in
  mkMetrics (<[a := 0]> (allocationSizes m)) (delete a (addrMemEvent m)) (eventsOfInterest m) (stackMemEvents m)
    (highwater m) (u64 (currentAllocation m - tmp)) (totalAllocations m) (totalFrees m + 1).

(** realloc() of a pointer to a positive size. Writing through the iterator that
    find() returned for an address that is not there is out of bounds. *)
Definition realloc_free (e : memt_event) (m : MemMetrics) : MemMetrics :=
  let a := me_ptr e in
  let cur := match find_event (eventsOfInterest m) (me_ptr e) with
             | Some (_, eoi) => u64 (currentAllocation m - dm_size1 eoi)
             | None => currentAllocation m
             end in
  mkMetrics (<[a := 0]> (allocationSizes m)) (delete a (addrMemEvent m)) (eventsOfInterest m) (stackMemEvents m)
    (highwater m) cur (totalAllocations m) (totalFrees m + 1).

Definition set_size1 (s : Z) (e : MemEvent) : MemEvent :=
  mkMemEvent (dm_start_time e) (dm_stop_time e) (dm_retval e) (dm_ptr e) s (dm_size2 e)
    (dm_total_allocation e) (dm_max e) (dm_min e) (dm_count e) (dm_mem_type e) (dm_reason e) (dm_stacktrace e).

Definition realloc_allocate (e : memt_event) (stack : list Z) (matching : bool) (increased_size : Z) (m : MemMetrics) :
    outcome MemMetrics :=
  let size := me_size1 e in
  let a := me_retval e in
  match allocationSizes m !! a with
  | None => Fault
  | Some previous_size =>
      let s := if previous_size <? size then size else u64 (previous_size + previous_size) in
      let active_alloc_addr := if matching then me_ptr e else me_retval e in
      let cur := match find_event (eventsOfInterest m) active_alloc_addr with
                 | Some _ => s
                 | None => if increased_size >? 0 then u64 (currentAllocation m + increased_size) else currentAllocation m
                 end in
      let eois := match find_event (eventsOfInterest m) active_alloc_addr with
                  | Some (i, eoi) =>
                      if matching && (size >? previous_size) then eventsOfInterest m
                      else match dm_reason eoi with
                           | REASON_STILLALLOCATED => <[i := set_size1 s eoi]> (eventsOfInterest m)
                           | _ => eventsOfInterest m
                           end
                  | None => eventsOfInterest m
                  end in
      Ok (count_allocation e stack a
        (mkMetrics (<[a := s]> (allocationSizes m)) (addrMemEvent m) eois (stackMemEvents m) (highwater m) cur
           (totalAllocations m) (totalFrees m)))
  end.

Definition realloc_event (e : memt_event) (stack : list Z) (m : MemMetrics) : outcome MemMetrics :=
  let size := me_size1 e in
  if (me_ptr e =? 0) && (size >? 0) then Ok (malloc_event e stack m)
  else if negb (me_ptr e =? 0) && (size =? 0) then Ok (free_event e m)
  else if (me_ptr e >? 0) && (size >? 0) then
    let matching := me_ptr e =? me_retval e in
    let free_ptr := negb (me_retval e =? 0) && negb matching in
    let is_ptr_allocated := match allocationSizes m !! me_ptr e with Some _ => true | None => false end in
    let previous_ptr_size := default 0 (allocationSizes m !! me_ptr e) in
    let increased_size := if size >? previous_ptr_size then size - previous_ptr_size else 0 in
    let m1 := if free_ptr then realloc_free e m else m in
    if is_ptr_allocated then realloc_allocate e stack matching increased_size m1 else Ok m1
  else Ok m.

(** The summary of a call path *)
Definition realloc_size (e : memt_event) : Z :=
  if me_ptr e =? 0 then me_size1 e
  else if negb (me_retval e =? 0) then me_size1 e
  else if me_size1 e =? 0 then me_size1 e
  else 0.

Definition new_path (e : memt_event) (stack : list Z) (m : MemMetrics) : MemEvent :=
  let make total mx mn n := MemEvent_of e stack REASON_UNIQUE_CALLPATH total mx mn n in
  match me_type e with
  | MEM_MALLOC => make (me_size1 e) (me_size1 e) (me_size1 e) 1
  | MEM_CALLOC => let s := u64 (me_size1 e * me_size2 e) in make s s s 1
  | MEM_REALLOC => let s := realloc_size e in make s s s 1
  | MEM_FREE => make (currentAllocation m) 0 0 1
  | _ => make 0 0 0 0
  end.

Definition set_path (total mx mn n : Z) (x : MemEvent) : MemEvent :=
  mkMemEvent (dm_start_time x) (dm_stop_time x) (dm_retval x) (dm_ptr x) (dm_size1 x) (dm_size2 x)
    total mx mn n (dm_mem_type x) (dm_reason x) (dm_stacktrace x).

Definition add_path (total s : Z) (x : MemEvent) : MemEvent :=
  set_path total (if s >? dm_max x then s else dm_max x) (if s <? dm_min x then s else dm_min x) (u32 (dm_count x + 1)) x.

Definition old_path (e : memt_event) (x : MemEvent) : MemEvent :=
  match me_type e with
  | MEM_MALLOC => add_path (u64 (dm_total_allocation x + me_size1 e)) (me_size1 e) x
  | MEM_CALLOC => let s := u64 (me_size1 e * me_size2 e) in add_path (u64 (dm_total_allocation x + s)) s x
  | MEM_REALLOC =>
      add_path (if (me_ptr e =? 0) || negb (me_retval e =? 0) then u64 (dm_total_allocation x + me_size1 e)
                else dm_total_allocation x) (me_size1 e) x
  | MEM_FREE => set_path (dm_total_allocation x) (dm_max x) (dm_min x) (u32 (dm_count x + 1)) x
  | _ => x
  end.

Definition path_event (e : memt_event) (stack : list Z) (m : MemMetrics) : MemMetrics :=
  mkMetrics (allocationSizes m) (addrMemEvent m) (eventsOfInterest m)
    (<[stack := match stackMemEvents m !! stack with None => new_path e stack m | Some x => old_path e x end]> (stackMemEvents m))
    (highwater m) (currentAllocation m) (totalAllocations m) (totalFrees m).

(** ** The body of the loop, and memMetrics: calloc, memalign and posix_memalign only
    count for the call paths. *)
Definition mem_event (e : memt_event) (stack : list Z) (m : MemMetrics) : outcome MemMetrics :=
  m' ← match me_type e with
       | MEM_MALLOC => Ok (malloc_event e stack m)
       | MEM_REALLOC => realloc_event e stack m
       | MEM_FREE => Ok (free_event e m)
       | _ => Ok m
       end;
  Ok (path_event e stack m').

Fixpoint mem_events (es : list (memt_event * list Z)) (m : MemMetrics) : outcome MemMetrics :=
  match es with
  | [] => Ok m
  | (e, stack) :: es' => m' ← mem_event e stack m; mem_events es' m'
  end.

Definition memMetrics (HOST_NAME_MAX : nat) (blob : Blob) (m : MemMetrics) : outcome (Z * MemMetrics) :=
  h ← getXDRDecoding (xdr_CBTF_DataHeader HOST_NAME_MAX) blob;
  r ← getXDRDecoding xdr_CBTF_mem_exttrace_data (drop (Z.to_nat h.2) blob);
  let events := md_events r.1 in
  _ ← arr_get events (u32 (Z.of_nat (length events) - 1));
  m' ← mem_events ((fun e => (te_data e, event_stack (md_stacktraces r.1) e)) <$> events) m;
  Ok (r.2, m').

(** The metrics of a thread before its first blob: two counters are not initialized. *)
Definition no_metrics (allocations frees : Z) : MemMetrics := mkMetrics ∅ ∅ [] ∅ 0 0 allocations frees.

(** ** Reference: a heap that knows its live blocks, with the call that made each *)
Notation heap := (gmap Z (memt_event * list Z)).

Definition total (H : heap) : Z := map_fold (fun _ b acc => me_size1 b.1 + acc) 0 H.

Definition heap_step (e : memt_event) (stack : list Z) (H : heap) : heap :=
  match me_type e with
  | MEM_MALLOC => <[me_retval e := (e, stack)]> H
  | MEM_FREE => delete (me_ptr e) H
  | _ => H
  end.

(** The program mallocs and frees; malloc returns a block that is not live, and the
    live blocks fit the address space. *)
Fixpoint behaved (es : list (memt_event * list Z)) (H : heap) : Prop :=
  match es with
  | [] => True
  | (e, stack) :: es' =>
      match me_type e with
      | MEM_MALLOC => H !! me_retval e = None /\ 0 <= me_size1 e /\ total H + me_size1 e < 2 ^ 64
      | MEM_FREE => True
      | _ => False
      end /\ behaved es' (heap_step e stack H)
  end.

Fixpoint live (es : list (memt_event * list Z)) (H : heap) : heap :=
  match es with [] => H | (e, stack) :: es' => live es' (heap_step e stack H) end.

(** The largest total of the live blocks at any time. *)
Fixpoint peak (es : list (memt_event * list Z)) (H : heap) : Z :=
  match es with [] => total H | (e, stack) :: es' => Z.max (total H) (peak es' (heap_step e stack H)) end.

Lemma total_insert H a b : H !! a = None -> total (<[a := b]> H) = me_size1 b.1 + total H.
Proof. intros Ha. unfold total. apply (map_fold_insert_L (fun _ b acc => me_size1 b.1 + acc)); [intros; lia|done]. Qed.

Lemma total_delete H a b : H !! a = Some b -> total H = me_size1 b.1 + total (delete a H).
Proof. intros Ha. rewrite <- (insert_delete_id H a b) at 1 by done. apply total_insert, lookup_delete_eq. Qed.

Lemma total_nonneg H : map_Forall (fun _ b => 0 <= me_size1 b.1) H -> 0 <= total H.
Proof.
  induction H as [|a b H Ha IH] using map_ind; intros Hall; [done|].
  apply map_Forall_insert in Hall as [Hb Hall]; [|done]. rewrite total_insert by done. specialize (IH Hall). lia.
Qed.

(** ** Mallocs and frees are accounted for *)
Record accounts (H : heap) (m : MemMetrics) : Prop := {
  ac_sizes : forall a, default 0 (allocationSizes m !! a) = match H !! a with Some b => me_size1 b.1 | None => 0 end;
  ac_current : currentAllocation m = total H;
  ac_active : forall a, match H !! a, addrMemEvent m !! a with
    | Some b, Some ev => dm_retval ev = a /\ dm_size1 ev = me_size1 b.1 /\ dm_stacktrace ev = b.2 /\ dm_reason ev = REASON_STILLALLOCATED
    | None, None => True
    | _, _ => False
    end;
  ac_blocks : map_Forall (fun a b => me_retval b.1 = a /\ 0 <= me_size1 b.1) H;
  ac_bound : total H < 2 ^ 64 }.

Lemma blocks_nonneg H m : accounts H m -> 0 <= total H.
Proof. intros Ha. apply total_nonneg. eapply map_Forall_impl; [exact (ac_blocks _ _ Ha)|]. by intros a b [_ ?]. Qed.

Lemma malloc_accounts e stack H m : accounts H m -> me_type e = MEM_MALLOC -> H !! me_retval e = None ->
  0 <= me_size1 e -> total H + me_size1 e < 2 ^ 64 ->
  accounts (<[me_retval e := (e, stack)]> H) (malloc_event e stack m) /\
  highwater (malloc_event e stack m) = Z.max (highwater m) (total (<[me_retval e := (e, stack)]> H)).
Proof.
  intros Ha Ht Hn Hs Hb. pose proof (blocks_nonneg H m Ha) as H0. destruct Ha as [A1 A2 A3 A4 A5].
  pose proof (A1 (me_retval e)) as Hz. rewrite Hn in Hz. pose proof (A3 (me_retval e)) as Hact. rewrite Hn in Hact.
  destruct (addrMemEvent m !! me_retval e) eqn:Hae; [done|].
  assert (Hcur : u64 (currentAllocation m + me_size1 e) = total (<[me_retval e := (e, stack)]> H)).
  { rewrite total_insert, A2 by done. cbn [fst]. rewrite u64_small by lia. lia. }
  unfold malloc_event, count_allocation, set_sizes. cbn -[u64]. rewrite Hcur, Hae. split.
  - split; cbn -[u64].
    + intros a. destruct (decide (me_retval e = a)) as [<-|Hne].
      * rewrite lookup_insert_eq. destruct (allocationSizes m !! me_retval e) as [s|] eqn:Hs'; rewrite lookup_insert_eq; cbn -[u64] in *; [|done].
        subst s. apply u64_small. lia.
      * rewrite lookup_insert_ne by done. rewrite <- A1. by destruct (allocationSizes m !! me_retval e); rewrite lookup_insert_ne.
    + done.
    + intros a. destruct (decide (me_retval e = a)) as [<-|Hne]; [by rewrite !lookup_insert_eq|]. rewrite !lookup_insert_ne by done. apply A3.
    + by apply map_Forall_insert_2.
    + rewrite total_insert by done. simpl. lia.
  - destruct (_ >? _) eqn:Hg; rewrite Z.gtb_ltb in Hg; bools; lia.
Qed.

Lemma free_accounts e H m : accounts H m ->
  accounts (delete (me_ptr e) H) (free_event e m) /\
  highwater (free_event e m) = highwater m /\ total (delete (me_ptr e) H) <= total H.
Proof.
  intros Ha. pose proof (blocks_nonneg H m Ha) as H0. destruct Ha as [A1 A2 A3 A4 A5].
  pose proof (A1 (me_ptr e)) as Hz. assert (Hd : total H = (match H !! me_ptr e with Some b => me_size1 b.1 | None => 0 end) + total (delete (me_ptr e) H)
    /\ 0 <= total (delete (me_ptr e) H)).
  { assert (0 <= total (delete (me_ptr e) H)).
    { apply total_nonneg. apply map_Forall_delete. eapply map_Forall_impl; [exact A4|]. by intros a b [_ ?]. }
    destruct (H !! me_ptr e) as [b|] eqn:Hp; [by rewrite (total_delete H _ b Hp) at 1|by rewrite delete_id]. }
  assert (0 <= match H !! me_ptr e with Some b => me_size1 b.1 | None => 0 end) as Hsz.
  { destruct (H !! me_ptr e) as [b|] eqn:Hp; [|done]. by destruct (A4 _ _ Hp). }
  unfold free_event. split; [|cbn; split; [done|lia]]. split; cbn -[u64].
  - intros a. destruct (decide (me_ptr e = a)) as [<-|Hne].
    + by rewrite lookup_insert_eq, lookup_delete_eq.
    + rewrite lookup_insert_ne, lookup_delete_ne by done. apply A1.
  - rewrite Hz, A2. rewrite u64_small; lia.
  - intros a. destruct (decide (me_ptr e = a)) as [<-|Hne]; [by rewrite !lookup_delete_eq|]. rewrite !lookup_delete_ne by done. apply A3.
  - by apply map_Forall_delete.
  - lia.
Qed.

(** The call paths are apart from the rest. *)
Lemma path_accounts e stack H m : accounts H m -> accounts H (path_event e stack m).
Proof. intros [A1 A2 A3 A4 A5]. by split. Qed.

Lemma peak_ge es H : total H <= peak es H.
Proof. destruct es as [|[e s] es]; simpl; lia. Qed.

Lemma events_accounts es : forall H m, accounts H m -> highwater m >= total H -> behaved es H ->
  exists m', mem_events es m = Ok m' /\ accounts (live es H) m' /\ highwater m' = Z.max (highwater m) (peak es H).
Proof.
  induction es as [|[e stack] es IH]; intros H m Ha Hh Hb.
  - exists m. split_and!; [done|done|]. simpl. lia.
  - destruct Hb as [He Hb]. cbn [mem_events live peak]. unfold mem_event. unfold heap_step in *. destruct (me_type e) eqn:Ht; try done;
      rewrite !bind_of_Ok.
    + destruct He as (Hn & Hs & Hbd). destruct (malloc_accounts e stack H m Ha Ht Hn Hs Hbd) as [Ha' Hw].
      destruct (IH _ (path_event e stack (malloc_event e stack m)) (path_accounts _ _ _ _ Ha')) as (m' & -> & Hl & Hp);
        cbn [path_event highwater] in *; [lia|done|].
      exists m'. split_and!; [done|done|]. rewrite Hp, Hw. pose proof (peak_ge es (<[me_retval e := (e, stack)]> H)). lia.
    + destruct (free_accounts e H m Ha) as (Ha' & Hw & Hle).
      destruct (IH _ (path_event e stack (free_event e m)) (path_accounts _ _ _ _ Ha')) as (m' & -> & Hl & Hp);
        cbn [path_event highwater] in *; [lia|done|].
      exists m'. split_and!; [done|done|]. lia.
Qed.

(** C34: Memory metrics of a program that mallocs and frees. Against the heap of the live
    blocks: the current allocation is the total of the live blocks, the highwater mark
    is the largest total there was, the active allocations are the live blocks with
    the sizes and call paths of the mallocs that made them, so that what is left at
    the end is what was not freed, and every address has the size of its live
    block, or zero. A malloc that fails counts as a block at address 0 (heap_step), as it
    does in the code. *)
Theorem malloc_free_metrics (es : list (memt_event * list Z)) (n k : Z) : behaved es ∅ ->
  exists m, mem_events es (no_metrics n k) = Ok m /\
    currentAllocation m = total (live es ∅) /\ highwater m = peak es ∅ /\
    (forall a, match live es ∅ !! a, addrMemEvent m !! a with
     | Some b, Some ev => dm_retval ev = a /\ dm_size1 ev = me_size1 b.1 /\ dm_stacktrace ev = b.2 /\ dm_reason ev = REASON_STILLALLOCATED
     | None, None => True
     | _, _ => False
     end) /\
    (forall a, default 0 (allocationSizes m !! a) = match live es ∅ !! a with Some b => me_size1 b.1 | None => 0 end).
Proof.
  intros Hb. destruct (events_accounts es ∅ (no_metrics n k)) as (m & Hm & [A1 A2 A3 A4 A5] & Hw); [|cbn; unfold total; rewrite map_fold_empty; lia|done|].
  - by split.
  - exists m. split_and!; [done|done| |done|done]. rewrite Hw. cbn [highwater no_metrics].
    assert (0 <= peak es ∅); [|lia]. destruct es as [|[e s] es]; cbn; unfold total at 1; rewrite map_fold_empty; lia.
Qed.

(** ** Reallocs *)
(** Reallocs are not accounted for. A block that is known and moves to an address
    seen for the first time makes memMetrics write through the end iterator of
    the map of sizes. A block that grows in place and whose allocation once set the
    highwater mark makes its own size the current allocation of the thread,
    whatever else is allocated. *)
Theorem realloc_metrics_wrong (e : memt_event) (stack : list Z) (m : MemMetrics) (old : Z) :
  me_type e = MEM_REALLOC -> 0 < me_ptr e -> 0 < me_size1 e -> allocationSizes m !! me_ptr e = Some old ->
  (me_retval e <> 0 -> me_retval e <> me_ptr e -> allocationSizes m !! me_retval e = None -> mem_event e stack m = Fault) /\
  (me_retval e = me_ptr e -> old < me_size1 e -> (exists x, x ∈ eventsOfInterest m /\ dm_retval x = me_ptr e) ->
     exists m', mem_event e stack m = Ok m' /\ currentAllocation m' = me_size1 e).
Proof.
  intros Ht Hp Hs Ho. unfold mem_event. rewrite Ht. unfold realloc_event.
  assert (me_ptr e =? 0 = false) as -> by (apply Z.eqb_neq; lia). assert (me_size1 e =? 0 = false) as -> by (apply Z.eqb_neq; lia).
  rewrite !Z.gtb_ltb, (proj2 (Z.ltb_lt _ _) Hp), (proj2 (Z.ltb_lt _ _) Hs), Ho. cbn [andb negb]. split.
  - intros Hr Hne Hn. assert (me_ptr e =? me_retval e = false) as -> by (apply Z.eqb_neq; congruence).
    assert (me_retval e =? 0 = false) as -> by (apply Z.eqb_neq; lia). cbn [andb negb].
    unfold realloc_allocate, realloc_free. cbn [allocationSizes]. by rewrite lookup_insert_ne, Hn.
  - intros Heq Hlt (x & Hx & Hxr). rewrite Heq, Z.eqb_refl. rewrite andb_false_r.
    unfold realloc_allocate. rewrite Heq, Ho.
    destruct (find_event (eventsOfInterest m) (me_ptr e)) as [[i eoi]|] eqn:Hf.
    + rewrite !bind_of_Ok. eexists. split; [done|]. cbn -[u64]. by rewrite (proj2 (Z.ltb_lt _ _) Hlt).
    + exfalso. apply list_find_None in Hf. rewrite Forall_forall in Hf. by apply (Hf x Hx).
Qed.

(** ** Call paths *)
Definition allocated (e : memt_event) : Z :=
  match me_type e with MEM_CALLOC => u64 (me_size1 e * me_size2 e) | _ => me_size1 e end.
Definition on_path (s : list Z) (es : list (memt_event * list Z)) : list memt_event :=
  fst <$> List.filter (fun x => bool_decide (x.2 = s)) es.

(** The summary event of allocations with these sizes. *)
Definition summarizes (sizes : list Z) (x : MemEvent) : Prop :=
  dm_count x = u32 (Z.of_nat (length sizes)) /\ dm_total_allocation x = u64 (foldr Z.add 0 sizes) /\
  (forall s, s ∈ sizes -> dm_min x <= s <= dm_max x) /\ dm_min x ∈ sizes /\ dm_max x ∈ sizes.

Lemma u64_sum_snoc l x : u64 (u64 (foldr Z.add 0 l) + x) = u64 (foldr Z.add 0 (l ++ [x])).
Proof. rewrite u64_idem_l. f_equal. induction l as [|y l IH]; simpl; lia. Qed.

Lemma u32_snoc {A} (l : list A) x : u32 (u32 (Z.of_nat (length l)) + 1) = u32 (Z.of_nat (length (l ++ [x]))).
Proof. unfold u32. rewrite Z.add_mod_idemp_l by done. f_equal. rewrite length_app. simpl. lia. Qed.

Lemma add_path_summarizes sizes s x : summarizes sizes x ->
  summarizes (sizes ++ [s]) (add_path (u64 (dm_total_allocation x + s)) s x).
Proof.
  intros (H1 & H2 & H3 & H4 & H5). unfold summarizes, add_path, set_path. cbn -[u64 u32].
  rewrite H1, H2, u64_sum_snoc, (u32_snoc _ s). rewrite Z.gtb_ltb. split_and!; [done|done| | |].
  - intros y Hy. apply elem_of_app in Hy as [Hy|Hy].
    + specialize (H3 y Hy). destruct (s <? dm_min x) eqn:?, (dm_max x <? s) eqn:?; bools; lia.
    + apply elem_of_cons in Hy as [->|Hy]; [|by apply not_elem_of_nil in Hy].
      destruct (s <? dm_min x) eqn:?, (dm_max x <? s) eqn:?; bools; lia.
  - destruct (s <? dm_min x); set_solver.
  - destruct (dm_max x <? s); set_solver.
Qed.

Lemma other_paths e stack s m m' : mem_event e stack m = Ok m' ->
  stackMemEvents m' !! s =
  if decide (stack = s) then Some (match stackMemEvents m !! s with
    | None => new_path e s (mkMetrics (allocationSizes m') (addrMemEvent m') (eventsOfInterest m') (stackMemEvents m)
                              (highwater m') (currentAllocation m') (totalAllocations m') (totalFrees m'))
    | Some x => old_path e x end)
  else stackMemEvents m !! s.
Proof.
  unfold mem_event. intros (m1 & Hm1 & Heq)%bind_Ok. injection Heq as <-.
  assert (Hs : stackMemEvents m1 = stackMemEvents m).
  { destruct (me_type e); simplify_eq; try done. unfold realloc_event in Hm1.
    destruct (_ && _); [by simplify_eq|]. destruct (_ && _); [by simplify_eq|]. destruct (_ && _); [|by simplify_eq].
    destruct (allocationSizes m !! me_ptr e); [|by destruct (_ && _); simplify_eq].
    unfold realloc_allocate in Hm1. destruct (negb _ && negb _); destruct (allocationSizes _ !! me_retval e); by simplify_eq. }
  unfold path_event. cbn. rewrite Hs. case_decide as Hd; [subst|by rewrite lookup_insert_ne].
  rewrite lookup_insert_eq. destruct (stackMemEvents m !! s); [done|]. unfold new_path. by destruct (me_type e).
Qed.

Lemma on_path_cons s e stack es : on_path s ((e, stack) :: es) = (if decide (stack = s) then [e] else []) ++ on_path s es.
Proof. unfold on_path. cbn [List.filter snd]. case_decide; case_bool_decide; done. Qed.

Lemma new_path_summarizes e s m : (me_type e = MEM_MALLOC \/ me_type e = MEM_CALLOC) -> 0 <= allocated e < 2 ^ 64 ->
  summarizes [allocated e] (new_path e s m).
Proof.
  intros Ht Hr. assert (u64 (allocated e + 0) = allocated e) as Hu by (rewrite Z.add_0_r; by apply u64_small).
  unfold summarizes. cbn [foldr]. rewrite Hu. unfold allocated, new_path in *.
  destruct Ht as [-> | ->]; cbn -[u64 u32]; split_and!; try done; try set_solver; intros x Hx;
    apply elem_of_cons in Hx as [->|Hx]; try lia; by apply not_elem_of_nil in Hx.
Qed.

Lemma old_path_summarizes e sizes x : (me_type e = MEM_MALLOC \/ me_type e = MEM_CALLOC) -> summarizes sizes x ->
  summarizes (sizes ++ [allocated e]) (old_path e x).
Proof. intros Ht Hs. unfold allocated, old_path. destruct Ht as [-> | ->]; by apply add_path_summarizes. Qed.

(** From a summary of earlier sizes, or from none. *)
Lemma path_events es : forall m m' s, mem_events es m = Ok m' ->
  Forall (fun e => me_type e = MEM_MALLOC \/ me_type e = MEM_CALLOC) (on_path s es) ->
  Forall (fun e => 0 <= allocated e < 2 ^ 64) (on_path s es) ->
  (forall sizes x, stackMemEvents m !! s = Some x -> summarizes sizes x ->
     exists x', stackMemEvents m' !! s = Some x' /\ summarizes (sizes ++ (allocated <$> on_path s es)) x') /\
  (stackMemEvents m !! s = None -> on_path s es <> [] ->
     exists x', stackMemEvents m' !! s = Some x' /\ summarizes (allocated <$> on_path s es) x').
Proof.
  induction es as [|[e stack] es IH]; intros m m' s Hm Ht Hr.
  - injection Hm as <-. split; [|done]. intros sizes x Hx Hs. exists x. by rewrite app_nil_r.
  - cbn [mem_events] in Hm. apply bind_Ok in Hm as (m1 & He & Hm). apply (other_paths e stack s) in He.
    rewrite on_path_cons in Ht, Hr |- *. apply Forall_app in Ht as [Ht1 Ht], Hr as [Hr1 Hr].
    destruct (IH m1 m' s Hm Ht Hr) as [IH1 IH2]. case_decide as Hd; cbn [app fmap list_fmap] in *.
    + apply Forall_cons in Ht1 as [Ht1 _], Hr1 as [Hr1 _]. split.
      * intros sizes x Hx Hs. rewrite Hx in He. rewrite cons_middle, app_assoc.
        apply (IH1 _ _ He). by apply old_path_summarizes.
      * intros Hx _. rewrite Hx in He. apply (IH1 [allocated e] _ He). by apply new_path_summarizes.
    + split; [intros sizes x Hx Hs; apply IH1 with x; congruence|]. intros Hx. rewrite Hx in He. by apply IH2.
Qed.

(** Call paths. Whatever else the thread does, the summary of a call path on which
    memory is only allocated by malloc or calloc has the number of the calls, the sum of
    their sizes and the smallest and largest size. *)
Theorem path_summaries (es : list (memt_event * list Z)) (m m' : MemMetrics) (s : list Z) :
  mem_events es m = Ok m' -> stackMemEvents m !! s = None ->
  Forall (fun e => me_type e = MEM_MALLOC \/ me_type e = MEM_CALLOC) (on_path s es) ->
  Forall (fun e => 0 <= allocated e < 2 ^ 64) (on_path s es) -> on_path s es <> [] ->
  exists x, stackMemEvents m' !! s = Some x /\ summarizes (allocated <$> on_path s es) x.
Proof.
  intros Hm Hn Ht Hr Hne. destruct (path_events es m m' s Hm Ht Hr) as [_ H]. by apply H.
Qed.

(** ** Examples: events at addresses, with the size *)
Definition malloc_at (a size : Z) : memt_event := mkMemt 1 2 a 0 size size MEM_MALLOC.
Definition free_of (a : Z) : memt_event := mkMemt 3 4 0 a 0 0 MEM_FREE.
Definition realloc_to (p a size : Z) : memt_event := mkMemt 5 6 a p size size MEM_REALLOC.

Lemma malloc_free_metrics_witness :
  let es := [(malloc_at 100 10, [1; 0]); (malloc_at 200 5, [2; 0]); (free_of 100, [3; 0]); (malloc_at 100 2, [1; 0])] in
  exists m, mem_events es (no_metrics 0 0) = Ok m /\ currentAllocation m = 7 /\ highwater m = 15.
Proof.
  intros es. destruct (malloc_free_metrics es 0 0) as (m & Hm & Hc & Hh & _).
  - cbn [es behaved]. by split_and!.
  - exists m. split; [exact Hm|]. rewrite Hc, Hh. split; vm_compute; reflexivity.
Defined.

(** 10 bytes at 100 and 5 at 200; then the first block grows to 30 in place (35 are
    allocated), or moves. *)
Lemma realloc_metrics_wrong_witness :
  exists m, mem_events [(malloc_at 100 10, [1; 0]); (malloc_at 200 5, [2; 0])] (no_metrics 0 0) = Ok m /\ currentAllocation m = 15 /\
    (exists m', mem_event (realloc_to 100 100 30) [3; 0] m = Ok m' /\ currentAllocation m' = 30) /\
    mem_event (realloc_to 100 300 30) [3; 0] m = Fault.
Proof.
  eexists. split; [reflexivity|]. split; [reflexivity|]. split.
  - eapply (realloc_metrics_wrong (realloc_to 100 100 30) [3; 0] _ 10); try done; try (vm_compute; reflexivity).
    eexists. split; [apply elem_of_cons; left; reflexivity|reflexivity].
  - eapply (realloc_metrics_wrong (realloc_to 100 300 30) [3; 0] _ 10); try done; vm_compute; reflexivity.
Defined.

Lemma path_summaries_witness :
  let es := [(malloc_at 100 10, [1; 0]); (free_of 100, [3; 0]); (malloc_at 200 4, [1; 0])] in
  exists m x, mem_events es (no_metrics 0 0) = Ok m /\ stackMemEvents m !! [1; 0] = Some x /\
    dm_count x = 2 /\ dm_total_allocation x = 14.
Proof.
  intros es. eexists. destruct (path_summaries es (no_metrics 0 0) _ [1; 0] eq_refl eq_refl) as (x & Hx & H1 & H2 & _).
  - repeat constructor.
  - repeat constructor; vm_compute; done.
  - discriminate.
  - exists x. split; [reflexivity|]. split; [exact Hx|]. split; [exact H1|exact H2].
Defined.
