(* ===== verification/MemAggregator.v ===== *)
(** The aggregator of the memory experiment: core/components/MemAggregatorComponent.cpp. It
    adds to what the address aggregator does that a leaf keeps the metrics of each
    thread, and when all threads have ended sends reduced blobs, with the events
    of interest, one event per call path and the allocations that were not
    freed. The theorems: the reduced blobs have all these events, in order; but a
    stack that does not fit the rest of the array is written past its end. *)
From stdpp Require Import sorting.
From S2P Require Import Prelude PCIndex Headers XDR TraceBuffer Mem RawData PerfData ThreadName NodeRole AddressAggregator MemMetrics.

(** ** Reduced blobs *)
Definition StackTraceBufferSize (a : arch) : Z := CBTF_BlobSizeFactor a * 384.
Definition EventBufferSize (a : arch) : Z := CBTF_BlobSizeFactor a * 200.

Record reduced := mkReduced {
  rd_header : CBTF_DataHeader; rd_stacktraces : list Z; rd_events : list (traced_event MemEvent) }.

Definition zero_event : traced_event MemEvent :=
  mkEvent (mkMemEvent 0 0 0 0 0 0 0 0 0 0 MEM_UNKNOWN REASON_STILLALLOCATED []) 0.

(** The header and the arrays that are filled; the address interval of the header is
    kept with the arrays. *)
Definition filling : Type := CBTF_DataHeader * trace_buffer MemEvent.

Definition initialize_data (a : arch) (tname : ThreadName) : filling :=
  (mkDataHeader 0 1 "mem" (dm_host tname) (dm_pid tname) (dm_posixtid tname).2 (dm_rank tname) (dm_omptid tname)
     UINT64_MAX 0 UINT64_MAX 0,
   reset_traces (StackTraceBufferSize a) (EventBufferSize a) zero_event).

Definition set_times (h : CBTF_DataHeader) (tb te : Z) : CBTF_DataHeader :=
  mkDataHeader (dh_experiment h) (dh_collector h) (dh_id h) (dh_host h) (dh_pid h) (dh_posix_tid h) (dh_rank h) (dh_omp_tid h)
    tb te (dh_addr_begin h) (dh_addr_end h).

(** The result is whether the blob is full. *)
Definition update_data (a : arch) (event : MemEvent) (d : filling) : outcome (bool * filling) :=
  let h := d.1 in
  let b := d.2 in
  let h' := set_times h
    (if dm_start_time event <? dh_time_begin h then dm_start_time event else dh_time_begin h)
    (if dm_stop_time event >=? dh_time_end h then u64 (dm_stop_time event + 1) else dh_time_end h) in
  let frames := dm_stacktrace event in
  r ← search_entry (tb_stacktraces b) (tb_stacktraces_len b) frames;
  p ← match r with
      | Some start => Ok (false, start, b)
      | None =>
          b1 ← add_trace false frames b;
          Ok (tb_stacktraces_len b + Z.of_nat (length frames) + 1 >=? StackTraceBufferSize a, tb_stacktraces_len b, b1)
      end;
  b2 ← add_event event p.1.2 p.2;
  Ok (if tb_events_len b2 =? EventBufferSize a then true else p.1.1, (h', b2)).

(** The copies that are packed with the header. *)
Definition packed (d : filling) : reduced :=
  let h := d.1 in
  let b := d.2 in
  mkReduced
    (mkDataHeader (dh_experiment h) (dh_collector h) (dh_id h) (dh_host h) (dh_pid h) (dh_posix_tid h) (dh_rank h) (dh_omp_tid h)
       (dh_time_begin h) (dh_time_end h) (tb_addr_begin b) (tb_addr_end b))
    (take (Z.to_nat (tb_stacktraces_len b)) (tb_stacktraces b))
    (take (Z.to_nat (tb_events_len b)) (tb_events b)).

(** The three loops over the events of a thread: [emit_new_data], what is filled, and
    what has been emitted. *)
Fixpoint fill_blobs (a : arch) (tname : ThreadName) (events : list MemEvent) (emit_new_data : bool) (d : filling)
    (out : list reduced) : outcome (bool * filling * list reduced) :=
  match events with
  | [] => Ok (emit_new_data, d, out)
  | e :: events' =>
      r ← update_data a e d;
      let (full, d') := (r : bool * filling) in
      if full then fill_blobs a tname events' true (initialize_data a tname) (out ++ [packed d'])
      else fill_blobs a tname events' false d' out
  end.

(** The values of a std::map, in the order of the keys. *)
Definition stack_le (s t : list Z) : Prop := List.list_compare Z.compare s t <> Gt.
#[export] Instance stack_le_dec : RelDecision stack_le.
Proof. intros s t. unfold stack_le. destruct (List.list_compare Z.compare s t); [left|left|right]; (done || (by intros H; apply H)). Defined.
Definition in_order {K V} (le : K -> K -> Prop) `{!RelDecision le} (l : list (K * V)) : list V :=
  snd <$> merge_sort (fun x y => le x.1 y.1) (H := fun x y => decide (le x.1 y.1)) l.

Definition thread_events (m : MemMetrics) : list MemEvent :=
  eventsOfInterest m ++ in_order stack_le (map_to_list (stackMemEvents m)) ++ in_order Z.le (map_to_list (addrMemEvent m)).

Definition reduced_blobs (a : arch) (tname : ThreadName) (m : MemMetrics) : outcome (list reduced) :=
  r ← fill_blobs a tname (thread_events m) false (initialize_data a tname) [];
  let '(emit_new_data, d, out) := r in
  Ok (if negb emit_new_data && (tb_events_len d.2 >? 0) then out ++ [packed d] else out).

(** ** The component *)
Record mg_state := mkMG {
  mg_ag : ag_state;
  mg_threadmemmetricsmap : list (ThreadName * MemMetrics);
  mg_data_blobs_size : Z }.

Inductive mg_out :=
| mg_agout (o : ag_out)
| mg_reduced (r : reduced).

Fixpoint all_reduced (a : arch) (ms : list (ThreadName * MemMetrics)) : outcome (list reduced) :=
  match ms with
  | [] => Ok []
  | (t, m) :: ms' => r ← reduced_blobs a t m; rs ← all_reduced a ms'; Ok (r ++ rs)
  end.

(** threadmemmetricsmap.find() and operator[] by the order of the names *)
Fixpoint find_metrics (t : ThreadName) (ms : list (ThreadName * MemMetrics)) : option MemMetrics :=
  match ms with
  | [] => None
  | (t', m) :: ms' => if name_ltb t' t then find_metrics t ms' else if name_ltb t t' then None else Some m
  end.
Fixpoint set_metrics (t : ThreadName) (m : MemMetrics) (ms : list (ThreadName * MemMetrics)) : list (ThreadName * MemMetrics) :=
  match ms with
  | [] => []
  | (t', m') :: ms' => if name_ltb t' t then (t', m') :: set_metrics t m ms' else if name_ltb t t' then ms else (t', m) :: ms'
  end.

Section handlers.
(** The topology, the build, and the values two counters have before they are set. *)
Context (T : TopologyInfo) (ndebug : bool) (a : arch) (HOST_NAME_MAX : nat) (xdr_float : codec Z) (uninit_allocations uninit_frees : Z).
Notation header := (xdr_CBTF_DataHeader HOST_NAME_MAX).

Definition MemAggregator : mg_state := mkMG (AddressAggregator T) [] 0.

Definition with_ag (s : mg_state) (r : ag_state * list ag_out) : mg_state * list mg_out :=
  (mkMG r.1 (mg_threadmemmetricsmap s) (mg_data_blobs_size s), mg_agout <$> r.2).

(** These handlers are those of the address aggregator. *)
Definition mg_numBEHandler (s : mg_state) (n : Z) := with_ag s (ag_numBEHandler T (mg_ag s) n).
Definition mg_threadnamesHandler (s : mg_state) (names : list ThreadName) := with_ag s (ag_threadnamesHandler T (mg_ag s) names).
Definition mg_finishedHandler (s : mg_state) := with_ag s (ag_finishedHandler T (mg_ag s)).
Definition mg_addressBufferHandler (s : mg_state) (buf : AddressBuffer) := with_ag s (addressBufferHandler T (mg_ag s) buf).

Definition mg_numTerminatedHandler (s : mg_state) (n : Z) : outcome (mg_state * list mg_out) :=
  let ag := ag_init T (mg_ag s) in
  let numTerminated := ag_numTerminated ag + n in
  let r := with_ag s (ag_numTerminatedHandler T (mg_ag s) n) in
  if isLeafCP T (ag_topology ag) && (numTerminated =? Z.of_nat (length (ag_threadnames ag))) then
    rs ← all_reduced a (mg_threadmemmetricsmap s);
    Ok (r.1, (mg_reduced <$> rs) ++ r.2)
  else Ok r.

(** Blobs of another collector are not looked at. *)
Definition mg_blob_Handler (s0 : mg_state) (blob : Blob) : outcome (mg_state * list mg_out) :=
  let s := ag_init T (mg_ag s0) in
  let counted ag := mkAG (ag_topology ag) (ag_is_finished ag) (ag_data_blobs ag + 1) (ag_handled_buffers ag)
    (ag_numTerminated ag) (ag_threadnames ag) (ag_threadaddrbufmap ag) (ag_total_data_size ag) (ag_abuffer ag) (ag_addrThreadCount ag) in
  if (length blob =? 0)%nat then Aborted
  else if negb (isLeafCP T (ag_topology s)) then
    Ok (mkMG (counted s) (mg_threadmemmetricsmap s0) (mg_data_blobs_size s0), if ndebug then [] else [mg_agout (datablob_xdr_out blob)])
  else
    h ← getXDRDecoding header blob;
    let tname := ThreadName_of_ids (dh_host h.1) (dh_pid h.1) (dh_posix_tid h.1) (dh_rank h.1) (dh_omp_tid h.1) in
    if String.eqb (dh_id h.1) "mem" then
      r ← aggregate HOST_NAME_MAX xdr_float blob ∅;
      let ms := match find_metrics tname (mg_threadmemmetricsmap s0) with
                | Some _ => mg_threadmemmetricsmap s0
                | None => map_insert tname (no_metrics uninit_allocations uninit_frees) (mg_threadmemmetricsmap s0)
                end in
      m ← memMetrics HOST_NAME_MAX blob (default (no_metrics uninit_allocations uninit_frees) (find_metrics tname ms));
      let u := updateAddrThreadCountMap r.2 tname (ag_threadaddrbufmap s) (ag_addrThreadCount s) in
      Ok (mkMG (mkAG (ag_topology s) (ag_is_finished s) (ag_data_blobs s + 1) (ag_handled_buffers s)
                  (ag_numTerminated s) (ag_threadnames s) u.1 (i32 (ag_total_data_size s + r.1))
                  (merge_counts r.2 (ag_abuffer s)) u.2)
            (set_metrics tname m.2 ms) (i32 (mg_data_blobs_size s0 + m.1)), [])
    else Ok (mkMG (counted s) (mg_threadmemmetricsmap s0) (mg_data_blobs_size s0), []).
End handlers.

(** ** The search ends and stays in the array *)
Lemma skip_entry_total buf len : forall fuel start, 0 <= start <= len -> len < Z.of_nat (length buf) ->
  (Z.to_nat (len - start) < fuel)%nat -> exists r, skip_entry fuel buf len start = Ok r /\ start <= r.
Proof.
  induction fuel as [|fuel IH]; intros start Hs Hl Hf; [lia|]. cbn [skip_entry].
  destruct (arr_get_in buf start) as (x & -> & _); [lia|]. rewrite bind_of_Ok.
  destruct (negb (x =? 0) && (start <? len)) eqn:Hc; [|by exists start].
  apply andb_true_iff in Hc as [_ Hc]. bools. destruct (IH (start + 1)) as (r & -> & Hr); [lia..|]. exists r. split; [done|lia].
Qed.

Lemma search_loop_total buf len key : len < Z.of_nat (length buf) -> forall fuel start i, 0 <= start -> 0 <= i ->
  (Z.to_nat (len - (start + i)) < fuel)%nat -> exists r, search_loop fuel buf len key start i = Ok r.
Proof.
  intros Hl. induction fuel as [|fuel IH]; intros start i Hs Hi Hf; [lia|]. cbn [search_loop].
  destruct ((i <? Z.of_nat (length key)) && (start + i <? len)) eqn:Hc; [|by eexists].
  apply andb_true_iff in Hc as [H1 H2]. bools. destruct (arr_get_in key i) as (k & -> & _); [lia|].
  destruct (arr_get_in buf (start + i)) as (x & -> & _); [lia|]. rewrite !bind_of_Ok. destruct (k =? x).
  - apply IH; lia.
  - destruct (skip_entry_total buf len (S (length buf)) (start + i)) as (r & -> & Hr); [lia..|]. rewrite bind_of_Ok. apply IH; lia.
Qed.

Lemma search_total buf len key : 0 <= len < Z.of_nat (length buf) -> exists r, search_entry buf len key = Ok r.
Proof.
  intros Hl. unfold search_entry. destruct (search_loop_total buf len key ltac:(lia) (S (Z.to_nat (len + Z.of_nat (length key)))) 0 0)
    as (r & ->); [lia..|]. by eexists.
Qed.

(** ** Storing a stack *)
Lemma store_frames_bounds frames : forall entry i st ab ae, 0 <= entry -> 0 <= i ->
  match store_frames false entry i frames st ab ae with
  | Ok r => length r.1.1 = length st /\ (frames = [] \/ entry + i + Z.of_nat (length frames) <= Z.of_nat (length st))
  | Fault => Z.of_nat (length st) < entry + i + Z.of_nat (length frames)
  | _ => False
  end.
Proof.
  induction frames as [|f fs IH]; intros entry i st ab ae He Hi; cbn [store_frames]; [split; [done|by left]|].
  cbn [andb]. destruct (decide (entry + i < Z.of_nat (length st))) as [Hlt|Hge].
  - rewrite arr_set_in by lia. rewrite bind_of_Ok. specialize (IH entry (i + 1) (<[Z.to_nat (entry + i):=f]> st)
      (if f <? ab then f else ab) (if f >? ae then f else ae) He ltac:(lia)).
    destruct (store_frames _ _ _ _ _ _ _) as [r| | |]; rewrite ?length_insert in IH; simpl length; try done; [|lia].
    destruct IH as [H1 H2]. split; [done|]. right. destruct H2 as [->|H2]; simpl; lia.
  - unfold arr_set. rewrite decide_False by lia. simpl length. cbn. lia.
Qed.

Lemma add_trace_bounds (frames : list Z) (b : trace_buffer MemEvent) : 0 <= tb_stacktraces_len b ->
  let fits := tb_stacktraces_len b + Z.of_nat (length frames) + 1 <= Z.of_nat (length (tb_stacktraces b)) in
  match add_trace false frames b with
  | Ok b' => fits /\ length (tb_stacktraces b') = length (tb_stacktraces b) /\ tb_events b' = tb_events b /\
             tb_events_len b' = tb_events_len b /\ tb_stacktraces_len b' = tb_stacktraces_len b + Z.of_nat (length frames) + 1
  | Fault => ~ fits
  | _ => False
  end.
Proof.
  intros Hl. cbv zeta. unfold add_trace. pose proof (store_frames_bounds frames (tb_stacktraces_len b) 0 (tb_stacktraces b) (tb_addr_begin b) (tb_addr_end b) Hl ltac:(lia)) as Hs.
  destruct (store_frames _ _ _ _ _ _ _) as [r| | |]; try done; [|cbn; lia]. destruct Hs as [Hlen Hin]. rewrite bind_of_Ok. unfold arr_set.
  case_decide as Hd; [|cbn; lia]. rewrite bind_of_Ok. cbn. rewrite length_insert. split_and!; try done; lia.
Qed.

(** A blob that is being filled. *)
Record filled (a : arch) (d : filling) : Prop := {
  fl_stacks : Z.of_nat (length (tb_stacktraces d.2)) = StackTraceBufferSize a;
  fl_len : 0 <= tb_stacktraces_len d.2 < StackTraceBufferSize a;
  fl_events : Z.of_nat (length (tb_events d.2)) = EventBufferSize a;
  fl_count : 0 <= tb_events_len d.2 < EventBufferSize a }.

Definition payloads (d : filling) : list MemEvent := te_data <$> take (Z.to_nat (tb_events_len d.2)) (tb_events d.2).

Lemma initialize_filled a t : filled a (initialize_data a t) /\ payloads (initialize_data a t) = [].
Proof.
  assert (0 < CBTF_BlobSizeFactor a) by (destruct a; done). split; [|done].
  split; cbn; rewrite ?length_replicate; unfold StackTraceBufferSize, EventBufferSize; lia.
Qed.

(** One event: it is stored, or its stack is new and does not fit. *)
Lemma update_data_spec a ev d : filled a d ->
  let need := tb_stacktraces_len d.2 + Z.of_nat (length (dm_stacktrace ev)) + 1 in
  exists r, search_entry (tb_stacktraces d.2) (tb_stacktraces_len d.2) (dm_stacktrace ev) = Ok r /\
  match update_data a ev d with
  | Ok (full, d') => payloads d' = payloads d ++ [ev] /\ (r = None -> need <= StackTraceBufferSize a) /\
      (full = false -> filled a d') /\ (0 < tb_events_len d'.2 <= EventBufferSize a) /\
      tb_stacktraces_len d'.2 <= need
  | Fault => r = None /\ StackTraceBufferSize a < need
  | _ => False
  end.
Proof.
  intros [F1 F2 F3 F4]. cbv zeta.
  destruct (search_total (tb_stacktraces d.2) (tb_stacktraces_len d.2) (dm_stacktrace ev)) as (r & Hr); [lia|].
  exists r. split; [done|]. unfold update_data. rewrite Hr, bind_of_Ok.
  assert (Hev : forall b entry, tb_events b = tb_events d.2 -> tb_events_len b = tb_events_len d.2 ->
    exists b2, add_event ev entry b = Ok b2 /\ tb_events_len b2 = tb_events_len d.2 + 1 /\
      length (tb_events b2) = length (tb_events d.2) /\ tb_stacktraces b2 = tb_stacktraces b /\ tb_stacktraces_len b2 = tb_stacktraces_len b /\
      forall h, payloads (h, b2) = payloads d ++ [ev]).
  { intros b entry Hb1 Hb2. unfold add_event. rewrite Hb1, Hb2, arr_set_in by lia. rewrite bind_of_Ok. eexists. split; [done|]. cbn.
    rewrite length_insert. split_and!; try done. intros h. unfold payloads. cbn. set (k := Z.to_nat (tb_events_len d.2)).
    replace (Z.to_nat (tb_events_len d.2 + 1)) with (S k) by (unfold k; lia).
    rewrite (take_S_r _ k (mkEvent ev (u16 entry))), take_insert_ge, fmap_app by (try apply list_lookup_insert_eq; lia). done. }
  destruct r as [start|].
  - rewrite bind_of_Ok. cbn [fst snd]. destruct (Hev d.2 start eq_refl eq_refl) as (b2 & -> & H1 & H2 & H3 & H4 & H5).
    rewrite bind_of_Ok. split_and!; [apply H5|done| |cbn; lia..].
    rewrite H1. destruct (_ =? _) eqn:He; [done|]. bools. intros _. split; cbn; rewrite ?H1, ?H2, ?H3, ?H4; lia.
  - pose proof (add_trace_bounds (dm_stacktrace ev) d.2 ltac:(lia)) as Hb. cbv zeta in Hb.
    destruct (add_trace _ _ _) as [b1| | |]; try done; [|rewrite F1 in Hb; cbn; split; [done|lia]].
    destruct Hb as (Hfit & Hl & He1 & He2 & Hsl). rewrite !bind_of_Ok. cbn [fst snd].
    destruct (Hev b1 (tb_stacktraces_len d.2) He1 He2) as (b2 & -> & H1 & H2 & H3 & H4 & H5).
    rewrite bind_of_Ok. split_and!; [apply H5|lia| |cbn; lia..].
    rewrite H1. destruct (_ =? _) eqn:He; [done|]. bools. intros Hge.
    assert (tb_stacktraces_len d.2 + Z.of_nat (length (dm_stacktrace ev)) + 1 < StackTraceBufferSize a) by lia.
    split; cbn; rewrite ?H1, ?H2, ?H3, ?H4, ?Hl, ?Hsl; lia.
Qed.

(** Storing an event of interest in a reduced blob. The array of stacks is written past
    its end exactly when the stack of the event is not found and needs more than
    the rest of the array: the test for a full array comes too late. *)
Theorem reduced_stack_overflow (a : arch) (ev : MemEvent) (d : filling) : filled a d ->
  (update_data a ev d = Fault <->
     search_entry (tb_stacktraces d.2) (tb_stacktraces_len d.2) (dm_stacktrace ev) = Ok None /\
     StackTraceBufferSize a < tb_stacktraces_len d.2 + Z.of_nat (length (dm_stacktrace ev)) + 1) /\
  (update_data a ev d = Fault \/ exists r, update_data a ev d = Ok r).
Proof.
  intros Hf. destruct (update_data_spec a ev d Hf) as (r & Hr & Hu). cbv zeta in Hu. rewrite Hr.
  destruct (update_data a ev d) as [[full d']| | |]; try done.
  - split; [|by right; eexists]. split; [done|]. intros [[= ->] Hlt]. destruct Hu as (_ & Hfit & _). specialize (Hfit eq_refl). lia.
  - destruct Hu as [-> Hlt]. split; [done|by left].
Qed.

(** All stacks one after the other fit. *)
Definition room (events : list MemEvent) : Z := foldr (fun e acc => Z.of_nat (length (dm_stacktrace e)) + 1 + acc) 0 events.

Lemma room_nonneg events : 0 <= room events.
Proof. unfold room. induction events; cbn [foldr]; lia. Qed.

Definition blob_payloads (rs : list reduced) : list MemEvent := concat ((fun r => te_data <$> rd_events r) <$> rs).

Lemma blob_payloads_snoc rs d : blob_payloads (rs ++ [packed d]) = blob_payloads rs ++ payloads d.
Proof. unfold blob_payloads. rewrite fmap_app, concat_app. simpl. by rewrite app_nil_r. Qed.

Definition blob_sized (a : arch) (r : reduced) : Prop := 0 < Z.of_nat (length (rd_events r)) <= EventBufferSize a.

Lemma fill_blobs_spec a t events : forall flag d out, filled a d -> (flag = true -> payloads d = []) -> Forall (blob_sized a) out ->
  match fill_blobs a t events flag d out with
  | Ok (flag', d', out') => blob_payloads out' ++ payloads d' = blob_payloads out ++ payloads d ++ events /\
      filled a d' /\ (flag' = true -> payloads d' = []) /\ Forall (blob_sized a) out'
  | Fault => StackTraceBufferSize a < tb_stacktraces_len d.2 + room events
  | _ => False
  end.
Proof.
  induction events as [|e events IH]; intros flag d out Hf Hfl Ho; cbn [fill_blobs]; [by rewrite app_nil_r|].
  destruct (update_data_spec a e d Hf) as (r & Hr & Hu). cbv zeta in Hu.
  pose proof (room_nonneg events) as Hrn. cbn [room foldr]. fold (room events).
  destruct (update_data a e d) as [[full d']| | |]; try done; [|cbn; lia].
  destruct Hu as (Hp & _ & Hfull & Hk & Hlen). rewrite bind_of_Ok.
  destruct (initialize_filled a t) as [Hi Hi0]. destruct full.
  - assert (Ho' : Forall (blob_sized a) (out ++ [packed d'])).
    { apply Forall_app. split; [done|]. constructor; [|done]. unfold blob_sized, packed. cbn. rewrite length_take.
      assert (length (payloads d') = Z.to_nat (tb_events_len d'.2) `min` length (tb_events d'.2))%nat as Hl by (unfold payloads; by rewrite length_fmap, length_take).
      rewrite Hp, length_app in Hl. simpl in Hl. lia. }
    specialize (IH true (initialize_data a t) (out ++ [packed d']) Hi (fun _ => Hi0) Ho').
    destruct (fill_blobs _ _ _ _ _ _) as [[[fl d2] out2]| | |]; try done.
    + rewrite blob_payloads_snoc, Hi0, Hp in IH. rewrite <- !app_assoc in IH. done.
    + destruct Hf as [_ [? _] _ _]. cbn in IH. lia.
  - specialize (IH false d' out (Hfull eq_refl) ltac:(done) Ho).
    destruct (fill_blobs _ _ _ _ _ _) as [[[fl d2] out2]| | |]; try done.
    + rewrite Hp in IH. rewrite <- !app_assoc in IH. done.
    + lia.
Qed.

Lemma in_order_perm {K V} (le : K -> K -> Prop) `{!RelDecision le} (l : list (K * V)) : in_order le l ≡ₚ snd <$> l.
Proof. unfold in_order. apply fmap_Permutation, merge_sort_Permutation. Qed.

(** The reduced blobs of a thread. When they can be made, they have the events of
    interest, then an event for every call path and one for every allocation that is
    not freed, each once and in this order, and no blob is empty or has more
    events than the array. They can be made if all the stacks fit into one array. *)
Theorem reduced_blobs_complete (a : arch) (t : ThreadName) (m : MemMetrics) :
  (forall rs, reduced_blobs a t m = Ok rs ->
     blob_payloads rs = thread_events m /\ Forall (blob_sized a) rs) /\
  thread_events m ≡ₚ eventsOfInterest m ++ (map_to_list (stackMemEvents m)).*2 ++ (map_to_list (addrMemEvent m)).*2 /\
  (room (thread_events m) <= StackTraceBufferSize a -> exists rs, reduced_blobs a t m = Ok rs).
Proof.
  destruct (initialize_filled a t) as [Hi Hi0].
  pose proof (fill_blobs_spec a t (thread_events m) false (initialize_data a t) [] Hi ltac:(done) (Forall_nil_2 _)) as Hs.
  unfold reduced_blobs. split_and!.
  - intros rs Hrs. destruct (fill_blobs _ _ _ _ _ _) as [[[fl d] out]| | |]; try done. rewrite bind_of_Ok in Hrs.
    injection Hrs as <-. rewrite Hi0 in Hs. destruct Hs as (Hp & Hf & Hfl & Ho). destruct Hf as [_ _ F3 F4].
    assert (Hl : length (payloads d) = Z.to_nat (tb_events_len d.2)) by (unfold payloads; rewrite length_fmap, length_take; lia).
    destruct (negb fl && (tb_events_len d.2 >? 0)) eqn:Hc.
    + apply andb_true_iff in Hc as [_ Hc]. rewrite blob_payloads_snoc. split; [done|]. apply Forall_app. split; [done|].
      constructor; [|done]. unfold blob_sized, packed. cbn. rewrite length_take. rewrite Z.gtb_ltb in Hc. bools. lia.
    + split; [|done]. assert (payloads d = []) as Hd; [|by rewrite Hd, app_nil_r in Hp].
      destruct fl; [by apply Hfl|]. cbn in Hc. rewrite Z.gtb_ltb in Hc. bools. apply nil_length_inv. lia.
  - unfold thread_events. by rewrite !in_order_perm.
  - intros Hr. destruct (fill_blobs _ _ _ _ _ _) as [[[fl d] out]| | |]; try done; [by eexists|]. cbn in Hs. lia.
Qed.

(** ** Examples *)
Definition example_event (i : Z) : MemEvent :=
  mkMemEvent 10 20 (100 + i) 0 8 8 8 8 8 1 MEM_MALLOC REASON_UNIQUE_CALLPATH [5000 + i; 4000; 0].
Definition example_thread : ThreadName := ThreadName_of_ids "n0" 42 7 0 0.

(** Two elements are left, and a stack with one caller needs four. *)
Definition nearly_full : filling :=
  let d := initialize_data arch_other example_thread in
  (d.1, mkTraceBuffer (replicate 5757 7 ++ [0; 0; 0]) 5758 (tb_events d.2) 1 0 7).

Lemma reduced_stack_overflow_witness :
  filled arch_other nearly_full /\ update_data arch_other (example_event 1) nearly_full = Fault.
Proof.
  assert (Hf : filled arch_other nearly_full).
  { split; unfold nearly_full; cbn [fst snd tb_stacktraces tb_stacktraces_len tb_events tb_events_len];
      [vm_compute; reflexivity|vm_compute; split; [discriminate|reflexivity]|vm_compute; reflexivity|vm_compute; split; [discriminate|reflexivity]]. }
  split; [exact Hf|]. apply (reduced_stack_overflow arch_other (example_event 1) nearly_full Hf).
  split; vm_compute; reflexivity.
Defined.

Lemma reduced_blobs_complete_witness :
  let m := mkMetrics ∅ ∅ [example_event 1; example_event 2] ∅ 0 0 0 0 in
  exists rs, reduced_blobs arch_other example_thread m = Ok rs /\ blob_payloads rs = [example_event 1; example_event 2].
Proof.
  intros m. destruct (reduced_blobs_complete arch_other example_thread m) as (H1 & _ & H3).
  destruct H3 as [rs Hrs]; [vm_compute; discriminate|]. exists rs. split; [exact Hrs|]. destruct (H1 rs Hrs) as [Hp _]. exact Hp.
Defined.
