(* ===== verification/FlatTopology.v ===== *)
(** The flattened topology of core/src/CBTFTopology.cpp: BuildFlattenedTopology
    builds a tree over the nodes of an allocation from the leaves up, numbers the
    processes of each host (AssignTopologyIndices) and prints the tree
    (PrintTopology). *)
From stdpp Require Import pretty.
From S2P Require Import Prelude.
#[local] Open Scope Z_scope.

Inductive TopologyNode := TNode (hostname : string) (index : Z) (children : list TopologyNode).

Definition hostname (n : TopologyNode) : string := match n with TNode h _ _ => h end.
Definition children (n : TopologyNode) : list TopologyNode := match n with TNode _ _ cs => cs end.

Section node_ind.
Context (P : TopologyNode -> Prop) (Hnode : forall h i cs, Forall P cs -> P (TNode h i cs)).
Fixpoint node_induction (n : TopologyNode) : P n :=
  match n with
  | TNode h i cs => Hnode h i cs ((fix all cs := match cs return Forall P cs with
                                   | [] => Forall_nil_2 P
                                   | c :: cs' => Forall_cons_2 P c cs' (node_induction c) (all cs')
                                   end) cs)
  end.
End node_ind.

(** indexMap[h] is 0 for a host that is not in the map. *)
Fixpoint AssignTopologyIndices (n : TopologyNode) (indexMap : gmap string Z) : TopologyNode * gmap string Z :=
  match n with
  | TNode h _ cs =>
      let index := default 0 (indexMap !! h) in
      let r := (fix assign_all cs m := match cs with
                | [] => ([], m)
                | c :: cs' => let r := AssignTopologyIndices c m in
                              let rs := assign_all cs' r.2 in (r.1 :: rs.1, rs.2)
                end) cs (<[h := u32 (index + 1)]> indexMap) in
      (TNode h index r.1, r.2)
  end.

Definition newline : string := String (Ascii.ascii_of_nat 10) "".
Definition process (n : TopologyNode) : string := match n with TNode h i _ => h +:+ ":" +:+ pretty i end.

Fixpoint PrintTopology (n : TopologyNode) : string :=
  match n with
  | TNode h i [] => ""
  | TNode h i cs =>
      process n +:+ " =>" +:+ newline
      +:+ String.concat "" (map (fun c => "    " +:+ process c +:+ newline) cs)
      +:+ "    ;" +:+ newline +:+ String.concat "" (map PrintTopology cs)
  end.

(** ostr << "nid" << setw(5) << setfill('0') << nid, as formatCrayNid() does, too *)
Definition formatCrayNid (nid : Z) : string :=
  let s := pretty nid in
  "nid" +:+ String.concat "" (replicate (5 - String.length s)%nat "0") +:+ s.

(** A level: each node is on the host of the first of its children. *)
Definition next_level (fanout : Z) (oldLevel : list TopologyNode) : outcome (list TopologyNode) :=
  let size := Z.of_nat (length oldLevel) in
  let nNodesThisLevel := u32 (size / fanout + (if size mod fanout =? 0 then 0 else 1)) in
  mapM (fun i => match drop (i * Z.to_nat fanout)%nat oldLevel with
                 | [] => Fault
                 | c :: cs => Ok (TNode (hostname c) 0 (take (Z.to_nat fanout) (c :: cs)))
                 end) (seq 0 (Z.to_nat nNodesThisLevel)).

(** while (!done); a fanout of zero divides by zero. *)
Fixpoint build_levels (fuel : nat) (fanout : Z) (level : list TopologyNode) : outcome TopologyNode :=
  match fuel with
  | O => Diverged
  | S fuel' =>
      if fanout =? 0 then Fault
      else
        currLevel ← next_level fanout level;
        match currLevel with
        | [root] => Ok root
        | _ => build_levels fuel' fanout currLevel
        end
  end.

(** The tree is made for the set [nodes], in its order. *)
Definition BuildFlattenedTopology (fanout myNid : Z) (nodes : list string) : outcome string :=
  root ← build_levels (S (length nodes)) fanout ((fun h => TNode h 0 []) <$> nodes);
  let root' := TNode (formatCrayNid myNid) 0 (children root) in
  let indexMap := foldl (fun m h => <[h := 0]> m) ∅ nodes in
  Ok (PrintTopology (AssignTopologyIndices root' indexMap).1).

(** ** The tree *)
Fixpoint leaves (n : TopologyNode) : list string :=
  match n with
  | TNode h _ [] => [h]
  | TNode _ _ cs => concat (map leaves cs)
  end.

Fixpoint processes (n : TopologyNode) : list (string * Z) :=
  match n with TNode h i cs => (h, i) :: concat (map processes cs) end.

(** All leaves are [d] levels below the node, every other node has from one to [f]
    children and is on the host of its first child. *)
Inductive perfect (f : Z) : nat -> TopologyNode -> Prop :=
| perfect_leaf h i : perfect f 0 (TNode h i [])
| perfect_node h i c cs d : h = hostname c -> Z.of_nat (length (c :: cs)) <= f -> Forall (perfect f d) (c :: cs) ->
    perfect f (S d) (TNode h i (c :: cs)).

Notation weight l := (Z.of_nat (length (concat (map processes l)))).

Lemma perfect_children f d n : perfect f (S d) n -> children n <> [] /\ Z.of_nat (length (children n)) <= f /\ Forall (perfect f d) (children n).
Proof. intros H. inversion H; subst. done. Qed.

(** ** A level *)
Lemma mapM_Ok {A B} (g : A -> outcome B) (g' : A -> B) l :
  Forall (fun x => g x = Ok (g' x)) l -> mapM g l = Ok (g' <$> l).
Proof. induction 1 as [|x l Hx _ IH]; [done|]. cbn. by rewrite Hx, bind_of_Ok, IH. Qed.

Lemma concat_chunks {A} (f n : nat) (l : list A) :
  concat ((fun i => take f (drop (i * f)%nat l)) <$> seq 0 n) = take (n * f)%nat l.
Proof.
  induction n as [|n IH]; [done|]. rewrite seq_S, fmap_app, concat_app, IH. cbn. rewrite app_nil_r.
  rewrite (Nat.add_comm f). by rewrite take_take_drop.
Qed.

Section level.
Context (f : Z) (Hf : 1 <= f).

Definition ceil_div (s : Z) : Z := s / f + (if s mod f =? 0 then 0 else 1).

Lemma ceil_div_bounds s : 0 < s -> 0 < ceil_div s <= s /\ f * (ceil_div s - 1) < s <= f * ceil_div s.
Proof.
  intros Hs. unfold ceil_div. pose proof (Z.div_mod s f ltac:(lia)). pose proof (Z.mod_pos_bound s f ltac:(lia)).
  pose proof (Z.div_pos s f ltac:(lia) ltac:(lia)). destruct (_ =? 0) eqn:E; bools; nia.
Qed.

Lemma next_level_ok d (level : list TopologyNode) :
  level <> [] -> Z.of_nat (length level) < 2 ^ 32 -> Forall (perfect f d) level ->
  exists new, next_level f level = Ok new /\ Z.of_nat (length new) = ceil_div (Z.of_nat (length level)) /\
    Forall (perfect f (S d)) new /\ concat (map leaves new) = concat (map leaves level) /\
    weight new = weight level + Z.of_nat (length new).
Proof.
  intros Hne Hlen Hp. set (s := Z.of_nat (length level)).
  assert (0 < s) by (destruct level; [done|]; subst s; cbn; lia).
  destruct (ceil_div_bounds s) as [Hc1 Hc2]; [lia|].
  set (chunk i := take (Z.to_nat f) (drop (i * Z.to_nat f)%nat level)).
  set (mk cs := TNode (default EmptyString (hostname <$> head cs)) 0 cs).
  set (n := Z.to_nat (ceil_div s)).
  assert (Hin : Forall (fun i => exists c cs, chunk i = c :: cs /\ drop (i * Z.to_nat f)%nat level = c :: skipn (S (i * Z.to_nat f))%nat level) (seq 0 n)).
  { apply Forall_forall. intros i Hi. apply elem_of_seq in Hi.
    assert (Hi2 : (i * Z.to_nat f < length level)%nat).
    { assert (Z.of_nat i * f < s) by (subst n; nia). subst s. nia. }
    destruct (lookup_lt_is_Some_2 level _ Hi2) as [c Hc].
    exists c, (take (Z.to_nat f - 1)%nat (drop (S (i * Z.to_nat f))%nat level)). subst chunk. cbn beta.
    rewrite (drop_S _ _ _ Hc). split; [|done].
    replace (Z.to_nat f) with (S (Z.to_nat f - 1))%nat at 1 by lia. done. }
  assert (Hcat : concat (chunk <$> seq 0 n) = level).
  { subst chunk. rewrite concat_chunks. apply take_ge. subst n s. nia. }
  exists ((fun i => mk (chunk i)) <$> seq 0 n).
  assert (Hnew : concat (map children ((fun i => mk (chunk i)) <$> seq 0 n)) = level).
  { transitivity (concat (chunk <$> seq 0 n)); [|exact Hcat]. unfold fmap, list_fmap.
    generalize (seq 0 n). intros l. induction l as [|i l IH]; [done|]. cbn. by rewrite IH. }
  split_and!.
  - unfold next_level. fold s. change (s / f + _) with (ceil_div s). rewrite u32_small by lia.
    apply mapM_Ok. eapply Forall_impl; [exact Hin|]. intros i (c & cs & Hc & Hd). rewrite Hd. subst mk. cbn beta.
    rewrite Hc. cbn. rewrite <- Hd. subst chunk. cbn beta in Hc. by rewrite Hc.
  - rewrite length_fmap, length_seq. subst n. lia.
  - apply Forall_fmap, Forall_forall. intros i Hi. rewrite Forall_forall in Hin. destruct (Hin i Hi) as (c & cs & Hc & _).
    cbn. subst mk. cbn beta. assert (Hl : (length (chunk i) <= Z.to_nat f)%nat) by (unfold chunk; rewrite length_take; lia).
    assert (Hpc : Forall (perfect f d) (chunk i)) by (unfold chunk; by apply Forall_take, Forall_drop).
    rewrite Hc in *. constructor; [done| |done]. lia.
  - rewrite <- Hnew. clear -Hin. induction Hin as [|i l (c & cs & Hc & _) _ IH]; [done|].
    cbn. rewrite map_app, concat_app, <- IH. f_equal. by rewrite Hc.
  - rewrite <- Hnew. clear -Hin. induction (seq 0 n) as [|i l IH]; [done|]. cbn in *.
    inversion Hin; subst. specialize (IH ltac:(done)). rewrite map_app, concat_app, !length_app in *. lia.
Qed.
End level.

(** ** All levels *)
(** [k] is the least number of levels, but at least one, that reaches [s] leaves. *)
Definition least_depth (f s : Z) (k : nat) : Prop :=
  (0 < k)%nat /\ s <= f ^ Z.of_nat k /\ ((1 < k)%nat -> f ^ Z.of_nat (k - 1) < s).

Lemma least_depth_S f s k : 2 <= f -> 0 < s -> ceil_div f s <> 1 -> least_depth f (ceil_div f s) k -> least_depth f s (S k).
Proof.
  intros Hf Hs Hne (Hk & Hle & Hlt). destruct (ceil_div_bounds f ltac:(lia) s Hs) as [Hc1 Hc2].
  split_and!; [lia| |].
  - rewrite Nat2Z.inj_succ, Z.pow_succ_r by lia. nia.
  - intros _. replace (S k - 1)%nat with k by lia.
    destruct (decide (k = 1%nat)) as [->|]; [change (Z.of_nat 1) with 1; rewrite Z.pow_1_r; nia|].
    specialize (Hlt ltac:(lia)). replace k with (S (k - 1))%nat by lia. rewrite Nat2Z.inj_succ, Z.pow_succ_r by lia. nia.
Qed.

Lemma build_levels_ok f d fuel (level : list TopologyNode) : 2 <= f ->
  level <> [] -> Z.of_nat (length level) < 2 ^ 32 -> (length level <= fuel)%nat -> Forall (perfect f d) level ->
  exists root k, build_levels fuel f level = Ok root /\ least_depth f (Z.of_nat (length level)) k /\
    perfect f (d + k) root /\ leaves root = concat (map leaves level) /\
    Z.of_nat (length (processes root)) <= weight level + 2 * Z.of_nat (length level).
Proof.
  intros Hf. revert d level. induction fuel as [|fuel IH]; intros d level Hne Hlen Hfuel Hp; [by destruct level; cbn in Hfuel; [|lia]|].
  cbn [build_levels]. destruct (f =? 0) eqn:E; bools; [lia|].
  assert (Hs : 0 < Z.of_nat (length level)) by (destruct level; [done|cbn; lia]).
  destruct (next_level_ok f ltac:(lia) d level Hne Hlen Hp) as (new & -> & Hl & Hpn & Hlv & Hw). rewrite bind_of_Ok.
  destruct (ceil_div_bounds f ltac:(lia) _ Hs) as [Hc1 Hc2]. rewrite <- Hl in *.
  assert (Hd : length new = 1%nat \/ (2 <= length new)%nat) by lia. destruct Hd as [Hd|Hd].
  - destruct new as [|root [|? ?]]; try done. exists root, 1%nat. apply Forall_cons in Hpn as [Hpn _].
    cbn in Hlv, Hw, Hl |- *. rewrite app_nil_r in *. split; [done|]. split; [|split; [by rewrite Nat.add_1_r|split; [done|lia]]].
    split; [lia|]. split; [|lia]. change (Z.of_nat 1) with 1. rewrite Z.pow_1_r. cbn in Hc2. lia.
  - assert (2 * (Z.of_nat (length new) - 1) < Z.of_nat (length level)).
    { apply Z.le_lt_trans with (f * (Z.of_nat (length new) - 1)); [apply Z.mul_le_mono_nonneg_r|]; lia. }
    destruct (IH (S d) new) as (root & k & Hb & Hk & Hpr & Hlr & Hwr); [intros ->; cbn in Hd; lia|lia| |done|].
    { lia. }
    exists root, (S k). split; [destruct new as [|? [|? ?]]; cbn in Hd; try lia; done|].
    split; [apply least_depth_S; [done..|lia|]; by rewrite <- Hl|].
    split; [by replace (d + S k)%nat with (S d + k)%nat by lia|].
    split; [congruence|]. assert (3 * Z.of_nat (length new) <= 2 * Z.of_nat (length level)) by lia. lia.
Qed.

(** ** Indices *)
Fixpoint assign_all (cs : list TopologyNode) (m : gmap string Z) : list TopologyNode * gmap string Z :=
  match cs with
  | [] => ([], m)
  | c :: cs' => let r := AssignTopologyIndices c m in let rs := assign_all cs' r.2 in (r.1 :: rs.1, rs.2)
  end.

Lemma assign_node h i cs m :
  AssignTopologyIndices (TNode h i cs) m =
  let r := assign_all cs (<[h := u32 (default 0 (m !! h) + 1)]> m) in (TNode h (default 0 (m !! h)) r.1, r.2).
Proof. reflexivity. Qed.

Definition next_index (m : gmap string Z) (h : string) : Z := default 0 (m !! h).

(** From the counters [m] to [m'], in at most [n] steps, the processes [ps] have got
    indices that were not used before. *)
Record assigned (m m' : gmap string Z) (n : Z) (ps : list (string * Z)) : Prop := {
  as_bounds : forall h, next_index m h <= next_index m' h <= next_index m h + n;
  as_range : forall h i, (h, i) ∈ ps -> next_index m h <= i < next_index m' h;
  as_nodup : NoDup ps }.

Lemma assigned_app m m1 m2 n1 n2 ps qs :
  assigned m m1 n1 ps -> assigned m1 m2 n2 qs -> assigned m m2 (n1 + n2) (ps ++ qs).
Proof.
  intros [B1 R1 N1] [B2 R2 N2]. split.
  - intros h. specialize (B1 h). specialize (B2 h). lia.
  - intros h i Hi. specialize (B1 h). specialize (B2 h).
    apply elem_of_app in Hi as [Hi|Hi]; [apply R1 in Hi|apply R2 in Hi]; lia.
  - apply NoDup_app. split_and!; [done| |done]. intros [h i] H1 H2. apply R1 in H1. apply R2 in H2. lia.
Qed.

Lemma assigned_one m h : 0 <= next_index m h < 2 ^ 32 - 1 ->
  assigned m (<[h := u32 (next_index m h + 1)]> m) 1 [(h, next_index m h)].
Proof.
  intros Hb. rewrite u32_small by lia. split.
  - intros h'. unfold next_index in *. destruct (decide (h = h')) as [->|]; [rewrite lookup_insert_eq; cbn; lia|].
    rewrite lookup_insert_ne by done. lia.
  - intros h' i Hi. apply list_elem_of_singleton in Hi as [= -> ->]. unfold next_index in *. rewrite lookup_insert_eq. cbn. lia.
  - apply NoDup_singleton.
Qed.

(** The hosts and the shape are not changed. *)
Inductive same_shape : TopologyNode -> TopologyNode -> Prop :=
| same_node h i j cs ds : Forall2 same_shape cs ds -> same_shape (TNode h i cs) (TNode h j ds).

Definition numbered (n : TopologyNode) : Prop := forall m, 
  (forall h, 0 <= next_index m h < 2 ^ 32 - Z.of_nat (length (processes n))) ->
  let r := AssignTopologyIndices n m in
  same_shape n r.1 /\ assigned m r.2 (Z.of_nat (length (processes n))) (processes r.1).

Lemma assign_all_numbered cs m : Forall numbered cs -> (forall h, 0 <= next_index m h < 2 ^ 32 - weight cs) ->
  Forall2 same_shape cs (assign_all cs m).1 /\
  assigned m (assign_all cs m).2 (weight cs) (concat (map processes (assign_all cs m).1)).
Proof.
  intros H. revert m. induction H as [|c cs Hc _ IH]; intros m Hm; cbn in *.
  - split; [done|]. split; [intros h; lia| |constructor]. intros h i Hi. by apply not_elem_of_nil in Hi.
  - rewrite length_app, Nat2Z.inj_add in *. destruct (Hc m) as [Hs Ha]; [intros h; specialize (Hm h); lia|].
    destruct (IH (AssignTopologyIndices c m).2) as [Hs2 Ha2].
    { intros h. specialize (Hm h). pose proof (as_bounds _ _ _ _ Ha h). lia. }
    split; [by constructor|]. by apply assigned_app with (AssignTopologyIndices c m).2.
Qed.

Lemma all_numbered n : numbered n.
Proof.
  induction n as [h i cs IH] using node_induction. intros m Hm. rewrite assign_node. cbn [processes length fst snd] in *.
  fold (next_index m h). rewrite Nat2Z.inj_succ in *. pose proof (Hm h) as Hh.
  pose proof (assigned_one m h ltac:(lia)) as H1.
  destruct (assign_all_numbered cs (<[h := u32 (next_index m h + 1)]> m) IH) as [Hs Ha].
  { intros h'. specialize (Hm h'). pose proof (as_bounds _ _ _ _ H1 h'). lia. }
  cbv zeta. cbn [fst snd processes]. split; [by constructor|]. rewrite <- Z.add_1_l.
  change ((h, next_index m h) :: ?l) with ([(h, next_index m h)] ++ l). by eapply assigned_app.
Qed.

Lemma same_hosts n n' : same_shape n n' -> hostname n' = hostname n /\ length (children n') = length (children n).
Proof. intros H. inversion H as [? ? ? ? ? H']; subst. apply Forall2_length in H'. done. Qed.

Lemma same_leaves n n' : same_shape n n' -> leaves n' = leaves n.
Proof.
  revert n'. induction n as [h i cs IH] using node_induction. intros n' H. inversion H as [? ? ? ? ds H']; subst.
  assert (Hm : map leaves ds = map leaves cs).
  { clear H. induction H' as [|c d cs ds Hcd _ IH2]; [done|]. apply Forall_cons in IH as [Hc IH]. cbn. rewrite (Hc d Hcd). f_equal. by apply IH2. }
  destruct H'; [done|]. cbn in *. by injection Hm as -> ->.
Qed.

Lemma same_perfect f d n n' : same_shape n n' -> perfect f d n -> perfect f d n'.
Proof.
  revert d n'. induction n as [h i cs IH] using node_induction. intros d n' H Hp. inversion H as [? ? ? ? ds H']; subst.
  inversion Hp as [|? ? c cs' d' Hh Hl Hall]; subst; [inversion H'; subst; constructor|].
  inversion H' as [|? c0 ? ds' Hc Hcs]; subst. destruct (same_hosts _ _ Hc) as [<- _]. constructor; [done| |].
  - apply Forall2_length in H'. rewrite <- H'. done.
  - clear -IH H' Hall. induction H' as [|x y xs ys Hxy _ IH2]; [done|].
    apply Forall_cons in IH as [Hx IH], Hall as [Hpx Hall]. constructor; [by apply Hx|by apply IH2].
Qed.

Lemma fresh_indices (nodes : list string) h : next_index (foldl (fun m h => <[h := 0]> m) ∅ nodes) h = 0.
Proof.
  assert (H : forall m, next_index m h = 0 -> next_index (foldl (fun m h => <[h := 0]> m) m nodes) h = 0); [|by apply H].
  induction nodes as [|h' nodes IH]; intros m Hm; [done|]. apply IH. unfold next_index in *.
  destruct (decide (h' = h)) as [->|]; [by rewrite lookup_insert_eq|by rewrite lookup_insert_ne].
Qed.

Lemma flat_level (nodes : list string) (level := (fun h => TNode h 0 []) <$> nodes) (f : Z) :
  length level = length nodes /\ Forall (perfect f 0) level /\ concat (map leaves level) = nodes /\ weight level = Z.of_nat (length nodes).
Proof.
  subst level. split_and!; [apply length_fmap|apply Forall_fmap, Forall_true; constructor|..].
  - induction nodes as [|h nodes IH]; [done|]. cbn. f_equal. exact IH.
  - induction nodes as [|h nodes IH]; [done|]. cbn in *. lia.
Qed.

(** C39: The flattened topology. With a fanout of at least two and at least one node,
    the construction ends, and what is printed is a tree with the frontend at its
    root whose leaves are the nodes in their order, all at the same, least possible
    depth; no process has more children than the fanout, each process between is on
    the host of its first child, and no two processes have the same host and
    index. *)
Theorem flattened_topology (fanout myNid : Z) (nodes : list string) :
  2 <= fanout -> nodes <> [] -> 3 * Z.of_nat (length nodes) < 2 ^ 32 ->
  exists i cs k,
    let root := TNode (formatCrayNid myNid) i cs in
    BuildFlattenedTopology fanout myNid nodes = Ok (PrintTopology root) /\
    leaves root = nodes /\ least_depth fanout (Z.of_nat (length nodes)) (S k) /\
    Forall (perfect fanout k) cs /\ Z.of_nat (length cs) <= fanout /\ NoDup (processes root).
Proof.
  intros Hf Hne Hlen. destruct (flat_level nodes fanout) as (Hl & Hp & Hlv & Hw).
  destruct (build_levels_ok fanout 0 (S (length nodes)) ((fun h => TNode h 0 []) <$> nodes) Hf)
    as (root & k & Hb & Hk & Hpr & Hlr & Hwr); [by destruct nodes|lia|lia|done|].
  rewrite Hl, Hw, Hlv in *. destruct k as [|k]; [by destruct Hk; lia|]. cbn [Nat.add] in Hpr.
  destruct (perfect_children _ _ _ Hpr) as (Hne' & Hlc & Hpc).
  set (root' := TNode (formatCrayNid myNid) 0 (children root)).
  set (m := foldl (fun (m : gmap string Z) h => <[h := 0]> m) ∅ nodes).
  assert (Hsz : length (processes root') = length (processes root)) by by destruct root.
  assert (Hlv' : leaves root' = leaves root) by by destruct root as [? ? [|? ?]].
  pose proof (all_numbered root' m) as Hnum. destruct (AssignTopologyIndices root' m) as [[h' i cs] m'] eqn:Hr.
  destruct Hnum as [Hs Ha]; cbn [fst snd] in *.
  { intros h. unfold m. rewrite fresh_indices, Hsz. lia. }
  assert (h' = formatCrayNid myNid /\ Forall2 same_shape (children root) cs) as [-> Hcs] by (unfold root' in Hs; by inversion Hs).
  exists i, cs, k. cbv zeta. split_and!.
  - unfold BuildFlattenedTopology. rewrite Hb, bind_of_Ok. fold root'. fold m. by rewrite Hr.
  - by rewrite (same_leaves _ _ Hs), Hlv', Hlr.
  - exact Hk.
  - clear -Hcs Hpc. induction Hcs as [|x y xs ys Hxy _ IH]; [done|]. apply Forall_cons in Hpc as [Hx Hpc].
    constructor; [by apply same_perfect with x|by apply IH].
  - apply Forall2_length in Hcs. lia.
  - apply Ha.
Qed.

(** With a fanout of one the number of nodes of a level never falls, and with no
    node at all no level ever has just one: the loop does not end. *)
Lemma flattened_topology_diverges (fuel : nat) (level : list TopologyNode) :
  length level <> 1%nat -> Z.of_nat (length level) < 2 ^ 32 -> build_levels fuel 1 level = Diverged.
Proof.
  revert level. induction fuel as [|fuel IH]; intros level Hne Hlen; [done|]. cbn [build_levels].
  assert (H : exists new, next_level 1 level = Ok new /\ length new = length level).
  { destruct level as [|c level]; [by exists []|]. set (l := c :: level) in *.
    unfold next_level. rewrite Z.div_1_r, Z.mod_1_r, Z.add_0_r, u32_small, Nat2Z.id by lia.
    eexists. split; [apply mapM_Ok with (g' := fun i => TNode (default EmptyString (hostname <$> l !! i)) 0 (take 1 (drop i l)))|].
    - apply Forall_forall. intros i Hi. apply elem_of_seq in Hi. destruct (lookup_lt_is_Some_2 l i) as [x Hx]; [lia|].
      rewrite Nat.mul_1_r, (drop_S _ _ _ Hx), Hx. done.
    - by rewrite length_fmap, length_seq. }
  destruct H as (new & -> & Hn). rewrite bind_of_Ok. cbn [Z.eqb].
  rewrite <- Hn in *. destruct new as [|? [|? ?]]; try by apply IH. done.
Qed.


Definition example_topology : string := "nid00100:0 =>
    a:0
    c:0
    ;
a:0 =>
    a:1
    b:0
    ;
c:0 =>
    c:1
    ;
".
Example flat3 : BuildFlattenedTopology 2 100 ["a"; "b"; "c"] = Ok example_topology.
Proof. vm_compute. reflexivity. Qed.

Lemma flattened_topology_witness :
  exists i cs k, let root := TNode "nid00100" i cs in
    BuildFlattenedTopology 2 100 ["a"; "b"; "c"] = Ok (PrintTopology root) /\
    leaves root = ["a"; "b"; "c"] /\ least_depth 2 3 (S k) /\
    Forall (perfect 2 k) cs /\ Z.of_nat (length cs) <= 2 /\ NoDup (processes root).
Proof. apply (flattened_topology 2 100 ["a"; "b"; "c"]); [lia|done|cbn; lia]. Defined.
