(* ===== verification/Hostlist.v ===== *)
(** Node lists of core/src/CBTFTopology.cpp: setNodeList expands a list of hosts as
    Slurm writes it, for example mu[1-3,7],login; createRangeCSVstring goes the
    other way for the numbers of Cray nodes. Strings are lists of characters. *)
From stdpp Require Import pretty sorting.
From S2P Require Import Prelude DLInfo FlatTopology.
#[local] Open Scope Z_scope.

Definition COMMA : Ascii.ascii := chr 44.
Definition OPEN : Ascii.ascii := chr 91.
Definition CLOSE : Ascii.ascii := chr 93.
Definition ZERO : Ascii.ascii := chr 48.

(** ** Numbers *)
Definition isdigit (c : Ascii.ascii) : bool :=
  let n := Ascii.nat_of_ascii c in ((48 <=? n) && (n <=? 57))%nat.
Definition digit (c : Ascii.ascii) : Z := Z.of_nat (Ascii.nat_of_ascii c) - 48.
Definition value (s : cstr) : Z := foldl (fun acc c => acc * 10 + digit c) 0 s.
Fixpoint digits (s : cstr) : cstr :=
  match s with [] => [] | c :: s' => if isdigit c then c :: digits s' else [] end.
Fixpoint after_digits (s : cstr) : cstr :=
  match s with [] => [] | c :: s' => if isdigit c then after_digits s' else s end.

(** strtol(s, &ptr, 10): the value, clamped, and whether ptr is not s. *)
Definition strtol (s : cstr) : Z * bool :=
  let s1 := skip_space s in
  let '(sign, s2) := match s1 with
                     | c :: s' => if bool_decide (c = DASH) then (-1, s') else if bool_decide (c = chr 43) then (1, s') else (1, s1)
                     | [] => (1, [])
                     end in
  match digits s2 with
  | [] => (0, false)
  | ds => (Z.max (- 2 ^ 63) (Z.min (2 ^ 63 - 1) (sign * value ds)), true)
  end.
Definition atoi (s : cstr) : Z := i32 (strtol s).1.

(** ostr << n *)
Definition dec (n : Z) : cstr := str (pretty n).

(** boost::lexical_cast<int>; the exception is not caught. *)
Definition lexical_cast_int (s : cstr) : outcome Z :=
  let '(sign, ds) := match s with
                     | c :: s' => if bool_decide (c = DASH) then (-1, s') else if bool_decide (c = chr 43) then (1, s') else (1, s)
                     | [] => (1, [])
                     end in
  if negb (Nat.eqb (length ds) 0) && forallb isdigit ds && bool_decide (- 2 ^ 31 <= sign * value ds < 2 ^ 31)
  then Ok (sign * value ds) else Aborted.

(** ** Ranges of numbers *)
(** boost::tokenizer with the separator ",": empty tokens are dropped. *)
Fixpoint tokens_from (cur : cstr) (s : cstr) : list cstr :=
  match s with
  | [] => match cur with [] => [] | _ => [cur] end
  | c :: s' =>
      if bool_decide (c = COMMA) then match cur with [] => tokens_from [] s' | _ => cur :: tokens_from [] s' end
      else tokens_from (cur ++ [c]) s'
  end.
Definition tokens (s : cstr) : list cstr := tokens_from [] s.

(** std::set<int64_t>::insert *)
Fixpoint set_insert (n : Z) (l : list Z) : list Z :=
  match l with
  | [] => [n]
  | x :: l' => if n <? x then n :: l else if n =? x then l else x :: set_insert n l'
  end.

Fixpoint range_loop (l : list Z) (current count : Z) (outputList : cstr) : cstr :=
  match l with
  | [] =>
      if count >=? 2 then outputList ++ [DASH] ++ dec current
      else if count >? 1 then outputList ++ [COMMA] ++ dec current
      else outputList
  | next :: l' =>
      if next =? current + 1 then range_loop l' next (count + 1) outputList
      else
        let out1 := outputList ++ (if count >=? 2 then [DASH] else [COMMA]) in
        let out2 := if count >? 1 then out1 ++ dec current ++ [COMMA] else out1 in
        range_loop l' next 1 (out2 ++ dec next)
  end.

Definition extract_ranges (nodeListNames : cstr) : outcome cstr :=
  values ← mapM lexical_cast_int (tokens nodeListNames);
  match foldl (fun set n => set_insert n set) [] values with
  | [] => Ok []
  | current :: l => Ok (range_loop l current 1 (dec current))
  end.

(** erase(0, find_first_not_of(set)) *)
Fixpoint erase_any (set : cstr) (s : cstr) : cstr :=
  match s with [] => [] | c :: s' => if bool_decide (c ∈ set) then erase_any set s' else s end.
Definition unFormatCrayNid (nidstr : cstr) : cstr := erase_any [ZERO] (erase_any (str "nid") nidstr).

Fixpoint join (l : list cstr) : cstr :=
  match l with
  | [] => []
  | [s] => s
  | s :: l' => s ++ [COMMA] ++ join l'
  end.

Definition createCSVstring (is_cray : bool) (l : list cstr) : cstr :=
  join ((fun s => if is_cray then unFormatCrayNid s else s) <$> l).
Definition createRangeCSVstring (is_cray : bool) (l : list cstr) : outcome cstr := extract_ranges (createCSVstring is_cray l).

(** ** Expanding a list of nodes *)
Definition npos : Z := 2 ^ 64 - 1.
Fixpoint find_from (i : Z) (c : Ascii.ascii) (s : cstr) : Z :=
  match s with [] => npos | x :: s' => if bool_decide (x = c) then i else find_from (i + 1) c s' end.
Definition find_first_of (c : Ascii.ascii) (s : cstr) : Z := find_from 0 c s.

(** The longest item in front of a comma or dash *)
Fixpoint min_length (s : cstr) (minLength tmp : Z) : Z :=
  match s with
  | [] => minLength
  | c :: s' =>
      if bool_decide (c = COMMA) || bool_decide (c = DASH) then min_length s' (Z.max minLength tmp) 0
      else min_length s' minLength (tmp + 1)
  end.

Definition node_name (is_cray : bool) (baseNodeName : cstr) (zeros : nat) (j : Z) : cstr :=
  if is_cray then str (formatCrayNid (i32 j)) else baseNodeName ++ replicate zeros ZERO ++ dec j.

(** Local variables of setNodeList() that outlive an item *)
Record parse_state := mkParse { p_isRange : bool; p_leadingZero : bool; p_num1 : Z; p_nodelist : list cstr }.

(** The loop over the items between brackets; [false] when it returns from the
    function. The length of num2 is undefined for 0, and numbers of more than 1023
    digits overrun numString. *)
Fixpoint decode (fuel : nat) (is_cray : bool) (baseNodeName : cstr) (minLength : Z) (s : cstr) (st : parse_state)
    : outcome (bool * parse_state) :=
  match fuel with
  | O => Diverged
  | S fuel' =>
      match s with
      | [] => Ok (true, st)
      | c :: s' =>
          if bool_decide (c = COMMA) then decode fuel' is_cray baseNodeName minLength s' st
          else if negb (isdigit c) then Ok (false, st)
          else
            let numString := digits s in
            let rest := after_digits s in
            if (1023 <? Z.of_nat (length numString)) then Fault
            else if p_isRange st then
              let leadingZero := p_leadingZero st || bool_decide (c = ZERO) in
              let num2 := u32 (atoi numString) in
              if num2 =? 0 then Fault
              else if num2 =? 2 ^ 32 - 1 then Diverged
              else
                let tLength := Z.of_nat (length (dec num2)) in
                let zeros := if leadingZero then Z.to_nat (minLength - tLength) else 0%nat in
                let names := node_name is_cray baseNodeName zeros <$> seqZ (p_num1 st) (num2 - p_num1 st + 1) in
                decode fuel' is_cray baseNodeName minLength rest
                  (mkParse false leadingZero (p_num1 st) (p_nodelist st ++ names))
            else
              let num1 := u32 (atoi numString) in
              match rest with
              | d :: rest' =>
                  if bool_decide (d = DASH) then
                    decode fuel' is_cray baseNodeName minLength rest' (mkParse true (p_leadingZero st) num1 (p_nodelist st))
                  else
                    decode fuel' is_cray baseNodeName minLength rest
                      (mkParse false (p_leadingZero st) num1
                         (p_nodelist st ++ [if is_cray then str (formatCrayNid (i32 num1)) else baseNodeName ++ numString]))
              | [] =>
                  Ok (true, mkParse false (p_leadingZero st) num1
                         (p_nodelist st ++ [if is_cray then str (formatCrayNid (i32 num1)) else baseNodeName ++ numString]))
              end
      end
  end.

(** while (true) over the elements of the list. Positions are those of std::string,
    with npos for nothing found. *)
Fixpoint node_elements (fuel : nat) (is_cray : bool) (list : cstr) (st : parse_state) : outcome parse_state :=
  match fuel with
  | O => Diverged
  | S fuel' =>
      let openBracketPos := find_first_of OPEN list in
      let closeBracketPos := find_first_of CLOSE list in
      let commaPos := find_first_of COMMA list in
      let finalPos :=
        if (openBracketPos =? npos) && (commaPos =? npos) then Z.of_nat (length list)
        else if commaPos <? openBracketPos then commaPos
        else u64 (closeBracketPos + 1) in
      let nodes := take (Z.to_nat finalPos) list in
      let openBracketPos := find_first_of OPEN nodes in
      let closeBracketPos := find_first_of CLOSE nodes in
      r ← (if (openBracketPos =? npos) && (closeBracketPos =? npos) then
             Ok (true, mkParse (p_isRange st) (p_leadingZero st) (p_num1 st) (p_nodelist st ++ [nodes]))
           else
             let from := u64 (openBracketPos + 1) in
             let nodeRange := take (Z.to_nat (closeBracketPos - from)) (drop (Z.to_nat from) nodes) in
             let baseNodeName := take (Z.to_nat openBracketPos) nodes in
             decode (S (length nodeRange)) is_cray baseNodeName (min_length nodeRange 0 0) nodeRange st);
      let (go, st') := (r : bool * parse_state) in
      if negb go then Ok st'
      else if Z.of_nat (length list) <=? finalPos then Ok st'
      else node_elements fuel' is_cray (drop (Z.to_nat finalPos + 1)%nat list) st'
  end.

(** The nodes are added to dm_nodelist. *)
Definition setNodeList (is_cray : bool) (nodeList : cstr) (dm_nodelist : list cstr) : outcome (list cstr) :=
  st ← node_elements (S (length nodeList)) is_cray nodeList (mkParse false false 0 dm_nodelist);
  Ok (p_nodelist st).

(** ** Decimal numerals *)
Notation all_digits := (Forall (fun c => isdigit c = true)).

Lemma value_snoc ds c : value (ds ++ [c]) = value ds * 10 + digit c.
Proof. unfold value. by rewrite foldl_app. Qed.

Lemma char_digit (x : N) : (x < 10)%N -> isdigit (pretty_N_char x) = true /\ digit (pretty_N_char x) = Z.of_N x /\ (pretty_N_char x = ZERO -> x = 0%N).
Proof.
  intros H. assert (x = 0 \/ x = 1 \/ x = 2 \/ x = 3 \/ x = 4 \/ x = 5 \/ x = 6 \/ x = 7 \/ x = 8 \/ x = 9)%N by lia.
  naive_solver.
Qed.

Lemma pretty_go_digits (x : N) s : exists ds, str (pretty_N_go x s) = ds ++ str s /\ all_digits ds /\ value ds = Z.of_N x /\
  (x = 0%N -> ds = []) /\ (x <> 0%N -> exists c r, ds = c :: r /\ c <> ZERO).
Proof.
  revert s. induction (N.lt_wf_0 x) as [x _ IH]. intros s. destruct (decide (x = 0%N)) as [->|Hx].
  { exists []. rewrite pretty_N_go_0. by split_and!. }
  rewrite pretty_N_go_step by lia. destruct (IH (x `div` 10)%N ltac:(apply N.div_lt; lia) (String (pretty_N_char (x `mod` 10)) s))
    as (ds & He & Hd & Hv & H0 & Hn). destruct (char_digit (x `mod` 10)%N) as (Hc1 & Hc2 & Hc3); [by apply N.mod_lt|].
  exists (ds ++ [pretty_N_char (x `mod` 10)]). rewrite He, value_snoc, Hv, Hc2, <- app_assoc. split_and!; [done| | |done|].
  - apply Forall_app. by split; [|constructor].
  - pose proof (N.div_mod x 10 ltac:(done)). lia.
  - intros _. destruct (decide (x `div` 10 = 0)%N) as [E|E].
    + rewrite (H0 E). eexists _, []. split; [done|]. intros Hz. apply Hc3 in Hz. pose proof (N.div_mod x 10 ltac:(done)). lia.
    + destruct (Hn E) as (c & r & -> & Hc). by eexists _, _.
Qed.

Lemma dec_digits n : 0 <= n -> all_digits (dec n) /\ value (dec n) = n /\ dec n <> [] /\
  (0 < n -> exists c r, dec n = c :: r /\ c <> ZERO).
Proof.
  intros Hn. destruct n as [|p|p]; [|clear Hn|lia].
  - split_and!; [by repeat constructor|done|done|lia].
  - unfold dec. change (pretty (Z.pos p)) with (pretty_N_go (N.pos p) EmptyString).
    destruct (pretty_go_digits (N.pos p) EmptyString) as (ds & -> & Hd & Hv & _ & Hn). rewrite app_nil_r.
    destruct (Hn ltac:(done)) as (c & r & -> & Hc). split_and!; [done|done|done|]. intros _. by exists c, r.
Qed.

Lemma digits_app ds rest : all_digits ds -> (forall c r, rest = c :: r -> isdigit c = false) ->
  digits (ds ++ rest) = ds /\ after_digits (ds ++ rest) = rest.
Proof.
  intros Hd Hr. induction Hd as [|c ds Hc Hd [IH1 IH2]]; cbn.
  - destruct rest as [|c r]; [done|]. cbn. by rewrite (Hr c r).
  - by rewrite Hc, IH1, IH2.
Qed.

Lemma digits_self ds : all_digits ds -> digits ds = ds.
Proof. intros H. destruct (digits_app ds [] H) as [E _]; [done|]. by rewrite app_nil_r in E. Qed.

Lemma digit_bounds c : isdigit c = true -> 0 <= digit c <= 9.
Proof. unfold isdigit, digit. intros H. apply andb_true_iff in H as [H1 H2]. apply Nat.leb_le in H1, H2. lia. Qed.

Lemma value_nonneg ds : all_digits ds -> 0 <= value ds.
Proof.
  induction ds as [|c ds IH] using rev_ind; intros H; [done|]. apply Forall_app in H as [Hd Hc]. apply Forall_cons in Hc as [Hc _].
  rewrite value_snoc. apply digit_bounds in Hc. specialize (IH Hd). lia.
Qed.

Lemma digit_not_sign c : isdigit c = true -> c <> DASH /\ c <> chr 43 /\ c <> COMMA /\ c <> OPEN /\ c <> CLOSE /\ is_space c = false.
Proof.
  unfold isdigit. intros H. apply andb_true_iff in H as [H1 H2]. apply Nat.leb_le in H1, H2.
  assert (Hs : forall k, Ascii.nat_of_ascii c <> k -> (k < 256)%nat -> c <> chr k).
  { intros k Hk Hlt ->. unfold chr in Hk. rewrite Ascii.nat_ascii_embedding in Hk; lia. }
  split_and!; [apply Hs; lia..|]. unfold is_space. apply orb_false_iff. split; [apply Nat.eqb_neq; lia|].
  apply andb_false_iff. right. apply Nat.leb_gt. lia.
Qed.

Lemma strtol_digits ds : all_digits ds -> ds <> [] -> value ds < 2 ^ 63 -> strtol ds = (value ds, true).
Proof.
  intros Hd Hne Hv. destruct ds as [|c r]; [done|]. inversion Hd; subst.
  destruct (digit_not_sign c) as (H3 & H4 & _ & _ & _ & H5); [done|]. pose proof (value_nonneg _ Hd).
  unfold strtol. cbn [skip_space]. rewrite H5, !bool_decide_false by done. rewrite (digits_self _ Hd), Z.mul_1_l. f_equal. lia.
Qed.

Lemma i32_small z : - 2 ^ 31 <= z < 2 ^ 31 -> i32 z = z.
Proof. intros H. unfold i32. rewrite Z.mod_small; lia. Qed.

Lemma atoi_digits ds : all_digits ds -> ds <> [] -> value ds < 2 ^ 31 -> atoi ds = value ds /\ u32 (atoi ds) = value ds.
Proof.
  intros Hd Hne Hv. pose proof (value_nonneg _ Hd). unfold atoi. rewrite strtol_digits by (done || lia). cbn [fst].
  rewrite i32_small by lia. split; [done|]. apply u32_small. lia.
Qed.

Lemma lexical_cast_digits ds : all_digits ds -> ds <> [] -> value ds < 2 ^ 31 -> lexical_cast_int ds = Ok (value ds).
Proof.
  intros Hd Hne Hv. destruct ds as [|c r]; [done|]. pose proof (value_nonneg _ Hd). pose proof Hd as Hd'. apply Forall_cons in Hd' as [Hc _].
  destruct (digit_not_sign c) as (H3 & H4 & _); [done|]. unfold lexical_cast_int. rewrite !bool_decide_false, Z.mul_1_l by done.
  assert (forallb isdigit (c :: r) = true) as -> by (apply forallb_forall; intros x Hx; apply list_elem_of_In in Hx; by rewrite Forall_forall in Hd; apply Hd).
  rewrite bool_decide_true by lia. done.
Qed.

(** ** The numbers of Cray nodes *)
Lemma str_app a b : str (a +:+ b) = str a ++ str b.
Proof. unfold str. induction a as [|c a IH]; [done|].
  transitivity (c :: String.list_ascii_of_string (a +:+ b)); [done|]. by rewrite IH.
Qed.

Lemma str_zeros k : str (String.concat "" (replicate k "0")) = replicate k ZERO.
Proof.
  induction k as [|k IH]; [done|]. cbn [replicate]. destruct (replicate k "0") eqn:E; [by destruct k|].
  change (String.concat "" ("0" :: s :: l)) with ("0" +:+ (EmptyString +:+ String.concat "" (s :: l))).
  rewrite !str_app, IH. done.
Qed.

Lemma erase_prefix set l c r : Forall (fun x => x ∈ set) l -> c ∉ set -> erase_any set (l ++ c :: r) = c :: r.
Proof.
  intros Hl Hc. induction Hl as [|x l Hx _ IH]; cbn; [by rewrite bool_decide_false|by rewrite bool_decide_true].
Qed.

Lemma unFormat_format n : 0 < n -> unFormatCrayNid (str (formatCrayNid n)) = dec n.
Proof.
  intros Hn. destruct (dec_digits n) as (Hd & _ & _ & Hh); [lia|]. destruct (Hh Hn) as (c & r & Hc & Hz).
  unfold unFormatCrayNid, formatCrayNid. rewrite !str_app, str_zeros. fold (dec n). rewrite Hc in *.
  set (k := (5 - _)%nat). apply Forall_cons in Hd as [Hc' _].
  assert (Hin : Forall (fun x => x ∈ str "nid") (str "nid")) by (apply Forall_forall; done).
  assert (He : erase_any (str "nid") (str "nid" ++ replicate k ZERO ++ c :: r) = replicate k ZERO ++ c :: r).
  { destruct k; apply erase_prefix; try done; apply (bool_decide_unpack _); [|done].
    rewrite bool_decide_true; [done|]. intros H. cbn in H. repeat (apply elem_of_cons in H as [->|H]; [by vm_compute in Hc'|]). by apply not_elem_of_nil in H. }
  rewrite He. apply erase_prefix; [|by intros H; apply list_elem_of_singleton in H].
  apply Forall_replicate, list_elem_of_singleton. done.
Qed.

Lemma unFormat_zero : unFormatCrayNid (str (formatCrayNid 0)) = [].
Proof. reflexivity. Qed.

Definition nonempty (s : cstr) : Prop := s <> [].
#[export] Instance nonempty_dec s : Decision (nonempty s).
Proof. unfold nonempty. destruct s; [right|left]; [by intros H|done]. Defined.

Lemma tokens_from_app cur t rest : COMMA ∉ t -> tokens_from cur (t ++ rest) = tokens_from (cur ++ t) rest.
Proof.
  revert cur. induction t as [|c t IH]; intros cur Ht; [by rewrite app_nil_r|]. apply not_elem_of_cons in Ht as [Hc Ht].
  cbn. rewrite bool_decide_false by congruence. rewrite IH by done. by rewrite <- app_assoc.
Qed.

Lemma tokens_join ts : Forall (fun t => COMMA ∉ t) ts -> tokens (join ts) = filter nonempty ts.
Proof.
  unfold tokens. induction 1 as [|t ts Ht Hts IH]; [done|]. destruct ts as [|t' ts].
  - cbn [join]. rewrite <- (app_nil_r t) at 1. rewrite tokens_from_app by done. cbn [app tokens_from]. destruct t; [done|].
    rewrite filter_cons_True by done. done.
  - change (join (t :: t' :: ts)) with (t ++ [COMMA] ++ join (t' :: ts)). rewrite tokens_from_app by done.
    cbn [app tokens_from]. rewrite bool_decide_true by done. rewrite IH.
    destruct t; [by rewrite (filter_cons_False _ [] (t' :: ts)) by (intros H; by apply H)|].
    by rewrite (filter_cons_True _ (_ :: _) (t' :: ts)).
Qed.

Lemma set_insert_spec n l : StronglySorted Z.lt l ->
  StronglySorted Z.lt (set_insert n l) /\ forall x, x ∈ set_insert n l <-> x = n \/ x ∈ l.
Proof.
  induction 1 as [|y l Hl [IH1 IH2] Hy]; cbn.
  - split; [by repeat constructor|]. intros x. rewrite list_elem_of_singleton, elem_of_nil. tauto.
  - destruct (n <? y) eqn:E1; bools; [|destruct (n =? y) eqn:E2; bools; subst].
    + split; [|intros x; by rewrite elem_of_cons]. constructor; [by constructor|]. constructor; [done|].
      eapply Forall_impl; [exact Hy|]. intros x ?. lia.
    + split; [by constructor|]. intros x. rewrite elem_of_cons. tauto.
    + split; [|intros x; rewrite !elem_of_cons, IH2; tauto]. constructor; [done|]. apply Forall_forall. intros x Hx.
      apply IH2 in Hx as [->|Hx]; [lia|]. rewrite Forall_forall in Hy. by apply Hy.
Qed.

Lemma set_of_spec ns : StronglySorted Z.lt (foldl (fun set n => set_insert n set) [] ns) /\
  forall x, x ∈ foldl (fun set n => set_insert n set) [] ns <-> x ∈ ns.
Proof.
  assert (H : forall l, StronglySorted Z.lt l -> StronglySorted Z.lt (foldl (fun set n => set_insert n set) l ns) /\
    forall x, x ∈ foldl (fun set n => set_insert n set) l ns <-> x ∈ l \/ x ∈ ns).
  { induction ns as [|n ns IH]; intros l Hl; cbn.
    - split; [done|]. intros x. rewrite elem_of_nil. tauto.
    - destruct (set_insert_spec n l Hl) as [H1 H2]. destruct (IH _ H1) as [H3 H4]. split; [done|].
      intros x. rewrite H4, H2, elem_of_cons. tauto. }
  destruct (H [] ltac:(constructor)) as [H1 H2]. split; [done|]. intros x. rewrite H2, elem_of_nil. tauto.
Qed.

(** The runs of consecutive numbers, when [cur] continues a run from [a] on *)
Fixpoint runs (a cur : Z) (l : list Z) : list (Z * Z) :=
  match l with
  | [] => [(a, cur)]
  | n :: l' => if n =? cur + 1 then runs a n l' else (a, cur) :: runs n n l'
  end.

Definition print_range (r : Z * Z) : cstr := if r.1 =? r.2 then dec r.1 else dec r.1 ++ [DASH] ++ dec r.2.

Lemma join_cons s l : l <> [] -> join (s :: l) = s ++ [COMMA] ++ join l.
Proof. by destruct l. Qed.

Lemma runs_nonempty a cur l : runs a cur l <> [].
Proof. revert a cur. induction l as [|n l IH]; intros a cur; [done|]. cbn. by destruct (_ =? _). Qed.

Lemma range_loop_runs l a cur out : a <= cur ->
  range_loop l cur (cur - a + 1) (out ++ dec a) = out ++ join (print_range <$> runs a cur l).
Proof.
  revert a cur out. induction l as [|n l IH]; intros a cur out Hle; cbn [range_loop runs].
  - cbn. unfold print_range. cbn. destruct (a =? cur) eqn:E; bools.
    + subst. replace (cur - cur + 1) with 1 by lia. done.
    + assert (cur - a + 1 >=? 2 = true) as -> by (apply Z.geb_le; lia). by rewrite <- app_assoc.
  - destruct (n =? cur + 1) eqn:E; bools.
    + replace (cur - a + 1 + 1) with (n - a + 1) by lia. apply IH. lia.
    + assert (Hr : (if cur - a + 1 >? 1 then ((out ++ dec a) ++ (if cur - a + 1 >=? 2 then [DASH] else [COMMA])) ++ dec cur ++ [COMMA]
                    else (out ++ dec a) ++ (if cur - a + 1 >=? 2 then [DASH] else [COMMA])) = out ++ print_range (a, cur) ++ [COMMA]).
      { unfold print_range. cbn [fst snd]. destruct (a =? cur) eqn:E2; bools.
        - subst. replace (cur - cur + 1) with 1 by lia. cbn. by rewrite <- app_assoc.
        - assert (cur - a + 1 >=? 2 = true) as -> by (apply Z.geb_le; lia). assert (cur - a + 1 >? 1 = true) as -> by (apply Z.gtb_lt; lia).
          by rewrite <- !app_assoc. }
      cbv zeta. rewrite Hr. replace 1 with (n - n + 1) at 1 by lia. rewrite IH by lia.
      rewrite fmap_cons, join_cons by (intros Hn; apply fmap_nil_inv in Hn; by apply runs_nonempty in Hn). by rewrite <- !app_assoc.
Qed.

(** Separate ranges in rising order *)
Definition before (r s : Z * Z) : Prop := r.2 + 1 < s.1.

Lemma runs_cover l a cur : a <= cur -> StronglySorted Z.lt (cur :: l) ->
  Forall (fun r => r.1 <= r.2) (runs a cur l) /\ Sorted before (runs a cur l) /\
  (exists b, head (runs a cur l) = Some (a, b)) /\
  forall x, Exists (fun r => r.1 <= x <= r.2) (runs a cur l) <-> a <= x <= cur \/ x ∈ l.
Proof.
  revert a cur. induction l as [|n l IH]; intros a cur Hle Hs; cbn.
  - split_and!; [by repeat constructor|by repeat constructor|by eexists|]. intros x.
    rewrite Exists_cons, Exists_nil, elem_of_nil. done.
  - inversion Hs as [|? ? Hs' Hlt]; subst. apply Forall_cons in Hlt as [Hn _]. destruct (n =? cur + 1) eqn:E; bools.
    + destruct (IH a n ltac:(lia) Hs') as (H1 & H2 & H3 & H4). split_and!; [done..|]. intros x. rewrite H4, elem_of_cons.
      split; [intros [?|?]; [destruct (decide (x = n)); [by right; left|left; lia]|by right; right]|].
      intros [?|[->|?]]; [left; lia|left; lia|by right].
    + destruct (IH n n ltac:(lia) Hs') as (H1 & H2 & (b & H3) & H4). split_and!; [by constructor| |by eexists|].
      * constructor; [done|]. destruct (runs n n l) as [|r rs]; [done|]. injection H3 as ->. constructor. unfold before. cbn. lia.
      * intros x. rewrite Exists_cons, H4, elem_of_cons. cbn. split; [intros [?|[?|?]]|intros [?|[->|?]]]; auto with lia.

Qed.

(** The node list of aprun. For Cray nodes with the given numbers, in any order and
    possibly repeated, the string made for aprun -L is the list of the separate ranges, in
    rising order, that cover just these numbers; but node 0, whose number is
    reduced to nothing, is left out. *)
Theorem aprun_node_list (ids : list Z) : Forall (fun n => 0 <= n < 2 ^ 31) ids ->
  exists rs, createRangeCSVstring true ((fun n => str (formatCrayNid n)) <$> ids) = Ok (join (print_range <$> rs)) /\
    Forall (fun r => r.1 <= r.2) rs /\ Sorted before rs /\
    forall n, Exists (fun r => r.1 <= n <= r.2) rs <-> n ∈ ids /\ n <> 0.
Proof.
  intros Hids. set (ts := (fun s => unFormatCrayNid s) <$> ((fun n => str (formatCrayNid n)) <$> ids)).
  assert (Hts : Forall (fun t => COMMA ∉ t) ts /\ mapM lexical_cast_int (filter nonempty ts) = Ok (filter (fun n => n <> 0) ids)).
  { subst ts. induction Hids as [|n ids Hn Hids [IH1 IH2]]; [done|]. rewrite !fmap_cons.
    destruct (decide (n = 0)) as [->|Hnz].
    - rewrite unFormat_zero. split; [constructor; [apply not_elem_of_nil|done]|]. rewrite !filter_cons_False by (intros H; by apply H). done.
    - rewrite unFormat_format by lia. destruct (dec_digits n) as (Hd & Hv & Hne & _); [lia|]. split.
      + constructor; [|done]. intros Hin. rewrite Forall_forall in Hd. specialize (Hd _ Hin). by vm_compute in Hd.
      + rewrite !filter_cons_True by done. cbn. rewrite lexical_cast_digits by (done || lia). by rewrite bind_of_Ok, IH2, Hv. }
  destruct Hts as [Hc Hm]. unfold createRangeCSVstring, createCSVstring, extract_ranges. fold ts. rewrite (tokens_join _ Hc), Hm, bind_of_Ok.
  destruct (set_of_spec (filter (fun n => n <> 0) ids)) as [Hs He].
  destruct (foldl _ [] _) as [|cur l].
  - exists []. split_and!; [done|constructor|constructor|]. intros n. rewrite Exists_nil. specialize (He n). rewrite list_elem_of_filter, elem_of_nil in He. tauto.
  - exists (runs cur cur l). pose proof (range_loop_runs l cur cur [] ltac:(lia)) as Hl.
    replace (cur - cur + 1) with 1 in Hl by lia. rewrite !app_nil_l in Hl. rewrite Hl.
    destruct (runs_cover l cur cur ltac:(lia) Hs) as (H1 & H2 & _ & H4). split_and!; [done..|].
    intros n. rewrite H4. specialize (He n). rewrite list_elem_of_filter, elem_of_cons in He. rewrite <- (and_comm (n <> 0)), <- He.
    split; intros [?|?]; auto; left; lia.
Qed.

Lemma aprun_node_list_witness :
  exists rs, createRangeCSVstring true ((fun n => str (formatCrayNid n)) <$> [7; 3; 0; 4]) = Ok (join (print_range <$> rs)) /\
    Forall (fun r => r.1 <= r.2) rs /\ Sorted before rs /\
    forall n, Exists (fun r => r.1 <= n <= r.2) rs <-> n ∈ [7; 3; 0; 4] /\ n <> 0.
Proof. apply (aprun_node_list [7; 3; 0; 4]). repeat constructor; lia. Defined.

(** ** Lists of hosts as Slurm writes them *)
Inductive item := One (ds : cstr) | Range (lo hi : Z).
Inductive element := Name (s : cstr) | Group (base : cstr) (items : list item).

Definition print_item (i : item) : cstr :=
  match i with One ds => ds | Range lo hi => dec lo ++ [DASH] ++ dec hi end.
Definition print_element (e : element) : cstr :=
  match e with Name s => s | Group base items => base ++ [OPEN] ++ join (print_item <$> items) ++ [CLOSE] end.

Definition item_nodes (is_cray : bool) (base : cstr) (i : item) : list cstr :=
  match i with
  | One ds => [if is_cray then str (formatCrayNid (value ds)) else base ++ ds]
  | Range lo hi => (fun j => if is_cray then str (formatCrayNid j) else base ++ dec j) <$> seqZ lo (hi - lo + 1)
  end.
Definition element_nodes (is_cray : bool) (e : element) : list cstr :=
  match e with Name s => [s] | Group base items => concat (item_nodes is_cray base <$> items) end.

Definition item_ok (i : item) : Prop :=
  match i with
  | One ds => all_digits ds /\ ds <> [] /\ (length ds <= 1023)%nat /\ value ds < 2 ^ 31
  | Range lo hi => 0 <= lo < 2 ^ 31 /\ 0 < hi < 2 ^ 31
  end.
Definition plain (s : cstr) : Prop := OPEN ∉ s /\ CLOSE ∉ s /\ COMMA ∉ s.
Definition element_ok (e : element) : Prop :=
  match e with Name s => plain s | Group base items => plain base /\ Forall item_ok items end.

Lemma value_app ds es : value (ds ++ es) = value ds * 10 ^ Z.of_nat (length es) + value es.
Proof.
  induction es as [|c es IH] using rev_ind; [rewrite app_nil_r; cbn; lia|].
  rewrite app_assoc, !value_snoc, length_app, IH, Nat2Z.inj_add. cbn [length]. rewrite Z.pow_add_r by lia. lia.
Qed.

Lemma dec_short n : 0 <= n < 2 ^ 31 -> (length (dec n) <= 10)%nat.
Proof.
  intros Hn. destruct (decide (n = 0)) as [->|Hz]; [cbn; lia|].
  destruct (dec_digits n) as (Hd & Hv & _ & Hh); [lia|]. destruct (Hh ltac:(lia)) as (c & r & E & Hc). rewrite E in *.
  apply Forall_cons in Hd as [Hc' Hr]. change (c :: r) with ([c] ++ r) in Hv. rewrite value_app in Hv. pose proof (value_nonneg _ Hr).
  assert (1 <= digit c).
  { pose proof (digit_bounds _ Hc'). assert (digit c <> 0); [|lia]. unfold digit. intros Hz0. apply Hc.
    rewrite <- (Ascii.ascii_nat_embedding c). unfold ZERO, chr. f_equal. lia. }
  change (value [c]) with (0 * 10 + digit c) in Hv. cbn [length].
  destruct (decide (length r <= 9)%nat); [lia|].
  assert (10 ^ 10 <= 10 ^ Z.of_nat (length r)) by (apply Z.pow_le_mono_r; lia). nia.
Qed.

(** ** Items *)
Definition item_end (s : cstr) : Prop := forall c r, s = c :: r -> c = COMMA.

Lemma comma_not_digit : isdigit COMMA = false.
Proof. reflexivity. Qed.

Lemma item_end_digits s : item_end s -> forall c r, s = c :: r -> isdigit c = false.
Proof. intros H c r E. by rewrite (H c r E). Qed.

Section decode.
Context (is_cray : bool) (base : cstr) (minLength : Z).
Notation decode f := (decode f is_cray base minLength).

(** The decoder is ready for the next item. *)
Definition at_item (num1 : Z) (l : list cstr) : parse_state := mkParse false false num1 l.

Lemma decode_number fuel ds tail isRange num l : all_digits ds -> ds <> [] -> (length ds <= 1023)%nat ->
  (forall c r, tail = c :: r -> isdigit c = false) ->
  decode (S fuel) (ds ++ tail) (mkParse isRange false num l) =
  if isRange then
    let num2 := u32 (atoi ds) in
    if num2 =? 0 then Fault else if num2 =? 2 ^ 32 - 1 then Diverged
    else
      let leadingZero := match ds with c :: _ => bool_decide (c = ZERO) | [] => false end in
      let zeros := if leadingZero then Z.to_nat (minLength - Z.of_nat (length (dec num2))) else 0%nat in
      decode fuel tail (mkParse false leadingZero num (l ++ (node_name is_cray base zeros <$> seqZ num (num2 - num + 1))))
  else
    let num1 := u32 (atoi ds) in
    let l' := l ++ [if is_cray then str (formatCrayNid (i32 num1)) else base ++ ds] in
    match tail with
    | [] => Ok (true, at_item num1 l')
    | d :: rest => if bool_decide (d = DASH) then decode fuel rest (mkParse true false num1 l) else decode fuel tail (at_item num1 l')
    end.
Proof.
  intros Hd Hne Hlen Ht. destruct ds as [|c r]; [done|]. pose proof Hd as Hd'. apply Forall_cons in Hd' as [Hc _].
  destruct (digit_not_sign c Hc) as (_ & _ & Hcomma & _). destruct (digits_app (c :: r) tail Hd Ht) as [E1 E2].
  cbn [app] in *. cbn [Hostlist.decode]. rewrite bool_decide_false by done. rewrite Hc. cbn [negb]. rewrite E1, E2.
  rewrite (proj2 (Z.ltb_ge _ _)) by lia. done.
Qed.

Lemma decode_item fuel i tail num l : item_ok i -> item_end tail -> (length (print_item i ++ tail) <= fuel)%nat ->
  exists fuel' num', (length tail <= fuel')%nat /\
    decode (S fuel) (print_item i ++ tail) (at_item num l) =
    decode (S fuel') tail (at_item num' (l ++ item_nodes is_cray base i)).
Proof.
  intros Hi Ht Hf. pose proof (item_end_digits _ Ht) as Htd. destruct i as [ds|lo hi]; cbn [print_item item_nodes item_ok] in *.
  - destruct Hi as (Hd & Hne & Hlen & Hv). destruct (atoi_digits ds Hd Hne Hv) as [Ha Ha']. pose proof (value_nonneg _ Hd).
    unfold at_item at 1. rewrite decode_number by done. cbv zeta. rewrite Ha', i32_small by lia.
    rewrite length_app in Hf. assert (0 < length ds)%nat by (by destruct ds; cbn; [|lia]).
    destruct tail as [|d rest].
    + exists fuel, (value ds). split; [cbn; lia|]. done.
    + rewrite (Ht d rest eq_refl) in *. rewrite bool_decide_false by done.
      destruct fuel as [|fuel]; [lia|]. exists fuel, (value ds). split; [lia|done].
  - destruct Hi as (Hlo & Hhi). destruct (dec_digits lo) as (Hd1 & Hv1 & Hn1 & _); [lia|].
    destruct (dec_digits hi) as (Hd2 & Hv2 & Hn2 & Hh2); [lia|]. destruct (Hh2 ltac:(lia)) as (c & r & Ec & Hc).
    pose proof (dec_short lo ltac:(lia)). pose proof (dec_short hi ltac:(lia)).
    destruct (atoi_digits (dec lo) Hd1 Hn1) as [_ A1]; [lia|]. destruct (atoi_digits (dec hi) Hd2 Hn2) as [_ A2]; [lia|].
    rewrite <- !app_assoc, !length_app in *. cbn [app length] in *.
    assert (0 < length (dec lo))%nat by (destruct (dec lo); cbn; [done|lia]). assert (0 < length (dec hi))%nat by (rewrite Ec; cbn; lia).
    unfold at_item at 1. rewrite decode_number by (done || lia || (by intros ? ? [= <- _])). cbv zeta. rewrite bool_decide_true by done.
    destruct fuel as [|fuel]; [lia|]. rewrite decode_number by (done || lia). cbv zeta. rewrite A1, A2, Hv1, Hv2.
    rewrite (proj2 (Z.eqb_neq hi 0)), (proj2 (Z.eqb_neq hi (2 ^ 32 - 1))) by lia.
    assert (match dec hi with c :: _ => bool_decide (c = ZERO) | [] => false end = false) as -> by (rewrite Ec; by apply bool_decide_false).
    destruct fuel as [|fuel]; [lia|]. exists fuel, lo. split; [lia|]. unfold at_item.
    enough (node_name is_cray base 0 <$> seqZ lo (hi - lo + 1) = item_nodes is_cray base (Range lo hi)) as -> by done.
    apply list_fmap_ext. intros k j Hj. apply lookup_seqZ in Hj as [-> Hk]. unfold node_name.
    destruct is_cray; [|done]. rewrite i32_small by lia. done.
Qed.

Lemma decode_items items : forall fuel num l, Forall item_ok items -> (length (join (print_item <$> items)) <= fuel)%nat ->
  exists num', decode (S fuel) (join (print_item <$> items)) (at_item num l) =
    Ok (true, at_item num' (l ++ concat (item_nodes is_cray base <$> items))).
Proof.
  induction items as [|i items IH]; intros fuel num l Hok Hf.
  - exists num. cbn. by rewrite app_nil_r.
  - apply Forall_cons in Hok as [Hi Hok]. destruct items as [|i' items].
    + cbn [fmap list_fmap join] in *. rewrite <- (app_nil_r (print_item i)) in Hf |- *.
      destruct (decode_item fuel i [] num l Hi) as (f' & num' & _ & ->); [done|done|].
      exists num'. cbn. by rewrite app_nil_r.
    + rewrite !fmap_cons in *. rewrite join_cons in Hf |- * by done. cbn [app] in *.
      destruct (decode_item fuel i (COMMA :: join (print_item i' :: (print_item <$> items))) num l Hi) as (f' & num' & Hf' & ->);
        [by intros c r [= <- _]|done|].
      cbn [length] in Hf'. destruct f' as [|f']; [lia|].
      destruct (IH f' num' (l ++ item_nodes is_cray base i) Hok) as (num2 & E); [lia|].
      exists num2. cbn [Hostlist.decode]. rewrite bool_decide_true by done. cbn [Hostlist.decode] in E. rewrite E.
      cbn [concat]. by rewrite <- app_assoc.
Qed.
End decode.

(** ** Elements *)
Lemma find_from_app i c l r : c ∉ l -> find_from i c (l ++ r) = find_from (i + Z.of_nat (length l)) c r.
Proof.
  revert i. induction l as [|x l IH]; intros i Hc; [cbn; by rewrite Z.add_0_r|]. apply not_elem_of_cons in Hc as [Hx Hc].
  cbn [find_from app]. rewrite bool_decide_false by congruence. rewrite IH by done. f_equal. cbn. lia.
Qed.

Lemma find_from_ge i c l : i + Z.of_nat (length l) <= npos -> i <= find_from i c l.
Proof.
  revert i. induction l as [|x l IH]; intros i Hi; cbn in *; [lia|]. case_bool_decide; [lia|]. specialize (IH (i + 1)). lia.
Qed.

Lemma find_first_absent c l : c ∉ l -> find_first_of c l = npos.
Proof. intros H. unfold find_first_of. rewrite <- (app_nil_r l), find_from_app; done. Qed.

Lemma find_first_at c l r : c ∉ l -> find_first_of c (l ++ c :: r) = Z.of_nat (length l).
Proof. intros H. unfold find_first_of. rewrite find_from_app by done. cbn. by rewrite bool_decide_true. Qed.

Lemma find_first_ge c l r : c ∉ l -> Z.of_nat (length (l ++ r)) <= npos -> Z.of_nat (length l) <= find_first_of c (l ++ r).
Proof. intros H Hl. unfold find_first_of. rewrite find_from_app by done. rewrite length_app in Hl. apply find_from_ge. lia. Qed.

Lemma items_text items : Forall item_ok items -> Forall (fun c => isdigit c = true \/ c = DASH \/ c = COMMA) (join (print_item <$> items)).
Proof.
  assert (Hds : forall ds, all_digits ds -> Forall (fun c => isdigit c = true \/ c = DASH \/ c = COMMA) ds).
  { intros ds H. eapply Forall_impl; [exact H|]. auto. }
  induction 1 as [|i items Hi Hok IH]; [constructor|].
  assert (Hp : Forall (fun c => isdigit c = true \/ c = DASH \/ c = COMMA) (print_item i)).
  { destruct i as [ds|lo hi]; cbn in *; [apply Hds, Hi|]. apply Forall_app. split; [apply Hds, dec_digits; lia|].
    constructor; [auto|]. apply Hds, dec_digits. lia. }
  rewrite fmap_cons. destruct items as [|i' items]; [done|]. rewrite fmap_cons, join_cons in * by done.
  apply Forall_app. split; [done|]. constructor; [auto|done].
Qed.

Lemma items_plain items : Forall item_ok items -> OPEN ∉ join (print_item <$> items) /\ CLOSE ∉ join (print_item <$> items).
Proof.
  intros H. apply items_text in H. rewrite Forall_forall in H. split; intros Hin; apply H in Hin as [?|[?|?]]; done.
Qed.

Lemma take_length_app {A} (l k : list A) : take (length l) (l ++ k) = l.
Proof. rewrite take_app_length. done. Qed.

(** What follows an element of length [n] *)
Definition continue (fuel : nat) (is_cray : bool) (tail : cstr) (st : parse_state) : outcome parse_state :=
  match tail with [] => Ok st | _ :: rest => node_elements fuel is_cray rest st end.

Lemma continue_after fuel is_cray e tail st :
  (if Z.of_nat (length (e ++ tail)) <=? Z.of_nat (length e) then Ok st
   else node_elements fuel is_cray (drop (length e + 1)%nat (e ++ tail)) st) = continue fuel is_cray tail st.
Proof.
  rewrite length_app. destruct tail as [|d rest]; cbn [length].
  - rewrite (proj2 (Z.leb_le _ _)) by lia. done.
  - rewrite (proj2 (Z.leb_gt _ _)) by lia. unfold continue. f_equal. by rewrite drop_app_add.
Qed.

Lemma node_single fuel is_cray s tail st : plain s -> item_end tail -> Z.of_nat (length (s ++ tail)) < npos ->
  node_elements (S fuel) is_cray (s ++ tail) st =
  continue fuel is_cray tail (mkParse (p_isRange st) (p_leadingZero st) (p_num1 st) (p_nodelist st ++ [s])).
Proof.
  intros (H1 & H2 & H3) Ht Hlen. cbn [node_elements]. cbv zeta. set (finalPos := if (_ : bool) then _ else _).
  assert (finalPos = Z.of_nat (length s)) as ->.
  { subst finalPos. destruct tail as [|d rest].
    - rewrite app_nil_r in *. by rewrite !find_first_absent.
    - rewrite (Ht d rest eq_refl) in *. rewrite (find_first_at COMMA) by done.
      rewrite (proj2 (Z.eqb_neq (Z.of_nat (length s)) npos)), andb_false_r by (rewrite length_app in Hlen; cbn in Hlen; lia).
      rewrite (proj2 (Z.ltb_lt _ _)); [done|].
      rewrite cons_middle, app_assoc. rewrite cons_middle, app_assoc in Hlen.
      assert (Ho : OPEN ∉ s ++ [COMMA]) by (intros H; apply elem_of_app in H as [?|H]; [done|by apply list_elem_of_singleton in H]).
      pose proof (find_first_ge OPEN (s ++ [COMMA]) rest Ho ltac:(lia)). rewrite length_app in *. cbn in *. lia. }
  rewrite Nat2Z.id, take_length_app, !find_first_absent by done. rewrite Z.eqb_refl. cbn [andb].
  rewrite bind_of_Ok. cbn [negb]. apply continue_after.
Qed.

Lemma node_group fuel is_cray b body tail st st' : plain b -> OPEN ∉ body -> CLOSE ∉ body ->
  Z.of_nat (length ((b ++ [OPEN] ++ body ++ [CLOSE]) ++ tail)) < npos ->
  decode (S (length body)) is_cray b (min_length body 0 0) body st = Ok (true, st') ->
  node_elements (S fuel) is_cray ((b ++ [OPEN] ++ body ++ [CLOSE]) ++ tail) st = continue fuel is_cray tail st'.
Proof.
  intros (H1 & H2 & H3) H4 H5 Hlen E. set (text := (b ++ [OPEN] ++ body ++ [CLOSE]) ++ tail) in *.
  assert (Hb : text = b ++ OPEN :: body ++ CLOSE :: tail) by (subst text; by rewrite <- !app_assoc).
  assert (Hop : find_first_of OPEN text = Z.of_nat (length b)) by (rewrite Hb; by apply find_first_at).
  assert (Hcl : forall t, find_first_of CLOSE (b ++ OPEN :: body ++ CLOSE :: t) = Z.of_nat (length b) + 1 + Z.of_nat (length body)).
  { intros t. rewrite cons_middle, !app_assoc, find_first_at; [rewrite !length_app; cbn; lia|].
    intros H. rewrite !elem_of_app, list_elem_of_singleton in H. by destruct H as [[?|?]|?]. }
  assert (Hclt : find_first_of CLOSE text = Z.of_nat (length b) + 1 + Z.of_nat (length body)) by (rewrite Hb; apply Hcl).
  assert (Hco : Z.of_nat (length b) <= find_first_of COMMA text).
  { rewrite Hb. apply find_first_ge; [done|]. rewrite <- Hb. lia. }
  assert (Hpe : Z.of_nat (length (b ++ [OPEN] ++ body ++ [CLOSE])) = Z.of_nat (length b) + 2 + Z.of_nat (length body)).
  { rewrite !length_app. cbn. lia. }
  assert (Hl : Z.of_nat (length text) = Z.of_nat (length b) + 2 + Z.of_nat (length body) + Z.of_nat (length tail)).
  { subst text. rewrite length_app. lia. }
  assert (Hnp : Z.of_nat (length b) =? npos = false) by (apply Z.eqb_neq; lia). unfold npos in Hlen.
  cbn [node_elements]. cbv zeta. rewrite Hop, Hnp. cbn [andb].
  rewrite (proj2 (Z.ltb_ge _ _)) by done. rewrite Hclt, (u64_small (_ + 1)) by lia.
  replace (Z.of_nat (length b) + 1 + Z.of_nat (length body) + 1) with (Z.of_nat (length (b ++ [OPEN] ++ body ++ [CLOSE]))) by lia.
  rewrite Nat2Z.id.
  assert (take (length (b ++ [OPEN] ++ body ++ [CLOSE])) text = b ++ OPEN :: body ++ [CLOSE]) as -> by apply take_length_app.
  rewrite (find_first_at OPEN), Hcl, Hnp by done. cbn [andb]. rewrite (u64_small (_ + 1)) by lia.
  assert (drop (Z.to_nat (Z.of_nat (length b) + 1)) (b ++ OPEN :: body ++ [CLOSE]) = body ++ [CLOSE]) as ->.
  { rewrite cons_middle, app_assoc. rewrite drop_app_length'; [done|]. rewrite length_app. cbn. lia. }
  replace (Z.of_nat (length b) + 1 + Z.of_nat (length body) - (Z.of_nat (length b) + 1)) with (Z.of_nat (length body)) by lia.
  rewrite !Nat2Z.id, !take_length_app, E, bind_of_Ok. cbn [negb]. apply continue_after.
Qed.

(** An element is at the end of the list, or followed by a comma. *)
Lemma node_element fuel is_cray e tail num l : element_ok e -> item_end tail ->
  Z.of_nat (length (print_element e ++ tail)) < npos ->
  exists num', node_elements (S fuel) is_cray (print_element e ++ tail) (at_item num l) =
    continue fuel is_cray tail (at_item num' (l ++ element_nodes is_cray e)).
Proof.
  intros He Ht Hlen. destruct e as [s|b items]; cbn [print_element element_nodes element_ok] in *.
  - exists num. by apply node_single.
  - destruct He as (Hb & Hok). destruct (items_plain _ Hok) as [H4 H5].
    set (body := join (print_item <$> items)) in *.
    destruct (decode_items is_cray b (min_length body 0 0) items (length body) num l Hok ltac:(done)) as (num' & E).
    exists num'. by apply node_group.
Qed.

Lemma node_elements_expand is_cray es : forall fuel num l, es <> [] -> Forall element_ok es ->
  Z.of_nat (length (join (print_element <$> es))) < npos -> (length es <= fuel)%nat ->
  exists num', node_elements fuel is_cray (join (print_element <$> es)) (at_item num l) =
    Ok (at_item num' (l ++ concat (element_nodes is_cray <$> es))).
Proof.
  induction es as [|e es IH]; intros fuel num l Hne Hok Hlen Hf; [done|]. apply Forall_cons in Hok as [He Hok].
  destruct fuel as [|fuel]; [cbn in Hf; lia|]. destruct es as [|e' es].
  - cbn [fmap list_fmap join concat] in *. rewrite (app_nil_r (element_nodes is_cray e)).
    rewrite <- (app_nil_r (print_element e)) in Hlen |- *.
    destruct (node_element fuel is_cray e [] num l He ltac:(done) Hlen) as (num' & ->). by exists num'.
  - rewrite fmap_cons in Hlen |- *. rewrite join_cons in Hlen |- * by done.
    destruct (node_element fuel is_cray e ([COMMA] ++ join (print_element <$> e' :: es)) num l He) as (num' & ->); [by intros c r [= <- _]|done|].
    cbn [continue app]. destruct (IH fuel num' (l ++ element_nodes is_cray e)) as (num2 & ->); [done|done| |cbn in *; lia|].
    + rewrite !length_app in Hlen. lia.
    + exists num2. rewrite (fmap_cons (element_nodes is_cray) e). cbn [concat]. by rewrite <- app_assoc.
Qed.

Lemma elements_length es : (length es <= S (length (join (print_element <$> es))))%nat.
Proof.
  induction es as [|e es IH]; [cbn; lia|]. destruct es as [|e' es]; [cbn; lia|].
  rewrite fmap_cons, join_cons by done. rewrite !length_app. cbn [length] in *. lia.
Qed.

(** C32: Node lists. For a list of single names and names with numbers and ranges of numbers in
    brackets, whose ranges have positive ends without leading zeros, setNodeList adds just
    the nodes of the list, in its order: on a Cray each number becomes a nid name,
    elsewhere it is appended to the name. Slurm also writes ranges with leading zeros; those of their
    numbers that have fewer digits than the upper end get the names of other nodes (padded_range_names). *)
Theorem node_list_expands (is_cray : bool) (es : list element) (dm_nodelist : list cstr) :
  es <> [] -> Forall element_ok es -> Z.of_nat (length (join (print_element <$> es))) < npos ->
  setNodeList is_cray (join (print_element <$> es)) dm_nodelist = Ok (dm_nodelist ++ concat (element_nodes is_cray <$> es)).
Proof.
  intros Hne Hok Hlen. unfold setNodeList. pose proof (elements_length es).
  destruct (node_elements_expand is_cray es (S (length (join (print_element <$> es)))) 0 dm_nodelist Hne Hok Hlen ltac:(lia)) as (num & E).
  unfold at_item at 1 in E. by rewrite E.
Qed.

(** ** Ranges with leading zeros *)
Definition pad (w : nat) (n : Z) : cstr := replicate (w - length (dec n))%nat ZERO ++ dec n.

Lemma pad_digits w n : 0 <= n -> all_digits (pad w n) /\ value (pad w n) = n /\ pad w n <> [].
Proof.
  intros Hn. destruct (dec_digits n Hn) as (Hd & Hv & Hne & _). unfold pad. split_and!.
  - apply Forall_app. split; [|done]. by apply Forall_replicate.
  - rewrite value_app, Hv. assert (Hz : forall k, value (replicate k ZERO) = 0); [|rewrite Hz; lia].
    intros k. induction k as [|k IH]; [done|]. rewrite replicate_S_end, value_snoc, IH. done.
  - intros H. by apply app_nil in H as [_ ?].
Qed.

Lemma pad_length w n : (length (dec n) <= w)%nat -> length (pad w n) = w.
Proof. intros H. unfold pad. rewrite length_app, length_replicate. lia. Qed.

Lemma min_length_digits ds r m t : all_digits ds -> min_length (ds ++ r) m t = min_length r m (t + Z.of_nat (length ds)).
Proof.
  intros H. revert t. induction H as [|c ds Hc _ IH]; intros t; [cbn; by rewrite Z.add_0_r|].
  destruct (digit_not_sign c Hc) as (H1 & _ & H2 & _). cbn [app min_length length]. rewrite !bool_decide_false by done. cbn [orb].
  rewrite IH. f_equal. lia.
Qed.

(** A range whose ends are padded to [w] digits: every number gets the zeros that the
    upper end needs, so that a number with fewer digits than the upper end has the
    name of another node. *)
Theorem padded_range_names (base : cstr) (w : nat) (lo hi : Z) : plain base -> 0 <= lo <= hi -> 0 < hi < 2 ^ 31 ->
  (length (dec lo) <= w)%nat -> (length (dec hi) <= w <= 1023)%nat -> Z.of_nat (length base) < 2 ^ 32 ->
  let name j := base ++ replicate (w - length (dec hi))%nat ZERO ++ dec j in
  setNodeList false (base ++ [OPEN] ++ (pad w lo ++ [DASH] ++ pad w hi) ++ [CLOSE]) [] = Ok (name <$> seqZ lo (hi - lo + 1)) /\
  forall j, (length (dec j) <= w)%nat -> (name j = base ++ pad w j <-> length (dec j) = length (dec hi)).
Proof.
  intros Hb Hlo Hhi Hwl Hwh Hlen name. split.
  - destruct (pad_digits w lo) as (Hd1 & Hv1 & Hn1); [lia|]. destruct (pad_digits w hi) as (Hd2 & Hv2 & Hn2); [lia|].
    pose proof (pad_length w lo Hwl) as L1. pose proof (pad_length w hi ltac:(lia)) as L2.
    destruct (atoi_digits (pad w lo) Hd1 Hn1) as [_ A1]; [lia|]. destruct (atoi_digits (pad w hi) Hd2 Hn2) as [_ A2]; [lia|].
    set (body := pad w lo ++ [DASH] ++ pad w hi).
    assert (Hbody : Forall (fun c => isdigit c = true \/ c = DASH) body).
    { unfold body. rewrite !Forall_app. split_and!; [|by constructor; [right|]|]; (eapply Forall_impl; [done|auto]). }
    rewrite Forall_forall in Hbody.
    assert (Hm : min_length body 0 0 = Z.of_nat w).
    { unfold body. rewrite min_length_digits by done. cbn [app min_length]. rewrite (bool_decide_true (DASH = DASH)), orb_true_r by done.
      rewrite <- (app_nil_r (pad w hi)), min_length_digits by done. cbn [min_length]. lia. }
    assert (Hz : exists lz : bool, match pad w hi with c :: _ => bool_decide (c = ZERO) | [] => false end = lz /\
      (if lz then Z.to_nat (Z.of_nat w - Z.of_nat (length (dec hi))) else 0%nat) = (w - length (dec hi))%nat).
    { unfold pad. destruct (w - length (dec hi))%nat as [|k] eqn:Ek; cbn [replicate app].
      - exists false. split; [|done]. destruct (dec_digits hi) as (_ & _ & _ & Hh); [lia|].
        destruct (Hh ltac:(lia)) as (c & r & -> & Hc). by apply bool_decide_false.
      - exists true. split; [by apply bool_decide_true|lia]. }
    destruct Hz as (lz & Hlz & Hz).
    assert (E : decode (S (length body)) false base (min_length body 0 0) body (mkParse false false 0 []) =
                Ok (true, mkParse false lz lo (name <$> seqZ lo (hi - lo + 1)))).
    { rewrite Hm. assert (Hbl : length body = S (S (w + w - 1))) by (unfold body; rewrite !length_app, L1, L2; destruct (pad w lo); [done|]; cbn in *; lia).
      rewrite Hbl. unfold body. rewrite decode_number by (done || lia || (by intros ? ? [= <- _])). cbn [app]. cbv zeta.
      rewrite bool_decide_true by done. rewrite <- (app_nil_r (pad w hi)) at 1. rewrite decode_number by (done || lia). cbv zeta.
      rewrite A1, A2, Hv1, Hv2. rewrite (proj2 (Z.eqb_neq hi 0)), (proj2 (Z.eqb_neq hi (2 ^ 32 - 1))) by lia. rewrite Hlz, Hz. done. }
    unfold setNodeList. rewrite <- (app_nil_r (base ++ [OPEN] ++ body ++ [CLOSE])) at 2.
    assert (Ho : OPEN ∉ body) by (intros H; by apply Hbody in H as [?|?]).
    assert (Hc : CLOSE ∉ body) by (intros H; by apply Hbody in H as [?|?]).
    rewrite (node_group _ false base body [] _ _ Hb Ho Hc ltac:(rewrite app_nil_r; unfold body; rewrite !length_app, L1, L2; cbn; unfold npos; lia) E).
    done.
  - intros j Hj. unfold name, pad. split; [|by intros ->]. intros H. apply app_inv_head in H. apply (f_equal length) in H.
    rewrite !length_app, !length_replicate in H. lia.
Qed.

(** ** Examples *)
Definition expanded (s : string) : option (list string) :=
  match setNodeList false (str s) [] with Ok l => Some (String.string_of_list_ascii <$> l) | _ => None end.

Example slurm_list : expanded "mu[1-3,07],login,x[8-10]" = Some ["mu1"; "mu2"; "mu3"; "mu07"; "login"; "x8"; "x9"; "x10"].
Proof. vm_compute. reflexivity. Qed.

(** The comment in the code has these lists as examples of padding. *)
Example padding_lost : expanded "mu[0998-1001]" = Some ["mu998"; "mu999"; "mu1000"; "mu1001"].
Proof. vm_compute. reflexivity. Qed.

(** Padding found in one element is used for all later ones, even for other names. *)
Example padding_kept : expanded "mu[08-09],x[008-10]" = Some ["mu08"; "mu09"; "x08"; "x09"; "x010"].
Proof. vm_compute. reflexivity. Qed.

Lemma node_list_expands_witness :
  setNodeList false (join (print_element <$> [Group (str "mu") [Range 1 3; One (str "07")]; Name (str "login")])) [] =
  Ok ([] ++ concat (element_nodes false <$> [Group (str "mu") [Range 1 3; One (str "07")]; Name (str "login")])).
Proof.
  apply (node_list_expands false [Group (str "mu") [Range 1 3; One (str "07")]; Name (str "login")] []); [done| |].
  - repeat constructor; try (apply (bool_decide_unpack _); vm_compute; done); cbn; lia.
  - vm_compute. reflexivity.
Defined.

Lemma padded_range_names_witness :
  let name j := str "mu" ++ replicate 2 ZERO ++ dec j in
  setNodeList false (str "mu[0008-0010]") [] = Ok (name <$> seqZ 8 3) /\
  forall j, (length (dec j) <= 4)%nat -> (name j = str "mu" ++ pad 4 j <-> length (dec j) = length (dec 10)).
Proof.
  apply (padded_range_names (str "mu") 4 8 10); [|lia|lia|vm_compute; lia|vm_compute; lia|vm_compute; done].
  repeat split; apply (bool_decide_unpack _); vm_compute; done.
Defined.
