(* ===== verification/Topology.v ===== *)
(** The topology of the filter network (core/src/CBTFTopology.cpp): what is known of
    the allocation of a job is read from the environment (parseEnv), the depth and
    fanout of the tree and the nodes for its processes are chosen (processEnv), and the
    topology file for MRNet is written (createTopology). *)
From stdpp Require Import pretty sorting.
From S2P Require Import Prelude DLInfo FlatTopology Hostlist.
#[local] Open Scope Z_scope.

(** ** State: the members that are set by the caller, from the environment, and for the
    tree *)
Record config := mkConfig {
  dm_topology_spec : cstr; dm_fe_node : cstr;
  dm_is_cray : bool; attach_be_mode : bool; dm_colocate_mrnet_procs : bool }.
Record allocation := mkAlloc {
  is_pbs_valid : bool; is_slurm_valid : bool; is_lsf_valid : bool; is_jobid_valid : bool;
  dm_jobid : Z; dm_num_nodes : Z; dm_job_tasks : Z;
  dm_procs_per_node : Z; dm_num_app_nodes : Z; dm_nodelist : list cstr }.
Record shape := mkShape {
  dm_top_depth : Z; dm_top_fanout : Z; dm_top_numbe : Z;
  dm_cp_nodelist : list cstr; dm_app_nodelist : list cstr }.
Record CBTFTopology := mkTopology { t_config : config; t_alloc : allocation; t_shape : shape }.

(** The constructor sets only some of the members. *)
Definition new_CBTFTopology (uninit : Z) (undef : bool) : CBTFTopology :=
  mkTopology (mkConfig [] [] false undef true)
    (mkAlloc undef false undef undef uninit uninit uninit (u32 uninit) (u32 uninit) [])
    (mkShape 2 0 (u32 uninit) [] []).

Inductive MRNetStartMode := BE_ATTACH | BE_START | BE_CRAY_ATTACH | BE_CRAY_START.

(** ** The environment of a job *)
Section environment.
(** getenv() and the lines of a file that can be opened *)
Context (getenv : string -> option cstr) (read_lines : cstr -> option (list cstr)).

Fixpoint first_env (names : list string) : option cstr :=
  match names with
  | [] => None
  | n :: names' => match getenv n with Some v => Some v | None => first_env names' end
  end.

(** substr(0, find_first_of("(,")) *)
Fixpoint before_paren (s : cstr) : cstr :=
  match s with [] => [] | c :: s' => if bool_decide (c = chr 40) || bool_decide (c = COMMA) then [] else c :: before_paren s' end.

Definition cstr_ltb (a b : cstr) : bool := match List.list_compare Ascii.compare a b with Lt => true | _ => false end.
(** std::set<std::string>::insert *)
Fixpoint name_insert (n : cstr) (l : list cstr) : list cstr :=
  match l with
  | [] => [n]
  | x :: l' => if cstr_ltb n x then n :: l else if cstr_ltb x n then x :: name_insert n l' else l
  end.

(** The first part of host.domain that is not empty, as getLocalHostName() does, too *)
Fixpoint host_part (cur : cstr) (s : cstr) : cstr :=
  match s with
  | [] => cur
  | c :: s' => if bool_decide (c = chr 46) then match cur with [] => host_part [] s' | _ => cur end else host_part (cur ++ [c]) s'
  end.

Definition file_node (is_cray : bool) (name : cstr) : cstr :=
  if is_cray then if starts_with (str "nid") name then name else str (formatCrayNid (i32 (strtol name).1))
  else host_part [] name.

(** A file without lines, or that can not be opened, divides by zero. *)
Definition processNodeFile (is_cray : bool) (nodeFile : cstr) (a : allocation) : outcome allocation :=
  let lines := default [] (read_lines nodeFile) in
  let nodenames := foldl (fun set n => name_insert n set) [] lines in
  let total_cpus := u32 (Z.of_nat (length lines)) in
  let size := Z.of_nat (length nodenames) in
  if size =? 0 then Fault
  else
    let ppn := u32 (total_cpus / size + (if total_cpus mod size >? 0 then 1 else 0)) in
    Ok (mkAlloc (is_pbs_valid a) (is_slurm_valid a) (is_lsf_valid a) (is_jobid_valid a) (dm_jobid a)
          size total_cpus (if dm_procs_per_node a <? ppn then ppn else dm_procs_per_node a) (u32 size)
          (dm_nodelist a ++ (file_node is_cray <$> nodenames))).

Definition set_nodelist (l : list cstr) (a : allocation) : allocation :=
  mkAlloc (is_pbs_valid a) (is_slurm_valid a) (is_lsf_valid a) (is_jobid_valid a) (dm_jobid a)
    (dm_num_nodes a) (dm_job_tasks a) (dm_procs_per_node a) (dm_num_app_nodes a) l.

(** In a Slurm job the test whether the number of nodes is a number compares pointers
    into different strings, so that it never fails. *)
Definition parseEnv (is_cray : bool) (a0 : allocation) : outcome allocation :=
  let job := match getenv "PBS_JOBID", getenv "SLURM_JOB_ID", getenv "LSB_JOBID" with
             | Some v, _, _ => Some (v, true, false)
             | None, Some v, _ => Some (v, false, true)
             | None, None, Some v => Some (v, false, false)
             | None, None, None => None
             end in
  let has_pbs := match job with Some (_, b, _) => b | None => false end in
  let has_slurm := match job with Some (_, _, b) => b | None => false end in
  let jobid := match job with
               | Some (v, _, _) => let r := strtol v in if r.2 && (0 <=? r.1) then Some r.1 else None
               | None => None
               end in
  let num_nodes := match first_env ["PBS_NUM_NODES"; "BC_NODE_ALLOC"; "SLURM_JOB_NUM_NODES"; "SLURM_NNODES"] with
                   | Some v => let r := strtol (if has_slurm then before_paren v else v) in
                               if (has_slurm || r.2) && (0 <=? r.1) then r.1 else 1
                   | None => 1
                   end in
  let ppn := match first_env ["PBS_NUM_PPN"; "BC_CORES_PER_NODE"; "SLURM_JOB_CPUS_PER_NODE"] with
             | Some v => let r := strtol (before_paren v) in if r.2 && (0 <=? r.1) then u32 r.1 else 1
             | None => 1
             end in
  let tasks := match first_env ["PBS_NP"; "BC_MPI_TASKS_ALLOC"; "SLURM_TASKS_PER_NODE"] with
               | Some v => let r := strtol v in if r.2 && (0 <=? r.1) then r.1 else dm_job_tasks a0
               | None => dm_job_tasks a0
               end in
  let a1 := mkAlloc (is_pbs_valid a0) (is_slurm_valid a0) (is_lsf_valid a0) (is_jobid_valid a0)
              (default (dm_jobid a0) jobid) num_nodes tasks ppn (u32 num_nodes) (dm_nodelist a0) in
  a2 ← match getenv "PBS_NODEFILE" with Some f => processNodeFile is_cray f a1 | None => Ok a1 end;
  a3 ← match getenv "SLURM_JOB_NODELIST" with
       | Some l => nodes ← setNodeList is_cray l (dm_nodelist a2); Ok (set_nodelist nodes a2)
       | None => Ok a2
       end;
  a4 ← match getenv "LSB_DJOB_RANKFILE" with Some f => processNodeFile is_cray f a3 | None => Ok a3 end;
  let has_slurm := has_slurm && match getenv "SLURM_JOB_NODELIST" with Some _ => true | None => false end in
  let has_lsf := match getenv "LSB_DJOB_RANKFILE" with Some _ => true | None => false end in
  Ok (mkAlloc (negb has_slurm && has_pbs) has_slurm (negb has_slurm && negb has_pbs && has_lsf)
        (match jobid with Some _ => true | None => false end)
        (dm_jobid a4) (dm_num_nodes a4) (dm_job_tasks a4) (dm_procs_per_node a4) (dm_num_app_nodes a4) (dm_nodelist a4)).
End environment.

(** ** The shape of the tree *)
Section shape.
(** (int)ceil(pow((float)n, 1.0 / (float)d)) and (int)ceil(pow((float)n, (float)i)) *)
Context (ceil_root ceil_pow : Z -> Z -> Z).

(** for (d = 1; d < 1024; d++) until the fanout is small enough *)
Fixpoint find_depth (rounds : nat) (n maxFanout d fanout : Z) : Z * Z :=
  match rounds with
  | O => (d, fanout)
  | S rounds' =>
      let fanout' := ceil_root n d in
      if fanout' <=? maxFanout then (d, fanout') else find_depth rounds' n maxFanout (d + 1) fanout'
  end.

(** The sum of the levels *)
Fixpoint level_sum (rounds : nat) (fanout i acc : Z) : Z :=
  match rounds with O => acc | S rounds' => level_sum rounds' fanout (i + 1) (acc + ceil_pow fanout i) end.

Fixpoint distribute (nodes : list cstr) (counter : Z) (need_cp_node colocate : bool) (numcpnodes num_app_nodes : Z)
    (cps apps : list cstr) : list cstr * list cstr :=
  match nodes with
  | [] => (cps, apps)
  | n :: nodes' =>
      let cps' := if need_cp_node then cps ++ [n] else cps in
      let apps' := if need_cp_node then if colocate then apps ++ [n] else apps else apps ++ [n] in
      let counter' := counter + 1 in
      let need_cp_node' := if counter' =? numcpnodes then false else need_cp_node in
      if counter' =? numcpnodes + num_app_nodes then (cps', apps')
      else distribute nodes' counter' need_cp_node' colocate numcpnodes num_app_nodes cps' apps'
  end.

Definition desiredMaxFanout : Z := 32.
Definition ceil_quot (a b : Z) : Z := a / b + (if a mod b >? 0 then 1 else 0).

Definition processEnv (t : CBTFTopology) : outcome CBTFTopology :=
  let a := t_alloc t in
  let s := t_shape t in
  let c := t_config t in
  if is_jobid_valid a && (is_pbs_valid a || is_slurm_valid a || is_lsf_valid a) && (dm_num_nodes a >? 0) then
    let ppn := dm_procs_per_node a in
    let needed_cps := ceil_quot (dm_top_numbe s) desiredMaxFanout in
    if ppn =? 0 then Fault
    else
      let num_nodes_for_app :=
        if attach_be_mode c then
          if dm_top_numbe s >? ppn then i32 (i32 (dm_top_numbe s / ppn) + (if dm_top_numbe s mod ppn >? 0 then 1 else 0)) else 1
        else i32 (dm_num_nodes a) in
      let numbe := if attach_be_mode c then dm_top_numbe s else u32 (dm_num_nodes a) in
      let df := find_depth 1023 num_nodes_for_app desiredMaxFanout 1 0 in
      let adjust_depth := i32 (ceil_quot needed_cps desiredMaxFanout) in
      let df' := if df.1 =? 1 then if adjust_depth >? 1 then (2, df.2) else (1, i32 needed_cps) else df in
      let procsNeeded := i32 (level_sum (Z.to_nat df'.1) df'.2 1 0) in
      let real_numcpnodes := ceil_quot (u32 procsNeeded) ppn in
      let numcpnodes := if dm_colocate_mrnet_procs c then dm_num_app_nodes a else real_numcpnodes in
      let num_app_nodes := u32 num_nodes_for_app in
      let lists := distribute (dm_nodelist a) 0 true (dm_colocate_mrnet_procs c) numcpnodes num_app_nodes
                     (dm_cp_nodelist s) (dm_app_nodelist s) in
      Ok (mkTopology c
            (mkAlloc (is_pbs_valid a) (is_slurm_valid a) (is_lsf_valid a) (is_jobid_valid a) (dm_jobid a)
               (dm_num_nodes a) (dm_job_tasks a) ppn num_app_nodes (dm_nodelist a))
            (mkShape df'.1 (u32 df'.2) numbe lists.1 lists.2))
  else Ok t.

(** ** The topology file *)
Definition TAB : Ascii.ascii := chr 9.

Fixpoint split_dash (s : cstr) : list cstr :=
  match s with
  | [] => [[]]
  | c :: s' =>
      match split_dash s' with
      | [] => []
      | w :: ws => if bool_decide (c = DASH) then [] :: w :: ws else (c :: w) :: ws
      end
  end.

(** Process number [i] on a node, from 1 on the node of the frontend *)
Definition cp_process (fe n : cstr) (i : Z) : cstr := n ++ [chr 58] ++ dec (if bool_decide (n = fe) then i + 1 else i).

Fixpoint tree_processes (rounds : nat) (fe : cstr) (nodes : list cstr) (procsNeeded i counter : Z) : list cstr :=
  match rounds with
  | O => []
  | S rounds' =>
      let counter' := u32 (counter + Z.of_nat (length nodes)) in
      ((fun n => cp_process fe n i) <$> nodes) ++
      (if counter' =? procsNeeded then [] else tree_processes rounds' fe nodes procsNeeded (i + 1) counter')
  end.

(** What is written, and the next process, or [None] when there is none left, which makes
    the function return. *)
Fixpoint write_children (n : nat) (treeList : list cstr) (childIter : nat) (out : cstr) : cstr * option nat :=
  match n with
  | O => (out, Some childIter)
  | S n' =>
      match treeList !! childIter with
      | None => (out, None)
      | Some c => write_children n' treeList (S childIter) (out ++ [NL; TAB] ++ c)
      end
  end.

Fixpoint write_parents (count : nat) (i layer parentCount : Z) (treeList : list cstr) (parentIter childIter : nat) (out : cstr)
    : cstr * option (nat * nat) :=
  match count with
  | O => (out, Some (parentIter, childIter))
  | S count' =>
      match treeList !! parentIter with
      | None => (out, None)
      | Some p =>
          let n := layer / parentCount + (if layer mod parentCount >? i then 1 else 0) in
          let r := write_children (Z.to_nat n) treeList childIter (out ++ p ++ str " =>") in
          match r.2 with
          | None => (r.1, None)
          | Some childIter' =>
              write_parents count' (i + 1) layer parentCount treeList (S parentIter) childIter' (r.1 ++ str ";" ++ [NL; NL])
          end
      end
  end.

Fixpoint write_layers (layers : list Z) (parentCount : Z) (treeList : list cstr) (parentIter childIter : nat) (out : cstr) : cstr :=
  match layers with
  | [] => out
  | layer :: layers' =>
      let r := write_parents (Z.to_nat parentCount) 0 (u32 layer) parentCount treeList parentIter childIter out in
      match r.2 with
      | None => r.1
      | Some (parentIter', childIter') => write_layers layers' (u32 layer) treeList parentIter' childIter' r.1
      end
  end.

(** The numbers of processes of the levels for backends that are started *)
Fixpoint start_levels (rounds : nat) (i depth numnodes fanout numBE : Z) : list Z :=
  match rounds with
  | O => []
  | S rounds' =>
      (if (i =? 1) || negb (i =? depth) then ceil_quot numnodes fanout else i32 numBE)
      :: start_levels rounds' (i + 1) depth numnodes fanout numBE
  end.

Fixpoint attach_spec (rounds : nat) (i fanout : Z) : cstr :=
  match rounds with
  | O => []
  | S rounds' => (if i =? 1 then dec fanout else [DASH] ++ dec (ceil_pow fanout i)) ++ attach_spec rounds' (i + 1) fanout
  end.

Definition start_spec (levels : list Z) : cstr :=
  match levels with
  | [] => []
  | k :: ks => str " " ++ dec k ++ concat ((fun k => if k >? 0 then [DASH] ++ dec k else []) <$> ks)
  end.

Definition sum_layers (layers : list Z) : Z := foldl (fun acc l => u32 (acc + l)) 0 layers.

(** The specification and the number of processes it needs *)
Definition topology_spec (t : CBTFTopology) : cstr * Z :=
  let s := t_shape t in
  let attach := attach_be_mode (t_config t) in
  let spec := dm_topology_spec (t_config t) in
  let cps := Z.of_nat (length (dm_cp_nodelist s)) * dm_procs_per_node (t_alloc t) in
  let depth := if attach then dm_top_depth s else if dm_top_depth s <? 2 then 2 else dm_top_depth s in
  let num_app_nodes := if attach then dm_num_app_nodes (t_alloc t) else u32 (Z.of_nat (length (dm_cp_nodelist s))) in
  let maxFanout := if attach then dm_top_fanout s else if dm_top_fanout s =? 0 then 32 else dm_top_fanout s in
  match spec with
  | [] =>
      let df := if depth =? 0 then find_depth 1023 num_app_nodes maxFanout 1 0 else (depth, maxFanout) in
      let depth := if attach then df.1 else df.1 + 1 in
      let levels := start_levels (Z.to_nat depth) 1 depth num_app_nodes df.2 (dm_top_numbe s) in
      let spec := if attach then attach_spec (Z.to_nat depth) 1 df.2 else start_spec levels in
      let procsNeeded := if attach then u32 (level_sum (Z.to_nat depth) df.2 1 0) else sum_layers levels in
      (if procsNeeded <=? cps then spec else dec cps, procsNeeded)
  | _ =>
      let procsNeeded := sum_layers (atoi <$> split_dash spec) in
      (if procsNeeded >? cps then dec cps else spec, procsNeeded)
  end.

(** The text of the file; nothing is written without processes on the nodes. *)
Definition createTopology (t : CBTFTopology) : option cstr :=
  let '(spec, procsNeeded) := topology_spec t in
  let fe := dm_fe_node (t_config t) in
  let ppn := dm_procs_per_node (t_alloc t) in
  let root := fe ++ str ":0" in
  if ppn <=? 0 then None
  else
    let treeList := root :: tree_processes (Z.to_nat ppn) fe (dm_cp_nodelist (t_shape t)) procsNeeded 0 0 in
    Some (match spec with
          | [] => root ++ str ";" ++ [NL]
          | _ => write_layers (atoi <$> split_dash spec) 1 treeList 0 1 []
          end).

(** createTopology() counts the nodes again for backends that are started. *)
Definition counted (t : CBTFTopology) : CBTFTopology :=
  let a := t_alloc t in
  if attach_be_mode (t_config t) then t
  else mkTopology (t_config t)
         (mkAlloc (is_pbs_valid a) (is_slurm_valid a) (is_lsf_valid a) (is_jobid_valid a) (dm_jobid a)
            (dm_num_nodes a) (dm_job_tasks a) (dm_procs_per_node a) (u32 (Z.of_nat (length (dm_cp_nodelist (t_shape t))))) (dm_nodelist a))
         (t_shape t).

(** [hostname] is what gethostname() returns (the build without ALPS). *)
Definition autoCreateTopology (getenv : string -> option cstr) (read_lines : cstr -> option (list cstr)) (hostname : cstr)
    (mode : MRNetStartMode) (numBE fanout depth : Z) (t : CBTFTopology) : outcome (CBTFTopology * option cstr) :=
  let c := t_config t in
  let s := t_shape t in
  let attach := match mode with BE_ATTACH | BE_CRAY_ATTACH => true | _ => false end in
  let cray := match mode with BE_CRAY_ATTACH | BE_CRAY_START => true | _ => dm_is_cray c end in
  let colocate := match mode with BE_CRAY_ATTACH => false | _ => dm_colocate_mrnet_procs c end in
  let s1 := mkShape (if attach then dm_top_depth s else depth)
              (match mode with BE_ATTACH => dm_top_fanout s | BE_CRAY_ATTACH => 0 | _ => fanout end)
              (u32 numBE) (dm_cp_nodelist s) (dm_app_nodelist s) in
  let fehostname := host_part [] hostname in
  let c1 := mkConfig (dm_topology_spec c) fehostname cray attach colocate in
  a ← parseEnv getenv read_lines cray (t_alloc t);
  t2 ← processEnv (mkTopology c1 a s1);
  let s2 := t_shape t2 in
  let least := if attach then 1 else 2 in
  let s3 := mkShape (if dm_top_depth s2 <? least then least else dm_top_depth s2) (dm_top_fanout s2) (dm_top_numbe s2)
              (dm_cp_nodelist s2) (dm_app_nodelist s2) in
  let a2 := t_alloc t2 in
  if is_slurm_valid a2 || is_pbs_valid a2 || is_lsf_valid a2 then
    let t3 := mkTopology (t_config t2) a2 s3 in
    Ok (counted t3, createTopology t3)
  else
    nodes ← setNodeList cray fehostname (dm_nodelist a2);
    let t3 := mkTopology (t_config t2)
                (mkAlloc (is_pbs_valid a2) (is_slurm_valid a2) (is_lsf_valid a2) (is_jobid_valid a2) (dm_jobid a2)
                   (dm_num_nodes a2) (dm_job_tasks a2) 4 1 nodes)
                (mkShape 1 1 (dm_top_numbe s3) nodes (dm_app_nodelist s3)) in
    Ok (counted t3, createTopology t3).
End shape.
