(* ===== verification/TopologyTree.v ===== *)
(** The tree in the topology file that createTopology writes: which process is the
    child of which, and that the processes are those of the nodes of the
    allocation. *)
From stdpp Require Import pretty sorting.
From S2P Require Import Prelude DLInfo FlatTopology Hostlist Topology.
#[local] Open Scope Z_scope.

(** ** Levels of a tree *)
Definition entry (e : cstr * list cstr) : cstr :=
  e.1 ++ str " =>" ++ concat ((fun c => [NL; TAB] ++ c) <$> e.2) ++ str ";" ++ [NL; NL].

(** The number of children of parent [i] of [P], when [layer] children are dealt out *)
Definition share (layer P i : Z) : Z := layer / P + (if layer mod P >? i then 1 else 0).

Fixpoint deal (i layer P : Z) (parents pool : list cstr) : list (cstr * list cstr) :=
  match parents with
  | [] => []
  | p :: ps => let n := Z.to_nat (share layer P i) in (p, take n pool) :: deal (i + 1) layer P ps (drop n pool)
  end.

(** Each layer is taken from the processes left and has the one above as parents. *)
Fixpoint tree_edges (layers : list Z) (parents pool : list cstr) : list (cstr * list cstr) :=
  match layers with
  | [] => []
  | layer :: layers' =>
      deal 0 layer (Z.of_nat (length parents)) parents pool ++
      tree_edges layers' (take (Z.to_nat layer) pool) (drop (Z.to_nat layer) pool)
  end.

Definition total (layers : list Z) : Z := foldr Z.add 0 layers.

Lemma layers_nonneg layers : Forall (fun l => 0 < l) layers -> 0 <= total layers.
Proof. unfold total. induction 1; cbn; lia. Qed.

(** ** Shares *)
Section shares.
Context (layer P : Z) (HP : 0 < P) (Hl : 0 <= layer).

Lemma share_nonneg i : 0 <= share layer P i.
Proof. unfold share. pose proof (Z.div_pos layer P Hl HP). destruct (_ >? _); lia. Qed.

Fixpoint shares (count : nat) (i : Z) : Z :=
  match count with O => 0 | S count' => share layer P i + shares count' (i + 1) end.

Lemma shares_nonneg count i : 0 <= shares count i.
Proof. revert i. induction count as [|c IH]; intros i; cbn; [lia|]. pose proof (share_nonneg i). specialize (IH (i + 1)). lia. Qed.

Lemma shares_sum count i : 0 <= i ->
  shares count i = Z.of_nat count * (layer / P) + Z.max 0 (Z.min (Z.of_nat count) (layer mod P - i)).
Proof.
  revert i. induction count as [|c IH]; intros i Hi; cbn [shares]; [lia|].
  rewrite IH by lia. unfold share. destruct (layer mod P >? i) eqn:E; bools; lia.
Qed.

Lemma shares_all : shares (Z.to_nat P) 0 = layer.
Proof.
  rewrite shares_sum by lia. rewrite Z2Nat.id by lia. pose proof (Z.div_mod layer P ltac:(lia)). pose proof (Z.mod_pos_bound layer P HP).
  lia.
Qed.
End shares.

(** ** What is written *)
Lemma write_children_ok n treeList : forall childIter out, (childIter + n <= length treeList)%nat ->
  write_children n treeList childIter out =
  (out ++ concat ((fun c => [NL; TAB] ++ c) <$> take n (drop childIter treeList)), Some (childIter + n)%nat).
Proof.
  induction n as [|n IH]; intros ci out Hn; cbn [write_children].
  - by rewrite take_0, app_nil_r, Nat.add_0_r.
  - destruct (lookup_lt_is_Some_2 treeList ci) as [c Hc]; [lia|]. rewrite Hc, IH by lia.
    rewrite (drop_S _ _ _ Hc). cbn. rewrite <- !app_assoc. do 2 f_equal. lia.
Qed.

Lemma write_parents_ok layer P treeList count : forall i parentIter childIter out, 0 < P -> 0 <= layer ->
  (parentIter + count <= length treeList)%nat ->
  Z.of_nat childIter + shares layer P count i <= Z.of_nat (length treeList) ->
  write_parents count i layer P treeList parentIter childIter out =
  (out ++ concat (entry <$> deal i layer P (take count (drop parentIter treeList)) (drop childIter treeList)),
   Some (parentIter + count, childIter + Z.to_nat (shares layer P count i))%nat).
Proof.
  induction count as [|count IH]; intros i pi ci out HP Hl Hp Hc; cbn [write_parents].
  - rewrite take_0. cbn. by rewrite app_nil_r, !Nat.add_0_r.
  - destruct (lookup_lt_is_Some_2 treeList pi) as [p Hpi]; [lia|]. rewrite Hpi. fold (share layer P i).
    cbn [shares] in Hc. pose proof (share_nonneg layer P HP Hl i). pose proof (shares_nonneg layer P HP Hl count (i + 1)).
    rewrite write_children_ok by lia. cbn [fst snd]. rewrite IH by lia.
    rewrite (drop_S _ _ _ Hpi). cbn [take deal fmap list_fmap concat]. unfold entry at 2. cbn [fst snd].
    rewrite !drop_drop, <- !app_assoc. f_equal. f_equal. f_equal; [lia|cbn [shares]; lia].
Qed.

Lemma write_layers_ok treeList layers : forall P parentIter childIter out, (0 < P)%nat ->
  (childIter = parentIter + P)%nat -> (childIter <= length treeList)%nat -> Forall (fun l => 0 < l < 2 ^ 32) layers ->
  Z.of_nat childIter + total layers <= Z.of_nat (length treeList) ->
  write_layers layers (Z.of_nat P) treeList parentIter childIter out =
  out ++ concat (entry <$> tree_edges layers (take P (drop parentIter treeList)) (drop childIter treeList)).
Proof.
  induction layers as [|layer layers IH]; intros P pi ci out HP Hci Hle Hok Hsum; cbn [write_layers tree_edges].
  - cbn. by rewrite app_nil_r.
  - apply Forall_cons in Hok as [[Hl Hl'] Hok]. cbn [total foldr] in Hsum.
    assert (0 <= total layers) by (apply layers_nonneg; eapply Forall_impl; [exact Hok|]; intros ? [? ?]; done). fold (total layers) in *.
    rewrite u32_small by lia. rewrite Nat2Z.id.
    pose proof (shares_all layer (Z.of_nat P) ltac:(lia)) as Hs. rewrite Nat2Z.id in Hs.
    rewrite write_parents_ok by lia. cbn [fst snd]. rewrite Hs.
    pose proof (fun out => IH (Z.to_nat layer) (pi + P)%nat (ci + Z.to_nat layer)%nat out) as E. rewrite Z2Nat.id in E by lia.
    rewrite E by (try done; lia).
    assert (HlP : length (take P (drop pi treeList)) = P) by (rewrite length_take, length_drop; lia).
    rewrite HlP, drop_drop, <- Hci, fmap_app, concat_app, <- app_assoc. done.
Qed.

(** ** The tree *)
Lemma deal_children layer P (HP : 0 < P) (Hl : 0 <= layer) parents : forall i pool,
  (deal i layer P parents pool).*1 = parents /\
  concat (deal i layer P parents pool).*2 = take (Z.to_nat (shares layer P (length parents) i)) pool.
Proof.
  induction parents as [|p ps IH]; intros i pool; [done|]. cbn [deal fmap list_fmap concat shares length fst snd].
  destruct (IH (i + 1) (drop (Z.to_nat (share layer P i)) pool)) as [H1 H2]. rewrite H1, H2. split; [done|].
  pose proof (share_nonneg layer P HP Hl i). pose proof (shares_nonneg layer P HP Hl (length ps) (i + 1)).
  rewrite Z2Nat.inj_add by lia. by rewrite take_take_drop.
Qed.

Lemma deal_balanced layer P (HP : 0 < P) (Hl : 0 <= layer) parents : forall i pool, 0 <= i ->
  Forall (fun e => Z.of_nat (length e.2) <= ceil_quot layer P) (deal i layer P parents pool).
Proof.
  induction parents as [|p ps IH]; intros i pool Hi; [constructor|]. cbn [deal]. constructor; [|apply IH; lia].
  cbn. rewrite length_take. unfold share, ceil_quot. pose proof (Z.mod_pos_bound layer P HP). pose proof (Z.div_pos layer P Hl HP).
  destruct (_ >? i) eqn:E1; destruct (_ >? 0) eqn:E2; bools; lia.
Qed.

Lemma deal_exact k P (HP : 0 < P) (Hk : 0 <= k) parents : forall i pool, 0 <= i ->
  k * Z.of_nat (length parents) <= Z.of_nat (length pool) ->
  Forall (fun e => Z.of_nat (length e.2) = k) (deal i (k * P) P parents pool).
Proof.
  assert (Hs : forall i, 0 <= i -> share (k * P) P i = k).
  { intros i Hi. unfold share. rewrite Z.div_mul, Z.mod_mul by lia. destruct (0 >? i) eqn:E; bools; lia. }
  induction parents as [|p ps IH]; intros i pool Hi Hlen; [constructor|]. cbn [deal length] in *. rewrite Hs by done.
  constructor; [cbn; rewrite length_take; lia|]. apply IH; [lia|]. rewrite length_drop. lia.
Qed.

(** Every process of the pool up to the total is the child of one parent, in order, and the
    parents are the first ones and all processes but those of the last layer. *)
Lemma tree_edges_tree layers : forall parents pool, parents <> [] -> Forall (fun l => 0 < l) layers ->
  total layers <= Z.of_nat (length pool) ->
  concat (tree_edges layers parents pool).*2 = take (Z.to_nat (total layers)) pool /\
  (layers <> [] -> (tree_edges layers parents pool).*1 = parents ++ take (Z.to_nat (total (removelast layers))) pool).
Proof.
  induction layers as [|layer layers IH]; intros parents pool Hne Hok Hsum; [done|].
  apply Forall_cons in Hok as [Hl Hok]. pose proof (layers_nonneg _ Hok). cbn [total foldr tree_edges] in *. fold (total layers) in *.
  rewrite !fmap_app, concat_app.
  assert (HP : 0 < Z.of_nat (length parents)) by (destruct parents; [done|cbn; lia]).
  destruct (deal_children layer _ HP ltac:(lia) parents 0 pool) as [D1 D2]. rewrite D1, D2.
  pose proof (shares_all layer _ HP) as Hs. rewrite Nat2Z.id in Hs. rewrite Hs.
  destruct (IH (take (Z.to_nat layer) pool) (drop (Z.to_nat layer) pool)) as [E1 E2];
    [by destruct pool; cbn in *; [lia|]; destruct (Z.to_nat layer) eqn:?; [lia|]|done|rewrite length_drop; lia|].
  rewrite E1. split; [by rewrite Z2Nat.inj_add, take_take_drop by lia|]. intros _.
  destruct layers as [|l2 ls]; [cbn; by rewrite !app_nil_r|]. rewrite E2 by done.
  change (total (removelast (layer :: l2 :: ls))) with (layer + total (removelast (l2 :: ls))).
  assert (0 <= total (removelast (l2 :: ls))).
  { apply layers_nonneg. clear -Hok. revert l2 Hok. induction ls as [|x ls IH]; intros l2 Hok; [constructor|].
    apply Forall_cons in Hok as [? Hok]. change (removelast (l2 :: x :: ls)) with (l2 :: removelast (x :: ls)). constructor; [done|by apply IH]. }
  rewrite Z2Nat.inj_add by lia. by rewrite <- take_take_drop, app_assoc.
Qed.

(** ** Specifications *)
Lemma split_dash_cons a r : DASH ∉ a -> split_dash (a ++ DASH :: r) = a :: split_dash r.
Proof.
  assert (Hr : exists w ws, split_dash r = w :: ws).
  { induction r as [|c r (w & ws & IH)]; [by eexists _, _|]. cbn. rewrite IH. case_bool_decide; by eexists _, _. }
  destruct Hr as (w & ws & Hr). induction a as [|c a IH]; intros Ha; cbn.
  - by rewrite Hr, bool_decide_true.
  - apply not_elem_of_cons in Ha as [Hc Ha]. rewrite IH by done. by rewrite bool_decide_false by congruence.
Qed.

Lemma split_dash_word a : DASH ∉ a -> split_dash a = [a].
Proof.
  induction a as [|c a IH]; intros Ha; [done|]. apply not_elem_of_cons in Ha as [Hc Ha]. cbn. rewrite IH by done.
  by rewrite bool_decide_false by congruence.
Qed.

Lemma split_dashes a ks : DASH ∉ a -> Forall (fun k => 0 <= k) ks ->
  split_dash (a ++ concat ((fun k => [DASH] ++ dec k) <$> ks)) = a :: (dec <$> ks).
Proof.
  intros Ha Hks. revert a Ha. induction Hks as [|k ks Hk _ IH]; intros a Ha; cbn [fmap list_fmap concat].
  - rewrite app_nil_r. by apply split_dash_word.
  - cbn [app]. rewrite split_dash_cons by done. f_equal. apply IH. intros Hin.
    destruct (dec_digits k Hk) as (Hd & _). rewrite Forall_forall in Hd. specialize (Hd _ Hin). done.
Qed.

Lemma atoi_dec n : 0 <= n < 2 ^ 31 -> atoi (dec n) = n /\ atoi (str " " ++ dec n) = n /\ DASH ∉ str " " ++ dec n.
Proof.
  intros Hn. destruct (dec_digits n) as (Hd & Hv & Hne & _); [lia|].
  assert (Ha : atoi (dec n) = n) by (destruct (atoi_digits (dec n) Hd Hne) as [E _]; lia). split_and!; [done|exact Ha|].
  intros Hin. apply elem_of_app in Hin as [Hin|Hin]; [by apply list_elem_of_singleton in Hin|].
  rewrite Forall_forall in Hd. by specialize (Hd _ Hin).
Qed.

Lemma total_app l k : total (l ++ k) = total l + total k.
Proof. unfold total. induction l as [|x l IH]; cbn; lia. Qed.

Lemma level_sum_total ceil_pow rounds f : forall i acc, level_sum ceil_pow rounds f i acc = acc + total (ceil_pow f <$> seqZ i (Z.of_nat rounds)).
Proof.
  induction rounds as [|r IH]; intros i acc; cbn [level_sum]; [rewrite seqZ_nil by lia; cbn; lia|].
  rewrite IH, (seqZ_cons i (Z.of_nat (S r))) by lia. rewrite Nat2Z.inj_succ, Z.pred_succ, fmap_cons. unfold total. cbn [foldr].
  replace (Z.succ i) with (i + 1) by lia. lia.
Qed.

Lemma attach_spec_tail ceil_pow f rounds : forall i, 1 < i ->
  attach_spec ceil_pow rounds i f = concat ((fun k => [DASH] ++ dec k) <$> (ceil_pow f <$> seqZ i (Z.of_nat rounds))).
Proof.
  induction rounds as [|r IH]; intros i Hi; [done|]. cbn [attach_spec]. rewrite (proj2 (Z.eqb_neq i 1)) by lia.
  rewrite seqZ_cons by lia. rewrite Nat2Z.inj_succ, Z.pred_succ, IH by lia. cbn. by rewrite Z.add_1_r.
Qed.

(** ** The processes *)
Definition processes_from (fe : cstr) (nodes : list cstr) (i : Z) (rounds : nat) : list cstr :=
  concat ((fun i => (fun n => cp_process fe n i) <$> nodes) <$> seqZ i (Z.of_nat rounds)).

Lemma processes_from_S fe nodes i rounds :
  processes_from fe nodes i (S rounds) = ((fun n => cp_process fe n i) <$> nodes) ++ processes_from fe nodes (i + 1) rounds.
Proof.
  unfold processes_from. rewrite (seqZ_cons i (Z.of_nat (S rounds))) by lia. rewrite Nat2Z.inj_succ, Z.pred_succ, fmap_cons. cbn [concat].
  replace (Z.succ i) with (i + 1) by lia. done.
Qed.

Lemma processes_from_length fe nodes rounds : forall i,
  Z.of_nat (length (processes_from fe nodes i rounds)) = Z.of_nat (length nodes) * Z.of_nat rounds.
Proof.
  induction rounds as [|r IH]; intros i; [unfold processes_from; rewrite seqZ_nil by lia; cbn; lia|]. rewrite processes_from_S, length_app, length_fmap, Nat2Z.inj_add, IH. lia.
Qed.

(** All processes are made, or just as many as are needed. *)
Lemma tree_processes_prefix fe nodes need rounds : forall i counter,
  0 <= counter -> counter + Z.of_nat (length nodes) * Z.of_nat rounds < 2 ^ 32 ->
  exists rest, processes_from fe nodes i rounds = tree_processes rounds fe nodes need i counter ++ rest /\
    (rest = [] \/ counter + Z.of_nat (length (tree_processes rounds fe nodes need i counter)) = need).
Proof.
  induction rounds as [|r IH]; intros i counter Hc Hb.
  { exists []. unfold processes_from. rewrite seqZ_nil by lia. by split; [|left]. }
  rewrite processes_from_S. cbn [tree_processes]. rewrite u32_small by lia.
  destruct (_ =? need) eqn:E; bools.
  - rewrite app_nil_r. eexists. split; [done|]. right. rewrite length_fmap. done.
  - destruct (IH (i + 1) (counter + Z.of_nat (length nodes))) as (rest & Hr & Hor); [lia..|].
    exists rest. rewrite Hr, app_assoc. split; [done|]. destruct Hor as [?|Hor]; [by left|]. right.
    rewrite length_app, length_fmap. lia.
Qed.

Lemma deal_prefix layer P (HP : 0 < P) (Hl : 0 <= layer) parents rest : forall i pool,
  shares layer P (length parents) i <= Z.of_nat (length pool) ->
  deal i layer P parents (pool ++ rest) = deal i layer P parents pool.
Proof.
  induction parents as [|p ps IH]; intros i pool Hlen; [done|]. cbn [deal shares length] in *.
  pose proof (share_nonneg layer P HP Hl i). pose proof (shares_nonneg layer P HP Hl (length ps) (i + 1)).
  rewrite take_app_le, drop_app_le by lia. f_equal. apply IH. rewrite length_drop. lia.
Qed.

Lemma tree_edges_prefix layers rest : forall parents pool, parents <> [] -> Forall (fun l => 0 < l) layers ->
  total layers <= Z.of_nat (length pool) -> tree_edges layers parents (pool ++ rest) = tree_edges layers parents pool.
Proof.
  induction layers as [|layer layers IH]; intros parents pool Hne Hok Hsum; [done|].
  apply Forall_cons in Hok as [Hl Hok]. pose proof (layers_nonneg _ Hok). cbn [total foldr tree_edges] in *. fold (total layers) in *.
  assert (HP : 0 < Z.of_nat (length parents)) by (destruct parents; [done|cbn; lia]).
  pose proof (shares_all layer _ HP) as Hs. rewrite Nat2Z.id in Hs.
  rewrite deal_prefix by lia. rewrite take_app_le, drop_app_le by lia. f_equal. apply IH; [|done|rewrite length_drop; lia].
  destruct pool; cbn in *; [lia|]. by destruct (Z.to_nat layer) eqn:?; [lia|].
Qed.

(** ** Names of processes *)
Definition COLON : Ascii.ascii := chr 58.

Lemma process_name_inj n n' a b : 0 <= a -> 0 <= b -> n ++ [COLON] ++ dec a = n' ++ [COLON] ++ dec b -> n = n' /\ a = b.
Proof.
  intros Ha Hb H. assert (Hc : forall k, 0 <= k -> COLON ∉ dec k).
  { intros k Hk Hin. destruct (dec_digits k Hk) as (Hd & _). rewrite Forall_forall in Hd. by specialize (Hd _ Hin). }
  pose proof (f_equal (after_last COLON) H) as H'. cbn [app] in H'. rewrite !after_last_app in H' by auto. injection H' as H'.
  rewrite H' in H. apply app_inv_tail in H. split; [done|].
  apply (f_equal value) in H'. destruct (dec_digits a Ha) as (_ & E1 & _), (dec_digits b Hb) as (_ & E2 & _). congruence.
Qed.

Lemma cp_process_inj fe n n' i j : 0 <= i -> 0 <= j -> cp_process fe n i = cp_process fe n' j -> n = n' /\ i = j.
Proof.
  intros Hi Hj H. unfold cp_process in H. apply process_name_inj in H as [-> H]; [|repeat case_bool_decide; lia..].
  split; [done|]. repeat case_bool_decide; lia.
Qed.

Lemma processes_nodup fe nodes rounds : NoDup nodes -> forall i, 0 <= i ->
  NoDup (processes_from fe nodes i rounds) /\
  (forall p, p ∈ processes_from fe nodes i rounds -> exists n j, n ∈ nodes /\ i <= j < i + Z.of_nat rounds /\ p = cp_process fe n j).
Proof.
  intros Hnd. induction rounds as [|r IH]; intros i Hi.
  { unfold processes_from. rewrite seqZ_nil by lia. split; [constructor|]. intros p Hp. by apply not_elem_of_nil in Hp. }
  rewrite processes_from_S. destruct (IH (i + 1)) as [H1 H2]; [lia|]. split.
  - apply NoDup_app. split_and!; [|..|done].
    + apply NoDup_fmap_2_strong; [|done]. intros n n' _ _ H. by apply cp_process_inj in H as [? _].
    + intros p Hp Hp'. apply list_elem_of_fmap in Hp as (n & -> & _). apply H2 in Hp' as (n' & j & _ & Hj & E).
      apply cp_process_inj in E; lia.
  - intros p Hp. apply elem_of_app in Hp as [Hp|Hp].
    + apply list_elem_of_fmap in Hp as (n & -> & Hn). exists n, i. split_and!; [done|lia..|done].
    + apply H2 in Hp as (n & j & ? & ? & ?). exists n, j. split_and!; [done|lia..|done].
Qed.

Lemma root_is_new fe nodes rounds : NoDup nodes -> fe ++ str ":0" ∉ processes_from fe nodes 0 rounds.
Proof.
  intros Hnd Hin. destruct (processes_nodup fe nodes rounds Hnd 0 ltac:(lia)) as [_ H]. apply H in Hin as (n & j & _ & Hj & E).
  unfold cp_process in E. change (str ":0") with ([COLON] ++ dec 0) in E. apply process_name_inj in E as [-> E]; [|lia|case_bool_decide; lia].
  rewrite bool_decide_true in E by done. lia.
Qed.
