(* ===== verification/TopologyFile.v ===== *)
(** What the topology files are like that createTopology writes for backends that attach
    and for backends that are started, and whether there are enough processes for
    the backends. *)
From stdpp Require Import pretty sorting.
From S2P Require Import Prelude DLInfo FlatTopology Hostlist Topology TopologyTree.
#[local] Open Scope Z_scope.

Lemma ceil_quot_bounds a b : 0 < b -> 0 <= a -> a <= b * ceil_quot a b /\ 0 <= ceil_quot a b <= a /\ (0 < a -> 0 < ceil_quot a b) /\
  b * (ceil_quot a b - 1) <= a.
Proof.
  intros Hb Ha. unfold ceil_quot. pose proof (Z.div_mod a b ltac:(lia)). pose proof (Z.mod_pos_bound a b Hb).
  pose proof (Z.div_pos a b Ha Hb). destruct (_ >? 0) eqn:E; bools; nia.
Qed.

Section file.
Context (ceil_root ceil_pow : Z -> Z -> Z) (t : CBTFTopology).
Notation nodes := (dm_cp_nodelist (t_shape t)).
Notation ppn := (dm_procs_per_node (t_alloc t)).
Notation fe := (dm_fe_node (t_config t)).

Definition root_process : cstr := fe ++ str ":0".
Definition cp_processes : list cstr := processes_from fe nodes 0 (Z.to_nat ppn).
Definition cps : Z := Z.of_nat (length nodes) * ppn.

Lemma cp_processes_length : 0 < ppn -> Z.of_nat (length cp_processes) = cps.
Proof. intros H. unfold cp_processes, cps. rewrite processes_from_length, Z2Nat.id; lia. Qed.

(** The file has the tree of the layers of the specification. *)
Lemma create_file spec need layers : topology_spec ceil_root ceil_pow t = (spec, need) -> spec <> [] ->
  atoi <$> split_dash spec = layers -> Forall (fun l => 0 < l < 2 ^ 32) layers -> 0 < ppn -> cps < 2 ^ 32 ->
  total layers <= cps -> total layers <= need ->
  createTopology ceil_root ceil_pow t = Some (concat (entry <$> tree_edges layers [root_process] cp_processes)).
Proof.
  intros Hspec Hne Hlayers Hok Hppn Hcps Ht1 Ht2. unfold createTopology. rewrite Hspec.
  rewrite (proj2 (Z.leb_gt _ _)) by lia. destruct spec as [|c spec]; [done|]. f_equal. rewrite Hlayers.
  destruct (tree_processes_prefix fe nodes need (Z.to_nat ppn) 0 0) as (rest & Hr & Hor); [lia|unfold cps in Hcps; lia|].
  fold cp_processes in Hr. fold root_process. set (made := tree_processes _ _ _ _ _ _) in *.
  assert (Hlen : total layers <= Z.of_nat (length made)).
  { destruct Hor as [->|?]; [|lia]. rewrite app_nil_r in Hr. rewrite <- Hr, cp_processes_length; done. }
  assert (Hpos : Forall (fun l => 0 < l) layers) by (eapply Forall_impl; [exact Hok|]; intros ? [? ?]; done).
  pose proof (write_layers_ok (root_process :: made) layers 1 0 1 []) as E. change (Z.of_nat 1) with 1 in E.
  rewrite E; [|lia|done|cbn; lia|done|cbn [length]; lia]. cbn [app drop take]. rewrite drop_0.
  by rewrite Hr, tree_edges_prefix by done.
Qed.

Lemma processes_distinct : NoDup nodes -> NoDup (root_process :: cp_processes).
Proof. intros H. constructor; [by apply root_is_new|]. by apply processes_nodup. Qed.

Lemma atoi_decs l : Forall (fun l => 0 <= l < 2 ^ 31) l -> atoi <$> (dec <$> l) = l.
Proof. induction 1 as [|x l Hx _ IH]; [done|]. rewrite !fmap_cons, IH. f_equal. by apply atoi_dec. Qed.

(** ** Backends that attach *)
Definition powers (f d : Z) : list Z := (fun i => f ^ i) <$> seqZ 1 d.

Lemma member_le_total l x : Forall (fun l => 0 < l) l -> x ∈ l -> x <= total l.
Proof.
  induction 1 as [|y l Hy Hl IH]; intros Hx; [by apply not_elem_of_nil in Hx|]. pose proof (layers_nonneg _ Hl).
  cbn. fold (total l). apply elem_of_cons in Hx as [->|Hx]; [lia|]. specialize (IH Hx). lia.
Qed.

Lemma powers_positive f d : 1 <= f -> Forall (fun l => 0 < l) (powers f d).
Proof.
  intros Hf. apply Forall_fmap, Forall_forall. intros i Hi. apply elem_of_seqZ in Hi. cbn. apply Z.pow_pos_nonneg; lia.
Qed.

Lemma attach_layers f d : 1 <= d -> 1 <= f -> (forall i, 1 <= i <= d -> ceil_pow f i = f ^ i) -> total (powers f d) < 2 ^ 31 ->
  attach_spec ceil_pow (Z.to_nat d) 1 f <> [] /\ atoi <$> split_dash (attach_spec ceil_pow (Z.to_nat d) 1 f) = powers f d.
Proof.
  intros Hd Hf Hpow Hsum. assert (Hb : Forall (fun l => 0 <= l < 2 ^ 31) (powers f d)).
  { apply Forall_forall. intros x Hx. pose proof (powers_positive f d Hf) as Hp. pose proof (member_le_total _ _ Hp Hx).
    rewrite Forall_forall in Hp. specialize (Hp x Hx). cbn in Hp. lia. }
  assert (Hdn : exists r, Z.to_nat d = S r) by (exists (Z.to_nat d - 1)%nat; lia). destruct Hdn as [r Hr]. rewrite Hr.
  cbn [attach_spec]. change (1 =? 1) with true. cbn iota. rewrite attach_spec_tail by lia. change (1 + 1) with 2.
  assert (Hp : powers f d = f :: (ceil_pow f <$> seqZ 2 (Z.of_nat r))).
  { unfold powers. rewrite seqZ_cons by lia. cbn [fmap list_fmap]. rewrite Z.pow_1_r. f_equal. replace (Z.pred d) with (Z.of_nat r) by lia.
    change (Z.succ 1) with 2. apply list_fmap_ext. intros k i Hi. apply lookup_seqZ in Hi as [-> Hi]. symmetry. apply Hpow. lia. }
  rewrite Hp in *. apply Forall_cons in Hb as [[Hb0 Hb1] Hb]. destruct (dec_digits f) as (_ & _ & Hne & _); [lia|].
  split; [intros H; by apply app_nil in H as [? _]|]. destruct (atoi_dec f ltac:(lia)) as (Ha & _ & Hd').
  rewrite split_dashes; [|by intros Hin; apply Hd', elem_of_app; right|eapply Forall_impl; [exact Hb|]; intros ? [? ?]; done].
  cbn [fmap list_fmap]. rewrite Ha. f_equal. by apply atoi_decs.
Qed.

Lemma powers_children f n : 1 <= f -> forall i parents pool, 0 <= i -> Z.of_nat (length parents) = f ^ i ->
  total ((fun i => f ^ i) <$> seqZ (i + 1) (Z.of_nat n)) <= Z.of_nat (length pool) ->
  Forall (fun e => Z.of_nat (length e.2) = f) (tree_edges ((fun i => f ^ i) <$> seqZ (i + 1) (Z.of_nat n)) parents pool).
Proof.
  intros Hf. induction n as [|n IH]; intros i parents pool Hi Hp Hsum; [rewrite seqZ_nil by lia; constructor|].
  rewrite seqZ_cons in Hsum |- * by lia. replace (Z.pred (Z.of_nat (S n))) with (Z.of_nat n) in * by lia.
  replace (Z.succ (i + 1)) with (i + 1 + 1) in * by lia. rewrite fmap_cons in *. cbn [tree_edges total foldr] in *.
  set (ls := (fun i => f ^ i) <$> seqZ (i + 1 + 1) (Z.of_nat n)) in *. fold (total ls) in Hsum.
  assert (0 <= total ls).
  { apply layers_nonneg, Forall_fmap, Forall_forall. intros j Hj. apply elem_of_seqZ in Hj. cbn. apply Z.pow_pos_nonneg; lia. }
  assert (Hfp : f ^ (i + 1) = f * f ^ i) by (rewrite Z.add_1_r, Z.pow_succ_r by lia; done).
  assert (0 < f ^ i /\ 0 < f ^ (i + 1)) as [] by (split; apply Z.pow_pos_nonneg; lia).
  apply Forall_app. split.
  - rewrite Hfp, Hp. apply deal_exact; lia.
  - apply IH; [lia| |fold ls; rewrite length_drop; lia]. rewrite length_take. lia.
Qed.

(** C30: The topology for backends that attach. When the processes that the nodes have room for
    suffice, the file describes the full tree of the given depth in which the
    frontend and every process above the last level have [f] children; otherwise all
    processes are children of the frontend. In either case the processes of a level are the
    parents of the next, each process is the child of one parent, and no two
    processes have the same name. pow() is taken to be exact on the sizes of
    the levels. *)
Theorem attach_topology (f d : Z) :
  attach_be_mode (t_config t) = true -> dm_topology_spec (t_config t) = [] ->
  dm_top_depth (t_shape t) = d -> dm_top_fanout (t_shape t) = f -> 1 <= d -> 1 <= f ->
  (forall i, 1 <= i <= d -> ceil_pow f i = f ^ i) -> total (powers f d) < 2 ^ 31 ->
  0 < ppn -> 0 < cps < 2 ^ 31 -> NoDup nodes ->
  let enough := total (powers f d) <=? cps in
  let layers := if enough then powers f d else [cps] in
  exists edges, createTopology ceil_root ceil_pow t = Some (concat (entry <$> edges)) /\
    edges.*1 = root_process :: take (Z.to_nat (total (removelast layers))) cp_processes /\
    concat edges.*2 = take (Z.to_nat (total layers)) cp_processes /\
    Forall (fun e => Z.of_nat (length e.2) = if enough then f else cps) edges /\
    NoDup (root_process :: cp_processes).
Proof.
  intros Ha Hs Hd Hf Hd1 Hf1 Hpow Hsum Hppn Hcps Hnd enough layers.
  destruct (attach_layers f d Hd1 Hf1 Hpow Hsum) as [Hne Hl]. pose proof (powers_positive f d Hf1) as Hpos.
  pose proof (cp_processes_length Hppn) as Hlen.
  assert (Hls : level_sum ceil_pow (Z.to_nat d) f 1 0 = total (powers f d)).
  { rewrite level_sum_total, Z2Nat.id, Z.add_0_l by lia. f_equal. apply list_fmap_ext. intros k i Hi.
    apply lookup_seqZ in Hi as [-> Hi]. apply Hpow. lia. }
  assert (Hspec : topology_spec ceil_root ceil_pow t =
    (if enough then attach_spec ceil_pow (Z.to_nat d) 1 f else dec cps, total (powers f d))).
  { unfold topology_spec. rewrite Ha, Hs, Hd, Hf. rewrite (proj2 (Z.eqb_neq d 0)) by lia. cbn [fst snd]. fold cps.
    rewrite Hls, u32_small; [done|]. pose proof (layers_nonneg _ Hpos). lia. }
  destruct (atoi_dec cps ltac:(lia)) as (Hac & _ & Hdc). destruct (dec_digits cps) as (_ & _ & Hcne & _); [lia|].
  assert (Hlok : Forall (fun l => 0 < l) layers /\ Forall (fun l => 0 < l < 2 ^ 32) layers /\ total layers <= cps /\ total layers <= total (powers f d)).
  { subst layers enough. destruct (_ <=? cps) eqn:E; bools; cbn [total foldr].
    - split_and!; [done| |done|done]. apply Forall_forall. intros x Hx. pose proof (member_le_total _ _ Hpos Hx).
      rewrite Forall_forall in Hpos. specialize (Hpos x Hx). cbn in Hpos. lia.
    - split_and!; [by repeat constructor; lia|by repeat constructor; lia|lia|lia]. }
  destruct Hlok as (Hok & Hok' & Ht1 & Ht2).
  exists (tree_edges layers [root_process] cp_processes). split_and!.
  - apply create_file with (1 := Hspec); try done; [..|lia].
    + by destruct enough.
    + subst layers. destruct enough; [done|]. rewrite split_dash_word; [cbn; by rewrite Hac|].
      intros Hin. apply Hdc, elem_of_app. by right.
  - destruct (tree_edges_tree layers [root_process] cp_processes ltac:(done) Hok ltac:(lia)) as [_ E]. rewrite E; [done|].
    subst layers. destruct enough; [|done]. unfold powers. by rewrite seqZ_cons by lia.
  - by destruct (tree_edges_tree layers [root_process] cp_processes ltac:(done) Hok ltac:(lia)) as [E _].
  - subst layers. destruct enough.
    + unfold powers in *. rewrite <- (Z2Nat.id d) in Ht1 |- * by lia. change 1 with (0 + 1). apply powers_children; [done|lia|done|].
      change (0 + 1) with 1. lia.
    + cbn [tree_edges]. rewrite app_nil_r. change (Z.of_nat (length [root_process])) with 1.
      pose proof (deal_exact cps 1 ltac:(lia) ltac:(lia) [root_process] 0 cp_processes ltac:(lia)) as E.
      rewrite !Z.mul_1_r in E. apply E. lia.
  - by apply processes_distinct.
Qed.
(** ** Backends that are started *)
Definition start_layers (v n : Z) (d : nat) : list Z := replicate d v ++ [n].

Lemma start_levels_layers n f be k : forall i, 1 < i ->
  start_levels (S k) i (i + Z.of_nat k) n f be = start_layers (ceil_quot n f) (i32 be) k.
Proof.
  induction k as [|k IH]; intros i Hi.
  - cbn. rewrite (proj2 (Z.eqb_neq i 1)), Z.add_0_r, Z.eqb_refl by lia. done.
  - replace (i + Z.of_nat (S k)) with (i + 1 + Z.of_nat k) by lia. change (start_levels (S (S k)) i (i + 1 + Z.of_nat k) n f be) with
      ((if (i =? 1) || negb (i =? i + 1 + Z.of_nat k) then ceil_quot n f else i32 be) :: start_levels (S k) (i + 1) (i + 1 + Z.of_nat k) n f be).
    rewrite IH by lia. rewrite (proj2 (Z.eqb_neq i (i + 1 + Z.of_nat k))) by lia. by rewrite orb_true_r.
Qed.

Lemma start_spec_layers levels : levels <> [] -> Forall (fun k => 0 < k < 2 ^ 31) levels ->
  start_spec levels <> [] /\ atoi <$> split_dash (start_spec levels) = levels.
Proof.
  destruct levels as [|k ks]; [done|]. intros _ Hok. apply Forall_cons in Hok as [[Hk Hk'] Hks]. cbn [start_spec].
  split; [done|]. destruct (atoi_dec k ltac:(lia)) as (_ & Ha & Hd).
  replace (_ <$> ks) with ((fun k => [DASH] ++ dec k) <$> ks).
  - rewrite app_assoc. rewrite split_dashes; [|done|eapply Forall_impl; [exact Hks|]; intros ? [? ?]; cbn; lia].
    rewrite fmap_cons, Ha. f_equal. apply atoi_decs. eapply Forall_impl; [exact Hks|]. intros ? [? ?]. cbn. lia.
  - clear -Hks. induction Hks as [|x ks [Hx _] _ IH]; [done|]. rewrite !fmap_cons, IH. by rewrite Z.gtb_ltb, (proj2 (Z.ltb_lt _ _)).
Qed.

Lemma sum_layers_total levels : Forall (fun k => 0 < k) levels -> forall acc, 0 <= acc -> acc + total levels < 2 ^ 32 ->
  foldl (fun acc l => u32 (acc + l)) acc levels = acc + total levels.
Proof.
  induction 1 as [|x l Hx Hl IH]; intros acc Ha Hb; [cbn; lia|]. pose proof (layers_nonneg _ Hl).
  change (total (x :: l)) with (x + total l) in *. cbn [foldl]. rewrite u32_small by lia. rewrite IH; lia.
Qed.

Lemma start_layers_total v n d : total (start_layers v n d) = v * Z.of_nat d + n.
Proof.
  unfold start_layers. rewrite total_app. cbn. enough (total (replicate d v) = v * Z.of_nat d) by lia.
  induction d as [|d IH]; [cbn; lia|]. change (total (replicate (S d) v)) with (v + total (replicate d v)). lia.
Qed.

(** As many processes in a row as there are nodes are one on each node. *)
Lemma one_per_node rounds : forall i k, (k + length nodes <= rounds * length nodes)%nat ->
  exists nodes' js, nodes' ≡ₚ nodes /\ length js = length nodes /\
    take (length nodes) (drop k (processes_from fe nodes i rounds)) = zip_with (cp_process fe) nodes' js.
Proof.
  assert (Hzip : forall l i, zip_with (cp_process fe) l (replicate (length l) i) = (fun n => cp_process fe n i) <$> l).
  { induction l as [|n l IH]; intros i; [done|]. cbn. by rewrite IH. }
  induction rounds as [|r IH]; intros i k Hk.
  { destruct nodes; cbn in *; [|lia]. by exists [], []. }
  rewrite processes_from_S. destruct (decide (length nodes <= k)%nat) as [Hge|Hlt].
  - rewrite drop_app_ge by (by rewrite length_fmap). rewrite length_fmap. apply IH. cbn in Hk. lia.
  - rewrite drop_app_le by (rewrite length_fmap; lia). exists (drop k nodes ++ take k nodes).
    exists (replicate (length (drop k nodes)) i ++ replicate (length (take k nodes)) (i + 1)). split_and!.
    + rewrite (comm (++)). by rewrite take_drop.
    + rewrite length_app, !length_replicate, length_drop, length_take. lia.
    + rewrite zip_with_app by (by rewrite length_replicate). rewrite !Hzip, take_app_ge by (rewrite length_drop, length_fmap; lia).
      rewrite <- fmap_drop, length_fmap, length_drop. f_equal.
      replace (length nodes - (length nodes - k))%nat with k by lia. destruct k as [|k]; [done|].
      destruct r as [|r]; [cbn in Hk; lia|]. rewrite processes_from_S, take_app_le by (rewrite length_fmap; lia). by rewrite fmap_take.
Qed.
Lemma start_children f v n d : 0 < v -> 0 < n <= f * v -> forall parents pool,
  Z.of_nat (length parents) = v -> v * Z.of_nat d + n <= Z.of_nat (length pool) ->
  Forall (fun e => Z.of_nat (length e.2) <= f) (tree_edges (start_layers v n d) parents pool).
Proof.
  intros Hv Hn. assert (Hceil : forall a, 0 <= a <= f * v -> ceil_quot a v <= f).
  { intros a Ha. unfold ceil_quot. pose proof (Z.div_mod a v ltac:(lia)). pose proof (Z.mod_pos_bound a v Hv).
    destruct (_ >? 0) eqn:E; bools; nia. }
  induction d as [|d IH]; intros parents pool Hp Hlen.
  - cbn. rewrite app_nil_r, Hp. eapply Forall_impl; [apply deal_balanced; lia|]. cbn. intros e He. specialize (Hceil n). lia.
  - change (start_layers v n (S d)) with (v :: start_layers v n d). cbn [tree_edges]. rewrite Hp. apply Forall_app. split.
    + eapply Forall_impl; [apply deal_balanced; lia|]. cbn. intros e He. assert (1 <= f) by nia. specialize (Hceil v ltac:(nia)). lia.
    + apply IH; rewrite ?length_take, ?length_drop; lia.
Qed.

(** C31: The topology for backends that are started by MRNet, one for each node. When the
    processes suffice, there are as many processes on each of the levels above the last as groups of
    [f] nodes, every process below the root has at most [f] children, and
    the backends of the last level are one on each node; otherwise all processes are
    children of the frontend, so that there are as many on each node as there is room for. *)
Theorem start_topology (n f : Z) (d : nat) :
  attach_be_mode (t_config t) = false -> dm_topology_spec (t_config t) = [] ->
  n = Z.of_nat (length nodes) -> dm_top_numbe (t_shape t) = n ->
  d = Z.to_nat (Z.max 2 (dm_top_depth (t_shape t))) ->
  f = (if dm_top_fanout (t_shape t) =? 0 then 32 else dm_top_fanout (t_shape t)) -> 1 <= f ->
  0 < ppn -> 0 < n -> cps < 2 ^ 31 -> ceil_quot n f * Z.of_nat d + n < 2 ^ 32 -> NoDup nodes ->
  let v := ceil_quot n f in
  let enough := v * Z.of_nat d + n <=? cps in
  let layers := if enough then start_layers v n d else [cps] in
  exists edges, createTopology ceil_root ceil_pow t = Some (concat (entry <$> edges)) /\
    edges.*1 = root_process :: take (Z.to_nat (total (removelast layers))) cp_processes /\
    concat edges.*2 = take (Z.to_nat (total layers)) cp_processes /\
    NoDup (root_process :: cp_processes) /\
    (enough = true ->
      Forall (fun e => Z.of_nat (length e.2) <= f) (tail edges) /\
      exists nodes' js, nodes' ≡ₚ nodes /\ length js = length nodes /\
        drop (Z.to_nat (v * Z.of_nat d)) (concat edges.*2) = zip_with (cp_process fe) nodes' js).
Proof.
  intros Ha Hs Hn Hbe Hd Hf Hf1 Hppn Hn0 Hcps Hsum Hnd v enough layers.
  pose proof (cp_processes_length Hppn) as Hlen. assert (Hnc : n <= cps) by (unfold cps; rewrite <- Hn; nia).
  assert (Hv : 0 < v <= n /\ n <= f * v).
  { destruct (ceil_quot_bounds n f) as (H1 & H2 & H3 & _); [lia..|]. subst v. lia. }
  assert (Hd2 : exists e, d = S (S e)) by (exists (d - 2)%nat; lia). destruct Hd2 as [e He].
  assert (Hlv : start_levels (S d) 1 (Z.of_nat d + 1) n f n = start_layers v n d).
  { rewrite He. replace (Z.of_nat (S (S e)) + 1) with (2 + Z.of_nat (S e)) by lia.
    change (start_levels (S (S (S e))) 1 (2 + Z.of_nat (S e)) n f n) with (v :: start_levels (S (S e)) 2 (2 + Z.of_nat (S e)) n f n).
    rewrite start_levels_layers by lia. by rewrite i32_small by lia. }
  assert (Hok : Forall (fun k => 0 < k < 2 ^ 31) (start_layers v n d)).
  { unfold start_layers. apply Forall_app. split; [apply Forall_replicate; lia|repeat constructor; lia]. }
  assert (Hpos : Forall (fun k => 0 < k) (start_layers v n d)) by (eapply Forall_impl; [exact Hok|]; intros ? [? ?]; done).
  pose proof (start_layers_total v n d) as Htot.
  destruct (start_spec_layers (start_layers v n d)) as [Hne Hat]; [by unfold start_layers; destruct (replicate d v)|done|].
  assert (Hspec : topology_spec ceil_root ceil_pow t = (if enough then start_spec (start_layers v n d) else dec cps, total (start_layers v n d))).
  { unfold topology_spec. rewrite Ha, Hs, Hbe. fold cps. rewrite <- Hf, <- Hn, u32_small by lia.
    assert (Hdd : (if dm_top_depth (t_shape t) <? 2 then 2 else dm_top_depth (t_shape t)) = Z.of_nat d) by (destruct (_ <? 2) eqn:E; bools; lia).
    rewrite Hdd. rewrite (proj2 (Z.eqb_neq (Z.of_nat d) 0)) by lia. cbn [fst snd].
    replace (Z.to_nat (Z.of_nat d + 1)) with (S d) by lia. rewrite Hlv. unfold sum_layers. rewrite sum_layers_total by (done || lia).
    rewrite Z.add_0_l, Htot. done. }
  destruct (atoi_dec cps ltac:(lia)) as (Hac & _ & Hdc). destruct (dec_digits cps) as (_ & _ & Hcne & _); [lia|].
  assert (Hlok : Forall (fun l => 0 < l) layers /\ Forall (fun l => 0 < l < 2 ^ 32) layers /\ total layers <= cps /\ total layers <= total (start_layers v n d)).
  { subst layers enough. destruct (_ <=? cps) eqn:E; bools.
    - split_and!; [done| |lia|done]. eapply Forall_impl; [exact Hok|]. cbn. intros ? [? ?]. lia.
    - split_and!; [by repeat constructor; lia|by repeat constructor; lia|cbn; lia|cbn; lia]. }
  destruct Hlok as (Hlp & Hlp' & Ht1 & Ht2).
  destruct (tree_edges_tree layers [root_process] cp_processes ltac:(done) Hlp ltac:(lia)) as [E1 E2].
  exists (tree_edges layers [root_process] cp_processes). split_and!; [..|by apply processes_distinct|].
  - apply create_file with (1 := Hspec); try done; [..|lia].
    + by destruct enough.
    + subst layers. destruct enough; [done|]. rewrite split_dash_word; [cbn; by rewrite Hac|].
      intros Hin. apply Hdc, elem_of_app. by right.
  - rewrite E2; [done|]. subst layers. destruct enough; [|done]. unfold start_layers. by destruct (replicate d v).
  - done.
  - intros Hen. rewrite E1. subst layers. rewrite Hen in *. split.
    + rewrite He in *. change (start_layers v n (S (S e))) with (v :: start_layers v n (S e)). cbn [tree_edges deal app tail].
      apply start_children; [lia..| |]; rewrite ?length_take, ?length_drop; lia.
    + rewrite Htot, Z2Nat.inj_add by nia. rewrite <- take_drop_commute.
      replace (Z.to_nat n) with (length nodes) by lia.
      apply one_per_node. unfold cps in Ht1. nia.
Qed.
End file.

(** ** Enough processes for the backends *)
Section capacity.
Context (ceil_root ceil_pow : Z -> Z -> Z).
(** What is relied on of pow() with the exponent 1/d, rounded up, for a million nodes and
    the depths that occur: it is not too small. *)
Context (Hroot1 : forall n, 1 <= n <= 2 ^ 20 -> ceil_root n 1 = n).
Context (Hroot : forall n d, 1 <= n <= 2 ^ 20 -> 1 <= d <= 4 -> 1 <= ceil_root n d <= n /\ n <= ceil_root n d ^ d).
Context (Hroot4 : forall n, 1 <= n <= 2 ^ 20 -> ceil_root n 4 <= desiredMaxFanout).

Lemma find_depth_reaches n rounds : 1 <= n <= 2 ^ 20 -> forall d fanout, 1 <= d <= 4 -> 4 - d < Z.of_nat rounds ->
  let r := find_depth ceil_root rounds n desiredMaxFanout d fanout in
  d <= r.1 <= 4 /\ 1 <= r.2 <= n /\ n <= r.2 ^ r.1 /\ r.2 <= desiredMaxFanout.
Proof.
  intros Hn. induction rounds as [|rounds IH]; intros d fanout Hd Hr; [lia|]. cbn [find_depth].
  destruct (Hroot n d Hn Hd) as [Hb Hle]. destruct (_ <=? desiredMaxFanout) eqn:E; bools; [cbn; by split_and!; lia|].
  destruct (decide (d = 4)) as [->|]; [specialize (Hroot4 n Hn); lia|].
  destruct (IH (d + 1) (ceil_root n d)) as (H1 & H2 & H3); [lia..|]. split; [lia|done].
Qed.

Lemma find_depth_one n rounds fanout : 1 <= n <= 2 ^ 20 -> 4 - 1 < Z.of_nat rounds ->
  let r := find_depth ceil_root rounds n desiredMaxFanout 1 fanout in 1 < r.1 \/ r = (1, n).
Proof.
  intros Hn Hr. destruct rounds as [|rounds]; [lia|]. cbn [find_depth]. rewrite Hroot1 by done.
  destruct (n <=? desiredMaxFanout) eqn:E; bools; [by right|]. left.
  pose proof (find_depth_reaches n rounds Hn (1 + 1) n ltac:(lia) ltac:(lia)) as H2. cbv zeta in H2. lia.
Qed.

Lemma distribute_all nodes : forall counter numapp cps apps, 1 <= numapp ->
  distribute nodes counter true true (counter + Z.of_nat (length nodes)) numapp cps apps = (cps ++ nodes, apps ++ nodes).
Proof.
  induction nodes as [|n nodes IH]; intros counter numapp cps apps Hn; cbn [distribute]; [by rewrite !app_nil_r|].
  cbn [length]. rewrite (proj2 (Z.eqb_neq (counter + 1) (_ + numapp))) by lia.
  destruct nodes as [|n' nodes].
  - done.
  - rewrite (proj2 (Z.eqb_neq (counter + 1) _)) by (cbn [length]; lia).
    replace (counter + Z.of_nat (S (length (n' :: nodes)))) with (counter + 1 + Z.of_nat (length (n' :: nodes))) by lia.
    rewrite IH by done. by rewrite <- !app_assoc.
Qed.

(** Enough processes for backends that attach. With processes on the nodes of the
    application, at most 32 processes per node and no more backends than processes, the depth and
    fanout chosen give a tree whose last level, or all processes if they do not suffice for
    the tree, need to serve at most 32 backends each, and all nodes are used. *)
Theorem attach_capacity (t : CBTFTopology) :
  let c := t_config t in let a := t_alloc t in let s := t_shape t in
  attach_be_mode c = true -> dm_colocate_mrnet_procs c = true ->
  is_jobid_valid a = true -> is_pbs_valid a || is_slurm_valid a || is_lsf_valid a = true ->
  0 < dm_num_nodes a -> dm_num_app_nodes a = dm_num_nodes a -> Z.of_nat (length (dm_nodelist a)) = dm_num_nodes a ->
  0 < dm_procs_per_node a <= 32 -> dm_cp_nodelist s = [] -> dm_app_nodelist s = [] ->
  0 < dm_top_numbe s <= dm_num_nodes a * dm_procs_per_node a -> dm_top_numbe s <= 2 ^ 20 ->
  exists t', processEnv ceil_root ceil_pow t = Ok t' /\
    dm_cp_nodelist (t_shape t') = dm_nodelist a /\ dm_app_nodelist (t_shape t') = dm_nodelist a /\
    let f := dm_top_fanout (t_shape t') in
    let d := dm_top_depth (t_shape t') in
    1 <= f <= desiredMaxFanout /\ 1 <= d <= 4 /\
    dm_top_numbe s <= desiredMaxFanout * (if total (powers f d) <=? cps t' then f ^ d else cps t').
Proof.
  intros c a s Ha Hco Hj Hv Hn Hna Hnl Hp Hcp Hap Hbe Hmax. unfold processEnv. fold c a s.
  rewrite Hj, Hv, Ha, Hco, Hcp, Hap, Hna. rewrite Z.gtb_ltb, (proj2 (Z.ltb_lt _ _)) by done. cbn [andb].
  rewrite (proj2 (Z.eqb_neq (dm_procs_per_node a) 0)) by lia.
  set (numbe := dm_top_numbe s) in *. set (ppn := dm_procs_per_node a) in *.
  destruct (ceil_quot_bounds numbe desiredMaxFanout) as (Hc1 & Hc2 & Hc3 & Hc4); [done|lia|]. specialize (Hc3 ltac:(lia)).
  set (needed := ceil_quot numbe desiredMaxFanout) in *. unfold desiredMaxFanout in *.
  set (napp := if numbe >? ppn then _ else _).
  assert (Hnapp : 1 <= napp /\ numbe <= napp * ppn /\ napp <= 2 ^ 20).
  { subst napp. destruct (numbe >? ppn) eqn:E; bools; [|lia].
    destruct (ceil_quot_bounds numbe ppn) as (H1 & H2 & H3 & _); [lia..|].
    assert (0 <= numbe / ppn <= numbe) by (split; [apply Z.div_pos|apply Z.div_le_upper_bound]; nia).
    rewrite (i32_small (numbe / ppn)) by lia. fold (ceil_quot numbe ppn). rewrite i32_small by lia. nia. }
  destruct Hnapp as (Hn1 & Hn2 & Hn3).
  assert (Hcap : forall f d, 1 <= f -> 1 <= d -> numbe <= 32 * f ^ d ->
    numbe <= 32 * (if total (powers f d) <=? Z.of_nat (length (dm_nodelist a)) * ppn then f ^ d else Z.of_nat (length (dm_nodelist a)) * ppn)).
  { intros f d _ _ Hfd. destruct (_ <=? _); [done|]. rewrite Hnl. lia. }
  set (df' := if _ =? 1 then _ else _).
  assert (Hdf : 1 <= df'.1 <= 4 /\ 1 <= df'.2 <= desiredMaxFanout /\ numbe <= 32 * df'.2 ^ df'.1).
  { subst df'. assert (Hrounds : (1 < 1023)%nat /\ (4 - 1 < Z.of_nat 1023)) by (split; [apply Nat.ltb_lt|]; reflexivity).
    generalize dependent 1023%nat. intros rounds Hrounds.
    pose proof (find_depth_reaches napp rounds ltac:(lia) 1 0 ltac:(lia) ltac:(lia)) as (H1 & H2 & H3 & H4).
    destruct (find_depth_one napp rounds 0) as [Hone|Hone]; [lia|lia| |].
    all: unfold desiredMaxFanout in *; destruct (find_depth ceil_root rounds napp 32 1 0) as [dd fan]; cbn [fst snd] in *.
    - rewrite (proj2 (Z.eqb_neq dd 1)) by lia. cbn [fst snd]. nia.
    - injection Hone as -> ->. rewrite Z.eqb_refl.
      destruct (ceil_quot_bounds needed 32) as (Q1 & Q2 & Q3 & Q4); [lia..|].
      rewrite (i32_small (ceil_quot _ _)) by lia.
      destruct (_ >? 1) eqn:E2; bools; cbn [fst snd]; [rewrite Z.pow_2_r; nia|].
      rewrite i32_small by lia. rewrite Z.pow_1_r. lia. }
  destruct Hdf as (Hd1 & Hf1 & Hfd). unfold desiredMaxFanout in *.
  eexists. split; [done|]. cbn [t_shape t_alloc dm_cp_nodelist dm_app_nodelist dm_top_fanout dm_top_depth].
  pose proof (distribute_all (dm_nodelist a) 0 (u32 napp) [] []) as Hdist. rewrite Z.add_0_l, Hnl in Hdist.
  rewrite (u32_small napp) in Hdist |- * by lia. rewrite Hdist by lia. cbn [fst snd app]. rewrite (u32_small df'.2) by lia.
  split_and!; [done|done|lia..|]. apply Hcap; lia.
Qed.
End capacity.

(** ** Examples *)
(** The least fanout with which a tree of depth [d] has [n] leaves *)
Fixpoint root_from (k : nat) (f n d : Z) : Z :=
  match k with O => f | S k' => if n <=? f ^ d then f else root_from k' (f + 1) n d end.
Definition exact_root (n d : Z) : Z := root_from (Z.to_nat (n - 1)) 1 n d.

Lemma root_from_least k d : 1 <= d -> forall f n, 1 <= f -> n <= f + Z.of_nat k -> f = 1 \/ (f - 1) ^ d < n ->
  let r := root_from k f n d in f <= r <= f + Z.of_nat k /\ n <= r ^ d /\ (r = 1 \/ (r - 1) ^ d < n).
Proof.
  intros Hd. induction k as [|k IH]; intros f n Hf Hn Hl; cbn [root_from].
  - split; [lia|]. split; [|done]. replace d with (1 + (d - 1)) by lia. rewrite Z.pow_add_r, Z.pow_1_r by lia.
    assert (0 < f ^ (d - 1)) by (apply Z.pow_pos_nonneg; lia). nia.
  - destruct (n <=? f ^ d) eqn:E; bools; [split; [lia|done]|].
    destruct (IH (f + 1) n) as (H1 & H2 & H3); [lia|lia|right; replace (f + 1 - 1) with f by lia; lia|]. split; [lia|done].
Qed.

Lemma exact_root_ok n d : 1 <= n -> 1 <= d ->
  1 <= exact_root n d <= n /\ n <= exact_root n d ^ d /\ (exact_root n d = 1 \/ (exact_root n d - 1) ^ d < n).
Proof.
  intros Hn Hd. destruct (root_from_least (Z.to_nat (n - 1)) d Hd 1 n) as (H1 & H2 & H3); [lia..|by left|].
  unfold exact_root. split_and!; [lia|lia|done|done].
Qed.

Lemma exact_root_1 n : 1 <= n -> exact_root n 1 = n.
Proof. intros Hn. destruct (exact_root_ok n 1) as (H1 & H2 & H3); [lia..|]. rewrite !Z.pow_1_r in *. lia. Qed.

Lemma exact_root_4 n : 1 <= n <= 2 ^ 20 -> exact_root n 4 <= desiredMaxFanout.
Proof.
  intros Hn. destruct (exact_root_ok n 4) as (H1 & H2 & H3); [lia..|]. unfold desiredMaxFanout. destruct H3 as [->|H3]; [lia|].
  apply Z.nlt_ge. intros H. assert (32 ^ 4 <= (exact_root n 4 - 1) ^ 4) by (apply Z.pow_le_mono_l; lia).
  change (32 ^ 4) with (2 ^ 20) in *. lia.
Qed.

Definition example_nodes (n : nat) : list cstr := (fun i => str "n" ++ dec i) <$> seqZ 0 (Z.of_nat n).
Definition example_topology (attach : bool) (n : nat) (ppn numbe depth fanout : Z) : CBTFTopology :=
  mkTopology (mkConfig [] (str "n0") false attach true)
    (mkAlloc false true false true 17 (Z.of_nat n) 0 ppn (Z.of_nat n) (example_nodes n))
    (mkShape depth fanout numbe (example_nodes n) []).
Definition without_nodes (t : CBTFTopology) : CBTFTopology :=
  mkTopology (t_config t) (t_alloc t) (mkShape (dm_top_depth (t_shape t)) (dm_top_fanout (t_shape t)) (dm_top_numbe (t_shape t)) [] []).

(** Three nodes with four processes each, a tree of depth 2 with fanout 3 *)
Example attach_file :
  createTopology exact_root Z.pow (example_topology true 3 4 12 2 3) =
  Some (str "n0:0 =>" ++ [NL; TAB] ++ str "n0:1" ++ [NL; TAB] ++ str "n1:0" ++ [NL; TAB] ++ str "n2:0" ++ str ";" ++ [NL; NL] ++
        str "n0:1 =>" ++ [NL; TAB] ++ str "n0:2" ++ [NL; TAB] ++ str "n1:1" ++ [NL; TAB] ++ str "n2:1" ++ str ";" ++ [NL; NL] ++
        str "n1:0 =>" ++ [NL; TAB] ++ str "n0:3" ++ [NL; TAB] ++ str "n1:2" ++ [NL; TAB] ++ str "n2:2" ++ str ";" ++ [NL; NL] ++
        str "n2:0 =>" ++ [NL; TAB] ++ str "n0:4" ++ [NL; TAB] ++ str "n1:3" ++ [NL; TAB] ++ str "n2:3" ++ str ";" ++ [NL; NL]).
Proof. vm_compute. reflexivity. Qed.

(** With more than 32 processes on a node the processes of the last level have to serve more
    than 32 backends each: 36 of them for 2112 backends. *)
Example crowded :
  (fun t => (dm_top_depth (t_shape t), dm_top_fanout (t_shape t))) <$>
    match processEnv exact_root Z.pow (without_nodes (example_topology true 33 64 2112 0 0)) with Ok t => Some t | _ => None end
  = Some (2, 6).
Proof. vm_compute. reflexivity. Qed.

Lemma example_nodes_nodup n : NoDup (example_nodes n).
Proof.
  unfold example_nodes. apply NoDup_fmap_2_strong; [|apply NoDup_seqZ]. intros x y Hx Hy H. apply elem_of_seqZ in Hx, Hy.
  apply app_inv_head, (f_equal value) in H. destruct (dec_digits x) as (_ & E1 & _), (dec_digits y) as (_ & E2 & _); lia.
Qed.

Definition attach_example : CBTFTopology := example_topology true 3 4 12 2 3.
Lemma attach_topology_witness : exists edges,
  createTopology exact_root Z.pow attach_example = Some (concat (entry <$> edges)) /\
  length edges = 4%nat /\ Forall (fun e => Z.of_nat (length e.2) = 3) edges.
Proof.
  destruct (attach_topology exact_root Z.pow attach_example 3 2) as (edges & H1 & H2 & _ & H4 & _);
    [reflexivity|reflexivity|reflexivity|reflexivity|lia|lia|reflexivity|reflexivity|reflexivity|split; reflexivity|apply example_nodes_nodup|].
  exists edges. split; [exact H1|]. split; [|exact H4]. apply (f_equal length) in H2. rewrite length_fmap in H2. exact H2.
Defined.

Definition start_example : CBTFTopology := example_topology false 5 4 5 2 2.
Lemma start_topology_witness : exists edges,
  createTopology exact_root Z.pow start_example = Some (concat (entry <$> edges)) /\
  length edges = 7%nat /\ Forall (fun e => Z.of_nat (length e.2) <= 2) (tail edges).
Proof.
  destruct (start_topology exact_root Z.pow start_example 5 2 2) as (edges & H1 & H2 & _ & _ & H4);
    [reflexivity|reflexivity|reflexivity|reflexivity|reflexivity|reflexivity|lia|reflexivity|lia|reflexivity|reflexivity|apply example_nodes_nodup|].
  exists edges. split; [exact H1|]. split; [|apply H4; reflexivity]. apply (f_equal length) in H2. rewrite length_fmap in H2. exact H2.
Defined.

Definition capacity_example : CBTFTopology := without_nodes (example_topology true 5 16 80 0 0).
Lemma attach_capacity_witness : exists t', processEnv exact_root Z.pow capacity_example = Ok t' /\
  80 <= desiredMaxFanout * (let f := dm_top_fanout (t_shape t') in let d := dm_top_depth (t_shape t') in
                            if total (powers f d) <=? cps t' then f ^ d else cps t').
Proof.
  destruct (attach_capacity exact_root Z.pow (fun n H => exact_root_1 n (proj1 H))
    (fun n d Hn Hd => match exact_root_ok n d (proj1 Hn) (proj1 Hd) with conj H1 (conj H2 _) => conj H1 H2 end)
    exact_root_4 capacity_example) as (t' & H1 & _ & _ & _ & _ & H2);
    [reflexivity|reflexivity|reflexivity|reflexivity|reflexivity|reflexivity|reflexivity
    |split; [reflexivity|discriminate]|reflexivity|reflexivity|split; [reflexivity|discriminate]|discriminate|].
  exists t'. split; [exact H1|exact H2].
Defined.
