(* ===== verification/SortedMap.v ===== *)
(** std::map as a list of entries in the order of the keys: the first entry whose key is
    not less is the one a key belongs to. Keys that are neither less nor greater are the
    same to the map; for numbers, strings and names they are equal, for address ranges
    they overlap. *)
From stdpp Require Import sorting.
From S2P Require Import Prelude ThreadName.

Lemma mapM_exists {A B} (g : A -> outcome B) (P : A -> B -> Prop) l :
  Forall (fun x => exists y, g x = Ok y /\ P x y) l -> exists ys, mapM g l = Ok ys /\ Forall2 P l ys.
Proof.
  induction 1 as [|x l (y & Hy & HP) _ (ys & IH1 & IH2)]; [by exists []|]. exists (y :: ys). split; [|by constructor].
  change (mapM g (x :: l)) with (y ← g x; k ← mapM g l; Ok (y :: k)). by rewrite Hy, bind_of_Ok, IH1.
Qed.

Section map.
Context {K V : Type} (ltb : K -> K -> bool).
Implicit Types m : list (K * V).

Fixpoint sm_find (k : K) m : option V :=
  match m with
  | [] => None
  | (k', v) :: m' => if ltb k' k then sm_find k m' else if ltb k k' then None else Some v
  end.

(** find(), then insert() or an assignment to the entry found *)
Fixpoint sm_upsert (k : K) (v : V) (f : V -> V) m : list (K * V) :=
  match m with
  | [] => [(k, v)]
  | (k', v') :: m' =>
      if ltb k' k then (k', v') :: sm_upsert k v f m'
      else if ltb k k' then (k, v) :: m
      else (k', f v') :: m'
  end.
Definition sm_insert (k : K) (v : V) m : list (K * V) := sm_upsert k v (fun old => old) m.

(** A loop of such updates *)
Definition sm_reduce (op : V -> V -> V) (l : list (K * V)) m : list (K * V) :=
  foldl (fun m e => sm_upsert e.1 e.2 (fun old => op old e.2) m) m l.

Definition sm_sorted m : Prop := StronglySorted (fun a b => ltb a.1 b.1 = true) m.
End map.

(** ** Keys that are the same only if they are equal *)
Class TotalKeys {K} (ltb : K -> K -> bool) : Prop := {
  tk_irrefl a : ltb a a = false;
  tk_trans a b c : ltb a b = true -> ltb b c = true -> ltb a c = true;
  tk_total a b : ltb a b = false -> ltb b a = false -> a = b }.

#[export] Instance Z_keys : TotalKeys Z.ltb.
Proof. split; intros; rewrite ?Z.ltb_lt, ?Z.ltb_ge in *; lia. Qed.

#[export] Instance string_keys : TotalKeys str_ltb.
Proof.
  split; [apply str_ltb_irrefl|apply str_ltb_trans|].
  intros a b Hab Hba. destruct (str_ltb_spec a b) as [(H & _)|[(_ & H & _)|(_ & _ & H)]]; congruence.
Qed.

(** The value a list of updates leaves for a key *)
Definition merged_value {V} (op : V -> V -> V) (o : option V) (v : V) : option V :=
  Some (match o with Some old => op old v | None => v end).

Section total.
Context {K V : Type} (ltb : K -> K -> bool) `{!TotalKeys ltb} `{!EqDecision K}.
Implicit Types m : list (K * V).
Notation find := (sm_find ltb).
Notation upsert := (sm_upsert ltb).
Notation sorted := (sm_sorted ltb).

Lemma tk_asym a b : ltb a b = true -> ltb b a = false.
Proof.
  intros Hab. destruct (ltb b a) eqn:Hba; [|done]. pose proof (tk_trans a b a Hab Hba) as H. by rewrite tk_irrefl in H.
Qed.

Lemma sorted_inv k v m : sorted ((k, v) :: m) -> sorted m /\ forall k' v', (k', v') ∈ m -> ltb k k' = true.
Proof.
  intros H. apply StronglySorted_inv in H as [H1 H2]. split; [done|]. intros k' v' Hin.
  by apply (proj1 (Forall_forall _ _) H2) in Hin.
Qed.

Lemma find_in k v m : sorted m -> find k m = Some v <-> (k, v) ∈ m.
Proof.
  induction m as [|[k' v'] m IH]; intros Hs; [by split; [|intros ?%not_elem_of_nil]|].
  destruct (sorted_inv _ _ _ Hs) as [Hs' Hlt]. rewrite elem_of_cons. cbn [sm_find].
  destruct (ltb k' k) eqn:H1; [|destruct (ltb k k') eqn:H2].
  - rewrite IH by done. split; [by right|]. intros [H|H]; [|done]. simplify_eq. by rewrite tk_irrefl in H1.
  - split; [done|]. intros [H|H]; simplify_eq; [by rewrite tk_irrefl in H2|].
    apply Hlt in H. congruence.
  - rewrite (tk_total k k') in * by done. split; [intros [= ->]; by left|]. intros [H|H]; [by simplify_eq|].
    apply Hlt in H. by rewrite tk_irrefl in H.
Qed.

Lemma find_below k m : (forall k' v', (k', v') ∈ m -> ltb k k' = true) -> find k m = None.
Proof.
  destruct m as [|[k' v'] m]; [done|]. intros H. specialize (H k' v' ltac:(left)). cbn. by rewrite (tk_asym _ _ H), H.
Qed.

Lemma find_upsert k k' v f m : sorted m ->
  find k (upsert k' v f m) = if decide (k = k') then Some (match find k m with Some old => f old | None => v end) else find k m.
Proof.
  induction m as [|[k1 v1] m IH]; intros Hs.
  - cbn. destruct (decide (k = k')) as [->|Hne]; [by rewrite tk_irrefl|].
    destruct (ltb k' k) eqn:H1; [done|]. destruct (ltb k k') eqn:H2; [done|]. by destruct Hne; apply tk_total.
  - destruct (sorted_inv _ _ _ Hs) as [Hs' Hlt]. cbn [sm_upsert]. destruct (ltb k1 k') eqn:H1; [|destruct (ltb k' k1) eqn:H2].
    + cbn [sm_find]. destruct (ltb k1 k) eqn:H3; [by apply IH|]. rewrite decide_False; [done|].
      intros ->. congruence.
    + assert (Hn : find k' ((k1, v1) :: m) = None) by (cbn; by rewrite H1, H2).
      change (find k ((k', v) :: (k1, v1) :: m)) with
        (if ltb k' k then find k ((k1, v1) :: m) else if ltb k k' then None else Some v).
      destruct (decide (k = k')) as [->|Hne]; [by rewrite tk_irrefl, Hn|]. destruct (ltb k' k) eqn:H3; [done|].
      destruct (ltb k k') eqn:H4; [|by destruct Hne; apply tk_total]. symmetry. apply find_below.
      intros k2 v2 H. apply elem_of_cons in H as [H|H]; simplify_eq; [by apply tk_trans with k'|].
      apply tk_trans with k1; [by apply tk_trans with k'|by apply Hlt in H].
    + pose proof (tk_total _ _ H1 H2) as <-. cbn [sm_find]. destruct (decide (k = k1)) as [->|Hne]; [by rewrite tk_irrefl|].
      destruct (ltb k1 k) eqn:H3; [done|]. destruct (ltb k k1) eqn:H4; [done|]. by destruct Hne; apply tk_total.
Qed.

Lemma upsert_keys k v f m k' v' : (k', v') ∈ upsert k v f m -> k' = k \/ exists v1, (k', v1) ∈ m.
Proof.
  induction m as [|[k1 v1] m IH]; cbn [sm_upsert]; [intros H%list_elem_of_singleton; left; congruence|].
  destruct (ltb k1 k) eqn:H1; [|destruct (ltb k k1) eqn:H2]; intros H; apply elem_of_cons in H as [H|H]; simplify_eq.
  - right. exists v1. left.
  - apply IH in H as [?|[v2 H]]; [by left|]. right. exists v2. by right.
  - by left.
  - right. by exists v'.
  - right. exists v1. left.
  - right. exists v'. by right.
Qed.

Lemma upsert_sorted k v f m : sorted m -> sorted (upsert k v f m).
Proof.
  induction m as [|[k1 v1] m IH]; intros Hs; [by repeat constructor|]. destruct (sorted_inv _ _ _ Hs) as [Hs' Hlt].
  cbn [sm_upsert]. destruct (ltb k1 k) eqn:H1; [|destruct (ltb k k1) eqn:H2].
  - constructor; [by apply IH|]. apply Forall_forall. intros [k2 v2] Hin. cbn. apply upsert_keys in Hin as [->|[v3 Hin]]; [done|].
    by apply Hlt in Hin.
  - constructor; [done|]. apply Forall_forall. intros [k2 v2] Hin. cbn. apply elem_of_cons in Hin as [Hin|Hin]; [by simplify_eq|].
    apply Hlt in Hin. by apply tk_trans with k1.
  - constructor; [done|]. by apply StronglySorted_inv in Hs as [_ ?].
Qed.

Lemma reduce_sorted op l : forall m, sorted m -> sorted (sm_reduce ltb op l m).
Proof. induction l as [|e l IH]; intros m Hm; [done|]. apply IH. by apply upsert_sorted. Qed.

(** What a loop of updates leaves is what the updates of the key leave. *)
Lemma find_reduce op l k : forall m, sorted m ->
  find k (sm_reduce ltb op l m) = foldl (merged_value op) (find k m) (filter (fun e => e.1 = k) l).*2.
Proof.
  induction l as [|[k' v] l IH]; intros m Hm; [done|]. change (sm_reduce ltb op ((k', v) :: l) m) with
    (sm_reduce ltb op l (upsert k' v (fun old => op old v) m)).
  rewrite IH by (by apply upsert_sorted). rewrite filter_cons, find_upsert by done. cbn [fst snd].
  destruct (decide (k = k')) as [->|Hne]; [by rewrite decide_True|by rewrite decide_False].
Qed.
End total.
