(* ===== verification/AddressBitmap.v ===== *)
(** Bitmaps over ranges of addresses (core/src/AddressBitmap.cpp), with the ranges of
    core/include/.../Address.hpp and Interval.hpp: a bitmap is read back from its blob, and
    its contiguous ranges are the maximal runs of a value. Addresses are numbers
    below 2^64. *)
From stdpp Require Import sorting.
From S2P Require Import Prelude FlatTopology LinkedObjects SortedMap.

(** ** Address and AddressRange *)
Definition i64 (z : Z) : Z := (z + 2 ^ 63) mod 2 ^ 64 - 2 ^ 63.
Lemma i64_small z : - 2 ^ 63 <= z < 2 ^ 63 -> i64 z = z.
Proof. intros H. unfold i64. rewrite Z.mod_small; lia. Qed.

(** Address::operator- asserts that the difference is representable. *)
Definition address_sub (a b : Z) : outcome Z :=
  let result := i64 (a - b) in
  _ ← Assert ((b <? a) || (result <=? 0));
  _ ← Assert ((a <? b) || (0 <=? result));
  Ok result.
(** Address::operator+= for two addresses *)
Definition address_add (a b : Z) : outcome Z :=
  let result := u64 (a + b) in _ ← Assert (a <=? result); Ok result.

Definition getWidth (r : Z * Z) : Z := u64 (r.2 - r.1).
Definition doesContain (r : Z * Z) (a : Z) : bool := (r.1 <=? a) && (a <? r.2).
Definition doesContain_range (r s : Z * Z) : outcome bool :=
  if doesContain r s.1 then last ← address_sub s.2 1; Ok (doesContain r (u64 last)) else Ok false.
(** std::less<AddressRange>: ranges that overlap are the same to a std::map. *)
Definition range_ltb (a b : Z * Z) : bool := a.2 <=? b.1.

Lemma address_sub_small a b : 0 <= b <= a -> a < 2 ^ 63 -> address_sub a b = Ok (a - b).
Proof.
  intros H1 H2. unfold address_sub. rewrite i64_small by lia.
  destruct (b <? a) eqn:E1; bools; cbn; rewrite ?(proj2 (Z.leb_le 0 (a - b))) by lia; rewrite ?orb_true_r; [done|].
  by rewrite (proj2 (Z.leb_le (a - b) 0)) by lia.
Qed.

Lemma doesContain_true r a : doesContain r a = true <-> r.1 <= a < r.2.
Proof. unfold doesContain. rewrite andb_true_iff, Z.leb_le, Z.ltb_lt. done. Qed.

(** ** The class *)
Record AddressBitmap := mkBitmap { bm_range : Z * Z; bm_bitmap : list bool }.

Definition empty_bitmap (range : Z * Z) : AddressBitmap := mkBitmap range (replicate (Z.to_nat (getWidth range)) false).

(** The loop counter has 32 bits. *)
Definition bitmap_of_blob (range : Z * Z) (contents : list Z) : outcome AddressBitmap :=
  _ ← Assert (getWidth range / 8 <=? Z.of_nat (length contents));
  if 2 ^ 32 <=? getWidth range then Diverged
  else
    bits ← mapM (fun i => c ← arr_get contents (i / 8); Ok (Z.testbit c (i mod 8))) (seqZ 0 (getWidth range));
    Ok (mkBitmap range bits).

Definition setValue (b : AddressBitmap) (address : Z) (value : bool) : outcome AddressBitmap :=
  _ ← Assert (doesContain (bm_range b) address);
  i ← address_sub address (bm_range b).1;
  bits ← arr_set (bm_bitmap b) i value;
  Ok (mkBitmap (bm_range b) bits).

Definition getValue (b : AddressBitmap) (address : Z) : outcome bool :=
  _ ← Assert (doesContain (bm_range b) address);
  i ← address_sub address (bm_range b).1;
  arr_get (bm_bitmap b) i.

Fixpoint put_bits (bits : list bool) (i : Z) (contents : list Z) : outcome (list Z) :=
  match bits with
  | [] => Ok contents
  | b :: bits' =>
      contents' ← (if (b : bool) then c ← arr_get contents (i / 8); arr_set contents (i / 8) (Z.lor c (Z.shiftl 1 (i mod 8)))
                   else Ok contents);
      put_bits bits' (i + 1) contents'
  end.

(** From a width of 2^32 on the loop does not end, or it writes past the end of the array,
    whose size is reduced to 32 bits. *)
Definition getBlob (b : AddressBitmap) : outcome (list Z) :=
  let size := u32 (u64 (getWidth (bm_range b) - 1) / 8 + 1) in
  if 2 ^ 32 <=? getWidth (bm_range b) then Diverged
  else put_bits (bm_bitmap b) 0 (replicate (Z.to_nat size) 0).

Fixpoint ranges_loop (n : nat) (b : AddressBitmap) (value : bool) (i : Z) (in_range : bool) (range_begin : Z)
    (ranges : list ((Z * Z) * unit)) : outcome (bool * Z * list ((Z * Z) * unit)) :=
  match n with
  | O => Ok (in_range, range_begin, ranges)
  | S n' =>
      x ← getValue b i;
      if negb in_range && Bool.eqb x value then ranges_loop n' b value (i + 1) true i ranges
      else if in_range && negb (Bool.eqb x value) then
        r ← Interval range_begin i;
        ranges_loop n' b value (i + 1) false range_begin (sm_insert range_ltb r tt ranges)
      else ranges_loop n' b value (i + 1) in_range range_begin ranges
  end.

(** A std::set is a map to unit. *)
Definition getContiguousRanges (b : AddressBitmap) (value : bool) : outcome (list (Z * Z)) :=
  let r := bm_range b in
  s ← ranges_loop (Z.to_nat (getWidth r)) b value r.1 false 0 [];
  let '(in_range, range_begin, ranges) := s in
  if (in_range : bool) then r ← Interval range_begin r.2; Ok (sm_insert range_ltb r tt ranges).*1
  else Ok ranges.*1.

(** A bitmap of an address range, as all constructors but the default ones make them *)
Definition bitmap_ok (b : AddressBitmap) : Prop :=
  0 <= (bm_range b).1 < (bm_range b).2 /\ (bm_range b).2 < 2 ^ 63 /\
  Z.of_nat (length (bm_bitmap b)) = (bm_range b).2 - (bm_range b).1.

Lemma width_ok b : bitmap_ok b -> getWidth (bm_range b) = (bm_range b).2 - (bm_range b).1.
Proof. intros (H1 & H2 & _). unfold getWidth. apply u64_small. lia. Qed.

Lemma bit_value b a : bitmap_ok b -> (bm_range b).1 <= a < (bm_range b).2 ->
  exists x, getValue b a = Ok x /\ bm_bitmap b !! Z.to_nat (a - (bm_range b).1) = Some x.
Proof.
  intros (H1 & H2 & H3) Ha. unfold getValue. rewrite (proj2 (doesContain_true _ _)) by done. cbn [Assert]. rewrite bind_of_Ok.
  rewrite address_sub_small by lia. rewrite bind_of_Ok. destruct (arr_get_in (bm_bitmap b) (a - (bm_range b).1)) as (x & Hx & Hl); [lia|].
  by exists x.
Qed.

Lemma setValue_ok b a v : bitmap_ok b -> (bm_range b).1 <= a < (bm_range b).2 ->
  setValue b a v = Ok (mkBitmap (bm_range b) (<[Z.to_nat (a - (bm_range b).1) := v]> (bm_bitmap b))).
Proof.
  intros (H1 & H2 & H3) Ha. unfold setValue. rewrite (proj2 (doesContain_true _ _)) by done. cbn [Assert]. rewrite bind_of_Ok.
  rewrite address_sub_small by lia. rewrite bind_of_Ok, arr_set_in by lia. done.
Qed.

(** ** Blobs *)
Definition bit_at (contents : list Z) (j : Z) : bool :=
  match contents !! Z.to_nat (j / 8) with Some c => Z.testbit c (j mod 8) | None => false end.

Lemma put_bit contents i : 0 <= i -> i / 8 < Z.of_nat (length contents) -> exists contents',
  (c ← arr_get contents (i / 8); arr_set contents (i / 8) (Z.lor c (Z.shiftl 1 (i mod 8)))) = Ok contents' /\
  length contents' = length contents /\ forall j, 0 <= j -> bit_at contents' j = bit_at contents j || (j =? i).
Proof.
  intros Hi Hlen. pose proof (Z.div_pos i 8 Hi ltac:(lia)). destruct (arr_get_in contents (i / 8)) as (c & Hc & Hl); [lia|].
  rewrite Hc, bind_of_Ok, arr_set_in by lia. eexists. split; [done|]. split; [by rewrite length_insert|]. intros j Hj.
  pose proof (Z.div_mod i 8 ltac:(lia)) as Hdi. pose proof (Z.div_mod j 8 ltac:(lia)) as Hdj.
  pose proof (Z.mod_pos_bound i 8 ltac:(lia)). pose proof (Z.mod_pos_bound j 8 ltac:(lia)). pose proof (Z.div_pos j 8 Hj ltac:(lia)).
  unfold bit_at. destruct (decide (j / 8 = i / 8)) as [E|E].
  - rewrite E, list_lookup_insert_eq, Hl by (apply Nat2Z.inj_lt; lia). rewrite Z.lor_spec, Z.shiftl_1_l, Z.pow2_bits_eqb by lia.
    f_equal. apply Bool.eq_iff_eq_true. rewrite !Z.eqb_eq. lia.
  - rewrite list_lookup_insert_ne by lia. rewrite (proj2 (Z.eqb_neq j i)) by (intros ->; done). by rewrite orb_false_r.
Qed.

Lemma put_bits_ok bits : forall i contents, 0 <= i -> i + Z.of_nat (length bits) <= 8 * Z.of_nat (length contents) ->
  exists contents', put_bits bits i contents = Ok contents' /\ length contents' = length contents /\
  forall j, 0 <= j -> bit_at contents' j = bit_at contents j || (bool_decide (i <= j) && default false (bits !! Z.to_nat (j - i))).
Proof.
  induction bits as [|b bits IH]; intros i contents Hi Hlen.
  { exists contents. split_and!; [done|done|]. intros j Hj. by rewrite lookup_nil, andb_false_r, orb_false_r. }
  cbn [put_bits length] in *. assert (Hs : exists contents1, (if b then c ← arr_get contents (i / 8); arr_set contents (i / 8) (Z.lor c (Z.shiftl 1 (i mod 8)))
      else Ok contents) = Ok contents1 /\ length contents1 = length contents /\
      forall j, 0 <= j -> bit_at contents1 j = bit_at contents j || ((j =? i) && b)).
  { destruct b.
    - destruct (put_bit contents i Hi) as (c1 & H1 & H2 & H3); [apply Z.div_lt_upper_bound; lia|].
      exists c1. split_and!; [done|done|]. intros j Hj. by rewrite H3, andb_true_r.
    - exists contents. split_and!; [done|done|]. intros j _. by rewrite andb_false_r, orb_false_r. }
  destruct Hs as (c1 & -> & Hl1 & Hb1). rewrite bind_of_Ok. destruct (IH (i + 1) c1) as (c2 & H2 & Hl2 & Hb2); [lia..|].
  exists c2. split_and!; [done|lia|]. intros j Hj. rewrite Hb2, Hb1 by done. rewrite <- orb_assoc. f_equal.
  destruct (decide (j = i)) as [->|Hne].
  - rewrite Z.eqb_refl, Z.sub_diag, (bool_decide_true (i <= i)) by lia. rewrite bool_decide_false by lia. cbn. by rewrite orb_false_r.
  - rewrite (proj2 (Z.eqb_neq j i)) by done. cbn [andb orb]. destruct (decide (i <= j)).
    + rewrite !bool_decide_true by lia. cbn [andb]. replace (Z.to_nat (j - i)) with (S (Z.to_nat (j - (i + 1)))) by lia. done.
    + by rewrite !bool_decide_false by lia.
Qed.

Lemma blob_of_bitmap (b : AddressBitmap) : bitmap_ok b -> (bm_range b).2 - (bm_range b).1 < 2 ^ 32 ->
  exists contents, getBlob b = Ok contents /\
    Z.of_nat (length contents) = ((bm_range b).2 - (bm_range b).1 + 7) / 8 /\ bitmap_of_blob (bm_range b) contents = Ok b.
Proof.
  intros Hok Hw. pose proof Hok as (H1 & H2 & H3). set (w := (bm_range b).2 - (bm_range b).1) in *.
  assert (Hsz : 0 <= (w + 7) / 8 < 2 ^ 32 /\ (w - 1) / 8 + 1 = (w + 7) / 8 /\ w <= 8 * ((w + 7) / 8)).
  { replace (w + 7) with (w - 1 + 1 * 8) by lia. rewrite Z.div_add by lia.
    pose proof (Z.div_mod (w - 1) 8 ltac:(lia)). pose proof (Z.mod_pos_bound (w - 1) 8 ltac:(lia)). lia. }
  unfold getBlob, bitmap_of_blob. rewrite width_ok by done. fold w. rewrite (proj2 (Z.leb_gt (2 ^ 32) w)) by lia.
  rewrite u64_small, u32_small by lia. destruct Hsz as (Hs0 & Hs1 & Hs2). rewrite Hs1.
  destruct (put_bits_ok (bm_bitmap b) 0 (replicate (Z.to_nat ((w + 7) / 8)) 0)) as (contents & Hp & Hl & Hb);
    [lia|rewrite length_replicate; lia|].
  rewrite length_replicate in Hl. exists contents. split; [done|]. split; [lia|].
  rewrite (proj2 (Z.leb_le (w / 8) (Z.of_nat (length contents)))) by (rewrite Hl; pose proof (Z.div_le_mono w (w + 7) 8 ltac:(lia) ltac:(lia)); lia).
  cbn [Assert]. rewrite bind_of_Ok.
  assert (Hbits : mapM (fun i => c ← arr_get contents (i / 8); Ok (Z.testbit c (i mod 8))) (seqZ 0 w) = Ok (bm_bitmap b)).
  { rewrite (mapM_Ok _ (bit_at contents)).
    - f_equal. apply list_eq. intros k. rewrite list_lookup_fmap. destruct (decide (Z.of_nat k < w)) as [Hk|Hk].
      + destruct (lookup_lt_is_Some_2 (bm_bitmap b) k) as [x Hx]; [lia|]. rewrite lookup_seqZ_lt by lia. cbn [fmap option_fmap option_map].
        rewrite Hb by lia. rewrite bool_decide_true by lia. replace (Z.to_nat (0 + Z.of_nat k - 0)) with k by lia. rewrite Hx.
        unfold bit_at. rewrite lookup_replicate_2, Z.bits_0; [done|]. rewrite Z.add_0_l.
        pose proof (Z.div_lt_upper_bound (Z.of_nat k) 8 ((w + 7) / 8) ltac:(lia) ltac:(lia)). pose proof (Z.div_pos (Z.of_nat k) 8 ltac:(lia) ltac:(lia)). lia.
      + rewrite lookup_seqZ_ge by lia. cbn. symmetry. apply lookup_ge_None_2. lia.
    - apply Forall_forall. intros i Hi. apply elem_of_seqZ in Hi. destruct (arr_get_in contents (i / 8)) as (c & Hc & Hlk).
      { split; [apply Z.div_pos; lia|]. rewrite Hl, Z2Nat.id by lia. apply Z.div_lt_upper_bound; lia. }
      rewrite Hc, bind_of_Ok. unfold bit_at. by rewrite Hlk. }
  rewrite Hbits, bind_of_Ok. by destruct b.
Qed.

(** A bitmap is read back from its blob. *)
Theorem bitmap_roundtrip (b : AddressBitmap) : bitmap_ok b -> (bm_range b).2 - (bm_range b).1 < 2 ^ 32 ->
  exists contents, getBlob b = Ok contents /\
    Z.of_nat (length contents) = ((bm_range b).2 - (bm_range b).1 + 7) / 8 /\ bitmap_of_blob (bm_range b) contents = Ok b.
Proof. apply blob_of_bitmap. Qed.

(** The assertion on the size of the blob does not count the last, partial byte. *)
Example short_blob : bitmap_of_blob (4096, 4105) [255] = Fault.
Proof. reflexivity. Qed.

(** ** Contiguous ranges *)
Lemma range_append r l : Forall (fun x : Z * Z * unit => x.1.2 <= r.1) l -> r.1 < r.2 ->
  (sm_insert range_ltb r tt l).*1 = l.*1 ++ [r].
Proof.
  intros Hl Hr. unfold sm_insert. induction Hl as [|[k []] l Hk Hl IH]; [done|]. cbn [sm_upsert].
  unfold range_ltb at 1. cbn [fst] in Hk. rewrite (proj2 (Z.leb_le _ _)) by done. rewrite !fmap_cons, IH. done.
Qed.

Section scan.
Context (b : AddressBitmap) (value : bool) (Hok : bitmap_ok b).
Notation begin := (bm_range b).1.
Notation end_ := (bm_range b).2.

Record scanned (i : Z) (in_range : bool) (range_begin : Z) (ranges : list (Z * Z)) : Prop := {
  sc_values : forall a, begin <= a < i -> getValue b a = Ok value <->
    (exists r, r ∈ ranges /\ r.1 <= a < r.2) \/ in_range = true /\ range_begin <= a;
  sc_bounds : Forall (fun r => begin <= r.1 < r.2 /\ r.2 < (if in_range then range_begin else i)) ranges;
  sc_open : in_range = true -> begin <= range_begin < i;
  sc_maximal : StronglySorted (fun r s => r.2 < s.1) ranges }.

Lemma scan_close i rb ranges : scanned i true rb ranges -> StronglySorted (fun r s => r.2 < s.1) (ranges ++ [(rb, i)]) /\
  Forall (fun r => begin <= r.1 < r.2 /\ r.2 <= i) (ranges ++ [(rb, i)]) /\
  forall a, begin <= a < i -> getValue b a = Ok value <-> exists r, r ∈ ranges ++ [(rb, i)] /\ r.1 <= a < r.2.
Proof.
  intros [Hv Hb Ho Hm]. specialize (Ho eq_refl). split_and!.
  - apply StronglySorted_app_2; [|done|repeat constructor]. intros x y Hx Hy. apply list_elem_of_singleton in Hy as ->.
    apply (proj1 (Forall_forall _ _) Hb) in Hx. cbn in *. lia.
  - apply Forall_app. split; [eapply Forall_impl; [exact Hb|]; cbn; intros r [? ?]; lia|]. repeat constructor; cbn; lia.
  - intros a Ha. rewrite Hv by done. split.
    + intros [(r & Hr & Hin)|[_ H]]; [exists r; split; [apply elem_of_app; by left|done]|].
      exists (rb, i). split; [apply elem_of_app; right; left|cbn; lia].
    + intros (r & Hr & Hin). apply elem_of_app in Hr as [Hr|Hr]; [left; by exists r|]. apply list_elem_of_singleton in Hr as ->.
      right. cbn in Hin. split; [done|lia].
Qed.

Lemma value_step i : begin <= i < end_ -> forall P : Prop, (getValue b i = Ok value <-> P) ->
  forall Q : Z -> Prop, (forall a, begin <= a < i -> getValue b a = Ok value <-> Q a) -> (Q i <-> P) ->
  forall a, begin <= a < i + 1 -> getValue b a = Ok value <-> Q a.
Proof.
  intros Hi P HP Q HQ HQP a Ha. destruct (decide (a = i)) as [->|]; [by rewrite HP, HQP|]. apply HQ. lia.
Qed.

Lemma scan n : forall i in_range rb ranges, begin <= i -> i + Z.of_nat n = end_ -> scanned i in_range rb ranges.*1 ->
  exists in_range' rb' ranges', ranges_loop n b value i in_range rb ranges = Ok (in_range', rb', ranges') /\
    scanned end_ in_range' rb' ranges'.*1.
Proof.
  induction n as [|n IH]; intros i ir rb ranges Hi Hn Hs.
  { replace i with end_ in * by lia. by exists ir, rb, ranges. }
  cbn [ranges_loop]. destruct (bit_value b i Hok ltac:(lia)) as (x & Hx & _). rewrite Hx, bind_of_Ok.
  destruct Hs as [Hv Hb Ho Hm] eqn:Hs'; clear Hs'.
  assert (Hval : getValue b i = Ok value <-> x = value) by (rewrite Hx; split; congruence).
  assert (Hout : ~ exists r, r ∈ ranges.*1 /\ r.1 <= i < r.2).
  { intros (r & Hr & Hin). apply (proj1 (Forall_forall _ _) Hb) in Hr. destruct ir; [specialize (Ho eq_refl)|]; lia. }
  destruct (Bool.eqb x value) eqn:Ex.
  - apply Bool.eqb_prop in Ex. destruct ir; cbn [negb andb].
    + apply IH; [lia..|]. constructor; [|done|intros _; specialize (Ho eq_refl); lia|done].
      specialize (Ho eq_refl). apply (value_step i ltac:(lia) _ Hval); [done|]. split; [done|]. intros _. right. split; [done|lia].
    + apply IH; [lia..|]. constructor; [| |intros _; lia|done].
      * apply (value_step i ltac:(lia) _ Hval).
        -- intros a Ha. rewrite Hv by done. split; [intros [?|[? _]]; [by left|done]|]. intros [?|[_ ?]]; [by left|lia].
        -- split; [done|]. intros _. right. split; [done|lia].
      * done.
  - apply Bool.eqb_false_iff in Ex. destruct ir; cbn [negb andb].
    + specialize (Ho eq_refl). unfold Interval. rewrite (proj2 (Z.ltb_lt rb i)) by lia. cbn [Assert]. rewrite !bind_of_Ok.
      destruct (scan_close i rb ranges.*1) as (Hc1 & Hc2 & Hc3); [by constructor|].
      apply IH; [lia..|]. rewrite range_append; [|apply Forall_fmap in Hb|cbn; lia].
      * constructor; [|eapply Forall_impl; [exact Hc2|]; cbn; intros r [? ?]; lia|done|done].
        apply (value_step i ltac:(lia) _ Hval).
        -- intros a Ha. rewrite Hc3 by done. split; [by left|intros [?|[? _]]; done].
        -- split; [|done]. intros [(r & Hr & Hin)|[? _]]; [|done]. apply (proj1 (Forall_forall _ _) Hc2) in Hr. lia.
      * eapply Forall_impl; [exact Hb|]. cbn. intros [r []] [? ?]. cbn in *. lia.
    + apply IH; [lia..|]. constructor; [| |done|done].
      * apply (value_step i ltac:(lia) _ Hval); [done|]. split; [|done]. intros [?|[? _]]; done.
      * eapply Forall_impl; [exact Hb|]. cbn. intros r [? ?]. lia.
Qed.
End scan.

(** Contiguous ranges. The ranges returned for a value lie in the range of the bitmap and
    have just the addresses with that value; they are in order and there is a gap
    between any two, so that each is as long as possible. *)
Theorem contiguous_ranges (b : AddressBitmap) (value : bool) : bitmap_ok b ->
  exists ranges, getContiguousRanges b value = Ok ranges /\
    (forall a, (bm_range b).1 <= a < (bm_range b).2 -> getValue b a = Ok value <-> exists r, r ∈ ranges /\ r.1 <= a < r.2) /\
    Forall (fun r => (bm_range b).1 <= r.1 < r.2 /\ r.2 <= (bm_range b).2) ranges /\
    StronglySorted (fun r s => r.2 < s.1) ranges.
Proof.
  intros Hok. pose proof Hok as (H1 & H2 & H3). unfold getContiguousRanges. rewrite width_ok by done.
  destruct (scan b value Hok (Z.to_nat ((bm_range b).2 - (bm_range b).1)) (bm_range b).1 false 0 []) as (ir & rb & ranges & -> & Hs);
    [lia|lia|constructor; [lia|constructor|done|constructor]|].
  rewrite bind_of_Ok. destruct ir.
  - destruct (scan_close b value _ _ _ Hs) as (Hc1 & Hc2 & Hc3). destruct Hs as [_ Hb Ho _]. specialize (Ho eq_refl).
    unfold Interval. rewrite (proj2 (Z.ltb_lt rb (bm_range b).2)) by lia. cbn [Assert]. rewrite !bind_of_Ok.
    rewrite range_append; [|apply Forall_fmap in Hb|cbn; lia].
    + by eexists.
    + eapply Forall_impl; [exact Hb|]. cbn. intros [r []] [? ?]. cbn in *. lia.
  - destruct Hs as [Hv Hb _ Hm]. exists ranges.*1. split_and!; [done| | |done].
    + intros a Ha. rewrite Hv by done. split; [intros [?|[? _]]; done|by left].
    + eapply Forall_impl; [exact Hb|]. cbn. intros r [? ?]. lia.
Qed.

Definition example_bitmap : AddressBitmap := mkBitmap (4096, 4106) [true; true; false; true; true; true; false; false; true; false].
Lemma example_bitmap_ok : bitmap_ok example_bitmap.
Proof. split; [cbn; lia|]. split; reflexivity. Qed.

Lemma bitmap_roundtrip_witness : exists contents, getBlob example_bitmap = Ok contents /\ bitmap_of_blob (4096, 4106) contents = Ok example_bitmap.
Proof. destruct (bitmap_roundtrip example_bitmap example_bitmap_ok ltac:(reflexivity)) as (c & H1 & _ & H2). by exists c. Defined.

Lemma contiguous_ranges_witness : exists ranges, getContiguousRanges example_bitmap true = Ok ranges /\ ranges = [(4096, 4098); (4099, 4102); (4104, 4105)] /\
  StronglySorted (fun r s => r.2 < s.1) ranges.
Proof.
  destruct (contiguous_ranges example_bitmap true example_bitmap_ok) as (ranges & H1 & _ & _ & H2). exists ranges. split; [done|].
  split; [|done]. vm_compute in H1. by injection H1 as <-.
Defined.
