(* ===== verification/SymbolTable.v ===== *)
(** Symbol tables (core/src/SymbolTable.cpp), how they are filled from the symbols of a
    linked object (core/src/SymtabAPISymbols.cpp), and the messages that carry them
    (messages/src/symtab/Symbol.x). What the SymtabAPI library knows of an object is a
    parameter. *)
From stdpp Require Import sorting.
From S2P Require Import Prelude PerfData ThreadName FlatTopology Hostlist LinkedObjects SortedMap AddressBitmap.
#[local] Open Scope Z_scope.

(** ** Messages *)
Record CBTF_Protocol_AddressBitmap := mkPBitmap { pb_range : Z * Z; pb_bitmap : list Z }.
Record CBTF_Protocol_FunctionEntry := mkPFunction { pf_name : string; pf_bitmaps : list CBTF_Protocol_AddressBitmap }.
Record CBTF_Protocol_StatementEntry := mkPStatement {
  ps_path : string; ps_line : Z; ps_column : Z; ps_bitmaps : list CBTF_Protocol_AddressBitmap }.
Record CBTF_Protocol_SymbolTable := mkPTable {
  pst_linked_object : string; pst_functions : list CBTF_Protocol_FunctionEntry;
  pst_statements : list CBTF_Protocol_StatementEntry }.

(** ** State *)
Record StatementEntry := mkStatement { dm_path : string; dm_line : Z; dm_column : Z }.
Definition statement_ltb (a b : StatementEntry) : bool :=
  if str_ltb (dm_path a) (dm_path b) then true
  else if str_ltb (dm_path b) (dm_path a) then false
  else if dm_line a <? dm_line b then true
  else if dm_line b <? dm_line a then false
  else dm_column a <? dm_column b.

Record SymbolTable := mkTable {
  dm_range : Z * Z;
  table_functions : list (string * list (Z * Z));
  dm_functions : list ((Z * Z) * string);
  dm_statements : list (StatementEntry * list (Z * Z));
  table_statements : list (StatementEntry * list (Z * Z)) }.

Definition new_SymbolTable (range : Z * Z) : SymbolTable := mkTable range [] [] [] [].

Definition add_range {K} (ltb : K -> K -> bool) (k : K) (r : Z * Z) (m : list (K * list (Z * Z))) : list (K * list (Z * Z)) :=
  sm_upsert ltb k [r] (fun l => l ++ [r]) m.

Definition addFunction (st : SymbolTable) (begin end_ : Z) (name : string) : outcome SymbolTable :=
  if end_ <=? begin then Ok st
  else
    range ← Interval begin end_;
    inside ← doesContain_range (dm_range st) range;
    if negb inside then Ok st
    else match sm_find range_ltb range (dm_functions st) with
         | Some _ => Ok st
         | None => Ok (mkTable (dm_range st) (table_functions st) (sm_insert range_ltb range name (dm_functions st))
                         (dm_statements st) (table_statements st))
         end.

(** The overload with the base address *)
Definition addFunction_at (st : SymbolTable) (begin end_ base : Z) (name : string) : outcome SymbolTable :=
  b ← address_add begin base;
  e ← address_add end_ base;
  st1 ← addFunction st b e name;
  range ← Interval begin end_;
  Ok (mkTable (dm_range st1) (add_range str_ltb name range (table_functions st1)) (dm_functions st1)
        (dm_statements st1) (table_statements st1)).

Definition addStatement (st : SymbolTable) (begin end_ : Z) (path : string) (line column : Z) : outcome SymbolTable :=
  if end_ <=? begin then Ok st
  else
    range ← Interval begin end_;
    inside ← doesContain_range (dm_range st) range;
    if negb inside then Ok st
    else Ok (mkTable (dm_range st) (table_functions st) (dm_functions st)
               (add_range statement_ltb (mkStatement path line column) range (dm_statements st)) (table_statements st)).

(** ** Partitioning of addresses *)
Definition PartitioningCriteria : Z := 8 * (4 + 2 * 8).

(** The set of addresses in the ranges, each of which ends after it begins *)
Definition addresses_of (ranges : list (Z * Z)) : list Z :=
  foldl (fun set a => set_insert a set) [] (concat ((fun r => seqZ r.1 (r.2 - r.1)) <$> ranges)).

(** The position after the widest gap and its width *)
Fixpoint widest_gap (prev : Z) (l : list Z) (k : nat) (widest : nat * Z) : outcome (nat * Z) :=
  match l with
  | [] => Ok widest
  | current :: l' =>
      r ← Interval prev current;
      let gap := i64 (u64 (getWidth r - 1)) in
      widest_gap current l' (S k) (if gap >? widest.2 then (k, gap) else widest)
  end.

(** while (!queue.empty()); what is done with a set that is not divided is [keep]. *)
Fixpoint partition_loop {B} (keep : list Z -> outcome B) (fuel : nat) (queue : list (list Z)) (results : list B) : outcome (list B) :=
  match queue, fuel with
  | [], _ => Ok results
  | _, O => Diverged
  | i :: queue', S fuel' =>
      match i with
      | [] => partition_loop keep fuel' queue' results
      | [_] => b ← keep i; partition_loop keep fuel' queue' (results ++ [b])
      | prev :: rest =>
          w ← widest_gap prev rest 1 (0%nat, 0);
          if w.2 >? PartitioningCriteria then
            partition_loop keep fuel' (queue' ++ [take w.1 i; drop w.1 i]) results
          else b ← keep i; partition_loop keep fuel' queue' (results ++ [b])
      end
  end.

(** AddressBitmap(AddressRange(first, last + 1)) with the value of each address set *)
Fixpoint set_all (addresses : list Z) (b : AddressBitmap) : outcome AddressBitmap :=
  match addresses with
  | [] => Ok b
  | a :: l => b' ← setValue b a true; set_all l b'
  end.
Definition bitmap_of_set (addresses : list Z) : outcome AddressBitmap :=
  range ← Interval (default 0 (head addresses)) (u64 (default 0 (list.last addresses) + 1));
  set_all addresses (empty_bitmap range).

Definition partitionAddressRanges (ranges : list (Z * Z)) : outcome (list AddressBitmap) :=
  let addresses := addresses_of ranges in
  partition_loop bitmap_of_set (2 * length addresses + 1) [addresses] [].

Definition partitionAddressSet (address_set : list Z) : outcome (list (list Z)) :=
  partition_loop (fun i => Ok i) (2 * length address_set + 1) [address_set] [].

(** The bitmaps that are made are not stored anywhere. *)
Definition processAndStore (st : SymbolTable) : outcome unit :=
  _ ← mapM (fun e : (Z * Z) * string =>
        b ← address_sub e.1.1 (dm_range st).1;
        e' ← address_sub e.1.2 (dm_range st).1;
        range ← Interval (u64 b) (u64 e');
        set_all (seqZ (u64 b) (u64 e' - u64 b)) (empty_bitmap range)) (dm_functions st);
  _ ← mapM (fun e : StatementEntry * list (Z * Z) =>
        ds ← mapM (fun k => d ← address_sub k (dm_range st).1; Ok (u64 d)) (addresses_of e.2);
        sets ← partitionAddressSet (foldl (fun set a => set_insert a set) [] ds);
        mapM bitmap_of_set sets) (dm_statements st);
  Ok tt.

(** ** operator CBTF_Protocol_SymbolTable(): the file name is left to the caller. *)
Definition convert_bitmap (b : AddressBitmap) : outcome CBTF_Protocol_AddressBitmap :=
  blob ← getBlob b; Ok (mkPBitmap (bm_range b) blob).

Definition to_protocol (linked_object : string) (st : SymbolTable) : outcome CBTF_Protocol_SymbolTable :=
  functions ← mapM (fun e : string * list (Z * Z) =>
    bitmaps ← partitionAddressRanges e.2;
    converted ← mapM convert_bitmap bitmaps;
    Ok (mkPFunction e.1 converted)) (table_functions st);
  statements ← mapM (fun e : StatementEntry * list (Z * Z) =>
    bitmaps ← partitionAddressRanges e.2;
    converted ← mapM convert_bitmap bitmaps;
    Ok (mkPStatement (dm_path e.1) (dm_line e.1) (dm_column e.1) converted)) (table_statements st);
  Ok (mkPTable linked_object functions statements).

(** ** The symbols of a linked object *)
Record source_line := mkLine { ln_file : string; ln_line : Z; ln_column : Z; ln_start : Z; ln_end : Z }.
(** What SymtabAPI finds in a file: the image, the functions with the name of their first symbol,
    offset and size, and the source lines of an offset in each module *)
Record Symtab := mkSymtab {
  sy_imageOffset : Z; sy_imageLength : Z; sy_functions : list (string * Z * Z);
  sy_modules : list (Z -> list source_line) }.

Section symbols.
Context (openFile : string -> option Symtab).

Fixpoint any_in (frange : Z * Z) (addrs : list Z) (base : Z) : outcome bool :=
  match addrs with
  | [] => Ok false
  | a :: addrs' => d ← address_sub a base; if doesContain frange (u64 d) then Ok true else any_in frange addrs' base
  end.

(** The functions with a sampled address, and their beginnings *)
Fixpoint add_functions (fs : list (string * Z * Z)) (addrs : list Z) (base : Z) (begins : list Z) (st : SymbolTable)
    : outcome (list Z * SymbolTable) :=
  match fs with
  | [] => Ok (begins, st)
  | (name, offset, size) :: fs' =>
      let begin := offset in
      let end_ := u64 (begin + i32 size) in
      if end_ <=? begin then add_functions fs' addrs base begins st
      else
        frange ← Interval begin end_;
        found ← any_in frange addrs base;
        if (found : bool) then
          st' ← addFunction_at st begin end_ base name;
          add_functions fs' addrs base (set_insert begin begins) st'
        else add_functions fs' addrs base begins st
  end.

Fixpoint add_lines (lines : list source_line) (base : Z) (st : SymbolTable) : outcome SymbolTable :=
  match lines with
  | [] => Ok st
  | l :: lines' =>
      b ← address_add (ln_start l) base;
      e ← address_add (ln_end l) base;
      st' ← addStatement st b e (ln_file l) (ln_line l) (ln_column l);
      add_lines lines' base st'
  end.

(** The statements of addresses: the base is subtracted, also from the beginnings of
    functions, which are relative to the image already. *)
Fixpoint add_statements (mods : list (Z -> list source_line)) (addrs : list Z) (base : Z) (st : SymbolTable) : outcome SymbolTable :=
  match addrs with
  | [] => Ok st
  | a :: addrs' =>
      d ← address_sub a base;
      st' ← add_lines (concat ((fun m => m (u64 d)) <$> mods)) base st;
      add_statements mods addrs' base st'
  end.

Definition getSymbols (abuffer : AddressBuffer) (linkedobject : LinkedObjectEntry) (st : SymbolTable) : outcome SymbolTable :=
  lorange ← Interval (e_addr_begin linkedobject) (e_addr_end linkedobject);
  match openFile (e_path linkedobject) with
  | None => Ok st
  | Some symtab =>
      image_end ← address_add (sy_imageOffset symtab) (sy_imageLength symtab);
      image_range ← Interval (sy_imageOffset symtab) image_end;
      d ← address_sub image_range.1 lorange.1;
      let base := if d <? 0 then lorange.1 else 0 in
      let addresses := foldl (fun set a => set_insert a set) [] (map_to_list abuffer).*1 in
      let addrs := filter (fun a => lorange.1 <= a <= lorange.2) addresses in
      r ← add_functions (sy_functions symtab) addrs base [] st;
      st1 ← add_statements (sy_modules symtab) addrs base r.2;
      add_statements (sy_modules symtab) r.1 base st1
  end.
End symbols.

Example example_partition : partitionAddressRanges [(4096, 4098); (5000, 5003); (4100, 4101)] =
  Ok [mkBitmap (4096, 4101) [true; true; false; false; true]; mkBitmap (5000, 5003) [true; true; true]].
Proof. vm_compute. reflexivity. Qed.
