(* ===== verification/SymbolPartition.v ===== *)
(** The partitioning of the addresses of a function into bitmaps: it ends, the bitmaps have
    just the addresses of the function, and they are cut at every gap that takes more
    bits than another bitmap. *)
From stdpp Require Import sorting.
From S2P Require Import Prelude PerfData FlatTopology Hostlist LinkedObjects SortedMap AddressBitmap SymbolTable.
#[local] Open Scope Z_scope.

(** ** Groups of addresses: the set cut at all wide gaps *)
Fixpoint tight_from (m a : Z) (l : list Z) : Prop :=
  match l with [] => True | c :: l' => c - a - 1 <= m /\ tight_from m c l' end.

Fixpoint groups_from (a : Z) (l : list Z) : list (list Z) :=
  match l with
  | [] => [[a]]
  | c :: l' =>
      match groups_from c l' with
      | g :: gs => if c - a - 1 >? PartitioningCriteria then [a] :: g :: gs else (a :: g) :: gs
      | [] => [[a]]
      end
  end.
Definition groups (l : list Z) : list (list Z) := match l with [] => [] | a :: l' => groups_from a l' end.

Notation sorted := (StronglySorted Z.lt).
Definition bounded (l : list Z) : Prop := Forall (fun a => 0 <= a < 2 ^ 63 - 1) l.

Lemma groups_head a l : exists t gs, groups_from a l = (a :: t) :: gs.
Proof.
  destruct l as [|c l]; cbn; [by eexists _, _|]. destruct (groups_from c l) as [|g gs]; [by eexists _, _|].
  destruct (_ >? _); by eexists _, _.
Qed.

Lemma groups_tight l : forall a, tight_from PartitioningCriteria a l -> groups_from a l = [a :: l].
Proof.
  induction l as [|c l IH]; intros a H; [done|]. destruct H as [H1 H2]. cbn [groups_from]. rewrite IH by done.
  destruct (_ >? _) eqn:E; bools; [lia|done].
Qed.

Lemma groups_split l1 c l2 p : forall a, last (a :: l1) = Some p -> PartitioningCriteria < c - p - 1 ->
  groups_from a (l1 ++ c :: l2) = groups_from a l1 ++ groups_from c l2.
Proof.
  induction l1 as [|x l1 IH]; intros a Hp Hgap.
  - injection Hp as ->. cbn. destruct (groups_head c l2) as (t & gs & ->).
    rewrite Z.gtb_ltb, (proj2 (Z.ltb_lt _ _)) by done. done.
  - cbn [app groups_from]. rewrite IH by done. destruct (groups_head x l1) as (t & gs & ->). cbn [app].
    by destruct (_ >? _).
Qed.

Lemma groups_facts l : forall a, sorted (a :: l) ->
  concat (groups_from a l) = a :: l /\
  Forall (fun g => exists x t, g = x :: t /\ tight_from PartitioningCriteria x t) (groups_from a l) /\
  StronglySorted (fun g h => forall x y, x ∈ g -> y ∈ h -> x + 1 + PartitioningCriteria < y) (groups_from a l).
Proof.
  induction l as [|c l IH]; intros a Hs.
  { cbn. split_and!; [done|repeat constructor; by exists a, []|repeat constructor]. }
  apply StronglySorted_inv in Hs as [Hs Hall]. destruct (IH c Hs) as (H1 & H2 & H3). cbn [groups_from].
  destruct (groups_head c l) as (t & gs & E). rewrite E in *. apply Forall_cons in Hall as [Hac _].
  destruct (c - a - 1 >? PartitioningCriteria) eqn:Eg; bools.
  - split_and!; [by cbn; f_equal|constructor; [by exists a, []|done]|]. constructor; [done|].
    apply Forall_forall. intros h Hh x y Hx Hy. apply list_elem_of_singleton in Hx as ->.
    assert (Hin : y ∈ c :: l) by (rewrite <- H1; apply list_elem_of_In, in_concat; exists h; split; by apply list_elem_of_In).
    apply elem_of_cons in Hin as [->|Hin]; [lia|]. apply StronglySorted_inv in Hs as [_ Hall].
    apply (proj1 (Forall_forall _ _) Hall) in Hin. lia.
  - apply Forall_cons in H2 as [(x & t' & Ex & Ht) H2]. injection Ex as <- <-.
    apply StronglySorted_inv in H3 as [H3 H4]. split_and!.
    + cbn in *. by rewrite H1.
    + constructor; [|done]. exists a, (c :: t). split; [done|]. split; [lia|done].
    + constructor; [done|]. eapply Forall_impl; [exact H4|]. intros h Hh x y Hx Hy.
      apply elem_of_cons in Hx as [->|Hx]; [|by apply Hh]. specialize (Hh c y ltac:(left) Hy). lia.
Qed.

(** Every stretch of a group as long as the criterion has an address. *)
Lemma tight_hits m t : 0 <= m -> forall x a z, tight_from m x t -> last (x :: t) = Some z -> x <= a -> a + m <= z ->
  exists a', a' ∈ x :: t /\ a <= a' <= a + m.
Proof.
  intros Hm. induction t as [|c t IH]; intros x a z Ht Hz Hx Ha.
  - injection Hz as ->. exists z. split; [left|lia].
  - destruct Ht as [Hc Ht]. destruct (decide (a = x)) as [->|]; [exists x; split; [left|lia]|]. destruct (decide (a <= c)).
    + exists c. split; [right; left|lia].
    + destruct (IH c a z) as (a' & H1 & H2); [done|done|lia|done|]. exists a'. split; [by right|done].
Qed.

(** ** The widest gap *)
Lemma tight_mono m m' l : m <= m' -> forall a, tight_from m a l -> tight_from m' a l.
Proof. intros Hm. induction l as [|c l IH]; intros a H; [done|]. destruct H. split; [lia|by apply IH]. Qed.

Lemma widest_gap_ok l : forall prev k k0 g0, sorted (prev :: l) -> bounded (prev :: l) -> 0 <= g0 ->
  exists k' g', widest_gap prev l k (k0, g0) = Ok (k', g') /\ g0 <= g' /\ tight_from g' prev l /\
    ((k', g') = (k0, g0) \/ exists l1 c l2 p, l = l1 ++ c :: l2 /\ k' = (k + length l1)%nat /\ last (prev :: l1) = Some p /\ c - p - 1 = g').
Proof.
  induction l as [|c l IH]; intros prev k k0 g0 Hs Hb Hg; [exists k0, g0; split_and!; [done|lia|done|by left]|].
  apply StronglySorted_inv in Hs as [Hs Hall]. apply Forall_cons in Hall as [Hpc _].
  apply Forall_cons in Hb as [Hp Hb]. pose proof Hb as Hb'. apply Forall_cons in Hb' as [Hc _].
  cbn [widest_gap]. unfold Interval. rewrite (proj2 (Z.ltb_lt prev c)) by done. cbn [Assert]. rewrite !bind_of_Ok.
  unfold getWidth. cbn [fst snd]. rewrite (u64_small (c - prev)), (u64_small (c - prev - 1)), i64_small by lia.
  destruct (c - prev - 1 >? g0) eqn:E; bools.
  - destruct (IH c (S k) k (c - prev - 1) Hs Hb ltac:(lia)) as (k' & g' & H1 & H2 & H3 & H4).
    rewrite H1. exists k', g'. split_and!; [done|lia|split; [lia|done]|]. right. destruct H4 as [[= -> ->]|(l1 & d & l2 & p & -> & -> & Hl & Hd)].
    + exists [], c, l, prev. split_and!; [done|cbn; lia|done|lia].
    + exists (c :: l1), d, l2, p. split_and!; [done|cbn; lia|done|done].
  - destruct (IH c (S k) k0 g0 Hs Hb Hg) as (k' & g' & H1 & H2 & H3 & H4).
    rewrite H1. exists k', g'. split_and!; [done|lia|split; [lia|done]|]. destruct H4 as [[= -> ->]|(l1 & d & l2 & p & -> & -> & Hl & Hd)]; [by left|].
    right. exists (c :: l1), d, l2, p. split_and!; [done|cbn; lia|done|done].
Qed.

(** ** The loop *)
Definition rounds_for (queue : list (list Z)) : nat := foldr (fun l n => (Nat.max 1 (2 * length l - 1) + n)%nat) 0%nat queue.

Lemma rounds_app q1 q2 : rounds_for (q1 ++ q2) = (rounds_for q1 + rounds_for q2)%nat.
Proof. induction q1 as [|l q1 IH]; [done|]. cbn [app rounds_for foldr] in *. fold (rounds_for (q1 ++ q2)). fold (rounds_for q1). lia. Qed.

Lemma sorted_app_inv l1 l2 : sorted (l1 ++ l2) -> sorted l1 /\ sorted l2.
Proof. intros H. split; [by apply StronglySorted_app_1_l in H|by apply StronglySorted_app_1_r in H]. Qed.

Section loop.
Context {B : Type} (keep : list Z -> outcome B) (keep' : list Z -> B).
Context (Hkeep : forall g, g <> [] -> sorted g -> bounded g -> keep g = Ok (keep' g)).

(** The sets that are kept are the groups of the sets in the queue. *)
Lemma partition_loop_ok fuel : forall queue results, Forall (fun l => sorted l /\ bounded l) queue -> (rounds_for queue <= fuel)%nat ->
  exists gs, gs ≡ₚ concat (groups <$> queue) /\ partition_loop keep fuel queue results = Ok (results ++ (keep' <$> gs)).
Proof.
  induction fuel as [|fuel IH]; intros queue results Hq Hf.
  { destruct queue as [|l queue]; [|cbn in Hf; lia]. exists []. cbn. by rewrite app_nil_r. }
  destruct queue as [|l queue]; [exists []; cbn; by rewrite app_nil_r|]. apply Forall_cons in Hq as [[Hs Hb] Hq].
  cbn [rounds_for foldr] in Hf. fold (rounds_for queue) in Hf.
  assert (Hkept : forall g, l = g -> g <> [] -> groups g = [g] -> exists gs, gs ≡ₚ concat (groups <$> (l :: queue)) /\
    (b ← keep g; partition_loop keep fuel queue (results ++ [b])) = Ok (results ++ (keep' <$> gs))).
  { intros g -> Hne Hg. rewrite Hkeep, bind_of_Ok by done. destruct (IH queue (results ++ [keep' g]) Hq ltac:(lia)) as (gs & H1 & H2).
    exists (g :: gs). rewrite fmap_cons, Hg, H2, <- app_assoc. cbn [concat app]. split; [by constructor|done]. }
  destruct l as [|prev rest]; cbn [partition_loop].
  { destruct (IH queue results Hq ltac:(lia)) as (gs & H1 & H2). by exists gs. }
  destruct rest as [|c rest]; [by apply Hkept|].
  destruct (widest_gap_ok (c :: rest) prev 1 0 0 Hs Hb ltac:(lia)) as (k & g & H1 & H2 & H3 & H4). rewrite H1, bind_of_Ok. cbn [fst snd].
  destruct (g >? PartitioningCriteria) eqn:E; bools.
  - destruct H4 as [[= -> ->]|(l1 & d & l2 & p & Hl & -> & Hp & Hgap)]; [done|]. rewrite Hl in *. clear Hl.
    change (prev :: l1 ++ d :: l2) with ((prev :: l1) ++ d :: l2) in *.
    rewrite take_app_length' by done. rewrite drop_app_length' by done.
    destruct (sorted_app_inv _ _ Hs) as [Hs1 Hs2]. apply Forall_app in Hb as [Hb1 Hb2].
    destruct (IH (queue ++ [prev :: l1; d :: l2]) results) as (gs & G1 & G2).
    + apply Forall_app. split; [done|]. constructor; [done|]. constructor; [done|constructor].
    + rewrite rounds_app. rewrite length_app in Hf. cbn [rounds_for foldr length] in *. lia.
    + exists gs. split; [|done]. rewrite G1, fmap_app, concat_app. cbn [fmap list_fmap concat groups app].
      rewrite (groups_split _ _ _ p) by (done || lia). rewrite app_nil_r. by rewrite (comm (++)).
  - apply Hkept; [done|done|]. cbn [groups]. apply groups_tight. by apply tight_mono with g.
Qed.
End loop.

(** ** The bitmap of a set *)
Lemma getValue_insert b a i v : bitmap_ok b -> (bm_range b).1 <= a < (bm_range b).2 -> (bm_range b).1 <= i < (bm_range b).2 ->
  getValue (mkBitmap (bm_range b) (<[Z.to_nat (i - (bm_range b).1) := v]> (bm_bitmap b))) a = if decide (a = i) then Ok v else getValue b a.
Proof.
  intros (H1 & H2 & H3) Ha Hi. unfold getValue. cbn [bm_range bm_bitmap]. rewrite (proj2 (doesContain_true _ _)) by done.
  cbn [Assert]. rewrite !bind_of_Ok. rewrite address_sub_small by lia. rewrite !bind_of_Ok.
  destruct (decide (a = i)) as [->|Hne].
  - apply arr_get_lookup; [lia|]. apply list_lookup_insert_eq. lia.
  - unfold arr_get. rewrite !decide_True by lia. by rewrite list_lookup_insert_ne by lia.
Qed.

Lemma set_all_ok l : forall b, bitmap_ok b -> Forall (fun a => (bm_range b).1 <= a < (bm_range b).2) l ->
  exists b', set_all l b = Ok b' /\ bitmap_ok b' /\ bm_range b' = bm_range b /\
    forall a, (bm_range b).1 <= a < (bm_range b).2 -> getValue b' a = Ok true <-> getValue b a = Ok true \/ a ∈ l.
Proof.
  induction l as [|x l IH]; intros b Hok Hl.
  { exists b. split_and!; [done|done|done|]. intros a Ha. rewrite elem_of_nil. tauto. }
  apply Forall_cons in Hl as [Hx Hl]. cbn [set_all]. rewrite setValue_ok by done. rewrite bind_of_Ok.
  set (b1 := mkBitmap (bm_range b) (<[Z.to_nat (x - (bm_range b).1) := true]> (bm_bitmap b))).
  assert (Hok1 : bitmap_ok b1).
  { destruct Hok as (H1 & H2 & H3). split; [done|]. split; [done|]. cbn. by rewrite length_insert. }
  destruct (IH b1 Hok1 Hl) as (b' & H1 & H2 & H3 & H4). exists b'. split_and!; [done|done|done|]. intros a Ha. rewrite H4 by done.
  unfold b1. rewrite getValue_insert by done. rewrite elem_of_cons. destruct (decide (a = x)) as [->|]; naive_solver.
Qed.

Definition first_of (g : list Z) : Z := default 0 (head g).
Definition last_of (g : list Z) : Z := default 0 (last g).

Lemma sorted_between g a : sorted g -> a ∈ g -> first_of g <= a <= last_of g.
Proof.
  unfold first_of, last_of. intros Hs. revert a. induction Hs as [|x g Hs IH Hx]; intros a Ha; [by apply not_elem_of_nil in Ha|].
  cbn [head default]. destruct g as [|y g]; [apply list_elem_of_singleton in Ha as ->; cbn; lia|].
  change (last (x :: y :: g)) with (last (y :: g)). apply Forall_cons in Hx as [Hxy _]. cbn [head from_option] in *. unfold id in *.
  apply elem_of_cons in Ha as [->|Ha]; [specialize (IH y ltac:(left)); lia|]. specialize (IH a Ha). lia.
Qed.

Lemma ends_in g : g <> [] -> first_of g ∈ g /\ last_of g ∈ g.
Proof.
  intros Hne. unfold first_of, last_of. destruct g as [|x g]; [done|]. clear Hne. split; [left|]. revert x. induction g as [|y g IH]; intros x; [left|].
  right. apply (IH y).
Qed.

(** What a bitmap says of a set of addresses *)
Definition represents (b : AddressBitmap) (g : list Z) : Prop :=
  bitmap_ok b /\ bm_range b = (first_of g, last_of g + 1) /\
  forall a, first_of g <= a <= last_of g -> getValue b a = Ok true <-> a ∈ g.

Lemma bitmap_of_set_ok g : g <> [] -> sorted g -> bounded g -> exists b, bitmap_of_set g = Ok b /\ represents b g.
Proof.
  intros Hne Hs Hb. destruct (ends_in g Hne) as [Hf Hl]. pose proof (sorted_between g _ Hs Hl).
  pose proof (proj1 (Forall_forall _ _) Hb _ Hf) as Hf'. pose proof (proj1 (Forall_forall _ _) Hb _ Hl) as Hl'. cbn in Hf', Hl'.
  unfold bitmap_of_set. fold (first_of g). fold (last_of g). rewrite u64_small by lia.
  unfold Interval. rewrite (proj2 (Z.ltb_lt (first_of g) (last_of g + 1))) by lia. cbn [Assert]. rewrite !bind_of_Ok.
  set (b0 := empty_bitmap (first_of g, last_of g + 1)).
  assert (Hw : getWidth (first_of g, last_of g + 1) = last_of g + 1 - first_of g) by (apply u64_small; cbn; lia).
  assert (Hok : bitmap_ok b0).
  { split; [cbn; lia|]. split; [cbn; lia|]. cbn [b0 empty_bitmap bm_bitmap bm_range fst snd]. rewrite length_replicate, Hw. lia. }
  destruct (set_all_ok g b0 Hok) as (b & H1 & H2 & H3 & H4).
  { apply Forall_forall. intros a Ha. pose proof (sorted_between g a Hs Ha). cbn. lia. }
  exists b. split; [done|]. split; [done|]. split; [done|]. intros a Ha. rewrite H4 by (cbn; lia).
  split; [intros [Hv|?]; [|done]|by right]. exfalso. destruct (bit_value b0 a Hok) as (x & Hx & Hlk); [cbn; lia|].
  rewrite Hx in Hv. injection Hv as ->. cbn [b0 empty_bitmap bm_bitmap] in Hlk. apply lookup_replicate in Hlk as [? _]. done.
Qed.

Definition bitmap_for (g : list Z) : AddressBitmap :=
  match bitmap_of_set g with Ok b => b | _ => empty_bitmap (0, 0) end.

Lemma bitmap_for_ok g : g <> [] -> sorted g -> bounded g -> bitmap_of_set g = Ok (bitmap_for g) /\ represents (bitmap_for g) g.
Proof. intros Hne Hs Hb. destruct (bitmap_of_set_ok g Hne Hs Hb) as (b & H1 & H2). unfold bitmap_for. by rewrite H1. Qed.

(** ** Ranges *)
Definition in_ranges (ranges : list (Z * Z)) (a : Z) : Prop := exists r, r ∈ ranges /\ r.1 <= a < r.2.
Definition proper_ranges (m : Z) (ranges : list (Z * Z)) : Prop := Forall (fun r => 0 <= r.1 < r.2 /\ r.2 < m) ranges.
Definition in_bitmaps (bitmaps : list AddressBitmap) (a : Z) : Prop :=
  exists b, b ∈ bitmaps /\ (bm_range b).1 <= a < (bm_range b).2 /\ getValue b a = Ok true.

Lemma addresses_of_spec ranges : sorted (addresses_of ranges) /\ forall a, a ∈ addresses_of ranges <-> in_ranges ranges a.
Proof.
  unfold addresses_of. destruct (set_of_spec (concat ((fun r => seqZ r.1 (r.2 - r.1)) <$> ranges))) as [H1 H2]. split; [done|].
  intros a. rewrite H2. rewrite list_elem_of_In, in_concat. unfold in_ranges. split.
  - intros (l & Hl & Ha). apply list_elem_of_In, list_elem_of_fmap in Hl as (r & -> & Hr). exists r. split; [done|].
    apply list_elem_of_In, elem_of_seqZ in Ha. lia.
  - intros (r & Hr & Ha). exists (seqZ r.1 (r.2 - r.1)). split; [apply list_elem_of_In, list_elem_of_fmap; by exists r|].
    apply list_elem_of_In, elem_of_seqZ. lia.
Qed.

Definition separated (bs : list AddressBitmap) : Prop :=
  StronglySorted (fun b c => (bm_range b).2 + PartitioningCriteria < (bm_range c).1) bs.

Lemma separated_groups gs : Forall (fun g => g <> [] /\ represents (bitmap_for g) g) gs ->
  StronglySorted (fun g h => forall x y, x ∈ g -> y ∈ h -> x + 1 + PartitioningCriteria < y) gs -> separated (bitmap_for <$> gs).
Proof.
  intros Hall Hs. induction Hs as [|g gs Hs IH Hg]; [constructor|]. apply Forall_cons in Hall as [[Hne (_ & Hr & _)] Hall].
  rewrite fmap_cons. constructor; [by apply IH|]. apply Forall_fmap, Forall_forall. intros h Hh. cbn.
  pose proof (proj1 (Forall_forall _ _) Hall _ Hh) as [Hne' (_ & Hr' & _)]. rewrite Hr, Hr'. cbn.
  apply (proj1 (Forall_forall _ _) Hg _ Hh); [by apply ends_in|by apply ends_in].
Qed.

Lemma partition_ranges (ranges : list (Z * Z)) : proper_ranges (2 ^ 63) ranges ->
  exists bitmaps ordered, partitionAddressRanges ranges = Ok bitmaps /\
    (forall a, in_ranges ranges a <-> in_bitmaps bitmaps a) /\
    ordered ≡ₚ bitmaps /\ separated ordered /\
    Forall (fun b => bitmap_ok b /\ in_ranges ranges (bm_range b).1 /\ in_ranges ranges ((bm_range b).2 - 1) /\ forall a, (bm_range b).1 <= a -> a + PartitioningCriteria < (bm_range b).2 ->
      exists a', a <= a' <= a + PartitioningCriteria /\ getValue b a' = Ok true) bitmaps.
Proof.
  intros Hr. destruct (addresses_of_spec ranges) as [Hs Hin]. unfold partitionAddressRanges. set (l := addresses_of ranges) in *.
  assert (Hb : bounded l).
  { apply Forall_forall. intros a Ha. apply Hin in Ha as (r & Hr1 & Hr2). apply (proj1 (Forall_forall _ _) Hr) in Hr1. lia. }
  destruct (partition_loop_ok bitmap_of_set bitmap_for (fun g H1 H2 H3 => proj1 (bitmap_for_ok g H1 H2 H3)) (2 * length l + 1) [l] [])
    as (gs & Hgs & E); [by repeat constructor|cbn; lia|].
  rewrite E. cbn [app fmap list_fmap concat] in *. rewrite app_nil_r in Hgs.
  assert (HG : concat (groups l) = l /\ Forall (fun g => exists x t, g = x :: t /\ tight_from PartitioningCriteria x t) (groups l) /\
    StronglySorted (fun g h => forall x y, x ∈ g -> y ∈ h -> x + 1 + PartitioningCriteria < y) (groups l)).
  { destruct l as [|x l']; [by repeat constructor|]. by apply groups_facts. }
  destruct HG as (Hc & Ht & Hg).
  assert (Hgroup : Forall (fun g => g <> [] /\ sorted g /\ bounded g /\ represents (bitmap_for g) g /\
                     (forall a, a ∈ g -> in_ranges ranges a) /\ exists x t, g = x :: t /\ tight_from PartitioningCriteria x t) (groups l)).
  { assert (Hsub : Forall (fun g => sorted g /\ bounded g) (groups l)).
    { clear -Hs Hb Hc. rewrite <- Hc in Hs, Hb. clear Hc. induction (groups l) as [|g G IH]; [constructor|]. cbn in *.
      apply Forall_app in Hb as [Hb1 Hb2]. destruct (sorted_app_inv _ _ Hs). constructor; [done|by apply IH]. }
    apply Forall_forall. intros g Hgin. destruct (proj1 (Forall_forall _ _) Ht _ Hgin) as (x & t & Hx & Htt).
    destruct (proj1 (Forall_forall _ _) Hsub _ Hgin) as [H1 H2]. assert (Hne : g <> []) by by rewrite Hx.
    split_and!; [done|done|done|by apply bitmap_for_ok| |by exists x, t].
    intros a Ha. apply Hin. rewrite <- Hc. apply list_elem_of_In, in_concat. exists g. split; by apply list_elem_of_In. }
  exists (bitmap_for <$> gs), (bitmap_for <$> groups l). split; [done|]. split_and!.
  - intros a. rewrite <- Hin, <- Hc, list_elem_of_In, in_concat. split.
    + intros (g & Hg1 & Ha). apply list_elem_of_In in Hg1, Ha. destruct (proj1 (Forall_forall _ _) Hgroup _ Hg1) as (Hne & Hsg & _ & (_ & Hrg & Hv) & _ & _).
      pose proof (sorted_between g a Hsg Ha). exists (bitmap_for g). split_and!; [|rewrite Hrg; cbn; lia..|by apply Hv].
      apply list_elem_of_fmap. exists g. split; [done|]. by rewrite Hgs.
    + intros (b & Hbin & Ha & Hv). apply list_elem_of_fmap in Hbin as (g & -> & Hg1). rewrite Hgs in Hg1.
      destruct (proj1 (Forall_forall _ _) Hgroup _ Hg1) as (_ & _ & _ & (_ & Hrg & Hv') & _ & _). rewrite Hrg in Ha. cbn in Ha.
      exists g. split; apply list_elem_of_In; [done|]. apply Hv'; [lia|done].
  - by rewrite Hgs.
  - apply separated_groups; [|done]. eapply Forall_impl; [exact Hgroup|]. cbn. tauto.
  - apply Forall_fmap. rewrite Hgs. eapply Forall_impl; [exact Hgroup|]. cbn.
    intros g (Hne & Hsg & _ & (Hok & Hrg & Hv) & Hof & (x & t & Hx & Htt)). split; [done|]. rewrite Hrg. cbn.
    destruct (ends_in g Hne) as [Hf Hl]. split_and!; [by apply Hof|replace (last_of g + 1 - 1) with (last_of g) by lia; by apply Hof|].
    intros a Ha1 Ha2.
    destruct (tight_hits PartitioningCriteria t ltac:(done) x a (last_of g) Htt) as (a' & H1 & H2);
      [unfold last_of; rewrite Hx; clear; revert x; induction t as [|y t IH]; intros x; [done|apply (IH y)]|by rewrite Hx in Ha1|lia|].
    exists a'. split; [done|]. apply Hv; [|by rewrite Hx]. rewrite <- Hx in H1. pose proof (sorted_between g a' Hsg H1). lia.
Qed.

(** C25: Partitioning. The bitmaps for the addresses of a function or statement can be made,
    have just the addresses in its ranges, and are divided at just the gaps that are wider than the
    criterion: put in order, there is such a gap between any two, and there is
    none within a bitmap, which begins and ends with an address. *)
Theorem partition_bitmaps (ranges : list (Z * Z)) : proper_ranges (2 ^ 63) ranges ->
  exists bitmaps ordered, partitionAddressRanges ranges = Ok bitmaps /\
    (forall a, in_ranges ranges a <-> in_bitmaps bitmaps a) /\
    ordered ≡ₚ bitmaps /\ separated ordered /\
    Forall (fun b => bitmap_ok b /\ in_ranges ranges (bm_range b).1 /\ in_ranges ranges ((bm_range b).2 - 1) /\ forall a, (bm_range b).1 <= a -> a + PartitioningCriteria < (bm_range b).2 ->
      exists a', a <= a' <= a + PartitioningCriteria /\ getValue b a' = Ok true) bitmaps.
Proof. apply partition_ranges. Qed.

Lemma partition_bitmaps_witness : exists bitmaps, partitionAddressRanges [(4096, 4098); (5000, 5003); (4100, 4101)] = Ok bitmaps /\
  forall a, in_ranges [(4096, 4098); (5000, 5003); (4100, 4101)] a <-> in_bitmaps bitmaps a.
Proof.
  destruct (partition_bitmaps [(4096, 4098); (5000, 5003); (4100, 4101)]) as (bs & o & H1 & H2 & _);
    [unfold proper_ranges; rewrite !Forall_cons, Forall_nil; cbn; lia|].
  exists bs. split; [exact H1|exact H2].
Defined.
