(* ===== verification/SymbolMessage.v ===== *)
(** What symbol tables hold and what their messages say: functions do not overlap, the
    bitmaps in a message have the addresses of the functions, and statements are not
    part of it. *)
From stdpp Require Import sorting.
From S2P Require Import Prelude PerfData ThreadName FlatTopology Hostlist LinkedObjects SortedMap AddressBitmap SymbolTable SymbolPartition.
#[local] Open Scope Z_scope.

(** ** Functions do not overlap *)
Definition overlaps (a b : Z * Z) : Prop := a.1 < b.2 /\ b.1 < a.2.
Definition inside (r s : Z * Z) : Prop := r.1 <= s.1 < s.2 /\ s.2 <= r.2.
Record table_ok (st : SymbolTable) : Prop := {
  ok_range : 0 <= (dm_range st).1 < (dm_range st).2 /\ (dm_range st).2 < 2 ^ 63;
  ok_inside : Forall (fun e => inside (dm_range st) e.1) (dm_functions st);
  ok_disjoint : StronglySorted (fun a b => a.1.2 <= b.1.1) (dm_functions st) }.

Lemma doesContain_range_ok r s : 0 <= s.1 < s.2 -> s.2 < 2 ^ 63 -> exists x, doesContain_range r s = Ok x /\ (x = true <-> inside r s).
Proof.
  intros H1 H2. unfold doesContain_range, inside. destruct (doesContain r s.1) eqn:E.
  - apply doesContain_true in E. rewrite address_sub_small, bind_of_Ok, u64_small by lia. eexists. split; [done|].
    rewrite doesContain_true. lia.
  - eexists. split; [done|]. split; [done|]. intros H. assert (doesContain r s.1 = true) by (apply doesContain_true; lia). congruence.
Qed.

Lemma find_overlap {V} (r : Z * Z) (m : list (Z * Z * V)) : r.1 < r.2 -> Forall (fun e => e.1.1 < e.1.2) m ->
  StronglySorted (fun a b => a.1.2 <= b.1.1) m ->
  sm_find range_ltb r m = None <-> Forall (fun e => ~ overlaps e.1 r) m.
Proof.
  intros Hr Hm Hs. induction Hs as [|[k v] m Hs IH Hk]; [by split; [constructor|]|]. apply Forall_cons in Hm as [Hkk Hm].
  specialize (IH Hm). cbn [sm_find fst snd] in *. change (range_ltb k r) with (k.2 <=? r.1). change (range_ltb r k) with (r.2 <=? k.1). unfold overlaps in *. rewrite Forall_cons. cbn [fst snd].
  destruct (k.2 <=? r.1) eqn:E1; bools; [rewrite IH; split; [intros H; split; [lia|done]|tauto]|].
  destruct (r.2 <=? k.1) eqn:E2; bools; [|split; [done|]; intros [H _]; lia].
  split; [|done]. intros _. split; [lia|]. apply Forall_forall. intros [k' v'] Hin. cbn.
  apply (proj1 (Forall_forall _ _) Hk) in Hin as Hk'. apply (proj1 (Forall_forall _ _) Hm) in Hin. cbn in *. lia.
Qed.

Lemma insert_disjoint {V} (r : Z * Z) (v : V) (m : list (Z * Z * V)) : r.1 < r.2 -> Forall (fun e => e.1.1 < e.1.2) m ->
  StronglySorted (fun a b => a.1.2 <= b.1.1) m -> Forall (fun e => ~ overlaps e.1 r) m ->
  sm_insert range_ltb r v m ≡ₚ (r, v) :: m /\ StronglySorted (fun a b => a.1.2 <= b.1.1) (sm_insert range_ltb r v m).
Proof.
  intros Hr Hm Hs Ho. unfold sm_insert. induction Hs as [|[k w] m Hs IH Hk]; [by split; [|repeat constructor]|].
  apply Forall_cons in Hm as [Hkk Hm]. apply Forall_cons in Ho as [Hok Ho]. destruct (IH Hm Ho) as [IH1 IH2].
  unfold overlaps in Hok. cbn [sm_upsert fst snd] in *. change (range_ltb k r) with (k.2 <=? r.1). change (range_ltb r k) with (r.2 <=? k.1).
  destruct (k.2 <=? r.1) eqn:E1; bools.
  - split; [rewrite IH1; apply perm_swap|]. constructor; [done|]. rewrite IH1. constructor; [done|done].
  - rewrite (proj2 (Z.leb_le r.2 k.1)) by lia. split; [done|]. constructor; [by constructor|]. constructor; [cbn; lia|].
    apply Forall_forall. intros [k' v'] Hin. apply (proj1 (Forall_forall _ _) Hk) in Hin. cbn in *. lia.
Qed.

(** C26: Functions. A function is added to the table if it has addresses, lies in the range of
    the table and overlaps no function in it; otherwise the table stays as it is. So no
    address is ever in two functions. *)
Theorem addFunction_ok (st : SymbolTable) (begin end_ : Z) (name : string) :
  table_ok st -> 0 <= begin -> end_ < 2 ^ 63 ->
  exists st', addFunction st begin end_ name = Ok st' /\ table_ok st' /\
    (if decide (begin < end_ /\ inside (dm_range st) (begin, end_) /\ Forall (fun e => ~ overlaps e.1 (begin, end_)) (dm_functions st))
     then dm_functions st' ≡ₚ ((begin, end_), name) :: dm_functions st else st' = st) /\
    forall a e1 e2, e1 ∈ dm_functions st' -> e2 ∈ dm_functions st' -> doesContain e1.1 a = true -> doesContain e2.1 a = true -> e1.1 = e2.1.
Proof.
  intros Hok Hb He. pose proof Hok as [Hr Hi Hd].
  assert (Hne : Forall (fun e : Z * Z * string => e.1.1 < e.1.2) (dm_functions st)) by (eapply Forall_impl; [exact Hi|]; unfold inside; intros; lia).
  assert (Hone : forall st', table_ok st' -> forall a e1 e2, e1 ∈ dm_functions st' -> e2 ∈ dm_functions st' ->
    doesContain e1.1 a = true -> doesContain e2.1 a = true -> e1.1 = e2.1).
  { clear. intros st' [_ _ Hd] a e1 e2 H1 H2 Ha1 Ha2. apply doesContain_true in Ha1, Ha2. revert H1 H2.
    induction Hd as [|e m Hd IH He]; intros H1 H2; [by apply not_elem_of_nil in H1|]. rewrite Forall_forall in He.
    apply elem_of_cons in H1 as [->|H1], H2 as [->|H2]; [done|apply He in H2; lia|apply He in H1; lia|by apply IH]. }
  enough (exists st', addFunction st begin end_ name = Ok st' /\ table_ok st' /\
    (if decide (begin < end_ /\ inside (dm_range st) (begin, end_) /\ Forall (fun e => ~ overlaps e.1 (begin, end_)) (dm_functions st))
     then dm_functions st' ≡ₚ ((begin, end_), name) :: dm_functions st else st' = st)) as (st' & H1 & H2 & H3)
    by (exists st'; split_and!; [done|done|done|by apply Hone]).
  unfold addFunction. destruct (end_ <=? begin) eqn:E1; bools.
  { exists st. rewrite decide_False by lia. done. }
  unfold Interval. rewrite (proj2 (Z.ltb_lt begin end_)) by done. cbn [Assert]. rewrite !bind_of_Ok.
  destruct (doesContain_range_ok (dm_range st) (begin, end_)) as (x & -> & Hx); [cbn; lia|done|]. rewrite bind_of_Ok.
  destruct x; cbn [negb].
  2: { exists st. rewrite decide_False; [done|]. intros (_ & H & _). by apply Hx in H. }
  pose proof (find_overlap (begin, end_) (dm_functions st) E1 Hne Hd) as Hf.
  destruct (sm_find range_ltb (begin, end_) (dm_functions st)) eqn:Efind.
  { exists st. rewrite decide_False; [done|]. intros (_ & _ & H). apply Hf in H. done. }
  destruct (insert_disjoint (begin, end_) name (dm_functions st) E1 Hne Hd (proj1 Hf eq_refl)) as [H1 H2].
  eexists. split; [done|]. split; [|by rewrite decide_True by (split_and!; [done|by apply Hx|by apply Hf])].
  constructor; cbn; [done|rewrite H1; constructor; [by apply Hx|done]|done].
Qed.

(** ** Messages *)
Definition decoded (pb : CBTF_Protocol_AddressBitmap) (a : Z) : Prop :=
  exists b, bitmap_of_blob (pb_range pb) (pb_bitmap pb) = Ok b /\ (bm_range b).1 <= a < (bm_range b).2 /\ getValue b a = Ok true.
Definition occupies (f : CBTF_Protocol_FunctionEntry) (a : Z) : Prop := exists pb, pb ∈ pf_bitmaps f /\ decoded pb a.

Lemma convert_bitmap_ok b : bitmap_ok b -> (bm_range b).2 - (bm_range b).1 < 2 ^ 32 ->
  exists pb, convert_bitmap b = Ok pb /\ forall a, decoded pb a <-> (bm_range b).1 <= a < (bm_range b).2 /\ getValue b a = Ok true.
Proof.
  intros Hok Hw. destruct (blob_of_bitmap b Hok Hw) as (c & H1 & _ & H2). unfold convert_bitmap. rewrite H1, bind_of_Ok.
  eexists. split; [done|]. intros a. unfold decoded. cbn [pb_range pb_bitmap]. rewrite H2. split; [by intros (b' & [= <-] & ?)|].
  intros H. by exists b.
Qed.

Lemma convert_function ranges : proper_ranges (2 ^ 32) ranges ->
  exists bitmaps converted, partitionAddressRanges ranges = Ok bitmaps /\ mapM convert_bitmap bitmaps = Ok converted /\
    forall a, in_ranges ranges a <-> exists pb, pb ∈ converted /\ decoded pb a.
Proof.
  intros Hr. destruct (partition_ranges ranges) as (bitmaps & _ & H1 & H2 & _ & _ & H3); [eapply Forall_impl; [exact Hr|]; cbn; intros; lia|].
  destruct (mapM_exists convert_bitmap (fun b pb => forall a, decoded pb a <-> (bm_range b).1 <= a < (bm_range b).2 /\ getValue b a = Ok true) bitmaps)
    as (converted & Hc & Hd).
  - eapply Forall_impl; [exact H3|]. intros b (Hok & Hb & He & _). apply convert_bitmap_ok; [done|].
    destruct Hb as (r1 & Hr1 & Hin1), He as (r2 & Hr2 & Hin2). apply (proj1 (Forall_forall _ _) Hr) in Hr1, Hr2. lia.
  - exists bitmaps, converted. split_and!; [done|done|]. intros a. rewrite H2. unfold in_bitmaps. clear -Hd. split.
    + intros (b & Hb & Ha). apply list_elem_of_lookup_1 in Hb as [i Hb].
      destruct (Forall2_lookup_l _ _ _ _ _ Hd Hb) as (pb & Hpb & Hp). exists pb. split; [by apply list_elem_of_lookup_2 in Hpb|by apply Hp].
    + intros (pb & Hpb & Ha). apply list_elem_of_lookup_1 in Hpb as [i Hpb].
      destruct (Forall2_lookup_r _ _ _ _ _ Hd Hpb) as (b & Hb & Hp). exists b. split; [by apply list_elem_of_lookup_2 in Hb|by apply Hp].
Qed.

Lemma table_message (linked_object : string) (st : SymbolTable) :
  table_statements st = [] -> Forall (fun e => proper_ranges (2 ^ 32) e.2) (table_functions st) ->
  exists m, to_protocol linked_object st = Ok m /\ pst_linked_object m = linked_object /\
    Forall2 (fun e f => pf_name f = e.1 /\ forall a, in_ranges e.2 a <-> occupies f a) (table_functions st) (pst_functions m).
Proof.
  intros Hs Hf. unfold to_protocol. rewrite Hs.
  destruct (mapM_exists (fun e : string * list (Z * Z) => bitmaps ← partitionAddressRanges e.2; converted ← mapM convert_bitmap bitmaps;
      Ok (mkPFunction e.1 converted)) (fun e f => pf_name f = e.1 /\ forall a, in_ranges e.2 a <-> occupies f a) (table_functions st))
    as (functions & H1 & H2).
  - eapply Forall_impl; [exact Hf|]. intros e He. destruct (convert_function e.2 He) as (bs & cs & -> & E & Hd).
    rewrite bind_of_Ok, E, bind_of_Ok. by eexists.
  - rewrite H1. by eexists.
Qed.

(** C27: Messages. The message of a symbol table has the functions of its table in order, and the
    bitmaps of each are decoded to just the addresses in its ranges. *)
Theorem message_functions (linked_object : string) (st : SymbolTable) :
  table_statements st = [] -> Forall (fun e => proper_ranges (2 ^ 32) e.2) (table_functions st) ->
  exists m, to_protocol linked_object st = Ok m /\ pst_linked_object m = linked_object /\
    Forall2 (fun e f => pf_name f = e.1 /\ forall a, in_ranges e.2 a <-> occupies f a) (table_functions st) (pst_functions m).
Proof. apply table_message. Qed.

(** ** Statements *)
Lemma addStatement_keeps st b e path line column st' : addStatement st b e path line column = Ok st' -> table_statements st' = table_statements st.
Proof.
  unfold addStatement. destruct (e <=? b); [by intros [= <-]|]. intros H. apply bind_Ok in H as (r & _ & H).
  apply bind_Ok in H as (x & _ & H). destruct x; cbn in H; by injection H as <-.
Qed.

Lemma addFunction_at_keeps st b e base name st' : addFunction_at st b e base name = Ok st' -> table_statements st' = table_statements st.
Proof.
  unfold addFunction_at. intros H. repeat (apply bind_Ok in H as (? & ? & H)). injection H as <-. cbn.
  match goal with H : addFunction _ _ _ _ = Ok _ |- _ => unfold addFunction in H; rename H into Ha end.
  destruct (_ <=? _); [by injection Ha as <-|]. apply bind_Ok in Ha as (r & _ & Ha). apply bind_Ok in Ha as (y & _ & Ha).
  destruct y; cbn in Ha; [|by injection Ha as <-]. destruct (sm_find _ _ _); by injection Ha as <-.
Qed.

Lemma add_functions_keeps addrs base fs : forall begins st r, add_functions fs addrs base begins st = Ok r -> table_statements r.2 = table_statements st.
Proof.
  induction fs as [|[[name offset] size] fs IH]; intros begins st r H; cbn [add_functions] in H; [by injection H as <-|].
  destruct (_ <=? _); [by apply IH in H|]. apply bind_Ok in H as (fr & _ & H). apply bind_Ok in H as (found & _ & H).
  destruct found; [|by apply IH in H]. apply bind_Ok in H as (st1 & H1 & H). apply IH in H. apply addFunction_at_keeps in H1. congruence.
Qed.

Lemma add_lines_keeps base lines : forall st st', add_lines lines base st = Ok st' -> table_statements st' = table_statements st.
Proof.
  induction lines as [|l lines IH]; intros st st' H; cbn [add_lines] in H; [by injection H as <-|].
  repeat (apply bind_Ok in H as (? & ? & H)). apply IH in H.
  match goal with Ha : addStatement _ _ _ _ _ _ = Ok _ |- _ => apply addStatement_keeps in Ha end. congruence.
Qed.

Lemma add_statements_keeps mods base addrs : forall st st', add_statements mods addrs base st = Ok st' -> table_statements st' = table_statements st.
Proof.
  induction addrs as [|a addrs IH]; intros st st' H; cbn [add_statements] in H; [by injection H as <-|].
  apply bind_Ok in H as (d & _ & H). apply bind_Ok in H as (st1 & H1 & H). apply IH in H. apply add_lines_keeps in H1. congruence.
Qed.

Lemma getSymbols_keeps openFile buf le st st' : getSymbols openFile buf le st = Ok st' -> table_statements st' = table_statements st.
Proof.
  unfold getSymbols. intros H. apply bind_Ok in H as (r & _ & H). destruct (openFile _) as [sy|]; [|by injection H as <-].
  repeat (apply bind_Ok in H as (? & ? & H)). apply add_statements_keeps in H.
  match goal with H1 : add_functions _ _ _ _ _ = Ok _, H2 : add_statements _ _ _ _ = Ok _ |- _ => apply add_functions_keeps in H1; apply add_statements_keeps in H2 end.
  congruence.
Qed.

(** Statements are lost. Whatever statements are found for the sampled addresses of a
    linked object, the message of its symbol table has none. *)
Theorem statements_lost (openFile : string -> option Symtab) (abuffer : AddressBuffer) (le : LinkedObjectEntry) (range : Z * Z)
    (st : SymbolTable) (m : CBTF_Protocol_SymbolTable) :
  getSymbols openFile abuffer le (new_SymbolTable range) = Ok st -> to_protocol (e_path le) st = Ok m -> pst_statements m = [].
Proof.
  intros H1 H2. apply getSymbols_keeps in H1. unfold to_protocol in H2. rewrite H1 in H2. cbn [new_SymbolTable table_statements] in H2.
  apply bind_Ok in H2 as (fs & _ & H2). cbn in H2. by injection H2 as <-.
Qed.

(** ** An object with one function that was sampled twice *)
Definition example_symtab (_ : string) : option Symtab :=
  Some (mkSymtab 4096 8192 [("main"%string, 4352, 64); ("idle"%string, 5000, 100)]
    [fun a => if doesContain (4352, 4416) a then [mkLine "main.c" 12 3 4352 4416] else []]).
Definition example_entry : LinkedObjectEntry := mkEntry (ThreadName_of_ids "host" 1 1 0 0) "a.out" 4096 12288 true 0 1.
Definition example_samples : AddressBuffer := <[4360 := 2]> (<[4400 := 1]> ∅).
Definition example_table : SymbolTable :=
  mkTable (4096, 12288) [("main"%string, [(4352, 4416)])] [((4352, 4416), "main"%string)]
    [(mkStatement "main.c" 12 3, [(4352, 4416); (4352, 4416); (4352, 4416)])] [].

Example example_symbols : getSymbols example_symtab example_samples example_entry (new_SymbolTable (4096, 12288)) = Ok example_table.
Proof. vm_compute. reflexivity. Qed.

Lemma example_table_ok : table_ok example_table.
Proof. constructor; cbn; [lia|repeat constructor; cbn; lia|repeat constructor]. Qed.

Lemma addFunction_ok_witness : exists st', addFunction example_table 5000 5100 "idle" = Ok st' /\ table_ok st' /\
  dm_functions st' ≡ₚ ((5000, 5100), "idle"%string) :: dm_functions example_table.
Proof.
  destruct (addFunction_ok example_table 5000 5100 "idle" example_table_ok ltac:(lia) ltac:(lia)) as (st' & H1 & H2 & H3 & _).
  exists st'. split; [exact H1|]. split; [exact H2|]. rewrite decide_True in H3; [exact H3|].
  split; [lia|]. split; [unfold inside; cbn; lia|]. repeat constructor; unfold overlaps; cbn; lia.
Defined.

Lemma message_functions_witness : exists m, to_protocol "a.out" example_table = Ok m /\
  Forall2 (fun e f => pf_name f = e.1 /\ forall a, in_ranges e.2 a <-> occupies f a) (table_functions example_table) (pst_functions m).
Proof.
  destruct (message_functions "a.out" example_table eq_refl) as (m & H1 & _ & H2);
    [constructor; [unfold proper_ranges; cbn [snd]; rewrite Forall_cons, Forall_nil; cbn [fst snd]; lia|constructor]|].
  exists m. split; [exact H1|exact H2].
Defined.

Lemma statements_lost_witness : dm_statements example_table <> [] /\ exists m, to_protocol "a.out" example_table = Ok m /\ pst_statements m = [].
Proof.
  split; [discriminate|]. eexists. split; [vm_compute; reflexivity|].
  apply (statements_lost example_symtab example_samples example_entry (4096, 12288) example_table); [vm_compute; reflexivity|vm_compute; reflexivity].
Defined.
