(* ===== verification/ResolveSymbols.v ===== *)
(** The component that resolves addresses to functions (core/components/SymbolComponent.cpp):
    a leaf of the filter tree makes the symbol tables of the sampled linked objects and
    counts the samples of each function in each thread; the nodes above merge the largest,
    smallest and average values of their children. *)
From stdpp Require Import sorting.
From S2P Require Import Prelude PerfData ThreadName NodeRole FlatTopology Hostlist LinkedObjects SortedMap AddressBitmap SymbolTable.
#[local] Open Scope Z_scope.

(** ** Messages (messages/src/perfdata/Stats.x) *)
Record CBTF_Protocol_FunctionThreadValue := mkFTV { ftv_function : string; ftv_thread : CBTF_Protocol_ThreadName; ftv_value : Z }.
Record CBTF_Protocol_FunctionAvgValue := mkFAV { fav_function : string; fav_value : Z; fav_num : Z }.

Inductive rs_message :=
| symboltable_xdr (m : CBTF_Protocol_SymbolTable)
| maxfunctionvalues_xdr (values : list CBTF_Protocol_FunctionThreadValue)
| minfunctionvalues_xdr (values : list CBTF_Protocol_FunctionThreadValue)
| avgfunctionvalues_xdr (values : list CBTF_Protocol_FunctionAvgValue).

(** ** State: the counters of the file and the members of the class *)
Record FuncThreadStats := mkStats { fts_funcname : string; fts_tname : ThreadName; fts_value : Z }.
Notation FunctionThreadCount := (list (string * (ThreadName * Z))).
Notation FunctionAvgMap := (list (string * (Z * Z))).
Notation ThreadAddrBufMap := (list (ThreadName * AddressBuffer)).
Notation SymbolTableMap := (list ((Z * Z) * (SymbolTable * LinkedObjectEntry))).

Record rs_counters := mkCounters {
  num_leafcp : Z; max_msgs : Z; min_msgs : Z; avg_msgs : Z; lov_msgs : Z; lovmap_msgs : Z; thread_msgs : Z; sym_msgs : Z;
  rs_numTerminated : Z; rs_numThreads : Z }.
Record rs_resolution := mkResolution {
  symtabmap : SymbolTableMap; linkedobjectvec : list LinkedObjectEntry; addressspace : AddressSpace;
  rs_abuffer : AddressBuffer; fstatvec : list FuncThreadStats; threadAddrBufMap : ThreadAddrBufMap }.
Record rs_state := mkRS {
  rs_topology : topology_copy; rs_counts : rs_counters; rs_res : rs_resolution;
  maxvals : FunctionThreadCount; minvals : FunctionThreadCount; avgvals : FunctionAvgMap }.

(** ** Reductions *)
Definition max_op (old new : ThreadName * Z) : ThreadName * Z := if new.2 >? old.2 then new else old.
Definition min_op (old new : ThreadName * Z) : ThreadName * Z := if new.2 <? old.2 then new else old.
Definition avg_op (old new : Z * Z) : Z * Z := (u64 (old.1 + new.1), u64 (old.2 + new.2)).

Definition thread_entry (v : CBTF_Protocol_FunctionThreadValue) : string * (ThreadName * Z) :=
  (ftv_function v, (ThreadName_of_message (ftv_thread v), ftv_value v)).
Definition avg_entry (v : CBTF_Protocol_FunctionAvgValue) : string * (Z * Z) := (fav_function v, (fav_value v, fav_num v)).
Definition avg_value (e : string * (Z * Z)) : CBTF_Protocol_FunctionAvgValue := mkFAV e.1 e.2.1 e.2.2.

(** A message of a child: the number of messages, the merged values, and whether they are
    complete *)
Definition merge_step {V} (op : V -> V -> V) (children : Z) (s : Z * list (string * V)) (entries : list (string * V))
    : Z * list (string * V) * bool :=
  let vals := sm_reduce str_ltb op entries s.2 in (s.1 + 1, vals, s.1 + 1 =? children).

Fixpoint fstat_add (f : string) (t : ThreadName) (v : Z) (l : list FuncThreadStats) : list FuncThreadStats :=
  match l with
  | [] => [mkStats f t v]
  | s :: l' =>
      if String.eqb (fts_funcname s) f && name_eqb (fts_tname s) t then mkStats (fts_funcname s) (fts_tname s) (u64 (fts_value s + v)) :: l'
      else s :: fstat_add f t v l'
  end.

Section handlers.
(** [experiment] is what the field of that name holds, which is never assigned. *)
Context (T : TopologyInfo) (openFile : string -> option Symtab) (experiment : Z).

Definition thread_value (e : string * (ThreadName * Z)) : CBTF_Protocol_FunctionThreadValue :=
  mkFTV e.1 (to_message experiment e.2.1) e.2.2.

Definition rs_init (s : rs_state) : rs_state :=
  mkRS (init_TopologyInfo T (rs_topology s)) (rs_counts s) (rs_res s) (maxvals s) (minvals s) (avgvals s).
Definition ResolveSymbols : rs_state :=
  mkRS no_copy (mkCounters 0 0 0 0 0 0 0 0 0 0) (mkResolution [] [] [] ∅ [] []) [] [] [].

Definition rs_numBEHandler (s : rs_state) (_ : Z) : rs_state := rs_init s.

Definition leafCPHandler (s0 : rs_state) (_ : Z) : rs_state :=
  let s := rs_init s0 in
  let c := rs_counts s in
  mkRS (rs_topology s)
    (mkCounters (num_leafcp c + 1) (max_msgs c) (min_msgs c) (avg_msgs c) (lov_msgs c) (lovmap_msgs c) (thread_msgs c) (sym_msgs c)
       (rs_numTerminated c) (rs_numThreads c)) (rs_res s) (maxvals s) (minvals s) (avgvals s).

Definition MaxFunctionThreadValuesHandler (s0 : rs_state) (values : list CBTF_Protocol_FunctionThreadValue) : rs_state * list rs_message :=
  let s := rs_init s0 in
  let c := rs_counts s in
  let '(n, vals, complete) := merge_step max_op (getNumChildren (rs_topology s)) (max_msgs c, maxvals s) (thread_entry <$> values) in
  (mkRS (rs_topology s)
     (mkCounters (num_leafcp c) n (min_msgs c) (avg_msgs c) (lov_msgs c) (lovmap_msgs c) (thread_msgs c) (sym_msgs c)
        (rs_numTerminated c) (rs_numThreads c)) (rs_res s) vals (minvals s) (avgvals s),
   if (complete : bool) then [maxfunctionvalues_xdr (thread_value <$> vals)] else []).

Definition MinFunctionThreadValuesHandler (s0 : rs_state) (values : list CBTF_Protocol_FunctionThreadValue) : rs_state * list rs_message :=
  let s := rs_init s0 in
  let c := rs_counts s in
  let '(n, vals, complete) := merge_step min_op (getNumChildren (rs_topology s)) (min_msgs c, minvals s) (thread_entry <$> values) in
  (mkRS (rs_topology s)
     (mkCounters (num_leafcp c) (max_msgs c) n (avg_msgs c) (lov_msgs c) (lovmap_msgs c) (thread_msgs c) (sym_msgs c)
        (rs_numTerminated c) (rs_numThreads c)) (rs_res s) (maxvals s) vals (avgvals s),
   if (complete : bool) then [minfunctionvalues_xdr (thread_value <$> vals)] else []).

Definition AvgFunctionValuesHandler (s0 : rs_state) (values : list CBTF_Protocol_FunctionAvgValue) : rs_state * list rs_message :=
  let s := rs_init s0 in
  let c := rs_counts s in
  let '(n, vals, complete) := merge_step avg_op (getNumChildren (rs_topology s)) (avg_msgs c, avgvals s) (avg_entry <$> values) in
  (mkRS (rs_topology s)
     (mkCounters (num_leafcp c) (max_msgs c) (min_msgs c) n (lov_msgs c) (lovmap_msgs c) (thread_msgs c) (sym_msgs c)
        (rs_numTerminated c) (rs_numThreads c)) (rs_res s) (maxvals s) (minvals s) vals,
   if (complete : bool) then [avgfunctionvalues_xdr (avg_value <$> vals)] else []).

Definition rs_AddressBufferHandler (s0 : rs_state) (buf : AddressBuffer) : rs_state :=
  let s := rs_init s0 in
  let r := rs_res s in
  mkRS (rs_topology s) (rs_counts s)
    (mkResolution (symtabmap r) (linkedobjectvec r) (addressspace r) buf (fstatvec r) (threadAddrBufMap r))
    (maxvals s) (minvals s) (avgvals s).

Definition ThreadAddrBufMapHandler (s0 : rs_state) (m : ThreadAddrBufMap) : rs_state :=
  let s := rs_init s0 in
  let c := rs_counts s in
  let r := rs_res s in
  mkRS (rs_topology s)
    (mkCounters (num_leafcp c) (max_msgs c) (min_msgs c) (avg_msgs c) (lov_msgs c) (lovmap_msgs c) (thread_msgs c + 1) (sym_msgs c)
       (rs_numTerminated c) (rs_numThreads c + Z.of_nat (length m)))
    (mkResolution (symtabmap r) (linkedobjectvec r) (addressspace r) (rs_abuffer r) (fstatvec r) m)
    (maxvals s) (minvals s) (avgvals s).

(** The vector is not used. *)
Definition LinkedObjectVecHandler (s0 : rs_state) (_ : list LinkedObjectEntry) : rs_state :=
  let s := rs_init s0 in
  let c := rs_counts s in
  mkRS (rs_topology s)
    (mkCounters (num_leafcp c) (max_msgs c) (min_msgs c) (avg_msgs c) (lov_msgs c + 1) (lovmap_msgs c) (thread_msgs c) (sym_msgs c)
       (rs_numTerminated c) (rs_numThreads c)) (rs_res s) (maxvals s) (minvals s) (avgvals s).

Definition entry_of (t : ThreadName) (o : LinkedObject) : LinkedObjectEntry :=
  mkEntry t (lo_path o) (lo_range o).1 (lo_range o).2 (lo_is_executable o) (lo_time o).1 (lo_time o).2.

Definition AddressSpaceHandler (s0 : rs_state) (space : AddressSpace) : rs_state :=
  let s := rs_init s0 in
  let c := rs_counts s in
  let r := rs_res s in
  mkRS (rs_topology s)
    (mkCounters (num_leafcp c) (max_msgs c) (min_msgs c) (avg_msgs c) (lov_msgs c) (lovmap_msgs c + 1) (thread_msgs c) (sym_msgs c)
       (rs_numTerminated c) (rs_numThreads c))
    (mkResolution (symtabmap r) (linkedobjectvec r ++ concat ((fun e : ThreadName * list LinkedObject => entry_of e.1 <$> e.2) <$> space)) space (rs_abuffer r)
       (fstatvec r) (threadAddrBufMap r))
    (maxvals s) (minvals s) (avgvals s).

(** ** Resolving addresses *)
Fixpoint find_object (a : Z) (vec : list LinkedObjectEntry) : outcome (option (Z * Z * LinkedObjectEntry)) :=
  match vec with
  | [] => Ok None
  | le :: vec' =>
      range ← Interval (e_addr_begin le) (e_addr_end le);
      if doesContain range a then Ok (Some (range, le)) else find_object a vec'
  end.

Fixpoint resolve (addrs : list Z) (vec : list LinkedObjectEntry) (m : SymbolTableMap) : outcome SymbolTableMap :=
  match addrs with
  | [] => Ok m
  | a :: addrs' =>
      o ← find_object a vec;
      resolve addrs' vec
        (match o with Some (range, le) => sm_insert range_ltb range (new_SymbolTable range, le) m | None => m end)
  end.

Definition sorted_addresses (buf : AddressBuffer) : list Z := foldl (fun set a => set_insert a set) [] (map_to_list buf).*1.

(** The table that is filled is made anew from the range that is the key. *)
Definition fill_table (buf : AddressBuffer) (e : (Z * Z) * (SymbolTable * LinkedObjectEntry)) : outcome (SymbolTable * CBTF_Protocol_SymbolTable) :=
  st ← getSymbols openFile buf e.2.2 (new_SymbolTable e.1);
  m ← to_protocol (e_path e.2.2) st;
  Ok (st, m).

Definition symtabAPISymbolHandler (s0 : rs_state) : outcome (rs_state * list rs_message) :=
  let s := rs_init s0 in
  let r := rs_res s in
  m ← resolve (sorted_addresses (rs_abuffer r)) (linkedobjectvec r) (symtabmap r);
  tables ← mapM (fill_table (rs_abuffer r)) m;
  Ok (mkRS (rs_topology s) (rs_counts s)
        (mkResolution m (linkedobjectvec r) (addressspace r) (rs_abuffer r) (fstatvec r) (threadAddrBufMap r))
        (maxvals s) (minvals s) (avgvals s), symboltable_xdr <$> tables.*2).

(** ** Samples of the functions of a table; the addresses of a function are added up, so that
    their order does not matter. *)
Definition charge_function (t : ThreadName) (buf : AddressBuffer) (f : (Z * Z) * string) (l : list FuncThreadStats) : list FuncThreadStats :=
  foldl (fun l e => fstat_add f.2 t e.2 l) l (filter (fun e => doesContain f.1 e.1 = true) (map_to_list buf)).
Definition charge_thread (functions : list ((Z * Z) * string)) (l : list FuncThreadStats) (tb : ThreadName * AddressBuffer) : list FuncThreadStats :=
  foldl (fun l f => charge_function tb.1 tb.2 f l) l functions.
Definition charge_table (threads : ThreadAddrBufMap) (l : list FuncThreadStats) (st : SymbolTable) : list FuncThreadStats :=
  foldl (charge_thread (dm_functions st)) l threads.

(** ** What a leaf reports *)
Definition stats_entry (s : FuncThreadStats) : string * (ThreadName * Z) := (fts_funcname s, (fts_tname s, fts_value s)).
Definition functionscounts (l : list FuncThreadStats) : FunctionAvgMap :=
  sm_reduce str_ltb avg_op ((fun s => (fts_funcname s, (fts_value s, 1))) <$> l) [].
(** std::set<std::string> *)
Definition function_set (l : list FuncThreadStats) : list string :=
  (foldl (fun m s => sm_insert str_ltb (fts_funcname s) tt m) [] l).*1.
Definition extreme (op : ThreadName * Z -> ThreadName * Z -> ThreadName * Z) (l : list FuncThreadStats) : FunctionThreadCount :=
  foldl (fun m f => sm_reduce str_ltb op (stats_entry <$> filter (fun s => fts_value s <> 0 /\ fts_funcname s = f) l) m) [] (function_set l).

Definition report (l : list FuncThreadStats) : list rs_message :=
  [maxfunctionvalues_xdr (thread_value <$> extreme max_op l);
   minfunctionvalues_xdr (thread_value <$> extreme min_op l);
   avgfunctionvalues_xdr (avg_value <$> functionscounts l)].

Definition rs_finishedHandler (s0 : rs_state) : outcome (rs_state * list rs_message) :=
  let s := rs_init s0 in
  let r := rs_res s in
  if isFrontend T || isNonLeafCP T (rs_topology s) then Ok (s, [])
  else
    m ← resolve (sorted_addresses (rs_abuffer r)) (linkedobjectvec r) (symtabmap r);
    tables ← mapM (fill_table (rs_abuffer r)) m;
    let stats := foldl (charge_table (threadAddrBufMap r)) (fstatvec r) tables.*1 in
    Ok (mkRS (rs_topology s) (rs_counts s)
          (mkResolution m (linkedobjectvec r) (addressspace r) (rs_abuffer r) stats (threadAddrBufMap r))
          (maxvals s) (minvals s) (avgvals s),
        (symboltable_xdr <$> tables.*2) ++ report stats).

Definition rs_numTerminatedHandler (s0 : rs_state) (n : Z) : rs_state :=
  let s := rs_init s0 in
  let c := rs_counts s in
  mkRS (rs_topology s)
    (mkCounters (num_leafcp c) (max_msgs c) (min_msgs c) (avg_msgs c) (lov_msgs c) (lovmap_msgs c) (thread_msgs c) (sym_msgs c)
       (rs_numTerminated c + n) (rs_numThreads c)) (rs_res s) (maxvals s) (minvals s) (avgvals s).

Definition CbtfProtocolSymbolTableHandler (s0 : rs_state) (m : CBTF_Protocol_SymbolTable) : rs_state * list rs_message :=
  let s := rs_init s0 in
  let c := rs_counts s in
  (mkRS (rs_topology s)
     (mkCounters (num_leafcp c) (max_msgs c) (min_msgs c) (avg_msgs c) (lov_msgs c) (lovmap_msgs c) (thread_msgs c) (sym_msgs c + 1)
        (rs_numTerminated c) (rs_numThreads c)) (rs_res s) (maxvals s) (minvals s) (avgvals s), [symboltable_xdr m]).

Definition CbtfProtocolSymbolTableGroupHandler (s : rs_state) (_ : list CBTF_Protocol_SymbolTable) : rs_state := s.

(** The message of a child is delivered to its handler. *)
Definition rs_deliver (s : rs_state) (m : rs_message) : rs_state * list rs_message :=
  match m with
  | symboltable_xdr t => CbtfProtocolSymbolTableHandler s t
  | maxfunctionvalues_xdr v => MaxFunctionThreadValuesHandler s v
  | minfunctionvalues_xdr v => MinFunctionThreadValuesHandler s v
  | avgfunctionvalues_xdr v => AvgFunctionValuesHandler s v
  end.

Definition rs_run (ms : list rs_message) : rs_state * list rs_message :=
  foldl (fun r m => let r' := rs_deliver r.1 m in (r'.1, r.2 ++ r'.2)) (ResolveSymbols, []) ms.
End handlers.
