(* ===== verification/FunctionMetrics.v ===== *)
(** The largest, smallest and average number of samples of each function: what the nodes
    of a filter tree of any shape make of the statistics of the leaves. *)
From stdpp Require Import sorting.
From S2P Require Import Prelude PerfData ThreadName NodeRole FlatTopology Hostlist LinkedObjects SortedMap AddressBitmap SymbolTable ResolveSymbols.
#[local] Open Scope Z_scope.

(** ** The messages of a kind *)
Definition maxes (ms : list rs_message) : list (list CBTF_Protocol_FunctionThreadValue) :=
  omap (fun m => match m with maxfunctionvalues_xdr v => Some v | _ => None end) ms.
Definition mins (ms : list rs_message) : list (list CBTF_Protocol_FunctionThreadValue) :=
  omap (fun m => match m with minfunctionvalues_xdr v => Some v | _ => None end) ms.
Definition avgs (ms : list rs_message) : list (list CBTF_Protocol_FunctionAvgValue) :=
  omap (fun m => match m with avgfunctionvalues_xdr v => Some v | _ => None end) ms.

Lemma maxes_app a b : maxes (a ++ b) = maxes a ++ maxes b. Proof. apply omap_app. Qed.
Lemma mins_app a b : mins (a ++ b) = mins a ++ mins b. Proof. apply omap_app. Qed.
Lemma avgs_app a b : avgs (a ++ b) = avgs a ++ avgs b. Proof. apply omap_app. Qed.

(** ** A node that merges the messages of its children *)
Definition entries_of {A V} (entry : A -> string * V) (l : list (list A)) : list (string * V) := concat ((fun x : list A => entry <$> x) <$> l).

Lemma reduce_app {V} (op : V -> V -> V) l k m : sm_reduce str_ltb op (l ++ k) m = sm_reduce str_ltb op k (sm_reduce str_ltb op l m).
Proof. apply foldl_app. Qed.

Lemma values_snoc {A V} (entry : A -> string * V) l x : entries_of entry (l ++ [x]) = entries_of entry l ++ (entry <$> x).
Proof. unfold entries_of. rewrite fmap_app, concat_app. cbn. by rewrite app_nil_r. Qed.

Section node.
Context (T : TopologyInfo) (experiment : Z) (HT : known T).
Notation N := (NumChildren T).

(** What was sent of a kind: nothing, or the values when they are complete *)
Definition sent_when {V M} (value : string * V -> M) (n : Z) (vals : list (string * V)) : list (list M) :=
  if n =? N then [value <$> vals] else [].

Record merging (ms : list rs_message) (s : rs_state) (outs : list rs_message) : Prop := {
  mg_copy : init_TopologyInfo T (rs_topology s) = copy_of T;
  mg_max : max_msgs (rs_counts s) = Z.of_nat (length (maxes ms)) /\ maxvals s = sm_reduce str_ltb max_op (entries_of thread_entry (maxes ms)) [] /\
    (Z.of_nat (length (maxes ms)) <= N -> maxes outs = sent_when (thread_value experiment) (Z.of_nat (length (maxes ms))) (maxvals s));
  mg_min : min_msgs (rs_counts s) = Z.of_nat (length (mins ms)) /\ minvals s = sm_reduce str_ltb min_op (entries_of thread_entry (mins ms)) [] /\
    (Z.of_nat (length (mins ms)) <= N -> mins outs = sent_when (thread_value experiment) (Z.of_nat (length (mins ms))) (minvals s));
  mg_avg : avg_msgs (rs_counts s) = Z.of_nat (length (avgs ms)) /\ avgvals s = sm_reduce str_ltb avg_op (entries_of avg_entry (avgs ms)) [] /\
    (Z.of_nat (length (avgs ms)) <= N -> avgs outs = sent_when avg_value (Z.of_nat (length (avgs ms))) (avgvals s)) }.

(** One message of a kind more *)
Lemma sent_more {A V M} (value : string * V -> M) (l : list (list A)) (x : list A)
    (outs new : list (list M)) vals vals' :
  (Z.of_nat (length l) <= N -> outs = sent_when value (Z.of_nat (length l)) vals) ->
  new = (if Z.of_nat (length l) + 1 =? N then [value <$> vals'] else []) ->
  Z.of_nat (length (l ++ [x])) <= N -> outs ++ new = sent_when value (Z.of_nat (length (l ++ [x]))) vals'.
Proof.
  intros Ho -> Hl. rewrite length_app in *. cbn [length] in *. rewrite Ho by lia. unfold sent_when.
  rewrite (proj2 (Z.eqb_neq (Z.of_nat (length l)) N)) by lia. cbn [app].
  replace (Z.of_nat (length l + 1)) with (Z.of_nat (length l) + 1) by lia. done.
Qed.

Lemma merging_step ms s outs m : merging ms s outs ->
  merging (ms ++ [m]) (rs_deliver T experiment s m).1 (outs ++ (rs_deliver T experiment s m).2).
Proof.
  intros [Hc (A1 & A2 & A3) (B1 & B2 & B3) (C1 & C2 & C3)].
  assert (HN : getNumChildren (init_TopologyInfo T (rs_topology s)) = N) by by rewrite Hc.
  assert (Hm : forall l, maxes (ms ++ l) = maxes ms ++ maxes l) by (intros; apply maxes_app).
  destruct m; constructor; cbn [rs_deliver CbtfProtocolSymbolTableHandler MaxFunctionThreadValuesHandler MinFunctionThreadValuesHandler
    AvgFunctionValuesHandler merge_step fst snd rs_init rs_topology rs_counts maxvals minvals avgvals max_msgs min_msgs avg_msgs];
    rewrite ?maxes_app, ?mins_app, ?avgs_app, ?HN; cbn [maxes mins avgs omap list_omap]; rewrite ?app_nil_r;
    try (by rewrite Hc); try done;
    try (destruct (_ =? N); cbn [maxes mins avgs omap list_omap]; rewrite ?app_nil_r; done).
  - split_and!; [rewrite A1, length_app; cbn; lia|by rewrite A2, values_snoc, reduce_app|].
    intros Hl. eapply sent_more; [exact A3| |exact Hl]. rewrite A1. by destruct (_ =? N).
  - split_and!; [rewrite B1, length_app; cbn; lia|by rewrite B2, values_snoc, reduce_app|].
    intros Hl. eapply sent_more; [exact B3| |exact Hl]. rewrite B1. by destruct (_ =? N).
  - split_and!; [rewrite C1, length_app; cbn; lia|by rewrite C2, values_snoc, reduce_app|].
    intros Hl. eapply sent_more; [exact C3| |exact Hl]. rewrite C1. by destruct (_ =? N).
Qed.

Lemma merging_run ms : merging ms (rs_run T experiment ms).1 (rs_run T experiment ms).2.
Proof.
  induction ms as [|m ms IH] using rev_ind.
  - constructor; [by apply init_fresh|..]; destruct HT as [_ H2].
    all: split_and!; [done|done|]; intros _; unfold sent_when; cbn [maxes mins avgs omap list_omap length].
    all: by rewrite (proj2 (Z.eqb_neq (Z.of_nat 0) N)) by lia.
  - unfold rs_run in *. rewrite foldl_app. cbn. by apply merging_step.
Qed.
End node.

(** ** Extreme values *)
Section extreme.
Context (op : ThreadName * Z -> ThreadName * Z -> ThreadName * Z) (R : Z -> Z -> Prop).
Context (Hop : forall o n, (op o n = n /\ R n.2 o.2) \/ (op o n = o /\ R o.2 n.2)).
Context (Hrefl : forall a, R a a) (Htrans : forall a b c, R a b -> R b c -> R a c).

(** The entries of [E] are entries of [L], and for each of [L] there is one at least as good
    for the same function. *)
Definition best_of (E L : FunctionThreadCount) : Prop :=
  (forall f x, (f, x) ∈ E -> (f, x) ∈ L) /\ (forall f y, (f, y) ∈ L -> exists x, (f, x) ∈ E /\ R x.2 y.2).

Lemma best_refl L : best_of L L.
Proof. split; [done|]. intros f y Hy. exists y. by split. Qed.

Lemma best_trans A B C : best_of A B -> best_of B C -> best_of A C.
Proof.
  intros [H1 H2] [H3 H4]. split; [by auto|]. intros f z Hz. destruct (H4 f z Hz) as (y & Hy & Hyz).
  destruct (H2 f y Hy) as (x & Hx & Hxy). exists x. split; [done|by apply Htrans with y.2].
Qed.

Lemma best_perm E L L' : L ≡ₚ L' -> best_of E L -> best_of E L'.
Proof. intros HL [H1 H2]. split; [intros f x Hx; rewrite <- HL; by apply H1|]. intros f y Hy. rewrite <- HL in Hy. by apply H2. Qed.

Lemma best_app E E' L L' : best_of E L -> best_of E' L' -> best_of (E ++ E') (L ++ L').
Proof.
  intros [H1 H2] [H3 H4]. split.
  - intros f x [Hx|Hx]%elem_of_app; apply elem_of_app; [left; by apply H1|right; by apply H3].
  - intros f y [Hy|Hy]%elem_of_app; [destruct (H2 f y Hy) as (x & ? & ?)|destruct (H4 f y Hy) as (x & ? & ?)];
      exists x; (split; [apply elem_of_app; auto|done]).
Qed.

Lemma fold_best l : forall o, match foldl (merged_value op) o l with
  | None => o = None /\ l = []
  | Some x => (x ∈ l \/ o = Some x) /\ (forall y, y ∈ l \/ o = Some y -> R x.2 y.2)
  end.
Proof.
  induction l as [|v l IH]; intros o; cbn [foldl].
  - destruct o as [x|]; [|done]. split; [by right|]. intros y [Hy|[= ->]]; [by apply not_elem_of_nil in Hy|done].
  - specialize (IH (merged_value op o v)). destruct (foldl _ _ l) as [x|]; [|by destruct IH as [? _]].
    destruct IH as [H1 H2]. unfold merged_value in *. destruct o as [old|].
    + destruct (Hop old v) as [[E HR]|[E HR]]; rewrite E in *.
      * split; [left; apply elem_of_cons; naive_solver|]. intros y [Hy|[= <-]].
        -- apply elem_of_cons in Hy as [->|Hy]; apply H2; [by right|by left].
        -- apply Htrans with v.2; [apply H2; by right|done].
      * split; [destruct H1 as [?|?]; [left; by right|by right]|]. intros y [Hy|[= <-]]; [|apply H2; by right].
        apply elem_of_cons in Hy as [->|Hy]; [apply Htrans with old.2; [apply H2; by right|done]|apply H2; by left].
    + split; [left; apply elem_of_cons; naive_solver|]. intros y [Hy|?]; [|done].
      apply elem_of_cons in Hy as [->|Hy]; apply H2; [by right|by left].
Qed.

Lemma reduce_best L : best_of (sm_reduce str_ltb op L []) L.
Proof.
  assert (Hs : sm_sorted str_ltb (sm_reduce str_ltb op L [])) by (apply reduce_sorted; [apply _|constructor]).
  assert (Hf : forall f, sm_find str_ltb f (sm_reduce str_ltb op L []) = foldl (merged_value op) None (filter (fun e => e.1 = f) L).*2)
    by (intros f; by rewrite (find_reduce str_ltb) by constructor).
  assert (Hin : forall f y, y ∈ (filter (fun e => e.1 = f) L).*2 <-> (f, y) ∈ L).
  { intros f y. rewrite list_elem_of_fmap. split.
    - intros ([g z] & -> & [Hg Hz]%list_elem_of_filter). cbn in *. by subst.
    - intros Hy. exists (f, y). split; [done|]. by apply list_elem_of_filter. }
  split.
  - intros f x Hx. apply (find_in str_ltb) in Hx; [|done]. rewrite Hf in Hx. pose proof (fold_best (filter (fun e => e.1 = f) L).*2 None) as H.
    rewrite Hx in H. destruct H as [[H|H] _]; [by apply Hin|done].
  - intros f y Hy. pose proof (fold_best (filter (fun e => e.1 = f) L).*2 None) as H. rewrite <- Hf in H.
    destruct (sm_find _ f _) as [x|] eqn:E.
    + exists x. split; [by apply (find_in str_ltb) in E|]. apply H. left. by apply Hin.
    + destruct H as [_ H]. apply Hin in Hy. rewrite H in Hy. by apply not_elem_of_nil in Hy.
Qed.
End extreme.

Lemma max_op_cases o n : (max_op o n = n /\ o.2 <= n.2) \/ (max_op o n = o /\ n.2 <= o.2).
Proof. unfold max_op. destruct (_ >? _) eqn:E; bools; [left|right]; (split; [done|lia]). Qed.
Lemma min_op_cases o n : (min_op o n = n /\ n.2 <= o.2) \/ (min_op o n = o /\ o.2 <= n.2).
Proof. unfold min_op. destruct (_ <? _) eqn:E; bools; [left|right]; (split; [done|lia]). Qed.

(** ** Sums *)
Definition sum_of (f : string) (p : Z * Z -> Z) (L : FunctionAvgMap) : Z := sum_by (fun e : string * (Z * Z) => if decide (e.1 = f) then p e.2 else 0) L.
Definition sums_of (E L : FunctionAvgMap) : Prop :=
  (forall f, (exists x, (f, x) ∈ E) <-> exists x, (f, x) ∈ L) /\
  (forall f, u64 (sum_of f fst E) = u64 (sum_of f fst L)) /\ (forall f, u64 (sum_of f snd E) = u64 (sum_of f snd L)).

Lemma u64_sums a b c d : u64 a = u64 c -> u64 b = u64 d -> u64 (a + b) = u64 (c + d).
Proof. unfold u64. intros H1 H2. rewrite (Z.add_mod a b), (Z.add_mod c d) by done. by rewrite H1, H2. Qed.

Lemma sums_refl L : sums_of L L. Proof. done. Qed.
Lemma sums_trans A B C : sums_of A B -> sums_of B C -> sums_of A C.
Proof. intros (H1 & H2 & H3) (H4 & H5 & H6). split_and!; intros f; [by rewrite H1|by rewrite H2|by rewrite H3]. Qed.
Lemma sums_perm E L L' : L ≡ₚ L' -> sums_of E L -> sums_of E L'.
Proof.
  intros HL (H1 & H2 & H3). split_and!; intros f; [rewrite H1; by setoid_rewrite HL|rewrite H2; f_equal; by apply sum_by_perm|rewrite H3; f_equal; by apply sum_by_perm].
Qed.
Lemma sums_app E E' L L' : sums_of E L -> sums_of E' L' -> sums_of (E ++ E') (L ++ L').
Proof.
  intros (H1 & H2 & H3) (H4 & H5 & H6). unfold sums_of, sum_of in *; split_and!; intros f; [|rewrite !sum_by_app; by apply u64_sums..].
  specialize (H1 f). specialize (H4 f). setoid_rewrite elem_of_app. naive_solver.
Qed.

Lemma upsert_sums f v m : sums_of (sm_upsert str_ltb f v (fun old => avg_op old v) m) ((f, v) :: m).
Proof.
  induction m as [|[g w] m (IH1 & IH2 & IH3)]; [by apply sums_refl|]. cbn [sm_upsert].
  destruct (str_ltb g f) eqn:E1; [|destruct (str_ltb f g) eqn:E2; [by apply sums_refl|]].
  - apply sums_perm with ((g, w) :: (f, v) :: m); [apply perm_swap|]. by apply (sums_app [(g, w)] _ [(g, w)]).
  - pose proof (tk_total _ _ E1 E2) as ->. split_and!; intros h.
    + split; intros [x Hx]; apply elem_of_cons in Hx as [Hx|Hx].
      * injection Hx as -> _. exists v. left.
      * exists x. right. by right.
      * injection Hx as -> _. eexists. left.
      * apply elem_of_cons in Hx as [Hx|Hx]; [injection Hx as -> _; eexists; left|]. exists x. by right.
    + unfold sum_of. rewrite !sum_by_cons. cbn [fst snd avg_op]. destruct (decide (f = h)); [|done]. rewrite Z.add_assoc. apply u64_sums; [|done].
      unfold u64. rewrite Z.mod_mod by done. f_equal. lia.
    + unfold sum_of. rewrite !sum_by_cons. cbn [fst snd avg_op]. destruct (decide (f = h)); [|done]. rewrite Z.add_assoc. apply u64_sums; [|done].
      unfold u64. rewrite Z.mod_mod by done. f_equal. lia.
Qed.

Lemma reduce_sums L : forall m, sums_of (sm_reduce str_ltb avg_op L m) (m ++ L).
Proof.
  induction L as [|[f v] L IH]; intros m; [rewrite app_nil_r; by apply sums_refl|].
  change (sm_reduce str_ltb avg_op ((f, v) :: L) m) with (sm_reduce str_ltb avg_op L (sm_upsert str_ltb f v (fun old => avg_op old v) m)).
  eapply sums_trans; [apply IH|]. apply sums_perm with (((f, v) :: m) ++ L).
  - cbn [app]. by rewrite Permutation_middle.
  - apply sums_app; [apply upsert_sums|apply sums_refl].
Qed.

(** ** A tree of nodes, with the statistics of each leaf and the tables it sends *)
Inductive rtree := RLeaf (stats : list FuncThreadStats) (tables : list CBTF_Protocol_SymbolTable) | RNode (ts : list rtree).

Section rtree_ind.
Context (P : rtree -> Prop) (Pleaf : forall s t, P (RLeaf s t)) (Pnode : forall ts, Forall P ts -> P (RNode ts)).
Fixpoint rtree_induction (t : rtree) : P t :=
  match t with
  | RLeaf s tb => Pleaf s tb
  | RNode ts => Pnode ts ((fix go ts : Forall P ts := match ts with [] => Forall_nil_2 P | t :: ts' => Forall_cons_2 P t ts' (rtree_induction t) (go ts') end) ts)
  end.
End rtree_ind.

Fixpoint leaf_stats (t : rtree) : list FuncThreadStats :=
  match t with RLeaf s _ => s | RNode ts => concat (leaf_stats <$> ts) end.

(** What a tree sends up: the messages of the children of a node arrive in any order. *)
Fixpoint sends (experiment : Z) (t : rtree) (outs : list rs_message) : Prop :=
  match t with
  | RLeaf stats tables => outs = (symboltable_xdr <$> tables) ++ report experiment stats
  | RNode ts => exists T outss ms, known T /\ NumChildren T = Z.of_nat (length ts) /\
      (fix all ts outss := match ts, outss with
                           | [], [] => True
                           | t :: ts', o :: outss' => sends experiment t o /\ all ts' outss'
                           | _, _ => False
                           end) ts outss /\
      ms ≡ₚ concat outss /\ outs = (rs_run T experiment ms).2
  end.

Definition nonzero (l : list FuncThreadStats) : FunctionThreadCount := stats_entry <$> filter (fun s => fts_value s <> 0) l.
Definition all_entries (l : list FuncThreadStats) : FunctionAvgMap := (fun s => (fts_funcname s, (fts_value s, 1))) <$> l.

(** Names that messages carry as they are *)
Definition proper_thread (t : ThreadName) : Prop := ThreadName_of_message (to_message 0 t) = t.

Lemma values_back experiment E : Forall (fun e => proper_thread e.2.1) E -> thread_entry <$> (thread_value experiment <$> E) = E.
Proof. induction 1 as [|[f [t v]] E He _ IH]; [done|]. rewrite !fmap_cons, IH. f_equal. exact (f_equal (fun u => (f, (u, v))) He). Qed.

Lemma avgs_back (E : FunctionAvgMap) : avg_entry <$> (avg_value <$> E) = E.
Proof. induction E as [|[f [v n]] E IH]; [done|]. by rewrite !fmap_cons, IH. Qed.

Lemma best_mem R E L L' : (forall e, e ∈ L <-> e ∈ L') -> best_of R E L -> best_of R E L'.
Proof. intros HL [H1 H2]. split; [intros f x Hx; by apply HL, H1|]. intros f y Hy. apply HL in Hy. by apply H2. Qed.

(** ** A leaf *)
Lemma insert_keys f m g : (exists u, (g, u) ∈ sm_insert str_ltb f tt m) <-> g = f \/ exists u, (g, u) ∈ m.
Proof.
  split; [intros [u Hu]; by apply (upsert_keys str_ltb) in Hu|]. unfold sm_insert. induction m as [|[k w] m IH]; cbn [sm_upsert].
  - intros [->|[u Hu]]; [exists tt; left|by apply not_elem_of_nil in Hu].
  - intros H. destruct (str_ltb k f) eqn:E1; [|destruct (str_ltb f k) eqn:E2].
    + assert (Hor : (g, w) = (k, w) \/ g = f \/ exists u, (g, u) ∈ m).
      { destruct H as [?|[u Hu]]; [auto|]. apply elem_of_cons in Hu as [Hu|Hu]; [injection Hu as -> _; auto|eauto]. }
      destruct Hor as [[= ->]|Hor]; [exists w; left|]. destruct (IH Hor) as [u Hu]. exists u. by right.
    + destruct H as [->|[u Hu]]; [exists tt; left|]. exists u. by right.
    + pose proof (tk_total _ _ E1 E2) as ->. destruct H as [->|[u Hu]]; [exists w; left|]. exists u. destruct u, w. exact Hu.
Qed.

Lemma function_set_in l f : f ∈ function_set l <-> exists s, s ∈ l /\ fts_funcname s = f.
Proof.
  assert (H : forall m, (exists u, (f, u) ∈ foldl (fun m s => sm_insert str_ltb (fts_funcname s) tt m) m l) <->
    (exists u, (f, u) ∈ m) \/ exists s, s ∈ l /\ fts_funcname s = f).
  { induction l as [|s l IH]; intros m; cbn [foldl].
    - split; [by left|]. intros [?|(s & Hs & _)]; [done|by apply not_elem_of_nil in Hs].
    - rewrite IH, insert_keys. setoid_rewrite elem_of_cons. naive_solver. }
  unfold function_set. rewrite list_elem_of_fmap. specialize (H []). split.
  - intros ([g u] & -> & Hg). apply proj1 in H. destruct H as [[u' Hu]|?]; [by exists u|by apply not_elem_of_nil in Hu|done].
  - intros Hs. destruct (proj2 H (or_intror Hs)) as [u Hu]. by exists (f, u).
Qed.

Lemma extreme_reduce op l : extreme op l =
  sm_reduce str_ltb op (concat ((fun f => stats_entry <$> filter (fun s => fts_value s <> 0 /\ fts_funcname s = f) l) <$> function_set l)) [].
Proof.
  unfold extreme. generalize (@nil (string * (ThreadName * Z))). induction (function_set l) as [|f fs IH]; intros m; [done|].
  cbn [foldl fmap list_fmap concat]. by rewrite reduce_app, IH.
Qed.

Lemma extreme_in l e : e ∈ concat ((fun f => stats_entry <$> filter (fun s => fts_value s <> 0 /\ fts_funcname s = f) l) <$> function_set l) <-> e ∈ nonzero l.
Proof.
  rewrite list_elem_of_In, in_concat. unfold nonzero. rewrite list_elem_of_fmap. split.
  - intros (es & Hes & He). apply list_elem_of_In in Hes, He. apply list_elem_of_fmap in Hes as (f & -> & _).
    apply list_elem_of_fmap in He as (s & -> & Hs). apply list_elem_of_filter in Hs as [[Hv _] Hs]. exists s. split; [done|].
    by apply list_elem_of_filter.
  - intros (s & -> & Hs). apply list_elem_of_filter in Hs as [Hv Hs].
    exists (stats_entry <$> filter (fun s' => fts_value s' <> 0 /\ fts_funcname s' = fts_funcname s) l). split; apply list_elem_of_In.
    + apply list_elem_of_fmap. exists (fts_funcname s). split; [done|]. apply function_set_in. by exists s.
    + apply list_elem_of_fmap. exists s. split; [done|]. by apply list_elem_of_filter.
Qed.

(** ** The whole tree *)
Record metrics (stats : list FuncThreadStats) (mx mn : FunctionThreadCount) (av : FunctionAvgMap) : Prop := {
  mt_max : best_of (fun a b => b <= a) mx (nonzero stats);
  mt_min : best_of (fun a b => a <= b) mn (nonzero stats);
  mt_avg : sums_of av (all_entries stats);
  mt_sorted : sm_sorted str_ltb mx /\ sm_sorted str_ltb mn /\ sm_sorted str_ltb av }.

Definition sends_metrics (stats : list FuncThreadStats) (outs : list rs_message) : Prop :=
  exists mx mn av, maxes outs = [mx] /\ mins outs = [mn] /\ avgs outs = [av] /\
    metrics stats (thread_entry <$> mx) (thread_entry <$> mn) (avg_entry <$> av).

Definition proper_stats (l : list FuncThreadStats) : Prop := Forall (fun s => proper_thread (fts_tname s)) l.

Lemma best_proper R E L : best_of R E (nonzero L) -> proper_stats L -> Forall (fun e : string * (ThreadName * Z) => proper_thread e.2.1) E.
Proof.
  intros [H _] HL. apply Forall_forall. intros [f x] Hx. apply H in Hx. apply list_elem_of_fmap in Hx as (s & [= -> ->] & Hs).
  apply list_elem_of_filter in Hs as [_ Hs]. by apply (proj1 (Forall_forall _ _) HL) in Hs.
Qed.

Lemma tables_silent (tables : list CBTF_Protocol_SymbolTable) :
  maxes (symboltable_xdr <$> tables) = [] /\ mins (symboltable_xdr <$> tables) = [] /\ avgs (symboltable_xdr <$> tables) = [].
Proof. by induction tables as [|t ts (H1 & H2 & H3)]. Qed.

Lemma leaf_metrics experiment stats tables : proper_stats stats ->
  sends_metrics stats ((symboltable_xdr <$> tables) ++ report experiment stats).
Proof.
  intros Hp. destruct (tables_silent tables) as (H1 & H2 & H3).
  assert (Hx : best_of (fun a b => b <= a) (extreme max_op stats) (nonzero stats)).
  { rewrite extreme_reduce. eapply best_mem; [apply extreme_in|]. apply (reduce_best max_op (fun a b => b <= a)); [apply max_op_cases|lia..]. }
  assert (Hn : best_of (fun a b => a <= b) (extreme min_op stats) (nonzero stats)).
  { rewrite extreme_reduce. eapply best_mem; [apply extreme_in|]. apply (reduce_best min_op (fun a b => a <= b)); [apply min_op_cases|lia..]. }
  eexists _, _, _. rewrite maxes_app, mins_app, avgs_app, H1, H2, H3. cbn [app report maxes mins avgs omap list_omap].
  split; [done|]. split; [done|]. split; [done|].
  rewrite !values_back by (eapply best_proper; [|exact Hp]; done). rewrite avgs_back.
  constructor; [done|done|apply (reduce_sums _ [])|]. split_and!; [rewrite extreme_reduce|rewrite extreme_reduce|];
    (apply reduce_sorted; [apply _|constructor]).
Qed.

(** ** The nodes above *)
Lemma all_sends experiment ts outss :
  (fix all ts outss := match ts, outss with
                       | [], [] => True
                       | t :: ts', o :: outss' => sends experiment t o /\ all ts' outss'
                       | _, _ => False
                       end) ts outss <-> Forall2 (sends experiment) ts outss.
Proof.
  revert outss. induction ts as [|t ts IH]; intros [|o outss]; (split; intros H; [try constructor; try done|try done; try (by inversion H)]).
  - by destruct H.
  - destruct H as [_ H]. by apply IH.
  - inversion H; subst. split; [done|by apply IH].
Qed.

Lemma proper_parts ts : proper_stats (concat (leaf_stats <$> ts)) -> Forall (fun t => proper_stats (leaf_stats t)) ts.
Proof.
  induction ts as [|t ts IH]; intros H; [constructor|]. cbn in H. apply Forall_app in H as [H1 H2]. constructor; [done|by apply IH].
Qed.

(** What the children send, put together, stands for the statistics of all leaves. *)
Lemma children_metrics outss ts : Forall2 (fun t outs => sends_metrics (leaf_stats t) outs) ts outss ->
  exists mxs mns avs, maxes (concat outss) = mxs /\ mins (concat outss) = mns /\ avgs (concat outss) = avs /\
    length mxs = length ts /\ length mns = length ts /\ length avs = length ts /\
    best_of (fun a b => b <= a) (entries_of thread_entry mxs) (nonzero (concat (leaf_stats <$> ts))) /\
    best_of (fun a b => a <= b) (entries_of thread_entry mns) (nonzero (concat (leaf_stats <$> ts))) /\
    sums_of (entries_of avg_entry avs) (all_entries (concat (leaf_stats <$> ts))).
Proof.
  induction 1 as [|t outs ts outss (mx & mn & av & E1 & E2 & E3 & M) _ (mxs & mns & avs & H1 & H2 & H3 & L1 & L2 & L3 & B1 & B2 & B3)].
  { exists [], [], []. split; [done|]. split; [done|]. split; [done|]. split; [done|]. split; [done|]. split; [done|].
    split; [|split; [|apply sums_refl]]; (split; [done|]); intros f y Hy; by apply not_elem_of_nil in Hy. }
  destruct M as [M1 M2 M3 _]. exists (mx :: mxs), (mn :: mns), (av :: avs). cbn [concat fmap list_fmap length]. rewrite maxes_app, mins_app, avgs_app, E1, E2, E3, H1, H2, H3.
  unfold nonzero, all_entries in *. rewrite filter_app, !fmap_app. unfold entries_of in *. cbn [concat fmap list_fmap].
  split_and!; [done|done|done|by rewrite L1|by rewrite L2|by rewrite L3|by apply best_app|by apply best_app|by apply sums_app].
Qed.

Lemma entries_perm {A V} (entry : A -> string * V) (l l' : list (list A)) : l ≡ₚ l' -> entries_of entry l ≡ₚ entries_of entry l'.
Proof.
  unfold entries_of. induction 1 as [|x l l' _ IH|x y l|l l' l'' _ IH1 _ IH2]; cbn; [done|by rewrite IH| |by rewrite IH1].
  rewrite !app_assoc. apply Permutation_app_tail. apply Permutation_app_comm.
Qed.

Lemma sends_ok experiment t : forall outs, sends experiment t outs -> proper_stats (leaf_stats t) -> sends_metrics (leaf_stats t) outs.
Proof.
  induction t as [stats tables|ts IH] using rtree_induction; intros outs Hs Hp.
  { cbn in Hs. subst. by apply leaf_metrics. }
  destruct Hs as (T & outss & ms & HT & HN & Hall & Hms & ->). apply all_sends in Hall. cbn [leaf_stats] in *.
  pose proof (proper_parts ts Hp) as Hps.
  assert (Hch : Forall2 (fun t outs => sends_metrics (leaf_stats t) outs) ts outss).
  { clear -IH Hall Hps. induction Hall as [|t o ts outss Ht _ IHl]; [constructor|]. apply Forall_cons in IH as [IH1 IH2].
    apply Forall_cons in Hps as [P1 P2]. constructor; [by apply IH1|by apply IHl]. }
  destruct (children_metrics outss ts Hch) as (mxs & mns & avs & H1 & H2 & H3 & L1 & L2 & L3 & B1 & B2 & B3).
  assert (P1 : maxes ms ≡ₚ mxs) by (rewrite <- H1; unfold maxes; by rewrite Hms).
  assert (P2 : mins ms ≡ₚ mns) by (rewrite <- H2; unfold mins; by rewrite Hms).
  assert (P3 : avgs ms ≡ₚ avs) by (rewrite <- H3; unfold avgs; by rewrite Hms).
  destruct (merging_run T experiment HT ms) as [_ (A1 & A2 & A3) (C1 & C2 & C3) (D1 & D2 & D3)].
  set (s := (rs_run T experiment ms).1) in *. set (outs := (rs_run T experiment ms).2) in *.
  rewrite P1, L1 in A3. rewrite P2, L2 in C3. rewrite P3, L3 in D3. unfold sent_when in *. rewrite <- HN, Z.eqb_refl in *.
  specialize (A3 ltac:(lia)). specialize (C3 ltac:(lia)). specialize (D3 ltac:(lia)).
  exists (thread_value experiment <$> maxvals s), (thread_value experiment <$> minvals s), (avg_value <$> avgvals s).
  split; [done|]. split; [done|]. split; [done|].
  assert (M1 : best_of (fun a b => b <= a) (maxvals s) (nonzero (concat (leaf_stats <$> ts)))).
  { rewrite A2. eapply best_trans; [intros; lia| |exact B1]. eapply best_perm; [apply entries_perm; exact P1|].
    apply (reduce_best max_op (fun a b => b <= a)); [apply max_op_cases|lia..]. }
  assert (M2 : best_of (fun a b => a <= b) (minvals s) (nonzero (concat (leaf_stats <$> ts)))).
  { rewrite C2. eapply best_trans; [intros; lia| |exact B2]. eapply best_perm; [apply entries_perm; exact P2|].
    apply (reduce_best min_op (fun a b => a <= b)); [apply min_op_cases|lia..]. }
  assert (M3 : sums_of (avgvals s) (all_entries (concat (leaf_stats <$> ts)))).
  { rewrite D2. eapply sums_trans; [|exact B3]. eapply sums_perm; [apply entries_perm; exact P3|]. apply (reduce_sums _ []). }
  rewrite !values_back by (eapply best_proper; [|exact Hp]; done). rewrite avgs_back.
  constructor; [done|done|done|]. rewrite A2, C2, D2. split_and!; (apply reduce_sorted; [apply _|constructor]).
Qed.

(** ** Symbol tables are passed on *)
Definition symtabs (ms : list rs_message) : list CBTF_Protocol_SymbolTable :=
  omap (fun m => match m with symboltable_xdr v => Some v | _ => None end) ms.
Fixpoint leaf_tables (t : rtree) : list CBTF_Protocol_SymbolTable :=
  match t with RLeaf _ tables => tables | RNode ts => concat (leaf_tables <$> ts) end.

Lemma symtabs_app a b : symtabs (a ++ b) = symtabs a ++ symtabs b. Proof. apply omap_app. Qed.

Lemma run_tables T experiment ms : symtabs (rs_run T experiment ms).2 = symtabs ms.
Proof.
  induction ms as [|m ms IH] using rev_ind; [done|]. unfold rs_run in *. rewrite foldl_app. cbn [foldl snd]. rewrite !symtabs_app, IH. f_equal.
  destruct m; cbn [rs_deliver CbtfProtocolSymbolTableHandler MaxFunctionThreadValuesHandler MinFunctionThreadValuesHandler AvgFunctionValuesHandler merge_step fst snd];
    try destruct (_ =? _); done.
Qed.

Lemma sends_tables experiment t : forall outs, sends experiment t outs -> symtabs outs ≡ₚ leaf_tables t.
Proof.
  induction t as [stats tables|ts IH] using rtree_induction; intros outs Hs.
  { cbn in Hs. subst. rewrite symtabs_app. cbn. rewrite app_nil_r. induction tables as [|x l IHl]; [done|]. cbn. by f_equiv. }
  destruct Hs as (T & outss & ms & _ & _ & Hall & Hms & ->). apply all_sends in Hall. rewrite run_tables.
  transitivity (symtabs (concat outss)); [unfold symtabs; by rewrite Hms|]. cbn [leaf_tables]. clear Hms.
  induction Hall as [|t o ts outss Ht _ IHl]; [done|]. apply Forall_cons in IH as [IH1 IH2]. cbn [concat fmap list_fmap].
  rewrite symtabs_app. rewrite (IH1 o Ht). by rewrite IHl.
Qed.

(** C20: Function metrics. Whatever the shape of the tree of filters and the order in which the
    messages of the children of a node arrive, the node at the top sends each kind of value
    once. For each function with samples it has a thread with the largest and a thread with
    the smallest number of samples among the entries of all leaves; its sums and numbers of
    entries are those of all leaves modulo 2^64; and it passes on the symbol tables of all
    leaves. *)
Theorem function_metrics (experiment : Z) (t : rtree) (outs : list rs_message) :
  sends experiment t outs -> proper_stats (leaf_stats t) ->
  (exists mx mn av, maxes outs = [mx] /\ mins outs = [mn] /\ avgs outs = [av] /\
     metrics (leaf_stats t) (thread_entry <$> mx) (thread_entry <$> mn) (avg_entry <$> av)) /\
  symtabs outs ≡ₚ leaf_tables t.
Proof. intros Hs Hp. split; [by apply (sends_ok experiment)|by apply (sends_tables experiment)]. Qed.

(** ** Two leaves under a node: the message with the values of the second arrives first. *)
Definition example_thread (n : Z) : ThreadName := ThreadName_of_ids "host" n 140 0 0.
Definition example_leaf (n c : Z) : rtree := RLeaf [mkStats "main" (example_thread n) c; mkStats "idle" (example_thread n) 0] [mkPTable "a.out" [] []].
Definition example_sent (n c : Z) : list rs_message :=
  symboltable_xdr (mkPTable "a.out" [] []) :: report 0 (match example_leaf n c with RLeaf s _ => s | _ => [] end).
Definition example_outs : list rs_message := (rs_run (mkTopologyInfo true 1 2) 0 (example_sent 2 5 ++ example_sent 1 7)).2.

Lemma function_metrics_witness : (exists mx mn av, maxes example_outs = [mx] /\ mins example_outs = [mn] /\ avgs example_outs = [av] /\
     metrics (leaf_stats (RNode [example_leaf 1 7; example_leaf 2 5])) (thread_entry <$> mx) (thread_entry <$> mn) (avg_entry <$> av)) /\
  avgs example_outs = [[mkFAV "idle" 0 2; mkFAV "main" 12 2]].
Proof.
  split; [|vm_compute; reflexivity].
  refine (proj1 (function_metrics 0 (RNode [example_leaf 1 7; example_leaf 2 5]) example_outs _ _)).
  - exists (mkTopologyInfo true 1 2), [example_sent 1 7; example_sent 2 5], (example_sent 2 5 ++ example_sent 1 7).
    split; [split; reflexivity|]. split; [reflexivity|]. split; [repeat split|]. split; [|reflexivity].
    cbn [concat]. rewrite app_nil_r. apply Permutation_app_comm.
  - repeat constructor.
Defined.
