(* ===== verification/FunctionSamples.v ===== *)
(** The samples that a leaf of the filter tree counts for each function in each thread. *)
From stdpp Require Import sorting.
From S2P Require Import Prelude PerfData ThreadName NodeRole FlatTopology Hostlist LinkedObjects SortedMap AddressBitmap SymbolTable SymbolMessage ResolveSymbols.
#[local] Open Scope Z_scope.

(** ** Names of threads *)
Lemma name_eqb_spec a b : name_eqb a b = true <->
  dm_host a = dm_host b /\ dm_pid a = dm_pid b /\ dm_rank a = dm_rank b /\ dm_omptid a = dm_omptid b /\ dm_posixtid a = dm_posixtid b.
Proof.
  unfold name_eqb. rewrite !andb_true_iff, String.eqb_eq, !Z.eqb_eq, Bool.eqb_true_iff. destruct (dm_posixtid a), (dm_posixtid b). cbn.
  split; [intros H; destruct_and!; by subst|]. intros H. destruct_and!. simplify_eq. by split_and!.
Qed.

(** ** The reference: the samples of a function in a thread, as a sum *)
Definition range_samples (r : Z * Z) (buf : AddressBuffer) : Z := sum_by (fun e => if doesContain r e.1 then e.2 else 0) (map_to_list buf).
Definition function_samples (tables : list SymbolTable) (threads : ThreadAddrBufMap) (f : string) (t : ThreadName) : Z :=
  sum_by (fun st => sum_by (fun tb : ThreadName * AddressBuffer =>
    sum_by (fun e : (Z * Z) * string => if String.eqb e.2 f && name_eqb tb.1 t then range_samples e.1 tb.2 else 0) (dm_functions st)) threads) tables.
(** Some address in a function was sampled. *)
Definition sampled (tables : list SymbolTable) (threads : ThreadAddrBufMap) (f : string) (t : ThreadName) : Prop :=
  exists st tb r a, st ∈ tables /\ tb ∈ threads /\ name_eqb tb.1 t = true /\ (r, f) ∈ dm_functions st /\ a ∈ dom (tb.2 : AddressBuffer) /\ doesContain r a = true.

(** ** What is added, one sample after the other *)
Notation charge := (string * ThreadName * Z)%type.
Definition function_charges (t : ThreadName) (buf : AddressBuffer) (f : (Z * Z) * string) : list charge :=
  (fun e : Z * Z => (f.2, t, e.2)) <$> filter (fun e => doesContain f.1 e.1 = true) (map_to_list buf).
Definition thread_charges (functions : list ((Z * Z) * string)) (tb : ThreadName * AddressBuffer) : list charge :=
  concat (function_charges tb.1 tb.2 <$> functions).
Definition table_charges (threads : ThreadAddrBufMap) (st : SymbolTable) : list charge := concat (thread_charges (dm_functions st) <$> threads).
Definition charges (threads : ThreadAddrBufMap) (tables : list SymbolTable) : list charge := concat (table_charges threads <$> tables).

Definition add_charge (l : list FuncThreadStats) (u : charge) : list FuncThreadStats := fstat_add u.1.1 u.1.2 u.2 l.
Definition matches (f : string) (t : ThreadName) (g : string) (t' : ThreadName) : bool := String.eqb g f && name_eqb t' t.
Definition charged (f : string) (t : ThreadName) (us : list charge) : Z := sum_by (fun u => if matches f t u.1.1 u.1.2 then u.2 else 0) us.

Lemma foldl_concat {A B C} (f : C -> B -> C) (g : A -> list B) l : forall c, foldl f c (concat (g <$> l)) = foldl (fun c x => foldl f c (g x)) c l.
Proof. induction l as [|x l IH]; intros c; cbn; [done|]. by rewrite foldl_app, IH. Qed.
Lemma foldl_ext_eq {A C} (f g : C -> A -> C) l : (forall c x, f c x = g c x) -> forall c, foldl f c l = foldl g c l.
Proof. intros H. induction l as [|x l IH]; intros c; cbn; [done|]. by rewrite H, IH. Qed.
Lemma foldl_map {A B C} (f : C -> B -> C) (g : A -> B) l : forall c, foldl f c (g <$> l) = foldl (fun c x => f c (g x)) c l.
Proof. induction l as [|x l IH]; intros c; cbn; [done|]. by rewrite IH. Qed.

Lemma charge_tables_fold threads tables l : foldl (charge_table threads) l tables = foldl add_charge l (charges threads tables).
Proof.
  unfold charges. rewrite foldl_concat. apply foldl_ext_eq. intros c st. unfold charge_table, table_charges. rewrite foldl_concat.
  apply foldl_ext_eq. intros c' tb. unfold charge_thread, thread_charges. rewrite foldl_concat. apply foldl_ext_eq. intros c'' f.
  unfold charge_function, function_charges. by rewrite foldl_map.
Qed.

Lemma charged_samples threads tables f t : charged f t (charges threads tables) = function_samples tables threads f t.
Proof.
  unfold charged, charges, function_samples. rewrite sum_by_concat. apply sum_by_ext. intros st _. unfold table_charges. rewrite sum_by_concat.
  apply sum_by_ext. intros tb _. unfold thread_charges. rewrite sum_by_concat. apply sum_by_ext. intros e _. unfold function_charges, matches, range_samples.
  induction (map_to_list tb.2) as [|[a c] l IH]; [by destruct (_ && _)|]. rewrite filter_cons, sum_by_cons. cbn [fst snd].
  destruct (doesContain e.1 a); [rewrite decide_True by done; rewrite fmap_cons, sum_by_cons|rewrite decide_False by done]; rewrite IH; cbn [fst snd];
    by destruct (_ && _).
Qed.

Lemma charges_sampled threads tables f t : (exists u, u ∈ charges threads tables /\ matches f t u.1.1 u.1.2 = true) <-> sampled tables threads f t.
Proof.
  unfold charges, table_charges, thread_charges, function_charges, matches, sampled. split.
  - intros (u & Hu & Hm). apply list_elem_of_In, in_concat in Hu as (l1 & H1 & Hu). apply list_elem_of_In, list_elem_of_fmap in H1 as (st & -> & Hst).
    apply in_concat in Hu as (l2 & H2 & Hu). apply list_elem_of_In, list_elem_of_fmap in H2 as (tb & -> & Htb).
    apply in_concat in Hu as (l3 & H3 & Hu). apply list_elem_of_In, list_elem_of_fmap in H3 as ([r g] & -> & He).
    apply list_elem_of_In, list_elem_of_fmap in Hu as ([a c] & -> & Ha). apply list_elem_of_filter in Ha as [Ha Hc]. cbn in *.
    apply andb_true_iff in Hm as [->%String.eqb_eq Ht]. exists st, tb, r, a. split_and!; try done. apply elem_of_map_to_list in Hc. by apply elem_of_dom.
  - intros (st & tb & r & a & Hst & Htb & Ht & He & [c Hc]%elem_of_dom & Ha). exists (f, tb.1, c). cbn. rewrite String.eqb_refl, Ht. split; [|done].
    apply list_elem_of_In, in_concat. eexists. split; [apply list_elem_of_In, list_elem_of_fmap; by exists st|].
    apply in_concat. eexists. split; [apply list_elem_of_In, list_elem_of_fmap; by exists tb|].
    apply in_concat. eexists. split; [apply list_elem_of_In, list_elem_of_fmap; by exists (r, f)|].
    apply list_elem_of_In, list_elem_of_fmap. exists (a, c). split; [done|]. apply list_elem_of_filter. split; [done|]. by apply elem_of_map_to_list.
Qed.

(** ** The statistics after some charges *)
Definition entry_matches (f : string) (t : ThreadName) (s : FuncThreadStats) : bool := matches f t (fts_funcname s) (fts_tname s).
Record counted_by (us : list charge) (l : list FuncThreadStats) : Prop := {
  cb_one : ForallOrdPairs (fun a b => entry_matches (fts_funcname a) (fts_tname a) b = false) l;
  cb_value : Forall (fun s => fts_value s = u64 (charged (fts_funcname s) (fts_tname s) us)) l;
  cb_entry : forall f t, (exists s, s ∈ l /\ entry_matches f t s = true) <-> exists u, u ∈ us /\ matches f t u.1.1 u.1.2 = true }.

Lemma matches_refl f t : matches f t f t = true.
Proof. unfold matches. rewrite String.eqb_refl. by apply name_eqb_spec. Qed.
Lemma matches_sym f t g t' : matches f t g t' = matches g t' f t.
Proof. apply eq_true_iff_eq. unfold matches. rewrite !andb_true_iff, !String.eqb_eq, !name_eqb_spec. naive_solver. Qed.
Lemma matches_same f t g t' : matches f t g t' = true -> forall h t'', matches f t h t'' = matches g t' h t''.
Proof.
  unfold matches. rewrite andb_true_iff, String.eqb_eq, name_eqb_spec. intros (-> & H) h t''. f_equal.
  apply eq_true_iff_eq. rewrite !name_eqb_spec. destruct_and!. split; intros; destruct_and!; split_and!; congruence.
Qed.

Lemma fstat_add_cases f t v l :
  (Forall (fun s => entry_matches f t s = false) l /\ fstat_add f t v l = l ++ [mkStats f t v]) \/
  (exists l1 s l2, l = l1 ++ s :: l2 /\ entry_matches f t s = true /\
     fstat_add f t v l = l1 ++ mkStats (fts_funcname s) (fts_tname s) (u64 (fts_value s + v)) :: l2).
Proof.
  induction l as [|s l IH]; [by left; split|]. cbn [fstat_add]. fold (matches f t (fts_funcname s) (fts_tname s)). fold (entry_matches f t s).
  destruct (entry_matches f t s) eqn:E; [right; by exists [], s, l|].
  destruct IH as [[H1 H2]|(l1 & s' & l2 & -> & H1 & H2)]; rewrite H2; [left; by split; [constructor|]|right; by exists (s :: l1), s', l2].
Qed.

Lemma pairs_app {A} (R : A -> A -> Prop) (l k : list A) :
  ForallOrdPairs R (l ++ k) <-> ForallOrdPairs R l /\ ForallOrdPairs R k /\ Forall (fun a => Forall (R a) k) l.
Proof.
  induction l as [|a l IH]; cbn; [split; [intros; split_and!; [constructor|done|constructor]|tauto]|]. split.
  - intros H. inversion H as [|? ? H1 H2]; subst. apply Forall_app in H1 as [H3 H4]. apply IH in H2 as (H5 & H6 & H7).
    split_and!; [by constructor|done|by constructor].
  - intros (H1 & H2 & H3). inversion H1 as [|? ? H4 H5]; subst. apply Forall_cons in H3 as [H6 H7].
    constructor; [by apply Forall_app|]. by apply IH.
Qed.

Lemma charged_snoc f t us u : charged f t (us ++ [u]) = charged f t us + (if matches f t u.1.1 u.1.2 then u.2 else 0).
Proof. unfold charged. rewrite sum_by_app. unfold sum_by at 2. cbn [foldr]. lia. Qed.

Lemma matched_snoc us (u : charge) g t' : (exists w, w ∈ us ++ [u] /\ matches g t' w.1.1 w.1.2 = true) <->
  (exists w, w ∈ us /\ matches g t' w.1.1 w.1.2 = true) \/ matches g t' u.1.1 u.1.2 = true.
Proof.
  setoid_rewrite elem_of_app. setoid_rewrite list_elem_of_singleton. split.
  - intros (w & [Hw| ->] & Hm); [left; by exists w|by right].
  - intros [(w & Hw & Hm)|Hm]; [exists w; auto|exists u; auto].
Qed.

(** The first charge of a function in a thread *)
Lemma counted_new us l f t v : is_u64 v -> counted_by us l -> Forall (fun s => entry_matches f t s = false) l ->
  counted_by (us ++ [(f, t, v)]) (l ++ [mkStats f t v]).
Proof.
  intros Hv [H1 H2 H3] Hn. constructor.
  - apply pairs_app. split_and!; [done|repeat constructor|]. eapply Forall_impl; [exact Hn|]. intros s Hs. constructor; [|constructor].
    unfold entry_matches in *. cbn. by rewrite matches_sym.
  - apply Forall_app. split; [|constructor; [|constructor]]; cbn.
    + apply Forall_forall. intros s Hs. apply (proj1 (Forall_forall _ _) H2) in Hs as Hv'. apply (proj1 (Forall_forall _ _) Hn) in Hs.
      rewrite Hv', charged_snoc. unfold entry_matches in Hs. cbn [fst snd]. rewrite matches_sym in Hs. rewrite Hs. by rewrite Z.add_0_r.
    + rewrite charged_snoc. cbn [fst snd]. rewrite matches_refl. unfold charged. rewrite sum_by_zero; [rewrite Z.add_0_l; symmetry; apply u64_small; exact Hv|].
      intros w Hw. destruct (matches f t w.1.1 w.1.2) eqn:E; [|done]. destruct (proj2 (H3 f t)) as (s & Hs & Hm); [by exists w|].
      apply (proj1 (Forall_forall _ _) Hn) in Hs. congruence.
  - intros g t'. rewrite matched_snoc, <- H3. setoid_rewrite elem_of_app. setoid_rewrite list_elem_of_singleton. split.
    + intros (s & [Hs| ->] & Hm); [left; by exists s|by right].
    + intros [(s & Hs & Hm)|Hm]; [exists s; auto|exists (mkStats f t v); auto].
Qed.

(** A further charge *)
Lemma counted_old us l1 s l2 f t v : counted_by us (l1 ++ s :: l2) -> entry_matches f t s = true ->
  counted_by (us ++ [(f, t, v)]) (l1 ++ mkStats (fts_funcname s) (fts_tname s) (u64 (fts_value s + v)) :: l2).
Proof.
  intros [H1 H2 H3] Hs. apply pairs_app in H1 as (P1 & P2 & P3). inversion P2 as [|? ? Q1 Q2]; subst.
  assert (Hother : forall s', s' ∈ l1 ++ l2 -> matches (fts_funcname s') (fts_tname s') f t = false).
  { intros s' Hs'. rewrite matches_sym. rewrite (matches_same _ _ _ _ Hs). apply elem_of_app in Hs' as [Hs'|Hs'].
    - apply (proj1 (Forall_forall _ _) P3) in Hs'. apply Forall_cons in Hs' as [Hs' _]. unfold entry_matches in Hs'. by rewrite matches_sym.
    - by apply (proj1 (Forall_forall _ _) Q1) in Hs'. }
  apply Forall_app in H2 as [V1 V2]. apply Forall_cons in V2 as [V2 V3]. constructor.
  - apply pairs_app. split_and!; [done|by constructor|]. eapply Forall_impl; [exact P3|]. intros a Ha.
    apply Forall_cons in Ha as [Ha1 Ha2]. by constructor.
  - apply Forall_app. split; [|constructor]; [|cbn; rewrite charged_snoc; cbn [fst snd]; unfold entry_matches in Hs; rewrite matches_sym, Hs, V2;
      apply u64_idem_l|]; apply Forall_forall; intros s' Hs'; rewrite charged_snoc; cbn [fst snd];
      rewrite Hother, Z.add_0_r by (apply elem_of_app; auto); [by apply (proj1 (Forall_forall _ _) V1) in Hs'|by apply (proj1 (Forall_forall _ _) V3) in Hs'].
  - intros g t'. rewrite matched_snoc, <- H3. cbn [fst snd]. setoid_rewrite elem_of_app. setoid_rewrite elem_of_cons. split.
    + intros (s' & [Hs'|[->|Hs']] & Hm); left; [exists s'; auto|exists s; auto|exists s'; auto].
    + intros [(s' & [Hs'|[->|Hs']] & Hm)|Hm]; [exists s'; auto| |exists s'; auto|]; (eexists; split; [right; by left|]); [done|].
      unfold entry_matches. cbn. by rewrite (matches_same _ _ _ _ Hm).
Qed.

Lemma counted_step us l u : is_u64 u.2 -> counted_by us l -> counted_by (us ++ [u]) (add_charge l u).
Proof.
  destruct u as [[f t] v]. unfold add_charge. cbn [fst snd]. intros Hv H.
  destruct (fstat_add_cases f t v l) as [[Hn ->]|(l1 & s & l2 & -> & Hs & ->)]; [by apply counted_new|by apply counted_old].
Qed.

Lemma counted_all us : Forall (fun u : charge => is_u64 u.2) us -> counted_by us (foldl add_charge [] us).
Proof.
  induction us as [|u us IH] using rev_ind; intros H.
  - constructor; [constructor|constructor|]. intros f t. split; intros (x & Hx & _); by apply not_elem_of_nil in Hx.
  - apply Forall_app in H as [H Hu]. apply Forall_cons in Hu as [Hu _]. rewrite foldl_app. cbn. apply counted_step; [done|by apply IH].
Qed.
