(* ===== verification/LeafResolution.v ===== *)
(** What a leaf of the filter tree does when its data is complete: it resolves the sampled
    addresses to linked objects, fills and sends their symbol tables, and reports the samples
    of the functions. *)
From stdpp Require Import sorting.
From S2P Require Import Prelude PerfData ThreadName NodeRole FlatTopology Hostlist LinkedObjects SortedMap AddressBitmap SymbolTable SymbolPartition SymbolMessage ResolveSymbols FunctionMetrics FunctionSamples.
#[local] Open Scope Z_scope.

(** ** Symbols that do not wrap around *)
Definition sane_object (le : LinkedObjectEntry) : Prop := 0 <= e_addr_begin le < e_addr_end le /\ e_addr_end le < 2 ^ 62.
Definition sane_line (l : source_line) : Prop := 0 <= ln_start l < 2 ^ 62 /\ 0 <= ln_end l < 2 ^ 62.
Record sane_symtab (sy : Symtab) : Prop := {
  sane_image : 0 <= sy_imageOffset sy /\ 0 < sy_imageLength sy /\ sy_imageOffset sy + sy_imageLength sy < 2 ^ 62;
  sane_functions : Forall (fun f : string * Z * Z => 0 <= f.1.2 < 2 ^ 31 /\ 0 <= f.2 < 2 ^ 31) (sy_functions sy);
  sane_lines : Forall (fun m : Z -> list source_line => forall a, Forall sane_line (m a)) (sy_modules sy) }.

(** ** No operation fails on them *)
Lemma address_sub_total a b : 0 <= a < 2 ^ 63 -> 0 <= b < 2 ^ 63 -> address_sub a b = Ok (a - b).
Proof.
  intros Ha Hb. unfold address_sub. rewrite i64_small by lia.
  destruct (b <? a) eqn:E1, (a <? b) eqn:E2; bools; cbn [orb]; rewrite ?(proj2 (Z.leb_le (a - b) 0)), ?(proj2 (Z.leb_le 0 (a - b))) by lia; done.
Qed.
Lemma address_add_total a b : 0 <= a < 2 ^ 63 -> 0 <= b < 2 ^ 63 -> address_add a b = Ok (a + b).
Proof. intros Ha Hb. unfold address_add. rewrite u64_small by lia. by rewrite (proj2 (Z.leb_le a (a + b))) by lia. Qed.
Lemma Interval_total a b : a < b -> Interval a b = Ok (a, b).
Proof. intros H. unfold Interval. by rewrite (proj2 (Z.ltb_lt a b) H). Qed.

Definition sendable (st : SymbolTable) : Prop :=
  table_statements st = [] /\ Forall (fun e => proper_ranges (2 ^ 32) e.2) (table_functions st).

Lemma addFunction_total st b e name : 0 <= b -> e < 2 ^ 63 ->
  exists st', addFunction st b e name = Ok st' /\ table_statements st' = table_statements st /\ table_functions st' = table_functions st.
Proof.
  intros Hb He. unfold addFunction. destruct (e <=? b) eqn:E; bools; [by exists st|]. rewrite Interval_total, bind_of_Ok by lia.
  destruct (doesContain_range_ok (dm_range st) (b, e)) as (x & -> & _); [cbn; lia|done|]. rewrite bind_of_Ok.
  destruct x; cbn [negb]; [|by exists st]. destruct (sm_find _ _ _); by eexists.
Qed.

Lemma addStatement_total st b e path line column : 0 <= b -> e < 2 ^ 63 ->
  exists st', addStatement st b e path line column = Ok st' /\ table_statements st' = table_statements st /\ table_functions st' = table_functions st.
Proof.
  intros Hb He. unfold addStatement. destruct (e <=? b) eqn:E; bools; [by exists st|]. rewrite Interval_total, bind_of_Ok by lia.
  destruct (doesContain_range_ok (dm_range st) (b, e)) as (x & -> & _); [cbn; lia|done|]. rewrite bind_of_Ok.
  destruct x; cbn [negb]; by eexists.
Qed.

Lemma add_range_proper {K} (ltb : K -> K -> bool) m k r l : proper_ranges m [r] -> Forall (fun e : K * list (Z * Z) => proper_ranges m e.2) l ->
  Forall (fun e => proper_ranges m e.2) (add_range ltb k r l).
Proof.
  unfold add_range. intros Hr. induction 1 as [|[k' rs] l He Hl IH]; cbn [sm_upsert]; [constructor; [exact Hr|constructor]|].
  destruct (ltb k' k); [by constructor|]. destruct (ltb k k'); [by constructor; [|constructor]|].
  constructor; [|done]. cbn in *. unfold proper_ranges in *. by apply Forall_app.
Qed.

Lemma any_in_total r addrs base : Forall (fun a => 0 <= a < 2 ^ 63) addrs -> 0 <= base < 2 ^ 63 -> exists x, any_in r addrs base = Ok x.
Proof.
  intros Ha Hb. induction Ha as [|a addrs Ha _ IH]; cbn [any_in]; [by eexists|]. rewrite address_sub_total, bind_of_Ok by done.
  destruct (doesContain _ _); [by eexists|done].
Qed.

Lemma set_insert_bound (P : Z -> Prop) a set : P a -> Forall P set -> Forall P (set_insert a set).
Proof.
  intros Ha. induction 1 as [|x set Hx Hs IH]; cbn [set_insert]; [by repeat constructor|].
  destruct (_ <? _); [by repeat constructor|]. destruct (_ =? _); by constructor.
Qed.

Lemma add_functions_total addrs base fs : Forall (fun f : string * Z * Z => 0 <= f.1.2 < 2 ^ 31 /\ 0 <= f.2 < 2 ^ 31) fs ->
  Forall (fun a => 0 <= a < 2 ^ 63) addrs -> 0 <= base < 2 ^ 62 -> forall begins st,
  Forall (fun a => 0 <= a < 2 ^ 31) begins -> sendable st ->
  exists begins' st', add_functions fs addrs base begins st = Ok (begins', st') /\ Forall (fun a => 0 <= a < 2 ^ 31) begins' /\ sendable st'.
Proof.
  intros Hfs Ha Hb. induction Hfs as [|[[name offset] size] fs [H1 H2] _ IH]; intros begins st Hbs Hst; cbn [add_functions]; [by eexists _, _|].
  cbn in H1, H2. rewrite i32_small, u64_small by lia. destruct (_ <=? _) eqn:E; bools; [by apply IH|].
  rewrite Interval_total, bind_of_Ok by lia. destruct (any_in_total (offset, offset + size) addrs base) as [x Hx]; [done|lia|]. rewrite Hx, bind_of_Ok.
  destruct x; [|by apply IH]. unfold addFunction_at. rewrite !address_add_total, !bind_of_Ok by lia.
  destruct (addFunction_total st (offset + base) (offset + size + base) name) as (st1 & -> & E1 & E2); [lia..|].
  rewrite bind_of_Ok, Interval_total, !bind_of_Ok by lia. apply IH; [by apply set_insert_bound|]. destruct Hst as [S1 S2].
  split; cbn; [congruence|]. rewrite E2. apply add_range_proper; [repeat constructor; cbn; lia|done].
Qed.

Lemma add_lines_total base lines : Forall sane_line lines -> 0 <= base < 2 ^ 62 -> forall st, sendable st ->
  exists st', add_lines lines base st = Ok st' /\ sendable st'.
Proof.
  intros Hl Hb. induction Hl as [|l lines [H1 H2] _ IH]; intros st [S1 S2]; cbn [add_lines]; [by eexists|].
  rewrite !address_add_total, !bind_of_Ok by lia.
  destruct (addStatement_total st (ln_start l + base) (ln_end l + base) (ln_file l) (ln_line l) (ln_column l)) as (st1 & -> & E1 & E2); [lia..|].
  rewrite bind_of_Ok. apply IH. unfold sendable. by rewrite E1, E2.
Qed.

Lemma add_statements_total mods base addrs : Forall (fun m : Z -> list source_line => forall a, Forall sane_line (m a)) mods ->
  Forall (fun a => 0 <= a < 2 ^ 63) addrs -> 0 <= base < 2 ^ 62 -> forall st, sendable st ->
  exists st', add_statements mods addrs base st = Ok st' /\ sendable st'.
Proof.
  intros Hm Ha Hb. induction Ha as [|a addrs Ha _ IH]; intros st Hst; cbn [add_statements]; [by eexists|].
  rewrite address_sub_total, bind_of_Ok by lia.
  assert (Hl : Forall sane_line (concat ((fun m => m (u64 (a - base))) <$> mods))).
  { clear IH. induction Hm as [|m mods H _ IHm]; [constructor|]. apply Forall_app. split; [apply H|done]. }
  destruct (add_lines_total base _ Hl Hb st Hst) as (st1 & -> & Hst1). rewrite bind_of_Ok. by apply IH.
Qed.

Lemma getSymbols_total openFile buf le st : (forall sy, openFile (e_path le) = Some sy -> sane_symtab sy) -> sane_object le -> sendable st ->
  exists st', getSymbols openFile buf le st = Ok st' /\ sendable st'.
Proof.
  intros Hsy [H1 H2] Hst. unfold getSymbols. rewrite Interval_total, bind_of_Ok by lia. destruct (openFile _) as [sy|]; [|by eexists].
  destruct (Hsy sy eq_refl) as [I1 I2 I3]. rewrite address_add_total, bind_of_Ok, Interval_total, bind_of_Ok, address_sub_total, bind_of_Ok by (cbn [fst]; lia).
  set (base := if _ : bool then _ else _).
  assert (Hbase : 0 <= base < 2 ^ 62) by (unfold base; destruct (_ <? _); cbn [fst]; lia).
  set (addrs := filter _ _). assert (Ha : Forall (fun a => 0 <= a < 2 ^ 63) addrs).
  { apply Forall_forall. intros a [Ha _]%list_elem_of_filter. cbn in Ha. lia. }
  destruct (add_functions_total addrs base (sy_functions sy) I2 Ha Hbase [] st) as (begins & st1 & -> & B & S); [constructor|done|].
  rewrite bind_of_Ok. cbn [fst snd]. destruct (add_statements_total (sy_modules sy) base addrs I3 Ha Hbase st1 S) as (st2 & -> & S2).
  rewrite bind_of_Ok. apply add_statements_total; [done| |done|done]. eapply Forall_impl; [exact B|]. cbn. intros; lia.
Qed.

(** ** The tables *)
Lemma fill_table_total openFile buf e : (forall path sy, openFile path = Some sy -> sane_symtab sy) -> sane_object e.2.2 ->
  exists r, fill_table openFile buf e = Ok r.
Proof.
  intros Hsy Hle. unfold fill_table.
  destruct (getSymbols_total openFile buf e.2.2 (new_SymbolTable e.1)) as (st & -> & S1 & S2); [apply Hsy|done|by split|].
  rewrite bind_of_Ok. destruct (table_message (e_path e.2.2) st S1 S2) as (m & -> & _). by eexists.
Qed.

Definition range_of (le : LinkedObjectEntry) : Z * Z := (e_addr_begin le, e_addr_end le).

Lemma find_object_total a vec : Forall sane_object vec -> exists o, find_object a vec = Ok o /\
  match o with
  | Some (r, le) => le ∈ vec /\ r = range_of le /\ doesContain r a = true
  | None => Forall (fun le => doesContain (range_of le) a = false) vec
  end.
Proof.
  induction 1 as [|le vec [H _] _ IH]; cbn [find_object]; [by exists None|]. rewrite Interval_total, bind_of_Ok by lia.
  fold (range_of le). destruct (doesContain (range_of le) a) eqn:E.
  - eexists. split; [done|]. by split_and!; [left| |].
  - destruct IH as ([[r le']|] & -> & Ho); eexists; (split; [done|]); [|by constructor]. destruct_and!. by split_and!; [right| |].
Qed.

Lemma insert_kept {V} r (v : V) m : (forall e, e ∈ m -> e ∈ sm_insert range_ltb r v m) /\
  (forall e, e ∈ sm_insert range_ltb r v m -> e ∈ m \/ e = (r, v)) /\
  exists k w, (k, w) ∈ sm_insert range_ltb r v m /\ (k = r \/ overlaps k r).
Proof.
  unfold sm_insert. induction m as [|[k w] m (H1 & H2 & k' & w' & H3 & H4)]; cbn [sm_upsert].
  { split_and!; [by intros e He%not_elem_of_nil|intros e He; right; by apply list_elem_of_singleton|]. exists r, v. split; [left|by left]. }
  destruct (range_ltb k r) eqn:E1.
  - split_and!.
    + intros e [->|He]%elem_of_cons; [left|right; by apply H1].
    + intros e [->|He]%elem_of_cons; [left; left|]. destruct (H2 e He); [left; by right|by right].
    + exists k', w'. split; [by right|done].
  - destruct (range_ltb r k) eqn:E2.
    + split_and!; [intros e He; by right|intros e [->|He]%elem_of_cons; auto|]. exists r, v. split; [left|by left].
    + split_and!; [done|auto|]. exists k, w. split; [left|]. right. unfold overlaps, range_ltb in *. lia.
Qed.

(** Objects that are loaded at the same time do not overlap. *)
Definition apart (vec : list LinkedObjectEntry) : Prop :=
  forall le le', le ∈ vec -> le' ∈ vec -> overlaps (range_of le) (range_of le') -> range_of le = range_of le'.
Definition tables_for (vec : list LinkedObjectEntry) (addrs : list Z) (m : SymbolTableMap) : Prop :=
  Forall (fun e => e.2.2 ∈ vec /\ e.1 = range_of e.2.2) m /\
  forall a le, a ∈ addrs -> le ∈ vec -> doesContain (range_of le) a = true -> exists e, e ∈ m /\ doesContain e.1 a = true.

Lemma resolve_total vec : Forall sane_object vec -> apart vec -> forall addrs done_ m, tables_for vec done_ m ->
  exists m', resolve addrs vec m = Ok m' /\ tables_for vec (done_ ++ addrs) m'.
Proof.
  intros Hv Hd. induction addrs as [|a addrs IH]; intros done_ m [M1 M2]; cbn [resolve].
  { exists m. rewrite app_nil_r. by split. }
  destruct (find_object_total a vec Hv) as (o & -> & Ho). rewrite bind_of_Ok, (cons_middle a done_ addrs), app_assoc.
  apply IH. destruct o as [[r le]|].
  - destruct Ho as (Hle & -> & Ha). destruct (insert_kept (range_of le) (new_SymbolTable (range_of le), le) m) as (K1 & K2 & k & w & Hk & Hkr).
    assert (M1' : Forall (fun e => e.2.2 ∈ vec /\ e.1 = range_of e.2.2) (sm_insert range_ltb (range_of le) (new_SymbolTable (range_of le), le) m)).
    { apply Forall_forall. intros e [He| ->]%K2; [by apply (proj1 (Forall_forall _ _) M1)|done]. }
    split; [done|]. intros b le' Hb Hle' Hc. apply elem_of_app in Hb as [Hb|Hb%list_elem_of_singleton].
    + destruct (M2 b le' Hb Hle' Hc) as (e & He & Hec). exists e. split; [by apply K1|done].
    + subst b. exists (k, w). split; [done|]. cbn. destruct Hkr as [->|Ho]; [done|].
      apply (proj1 (Forall_forall _ _) M1') in Hk as [Hw Hkw]. cbn in *. subst k. by rewrite (Hd _ _ Hw Hle Ho).
  - split; [done|]. intros b le' Hb Hle' Hc. apply elem_of_app in Hb as [Hb|Hb%list_elem_of_singleton]; [by apply (M2 b le')|].
    subst b. apply (proj1 (Forall_forall _ _) Ho) in Hle'. congruence.
Qed.

(** ** The end of the data *)
Record leaf_ready (T : TopologyInfo) (openFile : string -> option Symtab) (s : rs_state) : Prop := {
  lr_leaf : isFrontend T || isNonLeafCP T (init_TopologyInfo T (rs_topology s)) = false;
  lr_objects : Forall sane_object (linkedobjectvec (rs_res s)) /\ apart (linkedobjectvec (rs_res s));
  lr_symbols : forall path sy, openFile path = Some sy -> sane_symtab sy;
  lr_fresh : symtabmap (rs_res s) = [] /\ fstatvec (rs_res s) = [];
  lr_counts : Forall (fun tb => counts_ok tb.2) (threadAddrBufMap (rs_res s)) }.

Lemma sorted_addresses_in buf a : a ∈ dom (buf : AddressBuffer) -> a ∈ sorted_addresses buf.
Proof.
  intros [c Hc]%elem_of_dom. unfold sorted_addresses. apply elem_of_map_to_list in Hc.
  assert (H : a ∈ (map_to_list buf).*1) by (apply list_elem_of_fmap; by exists (a, c)).
  revert H. generalize (map_to_list buf).*1 as l. clear. intros l.
  enough (Hg : forall set, a ∈ set \/ a ∈ l -> a ∈ foldl (fun set a => set_insert a set) set l) by (intros H; apply Hg; by right).
  induction l as [|b l IH]; cbn [foldl]; intros set; [by intros [?|?%not_elem_of_nil]|]. intros H. apply IH.
  assert (Hin : a = b \/ a ∈ set -> a ∈ set_insert b set).
  { clear. induction set as [|x set IH]; cbn [set_insert]; [intros [->|?%not_elem_of_nil]; [left|done]|]. intros H.
    destruct (b <? x); [destruct H as [->|H]; [left|by right]|]. destruct (b =? x) eqn:E; bools.
    - subst. destruct H as [->|H]; [left|done].
    - destruct H as [->|H]; [right; apply IH; by left|]. apply elem_of_cons in H as [->|H]; [left|right; apply IH; by right]. }
  destruct H as [H|[->|H]%elem_of_cons]; [left; apply Hin; by right|left; apply Hin; by left|by right].
Qed.

Lemma charges_u64 threads tables : Forall (fun tb : ThreadName * AddressBuffer => counts_ok tb.2) threads -> Forall (fun u : charge => is_u64 u.2) (charges threads tables).
Proof.
  intros H. unfold charges. induction tables as [|st tables IH]; [constructor|]. apply Forall_app. split; [clear IH|exact IH].
  unfold table_charges. induction H as [|tb threads Hc _ IH]; [constructor|]. apply Forall_app. split; [clear IH|exact IH].
  unfold thread_charges. induction (dm_functions st) as [|f fs IH]; [constructor|]. apply Forall_app. split; [clear IH|exact IH].
  apply Forall_forall. intros u Hu. apply list_elem_of_fmap in Hu as ([a c] & -> & [_ Ha]%list_elem_of_filter). apply elem_of_map_to_list in Ha. exact (Hc a c Ha).
Qed.

(** C19: The leaf. With objects that do not overlap and symbols that do not wrap around, the
    leaf ends its work: every sampled address in an object lies in the range of a table, the
    table of each range is sent, and then the statistics. They have one entry for each
    function and thread with a sample in the function, with the number of those samples
    modulo 2^64. *)
Theorem leaf_resolution (T : TopologyInfo) (openFile : string -> option Symtab) (experiment : Z) (s : rs_state) :
  leaf_ready T openFile s ->
  exists s' outs results, rs_finishedHandler T openFile experiment s = Ok (s', outs) /\
    mapM (fill_table openFile (rs_abuffer (rs_res s))) (symtabmap (rs_res s')) = Ok results /\
    (forall a le, a ∈ dom (rs_abuffer (rs_res s)) -> le ∈ linkedobjectvec (rs_res s) -> doesContain (range_of le) a = true ->
       exists e, e ∈ symtabmap (rs_res s') /\ doesContain e.1 a = true) /\
    sends experiment (RLeaf (fstatvec (rs_res s')) results.*2) outs /\
    ForallOrdPairs (fun a b => entry_matches (fts_funcname a) (fts_tname a) b = false) (fstatvec (rs_res s')) /\
    (forall f t, (exists e, e ∈ fstatvec (rs_res s') /\ entry_matches f t e = true) <-> sampled results.*1 (threadAddrBufMap (rs_res s)) f t) /\
    Forall (fun e => fts_value e = u64 (function_samples results.*1 (threadAddrBufMap (rs_res s)) (fts_funcname e) (fts_tname e))) (fstatvec (rs_res s')).
Proof.
  intros [H1 [H2 H3] H4 [H5 H6] H7]. unfold rs_finishedHandler. cbn [rs_init rs_topology rs_res]. rewrite H1, H5, H6.
  destruct (resolve_total (linkedobjectvec (rs_res s)) H2 H3 (sorted_addresses (rs_abuffer (rs_res s))) [] []) as (m & Hm & M1 & M2).
  { split; [constructor|]. intros a le Ha. by apply not_elem_of_nil in Ha. }
  rewrite Hm, bind_of_Ok. destruct (mapM_exists (fill_table openFile (rs_abuffer (rs_res s))) (fun _ _ => True) m) as (results & Hr & _).
  { eapply Forall_impl; [exact M1|]. intros e [He _]. apply (proj1 (Forall_forall _ _) H2) in He.
    destruct (fill_table_total openFile (rs_abuffer (rs_res s)) e H4 He) as [r Hr]. by exists r. }
  rewrite Hr, bind_of_Ok. eexists _, _, results. split; [done|]. cbn [rs_res symtabmap fstatvec]. split; [done|].
  split; [intros a le Ha; apply M2; by apply sorted_addresses_in|]. split; [done|].
  destruct (counted_all (charges (threadAddrBufMap (rs_res s)) results.*1) (charges_u64 _ _ H7)) as [C1 C2 C3].
  rewrite charge_tables_fold. split; [done|]. split; [intros f t; by rewrite C3, charges_sampled|].
  eapply Forall_impl; [exact C2|]. intros e He. by rewrite He, charged_samples.
Qed.

(** ** A leaf with two threads of the example program *)
Definition example_state : rs_state :=
  mkRS no_copy (mkCounters 0 0 0 0 0 0 0 0 0 0)
    (mkResolution [] [example_entry] [] example_samples []
       [(ThreadName_of_ids "host" 1 140 0 0, example_samples); (ThreadName_of_ids "host" 1 141 0 0, <[4360 := 4]> ∅)]) [] [] [].

Lemma example_ready : leaf_ready (mkTopologyInfo false 1 2) example_symtab example_state.
Proof.
  constructor; [reflexivity| | |by split|].
  - split; [constructor; [unfold sane_object; cbn; lia|constructor]|]. intros le le' Hle%list_elem_of_singleton Hle'%list_elem_of_singleton _. by subst.
  - intros path sy [= <-]. constructor; cbn; [lia|repeat (constructor; [cbn; lia|]); constructor|]. constructor; [|constructor]. intros a.
    destruct (doesContain _ _); [|constructor]. constructor; [unfold sane_line; cbn; lia|constructor].
  - constructor; [|constructor; [|constructor]]; cbn.
    + apply map_Forall_insert_2; [by split|]. apply map_Forall_insert_2; [by split|apply map_Forall_empty].
    + apply map_Forall_insert_2; [by split|apply map_Forall_empty].
Qed.

Lemma leaf_resolution_witness : exists s' outs (results : list (SymbolTable * CBTF_Protocol_SymbolTable)),
  rs_finishedHandler (mkTopologyInfo false 1 2) example_symtab 0 example_state = Ok (s', outs) /\
  sends 0 (RLeaf (fstatvec (rs_res s')) results.*2) outs /\ symtabmap (rs_res s') <> [].
Proof.
  destruct (leaf_resolution (mkTopologyInfo false 1 2) example_symtab 0 example_state example_ready) as (s' & outs & results & H1 & H2 & H3 & H4 & _).
  exists s', outs, results. split; [exact H1|]. split; [exact H4|].
  intros E. destruct (H3 4360 example_entry) as (e & He & _).
  - vm_compute. by eexists.
  - left.
  - reflexivity.
  - rewrite E in He. by apply not_elem_of_nil in He.
Defined.

Example example_finished : exists s' outs, rs_finishedHandler (mkTopologyInfo false 1 2) example_symtab 0 example_state = Ok (s', outs) /\
  ((fun e => (fts_funcname e, (dm_posixtid (fts_tname e)).2, fts_value e)) <$> fstatvec (rs_res s')) = [("main"%string, 140, 3); ("main"%string, 141, 4)].
Proof. eexists _, _. split; vm_compute; reflexivity. Qed.
