(* ===== verification/ExtentGroup.v ===== *)
(** Groups of extents in time and address space (core/src/ExtentGroup.cpp, Extent.hpp and
    Interval.hpp): a search for the extents that intersect a given one builds, as far as it needs to, a
    binary tree in an array. How std::nth_element() reorders a part of the array is a
    parameter. *)
From stdpp Require Import sorting.
From S2P Require Import Prelude FlatTopology Hostlist.
#[local] Open Scope Z_scope.

(** ** Intervals and extents *)
Definition isEmpty (r : Z * Z) : bool := r.1 =? r.2.
Definition interval_and (a b : Z * Z) : Z * Z :=
  let begin := if a.1 <? b.1 then b.1 else a.1 in
  let end_ := if a.2 >? b.2 then b.2 else a.2 in
  if end_ <? begin then (end_, end_) else (begin, end_).
Definition interval_or (a b : Z * Z) : Z * Z :=
  if isEmpty b then a
  else if isEmpty a then b
  else (if a.1 >? b.1 then b.1 else a.1, if a.2 <? b.2 then b.2 else a.2).
Definition width (r : Z * Z) : Z := u64 (r.2 - r.1).

Record Extent := mkExtent { dm_interval : Z * Z; dm_range : Z * Z }.
Definition no_extent : Extent := mkExtent (0, 0) (0, 0).
Definition extent_and (a b : Extent) : Extent :=
  mkExtent (interval_and (dm_interval a) (dm_interval b)) (interval_and (dm_range a) (dm_range b)).
Definition extent_or (a b : Extent) : Extent :=
  mkExtent (interval_or (dm_interval a) (dm_interval b)) (interval_or (dm_range a) (dm_range b)).
Definition extent_empty (e : Extent) : bool := isEmpty (dm_interval e) || isEmpty (dm_range e).
Definition doesIntersect (a b : Extent) : bool := negb (extent_empty (extent_and a b)).

(** ** The tree *)
Record Node := mkNode { dm_children : Z; dm_first : Z; dm_last : Z; dm_bounds : Extent }.
Definition no_node : Node := mkNode 0 0 0 no_extent.
Record kd_tree := mkTree { dm_next : Z; dm_tree : list Node; dm_map : list Z }.

(** CompareExtents *)
Definition center (r : Z * Z) : Z := u64 (r.1 + r.2) / 2.
Definition compare_extents (group : list Extent) (by_time : bool) (lhs rhs : Z) : bool :=
  match group !! Z.to_nat lhs, group !! Z.to_nat rhs with
  | Some a, Some b =>
      if by_time then center (dm_interval a) <? center (dm_interval b) else center (dm_range a) <? center (dm_range b)
  | _, _ => false
  end.

(** std::vector<Node>::resize *)
Definition resize {A} (n : nat) (x : A) (l : list A) : list A := take n l ++ replicate (n - length l) x.

Definition size {A} (l : list A) : Z := Z.of_nat (length l).

Definition initializeTree (group : list Extent) (t : kd_tree) : outcome kd_tree :=
  if (size (dm_map t) >? 0) && (size (dm_map t) =? size group) then Ok t
  else
    let nodes := resize (2 * length group) no_node (dm_tree t) in
    let bounds := foldl extent_or no_extent group in
    nodes' ← arr_set nodes 0 (mkNode 0 0 (size group - 1) bounds);
    Ok (mkTree 1 nodes' (seqZ 0 (size group))).

(** The union of the extents at the positions from [first] to [last] of the map *)
Definition bounds_over (group : list Extent) (map : list Z) (first last : Z) : outcome Extent :=
  es ← mapM (fun i => k ← arr_get map i; arr_get group k) (seqZ first (last - first + 1));
  Ok (foldl extent_or no_extent es).

Section tree.
Context (nth_element : (Z -> Z -> bool) -> Z -> list Z -> list Z).

(** nth_element() on the positions from [first] up to, but without, [last] *)
Definition partition_map (less : Z -> Z -> bool) (first nth last : Z) (map : list Z) : list Z :=
  take (Z.to_nat first) map ++
  nth_element less (nth - first) (take (Z.to_nat (last - first)) (drop (Z.to_nat first) map)) ++
  drop (Z.to_nat last) map.

Definition buildChildren (group : list Extent) (node : Z) (t : kd_tree) : outcome kd_tree :=
  n ← arr_get (dm_tree t) node;
  if dm_first n =? dm_last n then
    k ← arr_get (dm_map t) (dm_first n);
    e ← arr_get group k;
    nodes ← arr_set (dm_tree t) node (mkNode (- (k + 1)) (dm_first n) (dm_last n) e);
    Ok (mkTree (dm_next t) nodes (dm_map t))
  else
    let nth := (dm_first n + dm_last n) / 2 in
    let by_time := width (dm_interval (dm_bounds n)) >? width (dm_range (dm_bounds n)) in
    let map := partition_map (compare_extents group by_time) (dm_first n) nth (dm_last n) (dm_map t) in
    let c := dm_next t in
    nodes0 ← arr_set (dm_tree t) node (mkNode c (dm_first n) (dm_last n) (dm_bounds n));
    left_bounds ← bounds_over group map (dm_first n) nth;
    nodes1 ← arr_set nodes0 c (mkNode 0 (dm_first n) nth left_bounds);
    right_bounds ← bounds_over group map (nth + 1) (dm_last n);
    nodes2 ← arr_set nodes1 (c + 1) (mkNode 0 (nth + 1) (dm_last n) right_bounds);
    Ok (mkTree (c + 2) nodes2 map).

(** while (!traversal.empty()) *)
Fixpoint search (group : list Extent) (extent : Extent) (fuel : nat) (traversal : list Z) (t : kd_tree) (intersection : list Z)
    : outcome (list Z * kd_tree) :=
  match traversal, fuel with
  | [], _ => Ok (intersection, t)
  | _, O => Diverged
  | node :: traversal', S fuel' =>
      n ← arr_get (dm_tree t) node;
      if negb (doesIntersect extent (dm_bounds n)) then search group extent fuel' traversal' t intersection
      else
        t1 ← (if dm_children n =? 0 then buildChildren group node t else Ok t);
        n1 ← arr_get (dm_tree t1) node;
        if dm_children n1 >? 0 then
          search group extent fuel' (traversal' ++ [dm_children n1; dm_children n1 + 1]) t1 intersection
        else if dm_children n1 <? 0 then
          search group extent fuel' traversal' t1 (set_insert (- (dm_children n1 + 1)) intersection)
        else search group extent fuel' traversal' t1 intersection
  end.

Definition getIntersectionWith (group : list Extent) (extent : Extent) (t : kd_tree) : outcome (list Z * kd_tree) :=
  match group with
  | [] => Ok ([], t)
  | _ => t1 ← initializeTree group t; search group extent (2 * length group) [0] t1 []
  end.

(** The overload for a group *)
Definition getIntersectionWith_group (group extents : list Extent) (t : kd_tree) : outcome (list Z * kd_tree) :=
  foldl (fun r e => s ← r; s' ← getIntersectionWith group e s.2; Ok (foldl (fun set i => set_insert i set) s.1 s'.1, s'.2))
    (Ok ([], t)) extents.

Definition getBounds (group : list Extent) (t : kd_tree) : outcome (Extent * kd_tree) :=
  match group with
  | [] => Ok (no_extent, t)
  | _ => t1 ← initializeTree group t; n ← arr_get (dm_tree t1) 0; Ok (dm_bounds n, t1)
  end.
End tree.

(** ** The tree is made anew only if the number of extents has changed. *)
Definition example_group : list Extent := [mkExtent (0, 10) (100, 200); mkExtent (5, 15) (150, 300); mkExtent (20, 30) (100, 120)].
Definition new_tree : kd_tree := mkTree 0 [] [].

Example example_search : exists t, getIntersectionWith (fun _ _ l => l) example_group (mkExtent (8, 25) (110, 160)) new_tree = Ok ([0; 1; 2], t) /\
  exists t', getIntersectionWith (fun _ _ l => l) example_group (mkExtent (12, 14) (0, 1000)) t = Ok ([1], t') /\
  exists t'', getIntersectionWith (fun _ _ l => l) [mkExtent (0, 10) (100, 200); mkExtent (50, 60) (0, 1); mkExtent (20, 30) (100, 120)] (mkExtent (12, 14) (0, 1000)) t'
    = Ok ([1], t'').
Proof. eexists. split; [vm_compute; reflexivity|]. eexists. split; [vm_compute; reflexivity|]. eexists. vm_compute. reflexivity. Qed.
