(* ===== verification/KdTree.v ===== *)
(** Searches in a group of extents find just the extents that intersect the one looked for,
    whatever the order in which the tree was built by the searches before. *)
From stdpp Require Import sorting.
From S2P Require Import Prelude FlatTopology Hostlist ExtentGroup.
#[local] Open Scope Z_scope.

(** ** Intersection and bounds *)
Definition meets (a b : Z * Z) : Prop := Z.max a.1 b.1 < Z.min a.2 b.2.

Lemma interval_and_empty a b : isEmpty (interval_and a b) = false <-> meets a b.
Proof.
  unfold isEmpty, interval_and, meets. destruct (a.1 <? b.1) eqn:E1, (a.2 >? b.2) eqn:E2; bools;
    match goal with |- context [?x <? ?y] => destruct (x <? y) eqn:E3 end; bools; cbn; rewrite Z.eqb_neq; lia.
Qed.

Lemma doesIntersect_true q e : doesIntersect q e = true <-> meets (dm_interval q) (dm_interval e) /\ meets (dm_range q) (dm_range e).
Proof.
  unfold doesIntersect, extent_empty, extent_and. cbn [dm_interval dm_range].
  rewrite negb_true_iff, orb_false_iff, !interval_and_empty. done.
Qed.

Lemma meets_or q a b : (meets q a -> meets q (interval_or a b)) /\ (meets q b -> meets q (interval_or a b)).
Proof.
  unfold interval_or, isEmpty, meets. destruct (b.1 =? b.2) eqn:E1; bools; [lia|]. destruct (a.1 =? a.2) eqn:E2; bools; [lia|].
  destruct (a.1 >? b.1) eqn:E3, (a.2 <? b.2) eqn:E4; bools; cbn; lia.
Qed.

Lemma meets_single q b : meets q (interval_or (0, 0) b) <-> meets q b.
Proof. unfold interval_or, isEmpty, meets. destruct (b.1 =? b.2) eqn:E1; bools; cbn; [lia|done]. Qed.

(** An extent in the bounds meets nothing that the bounds do not meet. *)
Definition within (e bounds : Extent) : Prop := forall q, doesIntersect q e = true -> doesIntersect q bounds = true.

Lemma within_or a b : within a (extent_or a b) /\ within b (extent_or a b).
Proof.
  split; intros q; rewrite !doesIntersect_true; cbn [extent_or dm_interval dm_range];
    pose proof (meets_or (dm_interval q) (dm_interval a) (dm_interval b)); pose proof (meets_or (dm_range q) (dm_range a) (dm_range b)); tauto.
Qed.

Lemma bounds_within es : forall acc, within acc (foldl extent_or acc es) /\ forall e, e ∈ es -> within e (foldl extent_or acc es).
Proof.
  induction es as [|x es IH]; intros acc; cbn [foldl]; [split; [by intros q|by intros e He%not_elem_of_nil]|].
  destruct (IH (extent_or acc x)) as [H1 H2], (within_or acc x) as [H3 H4]. split; [intros q Hq; by apply H1, H3|].
  intros e [->|He]%elem_of_cons; [intros q Hq; by apply H1, H4|by apply H2].
Qed.

Lemma bounds_single q e : doesIntersect q (extent_or no_extent e) = doesIntersect q e.
Proof. apply eq_true_iff_eq. rewrite !doesIntersect_true. cbn [extent_or no_extent dm_interval dm_range]. by rewrite !meets_single. Qed.

(** ** The state between searches *)
Section group.
Context (nth_element : (Z -> Z -> bool) -> Z -> list Z -> list Z) (Hnth : forall less k l, nth_element less k l ≡ₚ l).
Context (group : list Extent).
Notation n := (size group).

Definition allocated (t : kd_tree) (k : Z) (nd : Node) : Prop := 0 <= k < dm_next t /\ dm_tree t !! Z.to_nat k = Some nd.
Definition segment (map : list Z) (a b x : Z) : Prop := exists i, a <= i <= b /\ map !! Z.to_nat i = Some x.

Record node_ok (t : kd_tree) (k : Z) (nd : Node) : Prop := {
  no_range : 0 <= dm_first nd <= dm_last nd /\ dm_last nd < n;
  no_bounds : forall x e, segment (dm_map t) (dm_first nd) (dm_last nd) x -> group !! Z.to_nat x = Some e -> within e (dm_bounds nd) /\
    (dm_first nd = dm_last nd -> forall q, doesIntersect q (dm_bounds nd) = doesIntersect q e);
  no_leaf : dm_children nd < 0 -> dm_first nd = dm_last nd /\ dm_map t !! Z.to_nat (dm_first nd) = Some (- (dm_children nd + 1));
  no_inner : 0 < dm_children nd -> exists nth l r, dm_first nd <= nth < dm_last nd /\ allocated t (dm_children nd) l /\ allocated t (dm_children nd + 1) r /\
    dm_first l = dm_first nd /\ dm_last l = nth /\ dm_first r = nth + 1 /\ dm_last r = dm_last nd }.

Definition laminar (a b : Node) : Prop :=
  dm_last a < dm_first b \/ dm_last b < dm_first a \/
  (0 < dm_children b /\ dm_first b <= dm_first a /\ dm_last a <= dm_last b) \/
  (0 < dm_children a /\ dm_first a <= dm_first b /\ dm_last b <= dm_last a).

Definition frontier (nd : Node) : bool := negb (dm_children nd >? 0).
Definition slack (nd : Node) : Z := if frontier nd then dm_last nd - dm_first nd else 0.

Record tree_ok (t : kd_tree) : Prop := {
  tk_length : 0 < dm_next t /\ size (dm_tree t) = 2 * n;
  tk_map : dm_map t ≡ₚ seqZ 0 n;
  tk_node : forall k nd, allocated t k nd -> node_ok t k nd;
  tk_laminar : forall j k a b, allocated t j a -> allocated t k b -> j <> k -> laminar a b;
  tk_root : exists root, allocated t 0 root /\ dm_first root = 0 /\ dm_last root = n - 1;
  tk_count : sum_by slack (take (Z.to_nat (dm_next t)) (dm_tree t)) + countb frontier (take (Z.to_nat (dm_next t)) (dm_tree t)) = n /\
    dm_next t = 2 * countb frontier (take (Z.to_nat (dm_next t)) (dm_tree t)) - 1 }.

(** ** The root *)
Lemma resize_length {A} k (x : A) l : length (resize k x l) = k.
Proof. unfold resize. rewrite length_app, length_take, length_replicate. lia. Qed.

Lemma foldl_single (e : Extent) l : l = [e] -> foldl extent_or no_extent l = extent_or no_extent e.
Proof. by intros ->. Qed.

Lemma seqZ_lookup (i : nat) (m x : Z) : seqZ 0 m !! i = Some x -> x = Z.of_nat i /\ 0 <= x < m.
Proof. intros H. apply lookup_seqZ in H. lia. Qed.

Lemma initialize_ok t : 0 < n -> size (dm_map t) <> n \/ tree_ok t -> exists t1, initializeTree group t = Ok t1 /\ tree_ok t1.
Proof.
  intros Hn Ht. unfold initializeTree. destruct ((size (dm_map t) >? 0) && (size (dm_map t) =? n)) eqn:E; bools.
  { exists t. split; [done|]. by destruct Ht. }
  clear Ht E. set (nodes := resize _ _ _). assert (HL : length nodes = (2 * length group)%nat) by apply resize_length.
  set (root := mkNode 0 0 (n - 1) (foldl extent_or no_extent group)). unfold size in Hn.
  rewrite arr_set_in, bind_of_Ok by (rewrite HL; lia). eexists. split; [done|].
  destruct nodes as [|x nodes]; [cbn in HL; lia|]. change (<[Z.to_nat 0 := root]> (x :: nodes)) with (root :: nodes).
  assert (Halloc : forall k nd, allocated (mkTree 1 (root :: nodes) (seqZ 0 n)) k nd -> k = 0 /\ nd = root).
  { intros k nd [Hk Hl]. cbn in Hk, Hl. assert (k = 0) as -> by lia. by injection Hl as <-. }
  constructor.
  - cbn [dm_next dm_tree]. unfold size. cbn [length] in *. lia.
  - done.
  - intros k nd [-> ->]%Halloc. constructor; unfold root; cbn [dm_first dm_last dm_bounds dm_children]; unfold size in *; [lia| |lia|lia].
    intros y e _ He. split; [apply bounds_within; by apply list_elem_of_lookup_2 in He|]. intros H q.
    rewrite (foldl_single e); [apply bounds_single|]. destruct group as [|e0 [|]]; cbn in Hn, H, He; [lia| |lia].
    destruct (Z.to_nat y); [by injection He as ->|done].
  - intros j k a b [-> _]%Halloc [-> _]%Halloc. done.
  - exists root. split; [by split|done].
  - cbn [dm_next dm_tree]. change (take (Z.to_nat 1) (root :: nodes)) with [root]. rewrite sum_by_cons, countb_cons, countb_nil.
    unfold sum_by, slack, root. cbn. lia.
Qed.

(** ** Reordering a part of the map *)
Lemma segment_perm (A S S' B : list Z) a b x : S ≡ₚ S' -> 0 <= a ->
  (a <= size A /\ size A + size S <= b + 1) \/ b < size A \/ size A + size S <= a ->
  segment (A ++ S ++ B) a b x -> segment (A ++ S' ++ B) a b x.
Proof.
  intros HS Ha Hab (i & Hi & Hx). unfold size in *. pose proof (Permutation_length HS) as HL.
  destruct (decide (i < Z.of_nat (length A))) as [H1|H1].
  { exists i. split; [done|]. rewrite lookup_app_l in Hx |- * by lia. done. }
  rewrite lookup_app_r in Hx by lia. destruct (decide (i < Z.of_nat (length A) + Z.of_nat (length S))) as [H2|H2].
  - rewrite lookup_app_l in Hx by lia. apply list_elem_of_lookup_2 in Hx. rewrite HS in Hx. apply list_elem_of_lookup_1 in Hx as [j Hj].
    pose proof (lookup_lt_Some _ _ _ Hj). exists (Z.of_nat (length A + j)). split; [lia|].
    rewrite Nat2Z.id, lookup_app_r, lookup_app_l by lia. by replace (length A + j - length A)%nat with j by lia.
  - exists i. split; [done|]. rewrite lookup_app_r in Hx by lia. rewrite !lookup_app_r by lia. rewrite <- HL. done.
Qed.

Lemma partition_split less nth map a b : 0 <= a <= b -> b <= size map -> exists A S S' B,
  map = A ++ S ++ B /\ partition_map nth_element less a nth b map = A ++ S' ++ B /\ S ≡ₚ S' /\ size A = a /\ size S = b - a.
Proof.
  intros Ha Hb. unfold size in *. exists (take (Z.to_nat a) map), (take (Z.to_nat (b - a)) (drop (Z.to_nat a) map)),
    (nth_element less (nth - a) (take (Z.to_nat (b - a)) (drop (Z.to_nat a) map))), (drop (Z.to_nat b) map).
  split_and!; [|done|by rewrite Hnth|rewrite length_take; lia|rewrite length_take, length_drop; lia].
  rewrite <- (take_drop (Z.to_nat a) map) at 1. f_equal. rewrite <- (take_drop (Z.to_nat (b - a)) (drop _ map)) at 1. f_equal.
  rewrite drop_drop. f_equal. lia.
Qed.

Lemma partition_keeps less nth map a b c d x : 0 <= a <= b -> b < size map -> 0 <= c ->
  (c <= a /\ b <= d) \/ d < a \/ b < c ->
  segment (partition_map nth_element less a nth b map) c d x <-> segment map c d x.
Proof.
  intros Ha Hb Hc Hd. destruct (partition_split less nth map a b) as (A & S & S' & B & E1 & E2 & HS & HA & HL); [lia..|].
  rewrite E2, E1. assert (size S' = size S) by (unfold size; by rewrite (Permutation_length HS)). split; apply segment_perm; try done; lia.
Qed.

Lemma partition_perm less nth map a b : 0 <= a <= b -> b <= size map -> partition_map nth_element less a nth b map ≡ₚ map.
Proof. intros Ha Hb. destruct (partition_split less nth map a b) as (A & S & S' & B & -> & -> & HS & _); [lia..|]. by rewrite HS. Qed.

Lemma map_in (map : list Z) (i : nat) x : map ≡ₚ seqZ 0 n -> map !! i = Some x -> 0 <= x < n.
Proof. intros Hp Hx. apply list_elem_of_lookup_2 in Hx. rewrite Hp in Hx. apply elem_of_seqZ in Hx. lia. Qed.

Lemma map_length (map : list Z) : map ≡ₚ seqZ 0 n -> size map = n.
Proof. intros Hp. unfold size at 1. rewrite (Permutation_length Hp), length_seqZ. unfold size. lia. Qed.

Lemma bounds_over_ok map a b : map ≡ₚ seqZ 0 n -> 0 <= a <= b -> b < n -> exists bs, bounds_over group map a b = Ok bs /\
  forall x e, segment map a b x -> group !! Z.to_nat x = Some e -> within e bs /\ (a = b -> forall q, doesIntersect q bs = doesIntersect q e).
Proof.
  intros Hp Ha Hb. pose proof (map_length map Hp) as HL. unfold bounds_over.
  set (g' := fun i : Z => default no_extent (group !! Z.to_nat (default 0 (map !! Z.to_nat i)))).
  assert (Hg : forall i, a <= i <= b -> exists x e, map !! Z.to_nat i = Some x /\ group !! Z.to_nat x = Some e /\ 0 <= x).
  { intros i Hi. destruct (lookup_lt_is_Some_2 map (Z.to_nat i)) as [x Hx]; [unfold size in *; lia|]. pose proof (map_in _ _ _ Hp Hx).
    destruct (lookup_lt_is_Some_2 group (Z.to_nat x)) as [e He]; [unfold size in *; lia|]. exists x, e. split_and!; [done|done|lia]. }
  rewrite (mapM_Ok _ g').
  2: { apply Forall_forall. intros i Hi. apply elem_of_seqZ in Hi. destruct (Hg i) as (x & e & Hx & He & H0); [lia|].
       rewrite (arr_get_lookup map i x), bind_of_Ok by (done || lia). rewrite (arr_get_lookup group x e) by done. unfold g'. rewrite Hx. cbn [default from_option id]. by rewrite He. }
  rewrite bind_of_Ok. eexists. split; [done|]. intros x e (i & Hi & Hx) He. split.
  - apply bounds_within. apply list_elem_of_fmap. exists i. split; [unfold g'; rewrite Hx; cbn; by rewrite He|]. apply elem_of_seqZ. lia.
  - intros -> q. assert (i = b) as -> by lia. rewrite (foldl_single e); [apply bounds_single|].
    replace (b - b + 1) with 1 by lia. rewrite seqZ_cons by lia. cbn [fmap list_fmap Z.pred]. unfold g' at 1. rewrite Hx. cbn [default from_option id]. by rewrite He.
Qed.

(** ** Children *)
(** What a step of the construction keeps: every node and the extents below it *)
Definition keeps (t t' : kd_tree) : Prop := forall j a, allocated t j a -> exists a', allocated t' j a' /\
  dm_first a' = dm_first a /\ dm_last a' = dm_last a /\
  (forall x, segment (dm_map t) (dm_first a) (dm_last a) x -> segment (dm_map t') (dm_first a) (dm_last a) x) /\
  (dm_first a = dm_last a -> forall q, doesIntersect q (dm_bounds a') = doesIntersect q (dm_bounds a)).

Lemma segment_one map a x : segment map a a x <-> map !! Z.to_nat a = Some x.
Proof. split; [intros (i & Hi & Hx); by assert (i = a) as -> by lia|intros Hx; exists a; split; [lia|done]]. Qed.

Lemma alloc_unique t j a b : allocated t j a -> allocated t j b -> a = b.
Proof. intros [_ H1] [_ H2]. congruence. Qed.

Lemma alloc_in t j a : allocated t j a -> dm_next t <= size (dm_tree t) -> 0 <= j < size (dm_tree t).
Proof. intros [H _] ?. lia. Qed.

Lemma room t k nd : tree_ok t -> allocated t k nd -> dm_children nd <= 0 -> 
  dm_next t + 2 * (dm_last nd - dm_first nd) < 2 * n.
Proof.
  intros Ht [Hk Hl] Hc. destruct (tk_count t Ht) as [C1 C2]. set (front := take _ _) in *.
  assert (Hin : nd ∈ front).
  { apply list_elem_of_lookup_2 with (Z.to_nat k). unfold front. rewrite lookup_take_lt by lia. done. }
  assert (Hs : forall y, y ∈ front -> 0 <= slack y).
  { intros y Hy. apply list_elem_of_lookup_1 in Hy as [i Hi]. unfold front in Hi. apply lookup_take_Some in Hi as [Hi Hlt].
    destruct (tk_node t Ht (Z.of_nat i) y) as [Hr _ _ _]; [split; [lia|by rewrite Nat2Z.id]|]. unfold slack. destruct (frontier y); lia. }
  pose proof (sum_by_ge slack front nd Hs Hin) as Hge. unfold slack at 1, frontier in Hge.
  destruct (dm_children nd >? 0) eqn:E; bools; [lia|]. cbn in Hge. lia.
Qed.

Section leaf.
Context (t : kd_tree) (k : Z) (nd : Node) (x : Z) (e : Extent).
Context (Ht : tree_ok t) (Hk : allocated t k nd) (Hc : dm_children nd = 0) (Hf : dm_first nd = dm_last nd).
Context (Hx : dm_map t !! Z.to_nat (dm_first nd) = Some x) (He : group !! Z.to_nat x = Some e).
Let nd' := mkNode (- (x + 1)) (dm_first nd) (dm_last nd) e.
Let t' := mkTree (dm_next t) (<[Z.to_nat k := nd']> (dm_tree t)) (dm_map t).

Lemma leaf_alloc j a : allocated t' j a <-> (j = k /\ a = nd') \/ (j <> k /\ allocated t j a).
Proof.
  destruct Hk as [Hk1 Hk2]. unfold allocated. cbn [dm_next dm_tree t']. destruct (decide (j = k)) as [->|Hj].
  - rewrite list_lookup_insert_eq by (by apply lookup_lt_Some in Hk2). naive_solver.
  - split; [intros [Hj0 Hl]; rewrite list_lookup_insert_ne in Hl by lia; by right|].
    intros [[? _]|[_ [Hj0 Hl]]]; [done|]. by rewrite list_lookup_insert_ne by lia.
Qed.

Lemma leaf_bounds q : doesIntersect q e = doesIntersect q (dm_bounds nd).
Proof. destruct (tk_node t Ht k nd Hk) as [_ Hb _ _]. symmetry. apply (Hb x e); [rewrite <- Hf; by apply segment_one|done|done]. Qed.

Lemma leaf_keeps : keeps t t'.
Proof.
  intros j a Ha. destruct (decide (j = k)) as [->|Hj].
  - exists nd'. pose proof (alloc_unique _ _ _ _ Ha Hk) as ->. split; [apply leaf_alloc; by left|]. split_and!; try done. intros _ q. apply leaf_bounds.
  - exists a. split; [apply leaf_alloc; by right|]. done.
Qed.

Lemma leaf_node_ok : tree_ok t'.
Proof.
  assert (H0 : 0 <= x < n) by (eapply map_in; [apply (tk_map t Ht)|exact Hx]).
  constructor; cbn [dm_next dm_tree dm_map t'].
  - destruct (tk_length t Ht) as [H1 H2]. split; [done|]. unfold size in *. by rewrite length_insert.
  - apply (tk_map t Ht).
  - intros j a [[-> ->]|[Hj Ha]]%leaf_alloc.
    + destruct (tk_node t Ht k nd Hk) as [Hr Hb _ _]. constructor; cbn [dm_first dm_last dm_bounds dm_children nd' dm_map t'].
      * done.
      * intros y e' Hy He'. rewrite <- Hf in Hy. apply segment_one in Hy. assert (y = x) as -> by congruence. assert (e' = e) as -> by congruence.
        by split; [intros q|].
      * intros _. split; [done|]. rewrite Hx. f_equal. lia.
      * lia.
    + destruct (tk_node t Ht j a Ha) as [Hr Hb Hl Hi]. constructor; cbn [dm_map t']; [done|done|done|].
      intros Hpos. destruct (Hi Hpos) as (nth & l & r & H1 & Hal & Har & E1 & E2 & E3 & E4).
      destruct (leaf_keeps _ _ Hal) as (l' & Hl' & F1 & F2 & _), (leaf_keeps _ _ Har) as (r' & Hr' & F3 & F4 & _).
      exists nth, l', r'. split_and!; try done; congruence || lia.
  - intros j i a b [[-> ->]|[Hj Ha]]%leaf_alloc [[-> ->]|[Hi Hb]]%leaf_alloc Hne; [done| | |by apply (tk_laminar t Ht j i)].
    + pose proof (tk_laminar t Ht k i nd b Hk Hb ltac:(lia)) as H. unfold laminar in *. cbn [dm_children dm_first dm_last nd'] in *. lia.
    + pose proof (tk_laminar t Ht j k a nd Ha Hk ltac:(lia)) as H. unfold laminar in *. cbn [dm_children dm_first dm_last nd'] in *. lia.
  - destruct (tk_root t Ht) as (root & Hroot & E1 & E2). destruct (leaf_keeps _ _ Hroot) as (r & Hr & F1 & F2 & _). exists r. split; [done|lia].
  - destruct (tk_count t Ht) as [C1 C2]. destruct Hk as [Hk1 Hk2]. rewrite take_insert_lt by lia.
    assert (Hl : take (Z.to_nat (dm_next t)) (dm_tree t) !! Z.to_nat k = Some nd) by (rewrite lookup_take_lt by lia; done).
    rewrite (sum_by_insert _ _ _ nd _ Hl), (countb_insert _ _ _ nd _ Hl).
    assert (F1 : frontier nd = true) by (unfold frontier; by rewrite Hc). assert (F2 : frontier nd' = true).
    { unfold frontier. cbn [dm_children nd']. by destruct (- (x + 1) >? 0) eqn:E; bools; [lia|]. }
    unfold slack at 2 3. rewrite F1, F2. cbn [dm_first dm_last nd']. lia.
Qed.
End leaf.

Lemma laminar_sym a b : laminar a b -> laminar b a.
Proof. unfold laminar. lia. Qed.

Section split.
Context (t : kd_tree) (k : Z) (nd : Node) (map : list Z) (lb rb : Extent).
Context (Ht : tree_ok t) (Hk : allocated t k nd) (Hc : dm_children nd = 0) (Hf : dm_first nd < dm_last nd).
Notation nth := ((dm_first nd + dm_last nd) / 2).
Context (Hmap : map ≡ₚ seqZ 0 n).
Context (Hkeep : forall c d x, 0 <= c -> (c <= dm_first nd /\ dm_last nd <= d) \/ d < dm_first nd \/ dm_last nd < c ->
  segment map c d x <-> segment (dm_map t) c d x).
Context (Hlb : forall x e, segment map (dm_first nd) nth x -> group !! Z.to_nat x = Some e ->
  within e lb /\ (dm_first nd = nth -> forall q, doesIntersect q lb = doesIntersect q e)).
Context (Hrb : forall x e, segment map (nth + 1) (dm_last nd) x -> group !! Z.to_nat x = Some e ->
  within e rb /\ (nth + 1 = dm_last nd -> forall q, doesIntersect q rb = doesIntersect q e)).
Notation c := (dm_next t).
Let nd' := mkNode c (dm_first nd) (dm_last nd) (dm_bounds nd).
Let L := mkNode 0 (dm_first nd) nth lb.
Let R := mkNode 0 (nth + 1) (dm_last nd) rb.
Let t' := mkTree (c + 2) (<[Z.to_nat (c + 1) := R]> (<[Z.to_nat c := L]> (<[Z.to_nat k := nd']> (dm_tree t)))) map.

Lemma nth_between : dm_first nd <= nth < dm_last nd.
Proof. pose proof (Z.div_mod (dm_first nd + dm_last nd) 2 ltac:(lia)). pose proof (Z.mod_pos_bound (dm_first nd + dm_last nd) 2 ltac:(lia)). lia. Qed.

Lemma split_room : c + 1 < size (dm_tree t).
Proof. pose proof (room t k nd Ht Hk ltac:(lia)). destruct (tk_length t Ht) as [_ ->]. lia. Qed.

Lemma split_alloc j a : allocated t' j a <-> (j = k /\ a = nd') \/ (j = c /\ a = L) \/ (j = c + 1 /\ a = R) \/ (j <> k /\ allocated t j a).
Proof.
  destruct Hk as [Hk1 Hk2]. pose proof split_room as Hroom. unfold size in Hroom. unfold allocated. cbn [dm_next dm_tree t'].
  destruct (decide (j = c + 1)) as [->|H1].
  { rewrite list_lookup_insert_eq by (rewrite !length_insert; lia). split; [intros [_ [= <-]]; auto|].
    intros [[? _]|[[? _]|[[_ ->]|[_ [? _]]]]]; [lia|lia| |lia]. split; [lia|done]. }
  destruct (decide (j = c)) as [->|H2].
  { rewrite list_lookup_insert_ne, list_lookup_insert_eq by (rewrite ?length_insert; lia). split; [intros [_ [= <-]]; auto|].
    intros [[? _]|[[_ ->]|[[? _]|[_ [? _]]]]]; [lia| |lia|lia]. split; [lia|done]. }
  destruct (decide (j = k)) as [->|H3].
  { rewrite !list_lookup_insert_ne, list_lookup_insert_eq by lia. split; [intros [_ [= <-]]; auto|].
    intros [[_ ->]|[[? _]|[[? _]|[? _]]]]; [|lia|lia|done]. split; [lia|done]. }
  split.
  - intros [Hj Hl]. rewrite !list_lookup_insert_ne in Hl by lia. right; right; right. split; [done|]. split; [lia|done].
  - intros [[? _]|[[? _]|[[? _]|[_ [Hj Hl]]]]]; [done|done|done|]. rewrite !list_lookup_insert_ne by lia. split; [lia|done].
Qed.

(** A node that was there before and is not split is apart from the one that is, or above it. *)
Lemma split_other j a : allocated t j a -> j <> k ->
  (dm_first a <= dm_first nd /\ dm_last nd <= dm_last a /\ 0 < dm_children a) \/ dm_last a < dm_first nd \/ dm_last nd < dm_first a.
Proof. intros Ha Hj. pose proof (tk_laminar t Ht j k a nd Ha Hk Hj) as H. unfold laminar in H. lia. Qed.

Lemma split_keeps : keeps t t'.
Proof.
  intros j a Ha. destruct (tk_node t Ht j a Ha) as [Hr _ _ _]. destruct (decide (j = k)) as [->|Hj].
  - pose proof (alloc_unique _ _ _ _ Ha Hk) as ->. exists nd'. split; [apply split_alloc; by left|]. split; [done|]. split; [done|]. split; [|done].
    intros x Hx. apply Hkeep; [lia|lia|done].
  - exists a. split; [apply split_alloc; auto|]. split; [done|]. split; [done|]. split; [|done].
    intros x Hx. pose proof (split_other j a Ha Hj). apply Hkeep; [lia|lia|done].
Qed.

Lemma split_node j a : allocated t' j a -> node_ok t' j a.
Proof.
  destruct (tk_node t Ht k nd Hk) as [Hr Hb _ _]. pose proof nth_between as Hn.
  intros [[-> ->]|[[-> ->]|[[-> ->]|[Hj Ha]]]]%split_alloc.
  - constructor; cbn [dm_first dm_last dm_bounds dm_children nd' dm_map t'].
    + done.
    + intros x e Hx He. split; [|lia]. apply (Hb x e); [|done]. apply Hkeep in Hx; [done|lia|lia].
    + destruct Hk. lia.
    + intros _. exists nth, L, R. split; [done|]. split; [apply split_alloc; auto|]. split; [apply split_alloc; auto|done].
  - constructor; cbn [dm_first dm_last dm_bounds dm_children L dm_map t']; [lia|apply Hlb|lia|lia].
  - constructor; cbn [dm_first dm_last dm_bounds dm_children R dm_map t']; [lia|apply Hrb|lia|lia].
  - destruct (tk_node t Ht j a Ha) as [Hra Hba Hla Hia]. pose proof (split_other j a Ha Hj) as Ho. constructor; cbn [dm_map t'].
    + done.
    + intros x e Hx He. apply (Hba x e); [|done]. apply Hkeep in Hx; [done|lia|lia].
    + intros Hneg. destruct (Hla Hneg) as [E Hl]. split; [done|]. apply segment_one. apply Hkeep; [lia|lia|]. by apply segment_one.
    + intros Hpos. destruct (Hia Hpos) as (m & l & r & H1 & Hal & Har & E1 & E2 & E3 & E4).
      destruct (split_keeps _ _ Hal) as (l' & Hl' & F1 & F2 & _), (split_keeps _ _ Har) as (r' & Hr' & F3 & F4 & _).
      exists m, l', r'. split_and!; try done; congruence || lia.
Qed.

Lemma split_laminar i j a b : allocated t' i a -> allocated t' j b -> i <> j -> laminar a b.
Proof.
  pose proof nth_between as Hn. assert (Hc0 : 0 < c) by apply (tk_length t Ht).
  assert (Hold : forall i a, allocated t i a -> i <> k -> laminar a nd' /\ laminar a L /\ laminar a R).
  { intros i0 a0 Ha Hi. pose proof (split_other i0 a0 Ha Hi). unfold laminar. cbn [dm_first dm_last dm_children nd' L R]. lia. }
  assert (H1 : laminar nd' L) by (unfold laminar; cbn [dm_first dm_last dm_children nd' L]; lia).
  assert (H2 : laminar nd' R) by (unfold laminar; cbn [dm_first dm_last dm_children nd' R]; lia).
  assert (H3 : laminar L R) by (unfold laminar; cbn [dm_first dm_last dm_children L R]; lia).
  intros [[-> ->]|[[-> ->]|[[-> ->]|[Hi Ha]]]]%split_alloc [[-> ->]|[[-> ->]|[[-> ->]|[Hj Hb]]]]%split_alloc Hne;
    try done; try (by apply laminar_sym); try (by apply laminar_sym, (Hold j b)); try (by apply (Hold i a)). by apply (tk_laminar t Ht i j).
Qed.

Lemma split_front : take (Z.to_nat (c + 2)) (dm_tree t') = <[Z.to_nat k := nd']> (take (Z.to_nat c) (dm_tree t)) ++ [L; R].
Proof.
  pose proof split_room as Hroom. unfold size in Hroom. destruct Hk as [Hk1 _].
  apply list_eq. intros i. cbn [dm_tree t'].
  assert (HL : length (<[Z.to_nat k := nd']> (take (Z.to_nat c) (dm_tree t))) = Z.to_nat c) by (rewrite length_insert, length_take; lia).
  destruct (decide (i < Z.to_nat c)%nat) as [Hi|Hi].
  { rewrite lookup_take_lt, lookup_app_l by lia. rewrite !(list_lookup_insert_ne _ _ i) by lia.
    destruct (decide (i = Z.to_nat k)) as [->|Hik]; [rewrite !list_lookup_insert_eq by (rewrite ?length_take; lia); done|].
    rewrite !list_lookup_insert_ne by lia. by rewrite lookup_take_lt by lia. }
  rewrite lookup_app_r by lia. rewrite HL. destruct (decide (i = Z.to_nat c)) as [->|Hi1].
  { rewrite lookup_take_lt by lia. rewrite list_lookup_insert_ne, list_lookup_insert_eq by (rewrite ?length_insert; lia). by rewrite Nat.sub_diag. }
  destruct (decide (i = Z.to_nat (c + 1))) as [->|Hi2].
  { rewrite lookup_take_lt by lia. rewrite list_lookup_insert_eq by (rewrite ?length_insert; lia).
    by replace (Z.to_nat (c + 1) - Z.to_nat c)%nat with 1%nat by lia. }
  rewrite lookup_take_ge by lia. symmetry. apply lookup_ge_None_2. cbn [length]. lia.
Qed.

Lemma split_ok : tree_ok t'.
Proof.
  pose proof split_room as Hroom. pose proof nth_between as Hn. constructor.
  - destruct (tk_length t Ht) as [H1 H2]. split; [cbn [dm_next t']; lia|]. unfold size in *. cbn [dm_tree t']. by rewrite !length_insert.
  - done.
  - apply split_node.
  - apply split_laminar.
  - destruct (tk_root t Ht) as (root & Hroot & E1 & E2). destruct (split_keeps _ _ Hroot) as (r & Hr & F1 & F2 & _). exists r. split; [done|lia].
  - destruct (tk_count t Ht) as [C1 C2]. destruct Hk as [Hk1 Hk2]. change (dm_next t') with (c + 2). rewrite split_front.
    assert (Hl : take (Z.to_nat c) (dm_tree t) !! Z.to_nat k = Some nd) by (rewrite lookup_take_lt by lia; done).
    rewrite sum_by_app, countb_app, (sum_by_insert _ _ _ nd _ Hl), (countb_insert _ _ _ nd _ Hl), !sum_by_cons, !countb_cons, countb_nil.
    assert (F1 : frontier nd = true) by (unfold frontier; by rewrite Hc).
    assert (F2 : frontier nd' = false) by (unfold frontier; cbn [dm_children nd']; by rewrite (proj2 (Z.gtb_lt c 0)) by lia).
    assert (F3 : frontier L = true) by done. assert (F4 : frontier R = true) by done.
    unfold slack at 2 3 4 5. rewrite F1, F2, F3, F4. cbn [dm_first dm_last L R]. unfold sum_by at 2. cbn [foldr]. lia.
Qed.
End split.

Lemma build_ok t k nd : tree_ok t -> allocated t k nd -> dm_children nd = 0 ->
  exists t' nd', buildChildren nth_element group k t = Ok t' /\ tree_ok t' /\ keeps t t' /\ allocated t' k nd' /\ dm_children nd' <> 0.
Proof.
  intros Ht Hk Hc. destruct (tk_node t Ht k nd Hk) as [Hr _ _ _]. pose proof Hk as [Hk1 Hk2]. pose proof (map_length _ (tk_map t Ht)) as HM.
  pose proof (room t k nd Ht Hk ltac:(lia)) as Hroom. destruct (tk_length t Ht) as [Hc0 HT].
  unfold buildChildren. rewrite (arr_get_lookup _ _ nd), bind_of_Ok by (done || lia). destruct (dm_first nd =? dm_last nd) eqn:E; bools.
  - destruct (lookup_lt_is_Some_2 (dm_map t) (Z.to_nat (dm_first nd))) as [x Hx]; [unfold size in *; lia|].
    pose proof (map_in _ _ _ (tk_map t Ht) Hx) as H0. destruct (lookup_lt_is_Some_2 group (Z.to_nat x)) as [e He]; [unfold size in *; lia|].
    rewrite (arr_get_lookup _ _ x), bind_of_Ok, (arr_get_lookup _ _ e), bind_of_Ok, arr_set_in, bind_of_Ok by (done || lia || (unfold size in *; lia)).
    rewrite <- E. eexists _, (mkNode (- (x + 1)) (dm_first nd) (dm_first nd) e). split; [done|].
    pose proof (leaf_node_ok t k nd x e Ht Hk Hc E Hx He) as H1. pose proof (leaf_keeps t k nd x e Ht Hk E Hx He) as H2.
    pose proof (leaf_alloc t k nd x e Hk k (mkNode (- (x + 1)) (dm_first nd) (dm_last nd) e)) as H3. rewrite <- E in H1, H2, H3.
    split; [exact H1|]. split; [exact H2|]. split; [apply H3; by left|]. cbn. lia.
  - set (less := compare_extents _ _). set (nth := (dm_first nd + dm_last nd) / 2). set (map := partition_map _ _ _ _ _ _).
    assert (Hf : dm_first nd < dm_last nd) by lia.
    assert (Hn : dm_first nd <= nth < dm_last nd) by (apply nth_between; lia).
    assert (Hmap : map ≡ₚ seqZ 0 n) by (unfold map; rewrite partition_perm by lia; apply (tk_map t Ht)).
    assert (Hkeep : forall c d x, 0 <= c -> (c <= dm_first nd /\ dm_last nd <= d) \/ d < dm_first nd \/ dm_last nd < c ->
      segment map c d x <-> segment (dm_map t) c d x) by (intros c d x Hc' Hd; apply partition_keeps; lia).
    destruct (bounds_over_ok map (dm_first nd) nth) as (lb & Hlb & Hl); [done|lia|lia|].
    destruct (bounds_over_ok map (nth + 1) (dm_last nd)) as (rb & Hrb & Hr'); [done|lia|lia|]. unfold size in *.
    rewrite arr_set_in, bind_of_Ok by lia. rewrite Hlb, bind_of_Ok. rewrite arr_set_in, bind_of_Ok by (rewrite length_insert; lia).
    rewrite Hrb, bind_of_Ok. rewrite arr_set_in, bind_of_Ok by (rewrite !length_insert; lia).
    eexists _, (mkNode (dm_next t) (dm_first nd) (dm_last nd) (dm_bounds nd)). split; [done|].
    split; [by apply split_ok|]. split; [by apply split_keeps|]. split; [apply (proj2 (split_alloc t k nd map lb rb Ht Hk Hc Hf k _)); by left|]. cbn. lia.
Qed.

(** ** A search *)
Definition found (q : Extent) (x : Z) : Prop := 0 <= x /\ exists e, group !! Z.to_nat x = Some e /\ doesIntersect q e = true.
Definition span (t : kd_tree) (k : Z) : Z := match dm_tree t !! Z.to_nat k with Some nd => 2 * (dm_last nd - dm_first nd) + 1 | None => 0 end.

(** The extents still to be found are below the nodes in the queue. *)
Definition pending (t : kd_tree) (queue : list Z) (x : Z) : Prop :=
  exists k nd, k ∈ queue /\ allocated t k nd /\ segment (dm_map t) (dm_first nd) (dm_last nd) x.

Lemma pending_keeps t t' queue x : keeps t t' -> pending t queue x -> pending t' queue x.
Proof.
  intros Hkeep (k & nd & Hk & Ha & Hs). destruct (Hkeep k nd Ha) as (nd' & Ha' & E1 & E2 & Hs' & _).
  exists k, nd'. rewrite E1, E2. auto.
Qed.

Lemma span_alloc t k nd : allocated t k nd -> span t k = 2 * (dm_last nd - dm_first nd) + 1.
Proof. intros [_ H]. unfold span. by rewrite H. Qed.

Lemma span_keeps t t' queue : keeps t t' -> Forall (fun k => exists nd, allocated t k nd) queue -> sum_by (span t') queue = sum_by (span t) queue.
Proof.
  intros Hkeep Hq. apply sum_by_ext. intros k Hk. apply (proj1 (Forall_forall _ _) Hq) in Hk as [nd Ha].
  destruct (Hkeep k nd Ha) as (nd' & Ha' & E1 & E2 & _). by rewrite (span_alloc _ _ _ Ha), (span_alloc _ _ _ Ha'), E1, E2.
Qed.

(** The node taken from the queue, with its children if it needs any *)
Lemma visit_ok t k nd : tree_ok t -> allocated t k nd -> exists t1 nd1,
  (if dm_children nd =? 0 then buildChildren nth_element group k t else Ok t) = Ok t1 /\ tree_ok t1 /\ keeps t t1 /\
  allocated t1 k nd1 /\ dm_children nd1 <> 0 /\ dm_first nd1 = dm_first nd /\ dm_last nd1 = dm_last nd /\
  (dm_first nd = dm_last nd -> forall q, doesIntersect q (dm_bounds nd1) = doesIntersect q (dm_bounds nd)).
Proof.
  intros Ht Ha. destruct (dm_children nd =? 0) eqn:E; bools.
  - destruct (build_ok t k nd Ht Ha E) as (t1 & nd1 & H1 & H2 & H3 & H4 & H5). exists t1, nd1.
    destruct (H3 k nd Ha) as (a & Ha' & E1 & E2 & _ & E3). pose proof (alloc_unique _ _ _ _ Ha' H4) as ->. done.
  - exists t, nd. split_and!; try done. intros j a Hj. by exists a.
Qed.

Definition queued (t : kd_tree) (queue : list Z) : Prop := Forall (fun k => exists nd, allocated t k nd) queue.

Lemma queued_keeps t t' queue : keeps t t' -> queued t queue -> queued t' queue.
Proof. intros Hkeep Hq. eapply Forall_impl; [exact Hq|]. intros k (nd & Ha). destruct (Hkeep k nd Ha) as (nd' & Ha' & _). by exists nd'. Qed.

Lemma spans_nonneg t queue : tree_ok t -> queued t queue -> 0 <= sum_by (span t) queue.
Proof.
  intros Ht. induction 1 as [|k queue (nd & Ha) _ IH]; [done|]. rewrite sum_by_cons, (span_alloc _ _ _ Ha).
  destruct (tk_node t Ht k nd Ha) as [Hr _ _ _]. lia.
Qed.

(** A node whose bounds the extent does not meet has nothing to be found. *)
Lemma skip_node t q k nd queue x : tree_ok t -> allocated t k nd -> doesIntersect q (dm_bounds nd) = false -> found q x ->
  pending t (k :: queue) x -> pending t queue x.
Proof.
  intros Ht Ha Hno (_ & e & He & Hq) (j & a & [->|Hj]%elem_of_cons & Haj & Hs); [|by exists j, a].
  pose proof (alloc_unique _ _ _ _ Haj Ha) as ->. destruct (tk_node t Ht k nd Ha) as [_ Hb _ _].
  destruct (Hb x e Hs He) as [Hw _]. apply Hw in Hq. congruence.
Qed.

Lemma inner_node t k nd : tree_ok t -> allocated t k nd -> 0 < dm_children nd ->
  queued t [dm_children nd; dm_children nd + 1] /\ sum_by (span t) [dm_children nd; dm_children nd + 1] < span t k /\
  forall queue x, pending t (k :: queue) x -> pending t (queue ++ [dm_children nd; dm_children nd + 1]) x.
Proof.
  intros Ht Ha Hpos. destruct (tk_node t Ht k nd Ha) as [_ _ _ Hi]. destruct (Hi Hpos) as (m & l & r & H1 & Hl & Hr & E1 & E2 & E3 & E4).
  split; [constructor; [by exists l|constructor; [by exists r|constructor]]|]. split.
  { rewrite !sum_by_cons, (span_alloc _ _ _ Hl), (span_alloc _ _ _ Hr), (span_alloc _ _ _ Ha). unfold sum_by. cbn [foldr]. lia. }
  intros queue x (j & a & [->|Hj]%elem_of_cons & Haj & Hs); [|exists j, a; split; [apply elem_of_app; by left|done]].
  pose proof (alloc_unique _ _ _ _ Haj Ha) as ->. destruct Hs as (i & Hi' & Hx). destruct (decide (i <= m)).
  - exists (dm_children nd), l. split; [apply elem_of_app; right; left|]. split; [done|]. exists i. split; [lia|done].
  - exists (dm_children nd + 1), r. split; [apply elem_of_app; right; right; left|]. split; [done|]. exists i. split; [lia|done].
Qed.

Lemma leaf_node t q k nd : tree_ok t -> allocated t k nd -> dm_children nd < 0 -> doesIntersect q (dm_bounds nd) = true ->
  found q (- (dm_children nd + 1)) /\ forall queue x, pending t (k :: queue) x -> x = - (dm_children nd + 1) \/ pending t queue x.
Proof.
  intros Ht Ha Hneg Hq. destruct (tk_node t Ht k nd Ha) as [_ Hb Hl _]. destruct (Hl Hneg) as [E Hx]. split.
  - pose proof (map_in _ _ _ (tk_map t Ht) Hx) as H0. split; [lia|]. destruct (lookup_lt_is_Some_2 group (Z.to_nat (- (dm_children nd + 1)))) as [e He];
      [unfold size in *; lia|]. exists e. split; [done|]. rewrite <- E in Hb. destruct (Hb _ e (proj2 (segment_one _ _ _) Hx) He) as [_ <-]; done.
  - intros queue x (j & a & [->|Hj]%elem_of_cons & Haj & Hs); [left|right; by exists j, a].
    pose proof (alloc_unique _ _ _ _ Haj Ha) as ->. rewrite <- E in Hs. apply segment_one in Hs. congruence.
Qed.

Lemma search_ok q fuel : forall queue t acc, tree_ok t -> queued t queue -> sum_by (span t) queue <= Z.of_nat fuel ->
  StronglySorted Z.lt acc -> Forall (found q) acc -> (forall x, found q x -> x ∈ acc \/ pending t queue x) ->
  exists res t', search nth_element group q fuel queue t acc = Ok (res, t') /\ tree_ok t' /\ StronglySorted Z.lt res /\ forall x, x ∈ res <-> found q x.
Proof.
  induction fuel as [|fuel IH]; intros [|k queue] t acc Ht Hq Hfuel Hs Hacc Hall.
  1, 3: exists acc, t; split; [done|]; split; [done|]; split; [done|]; intros x; split; [by apply (proj1 (Forall_forall _ _) Hacc)|];
    intros Hx; destruct (Hall x Hx) as [?|(k & nd & Hk & _)]; [done|by apply not_elem_of_nil in Hk].
  - exfalso. rewrite sum_by_cons in Hfuel. inversion Hq as [|? ? (nd & Ha) Hq']; subst. pose proof (spans_nonneg t queue Ht Hq').
    destruct (tk_node t Ht k nd Ha) as [Hr _ _ _]. rewrite (span_alloc _ _ _ Ha) in Hfuel. lia.
  - inversion Hq as [|? ? (nd & Ha) Hq']; subst. rewrite sum_by_cons in Hfuel. pose proof (span_alloc _ _ _ Ha) as Hspan.
    destruct (tk_node t Ht k nd Ha) as [Hr _ _ _]. cbn [search]. rewrite (arr_get_lookup _ _ nd), bind_of_Ok by (apply Ha).
    destruct (doesIntersect q (dm_bounds nd)) eqn:Hd; cbn [negb].
    2: { apply IH; [done|done|lia|done|done|]. intros x Hx. destruct (Hall x Hx) as [?|Hp]; [by left|right]. by apply (skip_node t q k nd). }
    destruct (visit_ok t k nd Ht Ha) as (t1 & nd1 & -> & Ht1 & Hkeep & Ha1 & Hc & E1 & E2 & Hb). rewrite bind_of_Ok.
    rewrite (arr_get_lookup _ _ nd1), bind_of_Ok by (apply Ha1).
    pose proof (span_keeps t t1 queue Hkeep Hq') as Hsum. pose proof (queued_keeps _ _ _ Hkeep Hq') as Hq1.
    assert (Hall1 : forall x, found q x -> x ∈ acc \/ pending t1 (k :: queue) x).
    { intros x Hx. destruct (Hall x Hx) as [?|Hp]; [by left|right]. by apply (pending_keeps t). }
    destruct (dm_children nd1 >? 0) eqn:Ec; bools; [|destruct (dm_children nd1 <? 0) eqn:Ec'; bools; [|lia]].
    + destruct (inner_node t1 k nd1 Ht1 Ha1 Ec) as (I1 & I2 & I3). rewrite (span_alloc _ _ _ Ha1), E1, E2 in I2.
      apply IH; [done|by apply Forall_app|rewrite sum_by_app; lia|done|done|]. intros x Hx. destruct (Hall1 x Hx) as [?|Hp]; [by left|right]. by apply I3.
    + assert (Hd1 : doesIntersect q (dm_bounds nd1) = true).
      { rewrite Hb; [done|]. destruct (tk_node t1 Ht1 k nd1 Ha1) as [_ _ Hl _]. destruct (Hl Ec') as [E _]. lia. }
      destruct (leaf_node t1 q k nd1 Ht1 Ha1 Ec' Hd1) as [L1 L2]. destruct (set_insert_spec (- (dm_children nd1 + 1)) acc Hs) as [S1 S2].
      apply IH; [done|done|lia|done| |].
      * apply Forall_forall. intros x [->|Hx]%S2; [done|by apply (proj1 (Forall_forall _ _) Hacc)].
      * intros x Hx. destruct (Hall1 x Hx) as [H|Hp]; [left; apply S2; by right|]. destruct (L2 queue x Hp) as [->|?]; [left; apply S2; by left|by right].
Qed.
End group.

(** ** Sequences of searches *)
(** The tree goes with the group: it is yet to be made, or made anew since the number of
    extents has changed, or made for these extents. *)
Definition usable (group : list Extent) (t : kd_tree) : Prop := size (dm_map t) <> size group \/ group = [] \/ tree_ok group t.

Lemma intersection_ok nth_element (Hnth : forall less k l, nth_element less k l ≡ₚ l) group q t : usable group t ->
  exists res t', getIntersectionWith nth_element group q t = Ok (res, t') /\ (group = [] /\ t' = t \/ tree_ok group t') /\ StronglySorted Z.lt res /\
    forall x, x ∈ res <-> found group q x.
Proof.
  intros Hu. destruct group as [|e0 es] eqn:Eg.
  { exists [], t. split; [done|]. split; [by left|]. split; [constructor|]. intros x. split; [by intros ?%not_elem_of_nil|].
    intros (_ & e & He & _). done. }
  rewrite <- Eg in *. assert (Hn : 0 < size group) by (rewrite Eg; unfold size; cbn [length]; lia).
  destruct (initialize_ok group t Hn) as (t1 & H1 & Ht1); [destruct Hu as [?|[->|?]]; [by left|done|by right]|].
  destruct (tk_root _ t1 Ht1) as (root & Hroot & R1 & R2).
  destruct (search_ok nth_element Hnth group q (2 * length group) [0] t1 []) as (res & t' & H2 & Ht' & S & Hres).
  - done.
  - constructor; [by exists root|constructor].
  - rewrite sum_by_cons, (span_alloc _ _ _ Hroot), R1, R2. unfold sum_by, size. cbn [foldr]. lia.
  - constructor.
  - constructor.
  - intros x (Hx0 & e & He & _). right. exists 0, root. split; [left|]. split; [done|]. rewrite R1, R2.
    assert (Hx : x ∈ dm_map t1).
    { rewrite (tk_map _ t1 Ht1). apply elem_of_seqZ. apply lookup_lt_Some in He. unfold size. lia. }
    apply list_elem_of_lookup_1 in Hx as [i Hi]. exists (Z.of_nat i). rewrite Nat2Z.id. split; [|done].
    apply lookup_lt_Some in Hi. pose proof (map_length group _ (tk_map _ t1 Ht1)). unfold size in *. lia.
  - exists res, t'. split; [|by split; [right|]]. unfold getIntersectionWith. rewrite Eg at 1. by rewrite H1, bind_of_Ok.
Qed.

Lemma bounds_ok group t : usable group t -> exists b t', getBounds group t = Ok (b, t') /\ usable group t' /\ forall e, e ∈ group -> within e b.
Proof.
  intros Hu. destruct group as [|e0 es] eqn:Eg.
  { exists no_extent, t. split; [done|]. split; [by right; left|]. intros e He. by apply not_elem_of_nil in He. }
  rewrite <- Eg in *. assert (Hn : 0 < size group) by (rewrite Eg; unfold size; cbn [length]; lia).
  destruct (initialize_ok group t Hn) as (t1 & H1 & Ht1); [destruct Hu as [?|[->|?]]; [by left|done|by right]|].
  destruct (tk_root _ t1 Ht1) as (root & Hroot & R1 & R2). pose proof Hroot as [Hr0 Hr1].
  exists (dm_bounds root), t1. split; [|split; [by right; right|]].
  { unfold getBounds. rewrite Eg at 1. rewrite H1, bind_of_Ok. by rewrite (arr_get_lookup _ _ root). }
  intros e He. apply list_elem_of_lookup_1 in He as [i He]. destruct (tk_node _ t1 Ht1 0 root Hroot) as [_ Hb _ _].
  assert (Hi : Z.of_nat i ∈ dm_map t1) by (rewrite (tk_map _ t1 Ht1); apply elem_of_seqZ; apply lookup_lt_Some in He; unfold size; lia).
  apply list_elem_of_lookup_1 in Hi as [j Hj]. refine (proj1 (Hb (Z.of_nat i) e _ _)); [|by rewrite Nat2Z.id].
  exists (Z.of_nat j). rewrite Nat2Z.id. split; [|done]. apply lookup_lt_Some in Hj. pose proof (map_length group _ (tk_map _ t1 Ht1)). unfold size in *. lia.
Qed.

(** ** The reference: every extent is looked at. *)
Definition intersecting (group extents : list Extent) : list Z :=
  filter (fun x => existsb (fun q => match group !! Z.to_nat x with Some e => doesIntersect q e | None => false end) extents = true) (seqZ 0 (size group)).

Lemma intersecting_in group extents x : x ∈ intersecting group extents <-> exists q, q ∈ extents /\ found group q x.
Proof.
  unfold intersecting. rewrite list_elem_of_filter, existsb_exists, elem_of_seqZ. split.
  - intros [(q & Hq & Hd) Hx]. apply list_elem_of_In in Hq. destruct (group !! _) as [e|] eqn:E; [|done]. exists q. split; [done|]. split; [lia|]. by exists e.
  - intros (q & Hq & Hx & e & He & Hd). split; [exists q; split; [by apply list_elem_of_In|]; by rewrite He|].
    apply lookup_lt_Some in He. unfold size. lia.
Qed.

Lemma seqZ_sorted m l : StronglySorted Z.lt (seqZ m l).
Proof.
  destruct (decide (l < 0)) as [Hl|Hl]; [rewrite seqZ_nil by lia; constructor|]. rewrite <- (Z2Nat.id l) by lia.
  generalize (Z.to_nat l) as k. clear. intros k. revert m. induction k as [|k IH]; intros m; [constructor|].
  rewrite seqZ_cons by lia. replace (Z.pred (Z.of_nat (S k))) with (Z.of_nat k) by lia. constructor; [apply IH|].
  apply Forall_forall. intros x Hx. apply elem_of_seqZ in Hx. lia.
Qed.

Lemma filter_sorted (P : Z -> Prop) `{forall x, Decision (P x)} l : StronglySorted Z.lt l -> StronglySorted Z.lt (filter P l).
Proof.
  induction 1 as [|x l Hl IH Hx]; [constructor|]. rewrite filter_cons. destruct (decide (P x)); [|done]. constructor; [done|].
  apply Forall_forall. intros y [_ Hy]%list_elem_of_filter. by apply (proj1 (Forall_forall _ _) Hx).
Qed.

Lemma sorted_ext l : forall k, StronglySorted Z.lt l -> StronglySorted Z.lt k -> (forall x, x ∈ l <-> x ∈ k) -> l = k.
Proof.
  induction l as [|a l IH]; intros [|b k] Hl Hk H; [done| | |].
  - exfalso. apply (not_elem_of_nil b), H. left.
  - exfalso. apply (not_elem_of_nil a), H. left.
  - inversion Hl as [|? ? Hl1 Hl2]; subst. inversion Hk as [|? ? Hk1 Hk2]; subst. rewrite Forall_forall in Hl2, Hk2.
    assert (a = b) as ->.
    { pose proof (proj1 (H a) ltac:(left)) as Ha. pose proof (proj2 (H b) ltac:(left)) as Hb.
      apply elem_of_cons in Ha as [?|Ha], Hb as [?|Hb]; [done|done|done|]. apply Hk2 in Ha. apply Hl2 in Hb. lia. }
    f_equal. apply IH; [done|done|]. intros x. split; intros Hx.
    + assert (Hx' : x ∈ b :: l) by (by right). apply H in Hx'. apply elem_of_cons in Hx' as [->|?]; [|done]. apply Hl2 in Hx. lia.
    + assert (Hx' : x ∈ b :: k) by (by right). apply H in Hx'. apply elem_of_cons in Hx' as [->|?]; [|done]. apply Hk2 in Hx. lia.
Qed.

Lemma intersecting_sorted group extents : StronglySorted Z.lt (intersecting group extents).
Proof. apply filter_sorted, seqZ_sorted. Qed.

Lemma inserts_spec l : forall acc, StronglySorted Z.lt acc -> StronglySorted Z.lt (foldl (fun set i => set_insert i set) acc l) /\
  forall x, x ∈ foldl (fun set i => set_insert i set) acc l <-> x ∈ acc \/ x ∈ l.
Proof.
  induction l as [|a l IH]; intros acc Hs; cbn [foldl]; [split; [done|]; intros x; rewrite elem_of_nil; tauto|].
  destruct (set_insert_spec a acc Hs) as [S1 S2]. destruct (IH _ S1) as [S3 S4]. split; [done|]. intros x. rewrite S4, S2, elem_of_cons. tauto.
Qed.

(** ** Extents are added to a group and looked for in any order. *)
Inductive group_op := PushBack (e : Extent) | Search (q : Extent) | SearchGroup (qs : list Extent).

Section operations.
Context (nth_element : (Z -> Z -> bool) -> Z -> list Z -> list Z).

Definition group_step (s : list Extent * kd_tree) (o : group_op) : outcome (list (list Z) * (list Extent * kd_tree)) :=
  match o with
  | PushBack e => Ok ([], (s.1 ++ [e], s.2))
  | Search q => r ← getIntersectionWith nth_element s.1 q s.2; Ok ([r.1], (s.1, r.2))
  | SearchGroup qs => r ← getIntersectionWith_group nth_element s.1 qs s.2; Ok ([r.1], (s.1, r.2))
  end.
Fixpoint group_run (s : list Extent * kd_tree) (os : list group_op) : outcome (list (list Z) * (list Extent * kd_tree)) :=
  match os with
  | [] => Ok ([], s)
  | o :: os' => r ← group_step s o; r' ← group_run r.2 os'; Ok (r.1 ++ r'.1, r'.2)
  end.
End operations.

Fixpoint answers (group : list Extent) (os : list group_op) : list (list Z) :=
  match os with
  | [] => []
  | PushBack e :: os' => answers (group ++ [e]) os'
  | Search q :: os' => intersecting group [q] :: answers group os'
  | SearchGroup qs :: os' => intersecting group qs :: answers group os'
  end.

(** The tree was made for at most as many extents as the group has. *)
Definition current (group : list Extent) (t : kd_tree) : Prop := usable group t /\ size (dm_map t) <= size group.

Lemma intersection_current nth_element (Hnth : forall less k l, nth_element less k l ≡ₚ l) group q t : current group t ->
  exists res t', getIntersectionWith nth_element group q t = Ok (res, t') /\ current group t' /\ StronglySorted Z.lt res /\ forall x, x ∈ res <-> found group q x.
Proof.
  intros [Hu Hs]. destruct (intersection_ok nth_element Hnth group q t Hu) as (res & t' & H1 & H2 & H3). exists res, t'.
  split; [done|]. split; [|done]. destruct H2 as [[-> ->]|Ht]; [done|]. split; [by right; right|]. rewrite (map_length group _ (tk_map _ t' Ht)). done.
Qed.

Lemma group_intersection nth_element (Hnth : forall less k l, nth_element less k l ≡ₚ l) group qs : forall t acc, current group t -> StronglySorted Z.lt acc ->
  exists res t', foldl (fun r e => s ← r; s' ← getIntersectionWith nth_element group e s.2; Ok (foldl (fun set i => set_insert i set) s.1 s'.1, s'.2))
      (Ok (acc, t)) qs = Ok (res, t') /\ current group t' /\ StronglySorted Z.lt res /\
    forall x, x ∈ res <-> x ∈ acc \/ exists q, q ∈ qs /\ found group q x.
Proof.
  induction qs as [|q qs IH]; intros t acc Hc Hs; cbn [foldl].
  { exists acc, t. split_and!; try done. intros x. split; [by left|]. intros [?|(q & Hq & _)]; [done|by apply not_elem_of_nil in Hq]. }
  rewrite bind_of_Ok. cbn [fst snd]. destruct (intersection_current nth_element Hnth group q t Hc) as (r & t1 & -> & Hc1 & _ & Hr). rewrite bind_of_Ok.
  cbn [fst snd]. destruct (inserts_spec r acc Hs) as [S1 S2]. destruct (IH t1 _ Hc1 S1) as (res & t' & H1 & H2 & H3 & H4).
  exists res, t'. split_and!; try done. intros x. rewrite H4, S2, Hr. setoid_rewrite elem_of_cons. naive_solver.
Qed.

Lemma group_run_ok nth_element (Hnth : forall less k l, nth_element less k l ≡ₚ l) os : forall group t, current group t ->
  exists s', group_run nth_element (group, t) os = Ok (answers group os, s').
Proof.
  induction os as [|o os IH]; intros group t Hc; [by eexists|]. destruct o as [e|q|qs]; cbn [group_run group_step answers fst snd].
  - rewrite bind_of_Ok. cbn [fst snd]. destruct Hc as [_ Hs]. destruct (IH (group ++ [e]) t) as [s' ->].
    { unfold current, usable, size in *. rewrite length_app. cbn [length]. lia. }
    rewrite bind_of_Ok. by eexists.
  - destruct (intersection_current nth_element Hnth group q t Hc) as (r & t1 & -> & Hc1 & S & Hr). rewrite !bind_of_Ok. cbn [fst snd].
    destruct (IH group t1 Hc1) as [s' ->]. rewrite bind_of_Ok. exists s'. cbn [fst snd app]. do 2 f_equal. f_equal.
    apply sorted_ext; [done|apply intersecting_sorted|]. intros x. rewrite Hr, intersecting_in. setoid_rewrite list_elem_of_singleton. naive_solver.
  - destruct (group_intersection nth_element Hnth group qs t [] Hc) as (r & t1 & H1 & Hc1 & S & Hr); [constructor|]. unfold getIntersectionWith_group. rewrite H1.
    rewrite !bind_of_Ok. cbn [fst snd]. destruct (IH group t1 Hc1) as [s' ->]. rewrite bind_of_Ok. exists s'. cbn [fst snd app]. do 2 f_equal. f_equal.
    apply sorted_ext; [done|apply intersecting_sorted|]. intros x. rewrite Hr, intersecting_in. rewrite elem_of_nil. tauto.
Qed.

(** C22: Extents. Whatever nth_element() does as long as it reorders, extents can be added to
    a group and looked for in any order: every search ends, without leaving its arrays, and
    finds the indices of just those extents that intersect the one looked for, or one of the
    group looked for. *)
Theorem kd_tree_searches (nth_element : (Z -> Z -> bool) -> Z -> list Z -> list Z) (os : list group_op) :
  (forall less k l, nth_element less k l ≡ₚ l) ->
  exists s', group_run nth_element ([], new_tree) os = Ok (answers [] os, s').
Proof. intros Hnth. apply group_run_ok; [done|]. split; [by right; left|done]. Qed.

(** ** Extents by their beginning in time, with a search before and after the last is added *)
Definition example_nth (less : Z -> Z -> bool) (k : Z) (l : list Z) : list Z := rev l.
Definition example_ops : list group_op :=
  (PushBack <$> example_group) ++ [Search (mkExtent (8, 25) (110, 160)); PushBack (mkExtent (24, 40) (0, 150)); SearchGroup [mkExtent (12, 14) (0, 1000); mkExtent (35, 50) (0, 10)]].

Lemma kd_tree_searches_witness : exists s', group_run example_nth ([], new_tree) example_ops = Ok ([[0; 1; 2]; [1; 3]], s').
Proof.
  apply (kd_tree_searches example_nth example_ops). intros less k l. unfold example_nth. symmetry. apply Permutation_rev.
Defined.

(** An extent that is replaced is looked for where it was. *)
Example stale_tree : exists t r t', getIntersectionWith example_nth example_group (mkExtent (12, 14) (0, 1000)) new_tree = Ok ([1], t) /\
  getIntersectionWith example_nth [mkExtent (0, 10) (100, 200); mkExtent (50, 60) (0, 1); mkExtent (20, 30) (100, 120)] (mkExtent (12, 14) (0, 1000)) t = Ok (r, t') /\
  r <> intersecting [mkExtent (0, 10) (100, 200); mkExtent (50, 60) (0, 1); mkExtent (20, 30) (100, 120)] [mkExtent (12, 14) (0, 1000)].
Proof. eexists _, _, _. split; [vm_compute; reflexivity|]. split; [vm_compute; reflexivity|]. vm_compute. discriminate. Qed.
