(* ===== verification/OmptService.v ===== *)
(** The OMPT service (services/src/ompt): callbacks that tell a sampling collector when its thread
    is idle or waits at a barrier, for the earlier OMPT interface (callbacks.c) and for OMPT 5.0
    (callbacks-50.c). What they call in the collector and in the collector service is an
    interface. The model is of the build without NDEBUG and with debug output switched off. *)
From S2P Require Import Prelude.

(** ** What the callbacks call *)
Class OmptTarget (C : Type) := {
  OMPT_THREAD_IDLE : bool -> C -> C;
  OMPT_THREAD_BARRIER : bool -> C -> C;
  OMPT_THREAD_WAIT_BARRIER : bool -> C -> C;
  cbtf_collector_set_openmp_threadid : Z -> C -> C;
  set_ompt_thread_finished : bool -> C -> C;
  cbtf_timer_service_stop_sampling : C -> outcome C;
  set_ompt_flag : bool -> C -> C }.

(** What a thread finds when a callback runs: the result of clock_gettime(), if it succeeds, and
    omp_get_thread_num() *)
Record surroundings := mkSurroundings { clock_gettime : option (Z * Z); omp_get_thread_num : Z }.

(** The thread-local variables *)
Record ompt_locals := mkLocals { barrier_btime : Z; barrier_ttime : Z; lock_count : Z; lock_btime : Z; lock_time : Z }.

(** Assert(clock_gettime(CLOCK_REALTIME, &now) == 0) and the time in nanoseconds *)
Definition realtime (x : surroundings) : outcome Z :=
  match clock_gettime x with
  | Some (sec, nsec) => Ok (u64 (u64 (u64 sec * 1000000000) + u64 nsec))
  | None => Aborted
  end.

Section callbacks.
Context {C : Type} {OT : OmptTarget C}.
Notation state := (ompt_locals * C)%type.

(** ** The earlier interface *)
Definition CBTF_ompt_cb_parallel_region_begin (x : surroundings) (s : state) : outcome state := Ok s.
Definition CBTF_ompt_cb_parallel_region_end (x : surroundings) (s : state) : outcome state := Ok s.
Definition CBTF_ompt_cb_task_begin (x : surroundings) (s : state) : outcome state := Ok s.
Definition CBTF_ompt_cb_task_end (x : surroundings) (s : state) : outcome state := Ok s.
Definition CBTF_ompt_cb_thread_begin (x : surroundings) (s : state) : outcome state :=
  Ok (mkLocals (barrier_btime s.1) 0 0 0 0, cbtf_collector_set_openmp_threadid (omp_get_thread_num x) s.2).
Definition CBTF_ompt_cb_thread_end (x : surroundings) (s : state) : outcome state := Ok s.
Definition CBTF_ompt_cb_control (x : surroundings) (s : state) : outcome state := Ok s.
Definition CBTF_ompt_cb_runtime_shutdown (x : surroundings) (s : state) : outcome state := Ok s.
Definition CBTF_ompt_cb_wait_atomic (x : surroundings) (s : state) : outcome state := Ok s.
Definition CBTF_ompt_cb_wait_ordered (x : surroundings) (s : state) : outcome state := Ok s.
Definition CBTF_ompt_cb_wait_critical (x : surroundings) (s : state) : outcome state := Ok s.
Definition CBTF_ompt_cb_wait_lock (x : surroundings) (s : state) : outcome state := Ok s.
Definition CBTF_ompt_cb_acquired_atomic (x : surroundings) (s : state) : outcome state := Ok s.
Definition CBTF_ompt_cb_acquired_ordered (x : surroundings) (s : state) : outcome state := Ok s.
Definition CBTF_ompt_cb_acquired_critical (x : surroundings) (s : state) : outcome state := Ok s.
Definition CBTF_ompt_cb_acquired_lock (x : surroundings) (s : state) : outcome state := Ok s.
Definition CBTF_ompt_cb_release_atomic (x : surroundings) (s : state) : outcome state := Ok s.
Definition CBTF_ompt_cb_release_ordered (x : surroundings) (s : state) : outcome state := Ok s.
Definition CBTF_ompt_cb_release_critical (x : surroundings) (s : state) : outcome state := Ok s.
Definition CBTF_ompt_cb_release_lock (x : surroundings) (s : state) : outcome state :=
  Ok (mkLocals (barrier_btime s.1) (barrier_ttime s.1) (u64 (lock_count s.1 + 1)) (lock_btime s.1) (lock_time s.1), s.2).
Definition CBTF_ompt_cb_barrier_begin (x : surroundings) (s : state) : outcome state :=
  let c := OMPT_THREAD_BARRIER true s.2 in
  now ← realtime x;
  Ok (mkLocals now (barrier_ttime s.1) (lock_count s.1) (lock_btime s.1) (lock_time s.1), c).
Definition CBTF_ompt_cb_barrier_end (x : surroundings) (s : state) : outcome state :=
  let c := OMPT_THREAD_BARRIER false s.2 in
  etime ← realtime x;
  Ok (mkLocals (barrier_btime s.1) (u64 (barrier_ttime s.1 + u64 (etime - barrier_btime s.1))) (lock_count s.1) (lock_btime s.1) (lock_time s.1), c).
Definition CBTF_ompt_cb_wait_barrier_begin (x : surroundings) (s : state) : outcome state := Ok (s.1, OMPT_THREAD_WAIT_BARRIER true s.2).
Definition CBTF_ompt_cb_wait_barrier_end (x : surroundings) (s : state) : outcome state := Ok (s.1, OMPT_THREAD_WAIT_BARRIER false s.2).
Definition CBTF_ompt_cb_implicit_task_begin (x : surroundings) (s : state) : outcome state := Ok s.
Definition CBTF_ompt_cb_implicit_task_end (x : surroundings) (s : state) : outcome state := Ok s.
Definition CBTF_ompt_cb_master_begin (x : surroundings) (s : state) : outcome state := Ok s.
Definition CBTF_ompt_cb_master_end (x : surroundings) (s : state) : outcome state := Ok s.
Definition CBTF_ompt_cb_taskwait_begin (x : surroundings) (s : state) : outcome state := Ok s.
Definition CBTF_ompt_cb_taskwait_end (x : surroundings) (s : state) : outcome state := Ok s.
Definition CBTF_ompt_cb_wait_taskwait_begin (x : surroundings) (s : state) : outcome state := Ok s.
Definition CBTF_ompt_cb_wait_taskwait_end (x : surroundings) (s : state) : outcome state := Ok s.
Definition CBTF_ompt_cb_taskgroup_begin (x : surroundings) (s : state) : outcome state := Ok s.
Definition CBTF_ompt_cb_taskgroup_end (x : surroundings) (s : state) : outcome state := Ok s.
Definition CBTF_ompt_cb_wait_taskgroup_begin (x : surroundings) (s : state) : outcome state := Ok s.
Definition CBTF_ompt_cb_wait_taskgroup_end (x : surroundings) (s : state) : outcome state := Ok s.
Definition CBTF_ompt_cb_single_others_begin (x : surroundings) (s : state) : outcome state := Ok s.
Definition CBTF_ompt_cb_single_others_end (x : surroundings) (s : state) : outcome state := Ok s.
Definition CBTF_ompt_cb_initial_task_begin (x : surroundings) (s : state) : outcome state := Ok s.
Definition CBTF_ompt_cb_initial_task_end (x : surroundings) (s : state) : outcome state := Ok s.
Definition CBTF_ompt_cb_loop_begin (x : surroundings) (s : state) : outcome state := Ok s.
Definition CBTF_ompt_cb_loop_end (x : surroundings) (s : state) : outcome state := Ok s.
Definition CBTF_ompt_cb_single_in_block_begin (x : surroundings) (s : state) : outcome state := Ok s.
Definition CBTF_ompt_cb_single_in_block_end (x : surroundings) (s : state) : outcome state := Ok s.
Definition CBTF_ompt_cb_sections_begin (x : surroundings) (s : state) : outcome state := Ok s.
Definition CBTF_ompt_cb_sections_end (x : surroundings) (s : state) : outcome state := Ok s.
Definition CBTF_ompt_cb_workshare_begin (x : surroundings) (s : state) : outcome state := Ok s.
Definition CBTF_ompt_cb_workshare_end (x : surroundings) (s : state) : outcome state := Ok s.
Definition CBTF_ompt_cb_idle_begin (x : surroundings) (s : state) : outcome state := Ok (s.1, OMPT_THREAD_IDLE true s.2).
Definition CBTF_ompt_cb_idle_end (x : surroundings) (s : state) : outcome state := Ok (s.1, OMPT_THREAD_IDLE false s.2).
End callbacks.

(** Events, and the callbacks that ompt_initialize() registers for them *)
Inductive ompt_event :=
| ompt_event_parallel_begin | ompt_event_parallel_end | ompt_event_task_begin | ompt_event_task_end
| ompt_event_thread_begin | ompt_event_thread_end | ompt_event_control | ompt_event_runtime_shutdown
| ompt_event_wait_atomic | ompt_event_wait_ordered | ompt_event_wait_critical | ompt_event_wait_lock
| ompt_event_acquired_atomic | ompt_event_acquired_ordered | ompt_event_acquired_critical | ompt_event_acquired_lock
| ompt_event_release_atomic | ompt_event_release_ordered | ompt_event_release_critical | ompt_event_release_lock
| ompt_event_barrier_begin | ompt_event_barrier_end | ompt_event_wait_barrier_begin | ompt_event_wait_barrier_end
| ompt_event_implicit_task_begin | ompt_event_implicit_task_end | ompt_event_master_begin | ompt_event_master_end
| ompt_event_taskwait_begin | ompt_event_taskwait_end | ompt_event_wait_taskwait_begin | ompt_event_wait_taskwait_end
| ompt_event_taskgroup_begin | ompt_event_taskgroup_end | ompt_event_wait_taskgroup_begin | ompt_event_wait_taskgroup_end
| ompt_event_single_others_begin | ompt_event_single_others_end | ompt_event_initial_task_begin | ompt_event_initial_task_end
| ompt_event_loop_begin | ompt_event_loop_end | ompt_event_single_in_block_begin | ompt_event_single_in_block_end
| ompt_event_sections_begin | ompt_event_sections_end | ompt_event_workshare_begin | ompt_event_workshare_end
| ompt_event_idle_begin | ompt_event_idle_end.
#[export] Instance ompt_event_eq_dec : EqDecision ompt_event.
Proof. solve_decision. Defined.

Section service.
Context {C : Type} {OT : OmptTarget C}.
Notation state := (ompt_locals * C)%type.

Definition ompt_initialize : list (ompt_event * (surroundings -> state -> outcome state)) := [
  (ompt_event_parallel_begin, CBTF_ompt_cb_parallel_region_begin); (ompt_event_parallel_end, CBTF_ompt_cb_parallel_region_end);
  (ompt_event_task_begin, CBTF_ompt_cb_task_begin); (ompt_event_task_end, CBTF_ompt_cb_task_end);
  (ompt_event_thread_begin, CBTF_ompt_cb_thread_begin); (ompt_event_thread_end, CBTF_ompt_cb_thread_end);
  (ompt_event_control, CBTF_ompt_cb_control); (ompt_event_runtime_shutdown, CBTF_ompt_cb_runtime_shutdown);
  (ompt_event_wait_atomic, CBTF_ompt_cb_wait_atomic); (ompt_event_wait_ordered, CBTF_ompt_cb_wait_ordered);
  (ompt_event_wait_critical, CBTF_ompt_cb_wait_critical); (ompt_event_wait_lock, CBTF_ompt_cb_wait_lock);
  (ompt_event_acquired_atomic, CBTF_ompt_cb_acquired_atomic); (ompt_event_acquired_ordered, CBTF_ompt_cb_acquired_ordered);
  (ompt_event_acquired_critical, CBTF_ompt_cb_acquired_critical); (ompt_event_acquired_lock, CBTF_ompt_cb_acquired_lock);
  (ompt_event_release_atomic, CBTF_ompt_cb_release_atomic); (ompt_event_release_ordered, CBTF_ompt_cb_release_ordered);
  (ompt_event_release_critical, CBTF_ompt_cb_release_critical); (ompt_event_release_lock, CBTF_ompt_cb_release_lock);
  (ompt_event_barrier_begin, CBTF_ompt_cb_barrier_begin); (ompt_event_barrier_end, CBTF_ompt_cb_barrier_end);
  (ompt_event_wait_barrier_begin, CBTF_ompt_cb_wait_barrier_begin); (ompt_event_wait_barrier_end, CBTF_ompt_cb_wait_barrier_end);
  (ompt_event_implicit_task_begin, CBTF_ompt_cb_implicit_task_begin); (ompt_event_implicit_task_end, CBTF_ompt_cb_implicit_task_end);
  (ompt_event_master_begin, CBTF_ompt_cb_master_begin); (ompt_event_master_end, CBTF_ompt_cb_master_end);
  (ompt_event_taskwait_begin, CBTF_ompt_cb_taskwait_begin); (ompt_event_taskwait_end, CBTF_ompt_cb_taskwait_end);
  (ompt_event_wait_taskwait_begin, CBTF_ompt_cb_wait_taskwait_begin); (ompt_event_wait_taskwait_end, CBTF_ompt_cb_wait_taskwait_end);
  (ompt_event_taskgroup_begin, CBTF_ompt_cb_taskgroup_begin); (ompt_event_taskgroup_end, CBTF_ompt_cb_taskgroup_end);
  (ompt_event_wait_taskgroup_begin, CBTF_ompt_cb_wait_taskgroup_begin); (ompt_event_wait_taskgroup_end, CBTF_ompt_cb_wait_taskgroup_end);
  (ompt_event_single_others_begin, CBTF_ompt_cb_single_others_begin); (ompt_event_single_others_end, CBTF_ompt_cb_single_others_end);
  (ompt_event_initial_task_begin, CBTF_ompt_cb_initial_task_begin); (ompt_event_initial_task_end, CBTF_ompt_cb_initial_task_end);
  (ompt_event_loop_begin, CBTF_ompt_cb_loop_begin); (ompt_event_loop_end, CBTF_ompt_cb_loop_end);
  (ompt_event_single_in_block_begin, CBTF_ompt_cb_single_in_block_begin); (ompt_event_single_in_block_end, CBTF_ompt_cb_single_in_block_end);
  (ompt_event_sections_begin, CBTF_ompt_cb_sections_begin); (ompt_event_sections_end, CBTF_ompt_cb_sections_end);
  (ompt_event_workshare_begin, CBTF_ompt_cb_workshare_begin); (ompt_event_workshare_end, CBTF_ompt_cb_workshare_end);
  (ompt_event_idle_begin, CBTF_ompt_cb_idle_begin); (ompt_event_idle_end, CBTF_ompt_cb_idle_end)].

(** The runtime calls what is registered for an event. *)
Definition on_event (e : ompt_event) (x : surroundings) (s : state) : outcome state :=
  match List.find (fun r => bool_decide (r.1 = e)) ompt_initialize with
  | Some (_, callback) => callback x s
  | None => Ok s
  end.

(** ** OMPT 5.0 *)
Inductive scope_endpoint := ompt_scope_begin | ompt_scope_end.
Inductive sync_region_kind := ompt_sync_region_barrier | ompt_sync_region_taskwait | ompt_sync_region_taskgroup.

Definition CBTF_ompt_callback_thread_begin (x : surroundings) (s : state) : outcome state :=
  Ok (mkLocals (barrier_btime s.1) 0 0 0 0,
      set_ompt_flag true (set_ompt_thread_finished false (cbtf_collector_set_openmp_threadid (omp_get_thread_num x) s.2))).
Definition CBTF_ompt_callback_thread_end (x : surroundings) (s : state) : outcome state :=
  c ← cbtf_timer_service_stop_sampling (set_ompt_thread_finished true s.2);
  Ok (s.1, set_ompt_flag false c).

(** The time in barriers is added up for debug output only. *)
Definition CBTF_ompt_callback_sync_region (kind : sync_region_kind) (endpoint : scope_endpoint) (x : surroundings) (s : state) : outcome state :=
  match endpoint, kind with
  | ompt_scope_begin, ompt_sync_region_barrier =>
      let c := OMPT_THREAD_BARRIER true s.2 in
      now ← realtime x;
      Ok (mkLocals now (barrier_ttime s.1) (lock_count s.1) (lock_btime s.1) (lock_time s.1), c)
  | ompt_scope_end, ompt_sync_region_barrier => Ok (s.1, OMPT_THREAD_BARRIER false s.2)
  | _, _ => Ok s
  end.
Definition CBTF_ompt_callback_sync_region_wait (kind : sync_region_kind) (endpoint : scope_endpoint) (s : state) : outcome state :=
  match kind, endpoint with
  | ompt_sync_region_barrier, ompt_scope_begin => Ok (s.1, OMPT_THREAD_WAIT_BARRIER true s.2)
  | ompt_sync_region_barrier, ompt_scope_end => Ok (s.1, OMPT_THREAD_WAIT_BARRIER false s.2)
  | _, _ => Ok s
  end.
Definition CBTF_ompt_callback_idle (endpoint : scope_endpoint) (s : state) : outcome state :=
  match endpoint with
  | ompt_scope_begin => Ok (s.1, OMPT_THREAD_IDLE true s.2)
  | ompt_scope_end => Ok (s.1, OMPT_THREAD_IDLE false s.2)
  end.

Inductive ompt50_event :=
| ompt_callback_idle (endpoint : scope_endpoint)
| ompt_callback_sync_region (kind : sync_region_kind) (endpoint : scope_endpoint)
| ompt_callback_sync_region_wait (kind : sync_region_kind) (endpoint : scope_endpoint)
| ompt_callback_control_tool
| ompt_callback_implicit_task (endpoint : scope_endpoint)
| ompt_callback_parallel_begin
| ompt_callback_parallel_end
| ompt_callback_thread_begin
| ompt_callback_thread_end.

(** The identifiers that parallel regions and tasks are given are for the runtime only. *)
Definition on_event50 (e : ompt50_event) (x : surroundings) (s : state) : outcome state :=
  match e with
  | ompt_callback_idle endpoint => CBTF_ompt_callback_idle endpoint s
  | ompt_callback_sync_region kind endpoint => CBTF_ompt_callback_sync_region kind endpoint x s
  | ompt_callback_sync_region_wait kind endpoint => CBTF_ompt_callback_sync_region_wait kind endpoint s
  | ompt_callback_thread_begin => CBTF_ompt_callback_thread_begin x s
  | ompt_callback_thread_end => CBTF_ompt_callback_thread_end x s
  | _ => Ok s
  end.
End service.
