(* ===== verification/OmptBlame.v ===== *)
(** The OMPT service and the pcsamp collector together: while an OpenMP thread is idle or waits at a
    barrier, its samples are charged to that state, for either OMPT interface. *)
From S2P Require Import Prelude Probe PCIndex PCData Headers Services OmptService.
From S2P Require PCSamp.

(** ** The collector and the state of the collector service as what the callbacks call *)
Section target.
Context {W V : Type} {SV : Services W PCSamp.pcsamp_data} (bld : build).
Context (set_tid : Z -> V -> V) (set_finished set_flag : bool -> V -> V) (stop : V -> outcome V).

#[export] Instance pcsamp_target : OmptTarget (PCSamp.TLS * W * V) := {
  OMPT_THREAD_IDLE f c := (PCSamp.OMPT_THREAD_IDLE f c.1.1, c.1.2, c.2);
  OMPT_THREAD_BARRIER f c := (PCSamp.OMPT_THREAD_BARRIER f c.1.1, c.1.2, c.2);
  OMPT_THREAD_WAIT_BARRIER f c := (PCSamp.OMPT_THREAD_WAIT_BARRIER f c.1.1, c.1.2, c.2);
  cbtf_collector_set_openmp_threadid tid c := (c.1, set_tid tid c.2);
  set_ompt_thread_finished f c := (c.1, set_finished f c.2);
  cbtf_timer_service_stop_sampling c := v ← stop c.2; Ok (c.1, v);
  set_ompt_flag f c := (c.1, set_flag f c.2) }.
End target.

(** ** States of a thread *)
Inductive region := AtBarrier | WaitingAtBarrier | IsIdle.
Definition rank (r : region) : Z := match r with AtBarrier => 0 | WaitingAtBarrier => 1 | IsIdle => 2 end.

Definition set_region {C} {OT : OmptTarget C} (r : region) (flag : bool) (c : C) : C :=
  match r with
  | IsIdle => OMPT_THREAD_IDLE flag c
  | AtBarrier => OMPT_THREAD_BARRIER flag c
  | WaitingAtBarrier => OMPT_THREAD_WAIT_BARRIER flag c
  end.

(** ** What the two interfaces have in common *)
Class OpenmpInterface (E : Type) := {
  handle {C} {OT : OmptTarget C} : E -> surroundings -> ompt_locals * C -> outcome (ompt_locals * C);
  (** the state that an event begins (true) or ends *)
  means : E -> option (region * bool);
  ends_thread : E -> bool }.

(** An event that begins or ends a state changes it in the collector; the others, up to the end
    of the thread, leave the collector alone. *)
Class OpenmpLaws (E : Type) {OI : OpenmpInterface E} : Prop := {
  handle_region {C} {OT : OmptTarget C} e r flag x (s : ompt_locals * C) : means e = Some (r, flag) -> clock_gettime x <> None ->
    exists l, handle e x s = Ok (l, set_region r flag s.2);
  handle_other {C} {OT : OmptTarget C} e x (s : ompt_locals * C) : means e = None -> ends_thread e = false ->
    exists l, handle e x s = Ok (l, s.2) \/ handle e x s = Ok (l, cbtf_collector_set_openmp_threadid (omp_get_thread_num x) s.2) \/
      handle e x s = Ok (l, set_ompt_flag true (set_ompt_thread_finished false (cbtf_collector_set_openmp_threadid (omp_get_thread_num x) s.2))) }.

#[export] Instance earlier_interface : OpenmpInterface ompt_event := {
  handle _ _ := on_event;
  means e := match e with
             | ompt_event_idle_begin => Some (IsIdle, true) | ompt_event_idle_end => Some (IsIdle, false)
             | ompt_event_barrier_begin => Some (AtBarrier, true) | ompt_event_barrier_end => Some (AtBarrier, false)
             | ompt_event_wait_barrier_begin => Some (WaitingAtBarrier, true) | ompt_event_wait_barrier_end => Some (WaitingAtBarrier, false)
             | _ => None
             end;
  ends_thread _ := false }.

#[export] Instance earlier_laws : OpenmpLaws ompt_event.
Proof.
  split.
  - intros C OT e r flag [[clock|] num] s Hm Hx; [|done]. destruct clock. destruct e; simplify_eq/=; by eexists.
  - intros C OT e x [l c] Hm _. destruct e; simplify_eq/=; eexists; ((left; reflexivity) || (right; left; reflexivity)).
Qed.

Definition starts (endpoint : scope_endpoint) : bool := match endpoint with ompt_scope_begin => true | ompt_scope_end => false end.
#[export] Instance ompt50_interface : OpenmpInterface ompt50_event := {
  handle _ _ := on_event50;
  means e := match e with
             | ompt_callback_idle ep => Some (IsIdle, starts ep)
             | ompt_callback_sync_region ompt_sync_region_barrier ep => Some (AtBarrier, starts ep)
             | ompt_callback_sync_region_wait ompt_sync_region_barrier ep => Some (WaitingAtBarrier, starts ep)
             | _ => None
             end;
  ends_thread e := match e with ompt_callback_thread_end => true | _ => false end }.

#[export] Instance ompt50_laws : OpenmpLaws ompt50_event.
Proof.
  split.
  - intros C OT e r flag [[clock|] num] s Hm Hx; [|done]. destruct clock.
    destruct e as [[]|[] []|[] []| | | | | |]; simplify_eq/=; by eexists.
  - intros C OT e x [l c] Hm He. destruct e as [[]|[] []|[] []| | | | | |]; simplify_eq/=; eexists; ((left; reflexivity) || (right; right; reflexivity)).
Qed.

(** ** A thread with the callbacks of an interface, timer interrupts, pauses and resumes *)
Inductive activity (E : Type) := Omp (e : E) (x : surroundings) | Sample (pc : Z) | PauseSampling | ResumeSampling.
Arguments Omp {E} e x.
Arguments Sample {E} pc.
Arguments PauseSampling {E}.
Arguments ResumeSampling {E}.

Section thread.
Context {W V E : Type} {SV : Services W PCSamp.pcsamp_data} {OI : OpenmpInterface E} (bld : build).
Context (set_tid : Z -> V -> V) (set_finished set_flag : bool -> V -> V) (stop : V -> outcome V).
Notation target := (pcsamp_target (W := W) set_tid set_finished set_flag stop).
Notation state := (ompt_locals * (PCSamp.TLS * W * V))%type.

Definition act (a : activity E) (s : state) : outcome state :=
  match a with
  | Omp e x => handle (OT := target) e x s
  | Sample pc => r ← PCSamp.step bld (PCSamp.Tick pc) s.2.1; Ok (s.1, (r, s.2.2))
  | PauseSampling => r ← PCSamp.step bld PCSamp.Pause s.2.1; Ok (s.1, (r, s.2.2))
  | ResumeSampling => r ← PCSamp.step bld PCSamp.Resume s.2.1; Ok (s.1, (r, s.2.2))
  end.
Fixpoint act_all (acts : list (activity E)) (s : state) : outcome state :=
  match acts with [] => Ok s | a :: acts' => s' ← act a s; act_all acts' s' end.

(** The clock can be read, and the thread does not end (which stops sampling, in the OMPT 5.0 interface). *)
Definition goes_on (a : activity E) : Prop :=
  match a with Omp e x => clock_gettime x <> None /\ (means e = None -> ends_thread e = false) | _ => True end.

(** States are properly nested, each within the one it ranks above: a thread waits at a barrier that it is at, and
    is not in one state twice. *)
Fixpoint nested (opened : list region) (acts : list (activity E)) : Prop :=
  match acts with
  | [] => True
  | Omp e x :: acts' =>
      clock_gettime x <> None /\
      match means e with
      | Some (r, true) => match opened with [] => True | q :: _ => rank q < rank r end /\ nested (r :: opened) acts'
      | Some (r, false) => match opened with [] => False | q :: opened' => q = r /\ nested opened' acts' end
      | None => ends_thread e = false /\ nested opened acts'
      end
  | _ :: acts' => nested opened acts'
  end.

(** The address that stands for a state *)
Definition state_address (r : region) : Z :=
  match r with IsIdle => b_addr_idle bld | WaitingAtBarrier => b_addr_wait_barrier bld | AtBarrier => b_addr_barrier bld end.
(** The addresses samples are charged to when the states are nested: that of the innermost state, or the one sampled *)
Fixpoint charged (opened : list region) (defer : bool) (acts : list (activity E)) : list Z :=
  match acts with
  | [] => []
  | Sample pc :: acts' => (if defer then [] else [match opened with [] => pc | r :: _ => state_address r end]) ++ charged opened defer acts'
  | PauseSampling :: acts' => charged opened true acts'
  | ResumeSampling :: acts' => charged opened false acts'
  | Omp e _ :: acts' =>
      match means e with
      | Some (r, true) => charged (r :: opened) defer acts'
      | Some (_, false) => charged (tail opened) defer acts'
      | None => charged opened defer acts'
      end
  end.

(** The same whatever the order of the callbacks: a thread counts as being in the states whose last callback was their
    beginning, and idling comes before waiting before being at a barrier. *)
Definition highest (inside : region -> bool) : option region :=
  if inside IsIdle then Some IsIdle else if inside WaitingAtBarrier then Some WaitingAtBarrier
  else if inside AtBarrier then Some AtBarrier else None.
Fixpoint charged_by_last (inside : region -> bool) (defer : bool) (acts : list (activity E)) : list Z :=
  match acts with
  | [] => []
  | Sample pc :: acts' => (if defer then [] else [match highest inside with None => pc | Some r => state_address r end]) ++ charged_by_last inside defer acts'
  | PauseSampling :: acts' => charged_by_last inside true acts'
  | ResumeSampling :: acts' => charged_by_last inside false acts'
  | Omp e _ :: acts' =>
      charged_by_last (match means e with Some (r, flag) => fun q => if rank q =? rank r then flag else inside q | None => inside end) defer acts'
  end.

(** ** The same thread as a run of the collector *)
Definition collector_events (a : activity E) : list PCSamp.event :=
  match a with
  | Omp e _ => match means e with
               | Some (IsIdle, f) => [PCSamp.Idle f]
               | Some (AtBarrier, f) => [PCSamp.Barrier f]
               | Some (WaitingAtBarrier, f) => [PCSamp.WaitBarrier f]
               | None => []
               end
  | Sample pc => [PCSamp.Tick pc]
  | PauseSampling => [PCSamp.Pause]
  | ResumeSampling => [PCSamp.Resume]
  end.

Lemma collector_run_app evs evs' s : PCSamp.run bld (evs ++ evs') s = (r ← PCSamp.run bld evs s; PCSamp.run bld evs' r).
Proof. revert s. induction evs as [|ev evs IH]; intros s; [done|]. cbn [PCSamp.run app]. destruct (PCSamp.step bld ev s); [|done..]. cbn. apply IH. Qed.

Context {OL : OpenmpLaws E}.

Lemma act_run acts : forall l tw v tw', Forall goes_on acts ->
  PCSamp.run bld (concat (collector_events <$> acts)) tw = Ok tw' -> exists l' v', act_all acts (l, (tw, v)) = Ok (l', (tw', v')).
Proof.
  induction acts as [|a acts IH]; intros l tw v tw' Hn Hr.
  { injection Hr as ->. by eexists _, _. }
  cbn [fmap list_fmap concat] in Hr. rewrite collector_run_app in Hr. apply bind_Ok in Hr as (tw1 & Hr1 & Hr).
  apply Forall_cons in Hn as [Ha Hn]. destruct a as [e x|pc| |].
  2, 3, 4: cbn [collector_events PCSamp.run] in Hr1; apply bind_Ok in Hr1 as (tw2 & Hs & [= ->]); cbn [act_all act];
    rewrite ?Hs; cbn [fst snd]; destruct tw; rewrite Hs; rewrite !bind_of_Ok; by apply IH.
  destruct Ha as [Hx He]. cbn [act_all act collector_events] in *. destruct (means e) as [[r flag]|] eqn:Em.
  - destruct (handle_region (OT := target) e r flag x (l, (tw, v)) Em Hx) as [l1 ->]. rewrite bind_of_Ok.
    assert (Hset : set_region (OT := target) r flag (tw, v) = (tw1, v)).
    { destruct r; cbn in Hr1 |- *; injection Hr1 as <-; done. }
    cbn [snd]. rewrite Hset. by eapply IH.
  - injection Hr1 as <-. destruct (handle_other (OT := target) e x (l, (tw, v)) Em (He eq_refl)) as [l1 [-> |[-> | ->]]]; rewrite bind_of_Ok; by eapply IH.
Qed.

(** The flags of the collector *)
Definition flags_in (inside : region -> bool) : ompt_flags := mkOmpt (inside IsIdle) (inside WaitingAtBarrier) (inside AtBarrier).
Lemma accepted_by_last (Hompt : b_have_ompt bld = true) acts : forall inside defer,
  PCSamp.accepted bld (flags_in inside) defer (concat (collector_events <$> acts)) = charged_by_last inside defer acts.
Proof.
  clear SV set_tid set_finished set_flag stop OL. induction acts as [|a acts IH]; intros inside defer; [done|]. cbn [fmap list_fmap concat].
  destruct a as [e x|pc| |]; cbn [collector_events charged_by_last app PCSamp.accepted] in *; [|f_equal; [|by apply IH]|by apply IH|by apply IH].
  - destruct (means e) as [[r flag]|]; [|by apply IH]. rewrite <- IH. by destruct r.
  - destruct defer; [done|]. f_equal. unfold PCSamp.blame, highest, flags_in. rewrite Hompt. cbn. by destruct (inside IsIdle), (inside WaitingAtBarrier), (inside AtBarrier).
Qed.

Definition flags_of (opened : list region) : ompt_flags :=
  mkOmpt (existsb (fun r => rank r =? 2) opened) (existsb (fun r => rank r =? 1) opened) (existsb (fun r => rank r =? 0) opened).
Definition ordered (opened : list region) : Prop :=
  opened ∈ [[]; [AtBarrier]; [WaitingAtBarrier]; [IsIdle]; [WaitingAtBarrier; AtBarrier]; [IsIdle; AtBarrier]; [IsIdle; WaitingAtBarrier]; [IsIdle; WaitingAtBarrier; AtBarrier]].

Ltac each_ordered H := unfold ordered in H; repeat (apply elem_of_cons in H as [->|H]); [..|by apply not_elem_of_nil in H].

Lemma accepted_charged (Hompt : b_have_ompt bld = true) acts : forall opened defer, ordered opened -> nested opened acts ->
  PCSamp.accepted bld (flags_of opened) defer (concat (collector_events <$> acts)) = charged opened defer acts.
Proof.
  clear SV set_tid set_finished set_flag stop OL. induction acts as [|a acts IH]; intros opened defer Ho Hn; [done|]. cbn [fmap list_fmap concat].
  destruct a as [e x|pc| |]; cbn [collector_events charged nested app PCSamp.accepted] in *; [|f_equal; [|by apply IH]|by apply IH|by apply IH].
  - destruct Hn as [_ Hn]. destruct (means e) as [[r flag]|]; [|destruct Hn as [_ Hn]; by apply IH].
    destruct flag.
    + destruct Hn as [Hrank Hn]. rewrite <- IH by (done || (each_ordered Ho; destruct r; cbn in Hrank; try lia; unfold ordered; set_solver)).
      each_ordered Ho; destruct r; cbn in Hrank; try lia; done.
    + each_ordered Ho; try done; destruct Hn as [<- Hn]; cbn [tail]; rewrite <- IH by (done || (unfold ordered; set_solver)); done.
  - destruct defer; [done|]. f_equal. unfold PCSamp.blame. rewrite Hompt. each_ordered Ho; done.
Qed.

(** Where states are nested, the two agree. *)
Lemma nested_innermost (Hompt : b_have_ompt bld = true) acts : nested [] acts -> charged_by_last (fun _ => false) false acts = charged [] false acts.
Proof. intros Hn. rewrite <- (accepted_by_last Hompt). apply (accepted_charged Hompt acts [] false); [unfold ordered; set_solver|done]. Qed.
End thread.

(** Starting clears the flags. *)
Lemma start_flags {W} {SV : Services W PCSamp.pcsamp_data} bld header tls w tls1 w1 : b_have_ompt bld = true ->
  PCSamp.cbtf_collector_start bld header tls w = Ok (tls1, w1) -> PCSamp.t_ompt tls1 = flags_of [].
Proof.
  intros Hompt H. unfold PCSamp.cbtf_collector_start in H. cbn zeta in H. rewrite Hompt in H.
  repeat (apply bind_Ok in H as (? & _ & H)). by injection H as <- <-.
Qed.

(** C21: with either OMPT interface, from the start of pcsamp through any sequence of callbacks, in any order, of timer
    interrupts, pauses and resumes to its stop, as long as the clock can be read and the thread does not end, nothing
    fails; each sample taken while sampling is not deferred is charged to the address that stands for the state of the
    thread: idle, if the last callback about idling was its beginning, else waiting at a barrier, else at a
    barrier, else to its own address; and the blobs sent hold each address exactly as often as a
    sample was charged to it. If the states are properly nested, a barrier outermost, the wait in it and idling
    innermost, and none is within itself, that is the innermost state. *)
Theorem openmp_samples_blamed {W V E : Type} {SV : Services W PCSamp.pcsamp_data} {SL : ServicesLaws W PCSamp.pcsamp_data}
    {OI : OpenmpInterface E} {OL : OpenmpLaws E} (bld : build) set_tid set_finished set_flag (stop : V -> outcome V)
    (header : CBTF_DataHeader) (tls : PCSamp.TLS) (w : W) (v : V) (l : ompt_locals) (acts : list (activity E)) :
  b_have_ompt bld = true ->
  Z.of_nat (length (pcd_pc (PCSamp.t_buffer tls))) = CBTF_PCBufferSize (b_arch bld) ->
  Z.of_nat (length (pcd_count (PCSamp.t_buffer tls))) = CBTF_PCBufferSize (b_arch bld) ->
  (forall s, getenv w "CBTF_PCSAMP_RATE" = Some s -> u32 (atoi s) <> 0) ->
  Forall goes_on acts ->
  (exists tls1 w1 l' tls2 w2 v' tls3 w3 new,
    PCSamp.cbtf_collector_start bld header tls w = Ok (tls1, w1) /\
    act_all bld set_tid set_finished set_flag stop acts (l, (tls1, w1, v)) = Ok (l', (tls2, w2, v')) /\
    PCSamp.cbtf_collector_stop bld tls2 w2 = Ok (tls3, w3) /\
    sent w3 = sent w ++ new /\ Forall (PCSamp.blob_ok (b_arch bld)) new /\
    forall p, PCSamp.delivered p new = occurrences p (charged_by_last bld (fun _ => false) false acts)) /\
  (nested [] acts -> charged_by_last bld (fun _ => false) false acts = charged bld [] false acts).
Proof.
  intros Hompt Hp Hc Hr Hn. split; [|by apply nested_innermost].
  destruct (PCSamp.pcsamp_run_accounts bld header tls w (concat (collector_events <$> acts)) Hp Hc Hr)
    as (tls1 & w1 & tls2 & w2 & tls3 & w3 & new & H1 & H2 & H3 & Hs & Hok & Hd).
  destruct (act_run bld set_tid set_finished set_flag stop acts l (tls1, w1) v (tls2, w2) Hn H2) as (l' & v' & Ha).
  exists tls1, w1, l', tls2, w2, v', tls3, w3, new. split_and!; [done..|]. intros p.
  rewrite Hd, (start_flags bld header tls w tls1 w1 Hompt H1). f_equal.
  apply (accepted_by_last bld Hompt acts (fun _ => false) false).
Qed.

(** A barrier within a barrier, as of a nested parallel region: after its end the sample is charged to its own address. *)
Example barrier_in_barrier : let x := mkSurroundings (Some (5, 7)) 3 in
  charged_by_last (mkBuild arch_other true 10 20 30) (fun _ => false) false
    [Omp ompt_event_barrier_begin x; Omp ompt_event_barrier_begin x; Omp ompt_event_barrier_end x; Sample 4096] = [4096].
Proof. reflexivity. Qed.

(** A thread of the OMPT 5.0 interface that runs, waits at a barrier and becomes idle *)
Lemma openmp_samples_blamed_witness :
  let size := Z.to_nat (CBTF_PCBufferSize arch_other) in
  let tls := PCSamp.mkTLS (mkDataHeader 0 1 "" "n0" 1 1 (-1) 0 0 0 0 0) 0 0 0
    (mkPCData 0 0 0 (replicate size 0) (replicate size 0) []) (mkOmpt false false false) false in
  let x := mkSurroundings (Some (5, 7)) 3 in
  let acts := [Omp ompt_callback_thread_begin x; Sample 4096;
    Omp (ompt_callback_sync_region ompt_sync_region_barrier ompt_scope_begin) x; Sample 4096;
    Omp (ompt_callback_sync_region_wait ompt_sync_region_barrier ompt_scope_begin) x; Sample 4096; Sample 8192;
    Omp (ompt_callback_sync_region_wait ompt_sync_region_barrier ompt_scope_end) x;
    Omp (ompt_callback_sync_region ompt_sync_region_barrier ompt_scope_end) x; Sample 4096;
    Omp (ompt_callback_idle ompt_scope_begin) x; Sample 4096; PauseSampling; Sample 4096] in
  let bld := mkBuild arch_other true 10 20 30 in
  exists tls1 w1 s2 tls3 w3,
    PCSamp.cbtf_collector_start bld (PCSamp.t_header tls) tls (quiet_world PCSamp.pcsamp_data) = Ok (tls1, w1) /\
    act_all bld (fun _ v => v) (fun _ v => v) (fun _ v => v) Ok acts (mkLocals 0 0 0 0 0, (tls1, w1, ())) = Ok s2 /\
    PCSamp.cbtf_collector_stop bld s2.2.1.1 s2.2.1.2 = Ok (tls3, w3) /\
    PCSamp.delivered 4096 (lw_sent w3) = 2 /\ PCSamp.delivered (b_addr_wait_barrier bld) (lw_sent w3) = 2 /\
    PCSamp.delivered (b_addr_barrier bld) (lw_sent w3) = 1 /\ PCSamp.delivered (b_addr_idle bld) (lw_sent w3) = 1.
Proof.
  intros size tls x acts bld.
  destruct (openmp_samples_blamed bld (fun _ v => v) (fun _ v => v) (fun _ v => v) Ok (PCSamp.t_header tls) tls
      (quiet_world PCSamp.pcsamp_data) () (mkLocals 0 0 0 0 0) acts)
    as [(tls1 & w1 & l' & tls2 & w2 & v' & tls3 & w3 & new & H1 & H2 & H3 & Hs & _ & Hd) _];
    [done|by vm_compute|by vm_compute|done|by repeat (apply Forall_cons; split; [by split|])|].
  change (sent (quiet_world PCSamp.pcsamp_data)) with (@nil (CBTF_DataHeader * PCSamp.pcsamp_data)) in Hs.
  simpl sent in Hs. exists tls1, w1, (l', (tls2, w2, v')), tls3, w3. split; [exact H1|]. split; [exact H2|].
  split; [exact H3|]. rewrite Hs. split_and!; (etransitivity; [apply Hd|vm_compute; reflexivity]).
Defined.
