(* ===== verification/ToolMessages.v ===== *)
(** The messages that a process sends to the tool (messages/src/base/Thread.x, File.x, Blob.x and
    messages/src/events/*.x) as the XDR procedures rpcgen makes for them encode them. *)
From S2P Require Import Prelude Probe PCIndex Headers Services XDR RawData ThreadName.

(** ** Booleans *)
Program Definition xdr_bool : codec bool :=
  xdr_struct xdr_i32 (fun z => negb (z =? 0)) (fun b : bool => if b then 1 else 0) _.
Next Obligation. by intros []. Qed.

(** ** Structures *)
Program Definition xdr_CBTF_Protocol_ThreadName : codec CBTF_Protocol_ThreadName :=
  xdr_struct (xdr_i32 ⊗ xdr_string ⊗ xdr_i64 ⊗ xdr_bool ⊗ xdr_i64 ⊗ xdr_i32 ⊗ xdr_i32)
    (fun '(e, (h, (p, (b, (t, (r, o)))))) => mkProtocolName e h p b t r o)
    (fun n => (p_experiment n, (p_host n, (p_pid n, (p_has_posix_tid n, (p_posix_tid n, (p_rank n, p_omp_tid n))))))) _.
Next Obligation. by intros []. Qed.
Definition xdr_CBTF_Protocol_ThreadNameGroup : codec (list CBTF_Protocol_ThreadName) := xdr_array xdr_CBTF_Protocol_ThreadName.

Inductive CBTF_Protocol_ThreadState := Disconnected | Connecting | Nonexistent | Running | Suspended | Terminated.
Definition state_code (s : CBTF_Protocol_ThreadState) : Z :=
  match s with Disconnected => 0 | Connecting => 1 | Nonexistent => 2 | Running => 3 | Suspended => 4 | Terminated => 5 end.
Definition state_of_code (z : Z) : CBTF_Protocol_ThreadState :=
  default Disconnected (List.find (fun s => state_code s =? z) [Connecting; Nonexistent; Running; Suspended; Terminated]).
Program Definition xdr_CBTF_Protocol_ThreadState : codec CBTF_Protocol_ThreadState := xdr_enum state_code state_of_code _.
Next Obligation. by intros []. Qed.

Record CBTF_Protocol_FileName := mkFileName { fn_path : string; fn_checksum : Z }.
Program Definition xdr_CBTF_Protocol_FileName : codec CBTF_Protocol_FileName :=
  xdr_struct (xdr_string ⊗ xdr_u64) (fun '(p, c) => mkFileName p c) (fun f => (fn_path f, fn_checksum f)) _.
Next Obligation. by intros []. Qed.

Record object_message := mkObject {
  o_linked_object : CBTF_Protocol_FileName; o_range : Z * Z; o_time_begin : Z; o_time_end : Z; o_is_executable : bool }.
Program Definition xdr_CBTF_Protocol_LinkedObject : codec object_message :=
  xdr_struct (xdr_CBTF_Protocol_FileName ⊗ (xdr_u64 ⊗ xdr_u64) ⊗ xdr_u64 ⊗ xdr_u64 ⊗ xdr_bool)
    (fun '(f, (r, (b, (e, x)))) => mkObject f r b e x)
    (fun o => (o_linked_object o, (o_range o, (o_time_begin o, (o_time_end o, o_is_executable o))))) _.
Next Obligation. by intros []. Qed.

Record group_message := mkGroupMessage { gm_thread : CBTF_Protocol_ThreadName; gm_linkedobjects : list object_message }.
Program Definition xdr_CBTF_Protocol_LinkedObjectGroup : codec group_message :=
  xdr_struct (xdr_CBTF_Protocol_ThreadName ⊗ xdr_array xdr_CBTF_Protocol_LinkedObject)
    (fun '(t, o) => mkGroupMessage t o) (fun g => (gm_thread g, gm_linkedobjects g)) _.
Next Obligation. by intros []. Qed.

Definition xdr_CBTF_Protocol_ThreadsStateChanged : codec (list CBTF_Protocol_ThreadName * CBTF_Protocol_ThreadState) :=
  xdr_CBTF_Protocol_ThreadNameGroup ⊗ xdr_CBTF_Protocol_ThreadState.
Definition xdr_CBTF_Protocol_Blob : codec (list Z) := xdr_array xdr_u8.
