(* ===== verification/Playback.v ===== *)
(** Recording the messages of a process, and replaying them in place of those of a later one
    (services/src/mrnet/playback.c), with the function of MRNet_Send.c that sends a message to the front
    end. Files are lists of bytes, directories a set of paths; integers are stored in a file as on x86_64,
    the least byte first. The recursive mutex makes each call atomic. *)
From stdpp Require Import pretty.
From S2P Require Import Prelude Probe PCIndex Headers Services XDR RawData ThreadName ToolMessages.

Definition PATH_MAX : Z := 4096.
Definition strlen (s : string) : Z := Z.of_nat (String.length s).
Definition LINKED_OBJECT_GROUP : Z := 1128.   (* CBTF_PROTOCOL_TAG_LINKED_OBJECT_GROUP *)

(** ** Files and directories *)
Record disk := mkDisk { files : gmap string (list Z); dirs : gset string }.

(** sprintf() into an array of PATH_MAX characters *)
Definition path_buffer (s : string) : outcome string := if strlen s <? PATH_MAX then Ok s else Fault.

(** The directories that have to exist for a path *)
Fixpoint parents (before rest : string) : list string :=
  match rest with
  | EmptyString => []
  | String c rest' =>
      (if bool_decide (c = Ascii.ascii_of_nat 47) && negb (String.eqb before "") then [before] else []) ++
      parents (before +:+ String c "") rest'
  end.

(** mkdir(), where EEXIST counts as success *)
Definition mkdir (path : string) (fs : disk) : option disk :=
  if decide (path ∈ dirs fs \/ is_Some (files fs !! path)) then Some fs
  else
    let made := Some (mkDisk (files fs) ({[path]} ∪ dirs fs)) in
    match last (parents "" path) with
    | None => made
    | Some q => if decide (q ∈ dirs fs) then made else None
    end.

Definition mkpath (path : string) (fs : disk) : option disk :=
  if strlen path >? PATH_MAX - 1 then None else foldl (fun r q => r ≫= mkdir q) (Some fs) (parents "" path).

(** rename() *)
Definition rename (from to : string) (fs : disk) : option disk :=
  bytes ← files fs !! from;
  if decide (to ∈ dirs fs) then None
  else
    let moved := Some (mkDisk (<[to := bytes]> (delete from (files fs))) (dirs fs)) in
    match last (parents "" to) with
    | None => moved
    | Some q => if decide (q ∈ dirs fs) then moved else None
    end.

Definition Assert_some {A} (o : option A) : outcome A := match o with Some x => Ok x | None => Aborted end.

(** The loop of copyfile(): up to 8192 bytes at a time *)
Fixpoint copy_loop (fuel : nat) (src dst : list Z) : outcome (list Z) :=
  match src, fuel with
  | [], _ => Ok dst
  | _, O => Diverged
  | _, S fuel' => copy_loop fuel' (drop 8192 src) (dst ++ take 8192 src)
  end.

(** ** State *)
Record playback := mkPlayback {
  do_record_playback : bool; do_replay_playback : bool; no_playback_delay : bool;
  playback_directory : string; playback_file : string; is_first_message : bool; do_squelch_message : bool }.

(** A process: the variables of playback.c, the files, what was sent, and the calls to usleep() *)
Record process := mkProcess { pb : playback; fs : disk; sent_messages : list (Z * list Z); slept : list Z }.
Definition with_fs (d : disk) (p : process) : process := mkProcess (pb p) d (sent_messages p) (slept p).
Definition with_pb (b : playback) (p : process) : process := mkProcess b (fs p) (sent_messages p) (slept p).
Definition deliver_message (tag : Z) (data : list Z) (p : process) : process :=
  mkProcess (pb p) (fs p) (sent_messages p ++ [(tag, data)]) (slept p).
Definition usleep (us : Z) (p : process) : process := mkProcess (pb p) (fs p) (sent_messages p) (slept p ++ [us]).

Definition is_regular (path : string) (d : disk) : bool := bool_decide (is_Some (files d !! path)).
Definition is_dir (path : string) (d : disk) : bool := bool_decide (path ∈ dirs d).

Definition playback_configure (getenv : string -> option string) (rank : Z) (d : disk) : outcome playback :=
  let record := bool_decide (is_Some (getenv "CBTF_MRNET_RECORD_PLAYBACK")) in
  let replay := bool_decide (is_Some (getenv "CBTF_MRNET_REPLAY_PLAYBACK")) in
  let no_delay := bool_decide (is_Some (getenv "CBTF_MRNET_NO_PLAYBACK_DELAY")) in
  if record && replay then Ok (mkPlayback false false no_delay "" "" true false)
  else if record || replay then
    directory ← path_buffer (default "" (getenv (if record then "CBTF_MRNET_RECORD_PLAYBACK" else "CBTF_MRNET_REPLAY_PLAYBACK")));
    if negb (is_dir directory d) then Ok (mkPlayback false false no_delay directory "" true false)
    else
      file ← path_buffer (directory +:+ "/cbtf-mrnet-playback-" +:+ pretty rank);
      Ok (mkPlayback (record && negb (is_regular file d || is_dir file d)) (replay && is_regular file d) no_delay directory file true false)
  else Ok (mkPlayback false false no_delay "" "" true false).

(** ** The format of the playback file *)
Definition le (n : nat) (z : Z) : list Z := rev (be n z).
Definition of_le (bs : list Z) : Z := of_be (rev bs).
Definition record_bytes (time tag : Z) (data : list Z) : list Z :=
  le 8 time ++ le 4 tag ++ le 4 (Z.of_nat (length data)) ++ data.

Section playback.
(** The name that mkstemp() chooses in a directory; what decoding leaves behind when it fails; the bytes
    that encoding leaves in a buffer of a size that it does not fit in *)
Context (mkstemp : string -> disk -> string) (partial : list Z -> group_message) (cut : group_message -> Z -> list Z).

Definition copyfile (source : string) (p : process) : outcome process :=
  src ← Assert_some (files (fs p) !! source);
  _ ← path_buffer (playback_directory (pb p) +:+ "/XXXXXX");
  let temp := mkstemp (playback_directory (pb p)) (fs p) in
  dst ← copy_loop (length src) src [];
  let d1 := mkDisk (<[temp := dst]> (files (fs p))) (dirs (fs p)) in
  destination ← path_buffer (playback_directory (pb p) +:+ source);
  d2 ← Assert_some (mkpath destination d1);
  d3 ← Assert_some (rename temp destination d2);
  Ok (with_fs d3 p).

Definition decode_group (data : list Z) : group_message :=
  match dec xdr_CBTF_Protocol_LinkedObjectGroup data with Some (g, _) => g | None => partial data end.
Definition encode_group (g : group_message) (size : Z) : list Z :=
  let bytes := enc xdr_CBTF_Protocol_LinkedObjectGroup g in
  if Z.of_nat (length bytes) <=? size then bytes else cut g size.

Definition path_of (o : object_message) : string := fn_path (o_linked_object o).
Fixpoint copy_objects (objects : list object_message) (p : process) : outcome process :=
  match objects with [] => Ok p | o :: objects' => p' ← copyfile (path_of o) p; copy_objects objects' p' end.

(** fopen(playback_file, "a+") and the calls to fwrite(); that of no bytes returns 0. *)
Definition append (path : string) (bytes : list Z) (p : process) : outcome process :=
  if is_dir path (fs p) then Aborted
  else Ok (with_fs (mkDisk (<[path := default [] (files (fs p) !! path) ++ bytes]> (files (fs p))) (dirs (fs p))) p).

Definition record_to_playback (time tag : Z) (data : list Z) (p : process) : outcome process :=
  p1 ← (if tag =? LINKED_OBJECT_GROUP then copy_objects (gm_linkedobjects (decode_group data)) p else Ok p);
  _ ← Assert (0 <? Z.of_nat (length data));
  append (playback_file (pb p1)) (record_bytes time tag data) p1.

(** The paths of a group are moved to the copies in the playback directory. *)
Definition move_object (directory : string) (o : object_message) : outcome object_message :=
  path ← path_buffer (directory +:+ path_of o);
  Ok (mkObject (mkFileName path (fn_checksum (o_linked_object o))) (o_range o) (o_time_begin o) (o_time_end o) (o_is_executable o)).
Fixpoint move_objects (directory : string) (os : list object_message) : outcome (list object_message) :=
  match os with [] => Ok [] | o :: os' => o' ← move_object directory o; r ← move_objects directory os'; Ok (o' :: r) end.
Definition move_group (directory : string) (data : list Z) : outcome (list Z) :=
  let g := decode_group data in
  os ← move_objects directory (gm_linkedobjects g);
  Ok (encode_group (mkGroupMessage (gm_thread g) os) (u32 (Z.of_nat (length data) * 2))).

(** fread() of a block *)
Definition fread (n : nat) (bs : list Z) : option (list Z * list Z) := if Nat.eqb n 0 then None else take_bytes n bs.

(** The messages of a file, up to one that is cut off or empty *)
Definition read_record (bs : list Z) : option ((Z * Z * list Z) * list Z) :=
  t ← fread 8 bs;
  g ← fread 4 t.2;
  n ← fread 4 g.2;
  d ← fread (Z.to_nat (of_le n.1)) n.2;
  Some ((of_le t.1, sign 4 (of_le g.1), d.1), d.2).

(** The loop of replay_from_playback(); [send] is CBTF_MRNet_LW_sendToFrontend(). *)
Fixpoint replay_loop (send : Z -> list Z -> process -> outcome process) (fuel : nat) (is_first : bool) (previous_time : Z)
    (bs : list Z) (p : process) : outcome process :=
  match fuel with
  | O => Diverged
  | S fuel' =>
      match read_record bs with
      | None => Ok p
      | Some ((time, tag, data), bs') =>
          let p1 := if negb is_first && negb (no_playback_delay (pb p)) then usleep (u32 (u64 (time - previous_time) / 1000)) p else p in
          data' ← (if tag =? LINKED_OBJECT_GROUP then move_group (playback_directory (pb p)) data else Ok data);
          p2 ← send tag data' p1;
          replay_loop send fuel' false time bs' p2
      end
  end.
Definition replay_from_playback (send : Z -> list Z -> process -> outcome process) (p : process) : outcome process :=
  bytes ← Assert_some (files (fs p) !! playback_file (pb p));
  replay_loop send (S (length bytes)) true 0 bytes p.

Definition replayed (b : playback) : playback :=
  mkPlayback (do_record_playback b) (do_replay_playback b) (no_playback_delay b) (playback_directory b) (playback_file b)
    false (do_squelch_message b).
Definition squelched (b : playback) : playback :=
  mkPlayback (do_record_playback b) (do_replay_playback b) (no_playback_delay b) (playback_directory b) (playback_file b)
    (is_first_message b) true.

(** Whether the message is not to be sent *)
Definition playback_intercept (send : Z -> list Z -> process -> outcome process) (time tag : Z) (data : list Z) (p : process)
    : outcome (bool * process) :=
  if do_record_playback (pb p) then p' ← record_to_playback time tag data p; Ok (false, p')
  else if do_replay_playback (pb p) then
    p1 ← (if is_first_message (pb p) then
            p' ← replay_from_playback send (with_pb (replayed (pb p)) p);
            Ok (with_pb (squelched (pb p')) p')
          else Ok p);
    Ok (do_squelch_message (pb p1), p1)
  else Ok (false, p).

(** CBTF_MRNet_LW_sendToFrontend() once the network is connected; replaying calls it from within. *)
Fixpoint sendToFrontend (depth : nat) (time tag : Z) (data : list Z) (p : process) : outcome process :=
  match depth with
  | O => Diverged
  | S depth' =>
      r ← playback_intercept (sendToFrontend depth' time) time tag data p;
      if r.1 : bool then Ok r.2 else Ok (deliver_message tag data r.2)
  end.

(** A process that sends messages, each at its time *)
Fixpoint send_messages (ms : list (Z * Z * list Z)) (p : process) : outcome process :=
  match ms with [] => Ok p | (time, tag, data) :: ms' => p' ← sendToFrontend 2 time tag data p; send_messages ms' p' end.
End playback.
