(* ===== verification/PlaybackRoundtrip.v ===== *)
(** What was recorded is what is replayed: the messages of services/src/mrnet/playback.c, and the files
    of the linked objects they name. *)
From stdpp Require Import pretty.
From S2P Require Import Prelude Probe PCIndex Headers Services XDR RawData ThreadName ToolMessages Playback.
#[local] Open Scope Z_scope.

(** ** Strings *)
Lemma append_assoc (a b c : string) : a +:+ (b +:+ c) = (a +:+ b) +:+ c.
Proof. induction a as [|x a IH]; [done|]. change (String x (a +:+ (b +:+ c)) = String x ((a +:+ b) +:+ c)). by rewrite IH. Qed.
Lemma append_nil (a : string) : a +:+ "" = a.
Proof. induction a as [|x a IH]; [done|]. change (String x (a +:+ "") = String x a). by rewrite IH. Qed.
Lemma append_empty (a b : string) : a +:+ b = "" -> a = "".
Proof. by destruct a. Qed.
Lemma strlen_append a b : strlen (a +:+ b) = strlen a + strlen b.
Proof. unfold strlen. induction a as [|x a IH]; [done|]. change (String.length (String x a +:+ b)) with (S (String.length (a +:+ b))). cbn [String.length]. lia. Qed.

Lemma path_buffer_ok s : strlen s < PATH_MAX -> path_buffer s = Ok s.
Proof. intros H. unfold path_buffer. by destruct (_ <? _) eqn:E; bools; [|lia]. Qed.

(** ** The directories of a path *)
Lemma parents_app b r1 r2 : parents b (r1 +:+ r2) = parents b r1 ++ parents (b +:+ r1) r2.
Proof.
  revert b. induction r1 as [|c r1 IH]; intros b; [by rewrite append_nil|].
  change (parents b (String c (r1 +:+ r2)) = parents b (String c r1) ++ parents (b +:+ String c r1) r2).
  cbn [parents]. rewrite IH, <- app_assoc. do 2 f_equal. by rewrite <- append_assoc.
Qed.

(** A directory of a path has the directories before it. *)
Lemma parents_split rest : forall before l1 q l2, parents before rest = l1 ++ q :: l2 -> parents "" q = parents "" before ++ l1.
Proof.
  induction rest as [|c rest IH]; intros before l1 q l2 H; [by destruct l1|]. cbn [parents] in H.
  assert (Hb : parents "" (before +:+ String c "") =
    parents "" before ++ (if bool_decide (c = Ascii.ascii_of_nat 47) && negb (String.eqb before "") then [before] else [])).
  { rewrite parents_app. cbn [parents]. by rewrite app_nil_r. }
  destruct (_ && _).
  - cbn [app] in H. destruct l1 as [|x l1]; injection H as Hx H; [by rewrite Hx, app_nil_r|].
    rewrite (IH _ _ _ _ H), Hb, <- app_assoc. cbn [app]. by rewrite Hx.
  - rewrite (IH _ _ _ _ H), Hb, app_nil_r. done.
Qed.

(** The directories of a path below a directory *)
Lemma parents_below d b r : b <> "" -> parents (d +:+ b) r = (String.append d) <$> parents b r.
Proof.
  revert b. induction r as [|c r IH]; intros b Hb; [done|]. cbn [parents]. rewrite fmap_app, <- append_assoc, IH by (by destruct b). f_equal.
  assert (String.eqb b "" = false) as -> by (by apply String.eqb_neq).
  assert (String.eqb (d +:+ b) "" = false) as ->. { apply String.eqb_neq. destruct d; [done|]. by intros H. }
  by destruct (bool_decide _).
Qed.
Definition absolute (s : string) : Prop := exists s', s = String (Ascii.ascii_of_nat 47) s'.
Lemma parents_mirror d s : d <> "" -> absolute s -> parents "" (d +:+ s) = parents "" d ++ d :: ((String.append d) <$> parents "" s).
Proof.
  intros Hd [s' ->]. rewrite parents_app. f_equal. change ("" +:+ d) with d. cbn [parents].
  assert (String.eqb d "" = false) as -> by (by apply String.eqb_neq). rewrite bool_decide_eq_true_2 by done. cbn [andb negb app String.eqb].
  f_equal. change ("" +:+ String (Ascii.ascii_of_nat 47) "") with (String (Ascii.ascii_of_nat 47) ""). by apply parents_below.
Qed.

(** ** Directories and copies *)
Lemma mkpath_made path d : strlen path < PATH_MAX -> (forall q, q ∈ parents "" path -> files d !! q = None \/ q ∈ dirs d) ->
  mkpath path d = Some (mkDisk (files d) (list_to_set (parents "" path) ∪ dirs d)).
Proof.
  intros Hlen Hq. unfold mkpath. destruct (_ >? _) eqn:E; [bools; lia|]. clear E Hlen.
  assert (Hgen : forall l2 l1 d', l1 ++ l2 = parents "" path -> (forall q, q ∈ l1 -> q ∈ dirs d') -> (forall q, q ∈ l2 -> files d' !! q = None \/ q ∈ dirs d') ->
    foldl (fun r q => r ≫= mkdir q) (Some d') l2 = Some (mkDisk (files d') (list_to_set l2 ∪ dirs d'))).
  { intros l2. induction l2 as [|q l2 IH]; intros l1 d' Hl H1 H2; cbn [foldl list_to_set].
    - destruct d' as [f D]. cbn. do 2 f_equal. set_solver.
    - assert (Hm : mkdir q d' = Some (mkDisk (files d') ({[q]} ∪ dirs d'))).
      { unfold mkdir. destruct (decide _) as [Hd|Hd].
        - assert (q ∈ dirs d') by (destruct (H2 q) as [Hn|?]; [set_solver| |done]; destruct Hd as [?|[? Hs]]; [done|congruence]).
          destruct d' as [f D]. cbn in *. do 2 f_equal. set_solver.
        - symmetry in Hl. rewrite (parents_split _ _ _ _ _ Hl). cbn [parents app]. destruct (last l1) as [x|] eqn:El; [|done].
          rewrite decide_True; [done|]. apply H1. by apply last_Some_elem_of. }
      cbn [mbind option_bind]. rewrite Hm. erewrite (IH (l1 ++ [q])); cbn [files dirs].
      + do 2 f_equal. set_solver.
      + by rewrite <- app_assoc.
      + intros x Hx. set_solver.
      + intros x Hx. destruct (H2 x); [set_solver|by left|right; set_solver]. }
  apply (Hgen _ []); [done|set_solver|done].
Qed.

Lemma copy_loop_copies fuel : forall src dst, (length src <= fuel)%nat -> copy_loop fuel src dst = Ok (dst ++ src).
Proof.
  induction fuel as [|fuel IH]; intros [|b src] dst Hl; cbn [copy_loop length] in *; try (by rewrite app_nil_r); [lia|].
  rewrite IH by (rewrite length_drop; cbn; lia). by rewrite <- app_assoc, take_drop.
Qed.

(** ** The format *)
Lemma of_le_le n z : of_le (le n z) = z mod 256 ^ Z.of_nat n.
Proof. unfold of_le, le. by rewrite rev_involutive, of_be_be. Qed.
Lemma le_length n z : length (le n z) = n.
Proof. unfold le. by rewrite length_rev, be_length. Qed.
Lemma fread_app bs rest : bs <> [] -> fread (length bs) (bs ++ rest) = Some (bs, rest).
Proof. intros Hb. unfold fread. destruct bs; [done|]. cbn [length Nat.eqb]. apply (take_bytes_app (_ :: bs)). Qed.
Lemma fread_le n z rest : (0 < n)%nat -> fread n (le n z ++ rest) = Some (le n z, rest).
Proof. intros Hn. pose proof (fread_app (le n z) rest) as H. rewrite le_length in H. apply H. intros E. pose proof (le_length n z) as Hl. rewrite E in Hl. cbn in Hl. lia. Qed.

Notation message := (Z * Z * list Z)%type.
Definition in_range (m : message) : Prop :=
  0 <= m.1.1 < 2 ^ 64 /\ - 2 ^ 31 <= m.1.2 < 2 ^ 31 /\ 0 < Z.of_nat (length m.2) < 2 ^ 32.
Definition file_bytes (ms : list message) : list Z := concat ((fun m : message => record_bytes m.1.1 m.1.2 m.2) <$> ms).

Lemma sign_le tag : - 2 ^ 31 <= tag < 2 ^ 31 -> sign 4 (of_le (le 4 tag)) = tag.
Proof.
  intros Ht. rewrite of_le_le. unfold sign. change (256 ^ Z.of_nat 4) with (2 ^ 32). change (2 ^ 32 / 2) with (2 ^ 31).
  destruct (decide (0 <= tag)).
  - rewrite Z.mod_small by lia. by destruct (_ <? _) eqn:H; bools; [|lia].
  - replace (tag mod 2 ^ 32) with (tag + 2 ^ 32) by (apply (Z.mod_unique _ _ (-1)); lia).
    destruct (_ <? _) eqn:H; bools; lia.
Qed.
Lemma read_record_bytes m rest : in_range m -> read_record (record_bytes m.1.1 m.1.2 m.2 ++ rest) = Some (m, rest).
Proof.
  destruct m as [[t g] d]. intros (Ht & Hg & Hd). cbn [fst snd] in *. unfold read_record, record_bytes. rewrite <- !app_assoc.
  rewrite fread_le by lia. cbn [mbind option_bind fst snd]. rewrite fread_le by lia. cbn [mbind option_bind fst snd].
  rewrite fread_le by lia. cbn [mbind option_bind fst snd]. rewrite sign_le by done. rewrite !of_le_le.
  rewrite (Z.mod_small t) by done. rewrite (Z.mod_small (Z.of_nat (length d))) by (change (256 ^ Z.of_nat 4) with (2 ^ 32); lia).
  rewrite Nat2Z.id, fread_app; [done|]. intros ->. cbn in Hd. lia.
Qed.
Lemma record_length t g d : (16 <= length (record_bytes t g d))%nat.
Proof. unfold record_bytes. rewrite !length_app, !le_length. lia. Qed.
Lemma read_record_nil : read_record [] = None.
Proof. done. Qed.

(** ** Replaying *)
Definition rehomed (d : string) (g : group_message) : group_message :=
  mkGroupMessage (gm_thread g)
    ((fun o => mkObject (mkFileName (d +:+ path_of o) (fn_checksum (o_linked_object o))) (o_range o) (o_time_begin o) (o_time_end o) (o_is_executable o))
      <$> gm_linkedobjects g).
Notation group_codec := xdr_CBTF_Protocol_LinkedObjectGroup.
Definition group_of_data (data : list Z) : option group_message := fst <$> dec group_codec data.

(** What the tool gets in place of a message *)
Definition rehome (d : string) (m : message) : Z * list Z :=
  (m.1.2, if m.1.2 =? LINKED_OBJECT_GROUP then match group_of_data m.2 with Some g => enc group_codec (rehomed d g) | None => m.2 end else m.2).

(** A group as MRNet_Send() encodes it, whose re-homed copy fits the buffer that is allocated for it *)
Definition movable (d : string) (m : message) : Prop :=
  m.1.2 = LINKED_OBJECT_GROUP -> exists g, valid group_codec g /\ m.2 = enc group_codec g /\
    Forall (fun o => strlen (d +:+ path_of o) < PATH_MAX) (gm_linkedobjects g) /\
    2 * Z.of_nat (length m.2) < 2 ^ 32 /\ Z.of_nat (length (enc group_codec (rehomed d g))) <= 2 * Z.of_nat (length m.2).

Section replay.
Context (mkstemp : string -> disk -> string) (partial : list Z -> group_message) (cut : group_message -> Z -> list Z).

Lemma decode_enc g : valid group_codec g -> decode_group partial (enc group_codec g) = g.
Proof. intros Hv. unfold decode_group. rewrite <- (app_nil_r (enc _ g)), enc_dec by done. done. Qed.
Lemma group_of_enc g : valid group_codec g -> group_of_data (enc group_codec g) = Some g.
Proof. intros Hv. unfold group_of_data. rewrite <- (app_nil_r (enc _ g)), enc_dec by done. done. Qed.

Lemma move_objects_ok d os : Forall (fun o => strlen (d +:+ path_of o) < PATH_MAX) os ->
  move_objects d os = Ok (gm_linkedobjects (rehomed d (mkGroupMessage (mkProtocolName 0 "" 0 false 0 0 0) os))).
Proof.
  cbn [rehomed gm_linkedobjects]. induction 1 as [|o os Ho _ IH]; [done|]. cbn [move_objects fmap list_fmap]. unfold move_object. by rewrite path_buffer_ok, !bind_of_Ok, IH by done.
Qed.
Lemma moved_data d m : movable d m ->
  (if m.1.2 =? LINKED_OBJECT_GROUP then move_group partial cut d m.2 else Ok m.2) = Ok (rehome d m).2.
Proof.
  intros Hm. unfold rehome. cbn [snd]. destruct (_ =? _) eqn:E; bools; [|done]. destruct (Hm E) as (g & Hv & -> & Hp & H32 & Hfit).
  unfold move_group. rewrite decode_enc by done. rewrite move_objects_ok by done. rewrite bind_of_Ok.
  rewrite group_of_enc by done. unfold encode_group. cbn [rehomed gm_linkedobjects] in *. f_equal.
  rewrite u32_small by lia. destruct (_ <=? _) eqn:El; bools; [done|]. unfold rehomed in Hfit. lia.
Qed.

(** The pauses between messages *)
Fixpoint gaps (t : Z) (ms : list message) : list Z :=
  match ms with [] => [] | m :: ms' => u32 (u64 (m.1.1 - t) / 1000) :: gaps m.1.1 ms' end.
Definition pauses (ms : list message) : list Z := match ms with [] => [] | m :: ms' => gaps m.1.1 ms' end.

(** While replaying, messages are sent. *)
Definition replaying (b : playback) : Prop :=
  do_record_playback b = false /\ do_replay_playback b = true /\ is_first_message b = false /\ do_squelch_message b = false.
Lemma inner_send time tag data p : replaying (pb p) -> sendToFrontend mkstemp partial cut 1 time tag data p = Ok (deliver_message tag data p).
Proof. intros (H1 & H2 & H3 & H4). cbn [sendToFrontend]. unfold playback_intercept. by rewrite H1, H2, H3, !bind_of_Ok, H4. Qed.

Lemma replay_loop_ok now ms : Forall in_range ms -> forall fuel first t p, (length (file_bytes ms) < fuel)%nat ->
  Forall (movable (playback_directory (pb p))) ms -> replaying (pb p) ->
  replay_loop partial cut (sendToFrontend mkstemp partial cut 1 now) fuel first t (file_bytes ms) p =
  Ok (mkProcess (pb p) (fs p) (sent_messages p ++ (rehome (playback_directory (pb p)) <$> ms))
    (slept p ++ if no_playback_delay (pb p) then [] else if first : bool then pauses ms else gaps t ms)).
Proof.
  induction 1 as [|m ms Hm Hms IH]; intros fuel first t p Hf Hmov Hr.
  { destruct fuel as [|fuel]; [cbn in Hf; lia|]. cbn [replay_loop file_bytes fmap list_fmap concat]. rewrite read_record_nil. cbn [pauses gaps].
    rewrite app_nil_r. destruct p. cbn. by destruct (no_playback_delay _), first; rewrite app_nil_r. }
  apply Forall_cons in Hmov as [Hmm Hmov]. destruct fuel as [|fuel]; [lia|]. cbn [replay_loop].
  change (file_bytes (m :: ms)) with (record_bytes m.1.1 m.1.2 m.2 ++ file_bytes ms) in *. rewrite read_record_bytes by done.
  destruct m as [[time tag] data]. cbn [fst snd] in *.
  pose proof (moved_data _ _ Hmm) as Hd. cbn [fst snd] in Hd.
  set (p1 := if negb first && _ then _ else p). assert (Hp1 : pb p1 = pb p) by (subst p1; by destruct (_ && _)). rewrite Hd, bind_of_Ok, inner_send by (by rewrite Hp1).
  rewrite bind_of_Ok, IH; cbn [pb deliver_message fs sent_messages slept]; rewrite ?Hp1; [|rewrite length_app in Hf; pose proof (record_length time tag data); lia|done..].
  f_equal. assert (fs p1 = fs p /\ sent_messages p1 = sent_messages p /\ slept p1 = slept p ++ if negb first && negb (no_playback_delay (pb p)) then [u32 (u64 (time - t) / 1000)] else []) as (-> & -> & ->).
  { subst p1. destruct (_ && _); cbn; by rewrite ?app_nil_r. }
  rewrite <- !app_assoc. cbn [fmap list_fmap app]. f_equal. f_equal. by destruct first, (no_playback_delay (pb p)).
Qed.
End replay.

(** ** Recording *)
Section record.
Context (mkstemp : string -> disk -> string) (partial : list Z -> group_message) (cut : group_message -> Z -> list Z).
Context (d : string) (rank : Z) (originals : disk) (sources : list string).
Notation file_name := ("/cbtf-mrnet-playback-" +:+ pretty rank).

(** Sources are absolute paths of files outside the playback directory, none of them a directory of another;
    their copies have room in it; names that mkstemp() makes up are new. *)
Record source_ok (s : string) : Prop := {
  so_absolute : absolute s;
  so_file : is_Some (files originals !! s);
  so_outside : forall x, s <> d +:+ x;
  so_room : strlen (d +:+ s) < PATH_MAX;
  so_not_file : s <> file_name /\ file_name ∉ parents "" s;
  so_apart : forall s', s' ∈ sources -> s ∉ parents "" s';
  so_copy : d +:+ s ∉ dirs originals;
  so_dirs : forall q, q ∈ parents "" s -> files originals !! (d +:+ q) = None;
  so_temp : forall D q, q ∈ parents "" s -> mkstemp d D <> d +:+ q }.
Hypothesis Hd : d <> "".
Hypothesis Hdir : d ∈ dirs originals /\ forall q, q ∈ parents "" d -> q ∈ dirs originals.
Hypothesis Hroom : strlen (d +:+ "/XXXXXX") < PATH_MAX.
Hypothesis Hfile : d +:+ file_name ∉ dirs originals.
Hypothesis Hsources : forall s, s ∈ sources -> source_ok s.
Hypothesis Htemp : forall D, files D !! mkstemp d D = None.

(** What recording keeps *)
Record kept (D : disk) : Prop := {
  k_dirs : dirs originals ⊆ dirs D;
  k_source s : s ∈ sources -> files D !! s = files originals !! s;
  k_copy s : s ∈ sources -> d +:+ s ∉ dirs D;
  k_mirror s q : s ∈ sources -> q ∈ parents "" s -> files D !! (d +:+ q) = None;
  k_file : d +:+ file_name ∉ dirs D }.
Definition copied (D : disk) (s : string) : Prop := files D !! (d +:+ s) = files originals !! s.

Lemma kept_originals : kept originals.
Proof.
  split; [done|done| | |done]; intros s.
  - intros Hs. by destruct (Hsources s Hs).
  - intros q Hs Hq. by apply (so_dirs s (Hsources s Hs)).
Qed.

Lemma append_inj (a b : string) : d +:+ a = d +:+ b -> a = b.
Proof. apply (inj (String.append d)). Qed.

Lemma copyfile_ok s p : s ∈ sources -> playback_directory (pb p) = d -> kept (fs p) ->
  exists D, copyfile mkstemp s p = Ok (with_fs D p) /\ kept D /\ copied D s /\
    (forall s', s' ∈ sources -> copied (fs p) s' -> copied D s') /\
    files D !! (d +:+ file_name) = files (fs p) !! (d +:+ file_name).
Proof.
  intros Hs Hpb K. pose proof (Hsources s Hs) as S0. destruct S0 as [Habs [bytes Hb] Hout Hlen Hnf Hap Hcp Hds Htp].
  assert (Hpar : parents "" (d +:+ s) = parents "" d ++ d :: (String.append d <$> parents "" s)) by (by apply parents_mirror).
  exists (mkDisk (<[d +:+ s := bytes]> (files (fs p))) (list_to_set (parents "" (d +:+ s)) ∪ dirs (fs p))). split.
  { unfold copyfile. rewrite (k_source _ K s Hs), Hb, Hpb. cbn [Assert_some]. rewrite bind_of_Ok, (path_buffer_ok (d +:+ "/XXXXXX")) by done.
    rewrite bind_of_Ok, copy_loop_copies by done. rewrite bind_of_Ok. cbn [app]. rewrite path_buffer_ok by done. rewrite bind_of_Ok. set (t := mkstemp d (fs p)).
    rewrite mkpath_made; [|done|].
    - cbn [Assert_some]. rewrite bind_of_Ok. unfold rename. cbn [files dirs]. rewrite lookup_insert_eq. cbn [mbind option_bind].
      assert (Hl : last (parents "" (d +:+ s)) = last (d :: (String.append d <$> parents "" s))) by (rewrite Hpar, last_app; by destruct (last (d :: _)) eqn:El; [|apply last_None in El]).
      rewrite decide_False.
      + rewrite Hl. destruct (last (d :: _)) as [x|] eqn:El; [|by apply last_None in El].
        apply last_Some_elem_of in El. rewrite decide_True by (apply elem_of_union_l, elem_of_list_to_set; rewrite Hpar; set_solver).
        cbn [Assert_some]. rewrite bind_of_Ok. do 3 f_equal. by rewrite delete_insert_id by apply Htemp.
      + rewrite elem_of_union, elem_of_list_to_set, Hpar, elem_of_app, elem_of_cons, list_elem_of_fmap. intros [[H|[H|(q & H & Hq)]]|H].
        * apply (k_copy _ K s Hs). apply (k_dirs _ K). by apply (proj2 Hdir).
        * rewrite <- (append_nil d) in H at 2. apply append_inj in H. destruct Habs as [? ->]. done.
        * apply append_inj in H. subst q. by apply (Hap s).
        * by apply (k_copy _ K s Hs).
    - intros q Hq. cbn [files dirs]. rewrite Hpar, elem_of_app, elem_of_cons, list_elem_of_fmap in Hq.
      destruct Hq as [Hq|[->|(q' & -> & Hq)]]; [right; apply (k_dirs _ K); by apply (proj2 Hdir)|right; apply (k_dirs _ K); exact (proj1 Hdir)|].
      left. rewrite lookup_insert_ne by (by apply Htp). by apply (k_mirror _ K s). }
  split_and!.
  - split; cbn [files dirs].
    + etrans; [apply (k_dirs _ K)|]. set_solver.
    + intros s' Hs'. rewrite lookup_insert_ne by (intros E; by apply (so_outside s' (Hsources s' Hs') s)). by apply (k_source _ K).
    + intros s' Hs'. rewrite elem_of_union, elem_of_list_to_set, Hpar, elem_of_app, elem_of_cons, list_elem_of_fmap. intros [[H|[H|(q & H & Hq)]]|H].
      * apply (k_copy _ K s' Hs'). apply (k_dirs _ K). by apply (proj2 Hdir).
      * rewrite <- (append_nil d) in H at 2. apply append_inj in H. destruct (so_absolute s' (Hsources s' Hs')) as [? ->]. done.
      * apply append_inj in H. subst q. by apply (so_apart s' (Hsources s' Hs') s).
      * by apply (k_copy _ K s' Hs').
    + intros s' q Hs' Hq. rewrite lookup_insert_ne; [by apply (k_mirror _ K s')|]. intros E. apply append_inj in E. subst q. by apply (Hap s').
    + rewrite elem_of_union, elem_of_list_to_set, Hpar, elem_of_app, elem_of_cons, list_elem_of_fmap. intros [[H|[H|(q & H & Hq)]]|H].
      * apply (k_file _ K). apply (k_dirs _ K). by apply (proj2 Hdir).
      * rewrite <- (append_nil d) in H at 2. by apply append_inj in H.
      * apply append_inj in H. subst q. by apply Hnf.
      * by apply (k_file _ K).
  - unfold copied. cbn [files]. by rewrite lookup_insert_eq, Hb.
  - intros s' Hs' Hc. unfold copied. cbn [files]. destruct (decide (s' = s)) as [->|Hne]; [by rewrite lookup_insert_eq, Hb|].
    rewrite lookup_insert_ne; [done|]. intros E. by apply append_inj in E.
  - cbn [files]. rewrite lookup_insert_ne; [done|]. intros E. apply append_inj in E. by apply (proj1 Hnf).
Qed.

Definition paths_of (m : message) : list string :=
  if m.1.2 =? LINKED_OBJECT_GROUP then match group_of_data m.2 with Some g => path_of <$> gm_linkedobjects g | None => [] end else [].
Definition recordable (m : message) : Prop := in_range m /\ movable d m /\ Forall (fun s => s ∈ sources) (paths_of m).

Lemma copy_objects_ok os : forall p, Forall (fun s => s ∈ sources) (path_of <$> os) -> playback_directory (pb p) = d -> kept (fs p) ->
  exists D, copy_objects mkstemp os p = Ok (with_fs D p) /\ kept D /\ Forall (copied D) (path_of <$> os) /\
    (forall s', s' ∈ sources -> copied (fs p) s' -> copied D s') /\
    files D !! (d +:+ file_name) = files (fs p) !! (d +:+ file_name).
Proof.
  induction os as [|o os IH]; intros p Hos Hpb K; cbn [copy_objects fmap list_fmap] in *.
  { exists (fs p). by destruct p. }
  apply Forall_cons in Hos as [Ho Hos]. destruct (copyfile_ok (path_of o) p Ho Hpb K) as (D & -> & KD & Hc & Hkeep & Hf).
  rewrite bind_of_Ok. destruct (IH (with_fs D p) Hos Hpb KD) as (D' & -> & KD' & Hc' & Hkeep' & Hf'). exists D'.
  split_and!; [by destruct p|done|constructor; [by apply Hkeep'|done]|intros s' Hs' H; by apply Hkeep', Hkeep|by rewrite Hf'].
Qed.

Definition recording (b : playback) : Prop :=
  do_record_playback b = true /\ playback_directory b = d /\ playback_file b = d +:+ file_name.

Lemma send_recorded m p : recordable m -> recording (pb p) -> kept (fs p) ->
  exists D, sendToFrontend mkstemp partial cut 2 m.1.1 m.1.2 m.2 p = Ok (mkProcess (pb p) D (sent_messages p ++ [(m.1.2, m.2)]) (slept p)) /\
    kept D /\ Forall (copied D) (paths_of m) /\ (forall s', s' ∈ sources -> copied (fs p) s' -> copied D s') /\
    files D !! (d +:+ file_name) = Some (default [] (files (fs p) !! (d +:+ file_name)) ++ record_bytes m.1.1 m.1.2 m.2).
Proof.
  intros (Hr & Hm & Hpaths) (Hrec & Hpd & Hpf) K. cbn [sendToFrontend]. unfold playback_intercept. rewrite Hrec. unfold record_to_playback.
  assert (H : exists D, (if m.1.2 =? LINKED_OBJECT_GROUP then copy_objects mkstemp (gm_linkedobjects (decode_group partial m.2)) p else Ok p) = Ok (with_fs D p) /\
    kept D /\ Forall (copied D) (paths_of m) /\ (forall s', s' ∈ sources -> copied (fs p) s' -> copied D s') /\
    files D !! (d +:+ file_name) = files (fs p) !! (d +:+ file_name)).
  { unfold paths_of in *. destruct (_ =? _) eqn:E; bools; [|by exists (fs p); split; [destruct p|split_and!]].
    destruct (Hm E) as (g & Hv & Hg & _). rewrite Hg, group_of_enc in * by done. rewrite decode_enc by done. by apply copy_objects_ok. }
  destruct H as (D & -> & KD & Hc & Hkeep & Hf). rewrite bind_of_Ok. destruct Hr as (_ & _ & Hlen).
  unfold Assert. destruct (_ <? _) eqn:E; bools; [|lia]. rewrite bind_of_Ok. unfold append. cbn [pb with_fs fs]. rewrite Hpf.
  unfold is_dir. rewrite bool_decide_eq_false_2 by apply (k_file _ KD). rewrite !bind_of_Ok. cbn [fst snd].
  eexists. split; [reflexivity|]. cbn [fs with_fs deliver_message files dirs]. split_and!.
  - destruct KD as [K1 K2 K3 K4 K5]. split; cbn [files dirs]; [done| |done| |done].
    + intros s Hs. rewrite lookup_insert_ne; [by apply K2|]. intros Heq. by apply (so_outside s (Hsources s Hs) file_name).
    + intros s q Hs Hq. rewrite lookup_insert_ne; [by apply (K4 s)|]. intros Heq. apply append_inj in Heq. subst q.
      by apply (proj2 (so_not_file s (Hsources s Hs))).
  - apply Forall_forall. intros s Hs. unfold copied. cbn [files]. rewrite Forall_forall in Hpaths, Hc.
    rewrite lookup_insert_ne; [by apply Hc|]. intros Heq. apply append_inj in Heq. by apply (proj1 (so_not_file s (Hsources s (Hpaths s Hs)))).
  - intros s Hs H. unfold copied. cbn [files]. rewrite lookup_insert_ne; [by apply Hkeep|]. intros Heq. apply append_inj in Heq.
    by apply (proj1 (so_not_file s (Hsources s Hs))).
  - by rewrite lookup_insert_eq, Hf.
Qed.

Lemma send_all_recorded ms : forall p, Forall recordable ms -> recording (pb p) -> kept (fs p) ->
  exists D, send_messages mkstemp partial cut ms p =
      Ok (mkProcess (pb p) D (sent_messages p ++ ((fun m : message => (m.1.2, m.2)) <$> ms)) (slept p)) /\
    kept D /\ Forall (copied D) (concat (paths_of <$> ms)) /\ (forall s', s' ∈ sources -> copied (fs p) s' -> copied D s') /\
    default [] (files D !! (d +:+ file_name)) = default [] (files (fs p) !! (d +:+ file_name)) ++ file_bytes ms /\
    (ms <> [] -> is_Some (files D !! (d +:+ file_name))).
Proof.
  induction ms as [|[[time tag] data] ms IH]; intros p Hms Hp K; cbn [send_messages].
  { exists (fs p). cbn. rewrite !app_nil_r. by destruct p. }
  apply Forall_cons in Hms as [Hm Hms]. destruct (send_recorded _ p Hm Hp K) as (D & Hs & KD & Hc & Hkeep & Hf). cbn [fst snd] in Hs.
  rewrite Hs, bind_of_Ok. destruct (IH (mkProcess (pb p) D (sent_messages p ++ [(tag, data)]) (slept p)) Hms Hp KD) as (D' & -> & KD' & Hc' & Hkeep' & Hf' & Hsome).
  exists D'. cbn [pb fs sent_messages slept fmap list_fmap concat fst snd] in *. rewrite <- app_assoc. split_and!; [done|done| | | |].
  - apply Forall_app. split; [|done]. destruct Hm as (_ & _ & Hin). rewrite Forall_forall in *. intros s Hs'. apply Hkeep'; [by apply Hin|by apply Hc].
  - intros s' Hs' H. by apply Hkeep', Hkeep.
  - rewrite Hf', Hf. cbn [from_option id]. by rewrite <- app_assoc.
  - intros _. destruct ms; [|by apply Hsome]. cbn [file_bytes fmap list_fmap concat] in Hf'. rewrite app_nil_r, Hf in Hf'. cbn [from_option id] in Hf'.
    destruct (files D' !! _); [done|]. cbn [from_option id] in Hf'. pose proof (record_length time tag data) as Hl. symmetry in Hf'. apply app_eq_nil in Hf' as [_ Hf']. cbn [fst snd] in Hf'. rewrite Hf' in Hl. cbn in Hl. lia.
Qed.
End record.

(** ** A process that replays *)
Section replaying_process.
Context (mkstemp : string -> disk -> string) (partial : list Z -> group_message) (cut : group_message -> Z -> list Z).

Lemma send_squelched ms : forall p, do_record_playback (pb p) = false -> do_replay_playback (pb p) = true ->
  is_first_message (pb p) = false -> do_squelch_message (pb p) = true -> send_messages mkstemp partial cut ms p = Ok p.
Proof.
  induction ms as [|[[time tag] data] ms IH]; intros p H1 H2 H3 H4; [done|]. cbn [send_messages sendToFrontend]. unfold playback_intercept.
  rewrite H1, H2, H3, !bind_of_Ok, H4. cbn [fst snd]. rewrite bind_of_Ok. by apply IH.
Qed.

Lemma send_replayed ms later b D : Forall in_range ms -> Forall (movable (playback_directory b)) ms ->
  do_record_playback b = false -> do_replay_playback b = true -> is_first_message b = true -> do_squelch_message b = false ->
  files D !! playback_file b = Some (file_bytes ms) -> later <> [] ->
  exists p, send_messages mkstemp partial cut later (mkProcess b D [] []) = Ok p /\ fs p = D /\
    sent_messages p = rehome (playback_directory b) <$> ms /\ slept p = if no_playback_delay b then [] else pauses ms.
Proof.
  intros Hr Hm H1 H2 H3 H4 Hf Hl. destruct later as [|[[time tag] data] later]; [done|]. cbn [send_messages].
  assert (exists p, sendToFrontend mkstemp partial cut 2 time tag data (mkProcess b D [] []) = Ok p /\ fs p = D /\
    sent_messages p = rehome (playback_directory b) <$> ms /\ slept p = (if no_playback_delay b then [] else pauses ms) /\
    do_record_playback (pb p) = false /\ do_replay_playback (pb p) = true /\ is_first_message (pb p) = false /\ do_squelch_message (pb p) = true)
    as (p & -> & Hfs & Hsent & Hslept & H5 & H6 & H7 & H8).
  { unfold sendToFrontend at 1. fold (sendToFrontend mkstemp partial cut 1 time). unfold playback_intercept. cbn [pb]. rewrite H1, H2, H3.
    unfold replay_from_playback, with_pb. cbn [pb fs replayed playback_file]. rewrite Hf. cbn [Assert_some]. rewrite bind_of_Ok.
    rewrite replay_loop_ok; [|done|lia|done|by split_and!]. rewrite !bind_of_Ok. cbn. by eexists. }
  rewrite bind_of_Ok, send_squelched by done. by exists p.
Qed.
End replaying_process.

(** What has to be there for a process of some rank to record to a directory *)
Record ready (d : string) (rank : Z) (D : disk) : Prop := {
  r_name : d <> "";
  r_dir : d ∈ dirs D;
  r_parents : forall q, q ∈ parents "" d -> q ∈ dirs D;
  r_temp_room : strlen (d +:+ "/XXXXXX") < PATH_MAX;
  r_room : strlen (d +:+ "/cbtf-mrnet-playback-" +:+ pretty rank) < PATH_MAX;
  r_new : files D !! (d +:+ "/cbtf-mrnet-playback-" +:+ pretty rank) = None /\ d +:+ "/cbtf-mrnet-playback-" +:+ pretty rank ∉ dirs D }.

Definition named_objects (ms : list message) : list string := concat (paths_of <$> ms).

(** C23: a process of the tool that is told to record writes every message that it sends to the playback
    file of its rank, with its time, and copies the files of the linked objects named in groups to the
    playback directory, while it sends its messages. A later process of that rank that is told to replay
    sends, whatever messages it would send itself, just the messages recorded, in order and with the pauses
    between them unless told otherwise; groups name the copies instead of the originals. *)
Theorem playback_roundtrip mkstemp partial cut (d : string) (rank : Z) (originals : disk) (ms : list message)
    (recording_env replaying_env : string -> option string) :
  recording_env "CBTF_MRNET_RECORD_PLAYBACK" = Some d -> recording_env "CBTF_MRNET_REPLAY_PLAYBACK" = None ->
  replaying_env "CBTF_MRNET_RECORD_PLAYBACK" = None -> replaying_env "CBTF_MRNET_REPLAY_PLAYBACK" = Some d ->
  ready d rank originals -> (forall D, files D !! mkstemp d D = None) ->
  ms <> [] -> Forall in_range ms -> Forall (movable d) ms ->
  Forall (source_ok mkstemp d rank originals (named_objects ms)) (named_objects ms) ->
  exists b p b', playback_configure recording_env rank originals = Ok b /\
    send_messages mkstemp partial cut ms (mkProcess b originals [] []) = Ok p /\
    sent_messages p = (fun m : message => (m.1.2, m.2)) <$> ms /\
    Forall (copied d originals (fs p)) (named_objects ms) /\
    playback_configure replaying_env rank (fs p) = Ok b' /\
    forall later, later <> [] -> exists p', send_messages mkstemp partial cut later (mkProcess b' (fs p) [] []) = Ok p' /\
      fs p' = fs p /\ sent_messages p' = rehome d <$> ms /\
      slept p' = if bool_decide (is_Some (replaying_env "CBTF_MRNET_NO_PLAYBACK_DELAY")) then [] else pauses ms.
Proof.
  intros E1 E2 E3 E4 [Hd Hdir Hpar Ht Hroom [Hnew Hnd]] Htemp Hne Hr Hm Hsrc.
  set (file := d +:+ "/cbtf-mrnet-playback-" +:+ pretty rank) in *.
  assert (Hdlen : strlen d < PATH_MAX). { subst file. rewrite strlen_append in Hroom. unfold strlen in *. lia. }
  pose (b := mkPlayback true false (bool_decide (is_Some (recording_env "CBTF_MRNET_NO_PLAYBACK_DELAY"))) d file true false).
  assert (Hb : playback_configure recording_env rank originals = Ok b).
  { unfold playback_configure. rewrite E1, E2. rewrite (bool_decide_eq_true_2 (is_Some (Some d))), (bool_decide_eq_false_2 (is_Some None)) by (done || by intros []).
    cbn [andb orb]. rewrite E1. cbn [from_option id]. rewrite (path_buffer_ok d), bind_of_Ok by done. unfold is_dir at 1. rewrite (bool_decide_eq_true_2 (d ∈ _)) by done. cbn [negb].
    fold file. rewrite (path_buffer_ok file), bind_of_Ok by done. unfold is_regular, is_dir. rewrite Hnew, (bool_decide_eq_false_2 (is_Some None)), (bool_decide_eq_false_2 (file ∈ _)) by (done || by intros []). done. }
  assert (Hrec : Forall (recordable d (named_objects ms)) ms).
  { rewrite Forall_forall in *. intros m Hin. split; [by apply Hr|]. split; [by apply Hm|]. apply Forall_forall. intros s Hs. apply list_elem_of_In, in_concat.
    exists (paths_of m). split; apply list_elem_of_In; [|done]. apply list_elem_of_fmap. by exists m. }
  rewrite Forall_forall in Hsrc.
  destruct (send_all_recorded mkstemp partial cut d rank originals (named_objects ms) Hd (conj Hdir Hpar) Ht Hnd Hsrc Htemp ms
    (mkProcess b originals [] []) Hrec) as (D & Hs & KD & Hc & _ & Hf & Hsome); [done|by apply (kept_originals mkstemp d rank)|].
  cbn [pb fs sent_messages slept app] in *. fold file in Hf, Hsome. rewrite Hnew in Hf. destruct (Hsome Hne) as [bytes Hbytes]. rewrite Hbytes in Hf. cbn [from_option id app] in Hf. subst bytes.
  pose (b' := mkPlayback false true (bool_decide (is_Some (replaying_env "CBTF_MRNET_NO_PLAYBACK_DELAY"))) d file true false).
  eexists b, _, b'. split; [exact Hb|]. split; [exact Hs|]. cbn [sent_messages fs]. split; [done|]. split; [done|]. split.
  { unfold playback_configure. rewrite E3, E4. rewrite (bool_decide_eq_true_2 (is_Some (Some d))), (bool_decide_eq_false_2 (is_Some None)) by (done || by intros []).
    cbn [andb orb]. rewrite E4. cbn [from_option id]. rewrite (path_buffer_ok d), bind_of_Ok by done. unfold is_dir at 1. rewrite (bool_decide_eq_true_2 (d ∈ _)) by (by apply (k_dirs _ _ _ _ _ KD)). cbn [negb].
    fold file. rewrite (path_buffer_ok file), bind_of_Ok by done. unfold is_regular. rewrite Hbytes. by rewrite (bool_decide_eq_true_2 (is_Some (Some _))). }
  intros later Hl. destruct (send_replayed mkstemp partial cut ms later b' D Hr Hm) as (p & Hp & H1 & H2 & H3); try done. by exists p.
Qed.

(** ** A process that announces itself, names two objects, and sends data; the tool replays it without
    pauses. *)
Definition example_name : CBTF_Protocol_ThreadName := mkProtocolName 1 "node0" 17 true 42 0 0.
Definition example_object (path : string) (a b : Z) : object_message := mkObject (mkFileName path 0) (a, b) 1000 (2 ^ 64 - 1) false.
Definition example_group : group_message := mkGroupMessage example_name [example_object "/usr/lib/libc.so" 4096 8192; example_object "/home/a.out" 16384 20480].
Definition example_messages : list message :=
  [(5000, 1101, enc xdr_CBTF_Protocol_ThreadNameGroup [example_name]); (7000, LINKED_OBJECT_GROUP, enc group_codec example_group); (4007000, 10000, [1; 2; 3])].
Definition example_disk : disk := mkDisk {["/usr/lib/libc.so" := [127; 69]; "/home/a.out" := [127; 70]]} {["/usr"; "/usr/lib"; "/home"; "/pb"]}.
Definition example_mkstemp (d : string) (D : disk) : string := fresh (dom (files D) ∪ {[d +:+ "/usr"; d +:+ "/usr/lib"; d +:+ "/home"]}).
Definition example_env (var : string) (s : string) : option string :=
  if String.eqb s var then Some "/pb" else if String.eqb s "CBTF_MRNET_NO_PLAYBACK_DELAY" then Some "" else None.
Definition example_cut (g : group_message) (size : Z) : list Z := take (Z.to_nat size) (enc group_codec g).

Lemma example_group_valid : valid group_codec example_group.
Proof.
  cbn. repeat match goal with |- _ /\ _ => split | |- Forall _ (_ :: _) => apply Forall_cons; cbn | |- Forall _ [] => apply Forall_nil_2 end; by vm_compute.
Qed.
Lemma example_temp_new D : example_mkstemp "/pb" D ∉ dom (files D) ∪ {["/pb" +:+ "/usr"; "/pb" +:+ "/usr/lib"; "/pb" +:+ "/home"]}.
Proof. unfold example_mkstemp. apply is_fresh. Qed.
Ltac each_of H := repeat (apply elem_of_cons in H as [->|H]); [..|by apply not_elem_of_nil in H].
Lemma example_source s : s ∈ ["/usr/lib/libc.so"; "/home/a.out"] ->
  source_ok example_mkstemp "/pb" 10003 example_disk ["/usr/lib/libc.so"; "/home/a.out"] s.
Proof.
  intros Hs. split.
  - each_of Hs; by eexists.
  - each_of Hs; by eexists.
  - intros x E. each_of Hs; discriminate E.
  - each_of Hs; by vm_compute.
  - each_of Hs; (split; [discriminate|apply (bool_decide_unpack _); by vm_compute]).
  - intros s' Hs'. each_of Hs; each_of Hs'; apply (bool_decide_unpack _); by vm_compute.
  - each_of Hs; apply (bool_decide_unpack _); by vm_compute.
  - intros q Hq. each_of Hs; vm_compute in Hq; each_of Hq; reflexivity.
  - intros D q Hq E. apply (example_temp_new D). rewrite E. each_of Hs; vm_compute in Hq; each_of Hq; apply elem_of_union_r; apply (bool_decide_unpack _); by vm_compute.
Qed.

Lemma playback_roundtrip_witness :
  exists b p b' p', playback_configure (example_env "CBTF_MRNET_RECORD_PLAYBACK") 10003 example_disk = Ok b /\
    send_messages example_mkstemp (fun _ => example_group) example_cut example_messages (mkProcess b example_disk [] []) = Ok p /\
    files (fs p) !! "/pb/home/a.out" = Some [127; 70] /\
    playback_configure (example_env "CBTF_MRNET_REPLAY_PLAYBACK") 10003 (fs p) = Ok b' /\
    send_messages example_mkstemp (fun _ => example_group) example_cut [(9, 10001, [7]); (10, 10001, [8])] (mkProcess b' (fs p) [] []) = Ok p' /\
    slept p' = [] /\ length (sent_messages p') = 3%nat /\ last (sent_messages p') = Some (10000, [1; 2; 3]).
Proof.
  destruct (playback_roundtrip example_mkstemp (fun _ => example_group) example_cut "/pb" 10003 example_disk example_messages
    (example_env "CBTF_MRNET_RECORD_PLAYBACK") (example_env "CBTF_MRNET_REPLAY_PLAYBACK"))
    as (b & p & b' & H1 & H2 & _ & H3 & H4 & H5).
  1, 2, 3, 4: reflexivity.
  - split; vm_compute; try done. intros q Hq. by apply not_elem_of_nil in Hq.
  - intros D. apply not_elem_of_dom. pose proof (is_fresh (dom (files D) ∪ {["/pb" +:+ "/usr"; "/pb" +:+ "/usr/lib"; "/pb" +:+ "/home"]})) as H. unfold example_mkstemp. set_solver.
  - done.
  - repeat (apply Forall_cons; split; [unfold in_range; split_and!; by vm_compute|]). apply Forall_nil_2.
  - repeat (apply Forall_cons; split); try apply Forall_nil_2; intros E; try done. exists example_group.
    split; [exact example_group_valid|]. split; [done|]. split; [repeat (apply Forall_cons; split); try apply Forall_nil_2; by vm_compute|]. split; by vm_compute.
  - apply Forall_forall. exact example_source.
  - destruct (H5 [(9, 10001, [7]); (10, 10001, [8])]) as (p' & H6 & _ & H7 & H8); [done|]. exists b, p, b', p'. split_and!; try done.
    + rewrite Forall_forall in H3. apply (H3 "/home/a.out"). apply (bool_decide_unpack _). by vm_compute.
    + by rewrite H7.
    + by rewrite H7.
Defined.

(** The buffer for a group is twice as long as the group, which a longer directory exceeds: the group that
    is sent is cut. *)
Definition long_directory : string := "/" +:+ String.string_of_list_ascii (replicate 200 (Ascii.ascii_of_nat 100)).
Example moved_group_cut partial cut : let g := mkGroupMessage example_name [example_object "/a.out" 16384 20480] in
  move_group partial cut long_directory (enc group_codec g) = Ok (cut (rehomed long_directory g) (2 * Z.of_nat (length (enc group_codec g)))).
Proof. vm_compute. reflexivity. Qed.
(** A message without data ends the process that records it. *)
Example empty_message_aborts mkstemp partial cut b D : do_record_playback b = true ->
  sendToFrontend mkstemp partial cut 2 0 10000 [] (mkProcess b D [] []) = Aborted.
Proof. intros H. cbn [sendToFrontend]. unfold playback_intercept. cbn [pb]. by rewrite H. Qed.
