(* ===== verification/MRNetSend.v ===== *)
(** How a process connects to its parent in the network, sends messages and waits for the end
    (services/src/mrnet/MRNet_Send.c). What the MRNet library receives is a list of tags; the waiting of
    several threads is the subject of NetworkReady. *)
From stdpp Require Import pretty.
From S2P Require Import Prelude Probe PCIndex Headers Services DLInfo FlatTopology Hostlist XDR RawData PerfData ThreadName ToolMessages Playback.
#[local] Open Scope Z_scope.

(** ** The connections file: a line for each rank, "host port rank-of-parent rank" *)
(** %d: blanks, a sign, and at least one digit; the rest of the string *)
Definition scan_int (s : cstr) : option (Z * cstr) :=
  let s1 := skip_space s in
  let '(sign, s2) := match s1 with
                     | c :: s' => if bool_decide (c = DASH) then (-1, s') else if bool_decide (c = chr 43) then (1, s') else (1, s1)
                     | [] => (1, [])
                     end in
  match digits s2 with
  | [] => None
  | ds => Some (i32 (Z.max (- 2 ^ 63) (Z.min (2 ^ 63 - 1) (sign * value ds))), after_digits s2)
  end.
(** %s *)
Definition scan_word (s : cstr) : option (cstr * cstr) :=
  match word (skip_space s) with [] => None | w => Some (w, drop (length w) (skip_space s)) end.

(** sscanf(line, "%s %d %d %d", pname, ...), with char pname[64]: [None] unless all four match *)
Definition scan_connection (line : cstr) : outcome (option (cstr * Z * Z * Z)) :=
  match scan_word line with
  | None => Ok None
  | Some (pname, r0) =>
      _ ← (if (length pname <? 64)%nat then Ok () else Fault);
      Ok (p ← scan_int r0; q ← scan_int p.2; t ← scan_int q.2; Some (pname, p.1, q.1, t.1))
  end.

(** sprintf(buffer, "%d") into ten characters *)
Definition number10 (z : Z) : outcome string :=
  if (String.length (pretty z) <? 10)%nat then Ok (pretty z) else Fault.

(** The lines that fgets() returns, for a line array of 256 characters; [None] is the result 1. *)
Fixpoint find_parent (rank : Z) (lines : list cstr) : outcome (option (cstr * string * string)) :=
  match lines with
  | [] => Ok None
  | line :: lines' =>
      m ← scan_connection line;
      match m with
      | None => Ok None
      | Some (pname, tpport, tprank, trank) =>
          if trank =? rank then pport ← number10 tpport; prank ← number10 tprank; Ok (Some (pname, pport, prank))
          else find_parent rank lines'
      end
  end.
Definition CBTF_MRNet_getParentInfo (file : option (list cstr)) (rank : Z) : outcome (option (cstr * string * string)) :=
  match file with None => Aborted | Some lines => find_parent rank lines end.

(** ** Connecting *)
Record backend := mkBackend { be_name : string; be_parent : cstr; be_port : string; be_parent_rank : string; be_host : string; be_rank : string }.

Definition connection_file (getenv : string -> option string) : outcome string :=
  match getenv "CBTF_MRNETBE_CONNECTIONS" with
  | Some f => Ok f
  | None => path_buffer (default "(null)" (getenv "PWD") +:+ "/attachBE_connections")
  end.

Definition NETWORK_READY : Z := 107.   (* KRELL_INSTITUTE_CBTF_IMPL_NETWORK_READY *)
(** The rest of what is received after the first packet with a tag; a failure to receive ends the wait, too.
    [None] is a packet that could not be received. *)
Fixpoint wait_for (tag : Z) (received : list (option Z)) : outcome (list (option Z)) :=
  match received with
  | [] => Diverged
  | None :: rest => Ok rest
  | Some t :: rest => if t =? tag then Ok rest else wait_for tag rest
  end.

(** CBTF_MRNet_LW_connect() of a process that is not connected: the arguments for
    Network_CreateNetworkBE(), which [creates] it or not, and what is left to receive. The recording and
    replaying is configured afterwards (Playback). *)
Definition CBTF_MRNet_LW_connect (getenv : string -> option string) (read : string -> option (list cstr)) (host : string)
    (creates : backend -> bool) (con_rank : Z) (received : list (option Z)) : outcome (backend * list (option Z)) :=
  connfile ← connection_file getenv;
  let '(mRank, rank_to_use) := if con_rank <? 0 then (10000, 0) else (10000 + con_rank, con_rank) in
  myRank ← number10 (i32 mRank);
  info ← CBTF_MRNet_getParentInfo (read connfile) rank_to_use;
  match info with
  | None => Aborted
  | Some (parent, port, prank) =>
      let b := mkBackend ("cbtfBE" +:+ myRank) parent port prank (String.substring 0 63 host) myRank in
      _ ← Assert (creates b);
      match received with
      | [] => Diverged
      | None :: _ => Aborted
      | Some _ :: rest => rest' ← wait_for NETWORK_READY rest; Ok (b, rest')
      end
  end.

(** ** Sending *)
Section send.
Context (mkstemp : string -> disk -> string) (partial : list Z -> group_message) (cut : group_message -> Z -> list Z).

(** CBTF_MRNet_Send(): the buffer is doubled until the encoding fits. *)
Definition CBTF_MRNet_Send {A} (time tag : Z) (xdrproc : codec A) (data : A) (p : process) : outcome process :=
  dm_contents ← encode_growing xdrproc data 23 1024;
  sendToFrontend mkstemp partial cut 2 time tag dm_contents p.

Definition PERFORMANCE_DATA : Z := 10000.   (* CBTF_PROTOCOL_TAG_PERFORMANCE_DATA *)
(** CBTF_MRNet_Send_PerfData(): the blob is encoded once more, as a message. *)
Definition CBTF_MRNet_Send_PerfData {D} (a : arch) (HOST_NAME_MAX : nat) (xdrproc : codec D) (time : Z) (header : CBTF_DataHeader) (data : D)
    (p : process) : outcome process :=
  let buffer := enc (xdr_CBTF_DataHeader HOST_NAME_MAX) header ++ enc xdrproc data in
  _ ← Assert (Z.of_nat (length buffer) <=? EncodingBufferSize a);
  CBTF_MRNet_Send time PERFORMANCE_DATA xdr_CBTF_Protocol_Blob buffer p.
End send.

(** ** The end *)
Inductive network_action := SendAcknowledgement (tag : Z) | WaitForShutDown | DeleteNetwork.
(** CBTF_Waitfor_MRNet_Shutdown(): [is_shutdown] is what Network_is_ShutDown() returns, first and after the
    acknowledgement. *)
Definition CBTF_Waitfor_MRNet_Shutdown (network is_shutdown is_shutdown' : bool) (received : list (option Z)) : outcome (list network_action) :=
  if network then
    if is_shutdown then Ok []
    else
      _ ← wait_for 101 received;
      Ok ([SendAcknowledgement 102] ++ (if is_shutdown' then [] else [WaitForShutDown]) ++ [DeleteNetwork])
  else Ok [].

(** ** Reading the connections file *)
Record connection := mkConnection { c_host : cstr; c_port : Z; c_parent_rank : Z; c_rank : Z }.
Definition connection_line (c : connection) : cstr :=
  c_host c ++ SP :: Hostlist.dec (c_port c) ++ SP :: Hostlist.dec (c_parent_rank c) ++ SP :: Hostlist.dec (c_rank c) ++ [NL].
Definition connection_ok (c : connection) : Prop :=
  c_host c <> [] /\ Forall (fun x => is_space x = false) (c_host c) /\ (length (c_host c) < 64)%nat /\
  0 <= c_port c < 10 ^ 9 /\ 0 <= c_parent_rank c < 10 ^ 9 /\ 0 <= c_rank c < 2 ^ 31.

Lemma word_app w c rest : Forall (fun x => is_space x = false) w -> is_space c = true -> word (w ++ c :: rest) = w.
Proof. intros Hw Hc. induction Hw as [|x w Hx _ IH]; cbn; [by rewrite Hc|]. by rewrite Hx, IH. Qed.
Lemma scan_word_app w rest : w <> [] -> Forall (fun x => is_space x = false) w -> scan_word (w ++ SP :: rest) = Some (w, SP :: rest).
Proof.
  intros Hne Hw. unfold scan_word. destruct w as [|x w]; [done|]. pose proof Hw as Hw'. apply Forall_cons in Hw' as [Hx _].
  assert (skip_space ((x :: w) ++ SP :: rest) = (x :: w) ++ SP :: rest) as -> by (cbn; by rewrite Hx).
  rewrite word_app by done. by rewrite drop_app_length.
Qed.
Lemma scan_int_dec n c rest : 0 <= n < 2 ^ 31 -> isdigit c = false -> scan_int (SP :: Hostlist.dec n ++ c :: rest) = Some (n, c :: rest).
Proof.
  intros Hn Hc. destruct (dec_digits n) as (Hd & Hv & Hne & _); [lia|]. unfold scan_int. change (skip_space (SP :: ?x)) with (skip_space x).
  destruct (digits_app (Hostlist.dec n) (c :: rest) Hd) as [E1 E2]; [by intros ? ? [= <- _]|].
  destruct (Hostlist.dec n) as [|x ds] eqn:En; [done|]. pose proof Hd as Hd'. apply Forall_cons in Hd' as [Hx _].
  destruct (digit_not_sign x Hx) as (H1 & H2 & _ & _ & _ & H3). cbn [app skip_space]. rewrite H3, !bool_decide_false by done.
  cbn [app] in E1, E2. rewrite E1, E2, Hv, Z.mul_1_l. do 2 f_equal. unfold i32. rewrite Z.mod_small; lia.
Qed.

Lemma value_lower ds : all_digits ds -> forall c r, ds = c :: r -> c <> ZERO -> 10 ^ Z.of_nat (length r) <= value ds.
Proof.
  induction ds as [|x ds IH] using rev_ind; intros Hd c r E Hc; [by destruct r|]. apply Forall_app in Hd as [Hd Hx]. apply Forall_cons in Hx as [Hx _].
  rewrite value_snoc. pose proof (digit_bounds x Hx). destruct ds as [|y ds].
  - injection E as -> <-. assert (digit c <> 0). { intros H0. apply Hc. unfold digit in H0. assert (Hn : Ascii.nat_of_ascii c = 48%nat) by lia. rewrite <- (Ascii.ascii_nat_embedding c), Hn. done. }
    change (value []) with 0. cbn. lia.
  - injection E as -> <-. rewrite length_app. cbn [length]. rewrite Nat2Z.inj_add, Z.pow_add_r by lia. specialize (IH Hd c ds eq_refl Hc). lia.
Qed.
Lemma str_length s : length (str s) = String.length s.
Proof. unfold str. induction s as [|x s IH]; [done|]. cbn. by rewrite IH. Qed.
Lemma number10_ok n : 0 <= n < 10 ^ 9 -> number10 n = Ok (pretty n).
Proof.
  intros Hn. unfold number10. destruct (_ <? _)%nat eqn:E; [done|]. apply Nat.ltb_ge in E. exfalso. rewrite <- str_length in E. fold (Hostlist.dec n) in E.
  destruct (dec_digits n) as (Hd & Hv & _ & H0); [lia|]. destruct (decide (n = 0)) as [->|]; [by vm_compute in E; lia|].
  destruct H0 as (c & r & Hc & Hz); [lia|]. pose proof (value_lower _ Hd c r Hc Hz) as Hl. rewrite Hv in Hl. rewrite Hc in E. cbn [length] in E.
  assert (10 ^ 9 <= 10 ^ Z.of_nat (length r)) by (apply Z.pow_le_mono_r; lia). lia.
Qed.

Lemma scan_connection_line c : connection_ok c -> scan_connection (connection_line c) = Ok (Some (c_host c, c_port c, c_parent_rank c, c_rank c)).
Proof.
  intros (Hne & Hsp & Hlen & Hp & Hq & Hr). unfold scan_connection, connection_line. rewrite scan_word_app by done.
  destruct (_ <? _)%nat eqn:E; [|apply Nat.ltb_ge in E; lia]. rewrite bind_of_Ok. f_equal.
  rewrite scan_int_dec by (done || lia). cbn [mbind option_bind fst snd]. rewrite scan_int_dec by (done || lia). cbn [mbind option_bind fst snd].
  by rewrite scan_int_dec.
Qed.

(** The parent of a rank is that of the first line with the rank. *)
Lemma parent_found rank cs : Forall connection_ok cs ->
  find_parent rank (connection_line <$> cs) =
    Ok ((fun c => (c_host c, pretty (c_port c), pretty (c_parent_rank c))) <$> List.find (fun c => c_rank c =? rank) cs).
Proof.
  induction 1 as [|c cs Hc _ IH]; [done|]. cbn [fmap list_fmap find_parent]. rewrite scan_connection_line, bind_of_Ok by done. cbn [List.find].
  destruct Hc as (_ & _ & _ & Hp & Hq & _). destruct (_ =? _); [|exact IH]. by rewrite !number10_ok, !bind_of_Ok by done.
Qed.

Lemma wait_for_tag tag before after : Forall (fun t => exists x, t = Some x /\ x <> tag) before -> wait_for tag (before ++ Some tag :: after) = Ok after.
Proof.
  induction 1 as [|t before (x & -> & Hx) _ IH]; cbn [wait_for app]; [by rewrite Z.eqb_refl|]. destruct (x =? tag) eqn:E; bools; [done|exact IH].
Qed.

(** A process that connects is attached to the parent listed for its MPI rank, or for rank 0 if it has none, as
    the rank 10000 above it, and goes on as soon as the front end says that the network is ready. *)
Theorem connects_to_listed_parent getenv read host creates (con_rank : Z) (cs : list connection) (c : connection) first before after connfile :
  connection_file getenv = Ok connfile -> read connfile = Some (connection_line <$> cs) -> Forall connection_ok cs ->
  con_rank < 10 ^ 8 -> List.find (fun c => c_rank c =? Z.max 0 con_rank) cs = Some c ->
  let b := mkBackend ("cbtfBE" +:+ pretty (10000 + Z.max 0 con_rank)) (c_host c) (pretty (c_port c)) (pretty (c_parent_rank c))
             (String.substring 0 63 host) (pretty (10000 + Z.max 0 con_rank)) in
  creates b = true -> Forall (fun t => exists x, t = Some x /\ x <> NETWORK_READY) before ->
  CBTF_MRNet_LW_connect getenv read host creates con_rank (Some first :: before ++ Some NETWORK_READY :: after) = Ok (b, after).
Proof.
  intros Hf Hread Hcs Hr Hfind b Hb Hbefore. unfold CBTF_MRNet_LW_connect. rewrite Hf, bind_of_Ok.
  assert (E : (if con_rank <? 0 then (10000, 0) else (10000 + con_rank, con_rank)) = (10000 + Z.max 0 con_rank, Z.max 0 con_rank)).
  { destruct (_ <? 0) eqn:E; bools; [by rewrite Z.max_l by lia|]. by rewrite Z.max_r by lia. }
  rewrite E. assert (Hi : i32 (10000 + Z.max 0 con_rank) = 10000 + Z.max 0 con_rank) by (unfold i32; rewrite Z.mod_small; lia).
  rewrite Hi, number10_ok, bind_of_Ok by lia. unfold CBTF_MRNet_getParentInfo. rewrite Hread, parent_found, Hfind, bind_of_Ok by done.
  cbn [fmap option_fmap option_map]. fold b. unfold Assert. rewrite Hb, bind_of_Ok, wait_for_tag by done. done.
Qed.

(** ** What the tool receives *)
Section received.
Context (mkstemp : string -> disk -> string) (partial : list Z -> group_message) (cut : group_message -> Z -> list Z).

(** Performance data whose encoding fits the buffer is sent as one message, from which the tool decodes the
    header and the data; otherwise the process ends. *)
Theorem perfdata_message {D} (a : arch) (HM : nat) (c : codec D) time h (x : D) p :
  do_record_playback (pb p) = false -> do_replay_playback (pb p) = false -> valid (xdr_CBTF_DataHeader HM) h -> valid c x ->
  Forall (fun b => 0 <= b < 256) (enc (xdr_CBTF_DataHeader HM) h ++ enc c x) ->
  (fits a HM c (h, x) -> exists bytes buffer rest,
    CBTF_MRNet_Send_PerfData mkstemp partial cut a HM c time h x p = Ok (deliver_message PERFORMANCE_DATA bytes p) /\
    XDR.dec xdr_CBTF_Protocol_Blob bytes = Some (buffer, []) /\ XDR.dec (xdr_CBTF_DataHeader HM) buffer = Some (h, rest) /\ XDR.dec c rest = Some (x, [])) /\
  (~ fits a HM c (h, x) -> CBTF_MRNet_Send_PerfData mkstemp partial cut a HM c time h x p = Aborted).
Proof.
  intros H1 H2 Hh Hx Hbytes. unfold CBTF_MRNet_Send_PerfData, fits. cbn [fst snd]. set (buffer := enc _ h ++ enc c x) in *. split; intros Hfit; unfold Assert.
  2: { by destruct (_ <=? _) eqn:E; bools. }
  destruct (_ <=? _) eqn:E; bools; [|lia]. rewrite bind_of_Ok. pose proof (EncodingBufferSize_u32 a) as Ha.
  assert (Hv : valid xdr_CBTF_Protocol_Blob buffer) by (split; [lia|exact Hbytes]).
  assert (Hlen : Z.of_nat (length (enc xdr_CBTF_Protocol_Blob buffer)) = 4 + 4 * Z.of_nat (length buffer)) by (apply array_length, u8_length).
  exists (enc xdr_CBTF_Protocol_Blob buffer), buffer, (enc c x). split.
  - assert (Hg : encode_growing xdr_CBTF_Protocol_Blob buffer 23 1024 = Ok (enc xdr_CBTF_Protocol_Blob buffer)).
    { apply (encode_growing_fits xdr_CBTF_Protocol_Blob buffer 21 1024) with (more := 1%nat); [done|done|].
      rewrite Hlen. assert (EncodingBufferSize a <= 2 ^ 28) by (by destruct a). change (1024 * 2 ^ Z.of_nat 21) with (2 ^ 31). lia. }
    unfold CBTF_MRNet_Send. rewrite Hg, bind_of_Ok. cbn [sendToFrontend]. unfold playback_intercept. by rewrite H1, H2, bind_of_Ok.
  - split; [|split].
    + rewrite <- (app_nil_r (enc xdr_CBTF_Protocol_Blob buffer)). by rewrite enc_dec.
    + subst buffer. by rewrite enc_dec.
    + rewrite <- (app_nil_r (enc c x)). by rewrite enc_dec.
Qed.
End received.
