(* ===== verification/NetworkReady.v ===== *)
(** The threads of a process and their connection to the network (services/src/mrnet/MRNet_Send.c): one
    thread connects while others may already want to send, and wait on a condition variable. A
    transition system with one step per operation on the mutex and the condition variable, for any number of
    threads. *)
From stdpp Require Import relations.
From S2P Require Import Prelude.
#[local] Open Scope Z_scope.

(** Where a thread is in CBTF_MRNet_LW_connect() or in CBTF_MRNet_LW_sendToFrontend() *)
Inductive pc :=
| ConnectLock | ConnectHeld | ConnectBusy | ConnectNotify | ConnectUnlock | ConnectReturned
| SendLock | SendHeld | SendWaiting | SendRelock | SendRelocked | SendReady | Sent.
#[export] Instance pc_eq_dec : EqDecision pc.
Proof. solve_decision. Defined.

(** [mrnet_connected] is the flag of the code, [network_ready] whether the front end has said that the network is
    ready; [sends] are the threads that have sent, each with whether the network was ready. *)
Record conf := mkConf {
  mutex : option nat; mrnet_connected : bool; network_ready : bool; threads : list pc; sends : list (nat * bool) }.

(** pthread_cond_broadcast() *)
Definition wake (p : pc) : pc := match p with SendWaiting => SendRelock | _ => p end.

Section system.
(** POSIX lets pthread_cond_wait() return without a broadcast, too; and receiving from the front end may fail, which
    ends the wait for its answer but sets the flag all the same. *)
Context (spurious failing : bool).

Inductive step : conf -> conf -> Prop :=
| connect_lock i r c ts s : ts !! i = Some ConnectLock -> step (mkConf None c r ts s) (mkConf (Some i) c r (<[i := ConnectHeld]> ts) s)
| connect_again i r ts s m : ts !! i = Some ConnectHeld -> step (mkConf m true r ts s) (mkConf None true r (<[i := ConnectReturned]> ts) s)
| connect_first i r ts s m : ts !! i = Some ConnectHeld -> step (mkConf m false r ts s) (mkConf m false r (<[i := ConnectBusy]> ts) s)
| connect_done i r c ts s m answered : answered = true \/ failing = true -> ts !! i = Some ConnectBusy ->
    step (mkConf m c r ts s) (mkConf m true (answered || r) (<[i := ConnectNotify]> ts) s)
| connect_notify i r c ts s m : ts !! i = Some ConnectNotify -> step (mkConf m c r ts s) (mkConf m c r (<[i := ConnectUnlock]> (wake <$> ts)) s)
| connect_unlock i r c ts s m : ts !! i = Some ConnectUnlock -> step (mkConf m c r ts s) (mkConf None c r (<[i := ConnectReturned]> ts) s)
| send_lock i r c ts s : ts !! i = Some SendLock -> step (mkConf None c r ts s) (mkConf (Some i) c r (<[i := SendHeld]> ts) s)
| send_wait i r ts s m : ts !! i = Some SendHeld -> step (mkConf m false r ts s) (mkConf None false r (<[i := SendWaiting]> ts) s)
| send_at_once i r ts s m : ts !! i = Some SendHeld -> step (mkConf m true r ts s) (mkConf None true r (<[i := SendReady]> ts) s)
| send_spurious i r c ts s m : spurious = true -> ts !! i = Some SendWaiting -> step (mkConf m c r ts s) (mkConf m c r (<[i := SendRelock]> ts) s)
| send_relock i r c ts s : ts !! i = Some SendRelock -> step (mkConf None c r ts s) (mkConf (Some i) c r (<[i := SendRelocked]> ts) s)
| send_woken i r c ts s m : ts !! i = Some SendRelocked -> step (mkConf m c r ts s) (mkConf None c r (<[i := SendReady]> ts) s)
| send_stream i r c ts s m : ts !! i = Some SendReady -> step (mkConf m c r ts s) (mkConf m c r (<[i := Sent]> ts) (s ++ [(i, r)])).

(** ** Every run ends *)
Definition left_to_do (p : pc) : Z :=
  match p with
  | ConnectLock => 5 | ConnectHeld => 4 | ConnectBusy => 3 | ConnectNotify => 2 | ConnectUnlock => 1 | ConnectReturned => 0
  | SendLock => 6 | SendHeld => 5 | SendWaiting => 4 | SendRelock => 3 | SendRelocked => 2 | SendReady => 1 | Sent => 0
  end.
Definition work (c : conf) : Z := sum_by left_to_do (threads c).

Lemma work_insert i p q l : l !! i = Some p -> left_to_do q < left_to_do p -> sum_by left_to_do (<[i := q]> l) < sum_by left_to_do l.
Proof. intros Hi Hlt. rewrite (sum_by_insert left_to_do l i p q Hi). lia. Qed.
Lemma work_wake l : sum_by left_to_do (wake <$> l) <= sum_by left_to_do l.
Proof. induction l as [|p l IH]; [done|]. cbn [fmap list_fmap]. rewrite !sum_by_cons. assert (left_to_do (wake p) <= left_to_do p) by (by destruct p). lia. Qed.
Lemma work_nonneg c : 0 <= work c.
Proof. unfold work. induction (threads c) as [|p l IH]; [done|]. rewrite sum_by_cons. assert (0 <= left_to_do p) by (by destruct p). lia. Qed.

Lemma step_work c c' : step c c' -> work c' < work c.
Proof.
  unfold work. intros H. destruct H as [i r c ts s Hi|i r ts s m Hi|i r ts s m Hi|i r c ts s m ans Hans Hi|i r c ts s m Hi|i r c ts s m Hi|i r c ts s Hi|i r ts s m Hi|i r ts s m Hi|i r c ts s m _ Hi|i r c ts s Hi|i r c ts s m Hi|i r c ts s m Hi];
    cbn [threads]; try by apply (work_insert _ _ _ _ Hi).
  eapply Z.lt_le_trans; [|apply work_wake]. apply (work_insert i ConnectNotify); [|done]. by rewrite list_lookup_fmap, Hi.
Qed.
Lemma always_ends c : sn step c.
Proof.
  remember (Z.to_nat (work c)) as n eqn:Hn. revert c Hn. induction (lt_wf n) as [n _ IH]. intros c ->. constructor. intros c' H.
  apply (IH (Z.to_nat (work c'))); [|done]. pose proof (step_work c c' H). pose proof (work_nonneg c). pose proof (work_nonneg c'). lia.
Qed.

(** ** What holds at any time *)
Definition holding (p : pc) : bool :=
  match p with ConnectHeld | ConnectBusy | ConnectNotify | ConnectUnlock | SendHeld | SendRelocked => true | _ => false end.
Definition after_connect (p : pc) : bool :=
  match p with ConnectNotify | ConnectUnlock | ConnectReturned => true | SendRelock | SendRelocked | SendReady | Sent => negb spurious | _ => false end.
Definition connects (p : pc) : bool :=
  match p with ConnectLock | ConnectHeld | ConnectBusy | ConnectNotify | ConnectUnlock | ConnectReturned => true | _ => false end.

Record inv (c : conf) : Prop := {
  i_holds i p : threads c !! i = Some p -> holding p = true -> mutex c = Some i;
  i_held i : mutex c = Some i -> exists p, threads c !! i = Some p /\ holding p = true;
  i_ready : failing = false -> network_ready c = mrnet_connected c;
  i_after i p : threads c !! i = Some p -> after_connect p = true -> mrnet_connected c = true;
  i_waits i : threads c !! i = Some SendWaiting -> mrnet_connected c = true -> exists j, threads c !! j = Some ConnectNotify;
  i_log : spurious = false -> failing = false -> Forall (fun e : nat * bool => e.2 = true) (sends c);
  i_sent i : i ∈ (sends c).*1 <-> threads c !! i = Some Sent;
  i_once : NoDup (sends c).*1 }.

Lemma wake_Some (ts : list pc) (j : nat) q : (wake <$> ts) !! j = Some q <-> exists p, ts !! j = Some p /\ q = wake p.
Proof. rewrite list_lookup_fmap, fmap_Some. done. Qed.
Lemma holding_wake p : holding (wake p) = holding p.
Proof. by destruct p. Qed.


(** A step of one thread that neither connects, notifies nor sends *)
Lemma update_inv c i p q m' : inv c -> threads c !! i = Some p -> p <> Sent -> q <> Sent -> p <> ConnectNotify ->
  (mutex c = None /\ m' = Some i /\ holding q = true) \/ (holding p = true /\ m' = None /\ holding q = false) \/ (m' = mutex c /\ holding q = holding p) ->
  (after_connect q = true -> mrnet_connected c = true) -> (q = SendWaiting -> mrnet_connected c = false) ->
  inv (mkConf m' (mrnet_connected c) (network_ready c) (<[i := q]> (threads c)) (sends c)).
Proof.
  intros [I1 I2 I3 I4 I5 I6 I7 I8] Hi Hp Hq Hnp Hm Ha Hw. assert (Hlen : (i < length (threads c))%nat) by (by eapply lookup_lt_Some).
  split; cbn [threads mutex network_ready mrnet_connected sends]; try done.
  - intros j x Hj Hx. apply list_lookup_insert_Some in Hj as [(<- & <- & _)|(Hne & Hj)].
    + destruct Hm as [(_ & -> & _)|[(_ & _ & H)|(-> & H)]]; [done|congruence|]. apply (I1 i p); [done|congruence].
    + pose proof (I1 j x Hj Hx) as Hmj. destruct Hm as [(H & _)|[(H & _)|(-> & _)]]; [congruence| |done]. pose proof (I1 i p Hi H). congruence.
  - intros j Hj. destruct (decide (j = i)) as [->|Hne].
    + exists q. rewrite list_lookup_insert_eq by done. split; [done|]. destruct Hm as [(_ & _ & H)|[(_ & H & _)|(-> & H)]]; [done|congruence|].
      destruct (I2 i Hj) as (x & Hx & Hx'). congruence.
    + rewrite list_lookup_insert_ne by done. apply I2. destruct Hm as [(_ & H & _)|[(_ & H & _)|(<- & _)]]; [congruence|congruence|done].
  - intros j x Hj Hx. apply list_lookup_insert_Some in Hj as [(<- & <- & _)|(Hne & Hj)]; [by apply Ha|by eapply I4].
  - intros j Hj Hc. apply list_lookup_insert_Some in Hj as [(<- & -> & _)|(Hne & Hj)]; [specialize (Hw eq_refl); congruence|].
    destruct (I5 j Hj Hc) as [k Hk]. exists k. rewrite list_lookup_insert_ne; [done|]. intros <-. congruence.
  - intros j. rewrite I7, list_lookup_insert_Some. split; [|by intros [(_ & -> & _)|[_ ?]]]. intros Hj. right. split; [|done]. intros <-. congruence.
Qed.

Lemma ready_step_inv c c' : inv c -> step c c' -> inv c'.
Proof.
  intros I H. pose proof I as [I1 I2 I3 I4 I5 I6 I7 I8]. destruct H as [i r c ts s Hi|i r ts s m Hi|i r ts s m Hi|i r c ts s m ans Hans Hi|i r c ts s m Hi|i r c ts s m Hi|i r c ts s Hi|i r ts s m Hi|i r ts s m Hi|i r c ts s m Hsp Hi|i r c ts s Hi|i r c ts s m Hi|i r c ts s m Hi].
  all: cbn [threads mutex network_ready mrnet_connected sends] in *.
  1, 2, 3, 6, 7, 8, 9, 10, 11, 12: apply (update_inv _ _ _ _ _ I Hi); cbn [threads mutex network_ready mrnet_connected sends]; try done; cbn; auto.
  - intros _. by apply (I4 _ _ Hi).
  - by rewrite Hsp.
  - intros Hsp. by apply (I4 _ _ Hi).
  - intros Hsp. by apply (I4 _ _ Hi).
  - (* the network is ready *)
    split; cbn [threads mutex network_ready mrnet_connected sends]; try done.
    + intros j x Hj Hx. apply list_lookup_insert_Some in Hj as [(<- & <- & _)|(_ & Hj)]; [by apply (I1 i ConnectBusy)|by apply (I1 j x)].
    + intros j Hj. destruct (decide (j = i)) as [->|Hne]; [exists ConnectNotify; split; [|done]; apply list_lookup_insert_eq; by eapply lookup_lt_Some|].
      rewrite list_lookup_insert_ne by done. by apply I2.
    + intros Hf. destruct Hans as [->|?]; [done|congruence].
    + intros j _ _. exists i. apply list_lookup_insert_eq. by eapply lookup_lt_Some.
    + intros j. rewrite I7, list_lookup_insert_Some. split; [|by intros [(_ & ? & _)|[_ ?]]]. intros Hj. right. split; [|done]. intros <-. congruence.
  - (* broadcast *)
    pose proof (I4 i _ Hi eq_refl) as Hc. split; cbn [threads mutex network_ready mrnet_connected sends]; try done.
    + intros j x Hj Hx. apply list_lookup_insert_Some in Hj as [(<- & <- & _)|(_ & Hj)]; [by apply (I1 i ConnectNotify)|].
      apply wake_Some in Hj as (y & Hj & ->). rewrite holding_wake in Hx. by apply (I1 j y).
    + intros j Hj. destruct (decide (j = i)) as [->|Hne].
      * exists ConnectUnlock. split; [|done]. apply list_lookup_insert_eq. rewrite length_fmap. by eapply lookup_lt_Some.
      * destruct (I2 j Hj) as (x & Hx & Hh). exists (wake x). rewrite list_lookup_insert_ne, holding_wake by done. split; [|done]. apply wake_Some. by exists x.
    + intros j Hj _. apply list_lookup_insert_Some in Hj as [(_ & ? & _)|(_ & Hj)]; [done|]. apply wake_Some in Hj as (y & _ & Hy). by destruct y.
    + intros j. rewrite I7, list_lookup_insert_Some, wake_Some. split.
      * intros Hj. right. split; [intros <-; congruence|]. by exists Sent.
      * intros [(_ & ? & _)|(_ & y & Hy & E)]; [done|]. by destruct y.
  - (* a message is sent *)
    assert (Hlen : (i < length ts)%nat) by (by eapply lookup_lt_Some). split; cbn [threads mutex network_ready mrnet_connected sends]; try done.
    + intros j x Hj Hx. apply list_lookup_insert_Some in Hj as [(<- & <- & _)|(_ & Hj)]; [done|by apply (I1 j x)].
    + intros j Hj. destruct (I2 j Hj) as (x & Hx & Hh). exists x. split; [|done]. rewrite list_lookup_insert_ne; [done|]. intros <-. by simplify_eq.
    + intros j x Hj Hx. apply list_lookup_insert_Some in Hj as [(_ & <- & _)|(_ & Hj)]; [by apply (I4 i _ Hi)|by apply (I4 j x)].
    + intros j Hj Hc. apply list_lookup_insert_Some in Hj as [(_ & ? & _)|(_ & Hj)]; [done|]. destruct (I5 j Hj Hc) as [k Hk]. exists k.
      rewrite list_lookup_insert_ne; [done|]. intros <-. congruence.
    + intros Hsp Hf. apply Forall_app. split; [by apply I6|]. constructor; [|done]. cbn. rewrite (I3 Hf). apply (I4 i _ Hi). cbn. by rewrite Hsp.
    + intros j. rewrite fmap_app, elem_of_app, I7, list_lookup_insert_Some. cbn. rewrite list_elem_of_singleton. split.
      * intros [Hj| ->]; [|by left]. right. split; [|done]. intros <-. congruence.
      * intros [(<- & _ & _)|(_ & Hj)]; auto.
    + rewrite fmap_app. cbn. apply NoDup_app. split; [done|]. split; [|apply NoDup_singleton]. intros j Hj Hj'. apply list_elem_of_singleton in Hj' as ->.
      apply I7 in Hj. congruence.
Qed.

(** ** Who is there stays the same, and what is left when nothing can move *)
Lemma connects_insert (ts : list pc) (i : nat) p q : ts !! i = Some p -> connects q = connects p -> connects <$> <[i := q]> ts = connects <$> ts.
Proof. intros Hi Hq. rewrite list_fmap_insert, Hq. apply list_insert_id. by rewrite list_lookup_fmap, Hi. Qed.
Lemma connects_wake (ts : list pc) : connects <$> (wake <$> ts) = connects <$> ts.
Proof. rewrite <- list_fmap_compose. apply list_fmap_ext. intros _ p _. by destruct p. Qed.
Lemma step_connects c c' : step c c' -> connects <$> threads c' = connects <$> threads c.
Proof.
  intros H. destruct H as [i r c ts s Hi|i r ts s m Hi|i r ts s m Hi|i r c ts s m ans Hans Hi|i r c ts s m Hi|i r c ts s m Hi|i r c ts s Hi|i r ts s m Hi|i r ts s m Hi|i r c ts s m _ Hi|i r c ts s Hi|i r c ts s m Hi|i r c ts s m Hi];
    cbn [threads]; try by apply (connects_insert _ _ _ _ Hi).
  rewrite (connects_insert (wake <$> ts) i ConnectNotify ConnectUnlock), connects_wake; [done| |done]. by rewrite list_lookup_fmap, Hi.
Qed.

Lemma settled c : inv c -> nf step c -> Exists (fun p => connects p = true) (threads c) ->
  Forall (fun p => p = ConnectReturned \/ p = Sent) (threads c).
Proof.
  intros [I1 I2 I3 I4 I5 I6 I7 I8] Hnf He. destruct c as [m c r ts s]. cbn [threads mutex network_ready mrnet_connected sends] in *.
  assert (Hm : m = None).
  { destruct m as [i|]; [|done]. exfalso. apply Hnf. destruct (I2 i eq_refl) as (p & Hp & Hh). destruct p; try done; destruct c; eexists;
      (by eapply connect_again) || (by eapply send_at_once) || (by eapply (connect_done i _ _ _ _ _ true); [left|]) || (by econstructor). }
  subst m. assert (Hsome : forall i p, ts !! i = Some p -> p = ConnectReturned \/ p = Sent \/ p = SendWaiting).
  { intros i p Hp. destruct p; auto; exfalso; try (pose proof (I1 i _ Hp eq_refl); congruence); apply Hnf; eexists; by econstructor. }
  apply Exists_exists in He as (p & Hp & Hc). apply list_elem_of_lookup_1 in Hp as [k Hk].
  destruct (Hsome k p Hk) as [->|[->| ->]]; try done. pose proof (I4 k _ Hk eq_refl) as Hconn.
  apply Forall_lookup. intros i q Hq. destruct (Hsome i q Hq) as [?|[?| ->]]; auto. exfalso.
  destruct (I5 i Hq Hconn) as [j Hj]. destruct (Hsome j _ Hj) as [?|[?|?]]; done.
Qed.
End system.

(** Threads that have not begun; [true] stands for one that connects. *)
Definition begins (connecting : bool) : pc := if connecting then ConnectLock else SendLock.
Definition start (roles : list bool) : conf := mkConf None false false (begins <$> roles) [].

Lemma start_inv spurious failing roles : inv spurious failing (start roles).
Proof.
  assert (H : forall i p, (begins <$> roles) !! i = Some p -> p = ConnectLock \/ p = SendLock).
  { intros i p Hp. rewrite list_lookup_fmap in Hp. apply fmap_Some in Hp as ([] & _ & ->); auto. }
  split; cbn [start threads mutex network_ready mrnet_connected sends]; try done.
  - intros i p Hp Hh. by destruct (H i p Hp) as [-> | ->].
  - intros i p Hp Hh. by destruct (H i p Hp) as [-> | ->].
  - intros i. split; [by intros ?%not_elem_of_nil|]. intros Hp. by destruct (H i _ Hp).
  - apply NoDup_nil_2.
Qed.

(** C24: any number of threads of a process that connect to the network or send, in any order and with
    every interleaving of their operations on the mutex and the condition variable: every run ends, and
    no thread sends twice; if some thread connects, when a run has ended no thread is left waiting: each thread
    that sends has sent its message, once. If waits wake up only when they are notified, no message is sent before
    the process counts as connected; if, besides, receiving from the front end does not fail, none is sent before the front
    end has said that the network is ready. Both conditions are needed (spurious_wakeup, failed_receive). *)
Theorem senders_wait_for_network (spurious failing : bool) (roles : list bool) :
  true ∈ roles ->
  sn (step spurious failing) (start roles) /\
  forall c, rtc (step spurious failing) (start roles) c ->
    NoDup (sends c).*1 /\
    (spurious = false -> sends c <> [] -> mrnet_connected c = true) /\
    (spurious = false -> failing = false -> Forall (fun e : nat * bool => e.2 = true) (sends c)) /\
    (nf (step spurious failing) c -> forall i, i ∈ (sends c).*1 <-> roles !! i = Some false).
Proof.
  intros Hr. split; [apply always_ends|]. intros c Hc. set (R := step spurious failing) in *.
  assert (H : inv spurious failing c /\ connects <$> threads c = connects <$> threads (start roles)).
  { apply (rtc_ind_r (R := R) (fun c => inv spurious failing c /\ connects <$> threads c = connects <$> threads (start roles)) (start roles)); [split; [apply start_inv|done]| |done].
    intros c1 c2 _ H [I E]. split; [by eapply ready_step_inv|]. by rewrite (step_connects _ _ _ _ H). }
  destruct H as [I E]. assert (Er : connects <$> threads c = roles).
  { rewrite E. cbn [start threads]. rewrite <- list_fmap_compose. rewrite <- (list_fmap_id roles) at 2. apply list_fmap_ext. by intros _ [] _. }
  split_and!; [apply (i_once _ _ _ I)| |apply (i_log _ _ _ I)|].
  - intros Hsp Hs. destruct (sends c) as [|[i r] s] eqn:Es; [done|]. apply (i_after _ _ _ I i Sent); [|cbn; by rewrite Hsp].
    apply (i_sent _ _ _ I). rewrite Es. by left.
  - intros Hnf i. rewrite (i_sent _ _ _ I), <- Er, list_lookup_fmap.
    assert (Hs : Forall (fun p => p = ConnectReturned \/ p = Sent) (threads c)).
    { apply (settled spurious failing); [done|done|]. rewrite <- Er in Hr. apply list_elem_of_fmap in Hr as (p & Hp & Hin). apply Exists_exists. by exists p. }
    rewrite Forall_lookup in Hs. split; [by intros ->|]. intros Hp. apply fmap_Some in Hp as (p & Hp & Hc'). by destruct (Hs i p Hp) as [-> | ->].
Qed.

(** Two threads send while a third connects. *)
Lemma senders_wait_for_network_witness : sn (step false false) (start [false; true; false]) /\
  (forall c, rtc (step false false) (start [false; true; false]) c -> Forall (fun e : nat * bool => e.2 = true) (sends c)).
Proof.
  destruct (senders_wait_for_network false false [false; true; false]) as [H1 H2]; [set_solver|]. split; [exact H1|].
  intros c Hc. destruct (H2 c Hc) as (_ & _ & H & _). exact (H eq_refl eq_refl).
Defined.

(** If the wait may end without a broadcast, a message is given to the network before there is one: the code
    tests the flag once. *)
Example spurious_wakeup : exists c, rtc (step true false) (start [false; true]) c /\ sends c = [(0%nat, false)] /\ mrnet_connected c = false.
Proof.
  eexists. split.
  - eapply rtc_l; [by apply (send_lock _ _ 0)|]. eapply rtc_l; [by apply (send_wait _ _ 0)|]. eapply rtc_l; [by apply (send_spurious _ _ 0)|].
    eapply rtc_l; [by apply (send_relock _ _ 0)|]. eapply rtc_l; [by apply (send_woken _ _ 0)|]. eapply rtc_l; [by apply (send_stream _ _ 0)|]. apply rtc_refl.
  - done.
Qed.

(** If receiving fails, the process counts as connected and sends, though the front end has not said that the network is ready. *)
Example failed_receive : exists c, rtc (step false true) (start [true; false]) c /\ sends c = [(1%nat, false)].
Proof.
  eexists. split.
  - eapply rtc_l; [by apply (connect_lock _ _ 0)|]. eapply rtc_l; [by apply (connect_first _ _ 0)|].
    eapply rtc_l; [by apply (connect_done _ _ 0 _ _ _ _ _ false); [right|]|]. eapply rtc_l; [by apply (connect_notify _ _ 0)|].
    eapply rtc_l; [by apply (connect_unlock _ _ 0)|]. eapply rtc_l; [by apply (send_lock _ _ 1)|]. eapply rtc_l; [by apply (send_at_once _ _ 1)|].
    eapply rtc_l; [by apply (send_stream _ _ 1)|]. apply rtc_refl.
  - done.
Qed.
