(* ===== verification/BFDSymbols.v ===== *)
(** Symbols from the binutils library, for builds without SymtabAPI (core/src/BFDSymbols.cpp): the functions
    and statements of the sampled addresses of a linked object. What the library reads from a file is a
    parameter, as is qsort(); that the library fails to read the symbols of a file is left out. *)
From stdpp Require Import sorting.
From S2P Require Import Prelude FlatTopology Hostlist PerfData ThreadName LinkedObjects SortedMap AddressBitmap SymbolTable.
#[local] Open Scope Z_scope.

(** ** What the library tells *)
Record asection := mkSection {
  s_address : Z; s_vma : Z; s_size : Z; s_undefined : bool; s_common : bool; s_alloc : bool }.
(** A name that is missing is empty; BSF_ flags. *)
Record asymbol := mkSymbol {
  sym_name : string; sym_value : Z; sym_section : asection; sym_debugging : bool; sym_function : bool; sym_local : bool;
  sym_global : bool; sym_file : bool; sym_export : bool; sym_weak : bool }.
(** bfd_find_nearest_line() at an offset of a section: the file, if it is known, and the line *)
Record bfd := mkBfd {
  bfd_start_address : Z; bfd_symbols : option (list asymbol); bfd_sections : list asection;
  bfd_find_nearest_line : asection -> Z -> option (option string * Z) }.

(** ** Sorting *)
Definition char_is (k : nat) (c : option Ascii.ascii) : bool := bool_decide (c = Some (Ascii.ascii_of_nat k)).
Definition contains (part s : string) : bool := bool_decide (is_Some (String.index 0 part s)).
Definition order (a b : Z) : Z := if b <? a then 1 else if a <? b then -1 else 0.
Definition after (a b : bool) : Z := if a && negb b then 1 else if negb a && b then -1 else 0.
Definition strcmp (a b : string) : Z := match String.compare a b with Lt => -1 | Eq => 0 | Gt => 1 end.

Section bfd_symbols.
(** The byte in front of a name, which is looked at for names of one character *)
Context (in_front : asymbol -> Ascii.ascii).
Definition file_symbol (s : asymbol) : bool :=
  let n := String.length (sym_name s) in
  let c := if (n <? 2)%nat then Some (in_front s) else String.get (n - 2) (sym_name s) in
  let d := String.get (n - 1) (sym_name s) in
  sym_file s || (char_is 46 c && (char_is 111 d || char_is 97 d)).

(** The first of a number of comparisons that tells *)
Fixpoint first_of (keys : list Z) : Z := match keys with [] => 0 | k :: keys' => if k =? 0 then first_of keys' else k end.
Definition compare_symbols (a b : asymbol) : Z :=
  let compiled s := contains "gnu_compiled" (sym_name s) || contains "gcc2_compiled" (sym_name s) in
  let dot s := char_is 46 (String.get 0 (sym_name s)) in
  first_of [order (sym_value a) (sym_value b); order (s_address (sym_section a)) (s_address (sym_section b));
            after (compiled a) (compiled b); after (file_symbol a) (file_symbol b);
            after (sym_debugging a) (sym_debugging b); after (sym_function b) (sym_function a);
            after (sym_local a) (sym_local b); after (sym_global b) (sym_global a);
            after (dot a) (dot b); strcmp (sym_name a) (sym_name b)].

Definition useful (s : asymbol) : bool :=
  negb (String.eqb (sym_name s) "") && negb (sym_debugging s) && negb (s_undefined (sym_section s)) && negb (s_common (sym_section s)).
Definition remove_useless_symbols (symbols : list asymbol) : list asymbol := List.filter useful symbols.

(** ** Functions *)
Record BFDFunction := mkFunction { func_name : string; func_begin : Z; func_end : Z }.
Definition func_range (f : BFDFunction) : Z * Z := (func_begin f, func_end f).
Definition function_symbol (s : asymbol) : bool := sym_function s && negb (s_undefined (sym_section s)).
Definition section_end (s : asymbol) : Z := u64 (s_size (sym_section s) + s_vma (sym_section s)).

(** The next function symbol, and what comes after it *)
Fixpoint next_function (rest : list asymbol) : option (asymbol * list asymbol) :=
  match rest with [] => None | s :: rest' => if function_symbol s then Some (s, rest') else next_function rest' end.

(** The end of a function: [stale] is what lies behind the sorted symbols in their array. *)
Definition end_of (sym : asymbol) (rest stale : list asymbol) : outcome Z :=
  match next_function rest with
  | None => Ok (section_end sym)
  | Some (nextsym, rest') =>
      end_addr ← (if (sym_value nextsym =? sym_value sym) && (sym_global sym && sym_export sym && negb (sym_weak sym)) then
                    match rest' ++ stale with
                    | [] => Fault
                    | nnsym :: _ => Ok (if function_symbol nnsym then sym_value nnsym else section_end sym)
                    end
                  else Ok (section_end sym));
      Ok (if sym_value nextsym <? end_addr then sym_value nextsym else end_addr)
  end.

(** The addresses that are left are looked for in the functions found so far, which removes them, and in the function at
    hand, which ends the search: what is left then, whether it was found, and how many were removed *)
Fixpoint scan_addresses (functionvec : list BFDFunction) (frange : Z * Z) (addrvec : list Z) : list Z * bool * Z :=
  match addrvec with
  | [] => ([], false, 0)
  | a :: addrvec' =>
      if existsb (fun f => doesContain (func_range f) a) functionvec then
        let '(remaining, hit, n) := scan_addresses functionvec frange addrvec' in (remaining, hit, n + 1)
      else if doesContain frange a then (addrvec', true, 1)
      else let '(remaining, hit, n) := scan_addresses functionvec frange addrvec' in (a :: remaining, hit, n)
  end.

Fixpoint find_functions (base : Z) (obj : Z * Z) (stale sorted : list asymbol) (addrvec : list Z) (functionvec : list BFDFunction) (foundpcs : Z)
    : outcome (list BFDFunction * Z) :=
  match sorted with
  | [] => Ok (functionvec, foundpcs)
  | sym :: rest =>
      let begin_addr := sym_value sym in
      let vma := s_vma (sym_section sym) in
      let real_begin := u64 (base + begin_addr) in
      if function_symbol sym then
        if (vma <=? begin_addr) && (section_end sym <? begin_addr) then Ok (functionvec, foundpcs)
        else if negb (doesContain obj real_begin) then find_functions base obj stale rest addrvec functionvec foundpcs
        else
          end_addr ← end_of sym rest stale;
          if (vma <=? end_addr) && (section_end sym <? end_addr) then find_functions base obj stale rest addrvec functionvec foundpcs
          else if end_addr <=? begin_addr then find_functions base obj stale rest addrvec functionvec foundpcs
          else
            frange ← Interval real_begin (u64 (base + end_addr));
            let '(remaining, hit, n) := scan_addresses functionvec frange addrvec in
            let functionvec' := if hit : bool then functionvec ++ [mkFunction (sym_name sym) frange.1 frange.2] else functionvec in
            match remaining with
            | [] => Ok (functionvec', foundpcs + n)
            | _ => find_functions base obj stale rest remaining functionvec' (foundpcs + n)
            end
      else match addrvec with [] => Ok (functionvec, foundpcs) | _ => find_functions base obj stale rest addrvec functionvec foundpcs end
  end.

Context (qsort : (asymbol -> asymbol -> Z) -> list asymbol -> list asymbol).

Definition addresses_in (r : Z * Z) (addrbuf : AddressBuffer) : list Z :=
  filter (fun a => doesContain r a = true) (foldl (fun set a => set_insert a set) [] (map_to_list addrbuf).*1).
Definition object_base (text_begin obj_load_addr : Z) : outcome Z :=
  d ← address_sub text_begin obj_load_addr; Ok (if d <? 0 then obj_load_addr else 0).

(** The functions, the number of addresses, and the base, which find_address_in_section() uses; without an array of
    symbols, memcpy() reads as many as there were last. *)
Definition getFunctionSyms (theBFD : bfd) (syms : option (list asymbol)) (numsyms : Z) (addrbuf : AddressBuffer) (obj_load_addr obj_end_addr obj_base : Z)
    : outcome (list BFDFunction * Z * Z) :=
  range_in_this_obj ← Interval obj_load_addr obj_end_addr;
  match addresses_in range_in_this_obj addrbuf with
  | [] => Ok ([], 0, obj_base)
  | addrvec =>
      array ← match syms with Some l => Ok l | None => if numsyms =? 0 then Ok [] else Fault end;
      let useful_symbols := remove_useless_symbols array in
      base ← object_base (bfd_start_address theBFD) obj_load_addr;
      r ← find_functions base range_in_this_obj (drop (length useful_symbols) array) (qsort compare_symbols useful_symbols) addrvec [] 0;
      Ok (r, base)
  end.

(** ** Statements *)
Record BFDStatement := mkBFDStatement { st_pc : Z; st_file_name : string; st_lineno : Z }.

(** bfd_map_over_sections(find_address_in_section): the first section that knows the line of the address *)
Fixpoint find_address (theBFD : bfd) (obj_base pc : Z) (sections : list asection) (statementvec : list BFDStatement) : list BFDStatement :=
  match sections with
  | [] => statementvec
  | section :: sections' =>
      let real_pc := if obj_base >? 0 then u64 (pc - obj_base) else pc in
      let vma := s_vma section in
      if negb (s_alloc section) || (real_pc <? vma) || (u64 (vma + s_size section) <=? real_pc) then find_address theBFD obj_base pc sections' statementvec
      else match bfd_find_nearest_line theBFD section (real_pc - vma) with
           | None => find_address theBFD obj_base pc sections' statementvec
           | Some (filename, line) =>
               let tfile := default ""%string filename in
               if String.eqb tfile "" then statementvec else statementvec ++ [mkBFDStatement pc tfile line]
           end
  end.

(** ** Files *)
Context (doesExist : string -> bool) (getenv : string -> option string) (open : string -> option bfd).

Definition path_append (a b : string) : string :=
  if char_is 47 (String.get (String.length a - 1) a) || char_is 47 (String.get 0 b) then a +:+ b else a +:+ "/" +:+ b.
(** The part before the first colon, and the rest *)
Fixpoint split_colon (s : string) : option (string * string) :=
  match s with
  | EmptyString => None
  | String c s' => if bool_decide (c = Ascii.ascii_of_nat 58) then Some (""%string, s') else
      match split_colon s' with Some (a, b) => Some (String c a, b) | None => None end
  end.
Fixpoint search_path (fuel : nat) (ld_library_path newpath filename : string) : string :=
  match fuel with
  | O => newpath
  | S fuel' =>
      match split_colon ld_library_path with
      | None => newpath
      | Some (dir, rest) => let newpath' := path_append dir filename in if doesExist newpath' then newpath' else search_path fuel' rest newpath' filename
      end
  end.
Definition getObjectFile (filename : string) : string :=
  if doesExist filename then filename
  else
    let libpath := (if doesExist "/lib64:/usr/lib64" then "/lib64:/usr/lib64" else "/lib:/usr/lib")%string in
    let ld_library_path := match getenv "LD_LIBRARY_PATH" with Some p => libpath +:+ ":" +:+ p | None => libpath end in
    search_path (S (String.length ld_library_path)) ld_library_path "" filename.

(** The static variables: the number of symbols read last, and the base *)
Record bfd_state := mkState { numsyms : Z; st_obj_base : Z }.

(** slurp_symtab(): for a file without symbols the number stays that of the last file. *)
Definition slurp_symtab (theBFD : bfd) (s : bfd_state) : bfd_state :=
  match bfd_symbols theBFD with Some syms => mkState (Z.of_nat (length syms)) (st_obj_base s) | None => s end.

Definition getBFDFunctionStatements (addrbuf : AddressBuffer) (lo : LinkedObjectEntry) (s : bfd_state)
    : outcome (list BFDFunction * list BFDStatement * bfd_state) :=
  lorange ← Interval (e_addr_begin lo) (e_addr_end lo);
  let objfilename := getObjectFile (e_path lo) in
  match (if doesExist objfilename then open objfilename else None) with
  | None => Ok ([], [], s)
  | Some theBFD =>
      let s1 := slurp_symtab theBFD s in
      let addrvec := addresses_in lorange addrbuf in
      f ← getFunctionSyms theBFD (bfd_symbols theBFD) (numsyms s1) addrbuf lorange.1 lorange.2 (st_obj_base s1);
      let functionvec := f.1.1 in
      let begins := foldl (fun set x => set_insert (func_begin x) set) []
                      (concat ((fun a => List.filter (fun x => doesContain (func_range x) a) functionvec) <$> addrvec)) in
      let find := fun st pc => find_address theBFD f.2 pc (bfd_sections theBFD) st in
      Ok (functionvec, foldl find (foldl find [] addrvec) begins, mkState (numsyms s1) f.2)
  end.

Fixpoint add_all_functions (fs : list BFDFunction) (st : SymbolTable) : outcome SymbolTable :=
  match fs with [] => Ok st | f :: fs' => st' ← addFunction st (func_begin f) (func_end f) (func_name f); add_all_functions fs' st' end.
Fixpoint add_all_statements (ss : list BFDStatement) (st : SymbolTable) : outcome SymbolTable :=
  match ss with
  | [] => Ok st
  | x :: ss' => _ ← Interval (st_pc x) (u64 (st_pc x + 1)); st' ← addStatement st (st_pc x) (u64 (st_pc x + 1)) (st_file_name x) (st_lineno x) 0; add_all_statements ss' st'
  end.
Definition getSymbols (addrbuf : AddressBuffer) (lo : LinkedObjectEntry) (stmap : SymbolTable) (s : bfd_state) : outcome (SymbolTable * bfd_state) :=
  r ← getBFDFunctionStatements addrbuf lo s;
  st1 ← add_all_functions r.1.1 stmap;
  st2 ← add_all_statements r.1.2 st1;
  Ok (st2, r.2).
End bfd_symbols.
