(* ===== verification/BFDFunctions.v ===== *)
(** Which functions core/src/BFDSymbols.cpp finds: those with a sampled address, where a function goes from its
    symbol to the next function symbol or the end of its section. *)
From stdpp Require Import sorting.
From S2P Require Import Prelude FlatTopology Hostlist PerfData ThreadName LinkedObjects SortedMap AddressBitmap SymbolTable BFDSymbols.
#[local] Open Scope Z_scope.

(** ** Reference: the spans of function symbols in the order of their addresses *)
Definition span_end (s : asymbol) (next : list asymbol) : Z :=
  match next with [] => section_end s | t :: _ => Z.min (sym_value t) (section_end s) end.
Fixpoint spans (symbols : list asymbol) : list (asymbol * Z) :=
  match symbols with [] => [] | s :: rest => (s, span_end s rest) :: spans rest end.
Definition sampled_span (base : Z) (obj : Z * Z) (addrs : list Z) (x : asymbol * Z) : bool :=
  (sym_value x.1 <? x.2) && doesContain obj (base + sym_value x.1) && existsb (doesContain (base + sym_value x.1, base + x.2)) addrs.
Definition span_function (base : Z) (x : asymbol * Z) : BFDFunction := mkFunction (sym_name x.1) (base + sym_value x.1) (base + x.2).
Definition sampled_functions (base : Z) (obj : Z * Z) (addrs : list Z) (symbols : list asymbol) : list BFDFunction :=
  span_function base <$> List.filter (sampled_span base obj addrs) (spans symbols).

(** Symbols lie in their sections, which end below 2^64 where they are loaded. *)
Definition in_section (base : Z) (s : asymbol) : Prop :=
  0 <= s_vma (sym_section s) <= sym_value s /\ sym_value s <= s_vma (sym_section s) + s_size (sym_section s) /\
  base + s_vma (sym_section s) + s_size (sym_section s) < 2 ^ 64.

Section found.
Context (base : Z) (obj : Z * Z) (Hbase : 0 <= base) (stale : list asymbol) (Hstale : stale <> []).
Notation functions := (List.filter function_symbol).

Lemma section_end_eq s : in_section base s -> section_end s = s_vma (sym_section s) + s_size (sym_section s).
Proof. intros (H1 & H2 & H3). unfold section_end. rewrite u64_small; lia. Qed.

Lemma next_function_filter rest : functions rest = match next_function rest with None => [] | Some (t, rest') => t :: functions rest' end.
Proof. induction rest as [|s rest IH]; [done|]. cbn. by destruct (function_symbol s). Qed.
Lemma next_function_in rest t rest' : next_function rest = Some (t, rest') -> t ∈ rest.
Proof.
  induction rest as [|s rest IH]; [done|]. cbn. destruct (function_symbol s); [intros H; injection H as <- <-; by left|]. intros H. right. by apply IH.
Qed.

Lemma end_of_ok sym rest : in_section base sym -> (forall t, t ∈ rest -> sym_value sym <= sym_value t) ->
  exists e, end_of sym rest stale = Ok e /\ e <= section_end sym /\
    (e = span_end sym (functions rest) \/ (e <= sym_value sym /\ span_end sym (functions rest) <= sym_value sym)).
Proof.
  intros Hs Hsorted. pose proof (section_end_eq sym Hs) as He. unfold end_of. rewrite next_function_filter.
  destruct (next_function rest) as [[t rest']|] eqn:Hn; [|exists (section_end sym); cbn [span_end]; split_and!; [done|lia|by left]].
  pose proof (Hsorted t (next_function_in _ _ _ Hn)) as Ht. cbn [span_end]. destruct Hs as (H1 & H2 & H3).
  destruct (_ && _) eqn:E.
  - apply andb_true_iff in E as [E _]. bools. destruct (rest' ++ stale) as [|nn l] eqn:El; [by apply app_eq_nil in El as [_ ?]|].
    rewrite bind_of_Ok. eexists. split; [reflexivity|]. set (x := if function_symbol nn then _ else _). clearbody x.
    destruct (_ <? x) eqn:Ex; bools; lia.
  - rewrite bind_of_Ok. eexists. split; [reflexivity|]. destruct (_ <? _) eqn:Ex; bools; lia.
Qed.

Definition inside (fs : list BFDFunction) (a : Z) : Prop := exists f, f ∈ fs /\ doesContain (func_range f) a = true.
Lemma existsb_inside fs a : existsb (fun f => doesContain (func_range f) a) fs = true <-> inside fs a.
Proof. rewrite existsb_exists. unfold inside. by setoid_rewrite list_elem_of_In. Qed.

Lemma scan_spec fs frange addrs remaining hit n : scan_addresses fs frange addrs = (remaining, hit, n) ->
  (forall a, a ∈ addrs -> doesContain frange a = true -> ~ inside fs a) ->
  hit = existsb (doesContain frange) addrs /\ (forall a, a ∈ remaining -> a ∈ addrs) /\
  (forall a, a ∈ addrs -> a ∈ remaining \/ inside fs a \/ (hit = true /\ doesContain frange a = true)).
Proof.
  revert remaining hit n. induction addrs as [|a addrs IH]; intros remaining hit n H Hd; cbn [scan_addresses existsb] in *.
  { injection H as <- <- <-. split_and!; [done|done|]. intros a Ha. by apply not_elem_of_nil in Ha. }
  assert (Hd' : forall b, b ∈ addrs -> doesContain frange b = true -> ~ inside fs b) by (intros b Hb; apply Hd; by right).
  destruct (existsb _ fs) eqn:Ein.
  - apply existsb_inside in Ein. destruct (scan_addresses fs frange addrs) as [[r h] k] eqn:Es. injection H as <- <- <-.
    destruct (IH r h k eq_refl Hd') as (-> & H2 & H3). destruct (doesContain frange a) eqn:Ea; [by destruct (Hd a ltac:(left) Ea)|]. cbn [orb].
    split_and!; [done|intros b Hb; right; by apply H2|]. intros b Hb. apply elem_of_cons in Hb as [->|Hb]; [by right; left|by apply H3].
  - destruct (doesContain frange a) eqn:Ea.
    + injection H as <- <- <-. cbn [orb]. split_and!; [done|intros b Hb; by right|]. intros b Hb. apply elem_of_cons in Hb as [->|Hb]; [by right; right|by left].
    + destruct (scan_addresses fs frange addrs) as [[r h] k] eqn:Es. injection H as <- <- <-. destruct (IH r h k eq_refl Hd') as (-> & H2 & H3). cbn [orb].
      split_and!; [done| |]; intros b Hb; apply elem_of_cons in Hb as [->|Hb]; [by left|right; by apply H2|left; by left|].
      destruct (H3 b Hb) as [?|[?|?]]; [left; by right|by right; left|by right; right].
Qed.

(** Once no address is left, no later function has one. *)
Lemma no_more addrs fs symbols : (forall a, a ∈ addrs -> inside fs a) ->
  (forall f s, f ∈ fs -> s ∈ symbols -> func_end f <= base + sym_value s) -> sampled_functions base obj addrs symbols = [].
Proof.
  intros Ha Hf. unfold sampled_functions. assert (H : forall x, x ∈ spans symbols -> sampled_span base obj addrs x = false).
  { intros x Hx. assert (Hs : x.1 ∈ symbols).
    { clear -Hx. induction symbols as [|s symbols IH]; cbn in Hx; [by apply not_elem_of_nil in Hx|]. apply elem_of_cons in Hx as [->|Hx]; [by left|right; by apply IH]. }
    unfold sampled_span. apply andb_false_iff. right. apply not_true_iff_false. rewrite existsb_exists. intros (a & Hin & Hc).
    apply list_elem_of_In in Hin. destruct (Ha a Hin) as (f & Hfin & Hfc). apply doesContain_true in Hc, Hfc. cbn in *. pose proof (Hf f x.1 Hfin Hs). lia. }
  clear Hf Ha. induction (spans symbols) as [|x l IH]; [done|]. cbn [List.filter]. rewrite (H x) by left. apply IH. intros y Hy. apply H. by right.
Qed.

Lemma span_end_le s next t : t ∈ next -> StronglySorted (fun a b => sym_value a <= sym_value b) next -> span_end s next <= sym_value t.
Proof.
  intros Ht Hs. destruct next as [|x next]; [by apply not_elem_of_nil in Ht|]. cbn. apply elem_of_cons in Ht as [->|Ht]; [lia|].
  apply StronglySorted_inv in Hs as [_ Hf]. rewrite Forall_forall in Hf. specialize (Hf t Ht). lia.
Qed.

(** What holds between two symbols: the addresses left are sampled ones, all others have their function, and the
    functions found end before the symbols left begin. *)
Definition found_so_far (all addrs : list Z) (fs : list BFDFunction) (symbols : list asymbol) : Prop :=
  (forall a, a ∈ addrs -> a ∈ all) /\ (forall a, a ∈ all -> a ∈ addrs \/ inside fs a) /\
  (forall f s, f ∈ fs -> s ∈ symbols -> func_end f <= base + sym_value s).

Lemma found_none all fs symbols : found_so_far all [] fs symbols -> sampled_functions base obj all symbols = [].
Proof. intros (_ & H2 & H3). apply (no_more all fs); [|done]. intros a Ha. destruct (H2 a Ha) as [H|H]; [by apply not_elem_of_nil in H|done]. Qed.

Lemma existsb_left all addrs fs s symbols e : found_so_far all addrs fs (s :: symbols) ->
  existsb (doesContain (base + sym_value s, e)) addrs = existsb (doesContain (base + sym_value s, e)) all.
Proof.
  intros (H1 & H2 & H3). apply eq_true_iff_eq. rewrite !existsb_exists. setoid_rewrite <- list_elem_of_In. split; intros (a & Ha & Hc).
  - eauto.
  - exists a. split; [|done]. destruct (H2 a Ha) as [?|(f & Hf & Hfa)]; [done|]. apply doesContain_true in Hc, Hfa. cbn in *.
    specialize (H3 f s Hf ltac:(left)). lia.
Qed.

Lemma found_step all addrs fs s symbols remaining hit n e : found_so_far all addrs fs (s :: symbols) ->
  (forall t, t ∈ symbols -> e <= sym_value t) ->
  scan_addresses fs (base + sym_value s, base + e) addrs = (remaining, hit, n) ->
  hit = existsb (doesContain (base + sym_value s, base + e)) all /\
  found_so_far all remaining (if hit then fs ++ [span_function base (s, e)] else fs) symbols.
Proof.
  intros Hf He Hscan. pose proof (existsb_left _ _ _ _ _ (base + e) Hf) as Hall. destruct Hf as (H1 & H2 & H3).
  destruct (scan_spec _ _ _ _ _ _ Hscan) as (Hhit & Hr & Ha).
  { intros a Ha Hc (f & Hin & Hfa). apply doesContain_true in Hc, Hfa. cbn in *. specialize (H3 f s Hin ltac:(left)). lia. }
  split; [congruence|]. split_and!.
  - eauto.
  - assert (Hin : forall a, inside fs a -> inside (if hit then fs ++ [span_function base (s, e)] else fs) a).
    { intros a (f & Hf & Hc). exists f. split; [|done]. destruct hit; [apply elem_of_app; by left|done]. }
    intros a Haa. destruct (H2 a Haa) as [Hx|Hx]; [|by eauto]. destruct (Ha a Hx) as [?|[?|[-> Hc]]]; [by left|by eauto|]. right.
    exists (span_function base (s, e)). split; [apply elem_of_app; right; by apply list_elem_of_singleton|done].
  - intros f t Hft Ht. assert (Hold : f ∈ fs -> func_end f <= base + sym_value t) by (intros; apply H3; [done|by right]).
    destruct hit; [|by apply Hold]. apply elem_of_app in Hft as [?|Hft]; [by apply Hold|]. apply list_elem_of_singleton in Hft as ->.
    cbn. specialize (He t Ht). lia.
Qed.

Lemma found_skip all addrs fs s symbols : found_so_far all addrs fs (s :: symbols) -> found_so_far all addrs fs symbols.
Proof. intros (H1 & H2 & H3). split_and!; [done|done|]. intros f t Hf Ht. apply H3; [done|by right]. Qed.

Lemma find_functions_spec all sorted : forall addrs fs n,
  StronglySorted (fun a b => sym_value a <= sym_value b) sorted -> Forall (in_section base) (functions sorted) ->
  found_so_far all addrs fs (functions sorted) ->
  exists n', find_functions base obj stale sorted addrs fs n = Ok (fs ++ sampled_functions base obj all (functions sorted), n').
Proof.
  induction sorted as [|s sorted IH]; intros addrs fs n Hs Hin Hf.
  { exists n. cbn. by rewrite app_nil_r. }
  apply StronglySorted_inv in Hs as [Hs Hle]. cbn [find_functions List.filter] in *.
  destruct (function_symbol s).
  2:{ destruct addrs; [|by apply IH]. exists n. by rewrite (found_none _ _ _ Hf), app_nil_r. }
  rewrite Forall_forall in Hle. apply Forall_cons in Hin as [Hin Hins]. pose proof (found_skip _ _ _ _ _ Hf) as Hfs.
  pose proof (section_end_eq s Hin) as Hend. pose proof Hin as (Hv1 & Hv2 & Hv3).
  assert (Hsf : StronglySorted (fun a b => sym_value a <= sym_value b) (functions sorted)).
  { clear -Hs. induction Hs as [|x l Hl IH Hx]; [constructor|]. cbn. destruct (function_symbol x); [|done]. constructor; [done|].
    rewrite Forall_forall in Hx |- *. intros y Hy. apply Hx. apply list_elem_of_In in Hy. apply filter_In in Hy as [Hy _]. by apply list_elem_of_In. }
  rewrite (u64_small (base + sym_value s)) by lia.
  assert (E1 : (s_vma (sym_section s) <=? sym_value s) && (section_end s <? sym_value s) = false) by (apply andb_false_iff; right; lia).
  rewrite E1. unfold sampled_functions. cbn [spans List.filter]. set (e0 := span_end s (functions sorted)).
  assert (Hskip : forall b, b = false -> exists n', find_functions base obj stale sorted addrs fs n =
    Ok (fs ++ (span_function base <$> (if b : bool then (s, e0) :: List.filter (sampled_span base obj all) (spans (functions sorted)) else List.filter (sampled_span base obj all) (spans (functions sorted)))), n')).
  { intros b ->. by apply IH. }
  destruct (doesContain obj (base + sym_value s)) eqn:Eobj; cbn [negb].
  2:{ apply Hskip. unfold sampled_span. cbn [fst snd]. rewrite Eobj. by rewrite andb_false_r. }
  destruct (end_of_ok s sorted Hin Hle) as (e & He & Hee & Hspan). rewrite He, bind_of_Ok.
  assert (E2 : (s_vma (sym_section s) <=? e) && (section_end s <? e) = false) by (apply andb_false_iff; right; lia). rewrite E2.
  destruct (e <=? sym_value s) eqn:Ee.
  { apply Hskip. unfold sampled_span. cbn [fst snd]. fold e0 in Hspan. assert ((sym_value s <? e0) = false) as -> by lia. done. }
  bools. destruct Hspan as [->|[? _]]; [|lia]. fold e0 in Ee, Hee |- *. rewrite (u64_small (base + e0)) by lia.
  assert (EI : Interval (base + sym_value s) (base + e0) = Ok (base + sym_value s, base + e0)).
  { unfold Interval. by rewrite (proj2 (Z.ltb_lt _ _)) by lia. }
  rewrite EI, bind_of_Ok. cbn [fst snd].
  destruct (scan_addresses fs (base + sym_value s, base + e0) addrs) as [[remaining hit] k] eqn:Escan.
  destruct (found_step _ _ _ _ _ _ _ _ _ Hf (fun t Ht => span_end_le s _ t Ht Hsf) Escan) as [Hhit Hnew]. fold e0 in Hhit, Hnew.
  assert (Hb : sampled_span base obj all (s, e0) = hit).
  { unfold sampled_span. cbn [fst snd]. rewrite Eobj, <- Hhit. by rewrite (proj2 (Z.ltb_lt _ _)) by lia. }
  rewrite Hb. change (mkFunction (sym_name s) (base + sym_value s) (base + e0)) with (span_function base (s, e0)).
  assert (Happ : forall l, (if hit then fs ++ [span_function base (s, e0)] else fs) ++ (span_function base <$> l) =
    fs ++ (span_function base <$> (if hit then (s, e0) :: l else l))).
  { intros l. destruct hit; [by rewrite fmap_cons, <- app_assoc|done]. }
  rewrite <- Happ. destruct remaining as [|a remaining]; [|by apply IH].
  exists (n + k). fold (sampled_functions base obj all (functions sorted)). by rewrite (found_none _ _ _ Hnew), app_nil_r.
Qed.
End found.

Lemma compare_value in_front a b : compare_symbols in_front a b <= 0 -> sym_value a <= sym_value b.
Proof. unfold compare_symbols, order. cbn [first_of]. destruct (sym_value b <? sym_value a) eqn:E; [cbn; lia|bools; lia]. Qed.

Lemma StronglySorted_impl {A} (R S : A -> A -> Prop) l : (forall a b, R a b -> S a b) -> StronglySorted R l -> StronglySorted S l.
Proof. intros H. induction 1 as [|a l Hl IH Ha]; constructor; [done|]. eapply Forall_impl; [exact Ha|]. auto. Qed.

(** ** The functions found do not overlap *)
Lemma spans_sorted base l : StronglySorted (fun a b => sym_value a <= sym_value b) l ->
  StronglySorted (fun f g => func_end f <= func_begin g) (span_function base <$> spans l).
Proof.
  induction l as [|s l IH]; intros Hs; [constructor|]. apply StronglySorted_inv in Hs as [Hs Hf]. cbn. constructor; [by apply IH|].
  apply Forall_forall. intros f Hin. apply list_elem_of_fmap in Hin as ([t e] & -> & Ht). cbn.
  enough (span_end s l <= sym_value t) by lia. apply span_end_le; [|done].
  clear -Ht. induction l as [|x l IH]; cbn in Ht; [by apply not_elem_of_nil in Ht|]. apply elem_of_cons in Ht as [[= -> _]|Ht]; [apply elem_of_cons; by left|].
  apply elem_of_cons. right. by apply IH.
Qed.

Lemma StronglySorted_filter_fmap {A B} (R : B -> B -> Prop) (f : A -> B) (p : A -> bool) l :
  StronglySorted R (f <$> l) -> StronglySorted R (f <$> List.filter p l).
Proof.
  induction l as [|a l IH]; [done|]. rewrite fmap_cons. intros H. apply StronglySorted_inv in H as [H Ha]. cbn [List.filter].
  destruct (p a); [|by apply IH]. rewrite fmap_cons. constructor; [by apply IH|].
  rewrite Forall_forall in Ha |- *. intros b Hb. apply Ha. apply list_elem_of_fmap in Hb as (c & -> & Hc). apply list_elem_of_fmap.
  exists c. split; [done|]. apply list_elem_of_In in Hc. apply filter_In in Hc as [Hc _]. by apply list_elem_of_In.
Qed.

(** C28: getFunctionSyms() finds exactly the functions with a sampled address: for the function symbols in the order
    of their addresses, a function goes from its symbol to the next function symbol or, if that is farther, to the
    end of its section; it is found when it is not empty, begins in the object and has one of the object's sampled
    addresses. The functions found do not overlap. This takes symbols that lie in their sections, at least one
    useless symbol, whose place the code reads behind the sorted ones, and qsort() to sort. *)
Theorem bfd_functions_found in_front qsort theBFD syms numsyms addrbuf lo hi obj_base base :
  let cmp := compare_symbols in_front in
  let symbols := remove_useless_symbols syms in
  0 <= lo < hi -> object_base (bfd_start_address theBFD) lo = Ok base ->
  qsort cmp symbols ≡ₚ symbols -> StronglySorted (fun a b => cmp a b <= 0) (qsort cmp symbols) ->
  (length symbols < length syms)%nat ->
  Forall (in_section base) (List.filter function_symbol symbols) ->
  exists found n b, getFunctionSyms in_front qsort theBFD (Some syms) numsyms addrbuf lo hi obj_base = Ok (found, n, b) /\
    found = sampled_functions base (lo, hi) (addresses_in (lo, hi) addrbuf) (List.filter function_symbol (qsort cmp symbols)) /\
    StronglySorted (fun f g => func_end f <= func_begin g) found.
Proof.
  intros cmp symbols Hlo Hbase Hperm Hsort Hstale Hin.
  assert (Hs : StronglySorted (fun a b => sym_value a <= sym_value b) (qsort cmp symbols)) by (eapply StronglySorted_impl; [|exact Hsort]; apply compare_value).
  assert (Hsf : StronglySorted (fun f g => func_end f <= func_begin g)
    (sampled_functions base (lo, hi) (addresses_in (lo, hi) addrbuf) (List.filter function_symbol (qsort cmp symbols)))).
  { apply StronglySorted_filter_fmap, spans_sorted. rewrite <- (list_fmap_id (List.filter _ _)). apply StronglySorted_filter_fmap. by rewrite list_fmap_id. }
  assert (H0 : 0 <= base).
  { unfold object_base in Hbase. destruct (address_sub _ _) as [d| | |]; try done. cbn in Hbase. injection Hbase as <-. destruct (_ <? _); lia. }
  set (addrs := addresses_in (lo, hi) addrbuf) in *.
  assert (Hfind : exists n, find_functions base (lo, hi) (drop (length symbols) syms) (qsort cmp symbols) addrs [] 0 =
    Ok (sampled_functions base (lo, hi) addrs (List.filter function_symbol (qsort cmp symbols)), n)).
  { apply (find_functions_spec base (lo, hi) H0 (drop (length symbols) syms)) with (fs := []); [|done| |].
    - intros E. apply (f_equal length) in E. rewrite length_drop in E. cbn in E. lia.
    - rewrite Forall_forall in Hin |- *. intros s Hs'. apply Hin. apply list_elem_of_In. apply list_elem_of_In in Hs'.
      apply filter_In in Hs' as [Hs1 Hs2]. apply filter_In. split; [|done]. apply list_elem_of_In. rewrite <- Hperm. by apply list_elem_of_In.
    - split_and!; [done|by left|]. intros f s Hf. by apply not_elem_of_nil in Hf. }
  destruct Hfind as [n Hfind]. unfold getFunctionSyms, Interval. rewrite (proj2 (Z.ltb_lt lo hi)) by lia. cbn [Assert]. rewrite !bind_of_Ok. fold addrs.
  exists (sampled_functions base (lo, hi) addrs (List.filter function_symbol (qsort cmp symbols))).
  destruct addrs as [|a addrs'] eqn:E.
  - exists 0, obj_base. split_and!; [|done|done]. do 3 f_equal. symmetry. apply (no_more base _ [] []); [intros x Hx|intros f x Hf]; by apply not_elem_of_nil in Hx || apply not_elem_of_nil in Hf.
  - exists n, base. rewrite bind_of_Ok, Hbase, bind_of_Ok. fold symbols cmp. rewrite Hfind, bind_of_Ok. done.
Qed.

(** Two functions and a file name in one section, with a sample in each function and one past the section *)
Definition text_section : asection := mkSection 1 4096 256 false false true.
Definition example_symbol (name : string) (value : Z) (function debugging : bool) : asymbol :=
  mkSymbol name value text_section debugging function false true debugging true false.
Definition example_symbols : list asymbol :=
  [example_symbol "solve" 4160 true false; example_symbol "main.c" 0 false true; example_symbol "main" 4096 true false].
Definition merge_qsort (cmp : asymbol -> asymbol -> Z) (l : list asymbol) : list asymbol := @merge_sort _ (fun a b => cmp a b <= 0) (fun a b => decide (cmp a b <= 0)) l.
Definition example_addrbuf : AddressBuffer := <[4100 := 2]> (<[4200 := 1]> (<[5000 := 7]> ∅)).

Example example_functions : getFunctionSyms (fun _ => Ascii.zero) merge_qsort (mkBfd 4096 None [text_section] (fun _ _ => None)) (Some example_symbols) 3 example_addrbuf 4000 8000 0 =
  Ok ([mkFunction "main" 4096 4160; mkFunction "solve" 4160 4352], 2, 0).
Proof. vm_compute. reflexivity. Qed.

(** A weak symbol that sorts behind a global one of the same address is the one that names the function. *)
Definition weak_symbol : asymbol := mkSymbol "weak_solve" 4160 text_section false true true false false false true.
Example last_of_one_address :
  (r ← (getFunctionSyms (fun _ => Ascii.zero) merge_qsort (mkBfd 4096 None [text_section] (fun _ _ => None)) (Some (weak_symbol :: example_symbols)) 4 example_addrbuf 4000 8000 0 : outcome _);
   Ok (List.map func_name r.1.1)) = Ok ["main"; "weak_solve"]%string.
Proof. vm_compute. reflexivity. Qed.

(** The last directory of the search path is not tried, all others are. *)
Example last_directory_not_tried :
  let exists_in dir := fun p => String.eqb p (dir +:+ "/libm.so") in
  let path v := fun n => if String.eqb n "LD_LIBRARY_PATH" then Some v else None in
  getObjectFile (exists_in "/opt"%string) (path "/opt:/usr/local"%string) "libm.so" = "/opt/libm.so"%string /\
  getObjectFile (exists_in "/opt"%string) (path "/usr/local:/opt"%string) "libm.so" = "/usr/local/libm.so"%string.
Proof. vm_compute. done. Qed.

Lemma bfd_functions_found_witness : let cmp := compare_symbols (fun _ => Ascii.zero) in
  exists found n b, getFunctionSyms (fun _ => Ascii.zero) merge_qsort (mkBfd 4096 None [text_section] (fun _ _ => None)) (Some example_symbols) 3 example_addrbuf 4000 8000 0 = Ok (found, n, b) /\
    found = sampled_functions 0 (4000, 8000) (addresses_in (4000, 8000) example_addrbuf) (List.filter function_symbol (merge_qsort cmp (remove_useless_symbols example_symbols))) /\
    StronglySorted (fun f g => func_end f <= func_begin g) found.
Proof.
  apply (bfd_functions_found (fun _ => Ascii.zero) merge_qsort (mkBfd 4096 None [text_section] (fun _ _ => None)) example_symbols 3 example_addrbuf 4000 8000 0 0).
  - lia.
  - vm_compute. reflexivity.
  - apply merge_sort_Permutation.
  - assert (E : merge_qsort (compare_symbols (fun _ => Ascii.zero)) (remove_useless_symbols example_symbols) =
      [example_symbol "main" 4096 true false; example_symbol "solve" 4160 true false]) by (vm_compute; reflexivity).
    rewrite E. constructor; [constructor; [constructor|constructor]|constructor; [vm_compute; discriminate|constructor]].
  - vm_compute. lia.
  - constructor; [|constructor; [|constructor]]; unfold in_section; cbn; lia.
Defined.
